(* ===== verification/_CoqProject ===== *)
-Q . S2P
Prelude.v
Addr.v
Field.v
BabyBear.v
Rv32im.v
IsaSpec.v
IsaRefine.v
R0ctx.v
Sha2.v
R0vm.v
Sha2Refine.v
RefCtx.v
Planner.v
PlannerSpec.v
Serde.v
SerdeSpec.v
Merkle.v
MerkleSpec.v
Poseidon2.v
Poseidon2Spec.v
ExtField.v
Ntt.v
NttSpec.v
PolySpec.v
Circuit.v
CircuitSpec.v
Stark.v
StarkTotal.v
StarkSpec.v
Tables.v
Rv32imTables.v
RecursionTables.v
FriSpec.v
MemImage.v
MemImageSpec.v
Pager.v
PagerSpec.v
P2Ecall.v
P2EcallSpec.v
BigInt.v
BigIntSpec.v
BlockTracker.v
Claim.v
ClaimSpec.v
Receipt.v
ReceiptSpec.v
GroupSpec.v
SegmentSpec.v
WorkConsts.v
Work.v
TreeSpec.v
WorkSpec.v
Keeps.v
PagerKeeps.v
Executor.v
ExecutorSpec.v
ExecutorIsa.v
