(* ===== verification/Prelude.v ===== *)
(** * The RISC Zero core: execution, memory, hashing, proofs and receipts, encoding, planning

    This library models the parts of the repository that carry the logic of its zkVM and
    proves them correct.  Paths below are under [src/risc0/risc0/] unless they start with
    [src/].

    ** How the program fits together

    The host runs a RISC-V guest: [circuit/rv32im/src/execute].  [Emulator::step]
    (rv32im.rs) decodes and executes one instruction on a context; [Risc0Machine]
    (r0vm.rs) is that context, adding the two privilege modes, traps and the host ecalls
    (terminate, read, write, SHA-2, Poseidon2, big integers) on top of [Risc0Context],
    the interface that the executor implements with a paged memory (pager.rs) over a
    memory image (binfmt/src/image.rs) whose pages are the leaves of a Merkle tree of
    Poseidon2 digests.  A run is cut into segments; each is proved with its partial
    image.  The prover commits to its trace with Merkle trees over the Baby Bear field
    and a Fiat-Shamir transcript (zkp/src, core/src/field).  The verifier (zkp/src/verify)
    reads a seal: the trees, the value of the constraint polynomial at a random point, and
    FRI on the quotients.  Receipts (zkvm/src/receipt.rs, receipt/, claim/) put seals and
    the claims they prove together: segments in a chain, with the assumptions they were
    run under.  The nonces of verifiable work that claims carry are counted once in a tree
    of logs (povw).  Guests and hosts exchange
    data in the word encoding of zkvm/src/serde, and the Bento service plans the tree of
    proving tasks of a run (src/boundless/bento/crates/taskdb/src/planner).

    ** Conventions

    A machine word is a [Z] with the wrap-around written out (this file); the newtypes
    over words are transparent.  Plain operators wrap, as in the release profile, which
    also drops [debug_assert].  A call returns an [outcome]: a value, an error or a panic
    (failed [assert!], [unwrap] of [None], index out of range); [state S E A] threads the
    mutated state through errors.  Logging is left out.  Code that is generated or third
    party is a class of operations with its documented behaviour as the laws of a second
    class; every theorem under such laws has a witness with a concrete instance.  Each
    definition that models code is preceded by the lines it translates.

    ** Files

    - [Addr] (platform.rs, binfmt/src/addr.rs): constants, [ByteAddr], [WordAddr].
    - [Field], [BabyBear] (core/src/field): the field in Montgomery form, its quartic
      extension, [pow], [map_pow] and the roots of unity.  Operations are the residues,
      inverses are inverses, conversions round-trip.
    - [Rv32im] (rv32im.rs): decoder and emulator over [EmuContext].  [IsaSpec] is the
      abstract RV32IM machine, with the encoding that decoding inverts; [IsaRefine] proves
      that the emulator refines it and that fetch faults trap.
    - [R0ctx] (r0vm.rs, the trait): [Risc0Context] with its default methods on registers,
      bytes and regions, and [CtxLaws], what an implementation promises: a byte memory.
      [R0vm] (r0vm.rs): [Machine], modes, traps, ecall dispatch, the read ecall; user
      programs refine the ISA through the machine.  [RefCtx] is a concrete context and
      holds the witnesses of these files.
    - [Sha2], [Sha2Refine] (sha2.rs): the SHA-2 accelerator stores the digest that the
      FIPS 180-4 compression gives.
    - [P2Ecall], [P2EcallSpec] (poseidon2.rs): the Poseidon2 accelerator computes the
      sponge over the guest's blocks, in all of its modes.
    - [BigInt], [BigIntSpec] (bigint.rs, bibc.rs): the bytecode of big-integer programs,
      its evaluator and the ecall.  Decoding inverts the layout; evaluation gives each
      operation the value of its equation; the ecall leaves the stored values in memory.
    - [MemImage], [MemImageSpec] (binfmt/src/image.rs): pages, dirty nodes and lazily
      computed digests; the image is a memory and its identifier the Merkle root.
    - [Pager], [PagerSpec] (pager.rs): page states, page table, cache, cycle accounting,
      commit, partial images.  The paged memory is a byte memory; commit writes exactly
      the dirty pages; a partial image has the identifier of the full one; the paging
      cycles are what the touched nodes cost.
    - [BlockTracker] (block_tracker.rs): the points that a segment's blocks take.
    - [Claim], [ClaimSpec] (circuit/rv32im/src/lib.rs, binfmt/src/povw.rs, exit_code.rs,
      sys_state.rs): the claim of a seal, nonces, exit codes, system states; the decoder
      reads the layout and the codecs round-trip.
    - [Keeps], [PagerKeeps]: a logic of partial correctness for the state monad; what
      every operation of a context keeps, the machine keeps, and the paged memory keeps
      its invariant whatever guest code asks of it.
    - [Executor] (executor.rs, segment.rs, syscall.rs, trace.rs): limits, segment updates,
      the executor as a context with its ecalls and host calls, the segment loop, the
      claim, replay.  [ExecutorSpec]: the segments of a session are a chain from the
      image of its first state to that of its last.  [ExecutorIsa]: over its paged memory
      the executor meets [CtxLaws], and its loop runs user programs as the ISA does.
    - [Poseidon2], [Poseidon2Spec] (zkp/src/core/hash/poseidon2): the permutation agrees
      with its matrices, is a bijection, and hashing is the padded sponge.
    - [Merkle], [MerkleSpec] (zkp/src/merkle.rs, prove/, verify/): prover and verifier of
      Merkle openings, transcripts, over hash functions whose hash of a pair may panic
      ([None]); completeness, totality of the verifier for hash functions that keep the
      contract of their trait ([hashes_valid]: what [is_digest_valid] accepts has a hash,
      a valid one), and binding, where a proof of another column shows which hashes collide.
    - [ExtField]: the extension field as a type for the [ring] tactic, used by the next
      files.  [Ntt] (zkp/src/core/ntt.rs, poly.rs): the transform and polynomials.
      [NttSpec]: it evaluates at the powers of a root of unity, and its inverse inverts it.
      [PolySpec]: values, division and interpolation are those of polynomials.
    - [Circuit] (zkp/src/taps.rs, adapter.rs): taps and their iterators, and constraint
      programs.  [CircuitSpec]: a program means its equations, and a [mix] under which a
      broken constraint vanishes is one of few roots.
    - [Stark] (zkp/src/verify/fri.rs, verify/mod.rs): [Fri] and [Verifier].  [StarkTotal],
      [StarkSpec]: every seal of 32-bit words is answered, without a panic, for hash
      functions that keep their contract and every circuit that passes a check that runs.
      [Tables], [Rv32imTables], [RecursionTables] (circuit/rv32im/src/zirgen,
      circuit/recursion/src): the taps and the constraint programs of the two circuits,
      with binary numbers, and that they pass the check.  [FriSpec]: a query folds each layer into the next, and what FRI
      decides on the columns of a polynomial.
    - [Receipt] (binfmt/src/hash.rs, zkvm/src/claim, zkvm/src/receipt,
      circuit/rv32im/src/verify.rs): digests of structures, claims, merging, groups of
      control identifiers, receipts and their verification.  [ReceiptSpec]: a composite
      receipt verifies exactly when its segments are a chain with proven assumptions; a
      receipt that verifies has the digest of the claim of a run of its image that ended
      with its journal, so that whatever the claim and its output are opened to is that, or
      a forgery; merging is the join in the order of openings.  [GroupSpec]:
      inclusion proofs.  [SegmentSpec]: the verification of a segment, with the tables of
      the rv32im circuit and with Poseidon2, never panics.
    - [WorkConsts], [Work] (zkvm/src/claim/work.rs, zkvm/src/mmr.rs, povw/src/tree.rs,
      consts.rs, guest.rs, prover.rs, povw/guests/log-builder): verifiable work, from the
      work of a claim to the tree of all used nonces and the program that appends to a
      log.  [TreeSpec]: every subtree is that of the bitmaps, and openings decide every
      nonce.  [WorkSpec]: the program counts each job once, and accepts what its prover
      prepares; work claims round-trip and join; mountain ranges are binary counters.
    - [Serde], [SerdeSpec] (zkvm/src/serde): serializer and deserializer over word
      streams; every value reads back, and reading never panics.
    - [Planner], [PlannerSpec] (Bento): the task planner; a finished plan proves every
      segment exactly once, in order, and the peaks stay a binary counter.

    ** Fuel and bounds

    Loops that are not structural take fuel: the walks up a tree of 2^22 pages 33 steps
    (22 are needed), the SHA-2 and Poseidon2 block loops one more than their 16-bit block
    count, the limb loop of the big-integer loads one more than its word count, the drain
    of a region one more than its 8 KiB chunks, Merkle paths the row size, the rounds of
    FRI one more than the degree, which each round divides by sixteen, the registers of a
    circuit one more than its taps, the ranges of a Merkle group 33, as they halve from at
    most 2^32 leaves.  The theorems
    state that the functions return a result, so the fuel given is enough.  A guest need
    not stop: the segment loop of the executor takes the number of instructions and of
    segments to run and says when they are used up.

    ** Not modelled

    The keccak circuit, witness generation, the STARK and FRI provers and the programs of recursion; the pairing check
    of Groth16 and SHA-256 of receipts (classes);
    hardware abstraction layers; services around databases, RPC and the
    blockchain (broker, indexer, Bento's API and workflow); build tools and the command
    line; the disassembler and debugging output; the benchmark and example projects. *)
From stdpp Require Export base tactics list numbers gmap option sets.
From Stdlib Require Export ZArith Lia.

(** ** Machine words

    A [w]-bit unsigned integer is a [Z] in [0, 2^w).  [wrap] is the reduction
    that Rust's [wrapping_*] operations, the [as] casts and (in the release
    profile, which does not set [overflow-checks]) the plain operators perform. *)

Declare Scope word_scope.
Delimit Scope word_scope with word.
Open Scope Z_scope.

Definition wrap (w x : Z) : Z := x mod 2 ^ w.
Definition fits (w x : Z) : Prop := 0 <= x < 2 ^ w.

Abbreviation u8 := (fits 8).
Abbreviation u16 := (fits 16).
Abbreviation u32 := (fits 32).
Abbreviation u64 := (fits 64).
Abbreviation MAX32 := (4294967295).

#[export] Instance fits_dec w x : Decision (fits w x).
Proof. unfold fits. apply _. Defined.

(** Two's complement reading of a word, Rust's [x as i32] and the like. *)
Definition signed (w x : Z) : Z := if x <? 2 ^ (w - 1) then x else x - 2 ^ w.

Definition add32 (a b : Z) : Z := wrap 32 (a + b).
Definition sub32 (a b : Z) : Z := wrap 32 (a - b).
Definition mul32 (a b : Z) : Z := wrap 32 (a * b).
Definition shl32 (a s : Z) : Z := wrap 32 (Z.shiftl a s).
Definition mul64 (a b : Z) : Z := wrap 64 (a * b).
Definition add64 (a b : Z) : Z := wrap 64 (a + b).

Infix "+32" := add32 (at level 50, left associativity) : word_scope.
Infix "-32" := sub32 (at level 50, left associativity) : word_scope.
Infix "*32" := mul32 (at level 40, left associativity) : word_scope.
Infix ".&" := Z.land (at level 40, left associativity) : word_scope.
Infix ".|" := Z.lor (at level 50, left associativity) : word_scope.
Infix ".^" := Z.lxor (at level 50, left associativity) : word_scope.
Infix ".<<" := shl32 (at level 40, left associativity) : word_scope.
Infix ".>>" := Z.shiftr (at level 40, left associativity) : word_scope.

Create HintDb word.

Lemma wrap_fits w x : 0 <= w -> fits w (wrap w x).
Proof. intros. unfold fits, wrap. apply Z.mod_pos_bound. apply Z.pow_pos_nonneg; lia. Qed.

Lemma wrap_small w x : fits w x -> wrap w x = x.
Proof. unfold fits, wrap. intros. apply Z.mod_small; lia. Qed.

Lemma wrap_wrap w x : 0 <= w -> wrap w (wrap w x) = wrap w x.
Proof. intros. apply wrap_small, wrap_fits; lia. Qed.

Lemma wrap_ex w x : 0 <= w -> exists k, wrap w x = x + 2 ^ w * k.
Proof.
  intros. exists (- (x / 2 ^ w)). unfold wrap.
  pose proof (Z.div_mod x (2 ^ w)) as E.
  pose proof (Z.pow_pos_nonneg 2 w). lia.
Qed.

Lemma wrap_add_l w a b : wrap w (wrap w a + b) = wrap w (a + b).
Proof. apply Zplus_mod_idemp_l. Qed.
Lemma wrap_add_r w a b : wrap w (a + wrap w b) = wrap w (a + b).
Proof. apply Zplus_mod_idemp_r. Qed.

Lemma fits_land w a b : 0 <= w -> fits w a -> 0 <= b -> fits w (Z.land a b).
Proof.
  unfold fits. intros Hw Ha Hb. split; [apply Z.land_nonneg; lia|].
  destruct (Z.eq_dec (Z.land a b) 0) as [->|Hne]; [lia|].
  pose proof (Z.land_nonneg a b) as Hn.
  apply Z.log2_lt_cancel. rewrite Z.log2_pow2 by lia.
  pose proof (Z.log2_land a b ltac:(lia) ltac:(lia)).
  destruct (Z.eq_dec a 0) as [->|]; [rewrite Z.land_0_l in Hne; lia|].
  assert (Z.log2 a < w) by (apply Z.log2_lt_pow2; lia). lia.
Qed.

Lemma fits_lor w a b : 0 <= w -> fits w a -> fits w b -> fits w (Z.lor a b).
Proof.
  unfold fits. intros Hw Ha Hb. split; [apply Z.lor_nonneg; lia|].
  destruct (Z.eq_dec (Z.lor a b) 0) as [->|Hne]; [lia|].
  assert (0 <= Z.lor a b) by (apply Z.lor_nonneg; lia).
  apply Z.log2_lt_pow2; [lia|]. rewrite Z.log2_lor by lia.
  destruct (Z.eq_dec w 0) as [->|]; [assert (a = 0) by lia; assert (b = 0) by lia; subst; done|].
  assert (Z.log2 a < w) by (destruct (Z.eq_dec a 0) as [->|]; [cbn; lia|apply Z.log2_lt_pow2; lia]).
  assert (Z.log2 b < w) by (destruct (Z.eq_dec b 0) as [->|]; [cbn; lia|apply Z.log2_lt_pow2; lia]).
  lia.
Qed.

Lemma fits_lxor w a b : 0 <= w -> fits w a -> fits w b -> fits w (Z.lxor a b).
Proof.
  unfold fits. intros Hw Ha Hb.
  assert (0 <= Z.lxor a b) by (apply Z.lxor_nonneg; lia). split; [done|].
  destruct (Z.eq_dec (Z.lxor a b) 0) as [->|Hne]; [lia|].
  apply Z.log2_lt_pow2; [lia|].
  pose proof (Z.log2_lxor a b ltac:(lia) ltac:(lia)).
  destruct (Z.eq_dec w 0) as [->|]; [assert (a = 0) by lia; assert (b = 0) by lia; subst; done|].
  assert (Z.log2 a < w) by (destruct (Z.eq_dec a 0) as [->|]; [cbn; lia|apply Z.log2_lt_pow2; lia]).
  assert (Z.log2 b < w) by (destruct (Z.eq_dec b 0) as [->|]; [cbn; lia|apply Z.log2_lt_pow2; lia]).
  lia.
Qed.

Lemma fits_shiftr w a s : 0 <= w -> 0 <= s -> fits w a -> fits w (Z.shiftr a s).
Proof.
  unfold fits. intros Hw Hs Ha. rewrite Z.shiftr_div_pow2 by lia.
  pose proof (Z.pow_pos_nonneg 2 s ltac:(lia) Hs).
  split; [apply Z.div_pos; lia|]. apply Z.div_lt_upper_bound; nia.
Qed.

Lemma fits_le v w x : 0 <= v <= w -> fits v x -> fits w x.
Proof.
  unfold fits. intros Hvw Hx. pose proof (Z.pow_le_mono_r 2 v w ltac:(lia) ltac:(lia)). lia.
Qed.

#[export] Hint Resolve wrap_fits fits_land fits_lor fits_lxor fits_shiftr : word.
#[export] Hint Extern 1 (_ <= _) => lia : word.
#[export] Hint Extern 1 (fits _ _) => (unfold fits; lia) : word.

Lemma fits_testbit_high w x i : fits w x -> w <= i -> Z.testbit x i = false.
Proof.
  unfold fits. intros Hx Hi. destruct (Z.ltb_spec i 0).
  { apply Z.testbit_neg_r; lia. }
  destruct (Z.eq_dec x 0) as [->|]; [apply Z.bits_0|].
  apply Z.bits_above_log2; [lia|].
  assert (Z.log2 x < i); [|lia]. apply Z.log2_lt_pow2; [lia|].
  pose proof (Z.pow_le_mono_r 2 w i ltac:(lia) ltac:(lia)). lia.
Qed.

Lemma wrap_testbit w x i : 0 <= w ->
  Z.testbit (wrap w x) i = (i <? w) && Z.testbit x i.
Proof.
  intros Hw. unfold wrap. destruct (Z.ltb_spec i 0).
  { rewrite !Z.testbit_neg_r by lia. by rewrite andb_false_r. }
  destruct (Z.ltb_spec i w).
  - rewrite Z.mod_pow2_bits_low by lia. done.
  - rewrite Z.mod_pow2_bits_high by lia. done.
Qed.

(** Equality of words bit by bit; the side conditions are linear. *)
Ltac zbits :=
  apply Z.bits_inj'; let i := fresh "i" in let Hi := fresh "Hi" in intros i Hi.

(** ** Bytes *)

(** [u32::to_le_bytes] and [u32::from_le_bytes]. *)
Definition to_le_bytes (w : Z) : list Z := map (fun i => (w / 256 ^ i) mod 256) [0; 1; 2; 3].
Definition from_le_bytes (bs : list Z) : Z := foldr (fun b acc => b + 256 * acc) 0 bs.

(** The [n] little-endian bytes of a wider integer. *)
Definition le_bytes (n : nat) (v : Z) : list Z := map (fun i => (v / 256 ^ i) mod 256) (seqZ 0 (Z.of_nat n)).

Lemma from_le_bytes_range bs : Forall u8 bs -> 0 <= from_le_bytes bs < 256 ^ Z.of_nat (length bs).
Proof.
  induction 1 as [|b bs Hb _ IH]; cbn [from_le_bytes foldr length]; [done|].
  rewrite Nat2Z.inj_succ, Z.pow_succ_r by lia. unfold fits in Hb. unfold from_le_bytes in IH. lia.
Qed.

Lemma le_bytes_S n v : le_bytes (S n) v = v mod 256 :: le_bytes n (v / 256).
Proof.
  unfold le_bytes. rewrite Nat2Z.inj_succ, seqZ_cons by lia. cbn [map]. rewrite Z.div_1_r. f_equal.
  rewrite Z.pred_succ, <- (fmap_add_seqZ 1 0). change (map ?f ?l) with (f <$> l).
  rewrite <- list_fmap_compose. apply list_fmap_ext. intros k i Hi. cbn. apply lookup_seqZ in Hi.
  rewrite Z.pow_add_r, Z.pow_1_r, Z.div_div by lia. done.
Qed.

Lemma le_bytes_length n v : length (le_bytes n v) = n.
Proof. unfold le_bytes. rewrite length_map, length_seqZ. lia. Qed.

Lemma from_le_bytes_le_bytes n : forall v, from_le_bytes (le_bytes n v) = v mod 256 ^ Z.of_nat n.
Proof.
  induction n as [|n IH]; intros v; [by rewrite Z.mod_1_r|].
  rewrite le_bytes_S. cbn [from_le_bytes foldr]. fold (from_le_bytes (le_bytes n (v / 256))). rewrite IH.
  rewrite Nat2Z.inj_succ, Z.pow_succ_r, (Z.mul_comm 256 (256 ^ _)) by lia.
  rewrite (Z.mul_comm (256 ^ _) 256), Z.rem_mul_r by lia. done.
Qed.

Lemma le_bytes_u8 n v : Forall u8 (le_bytes n v).
Proof. apply Forall_fmap, Forall_true. intros i. unfold fits, compose. apply Z.mod_pos_bound. lia. Qed.

(** ** Outcomes

    A call of the program returns a value, returns an error of type [E], or
    panics ([unwrap] on [None], a failed [assert!], an index out of range).
    [state S E A] is a computation that mutates an [S]: what was written before
    an error stays written, as it does in the source. *)

Inductive outcome (E A : Type) :=
  | Ok (a : A)
  | Err (e : E)
  | Panic.
Arguments Ok {E A} a.
Arguments Err {E A} e.
Arguments Panic {E A}.

#[export] Instance outcome_ret E : MRet (outcome E) := fun A a => Ok a.
#[export] Instance outcome_bind E : MBind (outcome E) := fun A B f m =>
  match m with Ok a => f a | Err e => Err e | Panic => Panic end.
#[export] Instance outcome_fmap E : FMap (outcome E) := fun A B f m =>
  match m with Ok a => Ok (f a) | Err e => Err e | Panic => Panic end.

#[export] Instance outcome_eq_dec E A `{EqDecision E, EqDecision A} : EqDecision (outcome E A).
Proof. solve_decision. Defined.

Definition ok_or {E A} (e : E) (o : option A) : outcome E A :=
  match o with Some a => Ok a | None => Err e end.
Definition unwrap {E A} (o : option A) : outcome E A :=
  match o with Some a => Ok a | None => Panic end.
Definition assert_ {E} (b : bool) : outcome E unit := if b then Ok tt else Panic.
Definition ensure {E} (b : bool) (e : E) : outcome E unit := if b then Ok tt else Err e.

Lemma bind_Ok {E A B} (m : outcome E A) (f : A -> outcome E B) b :
  (m ≫= f) = Ok b <-> exists a, m = Ok a /\ f a = Ok b.
Proof.
  destruct m; cbn; split; intros; [eauto|destruct H as (?&[= ->]&?); done|..];
    try done; destruct H as (?&?&?); done.
Qed.

Definition state (S E A : Type) : Type := S -> outcome E A * S.

#[export] Instance state_ret S E : MRet (state S E) := fun A a s => (Ok a, s).
#[export] Instance state_bind S E : MBind (state S E) := fun A B f m s =>
  match m s with
  | (Ok a, s') => f a s'
  | (Err e, s') => (Err e, s')
  | (Panic, s') => (Panic, s')
  end.

Definition get {S E} : state S E S := fun s => (Ok s, s).
Definition gets {S E A} (f : S -> A) : state S E A := fun s => (Ok (f s), s).
Definition modify {S E} (f : S -> S) : state S E unit := fun s => (Ok tt, f s).
Definition lift {S E A} (o : outcome E A) : state S E A := fun s => (o, s).
Definition throw {S E A} (e : E) : state S E A := fun s => (Err e, s).
Definition panic {S E A} : state S E A := fun s => (Panic, s).

Lemma run_bind {S E A B} (m : state S E A) (f : A -> state S E B) s a s' :
  m s = (Ok a, s') -> (m ≫= f) s = f a s'.
Proof. intros H. unfold mbind, state_bind. by rewrite H. Qed.

Lemma run_lift_Ok {S E A B} (a : A) (f : A -> state S E B) s : (lift (Ok a) ≫= f) s = f a s.
Proof. reflexivity. Qed.
Lemma run_modify {S E B} (g : S -> S) (f : unit -> state S E B) s : (modify g ≫= f) s = f tt (g s).
Proof. reflexivity. Qed.
Lemma run_gets {S E A B} (f : S -> A) (g : A -> state S E B) s : (gets f ≫= g) s = g (f s) s.
Proof. reflexivity. Qed.
