(* ===== verification/Addr.v ===== *)
(** * Guest addresses and the platform's memory map

    [ByteAddr] and [WordAddr] are newtypes of [u32]; both are transparent here,
    so an address is a [Z] that fits 32 bits.  The platform module holds the
    constants of the zkVM's memory map that the pager and the machine use. *)
From S2P Require Export Prelude.
Open Scope word_scope.

(* source: src/risc0/risc0/circuit/rv32im/src/execute/platform.rs *)
Module Platform.

(* L19-19 RV32IM_V2_CIRCUIT_VERSION *)
Definition RV32IM_V2_CIRCUIT_VERSION : Z := 0.
(* L20-20 RV32IM_M3_CIRCUIT_VERSION *)
Definition RV32IM_M3_CIRCUIT_VERSION : Z := 3.
(* L22-22 WORD_SIZE *)
Definition WORD_SIZE : Z := 4.
(* L23-23 PAGE_BYTES *)
Definition PAGE_BYTES : Z := 1024.
(* L24-24 MEMORY_BYTES *)
Definition MEMORY_BYTES : Z := Z.shiftl 1 32.
(* L25-25 MEMORY_PAGES *)
Definition MEMORY_PAGES : Z := MEMORY_BYTES / PAGE_BYTES.
(* L26-26 MERKLE_TREE_DEPTH *)
Definition MERKLE_TREE_DEPTH : Z := Z.log2 MEMORY_PAGES.
(* src/risc0/risc0/circuit/rv32im/src/execute/pager.rs:29-29 PAGE_WORDS *)
Definition PAGE_WORDS : Z := PAGE_BYTES / WORD_SIZE.
(* L27-27 LOOKUP_TABLE_CYCLES *)
Definition LOOKUP_TABLE_CYCLES : Z := (Z.shiftl 1 8 + Z.shiftl 1 16) / 16.
(* L28-28 CONTROL_DONE_CYCLES *)
Definition CONTROL_DONE_CYCLES : Z := 1.
(* L29-29 RESERVED_CYCLES *)
Definition RESERVED_CYCLES : Z := LOOKUP_TABLE_CYCLES + CONTROL_DONE_CYCLES.
(* L31-31 ZERO_PAGE_START_ADDR *)
Definition ZERO_PAGE_START_ADDR : Z := 0x00000000.
(* L32-32 ZERO_PAGE_END_ADDR *)
Definition ZERO_PAGE_END_ADDR : Z := 0x00010000.
(* L33-33 USER_START_ADDR *)
Definition USER_START_ADDR : Z := ZERO_PAGE_END_ADDR.
(* L34-34 USER_END_ADDR *)
Definition USER_END_ADDR : Z := 0xc0000000.
(* L35-35 USER_BIGINT_END_ADDR *)
Definition USER_BIGINT_END_ADDR : Z := 0xbfff0000.
(* L36-36 KERNEL_START_ADDR *)
Definition KERNEL_START_ADDR : Z := USER_END_ADDR.
(* L37-37 KERNEL_END_ADDR *)
Definition KERNEL_END_ADDR : Z := 0xff000000.
(* L38-38 MACHINE_REGS_ADDR *)
Definition MACHINE_REGS_ADDR : Z := 0xffff0000.
(* L39-39 USER_REGS_ADDR *)
Definition USER_REGS_ADDR : Z := 0xffff0080.
(* L40-40 SAFE_WRITE_ADDR *)
Definition SAFE_WRITE_ADDR : Z := 0xffff0100.
(* L41-41 MEPC_ADDR *)
Definition MEPC_ADDR : Z := 0xffff0200.
(* L42-42 SUSPEND_PC_ADDR *)
Definition SUSPEND_PC_ADDR : Z := 0xffff0210.
(* L43-43 SUSPEND_MODE_ADDR *)
Definition SUSPEND_MODE_ADDR : Z := 0xffff0214.
(* L44-44 SUSPEND_CYCLE_LOW_ADDR *)
Definition SUSPEND_CYCLE_LOW_ADDR : Z := 0xffff0218.
(* L45-45 SUSPEND_CYCLE_HIGH_ADDR *)
Definition SUSPEND_CYCLE_HIGH_ADDR : Z := 0xffff021c.
(* L46-46 GLOBAL_OUTPUT_ADDR *)
Definition GLOBAL_OUTPUT_ADDR : Z := 0xffff0240.
(* L47-47 GLOBAL_INPUT_ADDR *)
Definition GLOBAL_INPUT_ADDR : Z := 0xffff0260.
(* L48-48 RV32IM_M3_P2_TRASH_ADDR *)
Definition RV32IM_M3_P2_TRASH_ADDR : Z := 0xffff02a0.
(* L49-49 RV32IM_VERSION_ADDR *)
Definition RV32IM_VERSION_ADDR : Z := 0xffff0300.
(* L51-51 ECALL_DISPATCH_ADDR *)
Definition ECALL_DISPATCH_ADDR : Z := 0xffff1000.
(* L52-52 TRAP_DISPATCH_ADDR *)
Definition TRAP_DISPATCH_ADDR : Z := 0xffff2000.
(* L54-54 MEMORY_END_ADDR *)
Definition MEMORY_END_ADDR : Z := 0x40000000.
(* L55-55 MERKLE_TREE_START_ADDR *)
Definition MERKLE_TREE_START_ADDR : Z := 0x40000000.
(* L56-56 MERKLE_TREE_END_ADDR *)
Definition MERKLE_TREE_END_ADDR : Z := 0x44000000.
(* L58-58 POVW_NONCE_START_ADDR *)
Definition POVW_NONCE_START_ADDR : Z := 0x44000000.
(* L59-59 POVW_NONCE_END_ADDR *)
Definition POVW_NONCE_END_ADDR : Z := 0x44000008.
(* L61-61 REG_ZERO *)
Definition REG_ZERO : Z := 0.
(* L62-62 REG_RA *)
Definition REG_RA : Z := 1.
(* L63-63 REG_SP *)
Definition REG_SP : Z := 2.
(* L64-64 REG_GP *)
Definition REG_GP : Z := 3.
(* L65-65 REG_TP *)
Definition REG_TP : Z := 4.
(* L66-66 REG_T0 *)
Definition REG_T0 : Z := 5.
(* L67-67 REG_T1 *)
Definition REG_T1 : Z := 6.
(* L68-68 REG_T2 *)
Definition REG_T2 : Z := 7.
(* L69-69 REG_S0 *)
Definition REG_S0 : Z := 8.
(* L70-70 REG_FP *)
Definition REG_FP : Z := 8.
(* L71-71 REG_S1 *)
Definition REG_S1 : Z := 9.
(* L72-72 REG_A0 *)
Definition REG_A0 : Z := 10.
(* L73-73 REG_A1 *)
Definition REG_A1 : Z := 11.
(* L74-74 REG_A2 *)
Definition REG_A2 : Z := 12.
(* L75-75 REG_A3 *)
Definition REG_A3 : Z := 13.
(* L76-76 REG_A4 *)
Definition REG_A4 : Z := 14.
(* L77-77 REG_A5 *)
Definition REG_A5 : Z := 15.
(* L78-78 REG_A6 *)
Definition REG_A6 : Z := 16.
(* L79-79 REG_A7 *)
Definition REG_A7 : Z := 17.
(* L80-80 REG_S2 *)
Definition REG_S2 : Z := 18.
(* L81-81 REG_S3 *)
Definition REG_S3 : Z := 19.
(* L82-82 REG_S4 *)
Definition REG_S4 : Z := 20.
(* L83-83 REG_S5 *)
Definition REG_S5 : Z := 21.
(* L84-84 REG_S6 *)
Definition REG_S6 : Z := 22.
(* L85-85 REG_S7 *)
Definition REG_S7 : Z := 23.
(* L86-86 REG_S8 *)
Definition REG_S8 : Z := 24.
(* L87-87 REG_S9 *)
Definition REG_S9 : Z := 25.
(* L88-88 REG_S10 *)
Definition REG_S10 : Z := 26.
(* L89-89 REG_S11 *)
Definition REG_S11 : Z := 27.
(* L90-90 REG_T3 *)
Definition REG_T3 : Z := 28.
(* L91-91 REG_T4 *)
Definition REG_T4 : Z := 29.
(* L92-92 REG_T5 *)
Definition REG_T5 : Z := 30.
(* L93-93 REG_T6 *)
Definition REG_T6 : Z := 31.
(* L94-94 REG_MAX *)
Definition REG_MAX : Z := 32.
(* L96-96 HOST_ECALL_TERMINATE *)
Definition HOST_ECALL_TERMINATE : Z := 0.
(* L97-97 HOST_ECALL_READ *)
Definition HOST_ECALL_READ : Z := 1.
(* L98-98 HOST_ECALL_WRITE *)
Definition HOST_ECALL_WRITE : Z := 2.
(* L99-99 HOST_ECALL_POSEIDON2 *)
Definition HOST_ECALL_POSEIDON2 : Z := 3.
(* L100-100 HOST_ECALL_SHA2 *)
Definition HOST_ECALL_SHA2 : Z := 4.
(* L101-101 HOST_ECALL_BIGINT *)
Definition HOST_ECALL_BIGINT : Z := 5.
(* L103-103 PFLAG_IS_ELEM *)
Definition PFLAG_IS_ELEM : Z := 0x80000000.
(* L104-104 PFLAG_CHECK_OUT *)
Definition PFLAG_CHECK_OUT : Z := 0x40000000.
(* L139-139 SYSCALL_MAX *)
Definition SYSCALL_MAX : Z := 512.
(* L141-141 MAX_IO_BYTES *)
Definition MAX_IO_BYTES : Z := 1024.
(* L142-142 MAX_IO_WORDS *)
Definition MAX_IO_WORDS : Z := 4.
(* L143-143 MAX_SHA_COUNT *)
Definition MAX_SHA_COUNT : Z := 10.

(* L106-137 CycleState *)
Inductive CycleState :=
  | LoadRootAndNonce | Resume | Suspend | StoreRoot | ControlTable | ControlDone
  | MachineEcall | Terminate | HostReadSetup | HostWrite | HostReadBytes | HostReadWords
  | PoseidonEntry | PoseidonLoadState | PoseidonLoadIn | PoseidonDoOut | PoseidonPaging
  | PoseidonStoreState | PoseidonExtRound | PoseidonIntRound | ShaEcall | ShaLoadState
  | ShaLoadData | ShaMix | ShaStoreState | BigIntEcall | BigIntStep | Decode.

(* src/risc0/risc0/circuit/rv32im/src/lib.rs:54-62 EcallKind *)
Inductive EcallKind := | EcBigInt | EcPoseidon2 | EcRead | EcSha2 | EcTerminate | EcUser | EcWrite.

(* L145-148 is_user_memory *)
Definition is_user_memory (addr : Z) : bool :=
  (USER_START_ADDR <=? addr) && (addr <? USER_END_ADDR).

(* L150-153 is_kernel_memory *)
Definition is_kernel_memory (addr : Z) : bool :=
  (KERNEL_START_ADDR <=? addr) && (addr <? KERNEL_END_ADDR).

End Platform.
Export Platform.

(* source: src/risc0/risc0/binfmt/src/addr.rs *)
Module ByteAddr.

(* L33-40 ByteAddr::waddr *)
Definition waddr (a : Z) : Z := a / WORD_SIZE.
(* L42-45 ByteAddr::page_idx *)
Definition page_idx (a : Z) : Z := a / PAGE_BYTES.
(* L47-53 ByteAddr::page_subaddr *)
Definition page_subaddr (a : Z) : Z := a mod PAGE_BYTES.
(* L64-70 ByteAddr::is_aligned *)
Definition is_aligned (a : Z) : bool := a mod WORD_SIZE =? 0.
(* L55-62 ByteAddr::waddr_aligned *)
Definition waddr_aligned (a : Z) : option Z :=
  if is_aligned a then Some (waddr a) else None.
(* L72-78 ByteAddr::is_null *)
Definition is_null (a : Z) : bool := a =? 0.
(* L80-86 ByteAddr::checked_add *)
Definition checked_add (a rhs : Z) : option Z :=
  if a + rhs <=? MAX32 then Some (a + rhs) else None.
(* L88-91 ByteAddr::saturating_add *)
Definition saturating_add (a rhs : Z) : Z := Z.min (a + rhs) MAX32.
(* L93-99 ByteAddr::wrapping_add *)
Definition wrapping_add (a rhs : Z) : Z := a +32 rhs.
(* L101-108 ByteAddr::subaddr *)
Definition subaddr (a : Z) : Z := a mod WORD_SIZE.
(* L201-207 Add<usize> for ByteAddr *)
Definition add_usize (a rhs : Z) : Z := a +32 wrap 32 rhs.
(* L209-215 Add<u32> for ByteAddr *)
Definition add_u32 (a rhs : Z) : Z := a +32 rhs.
(* L217-223 Add<i32> for ByteAddr *)
Definition add_i32 (a rhs : Z) : outcome unit Z :=
  if decide (u32 (a + rhs)) then Ok (a + rhs) else Panic.

End ByteAddr.

Module WordAddr.

(* L111-115 WordAddr::baddr *)
Definition baddr (a : Z) : Z := a *32 WORD_SIZE.
(* L117-120 WordAddr::page_idx *)
Definition page_idx (a : Z) : Z := a / PAGE_WORDS.
(* L122-129 WordAddr::page_subaddr *)
Definition page_subaddr (a : Z) : Z := a mod PAGE_WORDS.
(* L131-136 WordAddr::inc *)
Definition inc (a : Z) : Z := a +32 1.
(* L138-146 WordAddr::postfix_inc, returning the value and the new address *)
Definition postfix_inc (a : Z) : Z * Z := let cur := a in (cur, a +32 1).
(* L148-154 WordAddr::is_null *)
Definition is_null (a : Z) : bool := a =? 0.
(* L157-163 Add<usize> for WordAddr *)
Definition add_usize (a rhs : Z) : Z := a +32 wrap 32 rhs.
(* L165-171 Add<u32> for WordAddr *)
Definition add_u32 (a rhs : Z) : Z := a +32 rhs.
(* L173-179 Add<i32> for WordAddr *)
Definition add_i32 (a rhs : Z) : outcome unit Z :=
  if decide (u32 (a + rhs)) then Ok (a + rhs) else Panic.
(* L181-187 Sub<u32> for WordAddr *)
Definition sub_u32 (a rhs : Z) : Z := a -32 rhs.

End WordAddr.

(** ** Byte and word views of one address agree *)

Lemma waddr_fits a : u32 a -> 0 <= ByteAddr.waddr a < MEMORY_END_ADDR.
Proof.
  unfold fits, ByteAddr.waddr, WORD_SIZE, MEMORY_END_ADDR. intros.
  split; [apply Z.div_pos; lia|apply Z.div_lt_upper_bound; lia].
Qed.

Lemma baddr_small w : 0 <= w < MEMORY_END_ADDR -> WordAddr.baddr w = 4 * w.
Proof.
  unfold MEMORY_END_ADDR, WordAddr.baddr, WORD_SIZE, mul32. intros.
  rewrite wrap_small; unfold fits; lia.
Qed.

Lemma page_idx_fits w : 0 <= w < MEMORY_END_ADDR -> 0 <= WordAddr.page_idx w < MEMORY_PAGES.
Proof.
  unfold MEMORY_END_ADDR, WordAddr.page_idx. change PAGE_WORDS with 256.
  change MEMORY_PAGES with 4194304. intros.
  split; [apply Z.div_pos; lia|apply Z.div_lt_upper_bound; lia].
Qed.

(** For every 32-bit byte address, the word address and the sub-address
    recover it ([waddr] rounds down to a word boundary), the page reached through
    the byte view and through the word view is the same, [waddr_aligned] answers
    exactly on the image of [baddr], and [waddr] inverts [baddr] on every word
    address of the guest's memory. *)
Theorem addr_views_agree a w :
  u32 a -> 0 <= w < MEMORY_END_ADDR ->
  WordAddr.baddr (ByteAddr.waddr a) + ByteAddr.subaddr a = a /\
  WordAddr.page_idx (ByteAddr.waddr a) = ByteAddr.page_idx a /\
  WordAddr.baddr (WordAddr.page_subaddr (ByteAddr.waddr a)) + ByteAddr.subaddr a
    = ByteAddr.page_subaddr a /\
  (ByteAddr.waddr_aligned a = Some w <-> WordAddr.baddr w = a) /\
  ByteAddr.waddr (WordAddr.baddr w) = w.
Proof.
  intros Ha Hw. pose proof (waddr_fits a Ha) as Hf.
  assert (Hs : 0 <= WordAddr.page_subaddr (ByteAddr.waddr a) < MEMORY_END_ADDR).
  { unfold WordAddr.page_subaddr. change PAGE_WORDS with 256. unfold MEMORY_END_ADDR in *.
    pose proof (Z.mod_pos_bound (ByteAddr.waddr a) 256 ltac:(lia)). lia. }
  rewrite !baddr_small by done.
  unfold ByteAddr.waddr_aligned, ByteAddr.is_aligned, ByteAddr.waddr, ByteAddr.subaddr,
    ByteAddr.page_idx, ByteAddr.page_subaddr, WordAddr.page_idx, WordAddr.page_subaddr,
    WORD_SIZE in *.
  change PAGE_WORDS with 256. change PAGE_BYTES with 1024.
  split_and!; [|rewrite Z.div_div by lia; done| | |].
  - pose proof (Z.div_mod a 4). lia.
  - Z.to_euclidean_division_equations. lia.
  - destruct (Z.eqb_spec (a mod 4) 0); split; intros H; simplify_eq.
    + pose proof (Z.div_mod a 4). lia.
    + f_equal. rewrite Z.mul_comm, Z.div_mul by lia. done.
    + exfalso. rewrite Z.mul_comm, Z.mod_mul in n; lia.
  - rewrite Z.mul_comm, Z.div_mul by lia. done.
Qed.

Lemma addr_views_agree_witness :
  ByteAddr.waddr_aligned 0xffff0080 = Some 0x3fffc020 <-> WordAddr.baddr 0x3fffc020 = 0xffff0080.
Proof.
  refine (proj1 (proj2 (proj2 (proj2 (addr_views_agree 0xffff0080 0x3fffc020 _ _))))).
  - unfold fits. lia.
  - unfold MEMORY_END_ADDR. lia.
Defined.
