(* ===== verification/Field.v ===== *)
(** * The field traits

    [FieldOps] is the arithmetic that the trait [field::Elem] asks of a field
    element; [FieldLaws] is what the generic clients (NTT, polynomials, FRI)
    rely on.  [pow] and [map_pow] are the trait's default methods, proved against
    any representation relation that respects multiplication, so that one proof
    serves the Montgomery words, the extension field and the abstract field. *)
From S2P Require Export Prelude.
From Stdlib Require Export Ring_theory Sorted.

(* source: src/risc0/risc0/core/src/field/mod.rs *)

(** The part of the trait that its default methods use. *)
Class MulOps (E : Type) := {
  ONE : E;
  fmul : E -> E -> E;
}.

(* L39-78 Elem *)
Class FieldOps (E : Type) := {
  field_mul :: MulOps E;
  ZERO : E;
  fadd : E -> E -> E;
  fsub : E -> E -> E;
  fneg : E -> E;
  finv : E -> E;
}.

Class FieldLaws (E : Type) `{FieldOps E} := {
  f_ring : ring_theory ZERO ONE fadd fmul fsub fneg (@eq E);
  f_inv : forall x, x <> ZERO -> fmul x (finv x) = ONE;
  f_one_zero : ONE <> ZERO;
}.

Section Pow.
Context {E : Type} `{MulOps E}.

(* L84-93 Elem::pow, the loop *)
Fixpoint pow_loop (fuel : nat) (n : Z) (tot x : E) : option E :=
  if n =? 0 then Some tot else
  match fuel with
  | O => None
  | S fuel =>
      let tot := if n mod 2 =? 1 then fmul tot x else tot in
      pow_loop fuel (n / 2) tot (fmul x x)
  end.

(* L80-94 Elem::pow *)
Definition pow (self : E) (exp : Z) : E := default ONE (pow_loop 64 exp ONE self).

(* L264-274 map_pow, the loop; [last] is the last element pushed *)
Fixpoint map_pow_loop (base : E) (prev_exp : Z) (last : E) (exps : list Z) : outcome unit (list E) :=
  match exps with
  | [] => Ok []
  | exp :: exps =>
      assert_ (prev_exp <? exp);;
      let next := if exp =? prev_exp + 1 then fmul last base
                  else fmul last (pow base (exp - prev_exp)) in
      cons next <$> map_pow_loop base exp next exps
  end.

(* L251-277 map_pow *)
Definition map_pow (base : E) (exponents : list Z) : outcome unit (list E) :=
  match exponents with
  | [] => Ok []
  | exp :: exps => cons (pow base exp) <$> map_pow_loop base exp (pow base exp) exps
  end.

(** The reference: [x] multiplied by itself, in the monoid [V] the
    representation relation maps to. *)
Context {V : Type} (one : V) (mul : V -> V -> V).
Hypothesis mul_assoc : forall x y z, mul x (mul y z) = mul (mul x y) z.
Hypothesis mul_1_l : forall x, mul one x = x.
Hypothesis mul_1_r : forall x, mul x one = x.

Fixpoint npow (x : V) (n : nat) : V :=
  match n with O => one | S n => mul x (npow x n) end.

Lemma npow_add x m n : npow x (m + n) = mul (npow x m) (npow x n).
Proof. induction m as [|m IH]; cbn; [by rewrite mul_1_l|by rewrite IH, mul_assoc]. Qed.

Lemma npow_succ_r x n : npow x (S n) = mul (npow x n) x.
Proof. replace (S n) with (n + 1)%nat by lia. rewrite npow_add. cbn. by rewrite mul_1_r. Qed.

Lemma npow_sq x n : npow (mul x x) n = npow x (2 * n).
Proof.
  induction n as [|n IH]; [done|].
  replace (2 * S n)%nat with (S (S (2 * n))) by lia. cbn [npow].
  by rewrite IH, mul_assoc.
Qed.

Context (rep : E -> V -> Prop).
Hypothesis rep_one : rep ONE one.
Hypothesis rep_mul : forall a b x y, rep a x -> rep b y -> rep (fmul a b) (mul x y).

Lemma pow_loop_rep fuel : forall n tot x t v,
  rep tot t -> rep x v -> 0 <= n < 2 ^ Z.of_nat fuel ->
  exists r, pow_loop fuel n tot x = Some r /\ rep r (mul t (npow v (Z.to_nat n))).
Proof.
  induction fuel as [|fuel IH]; intros n tot x t v Ht Hx Hn; cbn [pow_loop].
  { replace n with 0 by (change (2 ^ Z.of_nat 0) with 1 in Hn; lia).
    cbn. rewrite mul_1_r. eauto. }
  destruct (Z.eqb_spec n 0) as [->|Hn0]; [cbn; rewrite mul_1_r; eauto|].
  rewrite Nat2Z.inj_succ, Z.pow_succ_r in Hn by lia.
  pose proof (Z.div_mod n 2 ltac:(lia)) as Hdm. pose proof (Z.mod_pos_bound n 2 ltac:(lia)) as Hb.
  assert (Hsq : npow (mul v v) (Z.to_nat (n / 2)) = npow v (Z.to_nat (2 * (n / 2)))).
  { rewrite npow_sq. f_equal. lia. }
  destruct (Z.eqb_spec (n mod 2) 1) as [E1|E1].
  - edestruct (IH (n / 2) (fmul tot x) (fmul x x)) as (r & -> & Hr);
      [eapply rep_mul; eassumption|eapply rep_mul; eassumption|lia|].
    eexists; split; [done|]. rewrite Hsq, <- mul_assoc in Hr.
    replace (Z.to_nat n) with (S (Z.to_nat (2 * (n / 2)))) by lia. exact Hr.
  - edestruct (IH (n / 2) tot (fmul x x)) as (r & -> & Hr);
      [eassumption|eapply rep_mul; eassumption|lia|].
    eexists; split; [done|]. rewrite Hsq in Hr.
    replace (Z.to_nat n) with (Z.to_nat (2 * (n / 2))) by lia. exact Hr.
Qed.

Lemma pow_rep a x n : rep a x -> u64 n -> rep (pow a n) (npow x (Z.to_nat n)).
Proof.
  intros Ha Hn. unfold pow.
  destruct (pow_loop_rep 64 n ONE a one x) as (r & -> & Hr); [done..|].
  rewrite mul_1_l in Hr. exact Hr.
Qed.

Lemma map_pow_loop_rep base v : rep base v -> forall exps prev last,
  0 <= prev -> rep last (npow v (Z.to_nat prev)) ->
  Forall u64 exps -> StronglySorted Z.lt (prev :: exps) ->
  exists out, map_pow_loop base prev last exps = Ok out /\
    Forall2 (fun r e => rep r (npow v (Z.to_nat e))) out exps.
Proof.
  intros Hbase. induction exps as [|e exps IH]; intros prev last Hprev Hlast He Hs; cbn [map_pow_loop].
  { eauto. }
  apply Forall_cons in He as [He Hes]. apply StronglySorted_inv in Hs as [Hs Hlt].
  apply Forall_cons in Hlt as [Hlt _].
  set (next := if (e =? prev + 1) then _ else _).
  assert (Hnext : rep next (npow v (Z.to_nat e))).
  { unfold next. destruct (Z.eqb_spec e (prev + 1)) as [->|].
    - replace (Z.to_nat (prev + 1)) with (S (Z.to_nat prev)) by lia.
      rewrite npow_succ_r. by apply rep_mul.
    - replace (Z.to_nat e) with (Z.to_nat prev + Z.to_nat (e - prev))%nat by lia.
      rewrite npow_add. apply rep_mul; [done|]. apply pow_rep; [done|unfold fits in *; lia]. }
  destruct (IH e next) as (out & Hout & Hrep); [unfold fits in *; lia|done..|].
  assert ((prev <? e) = true) as -> by lia. cbn. rewrite Hout. cbn. eauto.
Qed.

Lemma map_pow_rep base v exps : rep base v ->
  Forall u64 exps -> StronglySorted Z.lt exps ->
  exists out, map_pow base exps = Ok out /\
    Forall2 (fun r e => rep r (npow v (Z.to_nat e))) out exps.
Proof.
  intros Hb He Hs. unfold map_pow. destruct exps as [|e exps]; [eauto|].
  apply Forall_cons in He as [He Hes].
  destruct (map_pow_loop_rep base v Hb exps e (pow base e)) as (out & -> & Ho);
    [unfold fits in *; lia|by apply pow_rep|done..|].
  eexists; split; [reflexivity|]. constructor; [by apply pow_rep|done].
Qed.

End Pow.
Arguments pow : simpl never.

Lemma map_pow_loop_unsorted {E} `{MulOps E} (base : E) pre : forall prev last a b post,
  b <= a -> map_pow_loop base prev last (pre ++ a :: b :: post) = Panic.
Proof.
  induction pre as [|e pre IH]; intros prev last a b post Hab; cbn [map_pow_loop app].
  - destruct (prev <? a); cbn; [|done]. assert ((a <? b) = false) as -> by lia. done.
  - destruct (prev <? e); cbn; [|done]. by rewrite IH.
Qed.

(** Exponents that are not strictly increasing are refused by a panic. *)
Lemma map_pow_unsorted {E} `{MulOps E} (base : E) pre a b post :
  b <= a -> map_pow base (pre ++ a :: b :: post) = Panic.
Proof.
  intros Hab. destruct pre as [|e pre]; cbn.
  - assert ((a <? b) = false) as -> by lia. done.
  - by rewrite map_pow_loop_unsorted.
Qed.
