(* ===== verification/BabyBear.v ===== *)
(** * The Baby Bear field and its quartic extension

    Elements are [u32] words in Montgomery form.  [rep a x] says that the word
    [a] is reduced and represents the integer [x] modulo [P]; every operation is
    related to the ring operation on integers through it.  [erep] lifts it to the
    extension field, whose values are polynomials modulo [X^4 + 11].  [Elem] may
    also hold [INVALID]; [ensure_valid] is a debug assertion and is the identity
    in the release profile. *)
From S2P Require Export Field.
From Stdlib Require Import Znumtheory ZModOffset Zmod.
Open Scope word_scope.

(* source: src/risc0/risc0/core/src/field/baby_bear.rs *)

(* L42-42 M *)
Definition M : Z := 0x88000001.
(* L43-43 R2 *)
Definition R2 : Z := 1172168163.
(* L85-88 P *)
Definition P : Z := 15 * Z.shiftl 1 27 + 1.

(* L318-322 add *)
Definition add (lhs rhs : Z) : Z :=
  let x := lhs +32 rhs in
  if P <=? x then x - P else x.

(* L324-328 sub *)
Definition sub (lhs rhs : Z) : Z :=
  let x := lhs -32 rhs in
  if P <? x then x +32 P else x.

(* L330-345 mul *)
Definition mul (lhs rhs : Z) : Z :=
  let o64 := mul64 lhs rhs in
  let low := 0 -32 wrap 32 o64 in
  let red := M *32 low in
  let o64 := add64 o64 (mul64 red P) in
  let ret := wrap 32 (o64 .>> 32) in
  if P <=? ret then ret - P else ret.

(* L347-350 encode *)
Definition encode (a : Z) : Z := mul R2 a.

(* L352-355 decode *)
Definition decode (a : Z) : Z := mul 1 a.

Module Elem.

(* L202-205 Elem::new *)
Definition new (x : Z) : Z := encode (x mod P).
(* L210-212 Elem::new_raw *)
Definition new_raw (x : Z) : Z := x.
(* L214-217 Elem::as_u32 *)
Definition as_u32 (a : Z) : Z := decode a.
(* L94-94 Elem::INVALID *)
Definition INVALID : Z := 0xffffffff.
(* L95-97 Elem::ZERO *)
Definition ZERO : Z := new 0.
(* L96-96 Elem::ONE *)
Definition ONE : Z := new 1.
(* L155-157 Elem::is_valid *)
Definition is_valid (a : Z) : bool := negb (a =? INVALID).
(* L159-161 Elem::is_reduced *)
Definition is_reduced (a : Z) : bool := a <? P.
(* L164-171 Elem::is_valid_bit_pattern *)
Definition is_valid_bit_pattern (bits : Z) : bool := bits <? P.
(* L226-240 Add, AddAssign *)
Definition add (a b : Z) : Z := BabyBear.add a b.
(* L242-256 Sub, SubAssign *)
Definition sub (a b : Z) : Z := BabyBear.sub a b.
(* L258-272 Mul, MulAssign *)
Definition mul (a b : Z) : Z := BabyBear.mul a b.
(* L274-280 Neg *)
Definition neg (a : Z) : Z := sub 0 a.
(* L282-292 Ord, PartialOrd *)
Definition cmp (a b : Z) : comparison := Z.compare (decode a) (decode b).
(* L306-310 From<u32> *)
Definition from_u32 (x : Z) : Z := new x.
(* L312-316 From<u64> *)
Definition from_u64 (x : Z) : Z := new (wrap 32 (x mod P)).

#[global] Instance mul_ops : MulOps Z := {| Field.ONE := ONE; fmul := mul |}.

(* L100-108 Elem::inv *)
Definition inv (a : Z) : Z := pow a (P - 2).

(* L36-39 Field *)
#[global] Instance ops : FieldOps Z := {|
  Field.ZERO := ZERO; fadd := add; fsub := sub; fneg := neg; finv := inv |}.

(* L110-141 Elem::random, the six words [next_u32] returned *)
Definition random (r : list Z) : Z :=
  from_u32 (wrap 32 (foldl (fun val w =>
    let val := wrap 64 (Z.shiftl val 32) in
    let val := add64 val w in
    val mod P) 0 (take 6 r))).

(* L182-182 MAX_ROU_PO2 *)
Definition MAX_ROU_PO2 : nat := 27.

(* L185-190 ROU_FWD *)
Definition ROU_FWD : list Z := map new
  [1; 2013265920; 284861408; 1801542727; 567209306; 740045640; 918899846; 1881002012;
   1453957774; 65325759; 1538055801; 515192888; 483885487; 157393079; 1695124103; 2005211659;
   1540072241; 88064245; 1542985445; 1269900459; 1461624142; 825701067; 682402162; 1311873874;
   1164520853; 352275361; 18769; 137].

(* L193-198 ROU_REV *)
Definition ROU_REV : list Z := map new
  [1; 2013265920; 1728404513; 1592366214; 196396260; 1253260071; 72041623; 1091445674;
   145223211; 1446820157; 1030796471; 2010749425; 1827366325; 1239938613; 246299276;
   596347512; 1893145354; 246074437; 1525739923; 1194341128; 1463599021; 704606912; 95395244;
   15672543; 647517488; 584175179; 137728885; 749463956].

End Elem.

(* L368-370 ExtElem *)
Record ExtElem := mkExt { e0 : Z; e1 : Z; e2 : Z; e3 : Z }.

#[export] Instance ExtElem_eq_dec : EqDecision ExtElem.
Proof. solve_decision. Defined.

Module Ext.
(* Module-local shorthands for the operators on subfield elements *)
#[local] Infix "+'" := Elem.add (at level 50, left associativity).
#[local] Infix "-'" := Elem.sub (at level 50, left associativity).
#[local] Infix "*'" := Elem.mul (at level 40, left associativity).
#[local] Notation "-' a" := (Elem.neg a) (at level 35, right associativity).

(* L554-554 BETA *)
Definition BETA : Z := Elem.new 11.
(* L555-555 NBETA *)
Definition NBETA : Z := Elem.new (P - 11).

(* L563-572 ExtElem::new *)
Definition new (x0 x1 x2 x3 : Z) : ExtElem := mkExt x0 x1 x2 x3.
(* L574-577 ExtElem::from_fp *)
Definition from_fp (x : Z) : ExtElem := mkExt x (Elem.new 0) (Elem.new 0) (Elem.new 0).
(* L579-582 ExtElem::from_u32 *)
Definition from_u32 (x0 : Z) : ExtElem :=
  mkExt (Elem.new x0) (Elem.new 0) (Elem.new 0) (Elem.new 0).
(* L584-587 ExtElem::zero *)
Definition zero : ExtElem := from_u32 0.
(* L589-592 ExtElem::one *)
Definition one : ExtElem := from_u32 1.
(* L594-597 ExtElem::const_part *)
Definition const_part (a : ExtElem) : Z := e0 a.
(* L599-602 ExtElem::elems *)
Definition elems (a : ExtElem) : list Z := [e0 a; e1 a; e2 a; e3 a].
(* L512-514 ExtElem::from_subfield *)
Definition from_subfield (elem : Z) : ExtElem := mkExt elem Elem.ZERO Elem.ZERO Elem.ZERO.
(* L516-530 ExtElem::from_subelems *)
Definition from_subelems (elems : list Z) : outcome unit ExtElem :=
  match elems with
  | x0 :: x1 :: x2 :: x3 :: iter =>
      assert_ (bool_decide (iter = []));; Ok (mkExt x0 x1 x2 x3)
  | _ => Panic
  end.
(* L605-623 Add, AddAssign *)
Definition add (a b : ExtElem) : ExtElem :=
  mkExt (e0 a +' e0 b) (e1 a +' e1 b) (e2 a +' e2 b) (e3 a +' e3 b).
(* L625-652 Add<Elem>, AddAssign<Elem> *)
Definition add_elem (a : ExtElem) (b : Z) : ExtElem := mkExt (e0 a +' b) (e1 a) (e2 a) (e3 a).
(* L654-672 Sub, SubAssign *)
Definition sub (a b : ExtElem) : ExtElem :=
  mkExt (e0 a -' e0 b) (e1 a -' e1 b) (e2 a -' e2 b) (e3 a -' e3 b).
(* L674-701 Sub<Elem>, SubAssign<Elem> *)
Definition sub_elem (a : ExtElem) (b : Z) : ExtElem := mkExt (e0 a -' b) (e1 a) (e2 a) (e3 a).
(* L703-731 MulAssign<Elem>, Mul<Elem>, Mul<ExtElem> *)
Definition mul_elem (a : ExtElem) (b : Z) : ExtElem :=
  mkExt (e0 a *' b) (e1 a *' b) (e2 a *' b) (e3 a *' b).
(* L733-762 MulAssign, Mul *)
Definition mul (a b : ExtElem) : ExtElem :=
  let '(mkExt a0 a1 a2 a3) := a in
  let '(mkExt b0 b1 b2 b3) := b in
  mkExt
    (a0 *' b0 +' NBETA *' (a1 *' b3 +' a2 *' b2 +' a3 *' b1))
    (a0 *' b1 +' a1 *' b0 +' NBETA *' (a2 *' b3 +' a3 *' b2))
    (a0 *' b2 +' a1 *' b1 +' a2 *' b0 +' NBETA *' (a3 *' b3))
    (a0 *' b3 +' a1 *' b2 +' a2 *' b1 +' a3 *' b0).
(* L765-771 Neg *)
Definition neg (a : ExtElem) : ExtElem := sub zero a.

#[global] Instance mul_ops : MulOps ExtElem := {| Field.ONE := one; fmul := mul |}.

(* L427-440 ExtElem::pow, the body of the default method repeated *)
Definition pow (a : ExtElem) (n : Z) : ExtElem := Field.pow a n.

(* L443-476 ExtElem::inv *)
Definition inv (a : ExtElem) : ExtElem :=
  let '(mkExt a0 a1 a2 a3) := a in
  let b0 := a0 *' a0 +' BETA *' (a1 *' (a3 +' a3) -' a2 *' a2) in
  let b2 := a0 *' (a2 +' a2) -' a1 *' a1 +' BETA *' (a3 *' a3) in
  let c := b0 *' b0 +' BETA *' b2 *' b2 in
  let ic := Elem.inv c in
  let b0 := b0 *' ic in
  let b2 := b2 *' ic in
  mkExt
    (a0 *' b0 +' BETA *' a2 *' b2)
    ((-' a1) *' b0 +' NBETA *' a3 *' b2)
    ((-' a0) *' b2 +' a2 *' b0)
    (a1 *' b2 -' a3 *' b0).

(* L507-510 ExtElem *)
#[global] Instance ops : FieldOps ExtElem := {|
  Field.ZERO := zero; fadd := add; fsub := sub; fneg := neg; finv := inv |}.

(* L415-425 ExtElem::random, the words four calls of [Elem::random] consume *)
Definition random (r : list Z) : ExtElem :=
  mkExt (Elem.random r) (Elem.random (drop 6 r)) (Elem.random (drop 12 r))
    (Elem.random (drop 18 r)).
(* L502-504 ExtElem::is_reduced *)
Definition is_reduced (a : ExtElem) : bool := forallb Elem.is_reduced (elems a).
(* L380-387 ExtElem::is_valid_bit_pattern *)
Definition is_valid_bit_pattern (bits : list Z) : bool :=
  foldl (fun valid x => valid && (x <? P)) true bits.

End Ext.

(** ** Representation *)

Definition reduced (a : Z) : Prop := 0 <= a < P.
Definition rep (a x : Z) : Prop := reduced a /\ decode a = x mod P.

Lemma P_val : P = 2013265921. Proof. reflexivity. Qed.
Ltac plia := rewrite ?P_val in *; lia.

Declare Scope field_scope.
Open Scope field_scope.
Notation "x ≡P y" := (eqm P x y) (at level 70, no associativity) : field_scope.

#[export] Instance eqmP_equiv : Equivalence (eqm P) := eqm_setoid P.
#[export] Instance eqmP_add : Proper (eqm P ==> eqm P ==> eqm P) Z.add := Zplus_eqm P.
#[export] Instance eqmP_sub : Proper (eqm P ==> eqm P ==> eqm P) Z.sub := Zminus_eqm P.
#[export] Instance eqmP_mul : Proper (eqm P ==> eqm P ==> eqm P) Z.mul := Zmult_eqm P.
#[export] Instance eqmP_opp : Proper (eqm P ==> eqm P) Z.opp := Zopp_eqm P.

Lemma eqm_k x y k : x = y + P * k -> x ≡P y.
Proof. intros ->. unfold eqm. rewrite Z.mul_comm, Z_mod_plus_full. done. Qed.

Lemma eqm_mod x : x mod P ≡P x.
Proof. unfold eqm. by rewrite Z.mod_mod by plia. Qed.

Lemma eqm_eq a b : reduced a -> reduced b -> a ≡P b -> a = b.
Proof. unfold eqm, reduced. intros Ha Hb H. by rewrite !Z.mod_small in H. Qed.

Lemma mod_reduced x : reduced (x mod P).
Proof. unfold reduced. apply Z.mod_pos_bound. plia. Qed.

(** [2^32] is invertible modulo [P]. *)
Definition RINV : Z := 943718400.

Lemma R_cancel x y : x * 2 ^ 32 ≡P y * 2 ^ 32 -> x ≡P y.
Proof.
  intros H.
  assert (E : forall z, z ≡P z * 2 ^ 32 * RINV).
  { intros z. apply (eqm_k _ _ (- (z * 2013265919))). unfold RINV. rewrite P_val. lia. }
  rewrite (E x), (E y), H. reflexivity.
Qed.

(** The reduction step of [mul], for any product below [2^32 * P]. *)
Lemma mul_mont a b : 0 <= a -> 0 <= b -> a * b < 2 ^ 32 * P ->
  reduced (mul a b) /\ mul a b * 2 ^ 32 ≡P a * b.
Proof.
  intros Ha Hb Hab. unfold mul, mul64, add64, mul32, sub32.
  assert (Hn : 0 <= a * b) by nia.
  rewrite (wrap_small 64 (a * b)) by (unfold fits; plia).
  set (o := a * b) in *.
  set (low := wrap 32 (0 - wrap 32 o)). set (red := wrap 32 (M * low)).
  assert (Hlow : fits 32 low) by (unfold low; auto with word).
  assert (Hred : fits 32 red) by (unfold red; auto with word).
  unfold fits in Hlow, Hred.
  rewrite (wrap_small 64 (red * P)) by (unfold fits; plia).
  rewrite (wrap_small 64 (o + red * P)) by (unfold fits; plia).
  assert (Hdiv : (o + red * P) mod 2 ^ 32 = 0).
  { destruct (wrap_ex 32 o) as [k1 E1]; [lia|].
    destruct (wrap_ex 32 (0 - wrap 32 o)) as [k2 E2]; [lia|].
    destruct (wrap_ex 32 (M * low)) as [k3 E3]; [lia|].
    unfold red. rewrite E3. unfold low. rewrite E2, E1. rewrite P_val. unfold M.
    etransitivity; [|apply (Z_mod_mult
      (2281701377 * 2013265921 * (k2 - k1) + k3 * 2013265921 - 1069547521 * o))].
    f_equal. ring. }
  apply Z.div_exact in Hdiv; [|lia].
  rewrite Z.shiftr_div_pow2 by lia.
  set (ret := (o + red * P) / 2 ^ 32) in *.
  assert (Hret : 0 <= ret < 2 * P) by plia.
  rewrite (wrap_small 32 ret) by (unfold fits; plia).
  unfold reduced. destruct (Z.leb_spec P ret); split; try plia.
  - apply (eqm_k _ _ (red - 2 ^ 32)). lia.
  - apply (eqm_k _ _ red). lia.
Qed.

Lemma mul_eqm a b x : reduced a -> reduced b -> a * b ≡P x * 2 ^ 32 ->
  reduced (mul a b) /\ mul a b ≡P x.
Proof.
  intros Ha Hb Hx. unfold reduced in *.
  destruct (mul_mont a b) as [Hr Hm]; [lia|lia|rewrite P_val in *; nia|]. split; [done|].
  apply R_cancel. by rewrite Hm.
Qed.

Lemma reduced_u32 a : reduced a -> u32 a.
Proof. unfold reduced, fits. plia. Qed.

(** Montgomery form: a word represents [x] when it is [x * 2^32] modulo [P]. *)
Lemma rep_mont a x : rep a x <-> reduced a /\ a ≡P x * 2 ^ 32.
Proof.
  unfold rep. split; intros [Ha H]; split; try done.
  - destruct (mul_mont 1 a) as [_ Hm]; [lia|unfold reduced in *; plia..|].
    unfold decode in H. rewrite H, eqm_mod in Hm. by rewrite Z.mul_1_l in Hm.
  - destruct (mul_eqm 1 a x) as [Hd Hm]; [unfold reduced; plia|done|by rewrite Z.mul_1_l|].
    apply eqm_eq; [done|apply mod_reduced|]. by rewrite eqm_mod.
Qed.

Lemma rep_eqm a x y : rep a x -> x ≡P y -> rep a y.
Proof. unfold rep, eqm. by intros [? ->] ->. Qed.

Lemma rep_val a x : rep a x -> decode a = x mod P.
Proof. by intros [_ ?]. Qed.

Lemma rep_reduced a x : rep a x -> reduced a.
Proof. by intros [? _]. Qed.

Lemma rep_self a : reduced a -> rep a (decode a).
Proof.
  intros Ha. split; [done|]. destruct (mul_mont 1 a) as [Hd _]; [lia|unfold reduced in *; plia..|].
  unfold decode, reduced in *. by rewrite Z.mod_small.
Qed.

Lemma rep_inj a b x y : rep a x -> rep b y -> x ≡P y -> a = b.
Proof.
  rewrite !rep_mont. intros [Ha Ea] [Hb Eb] E. apply eqm_eq; [done..|]. by rewrite Ea, Eb, E.
Qed.

Lemma rep_fun a x y : rep a x -> rep a y -> x ≡P y.
Proof. unfold rep, eqm. intros [_ ?] [_ ?]. congruence. Qed.

Lemma rep_add a b x y : rep a x -> rep b y -> rep (Elem.add a b) (x + y).
Proof.
  rewrite !rep_mont. unfold Elem.add, add, add32, reduced. intros [Ha Ea] [Hb Eb].
  rewrite wrap_small by (unfold fits; plia).
  rewrite Z.mul_add_distr_r, <- Ea, <- Eb.
  destruct (Z.leb_spec P (a + b)); (split; [plia|]); [|done].
  apply (eqm_k _ _ (-1)). lia.
Qed.

Lemma rep_sub a b x y : rep a x -> rep b y -> rep (Elem.sub a b) (x - y).
Proof.
  rewrite !rep_mont. unfold Elem.sub, sub, sub32, add32, reduced. intros [Ha Ea] [Hb Eb].
  rewrite Z.mul_sub_distr_r, <- Ea, <- Eb. destruct (Z.leb_spec b a).
  - rewrite wrap_small by (unfold fits; plia).
    destruct (Z.ltb_spec P (a - b)); [plia|]. split; [plia|done].
  - assert (wrap 32 (a - b) = a - b + 2 ^ 32) as ->.
    { unfold wrap. symmetry. apply (Z.mod_unique_pos _ _ (-1)); plia. }
    destruct (Z.ltb_spec P (a - b + 2 ^ 32)); [|plia].
    assert (wrap 32 (a - b + 2 ^ 32 + P) = a - b + P) as ->.
    { unfold wrap. symmetry. apply (Z.mod_unique_pos _ _ 1); plia. }
    split; [plia|]. apply (eqm_k _ _ 1). lia.
Qed.

Lemma rep_mul a b x y : rep a x -> rep b y -> rep (Elem.mul a b) (x * y).
Proof.
  rewrite !rep_mont. intros [Ha Ea] [Hb Eb]. apply (mul_eqm a b); [done..|].
  rewrite Ea, Eb. apply (eqm_k _ _ 0). ring.
Qed.

Lemma rep_zero : rep 0 0.
Proof. rewrite rep_mont. unfold reduced. split; [plia|]. reflexivity. Qed.

Lemma rep_neg a x : rep a x -> rep (Elem.neg a) (- x).
Proof. intros H. exact (rep_sub 0 a 0 x rep_zero H). Qed.

Lemma rep_new x : u32 x -> rep (Elem.new x) x.
Proof.
  intros Hx. rewrite rep_mont. unfold Elem.new, encode.
  apply mul_eqm; [unfold reduced; rewrite P_val; unfold R2; lia|apply mod_reduced|].
  rewrite eqm_mod. unfold R2.
  transitivity ((2 ^ 32 * 2 ^ 32) * x); [|apply (eqm_k _ _ 0); ring].
  apply (eqm_k _ _ (x * (1172168163 / P - 2 ^ 64 / P))). rewrite P_val.
  change (1172168163 / 2013265921) with 0. change (2 ^ 64 / 2013265921) with 9162596893.
  lia.
Qed.

Create HintDb rep.
#[export] Hint Resolve rep_add rep_sub rep_mul rep_neg rep_new rep_self rep_reduced : rep.

Lemma rep_one : rep Elem.ONE 1.
Proof. apply rep_new. unfold fits. lia. Qed.

Lemma npow_Z x n : npow 1 Z.mul x n = x ^ Z.of_nat n.
Proof.
  induction n as [|n IH]; [done|]. cbn [npow].
  rewrite IH, Nat2Z.inj_succ, Z.pow_succ_r by lia. done.
Qed.

Lemma rep_pow a x n : rep a x -> u64 n -> rep (pow a n) (x ^ n).
Proof.
  intros Ha Hn. replace (x ^ n) with (npow 1 Z.mul x (Z.to_nat n)).
  2:{ rewrite npow_Z. f_equal. unfold fits in Hn. lia. }
  apply (pow_rep 1 Z.mul Z.mul_assoc Z.mul_1_l Z.mul_1_r rep); auto with rep.
  apply rep_one.
Qed.
#[export] Hint Resolve rep_zero rep_one rep_pow : rep.

(** ** [P] is prime *)

Fixpoint trial (fuel : nat) (d p : Z) : bool :=
  match fuel with
  | O => true
  | S fuel => negb (p mod d =? 0) && trial fuel (d + 1) p
  end.

Lemma trial_spec fuel : forall d p n, trial fuel d p = true ->
  d <= n < d + Z.of_nat fuel -> p mod n <> 0.
Proof.
  induction fuel as [|fuel IH]; intros d p n; cbn [trial]; [lia|].
  intros [H1 H2]%andb_prop Hn. destruct (Z.eq_dec n d) as [->|].
  - intros E. by rewrite E in H1.
  - apply (IH (d + 1)); [done|lia].
Qed.

Lemma prime_trial p s : 1 < s -> 1 < p -> p < (s + 1) * (s + 1) ->
  trial (Z.to_nat (s - 1)) 2 p = true -> Z.prime p.
Proof.
  intros Hs0 Hp Hs H.
  assert (Hd : forall d k, p = k * d -> 2 <= d <= s -> False).
  { intros d k E Hd. apply (trial_spec _ _ _ d H); [lia|]. rewrite E. apply Z_mod_mult. }
  split; [done|]. intros n Hn [k Hk].
  destruct (Z.le_gt_cases n s); [by apply (Hd n k); lia|].
  apply (Hd k n); [lia|]. split; nia.
Qed.

Lemma P_prime : Z.prime P.
Proof. apply (prime_trial P 44869); [done..|]. by vm_compute. Qed.

Lemma fermat a : ~ a ≡P 0 -> a ^ (P - 1) ≡P 1.
Proof.
  intros Ha. unfold eqm. rewrite ZmodInv.Z.fermat_nz; [done|apply P_prime|].
  intros E. apply Ha. unfold eqm. by rewrite E.
Qed.

Lemma eqm_pow x y n : 0 <= n -> x ≡P y -> x ^ n ≡P y ^ n.
Proof.
  intros Hn H. revert n Hn. apply natlike_ind; [done|]. intros n Hn IH.
  rewrite !Z.pow_succ_r by done. transitivity (y * x ^ n).
  - by apply (eqmP_mul _ _ H).
  - by apply (eqmP_mul y y).
Qed.

Lemma eqm_pow_0 x n : 0 < n -> x ≡P 0 -> x ^ n ≡P 0.
Proof. intros Hn H. rewrite (eqm_pow x 0) by (lia || done). by rewrite Z.pow_0_l by lia. Qed.

Lemma half_P : (P - 1) / 2 = 1006632960.
Proof. reflexivity. Qed.

Lemma eqm_integral x y : x * y ≡P 0 -> x ≡P 0 \/ y ≡P 0.
Proof.
  assert (E : forall z, z ≡P 0 <-> (P | z)).
  { intros z. unfold eqm. change (0 mod P) with 0. apply Z.mod_divide. rewrite P_val. lia. }
  rewrite !E. apply (Z.divide_prime_mul x y P P_prime).
Qed.

Lemma rep_inv a x : rep a x -> exists i, rep (Elem.inv a) i /\
  (~ x ≡P 0 -> x * i ≡P 1) /\ (x ≡P 0 -> i = 0).
Proof.
  intros Ha. assert (Hi : rep (Elem.inv a) (x ^ (P - 2))).
  { unfold Elem.inv. apply rep_pow; [exact Ha|]. unfold fits. rewrite P_val. lia. }
  destruct (decide ((x mod P) = 0)) as [E|E].
  - assert (x ≡P 0) as Hx by (unfold eqm; rewrite E; done).
    exists 0. split; [|done]. apply (rep_eqm _ _ _ Hi).
    apply eqm_pow_0; [rewrite P_val; lia|done].
  - exists (x ^ (P - 2)). split; [done|]. split; [|intros Hx; by unfold eqm in Hx; rewrite Hx in E].
    intros Hx. rewrite <- (fermat x Hx), <- (Z.pow_succ_r x) by (rewrite P_val; lia).
    by replace (Z.succ (P - 2)) with (P - 1) by lia.
Qed.

(** ** The quartic extension *)

(** Neither [11] nor [-11] is a square: both powers to [(P - 1) / 2] are [-1],
    which the field's own [pow] evaluates. *)
Lemma pow_non_residue c : (c = 11 \/ c = -11) ->
  rep (pow (Elem.new (c mod P)) ((P - 1) / 2)) (-1).
Proof. intros [-> | ->]; split; by vm_compute. Qed.

Lemma non_residue c : (c = 11 \/ c = -11) -> c ^ ((P - 1) / 2) ≡P -1.
Proof.
  intros Hc. refine (rep_fun _ _ _ (rep_pow _ _ _ _ _) (pow_non_residue c Hc)); [|by vm_compute].
  apply (rep_eqm _ (c mod P)); [|apply eqm_mod]. apply rep_new, reduced_u32, mod_reduced.
Qed.

Lemma non_square c s t : (c = 11 \/ c = -11) -> s * s ≡P c * (t * t) -> s ≡P 0 /\ t ≡P 0.
Proof.
  intros Hc H. pose proof (non_residue c Hc) as Hnr.
  assert (Ht : t ≡P 0).
  { destruct (decide (t mod P = 0 mod P)) as [|Ht]; [done|exfalso].
    assert (Hsq : forall z, (z * z) ^ ((P - 1) / 2) = z ^ (P - 1)).
    { intros z. rewrite Z.pow_mul_l, <- Z.pow_add_r by (rewrite half_P; lia). f_equal. }
    assert (Hpow : s ^ (P - 1) ≡P -1).
    { rewrite <- Hsq. etransitivity; [apply (eqm_pow _ _ ((P - 1) / 2) ltac:(rewrite half_P; lia) H)|].
      rewrite Z.pow_mul_l, Hsq.
      exact (eqmP_mul _ _ Hnr _ _ (fermat t Ht)). }
    destruct (decide (s mod P = 0 mod P)) as [Hs|Hs].
    - pose proof (eqm_pow_0 s (P - 1) ltac:(rewrite P_val; lia) Hs) as E0. rewrite E0 in Hpow. clear -Hpow. vm_compute in Hpow; discriminate.
    - pose proof (fermat s Hs) as E1. rewrite E1 in Hpow. clear -Hpow. vm_compute in Hpow; discriminate. }
  split; [|exact Ht]. rewrite Ht, Z.mul_0_r in H. clear Hnr. by destruct (eqm_integral _ _ H).
Qed.

(** An extension element represents the polynomial with the listed coefficients. *)
Definition erep (a : ExtElem) (p : list Z) : Prop := Forall2 rep (Ext.elems a) p.
Definition ereduced (a : ExtElem) : Prop := Forall reduced (Ext.elems a).

(** The product in [Z[X] / (X^4 + 11)]: coefficient [k] of the product minus
    eleven times coefficient [k + 4]. *)
Definition conv (p q : list Z) (k : nat) : Z :=
  foldr Z.add 0 (map (fun i => nth i p 0 * nth (k - i) q 0) (seq 0 (S k))).
Definition poly_mulmod (p q : list Z) : list Z :=
  map (fun k => conv p q k - 11 * conv p q (k + 4)) (seq 0 4).

Lemma rep_BETA : rep Ext.BETA 11.
Proof. apply rep_new. unfold fits. lia. Qed.

Lemma rep_NBETA : rep Ext.NBETA (-11).
Proof.
  apply (rep_eqm _ (P - 11)); [|by vm_compute].
  apply rep_new. unfold fits. rewrite P_val. lia.
Qed.
#[export] Hint Resolve rep_BETA rep_NBETA : rep.

(** Derives what a term represents by its head operation, then equates it with
    the stated value. *)
Ltac rep_go :=
  lazymatch goal with
  | |- rep (Elem.add _ _) _ => eapply rep_add; rep_go
  | |- rep (Elem.sub _ _) _ => eapply rep_sub; rep_go
  | |- rep (Elem.mul _ _) _ => eapply rep_mul; rep_go
  | |- rep (Elem.neg _) _ => eapply rep_neg; rep_go
  | |- rep Ext.BETA _ => apply rep_BETA
  | |- rep Ext.NBETA _ => apply rep_NBETA
  | |- _ => eassumption
  end.
Ltac rep_by tac := eapply rep_eqm; [rep_go|tac].
Ltac rep_ring := rep_by ltac:(apply (eqm_k _ _ 0); ring).

Lemma erep_inv a p : erep a p -> exists x0 x1 x2 x3, p = [x0; x1; x2; x3] /\
  rep (e0 a) x0 /\ rep (e1 a) x1 /\ rep (e2 a) x2 /\ rep (e3 a) x3.
Proof.
  unfold erep, Ext.elems. intros H.
  repeat match goal with H : Forall2 _ (_ :: _) _ |- _ =>
    apply Forall2_cons_inv_l in H as (? & ? & ? & H & ->) end.
  apply Forall2_nil_inv_l in H as ->. eauto 10.
Qed.

Lemma erep_intro a x0 x1 x2 x3 :
  rep (e0 a) x0 -> rep (e1 a) x1 -> rep (e2 a) x2 -> rep (e3 a) x3 -> erep a [x0; x1; x2; x3].
Proof. intros. unfold erep, Ext.elems. eauto using Forall2_cons_2, Forall2_nil_2. Qed.

Lemma erep_self a : ereduced a -> erep a (map decode (Ext.elems a)).
Proof.
  unfold ereduced, Ext.elems. rewrite !Forall_cons. intros (?&?&?&?&_).
  cbn [map]. apply erep_intro; auto with rep.
Qed.

Lemma erep_eqm a p q : erep a p -> Forall2 (eqm P) p q -> erep a q.
Proof.
  unfold erep. generalize (Ext.elems a). intros l H. revert q.
  induction H; intros q Hq; inversion Hq; subst; constructor; eauto using rep_eqm.
Qed.

Lemma erep_ereduced a p : erep a p -> ereduced a.
Proof. unfold erep, ereduced. intros H. induction H; constructor; eauto with rep. Qed.

Lemma erep_inj a b p q : erep a p -> erep b q -> Forall2 (eqm P) p q -> a = b.
Proof.
  intros Ha Hb Hpq. apply erep_inv in Ha as (?&?&?&?&->&?&?&?&?).
  apply erep_inv in Hb as (?&?&?&?&->&?&?&?&?).
  repeat match goal with H : Forall2 _ (_ :: _) _ |- _ => apply Forall2_cons in H as [? H] end.
  destruct a, b; cbn in *. f_equal; eauto using rep_inj.
Qed.

Lemma erep_add a b p q : erep a p -> erep b q -> erep (Ext.add a b) (zip_with Z.add p q).
Proof.
  intros (?&?&?&?&->&?&?&?&?)%erep_inv (?&?&?&?&->&?&?&?&?)%erep_inv.
  apply erep_intro; cbn; auto with rep.
Qed.

Lemma erep_sub a b p q : erep a p -> erep b q -> erep (Ext.sub a b) (zip_with Z.sub p q).
Proof.
  intros (?&?&?&?&->&?&?&?&?)%erep_inv (?&?&?&?&->&?&?&?&?)%erep_inv.
  apply erep_intro; cbn; auto with rep.
Qed.

Lemma erep_mul a b p q : erep a p -> erep b q -> erep (Ext.mul a b) (poly_mulmod p q).
Proof.
  intros (x0&x1&x2&x3&->&?&?&?&?)%erep_inv (y0&y1&y2&y3&->&?&?&?&?)%erep_inv.
  destruct a as [a0 a1 a2 a3], b as [b0 b1 b2 b3]. cbn [e0 e1 e2 e3] in *.
  unfold poly_mulmod, conv. cbn -[Z.add Z.mul Z.sub].
  apply erep_intro; cbn [e0 e1 e2 e3 Ext.mul]; rep_ring.
Qed.

Lemma erep_zero : erep Ext.zero [0; 0; 0; 0].
Proof. apply erep_intro; apply rep_new; unfold fits; lia. Qed.
Lemma erep_one : erep Ext.one [1; 0; 0; 0].
Proof. apply erep_intro; apply rep_new; unfold fits; lia. Qed.

Lemma eqm_ring x y : x = y -> x ≡P y.
Proof. by intros ->. Qed.

(** The norm down to the base field vanishes only at zero: [X^4 + 11] is
    irreducible. *)
Lemma norm_zero x0 x1 x2 x3 :
  let b0 := x0 * x0 + 11 * (x1 * (x3 + x3) - x2 * x2) in
  let b2 := x0 * (x2 + x2) - x1 * x1 + 11 * (x3 * x3) in
  b0 * b0 + 11 * b2 * b2 ≡P 0 -> x0 ≡P 0 /\ x1 ≡P 0 /\ x2 ≡P 0 /\ x3 ≡P 0.
Proof.
  intros b0 b2 H.
  destruct (non_square (-11) b0 b2) as [Hb0 Hb2]; [auto| |].
  { transitivity (b0 * b0 + 11 * b2 * b2 + -11 * (b2 * b2)); [apply eqm_ring; ring|].
    rewrite H. by apply eqm_ring. }
  set (nA := x0 * x0 + 11 * (x2 * x2)). set (nB := x1 * x1 + 11 * (x3 * x3)).
  destruct (non_square 11 nA nB) as [HA HB]; [auto| |].
  { transitivity ((b0 - 22 * x1 * x3) * (b0 - 22 * x1 * x3)
      + 11 * ((b2 + x1 * x1 - 11 * x3 * x3) * (b2 + x1 * x1 - 11 * x3 * x3)));
      [apply eqm_ring; unfold nA, b0, b2; ring|].
    rewrite Hb0, Hb2. apply eqm_ring. unfold nB. ring. }
  assert (Hsq : forall s t, s * s + 11 * (t * t) ≡P 0 -> s ≡P 0 /\ t ≡P 0).
  { intros s t E. apply (non_square (-11)); [auto|].
    transitivity (s * s + 11 * (t * t) + -11 * (t * t)); [apply eqm_ring; ring|].
    rewrite E. by apply eqm_ring. }
  destruct (Hsq _ _ HA), (Hsq _ _ HB). done.
Qed.

Lemma erep_inv_mul a p : erep a p -> ~ Forall (fun x => x ≡P 0) p ->
  exists q, erep (Ext.inv a) q /\ Forall2 (eqm P) (poly_mulmod p q) [1; 0; 0; 0].
Proof.
  intros (x0&x1&x2&x3&->&?&?&?&?)%erep_inv Hp.
  destruct a as [a0 a1 a2 a3]. cbn [e0 e1 e2 e3] in *.
  set (b0 := x0 * x0 + 11 * (x1 * (x3 + x3) - x2 * x2)).
  set (b2 := x0 * (x2 + x2) - x1 * x1 + 11 * (x3 * x3)).
  unfold Ext.inv. cbv zeta.
  match goal with |- context [Elem.inv ?t] => set (c := t) end.
  assert (Hc : rep c (b0 * b0 + 11 * b2 * b2)) by (unfold c; rep_by ltac:(reflexivity)).
  destruct (rep_inv c _ Hc) as (i & Hi & Hne & _).
  assert (Hci : (b0 * b0 + 11 * b2 * b2) * i ≡P 1).
  { apply Hne. intros E. apply Hp. apply norm_zero in E as (?&?&?&?). auto. }
  exists [x0 * (b0 * i) + 11 * x2 * (b2 * i); - x1 * (b0 * i) + -11 * x3 * (b2 * i);
     - x0 * (b2 * i) + x2 * (b0 * i); x1 * (b2 * i) - x3 * (b0 * i)].
  split.
  - apply erep_intro; cbn [e0 e1 e2 e3]; rep_by ltac:(reflexivity).
  - unfold poly_mulmod, conv. cbn -[Z.add Z.mul Z.sub].
    repeat constructor; [rewrite <- Hci| | |]; apply eqm_ring; unfold b0, b2; ring.
Qed.

(** Powers of extension elements, through the ring of integer quadruples. *)
Definition quad : Type := Z * Z * Z * Z.
Definition qlist (p : quad) : list Z := let '(x0, x1, x2, x3) := p in [x0; x1; x2; x3].
Definition qmul (p q : quad) : quad :=
  let '(x0, x1, x2, x3) := p in
  let '(y0, y1, y2, y3) := q in
  (x0 * y0 - 11 * (x1 * y3 + x2 * y2 + x3 * y1), x0 * y1 + x1 * y0 - 11 * (x2 * y3 + x3 * y2),
   x0 * y2 + x1 * y1 + x2 * y0 - 11 * (x3 * y3), x0 * y3 + x1 * y2 + x2 * y1 + x3 * y0).

Lemma qlist_mul p q : qlist (qmul p q) = poly_mulmod (qlist p) (qlist q).
Proof.
  destruct p as [[[??]?]?], q as [[[??]?]?]. unfold poly_mulmod, conv.
  cbn -[Z.add Z.mul Z.sub].
  repeat (apply (f_equal2 cons); [ring|]). done.
Qed.

Lemma qlist_npow p n :
  qlist (npow (1, 0, 0, 0) qmul p n) = npow [1; 0; 0; 0] poly_mulmod (qlist p) n.
Proof. induction n as [|n IH]; cbn [npow]; [done|]. by rewrite qlist_mul, IH. Qed.

Lemma erep_pow a p n : erep a p -> u64 n ->
  erep (Ext.pow a n) (npow [1; 0; 0; 0] poly_mulmod p (Z.to_nat n)).
Proof.
  intros Ha Hn. pose proof Ha as (x0&x1&x2&x3&->&_)%erep_inv.
  change [x0; x1; x2; x3] with (qlist (x0, x1, x2, x3)) in *. rewrite <- qlist_npow.
  unfold Ext.pow.
  apply (pow_rep (1, 0, 0, 0) qmul) with (rep := fun a q => erep a (qlist q)); try done.
  - intros [[[??]?]?] [[[??]?]?] [[[??]?]?]. unfold qmul. repeat apply (f_equal2 pair); ring.
  - intros [[[??]?]?]. unfold qmul. repeat apply (f_equal2 pair); ring.
  - intros [[[??]?]?]. unfold qmul. repeat apply (f_equal2 pair); ring.
  - apply erep_one.
  - intros. rewrite qlist_mul. by apply erep_mul.
Qed.

(** ** Conversions *)

Lemma rep_from_u64 v : u64 v -> rep (Elem.from_u64 v) v.
Proof.
  intros Hv. unfold Elem.from_u64. rewrite wrap_small by apply reduced_u32, mod_reduced.
  apply (rep_eqm _ (v mod P)); [|apply eqm_mod]. apply rep_new, reduced_u32, mod_reduced.
Qed.

(** The big-endian value of a list of 32-bit words. *)
Definition be_words (r : list Z) : Z := foldl (fun v w => 2 ^ 32 * v + w) 0 r.

Lemma random_fold r : Forall u32 r -> forall v w, reduced v -> v ≡P w ->
  let v' := foldl (fun val w => add64 (wrap 64 (Z.shiftl val 32)) w mod P) v r in
  reduced v' /\ v' ≡P foldl (fun v w => 2 ^ 32 * v + w) w r.
Proof.
  induction 1 as [|x r Hx Hr IH]; intros v w Hv Hw; cbn [foldl]; [done|].
  apply IH; [apply mod_reduced|]. rewrite eqm_mod. unfold reduced, fits in *.
  rewrite Z.shiftl_mul_pow2, wrap_small by (unfold fits; plia).
  unfold add64. rewrite wrap_small by (unfold fits; plia).
  rewrite <- Hw. apply eqm_ring. ring.
Qed.

(** C37: The word operations compute in the field of order [P]: on reduced words
    that represent the integers [x] and [y], addition with its conditional
    subtraction, subtraction with its test [x > P] on the wrapped difference,
    Montgomery multiplication, negation and square-and-multiply return the
    reduced representation of the sum, difference, product, opposite and power,
    and the order is the order of the residues. *)
Theorem elem_ops_mod_P a b x y n :
  rep a x -> rep b y -> u64 n ->
  rep (Elem.add a b) (x + y) /\ rep (Elem.sub a b) (x - y) /\ rep (Elem.mul a b) (x * y) /\
  rep (Elem.neg a) (- x) /\ rep (pow a n) (x ^ n) /\
  Elem.cmp a b = Z.compare (x mod P) (y mod P) /\ (a = b <-> x mod P = y mod P).
Proof.
  intros Ha Hb Hn. split_and!; auto with rep.
  - unfold Elem.cmp. by rewrite (rep_val _ _ Ha), (rep_val _ _ Hb).
  - split; [intros ->; by apply (rep_fun b)|apply (rep_inj _ _ _ _ Ha Hb)].
Qed.

Lemma elem_ops_mod_P_witness :
  rep (Elem.sub (Elem.new 3) (Elem.new 5)) (-2) /\ rep (pow (Elem.new 3) 20) (3 ^ 20).
Proof.
  destruct (elem_ops_mod_P (Elem.new 3) (Elem.new 5) 3 5 20) as (_&H1&_&_&H2&_).
  - apply rep_new. unfold fits. lia.
  - apply rep_new. unfold fits. lia.
  - unfold fits. lia.
  - split; [exact H1|exact H2].
Defined.

(** Encoding to and decoding from Montgomery form are inverse to each other:
    [new] of any [u32] and [from] of any [u64] decode to the residue, every
    reduced word is the encoding of its decoding, and [random] returns the
    192-bit number its six words spell, modulo [P]. *)
Theorem elem_conversions x v a r :
  u32 x -> u64 v -> reduced a -> Forall u32 r ->
  Elem.as_u32 (Elem.new x) = x mod P /\ Elem.as_u32 (Elem.from_u64 v) = v mod P /\
  Elem.new (Elem.as_u32 a) = a /\ reduced (Elem.as_u32 a) /\
  Elem.as_u32 (Elem.random r) = be_words (take 6 r) mod P.
Proof.
  intros Hx Hv Ha Hr. unfold Elem.as_u32.
  pose proof (rep_self a Ha) as Hs.
  assert (Hd : reduced (decode a)) by (rewrite (rep_val _ _ Hs); apply mod_reduced).
  split_and!; [by apply rep_val, rep_new|by apply rep_val, rep_from_u64| |done|].
  - apply (rep_inj _ _ _ _ (rep_new _ (reduced_u32 _ Hd)) Hs). done.
  - destruct (random_fold (take 6 r) ltac:(by apply Forall_take) 0 0) as [H1 H2];
      [unfold reduced; plia|done|].
    unfold Elem.random, Elem.from_u32. rewrite wrap_small by by apply reduced_u32.
    rewrite (rep_val _ _ (rep_new _ (reduced_u32 _ H1))). exact H2.
Qed.

Lemma elem_conversions_witness : Elem.as_u32 (Elem.random [7; 0; 0; 0; 0; 1]) = (7 * 2 ^ 160 + 1) mod P.
Proof.
  destruct (elem_conversions 0 0 0 [7; 0; 0; 0; 0; 1]) as (_&_&_&_&H).
  1,2: unfold fits; lia.
  - unfold reduced. rewrite P_val. lia.
  - repeat constructor; unfold fits; lia.
  - rewrite H. vm_compute. reflexivity.
Defined.

(** [inv] is the field inverse: every non-zero reduced word times its
    Fermat power [P - 2] is one ([P] is prime), and zero is mapped to zero. *)
Theorem elem_inv_correct a : reduced a ->
  (a <> Elem.ZERO -> Elem.mul a (Elem.inv a) = Elem.ONE) /\
  Elem.inv Elem.ZERO = Elem.ZERO /\ reduced (Elem.inv a).
Proof.
  intros Ha. pose proof (rep_self a Ha) as Hs.
  destruct (rep_inv a _ Hs) as (i & Hi & Hne & _). split_and!; [|by vm_compute|by apply rep_reduced in Hi].
  intros Hz. apply (rep_inj _ _ _ _ (rep_mul _ _ _ _ Hs Hi) rep_one). apply Hne.
  intros E. apply Hz. refine (rep_inj _ _ _ 0 Hs _ E). apply rep_new. unfold fits. lia.
Qed.

Lemma elem_inv_correct_witness :
  Elem.mul (Elem.new 137) (Elem.inv (Elem.new 137)) = Elem.ONE.
Proof.
  apply (elem_inv_correct (Elem.new 137)); [|by vm_compute].
  unfold reduced. vm_compute. split; congruence.
Defined.

(** C38: Extension elements compute in [F_P[X] / (X^4 + 11)]: the hand-written
    product is the polynomial product with [X^4] replaced by [-11], sums and
    differences are coefficient-wise, [pow] is the iterated product, and equal
    polynomials have equal representations. *)
Theorem ext_ops_polynomial a b p q n :
  erep a p -> erep b q -> u64 n ->
  erep (Ext.add a b) (zip_with Z.add p q) /\ erep (Ext.sub a b) (zip_with Z.sub p q) /\
  erep (Ext.mul a b) (poly_mulmod p q) /\
  erep (Ext.pow a n) (npow [1; 0; 0; 0] poly_mulmod p (Z.to_nat n)) /\
  (Forall2 (eqm P) p q -> a = b).
Proof.
  intros Ha Hb Hn.
  split_and!; eauto using erep_add, erep_sub, erep_mul, erep_pow, erep_inj.
Qed.

Lemma ext_ops_polynomial_witness :
  erep (Ext.pow (mkExt (Elem.new 0) (Elem.new 1) (Elem.new 0) (Elem.new 0)) 4) [-11; 0; 0; 0].
Proof.
  assert (H : erep (mkExt (Elem.new 0) (Elem.new 1) (Elem.new 0) (Elem.new 0)) [0; 1; 0; 0]).
  { apply erep_intro; apply rep_new; unfold fits; lia. }
  destruct (ext_ops_polynomial _ _ _ _ 4 H H) as (_&_&_&Hp&_); [unfold fits; lia|exact Hp].
Defined.

(** [inv] of the extension field is the inverse: the product of a non-zero
    reduced element and its inverse is one ([X^4 + 11] is irreducible since
    neither 11 nor -11 is a square), and zero is mapped to zero. *)
Theorem ext_inv_correct a : ereduced a ->
  (a <> Ext.zero -> Ext.mul a (Ext.inv a) = Ext.one) /\ Ext.inv Ext.zero = Ext.zero.
Proof.
  intros Ha. pose proof (erep_self a Ha) as Hs. split; [|by vm_compute].
  intros Hz. destruct (erep_inv_mul a _ Hs) as (q & Hq & E).
  - intros H. apply Hz. apply (erep_inj _ _ _ _ Hs erep_zero).
    destruct a. cbn in *. rewrite !Forall_cons in H. destruct H as (?&?&?&?&_). eauto.
  - exact (erep_inj _ _ _ _ (erep_mul _ _ _ _ Hs Hq) erep_one E).
Qed.

Lemma ext_inv_correct_witness :
  let a := mkExt (Elem.new 1) (Elem.new 2) (Elem.new 3) (Elem.new 4) in
  Ext.mul a (Ext.inv a) = Ext.one.
Proof.
  apply (ext_inv_correct (mkExt (Elem.new 1) (Elem.new 2) (Elem.new 3) (Elem.new 4))).
  - repeat constructor; vm_compute; congruence.
  - by vm_compute.
Defined.

Definition rou_check (i : nat) : bool :=
  match Elem.ROU_FWD !! i, Elem.ROU_REV !! i with
  | Some w, Some v =>
      bool_decide (pow w (2 ^ Z.of_nat i) = Elem.ONE) &&
      match i with
      | O => true
      | S j => bool_decide (pow w (2 ^ (Z.of_nat i - 1)) = Elem.neg Elem.ONE) &&
               bool_decide (Elem.ROU_FWD !! (i - 1)%nat = Some (Elem.mul w w))
      end && bool_decide (Elem.mul w v = Elem.ONE)
  | _, _ => false
  end.

Lemma rou_check_all : forallb rou_check (seq 0 28) = true.
Proof. by vm_compute. Qed.

(** The tables of roots of unity: each forward root is the square of the next
    one and a root of order exactly [2^i] (its power [2^(i-1)] is minus one), and
    each reverse root is its inverse. *)
Theorem rou_tables :
  length Elem.ROU_FWD = S Elem.MAX_ROU_PO2 /\ length Elem.ROU_REV = S Elem.MAX_ROU_PO2 /\
  forall i w, Elem.ROU_FWD !! i = Some w ->
    pow w (2 ^ Z.of_nat i) = Elem.ONE /\
    (i <> O -> pow w (2 ^ (Z.of_nat i - 1)) = Elem.neg Elem.ONE /\
               Elem.ROU_FWD !! (i - 1)%nat = Some (Elem.mul w w)) /\
    exists v, Elem.ROU_REV !! i = Some v /\ Elem.mul w v = Elem.ONE.
Proof.
  split_and!; [done..|]. intros i w Hi.
  pose proof (lookup_lt_Some _ _ _ Hi) as Hlen. change (length Elem.ROU_FWD) with 28%nat in Hlen.
  pose proof rou_check_all as Hc. rewrite forallb_forall in Hc.
  specialize (Hc i ltac:(apply in_seq; lia)). unfold rou_check in Hc. rewrite Hi in Hc.
  destruct (Elem.ROU_REV !! i) as [v|]; [|done].
  apply andb_prop in Hc as [Hc Hv%bool_decide_eq_true].
  apply andb_prop in Hc as [Hw%bool_decide_eq_true Hc].
  split; [exact Hw|]. split; [|by exists v]. intros Hi0. destruct i as [|i]; [done|].
  apply andb_prop in Hc as [H1%bool_decide_eq_true H2%bool_decide_eq_true]. by split.
Qed.

(** [map_pow] returns the powers of the base at all its exponents when they
    are strictly increasing, with one multiplication for each run of consecutive
    exponents, and panics when they are not. *)
Theorem map_pow_correct base x exps :
  rep base x -> Forall u64 exps ->
  (StronglySorted Z.lt exps ->
     exists out, map_pow base exps = Ok out /\ Forall2 (fun r e => rep r (x ^ e)) out exps) /\
  (forall pre a b post, exps = pre ++ a :: b :: post -> b <= a -> map_pow base exps = Panic).
Proof.
  intros Hb He. split.
  - intros Hs. edestruct (map_pow_rep 1 Z.mul Z.mul_assoc Z.mul_1_l Z.mul_1_r rep)
      as (out & Ho & Hf); [apply rep_one|apply rep_mul|exact Hb|exact He|exact Hs|].
    exists out. split; [done|]. clear -Hf He. induction Hf as [|r e out exps Hr Hf IH]; [done|].
    apply Forall_cons in He as [He Hes]. constructor; [|by apply IH].
    rewrite npow_Z in Hr. unfold fits in He. by rewrite Z2Nat.id in Hr by lia.
  - intros pre a b post -> Hab. by apply map_pow_unsorted.
Qed.

Lemma map_pow_correct_witness : exists out, map_pow (Elem.new 3) [2; 3; 7] = Ok out /\
  Forall2 (fun r e => rep r (3 ^ e)) out [2; 3; 7].
Proof.
  refine (proj1 (map_pow_correct (Elem.new 3) 3 [2; 3; 7] _ _) _).
  - apply rep_new. unfold fits. lia.
  - repeat constructor; unfold fits; lia.
  - repeat constructor; lia.
Defined.
