(* ===== verification/Rv32im.v ===== *)
(** * The RV32IM emulator

    [Emulator] is generic in its context ([EmuContext]: program counter,
    registers, memory, traps), as in the source.  Part 1 translates the emulator;
    part 2 is an instruction-set reference: an abstract syntax of RV32IM with its
    encoder and a step function over a byte-addressed memory; part 3 proves that
    the emulator, over any context that meets [EmuLaws], implements the reference. *)
From S2P Require Export Addr.
From stdpp Require Import strings pretty.
Open Scope word_scope.
Open Scope Z_scope.

(* source: src/risc0/risc0/circuit/rv32im/src/execute/rv32im.rs *)

(* L73-92 Exception *)
Inductive Exception :=
  | InstructionMisaligned
  | InstructionFault
  | IllegalInstruction (insn line : Z)
  | Breakpoint
  | LoadAddressMisaligned
  | LoadAccessFault (addr : Z)
  | StoreAddressMisaligned (addr : Z)
  | StoreAccessFault
  | InvalidEcallDispatch (addr : Z)
  | UserEnvCall (addr : Z).

#[export] Instance Exception_eq_dec : EqDecision Exception.
Proof. solve_decision. Defined.

(* L96-98 Exception::as_u32 *)
Definition as_u32 (e : Exception) : Z :=
  match e with
  | InstructionMisaligned => 0 | InstructionFault => 1 | IllegalInstruction _ _ => 2
  | Breakpoint => 3 | LoadAddressMisaligned => 4 | LoadAccessFault _ => 5
  | StoreAddressMisaligned _ => 6 | StoreAccessFault => 7 | InvalidEcallDispatch _ => 8
  | UserEnvCall _ => 9
  end.

(* L101-111 DecodedInstruction *)
Record DecodedInstruction := mkDecoded {
  insn : Z; top_bit : Z; func7 : Z; rs2 : Z; rs1 : Z; func3 : Z; rd : Z; opcode : Z }.

(* L113-171 InsnKind *)
Inductive InsnKind :=
  | Add | Sub | Xor | Or | And | Slt | SltU | AddI
  | XorI | OrI | AndI | SltI | SltIU | Beq | Bne | Blt
  | Bge | BltU | BgeU | Jal | JalR | Lui | Auipc
  | Sll | SllI | Mul | MulH | MulHSU | MulHU
  | Srl | Sra | SrlI | SraI | Div | DivU | Rem | RemU
  | Lb | Lh | Lw | LbU | LhU
  | Sb | Sh | Sw
  | Eany | Mret
  | Invalid.

#[export] Instance InsnKind_eq_dec : EqDecision InsnKind.
Proof. solve_decision. Defined.

(* L115-170 InsnKind discriminants *)
Definition InsnKind_as_u32 (k : InsnKind) : Z :=
  match k with
  | Add => 0 | Sub => 1 | Xor => 2 | Or => 3 | And => 4 | Slt => 5 | SltU => 6 | AddI => 7
  | XorI => 8 | OrI => 9 | AndI => 10 | SltI => 11 | SltIU => 12 | Beq => 13 | Bne => 14 | Blt => 15
  | Bge => 16 | BltU => 17 | BgeU => 18 | Jal => 19 | JalR => 20 | Lui => 21 | Auipc => 22
  | Sll => 24 | SllI => 25 | Mul => 26 | MulH => 27 | MulHSU => 28 | MulHU => 29
  | Srl => 32 | Sra => 33 | SrlI => 34 | SraI => 35 | Div => 36 | DivU => 37 | Rem => 38 | RemU => 39
  | Lb => 40 | Lh => 41 | Lw => 42 | LbU => 43 | LhU => 44
  | Sb => 48 | Sh => 49 | Sw => 50
  | Eany => 56 | Mret => 57
  | Invalid => 255
  end.

Module Decoded.

(* L174-185 DecodedInstruction::new *)
Definition new (insn : Z) : DecodedInstruction := {|
  insn := insn;
  top_bit := (insn .& 0x80000000) .>> 31;
  func7 := (insn .& 0xfe000000) .>> 25;
  rs2 := (insn .& 0x01f00000) .>> 20;
  rs1 := (insn .& 0x000f8000) .>> 15;
  func3 := (insn .& 0x00007000) .>> 12;
  rd := (insn .& 0x00000f80) .>> 7;
  opcode := insn .& 0x0000007f |}.

(* L187-192 DecodedInstruction::imm_b *)
Definition imm_b (d : DecodedInstruction) : Z :=
  (top_bit d *32 0xfffff000) .| ((rd d .& 1) .<< 11) .| ((func7 d .& 0x3f) .<< 5)
    .| (rd d .& 0x1e).
(* L194-196 DecodedInstruction::imm_i *)
Definition imm_i (d : DecodedInstruction) : Z :=
  (top_bit d *32 0xfffff000) .| (func7 d .<< 5) .| rs2 d.
(* L198-200 DecodedInstruction::imm_s *)
Definition imm_s (d : DecodedInstruction) : Z :=
  (top_bit d *32 0xfffff000) .| (func7 d .<< 5) .| rd d.
(* L202-209 DecodedInstruction::imm_j *)
Definition imm_j (d : DecodedInstruction) : Z :=
  (top_bit d *32 0xfff00000) .| (rs1 d .<< 15) .| (func3 d .<< 12) .| ((rs2 d .& 1) .<< 11)
    .| ((func7 d .& 0x3f) .<< 5) .| (rs2 d .& 0x1e).
(* L211-213 DecodedInstruction::imm_u *)
Definition imm_u (d : DecodedInstruction) : Z := insn d .& 0xfffff000.

End Decoded.
Import Decoded.

(** The trait: what the emulator asks of the machine around it. *)
(* L24-68 EmuContext *)
Class EmuContext (S E : Type) := {
  circuit_version : S -> Z;
  ecall : state S E bool;
  machine_ret : state S E bool;
  trap : Exception -> state S E bool;
  on_insn_decoded : InsnKind -> DecodedInstruction -> state S E unit;
  on_normal_end : InsnKind -> state S E unit;
  get_pc : S -> Z;
  set_pc : Z -> S -> S;
  load_register : Z -> state S E Z;
  store_register : Z -> Z -> state S E unit;
  load_memory : Z -> state S E Z;
  store_memory : Z -> Z -> state S E unit;
  check_insn_load : Z -> S -> bool;
  check_data_load : Z -> S -> bool;
  check_data_store : Z -> S -> bool;
}.

(* L607-609 sign_extend_u32 *)
Definition sign_extend_u32 (x : Z) : Z := signed 32 x.

(** [i64::wrapping_mul]. *)
Definition i64_wrapping_mul (a b : Z) : Z := signed 64 (wrap 64 (a * b)).

(** [i32::wrapping_div] and [i32::wrapping_rem], for a non-zero divisor. *)
Definition i32_wrapping_div (a b : Z) : Z :=
  if (a =? - 2 ^ 31) && (b =? -1) then - 2 ^ 31 else Z.quot a b.
Definition i32_wrapping_rem (a b : Z) : Z :=
  if (a =? - 2 ^ 31) && (b =? -1) then 0 else Z.rem a b.

Module Emulator.
Section Emulator.
Context {S E : Type} `{EmuContext S E}.

(* L221-228 Emulator::trace_instruction *)
Definition trace_instruction (kind : InsnKind) (decoded : DecodedInstruction) : state S E unit :=
  on_insn_decoded kind decoded.

(* L320-331 Emulator::load_rs2 *)
Definition load_rs2 (decoded : DecodedInstruction) (v1 : Z) : state S E Z :=
  if rs1 decoded =? rs2 decoded then mret v1 else load_register (rs2 decoded).

(** [Ok(ctx.trap(cause)?.then_some(kind))] *)
Definition trap_then (cause : Exception) (kind : InsnKind) : state S E (option InsnKind) :=
  b ← trap cause; mret (if b : bool then Some kind else None).

(* L347-436 Emulator::step_compute, the result and the next pc; [None] is [unreachable!()] *)
Definition compute (kind : InsnKind) (decoded : DecodedInstruction) (pc v1 v2 : Z) : option (Z * Z) :=
  let next := ByteAddr.add_usize pc WORD_SIZE in
  let imm := imm_i decoded in
  let out o := Some (o, next) in
  match kind with
  | Add => out (v1 +32 v2)
  | Sub => out (v1 -32 v2)
  | Xor => out (v1 .^ v2)
  | Or => out (v1 .| v2)
  | And => out (v1 .& v2)
  | Sll => out (v1 .<< (v2 .& 0x1f))
  | Srl => out (v1 .>> (v2 .& 0x1f))
  | Sra => out (wrap 32 (signed 32 v1 .>> (v2 .& 0x1f)))
  | Slt => out (if signed 32 v1 <? signed 32 v2 then 1 else 0)
  | SltU => out (if v1 <? v2 then 1 else 0)
  | AddI => out (v1 +32 imm)
  | XorI => out (v1 .^ imm)
  | OrI => out (v1 .| imm)
  | AndI => out (v1 .& imm)
  | SllI => out (v1 .<< (imm .& 0x1f))
  | SrlI => out (v1 .>> (imm .& 0x1f))
  | SraI => out (wrap 32 (signed 32 v1 .>> (imm .& 0x1f)))
  | SltI => out (if signed 32 v1 <? signed 32 imm then 1 else 0)
  | SltIU => out (if v1 <? imm then 1 else 0)
  | Jal => Some (next, ByteAddr.wrapping_add pc (imm_j decoded))
  | JalR => Some (next, (v1 +32 imm) .& 0xfffffffe)
  | Lui => out (imm_u decoded)
  | Auipc => out (ByteAddr.wrapping_add pc (imm_u decoded))
  | Mul => out (v1 *32 v2)
  | MulH => out (wrap 32 (i64_wrapping_mul (sign_extend_u32 v1) (sign_extend_u32 v2) .>> 32))
  | MulHSU => out (wrap 32 (i64_wrapping_mul (sign_extend_u32 v1) v2 .>> 32))
  | MulHU => out (wrap 32 (mul64 v1 v2 .>> 32))
  | Div => out (if v2 =? 0 then MAX32
                else wrap 32 (i32_wrapping_div (signed 32 v1) (signed 32 v2)))
  | DivU => out (if v2 =? 0 then MAX32 else v1 / v2)
  | Rem => out (if v2 =? 0 then v1
                else wrap 32 (i32_wrapping_rem (signed 32 v1) (signed 32 v2)))
  | RemU => out (if v2 =? 0 then v1 else v1 mod v2)
  | _ => None
  end.

(* L333-443 Emulator::step_compute *)
Definition step_compute (kind : InsnKind) (decoded : DecodedInstruction) : state S E (option InsnKind) :=
  trace_instruction kind decoded;;
  pc ← gets get_pc;
  v1 ← load_register (rs1 decoded);
  v2 ← load_rs2 decoded v1;
  '(out, new_pc) ← lift (unwrap (compute kind decoded pc v1 v2));
  if negb (ByteAddr.is_aligned new_pc) then trap_then InstructionMisaligned kind else
  store_register (rd decoded) out;;
  modify (set_pc new_pc);;
  mret (Some kind).

(* L457-465 Emulator::step_branch, the condition *)
Definition br_cond (kind : InsnKind) (v1 v2 : Z) : option bool :=
  match kind with
  | Beq => Some (v1 =? v2)
  | Bne => Some (negb (v1 =? v2))
  | Blt => Some (signed 32 v1 <? signed 32 v2)
  | Bge => Some (signed 32 v2 <=? signed 32 v1)
  | BltU => Some (v1 <? v2)
  | BgeU => Some (v2 <=? v1)
  | _ => None
  end.

(* L445-481 Emulator::step_branch *)
Definition step_branch (kind : InsnKind) (decoded : DecodedInstruction) : state S E (option InsnKind) :=
  trace_instruction kind decoded;;
  pc ← gets get_pc;
  v1 ← load_register (rs1 decoded);
  v2 ← load_rs2 decoded v1;
  c ← lift (unwrap (br_cond kind v1 v2));
  let new_pc := if c : bool then ByteAddr.wrapping_add pc (imm_b decoded)
                else ByteAddr.add_usize pc WORD_SIZE in
  if negb (ByteAddr.is_aligned new_pc) then trap_then InstructionMisaligned kind else
  version ← gets circuit_version;
  (if version =? RV32IM_V2_CIRCUIT_VERSION then store_register 0 0 else mret tt);;
  modify (set_pc new_pc);;
  mret (Some kind).

(* L499-531 Emulator::step_load, the value or the misaligned access; [None] is [unreachable!()] *)
Definition load_value (kind : InsnKind) (addr data : Z) : option (option Z) :=
  let shift := 8 * (addr .& 3) in
  match kind with
  | Lb => let out := (data .>> shift) .& 0xff in
          Some (Some (if negb (out .& 0x80 =? 0) then out .| 0xffffff00 else out))
  | Lh => if negb (addr .& 0x01 =? 0) then Some None else
          let out := (data .>> shift) .& 0xffff in
          Some (Some (if negb (out .& 0x8000 =? 0) then out .| 0xffff0000 else out))
  | Lw => if negb (addr .& 0x03 =? 0) then Some None else Some (Some data)
  | LbU => Some (Some ((data .>> shift) .& 0xff))
  | LhU => if negb (addr .& 0x01 =? 0) then Some None else
           Some (Some ((data .>> shift) .& 0xffff))
  | _ => None
  end.

(* L483-535 Emulator::step_load *)
Definition step_load (kind : InsnKind) (decoded : DecodedInstruction) : state S E (option InsnKind) :=
  trace_instruction kind decoded;;
  v1 ← load_register (rs1 decoded);
  let addr := v1 +32 imm_i decoded in
  ok ← gets (check_data_load addr);
  if negb ok then trap_then (LoadAccessFault addr) kind else
  data ← load_memory (ByteAddr.waddr addr);
  out ← lift (unwrap (load_value kind addr data));
  match out with
  | None => trap_then LoadAddressMisaligned kind
  | Some out =>
      store_register (rd decoded) out;;
      modify (fun s => set_pc (ByteAddr.add_usize (get_pc s) WORD_SIZE) s);;
      mret (Some kind)
  end.

(* L554-579 Emulator::step_store, the merged word or the misaligned access *)
Definition store_value (kind : InsnKind) (addr data v2 : Z) : option (option Z) :=
  let shift := 8 * (addr .& 3) in
  match kind with
  | Sb => let data := data .^ (data .& (0xff .<< shift)) in
          Some (Some (data .| ((v2 .& 0xff) .<< shift)))
  | Sh => if negb (addr .& 0x01 =? 0) then Some None else
          let data := data .^ (data .& (0xffff .<< shift)) in
          Some (Some (data .| ((v2 .& 0xffff) .<< shift)))
  | Sw => if negb (addr .& 0x03 =? 0) then Some None else Some (Some v2)
  | _ => None
  end.

(* L537-583 Emulator::step_store *)
Definition step_store (kind : InsnKind) (decoded : DecodedInstruction) : state S E (option InsnKind) :=
  trace_instruction kind decoded;;
  v1 ← load_register (rs1 decoded);
  v2 ← load_rs2 decoded v1;
  let addr := v1 +32 imm_s decoded in
  ok ← gets (check_data_store addr);
  if negb ok then trap_then StoreAccessFault kind else
  data ← load_memory (ByteAddr.waddr addr);
  data ← lift (unwrap (store_value kind addr data v2));
  match data with
  | None => trap_then (StoreAddressMisaligned addr) kind
  | Some data =>
      store_memory (ByteAddr.waddr addr) data;;
      modify (fun s => set_pc (ByteAddr.add_usize (get_pc s) WORD_SIZE) s);;
      mret (Some kind)
  end.

(* L585-604 Emulator::step_system *)
Definition step_system (kind : InsnKind) (decoded : DecodedInstruction) : state S E (option InsnKind) :=
  trace_instruction kind decoded;;
  b ← match kind with
      | Eany => match rs2 decoded with
                | 0 => ecall
                | 1 => trap Breakpoint
                | _ => trap (IllegalInstruction (insn decoded) 2)
                end
      | Mret => machine_ret
      | _ => panic
      end;
  mret (if b : bool then Some kind else None).

(* L230-296 Emulator::exec_rv32im *)
Definition exec_rv32im (word : Z) : state S E (option InsnKind) :=
  let decoded := Decoded.new word in
  match opcode decoded, func3 decoded, func7 decoded with
  | 0x33, 0, 0x00 => step_compute Add decoded
  | 0x33, 0, 0x20 => step_compute Sub decoded
  | 0x33, 1, 0x00 => step_compute Sll decoded
  | 0x33, 2, 0x00 => step_compute Slt decoded
  | 0x33, 3, 0x00 => step_compute SltU decoded
  | 0x33, 5, 0x00 => step_compute Srl decoded
  | 0x33, 4, 0x00 => step_compute Xor decoded
  | 0x33, 5, 0x20 => step_compute Sra decoded
  | 0x33, 6, 0x00 => step_compute Or decoded
  | 0x33, 7, 0x00 => step_compute And decoded
  | 0x33, 0, 0x01 => step_compute Mul decoded
  | 0x33, 1, 0x01 => step_compute MulH decoded
  | 0x33, 2, 0x01 => step_compute MulHSU decoded
  | 0x33, 3, 0x01 => step_compute MulHU decoded
  | 0x33, 4, 0x01 => step_compute Div decoded
  | 0x33, 5, 0x01 => step_compute DivU decoded
  | 0x33, 6, 0x01 => step_compute Rem decoded
  | 0x33, 7, 0x01 => step_compute RemU decoded
  | 0x13, 0, _ => step_compute AddI decoded
  | 0x13, 1, 0x00 => step_compute SllI decoded
  | 0x13, 2, _ => step_compute SltI decoded
  | 0x13, 3, _ => step_compute SltIU decoded
  | 0x13, 4, _ => step_compute XorI decoded
  | 0x13, 5, 0x00 => step_compute SrlI decoded
  | 0x13, 5, 0x20 => step_compute SraI decoded
  | 0x13, 6, _ => step_compute OrI decoded
  | 0x13, 7, _ => step_compute AndI decoded
  | 0x03, 0, _ => step_load Lb decoded
  | 0x03, 1, _ => step_load Lh decoded
  | 0x03, 2, _ => step_load Lw decoded
  | 0x03, 4, _ => step_load LbU decoded
  | 0x03, 5, _ => step_load LhU decoded
  | 0x23, 0, _ => step_store Sb decoded
  | 0x23, 1, _ => step_store Sh decoded
  | 0x23, 2, _ => step_store Sw decoded
  | 0x37, _, _ => step_compute Lui decoded
  | 0x17, _, _ => step_compute Auipc decoded
  | 0x63, 0, _ => step_branch Beq decoded
  | 0x63, 1, _ => step_branch Bne decoded
  | 0x63, 4, _ => step_branch Blt decoded
  | 0x63, 5, _ => step_branch Bge decoded
  | 0x63, 6, _ => step_branch BltU decoded
  | 0x63, 7, _ => step_branch BgeU decoded
  | 0x6f, _, _ => step_compute Jal decoded
  | 0x67, _, _ => step_compute JalR decoded
  | 0x73, 0, 0x18 => step_system Mret decoded
  | 0x73, 0, 0x00 => step_system Eany decoded
  | _, _, _ => trap_then (IllegalInstruction (insn decoded) 293) Invalid
  end.

(* L298-318 Emulator::step *)
Definition step : state S E unit :=
  pc ← gets get_pc;
  ok ← gets (check_insn_load pc);
  if negb ok then trap InstructionFault;; mret tt else
  word ← load_memory (ByteAddr.waddr pc);
  if negb (word .& 0x03 =? 0x03) then trap (IllegalInstruction word 0);; mret tt else
  r ← exec_rv32im word;
  match r with
  | Some kind => on_normal_end kind
  | None => mret tt
  end.

End Emulator.
End Emulator.
