(* ===== verification/IsaSpec.v ===== *)
(** * The RV32IM instruction-set reference

    An abstract syntax of the instructions, the encoder of the manual, and a step
    function over 32 registers and a byte-addressed memory, stated on the signed
    and unsigned integers the words stand for; then the theorem that the decoder
    of [Rv32im.v] inverts the encoder. *)
From S2P Require Export Rv32im.
Import Decoded.
Open Scope word_scope.
Open Scope Z_scope.

(** ** The instruction-set reference *)

Module Isa.

(** Instructions with their operands; the kind of each constructor ranges over
    the kinds of its format ([r_code], [i_code], ...). *)
Inductive instr :=
  | OP (k : InsnKind) (rd rs1 rs2 : Z)
  | OPIMM (k : InsnKind) (rd rs1 imm : Z)
  | SHIMM (k : InsnKind) (rd rs1 shamt : Z)
  | LOAD (k : InsnKind) (rd rs1 imm : Z)
  | STORE (k : InsnKind) (rs1 rs2 imm : Z)
  | BRANCH (k : InsnKind) (rs1 rs2 imm : Z)
  | JAL (rd imm : Z)
  | JALR (rd rs1 imm : Z)
  | LUI (rd imm20 : Z)
  | AUIPC (rd imm20 : Z).

Definition kind (i : instr) : InsnKind :=
  match i with
  | OP k _ _ _ | OPIMM k _ _ _ | SHIMM k _ _ _ | LOAD k _ _ _ | STORE k _ _ _ | BRANCH k _ _ _ => k
  | JAL _ _ => Jal | JALR _ _ _ => JalR | LUI _ _ => Lui | AUIPC _ _ => Auipc
  end.

(** [funct3] (and [funct7]) of the manual's tables. *)
Definition r_code (k : InsnKind) : option (Z * Z) :=
  match k with
  | Add => Some (0, 0) | Sub => Some (0, 32) | Sll => Some (1, 0) | Slt => Some (2, 0)
  | SltU => Some (3, 0) | Xor => Some (4, 0) | Srl => Some (5, 0) | Sra => Some (5, 32)
  | Or => Some (6, 0) | And => Some (7, 0)
  | Mul => Some (0, 1) | MulH => Some (1, 1) | MulHSU => Some (2, 1) | MulHU => Some (3, 1)
  | Div => Some (4, 1) | DivU => Some (5, 1) | Rem => Some (6, 1) | RemU => Some (7, 1)
  | _ => None
  end.
Definition i_code (k : InsnKind) : option (Z * InsnKind) :=
  match k with
  | AddI => Some (0, Add) | SltI => Some (2, Slt) | SltIU => Some (3, SltU)
  | XorI => Some (4, Xor) | OrI => Some (6, Or) | AndI => Some (7, And)
  | _ => None
  end.
Definition sh_code (k : InsnKind) : option (Z * Z * InsnKind) :=
  match k with
  | SllI => Some (1, 0, Sll) | SrlI => Some (5, 0, Srl) | SraI => Some (5, 32, Sra)
  | _ => None
  end.
(** Width in bytes and whether the loaded value is sign-extended. *)
Definition l_code (k : InsnKind) : option (Z * nat * bool) :=
  match k with
  | Lb => Some (0, 1%nat, true) | Lh => Some (1, 2%nat, true) | Lw => Some (2, 4%nat, false)
  | LbU => Some (4, 1%nat, false) | LhU => Some (5, 2%nat, false)
  | _ => None
  end.
Definition s_code (k : InsnKind) : option (Z * nat) :=
  match k with
  | Sb => Some (0, 1%nat) | Sh => Some (1, 2%nat) | Sw => Some (2, 4%nat) | _ => None
  end.
Definition b_code (k : InsnKind) : option Z :=
  match k with
  | Beq => Some 0 | Bne => Some 1 | Blt => Some 4 | Bge => Some 5 | BltU => Some 6 | BgeU => Some 7
  | _ => None
  end.

(** [n] bits of [x] from bit [lo]. *)
Definition bits (lo n x : Z) : Z := (x / 2 ^ lo) mod 2 ^ n.

Definition fields (f7 r2 r1 f3 r op : Z) : Z :=
  f7 * 2 ^ 25 + r2 * 2 ^ 20 + r1 * 2 ^ 15 + f3 * 2 ^ 12 + r * 2 ^ 7 + op.

Definition encode (i : instr) : option Z :=
  match i with
  | OP k rd rs1 rs2 =>
      '(f3, f7) ← r_code k; Some (fields f7 rs2 rs1 f3 rd 0x33)
  | OPIMM k rd rs1 imm =>
      '(f3, _) ← i_code k; Some (fields (bits 5 7 imm) (bits 0 5 imm) rs1 f3 rd 0x13)
  | SHIMM k rd rs1 shamt =>
      '(f3, f7, _) ← sh_code k; Some (fields f7 shamt rs1 f3 rd 0x13)
  | LOAD k rd rs1 imm =>
      '(f3, _, _) ← l_code k; Some (fields (bits 5 7 imm) (bits 0 5 imm) rs1 f3 rd 0x03)
  | STORE k rs1 rs2 imm =>
      '(f3, _) ← s_code k; Some (fields (bits 5 7 imm) rs2 rs1 f3 (bits 0 5 imm) 0x23)
  | BRANCH k rs1 rs2 imm =>
      f3 ← b_code k;
      Some (fields (bits 12 1 imm * 64 + bits 5 6 imm) rs2 rs1 f3 (bits 1 4 imm * 2 + bits 11 1 imm) 0x63)
  | JAL rd imm =>
      Some (fields (bits 20 1 imm * 64 + bits 5 6 imm) (bits 1 4 imm * 2 + bits 11 1 imm)
        (bits 15 5 imm) (bits 12 3 imm) rd 0x6f)
  | JALR rd rs1 imm => Some (fields (bits 5 7 imm) (bits 0 5 imm) rs1 0 rd 0x67)
  | LUI rd u => Some (fields (bits 13 7 u) (bits 8 5 u) (bits 3 5 u) (bits 0 3 u) rd 0x37)
  | AUIPC rd u => Some (fields (bits 13 7 u) (bits 8 5 u) (bits 3 5 u) (bits 0 3 u) rd 0x17)
  end.

Definition is_reg (r : Z) : Prop := 0 <= r < 32.
Definition is_imm12 (i : Z) : Prop := -2048 <= i < 2048.

(** Operand ranges of the assembly language. *)
Definition wf (i : instr) : Prop :=
  match i with
  | OP _ rd rs1 rs2 => is_reg rd /\ is_reg rs1 /\ is_reg rs2
  | OPIMM _ rd rs1 imm | LOAD _ rd rs1 imm | JALR rd rs1 imm => is_reg rd /\ is_reg rs1 /\ is_imm12 imm
  | SHIMM _ rd rs1 shamt => is_reg rd /\ is_reg rs1 /\ 0 <= shamt < 32
  | STORE _ rs1 rs2 imm => is_reg rs1 /\ is_reg rs2 /\ is_imm12 imm
  | BRANCH _ rs1 rs2 imm => is_reg rs1 /\ is_reg rs2 /\ -4096 <= imm < 4096 /\ imm mod 2 = 0
  | JAL rd imm => is_reg rd /\ -2^20 <= imm < 2^20 /\ imm mod 2 = 0
  | LUI rd u | AUIPC rd u => is_reg rd /\ 0 <= u < 2^20
  end.

(** Arithmetic on registers, by the integers the words stand for. *)
Definition alu (k : InsnKind) (a b : Z) : Z :=
  let sa := signed 32 a in
  let sb := signed 32 b in
  match k with
  | Add => wrap 32 (a + b)
  | Sub => wrap 32 (a - b)
  | Xor => Z.lxor a b
  | Or => Z.lor a b
  | And => Z.land a b
  | Sll => wrap 32 (a * 2 ^ (b mod 32))
  | Srl => a / 2 ^ (b mod 32)
  | Sra => wrap 32 (sa / 2 ^ (b mod 32))
  | Slt => Z.b2z (sa <? sb)
  | SltU => Z.b2z (a <? b)
  | Mul => wrap 32 (sa * sb)
  | MulH => wrap 32 (sa * sb / 2 ^ 32)
  | MulHSU => wrap 32 (sa * b / 2 ^ 32)
  | MulHU => a * b / 2 ^ 32
  | Div => if b =? 0 then 2 ^ 32 - 1 else wrap 32 (Z.quot sa sb)
  | DivU => if b =? 0 then 2 ^ 32 - 1 else a / b
  | Rem => if b =? 0 then a else wrap 32 (Z.rem sa sb)
  | RemU => if b =? 0 then a else a mod b
  | _ => 0
  end.

Definition taken (k : InsnKind) (a b : Z) : bool :=
  match k with
  | Beq => a =? b
  | Bne => negb (a =? b)
  | Blt => signed 32 a <? signed 32 b
  | Bge => signed 32 b <=? signed 32 a
  | BltU => a <? b
  | BgeU => b <=? a
  | _ => false
  end.

(** The architectural state of user mode, with a byte-addressed memory. *)
Record isa := mkIsa { pc : Z; reg : Z -> Z; mem : Z -> Z }.

Record isa_eq (m m' : isa) : Prop := {
  eq_pc : pc m = pc m';
  eq_reg : forall r, reg m r = reg m' r;
  eq_mem : forall a, mem m a = mem m' a;
}.

Definition isa_wf (m : isa) : Prop :=
  u32 (pc m) /\ (forall r, u32 (reg m r)) /\ (forall a, u8 (mem m a)) /\ reg m 0 = 0.

Definition with_pc (m : isa) (p : Z) : isa := mkIsa p (reg m) (mem m).
Definition set_reg (m : isa) (r v : Z) : isa :=
  if r =? 0 then m else mkIsa (pc m) (fun r' => if r' =? r then v else reg m r') (mem m).

(** The little-endian value of [n] bytes, and the memory with [n] bytes replaced. *)
Fixpoint le_load (mem : Z -> Z) (a : Z) (n : nat) : Z :=
  match n with O => 0 | S n => mem a + 256 * le_load mem (a + 1) n end.
Definition le_store (mem : Z -> Z) (a : Z) (n : nat) (v : Z) : Z -> Z :=
  fun x => if (a <=? x) && (x <? a + Z.of_nat n) then (v / 256 ^ (x - a)) mod 256 else mem x.
Definition store (m : isa) (a : Z) (n : nat) (v : Z) : isa :=
  mkIsa (pc m) (reg m) (le_store (mem m) a n v).

Definition sext (n : nat) (v : Z) : Z :=
  let w := 8 * Z.of_nat n in wrap 32 (signed w v).

Section Exec.
Context (may_load may_store : Z -> bool).

(** One instruction: an exception with no state change, or the next state. *)
Definition exec (m : isa) (i : instr) : Exception + isa :=
  let next := wrap 32 (pc m + 4) in
  let goto m t := if t mod 4 =? 0 then inr (with_pc m t) else inl InstructionMisaligned in
  match i with
  | OP k rd rs1 rs2 => goto (set_reg m rd (alu k (reg m rs1) (reg m rs2))) next
  | OPIMM k rd rs1 imm =>
      let k := from_option snd k (i_code k) in
      goto (set_reg m rd (alu k (reg m rs1) (wrap 32 imm))) next
  | SHIMM k rd rs1 shamt =>
      let k := from_option snd k (sh_code k) in
      goto (set_reg m rd (alu k (reg m rs1) shamt)) next
  | LOAD k rd rs1 imm =>
      let a := wrap 32 (reg m rs1 + imm) in
      let '(_, n, s) := default (0, 1%nat, false) (l_code k) in
      if negb (may_load a) then inl (LoadAccessFault a)
      else if negb (a mod Z.of_nat n =? 0) then inl LoadAddressMisaligned
      else let v := le_load (mem m) a n in
           goto (set_reg m rd (if s then sext n v else v)) next
  | STORE k rs1 rs2 imm =>
      let a := wrap 32 (reg m rs1 + imm) in
      let '(_, n) := default (0, 1%nat) (s_code k) in
      if negb (may_store a) then inl StoreAccessFault
      else if negb (a mod Z.of_nat n =? 0) then inl (StoreAddressMisaligned a)
      else goto (store m a n (reg m rs2)) next
  | BRANCH k rs1 rs2 imm =>
      goto m (if taken k (reg m rs1) (reg m rs2) then wrap 32 (pc m + imm) else next)
  | JAL rd imm => goto (set_reg m rd next) (wrap 32 (pc m + imm))
  | JALR rd rs1 imm =>
      let t := wrap 32 (reg m rs1 + imm) in
      goto (set_reg m rd next) (t - t mod 2)
  | LUI rd u => goto (set_reg m rd (u * 4096)) next
  | AUIPC rd u => goto (set_reg m rd (wrap 32 (pc m + u * 4096))) next
  end.

(** The memory address an instruction's data access touches. *)
Definition data_addr (m : isa) (i : instr) : option Z :=
  match i with
  | LOAD _ _ rs1 imm | STORE _ rs1 _ imm => Some (wrap 32 (reg m rs1 + imm))
  | _ => None
  end.

End Exec.
End Isa.

(** ** Decoding inverts encoding *)

Lemma field_at x s k : 0 <= s -> 0 <= k ->
  Z.shiftr (Z.land x (Z.shiftl (Z.ones k) s)) s = (x / 2 ^ s) mod 2 ^ k.
Proof.
  intros. rewrite Z.shiftr_land, Z.shiftr_shiftl_l, Z.sub_diag, Z.shiftl_0_r by lia.
  by rewrite Z.land_ones, Z.shiftr_div_pow2 by lia.
Qed.

Lemma decoded_new x : Decoded.new x = {|
  insn := x; top_bit := (x / 2 ^ 31) mod 2; func7 := (x / 2 ^ 25) mod 2 ^ 7;
  rs2 := (x / 2 ^ 20) mod 2 ^ 5; rs1 := (x / 2 ^ 15) mod 2 ^ 5;
  func3 := (x / 2 ^ 12) mod 2 ^ 3; rd := (x / 2 ^ 7) mod 2 ^ 5; opcode := x mod 2 ^ 7 |}.
Proof.
  unfold Decoded.new. f_equal; try exact (field_at x _ _ ltac:(lia) ltac:(lia)).
  - exact (field_at x 31 1 ltac:(lia) ltac:(lia)).
  - exact (field_at x 25 7 ltac:(lia) ltac:(lia)).
  - exact (field_at x 20 5 ltac:(lia) ltac:(lia)).
  - exact (field_at x 15 5 ltac:(lia) ltac:(lia)).
  - exact (field_at x 12 3 ltac:(lia) ltac:(lia)).
  - exact (field_at x 7 5 ltac:(lia) ltac:(lia)).
  - change 127 with (Z.ones 7). by rewrite Z.land_ones by lia.
Qed.

(** Field ranges of a 32-bit instruction word. *)
Definition fields_wf (f7 r2 r1 f3 r op : Z) : Prop :=
  0 <= f7 < 128 /\ 0 <= r2 < 32 /\ 0 <= r1 < 32 /\ 0 <= f3 < 8 /\ 0 <= r < 32 /\ 0 <= op < 128.

Lemma decoded_fields f7 r2 r1 f3 r op : fields_wf f7 r2 r1 f3 r op ->
  Decoded.new (Isa.fields f7 r2 r1 f3 r op) =
  mkDecoded (Isa.fields f7 r2 r1 f3 r op) (f7 / 64) f7 r2 r1 f3 r op.
Proof.
  unfold fields_wf. intros (?&?&?&?&?&?). rewrite decoded_new. unfold Isa.fields.
  assert (Hd : forall s h l, 0 <= l < 2 ^ s -> (h * 2 ^ s + l) / 2 ^ s = h).
  { intros s h l Hl. rewrite Z.div_add_l by lia. rewrite Z.div_small by lia. lia. }
  set (x := f7 * 2 ^ 25 + r2 * 2 ^ 20 + r1 * 2 ^ 15 + f3 * 2 ^ 12 + r * 2 ^ 7 + op).
  f_equal.
  - replace x with (f7 / 64 * 2 ^ 31 + (f7 mod 64 * 2 ^ 25 + r2 * 2 ^ 20 + r1 * 2 ^ 15 + f3 * 2 ^ 12 + r * 2 ^ 7 + op))
      by (unfold x; pose proof (Z.div_mod f7 64); lia).
    pose proof (Z.mod_pos_bound f7 64). rewrite Hd by lia.
    apply Z.mod_small. split; [apply Z.div_pos; lia|apply Z.div_lt_upper_bound; lia].
  - replace x with (f7 * 2 ^ 25 + (r2 * 2 ^ 20 + r1 * 2 ^ 15 + f3 * 2 ^ 12 + r * 2 ^ 7 + op)) by (unfold x; lia).
    rewrite Hd by lia. apply Z.mod_small; lia.
  - replace x with ((f7 * 32 + r2) * 2 ^ 20 + (r1 * 2 ^ 15 + f3 * 2 ^ 12 + r * 2 ^ 7 + op)) by (unfold x; lia).
    rewrite Hd by lia. rewrite Z.add_comm, Z.mod_add by lia. apply Z.mod_small; lia.
  - replace x with (((f7 * 32 + r2) * 32 + r1) * 2 ^ 15 + (f3 * 2 ^ 12 + r * 2 ^ 7 + op)) by (unfold x; lia).
    rewrite Hd by lia. rewrite Z.add_comm, Z.mod_add by lia. apply Z.mod_small; lia.
  - replace x with ((((f7 * 32 + r2) * 32 + r1) * 8 + f3) * 2 ^ 12 + (r * 2 ^ 7 + op)) by (unfold x; lia).
    rewrite Hd by lia. rewrite Z.add_comm, Z.mod_add by lia. apply Z.mod_small; lia.
  - replace x with (((((f7 * 32 + r2) * 32 + r1) * 8 + f3) * 32 + r) * 2 ^ 7 + op) by (unfold x; lia).
    rewrite Hd by lia. rewrite Z.add_comm, Z.mod_add by lia. apply Z.mod_small; lia.
  - replace x with (op + ((((f7 * 32 + r2) * 32 + r1) * 8 + f3) * 32 + r) * 2 ^ 7) by (unfold x; lia).
    rewrite Z.mod_add by lia. apply Z.mod_small; lia.
Qed.

(** A disjunction of disjoint bit fields is their sum. *)
Lemma lor_add a s b : 0 <= s -> 0 <= b < 2 ^ s -> Z.lor (a * 2 ^ s) b = a * 2 ^ s + b.
Proof.
  intros Hs Hb. rewrite <- Z.lxor_lor, <- Z.add_nocarry_lxor; [done|..];
  zbits; rewrite Z.land_spec, Z.bits_0; destruct (Z.ltb_spec i s);
    [rewrite Z.mul_pow2_bits_low by lia|rewrite (fits_testbit_high s b) by (unfold fits; lia)|
     rewrite Z.mul_pow2_bits_low by lia|rewrite (fits_testbit_high s b) by (unfold fits; lia)];
    by rewrite ?andb_false_r.
Qed.

Lemma lor_add' x a s b : 0 <= s -> 0 <= b < 2 ^ s -> x = a * 2 ^ s -> Z.lor x b = x + b.
Proof. intros ? ? ->. by apply lor_add. Qed.

Lemma shl32_small a s : 0 <= s -> 0 <= a * 2 ^ s < 2 ^ 32 -> (a .<< s)%word = a * 2 ^ s.
Proof. intros. unfold shl32. rewrite Z.shiftl_mul_pow2 by lia. apply wrap_small. done. Qed.

Lemma land_1 x : Z.land x 1 = x mod 2.
Proof. exact (Z.land_ones x 1 ltac:(lia)). Qed.
Lemma land_3 x : Z.land x 3 = x mod 4.
Proof. exact (Z.land_ones x 2 ltac:(lia)). Qed.
Lemma land_1f x : Z.land x 0x1f = x mod 32.
Proof. exact (Z.land_ones x 5 ltac:(lia)). Qed.
Lemma land_3f x : Z.land x 0x3f = x mod 64.
Proof. exact (Z.land_ones x 6 ltac:(lia)). Qed.
Lemma land_ff x : Z.land x 0xff = x mod 256.
Proof. exact (Z.land_ones x 8 ltac:(lia)). Qed.
Lemma land_ffff x : Z.land x 0xffff = x mod 65536.
Proof. exact (Z.land_ones x 16 ltac:(lia)). Qed.

Lemma land_high x lo w : 0 <= lo <= w -> fits w x ->
  Z.land x (2 ^ w - 2 ^ lo) = x - x mod 2 ^ lo.
Proof.
  intros Hlo Hx.
  assert (E : 2 ^ w - 2 ^ lo = Z.shiftl (Z.ones (w - lo)) lo).
  { rewrite Z.shiftl_mul_pow2, Z.ones_equiv by lia.
    rewrite <- Z.sub_1_r, Z.mul_sub_distr_r, <- Z.pow_add_r by lia.
    replace (w - lo + lo) with w by lia. lia. }
  rewrite E. transitivity (Z.shiftl (Z.shiftr x lo) lo).
  - zbits. rewrite Z.land_spec, !Z.shiftl_spec by lia.
    destruct (Z.ltb_spec i lo).
    { rewrite !(Z.testbit_neg_r _ (i - lo)) by lia. by rewrite andb_false_r. }
    rewrite Z.shiftr_spec by lia. replace (i - lo + lo) with i by lia.
    destruct (Z.ltb_spec i w).
    + rewrite Z.ones_spec_low by lia. apply andb_true_r.
    + rewrite (fits_testbit_high w x) by done. done.
  - rewrite Z.shiftl_mul_pow2, Z.shiftr_div_pow2 by lia.
    pose proof (Z.div_mod x (2 ^ lo)). lia.
Qed.

Lemma land_1e x : 0 <= x < 32 -> Z.land x 0x1e = x - x mod 2.
Proof. intros. exact (land_high x 1 5 ltac:(lia) ltac:(unfold fits; lia)). Qed.

Lemma wrap32_signed x : -2^31 <= x < 2^31 -> wrap 32 x = if x <? 0 then x + 2^32 else x.
Proof.
  intros. unfold wrap. destruct (Z.ltb_spec x 0).
  - symmetry. apply (Z.mod_unique_pos _ _ (-1)); lia.
  - apply Z.mod_small; lia.
Qed.

Ltac bits_lia := unfold Isa.bits in *; cbv [Z.pow Z.pow_pos Pos.iter] in *;
  Z.to_euclidean_division_equations; lia.

Section Immediates.
Context (w t f7 r2 r1 f3 r op : Z).
Hypothesis Hf : fields_wf f7 r2 r1 f3 r op.
Let d := mkDecoded w (f7 / 64) f7 r2 r1 f3 r op.

Lemma top_range : f7 / 64 = 0 /\ f7 < 64 \/ f7 / 64 = 1 /\ 64 <= f7.
Proof. destruct Hf. Z.to_euclidean_division_equations; lia. Qed.

Lemma top_mul k : 0 <= k < 2 ^ 32 -> (f7 / 64) *32 k = f7 / 64 * k.
Proof. intros. unfold mul32. apply wrap_small. unfold fits. destruct top_range as [[-> ?]|[-> ?]]; lia. Qed.

Lemma imm_i_sum : imm_i d = f7 / 64 * 0xfffff000 + f7 * 32 + r2.
Proof.
  destruct Hf as (?&?&?&?&?&?). unfold imm_i, d. cbn [top_bit func7 rs2].
  rewrite top_mul, (shl32_small f7 5) by lia.
  rewrite (lor_add' (f7 / 64 * 0xfffff000) (f7 / 64 * 0xfffff) 12) by lia.
  by rewrite (lor_add' _ (f7 / 64 * 0x7ffff80 + f7) 5) by lia.
Qed.

Lemma imm_s_sum : imm_s d = f7 / 64 * 0xfffff000 + f7 * 32 + r.
Proof.
  destruct Hf as (?&?&?&?&?&?). unfold imm_s, d. cbn [top_bit func7 rd].
  rewrite top_mul, (shl32_small f7 5) by lia.
  rewrite (lor_add' (f7 / 64 * 0xfffff000) (f7 / 64 * 0xfffff) 12) by lia.
  by rewrite (lor_add' _ (f7 / 64 * 0x7ffff80 + f7) 5) by lia.
Qed.

Lemma imm_b_sum :
  imm_b d = f7 / 64 * 0xfffff000 + r mod 2 * 2048 + f7 mod 64 * 32 + (r - r mod 2).
Proof.
  destruct Hf as (?&?&?&?&?&?). unfold imm_b, d. cbn [top_bit func7 rd].
  rewrite land_1, land_3f, land_1e by lia.
  pose proof (Z.mod_pos_bound r 2 ltac:(lia)). pose proof (Z.mod_pos_bound f7 64 ltac:(lia)).
  pose proof (Z.mod_le r 2 ltac:(lia) ltac:(lia)).
  rewrite top_mul, (shl32_small (r mod 2) 11), (shl32_small (f7 mod 64) 5) by lia.
  rewrite (lor_add' (f7 / 64 * 0xfffff000) (f7 / 64 * 0xfffff) 12) by lia.
  rewrite (lor_add' (f7 / 64 * 0xfffff000 + r mod 2 * 2 ^ 11) (f7 / 64 * 0x1ffffe + r mod 2) 11) by lia.
  by rewrite (lor_add' _ (f7 / 64 * 0x7ffff80 + r mod 2 * 64 + f7 mod 64) 5) by lia.
Qed.

Lemma imm_j_sum :
  imm_j d = f7 / 64 * 0xfff00000 + r1 * 2 ^ 15 + f3 * 2 ^ 12 + r2 mod 2 * 2048
            + f7 mod 64 * 32 + (r2 - r2 mod 2).
Proof.
  destruct Hf as (?&?&?&?&?&?). unfold imm_j, d. cbn [top_bit func7 rs1 rs2 func3].
  rewrite land_1, land_3f, land_1e by lia.
  pose proof (Z.mod_pos_bound r2 2 ltac:(lia)). pose proof (Z.mod_pos_bound f7 64 ltac:(lia)).
  pose proof (Z.mod_le r2 2 ltac:(lia) ltac:(lia)).
  rewrite top_mul, (shl32_small (r2 mod 2) 11), (shl32_small (f7 mod 64) 5),
    (shl32_small r1 15), (shl32_small f3 12) by lia.
  rewrite (lor_add' (f7 / 64 * 0xfff00000) (f7 / 64 * 0xfff) 20) by lia.
  rewrite (lor_add' (f7 / 64 * 0xfff00000 + r1 * 2 ^ 15) (f7 / 64 * 0x1ffe0 + r1) 15) by lia.
  rewrite (lor_add' (f7 / 64 * 0xfff00000 + r1 * 2 ^ 15 + f3 * 2 ^ 12) (f7 / 64 * 0xfff00 + r1 * 8 + f3) 12) by lia.
  rewrite (lor_add' (f7 / 64 * 0xfff00000 + r1 * 2 ^ 15 + f3 * 2 ^ 12 + r2 mod 2 * 2 ^ 11)
    (f7 / 64 * 0x1ffe00 + r1 * 16 + f3 * 2 + r2 mod 2) 11) by lia.
  by rewrite (lor_add' _ (f7 / 64 * 0x7ff8000 + r1 * 1024 + f3 * 128 + r2 mod 2 * 64 + f7 mod 64) 5) by lia.
Qed.

End Immediates.

Lemma imm_u_field d u l : insn d = u * 4096 + l -> 0 <= l < 4096 -> 0 <= u < 2 ^ 20 ->
  imm_u d = u * 4096.
Proof.
  intros E Hl Hu. unfold imm_u. rewrite E.
  transitivity (u * 4096 + l - (u * 4096 + l) mod 2 ^ 12).
  - exact (land_high (u * 4096 + l) 12 32 ltac:(lia) ltac:(unfold fits; lia)).
  - rewrite Z.add_comm, Z.mod_add, Z.mod_small by lia. lia.
Qed.

Import Isa.

(** What the decoder reads back from an instruction. *)
Definition decode_spec (i : instr) (d : DecodedInstruction) : Prop :=
  match i with
  | OP _ rd' rs1' rs2' => rd d = rd' /\ rs1 d = rs1' /\ rs2 d = rs2'
  | OPIMM _ rd' rs1' imm | LOAD _ rd' rs1' imm | JALR rd' rs1' imm =>
      rd d = rd' /\ rs1 d = rs1' /\ imm_i d = wrap 32 imm
  | SHIMM _ rd' rs1' shamt => rd d = rd' /\ rs1 d = rs1' /\ (imm_i d) mod 32 = shamt
  | STORE _ rs1' rs2' imm => rs1 d = rs1' /\ rs2 d = rs2' /\ imm_s d = wrap 32 imm
  | BRANCH _ rs1' rs2' imm => rs1 d = rs1' /\ rs2 d = rs2' /\ imm_b d = wrap 32 imm
  | JAL rd' imm => rd d = rd' /\ imm_j d = wrap 32 imm
  | LUI rd' u | AUIPC rd' u => rd d = rd' /\ imm_u d = u * 4096
  end.

(** The fields an instruction is encoded into. *)
Definition instr_fields (i : instr) : Z * Z * Z * Z * Z * Z :=
  match i with
  | OP k rd rs1 rs2 => let '(f3, f7) := default (0, 0) (r_code k) in (f7, rs2, rs1, f3, rd, 0x33)
  | OPIMM k rd rs1 imm =>
      let '(f3, _) := default (0, Add) (i_code k) in (bits 5 7 imm, bits 0 5 imm, rs1, f3, rd, 0x13)
  | SHIMM k rd rs1 shamt =>
      let '(f3, f7, _) := default (0, 0, Add) (sh_code k) in (f7, shamt, rs1, f3, rd, 0x13)
  | LOAD k rd rs1 imm =>
      let '(f3, _, _) := default (0, 1%nat, true) (l_code k) in
      (bits 5 7 imm, bits 0 5 imm, rs1, f3, rd, 0x03)
  | STORE k rs1 rs2 imm =>
      let '(f3, _) := default (0, 1%nat) (s_code k) in
      (bits 5 7 imm, rs2, rs1, f3, bits 0 5 imm, 0x23)
  | BRANCH k rs1 rs2 imm =>
      (bits 12 1 imm * 64 + bits 5 6 imm, rs2, rs1, default 0 (b_code k),
       bits 1 4 imm * 2 + bits 11 1 imm, 0x63)
  | JAL rd imm => (bits 20 1 imm * 64 + bits 5 6 imm, bits 1 4 imm * 2 + bits 11 1 imm,
                   bits 15 5 imm, bits 12 3 imm, rd, 0x6f)
  | JALR rd rs1 imm => (bits 5 7 imm, bits 0 5 imm, rs1, 0, rd, 0x67)
  | LUI rd u => (bits 13 7 u, bits 8 5 u, bits 3 5 u, bits 0 3 u, rd, 0x37)
  | AUIPC rd u => (bits 13 7 u, bits 8 5 u, bits 3 5 u, bits 0 3 u, rd, 0x17)
  end.

Lemma bits_range lo n x : 0 <= n -> 0 <= bits lo n x < 2 ^ n.
Proof. intros. unfold bits. apply Z.mod_pos_bound. lia. Qed.

Ltac bits_ranges :=
  repeat match goal with
  | |- context [bits ?lo ?n ?x] =>
      lazymatch goal with
      | _ : 0 <= bits lo n x < _ |- _ => fail
      | |- _ => pose proof (bits_range lo n x ltac:(lia))
      end
  end.

Lemma encode_fields i w : wf i -> encode i = Some w ->
  let '(f7, r2, r1, f3, r, op) := instr_fields i in
  w = fields f7 r2 r1 f3 r op /\ fields_wf f7 r2 r1 f3 r op.
Proof.
  intros Hwf He. unfold fields_wf.
  destruct i as [k x1 x2 x3|k x1 x2 x3|k x1 x2 x3|k x1 x2 x3|k x1 x2 x3|k x1 x2 x3|x1 x2|x1 x2 x3|x1 x2|x1 x2];
    try (destruct k; try discriminate He); injection He as <-;
    cbn in Hwf; unfold is_reg, is_imm12 in Hwf; (split; [reflexivity|]);
    bits_ranges; cbn [default from_option id fst snd r_code i_code sh_code l_code s_code b_code];
    repeat split; lia.
Qed.

Lemma imm_bits_I imm : is_imm12 imm ->
  bits 5 7 imm / 64 * 0xfffff000 + bits 5 7 imm * 32 + bits 0 5 imm = wrap 32 imm.
Proof.
  unfold is_imm12. intros. rewrite wrap32_signed by lia. destruct (Z.ltb_spec imm 0); bits_lia.
Qed.

Lemma imm_bits_B imm : -4096 <= imm < 4096 -> imm mod 2 = 0 ->
  let f7 := bits 12 1 imm * 64 + bits 5 6 imm in
  let r := bits 1 4 imm * 2 + bits 11 1 imm in
  f7 / 64 * 0xfffff000 + r mod 2 * 2048 + f7 mod 64 * 32 + (r - r mod 2) = wrap 32 imm.
Proof.
  intros ? ? f7 r. rewrite wrap32_signed by lia.
  assert (f7 / 64 = bits 12 1 imm /\ f7 mod 64 = bits 5 6 imm /\ r mod 2 = bits 11 1 imm) as (-> & -> & ->).
  { unfold f7, r. bits_ranges. Z.to_euclidean_division_equations. lia. }
  unfold r. destruct (Z.ltb_spec imm 0); bits_lia.
Qed.

Lemma imm_bits_J imm : -2^20 <= imm < 2^20 -> imm mod 2 = 0 ->
  let f7 := bits 20 1 imm * 64 + bits 5 6 imm in
  let r2 := bits 1 4 imm * 2 + bits 11 1 imm in
  f7 / 64 * 0xfff00000 + bits 15 5 imm * 2 ^ 15 + bits 12 3 imm * 2 ^ 12 + r2 mod 2 * 2048
    + f7 mod 64 * 32 + (r2 - r2 mod 2) = wrap 32 imm.
Proof.
  intros ? ? f7 r2. rewrite wrap32_signed by lia.
  assert (f7 / 64 = bits 20 1 imm /\ f7 mod 64 = bits 5 6 imm /\ r2 mod 2 = bits 11 1 imm) as (-> & -> & ->).
  { unfold f7, r2. bits_ranges. Z.to_euclidean_division_equations. lia. }
  unfold r2. destruct (Z.ltb_spec imm 0); bits_lia.
Qed.

Lemma imm_bits_U u : 0 <= u < 2 ^ 20 ->
  bits 13 7 u * 2 ^ 25 + bits 8 5 u * 2 ^ 20 + bits 3 5 u * 2 ^ 15 + bits 0 3 u * 2 ^ 12 = u * 4096.
Proof. intros. bits_lia. Qed.

Lemma decode_encode i w : wf i -> encode i = Some w -> decode_spec i (Decoded.new w).
Proof.
  intros Hwf He. pose proof (encode_fields i w Hwf He) as H.
  destruct i as [k x1 x2 x3|k x1 x2 x3|k x1 x2 x3|k x1 x2 x3|k x1 x2 x3|k x1 x2 x3|x1 x2|x1 x2 x3|x1 x2|x1 x2]; cbn in Hwf.
  all: try (destruct k; try discriminate He).
  all: cbn [instr_fields default from_option id r_code i_code sh_code l_code s_code b_code] in H.
  all: destruct H as [-> Hf]; rewrite (decoded_fields _ _ _ _ _ _ Hf); cbn [decode_spec rd rs1 rs2].
  all: rewrite ?(imm_i_sum _ _ _ _ _ _ _ Hf), ?(imm_s_sum _ _ _ _ _ _ _ Hf),
    ?(imm_b_sum _ _ _ _ _ _ _ Hf), ?(imm_j_sum _ _ _ _ _ _ _ Hf).
  all: rewrite ?imm_bits_I by tauto.
  all: rewrite ?imm_bits_B, ?imm_bits_J by tauto.
  all: try (unfold is_imm12 in *; tauto).
  all: split_and!; try done.
  all: try (Z.to_euclidean_division_equations; lia).
  all: lazymatch goal with |- imm_u (mkDecoded (fields _ _ _ _ _ ?op) _ _ _ _ _ _ _) = _ =>
    apply (imm_u_field _ _ (x1 * 2 ^ 7 + op)) end; [|unfold is_reg in *; lia|lia].
  all: cbn [insn]; unfold fields; rewrite <- (imm_bits_U x2) by lia; ring.
Qed.

(** The emulator routine an instruction is dispatched to. *)
Definition dispatch {S E} `{EmuContext S E} (i : instr) : DecodedInstruction -> state S E (option InsnKind) :=
  match i with
  | LOAD k _ _ _ => Emulator.step_load k
  | STORE k _ _ _ => Emulator.step_store k
  | BRANCH k _ _ _ => Emulator.step_branch k
  | _ => Emulator.step_compute (kind i)
  end.

Lemma exec_dispatch {S E} `{EmuContext S E} i w : wf i -> encode i = Some w ->
  Emulator.exec_rv32im w = dispatch i (Decoded.new w).
Proof.
  intros Hwf He. pose proof (encode_fields i w Hwf He) as H'.
  destruct i as [k x1 x2 x3|k x1 x2 x3|k x1 x2 x3|k x1 x2 x3|k x1 x2 x3|k x1 x2 x3|x1 x2|x1 x2 x3|x1 x2|x1 x2]; cbn in Hwf.
  all: try (destruct k; try discriminate He).
  all: cbn [instr_fields default from_option id r_code i_code sh_code l_code s_code b_code] in H'.
  all: destruct H' as [-> Hf]; unfold Emulator.exec_rv32im; rewrite (decoded_fields _ _ _ _ _ _ Hf).
  all: reflexivity.
Qed.

Lemma encode_word i w : wf i -> encode i = Some w -> u32 w /\ Z.land w 3 = 3.
Proof.
  intros Hwf He. pose proof (encode_fields i w Hwf He) as H.
  assert (Hop : snd (instr_fields i) mod 4 = 3).
  { destruct i as [k x1 x2 x3|k x1 x2 x3|k x1 x2 x3|k x1 x2 x3|k x1 x2 x3|k x1 x2 x3|x1 x2|x1 x2 x3|x1 x2|x1 x2]; try reflexivity; by destruct k. }
  destruct (instr_fields i) as [[[[[f7 r2] r1] f3] r] op]. cbn in Hop. destruct H as [-> Hf].
  unfold fields_wf, fields, fits in *. rewrite land_3. split; [lia|].
  rewrite <- Hop. Z.to_euclidean_division_equations. lia.
Qed.

(** Decoding inverts encoding: the encoding of every well-formed instruction
    is a 32-bit word with low bits [11]; the shifts and masks of [new] read back its
    registers, the five immediate formats read back the sign-extended immediate, and
    the opcode table sends the word to the routine and kind of that instruction. *)
Theorem decode_inverts_encode i w :
  wf i -> encode i = Some w ->
  u32 w /\ Z.land w 3 = 3 /\ decode_spec i (Decoded.new w) /\
  forall S E (H : EmuContext S E), Emulator.exec_rv32im w = dispatch i (Decoded.new w).
Proof.
  intros Hwf He. destruct (encode_word i w Hwf He). split_and!; [done..|by apply decode_encode|].
  intros. by apply exec_dispatch.
Qed.

Lemma decode_inverts_encode_witness :
  decode_spec (BRANCH BltU 5 6 (-2048)) (Decoded.new 0x8062e0e3).
Proof.
  apply (decode_inverts_encode (BRANCH BltU 5 6 (-2048)) 0x8062e0e3).
  - cbn [wf]. unfold is_reg. split_and!; try lia. reflexivity.
  - reflexivity.
Defined.
