(* ===== verification/IsaRefine.v ===== *)
(** * The emulator implements the instruction set

    [EmuLaws] states what a context promises (its registers, program counter and
    memory simulate a state of the reference); over any such context one step of
    the emulator is one instruction of the reference, exceptions included. *)
From S2P Require Export IsaSpec.
Import Decoded Isa.
Open Scope word_scope.
Open Scope Z_scope.

(** ** The arithmetic and the memory merges *)

Lemma signed_range w x : 1 <= w -> fits w x -> - 2 ^ (w - 1) <= signed w x < 2 ^ (w - 1).
Proof.
  intros Hw Hx. unfold signed, fits in *. replace (2 ^ w) with (2 * 2 ^ (w - 1)) in *.
  - destruct (Z.ltb_spec x (2 ^ (w - 1))); lia.
  - rewrite <- Z.pow_succ_r by lia. f_equal. lia.
Qed.

Lemma signed_wrap w x : 0 <= w -> wrap w (signed w x) = wrap w x.
Proof.
  intros. unfold signed, wrap. destruct (x <? 2 ^ (w - 1)); [done|].
  replace (x - 2 ^ w) with (x + (-1) * 2 ^ w) by lia. apply Z_mod_plus_full.
Qed.

Lemma signed_wrap_small w x : 1 <= w -> - 2 ^ (w - 1) <= x < 2 ^ (w - 1) -> signed w (wrap w x) = x.
Proof.
  intros Hw Hx. assert (E : 2 ^ w = 2 * 2 ^ (w - 1)).
  { rewrite <- Z.pow_succ_r by lia. f_equal. lia. }
  unfold signed, wrap. destruct (Z.ltb_spec x 0).
  - replace (x mod 2 ^ w) with (x + 2 ^ w).
    + destruct (Z.ltb_spec (x + 2 ^ w) (2 ^ (w - 1))); lia.
    + apply (Z.mod_unique_pos _ _ (-1)); lia.
  - rewrite Z.mod_small by lia. destruct (Z.ltb_spec x (2 ^ (w - 1))); lia.
Qed.

Lemma wrap_mul_r w a b c : 0 <= w -> wrap w b = wrap w c -> wrap w (a * b) = wrap w (a * c).
Proof. unfold wrap. intros Hw H. by rewrite <- Zmult_mod_idemp_r, H, Zmult_mod_idemp_r. Qed.

Lemma wrap_mul_signed a b : wrap 32 (signed 32 a * signed 32 b) = wrap 32 (a * b).
Proof.
  transitivity (wrap 32 (signed 32 a * b)).
  - apply wrap_mul_r; [lia|]. by apply signed_wrap.
  - rewrite !(Z.mul_comm _ b). apply wrap_mul_r; [lia|]. by apply signed_wrap.
Qed.

Lemma i64_mul_exact a b : - 2 ^ 63 <= a * b < 2 ^ 63 -> i64_wrapping_mul a b = a * b.
Proof. intros. apply signed_wrap_small; lia. Qed.

Lemma wrapping_div_quot a b : wrap 32 (i32_wrapping_div a b) = wrap 32 (Z.quot a b).
Proof.
  unfold i32_wrapping_div. destruct (Z.eqb_spec a (- 2 ^ 31)) as [->|]; [|done].
  destruct (Z.eqb_spec b (-1)) as [->|]; done.
Qed.

Lemma wrapping_rem_rem a b : wrap 32 (i32_wrapping_rem a b) = wrap 32 (Z.rem a b).
Proof.
  unfold i32_wrapping_rem. destruct (Z.eqb_spec a (- 2 ^ 31)) as [->|]; [|done].
  destruct (Z.eqb_spec b (-1)) as [->|]; done.
Qed.

Lemma sll_alu a b : u32 a -> (a .<< (b .& 0x1f))%word = alu Sll a b.
Proof.
  intros. unfold shl32, alu. rewrite land_1f.
  rewrite Z.shiftl_mul_pow2; [done|]. apply Z.mod_pos_bound; lia.
Qed.

Lemma srl_alu a b : (a .>> (b .& 0x1f))%word = alu Srl a b.
Proof. unfold alu. rewrite land_1f, Z.shiftr_div_pow2; [done|]. apply Z.mod_pos_bound; lia. Qed.

Lemma sra_alu a b : wrap 32 (signed 32 a .>> (b .& 0x1f))%word = alu Sra a b.
Proof. unfold alu. rewrite land_1f, Z.shiftr_div_pow2; [done|]. apply Z.mod_pos_bound; lia. Qed.

Lemma compute_alu k d p a b : u32 a -> u32 b -> is_Some (r_code k) ->
  Emulator.compute k d p a b = Some (alu k a b, ByteAddr.add_usize p WORD_SIZE).
Proof.
  intros Ha Hb [c Hk].
  pose proof (signed_range 32 a ltac:(lia) Ha) as Hsa. pose proof (signed_range 32 b ltac:(lia) Hb) as Hsb.
  destruct k; try discriminate Hk; cbn [Emulator.compute]; do 2 f_equal;
    rewrite ?sll_alu, ?srl_alu, ?sra_alu by done; try done; cbn [alu]; unfold fits in *.
  - symmetry. apply wrap_mul_signed.
  - unfold sign_extend_u32. rewrite i64_mul_exact by nia. by rewrite Z.shiftr_div_pow2 by lia.
  - unfold sign_extend_u32. rewrite i64_mul_exact by nia. by rewrite Z.shiftr_div_pow2 by lia.
  - unfold mul64. rewrite (wrap_small 64) by (unfold fits; nia).
    rewrite Z.shiftr_div_pow2 by lia. apply wrap_small. unfold fits.
    split; [apply Z.div_pos; nia|apply Z.div_lt_upper_bound; nia].
  - destruct (b =? 0); [done|]. apply wrapping_div_quot.
  - destruct (b =? 0); [done|]. apply wrapping_rem_rem.
Qed.

Lemma compute_imm k k' f3 d p a b : u32 a -> u32 (imm_i d) -> i_code k = Some (f3, k') ->
  Emulator.compute k d p a b = Some (alu k' a (imm_i d), ByteAddr.add_usize p WORD_SIZE).
Proof.
  intros Ha Hb Hk. destruct k; try discriminate Hk; injection Hk as <- <-; done.
Qed.

Lemma alu_shamt k a b c : b mod 32 = c -> (k = Sll \/ k = Srl \/ k = Sra) -> alu k a b = alu k a c.
Proof.
  intros <- Hk. unfold alu. rewrite Z.mod_mod by lia. by destruct Hk as [->|[->| ->]].
Qed.

Lemma compute_shift k f3 f7 k' d p a b c : u32 a -> sh_code k = Some (f3, f7, k') ->
  imm_i d mod 32 = c ->
  Emulator.compute k d p a b = Some (alu k' a c, ByteAddr.add_usize p WORD_SIZE).
Proof.
  intros Ha Hk Hc. rewrite <- (alu_shamt k' a _ c Hc) by (destruct k; try discriminate Hk; injection Hk as <- <- <-; tauto).
  destruct k; try discriminate Hk; injection Hk as <- <- <-; cbn [Emulator.compute];
    by rewrite ?sll_alu, ?srl_alu, ?sra_alu by done.
Qed.

Lemma br_cond_taken k a b : is_Some (b_code k) -> Emulator.br_cond k a b = Some (taken k a b).
Proof. intros [c Hk]. by destruct k. Qed.

Lemma alu_u32 k a b : u32 a -> u32 b -> u32 (alu k a b).
Proof.
  intros Ha Hb. assert (Hm := Z.mod_pos_bound b 32 ltac:(lia)).
  assert (Hmax : u32 (2 ^ 32 - 1)) by (unfold fits; lia).
  assert (Hbool : forall c, u32 (Z.b2z c)) by (intros []; unfold fits; cbn; lia).
  destruct k; cbn [alu]; try (apply wrap_fits; lia); try apply Hbool; try (unfold fits; lia).
  - by apply fits_lxor.
  - by apply fits_lor.
  - apply fits_land; unfold fits in *; lia.
  - unfold fits in *. split; [apply Z.div_pos; nia|apply Z.div_lt_upper_bound; nia].
  - rewrite <- Z.shiftr_div_pow2 by lia. by apply fits_shiftr; [lia|lia|].
  - destruct (b =? 0); [done|apply wrap_fits; lia].
  - destruct (Z.eqb_spec b 0); [done|]. unfold fits in *.
    split; [apply Z.div_pos; lia|apply Z.div_lt_upper_bound; nia].
  - destruct (b =? 0); [done|apply wrap_fits; lia].
  - destruct (Z.eqb_spec b 0); [done|]. unfold fits in *. pose proof (Z.mod_pos_bound a b). lia.
Qed.

Lemma lor_disjoint x y : Z.land x y = 0 -> Z.lor x y = x + y.
Proof. intros H. by rewrite <- Z.lxor_lor, Z.add_nocarry_lxor. Qed.

Lemma land_field x w s : 0 <= w -> 0 <= s ->
  Z.land x (Z.shiftl (Z.ones w) s) = (x / 2 ^ s) mod 2 ^ w * 2 ^ s.
Proof.
  intros. rewrite <- field_at by lia. rewrite <- Z.shiftl_mul_pow2 by lia. zbits.
  rewrite Z.shiftl_spec, !Z.land_spec by lia. destruct (Z.ltb_spec i s).
  - by rewrite Z.shiftl_spec_low, andb_false_r, Z.testbit_neg_r by lia.
  - by rewrite Z.shiftr_spec, Z.land_spec by lia; replace (i - s + s) with i by lia.
Qed.

(** Clearing a field of a word and writing another value into it. *)
Lemma merge_field x v w s : 0 <= w -> 0 <= s ->
  Z.lor (Z.lxor x (Z.land x (Z.shiftl (Z.ones w) s))) (Z.shiftl (Z.land v (Z.ones w)) s) =
  x + ((v mod 2 ^ w) - (x / 2 ^ s) mod 2 ^ w) * 2 ^ s.
Proof.
  intros. rewrite lor_disjoint.
  - assert (E : Z.lxor x (Z.land x (Z.shiftl (Z.ones w) s)) = x - (x / 2 ^ s) mod 2 ^ w * 2 ^ s).
    { rewrite <- land_field by done. rewrite Z.sub_nocarry_ldiff; zbits;
        rewrite ?Z.ldiff_spec, ?Z.lxor_spec, ?Z.land_spec, ?Z.bits_0;
        by destruct (Z.testbit x i), (Z.testbit (Z.shiftl _ _) i). }
    rewrite E, Z.shiftl_mul_pow2, Z.land_ones by lia. ring.
  - zbits. rewrite Z.land_spec, Z.lxor_spec, Z.land_spec, Z.bits_0, !Z.shiftl_spec by lia.
    rewrite Z.land_spec. by destruct (Z.testbit x i), (Z.testbit (Z.ones w) (i - s)), (Z.testbit v (i - s)).
Qed.

Lemma test_top x k : 0 <= k -> 0 <= x < 2 ^ (k + 1) ->
  (Z.land x (2 ^ (k + 1) - 2 ^ k) =? 0) = (x <? 2 ^ k).
Proof.
  intros Hk Hx. rewrite land_high by (unfold fits; lia).
  rewrite Z.pow_add_r in Hx by lia.
  destruct (Z.ltb_spec x (2 ^ k)).
  - rewrite Z.mod_small by lia. lia.
  - pose proof (Z.mod_pos_bound x (2 ^ k)). lia.
Qed.

Lemma sext_or k x hi : 0 < k < 32 -> 0 <= x < 2 ^ k -> hi = 2 ^ 32 - 2 ^ k ->
  (if negb (Z.land x (2 ^ k - 2 ^ (k - 1)) =? 0) then Z.lor x hi else x) = wrap 32 (signed k x).
Proof.
  intros Hk Hx ->. assert (E1 : 2 ^ k = 2 * 2 ^ (k - 1)).
  { rewrite <- Z.pow_succ_r by lia. f_equal. lia. }
  assert (E2 : 2 ^ 32 = 2 ^ (32 - k) * 2 ^ k) by (rewrite <- Z.pow_add_r by lia; f_equal; lia).
  pose proof (Z.pow_pos_nonneg 2 (k - 1)) as Hp. pose proof (Z.pow_pos_nonneg 2 (32 - k)) as Hp'.
  pose proof (Z.pow_le_mono_r 2 k 32) as Hm.
  pose proof (test_top x (k - 1) ltac:(lia)) as Ht. rewrite Z.sub_add in Ht. rewrite Ht by done.
  unfold signed. destruct (Z.ltb_spec x (2 ^ (k - 1))); cbn [negb].
  - rewrite wrap_small by (unfold fits; lia). done.
  - rewrite Z.lor_comm, (lor_add' _ (2 ^ (32 - k) - 1) k) by lia.
    unfold wrap. apply (Z.mod_unique_pos _ _ (-1)); lia.
Qed.

(** The word of memory a byte address falls in. *)
Definition word_at (mem : Z -> Z) (a : Z) : Z := le_load mem (4 * (a / 4)) 4.

Definition bytes_wf (mem : Z -> Z) : Prop := forall a, u8 (mem a).

Lemma pow256 n : 2 ^ (8 * n) = 256 ^ n.
Proof. destruct (Z.ltb_spec n 0); [rewrite !Z.pow_neg_r by lia; done|by rewrite Z.pow_mul_r by lia]. Qed.

Lemma le_load_app mem a m n :
  le_load mem a (m + n) = le_load mem a m + 256 ^ Z.of_nat m * le_load mem (a + Z.of_nat m) n.
Proof.
  revert a. induction m as [|m IH]; intros a; cbn [le_load Nat.add].
  - change (256 ^ Z.of_nat 0) with 1. rewrite Z.add_0_r. lia.
  - rewrite IH, Nat2Z.inj_succ, Z.pow_succ_r by lia.
    replace (a + 1 + Z.of_nat m) with (a + Z.succ (Z.of_nat m)) by lia. ring.
Qed.

Lemma le_load_range mem a n : bytes_wf mem -> 0 <= le_load mem a n < 256 ^ Z.of_nat n.
Proof.
  intros Hm. revert a. induction n as [|n IH]; intros a; cbn [le_load]; [done|].
  rewrite Nat2Z.inj_succ, Z.pow_succ_r by lia. specialize (IH (a + 1)). pose proof (Hm a) as Hb.
  unfold fits in Hb. lia.
Qed.

Lemma le_load_u32 mem a n : bytes_wf mem -> (n <= 4)%nat -> u32 (le_load mem a n).
Proof.
  intros Hm Hn. pose proof (le_load_range mem a n Hm). unfold fits.
  pose proof (Z.pow_le_mono_r 256 (Z.of_nat n) 4). lia.
Qed.

(** The word around [a]: the bytes before it, [n] bytes from it, the bytes after. *)
Lemma word_at_split mem a n : (Z.to_nat (a mod 4) + n <= 4)%nat ->
  word_at mem a = le_load mem (4 * (a / 4)) (Z.to_nat (a mod 4)) + 256 ^ (a mod 4) *
    (le_load mem a n + 256 ^ Z.of_nat n * le_load mem (a + Z.of_nat n) (4 - Z.to_nat (a mod 4) - n)).
Proof.
  intros Hn. assert (Hq := Z.mod_pos_bound a 4 ltac:(lia)). unfold word_at.
  replace 4%nat with (Z.to_nat (a mod 4) + (n + (4 - Z.to_nat (a mod 4) - n)))%nat at 1 by lia.
  rewrite !le_load_app, Z2Nat.id by lia.
  by replace (4 * (a / 4) + a mod 4) with a by (pose proof (Z.div_mod a 4); lia).
Qed.

Lemma word_extract mem a n : bytes_wf mem -> (Z.to_nat (a mod 4) + n <= 4)%nat ->
  (word_at mem a / 2 ^ (8 * (a mod 4))) mod 2 ^ (8 * Z.of_nat n) = le_load mem a n.
Proof.
  intros Hm Hn. assert (Hq := Z.mod_pos_bound a 4 ltac:(lia)).
  rewrite (word_at_split mem a n Hn), !pow256.
  pose proof (le_load_range mem (4 * (a / 4)) (Z.to_nat (a mod 4)) Hm) as H1.
  pose proof (le_load_range mem a n Hm) as H2. rewrite Z2Nat.id in H1 by lia.
  rewrite (Z.mul_comm (256 ^ (a mod 4))), Z.div_add by lia.
  rewrite (Z.div_small (le_load _ _ _)) by done. rewrite Z.add_0_l.
  by rewrite Z.add_comm, Z.mul_comm, Z.add_comm, Z.mod_add, Z.mod_small by lia.
Qed.

Lemma aligned_fits a n : (n = 1 \/ n = 2 \/ n = 4)%nat -> a mod Z.of_nat n = 0 ->
  (Z.to_nat (a mod 4) + n <= 4)%nat.
Proof. intros [->|[->| ->]] H; cbn in H; Z.to_euclidean_division_equations; lia. Qed.

Lemma load_value_spec k a mem f3 n s : bytes_wf mem -> l_code k = Some (f3, n, s) ->
  Emulator.load_value k a (word_at mem a) =
  Some (if negb (a mod Z.of_nat n =? 0) then None
        else Some (let v := le_load mem a n in if s then sext n v else v)).
Proof.
  intros Hm Hk.
  assert (Hr := fun n => le_load_range mem a n Hm).
  assert (Hx1 := word_extract mem a 1 Hm). change (2 ^ (8 * Z.of_nat 1)) with 256 in Hx1.
  assert (Hx2 := word_extract mem a 2 Hm). change (2 ^ (8 * Z.of_nat 2)) with 65536 in Hx2.
  assert (Hs := Z.mod_pos_bound a 4 ltac:(lia)).
  destruct k; try discriminate Hk; injection Hk as <- <- <-; cbn [Emulator.load_value];
    rewrite ?land_1, ?land_3, ?land_ff, ?land_ffff, ?Z.mod_1_r, ?Z.shiftr_div_pow2 by lia.
  - do 2 f_equal. rewrite Hx1 by lia. exact (sext_or 8 _ _ ltac:(lia) (Hr 1%nat) eq_refl).
  - change (Z.of_nat 2) with 2. destruct (Z.eqb_spec (a mod 2) 0); [|done]. cbn [negb]. do 2 f_equal.
    rewrite Hx2 by (apply aligned_fits; [lia|done]).
    exact (sext_or 16 _ _ ltac:(lia) (Hr 2%nat) eq_refl).
  - change (Z.of_nat 4) with 4. destruct (Z.eqb_spec (a mod 4) 0); [|done]. cbn [negb]. do 2 f_equal.
    unfold word_at. f_equal. pose proof (Z.div_mod a 4). lia.
  - do 2 f_equal. by rewrite Hx1 by lia.
  - change (Z.of_nat 2) with 2. destruct (Z.eqb_spec (a mod 2) 0); [|done]. cbn [negb]. do 2 f_equal.
    by rewrite Hx2 by (apply aligned_fits; [lia|done]).
Qed.

Lemma le_load_ext f g a n : (forall i, 0 <= i < Z.of_nat n -> f (a + i) = g (a + i)) ->
  le_load f a n = le_load g a n.
Proof.
  revert a. induction n as [|n IH]; intros a H; cbn [le_load]; [done|].
  pose proof (H 0 ltac:(lia)) as H0. rewrite Z.add_0_r in H0. rewrite H0, (IH (a + 1)); [done|].
  intros i Hi. rewrite <- !Z.add_assoc. apply H. lia.
Qed.

Lemma le_load_bytes f a n v : (forall i, 0 <= i < Z.of_nat n -> f (a + i) = (v / 256 ^ i) mod 256) ->
  le_load f a n = v mod 256 ^ Z.of_nat n.
Proof.
  revert a v. induction n as [|n IH]; intros a v H; cbn [le_load].
  - change (256 ^ Z.of_nat 0) with 1. by rewrite Z.mod_1_r.
  - pose proof (H 0 ltac:(lia)) as H0. rewrite Z.add_0_r, Z.div_1_r in H0.
    rewrite Nat2Z.inj_succ, Z.pow_succ_r, Z.rem_mul_r, H0 by lia.
    rewrite (IH (a + 1) (v / 256)); [done|].
    intros i Hi. rewrite <- Z.add_assoc, (H (1 + i)), Z.pow_add_r, Z.div_div by lia. done.
Qed.

Lemma le_load_byte mem b n i : bytes_wf mem -> 0 <= i < Z.of_nat n ->
  (le_load mem b n / 256 ^ i) mod 256 = mem (b + i).
Proof.
  intros Hm Hi. replace n with (Z.to_nat i + S (n - Z.to_nat i - 1))%nat by lia.
  rewrite le_load_app, Z2Nat.id by lia. cbn [le_load].
  pose proof (le_load_range mem b (Z.to_nat i) Hm) as Hr. rewrite Z2Nat.id in Hr by lia.
  rewrite Z.mul_comm, Z.div_add, Z.div_small, Z.add_0_l by lia.
  rewrite Z.mul_comm, Z.mod_add by lia. apply Z.mod_small. apply (Hm (b + i)).
Qed.

Lemma le_store_wf mem a n v : bytes_wf mem -> bytes_wf (le_store mem a n v).
Proof.
  intros Hm x. unfold le_store. destruct (_ && _); [|apply Hm]. unfold fits.
  apply Z.mod_pos_bound. lia.
Qed.

Lemma le_store_in mem a n v i : 0 <= i < Z.of_nat n -> le_store mem a n v (a + i) = (v / 256 ^ i) mod 256.
Proof.
  intros Hi. unfold le_store. destruct (Z.leb_spec a (a + i)), (Z.ltb_spec (a + i) (a + Z.of_nat n)); try lia.
  cbn [andb]. by replace (a + i - a) with i by lia.
Qed.

Lemma le_store_out mem a n v x : x < a \/ a + Z.of_nat n <= x -> le_store mem a n v x = mem x.
Proof. intros Hx. unfold le_store. by destruct (Z.leb_spec a x), (Z.ltb_spec x (a + Z.of_nat n)); try lia. Qed.

(** Writing the word around [a] that has the bytes of [mem'] gives [mem']. *)
Lemma store_word_at mem mem' a x : bytes_wf mem' -> (forall x, x / 4 <> a / 4 -> mem' x = mem x) ->
  le_store mem (4 * (a / 4)) 4 (word_at mem' a) x = mem' x.
Proof.
  intros Hm Hout. destruct (Z.eq_dec (x / 4) (a / 4)) as [E|E].
  - pose proof (Z.div_mod x 4). pose proof (Z.mod_pos_bound x 4).
    replace x with (4 * (a / 4) + x mod 4) by lia.
    rewrite le_store_in by lia. unfold word_at. rewrite le_load_byte by (done || lia). done.
  - rewrite le_store_out, Hout; [done..|].
    pose proof (Z.div_mod x 4). pose proof (Z.mod_pos_bound x 4).
    destruct (Z.le_gt_cases (4 * (a / 4) + 4) x); lia.
Qed.

Lemma word_at_store mem a n v : (Z.to_nat (a mod 4) + n <= 4)%nat ->
  word_at (le_store mem a n v) a =
  word_at mem a + (v mod 256 ^ Z.of_nat n - le_load mem a n) * 256 ^ (a mod 4).
Proof.
  intros Hn. rewrite !(word_at_split _ a n Hn).
  assert (Hq := Z.mod_pos_bound a 4 ltac:(lia)). pose proof (Z.div_mod a 4 ltac:(lia)) as Ha.
  rewrite (le_load_bytes (le_store mem a n v) a n v) by (intros; by apply le_store_in).
  rewrite (le_load_ext (le_store mem a n v) mem (4 * (a / 4))) by (intros; apply le_store_out; lia).
  rewrite (le_load_ext (le_store mem a n v) mem (a + _)) by (intros; apply le_store_out; lia).
  ring.
Qed.

Lemma merge_store mem a n v m : bytes_wf mem -> (Z.to_nat (a mod 4) + n <= 4)%nat ->
  m = Z.ones (8 * Z.of_nat n) -> u32 v ->
  let s := 8 * (a mod 4) in
  let data := word_at mem a in
  ((data .^ (data .& (m .<< s))) .| ((v .& m) .<< s))%word = word_at (le_store mem a n v) a.
Proof.
  intros Hm Hn -> Hv s data. assert (Hq := Z.mod_pos_bound a 4 ltac:(lia)).
  assert (Hw : 2 ^ 32 = 2 ^ (32 - s - 8 * Z.of_nat n) * 2 ^ (8 * Z.of_nat n) * 2 ^ s).
  { rewrite <- !Z.pow_add_r by lia. f_equal. lia. }
  assert (Hshl : forall x, 0 <= x < 2 ^ (8 * Z.of_nat n) -> shl32 x s = Z.shiftl x s).
  { intros x Hx. unfold shl32. apply wrap_small. rewrite Z.shiftl_mul_pow2 by lia.
    pose proof (Z.pow_pos_nonneg 2 (32 - s - 8 * Z.of_nat n) ltac:(lia) ltac:(lia)).
    pose proof (Z.pow_pos_nonneg 2 s ltac:(lia) ltac:(lia)).
    unfold fits. rewrite Hw. split; [nia|]. apply Z.mul_lt_mono_pos_r; nia. }
  rewrite !Hshl.
  - rewrite merge_field by lia. rewrite word_at_store by done.
    unfold data, s. rewrite word_extract by done. by rewrite !pow256.
  - rewrite Z.land_ones by lia. apply Z.mod_pos_bound. lia.
  - rewrite Z.ones_equiv. pose proof (Z.pow_pos_nonneg 2 (8 * Z.of_nat n)). lia.
Qed.

Lemma store_value_spec k a mem f3 n v : bytes_wf mem -> u32 v -> s_code k = Some (f3, n) ->
  Emulator.store_value k a (word_at mem a) v =
  Some (if negb (a mod Z.of_nat n =? 0) then None else Some (word_at (le_store mem a n v) a)).
Proof.
  intros Hm Hv Hk. assert (Hs := Z.mod_pos_bound a 4 ltac:(lia)).
  destruct k; try discriminate Hk; injection Hk as <- <-; cbn [Emulator.store_value];
    rewrite ?land_1, ?land_3, ?Z.mod_1_r by lia.
  - do 2 f_equal. exact (merge_store mem a 1 v 0xff Hm ltac:(lia) eq_refl Hv).
  - change (Z.of_nat 2) with 2. destruct (Z.eqb_spec (a mod 2) 0); [|done]. cbn [negb]. do 2 f_equal.
    apply (merge_store mem a 2 v 0xffff Hm); [apply aligned_fits; [lia|done]|done|done].
  - change (Z.of_nat 4) with 4. destruct (Z.eqb_spec (a mod 4) 0); [|done]. cbn [negb]. do 2 f_equal.
    unfold word_at. replace (4 * (a / 4)) with a by (pose proof (Z.div_mod a 4); lia).
    rewrite (le_load_bytes _ a 4 v) by (intros; by apply le_store_in).
    symmetry. apply Z.mod_small. exact Hv.
Qed.

(** ** What a context promises *)

Class EmuLaws (S E : Type) `{EmuContext S E} := {
  sim : S -> isa -> Prop;
  may_fetch : Z -> bool;
  may_load : Z -> bool;
  may_store : Z -> bool;
  mapped : Z -> bool;
  sim_wf s m : sim s m -> isa_wf m;
  sim_eq s m m' : sim s m -> isa_eq m m' -> sim s m';
  sim_get_pc s m : sim s m -> get_pc s = pc m;
  sim_set_pc s m p : sim s m -> u32 p -> sim (set_pc p s) (with_pc m p);
  sim_load_register s m r : sim s m -> is_reg r ->
    exists s', load_register r s = (Ok (reg m r), s') /\ sim s' m;
  sim_store_register s m r v : sim s m -> is_reg r -> u32 v ->
    exists s', store_register r v s = (Ok tt, s') /\ sim s' (set_reg m r v);
  sim_load_memory s m w : sim s m -> mapped w = true ->
    exists s', load_memory w s = (Ok (le_load (mem m) (4 * w) 4), s') /\ sim s' m;
  sim_store_memory s m a v : sim s m -> mapped (a / 4) = true -> may_store a = true -> u32 v ->
    exists s', store_memory (a / 4) v s = (Ok tt, s') /\ sim s' (store m (4 * (a / 4)) 4 v);
  sim_check_insn s m a : sim s m -> check_insn_load a s = may_fetch a;
  sim_check_load s m a : sim s m -> check_data_load a s = may_load a;
  sim_check_store s m a : sim s m -> check_data_store a s = may_store a;
  sim_decoded s m k d : sim s m -> exists s', on_insn_decoded k d s = (Ok tt, s') /\ sim s' m;
  sim_normal_end s m k : sim s m -> exists s', on_normal_end k s = (Ok tt, s') /\ sim s' m;
}.

(** Runs the first command of the sequence with the law [H] of the context. *)
Ltac run H :=
  let s' := fresh "s" in let E := fresh "E" in let Hs := fresh "Hs" in
  destruct H as (s' & E & Hs); rewrite (run_bind _ _ _ _ _ E); clear E.

Section Refine.
Context {S E : Type} `{EmuLaws S E}.

(** The routine [c], run at a state simulating [m], does what [R] says: it ends
    normally in a state that simulates the next one, or it raises the exception
    from a state that still simulates [m]. *)
Definition implements (k : InsnKind) (m : isa) (R : Exception + isa)
    (c : state S E (option InsnKind)) (s : S) : Prop :=
  match R with
  | inr m' => exists s', c s = (Ok (Some k), s') /\ sim s' m'
  | inl e => exists s', c s = Emulator.trap_then e k s' /\ sim s' m
  end.

Lemma load_rs2_run s m d : sim s m -> is_reg (rs2 d) ->
  exists s', Emulator.load_rs2 d (reg m (rs1 d)) s = (Ok (reg m (rs2 d)), s') /\ sim s' m.
Proof.
  intros Hs Hr. unfold Emulator.load_rs2. destruct (Z.eqb_spec (rs1 d) (rs2 d)) as [->|].
  - eexists. split; [reflexivity|done].
  - by apply sim_load_register.
Qed.

Lemma is_aligned_mod a : ByteAddr.is_aligned a = (a mod 4 =? 0).
Proof. done. Qed.

(** Commands that do not change the state, and the program counter. *)
Lemma run_get_pc {A} s m (f : Z -> state S E A) : sim s m -> (gets get_pc ≫= f) s = f (pc m) s.
Proof. intros Hs. apply run_bind. unfold gets. by rewrite (sim_get_pc s m Hs). Qed.

Lemma run_lift {A B} (o : option A) a s (f : A -> state S E B) :
  o = Some a -> (lift (unwrap o) ≫= f) s = f a s.
Proof. intros ->. done. Qed.

Lemma run_check {A B} (g : S -> B) b s (f : B -> state S E A) :
  g s = b -> (gets g ≫= f) s = f b s.
Proof. intros <-. done. Qed.

Lemma add_usize_wrap a b : u32 b -> ByteAddr.add_usize a b = wrap 32 (a + b).
Proof. intros. unfold ByteAddr.add_usize, add32. by rewrite (wrap_small 32 b). Qed.

Lemma next_pc a : ByteAddr.add_usize a WORD_SIZE = wrap 32 (a + 4).
Proof. apply add_usize_wrap. unfold fits, WORD_SIZE. lia. Qed.

Definition goto (m : isa) (t : Z) : Exception + isa :=
  if t mod 4 =? 0 then inr (with_pc m t) else inl InstructionMisaligned.

Lemma step_compute_impl s m k d out np : sim s m ->
  is_reg (rs1 d) -> is_reg (rs2 d) -> is_reg (rd d) ->
  Emulator.compute k d (pc m) (reg m (rs1 d)) (reg m (rs2 d)) = Some (out, np) ->
  u32 out -> u32 np ->
  implements k m (goto (set_reg m (rd d) out) np) (Emulator.step_compute k d) s.
Proof.
  intros Hs H1 H2 H3 Hc Ho Hn.
  unfold Emulator.step_compute, Emulator.trace_instruction, implements, goto.
  run (sim_decoded s m k d Hs). rewrite (run_get_pc _ m) by done.
  run (sim_load_register s0 m _ Hs0 H1). run (load_rs2_run s1 m d Hs1 H2).
  rewrite (run_lift _ _ _ _ Hc), is_aligned_mod.
  destruct (np mod 4 =? 0); cbn [negb]; [|eauto].
  run (sim_store_register s2 m _ _ Hs2 H3 Ho). eexists. split; [reflexivity|]. by apply sim_set_pc.
Qed.

Lemma step_branch_impl s m k d c : sim s m -> is_reg (rs1 d) -> is_reg (rs2 d) ->
  Emulator.br_cond k (reg m (rs1 d)) (reg m (rs2 d)) = Some c ->
  implements k m (goto m (if c then wrap 32 (pc m + imm_b d) else wrap 32 (pc m + 4)))
    (Emulator.step_branch k d) s.
Proof.
  intros Hs H1 H2 Hc. unfold Emulator.step_branch, Emulator.trace_instruction, implements, goto.
  run (sim_decoded s m k d Hs). rewrite (run_get_pc _ m) by done.
  run (sim_load_register s0 m _ Hs0 H1). run (load_rs2_run s1 m d Hs1 H2).
  rewrite (run_lift _ _ _ _ Hc), next_pc, is_aligned_mod.
  change (ByteAddr.wrapping_add ?a ?b) with (wrap 32 (a + b)).
  set (t := if c then _ else _).
  assert (Ht : u32 t) by (unfold t; destruct c; apply wrap_fits; lia).
  destruct (t mod 4 =? 0); cbn [negb]; [|eauto].
  rewrite (run_check circuit_version _ s2 _ eq_refl). destruct (_ =? _).
  - run (sim_store_register s2 m 0 0 Hs2 ltac:(unfold is_reg; lia) ltac:(unfold fits; lia)).
    eexists. split; [reflexivity|]. by apply sim_set_pc.
  - eexists. split; [reflexivity|]. by apply sim_set_pc.
Qed.

Lemma step_load_impl s m k d f3 n sg : sim s m -> is_reg (rs1 d) -> is_reg (rd d) ->
  l_code k = Some (f3, n, sg) ->
  let a := wrap 32 (reg m (rs1 d) + imm_i d) in
  mapped (a / 4) = true ->
  implements k m
    (if negb (may_load a) then inl (LoadAccessFault a)
     else if negb (a mod Z.of_nat n =? 0) then inl LoadAddressMisaligned
     else let v := le_load (mem m) a n in
          inr (with_pc (set_reg m (rd d) (if sg then sext n v else v)) (wrap 32 (pc m + 4))))
    (Emulator.step_load k d) s.
Proof.
  intros Hs H1 H3 Hk a Ha. unfold Emulator.step_load, Emulator.trace_instruction, implements.
  destruct (sim_wf s m Hs) as (_ & _ & Hm & _).
  run (sim_decoded s m k d Hs). run (sim_load_register s0 m _ Hs0 H1).
  change (_ +32 _)%word with a. rewrite (run_check _ _ _ _ (sim_check_load s1 m a Hs1)).
  destruct (may_load a); cbn [negb]; [|eauto].
  run (sim_load_memory s1 m (a / 4) Hs1 Ha).
  rewrite (run_lift _ _ _ _ (load_value_spec k a (mem m) f3 n sg Hm Hk)).
  destruct (a mod Z.of_nat n =? 0); cbn [negb]; [|eauto].
  set (v := le_load (mem m) a n). cbv zeta. set (out := if sg then _ else _).
  assert (Ho : u32 out).
  { unfold out, v. destruct sg; [apply wrap_fits; lia|]. apply le_load_u32; [done|].
    destruct k; simplify_eq/=; lia. }
  run (sim_store_register s2 m _ _ Hs2 H3 Ho). eexists. split; [reflexivity|].
  rewrite (sim_get_pc s3 _ Hs3), next_pc.
  replace (pc (set_reg m (rd d) out)) with (pc m) by (unfold set_reg; by destruct (_ =? _)).
  apply sim_set_pc; [done|]. apply wrap_fits; lia.
Qed.

Lemma store_word_eq m a n v : bytes_wf (mem m) ->
  (Z.to_nat (a mod 4) + n <= 4)%nat ->
  isa_eq (store m (4 * (a / 4)) 4 (word_at (le_store (mem m) a n v) a)) (store m a n v).
Proof.
  intros Hm Hn. split; [done|done|]. intros x. apply store_word_at; [by apply le_store_wf|].
  intros y Hy. apply le_store_out. pose proof (Z.div_mod a 4). pose proof (Z.div_mod y 4).
  pose proof (Z.mod_pos_bound y 4). pose proof (Z.mod_pos_bound a 4). lia.
Qed.

Lemma step_store_impl s m k d f3 n : sim s m -> is_reg (rs1 d) -> is_reg (rs2 d) ->
  s_code k = Some (f3, n) ->
  let a := wrap 32 (reg m (rs1 d) + imm_s d) in
  mapped (a / 4) = true ->
  implements k m
    (if negb (may_store a) then inl StoreAccessFault
     else if negb (a mod Z.of_nat n =? 0) then inl (StoreAddressMisaligned a)
     else inr (with_pc (store m a n (reg m (rs2 d))) (wrap 32 (pc m + 4))))
    (Emulator.step_store k d) s.
Proof.
  intros Hs H1 H2 Hk a Ha. unfold Emulator.step_store, Emulator.trace_instruction, implements.
  destruct (sim_wf s m Hs) as (_ & Hr & Hm & _).
  run (sim_decoded s m k d Hs). run (sim_load_register s0 m _ Hs0 H1). run (load_rs2_run s1 m d Hs1 H2).
  change (_ +32 _)%word with a. rewrite (run_check _ _ _ _ (sim_check_store s2 m a Hs2)).
  destruct (may_store a) eqn:Hst; cbn [negb]; [|eauto].
  run (sim_load_memory s2 m (a / 4) Hs2 Ha).
  rewrite (run_lift _ _ _ _ (store_value_spec k a (mem m) f3 n _ Hm (Hr (rs2 d)) Hk)).
  destruct (Z.eqb_spec (a mod Z.of_nat n) 0) as [Hal|]; cbn [negb]; [|eauto].
  assert (Hn : (Z.to_nat (a mod 4) + n <= 4)%nat).
  { apply aligned_fits; [|done]. destruct k; simplify_eq/=; lia. }
  assert (Hv : u32 (word_at (le_store (mem m) a n (reg m (rs2 d))) a)).
  { apply le_load_u32; [by apply le_store_wf|lia]. }
  run (sim_store_memory s3 m a _ Hs3 Ha Hst Hv). eexists. split; [reflexivity|].
  assert (Hs5 := sim_eq _ _ _ Hs4 (store_word_eq m a n _ Hm Hn)).
  rewrite (sim_get_pc _ _ Hs5), next_pc. apply sim_set_pc; [done|]. apply wrap_fits; lia.
Qed.

Lemma decoded_regs w : is_reg (rd (Decoded.new w)) /\ is_reg (rs1 (Decoded.new w)) /\ is_reg (rs2 (Decoded.new w)).
Proof. rewrite decoded_new. cbn. unfold is_reg. split_and!; apply Z.mod_pos_bound; lia. Qed.

Lemma next_aligned p : p mod 4 = 0 -> wrap 32 (p + 4) mod 4 = 0.
Proof.
  intros Hp. unfold wrap. replace (2 ^ 32) with (4 * 2 ^ 30) by done.
  rewrite Z.rem_mul_r by lia. rewrite (Z.mul_comm 4), Z.mod_add, Z.mod_mod by lia.
  Z.to_euclidean_division_equations. lia.
Qed.


Lemma even_mask t : u32 t -> (t .& 0xfffffffe)%word = t - t mod 2.
Proof. intros. exact (land_high t 1 32 ltac:(lia) H1). Qed.

Lemma dispatch_impl s m i w : sim s m -> wf i -> encode i = Some w -> pc m mod 4 = 0 ->
  (forall a, data_addr m i = Some a -> mapped (a / 4) = true) ->
  implements (kind i) m (exec may_load may_store m i) (dispatch i (Decoded.new w)) s.
Proof.
  intros Hs Hwf He Hpc Hmap.
  pose proof (decode_encode i w Hwf He) as Hd. pose proof (decoded_regs w) as (Rd & R1 & R2).
  destruct (sim_wf s m Hs) as (Hp & Hr & _ & _).
  set (d := Decoded.new w) in *. clearbody d.
  assert (Hw : forall x, u32 (wrap 32 x)) by (intros; apply wrap_fits; lia).
  assert (Hnext : (wrap 32 (pc m + 4) mod 4 =? 0) = true) by (rewrite next_aligned by done; done).
  destruct i as [k x1 x2 x3|k x1 x2 x3|k x1 x2 x3|k x1 x2 x3|k x1 x2 x3|k x1 x2 x3|x1 x2|x1 x2 x3|x1 x2|x1 x2];
    cbn [decode_spec wf encode] in *; unfold dispatch.
  - destruct Hd as (<- & <- & <-). apply (step_compute_impl s m k d); try done.
    + rewrite compute_alu, next_pc by (try apply Hr; destruct k; try discriminate He; eauto). done.
    + by apply alu_u32.
  - destruct Hd as (<- & <- & Hi). destruct (i_code k) as [[f3 k']|] eqn:Hk; [|done].
    unfold exec. rewrite Hk. cbn [from_option snd]. rewrite <- Hi.
    apply (step_compute_impl s m k d); try done.
    + rewrite (compute_imm k k' f3), next_pc by (try apply Hr; try done; rewrite Hi; apply Hw). done.
    + apply alu_u32; [done|rewrite Hi; apply Hw].
  - destruct Hd as (<- & <- & Hi). destruct (sh_code k) as [[[f3 f7] k']|] eqn:Hk; [|done].
    unfold exec. rewrite Hk. cbn [from_option snd].
    apply (step_compute_impl s m k d); try done.
    + rewrite (compute_shift k f3 f7 k' d _ _ _ x3), next_pc by (try apply Hr; done). done.
    + apply alu_u32; [done|unfold fits; lia].
  - destruct Hd as (<- & <- & Hi). destruct (l_code k) as [[[f3 n] sg]|] eqn:Hk; [|done].
    unfold exec. rewrite Hk. cbn [default from_option id]. rewrite Hnext.
    pose proof (step_load_impl s m k d f3 n sg Hs R1 Rd Hk) as HL. cbv zeta in HL.
    rewrite Hi, wrap_add_r in HL. apply HL. apply Hmap. done.
  - destruct Hd as (<- & <- & Hi). destruct (s_code k) as [[f3 n]|] eqn:Hk; [|done].
    unfold exec. rewrite Hk. cbn [default from_option id]. rewrite Hnext.
    pose proof (step_store_impl s m k d f3 n Hs R1 R2 Hk) as HL. cbv zeta in HL.
    rewrite Hi, wrap_add_r in HL. apply HL. apply Hmap. done.
  - destruct Hd as (<- & <- & Hi).
    pose proof (step_branch_impl s m k d _ Hs R1 R2 (br_cond_taken k _ _ ltac:(destruct k; try discriminate He; eauto))) as HB.
    rewrite Hi, wrap_add_r in HB. exact HB.
  - destruct Hd as (<- & Hi). apply (step_compute_impl s m Jal d); try done.
    cbn [Emulator.compute kind]. rewrite next_pc. do 2 f_equal.
    unfold ByteAddr.wrapping_add, add32. by rewrite Hi, wrap_add_r.
  - destruct Hd as (<- & <- & Hi). apply (step_compute_impl s m JalR d); try done.
    + cbn [Emulator.compute kind]. rewrite next_pc, even_mask by apply Hw. do 2 f_equal.
      unfold add32. by rewrite Hi, wrap_add_r.
    + specialize (Hw (reg m (rs1 d) + x3)). unfold fits in *. pose proof (Z.mod_pos_bound (wrap 32 (reg m (rs1 d) + x3)) 2).
      pose proof (Z.mod_le (wrap 32 (reg m (rs1 d) + x3)) 2). lia.
  - destruct Hd as (<- & Hi). apply (step_compute_impl s m Lui d); try done.
    + cbn [Emulator.compute kind]. by rewrite next_pc, Hi.
    + unfold fits. lia.
  - destruct Hd as (<- & Hi). apply (step_compute_impl s m Auipc d); try done.
    cbn [Emulator.compute kind]. by rewrite next_pc, Hi.
Qed.

End Refine.

Section Theorems.
Context {S E : Type} `{EmuLaws S E}.

(** The end of [Emulator::step]: the instruction's callback unless it asked to stop. *)
Definition finish (r : option InsnKind) : state S E unit :=
  match r with Some kind => on_normal_end kind | None => mret tt end.

(** The machine is about to execute [i]: it may fetch from an aligned program
    counter, memory holds the encoding of [i] there, and the word its data access
    touches exists. *)
Record ready (m : isa) (i : instr) : Prop := {
  ready_wf : wf i;
  ready_fetch : may_fetch (pc m) = true;
  ready_pc : pc m mod 4 = 0;
  ready_mapped : mapped (pc m / 4) = true;
  ready_word : encode i = Some (word_at (mem m) (pc m));
  ready_data : forall a, data_addr m i = Some a -> mapped (a / 4) = true;
}.

Lemma step_ready s m i : sim s m -> ready m i ->
  exists s1, sim s1 m /\
    Emulator.step s = (dispatch i (Decoded.new (word_at (mem m) (pc m))) ≫= finish) s1.
Proof.
  intros Hs [Hwf Hf Hpc Hm Hw _]. unfold Emulator.step.
  rewrite (run_get_pc _ m) by done. rewrite (run_check _ _ _ _ (sim_check_insn s m (pc m) Hs)).
  rewrite Hf. cbn [negb]. run (sim_load_memory s m (pc m / 4) Hs Hm).
  change (le_load _ _ _) with (word_at (mem m) (pc m)).
  destruct (encode_word i _ Hwf Hw) as [_ E3]. rewrite E3. cbn [Z.eqb Pos.eqb negb].
  rewrite (exec_dispatch i _ Hwf Hw). eauto.
Qed.

Lemma step_refines s m i :
  sim s m -> ready m i ->
  match exec may_load may_store m i with
  | inr m' => exists s', Emulator.step s = (Ok tt, s') /\ sim s' m'
  | inl e => exists s', sim s' m /\
      Emulator.step s = (Emulator.trap_then e (kind i) ≫= finish) s'
  end.
Proof.
  intros Hs Hr. destruct (step_ready s m i Hs Hr) as (s1 & Hs1 & ->). destruct Hr.
  pose proof (dispatch_impl s1 m i _ Hs1 ready_wf0 ready_word0 ready_pc0 ready_data0) as Hi.
  unfold implements in Hi. destruct (exec _ _ m i) as [e|m'].
  - destruct Hi as (s2 & Hi & Hs2). exists s2. split; [done|].
    unfold mbind, state_bind. by rewrite Hi.
  - destruct Hi as (s2 & Hi & Hs2). rewrite (run_bind _ _ _ _ _ Hi). cbn [finish].
    exact (sim_normal_end s2 m' _ Hs2).
Qed.

(** A step of the reference machine on the program in its memory. *)
Definition isa_step (m m' : isa) : Prop :=
  exists i, ready m i /\ exec may_load may_store m i = inr m'.

Fixpoint steps (n : nat) : state S E unit :=
  match n with O => mret tt | Datatypes.S n => Emulator.step;; steps n end.

Lemma exec_pc m i m' : exec may_load may_store m i = inr m' -> pc m' mod 4 = 0.
Proof.
  unfold exec. destruct i as [k x1 x2 x3|k x1 x2 x3|k x1 x2 x3|k x1 x2 x3|k x1 x2 x3|k x1 x2 x3|x1 x2|x1 x2 x3|x1 x2|x1 x2];
    repeat case_match; intros; simplify_eq/=; by apply Z.eqb_eq.
Qed.

Lemma steps_refine n s m m' : sim s m -> pc m mod 4 = 0 -> nsteps isa_step n m m' ->
  exists s', steps n s = (Ok tt, s') /\ sim s' m' /\ pc m' mod 4 = 0.
Proof.
  intros Hs Hp Hn. revert s Hs Hp. induction Hn as [m|n m m1 m' (i & Hr & He) _ IH]; intros s Hs Hp; cbn [steps].
  - eauto.
  - pose proof (step_refines s m i Hs Hr) as H1. rewrite He in H1.
    destruct H1 as (s1 & E1 & Hs1). rewrite (run_bind _ _ _ _ _ E1).
    apply IH; [done|]. by eapply exec_pc.
Qed.

(** C3: The emulator implements RV32IM, over every context that keeps its
    promises.  When the reference machine takes [n] steps on the program in its
    memory, the emulator's first [n] steps succeed and end in a state that simulates
    the reference's state (registers, byte memory, aligned program counter); and
    when the reference's next instruction raises an exception (misaligned target or
    access, forbidden access), the next step hands that exception to the context's
    [trap] from a state that still simulates the reference's. *)
Theorem emulator_refines_isa n s m m' :
  sim s m -> pc m mod 4 = 0 -> nsteps isa_step n m m' ->
  exists s', steps n s = (Ok tt, s') /\ sim s' m' /\ pc m' mod 4 = 0 /\
    forall i e, ready m' i -> exec may_load may_store m' i = inl e ->
    exists s'', sim s'' m' /\
      Emulator.step s' = (Emulator.trap_then e (kind i) ≫= finish) s''.
Proof.
  intros Hs Hp Hn. destruct (steps_refine n s m m' Hs Hp Hn) as (s' & Hr & Hs' & Hp').
  exists s'. split_and!; [done..|]. intros i e Hi He.
  pose proof (step_refines s' m' i Hs' Hi) as H1. by rewrite He in H1.
Qed.

(** C39: What is not an instruction traps: a program counter the context forbids is
    an instruction fault, and a word whose low bits are not [11] is an illegal
    instruction, both before any register is read. *)
Theorem step_fetch_faults s m :
  sim s m ->
  (may_fetch (pc m) = false -> Emulator.step s = (trap InstructionFault;; mret tt) s) /\
  (may_fetch (pc m) = true -> mapped (pc m / 4) = true ->
   word_at (mem m) (pc m) mod 4 <> 3 ->
   exists s', sim s' m /\
     Emulator.step s = (trap (IllegalInstruction (word_at (mem m) (pc m)) 0);; mret tt) s').
Proof.
  intros Hs. unfold Emulator.step.
  rewrite (run_get_pc _ m) by done. rewrite (run_check _ _ _ _ (sim_check_insn s m (pc m) Hs)).
  split; intros Hf; rewrite Hf; [done|]. cbn [negb]. intros Hm Hw.
  run (sim_load_memory s m (pc m / 4) Hs Hm). change (le_load _ _ _) with (word_at (mem m) (pc m)).
  rewrite land_3. destruct (Z.eqb_spec (word_at (mem m) (pc m) mod 4) 3); [done|]. eauto.
Qed.

End Theorems.
