(* ===== verification/R0ctx.v ===== *)
(** * The executor's context

    [Risc0Context] is the trait an executor implements (program counter, mode,
    words of memory, host I/O) with its default methods on registers, bytes and
    regions; [CtxLaws] is what an implementation promises: a byte memory behind the
    words.  The theorems say that the word and byte paths of the region operations
    move exactly the bytes they are asked to. *)
From S2P Require Export IsaRefine.
Import Decoded Isa(le_load, le_store).
Open Scope word_scope.
Open Scope Z_scope.

(* source: src/risc0/risc0/circuit/rv32im/src/execute/r0vm.rs *)

(* L29-34 LoadOp *)
Inductive LoadOp := Peek | Load | Record.

(** The errors of the executor's paged memory and of its big-integer ecall. *)
Inductive PagerError :=
  | InvalidPeek (addr : Z) | InvalidLoad (addr : Z) | InvalidStore (addr : Z) | SystemPage (page_idx : Z).
Inductive BigIntError :=
  | InvalidMode (mode : Z) | InvalidAddress | ProgramTooLarge | CountTooSmall (count limbs : Z)
  | CountNotMultiple (count : Z) | InvalidBytecode | UnexpectedEof | DivideByZero.

(** The errors raised with [bail!] and [anyhow!]; [Other] stands for those of the
    host. *)
Inductive error :=
  | ErrUnaligned (addr : Z)
  | ErrGuestAddr (addr : Z)
  | ErrRegionEnd
  | ErrRegionEof
  | ErrReadLen (len : Z)
  | ErrReadTooBig (len : Z)
  | ErrWriteLen (len : Z)
  | ErrWriteTooBig (len : Z)
  | ErrTrapInMachineMode
  | ErrMretInUserMode
  | ErrTrapAddr (addr : Z) (cause : Exception)
  | ErrShaCount (count : Z)
  | ErrP2Check (word cell : Z)
  | ErrPager (e : PagerError)
  | ErrBigInt (e : BigIntError)
  | ErrInvalidRegister (idx : Z)
  | Other (code : Z).

(* src/risc0/risc0/circuit/rv32im/src/execute/sha2.rs:32-44 Sha2State *)
Record Sha2State := mkSha {
  state_in_addr : Z; state_out_addr : Z; data_addr : Z; count : Z; k_addr : Z;
  round : Z; next_state : CycleState; a : Z; e : Z; w : Z }.

(* src/risc0/risc0/circuit/rv32im/src/execute/poseidon2.rs:26-37 Poseidon2State *)
Record Poseidon2State := mkP2 {
  has_state : Z; state_addr : Z; buf_out_addr : Z; is_elem : Z; check_out : Z;
  p2_next_state : CycleState; sub_state : Z; buf_in_addr : Z; p2_count : Z; inner : list Z }.

Module Ctx.

(* L36-63 Risc0Context *)
Class Risc0Context (S : Type) := {
  circuit_version : S -> Z;
  get_pc : S -> Z;
  set_pc : Z -> S -> S;
  set_user_pc : Z -> S -> S;
  get_machine_mode : S -> Z;
  set_machine_mode : Z -> S -> S;
  on_insn_start : InsnKind -> DecodedInstruction -> state S error unit;
  on_insn_end : InsnKind -> state S error unit;
  load_u32 : LoadOp -> Z -> state S error Z;
  store_u32 : Z -> Z -> state S error unit;
  (* the methods below have the defaults [ctx_load_register] and [ctx_store_register] *)
  load_register : LoadOp -> Z -> Z -> state S error Z;
  store_register : Z -> Z -> Z -> state S error unit;
  suspend : state S error unit;
  resume : state S error unit;
  trap_rewind : S -> S;
  on_trap_cause : Exception -> S -> S;
  (* [host_read fd len]: the buffer after the call and the returned length *)
  host_read : Z -> Z -> state S error (list Z * Z);
  host_write : Z -> list Z -> state S error Z;
  on_terminate : Z -> Z -> state S error unit;
  on_ecall_cycle : CycleState -> CycleState -> Z -> Z -> Z -> EcallKind -> state S error unit;
  on_sha2_cycle : CycleState -> Sha2State -> S -> S;
  on_poseidon2_cycle : CycleState -> Poseidon2State -> S -> S;
  ecall_bigint : state S error unit;
  ecall_poseidon2 : state S error unit;
  on_ecall_read_end : Z -> Z -> S -> S;
  on_ecall_write_end : S -> S;
  on_user_ecall : S -> S;
  on_trap : S -> S;
}.

End Ctx.
Export Ctx(Risc0Context).

(* L840-847 guest_addr *)
Definition guest_addr {S} (addr : Z) : state S error Z :=
  if addr <? ZERO_PAGE_END_ADDR then throw (ErrGuestAddr addr) else mret addr.

(* L372-375 check_aligned_addr *)
Definition check_aligned_addr {S} (addr : Z) : state S error Z :=
  lift (ok_or (ErrUnaligned addr) (ByteAddr.waddr_aligned addr)).

(* L705-718 calculate_bytes_and_words *)
Definition calculate_bytes_and_words (offset len : Z) : Z * Z :=
  let word_size := WORD_SIZE in
  let initial_bytes := if negb (offset mod word_size =? 0)
                       then Z.min (word_size - offset mod word_size) len else 0 in
  let final_bytes := (len - initial_bytes) mod word_size in
  let read_bytes := initial_bytes + final_bytes in
  let read_words := (len - initial_bytes - final_bytes) / word_size in
  (read_words, read_bytes).

(** The default methods on registers, of a context with the given loads and stores. *)
(* L64-67 Risc0Context::load_register *)
Definition ctx_load_register {S} (load_u32 : LoadOp -> Z -> state S error Z) (op : LoadOp) (base idx : Z) : state S error Z :=
  load_u32 op (WordAddr.add_usize base idx).
(* L180-183 Risc0Context::store_register *)
Definition ctx_store_register {S} (store_u32 : Z -> Z -> state S error unit) (base idx word : Z) : state S error unit :=
  store_u32 (WordAddr.add_usize base idx) word.

Section Context_.
Context {S : Type} `{Risc0Context S}.

(* L69-72 Risc0Context::load_machine_register *)
Definition load_machine_register (op : LoadOp) (idx : Z) : state S error Z :=
  Ctx.load_register op (ByteAddr.waddr MACHINE_REGS_ADDR) idx.

(* L74-81 Risc0Context::load_aligned_addr_from_machine_register *)
Definition load_aligned_addr_from_machine_register (op : LoadOp) (idx : Z) : state S error Z :=
  a ← load_machine_register op idx; check_aligned_addr a.

(* L83-89 Risc0Context::load_u8 *)
Definition load_u8 (op : LoadOp) (addr : Z) : state S error Z :=
  word ← Ctx.load_u32 op (ByteAddr.waddr addr);
  lift (unwrap (to_le_bytes word !! Z.to_nat (ByteAddr.subaddr addr))).

(** A region whose size has 32 bits is read in one go; of a larger one, only the size
    modulo 2^32 can be read before the end. *)
(** The reader's [read] into a buffer of [size] bytes from [pos]; [castable] says
    whether the buffer happens to be word aligned in the host's memory. *)
(* L108-135 Reader::read *)
Definition reader_read (castable : bool) (op : LoadOp) (pos size : Z) : state S error (list Z) :=
  if ByteAddr.is_aligned pos && castable && (size mod 4 =? 0) then
    let waddr := ByteAddr.waddr pos in
    words ← mapM (fun i => Ctx.load_u32 op (WordAddr.add_usize waddr i)) (seqZ 0 (size / 4));
    mret (words ≫= to_le_bytes)
  else
    mapM (fun i => load_u8 op (ByteAddr.add_usize pos i)) (seqZ 0 size).

(* L91-147 Risc0Context::load_region, read_region *)
Definition load_region (castable : bool) (op : LoadOp) (addr size : Z) : state S error (list Z) :=
  let n := wrap 32 size in
  _ ← lift (ok_or ErrRegionEnd (ByteAddr.checked_add addr n));
  bytes ← (if n =? 0 then mret [] else reader_read castable op addr n);
  if n <? size then throw ErrRegionEof else mret bytes.

(* L170-178 Risc0Context::store_u8 *)
Definition store_u8 (addr byte : Z) : state S error unit :=
  let byte_offset := ByteAddr.subaddr addr in
  word ← Ctx.load_u32 Record (ByteAddr.waddr addr);
  let bytes := <[Z.to_nat byte_offset := byte]> (to_le_bytes word) in
  Ctx.store_u32 (ByteAddr.waddr addr) (from_le_bytes bytes).

(** The words of a byte string whose length is a multiple of four. *)
Fixpoint store_words (waddr : Z) (input : list Z) : state S error unit :=
  match input with
  | b0 :: b1 :: b2 :: b3 :: input =>
      let '(cur, next) := WordAddr.postfix_inc waddr in
      Ctx.store_u32 cur (from_le_bytes [b0; b1; b2; b3]);; store_words next input
  | _ => mret tt
  end.

Fixpoint store_bytes (addr i : Z) (input : list Z) : state S error unit :=
  match input with
  | b :: input => store_u8 (ByteAddr.add_usize addr i) b;; store_bytes addr (i + 1) input
  | [] => mret tt
  end.

(* L151-168 Risc0Context::store_region *)
Definition store_region (addr : Z) (input : list Z) : state S error unit :=
  if ByteAddr.is_aligned addr && (Z.of_nat (length input) mod WORD_SIZE =? 0)
  then store_words (ByteAddr.waddr addr) input
  else store_bytes addr 0 input.

(** The [for] loops: a body run on each index, threading the locals it updates. *)
Fixpoint for_each {L} (js : list Z) (body : Z -> L -> state S error L) (l : L) : state S error L :=
  match js with
  | [] => mret l
  | j :: js => l ← body j l; for_each js body l
  end.

End Context_.


(** ** The promise of a context *)

(** What a context holds: program counter, mode, and a byte memory. *)
Record cstate := mkC { c_pc : Z; c_mode : Z; c_mem : Z -> Z }.

Definition c_eq (c c' : cstate) : Prop :=
  c_pc c = c_pc c' /\ c_mode c = c_mode c' /\ forall a, c_mem c a = c_mem c' a.

Definition with_mem (c : cstate) (m : Z -> Z) : cstate := mkC (c_pc c) (c_mode c) m.

(** The first words of the two register files. *)
Definition reg_file (base : Z) : Prop :=
  base = ByteAddr.waddr USER_REGS_ADDR \/ base = ByteAddr.waddr MACHINE_REGS_ADDR.

(** Loads and stores of the words of [c_mapped] go to the byte memory; the
    callbacks succeed and leave it alone; a host read fills the buffer it is given. *)
Class CtxLaws (S : Type) `{Risc0Context S} := {
  csim : S -> cstate -> Prop;
  c_mapped : Z -> bool;
  csim_bytes s c : csim s c -> bytes_wf (c_mem c);
  csim_range s c : csim s c -> u32 (c_pc c);
  csim_eq s c c' : csim s c -> c_eq c c' -> csim s c';
  csim_get_pc s c : csim s c -> Ctx.get_pc s = c_pc c;
  csim_mode s c : csim s c -> Ctx.get_machine_mode s = c_mode c;
  csim_set_pc s c p : csim s c -> u32 p -> csim (Ctx.set_pc p s) (mkC p (c_mode c) (c_mem c));
  csim_set_mode s c md : csim s c -> csim (Ctx.set_machine_mode md s) (mkC (c_pc c) md (c_mem c));
  csim_load s c op w : csim s c -> c_mapped w = true ->
    exists s', Ctx.load_u32 op w s = (Ok (le_load (c_mem c) (4 * w) 4), s') /\ csim s' c;
  csim_store s c w v : csim s c -> c_mapped w = true -> u32 v ->
    exists s', Ctx.store_u32 w v s = (Ok tt, s') /\ csim s' (with_mem c (le_store (c_mem c) (4 * w) 4 v));
  csim_load_register s c op base idx : csim s c -> reg_file base -> 0 <= idx < REG_MAX -> c_mapped (base + idx) = true ->
    exists s', Ctx.load_register op base idx s = (Ok (le_load (c_mem c) (4 * (base + idx)) 4), s') /\ csim s' c;
  csim_store_register s c base idx v : csim s c -> reg_file base -> 0 <= idx < REG_MAX -> c_mapped (base + idx) = true -> u32 v ->
    exists s', Ctx.store_register base idx v s = (Ok tt, s') /\ csim s' (with_mem c (le_store (c_mem c) (4 * (base + idx)) 4 v));
  csim_insn_start s c k d : csim s c -> exists s', Ctx.on_insn_start k d s = (Ok tt, s') /\ csim s' c;
  csim_insn_end s c k : csim s c -> exists s', Ctx.on_insn_end k s = (Ok tt, s') /\ csim s' c;
  csim_ecall_cycle s c k1 k2 x y z ek : csim s c ->
    exists s', Ctx.on_ecall_cycle k1 k2 x y z ek s = (Ok tt, s') /\ csim s' c;
  csim_set_user_pc s c p : csim s c -> csim (Ctx.set_user_pc p s) c;
  csim_trap_rewind s c : csim s c -> csim (Ctx.trap_rewind s) c;
  csim_on_trap s c : csim s c -> csim (Ctx.on_trap s) c;
  csim_on_trap_cause s c e : csim s c -> csim (Ctx.on_trap_cause e s) c;
  csim_on_user_ecall s c : csim s c -> csim (Ctx.on_user_ecall s) c;
  csim_read_end s c x y : csim s c -> csim (Ctx.on_ecall_read_end x y s) c;
  csim_host_read s c fd len : csim s c -> 0 <= len ->
    exists bytes rlen s', Ctx.host_read fd len s = (Ok (bytes, rlen), s') /\ csim s' c /\
      Forall u8 bytes /\ Z.of_nat (length bytes) = len /\ 0 <= rlen <= len;
  csim_sha2_cycle s c k st : csim s c -> csim (Ctx.on_sha2_cycle k st s) c;
  csim_poseidon2_cycle s c k st : csim s c -> csim (Ctx.on_poseidon2_cycle k st s) c;
}.

(** ** Bytes and regions *)

Lemma to_le_bytes_load mem a : bytes_wf mem ->
  to_le_bytes (le_load mem a 4) = [mem a; mem (a + 1); mem (a + 2); mem (a + 3)].
Proof.
  intros Hm. unfold to_le_bytes. cbn [map].
  rewrite !(le_load_byte mem a 4) by (done || lia). by rewrite Z.add_0_r.
Qed.

Lemma from_le_bytes_load mem a :
  le_load mem a 4 = from_le_bytes [mem a; mem (a + 1); mem (a + 2); mem (a + 3)].
Proof. cbn [le_load from_le_bytes foldr]. rewrite <- !Z.add_assoc. done. Qed.

Lemma waddr_div a : ByteAddr.waddr a = a / 4.
Proof. done. Qed.
Lemma subaddr_mod a : ByteAddr.subaddr a = a mod 4.
Proof. done. Qed.

(** The memory with the bytes [bs] written from [a] on. *)
Definition write_bytes (mem : Z -> Z) (a : Z) (bs : list Z) : Z -> Z :=
  fun x => match bs !! Z.to_nat (x - a) with
           | Some b => if a <=? x then b else mem x
           | None => mem x
           end.

Lemma write_bytes_in mem a bs i b : 0 <= i -> bs !! Z.to_nat i = Some b -> write_bytes mem a bs (a + i) = b.
Proof.
  intros Hi Hb. unfold write_bytes. replace (a + i - a) with i by lia. rewrite Hb.
  by destruct (Z.leb_spec a (a + i)); [|lia].
Qed.

Lemma write_bytes_out mem a bs x : x < a \/ a + Z.of_nat (length bs) <= x -> write_bytes mem a bs x = mem x.
Proof.
  intros Hx. unfold write_bytes. destruct (bs !! Z.to_nat (x - a)) eqn:E; [|done].
  apply lookup_lt_Some in E. destruct (Z.leb_spec a x); [lia|done].
Qed.

Lemma write_bytes_cons mem a b bs x :
  write_bytes mem a (b :: bs) x = write_bytes (write_bytes mem a [b]) (a + 1) bs x.
Proof.
  destruct (Z.ltb_spec x a); [by rewrite !write_bytes_out by lia|].
  destruct (Z.eqb_spec x a) as [->|].
  - rewrite (write_bytes_out _ (a + 1)) by lia.
    pose proof (write_bytes_in mem a (b :: bs) 0 b ltac:(lia) eq_refl) as H1.
    pose proof (write_bytes_in mem a [b] 0 b ltac:(lia) eq_refl) as H2.
    by rewrite Z.add_0_r in H1, H2; rewrite H1, H2.
  - unfold write_bytes at 1 2. replace (Z.to_nat (x - a)) with (S (Z.to_nat (x - (a + 1)))) by lia.
    cbn [lookup list_lookup]. rewrite write_bytes_out by (cbn [length]; lia).
    destruct (Z.leb_spec a x), (Z.leb_spec (a + 1) x); try lia. done.
Qed.

Lemma write_bytes_nil mem a x : write_bytes mem a [] x = mem x.
Proof. done. Qed.

Lemma write_bytes_ext m m' a bs x : (forall x, m x = m' x) -> write_bytes m a bs x = write_bytes m' a bs x.
Proof. intros H. unfold write_bytes. destruct (_ !! _); [|done]. by destruct (_ <=? _). Qed.

Lemma write_bytes_one mem a b x : u8 b -> write_bytes mem a [b] x = le_store mem a 1 b x.
Proof.
  intros Hb. destruct (Z.eqb_spec x a) as [->|].
  - pose proof (write_bytes_in mem a [b] 0 b ltac:(lia) eq_refl) as H1.
    pose proof (le_store_in mem a 1 b 0 ltac:(lia)) as H2.
    rewrite Z.add_0_r in H1, H2. rewrite H1, H2, Z.div_1_r. symmetry. by apply Z.mod_small.
  - rewrite write_bytes_out, le_store_out by (cbn [length]; lia). done.
Qed.

Lemma write_bytes_wf mem a bs : bytes_wf mem -> Forall u8 bs -> bytes_wf (write_bytes mem a bs).
Proof.
  intros Hm Hb x. unfold write_bytes. destruct (bs !! _) as [b|] eqn:E; [|apply Hm].
  destruct (_ <=? _); [|apply Hm]. by eapply Forall_lookup_1.
Qed.

Lemma write_bytes_app mem a xs ys x :
  write_bytes mem a (xs ++ ys) x = write_bytes (write_bytes mem a xs) (a + Z.of_nat (length xs)) ys x.
Proof.
  revert mem a. induction xs as [|b xs IH]; intros mem a; cbn [app length].
  - rewrite Z.add_0_r. by apply write_bytes_ext.
  - rewrite write_bytes_cons, IH. replace (a + 1 + Z.of_nat (length xs)) with (a + Z.of_nat (S (length xs))) by lia.
    apply write_bytes_ext. intros y. by rewrite write_bytes_cons.
Qed.

Section Regions.
Context {S : Type} `{CtxLaws S}.

Lemma load_u8_run s c op a : csim s c -> c_mapped (a / 4) = true ->
  exists s', load_u8 op a s = (Ok (c_mem c a), s') /\ csim s' c.
Proof.
  intros Hs Hm. pose proof (csim_bytes s c Hs) as Hb. unfold load_u8. rewrite waddr_div, subaddr_mod.
  destruct (csim_load s c op _ Hs Hm) as (s' & E & Hs'). rewrite (run_bind _ _ _ _ _ E).
  exists s'. split; [|done]. rewrite to_le_bytes_load by done. unfold lift. f_equal.
  pose proof (Z.div_mod a 4 ltac:(lia)) as Hd. pose proof (Z.mod_pos_bound a 4 ltac:(lia)) as Hq.
  assert (Hc : a mod 4 = 0 \/ a mod 4 = 1 \/ a mod 4 = 2 \/ a mod 4 = 3) by lia.
  destruct Hc as [E'|[E'|[E'|E']]]; rewrite E' in *.
  - refine (f_equal (fun x => Ok (c_mem c x)) (_ : 4 * (a / 4) = a)). lia.
  - refine (f_equal (fun x => Ok (c_mem c x)) (_ : 4 * (a / 4) + 1 = a)). lia.
  - refine (f_equal (fun x => Ok (c_mem c x)) (_ : 4 * (a / 4) + 2 = a)). lia.
  - refine (f_equal (fun x => Ok (c_mem c x)) (_ : 4 * (a / 4) + 3 = a)). lia.
Qed.

Lemma store_u8_run s c a b : csim s c -> c_mapped (a / 4) = true -> u8 b ->
  exists s', store_u8 a b s = (Ok tt, s') /\ csim s' (with_mem c (write_bytes (c_mem c) a [b])).
Proof.
  intros Hs Hm Hu. pose proof (csim_bytes s c Hs) as Hb. unfold store_u8. rewrite waddr_div, subaddr_mod.
  destruct (csim_load s c Record _ Hs Hm) as (s1 & E & Hs1). rewrite (run_bind _ _ _ _ _ E).
  rewrite to_le_bytes_load by done.
  set (mem' := le_store (c_mem c) a 1 b).
  assert (Hw : from_le_bytes (<[Z.to_nat (a mod 4):=b]>
      [c_mem c (4 * (a / 4)); c_mem c (4 * (a / 4) + 1); c_mem c (4 * (a / 4) + 2); c_mem c (4 * (a / 4) + 3)])
      = word_at mem' a).
  { unfold word_at. rewrite from_le_bytes_load. f_equal.
    pose proof (Z.div_mod a 4 ltac:(lia)) as Hd. pose proof (Z.mod_pos_bound a 4 ltac:(lia)) as Hq.
    assert (Hin : mem' a = b).
    { unfold mem'. pose proof (le_store_in (c_mem c) a 1 b 0 ltac:(lia)) as E0.
      rewrite Z.add_0_r, Z.div_1_r in E0. rewrite E0. by apply Z.mod_small. }
    assert (Hout : forall x, x <> a -> mem' x = c_mem c x) by (intros; apply le_store_out; lia).
    assert (Hc : a mod 4 = 0 \/ a mod 4 = 1 \/ a mod 4 = 2 \/ a mod 4 = 3) by lia.
    assert (Hl : forall x y, (x = a -> y = b) -> (x <> a -> y = c_mem c x) -> y = mem' x).
    { intros x y H1 H2. destruct (Z.eq_dec x a) as [->|]; [by rewrite Hin, H1|by rewrite Hout, H2]. }
    destruct Hc as [E'|[E'|[E'|E']]]; rewrite E' in *;
      do 4 (refine (f_equal2 cons _ _); [apply Hl; intros; first [done | lia]|]); done. }
  rewrite Hw.
  assert (Hwu : u32 (word_at mem' a)) by (apply le_load_u32; [by apply le_store_wf|lia]).
  destruct (csim_store s1 c _ _ Hs1 Hm Hwu) as (s2 & E2 & Hs2).
  exists s2. split; [done|]. eapply csim_eq; [exact Hs2|]. split_and!; [done..|]. intros x. cbn [c_mem with_mem].
  rewrite write_bytes_one by done. apply store_word_at; [by apply le_store_wf|].
  intros y Hy. apply le_store_out. pose proof (Z.div_mod a 4). pose proof (Z.div_mod y 4).
  pose proof (Z.mod_pos_bound y 4). pose proof (Z.mod_pos_bound a 4). lia.
Qed.

(** The [n] bytes from [a] on are mapped and do not wrap around the address space. *)
Definition region (a n : Z) : Prop :=
  0 <= a /\ a + n <= 2 ^ 32 /\ forall x, a <= x < a + n -> c_mapped (x / 4) = true.

Lemma store_bytes_run bs : forall s c a i, csim s c -> Forall u8 bs -> 0 <= i ->
  region (a + i) (Z.of_nat (length bs)) -> 0 <= a ->
  exists s', store_bytes a i bs s = (Ok tt, s') /\
    csim s' (with_mem c (write_bytes (c_mem c) (a + i) bs)).
Proof.
  induction bs as [|b bs IH]; intros s c a i Hs Hb Hi (Hr1 & Hr2 & Hr3) Ha; cbn [store_bytes length] in *.
  - exists s. split; [done|]. eapply csim_eq; [exact Hs|]. by split_and!.
  - apply Forall_cons in Hb as [Hb Hbs].
    assert (Ea : ByteAddr.add_usize a i = a + i).
    { unfold ByteAddr.add_usize, add32. rewrite (wrap_small 32 i), wrap_small; unfold fits; lia. }
    rewrite Ea. destruct (store_u8_run s c (a + i) b Hs) as (s1 & E1 & Hs1); [apply Hr3; lia|done|].
    rewrite (run_bind _ _ _ _ _ E1).
    destruct (IH s1 _ a (i + 1) Hs1 Hbs ltac:(lia)) as (s2 & E2 & Hs2); [|done|].
    { split_and!; [lia|lia|]. intros x Hx. apply Hr3. lia. }
    exists s2. split; [done|]. eapply csim_eq; [exact Hs2|]. split_and!; [done..|]. intros x.
    cbn [c_mem with_mem]. rewrite write_bytes_cons. by rewrite Z.add_assoc.
Qed.

Lemma le_store_bytes mem a bs x : Forall u8 bs ->
  le_store mem a (length bs) (from_le_bytes bs) x = write_bytes mem a bs x.
Proof.
  revert mem a x. induction bs as [|b bs IH]; intros mem a x Hb.
  - cbn [length]. rewrite le_store_out by lia. done.
  - apply Forall_cons in Hb as [Hb Hbs]. rewrite write_bytes_cons, <- IH by done.
    cbn [from_le_bytes foldr length]. fold (from_le_bytes bs). unfold fits in Hb.
    destruct (Z.eqb_spec x a) as [->|Hne].
    + rewrite (le_store_out _ (a + 1)), write_bytes_one by (done || lia).
      pose proof (le_store_in mem a (Datatypes.S (length bs)) (b + 256 * from_le_bytes bs) 0 ltac:(lia)) as E1.
      pose proof (le_store_in mem a 1 b 0 ltac:(lia)) as E2. rewrite Z.add_0_r in E1, E2. rewrite E1, E2.
      rewrite !Z.div_1_r, (Z.mul_comm 256), Z.mod_add by lia. done.
    + destruct (decide (a < x < a + 1 + Z.of_nat (length bs))) as [Hx|Hx].
      * pose proof (le_store_in mem a (Datatypes.S (length bs)) (b + 256 * from_le_bytes bs) (x - a) ltac:(lia)) as E1.
        pose proof (le_store_in (write_bytes mem a [b]) (a + 1) (length bs) (from_le_bytes bs) (x - a - 1) ltac:(lia)) as E2.
        replace (a + (x - a)) with x in E1 by lia. replace (a + 1 + (x - a - 1)) with x in E2 by lia.
        rewrite E1, E2. replace (x - a) with (1 + (x - a - 1)) at 1 by lia.
        rewrite Z.pow_add_r by lia. change (256 ^ 1) with 256.
        pose proof (Z.pow_pos_nonneg 256 (x - a - 1) ltac:(lia) ltac:(lia)).
        rewrite <- Z.div_div by lia.
        assert (Ed : (b + 256 * from_le_bytes bs) / 256 = from_le_bytes bs)
          by (Z.to_euclidean_division_equations; lia).
        by rewrite Ed.
      * rewrite !le_store_out, write_bytes_out by (cbn [length]; lia). done.
Qed.

Lemma store_words_run : forall n s c w bs, length bs = (4 * n)%nat -> csim s c -> Forall u8 bs -> 0 <= w ->
  region (4 * w) (Z.of_nat (length bs)) ->
  exists s', store_words w bs s = (Ok tt, s') /\
    csim s' (with_mem c (write_bytes (c_mem c) (4 * w) bs)).
Proof.
  induction n as [|n IH]; intros s c w bs Hn Hs Hb Hw (Hr1 & Hr2 & Hr3).
  { destruct bs; [|done]. exists s. split; [done|]. eapply csim_eq; [exact Hs|]. by split_and!. }
  destruct bs as [|b0 [|b1 [|b2 [|b3 bs]]]]; try (cbn in Hn; lia).
  cbn [store_words WordAddr.postfix_inc]. cbn [length] in *.
  rewrite !Forall_cons in Hb. destruct Hb as (Hb0 & Hb1 & Hb2 & Hb3 & Hbs).
  assert (H4 : Forall u8 [b0; b1; b2; b3]) by eauto 10 using Forall_cons_2, Forall_nil_2.
  pose proof (from_le_bytes_range _ H4) as Hv.
  destruct (csim_store s c w (from_le_bytes [b0; b1; b2; b3]) Hs) as (s1 & E1 & Hs1); [|exact Hv|].
  { replace w with (4 * w / 4) by (rewrite Z.mul_comm, Z.div_mul by lia; done). apply Hr3. lia. }
  rewrite (run_bind _ _ _ _ _ E1).
  assert (Ew : (w +32 1)%word = w + 1 \/ bs = []).
  { destruct bs; [by right|]. left. unfold add32. apply wrap_small. cbn [length] in Hr2. unfold fits. lia. }
  assert (Hnext : exists s2, store_words (w +32 1)%word bs s1 = (Ok tt, s2) /\
     csim s2 (with_mem c (write_bytes (le_store (c_mem c) (4 * w) 4 (from_le_bytes [b0; b1; b2; b3])) (4 * (w + 1)) bs))).
  { destruct Ew as [->| ->].
    - apply (IH s1 _ (w + 1) bs ltac:(lia) Hs1 Hbs ltac:(lia)). split_and!; [lia|lia|].
      intros x Hx. apply Hr3. lia.
    - exists s1. by split. }
  destruct Hnext as (s2 & E2 & Hs2). exists s2. split; [exact E2|].
  eapply csim_eq; [exact Hs2|]. split_and!; [done..|]. intros x. cbn [c_mem with_mem].
  rewrite !(write_bytes_cons _ _ b0), !(write_bytes_cons _ _ b1), !(write_bytes_cons _ _ b2), !(write_bytes_cons _ _ b3).
  replace (4 * (w + 1)) with (4 * w + 1 + 1 + 1 + 1) by lia. apply write_bytes_ext. intros y.
  rewrite (le_store_bytes (c_mem c) (4 * w) [b0; b1; b2; b3]) by done.
  by rewrite !(write_bytes_cons _ _ b0), !(write_bytes_cons _ _ b1), !(write_bytes_cons _ _ b2).
Qed.

Lemma store_region_run s c a bs : csim s c -> Forall u8 bs -> region a (Z.of_nat (length bs)) ->
  exists s', store_region a bs s = (Ok tt, s') /\
    csim s' (with_mem c (write_bytes (c_mem c) a bs)).
Proof.
  intros Hs Hb Hr. unfold store_region.
  destruct (ByteAddr.is_aligned a && (Z.of_nat (length bs) mod WORD_SIZE =? 0)) eqn:E.
  - apply andb_prop in E as [Ha%Z.eqb_eq Hl%Z.eqb_eq]. unfold WORD_SIZE in *.
    assert (Ea : 4 * (a / 4) = a) by (pose proof (Z.div_mod a 4); lia).
    rewrite waddr_div. destruct (store_words_run (length bs / 4) s c (a / 4) bs) as (s' & E & Hs'); [|done|done| |by rewrite Ea|].
    + pose proof (Nat.div_mod (length bs) 4). assert (length bs mod 4 = 0)%nat; [|lia].
      apply Nat2Z.inj. rewrite Nat2Z.inj_mod. exact Hl.
    + destruct Hr. apply Z.div_pos; lia.
    + rewrite Ea in Hs'. eauto.
  - destruct (store_bytes_run bs s c a 0 Hs Hb ltac:(lia)) as (s' & E' & Hs'); [by rewrite Z.add_0_r|by destruct Hr|].
    rewrite Z.add_0_r in Hs'. eauto.
Qed.

Lemma mapM_run {A B} (f : A -> state S error B) (g : A -> B) c (P : A -> Prop) l :
  (forall s x, csim s c -> P x -> exists s', f x s = (Ok (g x), s') /\ csim s' c) ->
  Forall P l -> forall s, csim s c -> exists s', mapM f l s = (Ok (map g l), s') /\ csim s' c.
Proof.
  intros Hf. induction 1 as [|x l Hx _ IH]; intros s Hs; cbn [mapM map].
  - exists s. split; [reflexivity|done].
  - destruct (Hf s x Hs Hx) as (s1 & E1 & Hs1). rewrite (run_bind _ _ _ _ _ E1).
    destruct (IH s1 Hs1) as (s2 & E2 & Hs2). rewrite (run_bind _ _ _ _ _ E2).
    exists s2. split; [reflexivity|done].
Qed.

Lemma bind_map {A B C} (g : A -> B) (f : B -> list C) l : map g l ≫= f = l ≫= (fun x => f (g x)).
Proof. induction l as [|x l IH]; [done|]. cbn [map]. by rewrite !bind_cons, IH. Qed.

Lemma bind_pointwise {A B} (f g : A -> list B) l : (forall x, f x = g x) -> l ≫= f = l ≫= g.
Proof. intros H1. induction l as [|x l IH]; [done|]. by rewrite !bind_cons, IH, H1. Qed.

Lemma seqZ_words (f : Z -> Z) a n : 0 <= n -> forall j,
  map f (seqZ (a + 4 * j) (4 * n)) =
  seqZ j n ≫= (fun i => [f (a + 4 * i); f (a + 4 * i + 1); f (a + 4 * i + 2); f (a + 4 * i + 3)]).
Proof.
  intros Hn. pattern n. apply natlike_ind; [done| |done]. clear n Hn. intros n Hn IH j.
  rewrite (seqZ_cons j) by lia. rewrite 4!seqZ_cons by lia. cbn [map mbind list_bind].
  rewrite Z.pred_succ. replace (Z.pred (Z.pred (Z.pred (Z.pred (4 * Z.succ n))))) with (4 * n) by lia.
  replace (Z.succ (Z.succ (Z.succ (Z.succ (a + 4 * j))))) with (a + 4 * Z.succ j) by lia.
  rewrite IH. cbn [app]. repeat f_equal; lia.
Qed.

Lemma mapM_words_run c op w n s : csim s c -> 0 <= n -> 0 <= w -> region (4 * w) (4 * n) ->
  exists s', mapM (fun i => Ctx.load_u32 op (WordAddr.add_usize w i)) (seqZ 0 n) s
    = (Ok (map (fun i => le_load (c_mem c) (4 * (w + i)) 4) (seqZ 0 n)), s') /\ csim s' c.
Proof.
  intros Hs Hn Hw (Hr1 & Hr2 & Hr3).
  apply (mapM_run _ _ c (fun i => 0 <= i < n)); [|apply Forall_seqZ; lia|done].
  intros s1 i Hs1 Hi.
  assert (E : WordAddr.add_usize w i = w + i).
  { unfold WordAddr.add_usize, add32. rewrite (wrap_small 32 i), wrap_small; unfold fits; lia. }
  rewrite E. apply csim_load; [done|].
  replace (w + i) with (4 * (w + i) / 4) by (rewrite Z.mul_comm, Z.div_mul by lia; done).
  apply Hr3. lia.
Qed.

Lemma reader_run s c castable op a n : csim s c -> 0 <= n -> region a n ->
  exists s', reader_read castable op a n s = (Ok (map (c_mem c) (seqZ a n)), s') /\ csim s' c.
Proof.
  intros Hs Hn Hr. pose proof Hr as (Hr1 & Hr2 & Hr3). unfold reader_read.
  destruct (ByteAddr.is_aligned a && castable && (n mod 4 =? 0)) eqn:E.
  - apply andb_prop in E as [[Ha%Z.eqb_eq _]%andb_prop Hm%Z.eqb_eq]. unfold WORD_SIZE in Ha.
    assert (Ea : 4 * (a / 4) = a) by (pose proof (Z.div_mod a 4); lia).
    assert (En : 4 * (n / 4) = n) by (pose proof (Z.div_mod n 4); lia).
    rewrite waddr_div.
    destruct (mapM_words_run c op (a / 4) (n / 4) s Hs) as (s' & E' & Hs');
      [apply Z.div_pos; lia|apply Z.div_pos; lia|by rewrite Ea, En|].
    rewrite (run_bind _ _ _ _ _ E'). exists s'. split; [|done]. unfold mret, state_ret. do 2 f_equal.
    pose proof (seqZ_words (c_mem c) a (n / 4) ltac:(apply Z.div_pos; lia) 0) as Hw.
    rewrite Z.mul_0_r, Z.add_0_r, En in Hw. rewrite Hw.
    rewrite bind_map. apply bind_pointwise. intros i.
    rewrite to_le_bytes_load by by apply (csim_bytes s).
    by replace (4 * (a / 4 + i)) with (a + 4 * i) by lia.
  - destruct (mapM_run (fun i => load_u8 op (ByteAddr.add_usize a i)) (fun i => c_mem c (a + i)) c
      (fun i => 0 <= i < n) (seqZ 0 n)) with (s := s) as (s' & E' & Hs'); [|apply Forall_seqZ; lia|done|].
    + intros s1 i Hs1 Hi.
      assert (E1 : ByteAddr.add_usize a i = a + i).
      { unfold ByteAddr.add_usize, add32. rewrite (wrap_small 32 i), wrap_small; unfold fits; lia. }
      rewrite E1. apply load_u8_run; [done|]. apply Hr3. lia.
    + rewrite E'. exists s'. split; [|done]. do 2 f_equal.
      assert (Eq : seqZ a n = Z.add a <$> seqZ 0 n) by (rewrite fmap_add_seqZ, Z.add_0_r; done).
      rewrite Eq.
      change (map ?f ?l) with (f <$> l). by rewrite <- list_fmap_compose.
Qed.

Lemma load_region_run s c castable op a n : csim s c -> 0 <= n < 2 ^ 32 -> a + n < 2 ^ 32 -> region a n ->
  exists s', load_region castable op a n s = (Ok (map (c_mem c) (seqZ a n)), s') /\ csim s' c.
Proof.
  intros Hs Hn Ha Hr. unfold load_region, ByteAddr.checked_add. rewrite (wrap_small 32 n) by done.
  replace (a + n <=? MAX32) with true by lia. cbn [ok_or]. rewrite run_lift_Ok.
  assert (H1 : exists s', (if n =? 0 then mret [] else reader_read castable op a n) s = (Ok (map (c_mem c) (seqZ a n)), s') /\ csim s' c).
  { destruct (Z.eqb_spec n 0) as [->|]; [by exists s|]. apply reader_run; [done|lia|done]. }
  destruct H1 as (s' & E & Hs'). rewrite (run_bind _ _ _ _ _ E). rewrite Z.ltb_irrefl. by exists s'.
Qed.

Lemma map_write_bytes mem a bs : map (write_bytes mem a bs) (seqZ a (Z.of_nat (length bs))) = bs.
Proof.
  apply list_eq. intros i. change (map ?f ?l) with (f <$> l). rewrite list_lookup_fmap.
  destruct (decide (i < length bs)%nat) as [Hi|Hi].
  - rewrite lookup_seqZ_lt by lia. cbn [fmap option_fmap option_map].
    destruct (lookup_lt_is_Some_2 bs i Hi) as [b Hb]. rewrite Hb. f_equal.
    apply write_bytes_in; [lia|]. by rewrite Nat2Z.id.
  - rewrite lookup_seqZ_ge by lia. symmetry. apply lookup_ge_None. lia.
Qed.

(** A region of guest memory that [store_region] wrote reads back as the bytes
    it was given, whichever of the word and byte paths either call takes (the
    destination's alignment, the length, the host buffer's alignment), and no byte
    outside the region changes. *)
Theorem store_region_load_region s c a bs castable op :
  csim s c -> Forall u8 bs -> a + Z.of_nat (length bs) < 2 ^ 32 -> region a (Z.of_nat (length bs)) ->
  exists s1 s2 c', store_region a bs s = (Ok tt, s1) /\
    load_region castable op a (Z.of_nat (length bs)) s1 = (Ok bs, s2) /\ csim s2 c' /\
    forall x, x < a \/ a + Z.of_nat (length bs) <= x -> c_mem c' x = c_mem c x.
Proof.
  intros Hs Hb Ha Hr. destruct (store_region_run s c a bs Hs Hb Hr) as (s1 & E1 & Hs1).
  destruct (load_region_run s1 _ castable op a (Z.of_nat (length bs)) Hs1) as (s2 & E2 & Hs2); [|done..|].
  { destruct Hr. lia. }
  cbn [c_mem with_mem] in E2. rewrite map_write_bytes in E2.
  exists s1, s2, (with_mem c (write_bytes (c_mem c) a bs)). split_and!; [done..|].
  intros x Hx. by apply write_bytes_out.
Qed.

End Regions.
