(* ===== verification/Sha2.v ===== *)
(** * The SHA-256 ecall

    The accelerator keeps the last 68 values of [a] and [e] and the last 16
    message words in ring buffers and reads them backwards; the theorem is that
    this computes the compression function of FIPS 180-4 on every block, with the
    state and the data read from and written to guest memory big-endian. *)
From S2P Require Export R0ctx.
Open Scope word_scope.
Open Scope Z_scope.

(* source: src/risc0/risc0/circuit/rv32im/src/execute/sha2.rs *)
Module Sha2.

(* L25-25 SHA2_LOAD_STATE_CYCLES *)
Definition SHA2_LOAD_STATE_CYCLES : Z := 4.
(* src/risc0/risc0/zkp/src/core/hash/sha/mod.rs:51-51 BLOCK_WORDS *)
Definition BLOCK_WORDS : Z := 16.
(* L26-26 SHA2_LOAD_DATA_CYCLES *)
Definition SHA2_LOAD_DATA_CYCLES : Z := BLOCK_WORDS.
(* L27-27 SHA2_MIX_CYCLES *)
Definition SHA2_MIX_CYCLES : Z := 48.
(* L28-28 SHA2_STORE_CYCLES *)
Definition SHA2_STORE_CYCLES : Z := 4.
(* L29-30 SHA2_BACK *)
Definition SHA2_BACK : nat := Z.to_nat (SHA2_LOAD_STATE_CYCLES + SHA2_LOAD_DATA_CYCLES + SHA2_MIX_CYCLES).

(** The ring buffer, with its size as a parameter; indexing is always in range. *)
(* L222-225 RingBuffer *)
Record RingBuffer := mkRing { buf : list Z; cur : nat }.
(* L228-233 RingBuffer::new *)
Definition ring_new (N : nat) : RingBuffer := mkRing (replicate N 0) 0.
(* L235-239 RingBuffer::push *)
Definition push (N : nat) (r : RingBuffer) (value : Z) : RingBuffer :=
  mkRing (<[cur r := value]> (buf r)) ((cur r + 1) mod N)%nat.
(* L241-243 RingBuffer::back *)
Definition back (N : nat) (r : RingBuffer) (i : nat) : Z :=
  nth ((N + cur r - i) mod N)%nat (buf r) 0.

(** [u32::rotate_right], [u32::to_be] (a byte swap) and [!]. *)
Definition rotr (n x : Z) : Z := (x .>> n) .| (x .<< (32 - n)).
Definition to_be (w : Z) : Z := from_le_bytes (rev (to_le_bytes w)).
Definition not32 (x : Z) : Z := x .^ MAX32.

(* L159-163 ch! *)
Definition ch (x y z : Z) : Z := (x .& y) .^ (not32 x .& z).
(* L165-169 maj! *)
Definition maj (x y z : Z) : Z := (x .& y) .^ (x .& z) .^ (y .& z).
(* L171-175 epsilon0! *)
Definition epsilon0 (x : Z) : Z := rotr 2 x .^ rotr 13 x .^ rotr 22 x.
(* L177-181 epsilon1! *)
Definition epsilon1 (x : Z) : Z := rotr 6 x .^ rotr 11 x .^ rotr 25 x.
(* L204-208 sigma0! *)
Definition sigma0 (x : Z) : Z := rotr 7 x .^ rotr 18 x .^ (x .>> 3).
(* L210-214 sigma1! *)
Definition sigma1 (x : Z) : Z := rotr 17 x .^ rotr 19 x .^ (x .>> 10).

(* L153-201 compute_ae *)
Definition compute_ae (old_a old_e : RingBuffer) (k w : Z) : Z * Z :=
  let a := back SHA2_BACK old_a 1 in
  let b := back SHA2_BACK old_a 2 in
  let c := back SHA2_BACK old_a 3 in
  let d := back SHA2_BACK old_a 4 in
  let e := back SHA2_BACK old_e 1 in
  let f := back SHA2_BACK old_e 2 in
  let g := back SHA2_BACK old_e 3 in
  let h := back SHA2_BACK old_e 4 in
  let t1 := h +32 epsilon1 e +32 ch e f g +32 k +32 w in
  let t2 := epsilon0 a +32 maj a b c in
  let e := d +32 t1 in
  let a := t1 +32 t2 in
  (a, e).

(* L203-220 compute_w *)
Definition compute_w (old_w : RingBuffer) : Z :=
  sigma1 (back 16 old_w 2) +32 back 16 old_w 7 +32 sigma0 (back 16 old_w 15) +32 back 16 old_w 16.

(** The locals of [ecall]. *)
Record locals := mkLocals {
  sha : Sha2State; cur_state : CycleState;
  old_a : RingBuffer; old_e : RingBuffer; old_w : RingBuffer }.

Definition with_round (i : Z) (s : Sha2State) : Sha2State :=
  mkSha (state_in_addr s) (state_out_addr s) (data_addr s) (count s) (k_addr s) i (next_state s)
    (a s) (e s) (w s).
Definition with_next (n : CycleState) (s : Sha2State) : Sha2State :=
  mkSha (state_in_addr s) (state_out_addr s) (data_addr s) (count s) (k_addr s) (round s) n
    (a s) (e s) (w s).
Definition with_aew (a e w : Z) (s : Sha2State) : Sha2State :=
  mkSha (state_in_addr s) (state_out_addr s) (data_addr s) (count s) (k_addr s) (round s)
    (next_state s) a e w.
Definition with_data (d c : Z) (s : Sha2State) : Sha2State :=
  mkSha (state_in_addr s) (state_out_addr s) d c (k_addr s) (round s) (next_state s)
    (a s) (e s) (w s).

Section Ecall.
Context {S : Type} `{Risc0Context S}.

(* L47-56 Sha2State::step, with the assignment of the round before it *)
Definition step (i : Z) (next : CycleState) (l : locals) : state S error locals :=
  let sha := with_next next (with_round i (sha l)) in
  modify (Ctx.on_sha2_cycle (cur_state l) sha);;
  mret (mkLocals sha next (old_a l) (old_e l) (old_w l)).

(** Records the new values of [a], [e] and [w] and pushes [a] and [e]. *)
Definition push_ae (av ev wv : Z) (l : locals) : locals :=
  mkLocals (with_aew av ev wv (sha l)) (cur_state l)
    (push SHA2_BACK (old_a l) av) (push SHA2_BACK (old_e l) ev) (old_w l).
Definition push_w (wv : Z) (l : locals) : locals :=
  mkLocals (sha l) (cur_state l) (old_a l) (old_e l) (push 16 (old_w l) wv).

(* L89-100 ecall, one cycle of the state load *)
Definition load_state (i : Z) (l : locals) : state S error locals :=
  l ← step i ShaLoadState l;
  let sin := state_in_addr (sha l) in
  let sout := state_out_addr (sha l) in
  av ← Ctx.load_u32 Record (WordAddr.sub_u32 (WordAddr.add_u32 sin 3) i);
  ev ← Ctx.load_u32 Record (WordAddr.sub_u32 (WordAddr.add_u32 sin 7) i);
  let l := push_ae (to_be av) (to_be ev) (w (sha l)) l in
  Ctx.store_u32 (WordAddr.sub_u32 (WordAddr.add_u32 sout 3) i) av;;
  Ctx.store_u32 (WordAddr.sub_u32 (WordAddr.add_u32 sout 7) i) ev;;
  mret l.

(* L104-116 ecall, one cycle of the data load *)
Definition load_data (i : Z) (l : locals) : state S error locals :=
  l ← step i ShaLoadData l;
  k ← Ctx.load_u32 Record (WordAddr.add_u32 (k_addr (sha l)) i);
  d ← Ctx.load_u32 Record (data_addr (sha l));
  let wv := to_be d in
  let l := mkLocals (with_data (WordAddr.add_u32 (data_addr (sha l)) 1) (count (sha l)) (sha l))
             (cur_state l) (old_a l) (old_e l) (old_w l) in
  let l := push_w wv l in
  let '(av, ev) := compute_ae (old_a l) (old_e l) k wv in
  mret (push_ae av ev wv l).

(* L118-129 ecall, one mixing cycle *)
Definition mix (i : Z) (l : locals) : state S error locals :=
  l ← step i ShaMix l;
  k ← Ctx.load_u32 Record (WordAddr.add_u32 (WordAddr.add_usize (k_addr (sha l)) BLOCK_WORDS) i);
  let wv := compute_w (old_w l) in
  let l := push_w wv l in
  let '(av, ev) := compute_ae (old_a l) (old_e l) k wv in
  mret (push_ae av ev wv l).

(* L131-144 ecall, one cycle of the state store *)
Definition store_state (i : Z) (l : locals) : state S error locals :=
  l ← step i ShaStoreState l;
  let av := back SHA2_BACK (old_a l) 4 +32 back SHA2_BACK (old_a l) SHA2_BACK in
  let ev := back SHA2_BACK (old_e l) 4 +32 back SHA2_BACK (old_e l) SHA2_BACK in
  let cnt := if i =? 3 then count (sha l) - 1 else count (sha l) in
  let l := mkLocals (with_data (data_addr (sha l)) cnt (sha l))
             (cur_state l) (old_a l) (old_e l) (old_w l) in
  let l := push_ae av ev 0 l in
  let sout := state_out_addr (sha l) in
  Ctx.store_u32 (WordAddr.sub_u32 (WordAddr.add_u32 sout 3) i) (to_be av);;
  Ctx.store_u32 (WordAddr.sub_u32 (WordAddr.add_u32 sout 7) i) (to_be ev);;
  mret l.

(* L103-145 ecall, the loop over the blocks *)
Fixpoint blocks (fuel : nat) (l : locals) : state S error locals :=
  match fuel with
  | O => panic
  | Datatypes.S fuel =>
      if count (sha l) =? 0 then mret l else
      l ← for_each (seqZ 0 SHA2_LOAD_DATA_CYCLES) load_data l;
      l ← for_each (seqZ 0 SHA2_MIX_CYCLES) mix l;
      l ← for_each (seqZ 0 SHA2_STORE_CYCLES) store_state l;
      blocks fuel l
  end.

(* L59-151 ecall *)
Definition ecall : state S error unit :=
  a0 ← load_machine_register Record REG_A0; a0 ← guest_addr a0;
  a1 ← load_machine_register Record REG_A1; a1 ← guest_addr a1;
  a2 ← load_machine_register Record REG_A2; a2 ← guest_addr a2;
  a3 ← load_machine_register Record REG_A3; let count := a3 .& 0xffff in
  a4 ← load_machine_register Record REG_A4; a4 ← guest_addr a4;
  if MAX_SHA_COUNT <? count then throw (ErrShaCount count) else
  let sha2 := mkSha (ByteAddr.waddr a0) (ByteAddr.waddr a1) (ByteAddr.waddr a2) count
                (ByteAddr.waddr a4) 0 ShaEcall 0 0 0 in
  let l := mkLocals sha2 ShaEcall (ring_new SHA2_BACK) (ring_new SHA2_BACK) (ring_new 16) in
  l ← for_each (seqZ 0 SHA2_LOAD_STATE_CYCLES) load_state l;
  l ← blocks (Datatypes.S (Z.to_nat count)) l;
  _ ← step 0 Platform.Decode l;
  mret tt.

End Ecall.
End Sha2.
