(* ===== verification/R0vm.v ===== *)
(** * The zkVM machine around the emulator

    [Machine] is [Risc0Machine]: registers kept in memory, ecalls, traps and their
    checks, and the [EmuContext] instance that the emulator runs on.  In user mode
    it meets [EmuLaws], so the emulator's refinement theorem applies to it; the
    transfer loops of [ecall_read] are shown to write exactly the bytes the host
    returned. *)
From S2P Require Export R0ctx Sha2.
Import Decoded Isa(le_load, le_store, is_reg).
Open Scope word_scope.
Open Scope Z_scope.

(* source: src/risc0/risc0/circuit/rv32im/src/execute/r0vm.rs *)

Module Machine.
Section Machine.
Context {S : Type} `{Risc0Context S}.

(* L408-410 Risc0Machine::is_machine_mode *)
Definition is_machine_mode (s : S) : bool := negb (Ctx.get_machine_mode s =? 0).

(* L412-414 Risc0Machine::next_pc *)
Definition next_pc : state S error unit :=
  modify (fun s => Ctx.set_pc (ByteAddr.add_usize (Ctx.get_pc s) WORD_SIZE) s).

(* L676-682 Risc0Machine::regs_base_addr *)
Definition regs_base_addr (s : S) : Z :=
  if is_machine_mode s then ByteAddr.waddr MACHINE_REGS_ADDR else ByteAddr.waddr USER_REGS_ADDR.

(* L794-799 Risc0Machine::load_register *)
Definition load_register (idx : Z) : state S error Z :=
  base ← gets regs_base_addr; Ctx.load_register Record base idx.

(* L801-813 Risc0Machine::store_register *)
Definition store_register (idx word : Z) : state S error unit :=
  base ← gets regs_base_addr;
  if idx =? REG_ZERO then Ctx.store_u32 (WordAddr.add_usize base (REG_MAX * 2)) word
  else Ctx.store_register base idx word.

(* L815-818 Risc0Machine::load_memory *)
Definition load_memory (addr : Z) : state S error Z := Ctx.load_u32 Record addr.

(* L820-823 Risc0Machine::store_memory *)
Definition store_memory (addr word : Z) : state S error unit := Ctx.store_u32 addr word.

(* L664-674 Risc0Machine::enter_trap *)
Definition enter_trap (dispatch_addr : Z) : state S error unit :=
  mm ← gets is_machine_mode;
  if mm : bool then throw ErrTrapInMachineMode else
  pc ← gets Ctx.get_pc;
  store_memory (ByteAddr.waddr MEPC_ADDR) pc;;
  modify (Ctx.set_pc dispatch_addr);;
  modify (Ctx.set_user_pc pc);;
  modify (Ctx.set_machine_mode 1).

(* L684-702 Risc0Machine::dump_registers, which only reads *)
Definition dump_registers (is_machine_mode : bool) : state S error unit :=
  let base_addr := if is_machine_mode then ByteAddr.waddr MACHINE_REGS_ADDR
                   else ByteAddr.waddr USER_REGS_ADDR in
  _ ← mapM (fun idx => Ctx.load_u32 Peek (WordAddr.add_usize base_addr idx)) (seqZ 0 REG_MAX);
  mret tt.

(* L754-772 Risc0Machine::trap *)
Definition trap (cause : Exception) : state S error bool :=
  modify Ctx.trap_rewind;;
  (match cause with
   | Breakpoint => dump_registers true;; dump_registers false
   | _ => mret tt
   end);;
  (match cause with
   | IllegalInstruction _ _ => dump_registers true;; dump_registers false
   | _ => mret tt
   end);;
  dispatch_addr ← load_memory (ByteAddr.waddr TRAP_DISPATCH_ADDR);
  if negb (ByteAddr.is_aligned dispatch_addr) || negb (is_kernel_memory dispatch_addr)
  then throw (ErrTrapAddr dispatch_addr cause) else
  enter_trap dispatch_addr;;
  modify Ctx.on_trap;;
  modify (Ctx.on_trap_cause cause);;
  mret false.

(* L428-439 Risc0Machine::user_ecall *)
Definition user_ecall : state S error bool :=
  a ← load_memory (ByteAddr.waddr ECALL_DISPATCH_ADDR);
  dispatch_addr ← guest_addr a;
  if negb (ByteAddr.is_aligned dispatch_addr) || negb (is_kernel_memory dispatch_addr)
  then trap (UserEnvCall dispatch_addr) else
  modify Ctx.on_user_ecall;;
  enter_trap dispatch_addr;;
  mret true.

(* L744-752 Risc0Machine::mret *)
Definition machine_ret : state S error bool :=
  mm ← gets is_machine_mode;
  if negb mm then throw ErrMretInUserMode else
  a ← load_memory (ByteAddr.waddr MEPC_ADDR);
  dispatch_addr ← guest_addr a;
  modify (Ctx.set_pc (ByteAddr.add_usize dispatch_addr WORD_SIZE));;
  modify (Ctx.set_machine_mode 0);;
  mret true.

(* L441-464 Risc0Machine::ecall_terminate *)
Definition ecall_terminate : state S error bool :=
  Ctx.on_ecall_cycle MachineEcall Terminate 0 0 0 EcTerminate;;
  a0 ← load_register REG_A0;
  a1 ← load_register REG_A1;
  Ctx.on_terminate a0 a1;;
  next_pc;;
  Ctx.on_ecall_cycle Terminate Suspend 0 0 0 EcTerminate;;
  mret false.

(* L500-508 next_io_state *)
Definition next_io_state (ptr rlen : Z) : CycleState :=
  if rlen =? 0 then Decode
  else if negb (ByteAddr.is_aligned ptr) || (rlen <? WORD_SIZE) then HostReadBytes
  else HostReadWords.

(** The locals of [ecall_read] that its loops update. *)
Record io := mkIo { io_ptr : Z; io_i : Z; io_rlen : Z; io_state : CycleState }.

(* L510-523 add_cycle! *)
Definition add_cycle (l : io) : state S error io :=
  let next_state := next_io_state (io_ptr l) (io_rlen l) in
  Ctx.on_ecall_cycle (io_state l) next_state (ByteAddr.waddr (io_ptr l)) (ByteAddr.subaddr (io_ptr l))
    (io_rlen l) EcRead;;
  mret (mkIo (io_ptr l) (io_i l) (io_rlen l) next_state).

Definition if_done (rlen : Z) : state S error unit := if rlen =? 0 then next_pc else mret tt.

(* L529-540 Risc0Machine::ecall_read, one byte of the prefix (L567-579 of the suffix) *)
Definition read_byte (bytes : list Z) (l : io) : state S error io :=
  b ← lift (unwrap (bytes !! Z.to_nat (io_i l)));
  store_u8 (io_ptr l) b;;
  let l := mkIo (ByteAddr.add_u32 (io_ptr l) 1) (io_i l + 1) (io_rlen l - 1) (io_state l) in
  if_done (io_rlen l);;
  add_cycle l.

Fixpoint read_prefix (fuel : nat) (bytes : list Z) (l : io) : state S error io :=
  match fuel with
  | O => panic
  | Datatypes.S fuel =>
      if (0 <? io_rlen l) && negb (ByteAddr.is_aligned (io_ptr l))
      then l ← read_byte bytes l; read_prefix fuel bytes l
      else mret l
  end.

(* L546-558 Risc0Machine::ecall_read, the stores of one body cycle *)
Fixpoint read_words (bytes : list Z) (words : Z) (js : list Z) (l : io) : state S error io :=
  match js with
  | [] => mret l
  | j :: js =>
      if j <? words then
        bs ← lift (unwrap (if io_i l + WORD_SIZE <=? Z.of_nat (length bytes)
                           then Some (take 4 (drop (Z.to_nat (io_i l)) bytes)) else None));
        store_memory (ByteAddr.waddr (io_ptr l)) (from_le_bytes bs);;
        read_words bytes words js
          (mkIo (ByteAddr.add_usize (io_ptr l) WORD_SIZE) (io_i l + WORD_SIZE)
             (io_rlen l - WORD_SIZE) (io_state l))
      else
        store_memory (WordAddr.add_u32 (ByteAddr.waddr SAFE_WRITE_ADDR) j) 0;;
        read_words bytes words js l
  end.

(* L543-565 Risc0Machine::ecall_read, the body loop *)
Fixpoint read_body (fuel : nat) (bytes : list Z) (l : io) : state S error io :=
  match fuel with
  | O => panic
  | Datatypes.S fuel =>
      if MAX_IO_WORDS <=? io_rlen l then
        let words := Z.min (io_rlen l / MAX_IO_WORDS) MAX_IO_WORDS in
        l ← read_words bytes words (seqZ 0 MAX_IO_WORDS) l;
        if_done (io_rlen l);;
        l ← add_cycle l;
        read_body fuel bytes l
      else mret l
  end.

(* L567-579 Risc0Machine::ecall_read, the suffix loop *)
Fixpoint read_suffix (fuel : nat) (bytes : list Z) (l : io) : state S error io :=
  match fuel with
  | O => panic
  | Datatypes.S fuel =>
      if 0 <? io_rlen l
      then l ← read_byte bytes l; read_suffix fuel bytes l
      else mret l
  end.

(* L525-579 Risc0Machine::ecall_read, the transfer of the bytes read *)
Definition read_transfer (ptr rlen : Z) (bytes : list Z) : state S error unit :=
  let fuel := Datatypes.S (Z.to_nat rlen) in
  l ← add_cycle (mkIo ptr 0 rlen HostReadSetup);
  l ← read_prefix fuel bytes l;
  l ← read_body fuel bytes l;
  _ ← read_suffix fuel bytes l;
  mret tt.

(* L466-584 Risc0Machine::ecall_read *)
Definition ecall_read : state S error bool :=
  Ctx.on_ecall_cycle MachineEcall HostReadSetup 0 0 0 EcRead;;
  fd ← load_register REG_A0;
  ptr ← load_register REG_A1;
  len ← load_register REG_A2;
  if ByteAddr.add_u32 ptr len <? ptr then throw (ErrReadLen len) else
  if MAX_IO_BYTES <? len then throw (ErrReadTooBig len) else
  (if 0 <? len then _ ← guest_addr ptr; mret tt else mret tt);;
  let '(read_words, read_bytes) := calculate_bytes_and_words ptr len in
  '(bytes, rlen) ← Ctx.host_read fd len;
  store_register REG_A0 rlen;;
  if_done rlen;;
  read_transfer ptr rlen bytes;;
  modify (Ctx.on_ecall_read_end read_bytes read_words);;
  mret false.

(* L586-620 Risc0Machine::ecall_write *)
Definition ecall_write (castable : bool) : state S error bool :=
  Ctx.on_ecall_cycle MachineEcall HostWrite 0 0 0 EcWrite;;
  fd ← load_register REG_A0;
  ptr ← load_register REG_A1;
  len ← load_register REG_A2;
  if ByteAddr.add_u32 ptr len <? ptr then throw (ErrWriteLen len) else
  if MAX_IO_BYTES <? len then throw (ErrWriteTooBig len) else
  bytes ← load_region castable Peek ptr len;
  rlen ← Ctx.host_write fd bytes;
  store_register REG_A0 rlen;;
  next_pc;;
  Ctx.on_ecall_cycle HostWrite Platform.Decode 0 0 0 EcWrite;;
  modify Ctx.on_ecall_write_end;;
  mret false.

(* L622-634 Risc0Machine::ecall_poseidon2 *)
Definition ecall_poseidon2 : state S error bool :=
  next_pc;;
  Ctx.on_ecall_cycle MachineEcall PoseidonEntry 0 0 0 EcPoseidon2;;
  Ctx.ecall_poseidon2;;
  mret false.

(* L636-648 Risc0Machine::ecall_sha2 *)
Definition ecall_sha2 : state S error bool :=
  next_pc;;
  Ctx.on_ecall_cycle MachineEcall ShaEcall 0 0 0 EcSha2;;
  Sha2.ecall;;
  mret false.

(* L650-662 Risc0Machine::ecall_bigint *)
Definition ecall_bigint : state S error bool :=
  next_pc;;
  Ctx.on_ecall_cycle MachineEcall BigIntEcall 0 0 0 EcBigInt;;
  Ctx.ecall_bigint;;
  mret false.

(* L416-426 Risc0Machine::machine_ecall *)
Definition machine_ecall (castable : bool) : state S error bool :=
  a7 ← load_register REG_A7;
  if a7 =? HOST_ECALL_TERMINATE then ecall_terminate
  else if a7 =? HOST_ECALL_READ then ecall_read
  else if a7 =? HOST_ECALL_WRITE then ecall_write castable
  else if a7 =? HOST_ECALL_POSEIDON2 then ecall_poseidon2
  else if a7 =? HOST_ECALL_SHA2 then ecall_sha2
  else if a7 =? HOST_ECALL_BIGINT then ecall_bigint
  else panic.

(* L736-742 Risc0Machine::ecall *)
Definition ecall (castable : bool) : state S error bool :=
  mm ← gets is_machine_mode;
  if mm : bool then machine_ecall castable else user_ecall.

(* L825-827 Risc0Machine::check_insn_load *)
Definition check_insn_load (addr : Z) (s : S) : bool :=
  negb ((addr <? ZERO_PAGE_END_ADDR) || (negb (is_machine_mode s) && (KERNEL_START_ADDR <=? addr))).

(* L829-833 Risc0Machine::check_data_load *)
Definition check_data_load (addr : Z) (s : S) : bool :=
  (ZERO_PAGE_END_ADDR <=? addr) && is_machine_mode s || is_user_memory addr.

(* L835-837 Risc0Machine::check_data_store *)
Definition check_data_store (addr : Z) (s : S) : bool := check_data_load addr s.

(** The buffers of [ecall_write] come from the host allocator; the instance fixes
    where its word path is taken to [castable]. *)
Context (castable : bool).

(* L731-838 EmuContext for Risc0Machine *)
#[local] Instance emu : EmuContext S error := {|
  Rv32im.circuit_version := Ctx.circuit_version;
  Rv32im.ecall := ecall castable;
  Rv32im.machine_ret := machine_ret;
  Rv32im.trap := trap;
  Rv32im.on_insn_decoded := Ctx.on_insn_start;
  Rv32im.on_normal_end := Ctx.on_insn_end;
  Rv32im.get_pc := Ctx.get_pc;
  Rv32im.set_pc := Ctx.set_pc;
  Rv32im.load_register := load_register;
  Rv32im.store_register := store_register;
  Rv32im.load_memory := load_memory;
  Rv32im.store_memory := store_memory;
  Rv32im.check_insn_load := check_insn_load;
  Rv32im.check_data_load := check_data_load;
  Rv32im.check_data_store := check_data_store |}.

(* L382-385 Risc0Machine::step *)
Definition step : state S error unit := Emulator.step.

(* L387-392 Risc0Machine::suspend *)
Definition suspend : state S error unit :=
  pc ← gets Ctx.get_pc;
  store_memory (ByteAddr.waddr SUSPEND_PC_ADDR) pc;;
  mode ← gets Ctx.get_machine_mode;
  store_memory (ByteAddr.waddr SUSPEND_MODE_ADDR) mode;;
  Ctx.suspend.

(* L394-406 Risc0Machine::resume *)
Definition resume : state S error unit :=
  circuit_version ← gets Ctx.circuit_version;
  a ← load_memory (ByteAddr.waddr SUSPEND_PC_ADDR);
  pc ← guest_addr a;
  machine_mode ← load_memory (ByteAddr.waddr SUSPEND_MODE_ADDR);
  (if circuit_version =? RV32IM_M3_CIRCUIT_VERSION
   then store_memory (ByteAddr.waddr RV32IM_VERSION_ADDR) RV32IM_M3_CIRCUIT_VERSION
   else mret tt);;
  modify (Ctx.set_pc pc);;
  modify (Ctx.set_machine_mode machine_mode);;
  Ctx.resume.

End Machine.
End Machine.

(** ** User mode simulates the instruction-set reference *)

Section UserMode.
Import Isa.
Context {S : Type} `{CtxLaws S}.
Context (castable : bool).
#[local] Instance user_emu : EmuContext S error := Machine.emu castable.

(** The words of the user registers, and the one that writes to [x0] go to. *)
Hypothesis regs_mapped : forall r, is_reg r -> c_mapped (ByteAddr.waddr USER_REGS_ADDR + r) = true.
Hypothesis trash_mapped : c_mapped (ByteAddr.waddr USER_REGS_ADDR + 64) = true.

(** The memory above the user's, which user code cannot change; its register file
    and the word that writes to [x0] go to are not part of it. *)
Context (kmem : Z -> Z).
Definition user_file (a : Z) : Prop := USER_REGS_ADDR <= a < USER_REGS_ADDR + 128 \/
  USER_REGS_ADDR + 256 <= a < USER_REGS_ADDR + 260.

(** In user mode: the registers are the words at [USER_REGS_ADDR], memory is
    shared below [USER_END_ADDR], and the rest is the kernel's. *)
Definition user_view (c : cstate) (m : isa) : Prop :=
  isa_wf m /\ c_mode c = 0 /\ c_pc c = pc m /\
  (forall a, a < USER_END_ADDR -> mem m a = c_mem c a) /\
  (forall r, is_reg r -> reg m r = le_load (c_mem c) (USER_REGS_ADDR + 4 * r) 4) /\
  (forall a, USER_END_ADDR <= a -> ~ user_file a -> c_mem c a = kmem a).

Definition user_sim (s : S) (m : isa) : Prop := exists c, csim s c /\ user_view c m.

Definition user_mapped (w : Z) : bool := c_mapped w && (w <? USER_END_ADDR / 4).

Lemma user_regs_base s c : csim s c -> c_mode c = 0 ->
  Machine.regs_base_addr s = ByteAddr.waddr USER_REGS_ADDR.
Proof. intros Hs Hm. unfold Machine.regs_base_addr, Machine.is_machine_mode. by rewrite (csim_mode s c), Hm. Qed.

Lemma reg_word r : 0 <= r <= 64 ->
  WordAddr.add_usize (ByteAddr.waddr USER_REGS_ADDR) r = ByteAddr.waddr USER_REGS_ADDR + r /\
  4 * (ByteAddr.waddr USER_REGS_ADDR + r) = USER_REGS_ADDR + 4 * r.
Proof.
  intros. change (ByteAddr.waddr USER_REGS_ADDR) with 0x3fffc020. unfold USER_REGS_ADDR, WordAddr.add_usize, add32.
  rewrite (wrap_small 32 r), wrap_small by (unfold fits; lia). lia.
Qed.

Lemma le_load_store_same mem a n v : le_load (le_store mem a n v) a n = v mod 256 ^ Z.of_nat n.
Proof. apply le_load_bytes. intros. by apply le_store_in. Qed.

Lemma le_load_store_other mem a n v b k : b + Z.of_nat k <= a \/ a + Z.of_nat n <= b ->
  le_load (le_store mem a n v) b k = le_load mem b k.
Proof. intros Hd. apply le_load_ext. intros i Hi. apply le_store_out. lia. Qed.

Lemma user_load_register s m r : user_sim s m -> is_reg r ->
  exists s', load_register r s = (Ok (reg m r), s') /\ user_sim s' m.
Proof.
  intros (c & Hs & Hv) Hr. pose proof Hv as (_ & Hm & _ & _ & Hreg & _).
  cbn [load_register user_emu Machine.emu]. unfold Machine.load_register.
  rewrite (run_check _ _ _ _ (user_regs_base s c Hs Hm)).
  destruct (reg_word r) as [E1 E2]; [unfold is_reg in Hr; lia|].
  destruct (csim_load_register s c Record _ r Hs (or_introl eq_refl) Hr (regs_mapped r Hr)) as (s' & -> & Hs').
  rewrite E2, <- Hreg by done. exists s'. split; [done|]. by exists c.
Qed.

Lemma user_store_register s m r v : user_sim s m -> is_reg r -> u32 v ->
  exists s', store_register r v s = (Ok tt, s') /\ user_sim s' (set_reg m r v).
Proof.
  intros (c & Hs & Hv) Hr Hw. pose proof Hv as ((W1 & W2 & W3 & W4) & Hm & Hp & Hmem & Hreg & Hk).
  cbn [store_register user_emu Machine.emu]. unfold Machine.store_register.
  rewrite (run_check _ _ _ _ (user_regs_base s c Hs Hm)). unfold set_reg, REG_ZERO.
  unfold is_reg in Hr. change (REG_MAX * 2) with 64.
  assert (Hst : forall k, 0 <= k <= 64 -> c_mapped (ByteAddr.waddr USER_REGS_ADDR + k) = true ->
    exists s', Ctx.store_u32 (WordAddr.add_usize (ByteAddr.waddr USER_REGS_ADDR) k) v s = (Ok tt, s') /\
      csim s' (with_mem c (le_store (c_mem c) (USER_REGS_ADDR + 4 * k) 4 v))).
  { intros k Hkk Hmap. destruct (reg_word k Hkk) as [-> <-]. by apply csim_store. }
  destruct (Z.eqb_spec r 0) as [->|].
  - destruct (Hst 64 ltac:(lia) trash_mapped) as (s' & -> & Hs'). exists s'. split; [done|].
    eexists. split; [exact Hs'|]. split_and!; [done..| | |]; cbn [c_mem c_pc c_mode with_mem mem pc reg store with_pc].
    + intros a Ha. rewrite le_store_out; [by apply Hmem|]. unfold USER_END_ADDR, USER_REGS_ADDR in *. lia.
    + intros q Hq. rewrite le_load_store_other; [by apply Hreg|]. unfold is_reg, USER_REGS_ADDR in *. lia.
    + intros a Ha Hf. rewrite le_store_out; [by apply Hk|]. unfold user_file, USER_REGS_ADDR in *. lia.
  - destruct (csim_store_register s c _ r v Hs (or_introl eq_refl) Hr (regs_mapped r Hr) Hw) as (s' & -> & Hs').
    rewrite (proj2 (reg_word r ltac:(lia))) in Hs'. exists s'. split; [done|].
    eexists. split; [exact Hs'|]. split_and!; cbn [c_mem c_pc c_mode with_mem mem pc reg store with_pc]; try done.
    + split_and!; cbn [c_mem c_pc c_mode with_mem mem pc reg store with_pc]; [done| |done|].
      * intros q. by destruct (_ =? _).
      * by destruct (Z.eqb_spec 0 r).
    + intros a Ha. rewrite le_store_out; [by apply Hmem|]. unfold USER_END_ADDR, USER_REGS_ADDR in *. lia.
    + intros q Hq. destruct (Z.eqb_spec q r) as [->|].
      * rewrite le_load_store_same. symmetry. apply Z.mod_small. exact Hw.
      * rewrite le_load_store_other; [by apply Hreg|]. lia.
    + intros a Ha Hf. rewrite le_store_out; [by apply Hk|]. unfold user_file, USER_REGS_ADDR in *. lia.
Qed.

Lemma user_load_memory s m w : user_sim s m -> user_mapped w = true ->
  exists s', load_memory w s = (Ok (le_load (mem m) (4 * w) 4), s') /\ user_sim s' m.
Proof.
  intros (c & Hs & Hv) [Hmap Hw]%andb_prop. pose proof Hv as (_ & _ & _ & Hmem & _ & _).
  cbn [load_memory user_emu Machine.emu]. unfold Machine.load_memory.
  destruct (csim_load s c Record w Hs Hmap) as (s' & -> & Hs').
  exists s'. split; [|by exists c]. do 2 f_equal. apply le_load_ext. intros i Hi. symmetry. apply Hmem.
  change (USER_END_ADDR / 4) with 0x30000000 in Hw. unfold USER_END_ADDR. lia.
Qed.

Lemma user_store_memory s m a v : user_sim s m -> user_mapped (a / 4) = true ->
  is_user_memory a = true -> u32 v ->
  exists s', store_memory (a / 4) v s = (Ok tt, s') /\ user_sim s' (store m (4 * (a / 4)) 4 v).
Proof.
  intros (c & Hs & Hv) [Hmap Hw]%andb_prop Ha Hvv.
  pose proof Hv as ((W1 & W2 & W3 & W4) & Hm & Hp & Hmem & Hreg & Hk).
  cbn [store_memory user_emu Machine.emu]. unfold Machine.store_memory.
  change (USER_END_ADDR / 4) with 0x30000000 in Hw.
  destruct (csim_store s c (a / 4) v Hs Hmap Hvv) as (s' & -> & Hs').
  exists s'. split; [done|]. eexists. split; [exact Hs'|]. split_and!; cbn [c_mem c_pc c_mode with_mem mem pc reg store with_pc]; try done.
  - split_and!; cbn [c_mem c_pc c_mode with_mem mem pc reg store with_pc]; try done. by apply le_store_wf.
  - intros x Hx. unfold le_store. destruct (_ && _); [done|by apply Hmem].
  - intros r Hr. rewrite le_load_store_other; [by apply Hreg|]. unfold is_reg, USER_REGS_ADDR in *. lia.
  - intros x Hx Hf. rewrite le_store_out; [by apply Hk|]. unfold USER_END_ADDR in Hx. lia.
Qed.

Lemma user_check_insn s m a : user_sim s m -> check_insn_load a s = is_user_memory a.
Proof.
  intros (c & Hs & (_ & Hm & _)). cbn [check_insn_load user_emu Machine.emu].
  unfold Machine.check_insn_load, Machine.is_machine_mode, is_user_memory.
  rewrite (csim_mode s c Hs), Hm. cbn [Z.eqb negb andb]. unfold ZERO_PAGE_END_ADDR, KERNEL_START_ADDR, USER_START_ADDR, USER_END_ADDR.
  unfold ZERO_PAGE_END_ADDR, USER_END_ADDR. lia.
Qed.

Lemma user_check_data s m a : user_sim s m -> check_data_load a s = is_user_memory a.
Proof.
  intros (c & Hs & (_ & Hm & _)). cbn [check_data_load user_emu Machine.emu].
  unfold Machine.check_data_load, Machine.is_machine_mode.
  rewrite (csim_mode s c Hs), Hm. cbn [Z.eqb negb]. by rewrite andb_false_r.
Qed.

Lemma user_keeps s m (f : state S error unit) :
  (forall c, csim s c -> exists s', f s = (Ok tt, s') /\ csim s' c) ->
  user_sim s m -> exists s', f s = (Ok tt, s') /\ user_sim s' m.
Proof.
  intros Hf (c & Hs & Hv). destruct (Hf c Hs) as (s' & E & Hs'). exists s'. split; [done|]. by exists c.
Qed.

Lemma user_eq s m m' : user_sim s m -> isa_eq m m' -> user_sim s m'.
Proof.
  intros (c & Hs & (W1 & W2 & W3 & W4) & Hm & Hp & Hmem & Hreg & Hk) [E1 E2 E3].
  exists c. split; [done|]. split_and!; [split_and!|..]; try done; try congruence.
  - intros r. rewrite <- E2. apply W2.
  - intros a. rewrite <- E3. apply W3.
  - intros a Ha. rewrite <- E3. by apply Hmem.
  - intros r Hr. rewrite <- E2. by apply Hreg.
Qed.

Lemma user_set_pc s m p : user_sim s m -> u32 p -> user_sim (set_pc p s) (with_pc m p).
Proof.
  intros (c & Hs & (W1 & W2 & W3 & W4) & Hm & Hp & Hmem & Hreg & Hk) Hup.
  eexists. split; [apply (csim_set_pc s c p Hs Hup)|]. split_and!; [split_and!|..]; done.
Qed.

Lemma user_get_pc s m : user_sim s m -> get_pc s = pc m.
Proof. intros (c & Hs & _ & _ & Hp & _). by rewrite <- Hp, <- (csim_get_pc s c Hs). Qed.

#[local] Instance user_laws : EmuLaws S error := {|
  sim := user_sim;
  may_fetch := is_user_memory;
  may_load := is_user_memory;
  may_store := is_user_memory;
  mapped := user_mapped;
  sim_wf := fun s m '(ex_intro _ c (conj _ (conj Hwf _))) => Hwf;
  sim_eq := user_eq;
  sim_get_pc := user_get_pc;
  sim_set_pc := user_set_pc;
  sim_load_register := user_load_register;
  sim_store_register := user_store_register;
  sim_load_memory := user_load_memory;
  sim_store_memory := user_store_memory;
  sim_check_insn := user_check_insn;
  sim_check_load := user_check_data;
  sim_check_store := user_check_data;
  sim_decoded := fun s m k d => user_keeps s m _ (fun c Hs => csim_insn_start s c k d Hs);
  sim_normal_end := fun s m k => user_keeps s m _ (fun c Hs => csim_insn_end s c k Hs) |}.

End UserMode.

(** ** The transfer of [ecall_read] *)

Lemma next_pc_run {S} `{CtxLaws S} s c : csim s c ->
  exists s', Machine.next_pc s = (Ok tt, s') /\ csim s' (mkC (wrap 32 (c_pc c + 4)) (c_mode c) (c_mem c)).
Proof.
  intros Hs. eexists. split; [reflexivity|]. rewrite (csim_get_pc s c Hs), IsaRefine.next_pc.
  apply csim_set_pc; [done|]. apply wrap_fits. lia.
Qed.

Section Transfer.
Context {S : Type} `{CtxLaws S}.
Context (bytes : list Z) (ptr0 rlen0 pc0 md : Z) (mem0 : Z -> Z).
Hypothesis Hbytes : Forall u8 bytes.
Hypothesis Hlen : 0 <= rlen0 <= Z.of_nat (length bytes).
Hypothesis Hreg : region ptr0 rlen0.
Hypothesis Hend : ptr0 + rlen0 < 2 ^ 32.
Hypothesis Hpc0 : u32 pc0.

(** The four words the body's padding stores go to. *)
Hypothesis Hsafe : forall j, 0 <= j < 4 -> c_mapped (ByteAddr.waddr SAFE_WRITE_ADDR + j) = true.
Definition off_safe (x : Z) : Prop := x < SAFE_WRITE_ADDR \/ SAFE_WRITE_ADDR + 16 <= x.

Hypothesis Hdisj : forall x, ptr0 <= x < ptr0 + rlen0 -> off_safe x.

(** Between two cycles the first [io_i] bytes are in place, and the program
    counter has moved on exactly when no byte remains. *)
Definition io_mem (i : Z) (m : Z -> Z) : Prop :=
  forall x, off_safe x -> m x = write_bytes mem0 ptr0 (take (Z.to_nat i) bytes) x.

Record io_inv (l : Machine.io) (s : S) : Prop := {
  inv_ctx : exists c, csim s c /\ c_mode c = md /\
    c_pc c = (if Machine.io_rlen l =? 0 then wrap 32 (pc0 + 4) else pc0) /\
    io_mem (Machine.io_i l) (c_mem c);
  inv_i : 0 <= Machine.io_i l;
  inv_rlen : 0 <= Machine.io_rlen l;
  inv_sum : Machine.io_i l + Machine.io_rlen l = rlen0;
  inv_ptr : Machine.io_ptr l = ptr0 + Machine.io_i l;
}.

Lemma add_cycle_run l s : io_inv l s ->
  exists l' s', Machine.add_cycle l s = (Ok l', s') /\ io_inv l' s' /\
    Machine.io_rlen l' = Machine.io_rlen l /\ Machine.io_ptr l' = Machine.io_ptr l.
Proof.
  intros [(c & Hs & Hc) H1 H2 H3 H4]. unfold Machine.add_cycle.
  destruct (csim_ecall_cycle s c (Machine.io_state l) (Machine.next_io_state (Machine.io_ptr l) (Machine.io_rlen l))
    (ByteAddr.waddr (Machine.io_ptr l)) (ByteAddr.subaddr (Machine.io_ptr l)) (Machine.io_rlen l) EcRead Hs)
    as (s' & E & Hs').
  rewrite (run_bind _ _ _ _ _ E). do 2 eexists. split; [reflexivity|]. split; [|done].
  split; cbn; [|done..]. by exists c.
Qed.

(** Within a cycle: the counter has not moved yet. *)
Record mid_inv (l : Machine.io) (s : S) : Prop := {
  mid_ctx : exists c, csim s c /\ c_mode c = md /\ c_pc c = pc0 /\ io_mem (Machine.io_i l) (c_mem c);
  mid_i : 0 <= Machine.io_i l;
  mid_rlen : 0 <= Machine.io_rlen l;
  mid_sum : Machine.io_i l + Machine.io_rlen l = rlen0;
  mid_ptr : Machine.io_ptr l = ptr0 + Machine.io_i l;
}.

Lemma io_mid l s : io_inv l s -> 0 < Machine.io_rlen l -> mid_inv l s.
Proof.
  intros [(c & Hs & Hm & Hp & Hc) ? ? ? ?] Hr. split; try done. exists c. split_and!; try done.
  by destruct (Z.eqb_spec (Machine.io_rlen l) 0); [lia|].
Qed.

Lemma if_done_run l s : mid_inv l s ->
  exists s', Machine.if_done (Machine.io_rlen l) s = (Ok tt, s') /\ io_inv l s'.
Proof.
  intros [(c & Hs & Hm & Hp & Hc) ? ? ? ?]. unfold Machine.if_done. destruct (Z.eqb_spec (Machine.io_rlen l) 0) as [E|E].
  - destruct (next_pc_run s c Hs) as (s' & -> & Hs'). exists s'. split; [done|]. split; try done.
    eexists. split; [exact Hs'|]. cbn. rewrite E, Hp. done.
  - exists s. split; [done|]. split; try done. exists c. split_and!; try done.
    by destruct (Z.eqb_spec (Machine.io_rlen l) 0).
Qed.

(** [n] more bytes put in place. *)
Lemma io_mem_advance i n m : 0 <= i -> 0 <= n -> i + n <= rlen0 -> io_mem i m ->
  io_mem (i + n) (write_bytes m (ptr0 + i) (take (Z.to_nat n) (drop (Z.to_nat i) bytes))).
Proof.
  intros Hi Hn Hin Hm x Hx.
  replace (Z.to_nat (i + n)) with (Z.to_nat i + Z.to_nat n)%nat by lia.
  rewrite <- take_take_drop, write_bytes_app, length_take.
  replace (ptr0 + Z.of_nat (Z.to_nat i `min` length bytes)) with (ptr0 + i) by lia.
  unfold write_bytes at 1 2. specialize (Hm x Hx).
  destruct (take (Z.to_nat n) (drop (Z.to_nat i) bytes) !! _); [|done]. by destruct (_ <=? _).
Qed.

Lemma wrap_add_small a b : 0 <= a + b < 2 ^ 32 -> (a +32 b)%word = a + b.
Proof. intros. unfold add32. by apply wrap_small. Qed.

Lemma read_byte_run l s : io_inv l s -> 0 < Machine.io_rlen l ->
  exists l' s', Machine.read_byte bytes l s = (Ok l', s') /\ io_inv l' s' /\
    Machine.io_rlen l' = Machine.io_rlen l - 1 /\ Machine.io_ptr l' = Machine.io_ptr l + 1.
Proof.
  intros Hinv Hr. destruct (io_mid l s Hinv Hr) as [(c & Hs & Hm & Hp & Hc) H1 H2 H3 H4].
  destruct Hreg as (R1 & R2 & R3). unfold Machine.read_byte.
  destruct (lookup_lt_is_Some_2 bytes (Z.to_nat (Machine.io_i l))) as [b Hb]; [lia|].
  rewrite (run_lift _ _ _ _ Hb).
  destruct (store_u8_run s c (Machine.io_ptr l) b Hs) as (s1 & E1 & Hs1);
    [apply R3; lia|by eapply Forall_lookup_1|].
  rewrite (run_bind _ _ _ _ _ E1).
  set (l1 := Machine.mkIo _ _ _ _).
  assert (Hp1 : Machine.io_ptr l1 = Machine.io_ptr l + 1) by (apply wrap_add_small; lia).
  assert (Hmid : mid_inv l1 s1).
  { split; cbn [Machine.io_i Machine.io_rlen l1]; [|lia|lia|lia|rewrite Hp1; lia].
    eexists. split; [exact Hs1|]. split_and!; [done..|]. cbn [c_mem with_mem].
    pose proof (io_mem_advance (Machine.io_i l) 1 (c_mem c) H1 ltac:(lia) ltac:(lia) Hc) as Ha.
    rewrite H4. change (Z.to_nat 1) with 1%nat in Ha.
    by rewrite (take_S_r _ _ b) in Ha by (rewrite lookup_drop, Nat.add_0_r; done). }
  destruct (if_done_run l1 s1 Hmid) as (s2 & E2 & Hi2). rewrite (run_bind _ _ _ _ _ E2).
  destruct (add_cycle_run l1 s2 Hi2) as (l3 & s3 & E3 & Hi3 & Er & Ep).
  exists l3, s3. split_and!; [done|done|done|]. by rewrite Ep.
Qed.

Lemma read_prefix_run fuel : forall l s, io_inv l s -> Machine.io_rlen l < Z.of_nat fuel ->
  exists l' s', Machine.read_prefix fuel bytes l s = (Ok l', s') /\ io_inv l' s' /\
    Machine.io_rlen l' <= Machine.io_rlen l /\
    (Machine.io_rlen l' = 0 \/ Machine.io_ptr l' mod 4 = 0).
Proof.
  induction fuel as [|fuel IH]; intros l s Hi Hf; cbn [Machine.read_prefix].
  { destruct Hi. lia. }
  destruct (Z.ltb_spec 0 (Machine.io_rlen l)) as [Hr|Hr]; cbn [andb].
  - destruct (Machine.io_ptr l mod 4 =? 0) eqn:Ea; unfold ByteAddr.is_aligned, WORD_SIZE; rewrite Ea; cbn [negb].
    + exists l, s. split_and!; [done|done|lia|]. right. by apply Z.eqb_eq.
    + destruct (read_byte_run l s Hi Hr) as (l1 & s1 & E1 & Hi1 & Er & _). rewrite (run_bind _ _ _ _ _ E1).
      destruct (IH l1 s1 Hi1 ltac:(lia)) as (l2 & s2 & E2 & Hi2 & Hle & Hor).
      exists l2, s2. split_and!; [done|done|lia|done].
  - exists l, s. destruct Hi. split_and!; [done|done|lia|left; lia].
Qed.

Lemma read_suffix_run fuel : forall l s, io_inv l s -> Machine.io_rlen l < Z.of_nat fuel ->
  exists l' s', Machine.read_suffix fuel bytes l s = (Ok l', s') /\ io_inv l' s' /\ Machine.io_rlen l' = 0.
Proof.
  induction fuel as [|fuel IH]; intros l s Hi Hf; cbn [Machine.read_suffix].
  { destruct Hi. lia. }
  destruct (Z.ltb_spec 0 (Machine.io_rlen l)) as [Hr|Hr].
  - destruct (read_byte_run l s Hi Hr) as (l1 & s1 & E1 & Hi1 & Er & _). rewrite (run_bind _ _ _ _ _ E1).
    apply (IH l1 s1 Hi1). lia.
  - exists l, s. destruct Hi. split_and!; [done|done|lia].
Qed.

Lemma read_words_run words m : forall j l s, mid_inv l s -> Machine.io_ptr l mod 4 = 0 ->
  0 <= j -> j + Z.of_nat m = 4 -> words <= 4 -> 4 * (words - j) <= Machine.io_rlen l ->
  exists l' s', Machine.read_words bytes words (seqZ j (Z.of_nat m)) l s = (Ok l', s') /\
    mid_inv l' s' /\ Machine.io_ptr l' mod 4 = 0 /\
    Machine.io_rlen l' = Machine.io_rlen l - 4 * Z.max 0 (words - j).
Proof.
  induction m as [|m IH]; intros j l s Hi Ha Hj Hjm Hw Hr.
  { exists l, s. split_and!; [done|done|done|lia]. }
  rewrite seqZ_cons by lia. replace (Z.pred (Z.of_nat (Datatypes.S m))) with (Z.of_nat m) by lia.
  cbn [Machine.read_words]. destruct Hi as [(c & Hs & Hm & Hp & Hc) H1 H2 H3 H4].
  destruct Hreg as (R1 & R2 & R3). destruct (Z.ltb_spec j words).
  - unfold WORD_SIZE. assert ((Machine.io_i l + 4 <=? Z.of_nat (length bytes)) = true) as -> by lia.
    rewrite (run_lift _ _ _ _ eq_refl).
    set (bs := take 4 (drop (Z.to_nat (Machine.io_i l)) bytes)).
    assert (Hbs : Forall u8 bs) by (apply Forall_take, Forall_drop, Hbytes).
    assert (Hl4 : length bs = 4%nat) by (unfold bs; rewrite length_take, length_drop; lia).
    pose proof (from_le_bytes_range bs Hbs) as Hv. rewrite Hl4 in Hv.
    assert (Ea : 4 * (Machine.io_ptr l / 4) = Machine.io_ptr l) by (pose proof (Z.div_mod (Machine.io_ptr l) 4); lia).
    unfold Machine.store_memory. rewrite waddr_div.
    destruct (csim_store s c (Machine.io_ptr l / 4) _ Hs (R3 (Machine.io_ptr l) ltac:(lia)) Hv) as (s1 & E1 & Hs1).
    rewrite (run_bind _ _ _ _ _ E1). rewrite Ea in Hs1.
    set (l1 := Machine.mkIo _ _ _ _).
    assert (Hp1 : Machine.io_ptr l1 = Machine.io_ptr l + 4) by (apply wrap_add_small; cbn; lia).
    destruct (IH (Z.succ j) l1 s1) as (l2 & s2 & E2 & Hi2 & Ha2 & Er); cbn [Machine.io_rlen l1]; try lia.
    + split; cbn [Machine.io_i Machine.io_rlen l1]; [|lia|lia|lia|rewrite Hp1; lia].
      eexists. split; [exact Hs1|]. split_and!; [done..|]. cbn [c_mem with_mem].
      pose proof (io_mem_advance (Machine.io_i l) 4 (c_mem c) H1 ltac:(lia) ltac:(lia) Hc) as Hadv.
      intros x Hx. rewrite <- (Hadv x Hx), <- H4. change (Z.to_nat 4) with 4%nat. fold bs.
      rewrite <- (le_store_bytes (c_mem c) _ bs) by done. by rewrite Hl4.
    + rewrite Hp1. replace (Machine.io_ptr l + 4) with (Machine.io_ptr l + 1 * 4) by lia.
      by rewrite Z.mod_add by lia.
    + exists l2, s2. split_and!; [done|done|done|]. cbn [Machine.io_rlen l1] in Er. lia.
  - assert (Es : WordAddr.add_u32 (ByteAddr.waddr SAFE_WRITE_ADDR) j = ByteAddr.waddr SAFE_WRITE_ADDR + j).
    { apply wrap_add_small. change (ByteAddr.waddr SAFE_WRITE_ADDR) with 0x3fffc040. lia. }
    unfold Machine.store_memory. rewrite Es.
    destruct (csim_store s c _ 0 Hs (Hsafe j ltac:(lia)) ltac:(unfold fits; lia)) as (s1 & E1 & Hs1).
    rewrite (run_bind _ _ _ _ _ E1).
    destruct (IH (Z.succ j) l s1) as (l2 & s2 & E2 & Hi2 & Ha2 & Er); try lia.
    + split; [|done..]. eexists. split; [exact Hs1|]. split_and!; [done..|]. cbn [c_mem with_mem].
      intros x Hx. rewrite le_store_out; [by apply Hc|]. unfold off_safe, SAFE_WRITE_ADDR in Hx.
      change (ByteAddr.waddr SAFE_WRITE_ADDR) with 0x3fffc040. lia.
    + exists l2, s2. split_and!; [done|done|done|]. lia.
Qed.

Lemma read_body_run fuel : forall l s, io_inv l s -> Machine.io_rlen l < Z.of_nat fuel ->
  Machine.io_rlen l = 0 \/ Machine.io_ptr l mod 4 = 0 ->
  exists l' s', Machine.read_body fuel bytes l s = (Ok l', s') /\ io_inv l' s' /\
    Machine.io_rlen l' <= Machine.io_rlen l.
Proof.
  induction fuel as [|fuel IH]; intros l s Hi Hf Ha; cbn [Machine.read_body].
  { destruct Hi. lia. }
  unfold MAX_IO_WORDS. destruct (Z.leb_spec 4 (Machine.io_rlen l)) as [Hr|Hr].
  - destruct Ha as [Ha|Ha]; [lia|]. pose proof (Z.div_mod (Machine.io_rlen l) 4 ltac:(lia)) as Hd.
    pose proof (Z.mod_pos_bound (Machine.io_rlen l) 4 ltac:(lia)) as Hmod.
    destruct (read_words_run (Z.min (Machine.io_rlen l / 4) 4) 4 0 l s (io_mid l s Hi ltac:(lia)))
      as (l1 & s1 & E1 & Hi1 & Ha1 & Er1); [done|lia|lia|lia|lia|].
    change (Z.of_nat 4) with 4 in E1. rewrite (run_bind _ _ _ _ _ E1).
    destruct (if_done_run l1 s1 Hi1) as (s2 & E2 & Hi2). rewrite (run_bind _ _ _ _ _ E2).
    destruct (add_cycle_run l1 s2 Hi2) as (l3 & s3 & E3 & Hi3 & Er3 & Ep3). rewrite (run_bind _ _ _ _ _ E3).
    destruct (IH l3 s3 Hi3) as (l4 & s4 & E4 & Hi4 & Hle); [lia|right; by rewrite Ep3|].
    exists l4, s4. split_and!; [done|done|lia].
  - exists l, s. split_and!; [done|done|lia].
Qed.

Lemma read_transfer_run s c : csim s c -> c_mode c = md ->
  c_pc c = (if rlen0 =? 0 then wrap 32 (pc0 + 4) else pc0) ->
  (forall x, off_safe x -> c_mem c x = mem0 x) ->
  exists s' c', Machine.read_transfer ptr0 rlen0 bytes s = (Ok tt, s') /\ csim s' c' /\
    c_mode c' = md /\ c_pc c' = wrap 32 (pc0 + 4) /\
    forall x, off_safe x -> c_mem c' x = write_bytes mem0 ptr0 (take (Z.to_nat rlen0) bytes) x.
Proof.
  intros Hs Hm Hp Hc. unfold Machine.read_transfer.
  assert (H0' : io_inv (Machine.mkIo ptr0 0 rlen0 HostReadSetup) s).
  { split; cbn; [|lia|lia|lia|lia]. exists c. by split_and!. }
  destruct (add_cycle_run _ s H0') as (l1 & s1 & E1 & Hi1 & Er1 & Ep1). cbn in Er1, Ep1.
  rewrite (run_bind _ _ _ _ _ E1).
  destruct (read_prefix_run (Datatypes.S (Z.to_nat rlen0)) l1 s1 Hi1) as (l2 & s2 & E2 & Hi2 & Hle2 & Ha2); [lia|].
  rewrite (run_bind _ _ _ _ _ E2).
  destruct (read_body_run (Datatypes.S (Z.to_nat rlen0)) l2 s2 Hi2) as (l3 & s3 & E3 & Hi3 & Hle3); [lia|done|].
  rewrite (run_bind _ _ _ _ _ E3).
  destruct (read_suffix_run (Datatypes.S (Z.to_nat rlen0)) l3 s3 Hi3) as (l4 & s4 & E4 & Hi4 & Hr4); [lia|].
  rewrite (run_bind _ _ _ _ _ E4).
  destruct Hi4 as [(c4 & Hs4 & Hm4 & Hp4 & Hc4) _ _ Hsum _]. rewrite Hr4 in *.
  exists s4, c4. split_and!; [reflexivity|done|done|done|].
  intros x Hx. rewrite (Hc4 x Hx). by replace (Machine.io_i l4) with rlen0 by lia.
Qed.

End Transfer.

(** ** Traps, returns and reads *)

Section MachineTheorems.
Context {S : Type} `{CtxLaws S}.

Definition word (c : cstate) (a : Z) : Z := le_load (c_mem c) a 4.

(** The system words the machine reads and writes. *)
Record system_mapped : Prop := {
  sys_machine_regs : forall r, is_reg r -> c_mapped (ByteAddr.waddr MACHINE_REGS_ADDR + r) = true;
  sys_user_regs : forall r, is_reg r -> c_mapped (ByteAddr.waddr USER_REGS_ADDR + r) = true;
  sys_mepc : c_mapped (ByteAddr.waddr MEPC_ADDR) = true;
  sys_trap : c_mapped (ByteAddr.waddr TRAP_DISPATCH_ADDR) = true;
  sys_ecall : c_mapped (ByteAddr.waddr ECALL_DISPATCH_ADDR) = true;
  sys_safe : forall j, 0 <= j < 4 -> c_mapped (ByteAddr.waddr SAFE_WRITE_ADDR + j) = true;
}.

(** The word of [addr] is loaded, for the aligned system addresses. *)
Lemma load_word s c a : csim s c -> a mod 4 = 0 -> c_mapped (ByteAddr.waddr a) = true ->
  exists s', Machine.load_memory (ByteAddr.waddr a) s = (Ok (word c a), s') /\ csim s' c.
Proof.
  intros Hs Ha Hm. unfold Machine.load_memory.
  destruct (csim_load s c Record _ Hs Hm) as (s' & -> & Hs'). exists s'. split; [|done].
  unfold word. rewrite waddr_div. do 4 f_equal. pose proof (Z.div_mod a 4). lia.
Qed.

Lemma store_word s c a v : csim s c -> a mod 4 = 0 -> c_mapped (ByteAddr.waddr a) = true -> u32 v ->
  exists s', Machine.store_memory (ByteAddr.waddr a) v s = (Ok tt, s') /\
    csim s' (with_mem c (le_store (c_mem c) a 4 v)).
Proof.
  intros Hs Ha Hm Hv. unfold Machine.store_memory.
  destruct (csim_store s c _ v Hs Hm Hv) as (s' & E & Hs'). exists s'. split; [done|].
  rewrite waddr_div in Hs'. replace (4 * (a / 4)) with a in Hs'; [done|]. pose proof (Z.div_mod a 4). lia.
Qed.

Lemma is_machine_mode_run s c : csim s c -> Machine.is_machine_mode s = negb (c_mode c =? 0).
Proof. intros Hs. unfold Machine.is_machine_mode. by rewrite (csim_mode s c Hs). Qed.

(** The kernel state a trap from [c] enters at [d]. *)
Definition trapped (c : cstate) (d : Z) : cstate :=
  mkC d 1 (le_store (c_mem c) MEPC_ADDR 4 (c_pc c)).

Lemma enter_trap_run s c d : system_mapped -> csim s c -> c_mode c = 0 -> u32 d ->
  exists s', Machine.enter_trap d s = (Ok tt, s') /\ csim s' (trapped c d).
Proof.
  intros Hsys Hs Hm Hd. unfold Machine.enter_trap.
  rewrite (run_check Machine.is_machine_mode _ s _ eq_refl), (is_machine_mode_run s c Hs), Hm. cbn [Z.eqb negb].
  rewrite (run_check Ctx.get_pc _ s _ (csim_get_pc s c Hs)).
  destruct (store_word s c MEPC_ADDR (c_pc c) Hs eq_refl) as (s1 & E1 & Hs1);
    [apply Hsys|by apply (csim_range s)|]. rewrite (run_bind _ _ _ _ _ E1), !run_modify.
  eexists. split; [reflexivity|].
  apply (csim_set_mode _ (mkC d (c_mode c) (le_store (c_mem c) MEPC_ADDR 4 (c_pc c)))).
  apply csim_set_user_pc. exact (csim_set_pc s1 _ d Hs1 Hd).
Qed.

Definition kernel_entry (d : Z) : bool := ByteAddr.is_aligned d && is_kernel_memory d.

Lemma kernel_entry_negb d : negb (ByteAddr.is_aligned d) || negb (is_kernel_memory d) = negb (kernel_entry d).
Proof. unfold kernel_entry. by rewrite negb_andb. Qed.

Lemma dump_registers_run s c b : system_mapped -> csim s c ->
  exists s', Machine.dump_registers b s = (Ok tt, s') /\ csim s' c.
Proof.
  intros Hsys Hs. unfold Machine.dump_registers.
  set (base := if b then _ else _).
  assert (Hb : forall r, is_reg r -> c_mapped (base + r) = true /\ WordAddr.add_usize base r = base + r).
  { intros r Hr. split; [destruct b; by apply Hsys|]. unfold WordAddr.add_usize, add32, is_reg in *.
    assert (Hbase : 0 <= base <= 0x3fffc020) by (destruct b; unfold base; vm_compute; split; congruence).
    rewrite (wrap_small 32 r), wrap_small; unfold fits; lia. }
  destruct (mapM_run (fun idx => Ctx.load_u32 Peek (WordAddr.add_usize base idx))
    (fun r => le_load (c_mem c) (4 * (base + r)) 4) c is_reg (seqZ 0 REG_MAX)) with (s := s) as (s' & E & Hs');
    [|apply Forall_seqZ; unfold REG_MAX, is_reg; lia|done|].
  - intros s1 r Hs1 Hr. destruct (Hb r Hr) as [Hm ->]. by apply csim_load.
  - rewrite (run_bind _ _ _ _ _ E). by exists s'.
Qed.

Lemma dump_if s c (b : bool) : system_mapped -> csim s c ->
  exists s', (if b then Machine.dump_registers true;; Machine.dump_registers false else mret tt) s = (Ok tt, s')
    /\ csim s' c.
Proof.
  intros Hsys Hs. destruct b; [|by exists s].
  destruct (dump_registers_run s c true Hsys Hs) as (s1 & E1 & Hs1). rewrite (run_bind _ _ _ _ _ E1).
  by apply dump_registers_run.
Qed.

Lemma trap_run s c e : system_mapped -> csim s c -> c_mode c = 0 ->
  let d := word c TRAP_DISPATCH_ADDR in
  exists s', if kernel_entry d
    then Machine.trap e s = (Ok false, s') /\ csim s' (trapped c d)
    else Machine.trap e s = (Err (ErrTrapAddr d e), s') /\ csim s' c.
Proof.
  intros Hsys Hs Hm d. unfold Machine.trap. rewrite run_modify.
  assert (Hs0 := csim_trap_rewind s c Hs).
  destruct (dump_if _ c (match e with Breakpoint => true | _ => false end) Hsys Hs0) as (s1 & E1 & Hs1).
  rewrite (run_bind _ _ _ tt s1) by (by destruct e).
  destruct (dump_if _ c (match e with IllegalInstruction _ _ => true | _ => false end) Hsys Hs1) as (s2 & E2 & Hs2).
  rewrite (run_bind _ _ _ tt s2) by (by destruct e).
  destruct (load_word s2 c TRAP_DISPATCH_ADDR Hs2 eq_refl ltac:(apply Hsys)) as (s3 & E3 & Hs3).
  rewrite (run_bind _ _ _ _ _ E3). fold d. rewrite kernel_entry_negb.
  destruct (kernel_entry d); cbn [negb]; [|by exists s3].
  destruct (enter_trap_run s3 c d Hsys Hs3 Hm) as (s4 & E4 & Hs4).
  { apply le_load_u32; [by eapply csim_bytes|lia]. }
  rewrite (run_bind _ _ _ _ _ E4), !run_modify. eexists. split; [reflexivity|].
  by apply csim_on_trap_cause, csim_on_trap.
Qed.

(** A trap in user mode saves the program counter in [MEPC], switches to
    machine mode and continues at the trap handler, changing nothing else, provided
    the handler is an aligned kernel address; otherwise it fails without entering
    the kernel.  A user [ecall] does the same through its own dispatch word (trapping
    when that word is not a kernel address).  [mret] undoes the entry: when [MEPC]
    still holds the saved value it returns to user mode at the following instruction. *)
Theorem trap_ecall_mret s c e castable :
  system_mapped -> csim s c -> c_mode c = 0 -> ZERO_PAGE_END_ADDR <= c_pc c ->
  let d := word c TRAP_DISPATCH_ADDR in
  let k := word c ECALL_DISPATCH_ADDR in
  (exists s', if kernel_entry d
     then Machine.trap e s = (Ok false, s') /\ csim s' (trapped c d)
     else Machine.trap e s = (Err (ErrTrapAddr d e), s') /\ csim s' c) /\
  (kernel_entry k = true ->
   exists s', Machine.ecall castable s = (Ok true, s') /\ csim s' (trapped c k)) /\
  (forall s1 c1, csim s1 c1 -> c_mode c1 <> 0 -> word c1 MEPC_ADDR = c_pc c ->
   exists s', Machine.machine_ret s1 = (Ok true, s') /\
     csim s' (mkC (wrap 32 (c_pc c + 4)) 0 (c_mem c1))).
Proof.
  intros Hsys Hs Hm Hp d k. split_and!; [by apply trap_run| |].
  - intros Hk. unfold Machine.ecall.
    rewrite (run_check Machine.is_machine_mode _ s _ eq_refl), (is_machine_mode_run s c Hs), Hm. cbn [Z.eqb negb].
    unfold Machine.user_ecall.
    destruct (load_word s c ECALL_DISPATCH_ADDR Hs eq_refl ltac:(apply Hsys)) as (s1 & E1 & Hs1).
    rewrite (run_bind _ _ _ _ _ E1). fold k. unfold guest_addr.
    assert ((k <? ZERO_PAGE_END_ADDR) = false) as ->.
    { unfold kernel_entry, is_kernel_memory, KERNEL_START_ADDR, USER_END_ADDR in Hk. unfold ZERO_PAGE_END_ADDR. lia. }
    rewrite (run_bind _ _ s1 k s1) by done. rewrite kernel_entry_negb, Hk. cbn [negb]. rewrite run_modify.
    destruct (enter_trap_run (Ctx.on_user_ecall s1) c k Hsys) as (s2 & E2 & Hs2);
      [by apply csim_on_user_ecall|done|apply le_load_u32; [by eapply csim_bytes|lia]|].
    rewrite (run_bind _ _ _ _ _ E2). by exists s2.
  - intros s1 c1 Hs1 Hm1 Hw. unfold Machine.machine_ret.
    rewrite (run_check Machine.is_machine_mode _ s1 _ eq_refl), (is_machine_mode_run s1 c1 Hs1).
    destruct (Z.eqb_spec (c_mode c1) 0); [done|]. cbn [negb].
    destruct (load_word s1 c1 MEPC_ADDR Hs1 eq_refl ltac:(apply Hsys)) as (s2 & E2 & Hs2).
    rewrite (run_bind _ _ _ _ _ E2), Hw. unfold guest_addr.
    assert ((c_pc c <? ZERO_PAGE_END_ADDR) = false) as -> by lia.
    rewrite (run_bind _ _ s2 (c_pc c) s2) by done. rewrite !run_modify, IsaRefine.next_pc.
    eexists. split; [reflexivity|].
    apply (csim_set_mode _ (mkC (wrap 32 (c_pc c + 4)) (c_mode c1) (c_mem c1))).
    apply csim_set_pc; [done|]. apply wrap_fits. lia.
Qed.

Lemma machine_reg_run s c r : system_mapped -> csim s c -> c_mode c <> 0 -> is_reg r ->
  exists s', Machine.load_register r s = (Ok (word c (MACHINE_REGS_ADDR + 4 * r)), s') /\ csim s' c.
Proof.
  intros Hsys Hs Hm Hr. unfold Machine.load_register, Machine.regs_base_addr.
  rewrite (run_check _ (ByteAddr.waddr MACHINE_REGS_ADDR) s).
  2:{ rewrite (is_machine_mode_run s c Hs). by destruct (Z.eqb_spec (c_mode c) 0). }
  destruct (csim_load_register s c Record _ r Hs (or_intror eq_refl) Hr (sys_machine_regs Hsys r Hr)) as (s' & -> & Hs').
  exists s'. split; [|done]. unfold word. do 3 f_equal. change (ByteAddr.waddr MACHINE_REGS_ADDR) with 0x3fffc000.
  unfold MACHINE_REGS_ADDR. lia.
Qed.

Lemma machine_reg_store s c r v : system_mapped -> csim s c -> c_mode c <> 0 -> is_reg r -> r <> 0 -> u32 v ->
  exists s', Machine.store_register r v s = (Ok tt, s') /\
    csim s' (with_mem c (le_store (c_mem c) (MACHINE_REGS_ADDR + 4 * r) 4 v)).
Proof.
  intros Hsys Hs Hm Hr Hr0 Hv. unfold Machine.store_register, Machine.regs_base_addr, REG_ZERO.
  rewrite (run_check _ (ByteAddr.waddr MACHINE_REGS_ADDR) s).
  2:{ rewrite (is_machine_mode_run s c Hs). by destruct (Z.eqb_spec (c_mode c) 0). }
  destruct (Z.eqb_spec r 0); [done|].
  destruct (csim_store_register s c _ r v Hs (or_intror eq_refl) Hr (sys_machine_regs Hsys r Hr) Hv) as (s' & -> & Hs').
  exists s'. split; [done|]. replace (MACHINE_REGS_ADDR + 4 * r) with (4 * (ByteAddr.waddr MACHINE_REGS_ADDR + r)); [done|].
  change (ByteAddr.waddr MACHINE_REGS_ADDR) with 0x3fffc000. unfold MACHINE_REGS_ADDR. lia.
Qed.

(** The host read of the machine.  A request whose end wraps around the
    address space or that is too long is refused before the host is asked.  Otherwise
    the call puts the returned length in [a0], moves the program counter on by one
    instruction, and writes exactly the first [rlen] bytes at the destination: the
    byte prefix up to alignment, the four-word cycles with their padding stores and
    the byte suffix leave no byte out, write none twice and touch nothing else but
    the sixteen scratch bytes at [SAFE_WRITE_ADDR].  The loops terminate with the
    fuel given. *)
Theorem ecall_read_correct s c :
  system_mapped -> csim s c -> c_mode c <> 0 ->
  let fd := word c (MACHINE_REGS_ADDR + 4 * REG_A0) in
  let ptr := word c (MACHINE_REGS_ADDR + 4 * REG_A1) in
  let len := word c (MACHINE_REGS_ADDR + 4 * REG_A2) in
  (2 ^ 32 <= ptr + len -> exists s', Machine.ecall_read s = (Err (ErrReadLen len), s') /\ csim s' c) /\
  (ptr + len < 2 ^ 32 -> MAX_IO_BYTES < len ->
   exists s', Machine.ecall_read s = (Err (ErrReadTooBig len), s') /\ csim s' c) /\
  (ptr + len < 2 ^ 32 -> len <= MAX_IO_BYTES -> ZERO_PAGE_END_ADDR <= ptr -> region ptr len ->
   (forall x, ptr <= x < ptr + len -> off_safe x) ->
   exists s0 s1 bytes rlen s' c', csim s0 c /\ Ctx.host_read fd len s0 = (Ok (bytes, rlen), s1) /\
     Machine.ecall_read s = (Ok false, s') /\ csim s' c' /\
     c_mode c' = c_mode c /\ c_pc c' = wrap 32 (c_pc c + 4) /\
     forall x, off_safe x -> c_mem c' x =
       write_bytes (le_store (c_mem c) (MACHINE_REGS_ADDR + 4 * REG_A0) 4 rlen) ptr
         (take (Z.to_nat rlen) bytes) x).
Proof.
  intros Hsys Hs Hm fd ptr len.
  assert (Hbytes := csim_bytes s c Hs).
  assert (Hptr : u32 ptr) by (apply le_load_u32; [done|lia]).
  assert (Hlen : u32 len) by (apply le_load_u32; [done|lia]). unfold fits in Hptr, Hlen.
  assert (Hreg : forall r, r = REG_A0 \/ r = REG_A1 \/ r = REG_A2 -> is_reg r).
  { unfold is_reg, REG_A0, REG_A1, REG_A2. lia. }
  assert (Hgo : exists s3, csim s3 c /\ Machine.ecall_read s =
    (if ByteAddr.add_u32 ptr len <? ptr then throw (ErrReadLen len) else
     if MAX_IO_BYTES <? len then throw (ErrReadTooBig len) else
     (if 0 <? len then _ ← guest_addr ptr; mret tt else mret tt);;
     let '(read_words, read_bytes) := calculate_bytes_and_words ptr len in
     '(bytes, rlen) ← Ctx.host_read fd len;
     Machine.store_register REG_A0 rlen;;
     Machine.if_done rlen;;
     Machine.read_transfer ptr rlen bytes;;
     modify (Ctx.on_ecall_read_end read_bytes read_words);;
     mret false) s3).
  { unfold Machine.ecall_read.
    destruct (csim_ecall_cycle s c MachineEcall HostReadSetup 0 0 0 EcRead Hs) as (s0 & E0 & Hs0).
    rewrite (run_bind _ _ _ _ _ E0).
    destruct (machine_reg_run s0 c REG_A0 Hsys Hs0 Hm ltac:(auto)) as (s1 & E1 & Hs1). rewrite (run_bind _ _ _ _ _ E1).
    destruct (machine_reg_run s1 c REG_A1 Hsys Hs1 Hm ltac:(auto)) as (s2 & E2 & Hs2). rewrite (run_bind _ _ _ _ _ E2).
    destruct (machine_reg_run s2 c REG_A2 Hsys Hs2 Hm ltac:(auto)) as (s3 & E3 & Hs3). rewrite (run_bind _ _ _ _ _ E3).
    by exists s3. }
  destruct Hgo as (s3 & Hs3 & ->). cbv zeta.
  split_and!.
  - intros Hover. exists s3. split; [|done]. unfold ByteAddr.add_u32, add32, wrap.
    replace ((ptr + len) mod 2 ^ 32) with (ptr + len - 2 ^ 32) by (apply (Z.mod_unique_pos _ _ 1); lia).
    by destruct (Z.ltb_spec (ptr + len - 2 ^ 32) ptr); [|lia].
  - intros Hno Hbig. exists s3. split; [|done]. unfold ByteAddr.add_u32. rewrite wrap_add_small by lia.
    destruct (Z.ltb_spec (ptr + len) ptr); [lia|]. by destruct (Z.ltb_spec MAX_IO_BYTES len); [|lia].
  - intros Hno Hmax Hz Hr Hd. unfold ByteAddr.add_u32. rewrite wrap_add_small by lia.
    destruct (Z.ltb_spec (ptr + len) ptr); [lia|]. destruct (Z.ltb_spec MAX_IO_BYTES len); [lia|].
    rewrite (run_bind _ _ s3 tt s3).
    2:{ unfold guest_addr. destruct (0 <? len); [|done]. by destruct (Z.ltb_spec ptr ZERO_PAGE_END_ADDR); [lia|]. }
    destruct (calculate_bytes_and_words ptr len) as [rw rb].
    destruct (csim_host_read s3 c fd len Hs3 ltac:(lia)) as (bytes & rlen & s4 & E4 & Hs4 & Hb & Hl & Hle).
    assert (Hr' : region ptr rlen) by (destruct Hr as (R1 & R2 & R3); split_and!; [lia|lia|intros x Hx; apply R3; lia]).
    assert (Hd' : forall x, ptr <= x < ptr + rlen -> off_safe x) by (intros; apply Hd; lia).
    rewrite (run_bind _ _ _ _ _ E4).
    destruct (machine_reg_store s4 c REG_A0 rlen Hsys Hs4 Hm ltac:(auto) ltac:(done) ltac:(unfold fits; lia)) as (s5 & E5 & Hs5).
    rewrite (run_bind _ _ _ _ _ E5).
    set (c5 := with_mem c _) in Hs5.
    assert (Hd5 : exists s6 c6, Machine.if_done rlen s5 = (Ok tt, s6) /\ csim s6 c6 /\ c_mode c6 = c_mode c /\
      c_pc c6 = (if rlen =? 0 then wrap 32 (c_pc c + 4) else c_pc c) /\ c_mem c6 = c_mem c5).
    { unfold Machine.if_done. destruct (rlen =? 0).
      - destruct (next_pc_run s5 c5 Hs5) as (s6 & E6 & Hs6). eexists _, _. split_and!; [exact E6|exact Hs6|done..].
      - exists s5, c5. done. }
    destruct Hd5 as (s6 & c6 & E6 & Hs6 & Hm6 & Hp6 & Hc6). rewrite (run_bind _ _ _ _ _ E6).
    destruct (read_transfer_run bytes ptr rlen (c_pc c) (c_mode c) (c_mem c5)) with (s := s6) (c := c6)
      as (s7 & c7 & E7 & Hs7 & Hm7 & Hp7 & Hc7); try done; try lia; try apply (sys_safe Hsys).
    { intros x _. by rewrite Hc6. }
    rewrite (run_bind _ _ _ _ _ E7), run_modify. exists s3, s4, bytes, rlen. eexists _, c7. split_and!; [done|done|reflexivity| |done|done|exact Hc7].
    by apply csim_read_end.
Qed.

End MachineTheorems.

(** ** User programs on the machine *)

Section UserTheorems.
Import Isa.
Context {S : Type} `{CtxLaws S}.
Context (castable : bool) (kmem : Z -> Z).
Hypothesis sys : system_mapped.
Hypothesis trash : c_mapped (ByteAddr.waddr USER_REGS_ADDR + 64) = true.

#[local] Instance um_emu : EmuContext S error := Machine.emu castable.
#[local] Instance um_laws : EmuLaws S error := user_laws castable (sys_user_regs sys) trash kmem.

Lemma run_steps n (s : S) : steps n s = Nat.iter n (fun k => Machine.step castable;; k) (mret tt) s.
Proof. revert s. induction n as [|n IH]; intros s; [done|]. cbn [steps Nat.iter nat_rect].
  change (Machine.step castable) with (Emulator.step (H := um_emu)).
  unfold mbind, state_bind. destruct (Emulator.step s) as [[]?]; [apply IH|done|done].
Qed.

Lemma word_kmem c m a : user_view kmem c m -> USER_END_ADDR <= a -> a + 4 <= USER_REGS_ADDR \/ USER_REGS_ADDR + 260 <= a ->
  word c a = le_load kmem a 4.
Proof.
  intros (_ & _ & _ & _ & _ & Hk) Ha Hd. apply le_load_ext. intros i Hi. apply Hk; [lia|].
  unfold user_file. lia.
Qed.

(** C4: User programs on the zkVM machine, over every context that keeps its
    promises.  While the reference machine runs [n] instructions of a user program,
    the machine's first [n] steps succeed, its registers, user memory and program
    counter are the reference's, and no byte of the kernel's memory has changed
    ([user_sim] fixes it to [kmem]).  When the reference raises an exception, the
    next step enters the kernel at the trap handler in machine mode, with [MEPC]
    the address of the faulting instruction and the user's state as it was. *)
Theorem user_program_refines n s m m' :
  user_sim kmem s m -> pc m mod 4 = 0 -> nsteps isa_step n m m' ->
  exists s', Nat.iter n (fun k => Machine.step castable;; k) (mret tt) s = (Ok tt, s') /\
    user_sim kmem s' m' /\
    forall i e, ready m' i -> exec is_user_memory is_user_memory m' i = inl e ->
    let d := le_load kmem TRAP_DISPATCH_ADDR 4 in
    kernel_entry d = true ->
    exists s'' c, Machine.step castable s' = (Ok tt, s'') /\ user_view kmem c m' /\
      csim s'' (trapped c d).
Proof.
  intros Hs Hp Hn. destruct (steps_refine (H0 := um_laws) n s m m' Hs Hp Hn) as (s' & Hr & Hs' & Hp').
  exists s'. rewrite <- run_steps. split_and!; [done..|]. intros i e Hi He d Hd.
  pose proof (step_refines (H0 := um_laws) s' m' i Hs' Hi) as H1.
  change may_load with is_user_memory in H1. change may_store with is_user_memory in H1.
  rewrite He in H1. destruct H1 as (s1 & (c & Hc & Hv) & E1).
  change (Machine.step castable s') with (Emulator.step (H := um_emu) s'). rewrite E1. pose proof Hv as (_ & Hm & _).
  destruct (trap_run s1 c e sys Hc Hm) as (s2 & Ht).
  assert (Ew : word c TRAP_DISPATCH_ADDR = d).
  { eapply word_kmem; [done|unfold USER_END_ADDR, TRAP_DISPATCH_ADDR; lia|]. unfold USER_REGS_ADDR, TRAP_DISPATCH_ADDR. lia. }
  cbv zeta in Ht. rewrite Ew, Hd in Ht. destruct Ht as [Et Ht].
  exists s2, c. split_and!; [|done|done].
  unfold Emulator.trap_then. unfold mbind, state_bind. cbn [Rv32im.trap um_emu Machine.emu]. by rewrite Et.
Qed.

End UserTheorems.
