(* ===== verification/Sha2Refine.v ===== *)
(** * The SHA-256 ecall computes FIPS 180-4

    [Fips] is the compression function as the standard writes it.  The ring
    buffers are related to the history of the values pushed, a round of the
    accelerator to a round of the standard, and the whole ecall to the fold of the
    compression function over the blocks in guest memory. *)
From S2P Require Export R0vm.
Import Isa(le_load, le_store, is_reg) Sha2.
Open Scope word_scope.
Open Scope Z_scope.

Module Fips.

Definition ROTR (n x : Z) : Z := x / 2 ^ n + (x mod 2 ^ n) * 2 ^ (32 - n).
Definition SHR (n x : Z) : Z := x / 2 ^ n.
Definition Ch (x y z : Z) : Z := Z.lxor (Z.land x y) (Z.ldiff z x).
Definition Maj (x y z : Z) : Z := Z.lxor (Z.lxor (Z.land x y) (Z.land x z)) (Z.land y z).
Definition Sigma0 (x : Z) : Z := Z.lxor (Z.lxor (ROTR 2 x) (ROTR 13 x)) (ROTR 22 x).
Definition Sigma1 (x : Z) : Z := Z.lxor (Z.lxor (ROTR 6 x) (ROTR 11 x)) (ROTR 25 x).
Definition sigma0 (x : Z) : Z := Z.lxor (Z.lxor (ROTR 7 x) (ROTR 18 x)) (SHR 3 x).
Definition sigma1 (x : Z) : Z := Z.lxor (Z.lxor (ROTR 17 x) (ROTR 19 x)) (SHR 10 x).

Record hash := H { ha : Z; hb : Z; hc : Z; hd : Z; he : Z; hf : Z; hg : Z; hh : Z }.

Definition T1 (k w : Z) (s : hash) : Z :=
  wrap 32 (hh s + Sigma1 (he s) + Ch (he s) (hf s) (hg s) + k + w).
Definition T2 (s : hash) : Z := wrap 32 (Sigma0 (ha s) + Maj (ha s) (hb s) (hc s)).

Definition round (k w : Z) (s : hash) : hash :=
  H (wrap 32 (T1 k w s + T2 s)) (ha s) (hb s) (hc s) (wrap 32 (hd s + T1 k w s)) (he s) (hf s) (hg s).

(** The words [W_(t-1), ..., W_0] of the message schedule of a block. *)
Fixpoint schedule (block : nat -> Z) (t : nat) : list Z :=
  match t with
  | O => []
  | S t =>
      let ws := schedule block t in
      (if (t <? 16)%nat then block t
       else wrap 32 (sigma1 (nth 1 ws 0) + nth 6 ws 0 + sigma0 (nth 14 ws 0) + nth 15 ws 0)) :: ws
  end.

Definition W (block : nat -> Z) (t : nat) : Z := nth 0 (schedule block (S t)) 0.

Fixpoint rounds (K block : nat -> Z) (t : nat) (s : hash) : hash :=
  match t with
  | O => s
  | S t => round (K t) (W block t) (rounds K block t s)
  end.

Definition compress (K block : nat -> Z) (s : hash) : hash :=
  let r := rounds K block 64 s in
  H (wrap 32 (ha r + ha s)) (wrap 32 (hb r + hb s)) (wrap 32 (hc r + hc s)) (wrap 32 (hd r + hd s))
    (wrap 32 (he r + he s)) (wrap 32 (hf r + hf s)) (wrap 32 (hg r + hg s)) (wrap 32 (hh r + hh s)).

(** The hash after [n] blocks, the block [j]'s words being [blocks j]. *)
Fixpoint digest (K : nat -> Z) (blocks : nat -> nat -> Z) (n : nat) (s : hash) : hash :=
  match n with
  | O => s
  | S n => compress K (blocks n) (digest K blocks n s)
  end.

Definition hash_u32 (s : hash) : Prop :=
  u32 (ha s) /\ u32 (hb s) /\ u32 (hc s) /\ u32 (hd s) /\ u32 (he s) /\ u32 (hf s) /\ u32 (hg s) /\ u32 (hh s).

End Fips.

(** The standard's constants are the first 32 bits of the fractional parts of the
    cube roots (for [H], square roots) of the first primes; its example is the hash
    of the message "abc". *)
Definition trial_prime (n : nat) : bool := forallb (fun d => negb (n mod d =? 0)%nat) (seq 2 (n - 2)).
Definition some_primes : list Z := map Z.of_nat (base.filter (fun n => Is_true (trial_prime n)) (seq 2 310)).
Fixpoint cube_root (bits : nat) (r x : Z) : Z :=
  match bits with
  | O => r
  | Datatypes.S bits =>
      let r' := r + 2 ^ Z.of_nat bits in cube_root bits (if r' * r' * r' <=? x then r' else r) x
  end.
Definition fips_K : list Z := map (fun p => wrap 32 (cube_root 40 0 (p * 2 ^ 96))) some_primes.
Definition fips_H (i : nat) : Z := wrap 32 (Z.sqrt (nth i some_primes 0 * 2 ^ 64)).

Example fips_abc :
  length fips_K = 64%nat /\
  Fips.digest (fun j => nth j fips_K 0) (fun _ j => nth j (0x61626380 :: replicate 14 0 ++ [0x18]) 0) 1
    (Fips.H (fips_H 0) (fips_H 1) (fips_H 2) (fips_H 3) (fips_H 4) (fips_H 5) (fips_H 6) (fips_H 7)) =
  Fips.H 0xba7816bf 0x8f01cfea 0x414140de 0x5dae2223 0xb00361a3 0x96177a9c 0xb410ff61 0xf20015ad.
Proof. split; vm_compute; reflexivity. Qed.

(** ** The word functions *)

(** Sums of words that differ in where they are reduced. *)
Ltac wrap_sum :=
  unfold add32;
  repeat (rewrite <- ?Z.add_assoc; first [rewrite wrap_add_l | rewrite wrap_add_r]);
  rewrite <- ?Z.add_assoc; f_equal; lia.

Lemma rotr_spec n x : 0 < n < 32 -> u32 x -> rotr n x = Fips.ROTR n x.
Proof.
  intros Hn Hx. unfold rotr, Fips.ROTR, shl32, wrap. unfold fits in Hx.
  rewrite Z.shiftr_div_pow2, Z.shiftl_mul_pow2 by lia.
  assert (E : x * 2 ^ (32 - n) mod 2 ^ 32 = (x mod 2 ^ n) * 2 ^ (32 - n)).
  { replace (2 ^ 32) with (2 ^ n * 2 ^ (32 - n)) by (rewrite <- Z.pow_add_r by lia; f_equal; lia).
    pose proof (Z.pow_pos_nonneg 2 n). pose proof (Z.pow_pos_nonneg 2 (32 - n)).
    by rewrite Z.mul_mod_distr_r by lia. }
  rewrite E. symmetry. rewrite Z.add_comm, Z.lor_comm, <- Z.shiftl_mul_pow2 by lia.
  rewrite <- (Z.shiftr_div_pow2 x n) by lia.
  assert (Hd : Z.land ((x mod 2 ^ n) ≪ (32 - n)) (x ≫ n) = 0).
  { zbits. rewrite Z.land_spec, Z.bits_0. destruct (Z.ltb_spec i (32 - n)).
    - by rewrite Z.shiftl_spec_low by lia.
    - rewrite Z.shiftr_spec by lia.
      rewrite (fits_testbit_high 32 x (i + n)) by (unfold fits; lia). by rewrite andb_false_r. }
  pose proof (Z.add_lor_land ((x mod 2 ^ n) ≪ (32 - n)) (x ≫ n)). lia.
Qed.

Lemma ch_spec x y z : u32 x -> u32 z -> ch x y z = Fips.Ch x y z.
Proof.
  intros Hx Hz. unfold ch, Fips.Ch, not32. f_equal. zbits.
  rewrite Z.land_spec, Z.lxor_spec, Z.ldiff_spec. change MAX32 with (Z.ones 32).
  destruct (Z.ltb_spec i 32).
  - rewrite Z.ones_spec_low by lia. by rewrite xorb_true_r, andb_comm.
  - by rewrite (fits_testbit_high 32 z i) by done || lia; rewrite andb_false_r.
Qed.

Lemma shr_spec n x : 0 <= n -> Z.shiftr x n = Fips.SHR n x.
Proof. intros. by apply Z.shiftr_div_pow2. Qed.

Lemma compute_w_spec b c d e :
  u32 b -> u32 d ->
  sigma1 b +32 c +32 sigma0 d +32 e = wrap 32 (Fips.sigma1 b + c + Fips.sigma0 d + e).
Proof.
  intros Hb Hd. unfold sigma0, sigma1, Fips.sigma0, Fips.sigma1.
  rewrite !rotr_spec by (lia || assumption). rewrite !shr_spec by lia. wrap_sum.
Qed.

(** Byte order. *)
Definition be_word (mem : Z -> Z) (a : Z) : Z :=
  mem a * 2 ^ 24 + mem (a + 1) * 2 ^ 16 + mem (a + 2) * 2 ^ 8 + mem (a + 3).

Lemma to_be_load mem a : bytes_wf mem -> to_be (le_load mem a 4) = be_word mem a.
Proof.
  intros Hm. unfold to_be. rewrite to_le_bytes_load by done.
  unfold be_word. cbn [rev app from_le_bytes foldr]. lia.
Qed.

Lemma be_word_u32 mem a : bytes_wf mem -> u32 (be_word mem a).
Proof.
  intros Hm. unfold be_word, fits. pose proof (Hm a) as H0. pose proof (Hm (a + 1)) as H1.
  pose proof (Hm (a + 2)) as H2. pose proof (Hm (a + 3)) as H3. unfold fits in *. lia.
Qed.

Lemma to_be_u32 v : u32 (to_be v).
Proof.
  unfold to_be, to_le_bytes. cbn [rev app from_le_bytes foldr map]. unfold fits.
  pose proof (Z.mod_pos_bound (v / 256 ^ 0) 256 eq_refl). pose proof (Z.mod_pos_bound (v / 256 ^ 1) 256 eq_refl).
  pose proof (Z.mod_pos_bound (v / 256 ^ 2) 256 eq_refl). pose proof (Z.mod_pos_bound (v / 256 ^ 3) 256 eq_refl). lia.
Qed.

Lemma be_word_store_to_be mem a v : u32 v -> be_word (le_store mem a 4 (to_be v)) a = v.
Proof.
  intros Hv. unfold be_word. rewrite !le_store_in by lia.
  pose proof (le_store_in mem a 4 (to_be v) 0 ltac:(lia)) as E. rewrite Z.add_0_r in E. rewrite E. clear E.
  unfold to_be, to_le_bytes. cbn [rev app from_le_bytes foldr map]. unfold fits in Hv.
  change (256 ^ 0) with 1. change (256 ^ 1) with 256. change (256 ^ 2) with 65536. change (256 ^ 3) with 16777216.
  change (2 ^ 24) with 16777216. change (2 ^ 16) with 65536. change (2 ^ 8) with 256.
  Z.to_euclidean_division_equations. lia.
Qed.

Lemma be_word_ext f g a : (forall i, 0 <= i < 4 -> f (a + i) = g (a + i)) -> be_word f a = be_word g a.
Proof.
  intros Hf. unfold be_word. pose proof (Hf 0) as E. rewrite Z.add_0_r in E.
  by rewrite E, (Hf 1), (Hf 2), (Hf 3) by lia.
Qed.

(** ** Ring buffers and histories *)

(** [r] holds the last [N] entries of the history [h], the latest first, and zero
    for the entries that have not been pushed. *)
Definition ring_ok (N : nat) (r : RingBuffer) (h : list Z) : Prop :=
  length (buf r) = N /\ (cur r < N)%nat /\
  forall i, (1 <= i <= N)%nat -> back N r i = nth (i - 1) h 0.

Lemma ring_new_ok N : (0 < N)%nat -> ring_ok N (ring_new N) [].
Proof.
  intros HN. split_and!; cbn [ring_new buf cur]; [apply length_replicate|lia|].
  intros i Hi. unfold back. cbn [ring_new buf cur].
  assert (E : forall k, nth k (replicate N 0) 0 = 0).
  { intros k. destruct (Nat.lt_ge_cases k N).
    - apply nth_lookup_Some. by rewrite lookup_replicate_2.
    - apply nth_overflow. rewrite length_replicate. lia. }
  rewrite E. by destruct (i - 1)%nat.
Qed.

Lemma push_ok N r h v : ring_ok N r h -> ring_ok N (push N r v) (v :: h).
Proof.
  intros (Hl & Hc & Hb). assert (HN : (N <> 0)%nat) by lia.
  split_and!; cbn [push buf cur]; [by rewrite length_insert|by apply Nat.mod_upper_bound|].
  intros i Hi. unfold back. cbn [push buf cur].
  assert (Em : ((cur r + 1) mod N = if decide (cur r + 1 = N) then 0 else cur r + 1)%nat).
  { case_decide as E; [rewrite E; by apply Nat.Div0.mod_same|apply Nat.mod_small; lia]. }
  assert (Ei : forall x y q, (x = q * N + y -> y < N -> x mod N = y)%nat).
  { intros x y q -> Hy. rewrite Nat.add_comm, Nat.Div0.mod_add. by apply Nat.mod_small. }
  assert (Hn : forall k l, (k < N)%nat -> k <> cur r -> nth k (<[cur r := v]> (buf r)) l = nth k (buf r) l).
  { intros k l Hk Hne. rewrite !nth_lookup. by rewrite list_lookup_insert_ne by done. }
  destruct (decide (i = 1)%nat) as [->|Hi1].
  - assert (E : ((N + (cur r + 1) mod N - 1) mod N = cur r)%nat).
    { rewrite Em. case_decide as E; [apply (Ei _ _ 0%nat)|apply (Ei _ _ 1%nat)]; lia. }
    rewrite E. cbn [nth Nat.sub]. apply nth_lookup_Some. apply list_lookup_insert_eq. lia.
  - replace (i - 1)%nat with (S (i - 2)) by lia. cbn [nth].
    replace (i - 2)%nat with (i - 1 - 1)%nat by lia. rewrite <- Hb by lia. unfold back.
    assert (E : ((N + (cur r + 1) mod N - i) mod N = (N + cur r - (i - 1)) mod N)%nat).
    { rewrite Em. case_decide as E; [|f_equal; lia].
      rewrite (Ei (N + cur r - (i - 1))%nat (N + 0 - i)%nat 1%nat) by lia.
      apply (Ei _ _ 0%nat); lia. }
    rewrite E. apply Hn; [by apply Nat.mod_upper_bound|].
    destruct (decide (i - 1 <= cur r)%nat).
    + rewrite (Ei _ (cur r - (i - 1))%nat 1%nat) by lia. lia.
    + rewrite (Ei _ (N + cur r - (i - 1))%nat 0%nat) by lia. lia.
Qed.

(** One step of [compute_ae] on histories that start with the working variables. *)
Definition ring_a (s : Fips.hash) : list Z := [Fips.ha s; Fips.hb s; Fips.hc s; Fips.hd s].
Definition ring_e (s : Fips.hash) : list Z := [Fips.he s; Fips.hf s; Fips.hg s; Fips.hh s].

Lemma round_spec ra re s ta te k w :
  ring_ok SHA2_BACK ra (ring_a s ++ ta) -> ring_ok SHA2_BACK re (ring_e s ++ te) -> Fips.hash_u32 s ->
  compute_ae ra re k w = (Fips.ha (Fips.round k w s), Fips.he (Fips.round k w s)).
Proof.
  intros (_ & _ & Ha) (_ & _ & He) Hs. unfold Fips.hash_u32 in Hs. destruct_and! Hs.
  unfold compute_ae. assert (HB : (4 <= SHA2_BACK)%nat) by (vm_compute; lia).
  rewrite !Ha, !He by lia. cbn [ring_a ring_e app nth Nat.sub].
  unfold epsilon0, epsilon1. rewrite !rotr_spec by (lia || assumption). rewrite ch_spec by assumption.
  unfold Fips.round, Fips.T1, Fips.T2. cbn [Fips.ha Fips.he]. unfold maj.
  fold (Fips.Sigma0 (Fips.ha s)) (Fips.Sigma1 (Fips.he s)) (Fips.Maj (Fips.ha s) (Fips.hb s) (Fips.hc s)).
  generalize (Fips.Sigma0 (Fips.ha s)) (Fips.Sigma1 (Fips.he s)) (Fips.Maj (Fips.ha s) (Fips.hb s) (Fips.hc s))
    (Fips.Ch (Fips.he s) (Fips.hf s) (Fips.hg s)) (Fips.hd s) (Fips.hh s). clear. intros.
  f_equal; wrap_sum.
Qed.

Lemma round_u32 k w s : Fips.hash_u32 s -> Fips.hash_u32 (Fips.round k w s).
Proof.
  intros Hs. unfold Fips.hash_u32 in *. destruct_and! Hs. cbn [Fips.round Fips.ha Fips.hb Fips.hc Fips.hd Fips.he Fips.hf Fips.hg Fips.hh].
  split_and!; by first [assumption | apply wrap_fits; lia].
Qed.

Lemma rounds_u32 K block t s : Fips.hash_u32 s -> Fips.hash_u32 (Fips.rounds K block t s).
Proof. intros Hs. induction t; cbn [Fips.rounds]; [done|by apply round_u32]. Qed.

Lemma compress_u32 K block s : Fips.hash_u32 (Fips.compress K block s).
Proof.
  unfold Fips.compress, Fips.hash_u32. generalize (Fips.rounds K block 64 s). intros r.
  cbn [Fips.ha Fips.hb Fips.hc Fips.hd Fips.he Fips.hf Fips.hg Fips.hh]. split_and!; apply wrap_fits; lia.
Qed.

Lemma schedule_length block t : length (Fips.schedule block t) = t.
Proof. induction t; cbn [Fips.schedule length]; [done|by rewrite IHt]. Qed.

Lemma schedule_cons block t : Fips.schedule block (S t) = Fips.W block t :: Fips.schedule block t.
Proof. done. Qed.

Lemma schedule_u32 block t : (forall j, u32 (block j)) -> Forall u32 (Fips.schedule block t).
Proof.
  intros Hb. induction t; [constructor|]. cbn [Fips.schedule]. constructor; [|done].
  destruct (_ <? _)%nat; [apply Hb|apply wrap_fits; lia].
Qed.

Lemma W_low block t : (t < 16)%nat -> Fips.W block t = block t.
Proof. intros Ht. unfold Fips.W. cbn [Fips.schedule nth]. by destruct (Nat.ltb_spec t 16); [|lia]. Qed.

Lemma mix_word block t rw tw : (16 <= t)%nat -> (forall j, u32 (block j)) ->
  ring_ok 16 rw (Fips.schedule block t ++ tw) -> compute_w rw = Fips.W block t.
Proof.
  intros Ht Hb (_ & _ & Hw). unfold compute_w. rewrite !Hw by lia.
  pose proof (schedule_length block t) as Hl. rewrite !app_nth1 by lia. cbn [Nat.sub].
  pose proof (schedule_u32 block t Hb) as Hu. rewrite Forall_nth in Hu.
  unfold Fips.W. cbn [Fips.schedule nth]. destruct (Nat.ltb_spec t 16); [lia|].
  apply compute_w_spec; apply Hu; lia.
Qed.

(** ** The cycles of the accelerator *)

Lemma for_each_inv {S L} (P : Z -> S -> L -> Prop) (body : Z -> L -> state S error L) n :
  (forall i s l, 0 <= i < Z.of_nat n -> P i s l -> exists s' l', body i l s = (Ok l', s') /\ P (i + 1) s' l') ->
  forall s l, P 0 s l -> exists s' l', for_each (seqZ 0 (Z.of_nat n)) body l s = (Ok l', s') /\ P (Z.of_nat n) s' l'.
Proof.
  intros Hstep. assert (Hgen : forall k i s l, i + Z.of_nat k = Z.of_nat n -> 0 <= i -> P i s l ->
    exists s' l', for_each (seqZ i (Z.of_nat k)) body l s = (Ok l', s') /\ P (Z.of_nat n) s' l').
  { induction k as [|k IH]; intros i s l Hk Hi HP.
    - exists s, l. split; [done|]. by replace (Z.of_nat n) with i by lia.
    - rewrite seqZ_cons by lia. cbn [for_each].
      destruct (Hstep i s l ltac:(lia) HP) as (s1 & l1 & E & HP1). rewrite (run_bind _ _ _ _ _ E).
      replace (Z.pred (Z.of_nat (Datatypes.S k))) with (Z.of_nat k) by lia.
      apply IH; [lia|lia|exact HP1]. }
  intros s l HP. apply Hgen; [lia|lia|exact HP].
Qed.

(** The word of guest memory at a word address. *)
Definition ld (m : Z -> Z) (w : Z) : Z := le_load m (4 * w) 4.

Lemma ld_store m w v x : u32 v -> ld (le_store m (4 * w) 4 v) x = if x =? w then v else ld m x.
Proof.
  intros Hv. unfold ld. destruct (Z.eqb_spec x w) as [->|Hne].
  - rewrite le_load_store_same. apply Z.mod_small. exact Hv.
  - apply le_load_store_other. lia.
Qed.

Lemma ld_u32 m w : bytes_wf m -> u32 (ld m w).
Proof. intros Hm. apply le_load_u32; [done|lia]. Qed.

Lemma to_be_invol v : u32 v -> to_be (to_be v) = v.
Proof.
  intros Hv. set (m := fun _ : Z => 0).
  pose proof (be_word_store_to_be m 0 v Hv) as E. rewrite <- to_be_load in E.
  - pose proof (to_be_u32 v) as Hu.
    rewrite (le_load_store_same m 0 4 (to_be v)), Z.mod_small in E by exact Hu. exact E.
  - apply le_store_wf. intros x. unfold m, fits. lia.
Qed.

Section Cycles.
Context {S : Type} `{CtxLaws S}.

(** What the locals hold: the histories of the rings and the fields of the state. *)
Record inv (o k d n : Z) (ha he hw : list Z) (c : cstate) (s : S) (l : locals) : Prop := mkInv {
  inv_sim : csim s c;
  inv_a : ring_ok SHA2_BACK (old_a l) ha;
  inv_e : ring_ok SHA2_BACK (old_e l) he;
  inv_w : ring_ok 16 (old_w l) hw;
  inv_o : state_out_addr (sha l) = o;
  inv_k : k_addr (sha l) = k;
  inv_d : data_addr (sha l) = d;
  inv_n : count (sha l) = n }.

Lemma step_run i nx o k d n ha he hw c s l : inv o k d n ha he hw c s l ->
  exists s' l', step i nx l s = (Ok l', s') /\ inv o k d n ha he hw c s' l' /\
    state_in_addr (sha l') = state_in_addr (sha l).
Proof.
  intros Hi. destruct Hi. do 2 eexists. split; [reflexivity|]. split; [|done].
  constructor; try done. apply csim_sha2_cycle. done.
Qed.

Lemma push_ae_inv av ev wv o k d n ha he hw c s l : inv o k d n ha he hw c s l ->
  inv o k d n (av :: ha) (ev :: he) hw c s (push_ae av ev wv l).
Proof. intros []. constructor; try done; by apply push_ok. Qed.

Lemma inv_mem o k d n ha he hw c c' s s' l : inv o k d n ha he hw c s l -> csim s' c' ->
  inv o k d n ha he hw c' s' l.
Proof. intros [] Hs. by constructor. Qed.

Lemma load_run o k d n ha he hw c s l w : inv o k d n ha he hw c s l -> c_mapped w = true ->
  exists s', Ctx.load_u32 Record w s = (Ok (ld (c_mem c) w), s') /\ inv o k d n ha he hw c s' l.
Proof.
  intros Hi Hm. destruct (csim_load s c Record w (inv_sim _ _ _ _ _ _ _ _ _ _ Hi) Hm) as (s' & E & Hs').
  exists s'. split; [exact E|]. by eapply inv_mem.
Qed.

Lemma store_run o k d n ha he hw c s l w v : inv o k d n ha he hw c s l -> c_mapped w = true -> u32 v ->
  exists s', Ctx.store_u32 w v s = (Ok tt, s') /\
    inv o k d n ha he hw (with_mem c (le_store (c_mem c) (4 * w) 4 v)) s' l.
Proof.
  intros Hi Hm Hv. destruct (csim_store s c w v (inv_sim _ _ _ _ _ _ _ _ _ _ Hi) Hm Hv) as (s' & E & Hs').
  exists s'. split; [exact E|]. by eapply inv_mem.
Qed.

Lemma addr_add w i : 0 <= w -> 0 <= i -> w + i < 2 ^ 32 -> WordAddr.add_u32 w i = w + i.
Proof. intros. unfold WordAddr.add_u32, add32. apply wrap_small. unfold fits. lia. Qed.

Lemma addr_off w j i : 0 <= w -> 0 <= i <= j -> w + j < 2 ^ 32 ->
  WordAddr.sub_u32 (WordAddr.add_u32 w j) i = w + (j - i).
Proof.
  intros. rewrite addr_add by lia. unfold WordAddr.sub_u32, sub32.
  rewrite wrap_small; [lia|unfold fits; lia].
Qed.

Lemma load_state_run o k d n ha he hw c s l w i :
  inv o k d n ha he hw c s l -> state_in_addr (sha l) = w -> 0 <= i < 4 ->
  0 <= w < 2 ^ 30 -> 0 <= o < 2 ^ 30 ->
  (forall j, 0 <= j < 8 -> c_mapped (w + j) = true /\ c_mapped (o + j) = true) ->
  let va := ld (c_mem c) (w + (3 - i)) in
  let ve := ld (c_mem c) (w + (7 - i)) in
  exists s' l', load_state i l s = (Ok l', s') /\ state_in_addr (sha l') = w /\
    inv o k d n (to_be va :: ha) (to_be ve :: he) hw
      (with_mem c (le_store (le_store (c_mem c) (4 * (o + (3 - i))) 4 va) (4 * (o + (7 - i))) 4 ve)) s' l'.
Proof.
  intros Hi Hw Hin Hwr Hor Hmap va ve. pose proof (csim_bytes _ _ (inv_sim _ _ _ _ _ _ _ _ _ _ Hi)) as Hb.
  unfold load_state.
  destruct (step_run i ShaLoadState _ _ _ _ _ _ _ _ _ _ Hi) as (s1 & l1 & E1 & H1 & Ew).
  rewrite (run_bind _ _ _ _ _ E1). rewrite Ew, (inv_o _ _ _ _ _ _ _ _ _ _ H1), Hw.
  rewrite !addr_off by lia.
  destruct (load_run _ _ _ _ _ _ _ _ _ _ (w + (3 - i)) H1) as (s2 & E2 & H2); [apply Hmap; lia|].
  rewrite (run_bind _ _ _ _ _ E2).
  destruct (load_run _ _ _ _ _ _ _ _ _ _ (w + (7 - i)) H2) as (s3 & E3 & H3); [apply Hmap; lia|].
  rewrite (run_bind _ _ _ _ _ E3). fold va ve.
  apply (push_ae_inv (to_be va) (to_be ve) (R0ctx.w (sha l1))) in H3.
  destruct (store_run _ _ _ _ _ _ _ _ _ _ (o + (3 - i)) va H3) as (s4 & E4 & H4);
    [apply Hmap; lia|by apply ld_u32|]. rewrite (run_bind _ _ _ _ _ E4).
  destruct (store_run _ _ _ _ _ _ _ _ _ _ (o + (7 - i)) ve H4) as (s5 & E5 & H5);
    [apply Hmap; lia|by apply ld_u32|]. rewrite (run_bind _ _ _ _ _ E5).
  do 2 eexists. split; [reflexivity|]. split; [exact (eq_trans Ew Hw)|exact H5].
Qed.

Lemma load_data_run o k d n h ta te hw c s l i :
  inv o k d n (ring_a h ++ ta) (ring_e h ++ te) hw c s l -> Fips.hash_u32 h -> 0 <= i < 16 ->
  0 <= k < 2 ^ 30 -> 0 <= d < 2 ^ 30 -> c_mapped (k + i) = true -> c_mapped d = true ->
  let wv := be_word (c_mem c) (4 * d) in
  let h' := Fips.round (ld (c_mem c) (k + i)) wv h in
  exists s' l', load_data i l s = (Ok l', s') /\
    inv o k (d + 1) n (Fips.ha h' :: ring_a h ++ ta) (Fips.he h' :: ring_e h ++ te) (wv :: hw) c s' l'.
Proof.
  intros Hi Hh Hin Hk Hd Hmk Hmd wv h'. pose proof (csim_bytes _ _ (inv_sim _ _ _ _ _ _ _ _ _ _ Hi)) as Hb.
  unfold load_data.
  destruct (step_run i ShaLoadData _ _ _ _ _ _ _ _ _ _ Hi) as (s1 & l1 & E1 & H1 & _).
  rewrite (run_bind _ _ _ _ _ E1), (inv_k _ _ _ _ _ _ _ _ _ _ H1), (addr_add k i) by lia.
  destruct (load_run _ _ _ _ _ _ _ _ _ _ (k + i) H1 Hmk) as (s2 & E2 & H2). rewrite (run_bind _ _ _ _ _ E2).
  rewrite (inv_d _ _ _ _ _ _ _ _ _ _ H2).
  destruct (load_run _ _ _ _ _ _ _ _ _ _ d H2 Hmd) as (s3 & E3 & H3). rewrite (run_bind _ _ _ _ _ E3).
  rewrite (addr_add d 1) by lia. cbv zeta.
  assert (Ewv : to_be (ld (c_mem c) d) = wv) by (by apply to_be_load). rewrite Ewv.
  match goal with |- context [compute_ae (old_a ?x) _ _ _] => set (l2 := x) end.
  assert (H4 : inv o k (d + 1) n (ring_a h ++ ta) (ring_e h ++ te) (wv :: hw) c s3 l2).
  { destruct H3. constructor; try done. cbn. by apply push_ok. }
  rewrite (round_spec _ _ h ta te _ wv (inv_a _ _ _ _ _ _ _ _ _ _ H4) (inv_e _ _ _ _ _ _ _ _ _ _ H4) Hh).
  do 2 eexists. split; [reflexivity|]. by apply push_ae_inv.
Qed.

Lemma mix_run o k d n h ta te t block tw c s l i :
  inv o k d n (ring_a h ++ ta) (ring_e h ++ te) (Fips.schedule block t ++ tw) c s l ->
  Fips.hash_u32 h -> (forall j, u32 (block j)) -> (16 <= t)%nat -> 0 <= i < 48 ->
  0 <= k < 2 ^ 30 -> c_mapped (k + (16 + i)) = true ->
  let h' := Fips.round (ld (c_mem c) (k + (16 + i))) (Fips.W block t) h in
  exists s' l', mix i l s = (Ok l', s') /\
    inv o k d n (Fips.ha h' :: ring_a h ++ ta) (Fips.he h' :: ring_e h ++ te)
      (Fips.schedule block (Datatypes.S t) ++ tw) c s' l'.
Proof.
  intros Hi Hh Hbl Ht Hin Hk Hmk h'. unfold mix.
  destruct (step_run i ShaMix _ _ _ _ _ _ _ _ _ _ Hi) as (s1 & l1 & E1 & H1 & _).
  rewrite (run_bind _ _ _ _ _ E1), (inv_k _ _ _ _ _ _ _ _ _ _ H1).
  assert (Ea : WordAddr.add_u32 (WordAddr.add_usize k BLOCK_WORDS) i = k + (16 + i)).
  { unfold WordAddr.add_usize, BLOCK_WORDS. change (wrap 32 16) with 16.
    fold (WordAddr.add_u32 k 16). rewrite !addr_add; rewrite ?addr_add; lia. }
  rewrite Ea. destruct (load_run _ _ _ _ _ _ _ _ _ _ _ H1 Hmk) as (s2 & E2 & H2). rewrite (run_bind _ _ _ _ _ E2).
  cbv zeta. rewrite (mix_word block t _ tw Ht Hbl (inv_w _ _ _ _ _ _ _ _ _ _ H2)).
  set (l2 := push_w (Fips.W block t) l1).
  assert (H3 : inv o k d n (ring_a h ++ ta) (ring_e h ++ te) (Fips.schedule block (Datatypes.S t) ++ tw) c s2 l2).
  { destruct H2. constructor; try done. rewrite schedule_cons. cbn [l2 push_w old_w app]. by apply push_ok. }
  rewrite (round_spec _ _ h ta te _ _ (inv_a _ _ _ _ _ _ _ _ _ _ H3) (inv_e _ _ _ _ _ _ _ _ _ _ H3) Hh).
  do 2 eexists. split; [reflexivity|]. by apply push_ae_inv.
Qed.

(** A block's 64 rounds: the rings then hold, from the latest on, the working
    variables, and 64 entries further back those the block started with. *)
Definition rounds_inv (o k d n : Z) (c : cstate) (block : nat -> Z) (h0 : Fips.hash) (tw : list Z)
    (t : nat) (d' : Z) (s : S) (l : locals) : Prop :=
  let h := Fips.rounds (fun j => ld (c_mem c) (k + Z.of_nat j)) block t h0 in
  exists ta te la le_ ua ue, inv o k d' n (ring_a h ++ ta) (ring_e h ++ te) (Fips.schedule block t ++ tw) c s l /\
    length la = t /\ length le_ = t /\ ring_a h ++ ta = la ++ ring_a h0 ++ ua /\ ring_e h ++ te = le_ ++ ring_e h0 ++ ue.

Lemma rounds_inv_step o k d n c block h0 tw t d' d'' s l s' l' :
  let h := Fips.rounds (fun j => ld (c_mem c) (k + Z.of_nat j)) block t h0 in
  let h' := Fips.round (ld (c_mem c) (k + Z.of_nat t)) (Fips.W block t) h in
  rounds_inv o k d n c block h0 tw t d' s l ->
  (forall ta te, inv o k d' n (ring_a h ++ ta) (ring_e h ++ te) (Fips.schedule block t ++ tw) c s l ->
     inv o k d'' n (Fips.ha h' :: ring_a h ++ ta) (Fips.he h' :: ring_e h ++ te)
       (Fips.schedule block (Datatypes.S t) ++ tw) c s' l') ->
  rounds_inv o k d n c block h0 tw (Datatypes.S t) d'' s' l'.
Proof.
  intros h h' (ta & te & la & le_ & ua & ue & Hi & Hla & Hle & Ha & He) Hstep.
  fold h in Hi, Ha, He. unfold rounds_inv. cbn [Fips.rounds]. fold h h'.
  exists (Fips.hd h :: ta), (Fips.hh h :: te), (Fips.ha h' :: la), (Fips.he h' :: le_), ua, ue.
  split_and!; [exact (Hstep _ _ Hi)|by rewrite <- Hla|by rewrite <- Hle| |].
  - cbn [app]. rewrite <- Ha. reflexivity.
  - cbn [app]. rewrite <- He. reflexivity.
Qed.

Lemma rounds_run o k d n h ta te tw c s l :
  inv o k d n (ring_a h ++ ta) (ring_e h ++ te) tw c s l -> Fips.hash_u32 h ->
  0 <= k < 2 ^ 30 -> 0 <= d -> d + 16 <= 2 ^ 30 ->
  (forall j, 0 <= j < 64 -> c_mapped (k + j) = true) -> (forall j, 0 <= j < 16 -> c_mapped (d + j) = true) ->
  exists s1 l1 s' l', for_each (seqZ 0 SHA2_LOAD_DATA_CYCLES) load_data l s = (Ok l1, s1) /\
    for_each (seqZ 0 SHA2_MIX_CYCLES) mix l1 s1 = (Ok l', s') /\
    rounds_inv o k d n c (fun j => be_word (c_mem c) (4 * (d + Z.of_nat j))) h tw 64 (d + 16) s' l'.
Proof.
  intros Hi Hh Hk Hd Hd' Hmk Hmd. pose proof (csim_bytes _ _ (inv_sim _ _ _ _ _ _ _ _ _ _ Hi)) as Hb.
  set (block := fun j => be_word (c_mem c) (4 * (d + Z.of_nat j))).
  assert (Hblk : forall j, u32 (block j)) by (intros j; by apply be_word_u32).
  set (R := fun (t : nat) d' => rounds_inv o k d n c block h tw t d').
  assert (HR0 : R 0%nat d s l).
  { exists ta, te, [], [], ta, te. split_and!; done. }
  destruct (for_each_inv (fun i => R (Z.to_nat i) (d + i)) load_data 16) with (s := s) (l := l)
    as (s1 & l1 & E1 & H1).
  { intros i s0 l0 Hin HR. pose proof HR as (ta0 & te0 & _ & _ & _ & _ & Hi0 & _).
    destruct (load_data_run _ _ _ _ _ _ _ _ _ _ _ i Hi0) as (s' & l' & E & Hs');
      [by apply rounds_u32|lia|lia|lia|apply Hmk; lia|apply Hmd; lia|].
    exists s', l'. split; [exact E|]. unfold R.
    replace (Z.to_nat (i + 1)) with (Datatypes.S (Z.to_nat i)) by lia.
    eapply rounds_inv_step; [exact HR|]. intros ta1 te1 Hi1.
    destruct (load_data_run _ _ _ _ _ _ _ _ _ _ _ i Hi1) as (s2 & l2 & E2 & Hs2);
      [by apply rounds_u32|lia|lia|lia|apply Hmk; lia|apply Hmd; lia|].
    rewrite E in E2. injection E2 as <- <-.
    assert (Ewv : be_word (c_mem c) (4 * (d + i)) = Fips.W block (Z.to_nat i)).
    { rewrite W_low by lia. unfold block. by rewrite Z2Nat.id by lia. }
    rewrite Ewv, <- Z.add_assoc in Hs2. replace (k + i) with (k + Z.of_nat (Z.to_nat i)) in Hs2 by lia.
    exact Hs2. }
  { replace (d + 0) with d by lia. exact HR0. }
  destruct (for_each_inv (fun i => R (16 + Z.to_nat i)%nat (d + 16)) mix 48) with (s := s1) (l := l1)
    as (s2 & l2 & E2 & H2).
  { intros i s0 l0 Hin HR. pose proof HR as (ta0 & te0 & _ & _ & _ & _ & Hi0 & _).
    destruct (mix_run _ _ _ _ _ _ _ _ _ _ _ _ _ i Hi0) as (s' & l' & E & Hs');
      [by apply rounds_u32|done|lia|lia|lia|apply Hmk; lia|].
    exists s', l'. split; [exact E|]. unfold R.
    replace (16 + Z.to_nat (i + 1))%nat with (Datatypes.S (16 + Z.to_nat i)) by lia.
    eapply rounds_inv_step; [exact HR|]. intros ta1 te1 Hi1.
    destruct (mix_run _ _ _ _ _ _ _ _ _ _ _ _ _ i Hi1) as (s3 & l3 & E3 & Hs3);
      [by apply rounds_u32|done|lia|lia|lia|apply Hmk; lia|].
    rewrite E in E3. injection E3 as <- <-.
    replace (16 + i) with (Z.of_nat (16 + Z.to_nat i)) in Hs3 by lia. exact Hs3. }
  { exact H1. }
  exists s1, l1, s2, l2. split_and!; [exact E1|exact E2|exact H2].
Qed.

(** *** The state's loads and stores *)

(** After [i] cycles that write [vals] from the last word of each half down,
    [m'] holds the words written so far, and elsewhere what [m] held. *)
Definition upd (o : Z) (vals : Z -> Z) (m : Z -> Z) (i : Z) (m' : Z -> Z) : Prop :=
  (forall j, 0 <= j < 8 -> ld m' (o + j) = if 3 - i <? j mod 4 then vals j else ld m (o + j)) /\
  (forall x, x < 4 * o \/ 4 * o + 32 <= x -> m' x = m x).

Lemma upd_0 o vals m : upd o vals m 0 m.
Proof. split; [|done]. intros j Hj. pose proof (Z.mod_pos_bound j 4). by destruct (Z.ltb_spec (3 - 0) (j mod 4)); [lia|]. Qed.

Lemma upd_step o vals m i m' : upd o vals m i m' -> 0 <= i < 4 -> (forall j, u32 (vals j)) ->
  upd o vals m (i + 1)
    (le_store (le_store m' (4 * (o + (3 - i))) 4 (vals (3 - i))) (4 * (o + (7 - i))) 4 (vals (7 - i))).
Proof.
  intros [H1 H2] Hi Hv. split.
  - intros j Hj. rewrite !ld_store by done.
    assert (Hjm : j mod 4 = if j <? 4 then j else j - 4).
    { destruct (Z.ltb_spec j 4); Z.to_euclidean_division_equations; lia. }
    destruct (Z.eqb_spec (o + j) (o + (7 - i))).
    { replace j with (7 - i) in * by lia. rewrite Hjm. destruct (Z.ltb_spec (7 - i) 4); [lia|].
      by destruct (Z.ltb_spec (3 - (i + 1)) (7 - i - 4)); [|lia]. }
    destruct (Z.eqb_spec (o + j) (o + (3 - i))).
    { replace j with (3 - i) in * by lia. rewrite Hjm. destruct (Z.ltb_spec (3 - i) 4); [|lia].
      by destruct (Z.ltb_spec (3 - (i + 1)) (3 - i)); [|lia]. }
    rewrite H1 by lia. assert (E : (3 - i <? j mod 4) = (3 - (i + 1) <? j mod 4)); [|by rewrite E].
    apply Bool.eq_iff_eq_true. rewrite !Z.ltb_lt, Hjm. destruct (Z.ltb_spec j 4); lia.
  - intros x Hx. rewrite !le_store_out by lia. by apply H2.
Qed.

Lemma ld_frame o m m' w : (forall x, x < 4 * o \/ 4 * o + 32 <= x -> m' x = m x) ->
  w < o \/ o + 8 <= w -> ld m' w = ld m w.
Proof. intros Hf Hw. apply le_load_ext. intros i Hi. apply Hf. lia. Qed.

(** The words of a hash in guest memory: big-endian, [a] first. *)
Definition words (h : Fips.hash) (j : Z) : Z := nth (Z.to_nat j) (ring_a h ++ ring_e h) 0.

Definition hash_at (m : Z -> Z) (w : Z) : Fips.hash :=
  Fips.H (be_word m (4 * w)) (be_word m (4 * (w + 1))) (be_word m (4 * (w + 2))) (be_word m (4 * (w + 3)))
    (be_word m (4 * (w + 4))) (be_word m (4 * (w + 5))) (be_word m (4 * (w + 6))) (be_word m (4 * (w + 7))).

Lemma cases8 (P : Z -> Prop) : P 0 -> P 1 -> P 2 -> P 3 -> P 4 -> P 5 -> P 6 -> P 7 -> forall j, 0 <= j < 8 -> P j.
Proof.
  intros. assert (E : j = 0 \/ j = 1 \/ j = 2 \/ j = 3 \/ j = 4 \/ j = 5 \/ j = 6 \/ j = 7) by lia.
  destruct E as [->|[->|[->|[->|[->|[->|[->| ->]]]]]]]; assumption.
Qed.

Lemma words_hash_at m w j : 0 <= j < 8 -> words (hash_at m w) j = be_word m (4 * (w + j)).
Proof.
  revert j. apply cases8; [by rewrite Z.add_0_r|reflexivity..].
Qed.

Lemma hash_ext h h' : (forall j, 0 <= j < 8 -> words h j = words h' j) -> h = h'.
Proof.
  intros Hw. destruct h as [a0 a1 a2 a3 a4 a5 a6 a7], h' as [b0 b1 b2 b3 b4 b5 b6 b7]. pose proof (Hw 0 ltac:(lia)) as E0. pose proof (Hw 1 ltac:(lia)) as E1.
  pose proof (Hw 2 ltac:(lia)) as E2. pose proof (Hw 3 ltac:(lia)) as E3. pose proof (Hw 4 ltac:(lia)) as E4.
  pose proof (Hw 5 ltac:(lia)) as E5. pose proof (Hw 6 ltac:(lia)) as E6. pose proof (Hw 7 ltac:(lia)) as E7.
  change (a0 = b0) in E0. change (a1 = b1) in E1. change (a2 = b2) in E2. change (a3 = b3) in E3.
  change (a4 = b4) in E4. change (a5 = b5) in E5. change (a6 = b6) in E6. change (a7 = b7) in E7. congruence.
Qed.

Lemma words_u32 h j : Fips.hash_u32 h -> u32 (words h j).
Proof.
  intros Hh. unfold Fips.hash_u32 in Hh. destruct_and! Hh. unfold words.
  assert (Hf : Forall u32 (ring_a h ++ ring_e h)) by (repeat (apply Forall_cons; split; [assumption|]); apply Forall_nil; exact I).
  destruct (Nat.lt_ge_cases (Z.to_nat j) (length (ring_a h ++ ring_e h))).
  - rewrite Forall_nth in Hf. by apply Hf.
  - rewrite nth_overflow by done. unfold fits. lia.
Qed.

Lemma hash_at_u32 m w : bytes_wf m -> Fips.hash_u32 (hash_at m w).
Proof. intros Hm. unfold Fips.hash_u32, hash_at. cbn [Fips.ha Fips.hb Fips.hc Fips.hd Fips.he Fips.hf Fips.hg Fips.hh]. split_and!; by apply be_word_u32. Qed.

Lemma load_state_loop o k d n w m c s l :
  inv o k d n [] [] [] (with_mem c m) s l -> state_in_addr (sha l) = w ->
  0 <= w < 2 ^ 30 -> 0 <= o < 2 ^ 30 -> w = o \/ w + 8 <= o \/ o + 8 <= w ->
  (forall j, 0 <= j < 8 -> c_mapped (w + j) = true /\ c_mapped (o + j) = true) ->
  exists s' l' m', for_each (seqZ 0 SHA2_LOAD_STATE_CYCLES) load_state l s = (Ok l', s') /\
    upd o (fun j => ld m (w + j)) m 4 m' /\
    inv o k d n (ring_a (hash_at m w)) (ring_e (hash_at m w)) [] (with_mem c m') s' l'.
Proof.
  intros Hi Hw Hwr Hor Hd Hmap. pose proof (csim_bytes _ _ (inv_sim _ _ _ _ _ _ _ _ _ _ Hi)) as Hb.
  cbn [c_mem with_mem] in Hb.
  destruct (for_each_inv (fun i s l => exists m', upd o (fun j => ld m (w + j)) m i m' /\
    state_in_addr (sha l) = w /\
    inv o k d n (drop (Z.to_nat (4 - i)) (ring_a (hash_at m w))) (drop (Z.to_nat (4 - i)) (ring_e (hash_at m w))) []
      (with_mem c m') s l) load_state 4) with (s := s) (l := l) as (s' & l' & E & m' & Hu & _ & Hi').
  - intros i s0 l0 Hin (m0 & Hu0 & Hw0 & Hi0).
    destruct (load_state_run _ _ _ _ _ _ _ _ _ _ w i Hi0 Hw0) as (s1 & l1 & E1 & Hw1 & Hi1); [lia..|done|].
    cbn [c_mem with_mem] in Hi1.
    assert (Hld : forall j, j = 3 - i \/ j = 7 - i -> ld m0 (w + j) = ld m (w + j)).
    { intros j Hj. destruct Hu0 as [Hu1 Hu2]. destruct Hd as [->|Hd].
      - rewrite Hu1 by lia. destruct (Z.ltb_spec (3 - i) (j mod 4)) as [Hlt|]; [|done].
        exfalso. assert (j mod 4 = 3 - i); [|lia]. Z.to_euclidean_division_equations; lia.
      - apply (ld_frame o); [done|lia]. }
    rewrite !Hld in Hi1 by lia. exists s1, l1. split; [exact E1|]. eexists. split; [|split; [exact Hw1|]].
    + apply upd_step; [exact Hu0|lia|]. intros j. by apply ld_u32.
    + assert (Ea : forall j, to_be (ld m (w + j)) = be_word m (4 * (w + j))) by (intros; by apply to_be_load).
      rewrite !Ea in Hi1.
      assert (Ei : i = 0 \/ i = 1 \/ i = 2 \/ i = 3) by lia.
      destruct Ei as [->|[->|[->| ->]]]; try exact Hi1.
      change (3 - 3) with 0 in Hi1 at 1. rewrite Z.add_0_r in Hi1 at 1. exact Hi1.
  - exists m. split; [apply upd_0|]. split; [exact Hw|exact Hi].
  - exists s', l', m'. split; [exact E|]. split; [exact Hu|exact Hi'].
Qed.

Lemma store_state_run o k d n ha he hw c s l i :
  inv o k d n ha he hw c s l -> 0 <= i < 4 -> 0 <= o < 2 ^ 30 ->
  (forall j, 0 <= j < 8 -> c_mapped (o + j) = true) ->
  let av := nth 3 ha 0 +32 nth 67 ha 0 in
  let ev := nth 3 he 0 +32 nth 67 he 0 in
  exists s' l', store_state i l s = (Ok l', s') /\
    inv o k d (if i =? 3 then n - 1 else n) (av :: ha) (ev :: he) hw
      (with_mem c (le_store (le_store (c_mem c) (4 * (o + (3 - i))) 4 (to_be av)) (4 * (o + (7 - i))) 4 (to_be ev))) s' l'.
Proof.
  intros Hi Hin Hor Hmap av ev. unfold store_state.
  destruct (step_run i ShaStoreState _ _ _ _ _ _ _ _ _ _ Hi) as (s1 & l1 & E1 & H1 & _).
  rewrite (run_bind _ _ _ _ _ E1). cbv zeta.
  assert (HB : SHA2_BACK = 68%nat) by reflexivity.
  assert (Hav : back SHA2_BACK (old_a l1) 4 +32 back SHA2_BACK (old_a l1) SHA2_BACK = av).
  { destruct (inv_a _ _ _ _ _ _ _ _ _ _ H1) as (_ & _ & Hr). unfold av. by rewrite !Hr by lia. }
  assert (Hev : back SHA2_BACK (old_e l1) 4 +32 back SHA2_BACK (old_e l1) SHA2_BACK = ev).
  { destruct (inv_e _ _ _ _ _ _ _ _ _ _ H1) as (_ & _ & Hr). unfold ev. by rewrite !Hr by lia. }
  rewrite Hav, Hev. set (l2 := mkLocals _ _ _ _ _).
  assert (H2 : inv o k d (if i =? 3 then n - 1 else n) ha he hw c s1 l2).
  { destruct H1. constructor; try done. cbn. by subst n. }
  apply (push_ae_inv av ev 0) in H2.
  rewrite (inv_o _ _ _ _ _ _ _ _ _ _ H2), !addr_off by lia.
  destruct (store_run _ _ _ _ _ _ _ _ _ _ (o + (3 - i)) (to_be av) H2) as (s4 & E4 & H4);
    [apply Hmap; lia|by apply to_be_u32|]. rewrite (run_bind _ _ _ _ _ E4).
  destruct (store_run _ _ _ _ _ _ _ _ _ _ (o + (7 - i)) (to_be ev) H4) as (s5 & E5 & H5);
    [apply Hmap; lia|by apply to_be_u32|]. rewrite (run_bind _ _ _ _ _ E5).
  do 2 eexists. split; [reflexivity|exact H5].
Qed.

(** What the ring buffers answer while the result is pushed: the variables of the
    last round and those the block started with, from the last one down. *)
Lemma store_vars (r h h0 la ta ua : list Z) i : 0 <= i < 4 -> length r = 4%nat -> length h = 4%nat ->
  length h0 = 4%nat -> length la = 64%nat -> h ++ ta = la ++ h0 ++ ua ->
  let hist := drop (Z.to_nat (4 - i)) r ++ h ++ ta in
  nth 3 hist 0 = nth (Z.to_nat (3 - i)) h 0 /\ nth 67 hist 0 = nth (Z.to_nat (3 - i)) h0 0.
Proof.
  intros Hi Hr Hh Hh0 Hla E hist. unfold hist.
  assert (Hl : length (drop (Z.to_nat (4 - i)) r) = Z.to_nat i) by (rewrite length_drop; lia).
  split.
  - rewrite app_nth2, app_nth1 by lia. f_equal. lia.
  - rewrite E, app_nth2, app_nth2, app_nth1 by lia. f_equal. lia.
Qed.

Lemma compress_words K block h j : 0 <= j < 8 ->
  words (Fips.compress K block h) j = words (Fips.rounds K block 64 h) j +32 words h j.
Proof.
  unfold Fips.compress. generalize (Fips.rounds K block 64 h). intros r. revert j. apply cases8; reflexivity.
Qed.

Lemma words_a h j : 0 <= j < 4 -> words h j = nth (Z.to_nat j) (ring_a h) 0.
Proof. intros Hj. unfold words. apply app_nth1. cbn [ring_a length]. lia. Qed.
Lemma words_e h j : 0 <= j < 4 -> words h (4 + j) = nth (Z.to_nat j) (ring_e h) 0.
Proof. intros Hj. unfold words. rewrite app_nth2 by (cbn [ring_a length]; lia). cbn [ring_a length]. f_equal. lia. Qed.

Lemma drop_words (l : list Z) i : length l = 4%nat -> 0 <= i < 4 ->
  drop (Z.to_nat (4 - (i + 1))) l = nth (Z.to_nat (3 - i)) l 0 :: drop (Z.to_nat (4 - i)) l.
Proof.
  intros Hl Hi. replace (4 - (i + 1)) with (3 - i) by lia.
  replace (Z.to_nat (4 - i)) with (Datatypes.S (Z.to_nat (3 - i))) by lia.
  destruct (lookup_lt_is_Some_2 l (Z.to_nat (3 - i))) as [x Hx]; [lia|].
  rewrite (nth_lookup_Some _ _ _ _ Hx). by apply drop_S.
Qed.

Lemma store_state_loop o k d n m c s l block h0 tw :
  rounds_inv o k d n (with_mem c m) block h0 tw 64 d s l -> 0 <= o < 2 ^ 30 ->
  (forall j, 0 <= j < 8 -> c_mapped (o + j) = true) ->
  let r := Fips.compress (fun j => ld m (k + Z.of_nat j)) block h0 in
  exists s' l' m' ta te tw', for_each (seqZ 0 SHA2_STORE_CYCLES) store_state l s = (Ok l', s') /\
    upd o (fun j => to_be (words r j)) m 4 m' /\
    inv o k d (n - 1) (ring_a r ++ ta) (ring_e r ++ te) tw' (with_mem c m') s' l'.
Proof.
  intros (ta & te & la & le_ & ua & ue & Hi & Hla & Hle & Ha & He) Hor Hmap r. cbn [c_mem with_mem] in *.
  set (K := fun j => ld m (k + Z.of_nat j)) in *. set (h := Fips.rounds K block 64 h0) in *.
  assert (Hr : forall j, 0 <= j < 8 -> words r j = words h j +32 words h0 j) by (intros; by apply compress_words).
  clearbody h. 
  destruct (for_each_inv (fun i s l => exists m', upd o (fun j => to_be (words r j)) m i m' /\
    inv o k d (if i =? 4 then n - 1 else n) (drop (Z.to_nat (4 - i)) (ring_a r) ++ ring_a h ++ ta)
      (drop (Z.to_nat (4 - i)) (ring_e r) ++ ring_e h ++ te) (Fips.schedule block 64 ++ tw)
      (with_mem c m') s l) store_state 4) with (s := s) (l := l) as (s' & l' & E & m' & Hu & Hi').
  - intros i s0 l0 Hin (m0 & Hu0 & Hi0).
    destruct (Z.eqb_spec i 4) as [|_]; [lia|].
    destruct (store_state_run _ _ _ _ _ _ _ _ _ _ i Hi0) as (s1 & l1 & E1 & Hi1); [lia..|done|].
    cbn [c_mem with_mem] in Hi1.
    destruct (store_vars (ring_a r) (ring_a h) (ring_a h0) la ta ua i) as [E3 E67]; [done..|].
    destruct (store_vars (ring_e r) (ring_e h) (ring_e h0) le_ te ue i) as [F3 F67]; [done..|].
    rewrite E3, E67, F3, F67, <- !words_a, <- !words_e, <- !Hr in Hi1 by lia.
    exists s1, l1. split; [exact E1|]. eexists. split; [apply (upd_step o _ m i m0 Hu0); [lia|intros; apply to_be_u32]|].
    rewrite !drop_words by done. rewrite <- words_a, <- words_e by lia.
    replace (i + 1 =? 4) with (i =? 3) by lia. replace (7 - i) with (4 + (3 - i)) in Hi1 |- * by lia. exact Hi1.
  - exists m. split; [apply upd_0|]. exact Hi.
  - exists s', l', m', (ring_a h ++ ta), (ring_e h ++ te), (Fips.schedule block 64 ++ tw). split; [exact E|]. split; [exact Hu|exact Hi'].
Qed.

(** *** The blocks and the whole call *)

(** The block [b] of the data at [d], and the constants at [k]. *)
Definition block_at (m : Z -> Z) (d : Z) (b j : nat) : Z := be_word m (4 * (d + 16 * Z.of_nat b + Z.of_nat j)).
Definition K_at (m : Z -> Z) (k : Z) (j : nat) : Z := ld m (k + Z.of_nat j).

(** The memory at a block boundary: the hash is stored, the rest is untouched. *)
Definition boundary (o : Z) (m m' : Z -> Z) (h : Fips.hash) : Prop :=
  (forall j, 0 <= j < 8 -> ld m' (o + j) = to_be (words h j)) /\
  (forall x, x < 4 * o \/ 4 * o + 32 <= x -> m' x = m x).

Lemma be_word_frame o m m' a : (forall x, x < 4 * o \/ 4 * o + 32 <= x -> m' x = m x) ->
  a < o \/ o + 8 <= a -> be_word m' (4 * a) = be_word m (4 * a).
Proof. intros Hf Ha. apply be_word_ext. intros i Hi. apply Hf. lia. Qed.

Lemma rounds_ext K K' b b' t h : (forall j, (j < t)%nat -> K j = K' j) -> (forall j, (j < 16)%nat -> b j = b' j) ->
  Fips.rounds K b t h = Fips.rounds K' b' t h.
Proof.
  intros HK Hb. assert (Hs : forall t, Fips.schedule b t = Fips.schedule b' t).
  { induction t0 as [|u IH]; [done|]. cbn [Fips.schedule]. rewrite IH. destruct (Nat.ltb_spec u 16); [|done]. by rewrite Hb. }
  induction t as [|t IH]; [done|]. cbn [Fips.rounds]. rewrite IH, HK by (intros; auto with lia).
  unfold Fips.W. by rewrite Hs.
Qed.

Lemma compress_ext K K' b b' h : (forall j, (j < 64)%nat -> K j = K' j) -> (forall j, (j < 16)%nat -> b j = b' j) ->
  Fips.compress K b h = Fips.compress K' b' h.
Proof. intros HK Hb. unfold Fips.compress. by rewrite (rounds_ext K K' b b'). Qed.

(** The buffers: mapped, within the address space, the result apart from the
    data and the constants, and equal to or apart from the initial state. *)
Record buffers (w o d k n : Z) : Prop := {
  buf_w : 0 <= w < 2 ^ 30; buf_o : 0 <= o < 2 ^ 30; buf_k : 0 <= k < 2 ^ 30;
  buf_d : 0 <= d; buf_d_end : d + 16 * n <= 2 ^ 30;
  buf_wo : w = o \/ w + 8 <= o \/ o + 8 <= w;
  buf_do : d + 16 * n <= o \/ o + 8 <= d;
  buf_ko : k + 64 <= o \/ o + 8 <= k;
  buf_state_mapped : forall j, 0 <= j < 8 -> c_mapped (w + j) = true /\ c_mapped (o + j) = true;
  buf_k_mapped : forall j, 0 <= j < 64 -> c_mapped (k + j) = true;
  buf_d_mapped : forall j, 0 <= j < 16 * n -> c_mapped (d + j) = true }.

Lemma blocks_run w o k d n m c h0 : buffers w o d k (Z.of_nat n) -> Fips.hash_u32 h0 ->
  forall r j fuel m1 s l ta te tw, (j + r = n)%nat -> (r < fuel)%nat ->
  boundary o m m1 (Fips.digest (K_at m k) (block_at m d) j h0) ->
  inv o k (d + 16 * Z.of_nat j) (Z.of_nat r) (ring_a (Fips.digest (K_at m k) (block_at m d) j h0) ++ ta)
    (ring_e (Fips.digest (K_at m k) (block_at m d) j h0) ++ te) tw (with_mem c m1) s l ->
  exists s' l' m' ha he hw, blocks fuel l s = (Ok l', s') /\
    boundary o m m' (Fips.digest (K_at m k) (block_at m d) n h0) /\
    inv o k (d + 16 * Z.of_nat n) 0 ha he hw (with_mem c m') s' l'.
Proof.
  intros Hbuf Hh0. destruct Hbuf. set (D := Fips.digest (K_at m k) (block_at m d)).
  assert (HD : forall j, Fips.hash_u32 (D j h0)).
  { intros [|j]; [exact Hh0|apply compress_u32]. }
  induction r as [|r IH]; intros j fuel m1 s l ta te tw Hj Hf Hb Hi;
    (destruct fuel as [|fuel]; [lia|]); cbn [blocks]; rewrite (inv_n _ _ _ _ _ _ _ _ _ _ Hi).
  - exists s, l, m1. replace j with n in * by lia. do 3 eexists. split; [done|]. split; [done|exact Hi].
  - destruct (Z.eqb_spec (Z.of_nat (Datatypes.S r)) 0); [lia|].
    destruct (rounds_run _ _ _ _ _ _ _ _ _ _ _ Hi (HD j)) as (s1 & l1 & s2 & l2 & E1 & E2 & HR); [lia..|done| |].
    { intros i Hin. rewrite <- Z.add_assoc. apply buf_d_mapped0. lia. }
    rewrite (run_bind _ _ _ _ _ E1), (run_bind _ _ _ _ _ E2). cbn [c_mem with_mem] in HR.
    destruct (store_state_loop _ _ _ _ m1 _ _ _ _ _ _ HR buf_o0) as (s3 & l3 & m3 & ta' & te' & tw' & E3 & Hu & Hi3).
    { intros i Hin. by apply buf_state_mapped0. }
    rewrite (run_bind _ _ _ _ _ E3).
    assert (ED : Fips.compress (fun j0 => ld m1 (k + Z.of_nat j0))
       (fun j0 => be_word m1 (4 * (d + 16 * Z.of_nat j + Z.of_nat j0))) (D j h0) = D (Datatypes.S j) h0).
    { unfold D. cbn [Fips.digest]. destruct Hb as [_ Hfr]. apply compress_ext; intros i Hin.
      - apply (ld_frame o); [exact Hfr|lia].
      - apply (be_word_frame o); [exact Hfr|lia]. }
    rewrite ED in Hu, Hi3.
    apply (IH (Datatypes.S j) fuel m3 s3 l3 ta' te' tw'); [lia|lia| |].
    + destruct Hu as [Hu1 Hu2], Hb as [Hb1 Hb2]. split.
      * intros i Hin. rewrite Hu1 by done. pose proof (Z.mod_pos_bound i 4).
        by destruct (Z.ltb_spec (3 - 4) (i mod 4)); [|lia].
      * intros x Hx. by rewrite Hu2, Hb2.
    + replace (d + 16 * Z.of_nat (Datatypes.S j)) with (d + 16 * Z.of_nat j + 16) by lia.
      replace (Z.of_nat r) with (Z.of_nat (Datatypes.S r) - 1) by lia. exact Hi3.
Qed.

Lemma arg_run s c op r : system_mapped -> csim s c -> is_reg r ->
  exists s', load_machine_register op r s = (Ok (word c (MACHINE_REGS_ADDR + 4 * r)), s') /\ csim s' c.
Proof.
  intros Hsys Hs Hr. unfold load_machine_register.
  destruct (csim_load_register s c op _ r Hs (or_intror eq_refl) Hr (sys_machine_regs Hsys r Hr)) as (s' & E' & Hs').
  exists s'. split; [|done]. rewrite E'. do 3 f_equal. unfold word.
  change (ByteAddr.waddr MACHINE_REGS_ADDR) with 0x3fffc000. unfold MACHINE_REGS_ADDR. f_equal. lia.
Qed.

(** The argument registers. *)
Definition arg (c : cstate) (r : Z) : Z := word c (MACHINE_REGS_ADDR + 4 * r).

Lemma aligned_arg_run s c op r : system_mapped -> csim s c -> is_reg r ->
  exists s', csim s' c /\ load_aligned_addr_from_machine_register op r s =
    if arg c r mod 4 =? 0 then (Ok (arg c r / 4), s') else (Err (ErrUnaligned (arg c r)), s').
Proof.
  intros Hsys Hs Hr. destruct (arg_run s c op r Hsys Hs Hr) as (s' & E & Hs'). exists s'. split; [done|].
  unfold load_aligned_addr_from_machine_register. rewrite (run_bind _ _ _ _ _ E). fold (arg c r).
  unfold check_aligned_addr, ByteAddr.waddr_aligned, ByteAddr.is_aligned. change WORD_SIZE with 4. by destruct (_ =? 0).
Qed.

(** The five argument registers are read and the four addresses checked. *)
Lemma ecall_args_run s c : system_mapped -> csim s c ->
  (forall r, r ∈ [REG_A0; REG_A1; REG_A2; REG_A4] -> ZERO_PAGE_END_ADDR <= arg c r) ->
  exists s1, csim s1 c /\ ecall s =
    (if MAX_SHA_COUNT <? arg c REG_A3 .& 0xffff then throw (ErrShaCount (arg c REG_A3 .& 0xffff)) else
     l ← for_each (seqZ 0 SHA2_LOAD_STATE_CYCLES) load_state
       (mkLocals (mkSha (arg c REG_A0 / 4) (arg c REG_A1 / 4) (arg c REG_A2 / 4) (arg c REG_A3 .& 0xffff) (arg c REG_A4 / 4) 0 ShaEcall 0 0 0)
          ShaEcall (ring_new SHA2_BACK) (ring_new SHA2_BACK) (ring_new 16));
     l ← blocks (Datatypes.S (Z.to_nat (arg c REG_A3 .& 0xffff))) l;
     _ ← step 0 Platform.Decode l; mret tt) s1.
Proof.
  intros Hsys Hs Hg.
  unfold ecall.
    assert (Hreg : forall r, r ∈ [REG_A0; REG_A1; REG_A2; REG_A4] \/ r = REG_A3 -> is_reg r).
    { intros r Hr. rewrite !elem_of_cons in Hr. unfold is_reg, REG_A0, REG_A1, REG_A2, REG_A3, REG_A4 in *.
      destruct Hr as [[->|[->|[->|[->|Hr]]]]| ->]; try lia. by apply elem_of_nil in Hr. }
    assert (Hga : forall r (s : S), r ∈ [REG_A0; REG_A1; REG_A2; REG_A4] -> guest_addr (arg c r) s = (Ok (arg c r), s)).
    { intros r s0 Hr. unfold guest_addr. by destruct (Z.ltb_spec (arg c r) ZERO_PAGE_END_ADDR); [specialize (Hg r Hr); lia|]. }
    destruct (arg_run s c Record REG_A0 Hsys Hs) as (s0 & E0 & Hs0); [apply Hreg; left; set_solver|].
    rewrite (run_bind _ _ _ _ _ E0), (run_bind _ _ _ _ _ (Hga REG_A0 s0 ltac:(set_solver))).
    destruct (arg_run s0 c Record REG_A1 Hsys Hs0) as (s1 & E1 & Hs1); [apply Hreg; left; set_solver|].
    rewrite (run_bind _ _ _ _ _ E1), (run_bind _ _ _ _ _ (Hga REG_A1 s1 ltac:(set_solver))).
    destruct (arg_run s1 c Record REG_A2 Hsys Hs1) as (s2 & E2 & Hs2); [apply Hreg; left; set_solver|].
    rewrite (run_bind _ _ _ _ _ E2), (run_bind _ _ _ _ _ (Hga REG_A2 s2 ltac:(set_solver))).
    destruct (arg_run s2 c Record REG_A3 Hsys Hs2) as (s3 & E3 & Hs3); [apply Hreg; by right|].
    rewrite (run_bind _ _ _ _ _ E3).
    destruct (arg_run s3 c Record REG_A4 Hsys Hs3) as (s4 & E4 & Hs4); [apply Hreg; left; set_solver|].
    rewrite (run_bind _ _ _ _ _ E4), (run_bind _ _ _ _ _ (Hga REG_A4 s4 ltac:(set_solver))).
    by exists s4.
Qed.

(** C17: The SHA-256 ecall computes the hash of FIPS 180-4.  With the addresses and
    the block count that the machine registers hold, and constants [K] taken from
    the table in guest memory, the eight big-endian words at the output address are
    the initial state run through the standard's compression function (message
    schedule, 64 rounds and the final additions) over the [count] big-endian blocks
    of the data, in order; every byte outside the 32 of the output keeps its value,
    also when the state is updated in place.  A count above the limit is the
    error that names it, with memory unchanged.  The loop over the blocks ends within
    [count + 1] turns. *)
Theorem sha2_ecall_correct s c :
  system_mapped -> csim s c ->
  let w := arg c REG_A0 / 4 in let o := arg c REG_A1 / 4 in let d := arg c REG_A2 / 4 in
  let n := arg c REG_A3 .& 0xffff in let k := arg c REG_A4 / 4 in
  (forall r, r ∈ [REG_A0; REG_A1; REG_A2; REG_A4] -> ZERO_PAGE_END_ADDR <= arg c r) ->
  (MAX_SHA_COUNT < n -> exists s', ecall s = (Err (ErrShaCount n), s') /\ csim s' c) /\
  (n <= MAX_SHA_COUNT -> buffers w o d k n ->
   exists s' m', ecall s = (Ok tt, s') /\ csim s' (with_mem c m') /\
     hash_at m' o = Fips.digest (K_at (c_mem c) k) (block_at (c_mem c) d) (Z.to_nat n) (hash_at (c_mem c) w) /\
     forall x, x < 4 * o \/ 4 * o + 32 <= x -> m' x = c_mem c x).
Proof.
  intros Hsys Hs w o d n k Hg. pose proof (csim_bytes s c Hs) as Hb.
  destruct (ecall_args_run s c Hsys Hs Hg) as (s1 & Hs1 & Hgo). fold w o d n k in Hgo. rewrite Hgo. clear Hgo. split.
  { intros Hn. exists s1. split; [|exact Hs1]. apply Z.ltb_lt in Hn. rewrite Hn. reflexivity. }
  intros Hn Hbuf. apply Z.ltb_ge in Hn. rewrite Hn.
  assert (Hn0 : 0 <= n) by (apply Z.land_nonneg; right; lia).
  set (l0 := mkLocals _ _ _ _ _).
  assert (H0' : inv o k d n [] [] [] (with_mem c (c_mem c)) s1 l0).
  { constructor; try reflexivity; try (apply ring_new_ok; apply Nat.ltb_lt; reflexivity).
    eapply csim_eq; [exact Hs1|]. by split_and!. }
  destruct (load_state_loop _ _ _ _ w _ _ _ _ H0' eq_refl (buf_w _ _ _ _ _ Hbuf) (buf_o _ _ _ _ _ Hbuf) (buf_wo _ _ _ _ _ Hbuf)
    (buf_state_mapped _ _ _ _ _ Hbuf)) as (s2 & l2 & m2 & E2 & Hu & Hi2).
  rewrite (run_bind _ _ _ _ _ E2). rewrite <- (Z2Nat.id n Hn0) in Hbuf.
  destruct (blocks_run w o k d (Z.to_nat n) (c_mem c) c (hash_at (c_mem c) w) Hbuf (hash_at_u32 _ _ Hb)
    (Z.to_nat n) 0%nat (Datatypes.S (Z.to_nat n)) m2 s2 l2 [] [] []) as (s3 & l3 & m3 & ha & he & hw & E3 & Hbd & Hi3);
    [lia|lia| | |].
  - destruct Hu as [Hu1 Hu2]. split; [|exact Hu2]. intros j Hj. cbn [Fips.digest].
    rewrite Hu1, words_hash_at by done. pose proof (Z.mod_pos_bound j 4).
    destruct (Z.ltb_spec (3 - 4) (j mod 4)); [|lia].
    rewrite <- to_be_load by done. symmetry. apply to_be_invol. by apply ld_u32.
  - cbn [Fips.digest]. rewrite !app_nil_r, Z.add_0_r, Z2Nat.id by done. exact Hi2.
  - rewrite (run_bind _ _ _ _ _ E3).
    destruct (step_run 0 Platform.Decode _ _ _ _ _ _ _ _ _ _ Hi3) as (s4 & l4 & E4 & Hi4 & _).
    rewrite (run_bind _ _ _ _ _ E4). exists s4, m3.
    pose proof (inv_sim _ _ _ _ _ _ _ _ _ _ Hi4) as Hs4. pose proof (csim_bytes _ _ Hs4) as Hb4. cbn [c_mem with_mem] in Hb4.
    split; [done|]. split; [exact Hs4|]. destruct Hbd as [Hb1 Hb2]. split; [|exact Hb2].
    apply hash_ext. intros j Hj. rewrite words_hash_at by done. rewrite <- to_be_load by done.
    change (le_load m3 (4 * (o + j)) 4) with (ld m3 (o + j)). rewrite Hb1 by done. apply to_be_invol, words_u32.
    destruct (Z.to_nat n); [by apply hash_at_u32|apply compress_u32].
Qed.

End Cycles.
