(* ===== verification/RefCtx.v ===== *)
(** * A concrete context, and the witnesses of the machine's theorems

    [rctx] keeps the words of guest memory in a finite map (absent words are zero)
    and answers host reads from an input list.  It meets [CtxLaws], so the theorems
    about the machine and the emulator apply to it at concrete programs. *)
From S2P Require Export R0vm Sha2Refine.
Import Isa.
Open Scope Z_scope.

Record rctx := mkR { r_pc : Z; r_mode : Z; r_mem : gmap Z Z; r_in : list Z }.

Definition rword (s : rctx) (w : Z) : Z := default 0 (r_mem s !! w).
Definition rok : state rctx error unit := mret tt.

Definition rload (op : LoadOp) (w : Z) : state rctx error Z := fun s => (Ok (rword s w), s).
Definition rstore (w v : Z) : state rctx error unit := fun s =>
  (Ok tt, mkR (r_pc s) (r_mode s) (<[w := v]> (r_mem s)) (r_in s)).

#[export] Instance rctx_ctx : Risc0Context rctx := {|
  Ctx.circuit_version := fun _ => RV32IM_V2_CIRCUIT_VERSION;
  Ctx.get_pc := r_pc;
  Ctx.set_pc := fun p s => mkR p (r_mode s) (r_mem s) (r_in s);
  Ctx.set_user_pc := fun _ s => s;
  Ctx.get_machine_mode := r_mode;
  Ctx.set_machine_mode := fun m s => mkR (r_pc s) m (r_mem s) (r_in s);
  Ctx.on_insn_start := fun _ _ => rok;
  Ctx.on_insn_end := fun _ => rok;
  Ctx.load_u32 := rload;
  Ctx.store_u32 := rstore;
  Ctx.load_register := ctx_load_register rload;
  Ctx.store_register := ctx_store_register rstore;
  Ctx.suspend := rok;
  Ctx.resume := rok;
  Ctx.trap_rewind := id;
  Ctx.on_trap_cause := fun _ s => s;
  Ctx.host_read := fun _ len s =>
    let got := map (fun b => b mod 256) (take (Z.to_nat len) (r_in s)) in
    (Ok (got ++ replicate (Z.to_nat len - length got) 0, Z.of_nat (length got)),
     mkR (r_pc s) (r_mode s) (r_mem s) (drop (Z.to_nat len) (r_in s)));
  Ctx.host_write := fun _ bs s => (Ok (Z.of_nat (length bs)), s);
  Ctx.on_terminate := fun _ _ => rok;
  Ctx.on_ecall_cycle := fun _ _ _ _ _ _ => rok;
  Ctx.on_sha2_cycle := fun _ _ s => s;
  Ctx.on_poseidon2_cycle := fun _ _ s => s;
  Ctx.ecall_bigint := rok;
  Ctx.ecall_poseidon2 := rok;
  Ctx.on_ecall_read_end := fun _ _ s => s;
  Ctx.on_ecall_write_end := id;
  Ctx.on_user_ecall := id;
  Ctx.on_trap := id |}.

Definition rsim (s : rctx) (c : cstate) : Prop :=
  bytes_wf (c_mem c) /\ u32 (c_pc c) /\ r_pc s = c_pc c /\ r_mode s = c_mode c /\
  forall w, rword s w = le_load (c_mem c) (4 * w) 4.

Lemma rsim_store s c w v : rsim s c -> u32 v ->
  rsim (mkR (r_pc s) (r_mode s) (<[w := v]> (r_mem s)) (r_in s)) (with_mem c (le_store (c_mem c) (4 * w) 4 v)).
Proof.
  intros (Hb & Hp & Hpc & Hm & Hw) Hv. split_and!; [by apply le_store_wf|done..|].
  intros x. unfold rword. cbn [r_mem c_mem with_mem]. destruct (Z.eq_dec x w) as [->|Hne].
  - rewrite lookup_insert_eq, le_load_store_same. symmetry. apply Z.mod_small. exact Hv.
  - rewrite lookup_insert_ne by done. rewrite le_load_store_other by lia. apply Hw.
Qed.

Lemma rfile base idx : reg_file base -> 0 <= idx < REG_MAX -> WordAddr.add_usize base idx = base + idx.
Proof.
  change REG_MAX with 32. unfold WordAddr.add_usize, add32. intros [-> | ->] Hi.
  - change (ByteAddr.waddr USER_REGS_ADDR) with 0x3fffc020. rewrite (wrap_small 32 idx), wrap_small; unfold fits; lia.
  - change (ByteAddr.waddr MACHINE_REGS_ADDR) with 0x3fffc000. rewrite (wrap_small 32 idx), wrap_small; unfold fits; lia.
Qed.

Lemma rsim_load s c op w : rsim s c -> exists s', rload op w s = (Ok (le_load (c_mem c) (4 * w) 4), s') /\ rsim s' c.
Proof. intros Hs. exists s. split; [|done]. unfold rload. by rewrite (proj2 (proj2 (proj2 (proj2 Hs))) w). Qed.

Lemma rsim_load_register s c op base idx : rsim s c -> reg_file base -> 0 <= idx < REG_MAX -> true = true ->
  exists s', ctx_load_register rload op base idx s = (Ok (le_load (c_mem c) (4 * (base + idx)) 4), s') /\ rsim s' c.
Proof. intros Hs Hb Hi _. unfold ctx_load_register. rewrite rfile by done. by apply rsim_load. Qed.

Lemma rsim_store_register s c base idx v : rsim s c -> reg_file base -> 0 <= idx < REG_MAX -> true = true -> u32 v ->
  exists s', ctx_store_register rstore base idx v s = (Ok tt, s') /\
    rsim s' (with_mem c (le_store (c_mem c) (4 * (base + idx)) 4 v)).
Proof.
  intros Hs Hb Hi _ Hv. unfold ctx_store_register. rewrite rfile by done. eexists. split; [done|].
  by apply rsim_store.
Qed.

Lemma rsim_eq s c c' : rsim s c -> c_eq c c' -> rsim s c'.
Proof.
  intros (Hb & Hp & Hpc & Hm & Hw) (E1 & E2 & E3). unfold rsim. rewrite <- E1, <- E2. split_and!; try done.
  - intros a. rewrite <- E3. apply Hb.
  - intros w. rewrite Hw. apply le_load_ext. intros. apply E3.
Qed.

Lemma rsim_host_read s c fd len : rsim s c -> 0 <= len ->
  exists bytes rlen s', Ctx.host_read fd len s = (Ok (bytes, rlen), s') /\ rsim s' c /\
    Forall u8 bytes /\ Z.of_nat (length bytes) = len /\ 0 <= rlen <= len.
Proof.
  intros Hs Hl. do 3 eexists. split; [reflexivity|]. split; [exact Hs|].
  rewrite length_app, length_replicate, length_map, length_take. split_and!; try lia.
  apply Forall_app. split.
  - apply Forall_fmap, Forall_true. intros y. unfold fits, compose. apply Z.mod_pos_bound. lia.
  - apply Forall_replicate. unfold fits. lia.
Qed.

#[export] Instance rctx_laws : CtxLaws rctx := {|
  csim := rsim;
  c_mapped := fun _ => true;
  csim_bytes := fun s c H => proj1 H;
  csim_range := fun s c H => proj1 (proj2 H);
  csim_eq := rsim_eq;
  csim_get_pc := fun s c H => proj1 (proj2 (proj2 H));
  csim_mode := fun s c H => proj1 (proj2 (proj2 (proj2 H)));
  csim_set_pc := fun s c p '(conj Hb (conj _ (conj _ (conj Hm Hw)))) Hp =>
    conj Hb (conj Hp (conj eq_refl (conj Hm Hw)));
  csim_set_mode := fun s c md '(conj Hb (conj Hp (conj Hpc (conj _ Hw)))) =>
    conj Hb (conj Hp (conj Hpc (conj eq_refl Hw)));
  csim_load := fun s c op w H _ => rsim_load s c op w H;
  csim_store := fun s c w v H _ Hv => ex_intro _ _ (conj eq_refl (rsim_store s c w v H Hv));
  csim_load_register := rsim_load_register;
  csim_store_register := rsim_store_register;
  csim_insn_start := fun s c k d H => ex_intro _ s (conj eq_refl H);
  csim_insn_end := fun s c k H => ex_intro _ s (conj eq_refl H);
  csim_ecall_cycle := fun s c k1 k2 x y z ek H => ex_intro _ s (conj eq_refl H);
  csim_set_user_pc := fun s c p H => H;
  csim_trap_rewind := fun s c H => H;
  csim_on_trap := fun s c H => H;
  csim_on_trap_cause := fun s c e H => H;
  csim_on_user_ecall := fun s c H => H;
  csim_read_end := fun s c x y H => H;
  csim_host_read := rsim_host_read;
  csim_sha2_cycle := fun s c k st H => H;
  csim_poseidon2_cycle := fun s c k st H => H |}.

(** The byte memory behind a state whose words are in range. *)
Definition rbytes (s : rctx) (a : Z) : Z := (rword s (a / 4) / 256 ^ (a mod 4)) mod 256.
Definition rview (s : rctx) : cstate := mkC (r_pc s) (r_mode s) (rbytes s).

Lemma rview_sim s : u32 (r_pc s) -> map_Forall (fun _ v => u32 v) (r_mem s) -> rsim s (rview s).
Proof.
  intros Hp Hw. assert (Hword : forall w, u32 (rword s w)).
  { intros w. unfold rword. destruct (r_mem s !! w) as [v|] eqn:E; [by apply (Hw w v E)|unfold fits; cbn; lia]. }
  split_and!; [|done..|].
  - intros a. unfold rview, rbytes, fits. cbn. apply Z.mod_pos_bound. lia.
  - intros w. rewrite (le_load_bytes (c_mem (rview s)) (4 * w) 4 (rword s w)).
    + symmetry. apply Z.mod_small. apply Hword.
    + intros i Hi. cbn. unfold rbytes.
      replace ((4 * w + i) / 4) with w by (Z.to_euclidean_division_equations; lia).
      by replace ((4 * w + i) mod 4) with i by (Z.to_euclidean_division_equations; lia).
Qed.

Lemma rview_region a n : 0 <= a -> a + n <= 2 ^ 32 -> region (S := rctx) a n.
Proof. intros. split_and!; [done..|]. intros. reflexivity. Qed.

Lemma rsys : system_mapped (S := rctx).
Proof. split; intros; reflexivity. Qed.

(** ** Witnesses *)

(** A region is stored byte by byte and read back by words. *)
Lemma store_region_load_region_witness :
  let s := mkR 0x10000 0 ∅ [] in
  exists s1 s2, store_region 0x20001 [1; 2; 3; 4; 5] s = (Ok tt, s1) /\
    load_region true Record 0x20001 5 s1 = (Ok [1; 2; 3; 4; 5], s2).
Proof.
  destruct (store_region_load_region (mkR 0x10000 0 ∅ []) (rview (mkR 0x10000 0 ∅ [])) 0x20001
    [1; 2; 3; 4; 5] true Record) as (s1 & s2 & c' & H1 & H2 & _).
  - apply rview_sim; [by vm_compute|apply map_Forall_empty].
  - repeat constructor; unfold fits; lia.
  - done.
  - by apply rview_region.
  - exists s1, s2. split; [exact H1|exact H2].
Defined.

(** A machine in kernel mode asking for nine bytes at an unaligned address. *)
Definition read_state : rctx :=
  mkR 0xc0000000 1 {[ 0x3fffc000 + 11 := 0x20003; 0x3fffc000 + 12 := 9 ]} [1; 2; 3; 4; 5; 6; 7; 8; 9].

Lemma read_state_sim : rsim read_state (rview read_state).
Proof.
  apply rview_sim; [by vm_compute|]. unfold read_state. cbn [r_mem].
  apply map_Forall_insert_2; [by vm_compute|]. apply map_Forall_singleton. by vm_compute.
Qed.

Lemma ecall_read_correct_witness : exists s', Machine.ecall_read read_state = (Ok false, s').
Proof.
  destruct (ecall_read_correct read_state (rview read_state) rsys read_state_sim) as (_ & _ & H); [done|].
  destruct H as (s0 & s1 & bytes & rlen & s' & c' & _ & _ & H & _).
  - by vm_compute.
  - by vm_compute.
  - by vm_compute.
  - apply rview_region; by vm_compute.
  - intros x Hx. left. assert (E : x < 0x20003 + 9) by exact (proj2 Hx). unfold SAFE_WRITE_ADDR. lia.
  - exists s'. exact H.
Defined.

(** A user-mode state whose trap and ecall handlers are kernel addresses. *)
Definition trap_state : rctx :=
  mkR 0x20000 0 {[ 0xffff2000 / 4 := 0xc0001000; 0xffff1000 / 4 := 0xc0002000 ]} [].

Lemma trap_state_sim : rsim trap_state (rview trap_state).
Proof.
  apply rview_sim; [by vm_compute|]. unfold trap_state. cbn [r_mem].
  apply map_Forall_insert_2; [by vm_compute|]. apply map_Forall_singleton. by vm_compute.
Qed.

Lemma trap_ecall_mret_witness :
  exists s', Machine.trap Breakpoint trap_state = (Ok false, s') /\ rsim s' (trapped (rview trap_state) 0xc0001000).
Proof.
  destruct (trap_ecall_mret trap_state (rview trap_state) Breakpoint true rsys trap_state_sim) as [H _];
    [done|by vm_compute|].
  exact H.
Defined.

(** A two-instruction user program: [addi x5, x0, 7; sw x5, 0(x6)]. *)
Definition prog_state : rctx :=
  mkR 0x20000 0 {[ 0x20000 / 4 := 0x00700293; 0x20004 / 4 := 0x00532023;
                   0xffff0080 / 4 + 6 := 0x30000; 0xffff2000 / 4 := 0xc0001000 ]} [].

Definition prog_isa : isa :=
  mkIsa 0x20000 (fun r => if decide (is_reg r) then rword prog_state (0xffff0080 / 4 + r) else 0) (rbytes prog_state).

Lemma prog_state_sim : rsim prog_state (rview prog_state).
Proof.
  apply rview_sim; [by vm_compute|]. unfold prog_state. cbn [r_mem].
  do 3 (apply map_Forall_insert_2; [by vm_compute|]). apply map_Forall_singleton. by vm_compute.
Qed.

Lemma prog_user_sim : user_sim (rbytes prog_state) prog_state prog_isa.
Proof.
  pose proof prog_state_sim as Hs. exists (rview prog_state). split; [exact Hs|].
  assert (Hw : forall w, u32 (rword prog_state w)).
  { destruct Hs as (Hb & _ & _ & _ & Hw). intros w. rewrite Hw. apply le_load_u32; [done|lia]. }
  split_and!; [split_and!|..]; try done.
  - intros r. cbn [reg prog_isa]. destruct (decide (is_reg r)); [apply Hw|unfold fits; lia].
  - intros a. apply (proj1 Hs).
  - intros r Hr. cbn [reg prog_isa]. rewrite decide_True by done.
    destruct Hs as (_ & _ & _ & _ & Hs). rewrite Hs. f_equal. change (0xffff0080 / 4) with 0x3fffc020.
    unfold USER_REGS_ADDR. lia.
Qed.

(** The instruction at the program counter is [addi x5, x0, 7]. *)
Definition prog_first : instr := OPIMM AddI 5 0 7.
Definition prog_next : isa := with_pc (set_reg prog_isa 5 7) 0x20004.

#[local] Instance prog_emu : EmuContext rctx error := Machine.emu true.
#[local] Instance prog_laws : EmuLaws rctx error :=
  user_laws true (sys_user_regs rsys) eq_refl (rbytes prog_state).

Lemma prog_ready : ready (H0 := prog_laws) prog_isa prog_first.
Proof.
  split.
  - cbn [wf prog_first]. unfold is_reg, is_imm12. lia.
  - reflexivity.
  - reflexivity.
  - reflexivity.
  - vm_compute. reflexivity.
  - intros a Ha. discriminate Ha.
Qed.

Lemma prog_step : nsteps (isa_step (H0 := prog_laws)) 1 prog_isa prog_next.
Proof.
  eapply nsteps_l; [|apply nsteps_O]. exists prog_first. split; [apply prog_ready|]. reflexivity.
Qed.

Lemma emulator_refines_isa_witness :
  exists s', steps (H := prog_emu) 1 prog_state = (Ok tt, s') /\ sim (EmuLaws := prog_laws) s' prog_next.
Proof.
  destruct (emulator_refines_isa (H0 := prog_laws) 1 prog_state prog_isa prog_next prog_user_sim)
    as (s' & H1 & H2 & _); [by vm_compute|exact prog_step|].
  exists s'. split; [exact H1|exact H2].
Defined.

Lemma step_fetch_faults_witness :
  let m := with_pc prog_isa 0x8000 in
  let s := mkR 0x8000 0 (r_mem prog_state) [] in
  Emulator.step (H := prog_emu) s = (trap (EmuContext := prog_emu) InstructionFault;; mret tt) s.
Proof.
  refine (proj1 (step_fetch_faults (H0 := prog_laws) (mkR 0x8000 0 (r_mem prog_state) []) (with_pc prog_isa 0x8000) _) _).
  - apply (user_set_pc true (rbytes prog_state) prog_state prog_isa 0x8000 prog_user_sim). by vm_compute.
  - by vm_compute.
Defined.

Lemma user_program_refines_witness :
  exists s', Nat.iter 1 (fun k => Machine.step true;; k) (mret tt) prog_state = (Ok tt, s') /\
    user_sim (rbytes prog_state) s' prog_next.
Proof.
  destruct (user_program_refines true (rbytes prog_state) rsys eq_refl 1 prog_state prog_isa prog_next prog_user_sim)
    as (s' & H1 & H2 & _); [by vm_compute|exact prog_step|].
  exists s'. split; [exact H1|exact H2].
Defined.

(** One block hashed in place. *)
Definition sha_state : rctx :=
  mkR 0xc0000000 1 {[ 0x3fffc000 + 10 := 0x20000; 0x3fffc000 + 11 := 0x20000; 0x3fffc000 + 12 := 0x24000;
                      0x3fffc000 + 13 := 1; 0x3fffc000 + 14 := 0x28000; 0x8000 := 0x67e6096a; 0x9000 := 0x80636261 ]} [].

Lemma sha_state_sim : rsim sha_state (rview sha_state).
Proof.
  apply rview_sim; [by vm_compute|]. unfold sha_state. cbn [r_mem].
  do 6 (apply map_Forall_insert_2; [by vm_compute|]). apply map_Forall_singleton. by vm_compute.
Qed.

Lemma sha2_ecall_correct_witness : exists s', Sha2.ecall sha_state = (Ok tt, s').
Proof.
  destruct (sha2_ecall_correct sha_state (rview sha_state) rsys sha_state_sim) as [_ H].
  - intros r Hr. rewrite !elem_of_cons in Hr.
    destruct Hr as [->|[->|[->|[->|Hr]]]]; [by vm_compute..|]. by apply elem_of_nil in Hr.
  - destruct H as (s' & m' & H & _).
    + by vm_compute.
    + replace (arg (rview sha_state) REG_A0 / 4) with 0x8000 by by vm_compute.
      replace (arg (rview sha_state) REG_A1 / 4) with 0x8000 by by vm_compute.
      replace (arg (rview sha_state) REG_A2 / 4) with 0x9000 by by vm_compute.
      replace (arg (rview sha_state) REG_A4 / 4) with 0xa000 by by vm_compute.
      replace (Z.land (arg (rview sha_state) REG_A3) 0xffff) with 1 by by vm_compute.
      constructor; try lia; done.
    + exists s'. exact H.
Defined.
