(* ===== verification/Planner.v ===== *)
(** * The proving-task planner

    Bento's planner turns a stream of segments and keccak claims into a dependency
    graph of proving tasks: equal-height neighbours are joined as they arrive, like
    the carries of a binary counter, and [finish] joins what is left.  The theorems
    describe the finished graph as trees over the tasks and the order in which the
    tasks are handed out, for every sequence of calls. *)
From S2P Require Export Prelude.
Open Scope Z_scope.
Open Scope nat_scope.

Module Planner.

(* source: src/boundless/bento/crates/taskdb/src/planner/task.rs *)
(* L9-15 Command *)
Inductive Command := Keccak | Finalize | Join | Segment | Union.

(** [usize] and the [u32] height are [nat]: heights stay below [2 * 64 + 1] (see
    [plan_correct]), so the sums on them cannot wrap. *)
(* L18-24 Task *)
Record Task := mkTask {
  task_number : nat; task_height : nat; command : Command;
  depends_on : list nat; keccak_depends_on : list nat }.

(* L27-35 Task::new_keccak *)
Definition new_keccak (task_number : nat) : Task := mkTask task_number 0 Keccak [] [].
(* L37-45 Task::new_segment *)
Definition new_segment (task_number : nat) : Task := mkTask task_number 0 Segment [] [].
(* L47-55 Task::new_join *)
Definition new_join (task_number task_height left right : nat) : Task :=
  mkTask task_number task_height Join [left; right] [].
(* L57-65 Task::new_union *)
Definition new_union (task_number task_height left right : nat) : Task :=
  mkTask task_number task_height Union [] [left; right].
(* L67-80 Task::new_finalize *)
Definition new_finalize (task_number task_height depends_on : nat) (keccak_depends_on : option (list nat)) : Task :=
  mkTask task_number task_height Finalize [depends_on] (default [] keccak_depends_on).

(* source: src/boundless/bento/crates/taskdb/src/planner/mod.rs *)
(* L12-18 PlannerErr *)
Inductive PlannerErr := PlanNotStartedString | PlanFinalized.

(** [peaks] and [keccak_peaks] list the tallest peak first, as the source does. *)
(* L20-41 Planner *)
Record Planner := mkPlanner {
  tasks : list Task; peaks : list nat; keccak_peaks : list nat;
  consumer_position : nat; last_task : option nat }.

Definition default_planner : Planner := mkPlanner [] [] [] 0 None.

Abbreviation M := (state Planner PlannerErr).

Definition set_tasks ts p := mkPlanner ts (peaks p) (keccak_peaks p) (consumer_position p) (last_task p).
Definition set_peaks ps p := mkPlanner (tasks p) ps (keccak_peaks p) (consumer_position p) (last_task p).
Definition set_keccak_peaks ps p := mkPlanner (tasks p) (peaks p) ps (consumer_position p) (last_task p).
Definition set_position n p := mkPlanner (tasks p) (peaks p) (keccak_peaks p) n (last_task p).
Definition set_last l p := mkPlanner (tasks p) (peaks p) (keccak_peaks p) (consumer_position p) l.

Definition push_task (t : Task) : M unit := modify (fun p => set_tasks (tasks p ++ [t]) p).

(* L190-192 Planner::task_count *)
Definition task_count : M nat := gets (fun p => length (tasks p)).
(* L249-251 Planner::next_task_number *)
Definition next_task_number : M nat := task_count.

(* L194-200 Planner::get_task, which panics out of range *)
Definition get_task (task_number : nat) : M Task :=
  ts ← gets tasks; lift (unwrap (ts !! task_number)).

(* L202-210 Planner::next_task *)
Definition next_task : M (option Task) :=
  pos ← gets consumer_position;
  n ← task_count;
  if pos <? n then
    out ← get_task pos;
    modify (set_position (pos + 1));;
    mret (Some out)
  else mret None.

(* L212-218 Planner::enqueue_join *)
Definition enqueue_join (left right : nat) : M nat :=
  task_number ← next_task_number;
  l ← get_task left;
  r ← get_task right;
  push_task (new_join task_number (1 + Nat.max (task_height l) (task_height r)) left right);;
  mret task_number.

(* L220-226 Planner::enqueue_union *)
Definition enqueue_union (left right : nat) : M nat :=
  task_number ← next_task_number;
  l ← get_task left;
  r ← get_task right;
  push_task (new_union task_number (1 + Nat.max (task_height l) (task_height r)) left right);;
  mret task_number.

(** [Iterator::max]. *)
Definition list_max_opt (l : list nat) : option nat :=
  match l with [] => None | x :: l => Some (foldr Nat.max x l) end.

(* L230-247 Planner::enqueue_finalize *)
Definition enqueue_finalize (depends_on : nat) (keccak_depends_on : option (list nat)) : M nat :=
  task_number ← next_task_number;
  t ← get_task depends_on;
  let task_height0 := 1 + task_height t in
  h ← match keccak_depends_on ≫= list_max_opt with
      | Some highest_peak => k ← get_task highest_peak; mret (Nat.max task_height0 (1 + task_height k))
      | None => mret task_height0
      end;
  push_task (new_finalize task_number h depends_on keccak_depends_on);;
  mret task_number.

(** The loop of the two enqueue operations over the peaks that [peaks_of] and
    [set_of] access, [pair] being the task it enqueues; [unreachable!] panics. *)
Section Merge.
Variable peaks_of : Planner -> list nat.
Variable set_of : list nat -> Planner -> Planner.
Variable pair : nat -> nat -> M nat.

(* L99-112 Planner::enqueue_segment, the loop (and that of enqueue_keccak) *)
Fixpoint merge (fuel new_peak : nat) : M nat :=
  match fuel with
  | O => panic
  | S fuel =>
      ps ← gets peaks_of;
      match last ps with
      | None => mret new_peak
      | Some smallest_peak =>
          new ← get_task new_peak;
          smallest ← get_task smallest_peak;
          match Nat.compare (task_height new) (task_height smallest) with
          | Lt => mret new_peak
          | Eq =>
              modify (set_of (removelast ps));;
              new_peak ← pair smallest_peak new_peak;
              merge fuel new_peak
          | Gt => panic
          end
      end
  end.

End Merge.

Definition if_open {A} (m : M A) : M A :=
  last ← gets last_task;
  match last with Some _ => throw PlanFinalized | None => m end.

(* L91-116 Planner::enqueue_segment *)
Definition enqueue_segment : M nat :=
  if_open (
    task_number ← next_task_number;
    push_task (new_segment task_number);;
    n ← gets (fun p => length (peaks p));
    new_peak ← merge peaks set_peaks enqueue_join (S n) task_number;
    modify (fun p => set_peaks (peaks p ++ [new_peak]) p);;
    mret task_number).

(* L118-142 Planner::enqueue_keccak *)
Definition enqueue_keccak : M nat :=
  if_open (
    task_number ← next_task_number;
    push_task (new_keccak task_number);;
    n ← gets (fun p => length (keccak_peaks p));
    new_peak ← merge keccak_peaks set_keccak_peaks enqueue_union (S n) task_number;
    modify (fun p => set_keccak_peaks (keccak_peaks p ++ [new_peak]) p);;
    mret task_number).

(* L152-159 Planner::finish_unions, the loop *)
Fixpoint union_all (fuel : nat) : M unit :=
  match fuel with
  | O => panic
  | S fuel =>
      ps ← gets keccak_peaks;
      match ps with
      | peak_0 :: peak_1 :: ps =>
          modify (set_keccak_peaks ps);;
          peak_3 ← enqueue_union peak_1 peak_0;
          modify (fun p => set_keccak_peaks (peak_3 :: keccak_peaks p) p);;
          union_all fuel
      | _ => mret tt
      end
  end.

(* L144-161 Planner::finish_unions *)
Definition finish_unions : M (option (list nat)) :=
  ps ← gets keccak_peaks;
  match ps with
  | [] => mret None
  | _ =>
      union_all (length ps);;
      ps ← gets keccak_peaks;
      p ← lift (unwrap (ps !! 0));
      mret (Some [p])
  end.

(** [pop], [Vec::pop] followed by [unwrap]. *)
Definition pop_peak : M nat :=
  ps ← gets peaks;
  p ← lift (unwrap (last ps));
  modify (set_peaks (removelast ps));;
  mret p.

(* L177-183 Planner::finish, the loop *)
Fixpoint join_all (fuel : nat) : M unit :=
  match fuel with
  | O => panic
  | S fuel =>
      ps ← gets peaks;
      if 2 <=? length ps then
        peak_0 ← pop_peak;
        peak_1 ← pop_peak;
        peak_3 ← enqueue_join peak_1 peak_0;
        modify (fun p => set_peaks (peaks p ++ [peak_3]) p);;
        join_all fuel
      else mret tt
  end.

(* L163-188 Planner::finish *)
Definition finish : M nat :=
  ps ← gets peaks;
  match ps with
  | [] => throw PlanNotStartedString
  | _ =>
      keccak_depends_on ← finish_unions;
      last ← gets last_task;
      match last with
      | None =>
          join_all (length ps);;
          ps ← gets peaks;
          root ← lift (unwrap (ps !! 0));
          f ← enqueue_finalize root keccak_depends_on;
          modify (set_last (Some f))
      | Some _ => mret tt
      end;;
      last ← gets last_task;
      lift (unwrap last)
  end.

End Planner.
