(* ===== verification/PlannerSpec.v ===== *)
(** * The planner's plans are trees

    A peak is the root of a perfect binary tree over the tasks; the peaks' heights
    decrease strictly, as the set bits of the number of leaves do. *)
From S2P Require Export Planner.
From Stdlib Require Import Sorting.Sorted.
Import Planner.
Open Scope nat_scope.

Inductive tree := Leaf (i : nat) | Node (i : nat) (l r : tree).

Definition root (t : tree) : nat := match t with Leaf i => i | Node i _ _ => i end.
Fixpoint leaves (t : tree) : list nat := match t with Leaf i => [i] | Node _ l r => leaves l ++ leaves r end.
Fixpoint nodes (t : tree) : list nat := match t with Leaf i => [i] | Node i l r => i :: nodes l ++ nodes r end.
Fixpoint height (t : tree) : nat :=
  match t with Leaf _ => 0 | Node _ l r => 1 + Nat.max (height l) (height r) end.
Fixpoint perfect (t : tree) : Prop :=
  match t with Leaf _ => True | Node _ l r => height l = height r /\ perfect l /\ perfect r end.

Definition all_leaves (ts : list tree) : list nat := ts ≫= leaves.
Definition all_nodes (ts : list tree) : list nat := ts ≫= nodes.

(** The kinds of a tree's tasks: joins over segments, unions over keccak claims. *)
Record kind := mkKind { mk_leaf : nat -> Task; mk_pair : nat -> nat -> nat -> nat -> Task }.
Definition joins : kind := mkKind new_segment new_join.
Definition unions : kind := mkKind new_keccak new_union.

(** [t] is a tree of the task list: every node is a task of its kind, of the
    tree's height, that depends on the roots of its subtrees, which come earlier. *)
Fixpoint rep (K : kind) (ts : list Task) (t : tree) : Prop :=
  match t with
  | Leaf i => ts !! i = Some (mk_leaf K i)
  | Node i l r => ts !! i = Some (mk_pair K i (height t) (root l) (root r)) /\
      root l < i /\ root r < i /\ rep K ts l /\ rep K ts r
  end.

Definition decreasing (ts : list tree) : Prop := StronglySorted (fun x y => height y < height x) ts.

(** Every task carries its index and depends on earlier tasks only. *)
Definition tasks_wf (ts : list Task) : Prop :=
  forall i t, ts !! i = Some t -> task_number t = i /\ Forall (fun d => d < i) (depends_on t ++ keccak_depends_on t).

Definition kind_ok (K : kind) : Prop :=
  (forall i, task_height (mk_leaf K i) = 0) /\ (forall i h l r, task_height (mk_pair K i h l r) = h) /\
  (forall i, task_number (mk_leaf K i) = i) /\ (forall i h l r, task_number (mk_pair K i h l r) = i) /\
  (forall i, depends_on (mk_leaf K i) ++ keccak_depends_on (mk_leaf K i) = []) /\
  (forall i h l r, depends_on (mk_pair K i h l r) ++ keccak_depends_on (mk_pair K i h l r) = [l; r]).

Lemma joins_ok : kind_ok joins. Proof. split_and!; done. Qed.
Lemma unions_ok : kind_ok unions. Proof. split_and!; done. Qed.

(** ** Trees *)

Lemma rep_app K ts ts' t : rep K ts t -> rep K (ts ++ ts') t.
Proof. induction t; cbn [rep]; [apply lookup_app_l_Some|]. intros (?&?&?&?&?). split_and!; auto using lookup_app_l_Some. Qed.

Lemma reps_app K ts ts' fs : Forall (rep K ts) fs -> Forall (rep K (ts ++ ts')) fs.
Proof. intros H. eapply Forall_impl; [exact H|]. intros t. apply rep_app. Qed.

Lemma rep_root K ts t : kind_ok K -> rep K ts t -> exists x, ts !! root t = Some x /\ task_height x = height t.
Proof. intros (H1 & H2 & _) Hr. destruct t; cbn [rep root] in *; [|destruct Hr as (Hr & _)]; eexists; split; eauto. Qed.

Lemma perfect_leaves t : perfect t -> length (leaves t) = 2 ^ height t.
Proof.
  induction t as [|i l IHl r IHr]; cbn; [done|]. intros (He & Hl & Hr).
  rewrite length_app, IHl, IHr, He by done. rewrite Nat.max_id. lia.
Qed.

Lemma leaves_pos t : 1 <= length (leaves t).
Proof. induction t; cbn [leaves length]; rewrite ?length_app; lia. Qed.

Lemma decreasing_sum fs H : decreasing fs -> Forall perfect fs -> Forall (fun t => height t < H) fs ->
  length (all_leaves fs) < 2 ^ H.
Proof.
  intros Hd Hp. revert H. induction Hd as [|t fs Hd IH Hlt]; intros H Hb.
  - cbn. pose proof (Nat.pow_nonzero 2 H). lia.
  - apply Forall_cons in Hp as [Hp Hps]. apply Forall_cons in Hb as [Hb _].
    unfold all_leaves in *. rewrite bind_cons, length_app, perfect_leaves by done.
    specialize (IH Hps (height t) Hlt). pose proof (Nat.pow_le_mono_r 2 (S (height t)) H). cbn [Nat.pow] in *. lia.
Qed.

Lemma decreasing_length fs H : decreasing fs -> Forall (fun t => height t < H) fs -> length fs <= H.
Proof.
  intros Hd. revert H. induction Hd as [|t fs Hd IH Hlt]; intros H Hb; cbn [length]; [lia|].
  apply Forall_cons in Hb as [Hb _]. specialize (IH _ Hlt). lia.
Qed.

Lemma decreasing_app fs t : decreasing (fs ++ [t]) <-> decreasing fs /\ Forall (fun x => height t < height x) fs.
Proof.
  unfold decreasing. induction fs as [|x fs IH]; cbn [app].
  - split; intros; [split; constructor|]. constructor; constructor.
  - split.
    + intros H. inversion H as [|? ? H1 H2]; subst. apply IH in H1 as [H1 H3].
      apply Forall_app in H2 as [H2 H4]. apply Forall_cons in H4 as [H4 _].
      split; [by constructor|by constructor].
    + intros [H1 H2]. inversion H1 as [|? ? H3 H4]; subst. apply Forall_cons in H2 as [H2 H5].
      constructor; [by apply IH|]. apply Forall_app. split; [done|]. by constructor.
Qed.

Lemma all_leaves_app fs gs : all_leaves (fs ++ gs) = all_leaves fs ++ all_leaves gs.
Proof. apply bind_app. Qed.
Lemma all_nodes_app fs gs : all_nodes (fs ++ gs) = all_nodes fs ++ all_nodes gs.
Proof. apply bind_app. Qed.
Lemma all_leaves_one t : all_leaves [t] = leaves t.
Proof. unfold all_leaves. cbn. apply app_nil_r. Qed.
Lemma all_nodes_one t : all_nodes [t] = nodes t.
Proof. unfold all_nodes. cbn. apply app_nil_r. Qed.

Lemma tasks_wf_snoc ts t : tasks_wf ts -> task_number t = length ts ->
  Forall (fun d => d < length ts) (depends_on t ++ keccak_depends_on t) -> tasks_wf (ts ++ [t]).
Proof.
  intros Hw Hn Hd i x Hx. apply lookup_app_Some in Hx as [Hx|[Hi Hx]]; [by apply Hw|].
  apply list_lookup_singleton_Some in Hx as [Hx <-]. replace i with (length ts) by lia. done.
Qed.

Lemma rep_bound K ts t : rep K ts t -> root t < length ts.
Proof.
  destruct t; cbn [rep root]; intros Hr; [|destruct Hr as [Hr _]]; by eapply lookup_lt_Some.
Qed.

(** ** The operations on peaks *)

Lemma get_task_run p i t : tasks p !! i = Some t -> get_task i p = (Ok t, p).
Proof. intros H. unfold get_task, mbind, state_bind, gets, lift. by rewrite H. Qed.

(** What the two enqueueing operations have in common. *)
Definition pair_ok (K : kind) (pair : nat -> nat -> M nat) : Prop :=
  forall p l r, rep K (tasks p) l -> rep K (tasks p) r ->
  pair (root l) (root r) p = (Ok (length (tasks p)),
    set_tasks (tasks p ++ [mk_pair K (length (tasks p)) (1 + Nat.max (height l) (height r)) (root l) (root r)]) p).

Lemma enqueue_join_ok : pair_ok joins enqueue_join.
Proof.
  intros p l r Hl Hr. unfold enqueue_join.
  destruct (rep_root _ _ _ joins_ok Hl) as (x & Hx & <-). destruct (rep_root _ _ _ joins_ok Hr) as (y & Hy & <-).
  rewrite (run_bind _ _ p (length (tasks p)) p) by done.
  by rewrite (run_bind _ _ _ _ _ (get_task_run p _ _ Hx)), (run_bind _ _ _ _ _ (get_task_run p _ _ Hy)).
Qed.

Lemma enqueue_union_ok : pair_ok unions enqueue_union.
Proof.
  intros p l r Hl Hr. unfold enqueue_union.
  destruct (rep_root _ _ _ unions_ok Hl) as (x & Hx & <-). destruct (rep_root _ _ _ unions_ok Hr) as (y & Hy & <-).
  rewrite (run_bind _ _ p (length (tasks p)) p) by done.
  by rewrite (run_bind _ _ _ _ _ (get_task_run p _ _ Hx)), (run_bind _ _ _ _ _ (get_task_run p _ _ Hy)).
Qed.

(** The list of peaks that an operation works on. *)
Record lens_ok (peaks_of : Planner -> list nat) (set_of : list nat -> Planner -> Planner) : Prop := {
  lens_get ps p : peaks_of (set_of ps p) = ps;
  lens_set ps qs p : set_of ps (set_of qs p) = set_of ps p;
  lens_id p : set_of (peaks_of p) p = p;
  lens_tasks ps p : tasks (set_of ps p) = tasks p;
  lens_push ts p : peaks_of (set_tasks ts p) = peaks_of p;
  lens_comm ps ts p : set_of ps (set_tasks ts p) = set_tasks ts (set_of ps p) }.

Lemma peaks_lens : lens_ok peaks set_peaks. Proof. constructor; intros; repeat match goal with p : Planner |- _ => destruct p end; reflexivity. Qed.
Lemma keccak_lens : lens_ok keccak_peaks set_keccak_peaks. Proof. constructor; intros; repeat match goal with p : Planner |- _ => destruct p end; reflexivity. Qed.

(** [ts'] are new tasks that turn the trees [fs] into [gs], keeping all tasks used. *)
Definition grown (K : kind) (ts ts' : list Task) (fs gs : list tree) : Prop :=
  Forall (rep K (ts ++ ts')) gs /\ tasks_wf (ts ++ ts') /\
  all_nodes gs ≡ₚ all_nodes fs ++ seq (length ts) (length ts').

Lemma grown_refl K ts fs : Forall (rep K ts) fs -> tasks_wf ts -> grown K ts [] fs fs.
Proof. intros H1 H2. split_and!; rewrite ?app_nil_r; done. Qed.

Lemma grown_pair K ts l r fs gs : kind_ok K -> Forall (rep K ts) (fs ++ l :: r :: gs) -> tasks_wf ts ->
  let n := length ts in
  let t := mk_pair K n (1 + Nat.max (height l) (height r)) (root l) (root r) in
  grown K ts [t] (fs ++ l :: r :: gs) (fs ++ Node n l r :: gs).
Proof.
  intros HK Hf Hw n t. pose proof Hf as Hf'. apply Forall_app in Hf' as [H1 H2].
  apply Forall_cons in H2 as [Hl H2]. apply Forall_cons in H2 as [Hr H2].
  pose proof (rep_bound _ _ _ Hl). pose proof (rep_bound _ _ _ Hr). split_and!.
  - apply Forall_app. split; [by apply reps_app|]. constructor; [|by apply reps_app].
    cbn [rep]. split_and!; [|done|done|by apply rep_app|by apply rep_app].
    by rewrite lookup_app_r, Nat.sub_diag by lia.
  - destruct HK as (_ & _ & _ & Hn & _ & Hd). apply tasks_wf_snoc; [done|apply Hn|]. unfold t. rewrite Hd.
    by repeat constructor.
  - rewrite !all_nodes_app. unfold all_nodes. rewrite !bind_cons. cbn [nodes length seq].
    rewrite <- !app_assoc. apply Permutation_app_head. cbn [app]. rewrite <- !app_assoc.
    rewrite !(app_assoc (nodes l)), (app_assoc (nodes l ++ nodes r)). apply Permutation_cons_append.
Qed.

Lemma grown_trans K ts ts1 ts2 fs gs hs : grown K ts ts1 fs gs -> grown K (ts ++ ts1) ts2 gs hs ->
  grown K ts (ts1 ++ ts2) fs hs.
Proof.
  intros (H1 & H2 & H3) (H4 & H5 & H6). split_and!; rewrite ?app_assoc; [done..|].
  rewrite H6, H3, !length_app, seq_app, app_assoc. done.
Qed.

Section Loops.
Context (K : kind) (HK : kind_ok K) (pair : nat -> nat -> M nat) (Hpair : pair_ok K pair)
  (P : Planner -> list nat) (Set_ : list nat -> Planner -> Planner) (HP : lens_ok P Set_).

Lemma set_tasks_twice ts us p : set_tasks ts (set_tasks us p) = set_tasks ts p.
Proof. done. Qed.

Lemma set_same p : set_tasks (tasks p ++ []) p = p.
Proof. rewrite app_nil_r. by destruct p. Qed.

Lemma fmap_root_app fs t : root <$> fs ++ [t] = (root <$> fs) ++ [root t].
Proof. by rewrite fmap_app. Qed.

(** The carry loop: it never reaches [unreachable!], and it leaves a forest of
    perfect trees of strictly decreasing heights over the same leaves. *)
Lemma merge_run fs : forall t p fuel, length fs < fuel -> P p = root <$> fs ->
  Forall (rep K (tasks p)) (fs ++ [t]) -> Forall perfect (fs ++ [t]) -> decreasing fs ->
  Forall (fun x => height t <= height x) fs -> tasks_wf (tasks p) ->
  exists fs' t' ts', merge P Set_ pair fuel (root t) p = (Ok (root t'), Set_ (root <$> fs') (set_tasks (tasks p ++ ts') p)) /\
    grown K (tasks p) ts' (fs ++ [t]) (fs' ++ [t']) /\ Forall perfect (fs' ++ [t']) /\ decreasing (fs' ++ [t']) /\
    all_leaves (fs' ++ [t']) = all_leaves (fs ++ [t]).
Proof.
  induction fs as [|x fs IH] using rev_ind; intros t p fuel Hf Hps Hrep Hperf Hdec Hle Hwf;
    (destruct fuel as [|fuel]; [lia|]); cbn [merge].
  - rewrite (run_bind _ _ p (P p) p) by done. rewrite Hps. cbn [fmap list_fmap last].
    exists [], t, []. rewrite set_same. cbn [fmap list_fmap].
    assert (E : Set_ [] p = p) by (rewrite <- (lens_id _ _ HP p) at 2; by rewrite Hps). rewrite E.
    split; [done|]. split; [by apply grown_refl|]. split_and!; [done|by repeat constructor|done].
  - rewrite (run_bind _ _ p (P p) p) by done. rewrite Hps, fmap_root_app, last_snoc.
    pose proof Hrep as Hrep'. apply Forall_app in Hrep' as [Hrx Hrt]. apply Forall_app in Hrx as [Hrf Hrx].
    rewrite Forall_singleton in Hrt, Hrx.
    destruct (rep_root _ _ _ HK Hrt) as (y & Hy & Ey). destruct (rep_root _ _ _ HK Hrx) as (z & Hz & Ez).
    rewrite (run_bind _ _ _ _ _ (get_task_run p _ _ Hy)), (run_bind _ _ _ _ _ (get_task_run p _ _ Hz)), Ey, Ez.
    apply Forall_app in Hle as [Hlf Hlx]. rewrite Forall_singleton in Hlx.
    destruct (Nat.compare_spec (height t) (height x)) as [Heq|Hlt|Hgt]; [| |lia].
    + rewrite removelast_last. set (p1 := Set_ (root <$> fs) p). rewrite (run_bind _ _ p tt p1) by done.
      assert (Et : tasks p1 = tasks p) by apply HP.
      rewrite (run_bind _ _ _ _ _ (Hpair p1 x t ltac:(by rewrite Et) ltac:(by rewrite Et))), Et.
      apply decreasing_app in Hdec as [Hdf Hdx]. apply Forall_app in Hperf as [Hpf Hpt].
      apply Forall_app in Hpf as [Hpf Hpx]. rewrite Forall_singleton in Hpt, Hpx.
      set (n := length (tasks p)). set (nt := mk_pair K _ _ _ _).
      assert (Hg : grown K (tasks p) [nt] (fs ++ [x; t]) (fs ++ [Node n x t])).
      { apply (grown_pair K (tasks p) x t fs []); [done| |done]. by rewrite <- app_assoc in Hrep. }
      destruct Hg as (Hg1 & Hg2 & Hg3). set (p2 := set_tasks (tasks p ++ [nt]) p1) in *.
      destruct (IH (Node n x t) p2 fuel) as (fs' & t' & ts' & E & Hgr & Hpe & Hde & Hlv).
      * rewrite length_app in Hf. cbn [length] in Hf. lia.
      * unfold p2. rewrite (lens_push _ _ HP). unfold p1. by apply HP.
      * exact Hg1.
      * apply Forall_app. split; [done|]. rewrite Forall_singleton. cbn. split_and!; [by symmetry|done..].
      * done.
      * eapply Forall_impl; [exact Hdx|]. intros u Hu. cbv beta in Hu. cbn [height]. lia.
      * exact Hg2.
      * exists fs', t', ([nt] ++ ts'). change (tasks p2) with (tasks p ++ [nt]) in *. split.
        { cbn [root] in E. refine (eq_trans E _). rewrite app_assoc. f_equal. unfold p2.
          rewrite set_tasks_twice. unfold p1. by rewrite <- (lens_comm _ _ HP (root <$> fs)), (lens_set _ _ HP). }
        rewrite <- app_assoc. cbn [app]. split; [eapply (grown_trans K _ [nt] ts'); [by split_and!|exact Hgr]|].
        split_and!; [done..|]. rewrite Hlv, !all_leaves_app, all_leaves_one. unfold all_leaves at 3.
        cbn. by rewrite app_nil_r.
    + exists (fs ++ [x]), t, []. rewrite set_same, fmap_root_app.
      assert (E : Set_ ((root <$> fs) ++ [root x]) p = p).
      { rewrite <- (lens_id _ _ HP p) at 2. by rewrite Hps, fmap_root_app. }
      rewrite E. split; [done|]. split; [by apply grown_refl|]. split_and!; [done| |done].
      apply decreasing_app. split; [done|]. apply Forall_app. split; [|by apply Forall_singleton].
      apply decreasing_app in Hdec as [_ Hdx]. eapply Forall_impl; [exact Hdx|]. intros u Hu. cbn in Hu. lia.
Qed.

(** A new leaf arrives. *)
Lemma arrive_run fs p : let n := length (tasks p) in
  P p = root <$> fs -> Forall (rep K (tasks p)) fs -> Forall perfect fs -> decreasing fs -> tasks_wf (tasks p) ->
  exists fs' t' ts',
    merge P Set_ pair (S (length (P p))) n (set_tasks (tasks p ++ [mk_leaf K n]) p)
      = (Ok (root t'), Set_ (root <$> fs') (set_tasks (tasks p ++ ts') p)) /\
    grown K (tasks p) ts' fs (fs' ++ [t']) /\ Forall perfect (fs' ++ [t']) /\ decreasing (fs' ++ [t']) /\
    all_leaves (fs' ++ [t']) = all_leaves fs ++ [n].
Proof.
  intros n Hps Hrep Hperf Hdec Hwf. set (leaf := mk_leaf K n).
  destruct HK as (_ & _ & Hn & _ & Hd & _).
  assert (Hg : grown K (tasks p) [leaf] fs (fs ++ [Leaf n])).
  { split_and!.
    - apply Forall_app. split; [by apply reps_app|]. rewrite Forall_singleton. cbn [rep].
      by rewrite lookup_app_r, Nat.sub_diag by lia.
    - apply tasks_wf_snoc; [done|apply Hn|]. unfold leaf. by rewrite Hd.
    - by rewrite all_nodes_app, all_nodes_one. }
  pose proof Hg as (Hg1 & Hg2 & _). set (p1 := set_tasks (tasks p ++ [leaf]) p).
  destruct (merge_run fs (Leaf n) p1 (S (length (P p)))) as (fs' & t' & ts' & E & Hgr & Hpe & Hde & Hlv).
  - rewrite Hps, length_fmap. lia.
  - unfold p1. by rewrite (lens_push _ _ HP).
  - exact Hg1.
  - apply Forall_app. split; [done|]. by rewrite Forall_singleton.
  - done.
  - apply Forall_true. cbn. lia.
  - exact Hg2.
  - exists fs', t', ([leaf] ++ ts'). split; [|split; [by eapply grown_trans|split_and!; [done..|]]].
    + cbn [root] in E. refine (eq_trans E _). by rewrite app_assoc.
    + rewrite Hlv, all_leaves_app, all_leaves_one. done.
Qed.

End Loops.

(** ** The planner's invariant *)

(** While the plan is open, the two lists of peaks are the roots of two forests
    whose nodes are all the tasks, each once. *)
Record Inv (p : Planner) (fs ks : list tree) : Prop := mkInv {
  inv_peaks : peaks p = root <$> fs;
  inv_keccak : keccak_peaks p = root <$> ks;
  inv_fs : Forall (rep joins (tasks p)) fs;
  inv_ks : Forall (rep unions (tasks p)) ks;
  inv_fs_perfect : Forall perfect fs;
  inv_ks_perfect : Forall perfect ks;
  inv_fs_dec : decreasing fs;
  inv_ks_dec : decreasing ks;
  inv_wf : tasks_wf (tasks p);
  inv_nodes : all_nodes fs ++ all_nodes ks ≡ₚ seq 0 (length (tasks p));
  inv_open : last_task p = None }.

Lemma default_inv : Inv default_planner [] [].
Proof. constructor; try done; by constructor. Qed.

(** What a call keeps: the tasks so far and the consumer's position. *)
Definition extends (p p' : Planner) : Prop :=
  (exists ts, tasks p' = tasks p ++ ts) /\ consumer_position p' = consumer_position p.

Lemma enqueue_segment_run p fs ks : Inv p fs ks ->
  exists p' fs', enqueue_segment p = (Ok (length (tasks p)), p') /\ Inv p' fs' ks /\ extends p p' /\
    all_leaves fs' = all_leaves fs ++ [length (tasks p)].
Proof.
  intros [Hp Hk Hf Hks Hpf Hpk Hdf Hdk Hw Hn Ho].
  destruct (arrive_run joins joins_ok enqueue_join enqueue_join_ok peaks set_peaks peaks_lens fs p)
    as (fs' & t' & ts' & E & (Hg1 & Hg2 & Hg3) & Hpe & Hde & Hlv); [done..|].
  exists (set_peaks (root <$> fs' ++ [t']) (set_tasks (tasks p ++ ts') p)), (fs' ++ [t']).
  split; [|split; [|split; [|done]]].
  - unfold enqueue_segment, if_open. rewrite (run_bind _ _ p None p) by (unfold gets; by rewrite Ho).
    rewrite (run_bind _ _ p (length (tasks p)) p) by done.
    rewrite (run_bind _ _ p tt (set_tasks (tasks p ++ [new_segment (length (tasks p))]) p)) by done.
    rewrite (run_bind _ _ _ (length (peaks p)) (set_tasks (tasks p ++ [new_segment (length (tasks p))]) p)) by done.
    cbn [mk_leaf joins] in E. rewrite (run_bind _ _ _ _ _ E), fmap_root_app. done.
  - constructor; cbn [peaks keccak_peaks tasks last_task set_peaks set_tasks]; try done.
    + by apply reps_app.
    + rewrite Hg3, length_app, seq_app, <- Hn, <- !app_assoc. apply Permutation_app_head, Permutation_app_comm.
  - split; [by exists ts'|done].
Qed.

Lemma enqueue_keccak_run p fs ks : Inv p fs ks ->
  exists p' ks', enqueue_keccak p = (Ok (length (tasks p)), p') /\ Inv p' fs ks' /\ extends p p' /\
    all_leaves ks' = all_leaves ks ++ [length (tasks p)].
Proof.
  intros [Hp Hk Hf Hks Hpf Hpk Hdf Hdk Hw Hn Ho].
  destruct (arrive_run unions unions_ok enqueue_union enqueue_union_ok keccak_peaks set_keccak_peaks keccak_lens ks p)
    as (ks' & t' & ts' & E & (Hg1 & Hg2 & Hg3) & Hpe & Hde & Hlv); [done..|].
  exists (set_keccak_peaks (root <$> ks' ++ [t']) (set_tasks (tasks p ++ ts') p)), (ks' ++ [t']).
  split; [|split; [|split; [|done]]].
  - unfold enqueue_keccak, if_open. rewrite (run_bind _ _ p None p) by (unfold gets; by rewrite Ho).
    rewrite (run_bind _ _ p (length (tasks p)) p) by done.
    rewrite (run_bind _ _ p tt (set_tasks (tasks p ++ [new_keccak (length (tasks p))]) p)) by done.
    rewrite (run_bind _ _ _ (length (keccak_peaks p)) (set_tasks (tasks p ++ [new_keccak (length (tasks p))]) p)) by done.
    cbn [mk_leaf unions] in E. rewrite (run_bind _ _ _ _ _ E), fmap_root_app. done.
  - constructor; cbn [peaks keccak_peaks tasks last_task set_keccak_peaks set_tasks]; try done.
    + by apply reps_app.
    + rewrite Hg3, length_app, seq_app, <- Hn, <- !app_assoc. done.
  - split; [by exists ts'|done].
Qed.

(** ** Finishing *)

(** The last two peaks are joined until one is left. *)
Lemma join_all_run fs : forall t p fuel, length fs < fuel -> peaks p = root <$> fs ++ [t] ->
  Forall (rep joins (tasks p)) (fs ++ [t]) -> tasks_wf (tasks p) ->
  decreasing fs -> Forall (fun x => height t <= height x) fs ->
  exists T ts', join_all fuel p = (Ok tt, set_peaks [root T] (set_tasks (tasks p ++ ts') p)) /\
    grown joins (tasks p) ts' (fs ++ [t]) [T] /\ leaves T = all_leaves (fs ++ [t]) /\
    height T = match head fs with Some x => 1 + height x | None => height t end.
Proof.
  induction fs as [|x fs IH] using rev_ind; intros t p fuel Hf Hps Hrep Hwf Hdec Hle;
    (destruct fuel as [|fuel]; [lia|]); cbn [join_all]; rewrite (run_bind _ _ p (peaks p) p) by done; rewrite Hps.
  - cbn [app fmap list_fmap length Nat.leb]. exists t, []. rewrite set_same, all_leaves_one.
    split; [|split; [by apply grown_refl|done]]. f_equal. destruct p; cbn in *. by rewrite Hps.
  - rewrite length_fmap, !length_app. cbn [length]. destruct (Nat.leb_spec 2 (length fs + 1 + 1)) as [_|]; [|lia].
    set (p1 := set_peaks (root <$> fs ++ [x]) p). set (p2 := set_peaks (root <$> fs) p1).
    assert (E0 : pop_peak p = (Ok (root t), p1)).
    { unfold pop_peak, mbind, state_bind, gets, lift, modify. rewrite Hps, fmap_root_app, last_snoc, removelast_last. done. }
    assert (E1 : pop_peak p1 = (Ok (root x), p2)).
    { unfold pop_peak, mbind, state_bind, gets, lift, modify. cbn [peaks p1 set_peaks].
      rewrite fmap_root_app, last_snoc, removelast_last. done. }
    rewrite (run_bind _ _ _ _ _ E0), (run_bind _ _ _ _ _ E1).
    pose proof Hrep as Hrep'. apply Forall_app in Hrep' as [Hrx Hrt]. apply Forall_app in Hrx as [Hrf Hrx].
    rewrite Forall_singleton in Hrt, Hrx.
    rewrite (run_bind _ _ _ _ _ (enqueue_join_ok p2 x t Hrx Hrt)). change (tasks p2) with (tasks p).
    set (n := length (tasks p)). set (nt := mk_pair joins _ _ _ _).
    rewrite <- app_assoc in Hrep. cbn [app] in Hrep.
    pose proof (grown_pair joins (tasks p) x t fs [] joins_ok Hrep Hwf) as Hg. fold n nt in Hg.
    pose proof Hg as (Hg1 & Hg2 & _). apply decreasing_app in Hdec as [Hdf Hdx].
    apply Forall_app in Hle as [_ Hlx]. rewrite Forall_singleton in Hlx.
    set (p3 := set_peaks (root <$> fs ++ [Node n x t]) (set_tasks (tasks p ++ [nt]) p2)).
    rewrite (run_bind _ _ _ tt p3) by (unfold modify, p3; by rewrite fmap_root_app).
    destruct (IH (Node n x t) p3 fuel) as (T & ts' & E & Hgr & Hlv & Hh); [|done|exact Hg1|exact Hg2|done| |].
    { rewrite length_app in Hf. cbn [length] in Hf. lia. }
    { eapply Forall_impl; [exact Hdx|]. intros u Hu. cbv beta in Hu. cbn [height]. lia. }
    exists T, ([nt] ++ ts'). split; [refine (eq_trans E _); by rewrite app_assoc|].
    rewrite <- app_assoc. cbn [app]. split; [by eapply (grown_trans joins _ [nt] ts')|]. split.
    + rewrite Hlv, !all_leaves_app, all_leaves_one. unfold all_leaves at 3. cbn. by rewrite app_nil_r.
    + rewrite Hh. destruct fs as [|y fs]; cbn [head app height]; lia.
Qed.

(** The first two keccak peaks are joined, the second on the left, until one is left. *)
Lemma union_all_run ks : forall t p fuel, length ks < fuel -> keccak_peaks p = root <$> t :: ks ->
  Forall (rep unions (tasks p)) (t :: ks) -> tasks_wf (tasks p) -> Forall (fun x => height x <= height t) ks ->
  exists U ts', union_all fuel p = (Ok tt, set_keccak_peaks [root U] (set_tasks (tasks p ++ ts') p)) /\
    grown unions (tasks p) ts' (t :: ks) [U] /\ leaves U ≡ₚ all_leaves (t :: ks) /\
    height U = height t + length ks.
Proof.
  induction ks as [|x ks IH]; intros t p fuel Hf Hps Hrep Hwf Hle;
    (destruct fuel as [|fuel]; [lia|]); cbn [union_all]; rewrite (run_bind _ _ p (keccak_peaks p) p) by done; rewrite Hps.
  - cbn [fmap list_fmap]. exists t, []. rewrite set_same, all_leaves_one.
    split; [|split; [by apply grown_refl|by rewrite Nat.add_0_r]]. f_equal. destruct p; cbn in *. by rewrite Hps.
  - cbn [fmap list_fmap]. set (p1 := set_keccak_peaks (root <$> ks) p).
    rewrite (run_bind _ _ _ tt p1) by done.
    pose proof Hrep as Hrep'. apply Forall_cons in Hrep' as [Hrt Hrx]. apply Forall_cons in Hrx as [Hrx Hrk].
    rewrite (run_bind _ _ _ _ _ (enqueue_union_ok p1 x t Hrx Hrt)). change (tasks p1) with (tasks p).
    set (n := length (tasks p)). set (nt := mk_pair unions _ _ _ _).
    assert (Hg : grown unions (tasks p) [nt] (t :: x :: ks) (Node n x t :: ks)).
    { destruct (grown_pair unions (tasks p) x t [] ks unions_ok) as (H1 & H2 & H3); [by repeat constructor|done|].
      split_and!; [done..|]. etransitivity; [exact H3|]. cbn [app]. unfold all_nodes. rewrite !bind_cons.
      by rewrite !app_assoc, (Permutation_app_comm (nodes x)). }
    pose proof Hg as (Hg1 & Hg2 & _). apply Forall_cons in Hle as [Hlx Hlk].
    set (p3 := set_keccak_peaks (root <$> Node n x t :: ks) (set_tasks (tasks p ++ [nt]) p1)).
    rewrite (run_bind _ _ _ tt p3) by done.
    destruct (IH (Node n x t) p3 fuel) as (U & ts' & E & Hgr & Hlv & Hh); [|done|exact Hg1|exact Hg2| |].
    { cbn [length] in Hf. lia. }
    { eapply Forall_impl; [exact Hlk|]. intros u Hu. cbv beta in Hu. cbn [height]. lia. }
    exists U, ([nt] ++ ts'). split; [refine (eq_trans E _); by rewrite app_assoc|].
    split; [by eapply (grown_trans unions _ [nt] ts')|]. split.
    + rewrite Hlv. unfold all_leaves. rewrite !bind_cons. cbn [leaves].
      by rewrite !app_assoc, (Permutation_app_comm (leaves x)).
    + rewrite Hh. cbn [height length]. lia.
Qed.

(** How deep the finished trees are, from the peaks' heights. *)
Lemma join_height fs T : fs <> [] -> Forall perfect fs -> decreasing fs ->
  (exists fs0 t, fs = fs0 ++ [t] /\ height T = match head fs0 with Some x => 1 + height x | None => height t end) ->
  length (all_leaves fs) <= 2 ^ height T /\ 2 ^ height T < 2 * length (all_leaves fs).
Proof.
  intros Hne Hp Hd (fs0 & t & -> & ->). destruct fs0 as [|x fs0]; cbn [head app] in *.
  - apply Forall_cons in Hp as [Hp _]. rewrite all_leaves_one, perfect_leaves by done.
    pose proof (Nat.pow_nonzero 2 (height t)). lia.
  - pose proof (decreasing_sum (x :: fs0 ++ [t]) (S (height x)) Hd Hp) as Hlt.
    apply Forall_cons in Hp as [Hx _]. pose proof (leaves_pos t) as Ht. inversion Hd as [|? ? _ Hb]; subst.
    unfold all_leaves in *. rewrite bind_cons, bind_app, !length_app, bind_singleton, perfect_leaves in * by done.
    cbn [Nat.pow plus] in *. split; [|lia]. apply Nat.lt_le_incl, Hlt. constructor; [lia|].
    eapply Forall_impl; [exact Hb|]. cbv beta. lia.
Qed.

Lemma union_height t ks U : Forall perfect (t :: ks) -> decreasing (t :: ks) ->
  height U = height t + length ks ->
  2 ^ height U <= length (all_leaves (t :: ks)) * length (all_leaves (t :: ks)).
Proof.
  intros Hp Hd ->. inversion Hd as [|? ? Hd' Hb]; subst. apply Forall_cons in Hp as [Hp _].
  pose proof (decreasing_length ks (height t) Hd' Hb).
  unfold all_leaves. rewrite bind_cons, length_app, perfect_leaves, Nat.pow_add_r by done.
  pose proof (Nat.pow_le_mono_r 2 (length ks) (height t)). nia.
Qed.

(** The finished plan: a task over a tree of joins and perhaps a tree of unions. *)
Record plan (p : Planner) (f : nat) (T : tree) (U : option tree) : Prop := mkPlan {
  plan_joins : rep joins (tasks p) T;
  plan_unions : forall u, U = Some u -> rep unions (tasks p) u;
  plan_final : tasks p !! f = Some (new_finalize f
    (1 + match U with Some u => Nat.max (height T) (height u) | None => height T end)
    (root T) ((fun u => [root u]) <$> U));
  plan_all : length (tasks p) = S f /\ nodes T ++ from_option nodes [] U ≡ₚ seq 0 f;
  plan_wf : tasks_wf (tasks p);
  plan_last : last_task p = Some f }.

Lemma finish_unions_run p ks : keccak_peaks p = root <$> ks -> Forall (rep unions (tasks p)) ks ->
  Forall perfect ks -> decreasing ks -> tasks_wf (tasks p) ->
  exists (U : option tree) ts', finish_unions p =
      (Ok ((fun u => [root u]) <$> U), set_keccak_peaks (root <$> option_list U) (set_tasks (tasks p ++ ts') p)) /\
    grown unions (tasks p) ts' ks (option_list U) /\ from_option leaves [] U ≡ₚ all_leaves ks /\
    2 ^ from_option height 0 U <= Nat.max 1 (length (all_leaves ks) * length (all_leaves ks)).
Proof.
  intros Hps Hrep Hperf Hdec Hwf. unfold finish_unions. rewrite (run_bind _ _ p (keccak_peaks p) p) by done.
  rewrite Hps. destruct ks as [|t ks]; cbn [fmap list_fmap].
  - exists None, []. rewrite set_same. split; [|split; [by apply grown_refl|done]].
    cbn. unfold mret, state_ret. do 2 f_equal. destruct p; cbn in *. by rewrite Hps.
  - inversion Hdec as [|? ? _ Hb]; subst.
    destruct (union_all_run ks t p (length (root t :: (root <$> ks)))) as (U & ts' & E & Hg & Hlv & Hh); [|done..| |].
    { cbn [length]. rewrite length_fmap. lia. }
    { eapply Forall_impl; [exact Hb|]. cbv beta. lia. }
    rewrite (run_bind _ _ _ _ _ E). exists (Some U), ts'. split; [done|]. split; [exact Hg|].
    split; [done|]. cbn [from_option]. pose proof (union_height t ks U Hperf Hdec Hh). lia.
Qed.

Lemma finish_run p fs ks : Inv p fs ks -> fs <> [] ->
  exists f p' T U, finish p = (Ok f, p') /\ plan p' f T U /\
    leaves T = all_leaves fs /\ from_option leaves [] U ≡ₚ all_leaves ks /\
    (length (all_leaves fs) <= 2 ^ height T /\ 2 ^ height T < 2 * length (all_leaves fs)) /\
    2 ^ from_option height 0 U <= Nat.max 1 (length (all_leaves ks) * length (all_leaves ks)) /\
    extends p p' /\ peaks p' = [root T] /\ keccak_peaks p' = root <$> option_list U.
Proof.
  intros [Hp Hk Hf Hks Hpf Hpk Hdf Hdk Hw Hn Ho] Hne.
  destruct (exists_last Hne) as (fs0 & t & ->). rename fs0 into fs.
  destruct (finish_unions_run p ks Hk Hks Hpk Hdk Hw) as (U & ts1 & E1 & (Hu1 & Hu2 & Hu3) & HlU & HhU).
  set (p1 := set_keccak_peaks _ _) in E1.
  apply decreasing_app in Hdf as [Hdf Hdx].
  destruct (join_all_run fs t p1 (length (peaks p))) as (T & ts2 & E2 & (Ht1 & Ht2 & Ht3) & HlT & HhT);
    [rewrite Hp, length_fmap, length_app; cbn [length]; lia|done|by apply reps_app|done|done| |].
  { eapply Forall_impl; [exact Hdx|]. cbv beta. lia. }
  set (p2 := set_peaks [root T] (set_tasks (tasks p1 ++ ts2) p1)) in E2. change (tasks p1) with (tasks p ++ ts1) in *.
  set (f := length (tasks p2)).
  set (h := 1 + match U with Some u => Nat.max (height T) (height u) | None => height T end).
  set (final := new_finalize f h (root T) ((fun u => [root u]) <$> U)).
  rewrite Forall_singleton in Ht1.
  assert (HU : forall u, U = Some u -> rep unions (tasks p2) u).
  { intros u ->. apply Forall_inv in Hu1. by apply rep_app. }
  assert (E3 : enqueue_finalize (root T) ((fun u => [root u]) <$> U) p2 = (Ok f, set_tasks (tasks p2 ++ [final]) p2)).
  { unfold enqueue_finalize. rewrite (run_bind _ _ p2 f p2) by done.
    destruct (rep_root _ _ _ joins_ok Ht1) as (x & Hx & Ex). rewrite (run_bind _ _ _ _ _ (get_task_run p2 _ _ Hx)).
    destruct U as [u|]; cbn [fmap option_fmap option_map mbind option_bind list_max_opt foldr].
    - destruct (rep_root _ _ _ unions_ok (HU u eq_refl)) as (y & Hy & Ey).
      rewrite (run_bind _ _ p2 h p2); [done|]. rewrite (run_bind _ _ _ _ _ (get_task_run p2 _ _ Hy)), Ex, Ey. done.
    - rewrite (run_bind _ _ p2 h p2); [done|]. by rewrite Ex. }
  exists f, (set_last (Some f) (set_tasks (tasks p2 ++ [final]) p2)), T, U.
  assert (Hnodes : nodes T ++ from_option nodes [] U ≡ₚ seq 0 f).
  { assert (Ef : seq 0 f = seq 0 (length (tasks p)) ++ seq (length (tasks p)) (length ts1) ++ seq (length (tasks p ++ ts1)) (length ts2)).
    { unfold f. cbn [tasks p2 set_peaks set_tasks]. rewrite !length_app, !seq_app, <- app_assoc. done. }
    rewrite all_nodes_one in Ht3. rewrite Ht3, Ef, <- Hn.
    assert (E : from_option nodes [] U = all_nodes (option_list U)).
    { destruct U as [u|]; [symmetry; apply (all_nodes_one u)|done]. }
    rewrite E, Hu3, <- !app_assoc. apply Permutation_app_head.
    rewrite (Permutation_app_comm (seq (length (tasks p ++ ts1)) _)). by rewrite <- !app_assoc. }
  split; [|split; [|split; [done|split; [done|split; [|split; [done|split; [|done]]]]]]].
  - unfold finish. rewrite (run_bind _ _ p (peaks p) p) by done.
    destruct (peaks p) as [|q qs] eqn:Ep.
    { rewrite fmap_root_app in Hp. by destruct (root <$> fs). }
    rewrite (run_bind _ _ _ _ _ E1).
    rewrite (run_bind _ _ p1 None p1) by (unfold gets; cbn; by rewrite Ho).
    refine (run_bind _ _ _ tt (set_last (Some f) (set_tasks (tasks p2 ++ [final]) p2)) _).
    rewrite (run_bind _ _ _ _ _ E2). rewrite (run_bind _ _ p2 [root T] p2) by done.
    rewrite (run_bind _ _ p2 (root T) p2) by done. by rewrite (run_bind _ _ _ _ _ E3).
  - constructor; cbn [tasks set_last set_tasks last_task]; try done.
    + by apply rep_app.
    + intros u Hu. by apply rep_app, HU.
    + by rewrite lookup_app_r, Nat.sub_diag by (unfold f; lia).
    + split; [|done]. rewrite length_app. cbn [length]. unfold f. lia.
    + apply tasks_wf_snoc; [done|done|]. cbn [final new_finalize depends_on keccak_depends_on].
      apply Forall_app. split; [|].
      * rewrite Forall_singleton. apply (rep_bound joins _ T Ht1).
      * destruct U as [u|]; cbn; [|by constructor]. rewrite Forall_singleton. apply (rep_bound unions). by apply HU.
  - apply join_height; [done..|by apply decreasing_app|]. by exists fs, t.
  - split; [|done]. exists (ts1 ++ ts2 ++ [final]). cbn [tasks set_last set_tasks p2 set_peaks]. by rewrite <- !app_assoc.
Qed.

(** ** Whole plans *)

Inductive arrival := Seg | Kec.
#[export] Instance arrival_eq_dec : EqDecision arrival.
Proof. solve_decision. Defined.

Definition enqueue (a : arrival) : M nat := match a with Seg => enqueue_segment | Kec => enqueue_keccak end.

(** The task numbers handed out for the arrivals of one kind, in order. *)
Fixpoint picked (a : arrival) (ops : list arrival) (nums : list nat) : list nat :=
  match ops, nums with
  | o :: ops, n :: nums => if decide (o = a) then n :: picked a ops nums else picked a ops nums
  | _, _ => []
  end.

Lemma enqueue_all_run ops : forall p fs ks, Inv p fs ks ->
  exists nums p' fs' ks', mapM enqueue ops p = (Ok nums, p') /\ length nums = length ops /\ Inv p' fs' ks' /\
    all_leaves fs' = all_leaves fs ++ picked Seg ops nums /\ all_leaves ks' = all_leaves ks ++ picked Kec ops nums.
Proof.
  induction ops as [|o ops IH]; intros p fs ks Hi; cbn [mapM].
  - exists [], p, fs, ks. by rewrite !app_nil_r.
  - destruct o; cbn [enqueue].
    + destruct (enqueue_segment_run p fs ks Hi) as (p1 & fs1 & E1 & Hi1 & _ & Hl1).
      destruct (IH p1 fs1 ks Hi1) as (nums & p2 & fs2 & ks2 & E2 & Hn & Hi2 & Hl2 & Hk2).
      rewrite (run_bind _ _ _ _ _ E1), (run_bind _ _ _ _ _ E2).
      exists (length (tasks p) :: nums), p2, fs2, ks2. cbn [length picked decide]. rewrite Hn, Hl2, Hl1, <- app_assoc. done.
    + destruct (enqueue_keccak_run p fs ks Hi) as (p1 & ks1 & E1 & Hi1 & _ & Hl1).
      destruct (IH p1 fs ks1 Hi1) as (nums & p2 & fs2 & ks2 & E2 & Hn & Hi2 & Hl2 & Hk2).
      rewrite (run_bind _ _ _ _ _ E1), (run_bind _ _ _ _ _ E2).
      exists (length (tasks p) :: nums), p2, fs2, ks2. cbn [length picked decide]. rewrite Hn, Hk2, Hl1, <- app_assoc. done.
Qed.

Lemma picked_length a ops nums : length nums = length ops -> length (picked a ops nums) = length (filter (.= a) ops).
Proof.
  revert nums. induction ops as [|o ops IH]; intros [|n nums] Hl; cbn [length] in Hl; try done.
  rewrite filter_cons. cbn [picked]. case_decide; cbn [length]; rewrite IH by lia; done.
Qed.

(** C16: The finished plan proves everything, once, with the least depth of joins.
    After any sequence of segments and keccak claims with at least one segment,
    every call succeeds and [finish] returns the plan's last task, a [Finalize]
    that depends on the root of a binary tree of [Join] tasks whose leaves are the
    segments in the order they arrived, and, if there were claims, on the root of a
    tree of [Union] tasks over exactly the claims.  Every other task is a node of
    one of the two trees and of only one place in it, each task's height is its
    tree's height, and every dependency has a smaller number.  For [n] segments the
    join tree has depth [ceil (log2 n)]; the union tree at most twice that. *)
Theorem plan_correct ops : Seg ∈ ops ->
  exists nums p f p' T U,
    mapM enqueue ops default_planner = (Ok nums, p) /\ finish p = (Ok f, p') /\ plan p' f T U /\
    leaves T = picked Seg ops nums /\ from_option leaves [] U ≡ₚ picked Kec ops nums /\
    let n := length (filter (.= Seg) ops) in let k := length (filter (.= Kec) ops) in
    n <= 2 ^ height T /\ 2 ^ height T < 2 * n /\ 2 ^ from_option height 0 U <= Nat.max 1 (k * k).
Proof.
  intros Hin. destruct (enqueue_all_run ops default_planner [] [] default_inv)
    as (nums & p & fs & ks & E & Hl & Hi & Hlf & Hlk). cbn [app all_leaves] in Hlf, Hlk.
  change (all_leaves []) with (@nil nat) in Hlf, Hlk. cbn [app] in Hlf, Hlk.
  pose proof (picked_length Seg ops nums Hl) as Hn. pose proof (picked_length Kec ops nums Hl) as Hk.
  assert (Hne : fs <> []).
  { intros ->. rewrite <- Hlf in Hn. cbn in Hn. destruct (filter (.= Seg) ops) eqn:Ef; [|done].
    assert (Hf : Seg ∈ filter (.= Seg) ops) by (by apply list_elem_of_filter).
    rewrite Ef in Hf. by apply elem_of_nil in Hf. }
  destruct (finish_run p fs ks Hi Hne) as (f & p' & T & U & Ef & Hp & HlT & HlU & [Hh1 Hh2] & HhU & _).
  exists nums, p, f, p', T, U. rewrite Hlf, Hn in *. rewrite Hlk, Hk in *. done.
Qed.

Lemma plan_correct_witness :
  exists nums p f p', mapM enqueue [Kec; Seg; Kec; Seg; Seg; Kec] default_planner = (Ok nums, p) /\ finish p = (Ok f, p').
Proof.
  destruct (plan_correct [Kec; Seg; Kec; Seg; Seg; Kec]) as (nums & p & f & p' & T & U & H1 & H2 & _).
  - right. left.
  - exists nums, p, f, p'. split; [exact H1|exact H2].
Defined.

(** ** Any order of calls *)

Inductive call := CArrive (a : arrival) | CFinish | CNext.

#[export] Instance task_eq_dec : EqDecision Task.
Proof. assert (EqDecision Command) by solve_decision. solve_decision. Defined.
#[export] Instance planner_eq_dec : EqDecision Planner.
Proof. solve_decision. Defined.

(** The tasks that the calls hand out, and the planner after them; a panic stops. *)
Fixpoint run_calls (cs : list call) (p : Planner) : option (list Task * Planner) :=
  match cs with
  | [] => Some ([], p)
  | c :: cs =>
      let '(r, p') := match c with
                      | CArrive a => (enqueue a ≫= fun _ => mret []) p
                      | CFinish => (finish ≫= fun _ => mret []) p
                      | CNext => (t ← next_task; mret (option_list t)) p
                      end in
      match r with
      | Ok out => '(outs, p'') ← run_calls cs p'; Some (out ++ outs, p'')
      | Err _ => if decide (p' = p) then run_calls cs p' else None
      | Panic => None
      end
  end.


(** A planner that calls can reach: open, or finished with single peaks. *)
Definition reachable (p : Planner) : Prop :=
  tasks_wf (tasks p) /\ consumer_position p <= length (tasks p) /\
  ((exists fs ks, Inv p fs ks) \/
   (exists f r u, last_task p = Some f /\ peaks p = [r] /\ keccak_peaks p = option_list u)).

(** One call hands out the next tasks in order, if any. *)
Definition handed (p : Planner) (out : list Task) (p' : Planner) : Prop :=
  take (consumer_position p) (tasks p) ++ out = take (consumer_position p') (tasks p').

Lemma extends_handed p p' : reachable p -> extends p p' -> handed p [] p'.
Proof.
  intros (_ & Hc & _) [[ts Et] Ec]. unfold handed. rewrite Et, Ec, app_nil_r, take_app_le by done. done.
Qed.

Lemma extends_position p p' : consumer_position p <= length (tasks p) -> extends p p' ->
  consumer_position p' <= length (tasks p').
Proof. intros Hc [[ts Et] Ec]. rewrite Et, Ec, length_app. lia. Qed.

Lemma next_task_run p : reachable p ->
  exists t p', next_task p = (Ok t, p') /\ reachable p' /\ handed p (option_list t) p'.
Proof.
  intros (Hw & Hc & Hr). unfold next_task. rewrite (run_bind _ _ p (consumer_position p) p) by done.
  rewrite (run_bind _ _ p (length (tasks p)) p) by done.
  destruct (Nat.ltb_spec (consumer_position p) (length (tasks p))) as [Hlt|Hge].
  - destruct (lookup_lt_is_Some_2 _ _ Hlt) as [t Ht]. rewrite (run_bind _ _ _ _ _ (get_task_run p _ _ Ht)).
    exists (Some t), (set_position (consumer_position p + 1) p). split; [done|].
    split; [|unfold handed; cbn; by rewrite Nat.add_1_r, (take_S_r _ _ _ Ht)].
    split; [done|]. split; [cbn; lia|]. destruct Hr as [(fs & ks & Hi)|Hr]; [left; exists fs, ks; by destruct Hi|by right].
  - exists None, p. split; [done|]. split; [done|]. unfold handed. by rewrite app_nil_r.
Qed.

Lemma finished_finish p f r u : last_task p = Some f -> peaks p = [r] -> keccak_peaks p = option_list u ->
  finish p = (Ok f, p).
Proof.
  intros Hl Hp Hk. destruct p as [ts ps ks pos l]. cbn in *. subst. by destruct u.
Qed.

Lemma enqueue_total a p : reachable p ->
  (exists n p', enqueue a p = (Ok n, p') /\ reachable p' /\ handed p [] p') \/ enqueue a p = (Err PlanFinalized, p).
Proof.
  intros Hr. pose proof Hr as (Hw & Hc & [(fs & ks & Hi)|(f & r & u & Hl & _)]).
  - left. assert (H : exists n p' fs' ks', enqueue a p = (Ok n, p') /\ Inv p' fs' ks' /\ extends p p').
    { destruct a; cbn [enqueue].
      - destruct (enqueue_segment_run p fs ks Hi) as (p' & fs' & E & Hi' & He & _). eauto 10.
      - destruct (enqueue_keccak_run p fs ks Hi) as (p' & ks' & E & Hi' & He & _). eauto 10. }
    destruct H as (n & p' & fs' & ks' & E & Hi' & He). exists n, p'.
    split; [done|]. split; [|by apply extends_handed]. split; [apply Hi'|]. split; [by eapply extends_position|]. eauto.
  - right. destruct a; cbn [enqueue]; unfold enqueue_segment, enqueue_keccak, if_open, mbind, state_bind, gets; by rewrite Hl.
Qed.

Lemma finish_total p : reachable p ->
  (exists n p', finish p = (Ok n, p') /\ reachable p' /\ handed p [] p') \/ finish p = (Err PlanNotStartedString, p).
Proof.
  intros Hr. pose proof Hr as (Hw & Hc & [(fs & ks & Hi)|(f & r & u & Hl & Hp & Hk)]).
  - destruct (decide (fs = [])) as [->|Hne].
    + right. unfold finish, mbind, state_bind, gets. by rewrite (inv_peaks _ _ _ Hi).
    + left. destruct (finish_run p fs ks Hi Hne) as (f & p' & T & U & E & Hpl & _ & _ & _ & _ & He & Hps & Hks).
      exists f, p'. split; [done|]. split; [|by apply extends_handed].
      split; [apply Hpl|]. split; [by eapply extends_position|]. right.
      exists f, (root T), (root <$> U). split; [apply Hpl|]. split; [done|]. rewrite Hks. by destruct U.
  - left. exists f, p. rewrite (finished_finish p f r u) by done. split; [done|]. split; [done|].
    unfold handed. by rewrite app_nil_r.
Qed.

Lemma run_calls_reachable cs : forall p, reachable p ->
  exists outs p', run_calls cs p = Some (outs, p') /\ reachable p' /\ handed p outs p'.
Proof.
  induction cs as [|c cs IH]; intros p Hr; cbn [run_calls].
  { exists [], p. split; [done|]. split; [done|]. unfold handed. by rewrite app_nil_r. }
  assert (Hok : forall out p1, reachable p1 -> handed p out p1 ->
    exists outs p', ('(outs, p'') ← run_calls cs p1; Some (out ++ outs, p'')) = Some (outs, p') /\ reachable p' /\ handed p outs p').
  { intros out p1 Hr1 Hh1. destruct (IH p1 Hr1) as (outs & p' & E & Hr' & Hh'). exists (out ++ outs), p'.
    cbn. rewrite E. split; [done|]. split; [done|]. unfold handed in *. by rewrite <- Hh', app_assoc, Hh1. }
  assert (Herr : forall e, exists outs p',
    match (Err e : outcome PlannerErr (list Task)) with
    | Ok out => '(outs, p'') ← run_calls cs p; Some (out ++ outs, p'')
    | Err _ => if decide (p = p) then run_calls cs p else None
    | Panic => None
    end = Some (outs, p') /\ reachable p' /\ handed p outs p').
  { intros e. cbn. rewrite decide_True by done. by apply IH. }
  destruct c as [a| |].
  - destruct (enqueue_total a p Hr) as [(n & p1 & E & Hr1 & Hh1)|E]; unfold mbind at 1, state_bind; rewrite E; [by apply Hok|apply (Herr PlanFinalized)].
  - destruct (finish_total p Hr) as [(n & p1 & E & Hr1 & Hh1)|E]; unfold mbind at 1, state_bind; rewrite E; [by apply Hok|apply (Herr PlanFinalized)].
  - destruct (next_task_run p Hr) as (t & p1 & E & Hr1 & Hh1). unfold mbind at 1, state_bind. rewrite E. by apply Hok.
Qed.

(** In any order of calls (segments, claims, [finish], [next_task], also after the plan
    is finished) no call panics, a call that fails leaves the planner as it was,
    and the tasks handed out are the plan's tasks from the first on, each once and
    in order, so that a task is handed out after everything it depends on. *)
Theorem planner_any_order cs :
  exists outs p, run_calls cs default_planner = Some (outs, p) /\
    outs = take (consumer_position p) (tasks p) /\
    forall i t, outs !! i = Some t -> task_number t = i /\ Forall (fun d => d < i) (depends_on t ++ keccak_depends_on t).
Proof.
  destruct (run_calls_reachable cs default_planner) as (outs & p & E & (Hw & _) & Hh).
  { split; [done|]. split; [done|]. left. exists [], []. apply default_inv. }
  exists outs, p. split; [done|]. unfold handed in Hh. cbn in Hh. split; [done|].
  intros i t Ht. rewrite Hh in Ht. apply lookup_take_Some in Ht as [Ht _]. by apply Hw.
Qed.
