(* ===== verification/Serde.v ===== *)
(** * The zkVM's word-based serde format

    Every method of the [Serializer] and the [Deserializer], over streams of [u32]
    words.  serde's data model, the traversals that [derive] generates for its
    shapes and the visitors are the clients: a value is a tree of the data model's
    kinds, a shape says which methods a type's implementation calls. *)
From S2P Require Export Prelude.
From Stdlib Require Strings.String.
Open Scope word_scope.
Open Scope Z_scope.

Module Serde.

(* src/risc0/risc0/zkvm/src/serde/err.rs:20-39 Error *)
Inductive Error :=
  | Custom (msg : String.string)
  | DeserializeBadBool
  | DeserializeBadChar
  | DeserializeBadOption
  | DeserializeBadUtf8
  | DeserializeUnexpectedEnd
  | NotSupported
  | SerializeBufferFull.

(** A stream of words, written at its end and read from its front. *)
Abbreviation M := (state (list Z) Error).

(* source: src/risc0/risc0/zkvm/src/serde/serializer.rs *)

(* L38-42 Vec<u32>::write_words *)
Definition write_words (words : list Z) : M unit := modify (fun stream => stream ++ words).

(** [chunks_exact] and its remainder, padded with zeros. *)
Fixpoint padded_words (bytes : list Z) : list Z :=
  match bytes with
  | b0 :: b1 :: b2 :: b3 :: bytes => from_le_bytes [b0; b1; b2; b3] :: padded_words bytes
  | [] => []
  | last_word => [from_le_bytes (last_word ++ replicate (4 - length last_word) 0)]
  end.

(* L44-55 Vec<u32>::write_padded_bytes *)
Definition write_padded_bytes (bytes : list Z) : M unit := modify (fun stream => stream ++ padded_words bytes).

(* L165-167 Serializer::serialize_u32 *)
Definition serialize_u32 (v : Z) : M unit := write_words [v].
(* L157-159 Serializer::serialize_u8 *)
Definition serialize_u8 (v : Z) : M unit := serialize_u32 v.
(* L161-163 Serializer::serialize_u16 *)
Definition serialize_u16 (v : Z) : M unit := serialize_u32 v.
(* L169-172 Serializer::serialize_u64 *)
Definition serialize_u64 (v : Z) : M unit :=
  serialize_u32 (wrap 32 (v .& 0xFFFFFFFF));; serialize_u32 (wrap 32 ((v .>> 32) .& 0xFFFFFFFF)).
(* L174-176 Serializer::serialize_u128 *)
Definition serialize_u128 (v : Z) : M unit := write_padded_bytes (le_bytes 16 v).
(* L133-135 Serializer::serialize_bool *)
Definition serialize_bool (v : bool) : M unit := serialize_u8 (if v then 1 else 0).
(* L145-147 Serializer::serialize_i32 *)
Definition serialize_i32 (v : Z) : M unit := serialize_u32 (wrap 32 v).
(* L137-139 Serializer::serialize_i8 *)
Definition serialize_i8 (v : Z) : M unit := serialize_i32 v.
(* L141-143 Serializer::serialize_i16 *)
Definition serialize_i16 (v : Z) : M unit := serialize_i32 v.
(* L149-151 Serializer::serialize_i64 *)
Definition serialize_i64 (v : Z) : M unit := serialize_u64 (wrap 64 v).
(* L153-155 Serializer::serialize_i128 *)
Definition serialize_i128 (v : Z) : M unit := serialize_u128 (wrap 128 v).
(* L178-180 Serializer::serialize_f32, of the float's bits *)
Definition serialize_f32 (bits : Z) : M unit := serialize_u32 bits.
(* L182-184 Serializer::serialize_f64, of the float's bits *)
Definition serialize_f64 (bits : Z) : M unit := serialize_u64 bits.
(* L186-188 Serializer::serialize_char *)
Definition serialize_char (c : Z) : M unit := serialize_u32 c.
(* L190-194 Serializer::serialize_str, of the string's bytes *)
Definition serialize_str (bytes : list Z) : M unit :=
  serialize_u32 (wrap 32 (Z.of_nat (length bytes)));; write_padded_bytes bytes.
(* L126-131 Serializer::collect_str *)
Definition collect_str (displayed : list Z) : M unit := serialize_str displayed.
(* L205-208 Serializer::serialize_bytes *)
Definition serialize_bytes (v : list Z) : M unit :=
  serialize_u32 (wrap 32 (Z.of_nat (length v)));; write_padded_bytes v.
(* L210-212 Serializer::serialize_none *)
Definition serialize_none : M unit := serialize_u32 0.
(** In the methods on compound values [value] is [value.serialize(self)]. *)
(* L214-220 Serializer::serialize_some *)
Definition serialize_some (value : M unit) : M unit := serialize_u32 1;; value.
(* L222-224 Serializer::serialize_unit *)
Definition serialize_unit : M unit := mret tt.
(* L226-228 Serializer::serialize_unit_struct *)
Definition serialize_unit_struct : M unit := mret tt.
(* L230-237 Serializer::serialize_unit_variant *)
Definition serialize_unit_variant (variant_index : Z) : M unit := serialize_u32 variant_index.
(* L239-244 Serializer::serialize_newtype_struct *)
Definition serialize_newtype_struct (value : M unit) : M unit := value.
(* L246-258 Serializer::serialize_newtype_variant *)
Definition serialize_newtype_variant (variant_index : Z) (value : M unit) : M unit :=
  serialize_u32 variant_index;; value.

(** [usize::try_into::<u32>().unwrap()]. *)
Definition try_into_u32 (n : Z) : M Z := lift (if decide (u32 n) then Ok n else Panic).

(* L260-268 Serializer::serialize_seq *)
Definition serialize_seq (len : option Z) : M unit :=
  match len with
  | Some val => v ← try_into_u32 val; serialize_u32 v
  | None => throw NotSupported
  end.
(* L270-272 Serializer::serialize_tuple *)
Definition serialize_tuple (len : Z) : M unit := mret tt.
(* L274-280 Serializer::serialize_tuple_struct *)
Definition serialize_tuple_struct (len : Z) : M unit := mret tt.
(* L282-291 Serializer::serialize_tuple_variant *)
Definition serialize_tuple_variant (variant_index len : Z) : M unit := serialize_u32 variant_index.
(* L293-301 Serializer::serialize_map *)
Definition serialize_map (len : option Z) : M unit :=
  match len with
  | Some val => v ← try_into_u32 val; serialize_u32 v
  | None => throw NotSupported
  end.
(* L303-305 Serializer::serialize_struct *)
Definition serialize_struct (len : Z) : M unit := mret tt.
(* L307-316 Serializer::serialize_struct_variant *)
Definition serialize_struct_variant (variant_index len : Z) : M unit := serialize_u32 variant_index.

(* L319-333 SerializeSeq for Serializer, serialize_element *)
Definition serialize_element (value : M unit) : M unit := value.
(* L335-381 SerializeTuple, SerializeTupleStruct and SerializeTupleVariant for Serializer, serialize_element and serialize_field *)
Definition serialize_field (value : M unit) : M unit := value.
(* L383-392 SerializeMap for Serializer, serialize_key *)
Definition serialize_key (key : M unit) : M unit := key.
(* L394-404 SerializeMap for Serializer, serialize_value and end *)
Definition serialize_value (value : M unit) : M unit := value.
(* L406-436 SerializeStruct and SerializeStructVariant for Serializer, serialize_field *)
Definition serialize_named_field (value : M unit) : M unit := value.

(** ** Reading *)

(** [bytemuck::cast_slice] of the words on a little-endian host. *)
Definition cast_bytes (words : list Z) : list Z := words ≫= le_bytes 4.

(* src/risc0/risc0/zkvm/platform/src/lib.rs:54-57 align_up *)
Definition align_up (addr align : Z) : Z :=
  let mask := align - 1 in wrap 64 (addr + mask) .& (mask .^ (2 ^ 64 - 1)).

(* source: src/risc0/risc0/zkvm/src/serde/deserializer.rs *)

(* L48-57 <&[u32]>::read_words, into a buffer of [n] words *)
Definition read_words (n : nat) : M (list Z) := fun self =>
  if (length self <? n)%nat then (Err DeserializeUnexpectedEnd, self)
  else (Ok (take n self), drop n self).

(* L59-68 <&[u32]>::read_padded_bytes, into a buffer of [n] bytes *)
Definition read_padded_bytes (n : Z) : M (list Z) := fun self =>
  let bytes := cast_bytes self in
  if Z.of_nat (length bytes) <? n then (Err DeserializeUnexpectedEnd, self)
  else (Ok (take (Z.to_nat n) bytes), drop (Z.to_nat (align_up n 4 / 4)) self).

(* L201-205 Deserializer::try_take_word *)
Definition try_take_word : M Z :=
  val ← read_words 1; lift (unwrap (val !! 0%nat)).
(* L207-211 Deserializer::try_take_dword *)
Definition try_take_dword : M Z :=
  low ← try_take_word;
  high ← try_take_word;
  mret (low .| wrap 64 (Z.shiftl high 32)).

Section Visit.
Context {V : Type}.

(* L221-226 Deserializer::deserialize_any *)
Definition deserialize_any : M V := throw NotSupported.
(* L228-238 Deserializer::deserialize_bool *)
Definition deserialize_bool (visit_bool : bool -> M V) : M V :=
  w ← try_take_word;
  val ← (if w =? 0 then mret false else if w =? 1 then mret true else throw DeserializeBadBool);
  visit_bool val.
(* L240-245 Deserializer::deserialize_i8 *)
Definition deserialize_i8 (visit_i32 : Z -> M V) : M V := w ← try_take_word; visit_i32 (signed 32 w).
(* L247-252 Deserializer::deserialize_i16 *)
Definition deserialize_i16 (visit_i32 : Z -> M V) : M V := w ← try_take_word; visit_i32 (signed 32 w).
(* L254-259 Deserializer::deserialize_i32 *)
Definition deserialize_i32 (visit_i32 : Z -> M V) : M V := w ← try_take_word; visit_i32 (signed 32 w).
(* L261-266 Deserializer::deserialize_i64 *)
Definition deserialize_i64 (visit_i64 : Z -> M V) : M V := w ← try_take_dword; visit_i64 (signed 64 w).
(* L268-275 Deserializer::deserialize_i128 *)
Definition deserialize_i128 (visit_i128 : Z -> M V) : M V :=
  bytes ← read_padded_bytes 16; visit_i128 (signed 128 (from_le_bytes bytes)).
(* L277-282 Deserializer::deserialize_u8 *)
Definition deserialize_u8 (visit_u32 : Z -> M V) : M V := w ← try_take_word; visit_u32 w.
(* L284-289 Deserializer::deserialize_u16 *)
Definition deserialize_u16 (visit_u32 : Z -> M V) : M V := w ← try_take_word; visit_u32 w.
(* L291-296 Deserializer::deserialize_u32 *)
Definition deserialize_u32 (visit_u32 : Z -> M V) : M V := w ← try_take_word; visit_u32 w.
(* L298-303 Deserializer::deserialize_u64 *)
Definition deserialize_u64 (visit_u64 : Z -> M V) : M V := w ← try_take_dword; visit_u64 w.
(* L305-312 Deserializer::deserialize_u128 *)
Definition deserialize_u128 (visit_u128 : Z -> M V) : M V :=
  bytes ← read_padded_bytes 16; visit_u128 (from_le_bytes bytes).
(* L314-319 Deserializer::deserialize_f32 *)
Definition deserialize_f32 (visit_f32 : Z -> M V) : M V := w ← try_take_word; visit_f32 w.
(* L321-326 Deserializer::deserialize_f64 *)
Definition deserialize_f64 (visit_f64 : Z -> M V) : M V := w ← try_take_dword; visit_f64 w.

(** [char::from_u32]: the Unicode scalar values. *)
Definition is_char (c : Z) : bool := (0 <=? c) && (c <? 0x110000) && negb ((0xD800 <=? c) && (c <? 0xE000)).

(* L328-334 Deserializer::deserialize_char *)
Definition deserialize_char (visit_char : Z -> M V) : M V :=
  w ← try_take_word;
  if is_char w then visit_char w else throw DeserializeBadChar.

(** [String::from_utf8]'s check: well-formed byte sequences of the Unicode standard. *)
Definition cont (b : Z) : bool := (0x80 <=? b) && (b <? 0xC0).
Fixpoint is_utf8 (bs : list Z) : bool :=
  match bs with
  | [] => true
  | b0 :: bs =>
      if (0 <=? b0) && (b0 <? 0x80) then is_utf8 bs else
      match bs with
      | b1 :: bs =>
          if (0xC2 <=? b0) && (b0 <? 0xE0) then cont b1 && is_utf8 bs else
          match bs with
          | b2 :: bs =>
              if (0xE0 <=? b0) && (b0 <? 0xF0) then
                cont b1 && cont b2 && (if b0 =? 0xE0 then 0xA0 <=? b1 else if b0 =? 0xED then b1 <? 0xA0 else true)
                && is_utf8 bs
              else
              match bs with
              | b3 :: bs =>
                  (0xF0 <=? b0) && (b0 <? 0xF5) && cont b1 && cont b2 && cont b3
                  && (if b0 =? 0xF0 then 0x90 <=? b1 else if b0 =? 0xF4 then b1 <? 0x90 else true)
                  && is_utf8 bs
              | [] => false
              end
          | [] => false
          end
      | [] => false
      end
  end.

(* L336-347 Deserializer::deserialize_str *)
Definition deserialize_str (visit_string : list Z -> M V) : M V :=
  len_bytes ← try_take_word;
  bytes ← read_padded_bytes len_bytes;
  if is_utf8 bytes then visit_string bytes else throw DeserializeBadChar.
(* L349-354 Deserializer::deserialize_string *)
Definition deserialize_string (visit_string : list Z -> M V) : M V := deserialize_str visit_string.
(* L356-367 Deserializer::deserialize_bytes *)
Definition deserialize_bytes (visit_byte_buf : list Z -> M V) : M V :=
  len_bytes ← try_take_word;
  bytes ← read_padded_bytes len_bytes;
  visit_byte_buf bytes.
(* L369-374 Deserializer::deserialize_byte_buf *)
Definition deserialize_byte_buf (visit_byte_buf : list Z -> M V) : M V := deserialize_bytes visit_byte_buf.
(** [visit_some] reads on from the deserializer it is given. *)
(* L376-385 Deserializer::deserialize_option *)
Definition deserialize_option (visit_none visit_some : M V) : M V :=
  w ← try_take_word;
  if w =? 0 then visit_none else if w =? 1 then visit_some else throw DeserializeBadOption.
(* L387-392 Deserializer::deserialize_unit *)
Definition deserialize_unit (visit_unit : M V) : M V := visit_unit.
(* L394-399 Deserializer::deserialize_unit_struct *)
Definition deserialize_unit_struct (visit_unit : M V) : M V := deserialize_unit visit_unit.
(* L401-406 Deserializer::deserialize_newtype_struct *)
Definition deserialize_newtype_struct (visit_newtype_struct : M V) : M V := visit_newtype_struct.
(** [visit_seq] and [visit_map] are given the access's [len]. *)
(* L408-417 Deserializer::deserialize_seq *)
Definition deserialize_seq (visit_seq : Z -> M V) : M V := len ← try_take_word; visit_seq len.
(* L419-427 Deserializer::deserialize_tuple *)
Definition deserialize_tuple (len : Z) (visit_seq : Z -> M V) : M V := visit_seq len.
(* L429-439 Deserializer::deserialize_tuple_struct *)
Definition deserialize_tuple_struct (len : Z) (visit_seq : Z -> M V) : M V := deserialize_tuple len visit_seq.
(* L441-450 Deserializer::deserialize_map *)
Definition deserialize_map (visit_map : Z -> M V) : M V := len ← try_take_word; visit_map len.
(* L452-462 Deserializer::deserialize_struct *)
Definition deserialize_struct (fields : Z) (visit_seq : Z -> M V) : M V := deserialize_tuple fields visit_seq.
(* L464-474 Deserializer::deserialize_enum *)
Definition deserialize_enum (visit_enum : M V) : M V := visit_enum.
(* L476-481 Deserializer::deserialize_identifier *)
Definition deserialize_identifier : M V := throw NotSupported.
(* L483-488 Deserializer::deserialize_ignored_any *)
Definition deserialize_ignored_any : M V := throw NotSupported.

(** The accesses: [seed] is [DeserializeSeed::deserialize(seed, deserializer)]. *)
(* L98-124 SeqAccess, next_element_seed: the element and the new [len] *)
Definition next_element_seed (seed : M V) (len : Z) : M (option V * Z) :=
  if 0 <? len then v ← seed; mret (Some v, len - 1) else mret (None, len).
(* L161-179 MapAccess, next_key_seed *)
Definition next_key_seed (seed : M V) (len : Z) : M (option V * Z) :=
  if 0 <? len then v ← seed; mret (Some v, len - 1) else mret (None, len).
(* L181-183 MapAccess, next_value_seed *)
Definition next_value_seed (seed : M V) : M V := seed.
(* L129-131 VariantAccess::unit_variant *)
Definition unit_variant : M unit := mret tt.
(* L133-135 VariantAccess::newtype_variant_seed *)
Definition newtype_variant_seed (seed : M V) : M V := seed.
(* L137-139 VariantAccess::tuple_variant *)
Definition tuple_variant (len : Z) (visit_seq : Z -> M V) : M V := deserialize_tuple len visit_seq.
(* L141-147 VariantAccess::struct_variant *)
Definition struct_variant (fields : Z) (visit_seq : Z -> M V) : M V := deserialize_tuple fields visit_seq.
(** [of_tag] is the seed run on the tag's own deserializer. *)
(* L150-159 EnumAccess::variant_seed *)
Definition variant_seed (of_tag : Z -> M V) : M V := tag ← try_take_word; of_tag tag.

End Visit.

(** ** The data model *)

Inductive int_ty := I8 | I16 | I32 | I64 | I128 | U8 | U16 | U32 | U64 | U128.

Inductive value :=
  | VBool (b : bool) | VInt (k : int_ty) (v : Z) | VF32 (bits : Z) | VF64 (bits : Z) | VChar (c : Z)
  | VStr (bytes : list Z) | VBytes (bytes : list Z) | VNone | VSome (v : value)
  | VUnit | VUnitStruct | VNewtype (v : value) | VSeq (vs : list value) | VTuple (vs : list value)
  | VTupleStruct (vs : list value) | VMap (kvs : list (value * value)) | VStruct (vs : list value)
  | VUnitVariant (i : Z) | VNewtypeVariant (i : Z) (v : value) | VTupleVariant (i : Z) (vs : list value)
  | VStructVariant (i : Z) (vs : list value).

Inductive ty :=
  | TBool | TInt (k : int_ty) | TF32 | TF64 | TChar | TStr | TBytes | TOption (t : ty)
  | TUnit | TUnitStruct | TNewtype (t : ty) | TSeq (t : ty) | TTuple (ts : list ty)
  | TTupleStruct (ts : list ty) | TMap (k v : ty) | TStruct (ts : list ty) | TEnum (vs : list variant)
with variant := VarUnit | VarNewtype (t : ty) | VarTuple (ts : list ty) | VarStruct (ts : list ty).

Definition serialize_int (k : int_ty) (v : Z) : M unit :=
  match k with
  | I8 => serialize_i8 v | I16 => serialize_i16 v | I32 => serialize_i32 v | I64 => serialize_i64 v
  | I128 => serialize_i128 v | U8 => serialize_u8 v | U16 => serialize_u16 v | U32 => serialize_u32 v
  | U64 => serialize_u64 v | U128 => serialize_u128 v
  end.

Definition serialize_all (method : M unit -> M unit) (elements : list (M unit)) : M unit :=
  foldr (fun e k => method e;; k) (mret tt) elements.

(** The calls that a value of each kind makes. *)
Fixpoint serialize (v : value) : M unit :=
  match v with
  | VBool b => serialize_bool b
  | VInt k v => serialize_int k v
  | VF32 bits => serialize_f32 bits
  | VF64 bits => serialize_f64 bits
  | VChar c => serialize_char c
  | VStr bytes => serialize_str bytes
  | VBytes bytes => serialize_bytes bytes
  | VNone => serialize_none
  | VSome v => serialize_some (serialize v)
  | VUnit => serialize_unit
  | VUnitStruct => serialize_unit_struct
  | VNewtype v => serialize_newtype_struct (serialize v)
  | VSeq vs =>
      serialize_seq (Some (Z.of_nat (length vs)));; serialize_all serialize_element (map serialize vs)
  | VTuple vs =>
      serialize_tuple (Z.of_nat (length vs));; serialize_all serialize_field (map serialize vs)
  | VTupleStruct vs =>
      serialize_tuple_struct (Z.of_nat (length vs));; serialize_all serialize_field (map serialize vs)
  | VMap kvs =>
      serialize_map (Some (Z.of_nat (length kvs)));;
      serialize_all (fun e => e) (map (fun kv => serialize_key (serialize kv.1);; serialize_value (serialize kv.2)) kvs)
  | VStruct vs =>
      serialize_struct (Z.of_nat (length vs));; serialize_all serialize_named_field (map serialize vs)
  | VUnitVariant i => serialize_unit_variant i
  | VNewtypeVariant i v => serialize_newtype_variant i (serialize v)
  | VTupleVariant i vs =>
      serialize_tuple_variant i (Z.of_nat (length vs));; serialize_all serialize_field (map serialize vs)
  | VStructVariant i vs =>
      serialize_struct_variant i (Z.of_nat (length vs));; serialize_all serialize_named_field (map serialize vs)
  end.

(* src/risc0/risc0/zkvm/src/serde/serializer.rs:70-95 to_vec *)
Definition to_vec (value : value) : outcome Error (list Z) :=
  match serialize value [] with
  | (Ok _, vec) => Ok vec
  | (Err e, _) => Err e
  | (Panic, _) => Panic
  end.

Definition bits (k : int_ty) : Z :=
  match k with I8 | U8 => 8 | I16 | U16 => 16 | I32 | U32 => 32 | I64 | U64 => 64 | I128 | U128 => 128 end.
Definition is_signed (k : int_ty) : bool := match k with I8 | I16 | I32 | I64 | I128 => true | _ => false end.
Definition in_range (k : int_ty) (v : Z) : bool :=
  if is_signed k then (- 2 ^ (bits k - 1) <=? v) && (v <? 2 ^ (bits k - 1)) else (0 <=? v) && (v <? 2 ^ bits k).

(** serde's visitors of the integer types, given an integer of the wider type the
    deserializer reads, and of a derived enum's tag with the number of variants. *)
Class Visitors := {
  visit_int : int_ty -> Z -> outcome Error Z;
  visit_tag : nat -> Z -> outcome Error nat }.

(** They take what the type can hold and refuse the rest with an error of serde's. *)
Class VisitorsOk `{Visitors} := {
  visit_int_ok k v : in_range k v = true -> visit_int k v = Ok v;
  visit_int_err k v : in_range k v = false -> exists m, visit_int k v = Err (Custom m);
  visit_tag_ok n t : 0 <= t < Z.of_nat n -> visit_tag n t = Ok (Z.to_nat t);
  visit_tag_err n t : Z.of_nat n <= t -> exists m, visit_tag n t = Err (Custom m) }.

Section Deserialize.
Context `{Visitors}.

Definition deserialize_int (k : int_ty) (visit : Z -> M value) : M value :=
  match k with
  | I8 => deserialize_i8 visit | I16 => deserialize_i16 visit | I32 => deserialize_i32 visit
  | I64 => deserialize_i64 visit | I128 => deserialize_i128 visit | U8 => deserialize_u8 visit
  | U16 => deserialize_u16 visit | U32 => deserialize_u32 visit | U64 => deserialize_u64 visit
  | U128 => deserialize_u128 visit
  end.

(** A vector's visitor takes elements until there are none, a tuple's visitor one
    for each of its fields, a map's visitor entries until there are none. *)
Fixpoint visit_vec (fuel : nat) (seed : M value) (len : Z) : M (list value) :=
  match fuel with
  | O => panic
  | S fuel =>
      '(v, len) ← next_element_seed seed len;
      match v with
      | Some v => vs ← visit_vec fuel seed len; mret (v :: vs)
      | None => mret []
      end
  end.

Fixpoint visit_fields (seeds : list (M value)) (len : Z) : M (list value) :=
  match seeds with
  | [] => mret []
  | seed :: seeds =>
      '(v, len) ← next_element_seed seed len;
      match v with
      | Some v => vs ← visit_fields seeds len; mret (v :: vs)
      | None => throw (Custom String.EmptyString)
      end
  end.

Fixpoint visit_entries (fuel : nat) (k v : M value) (len : Z) : M (list (value * value)) :=
  match fuel with
  | O => panic
  | S fuel =>
      '(key, len) ← next_key_seed k len;
      match key with
      | Some key =>
          val ← next_value_seed v; kvs ← visit_entries fuel k v len; mret ((key, val) :: kvs)
      | None => mret []
      end
  end.

(** The calls that the implementation for a type of each shape makes. *)
Fixpoint deserialize (t : ty) : M value :=
  match t with
  | TBool => deserialize_bool (fun b => mret (VBool b))
  | TInt k => deserialize_int k (fun v => v ← lift (visit_int k v); mret (VInt k v))
  | TF32 => deserialize_f32 (fun b => mret (VF32 b))
  | TF64 => deserialize_f64 (fun b => mret (VF64 b))
  | TChar => deserialize_char (fun c => mret (VChar c))
  | TStr => deserialize_string (fun bs => mret (VStr bs))
  | TBytes => deserialize_byte_buf (fun bs => mret (VBytes bs))
  | TOption t => deserialize_option (mret VNone) (v ← deserialize t; mret (VSome v))
  | TUnit => deserialize_unit (mret VUnit)
  | TUnitStruct => deserialize_unit_struct (mret VUnitStruct)
  | TNewtype t => deserialize_newtype_struct (v ← deserialize t; mret (VNewtype v))
  | TSeq t => deserialize_seq (fun len => vs ← visit_vec (S (Z.to_nat len)) (deserialize t) len; mret (VSeq vs))
  | TTuple ts =>
      deserialize_tuple (Z.of_nat (length ts)) (fun len => vs ← visit_fields (map deserialize ts) len; mret (VTuple vs))
  | TTupleStruct ts =>
      deserialize_tuple_struct (Z.of_nat (length ts))
        (fun len => vs ← visit_fields (map deserialize ts) len; mret (VTupleStruct vs))
  | TMap k v =>
      deserialize_map (fun len => kvs ← visit_entries (S (Z.to_nat len)) (deserialize k) (deserialize v) len; mret (VMap kvs))
  | TStruct ts =>
      deserialize_struct (Z.of_nat (length ts)) (fun len => vs ← visit_fields (map deserialize ts) len; mret (VStruct vs))
  | TEnum vs =>
      deserialize_enum (
        i ← variant_seed (fun tag => lift (visit_tag (length vs) tag));
        match map (deserialize_variant (Z.of_nat i)) vs !! i with
        | Some d => d
        | None => panic
        end)
  end
with deserialize_variant (i : Z) (v : variant) : M value :=
  match v with
  | VarUnit => unit_variant;; mret (VUnitVariant i)
  | VarNewtype t => v ← newtype_variant_seed (deserialize t); mret (VNewtypeVariant i v)
  | VarTuple ts =>
      tuple_variant (Z.of_nat (length ts)) (fun len => vs ← visit_fields (map deserialize ts) len; mret (VTupleVariant i vs))
  | VarStruct ts =>
      struct_variant (Z.of_nat (length ts)) (fun len => vs ← visit_fields (map deserialize ts) len; mret (VStructVariant i vs))
  end.

(* src/risc0/risc0/zkvm/src/serde/deserializer.rs:76-90 from_slice, of a word-aligned slice *)
Definition from_slice (t : ty) (slice : list Z) : outcome Error value := fst (deserialize t slice).

End Deserialize.
End Serde.
