(* ===== verification/SerdeSpec.v ===== *)
(** * The serde format round-trips

    [codec e d a]: [e] appends words from which [d] reads [a] back and leaves
    what follows, and on any shorter prefix of which [d] reports the end of the
    stream.  Codecs compose, and every value of every shape has one.  On words
    that no serializer wrote, the deserializer still ends, with a value of the
    shape or an error. *)
From S2P Require Export Serde.
Import Serde.
Open Scope word_scope.
Open Scope Z_scope.

(** ** Types of values *)

Definition str_ok (bytes : list Z) : Prop := Forall u8 bytes /\ Z.of_nat (length bytes) < 2 ^ 32.

Section AllTwo.
Context {A B : Type} (P : A -> B -> Prop).
Fixpoint all2 (xs : list A) (ys : list B) : Prop :=
  match xs, ys with
  | [], [] => True
  | x :: xs, y :: ys => P x y /\ all2 xs ys
  | _, _ => False
  end.
End AllTwo.

Fixpoint has_type (t : ty) (v : value) {struct t} : Prop :=
  match t, v with
  | TBool, VBool _ => True
  | TInt k, VInt k' v => k = k' /\ in_range k v = true
  | TF32, VF32 b => u32 b
  | TF64, VF64 b => u64 b
  | TChar, VChar c => is_char c = true
  | TStr, VStr bs => str_ok bs /\ is_utf8 bs = true
  | TBytes, VBytes bs => str_ok bs
  | TOption _, VNone => True
  | TOption t, VSome v => has_type t v
  | TUnit, VUnit => True
  | TUnitStruct, VUnitStruct => True
  | TNewtype t, VNewtype v => has_type t v
  | TSeq t, VSeq vs => Z.of_nat (length vs) < 2 ^ 32 /\ Forall (has_type t) vs
  | TTuple ts, VTuple vs => all2 has_type ts vs
  | TTupleStruct ts, VTupleStruct vs => all2 has_type ts vs
  | TMap k v, VMap kvs => Z.of_nat (length kvs) < 2 ^ 32 /\ Forall (fun kv => has_type k kv.1 /\ has_type v kv.2) kvs
  | TStruct ts, VStruct vs => all2 has_type ts vs
  | TEnum vars, v => exists i, Z.of_nat i < 2 ^ 32 /\
      match map (has_variant (Z.of_nat i)) vars !! i with Some P => P v | None => False end
  | _, _ => False
  end
with has_variant (i : Z) (t : variant) (v : value) {struct t} : Prop :=
  match t, v with
  | VarUnit, VUnitVariant j => j = i
  | VarNewtype t, VNewtypeVariant j v => j = i /\ has_type t v
  | VarTuple ts, VTupleVariant j vs => j = i /\ all2 has_type ts vs
  | VarStruct ts, VStructVariant j vs => j = i /\ all2 has_type ts vs
  | _, _ => False
  end.

(** Induction over shapes, through the lists of fields and variants. *)
Section Shapes.
Context (P : ty -> Prop) (Q : variant -> Prop).
Context (HBool : P TBool) (HInt : forall k, P (TInt k)) (HF32 : P TF32) (HF64 : P TF64) (HChar : P TChar)
  (HStr : P TStr) (HBytes : P TBytes) (HOption : forall t, P t -> P (TOption t)) (HUnit : P TUnit)
  (HUnitStruct : P TUnitStruct) (HNewtype : forall t, P t -> P (TNewtype t)) (HSeq : forall t, P t -> P (TSeq t))
  (HTuple : forall ts, Forall P ts -> P (TTuple ts)) (HTupleStruct : forall ts, Forall P ts -> P (TTupleStruct ts))
  (HMap : forall k v, P k -> P v -> P (TMap k v)) (HStruct : forall ts, Forall P ts -> P (TStruct ts))
  (HEnum : forall vs, Forall Q vs -> P (TEnum vs))
  (HVarUnit : Q VarUnit) (HVarNewtype : forall t, P t -> Q (VarNewtype t))
  (HVarTuple : forall ts, Forall P ts -> Q (VarTuple ts)) (HVarStruct : forall ts, Forall P ts -> Q (VarStruct ts)).

Fixpoint shape_ind (t : ty) : P t :=
  let all := fix all ts : Forall P ts :=
    match ts with [] => Forall_nil_2 P | t :: ts => Forall_cons_2 P t ts (shape_ind t) (all ts) end in
  match t with
  | TBool => HBool | TInt k => HInt k | TF32 => HF32 | TF64 => HF64 | TChar => HChar | TStr => HStr | TBytes => HBytes
  | TOption t => HOption t (shape_ind t) | TUnit => HUnit | TUnitStruct => HUnitStruct
  | TNewtype t => HNewtype t (shape_ind t) | TSeq t => HSeq t (shape_ind t)
  | TTuple ts => HTuple ts (all ts) | TTupleStruct ts => HTupleStruct ts (all ts)
  | TMap k v => HMap k v (shape_ind k) (shape_ind v) | TStruct ts => HStruct ts (all ts)
  | TEnum vs => HEnum vs ((fix alls vs : Forall Q vs :=
      match vs with [] => Forall_nil_2 Q | v :: vs => Forall_cons_2 Q v vs (variant_ind v) (alls vs) end) vs)
  end
with variant_ind (v : variant) : Q v :=
  let all := fix all ts : Forall P ts :=
    match ts with [] => Forall_nil_2 P | t :: ts => Forall_cons_2 P t ts (shape_ind t) (all ts) end in
  match v with
  | VarUnit => HVarUnit | VarNewtype t => HVarNewtype t (shape_ind t)
  | VarTuple ts => HVarTuple ts (all ts) | VarStruct ts => HVarStruct ts (all ts)
  end.
End Shapes.

(** ** Codecs *)

Definition codec {A} (e : M unit) (d : M A) (a : A) : Prop :=
  exists ws, Forall u32 ws /\ (forall s, e s = (Ok tt, s ++ ws)) /\ (forall rest, d (ws ++ rest) = (Ok a, rest)) /\
    forall n, (n < length ws)%nat -> exists s', d (take n ws) = (Err DeserializeUnexpectedEnd, s').

Lemma codec_ret {A} (a : A) : codec (mret tt) (mret a) a.
Proof.
  exists []. split; [constructor|]. split; [intros; by rewrite app_nil_r|]. split; [done|]. cbn. lia.
Qed.

Lemma codec_bind {A B} e1 e2 (d1 : M A) (d2 : A -> M B) a b :
  codec e1 d1 a -> codec e2 (d2 a) b -> codec (e1;; e2) (d1 ≫= d2) b.
Proof.
  intros (w1 & Hu1 & He1 & Hd1 & Ht1) (w2 & Hu2 & He2 & Hd2 & Ht2). exists (w1 ++ w2).
  split; [by apply Forall_app|]. split; [|split].
  - intros s. rewrite (run_bind _ _ _ _ _ (He1 s)), He2, app_assoc. done.
  - intros rest. rewrite <- app_assoc, (run_bind _ _ _ _ _ (Hd1 _)). apply Hd2.
  - intros n Hn. rewrite length_app in Hn. destruct (Nat.lt_ge_cases n (length w1)) as [Hl|Hl].
    + destruct (Ht1 n Hl) as [s' E]. rewrite take_app_le by lia. exists s'. unfold mbind, state_bind. by rewrite E.
    + rewrite take_app_ge by done. rewrite (run_bind _ _ _ _ _ (Hd1 _)). apply Ht2. lia.
Qed.

(** A final step that reads and writes nothing. *)
Lemma codec_then {A B} e (d : M A) (f : A -> M B) a b :
  (forall s, f a s = (Ok b, s)) -> codec e d a -> codec e (d ≫= f) b.
Proof.
  intros Hf (ws & Hu & He & Hd & Ht). exists ws. split; [done|]. split; [done|]. split.
  - intros rest. by rewrite (run_bind _ _ _ _ _ (Hd rest)).
  - intros n Hn. destruct (Ht n Hn) as [s' E]. exists s'. unfold mbind, state_bind. by rewrite E.
Qed.

Lemma codec_map {A B} e (d : M A) (f : A -> B) a : codec e d a -> codec e (x ← d; mret (f x)) (f a).
Proof. by apply codec_then. Qed.

Lemma codec_eq {A} e e' (d d' : M A) a : (forall s, e s = e' s) -> (forall s, d s = d' s) -> codec e d a -> codec e' d' a.
Proof.
  intros He Hd (ws & Hu & H1 & H2 & H3). exists ws. split; [done|]. split; [|split].
  - intros. by rewrite <- He.
  - intros. by rewrite <- Hd.
  - intros. rewrite <- Hd. auto.
Qed.

(** A check that passes. *)
Lemma codec_lift {A} (o : outcome Error A) a : o = Ok a -> codec (mret tt) (lift o) a.
Proof. intros ->. apply codec_ret. Qed.

Lemma try_take_word_cons v s : try_take_word (v :: s) = (Ok v, s).
Proof. done. Qed.

Lemma codec_word v : u32 v -> codec (serialize_u32 v) try_take_word v.
Proof.
  intros Hv. exists [v]. split; [by constructor|]. split; [done|]. split; [done|].
  intros [|n] Hn; [|cbn in Hn; lia]. eexists. reflexivity.
Qed.

Lemma dword_split v : u64 v ->
  (wrap 32 (v .& 0xFFFFFFFF) .| wrap 64 (Z.shiftl (wrap 32 ((v .>> 32) .& 0xFFFFFFFF)) 32)) = v.
Proof.
  intros Hv. unfold wrap. change 0xFFFFFFFF with (Z.ones 32). rewrite !Z.land_ones by lia.
  rewrite !Zmod_mod, Z.shiftl_mul_pow2, Z.shiftr_div_pow2 by lia. unfold fits in Hv.
  rewrite (Z.mod_small (v / 2 ^ 32)) by (split; [apply Z.div_pos; lia|apply Z.div_lt_upper_bound; lia]).
  rewrite (Z.mod_small (v / 2 ^ 32 * 2 ^ 32)) by (Z.to_euclidean_division_equations; lia).
  rewrite Z.lor_comm, <- Z.shiftl_mul_pow2 by lia.
  assert (Hd : Z.land (Z.shiftl (v / 2 ^ 32) 32) (v mod 2 ^ 32) = 0).
  { zbits. rewrite Z.land_spec, Z.bits_0. destruct (Z.ltb_spec i 32).
    - by rewrite Z.shiftl_spec_low by lia.
    - by rewrite Z.mod_pow2_bits_high, andb_false_r by lia. }
  pose proof (Z.add_lor_land (Z.shiftl (v / 2 ^ 32) 32) (v mod 2 ^ 32)) as E. rewrite Hd in E.
  rewrite Z.shiftl_mul_pow2 in * by lia. pose proof (Z.div_mod v (2 ^ 32)). lia.
Qed.

Lemma codec_dword v : u64 v -> codec (serialize_u64 v) try_take_dword v.
Proof.
  intros Hv. unfold serialize_u64, try_take_dword.
  eapply codec_bind; [apply codec_word, wrap_fits; lia|].
  pose proof (codec_map _ _ (fun high => wrap 32 (v .& 0xFFFFFFFF) .| wrap 64 (Z.shiftl high 32)) _
    (codec_word (wrap 32 ((v .>> 32) .& 0xFFFFFFFF)) (wrap_fits 32 _ ltac:(lia)))) as Hc. cbv beta in Hc.
  rewrite (dword_split v Hv) in Hc. exact Hc.
Qed.

(** *** Padded bytes *)

Lemma le_bytes_from_le_bytes bs : Forall u8 bs -> le_bytes (length bs) (from_le_bytes bs) = bs.
Proof.
  induction 1 as [|b bs Hb _ IH]; [done|]. cbn [length]. rewrite le_bytes_S.
  cbn [from_le_bytes foldr]. fold (from_le_bytes bs). unfold fits in Hb.
  rewrite (Z.mul_comm 256), Z.mod_add, Z.mod_small, Z.div_add, Z.div_small, Z.add_0_l, IH by lia. done.
Qed.

Lemma cast_bytes_app ws rest : cast_bytes (ws ++ rest) = cast_bytes ws ++ cast_bytes rest.
Proof. apply bind_app. Qed.

Lemma cast_bytes_length ws : length (cast_bytes ws) = (4 * length ws)%nat.
Proof. induction ws as [|w ws IH]; [done|]. unfold cast_bytes in *. rewrite bind_cons, length_app, IH, le_bytes_length. cbn. lia. Qed.

Lemma cast_one b0 b1 b2 b3 : u8 b0 -> u8 b1 -> u8 b2 -> u8 b3 ->
  u32 (from_le_bytes [b0; b1; b2; b3]) /\ le_bytes 4 (from_le_bytes [b0; b1; b2; b3]) = [b0; b1; b2; b3].
Proof.
  intros H0 H1 H2 H3. assert (Hf : Forall u8 [b0; b1; b2; b3]) by eauto using Forall_cons_2, Forall_nil_2.
  split; [exact (from_le_bytes_range _ Hf)|exact (le_bytes_from_le_bytes _ Hf)].
Qed.

Lemma padded_words_spec : forall n bs, (length bs <= n)%nat -> Forall u8 bs ->
  Forall u32 (padded_words bs) /\ exists pad, cast_bytes (padded_words bs) = bs ++ replicate pad 0 /\ (pad < 4)%nat.
Proof.
  assert (Hz : u8 0) by (unfold fits; lia).
  induction n as [|n IH]; intros bs Hn Hb.
  { destruct bs; [|cbn in Hn; lia]. split; [constructor|]. exists 0%nat. split; [done|lia]. }
  destruct bs as [|b0 [|b1 [|b2 [|b3 bs]]]]; rewrite ?Forall_cons in Hb; destruct_and? Hb.
  - split; [constructor|]. exists 0%nat. split; [done|lia].
  - destruct (cast_one b0 0 0 0) as [Hx Hy]; [done..|]. split; [by constructor|]. exists 3%nat. split; [exact Hy|lia].
  - destruct (cast_one b0 b1 0 0) as [Hx Hy]; [done..|]. split; [by constructor|]. exists 2%nat. split; [exact Hy|lia].
  - destruct (cast_one b0 b1 b2 0) as [Hx Hy]; [done..|]. split; [by constructor|]. exists 1%nat. split; [exact Hy|lia].
  - destruct (cast_one b0 b1 b2 b3) as [Hx Hy]; [done..|]. cbn [length] in Hn.
    destruct (IH bs) as (Hu & pad & Hc & Hp); [lia|done|]. cbn [padded_words]. split; [by constructor|].
    exists pad. split; [|done]. unfold cast_bytes in *. rewrite bind_cons, Hy, Hc. done.
Qed.

Lemma align_up_4 n : 0 <= n < 2 ^ 63 -> align_up n 4 / 4 = (n + 3) / 4.
Proof.
  intros Hn. unfold align_up. change (4 - 1) with 3. rewrite wrap_small by (unfold fits; lia).
  assert (E : Z.land (n + 3) (Z.lxor 3 (2 ^ 64 - 1)) = Z.ldiff (n + 3) (Z.ones 2)).
  { zbits. rewrite Z.land_spec, Z.ldiff_spec, Z.lxor_spec. change 3 with (Z.ones 2) at 2. change (2 ^ 64 - 1) with (Z.ones 64).
    destruct (Z.ltb_spec i 64).
    - rewrite (Z.ones_spec_low 64) by lia. by rewrite xorb_true_r.
    - rewrite (fits_testbit_high 64 (n + 3) i) by (unfold fits; lia). done. }
  rewrite E, Z.ldiff_ones_r, Z.shiftl_mul_pow2, Z.shiftr_div_pow2 by lia. change (2 ^ 2) with 4.
  apply Z.div_mul. lia.
Qed.

Lemma codec_padded bs : Forall u8 bs -> Z.of_nat (length bs) < 2 ^ 63 ->
  codec (write_padded_bytes bs) (read_padded_bytes (Z.of_nat (length bs))) bs.
Proof.
  intros Hb Hl. destruct (padded_words_spec _ bs (le_n _) Hb) as (Hu & pad & Hc & Hp).
  assert (Hlen : (4 * length (padded_words bs) = length bs + pad)%nat).
  { rewrite <- cast_bytes_length, Hc, length_app, length_replicate. done. }
  exists (padded_words bs). split; [done|]. split; [done|]. split.
  - intros rest. unfold read_padded_bytes. rewrite cast_bytes_app, Hc, <- app_assoc.
    rewrite length_app. destruct (Z.ltb_spec (Z.of_nat (length bs + length (replicate pad 0 ++ cast_bytes rest))) (Z.of_nat (length bs))); [lia|].
    rewrite Nat2Z.id, take_app_length. f_equal. rewrite align_up_4 by lia.
    replace (Z.to_nat ((Z.of_nat (length bs) + 3) / 4)) with (length (padded_words bs)); [by rewrite drop_app_length|].
    apply Nat2Z.inj. rewrite Z2Nat.id by (apply Z.div_pos; lia). Z.to_euclidean_division_equations. lia.
  - intros n Hn. eexists. unfold read_padded_bytes. rewrite cast_bytes_length, length_take.
    destruct (Z.ltb_spec (Z.of_nat (4 * (n `min` length (padded_words bs)))) (Z.of_nat (length bs))); [reflexivity|lia].
Qed.

(** ** A codec for every shape *)

Lemma codec_int k v (visit : Z -> M value) b : in_range k v = true -> (forall s, visit v s = (Ok b, s)) ->
  codec (serialize_int k v) (deserialize_int k visit) b.
Proof.
  intros Hr Hvis. unfold in_range in Hr.
  assert (Hs : forall n, 0 < n -> - 2 ^ (n - 1) <= v < 2 ^ (n - 1) -> signed n (wrap n v) = v).
  { intros n Hn Hv. pose proof (Z.pow_succ_r 2 (n - 1) ltac:(lia)) as E. replace (Z.succ (n - 1)) with n in E by lia.
    unfold signed, wrap. destruct (Z.ltb_spec v 0).
    - rewrite <- (Z.mod_unique_pos v (2 ^ n) (-1) (v + 2 ^ n)) by lia. destruct (Z.ltb_spec (v + 2 ^ n) (2 ^ (n - 1))); lia.
    - rewrite Z.mod_small by lia. destruct (Z.ltb_spec v (2 ^ (n - 1))); lia. }
  destruct k; cbn [is_signed bits] in Hr; apply andb_prop in Hr as [Hl%Z.leb_le Hh%Z.ltb_lt];
    cbn [serialize_int deserialize_int].
  - apply (codec_then _ _ _ (wrap 32 v)); [by rewrite Hs by lia|apply codec_word, wrap_fits; lia].
  - apply (codec_then _ _ _ (wrap 32 v)); [by rewrite Hs by lia|apply codec_word, wrap_fits; lia].
  - apply (codec_then _ _ _ (wrap 32 v)); [by rewrite Hs by lia|apply codec_word, wrap_fits; lia].
  - apply (codec_then _ _ _ (wrap 64 v)); [by rewrite Hs by lia|apply codec_dword, wrap_fits; lia].
  - apply (codec_then _ _ _ (le_bytes 16 (wrap 128 v))).
    + rewrite from_le_bytes_le_bytes. change (256 ^ Z.of_nat 16) with (2 ^ 128).
      rewrite Z.mod_small by (apply (wrap_fits 128); lia). by rewrite Hs by lia.
    + apply (codec_padded (le_bytes 16 (wrap 128 v))); [apply le_bytes_u8|rewrite le_bytes_length; lia].
  - apply (codec_then _ _ _ v); [done|]. apply codec_word. unfold fits. lia.
  - apply (codec_then _ _ _ v); [done|]. apply codec_word. unfold fits. lia.
  - apply (codec_then _ _ _ v); [done|]. apply codec_word. unfold fits. lia.
  - apply (codec_then _ _ _ v); [done|]. apply codec_dword. unfold fits. lia.
  - apply (codec_then _ _ _ (le_bytes 16 v)).
    + rewrite from_le_bytes_le_bytes. change (256 ^ Z.of_nat 16) with (2 ^ 128). by rewrite Z.mod_small by lia.
    + apply (codec_padded (le_bytes 16 v)); [apply le_bytes_u8|rewrite le_bytes_length; lia].
Qed.

Lemma is_char_u32 c : is_char c = true -> u32 c.
Proof. unfold is_char, fits. intros [[H1%Z.leb_le H2%Z.ltb_lt]%andb_prop _]%andb_prop. lia. Qed.

(** A length word and the bytes it announces. *)
Lemma codec_bytes bs (f : list Z -> M value) b : str_ok bs -> (forall s, f bs s = (Ok b, s)) ->
  codec (serialize_bytes bs) (len_bytes ← try_take_word; bytes ← read_padded_bytes len_bytes; f bytes) b.
Proof.
  intros [Hb Hl] Hf. unfold serialize_bytes. rewrite wrap_small by (unfold fits; lia).
  eapply codec_bind; [apply codec_word; unfold fits; lia|]. cbv beta.
  apply (codec_then _ _ _ bs); [done|]. apply codec_padded; [done|lia].
Qed.

Section Shaped.
Context `{VisitorsOk}.

Definition typed (d : M value) (v : value) : Prop := codec (serialize v) d v.

(** The elements of a vector, the fields of a tuple, the entries of a map. *)
Lemma codec_seed {B} e (d : M value) v len e2 (k : option value * Z -> M B) b :
  codec e d v -> 0 < len -> codec e2 (k (Some v, len - 1)) b ->
  codec (e;; e2) (next_element_seed d len ≫= k) b.
Proof.
  intros Hd Hl Hk. unfold next_element_seed. destruct (Z.ltb_spec 0 len); [|lia].
  eapply codec_bind; [|exact Hk]. by apply (codec_then _ _ _ v).
Qed.

Lemma codec_vec (d : M value) (method : M unit -> M unit) vs : (forall m, method m = m) -> Forall (typed d) vs ->
  forall fuel, (length vs < fuel)%nat ->
  codec (serialize_all method (map serialize vs)) (visit_vec fuel d (Z.of_nat (length vs))) vs.
Proof.
  intros Hm. induction 1 as [|v vs Hv _ IH]; intros [|fuel] Hf; cbn [length] in Hf; try lia.
  - apply codec_ret.
  - cbn [map serialize_all foldr visit_vec]. rewrite Hm.
    eapply codec_seed; [exact Hv|cbn [length]; lia|]. cbv beta iota.
    apply codec_map. replace (Z.of_nat (length (v :: vs)) - 1) with (Z.of_nat (length vs)) by (cbn [length]; lia).
    apply IH. lia.
Qed.

Lemma codec_fields ds (method : M unit -> M unit) vs : (forall m, method m = m) -> Forall2 typed ds vs ->
  codec (serialize_all method (map serialize vs)) (visit_fields ds (Z.of_nat (length ds))) vs.
Proof.
  intros Hm. induction 1 as [|d v ds vs Hv _ IH]; [apply codec_ret|].
  cbn [map serialize_all foldr visit_fields]. rewrite Hm.
  eapply codec_seed; [exact Hv|cbn [length]; lia|]. cbv beta iota.
  apply codec_map. replace (Z.of_nat (length (d :: ds)) - 1) with (Z.of_nat (length ds)) by (cbn [length]; lia). exact IH.
Qed.

Lemma codec_assoc {B} (e1 e2 e3 : M unit) (d : M B) b : codec (e1;; (e2;; e3)) d b -> codec ((e1;; e2);; e3) d b.
Proof.
  apply codec_eq; [|done]. intros s. unfold mbind, state_bind. destruct (e1 s) as [[[]| |] s1]; reflexivity.
Qed.

Lemma codec_entries dk dv kvs : Forall (fun kv => typed dk kv.1 /\ typed dv kv.2) kvs ->
  forall fuel, (length kvs < fuel)%nat ->
  codec (serialize_all (fun e => e) (map (fun kv => serialize_key (serialize kv.1);; serialize_value (serialize kv.2)) kvs))
    (visit_entries fuel dk dv (Z.of_nat (length kvs))) kvs.
Proof.
  induction 1 as [|[k v] kvs [Hk Hv] _ IH]; intros [|fuel] Hf; cbn [length] in Hf; try lia.
  - apply codec_ret.
  - cbn [map serialize_all foldr visit_entries fst snd] in *.
    apply codec_assoc.
    unfold next_key_seed at 1. destruct (Z.ltb_spec 0 (Z.of_nat (length ((k, v) :: kvs)))); [|cbn [length] in *; lia].
    eapply codec_bind; [apply (codec_then _ _ _ k _ (fun s => eq_refl)); exact Hk|]. cbv beta iota.
    eapply codec_bind; [exact Hv|]. apply codec_map.
    replace (Z.of_nat (length ((k, v) :: kvs)) - 1) with (Z.of_nat (length kvs)) by (cbn [length]; lia).
    apply IH. lia.
Qed.

Lemma all2_typed ts vs : Forall (fun t => forall v, has_type t v -> typed (deserialize t) v) ts ->
  all2 has_type ts vs -> Forall2 typed (map deserialize ts) vs.
Proof.
  intros Hf. revert vs. induction Hf as [|t ts Ht _ IH]; intros [|v vs] Hv; try done; cbn [map].
  destruct Hv as [Hv Hvs]. constructor; auto.
Qed.

Lemma fields_len ts : Z.of_nat (length (map deserialize ts)) = Z.of_nat (length ts).
Proof. by rewrite length_map. Qed.

Lemma codec_tag {B} i n e2 (k : nat -> M B) b : Z.of_nat i < 2 ^ 32 -> (i < n)%nat -> codec e2 (k i) b ->
  codec (serialize_u32 (Z.of_nat i);; e2) (variant_seed (fun tag => lift (visit_tag n tag)) ≫= k) b.
Proof.
  intros Hi Hn Hk. unfold variant_seed. eapply codec_bind; [|exact Hk].
  apply (codec_then _ _ _ (Z.of_nat i)); [|apply codec_word; unfold fits; lia].
  intros s. unfold lift. by rewrite visit_tag_ok, Nat2Z.id by lia.
Qed.

(** What follows the tag of a variant. *)
Definition payload (v : value) : M unit :=
  match v with
  | VNewtypeVariant _ v => serialize v
  | VTupleVariant _ vs => serialize_all serialize_field (map serialize vs)
  | VStructVariant _ vs => serialize_all serialize_named_field (map serialize vs)
  | _ => mret tt
  end.

Lemma has_variant_tag t i v : has_variant i t v -> forall s, serialize v s = (serialize_u32 i;; payload v) s.
Proof. destruct t, v; cbn [has_variant]; try done; intros Hv; destruct_and? Hv; subst; try done. Qed.

Lemma lookup_map_Forall {A B} (P : A -> Prop) (f : A -> B) l i b :
  Forall P l -> map f l !! i = Some b -> exists a, b = f a /\ P a /\ (i < length l)%nat.
Proof.
  intros Hf Hb. apply list_lookup_fmap_Some in Hb as (a & -> & Ha). exists a.
  split; [done|]. split; [by eapply Forall_lookup_1|by eapply lookup_lt_Some].
Qed.

Ltac shape v Hv := intros v Hv; destruct v; try done; cbn [has_type has_variant] in Hv;
  cbn [serialize deserialize payload deserialize_variant].

(** A shape that prefixes nothing. *)
Lemma codec_skip {B} e (d : M B) b : codec e d b -> codec (mret tt;; e) d b.
Proof. by apply codec_eq. Qed.

Lemma codec_count {B} n e (k : Z -> M B) b : Z.of_nat n < 2 ^ 32 -> codec e (k (Z.of_nat n)) b ->
  codec (serialize_seq (Some (Z.of_nat n));; e) (len ← try_take_word; k len) b.
Proof.
  intros Hn Hk. assert (Hu : u32 (Z.of_nat n)) by (unfold fits; lia).
  apply (codec_eq (serialize_u32 (Z.of_nat n);; e) _ (len ← try_take_word; k len)); [|done|by eapply codec_bind; [apply codec_word|]].
  intros s. unfold serialize_seq, try_into_u32. by rewrite decide_True.
Qed.

Lemma enum_codec vars : Forall (fun t => forall i v, has_variant i t v -> codec (payload v) (deserialize_variant i t) v) vars ->
  forall v, has_type (TEnum vars) v -> typed (deserialize (TEnum vars)) v.
Proof.
  intros Hvars v (i & Hi & Hv). destruct (map (has_variant (Z.of_nat i)) vars !! i) as [P|] eqn:E; [|done].
  destruct (lookup_map_Forall _ _ _ _ _ Hvars E) as (t & -> & Ht & Hlt).
  apply (codec_eq (serialize_u32 (Z.of_nat i);; payload v) _ (deserialize (TEnum vars)));
    [intros s; symmetry; by apply (has_variant_tag t)|done|].
  cbn [deserialize]. unfold deserialize_enum. apply codec_tag; [done|done|].
  apply list_lookup_fmap_Some in E as (t' & E' & Ht'). 
  destruct (lookup_map_Forall _ (deserialize_variant (Z.of_nat i)) vars i (deserialize_variant (Z.of_nat i) t') Hvars)
    as (t2 & E2 & Ht2 & _).
  { change (map ?f ?l) with (f <$> l). by rewrite list_lookup_fmap, Ht'. }
  change (map ?f ?l) with (f <$> l). rewrite list_lookup_fmap, Ht'. cbn [fmap option_fmap option_map].
  pose proof (Forall_lookup_1 _ _ _ _ Hvars Ht') as Hq. apply Hq. by rewrite <- E'.
Qed.

Lemma has_type_codec t : forall v, has_type t v -> typed (deserialize t) v.
Proof.
  apply (shape_ind (fun t => forall v, has_type t v -> typed (deserialize t) v)
    (fun t => forall i v, has_variant i t v -> codec (payload v) (deserialize_variant i t) v)); clear t; unfold typed.
  - shape v Hv. eapply codec_then; [|apply (codec_word (if b then 1 else 0)); destruct b; unfold fits; lia]. by destruct b.
  - intros k. shape v Hv. destruct Hv as [<- Hv]. apply codec_int; [done|]. intros s.
    unfold mbind, state_bind, lift. by rewrite visit_int_ok.
  - shape v Hv. eapply codec_then; [|apply codec_word; exact Hv]. done.
  - shape v Hv. eapply codec_then; [|apply codec_dword; exact Hv]. done.
  - shape v Hv. eapply codec_then; [|apply codec_word; by apply is_char_u32]. intros s. cbv beta. by rewrite Hv.
  - shape v Hv. destruct Hv as [Hb Hu]. apply codec_bytes; [done|]. intros s. cbv beta. by rewrite Hu.
  - shape v Hv. by apply codec_bytes.
  - intros t IH. shape v Hv.
    + eapply codec_then; [|apply (codec_word 0); unfold fits; lia]. done.
    + eapply codec_bind; [apply (codec_word 1); unfold fits; lia|]. cbn. apply codec_map. by apply IH.
  - shape v Hv. apply codec_ret.
  - shape v Hv. apply codec_ret.
  - intros t IH. shape v Hv. apply codec_map. by apply IH.
  - intros t IH. shape v Hv. destruct Hv as [Hl Hv]. apply codec_count; [done|]. apply codec_map, codec_vec; [done| |lia].
    eapply Forall_impl; [exact Hv|]. exact IH.
  - intros ts IH. shape v Hv. apply codec_skip, codec_map. rewrite <- fields_len. apply codec_fields; [done|]. by apply all2_typed.
  - intros ts IH. shape v Hv. apply codec_skip, codec_map. rewrite <- fields_len. apply codec_fields; [done|]. by apply all2_typed.
  - intros k t IHk IHt. shape v Hv. destruct Hv as [Hl Hv]. apply codec_count; [done|]. apply codec_map, codec_entries; [|lia].
    eapply Forall_impl; [exact Hv|]. intros [a b] [Ha Hb]. split; [by apply IHk|by apply IHt].
  - intros ts IH. shape v Hv. apply codec_skip, codec_map. rewrite <- fields_len. apply codec_fields; [done|]. by apply all2_typed.
  - apply enum_codec.
  - intros i. shape v Hv. subst. apply codec_ret.
  - intros t IH i. shape v Hv. destruct Hv as [-> Hv]. apply codec_map. by apply IH.
  - intros ts IH i. shape v Hv. destruct Hv as [-> Hv]. apply codec_map. rewrite <- fields_len. apply codec_fields; [done|]. by apply all2_typed.
  - intros ts IH i. shape v Hv. destruct Hv as [-> Hv]. apply codec_map. rewrite <- fields_len. apply codec_fields; [done|]. by apply all2_typed.
Qed.
End Shaped.

(** C15: Serialisation round-trips.  A value of a shape (integers of every width,
    floats by their bits, chars, UTF-8 strings, byte buffers, options, sequences,
    tuples, maps, structs and the four kinds of enum variant, nested in any way;
    lengths below 2^32)
    serialises without error to a list of words from which the deserializer reads
    the same value back, also when other words follow; and every list of words
    that lacks some of the last words is refused as [DeserializeUnexpectedEnd]. *)
Theorem serde_round_trip `{VisitorsOk} t v : has_type t v ->
  exists ws, to_vec v = Ok ws /\ Forall u32 ws /\ (forall more, from_slice t (ws ++ more) = Ok v) /\
    forall n, (n < length ws)%nat -> from_slice t (take n ws) = Err DeserializeUnexpectedEnd.
Proof.
  intros Hv. destruct (has_type_codec t v Hv) as (ws & Hu & He & Hd & Ht). exists ws.
  unfold to_vec, from_slice. rewrite He. split; [done|]. split; [done|]. split.
  - intros more. by rewrite Hd.
  - intros n Hn. destruct (Ht n Hn) as [s' E]. by rewrite E.
Qed.

(** Visitors that meet the contract. *)
#[export] Instance std_visitors : Visitors := {
  visit_int k v := if in_range k v then Ok v else Err (Custom String.EmptyString);
  visit_tag n t := if (0 <=? t) && (t <? Z.of_nat n) then Ok (Z.to_nat t) else Err (Custom String.EmptyString) }.
#[export] Instance std_visitors_ok : VisitorsOk.
Proof.
  constructor; unfold visit_int, visit_tag, std_visitors.
  - intros k v E. by rewrite E.
  - intros k v E. rewrite E. eauto.
  - intros n t Ht. destruct (Z.leb_spec 0 t), (Z.ltb_spec t (Z.of_nat n)); cbn; (done || lia).
  - intros n t Ht. destruct (Z.ltb_spec t (Z.of_nat n)); [lia|]. rewrite andb_false_r. eauto.
Defined.

Lemma serde_round_trip_witness :
  let t := TStruct [TOption (TInt I8); TEnum [VarUnit; VarTuple [TStr; TSeq (TInt U64)]]] in
  let v := VStruct [VSome (VInt I8 (-5)); VTupleVariant 1 [VStr [0x68; 0xC3; 0xA9]; VSeq [VInt U64 7]]] in
  exists ws, to_vec v = Ok ws /\ forall more, from_slice t (ws ++ more) = Ok v.
Proof.
  intros t v. destruct (serde_round_trip t v) as (ws & H1 & _ & H3 & _).
  - split; [split; [done|by vm_compute]|]. split; [|exact I]. exists 1%nat. split; [done|]. split; [done|].
    split; [split; [split; [repeat constructor; by vm_compute|done]|done]|]. split; [|exact I].
    split; [done|]. constructor; [|constructor]. split; [done|by vm_compute].
  - exists ws. split; [exact H1|exact H3].
Defined.

(** ** Words from elsewhere *)








Lemma signed_in_range n v : 0 < n -> fits n v -> - 2 ^ (n - 1) <= signed n v < 2 ^ (n - 1).
Proof.
  intros Hn Hv. pose proof (Z.pow_succ_r 2 (n - 1) ltac:(lia)) as E. replace (Z.succ (n - 1)) with n in E by lia.
  unfold signed, fits in *. destruct (Z.ltb_spec v (2 ^ (n - 1))); lia.
Qed.

Section Safe.
Context `{VisitorsOk}.









End Safe.


