(* ===== verification/Merkle.v ===== *)
(** * The STARK's Merkle trees

    The prover commits to the columns of a matrix, the verifier checks branches
    against the top layer it read from the proof.  The tree is a heap: node [i] has
    the children [2 i] and [2 i + 1].  The hash functions are the trait's. *)
From S2P Require Export Prelude.
Open Scope Z_scope.

Module Merkle.

(* source: src/risc0/risc0/zkp/src/core/digest.rs *)
(* L43-63 Digest *)
Record Digest := mkDigest { d0 : Z; d1 : Z; d2 : Z; d3 : Z; d4 : Z; d5 : Z; d6 : Z; d7 : Z }.
(* L31-32 DIGEST_WORDS *)
Definition DIGEST_WORDS : nat := 8.
(* L66-67 Digest::ZERO *)
Definition ZERO : Digest := mkDigest 0 0 0 0 0 0 0 0.
(* L94-97 Digest::as_words *)
Definition as_words (d : Digest) : list Z := [d0 d; d1 d; d2 d; d3 d; d4 d; d5 d; d6 d; d7 d].

#[export] Instance digest_eq_dec : EqDecision Digest.
Proof. solve_decision. Defined.

(* source: src/risc0/risc0/zkp/src/core/hash/mod.rs *)
(** The hash functions on a pair of digests and on a slice of elements.  [hash_pair] may panic
    on digests that are not valid, which is [None]; its callers check the digests first. *)
(* L31-58 HashFn *)
Class HashFn (E : Type) := {
  hash_pair : Digest -> Digest -> option Digest;
  hash_elem_slice : list E -> Digest;
  is_digest_valid : Digest -> bool }.

(** The generator that Fiat-Shamir challenges are drawn from. *)
(* L61-74 Rng *)
Class Rng (R E X : Type) := {
  rng_mix : Digest -> R -> R;
  rng_random_bits : Z -> R -> Z * R;
  rng_random_elem : R -> E * R;
  rng_random_ext_elem : R -> X * R }.

(** The representation of an element type as words ([bytemuck]'s checked casts). *)
(* src/risc0/risc0/core/src/field/mod.rs:140-168 Elem, as_u32_slice and try_from_u32_slice *)
Class ElemWords (T : Type) := {
  WORDS : nat;
  elem_words : T -> list Z;
  elem_of_words : list Z -> option T }.

Section Slices.
Context {T : Type} `{ElemWords T}.
Definition as_u32_slice (elems : list T) : list Z := elems ≫= elem_words.
Fixpoint elems_of (n : nat) (words : list Z) : option (list T) :=
  match n with
  | O => Some []
  | S n => e ← elem_of_words (take WORDS words); es ← elems_of n (drop WORDS words); Some (e :: es)
  end.
Definition try_from_u32_slice (u32s : list Z) : option (list T) := elems_of (length u32s / WORDS)%nat u32s.
End Slices.

(** Casts between digests and words. *)
Definition digest_words (ds : list Digest) : list Z := ds ≫= as_words.
Fixpoint digests_of (words : list Z) : list Digest :=
  match words with
  | w0 :: w1 :: w2 :: w3 :: w4 :: w5 :: w6 :: w7 :: words => mkDigest w0 w1 w2 w3 w4 w5 w6 w7 :: digests_of words
  | _ => []
  end.

(** The verifier's errors; a [ProtocolInfo] is its sixteen bytes. *)
(* src/risc0/risc0/zkp/src/verify/mod.rs:57-92 VerificationError *)
Inductive VerificationError :=
  | ReceiptFormatError
  | ControlVerificationError (control_id : Digest)
  | ImageVerificationError
  | MerkleQueryOutOfRange (idx rows : nat)
  | InvalidProof
  | JournalDigestMismatch
  | ClaimDigestMismatch (expected received : Digest)
  | UnexpectedExitCode
  | InvalidHashSuite
  | VerifierParametersMissing
  | VerifierParametersMismatch (expected received : Digest)
  | ProofSystemInfoMismatch (expected received : list Z)
  | CircuitInfoMismatch (expected received : list Z)
  | UnresolvedAssumption (digest : Digest).

(* source: src/risc0/risc0/zkp/src/verify/read_iop.rs *)
(* L28-31 ReadIOP *)
Record ReadIOP (R : Type) := mkRead { proof : list Z; rng : R }.
Arguments mkRead {R} _ _.
Arguments proof {R} _.
Arguments rng {R} _.

Section Iop.
Context {R E X : Type} `{Rng R E X}.
Abbreviation V := (state (ReadIOP R) VerificationError).

(* L34-39 ReadIOP::new *)
Definition read_new (proof : list Z) (new_rng : R) : ReadIOP R := mkRead proof new_rng.

(* L41-50 ReadIOP::read_u32s *)
Definition read_u32s (n : nat) : V (list Z) := fun iop =>
  if (n <=? length (proof iop))%nat
  then (Ok (take n (proof iop)), mkRead (drop n (proof iop)) (rng iop))
  else (Err ReceiptFormatError, iop).

(* L52-63 ReadIOP::read_field_elem_slice *)
Definition read_field_elem_slice {T} `{ElemWords T} (n : nat) : V (list T) :=
  u32s ← read_u32s (n * WORDS); lift (ok_or ReceiptFormatError (try_from_u32_slice u32s)).

(* L65-78 ReadIOP::read_pod_slice, of digests *)
Definition read_pod_slice (n : nat) : V (list Digest) :=
  u32s ← read_u32s (n * DIGEST_WORDS); mret (digests_of u32s).

(* L80-82 ReadIOP::commit *)
Definition commit (digest : Digest) : V unit := modify (fun iop => mkRead (proof iop) (rng_mix digest (rng iop))).

(* L84-94 ReadIOP::verify_complete *)
Definition verify_complete : V unit := fun iop =>
  match proof iop with [] => (Ok tt, iop) | _ => (Err ReceiptFormatError, iop) end.

Definition draw {A} (f : R -> A * R) : V A := fun iop => let '(a, r) := f (rng iop) in (Ok a, mkRead (proof iop) r).
(* L96-99 ReadIOP::random_bits *)
Definition random_bits (bits : Z) : V Z := draw (rng_random_bits bits).
(* L101-104 ReadIOP::random_elem *)
Definition random_elem : V E := draw rng_random_elem.
(* L106-109 ReadIOP::random_ext_elem *)
Definition random_ext_elem : V X := draw rng_random_ext_elem.

(* source: src/risc0/risc0/zkp/src/prove/write_iop.rs *)
(* L25-28 WriteIOP *)
Record WriteIOP := mkWrite { wproof : list Z; wrng : R }.
(* L31-37 WriteIOP::new *)
Definition write_new (new_rng : R) : WriteIOP := mkWrite [] new_rng.
(* L39-45 WriteIOP::write_u32_slice *)
Definition write_u32_slice (slice : list Z) (iop : WriteIOP) : WriteIOP := mkWrite (wproof iop ++ slice) (wrng iop).
(* L47-50 WriteIOP::write_field_elem_slice *)
Definition write_field_elem_slice {T} `{ElemWords T} (slice : list T) (iop : WriteIOP) : WriteIOP :=
  mkWrite (wproof iop ++ as_u32_slice slice) (wrng iop).
(* L52-55 WriteIOP::write_pod_slice, of digests *)
Definition write_pod_slice (slice : list Digest) (iop : WriteIOP) : WriteIOP :=
  mkWrite (wproof iop ++ digest_words slice) (wrng iop).
(* L57-61 WriteIOP::commit *)
Definition write_commit (message : Digest) (iop : WriteIOP) : WriteIOP :=
  mkWrite (wproof iop) (rng_mix message (wrng iop)).

(* L63-66 WriteIOP::random_bits *)
Definition write_random_bits (bits : Z) (iop : WriteIOP) : Z * WriteIOP :=
  let '(a, r) := rng_random_bits bits (wrng iop) in (a, mkWrite (wproof iop) r).
(* L68-71 WriteIOP::random_elem *)
Definition write_random_elem (iop : WriteIOP) : E * WriteIOP :=
  let '(a, r) := rng_random_elem (wrng iop) in (a, mkWrite (wproof iop) r).
(* L73-76 WriteIOP::random_ext_elem *)
Definition write_random_ext_elem (iop : WriteIOP) : X * WriteIOP :=
  let '(a, r) := rng_random_ext_elem (wrng iop) in (a, mkWrite (wproof iop) r).
End Iop.
Arguments WriteIOP R : clear implicits.

(** ** Parameters *)

(** [u32::leading_zeros]. *)
Definition leading_zeros (x : Z) : Z := if x =? 0 then 32 else 31 - Z.log2 x.

(* src/risc0/risc0/zkp/src/core/mod.rs:37-39 to_po2 *)
Definition to_po2 (x : Z) : Z := wrap 32 (31 - leading_zeros (wrap 32 x)).

(** [1usize << n]: the shift amount is taken modulo 64. *)
Definition shl1 (n : Z) : Z := wrap 64 (Z.shiftl 1 (n mod 64)).

(** Past [2^63] the shifted one wraps and the loop of the code does not end. *)
(* src/risc0/risc0/zkp/src/core/mod.rs:53-59 log2_ceil *)
Fixpoint log2_ceil_loop (fuel : nat) (value result : Z) : Z :=
  match fuel with
  | O => result
  | S fuel => if shl1 result <? value then log2_ceil_loop fuel value (result + 1) else result
  end.
Definition log2_ceil (value : Z) : Z := log2_ceil_loop 64 value 0.

(* source: src/risc0/risc0/zkp/src/merkle.rs *)
(* L25-36 MerkleTreeParams *)
Record MerkleTreeParams := mkParams { row_size : nat; col_size : nat; layers : nat; top_size : nat }.

(* L50-56 MerkleTreeParams::new, the loop *)
Fixpoint top_layer_loop (is_ : list Z) (queries top_layer : Z) : Z :=
  match is_ with
  | [] => top_layer
  | i :: is_ => if queries <? shl1 i then top_layer else top_layer_loop is_ queries i
  end.

(* L39-69 MerkleTreeParams::new *)
Definition new_params {Er} (row_size col_size queries : nat) : outcome Er MerkleTreeParams :=
  let layers := to_po2 (Z.of_nat row_size) in
  _ ← assert_ (shl1 layers =? Z.of_nat row_size);
  let top_layer := top_layer_loop (seqZ 1 (layers - 1)) (Z.of_nat queries) 0 in
  Ok (mkParams row_size col_size (Z.to_nat layers) (Z.to_nat (shl1 top_layer))).

Open Scope nat_scope.

(** ** The prover *)

Section Prover.
Context {E : Type} `{HashFn E} {Er : Type}.
Abbreviation P := (outcome Er).

(** The [cpu] implementation of the two hardware operations. *)
(* src/risc0/risc0/zkp/src/hal/cpu.rs:573-585 CpuHal::hash_rows *)
Definition hash_rows (output_size : nat) (matrix : list E) : P (list Digest) :=
  let row_size := output_size in
  let col_size := length matrix / output_size in
  _ ← assert_ (length matrix =? col_size * row_size);
  mapM (fun idx =>
    column ← mapM (fun i => unwrap (matrix !! (i * row_size + idx))) (seq 0 col_size);
    Ok (hash_elem_slice column)) (seq 0 output_size).

(** The outputs are computed from the nodes before the call; input and output
    slices are disjoint, so the parallel order does not show. *)
(* src/risc0/risc0/zkp/src/hal/cpu.rs:587-599 CpuHal::hash_fold *)
Definition hash_fold (io : list Digest) (input_size output_size : nat) : P (list Digest) :=
  _ ← assert_ (2 * input_size <=? length io);
  _ ← assert_ (input_size =? 2 * output_size);
  output ← mapM (fun idx =>
    in1 ← unwrap (io !! (input_size + 2 * idx));
    in2 ← unwrap (io !! (input_size + (2 * idx + 1)));
    unwrap (hash_pair in1 in2)) (seq 0 output_size);
  Ok (take output_size io ++ output ++ drop (2 * output_size) io).

(* source: src/risc0/risc0/zkp/src/prove/merkle.rs *)
(* L27-40 MerkleTreeProver *)
Record MerkleTreeProver := mkProver {
  p_params : MerkleTreeParams; p_matrix : list E; p_nodes : list Digest; p_root : Digest }.

Fixpoint fold_layers (layers : nat) (nodes : list Digest) : P (list Digest) :=
  match layers with
  | O => Ok nodes
  | S i => nodes ← hash_fold nodes (2 ^ i * 2) (2 ^ i); fold_layers i nodes
  end.

(* L42-84 MerkleTreeProver::new *)
Definition prover_new (matrix : list E) (rows cols queries : nat) : P MerkleTreeProver :=
  _ ← assert_ (length matrix =? rows * cols);
  params ← new_params rows cols queries;
  let nodes := replicate (rows * 2) ZERO in
  leaves ← hash_rows rows matrix;
  let nodes := take rows nodes ++ leaves in
  nodes ← fold_layers (layers params) nodes;
  root ← unwrap (nodes !! 1);
  Ok (mkProver params matrix nodes root).

(* L86-95 MerkleTreeProver::commit *)
Definition prover_commit {R X} `{Rng R E X} (p : MerkleTreeProver) (iop : WriteIOP R) : WriteIOP R :=
  let top_size := top_size (p_params p) in
  write_commit (p_root p) (write_pod_slice (take top_size (drop top_size (p_nodes p))) iop).

(* L102-112 MerkleTreeProver::get_column *)
Definition get_column (p : MerkleTreeProver) (idx : nat) : P (list E) :=
  _ ← assert_ (idx <? row_size (p_params p));
  mapM (fun i => unwrap (p_matrix p !! (idx + i * row_size (p_params p)))) (seq 0 (col_size (p_params p))).

(* L120-126 MerkleTreeProver::get_digests, the loop *)
Fixpoint digests_loop (fuel : nat) (p : MerkleTreeProver) (idx : nat) : P (list Digest) :=
  match fuel with
  | O => Panic
  | S fuel =>
      if 2 * top_size (p_params p) <=? idx then
        let low_bit := idx mod 2 in
        let idx := idx / 2 in
        let other_idx := 2 * idx + (1 - low_bit) in
        other ← unwrap (p_nodes p !! other_idx);
        rest ← digests_loop fuel p idx;
        Ok (other :: rest)
      else Ok []
  end.

(* L114-129 MerkleTreeProver::get_digests *)
Definition get_digests (p : MerkleTreeProver) (idx : nat) : P (list Digest) :=
  _ ← assert_ (idx <? row_size (p_params p));
  digests_loop (S (idx + row_size (p_params p))) p (idx + row_size (p_params p)).

(* L145-161 MerkleTreeProver::prove *)
Definition prove {R} `{ElemWords E} (p : MerkleTreeProver) (idx : nat) (iop : WriteIOP R) : P (list E * WriteIOP R) :=
  out ← get_column p idx;
  let iop := write_field_elem_slice out iop in
  digests ← get_digests p idx;
  Ok (out, write_pod_slice digests iop).

End Prover.
Arguments MerkleTreeProver E : clear implicits.

(** ** The verifier *)

(* source: src/risc0/risc0/zkp/src/verify/merkle.rs *)
Section Verifier.
Context {E R X : Type} `{HashFn E, ElemWords E, Rng R E X}.
Abbreviation VM := (state (ReadIOP R) VerificationError).

(* L26-44 MerkleTreeVerifier *)
Record MerkleTreeVerifier := mkVerifier { v_params : MerkleTreeParams; top : list Digest; rest : list Digest }.

(* L53-67 MerkleTreeParams::idx_to_top *)
Definition idx_to_top (params : MerkleTreeParams) (idx : nat) : nat := idx - top_size params.
(* L69-79 MerkleTreeParams::idx_to_rest *)
Definition idx_to_rest (params : MerkleTreeParams) (idx : nat) : nat := idx - 1.

(** The spare capacity is written before it is read; reading an entry that has not
    been written is undefined behaviour and a panic here. *)
(* L101-110 MerkleTreeVerifier::new, the first loop *)
Fixpoint fill_from_top (params : MerkleTreeParams) (top : list Digest) (is_ : list nat) (fill : list (option Digest))
    : outcome VerificationError (list (option Digest)) :=
  match is_ with
  | [] => Ok fill
  | i :: is_ =>
      let top_idx := idx_to_top params (2 * i) in
      left ← unwrap (top !! top_idx);
      right ← unwrap (top !! (top_idx + 1));
      if negb (is_digest_valid left) || negb (is_digest_valid right) then Err ReceiptFormatError else
      _ ← assert_ (idx_to_rest params i <? length fill);
      hash ← unwrap (hash_pair left right);
      fill_from_top params top is_ (<[idx_to_rest params i := Some hash]> fill)
  end.

(* L112-120 MerkleTreeVerifier::new, the second loop *)
Fixpoint fill_rest (params : MerkleTreeParams) (is_ : list nat) (fill : list (option Digest))
    : outcome VerificationError (list (option Digest)) :=
  match is_ with
  | [] => Ok fill
  | i :: is_ =>
      let upper_rest_idx := idx_to_rest params (i * 2) in
      left ← unwrap (mjoin (fill !! upper_rest_idx));
      right ← unwrap (mjoin (fill !! (upper_rest_idx + 1)));
      _ ← assert_ (idx_to_rest params i <? length fill);
      hash ← unwrap (hash_pair left right);
      fill_rest params is_ (<[idx_to_rest params i := Some hash]> fill)
  end.

(* L134-141 MerkleTreeVerifier::root *)
Definition root (v : MerkleTreeVerifier) : option Digest :=
  match rest v with
  | [] => top v !! idx_to_top (v_params v) 1
  | _ => rest v !! idx_to_rest (v_params v) 1
  end.

(* L83-132 MerkleTreeVerifier::new *)
Definition verifier_new (row_size col_size queries : nat) : VM MerkleTreeVerifier :=
  params ← lift (new_params row_size col_size queries);
  top ← read_pod_slice (top_size params);
  let t := top_size params in
  let fill : list (option Digest) := replicate (t - 1) None in
  fill ← (if 0 <? length fill
          then lift (fill_from_top params top (rev (seq (t / 2) (t - t / 2))) fill)
          else mret fill);
  fill ← lift (fill_rest params (rev (seq 1 (t / 2 - 1))) fill);
  rest ← lift (mapM unwrap fill);
  let verifier := mkVerifier params top rest in
  root ← lift (unwrap (root verifier));
  commit root;;
  mret verifier.

(* L162-183 MerkleTreeVerifier::verify, the loop *)
Fixpoint ascend (fuel : nat) (params : MerkleTreeParams) (idx : nat) (cur : Digest) : VM (nat * Digest) :=
  match fuel with
  | O => panic
  | S fuel =>
      if 2 * top_size params <=? idx then
        let low_bit := idx mod 2 in
        others ← read_pod_slice 1;
        match others with
        | [other] =>
            if negb (is_digest_valid other) then throw ReceiptFormatError else
            let idx := idx / 2 in
            cur ← lift (unwrap (if low_bit =? 1 then hash_pair other cur else hash_pair cur other));
            ascend fuel params idx cur
        | _ => panic
        end
      else mret (idx, cur)
  end.

(* L143-195 MerkleTreeVerifier::verify *)
Definition verify (v : MerkleTreeVerifier) (idx : nat) : VM (list E) :=
  let params := v_params v in
  if row_size params <=? idx then throw (MerkleQueryOutOfRange idx (row_size params)) else
  out ← read_field_elem_slice (col_size params);
  let cur := hash_elem_slice out in
  let idx := idx + row_size params in
  '(idx, cur) ← ascend (S idx) params idx cur;
  present_hash ← lift (unwrap (if top_size params <=? idx
                               then top v !! idx_to_top params idx
                               else rest v !! idx_to_rest params idx));
  if decide (present_hash = cur) then mret out else throw InvalidProof.

End Verifier.
End Merkle.
