(* ===== verification/MerkleSpec.v ===== *)
(** * Completeness and binding of the STARK's Merkle trees

    The prover's nodes satisfy the heap equation; the verifier recomputes the same
    nodes from the top layer; branches of the tree are accepted, and an accepted
    branch against the prover's root is the prover's column or exhibits a collision
    of the hash functions. *)
From S2P Require Export Merkle.
Import Merkle.
Open Scope nat_scope.

(** ** The parameters *)

Lemma shl1_pow n : (0 <= n < 64)%Z -> shl1 n = (2 ^ n)%Z.
Proof.
  intros Hn. unfold shl1. rewrite Z.mod_small, Z.shiftl_1_l by lia. apply wrap_small. unfold fits.
  pose proof (Z.pow_lt_mono_r 2 n 64). lia.
Qed.

Lemma to_po2_pow k : (0 <= k < 32)%Z -> to_po2 (2 ^ k) = k.
Proof.
  intros Hk. unfold to_po2, leading_zeros.
  assert (H : (0 < 2 ^ k < 2 ^ 32)%Z) by (split; [apply Z.pow_pos_nonneg; lia|apply Z.pow_lt_mono_r; lia]).
  rewrite (wrap_small 32 (2 ^ k)) by (unfold fits; lia). destruct (Z.eqb_spec (2 ^ k) 0); [lia|].
  rewrite Z.log2_pow2 by lia. rewrite wrap_small; [lia|unfold fits; lia].
Qed.

Lemma top_layer_loop_spec n : forall i q, (1 <= i)%Z -> (i + Z.of_nat n < 64)%Z ->
  let t := top_layer_loop (seqZ i (Z.of_nat n)) q (i - 1) in
  (i - 1 <= t <= i + Z.of_nat n - 1)%Z /\ (t = i - 1 \/ 2 ^ t <= q)%Z /\ (t < i + Z.of_nat n - 1 -> q < 2 ^ (t + 1))%Z.
Proof.
  induction n as [|n IH]; intros i q Hi Hn; [rewrite seqZ_nil by lia; cbn [top_layer_loop]; cbv zeta; lia|].
  rewrite seqZ_cons by lia. cbn [top_layer_loop]. rewrite shl1_pow by lia.
  destruct (Z.ltb_spec q (2 ^ i)).
  - cbv zeta. replace (i - 1 + 1)%Z with i by lia. lia.
  - replace (Z.pred (Z.of_nat (S n))) with (Z.of_nat n) by lia.
    specialize (IH (Z.succ i) q ltac:(lia) ltac:(lia)). replace (Z.succ i - 1)%Z with i in IH by lia.
    cbv zeta in *. destruct IH as (H1 & H2 & H3). split; [lia|]. split; [|lia].
    destruct H2 as [-> |]; [right|by right]. lia.
Qed.

(** What the constructor returns for a number of rows that is a power of two. *)
Lemma new_params_pow {Er} k cols q : k < 32 ->
  exists t, (new_params (2 ^ k) cols q : outcome Er _) = Ok (mkParams (2 ^ k) cols k (2 ^ t)) /\
    t <= k - 1 /\ (t = 0 \/ 2 ^ t <= q) /\ (t < k - 1 -> q < 2 ^ (t + 1)).
Proof.
  intros Hk. unfold new_params. rewrite Nat2Z.inj_pow. change (Z.of_nat 2) with 2%Z. rewrite to_po2_pow by lia.
  rewrite (shl1_pow (Z.of_nat k)), Z.eqb_refl by lia. cbn [assert_ mbind outcome_bind].
  assert (E : seqZ 1 (Z.of_nat k - 1) = seqZ 1 (Z.of_nat (k - 1))).
  { destruct k; [done|]. f_equal. lia. }
  rewrite E. pose proof (top_layer_loop_spec (k - 1) 1 (Z.of_nat q) ltac:(lia) ltac:(lia)) as H. cbv zeta in H.
  change (1 - 1)%Z with 0%Z in H. set (t := top_layer_loop _ _ _) in *. destruct H as (H1 & H2 & H3).
  assert (Ht : exists u, t = Z.of_nat u) by (exists (Z.to_nat t); lia). destruct Ht as [u Hu]. rewrite Hu in *.
  exists u. rewrite shl1_pow, Nat2Z.id by lia. change 2%Z with (Z.of_nat 2). rewrite <- Nat2Z.inj_pow, Nat2Z.id.
  split; [done|]. split; [lia|]. change 2%Z with (Z.of_nat 2) in H2, H3. split.
  - destruct H2 as [|H2]; [left; lia|right]. rewrite <- Nat2Z.inj_pow in H2. lia.
  - intros Hlt. specialize (H3 ltac:(lia)). replace (Z.of_nat u + 1)%Z with (Z.of_nat (u + 1)) in H3 by lia.
    rewrite <- Nat2Z.inj_pow in H3. lia.
Qed.

Lemma new_params_bad {Er} n cols q : (forall k, k < 32 -> n <> 2 ^ k) -> (Z.of_nat n < 2 ^ 63)%Z ->
  (new_params n cols q : outcome Er _) = Panic.
Proof.
  intros Hn Hb. unfold new_params. destruct (Z.eqb_spec (shl1 (to_po2 (Z.of_nat n))) (Z.of_nat n)) as [E|]; [|done].
  exfalso. unfold to_po2, leading_zeros in E. pose proof (wrap_fits 32 (Z.of_nat n) ltac:(lia)) as Hw. unfold fits in Hw.
  set (w := wrap 32 (Z.of_nat n)) in *. destruct (Z.eqb_spec w 0).
  - change (shl1 (wrap 32 (31 - 32))) with (2 ^ 63)%Z in E. lia.
  - pose proof (Z.log2_nonneg w). assert (Hl : (Z.log2 w < 32)%Z) by (apply Z.log2_lt_pow2; lia).
    rewrite wrap_small in E by (unfold fits; lia). rewrite shl1_pow in E by lia.
    replace (31 - (31 - Z.log2 w))%Z with (Z.log2 w) in E by lia.
    apply (Hn (Z.to_nat (Z.log2 w))); [lia|]. apply Nat2Z.inj. rewrite Nat2Z.inj_pow, Z2Nat.id by lia. exact (eq_sym E).
Qed.

(** ** Panic-free maps and heaps *)

Lemma run_ok {S E A B} (o : outcome E A) a s (f : A -> state S E B) : o = Ok a -> (lift o ≫= f) s = f a s.
Proof. intros ->. done. Qed.

Lemma mapM_seq {Er A} (f : nat -> outcome Er A) (g : nat -> A) n : forall s,
  (forall i, s <= i < s + n -> f i = Ok (g i)) -> mapM f (seq s n) = Ok (map g (seq s n)).
Proof.
  induction n as [|n IH]; intros s Hf; [done|]. cbn [seq mapM map]. rewrite Hf by lia. cbn [mbind outcome_bind].
  rewrite IH by (intros; apply Hf; lia). done.
Qed.

Definition node (ns : list Digest) (i : nat) : Digest := nth i ns ZERO.

Lemma node_lookup ns i : i < length ns -> ns !! i = Some (node ns i).
Proof. intros Hi. destruct (lookup_lt_is_Some_2 ns i Hi) as [x Hx]. unfold node. by rewrite (nth_lookup_Some _ _ _ _ Hx). Qed.

Lemma node_app_l l l' i : i < length l -> node (l ++ l') i = node l i.
Proof. intros. by apply app_nth1. Qed.
Lemma node_app_r l l' i : length l <= i -> node (l ++ l') i = node l' (i - length l).
Proof. intros. by apply app_nth2. Qed.
Lemma node_map (g : nat -> Digest) n i : i < n -> node (map g (seq 0 n)) i = g i.
Proof.
  intros Hi. unfold node. rewrite (nth_indep _ ZERO (g 0)) by (rewrite length_map, length_seq; lia).
  rewrite map_nth, seq_nth by lia. done.
Qed.
Lemma node_take n l i : i < n -> node (take n l) i = node l i.
Proof. intros Hi. unfold node. rewrite !nth_lookup. by rewrite lookup_take_lt. Qed.
Lemma node_drop n l i : node (drop n l) i = node l (n + i).
Proof. unfold node. rewrite !nth_lookup. by rewrite lookup_drop. Qed.

(** Hashing that may fail, over a range: the hashes, or an index where there is none. *)
Lemma mapM_seq_opt {Er A} (f : nat -> outcome Er A) (h : nat -> option A) n : forall s,
  (forall i, s <= i < s + n -> f i = unwrap (h i)) ->
  match mapM f (seq s n) with
  | Ok l => length l = n /\ forall i, i < n -> l !! i = h (s + i)
  | Err _ => False
  | Panic => exists i, s <= i < s + n /\ h i = None
  end.
Proof.
  induction n as [|n IH]; intros s Hf; [split; [done|lia]|]. cbn [seq mapM]. rewrite Hf by lia.
  destruct (h s) as [a|] eqn:Ea; cbn [unwrap mbind outcome_bind]; [|exists s; split; [lia|done]].
  specialize (IH (S s) ltac:(intros; apply Hf; lia)). destruct (mapM f (seq (S s) n)) as [l|e|]; cbn [mbind outcome_bind]; [|done|].
  - destruct IH as [Hl Hi]. split; [cbn; by rewrite Hl|]. intros [|i] Hlt; [by rewrite Nat.add_0_r|]. cbn. rewrite Hi by lia. f_equal. lia.
  - destruct IH as (i & Hi & Hn). exists i. split; [lia|done].
Qed.

(** What an element type's casts promise: elements are [WORDS] words, a valid one is cast back
    to itself, and what words are cast to is valid. *)
Class ElemWordsOk (T : Type) `{ElemWords T} := {
  elem_ok : T -> Prop;
  words_pos : 0 < WORDS;
  elem_words_length e : length (elem_words e) = WORDS;
  elem_words_cast e : elem_ok e -> elem_of_words (elem_words e) = Some e;
  elem_cast_ok ws e : Forall (fits 32) ws -> elem_of_words ws = Some e -> elem_ok e }.

(** Digests of words that the trait calls valid; the contract of the hash functions is that
    valid digests and elements have hashes, which are valid. *)
Section Contract.
Context {E : Type} `{HashFn E} `{ElemWordsOk E}.
Definition digest_words_ok (d : Digest) : Prop := Forall (fits 32) (as_words d).
Definition digest_ok (d : Digest) : Prop := digest_words_ok d /\ is_digest_valid d = true.
Definition pairs_valid : Prop := forall a b, digest_ok a -> digest_ok b -> exists d, hash_pair a b = Some d /\ digest_ok d.
Definition hashes_valid : Prop := pairs_valid /\ forall es : list E, Forall elem_ok es -> digest_ok (hash_elem_slice es).
End Contract.

Section Prover.
Context {E : Type} `{HashFn E} {Er : Type}.

(** The heap equation between two indices. *)
Definition heap (N : nat -> Digest) (lo hi : nat) : Prop :=
  forall i, lo <= i < hi -> hash_pair (N (2 * i)) (N (2 * i + 1)) = Some (N i).

Lemma hash_fold_spec io o : 4 * o <= length io ->
  match (hash_fold io (o * 2) o : outcome Er _) with
  | Ok io' => length io' = length io /\
      (forall j, o <= j < 2 * o -> hash_pair (node io (2 * j)) (node io (2 * j + 1)) = Some (node io' j)) /\
      (forall j, ~ o <= j < 2 * o -> node io' j = node io j)
  | Err _ => False
  | Panic => exists j, o <= j < 2 * o /\ hash_pair (node io (2 * j)) (node io (2 * j + 1)) = None
  end.
Proof.
  intros Hl. unfold hash_fold. destruct (Nat.leb_spec (2 * (o * 2)) (length io)); [|lia].
  replace (o * 2 =? 2 * o) with true by (symmetry; apply Nat.eqb_eq; lia). cbn [assert_ mbind outcome_bind].
  set (g := fun idx => hash_pair (node io (2 * (o + idx))) (node io (2 * (o + idx) + 1))).
  match goal with |- context [mapM ?f (seq 0 o)] => pose proof (mapM_seq_opt f g o 0) as Hm end.
  match type of Hm with ?P -> _ => assert (HP : P) end.
  { intros i Hi. rewrite !node_lookup by lia. cbn [unwrap mbind outcome_bind]. unfold g. do 3 f_equal; lia. }
  specialize (Hm HP). clear HP. destruct (mapM _ (seq 0 o)) as [l|e|]; cbn [mbind outcome_bind]; [|done|].
  2:{ destruct Hm as (i & Hi & Hn). exists (o + i). split; [lia|exact Hn]. }
  destruct Hm as [Hlen Hlook]. assert (Ht : length (take o io) = o) by (rewrite length_take; lia).
  split; [rewrite !length_app, Ht, Hlen, length_drop; lia|]. split.
  - intros j Hj. specialize (Hlook (j - o) ltac:(lia)). rewrite node_lookup in Hlook by lia. rewrite node_app_r, node_app_l, Ht by lia.
    unfold g in Hlook. cbn [plus] in Hlook. replace (o + (j - o)) with j in Hlook by lia. by rewrite <- Hlook.
  - intros j Hj. destruct (Nat.lt_ge_cases j o).
    + by rewrite node_app_l, node_take by lia.
    + rewrite node_app_r, node_app_r, node_drop by lia. f_equal. lia.
Qed.

(** Folding the layers panics only when a layer holds digests that have no hash. *)
Lemma fold_layers_spec (good : Digest -> Prop) l : forall ns rows, 2 ^ l <= rows -> length ns = rows * 2 -> heap (node ns) (2 ^ l) rows ->
  match (fold_layers l ns : outcome Er _) with
  | Ok ns' => length ns' = rows * 2 /\ heap (node ns') 1 rows /\ forall j, 2 ^ l <= j -> node ns' j = node ns j
  | Err _ => False
  | Panic => ~ ((forall a b, good a -> good b -> exists d, hash_pair a b = Some d /\ good d) /\ forall j, 2 ^ l <= j < rows * 2 -> good (node ns j))
  end.
Proof.
  induction l as [|l IH]; intros ns rows Hr Hl Hh; cbn [fold_layers]; [done|].
  cbn [Nat.pow] in *. pose proof (hash_fold_spec ns (2 ^ l) ltac:(lia)) as Hfold.
  assert (Hp : 2 ^ l <> 0) by (by apply Nat.pow_nonzero).
  destruct (hash_fold ns (2 ^ l * 2) (2 ^ l)) as [ns1|e|]; cbn [mbind outcome_bind]; [|done|].
  2:{ destruct Hfold as (j & Hj & Hn). intros [Hc Hg]. destruct (Hc (node ns (2 * j)) (node ns (2 * j + 1))) as (d & E1 & _); [apply Hg; lia..|]. congruence. }
  destruct Hfold as (Hl1 & Hn1 & Hk1). specialize (IH ns1 rows ltac:(lia) ltac:(lia)).
  assert (Hh1 : heap (node ns1) (2 ^ l) rows).
  { intros i Hi. rewrite (Hk1 (2 * i)), (Hk1 (2 * i + 1)) by lia. destruct (decide (i < 2 * 2 ^ l)); [apply Hn1; lia|].
    rewrite (Hk1 i) by lia. apply Hh. lia. }
  specialize (IH Hh1). destruct (fold_layers l ns1) as [ns2|e|]; [|done|].
  - destruct IH as (Hl2 & Hh2 & Hn2). split; [done|]. split; [done|]. intros j Hj. rewrite Hn2 by lia. apply Hk1. lia.
  - intros [Hc Hg]. apply IH. split; [exact Hc|]. intros j Hj. destruct (decide (2 ^ l <= j < 2 * 2 ^ l)) as [Hin|Hout].
    + destruct (Hc (node ns (2 * j)) (node ns (2 * j + 1))) as (d & E1 & Hd); [apply Hg; lia..|].
      rewrite Hn1 in E1 by done. by injection E1 as ->.
    + rewrite Hk1 by done. apply Hg. lia.
Qed.

(** The column of the matrix that is stored at stride [rows]. *)
Definition column (matrix : list E) (rows cols idx : nat) (d : E) : list E :=
  map (fun i => nth (i * rows + idx) matrix d) (seq 0 cols).

Lemma nth_lookup_ok {A} (l : list A) i d : i < length l -> l !! i = Some (nth i l d).
Proof. intros Hi. destruct (lookup_lt_is_Some_2 l i Hi) as [x Hx]. by rewrite (nth_lookup_Some _ _ _ _ Hx). Qed.

(** A prover's tree: parameters, matrix and nodes fit together. *)
Record tree_ok (p : MerkleTreeProver E) (k t : nat) (matrix : list E) (cols : nat) (d : E) : Prop := mkTree {
  tree_params : p_params p = mkParams (2 ^ k) cols k (2 ^ t);
  tree_top : t <= k;
  tree_matrix : p_matrix p = matrix;
  tree_size : length matrix = 2 ^ k * cols;
  tree_nodes : length (p_nodes p) = 2 ^ k * 2;
  tree_heap : heap (node (p_nodes p)) 1 (2 ^ k);
  tree_leaf : forall idx, idx < 2 ^ k -> node (p_nodes p) (2 ^ k + idx) = hash_elem_slice (column matrix (2 ^ k) cols idx d);
  tree_root : p_root p = node (p_nodes p) 1 }.

(** What the prover's tree is; building it panics only when there are no hashes. *)
Lemma prover_new_spec (good : Digest -> Prop) k cols q matrix d : k < 32 -> length matrix = 2 ^ k * cols ->
  match (prover_new matrix (2 ^ k) cols q : outcome Er _) with
  | Ok p => exists t, tree_ok p k t matrix cols d /\ forall Er', exists prm, (new_params (2 ^ k) cols q : outcome Er' _) = Ok prm /\ prm = p_params p
  | Err _ => False
  | Panic => ~ ((forall a b, good a -> good b -> exists d, hash_pair a b = Some d /\ good d) /\
                forall idx, idx < 2 ^ k -> good (hash_elem_slice (column matrix (2 ^ k) cols idx d)))
  end.
Proof.
  intros Hk Hm. assert (Hp : 2 ^ k <> 0) by (by apply Nat.pow_nonzero).
  destruct (new_params_pow (Er := Er) k cols q Hk) as (t & Et & Htk & Hrest). unfold prover_new.
  rewrite Hm, Nat.eqb_refl, Et. cbn [assert_ mbind outcome_bind layers].
  assert (Hrow : (hash_rows (2 ^ k) matrix : outcome Er _)
    = Ok (map (fun idx => hash_elem_slice (column matrix (2 ^ k) cols idx d)) (seq 0 (2 ^ k)))).
  { unfold hash_rows. assert (Ec : length matrix / 2 ^ k = cols) by (by rewrite Hm, Nat.mul_comm, Nat.div_mul).
    rewrite Ec, Hm. replace (2 ^ k * cols =? cols * 2 ^ k) with true by (symmetry; apply Nat.eqb_eq; lia).
    cbn [assert_ mbind outcome_bind]. apply mapM_seq. intros idx Hidx.
    rewrite (mapM_seq _ (fun i => nth (i * 2 ^ k + idx) matrix d)); [done|].
    intros i Hi. rewrite (nth_lookup_ok _ _ d); [done|]. rewrite Hm. nia. }
  rewrite Hrow. cbn [mbind outcome_bind]. set (leaves := map _ (seq 0 (2 ^ k))).
  assert (Hll : length leaves = 2 ^ k) by (unfold leaves; by rewrite length_map, length_seq).
  set (ns := take (2 ^ k) (replicate (2 ^ k * 2) ZERO) ++ leaves).
  assert (Htl : length (take (2 ^ k) (replicate (2 ^ k * 2) ZERO)) = 2 ^ k) by (rewrite length_take, length_replicate; lia).
  assert (Hleaf : forall idx, idx < 2 ^ k -> node ns (2 ^ k + idx) = hash_elem_slice (column matrix (2 ^ k) cols idx d)).
  { intros idx Hidx. unfold ns. rewrite node_app_r by lia. rewrite Htl. replace (2 ^ k + idx - 2 ^ k) with idx by lia. unfold leaves. by rewrite node_map. }
  pose proof (fold_layers_spec good k ns (2 ^ k) ltac:(lia) ltac:(unfold ns; rewrite length_app, Htl, Hll; lia) ltac:(intros i Hi; lia)) as Hfold.
  destruct (fold_layers k ns) as [ns'|e|]; cbn [mbind outcome_bind]; [|done|].
  2:{ intros [Hc Hg]. apply Hfold. split; [exact Hc|]. intros j Hj. replace j with (2 ^ k + (j - 2 ^ k)) by lia. rewrite Hleaf by lia. apply Hg. lia. }
  destruct Hfold as (Hl' & Hh' & Hn'). rewrite node_lookup by lia. cbn [unwrap mbind outcome_bind].
  exists t. split.
  - constructor; try done; [lia|]. intros idx Hidx. cbn [p_nodes]. rewrite Hn' by lia. by apply Hleaf.
  - intros Er'. destruct (new_params_pow (Er := Er') k cols q Hk) as (t' & Et' & Htk' & Hrest').
    eexists. split; [exact Et'|]. cbn [p_params].
    unfold new_params in Et, Et'. destruct (assert_ _) in Et; [|done..]. destruct (assert_ _) in Et'; [|done..].
    cbn in Et, Et'. congruence.
Qed.

End Prover.

(** ** Reading digests and elements *)

Lemma digest_words_length ds : length (digest_words ds) = length ds * 8.
Proof. induction ds as [|d ds IH]; [done|]. unfold digest_words in *. rewrite bind_cons, length_app, IH. cbn. lia. Qed.

Lemma digests_of_words ds : digests_of (digest_words ds) = ds.
Proof. induction ds as [|[] ds IH]; [done|]. unfold digest_words in *. rewrite bind_cons. cbn. by rewrite IH. Qed.

Lemma digests_of_length : forall n ws, length ws = n * 8 -> length (digests_of ws) = n /\ digest_words (digests_of ws) = ws.
Proof.
  induction n as [|n IH]; intros ws Hl; [by destruct ws|].
  do 8 (destruct ws as [|? ws]; [cbn in Hl; lia|]). cbn [length] in Hl.
  destruct (IH ws) as [H1 H2]; [lia|]. cbn [digests_of length]. split; [by rewrite H1|].
  unfold digest_words in *. rewrite bind_cons. cbn [as_words d0 d1 d2 d3 d4 d5 d6 d7 app]. by rewrite H2.
Qed.

Section Reading.
Context {R E X : Type} `{Rng R E X}.

Lemma read_u32s_app n ws more (r : R) : length ws = n -> read_u32s n (mkRead (ws ++ more) r) = (Ok ws, mkRead more r).
Proof.
  intros <-. unfold read_u32s. cbn [proof rng]. rewrite length_app.
  destruct (Nat.leb_spec (length ws) (length ws + length more)); [|lia]. by rewrite take_app_length, drop_app_length.
Qed.

Lemma read_u32s_cases n (iop : ReadIOP R) :
  (exists ws, length ws = n /\ proof iop = ws ++ drop n (proof iop) /\
     read_u32s n iop = (Ok ws, mkRead (drop n (proof iop)) (rng iop))) \/ read_u32s n iop = (Err ReceiptFormatError, iop).
Proof.
  unfold read_u32s. destruct (Nat.leb_spec n (length (proof iop))); [left|by right].
  exists (take n (proof iop)). rewrite length_take, take_drop. split; [lia|done].
Qed.

Lemma read_pod_app ds more (r : R) : read_pod_slice (length ds) (mkRead (digest_words ds ++ more) r) = (Ok ds, mkRead more r).
Proof.
  unfold read_pod_slice. rewrite (run_bind _ _ _ _ _ (read_u32s_app _ (digest_words ds) more r (digest_words_length ds))).
  by rewrite digests_of_words.
Qed.

Lemma read_pod_cases n (iop : ReadIOP R) :
  (exists ds more, length ds = n /\ proof iop = digest_words ds ++ more /\
     read_pod_slice n iop = (Ok ds, mkRead more (rng iop))) \/ read_pod_slice n iop = (Err ReceiptFormatError, iop).
Proof.
  unfold read_pod_slice. destruct (read_u32s_cases (n * DIGEST_WORDS) iop) as [(ws & Hl & Hp & E1)|E1].
  - left. destruct (digests_of_length n ws Hl) as [H1 H2]. exists (digests_of ws), (drop (n * DIGEST_WORDS) (proof iop)).
    split; [done|]. rewrite H2. split; [exact Hp|]. by rewrite (run_bind _ _ _ _ _ E1).
  - right. unfold mbind, state_bind. by rewrite E1.
Qed.

Lemma elems_of_length {T} `{ElemWords T} n : forall ws es, elems_of n ws = Some es -> length es = n.
Proof.
  induction n as [|n IH]; intros ws es He; cbn in He; [by injection He as <-|].
  destruct (elem_of_words _) as [e|]; [|done]. cbn in He. destruct (elems_of n _) as [es'|] eqn:E1; [|done].
  injection He as <-. cbn. f_equal. by eapply IH.
Qed.

Lemma elems_of_words {T} `{ElemWordsOk T} es more : Forall elem_ok es -> elems_of (length es) (as_u32_slice es ++ more) = Some es.
Proof.
  induction 1 as [|e es He _ IH]; [done|]. unfold as_u32_slice in *. rewrite bind_cons. cbn [length elems_of].
  rewrite <- app_assoc, <- (elem_words_length e), take_app_length, drop_app_length, elem_words_cast by done.
  cbn. by rewrite IH.
Qed.

Lemma as_u32_slice_length {T} `{ElemWordsOk T} es : length (as_u32_slice es) = length es * WORDS.
Proof. induction es as [|e es IH]; [done|]. unfold as_u32_slice in *. rewrite bind_cons, length_app, IH, elem_words_length. cbn. lia. Qed.

Lemma read_elems_app {T} `{ElemWordsOk T} es more (r : R) : Forall elem_ok es ->
  read_field_elem_slice (length es) (mkRead (as_u32_slice es ++ more) r) = (Ok es, mkRead more r).
Proof.
  intros Hes. unfold read_field_elem_slice.
  rewrite (run_bind _ _ _ _ _ (read_u32s_app _ (as_u32_slice es) more r (as_u32_slice_length es))).
  unfold try_from_u32_slice. rewrite as_u32_slice_length, Nat.div_mul by (pose proof words_pos; lia).
  pose proof (elems_of_words es [] Hes) as E1. rewrite app_nil_r in E1. by rewrite E1.
Qed.

Lemma read_elems_cases {T} `{ElemWordsOk T} n (iop : ReadIOP R) :
  (exists es more, length es = n /\ read_field_elem_slice n iop = (Ok es, mkRead more (rng iop)) /\
     exists ws, length ws = n * WORDS /\ elems_of n ws = Some es /\ proof iop = ws ++ more) \/
  (exists iop', read_field_elem_slice n iop = (Err ReceiptFormatError, iop')).
Proof.
  unfold read_field_elem_slice. destruct (read_u32s_cases (n * WORDS) iop) as [(ws & Hl & Hp & E1)|E1].
  - rewrite (run_bind _ _ _ _ _ E1). unfold try_from_u32_slice. rewrite Hl, Nat.div_mul by (pose proof words_pos; lia).
    destruct (elems_of n ws) as [es|] eqn:E2; [left|right; eexists; reflexivity].
    exists es, (drop (n * WORDS) (proof iop)). split; [by eapply elems_of_length|]. split; [done|]. by exists ws.
  - right. exists iop. unfold mbind, state_bind. by rewrite E1.
Qed.

(** Elements that were cast from words are valid, and so are digests when the trait says so. *)
Lemma elems_of_ok {T} `{ElemWordsOk T} n : forall ws es, Forall (fits 32) ws -> elems_of n ws = Some es -> Forall elem_ok es.
Proof.
  induction n as [|n IH]; intros ws es Hws He; cbn in He; [by injection He as <-|].
  destruct (elem_of_words _) as [e|] eqn:Ee; [|done]. cbn in He. destruct (elems_of n _) as [es'|] eqn:E1; [|done].
  injection He as <-. constructor; [eapply elem_cast_ok; [|exact Ee]; by apply Forall_take|]. eapply IH; [|exact E1]. by apply Forall_drop.
Qed.
Lemma digest_words_u32 ds : Forall (fits 32) (digest_words ds) -> Forall digest_words_ok ds.
Proof.
  induction ds as [|d ds IH]; [constructor|]. unfold digest_words in *. rewrite bind_cons, Forall_app. intros [Hd Hds]. constructor; auto.
Qed.
End Reading.

(** ** The verifier's tree *)

Lemma rev_seq_S b n : rev (seq b (S n)) = (b + n) :: rev (seq b n).
Proof. by rewrite seq_S, rev_app_distr. Qed.

Section Verifier.
Context {E R X : Type} {HF : HashFn E} {EW : ElemWords E} {EO : ElemWordsOk E} {RG : Rng R E X}.

Lemma fill_from_top_spec prm tops n : forall b (fill : list (option Digest)), 1 <= b -> top_size prm <= 2 * b -> b + n <= top_size prm ->
  length tops = top_size prm -> length fill = top_size prm - 1 ->
  (pairs_valid -> Forall digest_ok tops -> exists fill', fill_from_top prm tops (rev (seq b n)) fill = Ok fill') /\
  match fill_from_top prm tops (rev (seq b n)) fill with
  | Ok fill' => length fill' = length fill /\
      (forall i, b <= i < b + n -> exists h, fill' !! (i - 1) = Some (Some h) /\
         hash_pair (node tops (2 * i - top_size prm)) (node tops (2 * i + 1 - top_size prm)) = Some h /\
         (pairs_valid -> Forall digest_words_ok tops -> digest_ok h)) /\
      (forall i, 1 <= i -> ~ b <= i < b + n -> fill' !! (i - 1) = fill !! (i - 1))
  | Err e => e = ReceiptFormatError
  | Panic => ~ (pairs_valid /\ Forall digest_words_ok tops)
  end.
Proof.
  induction n as [|n IH]; intros b fill Hb Ht Hn Hl Hf.
  { cbn. split; [eauto|]. split; [done|]. split; [lia|done]. }
  rewrite rev_seq_S. cbn [fill_from_top]. unfold idx_to_top, idx_to_rest.
  rewrite !node_lookup by lia. cbn [unwrap mbind outcome_bind].
  set (l := node tops (2 * (b + n) - top_size prm)). set (r := node tops (2 * (b + n) - top_size prm + 1)).
  assert (Hlr : l ∈ tops /\ r ∈ tops).
  { split; eapply list_elem_of_lookup_2; apply node_lookup; lia. }
  destruct (is_digest_valid l) eqn:Evl, (is_digest_valid r) eqn:Evr; cbn [negb orb];
    try (split; [intros _ Hv; rewrite Forall_forall in Hv; destruct (Hv l (proj1 Hlr)), (Hv r (proj2 Hlr)); congruence|done]).
  destruct (Nat.ltb_spec (b + n - 1) (length fill)); [|lia]. cbn [assert_ mbind outcome_bind].
  assert (Hok : Forall digest_words_ok tops -> digest_ok l /\ digest_ok r) by (intros Hv; rewrite Forall_forall in Hv; split; (split; [apply Hv; apply Hlr|done])).
  destruct (hash_pair l r) as [h|] eqn:Eh; cbn [unwrap mbind outcome_bind].
  2:{ assert (Hno : pairs_valid -> Forall digest_words_ok tops -> False) by (intros Hp Hv; destruct (Hok Hv) as [Hol Hor]; destruct (Hp l r Hol Hor) as (d & E1 & _); congruence).
      split; [|intros [Hp Hv]; by apply Hno]. intros Hp Hv. exfalso. apply Hno; [done|]. apply (Forall_impl _ _ _ Hv). by intros d []. }
  destruct (IH b (<[b + n - 1 := Some h]> fill)) as [IH1 IH2]; [lia..|by rewrite length_insert|].
  split; [exact IH1|]. destruct (fill_from_top prm tops (rev (seq b n)) _) as [fill'|e|]; [|done..].
  rewrite length_insert in IH2. destruct IH2 as (H4 & H5 & H6). split; [done|]. split.
  - intros i Hi. destruct (decide (i = b + n)) as [->|]; [|apply H5; lia].
    exists h. rewrite H6, list_lookup_insert_eq by lia. split; [done|]. split.
    + rewrite <- Eh. unfold l, r. do 2 f_equal. lia.
    + intros Hp Hv. destruct (Hok Hv) as [Hol Hor]. destruct (Hp l r Hol Hor) as (d & E1 & Hd). rewrite Eh in E1. by injection E1 as ->.
  - intros i Hi1 Hi. rewrite H6, list_lookup_insert_ne by lia. done.
Qed.

Lemma fill_rest_spec prm n : forall (fill : list (option Digest)) (U : nat -> Digest), 2 * n + 1 < S (length fill) ->
  (forall i, n < i < S (length fill) -> fill !! (i - 1) = Some (Some (U i))) ->
  match fill_rest prm (rev (seq 1 n)) fill with
  | Ok fill' => exists U' : nat -> Digest, length fill' = length fill /\
    (forall i, 1 <= i < S (length fill) -> fill' !! (i - 1) = Some (Some (U' i))) /\
    (forall i, n < i -> U' i = U i) /\ heap U' 1 (S n)
  | Err _ => False
  | Panic => ~ (pairs_valid /\ forall i, n < i < S (length fill) -> digest_ok (U i))
  end.
Proof.
  induction n as [|n IH]; intros fill U Hn HU.
  { exists U. split; [done|]. split; [intros; apply HU; lia|]. split; [done|intros i Hi; lia]. }
  rewrite rev_seq_S. cbn [fill_rest plus]. unfold idx_to_rest.
  replace (S n * 2 - 1 + 1) with (2 * S n + 1 - 1) by lia. replace (S n * 2 - 1) with (2 * S n - 1) by lia.
  rewrite !HU by lia. cbn [mjoin option_join unwrap mbind outcome_bind].
  destruct (Nat.ltb_spec (S n - 1) (length fill)); [|lia]. cbn [assert_ mbind outcome_bind].
  destruct (hash_pair (U (2 * S n)) (U (2 * S n + 1))) as [h|] eqn:Eh; cbn [unwrap mbind outcome_bind].
  2:{ intros [Hp Hg]. destruct (Hp (U (2 * S n)) (U (2 * S n + 1))) as (d & E1 & _); [apply Hg; lia..|congruence]. }
  specialize (IH (<[S n - 1 := Some h]> fill) (fun i => if decide (i = S n) then h else U i)). rewrite length_insert in IH.
  specialize (IH ltac:(lia)). match type of IH with ?P -> _ => assert (HP : P) end.
  { intros i Hi. case_decide as Hd; [subst; by apply list_lookup_insert_eq|].
    rewrite list_lookup_insert_ne by lia. apply HU. lia. }
  specialize (IH HP). clear HP. destruct (fill_rest prm (rev (seq 1 n)) _) as [fill'|e|]; [|done|].
  - destruct IH as (U' & Hl' & Hf' & HU' & Hh'). exists U'. split; [done|]. split; [done|]. split.
    + intros i Hi. rewrite HU' by lia. by rewrite decide_False by lia.
    + intros i Hi. destruct (decide (i = S n)) as [->|]; [|apply Hh'; lia].
      rewrite !HU' by lia. rewrite (decide_False (P := 2 * S n = S n)), (decide_False (P := 2 * S n + 1 = S n)), decide_True by lia. exact Eh.
  - intros [Hp Hg]. apply IH. split; [exact Hp|]. intros i Hi. case_decide as Hd; [|apply Hg; lia].
    destruct (Hp (U (2 * S n)) (U (2 * S n + 1))) as (d & E1 & Hdok); [apply Hg; lia..|]. rewrite Eh in E1. by injection E1 as ->.
Qed.

(** The node of a verifier at an index below [2 top_size]. *)
Definition vnode (v : MerkleTreeVerifier) (i : nat) : Digest :=
  if decide (top_size (v_params v) <= i) then node (top v) (i - top_size (v_params v)) else node (rest v) (i - 1).

Record verifier_ok (v : MerkleTreeVerifier) (t : nat) : Prop := mkVOk {
  v_top : top_size (v_params v) = 2 ^ t;
  v_top_len : length (top v) = 2 ^ t;
  v_rest_len : length (rest v) = 2 ^ t - 1;
  v_heap : heap (vnode v) 1 (2 ^ t);
  v_root : root v = Some (vnode v 1) }.

Lemma mapM_unwrap {Er} fill (U : nat -> Digest) : (forall i, 1 <= i < S (length fill) -> fill !! (i - 1) = Some (Some (U i))) ->
  exists ds, (mapM unwrap fill : outcome Er _) = Ok ds /\ length ds = length fill /\
    forall i, 1 <= i < S (length fill) -> node ds (i - 1) = U i.
Proof.
  revert U. induction fill as [|x fill IH]; intros U HU; [exists []; cbn; split; [done|split; [done|lia]]|].
  pose proof (HU 1 ltac:(cbn; lia)) as Hx. cbn in Hx. injection Hx as ->.
  destruct (IH (fun i => U (S i))) as (ds & E1 & Hl & Hn).
  { intros i Hi. specialize (HU (S i) ltac:(cbn; lia)). replace (S i - 1) with (S (i - 1)) in HU by lia. exact HU. }
  exists (U 1 :: ds). cbn [mapM unwrap mbind outcome_bind]. rewrite E1. split; [done|]. split; [cbn; by rewrite Hl|].
  intros i Hi. destruct i as [|[|i]]; [lia|done|]. cbn [length] in Hi. specialize (Hn (S i) ltac:(lia)).
  replace (S i - 1) with i in Hn by lia. exact Hn.
Qed.

(** The two filling loops together build the nodes above the top layer. *)
Lemma fill_spec prm t tops : top_size prm = 2 ^ t -> length tops = 2 ^ t ->
  let fill : list (option Digest) := replicate (2 ^ t - 1) None in
  let first := if 0 <? length fill
               then fill_from_top prm tops (rev (seq (2 ^ t / 2) (2 ^ t - 2 ^ t / 2))) fill else Ok fill in
  (pairs_valid -> Forall digest_ok tops -> exists f, first = Ok f) /\
  match first with
  | Ok f =>
      match fill_rest prm (rev (seq 1 (2 ^ t / 2 - 1))) f with
      | Ok f' => exists ds, (mapM unwrap f' : outcome VerificationError _) = Ok ds /\ verifier_ok (mkVerifier prm tops ds) t
      | Err _ => False
      | Panic => ~ (pairs_valid /\ Forall digest_words_ok tops)
      end
  | Err e => e = ReceiptFormatError
  | Panic => ~ (pairs_valid /\ Forall digest_words_ok tops)
  end.
Proof.
  intros Ht Htl fill first. destruct t as [|t].
  { cbn in fill. subst fill. cbn in first. subst first. split; [eauto|].
    exists []. split; [done|]. constructor; try done; cbn [v_params]; [intros i Hi; cbn in Hi; lia|].
    unfold vnode, root. cbn [rest top v_params]. unfold idx_to_top. rewrite Ht. cbn in Htl |- *.
    by apply node_lookup; lia. }
  assert (Hp : 2 ^ t <> 0) by (by apply Nat.pow_nonzero).
  assert (Ehalf : 2 ^ S t / 2 = 2 ^ t) by (cbn [Nat.pow]; rewrite Nat.mul_comm; by apply Nat.div_mul).
  assert (Elen : length fill = 2 * 2 ^ t - 1) by (unfold fill; rewrite length_replicate; cbn [Nat.pow]; lia).
  subst first. rewrite Ehalf. destruct (Nat.ltb_spec 0 (length fill)) as [_|]; [|cbn [Nat.pow] in *; lia].
  replace (2 ^ S t - 2 ^ t) with (2 ^ t) by (cbn [Nat.pow]; lia).
  destruct (fill_from_top_spec prm tops (2 ^ t) (2 ^ t) fill) as [H1 H2];
    [lia|rewrite Ht; cbn [Nat.pow]; lia|rewrite Ht; cbn [Nat.pow]; lia|by rewrite Ht|rewrite Ht, Elen; done|].
  split; [exact H1|]. clear H1.
  destruct (fill_from_top prm tops (rev (seq (2 ^ t) (2 ^ t))) fill) as [f|e|]; [|done..]. destruct H2 as (Hl & Hf & _).
  set (U := fun i => default ZERO (mjoin (f !! (i - 1)))).
  assert (HU : forall i, 2 ^ t <= i < 2 ^ t + 2 ^ t -> f !! (i - 1) = Some (Some (U i)) /\
    hash_pair (node tops (2 * i - top_size prm)) (node tops (2 * i + 1 - top_size prm)) = Some (U i) /\
    (pairs_valid -> Forall digest_words_ok tops -> digest_ok (U i))).
  { intros i Hi. destruct (Hf i Hi) as (h & E1 & E2 & E3). unfold U. rewrite E1. cbn [mjoin option_join default]. auto. }
  pose proof (fill_rest_spec prm (2 ^ t - 1) f U ltac:(rewrite Hl, Elen; lia) ltac:(intros i Hi; apply HU; lia)) as Hrest.
  destruct (fill_rest prm (rev (seq 1 (2 ^ t - 1))) f) as [f'|e|]; [|done|].
  2:{ intros [Hpv Hu]. apply Hrest. split; [exact Hpv|]. intros i Hi. apply HU; [lia|done..]. }
  destruct Hrest as (U' & Hl' & Hf' & HU' & Hh').
  destruct (mapM_unwrap (Er := VerificationError) f' U') as (ds & E2 & Hl2 & Hn2); [rewrite Hl'; exact Hf'|].
  exists ds. split; [exact E2|].
  assert (HV : forall i, 1 <= i < 2 ^ S t -> vnode (mkVerifier prm tops ds) i = U' i).
  { intros i Hi. unfold vnode. cbn [v_params top rest]. rewrite Ht, decide_False by lia. apply Hn2. rewrite Hl', Hl, Elen.
    cbn [Nat.pow] in Hi. lia. }
  constructor; cbn [v_params top rest]; [done|done|rewrite Hl2, Hl', Hl, Elen; done| |].
  - intros i Hi. rewrite (HV i) by done. destruct (Nat.lt_ge_cases i (2 ^ t)) as [Hlt|Hge].
    + rewrite !HV by (cbn [Nat.pow]; lia). apply Hh'. lia.
    + rewrite HU' by lia. unfold vnode. cbn [v_params top]. rewrite Ht. cbn [Nat.pow] in *.
      rewrite !decide_True by lia. destruct (HU i ltac:(lia)) as (_ & Eh & _). rewrite Ht in Eh. exact Eh.
  - unfold root. cbn [rest]. destruct ds as [|x ds]; [cbn [length] in Hl2; lia|].
    unfold vnode, idx_to_rest. cbn [v_params rest]. rewrite Ht, decide_False by (cbn [Nat.pow]; lia).
    apply node_lookup. cbn [length]. lia.
Qed.

Lemma verifier_new_spec k cols q (iop : ReadIOP R) prm t : (new_params (2 ^ k) cols q : outcome VerificationError _) = Ok prm ->
  top_size prm = 2 ^ t ->
  match verifier_new (2 ^ k) cols q iop with
  | (Ok v, iop') => verifier_ok v t /\ v_params v = prm /\
      proof iop = digest_words (top v) ++ proof iop' /\ rng iop' = rng_mix (vnode v 1) (rng iop)
  | (Err e, _) => e = ReceiptFormatError
  | (Panic, _) => ~ (pairs_valid /\ Forall (fits 32) (proof iop))
  end.
Proof.
  intros Hprm Ht. unfold verifier_new. rewrite (run_ok _ _ _ _ Hprm).
  destruct (read_pod_cases (top_size prm) iop) as [(ds & more & Hl & Hp & E1)|E1].
  2:{ unfold mbind, state_bind. by rewrite E1. }
  rewrite (run_bind _ _ _ _ _ E1). set (iop1 := mkRead more (rng iop)).
  assert (Hu : ~ (pairs_valid /\ Forall digest_words_ok ds) -> ~ (pairs_valid /\ Forall (fits 32) (proof iop))).
  { intros Hno [Hpv Hu]. apply Hno. split; [done|]. rewrite Hp in Hu. apply digest_words_u32. by apply Forall_app in Hu as [Hu _]. }
  rewrite Ht in Hl. pose proof (fill_spec prm t ds Ht Hl) as [_ Hf]. cbv zeta in Hf. rewrite Ht.
  set (fill := replicate (2 ^ t - 1) None) in *.
  assert (Eif : forall a : outcome VerificationError (list (option Digest)),
    (if 0 <? length fill then lift a else mret fill) iop1 = ((if 0 <? length fill then a else Ok fill), iop1)).
  { intros. by destruct (0 <? length fill). }
  unfold mbind at 1, state_bind at 1. rewrite Eif. clear Eif.
  destruct (if 0 <? length fill then _ else _) as [f|e|]; [|done|by apply Hu].
  destruct (fill_rest prm _ f) as [f'|e|] eqn:E2; [|done|].
  2:{ unfold mbind, state_bind, lift. by apply Hu. }
  destruct Hf as (ds' & E3 & Hv). rewrite run_lift_Ok, (run_ok _ _ _ _ E3).
  rewrite (run_bind _ _ iop1 (vnode (mkVerifier prm ds ds') 1) iop1) by (unfold lift; by rewrite (v_root _ _ Hv)).
  cbn. split; [done|]. split; [done|]. split; [exact Hp|done].
Qed.

(** ** Branches *)

(** [branch t i c ds j d]: hashing [c] at index [i] with the digests [ds] reaches
    the digest [d] at the index [j] of the top layer. *)
Inductive branch (t : nat) : nat -> Digest -> list Digest -> nat -> Digest -> Prop :=
  | branch_top i c : i < 2 * t -> branch t i c [] i c
  | branch_up i c other c' ds j d : 2 * t <= i -> is_digest_valid other = true ->
      (if i mod 2 =? 1 then hash_pair other c else hash_pair c other) = Some c' ->
      branch t (i / 2) c' ds j d -> branch t i c (other :: ds) j d.

Lemma branch_end t i c ds j d : branch t i c ds j d -> t <= i -> t <= j < 2 * t.
Proof. induction 1; intros Hi; [lia|]. apply IHbranch. apply Nat.div_le_lower_bound; lia. Qed.

Lemma ascend_branch prm i c ds j d : branch (top_size prm) i c ds j d -> forall fuel more (r : R), i < fuel -> 0 < top_size prm ->
  ascend fuel prm i c (mkRead (digest_words ds ++ more) r) = (Ok (j, d), mkRead more r).
Proof.
  induction 1 as [i c Hi|i c other c' ds j d Hi Hv Hc Hb IH]; intros [|fuel] more r Hf Ht; try lia; cbn [ascend].
  - by destruct (Nat.leb_spec (2 * top_size prm) i); [lia|].
  - destruct (Nat.leb_spec (2 * top_size prm) i); [|lia].
    pose proof (read_pod_app [other] (digest_words ds ++ more) r) as E1.
    assert (Ew : digest_words [other] ++ digest_words ds ++ more = digest_words (other :: ds) ++ more).
    { unfold digest_words. rewrite !bind_cons, <- !app_assoc. done. }
    rewrite Ew in E1. rewrite (run_bind _ _ _ _ _ E1), Hv, Hc. cbn [negb unwrap]. rewrite run_lift_Ok. apply IH; [|done].
    pose proof (Nat.div_lt i 2). lia.
Qed.

Lemma side_hash (b : bool) x y : pairs_valid -> digest_ok x -> digest_ok y -> exists d, (if b then hash_pair y x else hash_pair x y) = Some d /\ digest_ok d.
Proof. intros Hp Hx Hy. destruct b; by apply Hp. Qed.

(** The climb panics only when some digest has no hash: not from a valid one, on words. *)
Lemma ascend_cases prm : forall fuel i c (iop : ReadIOP R), i < fuel -> 0 < top_size prm ->
  match ascend fuel prm i c iop with
  | (Ok (j, d), iop') => exists ds, branch (top_size prm) i c ds j d /\ proof iop = digest_words ds ++ proof iop'
  | (Err e, _) => e = ReceiptFormatError
  | (Panic, _) => ~ (pairs_valid /\ digest_ok c /\ Forall (fits 32) (proof iop))
  end.
Proof.
  induction fuel as [|fuel IH]; intros i c iop Hf Ht; [lia|]. cbn [ascend].
  destruct (Nat.leb_spec (2 * top_size prm) i) as [Hi|Hi]; [|exists []; split; [by constructor|done]].
  destruct (read_pod_cases 1 iop) as [(ds & more & Hl & Hp & E1)|E1].
  2:{ unfold mbind, state_bind. by rewrite E1. }
  rewrite (run_bind _ _ _ _ _ E1). destruct ds as [|other [|? ?]]; try (cbn in Hl; lia).
  destruct (is_digest_valid other) eqn:Hv; cbn [negb]; [|done].
  assert (Hu : Forall (fits 32) (proof iop) -> digest_ok other /\ Forall (fits 32) more).
  { intros Hu. rewrite Hp in Hu. apply Forall_app in Hu as [Ho Hm]. apply digest_words_u32, Forall_cons in Ho as [Ho _]. done. }
  destruct (if i mod 2 =? 1 then hash_pair other c else hash_pair c other) as [c'|] eqn:Ec; cbn [unwrap].
  2:{ intros (Hpv & Hc & Hu'). destruct (Hu Hu') as [Ho _]. destruct (side_hash (i mod 2 =? 1) c other Hpv Hc Ho) as (d & E2 & _). congruence. }
  rewrite run_lift_Ok. specialize (IH (i / 2) c' (mkRead more (rng iop))).
  destruct (ascend fuel prm _ _ _) as [[[j d]|e|] iop']; [|apply IH; [pose proof (Nat.div_lt i 2); lia|done]|].
  - destruct IH as (ds & Hb & Hp'); [pose proof (Nat.div_lt i 2); lia|done|]. exists (other :: ds). split; [by econstructor|].
    rewrite Hp. cbn [proof] in Hp'. rewrite Hp'. unfold digest_words. by rewrite !bind_cons, <- !app_assoc.
  - intros (Hpv & Hc & Hu'). destruct (Hu Hu') as [Ho Hm]. destruct (side_hash (i mod 2 =? 1) c other Hpv Hc Ho) as (d & E2 & Hd).
    rewrite Ec in E2. injection E2 as <-. by apply IH; [pose proof (Nat.div_lt i 2); lia|..].
Qed.

(** *** Collisions *)

(** Two pairs with one hash, and the pairs of two trees. *)
Definition pair_clash (x y : Digest * Digest) : Prop := x <> y /\ exists h, hash_pair x.1 x.2 = Some h /\ hash_pair y.1 y.2 = Some h.
Definition children (V : nat -> Digest) (i : nat) : Digest * Digest := (V (2 * i), V (2 * i + 1)).

(** The pairs that the verification of a branch hashes, from the index [i] up. *)
Fixpoint branch_pairs (i : nat) (c : Digest) (ds : list Digest) : list (Digest * Digest) :=
  match ds with
  | [] => []
  | other :: ds =>
      let x := if i mod 2 =? 1 then (other, c) else (c, other) in
      x :: match hash_pair x.1 x.2 with Some c => branch_pairs (i / 2) c ds | None => [] end
  end.

(** How a proof may pass for another column than the tree's: above the top layer [hi], on the
    branch, or at the leaf, what the verifier hashed and what the tree holds have one hash. *)
Inductive collision (hi : nat) (V N : nat -> Digest) (i : nat) (out col : list E) (ds : list Digest) : Prop :=
  | clash_top j : 1 <= j < hi -> pair_clash (children V j) (children N j) -> collision hi V N i out col ds
  | clash_branch x j : x ∈ branch_pairs i (hash_elem_slice out) ds -> pair_clash x (children N j) -> collision hi V N i out col ds
  | clash_leaf : out <> col -> hash_elem_slice out = hash_elem_slice col -> collision hi V N i out col ds.

Lemma pair_binding a b c d h : hash_pair a b = Some h -> hash_pair c d = Some h -> (a = c /\ b = d) \/ pair_clash (a, b) (c, d).
Proof.
  intros H1 H2. destruct (decide (a = c /\ b = d)) as [|Hne]; [by left|right]. split; [|by exists h]. intros [= -> ->]. by apply Hne.
Qed.

(** The parent of an index, and the side it is on. *)
Lemma halves i : i = 2 * (i / 2) \/ i = 2 * (i / 2) + 1.
Proof. pose proof (Nat.div_mod i 2). pose proof (Nat.mod_upper_bound i 2). lia. Qed.
Lemma odd_mod i : (i mod 2 =? 1) = true -> i = 2 * (i / 2) + 1.
Proof. intros Hm%Nat.eqb_eq. pose proof (Nat.div_mod i 2). lia. Qed.
Lemma even_mod i : (i mod 2 =? 1) = false -> i = 2 * (i / 2).
Proof. intros Hm%Nat.eqb_neq. pose proof (Nat.div_mod i 2). pose proof (Nat.mod_upper_bound i 2). lia. Qed.

(** Two heaps with the same root agree everywhere. *)
Lemma heap_binding V N hi : heap V 1 hi -> heap N 1 hi -> V 1 = N 1 -> forall i, 1 <= i < 2 * hi ->
  V i = N i \/ exists j, 1 <= j < hi /\ pair_clash (children V j) (children N j).
Proof.
  intros HV HN H1. apply (well_founded_induction (Nat.lt_wf_0) (fun i => 1 <= i < 2 * hi -> V i = N i \/ _)).
  intros i IH Hi. destruct (decide (i = 1)) as [->|]; [by left|]. pose proof (halves i) as Ei.
  destruct (IH (i / 2)) as [Ep|]; [lia|lia| |by right].
  pose proof (HV (i / 2) ltac:(lia)) as Hv. pose proof (HN (i / 2) ltac:(lia)) as Hn. rewrite Ep in Hv.
  destruct (pair_binding _ _ _ _ _ Hv Hn) as [[E1 E2]|Hc]; [left|right; exists (i / 2); split; [lia|exact Hc]].
  destruct Ei as [Ei|Ei]; by rewrite Ei.
Qed.

(** A branch that ends in a node of a heap starts in a node of it. *)
Lemma branch_binding t i c ds j d N hi : branch t i c ds j d -> heap N 1 hi -> 1 <= t -> i < 2 * hi -> d = N j ->
  c = N i \/ exists x j, x ∈ branch_pairs i c ds /\ pair_clash x (children N j).
Proof.
  intros Hb HN Ht. induction Hb as [i c Hi|i c other c' ds j d Hi Hv Hc Hb IH]; intros Hlt Hd; [by left|].
  pose proof (Nat.Div0.div_lt_upper_bound i 2 hi ltac:(lia)).
  assert (1 <= i / 2) by (apply Nat.div_le_lower_bound; lia). cbn [branch_pairs].
  assert (Ep : hash_pair (if i mod 2 =? 1 then (other, c) else (c, other)).1 (if i mod 2 =? 1 then (other, c) else (c, other)).2 = Some c') by (by destruct (i mod 2 =? 1)).
  rewrite Ep. destruct IH as [Ec|(x & k & Hx & Hcl)]; [lia|done| |right; exists x, k; split; [by apply list_elem_of_further|done]].
  pose proof (HN (i / 2) ltac:(lia)) as Hn. rewrite <- Ec in Hn.
  destruct (i mod 2 =? 1) eqn:Em.
  - destruct (pair_binding _ _ _ _ _ Hc Hn) as [[_ E2]|Hcl]; [left; apply odd_mod in Em; by rewrite Em at 1|right].
    exists (other, c), (i / 2). split; [apply list_elem_of_here|done].
  - destruct (pair_binding _ _ _ _ _ Hc Hn) as [[E1 _]|Hcl]; [left; apply even_mod in Em; by rewrite Em at 1|right].
    exists (c, other), (i / 2). split; [apply list_elem_of_here|done].
Qed.

(** *** Verification *)

Lemma verify_cases v t k (iop : ReadIOP R) idx : verifier_ok v t -> row_size (v_params v) = 2 ^ k -> t <= k ->
  match verify v idx iop with
  | (Ok out, iop') => idx < 2 ^ k /\ length out = col_size (v_params v) /\
      exists ds j, branch (2 ^ t) (idx + 2 ^ k) (hash_elem_slice out) ds j (vnode v j) /\
        exists ws, length ws = col_size (v_params v) * WORDS /\ proof iop = ws ++ digest_words ds ++ proof iop'
  | (Err e, _) => if decide (idx < 2 ^ k) then e = ReceiptFormatError \/ e = InvalidProof
                  else e = MerkleQueryOutOfRange idx (2 ^ k)
  | (Panic, _) => ~ (hashes_valid (E := E) /\ Forall (fits 32) (proof iop))
  end.
Proof.
  intros Hv Hk Htk. unfold verify. rewrite Hk. destruct (Nat.leb_spec (2 ^ k) idx) as [Hi|Hi].
  { unfold throw. rewrite decide_False by lia. done. }
  destruct (read_elems_cases (T := E) (col_size (v_params v)) iop) as [(es & more & Hl & E1 & ws & Hws & Hes & Hpf)|(iop' & E1)].
  2:{ unfold mbind, state_bind. rewrite E1, decide_True by done. by left. }
  rewrite (run_bind _ _ _ _ _ E1).
  assert (Hp : 1 <= 2 ^ t) by (pose proof (Nat.pow_nonzero 2 t); lia).
  pose proof (Nat.pow_le_mono_r 2 t k ltac:(lia) Htk) as Hle.
  pose proof (ascend_cases (v_params v) (S (idx + 2 ^ k)) (idx + 2 ^ k) (hash_elem_slice es) (mkRead more (rng iop))) as Ha.
  rewrite (v_top v t Hv) in *. unfold mbind at 1, state_bind at 1.
  destruct (ascend _ _ _ _ _) as [[[j d]|e|] iop2]; [|rewrite decide_True by done; left; apply Ha; lia|].
  2:{ intros [[Hpv Hsl] Hu]. rewrite Hpf in Hu. apply Forall_app in Hu as [Hw Hu]. apply Ha; [lia|lia|]. split; [done|]. split; [|exact Hu].
      apply Hsl. exact (elems_of_ok _ _ _ Hw Hes). }
  destruct Ha as (ds & Hb & Hds); [lia|lia|]. pose proof (branch_end _ _ _ _ _ _ Hb ltac:(lia)) as Hj.
  destruct (Nat.leb_spec (2 ^ t) j); [|lia]. unfold idx_to_top. rewrite (v_top v t Hv).
  rewrite node_lookup by (rewrite (v_top_len v t Hv); lia).
  assert (En : node (top v) (j - 2 ^ t) = vnode v j).
  { unfold vnode. rewrite (v_top v t Hv), decide_True by lia. done. }
  rewrite En. cbn [unwrap]. unfold mbind, state_bind, lift. destruct (decide (vnode v j = d)) as [Hd|]; [|unfold throw; rewrite decide_True by done; by right].
  cbn. split; [done|]. split; [done|]. exists ds, j. rewrite Hd. split; [exact Hb|].
  exists ws. split; [exact Hws|]. rewrite Hpf. cbn [proof] in Hds. by rewrite Hds.
Qed.

(** ** The theorems *)

Lemma column_ok m k cols idx d : length m = 2 ^ k * cols -> Forall elem_ok m -> idx < 2 ^ k ->
  Forall elem_ok (column m (2 ^ k) cols idx d).
Proof.
  intros Hm Hok Hidx. apply Forall_forall. intros x Hx. apply list_elem_of_In, in_map_iff in Hx as (i & <- & Hi%in_seq).
  rewrite Forall_nth in Hok. apply Hok. rewrite Hm. nia.
Qed.

Lemma tree_valid p k t m cols d : hashes_valid -> Forall elem_ok m -> tree_ok p k t m cols d ->
  forall n i, 2 * 2 ^ k - i <= n -> 1 <= i < 2 * 2 ^ k -> digest_ok (node (p_nodes p) i).
Proof.
  intros [Hp Hs] Hok Ht. induction n as [|n IH]; intros i Hn Hi; [lia|]. destruct (Nat.lt_ge_cases i (2 ^ k)).
  - destruct (Hp (node (p_nodes p) (2 * i)) (node (p_nodes p) (2 * i + 1))) as (h & E1 & Hh); [apply IH; lia..|].
    rewrite (tree_heap _ _ _ _ _ _ Ht) in E1 by lia. by injection E1 as ->.
  - replace i with (2 ^ k + (i - 2 ^ k)) by lia. rewrite (tree_leaf _ _ _ _ _ _ Ht) by lia.
    apply Hs, column_ok; [by apply Ht|done|lia].
Qed.

(** The digests that the prover sends are a branch of its tree. *)
Lemma digests_branch {Er} p k t m cols d : hashes_valid -> Forall elem_ok m -> tree_ok p k t m cols d ->
  forall fuel i, i < fuel -> 2 ^ t <= i < 2 * 2 ^ k ->
  exists ds j, (digests_loop fuel p i : outcome Er _) = Ok ds /\
    branch (2 ^ t) i (node (p_nodes p) i) ds j (node (p_nodes p) j).
Proof.
  intros Hv Hok Ht. assert (Hpt : 2 ^ t <> 0) by (by apply Nat.pow_nonzero).
  induction fuel as [|fuel IH]; intros i Hf Hi; [lia|]. cbn [digests_loop].
  rewrite (tree_params _ _ _ _ _ _ Ht). cbn [top_size].
  destruct (Nat.leb_spec (2 * 2 ^ t) i) as [Hge|Hlt]; [|exists [], i; split; [done|by constructor]].
  assert (Hh : 2 ^ t <= i / 2) by (apply Nat.div_le_lower_bound; lia).
  assert (Hu : i / 2 < 2 ^ k) by (apply Nat.Div0.div_lt_upper_bound; lia).
  pose proof (Nat.mod_upper_bound i 2 ltac:(lia)) as Hm.
  set (o := 2 * (i / 2) + (1 - i mod 2)).
  rewrite node_lookup by (rewrite (tree_nodes _ _ _ _ _ _ Ht); unfold o; lia). cbn [unwrap mbind outcome_bind].
  destruct (IH (i / 2)) as (ds & j & E1 & Hb); [pose proof (Nat.div_lt i 2); lia|lia|]. rewrite E1.
  exists (node (p_nodes p) o :: ds), j. split; [done|]. apply branch_up with (c' := node (p_nodes p) (i / 2)); [done| | |exact Hb].
  - eapply (tree_valid _ _ _ _ _ _ Hv Hok Ht); [reflexivity|unfold o; lia].
  - rewrite <- (tree_heap _ _ _ _ _ _ Ht (i / 2)) by lia. destruct (i mod 2 =? 1) eqn:Em.
    + apply odd_mod in Em as Ei. apply Nat.eqb_eq in Em. replace o with (2 * (i / 2)) by (unfold o; lia). by rewrite Ei at 2.
    + apply even_mod in Em as Ei. apply Nat.eqb_neq in Em. replace o with (2 * (i / 2) + 1) by (unfold o; lia). by rewrite Ei at 1.
Qed.

Lemma get_column_ok {Er} p k t m cols d idx : tree_ok p k t m cols d -> idx < 2 ^ k ->
  (get_column p idx : outcome Er _) = Ok (column m (2 ^ k) cols idx d).
Proof.
  intros Ht Hi. unfold get_column. rewrite (tree_params _ _ _ _ _ _ Ht). cbn [row_size col_size].
  destruct (Nat.ltb_spec idx (2 ^ k)); [|lia]. cbn [assert_ mbind outcome_bind].
  rewrite (mapM_seq _ (fun i => nth (i * 2 ^ k + idx) m d)); [done|]. intros i Hc.
  rewrite (tree_matrix _ _ _ _ _ _ Ht), (nth_lookup_ok _ _ d); [cbn [unwrap]; do 2 f_equal; lia|].
  rewrite (tree_size _ _ _ _ _ _ Ht). nia.
Qed.

(** A verifier reads valid digests as its top layer. *)
Lemma new_ok k cols q tops more (r : R) prm t : (new_params (2 ^ k) cols q : outcome VerificationError _) = Ok prm ->
  top_size prm = 2 ^ t -> length tops = 2 ^ t -> pairs_valid -> Forall digest_ok tops ->
  exists v, verifier_new (2 ^ k) cols q (mkRead (digest_words tops ++ more) r) = (Ok v, mkRead more (rng_mix (vnode v 1) r)) /\
    verifier_ok v t /\ v_params v = prm /\ top v = tops.
Proof.
  intros Hprm Ht Hl Hpv Hval. unfold verifier_new. rewrite (run_ok _ _ _ _ Hprm).
  rewrite Ht, <- Hl, (run_bind _ _ _ _ _ (read_pod_app tops more r)), Hl.
  pose proof (fill_spec prm t tops Ht Hl) as [Hok Hf]. cbv zeta in Hok, Hf. set (fill := replicate (2 ^ t - 1) None) in *.
  set (iop1 := mkRead more r). destruct (Hok Hpv Hval) as [f Ef]. rewrite Ef in Hf.
  destruct (fill_rest prm (rev (seq 1 (2 ^ t / 2 - 1))) f) as [f'|e|] eqn:E2; [|done|].
  2:{ destruct Hf. split; [done|]. apply (Forall_impl _ _ _ Hval). by intros d []. }
  destruct Hf as (ds & E3 & Hv).
  assert (Eif : (if 0 <? length fill
     then lift (fill_from_top prm tops (rev (seq (2 ^ t / 2) (2 ^ t - 2 ^ t / 2))) fill) else mret fill) iop1 = (Ok f, iop1)).
  { rewrite <- Ef. by destruct (0 <? length fill). }
  rewrite (run_bind _ _ _ _ _ Eif).
  rewrite (run_ok _ _ _ _ E2), (run_ok _ _ _ _ E3).
  rewrite (run_bind _ _ iop1 (vnode (mkVerifier prm tops ds) 1) iop1) by (unfold lift; by rewrite (v_root _ _ Hv)).
  exists (mkVerifier prm tops ds). done.
Qed.

(** A branch of digests that ends in the verifier's top layer verifies. *)
Lemma verify_branch v t k idx j (es : list E) ds more (r : R) : verifier_ok v t -> row_size (v_params v) = 2 ^ k ->
  col_size (v_params v) = length es -> t <= k -> idx < 2 ^ k -> Forall elem_ok es ->
  branch (2 ^ t) (2 ^ k + idx) (hash_elem_slice es) ds j (vnode v j) ->
  verify v idx (mkRead (as_u32_slice es ++ digest_words ds ++ more) r) = (Ok es, mkRead more r).
Proof.
  intros Hv Hk Hc Htk Hi Hok Hb. assert (Hpt : 2 ^ t <> 0) by (by apply Nat.pow_nonzero).
  pose proof (Nat.pow_le_mono_r 2 t k ltac:(lia) Htk) as Hle.
  unfold verify. rewrite Hk, Hc. destruct (Nat.leb_spec (2 ^ k) idx); [lia|].
  rewrite (run_bind _ _ _ _ _ (read_elems_app es (digest_words ds ++ more) r Hok)).
  pose proof (branch_end _ _ _ _ _ _ Hb ltac:(lia)) as Hj.
  rewrite Nat.add_comm in Hb. rewrite <- (v_top v t Hv) in Hb.
  rewrite (run_bind _ _ _ _ _ (ascend_branch _ _ _ _ _ _ Hb (S (idx + 2 ^ k)) more r ltac:(lia) ltac:(rewrite (v_top v t Hv); lia))).
  rewrite (v_top v t Hv). destruct (Nat.leb_spec (2 ^ t) j); [|lia]. unfold idx_to_top. rewrite (v_top v t Hv).
  assert (En : top v !! (j - 2 ^ t) = Some (vnode v j)).
  { unfold vnode. rewrite (v_top v t Hv), decide_True by lia. apply node_lookup. rewrite (v_top_len v t Hv). lia. }
  rewrite En. cbn [unwrap]. unfold mbind, state_bind, lift. by rewrite decide_True.
Qed.

(** A verifier that was given the prover's top layer has the prover's nodes. *)
Lemma same_top p k t m cols d v : tree_ok p k t m cols d -> verifier_ok v t ->
  (forall i, 2 ^ t <= i < 2 * 2 ^ t -> vnode v i = node (p_nodes p) i) ->
  forall i, 1 <= i < 2 * 2 ^ t -> vnode v i = node (p_nodes p) i.
Proof.
  intros Ht Hv Htop. pose proof (Nat.pow_le_mono_r 2 t k ltac:(lia) (tree_top _ _ _ _ _ _ Ht)) as Hle.
  assert (Hn : forall n i, 2 * 2 ^ t - i <= n -> 1 <= i < 2 * 2 ^ t -> vnode v i = node (p_nodes p) i); [|eauto].
  induction n as [|n IH]; intros i Hn Hi; [lia|]. destruct (Nat.lt_ge_cases i (2 ^ t)); [|apply Htop; lia].
  pose proof (v_heap _ _ Hv i ltac:(lia)) as H1. pose proof (tree_heap _ _ _ _ _ _ Ht i ltac:(lia)) as H2.
  rewrite !IH in H1 by lia. rewrite H1 in H2. by injection H2.
Qed.

End Verifier.

(** C40: The parameters of a tree.  For a number of rows that is a power of two below
    [2^32] the layers are its logarithm and the top layer is the largest power of two that is at
    most the number of queries and below the number of rows (one for a single
    query or row); any other number of rows fails the assertion. *)
Theorem merkle_params_correct n cols q : (Z.of_nat n < 2 ^ 63)%Z ->
  match (new_params n cols q : outcome VerificationError MerkleTreeParams) with
  | Ok prm => row_size prm = n /\ col_size prm = cols /\ n = 2 ^ layers prm /\
      exists t, top_size prm = 2 ^ t /\ t <= layers prm - 1 /\ (t = 0 \/ 2 ^ t <= q) /\
        forall u, t < u <= layers prm - 1 -> q < 2 ^ u
  | Err _ => False
  | Panic => forall k, k < 32 -> n <> 2 ^ k
  end.
Proof.
  intros Hb. destruct (decide (Exists (fun k => n = 2 ^ k) (seq 0 32))) as [He|Hne].
  - apply Exists_exists in He as (k & Hk%elem_of_seq & ->). destruct Hk as [_ Hk]. cbn [plus] in Hk.
    destruct (new_params_pow (Er := VerificationError) k cols q Hk) as (t & E & H1 & H2 & H3). rewrite E.
    cbn [row_size col_size layers top_size]. split; [done|]. split; [done|]. split; [done|].
    exists t. split; [done|]. split; [done|]. split; [done|]. intros u Hu.
    pose proof (Nat.pow_le_mono_r 2 (t + 1) u). lia.
  - assert (Hn : forall k, k < 32 -> n <> 2 ^ k) 
      by (intros k Hk ->; apply Hne, Exists_exists; exists k; split; [apply elem_of_seq; lia|done]).
    by rewrite (new_params_bad n cols q Hn Hb).
Qed.

Lemma merkle_params_correct_witness :
  exists t, top_size (mkParams 1024 7 10 32) = 2 ^ t /\ t <= 9 /\ (t = 0 \/ 2 ^ t <= 50) /\ forall u, t < u <= 9 -> 50 < 2 ^ u.
Proof.
  assert (E : (new_params 1024 7 50 : outcome VerificationError _) = Ok (mkParams 1024 7 10 32)) by (vm_compute; reflexivity).
  pose proof (merkle_params_correct 1024 7 50) as H. rewrite E in H. apply H. apply Z.ltb_lt. vm_compute. reflexivity.
Defined.

Section Theorems.
Context {E R X : Type} {EqE : EqDecision E} {HF : HashFn E} {EW : ElemWords E} {EO : ElemWordsOk E} {RG : Rng R E X}.

(** C18: Completeness.  For hash functions that keep their contract ([hashes_valid]), and every
    matrix of valid elements with a power of two of rows below [2^32],
    the prover builds its tree without a panic; a verifier with the same sizes
    that reads the committed top layer ends with the prover's root and the same
    transcript; and for every row in range the proof that [prove] writes verifies
    and returns that row's column, leaving what follows unread. *)
Theorem merkle_complete k cols q (m : list E) (d : E) : hashes_valid (E := E) -> k < 32 -> length m = 2 ^ k * cols ->
  Forall elem_ok m ->
  exists p : MerkleTreeProver E, prover_new m (2 ^ k) cols q = (Ok p : outcome VerificationError _) /\
    forall (r : R) more,
    let w := prover_commit p (write_new r) in
    exists v, verifier_new (2 ^ k) cols q (mkRead (wproof w ++ more) r) = (Ok v, mkRead more (wrng w)) /\
      root v = Some (p_root p) /\
      forall idx (r' : R) more', idx < 2 ^ k ->
        exists w', prove p idx (write_new r') = (Ok (column m (2 ^ k) cols idx d, w') : outcome VerificationError _) /\
          verify v idx (mkRead (wproof w' ++ more') r') = (Ok (column m (2 ^ k) cols idx d), mkRead more' r').
Proof.
  intros Hval Hk Hm Hok.
  pose proof (prover_new_spec (Er := VerificationError) digest_ok k cols q m d Hk Hm) as Hnew.
  destruct (prover_new m (2 ^ k) cols q) as [p|e|]; [|done|].
  2:{ destruct Hnew. split; [apply Hval|]. intros idx Hidx. by apply Hval, column_ok. }
  destruct Hnew as (t & Ht & Hprm). exists p. split; [done|]. intros r more w. destruct (Hprm VerificationError) as (prm & Eprm & ->).
  rewrite (tree_params _ _ _ _ _ _ Ht) in Eprm. set (prm := mkParams (2 ^ k) cols k (2 ^ t)) in *.
  assert (Hpt : 2 ^ t <> 0) by (by apply Nat.pow_nonzero).
  pose proof (Nat.pow_le_mono_r 2 t k ltac:(lia) (tree_top _ _ _ _ _ _ Ht)) as Hle.
  set (tops := take (2 ^ t) (drop (2 ^ t) (p_nodes p))).
  assert (Htl : length tops = 2 ^ t) by (unfold tops; rewrite length_take, length_drop, (tree_nodes _ _ _ _ _ _ Ht); lia).
  assert (Ew : w = mkWrite (digest_words tops) (rng_mix (p_root p) r)).
  { unfold w, prover_commit. rewrite (tree_params _ _ _ _ _ _ Ht). reflexivity. }
  destruct (new_ok k cols q tops more r prm t) as (v & Ev & Hv & Hvp & Hvt); [exact Eprm|done|done|apply Hval| |].
  { apply Forall_forall. intros x Hx. apply list_elem_of_lookup in Hx as [i Hx].
    assert (Hi : i < 2 ^ t) by (rewrite <- Htl; by eapply lookup_lt_Some).
    rewrite node_lookup in Hx by lia. injection Hx as <-. unfold tops. rewrite node_take, node_drop by lia.
    eapply (tree_valid _ _ _ _ _ _ Hval Hok Ht); [reflexivity|lia]. }
  assert (Hnodes : forall i, 1 <= i < 2 * 2 ^ t -> vnode v i = node (p_nodes p) i).
  { eapply same_top; [done..|]. intros i Hi. unfold vnode. rewrite Hvp. cbn [top_size prm].
    rewrite decide_True by lia. rewrite Hvt. unfold tops. rewrite node_take, node_drop by lia. f_equal. lia. }
  assert (Hroot : vnode v 1 = p_root p) by (rewrite Hnodes, (tree_root _ _ _ _ _ _ Ht) by lia; done).
  exists v. rewrite Ew. cbn [wproof wrng]. split; [by rewrite Ev, Hroot|]. split; [by rewrite (v_root _ _ Hv), Hroot|].
  intros idx r' more' Hidx. unfold prove.
  rewrite (get_column_ok p k t m cols d idx Ht Hidx). cbn [mbind outcome_bind].
  destruct (digests_branch (Er := VerificationError) p k t m cols d Hval Hok Ht (S (idx + 2 ^ k)) (idx + 2 ^ k))
    as (ds & j & Ed & Hb); [lia|lia|].
  assert (Eg : (get_digests p idx : outcome VerificationError _) = Ok ds).
  { unfold get_digests. rewrite (tree_params _ _ _ _ _ _ Ht). cbn [row_size].
    destruct (Nat.ltb_spec idx (2 ^ k)); [|lia]. exact Ed. }
  rewrite Eg. cbn [mbind outcome_bind]. eexists. split; [reflexivity|].
  cbn [wproof write_pod_slice write_field_elem_slice write_new app].
  rewrite Nat.add_comm in Hb. rewrite (tree_leaf _ _ _ _ _ _ Ht idx Hidx) in Hb.
  pose proof (column_ok m k cols idx d Hm Hok Hidx) as Hcol.
  rewrite <- app_assoc.
  apply (verify_branch v t k idx j _ ds more' r' Hv); [by rewrite Hvp|by rewrite Hvp; unfold column; rewrite length_map, length_seq
    |by apply Ht|done|done|].
  pose proof (branch_end _ _ _ _ _ _ Hb ltac:(lia)). rewrite Hnodes by lia. exact Hb.
Qed.

(** C5: Binding.  Let a prover have committed to a matrix, and let a verifier with
    the same sizes have read any proof whose root is the prover's root.  Whatever
    proof it is then given for a row, it returns the prover's column for that row, or
    the proof and the tree exhibit a collision: a pair of digests that the verifier
    hashed and another pair of the tree, or the column and the prover's, with the same
    hash, where the verifier's pairs come from its nodes and from the digests [ds] that
    it read in this proof. *)
Theorem merkle_binding k cols q (m : list E) (d : E) p (iop iop1 iop2 iop3 : ReadIOP R) v idx out :
  k < 32 -> length m = 2 ^ k * cols ->
  prover_new m (2 ^ k) cols q = (Ok p : outcome VerificationError _) ->
  verifier_new (2 ^ k) cols q iop = (Ok v, iop1) -> root v = Some (p_root p) ->
  verify v idx iop2 = (Ok out, iop3) ->
  idx < 2 ^ k /\ (out = column m (2 ^ k) cols idx d \/
    exists ws ds, length ws = cols * WORDS /\ proof iop2 = ws ++ digest_words ds ++ proof iop3 /\
      collision (top_size (v_params v)) (vnode v) (node (p_nodes p)) (idx + 2 ^ k) out (column m (2 ^ k) cols idx d) ds).
Proof.
  intros Hk Hm Ep Ev Hroot Eo.
  pose proof (prover_new_spec (Er := VerificationError) digest_ok k cols q m d Hk Hm) as Hnew. rewrite Ep in Hnew.
  destruct Hnew as (t & Ht & Hprm). destruct (Hprm VerificationError) as (prm & Eprm & ->).
  pose proof (tree_params _ _ _ _ _ _ Ht) as Etp.
  pose proof (verifier_new_spec k cols q iop _ t Eprm) as Hvs. rewrite Ev, Etp in Hvs. destruct Hvs as (Hv & Hvp & _); [done|].
  assert (Hpt : 2 ^ t <> 0) by (by apply Nat.pow_nonzero).
  pose proof (Nat.pow_le_mono_r 2 t k ltac:(lia) (tree_top _ _ _ _ _ _ Ht)) as Hle.
  pose proof (verify_cases v t k iop2 idx Hv ltac:(by rewrite Hvp) (tree_top _ _ _ _ _ _ Ht)) as Hc. rewrite Eo in Hc.
  destruct Hc as (Hidx & Hlen & ds & j & Hb & ws & Hws & Hpf). split; [done|]. rewrite Hvp in *. cbn [col_size top_size] in *.
  pose proof (branch_end _ _ _ _ _ _ Hb ltac:(lia)) as Hj.
  assert (Ht1 : heap (node (p_nodes p)) 1 (2 ^ t)).
  { intros i Hi. apply (tree_heap _ _ _ _ _ _ Ht). lia. }
  rewrite (v_root _ _ Hv), (tree_root _ _ _ _ _ _ Ht) in Hroot. injection Hroot as Hroot.
  destruct (decide (out = column m (2 ^ k) cols idx d)) as [|Hne]; [by left|right]. exists ws, ds. split; [done|]. split; [done|].
  destruct (heap_binding (vnode v) (node (p_nodes p)) (2 ^ t) (v_heap _ _ Hv) Ht1 Hroot j ltac:(lia)) as [Ej|(i & Hi & Hc)]; [|by eapply clash_top].
  destruct (branch_binding (2 ^ t) _ _ _ _ _ (node (p_nodes p)) (2 ^ k) Hb (tree_heap _ _ _ _ _ _ Ht)) as [Ec|];
    [lia|lia|done| |destruct H as (x & i & Hx & Hc); by eapply clash_branch].
  rewrite Nat.add_comm, (tree_leaf _ _ _ _ _ _ Ht idx Hidx) in Ec. by apply clash_leaf.
Qed.



(** The verifier is total.  With hash functions that keep their contract, on any 32-bit
    words, for a number of rows that is a power of two below [2^32], constructing the verifier succeeds or reports a
    malformed receipt, and checking a row succeeds, reports a malformed receipt or
    an invalid proof, or for a row out of range names it; nothing panics and no
    node is read before it is written. *)
Theorem merkle_verifier_total k cols q (iop : ReadIOP R) : k < 32 -> hashes_valid (E := E) -> Forall (fits 32) (proof iop) ->
  match verifier_new (2 ^ k) cols q iop with
  | (Ok v, _) => forall (iop2 : ReadIOP R) idx, Forall (fits 32) (proof iop2) ->
      match verify v idx iop2 with
      | (Ok out, _) => idx < 2 ^ k /\ length out = cols
      | (Err e, _) => if decide (idx < 2 ^ k) then e = ReceiptFormatError \/ e = InvalidProof
                      else e = MerkleQueryOutOfRange idx (2 ^ k)
      | (Panic, _) => False
      end
  | (Err e, _) => e = ReceiptFormatError
  | (Panic, _) => False
  end.
Proof.
  intros Hk Hval Hu. destruct (new_params_pow (Er := VerificationError) k cols q Hk) as (t & Eprm & Htk & _).
  pose proof (verifier_new_spec k cols q iop _ t Eprm eq_refl) as Hv.
  destruct (verifier_new (2 ^ k) cols q iop) as [[v|e|] iop1]; [|done|apply Hv; by split; [apply Hval|]]. destruct Hv as (Hv & Hvp & _).
  intros iop2 idx Hu2. pose proof (verify_cases v t k iop2 idx Hv) as Hc. rewrite Hvp in Hc. cbn [row_size col_size] in Hc.
  specialize (Hc eq_refl ltac:(lia)). destruct (verify v idx iop2) as [[out|e|] iop3]; [|done|by apply Hc]. by destruct Hc as (H1 & H2 & _).
Qed.

End Theorems.

