(* ===== verification/Poseidon2.v ===== *)
(** * Poseidon2 over Baby Bear

    The permutation of 24 cells, the unpadded sponge hash, the digests of a Merkle
    tree and the Fiat-Shamir generator that are built on it, and the straightforward
    versions with the full matrices that the unit tests compare against. *)
From S2P Require Export BabyBear Merkle.
Import Merkle(Digest, mkDigest, HashFn, Rng, ElemWords, as_words, DIGEST_WORDS).
Open Scope word_scope.
Open Scope Z_scope.

Module Poseidon2.
#[local] Infix "+'" := Elem.add (at level 50, left associativity).
#[local] Infix "*'" := Elem.mul (at level 40, left associativity).

(* source: src/risc0/risc0/zkp/src/core/hash/poseidon2/consts.rs *)
(* L29-29 CELLS *)
Definition CELLS : nat := 24.
(* L35-35 ROUNDS_HALF_FULL *)
Definition ROUNDS_HALF_FULL : nat := 4.
(* L41-41 ROUNDS_PARTIAL *)
Definition ROUNDS_PARTIAL : nat := 21.

(* L52-140 ROUND_CONSTANTS *)
Definition ROUND_CONSTANTS : list Z := map Elem.new
  [0x0FA20C37; 0x0795BB97; 0x12C60B9C; 0x0EABD88E; 0x096485CA; 0x07093527; 0x1B1D4E50; 0x30A01ACE;
   0x3BD86F5A; 0x69AF7C28; 0x3F94775F; 0x731560E8; 0x465A0ECD; 0x574EF807; 0x62FD4870; 0x52CCFE44;
   0x14772B14; 0x4DEDF371; 0x260ACD7C; 0x1F51DC58; 0x75125532; 0x686A4D7B; 0x54BAC179; 0x31947706;
   0x29799D3B; 0x6E01AE90; 0x203A7A64; 0x4F7E25BE; 0x72503F77; 0x45BD3B69; 0x769BD6B4; 0x5A867F08;
   0x4FDBA082; 0x251C4318; 0x28F06201; 0x6788C43A; 0x4C6D6A99; 0x357784A8; 0x2ABAF051; 0x770F7DE6;
   0x1794B784; 0x4796C57A; 0x724B7A10; 0x449989A7; 0x64935CF1; 0x59E14AAC; 0x0E620BB8; 0x3AF5A33B;
   0x4465CC0E; 0x019DF68F; 0x4AF8D068; 0x08784F82; 0x0CEFDEAE; 0x6337A467; 0x32FA7A16; 0x486F62D6;
   0x386A7480; 0x20F17C4A; 0x54E50DA8; 0x2012CF03; 0x5FE52950; 0x09AFB6CD; 0x2523044E; 0x5C54D0EF;
   0x71C01F3C; 0x60B2C4FB; 0x4050B379; 0x5E6A70A5; 0x418543F5; 0x71DEBE56; 0x1AAD2994; 0x3368A483;
   0x07A86F3A; 0x5EA43FF1; 0x2443780E; 0x4CE444F7; 0x146F9882; 0x3132B089; 0x197EA856; 0x667030C3;
   0x2317D5DC; 0x0C2C48A7; 0x56B2DF66; 0x67BD81E9; 0x4FCDFB19; 0x4BAAEF32; 0x0328D30A; 0x6235760D;
   0x12432912; 0x0A49E258; 0x030E1B70; 0x48CAEB03; 0x49E4D9E9; 0x1051B5C6; 0x6A36DBBE; 0x4CFF27A5;
   0x1DA78EC2; 0x00000000; 0x00000000; 0x00000000; 0x00000000; 0x00000000; 0x00000000; 0x00000000;
   0x00000000; 0x00000000; 0x00000000; 0x00000000; 0x00000000; 0x00000000; 0x00000000; 0x00000000;
   0x00000000; 0x00000000; 0x00000000; 0x00000000; 0x00000000; 0x00000000; 0x00000000; 0x00000000;
   0x730B0924; 0x00000000; 0x00000000; 0x00000000; 0x00000000; 0x00000000; 0x00000000; 0x00000000;
   0x00000000; 0x00000000; 0x00000000; 0x00000000; 0x00000000; 0x00000000; 0x00000000; 0x00000000;
   0x00000000; 0x00000000; 0x00000000; 0x00000000; 0x00000000; 0x00000000; 0x00000000; 0x00000000;
   0x3EB56CF3; 0x00000000; 0x00000000; 0x00000000; 0x00000000; 0x00000000; 0x00000000; 0x00000000;
   0x00000000; 0x00000000; 0x00000000; 0x00000000; 0x00000000; 0x00000000; 0x00000000; 0x00000000;
   0x00000000; 0x00000000; 0x00000000; 0x00000000; 0x00000000; 0x00000000; 0x00000000; 0x00000000;
   0x5BD93073; 0x00000000; 0x00000000; 0x00000000; 0x00000000; 0x00000000; 0x00000000; 0x00000000;
   0x00000000; 0x00000000; 0x00000000; 0x00000000; 0x00000000; 0x00000000; 0x00000000; 0x00000000;
   0x00000000; 0x00000000; 0x00000000; 0x00000000; 0x00000000; 0x00000000; 0x00000000; 0x00000000;
   0x37204C97; 0x00000000; 0x00000000; 0x00000000; 0x00000000; 0x00000000; 0x00000000; 0x00000000;
   0x00000000; 0x00000000; 0x00000000; 0x00000000; 0x00000000; 0x00000000; 0x00000000; 0x00000000;
   0x00000000; 0x00000000; 0x00000000; 0x00000000; 0x00000000; 0x00000000; 0x00000000; 0x00000000;
   0x51642D89; 0x00000000; 0x00000000; 0x00000000; 0x00000000; 0x00000000; 0x00000000; 0x00000000;
   0x00000000; 0x00000000; 0x00000000; 0x00000000; 0x00000000; 0x00000000; 0x00000000; 0x00000000;
   0x00000000; 0x00000000; 0x00000000; 0x00000000; 0x00000000; 0x00000000; 0x00000000; 0x00000000;
   0x66E943E8; 0x00000000; 0x00000000; 0x00000000; 0x00000000; 0x00000000; 0x00000000; 0x00000000;
   0x00000000; 0x00000000; 0x00000000; 0x00000000; 0x00000000; 0x00000000; 0x00000000; 0x00000000;
   0x00000000; 0x00000000; 0x00000000; 0x00000000; 0x00000000; 0x00000000; 0x00000000; 0x00000000;
   0x1A3E72DE; 0x00000000; 0x00000000; 0x00000000; 0x00000000; 0x00000000; 0x00000000; 0x00000000;
   0x00000000; 0x00000000; 0x00000000; 0x00000000; 0x00000000; 0x00000000; 0x00000000; 0x00000000;
   0x00000000; 0x00000000; 0x00000000; 0x00000000; 0x00000000; 0x00000000; 0x00000000; 0x00000000;
   0x70BEB1E9; 0x00000000; 0x00000000; 0x00000000; 0x00000000; 0x00000000; 0x00000000; 0x00000000;
   0x00000000; 0x00000000; 0x00000000; 0x00000000; 0x00000000; 0x00000000; 0x00000000; 0x00000000;
   0x00000000; 0x00000000; 0x00000000; 0x00000000; 0x00000000; 0x00000000; 0x00000000; 0x00000000;
   0x30FF3B3F; 0x00000000; 0x00000000; 0x00000000; 0x00000000; 0x00000000; 0x00000000; 0x00000000;
   0x00000000; 0x00000000; 0x00000000; 0x00000000; 0x00000000; 0x00000000; 0x00000000; 0x00000000;
   0x00000000; 0x00000000; 0x00000000; 0x00000000; 0x00000000; 0x00000000; 0x00000000; 0x00000000;
   0x4240D1C4; 0x00000000; 0x00000000; 0x00000000; 0x00000000; 0x00000000; 0x00000000; 0x00000000;
   0x00000000; 0x00000000; 0x00000000; 0x00000000; 0x00000000; 0x00000000; 0x00000000; 0x00000000;
   0x00000000; 0x00000000; 0x00000000; 0x00000000; 0x00000000; 0x00000000; 0x00000000; 0x00000000;
   0x12647B8D; 0x00000000; 0x00000000; 0x00000000; 0x00000000; 0x00000000; 0x00000000; 0x00000000;
   0x00000000; 0x00000000; 0x00000000; 0x00000000; 0x00000000; 0x00000000; 0x00000000; 0x00000000;
   0x00000000; 0x00000000; 0x00000000; 0x00000000; 0x00000000; 0x00000000; 0x00000000; 0x00000000;
   0x65D86965; 0x00000000; 0x00000000; 0x00000000; 0x00000000; 0x00000000; 0x00000000; 0x00000000;
   0x00000000; 0x00000000; 0x00000000; 0x00000000; 0x00000000; 0x00000000; 0x00000000; 0x00000000;
   0x00000000; 0x00000000; 0x00000000; 0x00000000; 0x00000000; 0x00000000; 0x00000000; 0x00000000;
   0x49EF4D7C; 0x00000000; 0x00000000; 0x00000000; 0x00000000; 0x00000000; 0x00000000; 0x00000000;
   0x00000000; 0x00000000; 0x00000000; 0x00000000; 0x00000000; 0x00000000; 0x00000000; 0x00000000;
   0x00000000; 0x00000000; 0x00000000; 0x00000000; 0x00000000; 0x00000000; 0x00000000; 0x00000000;
   0x47785697; 0x00000000; 0x00000000; 0x00000000; 0x00000000; 0x00000000; 0x00000000; 0x00000000;
   0x00000000; 0x00000000; 0x00000000; 0x00000000; 0x00000000; 0x00000000; 0x00000000; 0x00000000;
   0x00000000; 0x00000000; 0x00000000; 0x00000000; 0x00000000; 0x00000000; 0x00000000; 0x00000000;
   0x46B3969F; 0x00000000; 0x00000000; 0x00000000; 0x00000000; 0x00000000; 0x00000000; 0x00000000;
   0x00000000; 0x00000000; 0x00000000; 0x00000000; 0x00000000; 0x00000000; 0x00000000; 0x00000000;
   0x00000000; 0x00000000; 0x00000000; 0x00000000; 0x00000000; 0x00000000; 0x00000000; 0x00000000;
   0x5C7B7A0E; 0x00000000; 0x00000000; 0x00000000; 0x00000000; 0x00000000; 0x00000000; 0x00000000;
   0x00000000; 0x00000000; 0x00000000; 0x00000000; 0x00000000; 0x00000000; 0x00000000; 0x00000000;
   0x00000000; 0x00000000; 0x00000000; 0x00000000; 0x00000000; 0x00000000; 0x00000000; 0x00000000;
   0x7078FC60; 0x00000000; 0x00000000; 0x00000000; 0x00000000; 0x00000000; 0x00000000; 0x00000000;
   0x00000000; 0x00000000; 0x00000000; 0x00000000; 0x00000000; 0x00000000; 0x00000000; 0x00000000;
   0x00000000; 0x00000000; 0x00000000; 0x00000000; 0x00000000; 0x00000000; 0x00000000; 0x00000000;
   0x4F22D482; 0x00000000; 0x00000000; 0x00000000; 0x00000000; 0x00000000; 0x00000000; 0x00000000;
   0x00000000; 0x00000000; 0x00000000; 0x00000000; 0x00000000; 0x00000000; 0x00000000; 0x00000000;
   0x00000000; 0x00000000; 0x00000000; 0x00000000; 0x00000000; 0x00000000; 0x00000000; 0x00000000;
   0x482A9AEE; 0x00000000; 0x00000000; 0x00000000; 0x00000000; 0x00000000; 0x00000000; 0x00000000;
   0x00000000; 0x00000000; 0x00000000; 0x00000000; 0x00000000; 0x00000000; 0x00000000; 0x00000000;
   0x00000000; 0x00000000; 0x00000000; 0x00000000; 0x00000000; 0x00000000; 0x00000000; 0x00000000;
   0x6BEB839D; 0x00000000; 0x00000000; 0x00000000; 0x00000000; 0x00000000; 0x00000000; 0x00000000;
   0x00000000; 0x00000000; 0x00000000; 0x00000000; 0x00000000; 0x00000000; 0x00000000; 0x00000000;
   0x00000000; 0x00000000; 0x00000000; 0x00000000; 0x00000000; 0x00000000; 0x00000000; 0x00000000;
   0x032959AD; 0x2B18AF6A; 0x55D3DC8C; 0x43BD26C8; 0x0C41595F; 0x7048D2E2; 0x00DB8983; 0x2AF563D7;
   0x6E84758F; 0x611D64E1; 0x1F9977E2; 0x64163A0A; 0x5C5FC27B; 0x02E22561; 0x3A2D75DB; 0x1BA7B71A;
   0x34343F64; 0x7406B35D; 0x19DF8299; 0x6FF4480A; 0x514A81C8; 0x57AB52CE; 0x6AD69F52; 0x3E0C0E0D;
   0x48126114; 0x2A9D62CC; 0x17441F23; 0x485762BB; 0x2F218674; 0x06FDC64A; 0x0861B7F2; 0x3B36EEE6;
   0x70A11040; 0x04B31737; 0x3722A872; 0x2A351C63; 0x623560DC; 0x62584AB2; 0x382C7C04; 0x3BF9EDC7;
   0x0E38FE51; 0x376F3B10; 0x5381E178; 0x3AFC61C7; 0x5C1BCB4D; 0x6643CE1F; 0x2D0AF1C1; 0x08F583CC;
   0x5D6FF60F; 0x6324C1E5; 0x74412FB7; 0x70C0192E; 0x0B72F141; 0x4067A111; 0x57388C4F; 0x351009EC;
   0x0974C159; 0x539A58B3; 0x038C0CFF; 0x476C0392; 0x3F7BC15F; 0x4491DD2C; 0x4D1FEF55; 0x04936AE3;
   0x58214DD4; 0x683C6AAD; 0x1B42F16B; 0x6DC79135; 0x2D4E71EC; 0x3E2946EA; 0x59DCE8DB; 0x6CEE892A;
   0x47F07350; 0x7106CE93; 0x3BD4A7A9; 0x2BFE636A; 0x430011E9; 0x001CD66A; 0x307FAF5B; 0x0D9EF3FE;
   0x6D40043A; 0x2E8F470C; 0x1B6865E8; 0x0C0E6C01; 0x4D41981F; 0x423B9D3D; 0x410408CC; 0x263F0884;
   0x5311BBD0; 0x4DAE58D8; 0x30401CEA; 0x09AFA575; 0x4B3D5B42; 0x63AC0B37; 0x5FE5BB14; 0x5244E9D4].

(* L148-168 _M_EXT *)
Definition M_EXT : list Z := map Elem.new
  [10; 14; 2; 6; 5; 7; 1; 3; 5; 7; 1; 3; 5; 7; 1; 3; 5; 7; 1; 3; 5; 7; 1; 3; 8; 12; 2; 2; 4; 6; 1;
   1; 4; 6; 1; 1; 4; 6; 1; 1; 4; 6; 1; 1; 4; 6; 1; 1; 2; 6; 10; 14; 1; 3; 5; 7; 1; 3; 5; 7; 1; 3;
   5; 7; 1; 3; 5; 7; 1; 3; 5; 7; 2; 2; 8; 12; 1; 1; 4; 6; 1; 1; 4; 6; 1; 1; 4; 6; 1; 1; 4; 6; 1;
   1; 4; 6; 5; 7; 1; 3; 10; 14; 2; 6; 5; 7; 1; 3; 5; 7; 1; 3; 5; 7; 1; 3; 5; 7; 1; 3; 4; 6; 1; 1;
   8; 12; 2; 2; 4; 6; 1; 1; 4; 6; 1; 1; 4; 6; 1; 1; 4; 6; 1; 1; 1; 3; 5; 7; 2; 6; 10; 14; 1; 3; 5;
   7; 1; 3; 5; 7; 1; 3; 5; 7; 1; 3; 5; 7; 1; 1; 4; 6; 2; 2; 8; 12; 1; 1; 4; 6; 1; 1; 4; 6; 1; 1;
   4; 6; 1; 1; 4; 6; 5; 7; 1; 3; 5; 7; 1; 3; 10; 14; 2; 6; 5; 7; 1; 3; 5; 7; 1; 3; 5; 7; 1; 3; 4;
   6; 1; 1; 4; 6; 1; 1; 8; 12; 2; 2; 4; 6; 1; 1; 4; 6; 1; 1; 4; 6; 1; 1; 1; 3; 5; 7; 1; 3; 5; 7;
   2; 6; 10; 14; 1; 3; 5; 7; 1; 3; 5; 7; 1; 3; 5; 7; 1; 1; 4; 6; 1; 1; 4; 6; 2; 2; 8; 12; 1; 1; 4;
   6; 1; 1; 4; 6; 1; 1; 4; 6; 5; 7; 1; 3; 5; 7; 1; 3; 5; 7; 1; 3; 10; 14; 2; 6; 5; 7; 1; 3; 5; 7;
   1; 3; 4; 6; 1; 1; 4; 6; 1; 1; 4; 6; 1; 1; 8; 12; 2; 2; 4; 6; 1; 1; 4; 6; 1; 1; 1; 3; 5; 7; 1;
   3; 5; 7; 1; 3; 5; 7; 2; 6; 10; 14; 1; 3; 5; 7; 1; 3; 5; 7; 1; 1; 4; 6; 1; 1; 4; 6; 1; 1; 4; 6;
   2; 2; 8; 12; 1; 1; 4; 6; 1; 1; 4; 6; 5; 7; 1; 3; 5; 7; 1; 3; 5; 7; 1; 3; 5; 7; 1; 3; 10; 14; 2;
   6; 5; 7; 1; 3; 4; 6; 1; 1; 4; 6; 1; 1; 4; 6; 1; 1; 4; 6; 1; 1; 8; 12; 2; 2; 4; 6; 1; 1; 1; 3;
   5; 7; 1; 3; 5; 7; 1; 3; 5; 7; 1; 3; 5; 7; 2; 6; 10; 14; 1; 3; 5; 7; 1; 1; 4; 6; 1; 1; 4; 6; 1;
   1; 4; 6; 1; 1; 4; 6; 2; 2; 8; 12; 1; 1; 4; 6; 5; 7; 1; 3; 5; 7; 1; 3; 5; 7; 1; 3; 5; 7; 1; 3;
   5; 7; 1; 3; 10; 14; 2; 6; 4; 6; 1; 1; 4; 6; 1; 1; 4; 6; 1; 1; 4; 6; 1; 1; 4; 6; 1; 1; 8; 12; 2;
   2; 1; 3; 5; 7; 1; 3; 5; 7; 1; 3; 5; 7; 1; 3; 5; 7; 1; 3; 5; 7; 2; 6; 10; 14; 1; 1; 4; 6; 1; 1;
   4; 6; 1; 1; 4; 6; 1; 1; 4; 6; 1; 1; 4; 6; 2; 2; 8; 12].

(* L181-185 M_INT_DIAG_HZN *)
Definition M_INT_DIAG_HZN : list Z := map Elem.new
  [0x409133f0; 0x1667a8a1; 0x06a6c7b6; 0x6f53160e; 0x273b11d1; 0x03176c5d; 0x72f9bbf9; 0x73ceba91;
   0x5cdef81d; 0x01393285; 0x46daee06; 0x065d7ba6; 0x52d72d6f; 0x05dd05e0; 0x3bab4b63; 0x6ada3842;
   0x2fc5fbec; 0x770d61b0; 0x5715aae9; 0x03ef0e90; 0x75b6c770; 0x242adf5f; 0x00d0ca4c; 0x36c0e388].

(* source: src/risc0/risc0/zkp/src/core/hash/poseidon2/mod.rs *)
(* L40-40 CELLS_RATE *)
Definition CELLS_RATE : nat := 16.
(* L43-43 CELLS_OUT *)
Definition CELLS_OUT : nat := 8.

(** ** The permutation

    [cells] is an array of [CELLS] elements; every index below is in range. *)

(* L112-116 add_round_constants_full *)
Definition add_round_constants_full (cells : list Z) (round : nat) : list Z :=
  imap (fun i c => c +' ROUND_CONSTANTS !!! (round * CELLS + i)%nat) cells.

(* L118-120 add_round_constants_partial *)
Definition add_round_constants_partial (cells : list Z) (round : nat) : list Z :=
  alter (fun c => c +' ROUND_CONSTANTS !!! (round * CELLS)%nat) 0%nat cells.

(* L122-127 sbox *)
Definition sbox (x : Z) : Z :=
  let x2 := x *' x in
  let x4 := x2 *' x2 in
  let x6 := x4 *' x2 in
  x6 *' x.

(* L129-133 do_full_sboxes *)
Definition do_full_sboxes (cells : list Z) : list Z := map sbox cells.
(* L135-137 do_partial_sboxes *)
Definition do_partial_sboxes (cells : list Z) : list Z := alter sbox 0%nat cells.

(* L139-145 multiply_by_m_int *)
Definition multiply_by_m_int (cells : list Z) : list Z :=
  let sum := foldl Elem.add Elem.ZERO cells in
  imap (fun i c => sum +' M_INT_DIAG_HZN !!! i *' c) cells.

(* L147-158 multiply_by_4x4_circulant *)
Definition multiply_by_4x4_circulant (x0 x1 x2 x3 : Z) : list Z :=
  let t0 := x0 +' x1 in
  let t1 := x2 +' x3 in
  let t2 := Elem.new 2 *' x1 +' t1 in
  let t3 := Elem.new 2 *' x3 +' t0 in
  let t4 := Elem.new 4 *' t1 +' t3 in
  let t5 := Elem.new 4 *' t0 +' t2 in
  let t6 := t3 +' t5 in
  let t7 := t2 +' t4 in
  [t6; t5; t7; t4].

(** The body of the loop over the chunks: [cells] and [tmp_sums] are threaded. *)
(* L167-179 multiply_by_m_ext, the loop over the chunks *)
Definition m_ext_chunk (old_cells : list Z) (st : list Z * list Z) (i : nat) : list Z * list Z :=
  let out := multiply_by_4x4_circulant (old_cells !!! (i * 4)%nat) (old_cells !!! (i * 4 + 1)%nat)
               (old_cells !!! (i * 4 + 2)%nat) (old_cells !!! (i * 4 + 3)%nat) in
  foldl (fun '(cells, tmp_sums) j =>
    (alter (fun c => c +' out !!! j) (i * 4 + j)%nat cells, alter (fun t => t +' out !!! j) j tmp_sums))
    st (seq 0 4).

(* L160-183 multiply_by_m_ext *)
Definition multiply_by_m_ext (cells : list Z) : list Z :=
  let old_cells := cells in
  let '(cells, tmp_sums) :=
    foldl (m_ext_chunk old_cells) (replicate CELLS Elem.ZERO, replicate 4 Elem.ZERO) (seq 0 (CELLS / 4)) in
  imap (fun i c => c +' tmp_sums !!! (i mod 4)%nat) cells.

(* L185-194 full_round *)
Definition full_round (cells : list Z) (round : nat) : list Z :=
  multiply_by_m_ext (do_full_sboxes (add_round_constants_full cells round)).
(* L196-200 partial_round *)
Definition partial_round (cells : list Z) (round : nat) : list Z :=
  multiply_by_m_int (do_partial_sboxes (add_round_constants_partial cells round)).

(* L203-226 poseidon2_mix *)
Definition poseidon2_mix (cells : list Z) : list Z :=
  let cells := multiply_by_m_ext cells in
  let cells := foldl full_round cells (seq 0 ROUNDS_HALF_FULL) in
  let cells := foldl partial_round cells (seq ROUNDS_HALF_FULL ROUNDS_PARTIAL) in
  foldl full_round cells (seq (ROUNDS_HALF_FULL + ROUNDS_PARTIAL) ROUNDS_HALF_FULL).

(** ** The sponge *)

(* L239-247 unpadded_hash, the loop *)
Fixpoint absorb (vals : list Z) (state : list Z) (count unmixed : nat) : list Z * nat * nat :=
  match vals with
  | [] => (state, count, unmixed)
  | val :: vals =>
      let state := <[unmixed := val]> state in
      let count := S count in
      let unmixed := S unmixed in
      if (unmixed =? CELLS_RATE)%nat then absorb vals (poseidon2_mix state) count 0
      else absorb vals state count unmixed
  end.

(* L231-255 unpadded_hash *)
Definition unpadded_hash (vals : list Z) : list Z :=
  let '(state, count, unmixed) := absorb vals (replicate CELLS Elem.ZERO) 0 0 in
  let state :=
    if negb (unmixed =? 0)%nat || (count =? 0)%nat
    then poseidon2_mix (take unmixed state ++ replicate (CELLS_RATE - unmixed) Elem.ZERO ++ drop CELLS_RATE state)
    else state in
  take CELLS_OUT state.

(* L104-110 to_digest *)
Definition to_digest (elems : list Z) : Digest :=
  mkDigest (elems !!! 0%nat) (elems !!! 1%nat) (elems !!! 2%nat) (elems !!! 3%nat)
           (elems !!! 4%nat) (elems !!! 5%nat) (elems !!! 6%nat) (elems !!! 7%nat).

(* L49-61 Poseidon2HashFn::hash_pair *)
Definition hash_pair {E} (a b : Digest) : outcome E Digest :=
  let both := map Elem.new_raw (as_words a ++ as_words b) in
  _ ← assert_ (length both =? DIGEST_WORDS * 2)%nat;
  _ ← assert_ (forallb Elem.is_reduced both);
  Ok (to_digest (unpadded_hash both)).

(* L63-65 Poseidon2HashFn::hash_elem_slice *)
Definition hash_elem_slice (slice : list Z) : Digest := to_digest (unpadded_hash slice).
(* L67-71 Poseidon2HashFn::hash_ext_elem_slice *)
Definition hash_ext_elem_slice (slice : list ExtElem) : Digest :=
  to_digest (unpadded_hash (slice ≫= Ext.elems)).
(* L74-79 Poseidon2HashFn::is_digest_valid *)
Definition is_digest_valid (digest : Digest) : bool := forallb Elem.is_valid_bit_pattern (as_words digest).

(** [hash_pair] panics on digests that are not reduced. *)
(* L48-80 HashFn for Poseidon2HashFn *)
#[export] Instance Poseidon2HashFn : HashFn Z := {|
  Merkle.hash_pair a b := match @hash_pair unit a b with Ok d => Some d | _ => None end;
  Merkle.hash_elem_slice := hash_elem_slice;
  Merkle.is_digest_valid := is_digest_valid |}.

(** One word per element; a word that is not reduced is not an element. *)
(* src/risc0/risc0/core/src/field/baby_bear.rs:164-171 CheckedBitPattern for Elem *)
#[export] Instance elem_words : ElemWords Z := {|
  Merkle.WORDS := 1;
  Merkle.elem_words e := [e];
  Merkle.elem_of_words ws :=
    match ws with
    | [w] => if Elem.is_valid_bit_pattern w then Some w else None
    | _ => None
    end |}.

(** ** The generator *)

(* source: src/risc0/risc0/zkp/src/core/hash/poseidon2/rng.rs *)
(* L28-33 Poseidon2Rng *)
Record Poseidon2Rng := mkRng { cells : list Z; pool_used : nat }.
(* L43-48 Poseidon2Rng::new *)
Definition rng_new : Poseidon2Rng := mkRng (replicate CELLS (Elem.new 0)) 0.

(* L52-64 Poseidon2Rng::mix *)
Definition rng_mix (val : Digest) (self : Poseidon2Rng) : Poseidon2Rng :=
  let cells := if negb (pool_used self =? 0)%nat then poseidon2_mix (cells self) else cells self in
  let cells := zip_with Elem.add (take CELLS_OUT cells) (map Elem.new_raw (as_words val)) ++ drop CELLS_OUT cells in
  mkRng (poseidon2_mix cells) 0.

(* L77-85 Poseidon2Rng::random_elem *)
Definition random_elem (self : Poseidon2Rng) : Z * Poseidon2Rng :=
  let self := if (pool_used self =? CELLS_RATE)%nat then mkRng (poseidon2_mix (cells self)) 0 else self in
  (cells self !!! pool_used self, mkRng (cells self) (S (pool_used self))).

(** A shift by [bits] uses the low five bits of [bits] in the release profile. *)
(* L66-75 Poseidon2Rng::random_bits *)
Definition random_bits (bits : Z) (self : Poseidon2Rng) : Z * Poseidon2Rng :=
  let '(val, self) := random_elem self in
  let val := Elem.as_u32 val in
  let '(val, self) := foldl (fun '(val, self) _ =>
    let '(new_val, self) := random_elem self in
    let new_val := Elem.as_u32 new_val in
    (if val =? 0 then new_val else val, self)) (val, self) (seq 0 3) in
  ((1 .<< (bits mod 32) -32 1) .& val, self).

(* L87-89 Poseidon2Rng::random_ext_elem *)
Definition random_ext_elem (self : Poseidon2Rng) : ExtElem * Poseidon2Rng :=
  let '(x0, self) := random_elem self in
  let '(x1, self) := random_elem self in
  let '(x2, self) := random_elem self in
  let '(x3, self) := random_elem self in
  (mkExt x0 x1 x2 x3, self).

(* L51-90 Rng for Poseidon2Rng *)
#[export] Instance Poseidon2Rng_rng : Rng Poseidon2Rng Z ExtElem := {|
  Merkle.rng_mix := rng_mix;
  Merkle.rng_random_bits := random_bits;
  Merkle.rng_random_elem := random_elem;
  Merkle.rng_random_ext_elem := random_ext_elem |}.

(** ** The reference of the unit tests *)

(* source: src/risc0/risc0/zkp/src/core/hash/poseidon2/mod.rs *)
(* L274-283 multiply_by_m_ext_naive *)
Definition multiply_by_m_ext_naive (cells : list Z) : list Z :=
  map (fun i => foldl (fun tot j => tot +' M_EXT !!! (i * CELLS + j)%nat *' cells !!! j) Elem.ZERO (seq 0 CELLS))
    (seq 0 CELLS).

(* L285-298 multiply_by_m_int_naive *)
Definition multiply_by_m_int_naive (cells : list Z) : list Z :=
  map (fun i => foldl (fun tot j =>
      if (i =? j)%nat then tot +' (M_INT_DIAG_HZN !!! i +' Elem.ONE) *' cells !!! j else tot +' cells !!! j)
    Elem.ZERO (seq 0 CELLS)) (seq 0 CELLS).

(* L268-272 partial_round_naive *)
Definition partial_round_naive (cells : list Z) (round : nat) : list Z :=
  multiply_by_m_int_naive (do_partial_sboxes (add_round_constants_partial cells round)).

(* L301-316 poseidon2_mix_naive *)
Definition poseidon2_mix_naive (cells : list Z) : list Z :=
  let cells := multiply_by_m_ext_naive cells in
  let cells := foldl full_round cells (seq 0 ROUNDS_HALF_FULL) in
  let cells := foldl partial_round_naive cells (seq ROUNDS_HALF_FULL ROUNDS_PARTIAL) in
  foldl full_round cells (seq (ROUNDS_HALF_FULL + ROUNDS_PARTIAL) ROUNDS_HALF_FULL).

End Poseidon2.

(** The repository's test vectors. *)
Example poseidon2_test_vector :
  map Elem.as_u32 (Poseidon2.poseidon2_mix (map Elem.new (seqZ 0 24))) =
  [0x2ed3e23d; 0x12921fb0; 0x0e659e79; 0x61d81dc9; 0x32bae33b; 0x62486ae3; 0x1e681b60;
   0x24b91325; 0x2a2ef5b9; 0x50e8593e; 0x5bc818ec; 0x10691997; 0x35a14520; 0x2ba6a3c5;
   0x279d47ec; 0x55014e81; 0x5953a67f; 0x2f403111; 0x6b8828ff; 0x1801301f; 0x2749207a;
   0x3dc9cf21; 0x3c985ba2; 0x57a99864].
Proof. vm_compute. reflexivity. Qed.
