(* ===== verification/Poseidon2Spec.v ===== *)
(** * Poseidon2 is a permutation, and its fast layers are the matrices

    The words of the state are related to integers modulo [P] by [rep]; the two
    linear layers are related to their matrices, and the layers are shown to be
    bijections of the states one by one.  The sponge is related to the fold over
    padded blocks. *)
From S2P Require Export Poseidon2 MerkleSpec.
Import Poseidon2.
Open Scope word_scope.
Open Scope Z_scope.

(** ** States *)

Definition cells_ok (cs : list Z) : Prop := length cs = CELLS /\ Forall reduced cs.
Abbreviation reps := (Forall2 rep).

Lemma cells_reps cs : Forall reduced cs -> reps cs (map BabyBear.decode cs).
Proof. intros H. apply Forall2_fmap_r, Forall_Forall2_diag. eapply Forall_impl; [exact H|]. apply rep_self. Qed.

Lemma reps_reduced cs xs : reps cs xs -> Forall reduced cs.
Proof. induction 1; constructor; eauto using rep_reduced. Qed.

Lemma reps_inj cs cs' xs xs' : reps cs xs -> reps cs' xs' -> Forall2 (eqm P) xs xs' -> cs = cs'.
Proof.
  intros H. revert cs' xs'. induction H as [|c x cs xs Hc _ IH]; intros cs' xs' H' E.
  - inversion E; subst. by inversion H'.
  - inversion E as [|? x' ? ? Ex Exs]; subst. inversion H' as [|c' ? cs'' ? Hc' Hcs]; subst.
    f_equal; [by eapply rep_inj|by eapply IH].
Qed.

Lemma rep_ZERO : rep Elem.ZERO 0.
Proof. apply rep_new. unfold fits. lia. Qed.

(** Solves [rep (e c0 ... cn) _] from the hypotheses on the [ci]. *)
Ltac rep_step :=
  lazymatch goal with
  | |- rep (Elem.add _ _) _ => apply rep_add
  | |- rep (Elem.mul _ _) _ => apply rep_mul
  | |- rep (Elem.sub _ _) _ => apply rep_sub
  | |- rep Elem.ZERO _ => apply rep_ZERO
  | |- rep Elem.ONE _ => apply rep_one
  | |- rep (Elem.new ?k) _ => apply rep_new; unfold fits; lia
  | |- rep _ _ => eassumption
  end.

(** ** Matrices over the integers *)

Definition dot (r xs : list Z) : Z := foldr Z.add 0 (zip_with Z.mul r xs).
Definition mat_mul (rows : list (list Z)) (xs : list Z) : list Z := map (fun r => dot r xs) rows.
Definition vec_mat (n : nat) (r : list Z) (rows : list (list Z)) : list Z :=
  foldr (zip_with Z.add) (replicate n 0) (zip_with (fun a row => map (Z.mul a) row) r rows).
Definition unit_row (n i : nat) : list Z := map (fun j => if (i =? j)%nat then 1 else 0) (seq 0 n).
Definition rows_of (n : nat) (l : list Z) : list (list Z) := map (fun i => take n (drop (i * n) l)) (seq 0 n).

Lemma dot_cons a r x xs : dot (a :: r) (x :: xs) = a * x + dot r xs.
Proof. done. Qed.

Lemma dot_add r r' xs : length r = length xs -> length r' = length xs ->
  dot (zip_with Z.add r r') xs = dot r xs + dot r' xs.
Proof.
  revert r r'. induction xs as [|x xs IH]; intros [|a r] [|a' r'] H H'; try discriminate; [done|].
  cbn [zip_with]. rewrite !dot_cons, IH by (cbn in *; lia). ring.
Qed.

Lemma dot_scale a r xs : dot (map (Z.mul a) r) xs = a * dot r xs.
Proof.
  revert r. induction xs as [|x xs IH]; intros [|b r]; try (unfold dot; cbn; ring).
  cbn [map]. rewrite !dot_cons, IH. ring.
Qed.

Lemma dot_zeros n xs : dot (replicate n 0) xs = 0.
Proof. revert n. induction xs as [|x xs IH]; intros [|n]; [done..|]. cbn [replicate]. by rewrite dot_cons, IH. Qed.

Lemma vec_mat_length n r rows : Forall (fun row => length row = n) rows -> length (vec_mat n r rows) = n.
Proof.
  intros H. revert r. induction H as [|row rows Hr _ IH]; intros [|a r]; cbn; try apply length_replicate.
  rewrite length_zip_with, length_map. unfold vec_mat in IH. rewrite IH. lia.
Qed.

Lemma dot_vec_mat n r rows xs : length xs = n -> Forall (fun row => length row = n) rows ->
  dot (vec_mat n r rows) xs = dot r (mat_mul rows xs).
Proof.
  intros Hn H. revert r. induction H as [|row rows Hr Hf IH]; intros [|a r]; try apply dot_zeros.
  change (vec_mat n (a :: r) (row :: rows)) with (zip_with Z.add (map (Z.mul a) row) (vec_mat n r rows)).
  rewrite dot_add by (rewrite ?length_map, ?vec_mat_length by done; lia).
  cbn [mat_mul map]. rewrite dot_cons, dot_scale, IH. done.
Qed.

#[export] Instance dot_eqm : Proper (Forall2 (eqm P) ==> Forall2 (eqm P) ==> eqm P) dot.
Proof.
  intros r r' H. induction H as [|a a' r r' Ha _ IH]; intros xs xs' Hx; [done|].
  destruct Hx as [|x x' xs xs' Hx Hxs]; [done|]. rewrite !dot_cons, Ha, Hx, (IH _ _ Hxs). done.
Qed.

Lemma zeros_row i n : forall b, (i < b)%nat ->
  map (fun j => if (i =? j)%nat then 1 else 0) (seq b n) = replicate n 0.
Proof.
  induction n as [|n IH]; intros b Hb; [done|]. cbn [seq map replicate].
  rewrite IH by lia. by destruct (Nat.eqb_spec i b); [lia|].
Qed.

Lemma dot_unit n : forall i b xs, (i < n)%nat -> length xs = n ->
  dot (map (fun j => if (b + i =? j)%nat then 1 else 0) (seq b n)) xs = nth i xs 0.
Proof.
  induction n as [|n IH]; intros i b xs Hi Hx; [lia|]. destruct xs as [|x xs]; [done|].
  cbn [seq map]. rewrite dot_cons. destruct i as [|i].
  - rewrite Nat.add_0_r, Nat.eqb_refl, zeros_row, dot_zeros by lia. cbn [nth]. ring.
  - destruct (Nat.eqb_spec (b + S i) b); [lia|]. cbn [nth].
    rewrite <- (IH i (S b) xs) by (cbn in Hx; lia). rewrite <- Nat.add_succ_comm. ring.
Qed.

(** [N] is a left inverse of [M] modulo [P]. *)
Definition left_inverse (n : nat) (N M : list (list Z)) : bool :=
  bool_decide (map (fun i => map (fun x => x mod P) (vec_mat n (nth i N []) M)) (seq 0 n) = map (unit_row n) (seq 0 n))
  && forallb (fun row => length row =? n)%nat M && (length N =? n)%nat.

Lemma left_inverse_spec n N M xs : left_inverse n N M = true -> length xs = n ->
  Forall2 (eqm P) (mat_mul N (mat_mul M xs)) xs.
Proof.
  unfold left_inverse. intros [[H1%bool_decide_eq_true_1 H2]%andb_prop H3%Nat.eqb_eq]%andb_prop Hx.
  rewrite forallb_forall in H2.
  assert (HM : Forall (fun row => length row = n) M).
  { apply Forall_forall. intros row Hr. apply Nat.eqb_eq, H2, list_elem_of_In. done. }
  apply Forall2_same_length_lookup_2; [unfold mat_mul; rewrite length_map; lia|].
  intros i x y Hi Hy. unfold mat_mul in Hi. apply list_lookup_fmap_Some in Hi as (r & -> & Hr).
  pose proof (lookup_lt_Some _ _ _ Hy) as Hlt. rewrite Hx in Hlt.
  change (map ?f M) with (mat_mul M xs). rewrite <- (dot_vec_mat n) by done.
  assert (E : map (fun x => x mod P) (vec_mat n r M) = unit_row n i).
  { apply (f_equal (fun l => nth i l [])) in H1. rewrite !(nth_indep _ [] (unit_row n 0)) in H1 by (rewrite length_map, length_seq; done).
    rewrite map_nth in H1. rewrite seq_nth in H1 by done.
    erewrite (nth_indep (map _ _)) in H1 by (rewrite length_map, length_seq; done).
    rewrite (map_nth (fun i => map (fun x => x mod P) (vec_mat n (nth i N []) M)) _ 0%nat), seq_nth in H1 by done.
    cbn in H1. by rewrite (nth_lookup_Some _ _ _ _ Hr) in H1. }
  transitivity (dot (unit_row n i) xs).
  - apply dot_eqm; [|done]. rewrite <- E. apply Forall2_fmap_r, Forall_Forall2_diag, Forall_true.
    intros z. symmetry. apply eqm_mod.
  - transitivity (nth i xs 0); [apply eqm_ring, (dot_unit n i 0 xs Hlt Hx)|]. by rewrite (nth_lookup_Some _ _ _ _ Hy).
Qed.

(** ** The linear layers *)

Definition ints (l : list Z) : list Z := map Elem.as_u32 l.
Definition M_ext : list (list Z) := rows_of CELLS (ints M_EXT).
Definition M_int : list (list Z) :=
  imap (fun i d => map (fun j => if (i =? j)%nat then d + 1 else 1) (seq 0 CELLS)) (ints M_INT_DIAG_HZN).

(** The constants, as the computed lists. *)
Lemma const_reps l xs : Forall2 (fun c x => c = Elem.new x /\ u32 x) l xs -> reps l xs.
Proof. intros H. eapply Forall2_impl; [exact H|]. intros c x [-> Hx]. by apply rep_new. Qed.

Lemma rep_lookup cs xs i : reps cs xs -> (i < length cs)%nat -> rep (cs !!! i) (xs !!! i).
Proof.
  intros H [c Ec]%lookup_lt_is_Some. destruct (Forall2_lookup_l _ _ _ _ _ H Ec) as (x & Ex & Hr).
  by rewrite !list_lookup_total_alt, Ec, Ex.
Qed.

Lemma rep_foldl (f : Z -> nat -> Z) (g : Z -> nat -> Z) js :
  (forall a x j, In j js -> rep a x -> rep (f a j) (g x j)) ->
  forall a x, rep a x -> rep (foldl f a js) (foldl g x js).
Proof.
  induction js as [|j js IH]; intros H a x Ha; cbn; [done|].
  apply IH; [intros; apply H; [by right|done]|]. apply H; [by left|done].
Qed.

(** Takes a state of 24 words apart. *)
Ltac state24 H Hl :=
  do 24 (let c := fresh "c" in let x := fresh "x" in let cs := fresh "cs" in let xs := fresh "xs" in
         let Hc := fresh "Hc" in inversion H as [|c x cs xs Hc ? E1 E2]; subst; [discriminate Hl|]; clear H;
         match goal with H1 : Forall2 rep cs xs |- _ => rename H1 into H end);
  inversion H; subst; [|discriminate Hl].

(** An equation between integer terms, entry by entry. *)
Ltac entries tac := repeat (apply Forall2_cons; split); [tac..|by constructor].

Lemma reps_m_ext cs xs : reps cs xs -> length cs = CELLS -> reps (multiply_by_m_ext cs) (mat_mul M_ext xs).
Proof.
  intros H Hl. state24 H Hl.
  let m := eval vm_compute in M_ext in replace M_ext with m by (vm_compute; reflexivity).
  match goal with |- Forall2 rep ?l _ => let l' := eval cbv -[Elem.add Elem.mul Elem.new Elem.ZERO] in l in change l with l' end.
  cbv [mat_mul dot zip_with map foldr].
  entries ltac:(eapply rep_eqm; [repeat rep_step|apply eqm_ring; ring]).
Qed.

Lemma diag_length : length M_INT_DIAG_HZN = CELLS. Proof. reflexivity. Qed.
Lemma m_ext_length : length M_EXT = (CELLS * CELLS)%nat. Proof. vm_compute. reflexivity. Qed.

(** The constants stand for the integers written in the source. *)
Lemma reps_ints l : Forall reduced l -> reps l (ints l).
Proof. apply cells_reps. Qed.

Lemma forall_reduced l : forallb (fun x => (0 <=? x) && (x <? P)) l = true -> Forall reduced l.
Proof.
  rewrite forallb_forall. intros H. apply Forall_forall. intros x Hx%list_elem_of_In%H.
  unfold reduced. lia.
Qed.

Lemma reps_diag : reps M_INT_DIAG_HZN (ints M_INT_DIAG_HZN).
Proof. apply reps_ints, forall_reduced. vm_compute. reflexivity. Qed.
Lemma reps_M_EXT : reps M_EXT (ints M_EXT).
Proof. apply reps_ints, forall_reduced. vm_compute. reflexivity. Qed.
Lemma reps_rc : reps ROUND_CONSTANTS (ints ROUND_CONSTANTS).
Proof. apply reps_ints, forall_reduced. vm_compute. reflexivity. Qed.

Lemma reps_m_int cs xs : reps cs xs -> length cs = CELLS -> reps (multiply_by_m_int cs) (mat_mul M_int xs).
Proof.
  intros H Hl. pose proof reps_diag as Hd. pose proof diag_length as Hdl. unfold M_int, multiply_by_m_int.
  remember M_INT_DIAG_HZN as D eqn:ED. remember (ints D) as ds eqn:Eds. clear ED Eds.
  state24 H Hl. state24 Hd Hdl.
  cbv [mat_mul dot zip_with map foldr foldl imap seq CELLS lookup_total list_lookup_total Nat.eqb compose].
  entries ltac:(eapply rep_eqm; [repeat rep_step|apply eqm_ring; ring]).
Qed.

Lemma reps_m_int_naive cs xs : reps cs xs -> length cs = CELLS -> reps (multiply_by_m_int_naive cs) (mat_mul M_int xs).
Proof.
  intros H Hl. pose proof reps_diag as Hd. pose proof diag_length as Hdl. unfold M_int, multiply_by_m_int_naive.
  remember M_INT_DIAG_HZN as D eqn:ED. remember (ints D) as ds eqn:Eds. clear ED Eds.
  state24 H Hl. state24 Hd Hdl.
  cbv [mat_mul dot zip_with map foldr foldl imap seq CELLS lookup_total list_lookup_total Nat.eqb compose].
  entries ltac:(eapply rep_eqm; [repeat rep_step|apply eqm_ring; ring]).
Qed.

Lemma reps_m_ext_naive cs xs : reps cs xs -> length cs = CELLS -> reps (multiply_by_m_ext_naive cs) (mat_mul M_ext xs).
Proof.
  intros H Hl.
  assert (E : map (fun i => foldl (fun tot j => tot + ints M_EXT !!! (i * CELLS + j)%nat * xs !!! j) 0 (seq 0 CELLS)) (seq 0 CELLS)
              = mat_mul M_ext xs).
  { let m := eval vm_compute in M_ext in replace M_ext with m by (vm_compute; reflexivity).
    let m := eval vm_compute in (ints M_EXT) in replace (ints M_EXT) with m by (vm_compute; reflexivity).
    state24 H Hl.
    cbv [mat_mul dot zip_with map foldr foldl seq CELLS lookup_total list_lookup_total Nat.add Nat.mul].
    repeat (apply (f_equal2 (@cons Z)); [ring|]). reflexivity. }
  rewrite <- E. apply Forall2_fmap, Forall_Forall2_diag, Forall_forall. intros i Hi%elem_of_seq.
  apply rep_foldl; [|apply rep_ZERO]. intros a x j Hj%in_seq Ha. pose proof m_ext_length. unfold CELLS in *.
  apply rep_add; [done|]. apply rep_mul; apply rep_lookup; [apply reps_M_EXT|lia|done|lia].
Qed.

Lemma mat_mul_length rows xs : length (mat_mul rows xs) = length rows.
Proof. apply length_map. Qed.

(** The fast linear layers compute what the straightforward ones do. *)
Lemma m_ext_naive cs : cells_ok cs -> multiply_by_m_ext cs = multiply_by_m_ext_naive cs.
Proof.
  intros [Hl Hr]. pose proof (cells_reps _ Hr) as H.
  eapply reps_inj; [by apply reps_m_ext|by apply reps_m_ext_naive|]. reflexivity.
Qed.

Lemma m_int_naive cs : cells_ok cs -> multiply_by_m_int cs = multiply_by_m_int_naive cs.
Proof.
  intros [Hl Hr]. pose proof (cells_reps _ Hr) as H.
  eapply reps_inj; [by apply reps_m_int|by apply reps_m_int_naive|]. reflexivity.
Qed.
(** ** The layers are bijections *)

(** A bijection of a set of values onto itself. *)
Definition bij {A} (ok : A -> Prop) (f : A -> A) : Prop :=
  (forall a, ok a -> ok (f a)) /\ forall b, ok b -> exists a, ok a /\ f a = b /\ forall a', ok a' -> f a' = b -> a' = a.

Lemma bij_compose {A} (ok : A -> Prop) f g : bij ok f -> bij ok g -> bij ok (fun a => g (f a)).
Proof.
  intros [Hf Hf'] [Hg Hg']. split; [auto|]. intros c Hc.
  destruct (Hg' c Hc) as (b & Hb & <- & Ub). destruct (Hf' b Hb) as (a & Ha & <- & Ua).
  exists a. split; [done|]. split; [done|]. intros a' Ha' E. apply Ua; [done|]. apply Ub; auto.
Qed.

Lemma bij_foldl {A} (ok : A -> Prop) (f : A -> nat -> A) js : (forall j, bij ok (fun a => f a j)) -> bij ok (fun a => foldl f a js).
Proof.
  intros H. induction js as [|j js IH]; cbn [foldl].
  - split; [done|]. intros b Hb. by exists b.
  - apply (bij_compose ok (fun a => f a j) (fun a => foldl f a js) (H j) IH).
Qed.

(** From a two-sided inverse. *)
Lemma bij_inverse {A} (ok : A -> Prop) (f g : A -> A) :
  (forall a, ok a -> ok (f a)) -> (forall a, ok a -> ok (g a)) ->
  (forall a, ok a -> g (f a) = a) -> (forall a, ok a -> f (g a) = a) -> bij ok f.
Proof.
  intros Hf Hg H1 H2. split; [done|]. intros b Hb. exists (g b).
  split; [auto|]. split; [auto|]. intros a' Ha' <-. symmetry. auto.
Qed.

Lemma bij_imap (g : nat -> Z -> Z) : (forall i, bij reduced (g i)) -> bij cells_ok (imap g).
Proof.
  intros H.
  assert (H1 : forall n cs k, length cs = n -> Forall reduced cs -> Forall reduced (imap (fun i => g (k + i)%nat) cs)).
  { intros n cs. revert n. induction cs as [|c cs IH]; intros n k Hl Hr; [constructor|].
    apply Forall_cons in Hr as [Hc Hr]. rewrite imap_cons. constructor; [by apply H|].
    specialize (IH _ (S k) eq_refl Hr). erewrite imap_ext; [exact IH|]. intros i x _. cbn. f_equal. lia. }
  assert (H2 : forall ds k, Forall reduced ds -> exists cs, length cs = length ds /\ Forall reduced cs /\
    imap (fun i => g (k + i)%nat) cs = ds /\
    forall cs', Forall reduced cs' -> imap (fun i => g (k + i)%nat) cs' = ds -> cs' = cs).
  { induction ds as [|d ds IH]; intros k Hr.
    - exists []. split_and!; [done..|]. intros cs' _ E. by destruct cs'.
    - apply Forall_cons in Hr as [Hd Hr]. destruct (IH (S k) Hr) as (cs & Hl & Hok & E & U).
      destruct (proj2 (H k) d Hd) as (c & Hc & Ec & Uc).
      assert (Es : forall l, imap ((fun i => g (k + i)%nat) ∘ S) l = imap (fun i => g (S k + i)%nat) l).
      { intros l. apply imap_ext. intros i x _. cbn. f_equal. lia. }
      exists (c :: cs). split; [cbn; lia|]. split; [by constructor|].
      rewrite imap_cons, Es, E, Nat.add_0_r. split; [by rewrite Ec|].
      intros [|c' cs'] Hr' E'; [done|]. apply Forall_cons in Hr' as [Hc' Hr']. rewrite imap_cons, Es, Nat.add_0_r in E'.
      injection E' as E1 E2. f_equal; auto. }
  split.
  - intros cs [Hl Hr]. split; [by rewrite length_imap|]. by apply (H1 _ cs 0%nat eq_refl).
  - intros ds [Hl Hr]. destruct (H2 ds 0%nat Hr) as (cs & Hl' & Hr' & E & U).
    exists cs. split; [split; [by rewrite Hl'|done]|]. split; [done|]. intros cs' [_ Hok]. by apply U.
Qed.

Lemma alter_imap (f : Z -> Z) cs : alter f 0%nat cs = imap (fun i => if (i =? 0)%nat then f else id) cs.
Proof.
  destruct cs as [|c cs]; [done|]. rewrite imap_cons. cbn. f_equal.
  transitivity (id <$> cs); [by rewrite list_fmap_id|symmetry; apply (imap_const id cs)].
Qed.

Lemma bij_id {A} (ok : A -> Prop) : bij ok id.
Proof. by apply (bij_inverse ok id id). Qed.

Lemma bij_alter f : bij reduced f -> bij cells_ok (alter f 0%nat).
Proof.
  intros Hf. pose proof (bij_imap (fun i => if (i =? 0)%nat then f else id)) as [H1 H2].
  { intros i. destruct (i =? 0)%nat; [done|apply bij_id]. }
  split.
  - intros a Ha. rewrite alter_imap. auto.
  - intros b Hb. destruct (H2 b Hb) as (a & Ha & E & U). exists a. rewrite alter_imap.
    split; [done|]. split; [done|]. intros a' Ha'. rewrite alter_imap. auto.
Qed.

Lemma bij_map f : bij reduced f -> bij cells_ok (map f).
Proof.
  intros Hf. pose proof (bij_imap (fun _ => f) (fun _ => Hf)) as [H1 H2].
  assert (E : forall l, map f l = imap (fun _ => f) l) by (intros l; symmetry; apply imap_const).
  split.
  - intros a Ha. rewrite E. auto.
  - intros b Hb. destruct (H2 b Hb) as (a & Ha & E1 & U). exists a. rewrite E.
    split; [done|]. split; [done|]. intros a' Ha'. rewrite E. auto.
Qed.

(** *** Words *)

Lemma eqm_rep_eq a b x y : rep a x -> rep b y -> x ≡P y -> a = b.
Proof. apply rep_inj. Qed.

Lemma bij_add k : reduced k -> bij reduced (fun c => Elem.add c k).
Proof.
  intros Hk. pose proof (rep_self k Hk) as Rk.
  apply (bij_inverse _ _ (fun c => Elem.sub c k)); intros a Ha; pose proof (rep_self a Ha) as Ra.
  - eauto with rep.
  - eauto with rep.
  - eapply rep_inj; [apply rep_sub; [by apply rep_add|done]|done|]. apply eqm_ring. ring.
  - eapply rep_inj; [apply rep_add; [by apply rep_sub|done]|done|]. apply eqm_ring. ring.
Qed.

(** [7 * ROOT7 = 1] modulo [P - 1], so raising to [ROOT7] undoes the S-box. *)
Definition ROOT7 : Z := 1725656503.

Lemma rep_sbox a x : rep a x -> rep (sbox a) (x ^ 7).
Proof. intros Ha. unfold sbox. eapply rep_eqm; [repeat rep_step|]. apply eqm_ring. ring. Qed.

Lemma pow_root7 x : x ^ (7 * ROOT7) ≡P x.
Proof.
  destruct (decide (x mod P = 0)) as [E|E].
  - assert (Hx : x ≡P 0) by (unfold eqm; by rewrite E).
    rewrite (eqm_pow_0 x (7 * ROOT7)) by (done || (unfold ROOT7; lia)). by rewrite Hx.
  - replace (7 * ROOT7) with (1 + (P - 1) * 6) by reflexivity.
    rewrite Z.pow_add_r, Z.pow_mul_r, Z.pow_1_r by (rewrite ?P_val; lia).
    rewrite (eqm_pow (x ^ (P - 1)) 1 6) by (lia || (apply fermat; intros H; apply E; rewrite H; reflexivity)).
    apply eqm_ring. ring.
Qed.

Lemma rep_pow_new z : rep (Elem.new (z mod P)) z.
Proof.
  eapply rep_eqm; [apply rep_new|apply eqm_mod]. pose proof (mod_reduced z). unfold reduced, fits in *. rewrite P_val in *. lia.
Qed.

Lemma bij_sbox : bij reduced sbox.
Proof.
  apply (bij_inverse _ _ (fun a => Elem.new ((BabyBear.decode a ^ ROOT7) mod P))); intros a Ha;
    pose proof (rep_self a Ha) as Ra; pose proof (rep_sbox a _ Ra) as Rs.
  - eauto with rep.
  - apply (rep_reduced _ _ (rep_pow_new _)).
  - apply (rep_inj _ _ _ _ (rep_pow_new _) Ra). rewrite (rep_val _ _ Rs).
    rewrite (eqm_pow _ (BabyBear.decode a ^ 7) ROOT7) by (done || apply eqm_mod).
    rewrite <- Z.pow_mul_r by (done || (unfold ROOT7; lia)). apply pow_root7.
  - apply (rep_inj _ _ _ _ (rep_sbox _ _ (rep_pow_new _)) Ra).
    rewrite <- Z.pow_mul_r, Z.mul_comm by (done || (unfold ROOT7; lia)). apply pow_root7.
Qed.

(** *** Linear layers *)

#[local] Instance mat_mul_eqm M : Proper (Forall2 (eqm P) ==> Forall2 (eqm P)) (mat_mul M).
Proof. intros xs ys H. apply Forall2_fmap, Forall_Forall2_diag, Forall_true. intros r. by apply dot_eqm. Qed.

(** A layer that multiplies by [M] with a two-sided inverse [N]. *)
Lemma bij_linear f M N : (forall cs xs, reps cs xs -> length cs = CELLS -> reps (f cs) (mat_mul M xs)) ->
  left_inverse CELLS N M = true -> left_inverse CELLS M N = true -> bij cells_ok f.
Proof.
  intros Hf HNM HMN.
  assert (HlM : length M = CELLS) by (unfold left_inverse in HMN; apply andb_prop in HMN as [_ HMN]; by apply Nat.eqb_eq).
  assert (HlN : length N = CELLS) by (unfold left_inverse in HNM; apply andb_prop in HNM as [_ HNM]; by apply Nat.eqb_eq).
  set (g cs := map (fun z => Elem.new (z mod P)) (mat_mul N (map BabyBear.decode cs))).
  assert (Hg : forall cs, reps (g cs) (mat_mul N (map BabyBear.decode cs))).
  { intros cs. apply Forall2_fmap_l, Forall_Forall2_diag, Forall_true. intros z. apply rep_pow_new. }
  assert (Hgl : forall cs, length (g cs) = CELLS) by (intros; unfold g; by rewrite length_map, mat_mul_length).
  assert (Hok : forall cs, cells_ok cs -> cells_ok (f cs)).
  { intros cs [Hl Hr]. pose proof (Hf _ _ (cells_reps _ Hr) Hl) as R. split; [|by eapply reps_reduced].
    rewrite (Forall2_length _ _ _ R), mat_mul_length. done. }
  apply (bij_inverse _ _ g); intros cs Hcs; destruct Hcs as [Hl Hr].
  - by apply Hok.
  - split; [done|]. by eapply reps_reduced.
  - pose proof (cells_reps _ Hr) as R. pose proof (Hf _ _ R Hl) as Rf.
    eapply reps_inj; [apply Hg|exact R|].
    transitivity (mat_mul N (mat_mul M (map BabyBear.decode cs))); [|apply (left_inverse_spec CELLS); [done|by rewrite length_map]].
    apply mat_mul_eqm. clear -Rf. induction Rf; constructor; [|done]. apply rep_val in H. rewrite H. apply eqm_mod.
  - pose proof (Hf _ _ (Hg cs) (Hgl cs)) as Rf.
    eapply reps_inj; [exact Rf|by apply cells_reps|]. apply (left_inverse_spec CELLS); [done|by rewrite length_map].
Qed.

Definition inv_P (k : Z) : Z := Elem.as_u32 (Elem.inv (Elem.new k)).

(** [M_ext] is the Kronecker product of [J + I] (of size 6) with the circulant. *)
Definition M4_inv : list Z :=
  [251658240; 1258291201; 1509949440; 251658241;
   1761607681; 251658240; 1006632961; 1258291200;
   1509949440; 251658241; 251658240; 1258291201;
   1006632961; 1258291200; 1761607681; 251658240].
Definition N_ext : list (list Z) :=
  let s := inv_P 7 in
  map (fun i => map (fun j => ((if (i / 4 =? j / 4)%nat then 1 else 0) - s) * M4_inv !!! (i mod 4 * 4 + j mod 4)%nat)
    (seq 0 CELLS)) (seq 0 CELLS).

(** The inverse of a diagonal plus ones. *)
Definition N_int : list (list Z) :=
  let d_inv := map inv_P (ints M_INT_DIAG_HZN) in
  let s := inv_P ((1 + foldr Z.add 0 d_inv) mod P) in
  map (fun i => map (fun j => (if (i =? j)%nat then d_inv !!! i else 0) - s * d_inv !!! i * d_inv !!! j)
    (seq 0 CELLS)) (seq 0 CELLS).

Lemma bij_m_ext : bij cells_ok multiply_by_m_ext.
Proof. apply (bij_linear _ M_ext N_ext); [apply reps_m_ext|vm_compute; reflexivity..]. Qed.

Lemma bij_m_int : bij cells_ok multiply_by_m_int.
Proof. apply (bij_linear _ M_int N_int); [apply reps_m_int|vm_compute; reflexivity..]. Qed.

(** Also out of range, where the lookup defaults to one. *)
Lemma rc_reduced i : reduced (ROUND_CONSTANTS !!! i).
Proof.
  rewrite list_lookup_total_alt. destruct (_ !! i) as [c|] eqn:E; cbn.
  - eapply Forall_lookup_1; [apply (reps_reduced _ _ reps_rc)|exact E].
  - unfold reduced. rewrite P_val. lia.
Qed.

Lemma bij_full_round r : bij cells_ok (fun c => full_round c r).
Proof.
  apply (bij_compose _ (fun c => do_full_sboxes (add_round_constants_full c r)) _); [|apply bij_m_ext].
  apply (bij_compose _ (fun c => add_round_constants_full c r) _); [|apply bij_map, bij_sbox].
  apply (bij_imap (fun i c => Elem.add c _)). intros i. apply bij_add, rc_reduced.
Qed.

Lemma bij_partial_round r : bij cells_ok (fun c => partial_round c r).
Proof.
  apply (bij_compose _ (fun c => do_partial_sboxes (add_round_constants_partial c r)) _); [|apply bij_m_int].
  apply (bij_compose _ (fun c => add_round_constants_partial c r) _); [|apply bij_alter, bij_sbox].
  apply bij_alter, bij_add, rc_reduced.
Qed.

Lemma bij_mix : bij cells_ok poseidon2_mix.
Proof.
  apply (bij_compose _ (fun c => foldl partial_round (foldl full_round (multiply_by_m_ext c) (seq 0 ROUNDS_HALF_FULL)) _)
    (fun c => foldl full_round c _)); [|apply bij_foldl, bij_full_round].
  apply (bij_compose _ (fun c => foldl full_round (multiply_by_m_ext c) _) (fun c => foldl partial_round c _));
    [|apply bij_foldl, bij_partial_round].
  apply (bij_compose _ multiply_by_m_ext (fun c => foldl full_round c _)); [apply bij_m_ext|apply bij_foldl, bij_full_round].
Qed.

Lemma mix_ok cs : cells_ok cs -> cells_ok (poseidon2_mix cs).
Proof. apply bij_mix. Qed.

Lemma foldl_ok_ext {A} (ok : A -> Prop) (f g : A -> nat -> A) js :
  (forall a j, ok a -> ok (f a j)) -> (forall a j, ok a -> f a j = g a j) -> forall a, ok a -> foldl f a js = foldl g a js.
Proof.
  intros H1 H2. induction js as [|j js IH]; intros a Ha; cbn; [done|]. rewrite <- H2 by done. apply IH. auto.
Qed.

Lemma foldl_ok {A} (ok : A -> Prop) (f : A -> nat -> A) js :
  (forall a j, ok a -> ok (f a j)) -> forall a, ok a -> ok (foldl f a js).
Proof. intros H. induction js; cbn; auto. Qed.
(** ** The sponge *)

#[local] Opaque poseidon2_mix.

(** Blocks of [CELLS_RATE] elements overwrite the rate; the last one is padded with
    zeros, and no elements at all are one padded block. *)
Fixpoint sponge (fuel : nat) (vals st : list Z) : list Z :=
  match fuel with
  | O => poseidon2_mix (vals ++ replicate (CELLS_RATE - length vals) Elem.ZERO ++ drop CELLS_RATE st)
  | S fuel =>
      if (length vals <=? CELLS_RATE)%nat
      then poseidon2_mix (vals ++ replicate (CELLS_RATE - length vals) Elem.ZERO ++ drop CELLS_RATE st)
      else sponge fuel (drop CELLS_RATE vals) (poseidon2_mix (take CELLS_RATE vals ++ drop CELLS_RATE st))
  end.

Definition finish_hash (r : list Z * nat * nat) : list Z :=
  let '(state, count, unmixed) := r in
  let state :=
    if negb (unmixed =? 0)%nat || (count =? 0)%nat
    then poseidon2_mix (take unmixed state ++ replicate (CELLS_RATE - unmixed) Elem.ZERO ++ drop CELLS_RATE state)
    else state in
  take CELLS_OUT state.

Lemma sponge_short fuel vals st : (length vals <= CELLS_RATE)%nat ->
  sponge fuel vals st = poseidon2_mix (vals ++ replicate (CELLS_RATE - length vals) Elem.ZERO ++ drop CELLS_RATE st).
Proof. intros H. destruct fuel; cbn [sponge]; [done|]. by rewrite (proj2 (Nat.leb_le _ _) H). Qed.

Lemma sponge_long fuel block vals st : length block = CELLS_RATE -> vals <> [] ->
  sponge (S fuel) (block ++ vals) st = sponge fuel vals (poseidon2_mix (block ++ drop CELLS_RATE st)).
Proof.
  intros Hb Hv. cbn [sponge]. destruct (Nat.leb_spec (length (block ++ vals)) CELLS_RATE) as [H|H].
  - rewrite length_app in H. destruct vals; [done|cbn in H; lia].
  - by rewrite <- Hb, drop_app_length, take_app_length.
Qed.

Lemma cells_split u (v : Z) cs : (u < length cs)%nat -> <[u := v]> cs = (take u cs ++ [v]) ++ drop (S u) cs.
Proof. intros H. rewrite insert_take_drop by done. by rewrite <- app_assoc. Qed.

Lemma absorb_sponge vals : forall st count u fuel, cells_ok st -> Forall reduced vals -> (u < CELLS_RATE)%nat ->
  (length vals <= fuel)%nat -> (u <> 0 \/ count = 0 \/ vals <> [])%nat ->
  finish_hash (absorb vals st count u) = take CELLS_OUT (sponge fuel (take u st ++ vals) st).
Proof.
  induction vals as [|v vals IH]; intros st count u fuel [Hl Hr] Hv Hu Hf Hne.
  - cbn [absorb finish_hash]. assert (Hg : negb (u =? 0)%nat || (count =? 0)%nat = true).
    { destruct Hne as [H|[H|H]]; [|subst; apply orb_true_r|done]. by apply Nat.eqb_neq in H as ->. }
    rewrite Hg, app_nil_r, sponge_short; rewrite length_take, Hl; unfold CELLS, CELLS_RATE in *; [|lia].
    by replace (u `min` 24)%nat with u by lia.
  - apply Forall_cons in Hv as [Hv Hvs]. cbn [absorb].
    assert (Hul : (u < length st)%nat) by (rewrite Hl; unfold CELLS, CELLS_RATE in *; lia).
    assert (Htl : length (take u st ++ [v]) = S u) by (rewrite length_app, length_take; cbn; lia).
    assert (Hdrop : drop CELLS_RATE (<[u := v]> st) = drop CELLS_RATE st) by (apply drop_insert_lt; lia).
    assert (Hok : cells_ok (<[u := v]> st)).
    { split; [by rewrite length_insert|]. by apply Forall_insert. }
    replace (take u st ++ v :: vals) with ((take u st ++ [v]) ++ vals) by (by rewrite <- app_assoc).
    destruct (Nat.eqb_spec (S u) CELLS_RATE) as [E|E].
    + destruct fuel as [|fuel]; [cbn in Hf; lia|].
      assert (Hb : length (take u st ++ [v]) = CELLS_RATE) by (by rewrite Htl).
      pose proof (mix_ok _ Hok) as Hm. rewrite cells_split, E in Hm |- * by done.
      destruct vals as [|v' vals].
      * cbn [absorb finish_hash Nat.eqb negb orb]. rewrite app_nil_r, sponge_short, Hb, Nat.sub_diag by lia.
        reflexivity.
      * rewrite (sponge_long fuel _ (v' :: vals) st Hb) by discriminate. revert Hm. generalize (poseidon2_mix ((take u st ++ [v]) ++ drop CELLS_RATE st)). intros m Hm.
        apply (IH m (S count) 0%nat fuel Hm Hvs); [unfold CELLS_RATE; lia|cbn in *; lia|by right; right].
    + rewrite (IH _ (S count) (S u) fuel); try done; try (cbn in *; lia).
      rewrite cells_split at 1 by done. rewrite <- Htl, take_app_length. f_equal.
      clear -Hdrop. revert Hdrop. generalize (<[u:=v]> st) ((take u st ++ [v]) ++ vals). intros st' l Hd.
      destruct fuel; cbn [sponge]; by rewrite Hd.
Qed.

Lemma sponge_ok fuel : forall vals st, cells_ok st -> Forall reduced vals -> (length vals <= fuel)%nat -> cells_ok (sponge fuel vals st).
Proof.
  assert (Hz : forall n, Forall reduced (replicate n Elem.ZERO)).
  { intros n. apply Forall_replicate. apply (rep_reduced _ 0), rep_ZERO. }
  induction fuel as [|fuel IH]; intros vals st [Hl Hr] Hv Hf.
  - destruct vals; [|cbn in Hf; lia]. cbn [sponge]. apply mix_ok. split.
    + rewrite !length_app, length_replicate, length_drop, Hl. reflexivity.
    + repeat (apply Forall_app; split); [done|apply Hz|by apply Forall_drop].
  - cbn [sponge]. destruct (Nat.leb_spec (length vals) CELLS_RATE).
    + apply mix_ok. split.
      * rewrite !length_app, length_replicate, length_drop, Hl. unfold CELLS, CELLS_RATE in *. lia.
      * repeat (apply Forall_app; split); [done|apply Hz|by apply Forall_drop].
    + apply IH; [apply mix_ok; split|by apply Forall_drop|].
      * rewrite length_app, length_take, length_drop, Hl. unfold CELLS, CELLS_RATE in *. lia.
      * apply Forall_app; split; [by apply Forall_take|by apply Forall_drop].
      * rewrite length_drop. unfold CELLS_RATE in *. lia.
Qed.

Lemma zero_cells : cells_ok (replicate CELLS Elem.ZERO).
Proof. split; [reflexivity|]. apply Forall_replicate, (rep_reduced _ 0), rep_ZERO. Qed.

Lemma hash_sponge vals : Forall reduced vals ->
  unpadded_hash vals = take CELLS_OUT (sponge (length vals) vals (replicate CELLS Elem.ZERO)).
Proof. intros H. apply (absorb_sponge vals _ 0 0); [apply zero_cells|done|unfold CELLS_RATE; lia|done|by right; left]. Qed.

Lemma to_digest_valid es : length es = 8%nat -> Forall reduced es -> is_digest_valid (to_digest es) = true.
Proof.
  intros Hl Hr. do 8 (destruct es as [|? es]; [discriminate Hl|]). destruct es; [|discriminate Hl].
  unfold is_digest_valid, to_digest. cbn. repeat (apply Forall_cons in Hr as [? Hr]).
  unfold Elem.is_valid_bit_pattern, reduced in *. rewrite !(proj2 (Z.ltb_lt _ _)) by lia. done.
Qed.

Lemma hash_valid vals : Forall reduced vals -> is_digest_valid (to_digest (unpadded_hash vals)) = true.
Proof.
  intros H. rewrite hash_sponge by done.
  destruct (sponge_ok (length vals) vals _ zero_cells H (le_n _)) as [Hl Hr].
  apply to_digest_valid; [rewrite length_take, Hl; reflexivity|by apply Forall_take].
Qed.

#[local] Transparent poseidon2_mix.
Import Merkle Poseidon2.
Open Scope Z_scope.

(** ** Theorems *)

(** The fast permutation is the one the parameters define: on every state of
    reduced words, [poseidon2_mix], whose linear layers share sums, returns what
    the version with the full matrices [M_EXT] and [M_INT] returns. *)
Theorem poseidon2_mix_matrices cs : cells_ok cs -> poseidon2_mix cs = poseidon2_mix_naive cs.
Proof.
  intros H. unfold poseidon2_mix, poseidon2_mix_naive.
  assert (Hf : forall c r, cells_ok c -> cells_ok (full_round c r)) by (intros c r; apply (proj1 (bij_full_round r))).
  assert (Hp : forall c r, cells_ok c -> cells_ok (partial_round c r)) by (intros c r; apply (proj1 (bij_partial_round r))).
  rewrite <- m_ext_naive by done. apply (f_equal (fun c => foldl full_round c _)).
  apply (foldl_ok_ext cells_ok); [done| |apply foldl_ok; [done|by apply (proj1 bij_m_ext)]].
  intros c r Hc. unfold partial_round, partial_round_naive. apply m_int_naive.
  pose proof (proj1 (bij_alter _ bij_sbox)) as Hs. apply Hs.
  by apply (proj1 (bij_alter _ (bij_add _ (rc_reduced (r * CELLS))))).
Qed.

Lemma poseidon2_mix_matrices_witness :
  poseidon2_mix (replicate CELLS Elem.ONE) = poseidon2_mix_naive (replicate CELLS Elem.ONE).
Proof.
  apply poseidon2_mix_matrices. split; [reflexivity|]. apply Forall_replicate, (rep_reduced _ 1), rep_one.
Defined.

(** [poseidon2_mix] is a permutation: it maps states of reduced words to states of
    reduced words, and every state is the image of exactly one state. *)
Theorem poseidon2_mix_permutation cs : cells_ok cs ->
  cells_ok (poseidon2_mix cs) /\
  exists c, cells_ok c /\ poseidon2_mix c = cs /\ forall c', cells_ok c' -> poseidon2_mix c' = cs -> c' = c.
Proof. intros H. split; [by apply mix_ok|by apply (proj2 bij_mix)]. Qed.

Lemma poseidon2_mix_permutation_witness :
  exists c, poseidon2_mix c = replicate CELLS Elem.ZERO.
Proof.
  destruct (poseidon2_mix_permutation (replicate CELLS Elem.ZERO) zero_cells) as (_ & c & _ & H & _).
  exists c. exact H.
Defined.

(** C35: The hash functions are the unpadded sponge.  On reduced elements the
    incremental hash is the sponge over blocks of 16, the last one padded with zeros, and its
    digest is valid.  On two digests of words, [hash_pair] is the sponge over their
    sixteen words if both are valid; otherwise its assertion fails, which is why
    callers check digests first. *)
Theorem poseidon2_hash_sponge vals a b : Forall reduced vals -> Forall (fits 32) (as_words a ++ as_words b) ->
  let out vals := to_digest (take CELLS_OUT (sponge (length vals) vals (replicate CELLS Elem.ZERO))) in
  hash_elem_slice vals = out vals /\ is_digest_valid (hash_elem_slice vals) = true /\
  (hash_pair a b : outcome unit Digest) =
    if is_digest_valid a && is_digest_valid b then Ok (out (as_words a ++ as_words b)) else Panic.
Proof.
  intros Hv Hu out. unfold hash_elem_slice. split; [unfold out; by rewrite hash_sponge|]. split; [by apply hash_valid|].
  unfold hash_pair, Elem.new_raw. rewrite map_id.
  replace (length _ =? _)%nat with true by reflexivity. cbn [assert_ mbind outcome_bind].
  assert (E : forallb Elem.is_reduced (as_words a ++ as_words b) = is_digest_valid a && is_digest_valid b).
  { apply forallb_app. }
  rewrite E. destruct (is_digest_valid a && is_digest_valid b) eqn:Eab; [|done]. cbn [assert_].
  unfold out. rewrite hash_sponge; [done|]. apply Forall_forall. intros w Hw.
  rewrite forallb_forall in E. pose proof (E w (proj1 (list_elem_of_In _ _) Hw)) as Hr.
  rewrite Forall_forall in Hu. pose proof (Hu w Hw) as Hf. unfold Elem.is_reduced, reduced, fits in *. lia.
Qed.

Lemma poseidon2_hash_sponge_witness :
  (hash_pair Merkle.ZERO (mkDigest MAX32 0 0 0 0 0 0 0) : outcome unit Digest) = Panic.
Proof.
  destruct (poseidon2_hash_sponge [] Merkle.ZERO (mkDigest MAX32 0 0 0 0 0 0 0)) as (_ & _ & H).
  - constructor.
  - cbn. repeat (apply Forall_cons; split); [split; [vm_compute; discriminate|vm_compute; reflexivity]..|constructor].
  - exact H.
Defined.

(** ** The Merkle trees over Poseidon2 *)

#[export] Instance elem_words_ok : ElemWordsOk Z.
Proof.
  refine {| elem_ok := reduced |}; [cbn; lia|done| |].
  - intros e [_ He]. cbn. unfold Elem.is_valid_bit_pattern. by rewrite (proj2 (Z.ltb_lt _ _) He).
  - intros ws e Hws. cbn. destruct ws as [|w [|]]; try done. apply Forall_cons in Hws as [[Hw _] _]. unfold Elem.is_valid_bit_pattern.
    destruct (Z.ltb_spec w P) as [Hb|]; [|done]. intros [= <-]. by split.
Defined.

Lemma words_reduced d : digest_ok d -> Forall reduced (as_words d).
Proof.
  intros [Hu Hv]. unfold digest_words_ok in Hu. change (forallb Elem.is_valid_bit_pattern (as_words d) = true) in Hv. rewrite forallb_forall in Hv.
  apply Forall_forall. intros w Hw. rewrite Forall_forall in Hu. pose proof (Hu w Hw) as Hf.
  pose proof (Hv w (proj1 (list_elem_of_In _ _) Hw)) as Hb.
  unfold Elem.is_valid_bit_pattern, reduced, fits in *. lia.
Qed.

Lemma to_digest_ok vals : Forall reduced vals -> digest_ok (to_digest (unpadded_hash vals)).
Proof.
  intros H. split; [|by apply hash_valid]. rewrite hash_sponge by done.
  destruct (sponge_ok (length vals) vals _ zero_cells H (le_n _)) as [Hl Hr].
  pose proof (Forall_take _ CELLS_OUT _ Hr) as Ht. revert Ht.
  assert (Hl8 : length (take CELLS_OUT (sponge (length vals) vals (replicate CELLS Elem.ZERO))) = 8%nat)
    by (rewrite length_take, Hl; reflexivity).
  revert Hl8. generalize (take CELLS_OUT (sponge (length vals) vals (replicate CELLS Elem.ZERO))). intros es Hes Hr8.
  do 8 (destruct es as [|? es]; [discriminate Hes|]). destruct es; [|discriminate Hes].
  eapply Forall_impl; [exact Hr8|]. apply reduced_u32.
Qed.

Lemma poseidon2_hashes_valid : hashes_valid (E := Z).
Proof.
  split; [|intros es He; by apply to_digest_ok].
  intros a b Ha Hb. pose proof (words_reduced _ Ha) as Ra. pose proof (words_reduced _ Hb) as Rb.
  change (exists d, match @hash_pair unit a b with Ok d => Some d | _ => None end = Some d /\ digest_ok d).
  unfold hash_pair, Elem.new_raw. rewrite map_id. replace (length _ =? _)%nat with true by reflexivity. cbn [assert_ mbind outcome_bind].
  assert (E : forallb Elem.is_reduced (as_words a ++ as_words b) = true).
  { apply forallb_forall. intros w Hw%list_elem_of_In. unfold Elem.is_reduced.
    pose proof (Forall_app_2 _ _ _ Ra Rb) as R. rewrite Forall_forall in R. destruct (R w Hw). by apply Z.ltb_lt. }
  rewrite E. eexists. split; [reflexivity|]. apply to_digest_ok. by apply Forall_app_2.
Qed.

(** A tree of two rows and two columns. *)
Module Witnesses.
Open Scope Z_scope.
Definition start : Poseidon2Rng := rng_new.
Definition matrix : list Z := map Elem.new [1; 2; 3; 4].
Definition column1 : list Z := map Elem.new [2; 4].
Definition the_prover : MerkleTreeProver Z :=
  Eval vm_compute in
  match (prover_new matrix (2 ^ 1) 2 2 : outcome VerificationError _) with
  | Ok p => p | _ => mkProver (mkParams 0 0 0 0) [] [] Merkle.ZERO end.
Definition committed : ReadIOP Poseidon2Rng := mkRead (wproof (prover_commit the_prover (write_new start))) start.
Definition the_verifier : MerkleTreeVerifier :=
  Eval vm_compute in
  match verifier_new (2 ^ 1) 2 2 committed with (Ok v, _) => v | _ => mkVerifier (mkParams 0 0 0 0) [] [] end.
Definition proven : ReadIOP Poseidon2Rng :=
  match (prove the_prover 1 (write_new start) : outcome VerificationError _) with
  | Ok (_, w) => mkRead (wproof w) start
  | _ => mkRead [] start
  end.

Lemma matrix_ok : Forall elem_ok matrix.
Proof. apply forall_reduced. vm_compute. reflexivity. Qed.

Lemma merkle_complete_witness :
  exists p : MerkleTreeProver Z, prover_new matrix (2 ^ 1) 2 2 = (Ok p : outcome VerificationError _) /\
    exists v, verifier_new (2 ^ 1) 2 2 (mkRead (wproof (prover_commit p (write_new start))) start) =
      (Ok v, mkRead [] (wrng (prover_commit p (write_new start)))) /\
      exists w, prove p 1 (write_new start) = (Ok (column1, w) : outcome VerificationError _) /\
        verify v 1 (mkRead (wproof w) start) = (Ok column1, mkRead [] start).
Proof.
  destruct (merkle_complete (R := Poseidon2Rng) 1 2 2 matrix 0) as (p & Ep & Hp);
    [exact poseidon2_hashes_valid|lia|reflexivity|exact matrix_ok|].
  exists p. split; [exact Ep|]. destruct (Hp start []) as (v & Ev & _ & Hv). exists v.
  rewrite app_nil_r in Ev. split; [exact Ev|]. destruct (Hv 1%nat start [] ltac:(cbn; lia)) as (w & Ew & Hw). exists w.
  split; [exact Ew|]. rewrite app_nil_r in Hw. exact Hw.
Defined.

Lemma merkle_binding_witness :
  (1 < 2 ^ 1)%nat /\ (column1 = column matrix (2 ^ 1) 2 1 0 \/
    exists ws ds, length ws = (2 * WORDS)%nat /\ proof proven = ws ++ digest_words ds ++ proof (mkRead [] start) /\
      collision (top_size (v_params the_verifier)) (vnode the_verifier) (node (p_nodes the_prover)) (1 + 2 ^ 1) column1 (column matrix (2 ^ 1) 2 1 0) ds).
Proof.
  apply (merkle_binding 1 2 2 matrix 0 the_prover committed
    (mkRead [] (rng_mix (p_root the_prover) start)) proven (mkRead [] start) the_verifier 1);
    [lia|reflexivity|vm_compute; reflexivity..].
Defined.

Lemma merkle_verifier_total_witness :
  match verify the_verifier 1 (mkRead [] start) with
  | (Err e, _) => e = ReceiptFormatError \/ e = InvalidProof
  | _ => False
  end.
Proof.
  assert (E : verifier_new (2 ^ 1) 2 2 committed = (Ok the_verifier, mkRead [] (rng_mix (p_root the_prover) start)))
    by (vm_compute; reflexivity).
  pose proof (merkle_verifier_total (E := Z) 1 2 2 committed ltac:(lia)) as H. rewrite E in H.
  assert (Hu : Forall u32 (proof committed)) by (eapply Forall_impl; [apply forall_reduced; vm_compute; reflexivity|apply reduced_u32]).
  specialize (H poseidon2_hashes_valid Hu (mkRead [] start) 1%nat (Forall_nil_2 _)).
  assert (Ev : verify the_verifier 1 (mkRead [] start) = (Err ReceiptFormatError, mkRead [] start)) by (vm_compute; reflexivity).
  rewrite Ev in *. exact H.
Defined.
End Witnesses.
