(* ===== verification/ExtField.v ===== *)
(** * The extension field as a ring of Rocq

    The reduced extension elements form a type [F4] of their own, on which the
    operations of the code are those of a field with Leibniz equality, so that the
    [ring] tactic applies to what the transforms and the polynomial routines compute.
    The base field sits in it by [base]. *)
From S2P Require Export BabyBear.
Open Scope Z_scope.

(** [elem] with a check that the kernel evaluates. *)
Record F4 := mkF4 { elem : ExtElem; f4_ok : forallb (fun x => (0 <=? x) && (x <? P)) (Ext.elems elem) = true }.

Lemma ok_ereduced a : forallb (fun x => (0 <=? x) && (x <? P)) (Ext.elems a) = true <-> ereduced a.
Proof.
  rewrite forallb_forall. unfold ereduced. rewrite Forall_forall. unfold reduced.
  setoid_rewrite list_elem_of_In. split; intros H x Hx; specialize (H x Hx); lia.
Qed.

Lemma ereduced_ok a : ereduced a -> forallb (fun x => (0 <=? x) && (x <? P)) (Ext.elems a) = true.
Proof. apply ok_ereduced. Qed.
Lemma elem_ereduced (x : F4) : ereduced (elem x).
Proof. apply ok_ereduced, f4_ok. Qed.
#[export] Hint Resolve elem_ereduced : rep.

Definition f4 (a : ExtElem) (H : ereduced a) : F4 := mkF4 a (ereduced_ok a H).

#[export] Instance elem_inj : Inj (=) (=) elem.
Proof. intros [a Ha] [b Hb]. cbn. intros ->. f_equal. apply (proof_irrel Ha Hb). Qed.

(** The coordinates of an element. *)
Lemma elem_rep (x : F4) : exists p0 p1 p2 p3, erep (elem x) [p0; p1; p2; p3].
Proof. pose proof (erep_self _ (elem_ereduced x)) as H. cbn in H. by repeat eexists. Qed.

Definition lift1 (f : ExtElem -> ExtElem) (H : forall a, ereduced a -> ereduced (f a)) (x : F4) : F4 := f4 (f (elem x)) (H _ (elem_ereduced x)).
Definition lift2 (f : ExtElem -> ExtElem -> ExtElem) (H : forall a b, ereduced a -> ereduced b -> ereduced (f a b)) (x y : F4) : F4 :=
  f4 (f (elem x) (elem y)) (H _ _ (elem_ereduced x) (elem_ereduced y)).

Lemma add_ereduced a b : ereduced a -> ereduced b -> ereduced (Ext.add a b).
Proof. intros Ha%erep_self Hb%erep_self. eapply erep_ereduced, erep_add; eassumption. Qed.
Lemma sub_ereduced a b : ereduced a -> ereduced b -> ereduced (Ext.sub a b).
Proof. intros Ha%erep_self Hb%erep_self. eapply erep_ereduced, erep_sub; eassumption. Qed.
Lemma mul_ereduced a b : ereduced a -> ereduced b -> ereduced (Ext.mul a b).
Proof. intros Ha%erep_self Hb%erep_self. eapply erep_ereduced, erep_mul; eassumption. Qed.
Lemma zero_ereduced : ereduced Ext.zero.
Proof. eapply erep_ereduced, erep_zero. Qed.
Lemma one_ereduced : ereduced Ext.one.
Proof. eapply erep_ereduced, erep_one. Qed.
Lemma neg_ereduced a : ereduced a -> ereduced (Ext.neg a).
Proof. intros Ha. apply sub_ereduced; [apply zero_ereduced|exact Ha]. Qed.
Lemma inv_ereduced a : ereduced a -> ereduced (Ext.inv a).
Proof.
  intros Ha. destruct (decide (Forall (fun x => x mod P = 0) (map decode (Ext.elems a)))) as [H0|H0].
  - assert (a = Ext.zero) as ->; [|apply ok_ereduced; by vm_compute].
    apply (erep_inj _ _ _ _ (erep_self a Ha) erep_zero). destruct a. cbn in *. 
    repeat match goal with H : Forall _ (_ :: _) |- _ => apply Forall_cons in H as [? H] end. repeat constructor; done.
  - destruct (erep_inv_mul a _ (erep_self a Ha)) as (q & Hq & _); [done|]. by eapply erep_ereduced.
Qed.

#[export] Instance F4_ops : FieldOps F4 := {|
  field_mul := {| ONE := f4 Ext.one one_ereduced; fmul := lift2 Ext.mul mul_ereduced |};
  ZERO := f4 Ext.zero zero_ereduced; fadd := lift2 Ext.add add_ereduced; fsub := lift2 Ext.sub sub_ereduced;
  fneg := lift1 Ext.neg neg_ereduced; finv := lift1 Ext.inv inv_ereduced |}.

(** An equation between elements is one between the integer polynomials they represent. *)
Ltac erep_go :=
  lazymatch goal with
  | |- erep (Ext.add _ _) _ => eapply erep_add; erep_go
  | |- erep (Ext.sub _ _) _ => eapply erep_sub; erep_go
  | |- erep (Ext.mul _ _) _ => eapply erep_mul; erep_go
  | |- erep (Ext.neg _) _ => unfold Ext.neg; eapply erep_sub; erep_go
  | |- erep Ext.zero _ => apply erep_zero
  | |- erep Ext.one _ => apply erep_one
  | |- _ => eassumption
  end.
Ltac f4_ring :=
  apply (inj elem); cbn [elem lift1 lift2 f4 fadd fsub fmul fneg ZERO ONE F4_ops field_mul];
  eapply erep_inj; [erep_go|erep_go|];
  unfold poly_mulmod, conv; cbn -[Z.add Z.mul Z.sub]; repeat constructor; apply eqm_ring; ring.

Ltac f4_coords :=
  intros; repeat match goal with x : F4 |- _ =>
    let H := fresh "H" in destruct (elem_rep x) as (? & ? & ? & ? & H); revert H; revert x end; intros.

Lemma F4_ring : ring_theory (R := F4) ZERO ONE fadd fmul fsub fneg eq.
Proof. constructor; f4_coords; f4_ring. Qed.

#[export] Instance F4_eq_dec : EqDecision F4.
Proof. intros x y. destruct (decide (elem x = elem y)) as [E|E]; [left; by apply (inj elem)|right; congruence]. Defined.

#[export] Instance F4_laws : FieldLaws F4.
Proof.
  split; [apply F4_ring| |].
  - intros x Hx. apply (inj elem). destruct (erep_inv_mul _ _ (erep_self _ (elem_ereduced x))) as (q & Hq & Hm).
    + intros H0. apply Hx, (inj elem). apply (erep_inj _ _ _ _ (erep_self _ (elem_ereduced x)) erep_zero).
      cbn in *. rewrite !Forall_cons in H0. destruct H0 as (?&?&?&?&_). repeat constructor; done.
    + cbn. eapply erep_inj; [eapply erep_mul; [apply erep_self, elem_ereduced|exact Hq]|apply erep_one|exact Hm].
  - intros E. assert (E' : elem ONE = elem ZERO) by (by rewrite E). by vm_compute in E'.
Qed.

Declare Scope f4_scope.
Delimit Scope f4_scope with f4.
Infix "+" := (fadd (E := F4)) : f4_scope.
Infix "-" := (fsub (E := F4)) : f4_scope.
Infix "*" := (fmul (E := F4)) : f4_scope.
Notation "- x" := (fneg (E := F4) x) : f4_scope.
Notation "0" := (ZERO (E := F4)) : f4_scope.
Notation "1" := (ONE (E := F4)) : f4_scope.
Bind Scope f4_scope with F4.

Add Ring F4_ring_tac : F4_ring.

Lemma f4_integral (x y : F4) : (x * y = 0 -> x = 0 \/ y = 0)%f4.
Proof.
  intros E. destruct (decide (x = 0%f4)) as [H|H]; [by left|right].
  transitivity (finv x * x * y)%f4; [|transitivity (finv x * (x * y))%f4; [ring|rewrite E; ring]].
  assert (E1 : (finv x * x = 1)%f4) by (transitivity (x * finv x)%f4; [ring|by apply f_inv]). rewrite E1. ring.
Qed.

Lemma f4_cancel (x y z : F4) : x <> 0%f4 -> (x * y = x * z -> y = z)%f4.
Proof.
  intros Hx E. assert (H : (x * (y - z) = 0)%f4) by (transitivity (x * y - x * z)%f4; [ring|rewrite E; ring]).
  apply f4_integral in H as [H|H]; [done|]. transitivity (y - z + z)%f4; [ring|rewrite H; ring].
Qed.

(** Powers, with the exponent as it is counted. *)
Definition fpow (x : F4) (n : nat) : F4 := npow 1%f4 fmul x n.

Lemma fpow_S x n : (fpow x (S n) = x * fpow x n)%f4.
Proof. reflexivity. Qed.
Lemma fpow_add x m n : (fpow x (m + n) = fpow x m * fpow x n)%f4.
Proof. induction m as [|m IH]; cbn [Nat.add]; rewrite ?fpow_S, ?IH; [change (fpow x 0) with 1%f4|]; ring. Qed.
Lemma fpow_mul x m n : fpow x (m * n) = fpow (fpow x m) n.
Proof.
  induction n as [|n IH]; [by rewrite Nat.mul_0_r|]. rewrite Nat.mul_succ_r, fpow_add, IH, fpow_S. ring.
Qed.
Lemma fpow_prod x y n : (fpow (x * y) n = fpow x n * fpow y n)%f4.
Proof. induction n as [|n IH]; [change (fpow ?x 0) with 1%f4|rewrite !fpow_S, IH]; ring. Qed.
Lemma fpow_1 n : fpow 1 n = 1%f4.
Proof. induction n as [|n IH]; [done|]. rewrite fpow_S, IH. ring. Qed.

(** ** What words and code elements stand for *)

(** [erepr a x]: the code's element is [x]; [brepr b x]: the code's base element is [x]. *)
Definition erepr (a : ExtElem) (x : F4) : Prop := a = elem x.
Definition brepr (b : Z) (x : F4) : Prop := reduced b /\ elem x = Ext.from_subfield b.

Lemma from_subfield_rep b v : rep b v -> erep (Ext.from_subfield b) [v; 0; 0; 0].
Proof. intros H. apply erep_intro; cbn; auto with rep; apply rep_new; unfold fits; lia. Qed.

Lemma brepr_rep b x : brepr b x <-> exists v, rep b v /\ erep (elem x) [v; 0; 0; 0].
Proof.
  split.
  - intros [Hb E]. exists (decode b). split; [by apply rep_self|]. rewrite E. by apply from_subfield_rep, rep_self.
  - intros (v & Hb & Hx). split; [by eapply rep_reduced|].
    eapply erep_inj; [exact Hx|by apply from_subfield_rep|]. by repeat constructor.
Qed.

(** The element of the base field that a word stands for. *)
Lemma brepr_exists b : reduced b -> exists x, brepr b x.
Proof.
  intros Hb. unshelve eexists (f4 (Ext.from_subfield b) _); [|by split].
  eapply erep_ereduced, from_subfield_rep, rep_self, Hb.
Qed.

Lemma brepr_inj a b x : brepr a x -> brepr b x -> a = b.
Proof. intros [_ Ea] [_ Eb]. rewrite Ea in Eb. by injection Eb. Qed.
Lemma brepr_fun b x y : brepr b x -> brepr b y -> x = y.
Proof. intros [_ Ea] [_ Eb]. apply (inj elem). congruence. Qed.

Ltac brepr_op lem f4lem :=
  intros (v & Ha & Hx)%brepr_rep (w & Hb & Hy)%brepr_rep; apply brepr_rep;
  eexists; split; [by eapply lem|]; cbn; eapply erep_eqm; [by eapply f4lem|];
  unfold poly_mulmod, conv; cbn -[Z.add Z.mul Z.sub]; repeat constructor; apply eqm_ring; ring.
Lemma brepr_add a b x y : brepr a x -> brepr b y -> brepr (Elem.add a b) (x + y)%f4.
Proof. brepr_op rep_add erep_add. Qed.
Lemma brepr_sub a b x y : brepr a x -> brepr b y -> brepr (Elem.sub a b) (x - y)%f4.
Proof. brepr_op rep_sub erep_sub. Qed.
Lemma brepr_mul a b x y : brepr a x -> brepr b y -> brepr (Elem.mul a b) (x * y)%f4.
Proof. brepr_op rep_mul erep_mul. Qed.

Lemma erepr_scale a b x y : erepr a x -> brepr b y -> erepr (Ext.mul_elem a b) (x * y)%f4.
Proof.
  intros -> (v & Hb & Hy)%brepr_rep. unfold erepr. cbn [elem fmul F4_ops field_mul lift2 f4].
  destruct (elem_rep x) as (p0&p1&p2&p3&Hx).
  eapply erep_inj; [|by eapply erep_mul|reflexivity].
  apply erep_inv in Hx as (?&?&?&?&[= -> -> -> ->]&?&?&?&?). unfold poly_mulmod, conv. cbn -[Z.add Z.mul Z.sub].
  apply erep_intro; cbn [e0 e1 e2 e3 Ext.mul_elem]; rep_ring.
Qed.

Lemma brepr_one : brepr Elem.ONE 1%f4.
Proof.
  apply brepr_rep. exists 1. split; [apply rep_one|]. apply erep_one.
Qed.
Lemma brepr_zero : brepr Elem.ZERO 0%f4.
Proof. apply brepr_rep. exists 0. split; [apply rep_new; unfold fits; lia|apply erep_zero]. Qed.
Lemma brepr_neg a x : brepr a x -> brepr (Elem.neg a) (- x)%f4.
Proof.
  intros (v & Ha & Hx)%brepr_rep. apply brepr_rep. exists (- v). split; [by apply rep_neg|].
  cbn [elem fneg F4_ops lift1 f4]. unfold Ext.neg. eapply erep_eqm; [eapply erep_sub; [apply erep_zero|exact Hx]|].
  repeat constructor; apply eqm_ring; ring.
Qed.

Lemma brepr_pow a x n : brepr a x -> u64 n -> brepr (pow a n) (fpow x (Z.to_nat n)).
Proof.
  intros Ha Hn. apply (pow_rep (1%f4) (fmul (E := F4))) with (rep := brepr);
    first [done | apply brepr_one | intros; by apply brepr_mul | intros; ring].
Qed.

(** The element that a natural number names. *)
Lemma scalar_ereduced (x : Z) : ereduced (Ext.from_subfield (Elem.new (x mod P))).
Proof. eapply erep_ereduced, from_subfield_rep, rep_new, reduced_u32, mod_reduced. Qed.
Definition scalar (x : Z) : F4 := f4 _ (scalar_ereduced x).

Lemma brepr_scalar a x : rep a x -> brepr a (scalar x).
Proof.
  intros Ha. apply brepr_rep. exists x. split; [done|]. apply from_subfield_rep.
  eapply rep_eqm; [apply rep_new, reduced_u32, mod_reduced|apply eqm_mod].
Qed.

Lemma erepr_exists a : ereduced a -> exists x, erepr a x.
Proof. intros Ha. by exists (f4 a Ha). Qed.
Lemma erepr_inj a b x : erepr a x -> erepr b x -> a = b.
Proof. by intros -> ->. Qed.
Lemma erepr_ereduced a x : erepr a x -> ereduced a.
Proof. intros ->. apply elem_ereduced. Qed.
Lemma erepr_add a b x y : erepr a x -> erepr b y -> erepr (Ext.add a b) (x + y)%f4.
Proof. by intros -> ->. Qed.
Lemma erepr_sub a b x y : erepr a x -> erepr b y -> erepr (Ext.sub a b) (x - y)%f4.
Proof. by intros -> ->. Qed.
Lemma erepr_mul a b x y : erepr a x -> erepr b y -> erepr (Ext.mul a b) (x * y)%f4.
Proof. by intros -> ->. Qed.

#[export] Hint Resolve brepr_add brepr_sub brepr_mul brepr_one brepr_zero brepr_neg brepr_scalar : brepr.

Lemma rep_scalar x : rep (Elem.new (x mod P)) x.
Proof. eapply rep_eqm; [apply rep_new, reduced_u32, mod_reduced|apply eqm_mod]. Qed.

Lemma scalar_mul x y : (scalar x * scalar y = scalar (x * y))%f4.
Proof.
  eapply brepr_fun; [apply brepr_mul; apply brepr_scalar, rep_scalar|]. apply brepr_scalar, rep_mul; apply rep_scalar.
Qed.
Lemma scalar_add x y : (scalar x + scalar y = scalar (x + y))%f4.
Proof.
  eapply brepr_fun; [apply brepr_add; apply brepr_scalar, rep_scalar|]. apply brepr_scalar, rep_add; apply rep_scalar.
Qed.
Lemma scalar_one : scalar 1 = 1%f4.
Proof. eapply brepr_fun; [|apply brepr_one]. apply brepr_scalar, rep_one. Qed.
Lemma scalar_eqm x y : x ≡P y -> scalar x = scalar y.
Proof. intros E. eapply brepr_fun; apply brepr_scalar; [apply rep_scalar|]. eapply rep_eqm; [apply rep_scalar|done]. Qed.
