(* ===== verification/Ntt.v ===== *)
(** * The number-theoretic transform and polynomials

    The in-place butterflies that evaluate and interpolate polynomials over the powers
    of a root of unity, in bit-reversed order on one side, and the evaluation, division
    and interpolation of polynomials by their coefficients.  The transform is generic:
    [B] is the base field with its tables of roots, [T] a vector space over it. *)
From S2P Require Export BabyBear Merkle.
Export Merkle(log2_ceil, shl1).
Open Scope word_scope.
Open Scope Z_scope.

(** What the transform asks of the base field. *)
(* src/risc0/risc0/core/src/field/mod.rs:231-246 RootsOfUnity *)
Class RootsOfUnity (B : Type) := {
  base_field :: FieldOps B;
  from_u64 : Z -> B;
  ROU_FWD : list B;
  ROU_REV : list B }.

(** [T : Copy + Mul<B, Output = T> + Add<Output = T> + Sub<Output = T>]. *)
Class Vector (B T : Type) := {
  vmul : T -> B -> T;
  vadd : T -> T -> T;
  vsub : T -> T -> T }.

#[export] Instance elem_rou : RootsOfUnity Z := {|
  base_field := Elem.ops; from_u64 := Elem.from_u64; ROU_FWD := Elem.ROU_FWD; ROU_REV := Elem.ROU_REV |}.
#[export] Instance elem_vector : Vector Z Z := {| vmul := Elem.mul; vadd := Elem.add; vsub := Elem.sub |}.
#[export] Instance ext_vector : Vector Z ExtElem := {| vmul := Ext.mul_elem; vadd := Ext.add; vsub := Ext.sub |}.

Module Ntt.

(* source: src/risc0/risc0/zkp/src/core/ntt.rs *)

Definition rotate_left32 (x n : Z) : Z := (x .<< n) .| (x .>> (32 - n)).

(* L35-46 bit_rev_32 *)
Definition bit_rev_32 (x : Z) : Z :=
  let x := ((x .& 0xaaaaaaaa) .>> 1) .| ((x .& 0x55555555) .<< 1) in
  let x := ((x .& 0xcccccccc) .>> 2) .| ((x .& 0x33333333) .<< 2) in
  let x := ((x .& 0xf0f0f0f0) .>> 4) .| ((x .& 0x0f0f0f0f) .<< 4) in
  let x := ((x .& 0xff00ff00) .>> 8) .| ((x .& 0x00ff00ff) .<< 8) in
  rotate_left32 x 16.

Section Transforms.
Context {Er : Type}.
Abbreviation O_ := (outcome Er).

(** [slice::swap]. *)
Definition swap {T} (io : list T) (i j : nat) : O_ (list T) :=
  a ← unwrap (io !! i);
  b ← unwrap (io !! j);
  Ok (<[j := a]> (<[i := b]> io)).

(** The shift of a word takes its amount modulo 32. *)
Definition rev_index (n : Z) (i : nat) : nat := Z.to_nat (bit_rev_32 (wrap 32 (Z.of_nat i)) .>> ((32 - n) mod 32)).

Fixpoint reverse_loop {T} (n : Z) (is_ : list nat) (io : list T) : O_ (list T) :=
  match is_ with
  | [] => Ok io
  | i :: is_ =>
      let rev_idx := rev_index n i in
      io ← (if (i <? rev_idx)%nat then swap io i rev_idx else Ok io);
      reverse_loop n is_ io
  end.

(* L65-74 bit_reverse *)
Definition bit_reverse {T} (io : list T) : O_ (list T) :=
  let n := log2_ceil (Z.of_nat (length io)) in
  _ ← assert_ (shl1 n =? Z.of_nat (length io));
  reverse_loop n (seq 0 (length io)) io.

Context {B T : Type} `{RootsOfUnity B, Vector B T}.

(** The loop over the pairs of the two halves, with the running power of the root. *)
Fixpoint pair_loop (op : T -> T -> B -> T * T) (is_ : list nat) (half : nat) (step cur : B) (io : list T) : O_ (list T) :=
  match is_ with
  | [] => Ok io
  | i :: is_ =>
      a ← unwrap (io !! i);
      b ← unwrap (io !! (i + half)%nat);
      let '(lo, hi) := op a b cur in
      pair_loop op is_ half step (fmul cur step) (<[(i + half)%nat := hi]> (<[i := lo]> io))
  end.

(* L107-110 fwd_butterfly, the body of the loop *)
Definition fwd_pair (a b : T) (cur : B) : T * T := let b := vmul b cur in (vadd a b, vsub a b).
(* L126-129 rev_butterfly, the body of the loop *)
Definition rev_pair (a b : T) (cur : B) : T * T := (vadd a b, vmul (vsub a b) cur).

(** One function for the 33 that the macro writes; the halves are slices of [io]. *)
(* L91-113 fwd_butterfly *)
Fixpoint fwd_butterfly (n : nat) (io : list T) (expand_bits : nat) : O_ (list T) :=
  match n with
  | O => Ok io
  | S x =>
      if (n =? expand_bits)%nat then Ok io else
      let half := (2 ^ x)%nat in
      lo ← fwd_butterfly x (take half io) expand_bits;
      hi ← fwd_butterfly x (drop half io) expand_bits;
      step ← unwrap (ROU_FWD !! n);
      pair_loop fwd_pair (seq 0 half) half step ONE (lo ++ hi)
  end.

(* L115-135 rev_butterfly *)
Fixpoint rev_butterfly (n : nat) (io : list T) : O_ (list T) :=
  match n with
  | O => Ok io
  | S x =>
      let half := (2 ^ x)%nat in
      step ← unwrap (ROU_REV !! n);
      io ← pair_loop rev_pair (seq 0 half) half step ONE io;
      lo ← rev_butterfly x (take half io);
      hi ← rev_butterfly x (drop half io);
      Ok (lo ++ hi)
  end.

(* L233-282 interpolate_ntt *)
Definition interpolate_ntt (io : list T) : O_ (list T) :=
  let size := Z.of_nat (length io) in
  let n := log2_ceil size in
  _ ← assert_ (shl1 n =? size);
  _ ← assert_ (n <=? 32);
  io ← rev_butterfly (Z.to_nat n) io;
  let norm := finv (from_u64 size) in
  Ok (map (fun x => vmul x norm) io).

(* L285-331 evaluate_ntt *)
Definition evaluate_ntt (io : list T) (expand_bits : nat) : O_ (list T) :=
  let size := Z.of_nat (length io) in
  let n := log2_ceil size in
  _ ← assert_ (shl1 n =? size);
  _ ← assert_ (n <=? 32);
  fwd_butterfly (Z.to_nat n) io expand_bits.

(** [output] is the caller's buffer. *)
Fixpoint expand_loop (is_ : list nat) (expand_bits : nat) (output input : list T) : O_ (list T) :=
  match is_ with
  | [] => Ok output
  | i :: is_ =>
      x ← unwrap (input !! Nat.shiftr i (expand_bits mod 64));
      _ ← assert_ (i <? length output)%nat;
      expand_loop is_ expand_bits (<[i := x]> output) input
  end.
(* L335-343 expand *)
Definition expand (output input : list T) (expand_bits : nat) : O_ (list T) :=
  let size_out := Z.to_nat (mul64 (Z.of_nat (length input)) (shl1 (Z.of_nat expand_bits))) in
  expand_loop (seq 0 size_out) expand_bits output input.

End Transforms.
End Ntt.

Module Poly.

(* source: src/risc0/risc0/zkp/src/core/poly.rs *)

Section Polynomials.
Context {Er E : Type} `{FieldOps E}.
Abbreviation O_ := (outcome Er).
#[local] Infix "+'" := fadd (at level 50, left associativity).
#[local] Infix "-'" := fsub (at level 50, left associativity).
#[local] Infix "*'" := fmul (at level 40, left associativity).

Fixpoint eval_loop (coeffs : list E) (x mul tot : E) : E :=
  match coeffs with
  | [] => tot
  | coeff :: coeffs => eval_loop coeffs x (mul *' x) (tot +' coeff *' mul)
  end.
(* L24-32 poly_eval *)
Definition poly_eval (coeffs : list E) (x : E) : E := eval_loop coeffs x ONE ZERO.

(** The loop runs down the indices; [p] holds what is written. *)
Fixpoint divide_loop (is_ : list nat) (z cur : E) (p : list E) : list E * E :=
  match is_ with
  | [] => (p, cur)
  | i :: is_ =>
      let next := z *' cur +' default ZERO (p !! i) in
      divide_loop is_ z next (<[i := cur]> p)
  end.
(* L82-90 poly_divide *)
Definition poly_divide (p : list E) (z : E) : list E * E := divide_loop (rev (seq 0 (length p))) z ZERO p.

Fixpoint mul_root_loop (js : list nat) (x : E) (ft : list E) : O_ (list E) :=
  match js with
  | [] => Ok ft
  | j :: js =>
      value ← unwrap (ft !! j);
      next ← unwrap (ft !! S j);
      let ft := <[S j := next +' value]> ft in
      mul_root_loop js x (<[j := value *' fneg x]> ft)
  end.
Fixpoint product_loop (i : nat) (xs : list E) (ft : list E) : O_ (list E) :=
  match xs with
  | [] => Ok ft
  | x :: xs => ft ← mul_root_loop (rev (seq 0 (i + 1))) x ft; product_loop (S i) xs ft
  end.

Fixpoint add_loop (js : list nat) (mul : E) (fr out : list E) : O_ (list E) :=
  match js with
  | [] => Ok out
  | j :: js =>
      o ← unwrap (out !! j);
      f ← unwrap (fr !! j);
      add_loop js mul fr (<[j := o +' mul *' f]> out)
  end.
Fixpoint interpolate_loop (is_ : list nat) (size : nat) (ft x fx out : list E) : O_ (list E) :=
  match is_ with
  | [] => Ok out
  | i :: is_ =>
      xi ← unwrap (x !! i);
      let fr := fst (poly_divide ft xi) in
      let fr_xi := poly_eval fr xi in
      fxi ← unwrap (fx !! i);
      let mul := fxi *' finv fr_xi in
      out ← add_loop (seq 0 size) mul fr out;
      interpolate_loop is_ size ft x fx out
  end.

(* L38-76 poly_interpolate *)
Definition poly_interpolate (out x fx : list E) (size : nat) : O_ (list E) :=
  if (size =? 1)%nat then
    fx0 ← unwrap (fx !! O);
    _ ← assert_ (0 <? length out)%nat;
    Ok (<[O := fx0]> out)
  else if (size =? 2)%nat then
    fx0 ← unwrap (fx !! O); fx1 ← unwrap (fx !! 1%nat);
    x0 ← unwrap (x !! O); x1 ← unwrap (x !! 1%nat);
    _ ← assert_ (1 <? length out)%nat;
    let out1 := (fx1 -' fx0) *' finv (x1 -' x0) in
    Ok (<[O := fx0 -' out1 *' x0]> (<[1%nat := out1]> out))
  else
    let ft := <[O := ONE]> (replicate (size + 1) ZERO) in
    ft ← product_loop 0 (take size x) ft;
    let out := map (fun _ => ZERO) out in
    interpolate_loop (seq 0 size) size ft x fx out.

End Polynomials.
End Poly.
