(* ===== verification/NttSpec.v ===== *)
(** * The transform evaluates and interpolates polynomials

    Over [F4]: [beval] evaluates the polynomial whose coefficients are stored in
    bit-reversed order.  The forward butterflies compute its values at the powers of a
    root of unity, the reverse ones invert that up to a power of two, and [bit_reverse]
    brings the coefficients to their natural order.  What the code computes is related
    to this by [vec], entry by entry. *)
From S2P Require Export Ntt ExtField.
Import Ntt.
Open Scope Z_scope.

(** ** Evaluation from bit-reversed coefficients *)

Section Algebra.
Open Scope f4_scope.

Fixpoint beval (n : nat) (f : nat -> F4) (x : F4) : F4 :=
  match n with
  | O => f O
  | S n => beval n f (x * x) + x * beval n (fun i => f (2 ^ n + i)%nat) (x * x)
  end.

Lemma beval_ext n : forall f g x, (forall i, (i < 2 ^ n)%nat -> f i = g i) -> beval n f x = beval n g x.
Proof.
  induction n as [|n IH]; intros f g x H; cbn [beval]; [apply H, Nat.lt_0_1|].
  rewrite Nat.pow_succ_r' in H. f_equal; [|f_equal]; apply IH; intros; apply H; lia.
Qed.

Lemma beval_scale n : forall f x c, beval n (fun i => c * f i) x = c * beval n f x.
Proof. induction n as [|n IH]; intros; cbn [beval]; [done|]. rewrite !IH. ring. Qed.

(** Roots of unity with their inverses, level by level. *)
Context (root iroot : nat -> F4).
Definition rooted (n : nat) : Prop :=
  root 0 = 1 /\ forall i, (i < n)%nat -> root (S i) * root (S i) = root i /\ fpow (root (S i)) (2 ^ i) = - (1) /\ root (S i) * iroot (S i) = 1.

Lemma rooted_le m n : (m <= n)%nat -> rooted n -> rooted m.
Proof. intros Hm [H0 H]. split; [done|]. intros. apply H. lia. Qed.

Lemma root_period n i : rooted n -> (i <= n)%nat -> fpow (root i) (2 ^ i) = 1.
Proof.
  intros [H0 H] Hi. destruct i as [|i]; [rewrite H0; apply fpow_1|].
  destruct (H i Hi) as (_ & E & _). rewrite Nat.pow_succ_r', Nat.mul_comm, fpow_mul, E. transitivity (- (1) * (- (1) * 1)); [done|ring].
Qed.

Lemma iroot_pow n i j : rooted n -> (i < n)%nat -> fpow (root (S i)) j * fpow (iroot (S i)) j = 1.
Proof. intros [_ H] Hi. rewrite <- fpow_prod. destruct (H i Hi) as (_ & _ & ->). apply fpow_1. Qed.

Lemma root_sq n i j : rooted n -> (i < n)%nat -> fpow (root (S i)) j * fpow (root (S i)) j = fpow (root i) j.
Proof. intros [_ H] Hi. rewrite <- fpow_prod. by destruct (H i Hi) as (-> & _). Qed.

(** The two halves of a forward step. *)
Lemma beval_low m n i f : rooted (S n) ->
  beval (S m) f (fpow (root (S n)) i) =
    beval m f (fpow (root n) i) + fpow (root (S n)) i * beval m (fun j => f (2 ^ m + j)%nat) (fpow (root n) i).
Proof. intros H. cbn [beval]. by rewrite (root_sq (S n)) by (done || lia). Qed.

Lemma beval_high m n i f : rooted (S n) ->
  beval (S m) f (fpow (root (S n)) (2 ^ n + i)) =
    beval m f (fpow (root n) i) - fpow (root (S n)) i * beval m (fun j => f (2 ^ m + j)%nat) (fpow (root n) i).
Proof.
  intros H. rewrite beval_low by done. rewrite !fpow_add, (root_period (S n) n) by (done || lia).
  destruct H as [_ H]. destruct (H n ltac:(lia)) as (_ & -> & _).
  replace (1 * fpow (root n) i) with (fpow (root n) i) by ring. ring.
Qed.

(** The reverse transform, before its normalisation. *)
Fixpoint rval (n : nat) (f : nat -> F4) (i : nat) : F4 :=
  match n with
  | O => f i
  | S n =>
      if (i <? 2 ^ n)%nat then rval n (fun j => f j + f (2 ^ n + j)%nat) i
      else rval n (fun j => (f j - f (2 ^ n + j)%nat) * fpow (iroot (S n)) j) (i - 2 ^ n)
  end.

Lemma rval_ext n : forall f g i, (forall i, (i < 2 ^ n)%nat -> f i = g i) -> (i < 2 ^ n)%nat -> rval n f i = rval n g i.
Proof.
  induction n as [|n IH]; intros f g i H Hi; cbn [rval]; [by apply H|]. rewrite Nat.pow_succ_r' in H, Hi.
  case_match; [|apply Nat.ltb_ge in H0]; apply IH; try lia; [|rewrite ?Nat.ltb_lt in *; lia|];
    intros j Hj; rewrite !H by lia; done.
Qed.

Lemma rval_scale n : forall f c i, rval n (fun j => c * f j) i = c * rval n f i.
Proof.
  assert (Hx : forall n f g i, (forall i, f i = g i) -> rval n f i = rval n g i).
  { clear n. induction n as [|n IH]; intros f g i H; cbn [rval]; [done|]. case_match; apply IH; intros; by rewrite !H. }
  induction n as [|n IH]; intros; cbn [rval]; [done|].
  case_match; rewrite <- IH; apply Hx; intros; ring.
Qed.

Definition two (n : nat) : F4 := fpow (1 + 1) n.

(** Each transform inverts the other up to the factor [2 ^ n]. *)
Lemma beval_rval n : rooted n -> forall f i, (i < 2 ^ n)%nat -> beval n (rval n f) (fpow (root n) i) = two n * f i.
Proof.
  induction n as [|n IH]; intros Hr f i Hi.
  { cbn in Hi. assert (i = 0)%nat as -> by lia. cbn [beval rval]. change (two 0) with 1. ring. }
  specialize (IH (rooted_le n (S n) ltac:(lia) Hr)). rewrite Nat.pow_succ_r' in Hi.
  assert (Hlo : forall j, (j < 2 ^ n)%nat -> rval (S n) f j = rval n (fun j => f j + f (2 ^ n + j)%nat) j).
  { intros j Hj. cbn [rval]. by rewrite (proj2 (Nat.ltb_lt _ _) Hj). }
  assert (Hhi : forall j, (j < 2 ^ n)%nat -> rval (S n) f (2 ^ n + j)%nat = rval n (fun j => (f j - f (2 ^ n + j)%nat) * fpow (iroot (S n)) j) j).
  { intros j Hj. cbn [rval]. rewrite (proj2 (Nat.ltb_ge _ _)) by lia. f_equal. lia. }
  assert (Hinv : forall j, fpow (root (S n)) j * fpow (iroot (S n)) j = 1) by (intros; apply (iroot_pow (S n)); [done|lia]).
  assert (Hcase : exists j, (j < 2 ^ n)%nat /\ (i = j \/ i = 2 ^ n + j)%nat).
  { destruct (decide (i < 2 ^ n)%nat); [by exists i; auto|]. exists (i - 2 ^ n)%nat. lia. }
  destruct Hcase as (j & Hj & [-> | ->]); rewrite ?beval_high, ?beval_low by done;
    rewrite (beval_ext n _ _ _ Hlo), (beval_ext n _ _ _ Hhi), !IH by done;
    unfold two; rewrite fpow_S; specialize (Hinv j).
  - transitivity (fpow (1 + 1) n * (f j + f (2 ^ n + j)%nat + (f j - f (2 ^ n + j)%nat) * (fpow (root (S n)) j * fpow (iroot (S n)) j))); [ring|].
    rewrite Hinv. ring.
  - transitivity (fpow (1 + 1) n * (f j + f (2 ^ n + j)%nat - (f j - f (2 ^ n + j)%nat) * (fpow (root (S n)) j * fpow (iroot (S n)) j))); [ring|].
    rewrite Hinv. ring.
Qed.

Lemma rval_beval n : rooted n -> forall f i, (i < 2 ^ n)%nat -> rval n (fun j => beval n f (fpow (root n) j)) i = two n * f i.
Proof.
  induction n as [|n IH]; intros Hr f i Hi.
  { cbn in Hi. assert (i = 0)%nat as -> by lia. cbn [beval rval]. change (two 0) with 1. ring. }
  specialize (IH (rooted_le n (S n) ltac:(lia) Hr)). rewrite Nat.pow_succ_r' in Hi.
  assert (Hinv : forall j, fpow (root (S n)) j * fpow (iroot (S n)) j = 1) by (intros; apply (iroot_pow (S n)); [done|lia]).
  unfold two. rewrite fpow_S. cbn [rval]. destruct (Nat.ltb_spec i (2 ^ n)) as [Hlt|Hge].
  - rewrite (rval_ext n _ (fun j => (1 + 1) * beval n f (fpow (root n) j))).
    + rewrite rval_scale, IH by done. unfold two. ring.
    + intros j Hj. rewrite beval_low, beval_high by done. ring.
    + done.
  - rewrite (rval_ext n _ (fun j => (1 + 1) * beval n (fun j => f (2 ^ n + j)%nat) (fpow (root n) j))).
    + rewrite rval_scale, IH by lia. unfold two. replace (2 ^ n + (i - 2 ^ n))%nat with i by lia. ring.
    + intros j Hj. rewrite beval_low, beval_high by done. specialize (Hinv j).
      transitivity ((1 + 1) * beval n (fun j0 => f (2 ^ n + j0)%nat) (fpow (root n) j) * (fpow (root (S n)) j * fpow (iroot (S n)) j)); [ring|].
      rewrite Hinv. ring.
    + lia.
Qed.
End Algebra.

(** ** Bit reversal *)

Fixpoint brev (n i : nat) : nat :=
  match n with
  | O => O
  | S n => (i mod 2 * 2 ^ n + brev n (i / 2))%nat
  end.

Lemma brev_lt n : forall i, (brev n i < 2 ^ n)%nat.
Proof.
  induction n as [|n IH]; intros i; cbn [brev]; [cbn; lia|]. specialize (IH (i / 2)%nat).
  pose proof (Nat.mod_upper_bound i 2 ltac:(lia)). rewrite Nat.pow_succ_r'. nia.
Qed.

Lemma brev_testbit n : forall i k, Nat.testbit (brev n i) k = (k <? n)%nat && Nat.testbit i (n - 1 - k).
Proof.
  induction n as [|n IH]; intros i k; cbn [brev]; [apply Nat.bits_0|].
  pose proof (brev_lt n (i / 2)) as Hlt. set (x := (i mod 2 * 2 ^ n + brev n (i / 2))%nat).
  assert (Hm : (x mod 2 ^ n = brev n (i / 2))%nat).
  { unfold x. rewrite Nat.add_comm, Nat.Div0.mod_add. by apply Nat.mod_small. }
  assert (Hd : (x / 2 ^ n = i mod 2)%nat).
  { unfold x. rewrite Nat.div_add_l by (apply Nat.pow_nonzero; lia). rewrite Nat.div_small by done. lia. }
  destruct (Nat.ltb_spec k (S n)) as [Hk|Hk]; cbn [andb].
  - destruct (decide (k = n)) as [->|Hne].
    + replace n with (0 + n)%nat at 1 by lia. rewrite <- Nat.div_pow2_bits, Hd.
      replace (S n - 1 - n)%nat with O by lia. rewrite !Nat.bit0_eqb. by rewrite Nat.Div0.mod_mod.
    + rewrite <- (Nat.mod_pow2_bits_low x n k) by lia. rewrite Hm, IH, (proj2 (Nat.ltb_lt _ _)) by lia.
      cbn [andb]. rewrite Nat.div2_bits. f_equal. lia.
  - replace k with (k - n + n)%nat by lia. rewrite <- Nat.div_pow2_bits, Hd.
    apply Nat.bits_above_log2. destruct (i mod 2)%nat as [|[|?]] eqn:E; cbn; [lia..|].
    pose proof (Nat.mod_upper_bound i 2 ltac:(lia)). lia.
Qed.

Lemma brev_involutive n i : (i < 2 ^ n)%nat -> brev n (brev n i) = i.
Proof.
  intros Hi. apply Nat.bits_inj. intros k. rewrite !brev_testbit.
  destruct (Nat.ltb_spec k n); cbn [andb].
  - rewrite (proj2 (Nat.ltb_lt _ _)) by lia. cbn [andb]. f_equal. lia.
  - symmetry. rewrite <- (Nat.mod_small i (2 ^ n)) by done. by rewrite Nat.mod_pow2_bits_high by lia.
Qed.

Lemma testbit_of_nat a k : Z.testbit (Z.of_nat a) (Z.of_nat k) = Nat.testbit a k.
Proof.
  rewrite Nat.testbit_eqb, Z.testbit_eqb by lia. change 2 with (Z.of_nat 2) at 1 2.
  rewrite <- Nat2Z.inj_pow, <- Nat2Z.inj_div, <- Nat2Z.inj_mod.
  destruct (Nat.eqb_spec ((a / 2 ^ k) mod 2) 1) as [->|Hne]; [done|]. apply Z.eqb_neq. lia.
Qed.

(** One exchange of neighbouring groups of [s] bits. *)
Definition exchanges (s hi lo i : Z) : bool :=
  if Z.testbit hi (i + s) then (i + s =? Z.lxor i s) && negb (Z.testbit lo (i - s))
  else (i - s =? Z.lxor i s) && Z.testbit lo (i - s).

Lemma exchange_testbit s hi lo x i : forallb (exchanges s hi lo) (seqZ 0 32) = true -> 0 <= s -> 0 <= i < 32 ->
  Z.testbit (Z.lor (Z.shiftr (Z.land x hi) s) (shl32 (Z.land x lo) s)) i = Z.testbit x (Z.lxor i s).
Proof.
  intros Hc Hs Hi. rewrite forallb_forall in Hc. specialize (Hc i ltac:(apply list_elem_of_In, elem_of_seqZ; lia)).
  unfold exchanges in Hc. unfold shl32.
  rewrite Z.lor_spec, Z.shiftr_spec, wrap_testbit, Z.shiftl_spec, !Z.land_spec by lia.
  rewrite (proj2 (Z.ltb_lt _ _)) by lia. destruct (Z.testbit hi (i + s)).
  - apply andb_prop in Hc as [->%Z.eqb_eq ->%negb_true_iff]. by rewrite !andb_false_r, andb_true_r, orb_false_r.
  - apply andb_prop in Hc as [->%Z.eqb_eq ->]. by rewrite andb_false_r, !andb_true_r.
Qed.

Lemma exchange_u32 s hi lo x : 0 <= s -> u32 hi -> 0 <= x -> u32 (Z.lor (Z.shiftr (Z.land x hi) s) (shl32 (Z.land x lo) s)).
Proof.
  intros Hs Hh Hx. apply fits_lor; [lia| |apply wrap_fits; lia]. apply fits_shiftr; [lia..|].
  rewrite Z.land_comm. apply fits_land; [lia|done|done].
Qed.

Lemma rotate_testbit x i : u32 x -> 0 <= i < 32 -> Z.testbit (rotate_left32 x 16) i = Z.testbit x (Z.lxor i 16).
Proof.
  intros Hx Hi. unfold rotate_left32, shl32. change (32 - 16) with 16.
  rewrite Z.lor_spec, Z.shiftr_spec, wrap_testbit, Z.shiftl_spec by lia. rewrite (proj2 (Z.ltb_lt i 32)) by lia.
  assert (Hl : forallb (fun i => Z.lxor i 16 =? if i <? 16 then i + 16 else i - 16) (seqZ 0 32) = true) by reflexivity.
  rewrite forallb_forall in Hl. specialize (Hl i ltac:(apply list_elem_of_In, elem_of_seqZ; lia)). apply Z.eqb_eq in Hl. rewrite Hl.
  destruct (Z.ltb_spec i 16).
  - rewrite (Z.testbit_neg_r _ (i - 16)) by lia. done.
  - rewrite (fits_testbit_high 32 x (i + 16)) by (done || lia). apply orb_false_r.
Qed.

Lemma bit_rev_groups_u32 x : 0 <= x ->
  u32 (let x := ((x .& 0xaaaaaaaa) .>> 1) .| ((x .& 0x55555555) .<< 1) in
       let x := ((x .& 0xcccccccc) .>> 2) .| ((x .& 0x33333333) .<< 2) in
       let x := ((x .& 0xf0f0f0f0) .>> 4) .| ((x .& 0x0f0f0f0f) .<< 4) in
       ((x .& 0xff00ff00) .>> 8) .| ((x .& 0x00ff00ff) .<< 8))%word.
Proof.
  intros Hx. cbv zeta. apply exchange_u32; [lia|unfold fits; lia|].
  do 2 (eapply exchange_u32; [lia|unfold fits; lia|]). eapply exchange_u32; [lia|unfold fits; lia|done].
Qed.

Lemma bit_rev_32_u32 x : 0 <= x -> u32 (bit_rev_32 x).
Proof.
  intros Hx%bit_rev_groups_u32. unfold bit_rev_32, rotate_left32. cbv zeta in *.
  apply fits_lor; [lia|apply wrap_fits; lia|]. apply fits_shiftr; [lia..|exact Hx].
Qed.

Lemma bit_rev_32_testbit x i : 0 <= x -> 0 <= i < 32 -> Z.testbit (bit_rev_32 x) i = Z.testbit x (31 - i).
Proof.
  intros Hx Hi. assert (Hl : forallb (fun i => (Z.lxor (Z.lxor (Z.lxor (Z.lxor (Z.lxor i 16) 8) 4) 2) 1 =? 31 - i) &&
    forallb (fun j => (0 <=? j) && (j <? 32)) [Z.lxor i 16; Z.lxor (Z.lxor i 16) 8; Z.lxor (Z.lxor (Z.lxor i 16) 8) 4; Z.lxor (Z.lxor (Z.lxor (Z.lxor i 16) 8) 4) 2]) (seqZ 0 32) = true) by reflexivity.
  rewrite forallb_forall in Hl. specialize (Hl i ltac:(apply list_elem_of_In, elem_of_seqZ; lia)).
  apply andb_prop in Hl as [<-%Z.eqb_eq Hr]. cbn [forallb] in Hr. repeat (apply andb_prop in Hr as [?H Hr]).
  unfold bit_rev_32. rewrite rotate_testbit; [rewrite !exchange_testbit by (reflexivity || lia); reflexivity| |done].
  apply bit_rev_groups_u32. lia.
Qed.

Lemma rev_index_brev n i : (n <= 32)%nat -> (i < 2 ^ n)%nat -> rev_index (Z.of_nat n) i = brev n i.
Proof.
  intros Hn Hi. unfold rev_index.
  assert (Hi32 : u32 (Z.of_nat i)).
  { assert (2 ^ n <= 2 ^ 32)%nat by (apply Nat.pow_le_mono_r; lia). unfold fits. change 32 with (Z.of_nat 32). rewrite <- (Nat2Z.inj_pow 2). lia. }
  rewrite wrap_small by done. apply Nat2Z.inj.
  destruct (decide (n = 0)%nat) as [->|H0].
  { cbn in Hi. assert (i = 0)%nat as -> by lia. reflexivity. }
  rewrite (Z.mod_small (32 - _)) by lia.
  pose proof (bit_rev_32_u32 (Z.of_nat i) ltac:(lia)) as Hr.
  rewrite Z2Nat.id by (apply Z.shiftr_nonneg, Hr).
  apply Z.bits_inj'. intros k Hk. rewrite Z.shiftr_spec by done.
  rewrite <- (Z2Nat.id k) by done. rewrite testbit_of_nat, brev_testbit. rewrite !Z2Nat.id by done.
  destruct (Z.ltb_spec (k + (32 - Z.of_nat n)) 32).
  - rewrite bit_rev_32_testbit by lia. rewrite (proj2 (Nat.ltb_lt _ _)) by lia. cbn [andb].
    rewrite <- testbit_of_nat. f_equal. lia.
  - rewrite (proj2 (Nat.ltb_ge _ _)) by lia. cbn [andb]. apply (fits_testbit_high 32); [exact Hr|lia].
Qed.

(** [bit_reverse] moves every entry to the reversed index. *)
Lemma swap_run {Er T} (io : list T) i j a b : io !! i = Some a -> io !! j = Some b ->
  swap (Er := Er) io i j = Ok (<[j := a]> (<[i := b]> io)).
Proof. intros E1 E2. unfold swap. by rewrite E1, E2. Qed.

Lemma reverse_loop_run {Er T} n (io0 : list T) : (n <= 32)%nat -> length io0 = (2 ^ n)%nat -> forall k j io,
  (j + k = 2 ^ n)%nat -> length io = (2 ^ n)%nat ->
  (forall p, (p < 2 ^ n)%nat -> io !! p = io0 !! (if (p `min` brev n p <? j)%nat then brev n p else p)) ->
  exists io', reverse_loop (Er := Er) (Z.of_nat n) (seq j k) io = Ok io' /\ length io' = (2 ^ n)%nat /\
    forall p, (p < 2 ^ n)%nat -> io' !! p = io0 !! brev n p.
Proof.
  intros Hn Hl0. induction k as [|k IH]; intros j io Hj Hl Hio.
  { exists io. split_and!; [done..|]. intros p Hp. rewrite Hio by done. by rewrite (proj2 (Nat.ltb_lt _ _)) by lia. }
  cbn [seq reverse_loop]. rewrite rev_index_brev by lia. pose proof (brev_lt n j) as Hr.
  pose proof (brev_involutive n j ltac:(lia)) as Hinv.
  destruct (Nat.ltb_spec j (brev n j)) as [Hlt|Hge].
  - destruct (lookup_lt_is_Some_2 io0 j ltac:(lia)) as [a Ea]. destruct (lookup_lt_is_Some_2 io0 (brev n j) ltac:(lia)) as [b Eb].
    assert (E1 : io !! j = Some a) by (rewrite Hio by lia; by rewrite (proj2 (Nat.ltb_ge _ _)) by lia).
    assert (E2 : io !! brev n j = Some b) by (rewrite Hio by lia; by rewrite Hinv, (proj2 (Nat.ltb_ge _ _)) by lia).
    rewrite (swap_run _ _ _ _ _ E1 E2). apply IH; [lia|by rewrite !length_insert|].
    intros p Hp. destruct (decide (p = brev n j)) as [->|Hpr].
    { rewrite list_lookup_insert_eq by (rewrite length_insert; lia). by rewrite Hinv, (proj2 (Nat.ltb_lt _ _)) by lia. }
    rewrite list_lookup_insert_ne by done. destruct (decide (p = j)) as [->|Hpj].
    { rewrite list_lookup_insert_eq by lia. by rewrite (proj2 (Nat.ltb_lt _ _)) by lia. }
    rewrite list_lookup_insert_ne by done. rewrite Hio by done. f_equal.
    destruct (Nat.ltb_spec (p `min` brev n p) j), (Nat.ltb_spec (p `min` brev n p) (S j)); try lia.
    assert (brev n p = j) as E by lia. exfalso. apply Hpr. rewrite <- E. by rewrite brev_involutive.
  - apply IH; [lia|done|]. intros p Hp. rewrite Hio by done.
    destruct (Nat.ltb_spec (p `min` brev n p) j), (Nat.ltb_spec (p `min` brev n p) (S j)); try lia; try done.
    destruct (decide (p = j)) as [->|Hpj]; [f_equal; lia|].
    assert (brev n p = j) as E by lia. assert (p = brev n j) as -> by (rewrite <- E; by rewrite brev_involutive). lia.
Qed.

Lemma log2_ceil_loop_pow2 n : (n <= 63)%nat -> forall fuel r, (r <= n)%nat -> (n - r < fuel)%nat ->
  Merkle.log2_ceil_loop fuel (2 ^ Z.of_nat n) (Z.of_nat r) = Z.of_nat n.
Proof.
  intros Hn. induction fuel as [|fuel IH]; intros r Hr Hf; [lia|]. cbn [Merkle.log2_ceil_loop].
  assert (E : shl1 (Z.of_nat r) = 2 ^ Z.of_nat r).
  { unfold shl1. rewrite Z.mod_small, Z.shiftl_1_l by lia. apply wrap_small. unfold fits.
    pose proof (Z.pow_lt_mono_r 2 (Z.of_nat r) 64 ltac:(lia) ltac:(lia) ltac:(lia)). lia. }
  rewrite E. destruct (decide (r = n)) as [->|Hne]; [by rewrite Z.ltb_irrefl|].
  pose proof (Z.pow_lt_mono_r 2 (Z.of_nat r) (Z.of_nat n) ltac:(lia) ltac:(lia) ltac:(lia)).
  rewrite (proj2 (Z.ltb_lt _ _)) by lia. replace (Z.of_nat r + 1) with (Z.of_nat (S r)) by lia. apply IH; lia.
Qed.

Lemma log2_ceil_pow2 n : (n <= 63)%nat -> log2_ceil (Z.of_nat (2 ^ n)) = Z.of_nat n.
Proof. intros Hn. rewrite Nat2Z.inj_pow. apply (log2_ceil_loop_pow2 n Hn 64 0); lia. Qed.

Lemma shl1_pow2 n : (n <= 63)%nat -> shl1 (Z.of_nat n) = Z.of_nat (2 ^ n).
Proof.
  intros Hn. unfold shl1. rewrite Z.mod_small, Z.shiftl_1_l, Nat2Z.inj_pow by lia. apply wrap_small. unfold fits.
  pose proof (Z.pow_lt_mono_r 2 (Z.of_nat n) 64 ltac:(lia) ltac:(lia) ltac:(lia)). lia.
Qed.

Lemma bit_reverse_run {Er T} n (io : list T) : (n <= 32)%nat -> length io = (2 ^ n)%nat ->
  exists io', bit_reverse (Er := Er) io = Ok io' /\ length io' = (2 ^ n)%nat /\ forall p, (p < 2 ^ n)%nat -> io' !! p = io !! brev n p.
Proof.
  intros Hn Hl. unfold bit_reverse. rewrite Hl, log2_ceil_pow2, shl1_pow2, Z.eqb_refl by lia. cbn [assert_ mbind outcome_bind].
  by apply reverse_loop_run.
Qed.

(** ** Polynomials by their coefficients, lowest first *)

Section Horner.
Open Scope f4_scope.

Fixpoint pval (m : nat) (f : nat -> F4) (x : F4) : F4 :=
  match m with
  | O => 0
  | S m => f O + x * pval m (fun i => f (S i)) x
  end.

Lemma pval_ext m : forall f g x, (forall i, (i < m)%nat -> f i = g i) -> pval m f x = pval m g x.
Proof.
  induction m as [|m IH]; intros f g x H; cbn [pval]; [done|]. rewrite (H O) by lia. do 2 f_equal. apply IH. intros. apply H. lia.
Qed.

Lemma pval_split m : forall f x, pval (2 * m) f x = pval m (fun i => f (2 * i)%nat) (x * x) + x * pval m (fun i => f (2 * i + 1)%nat) (x * x).
Proof.
  induction m as [|m IH]; intros f x; [change (0 = 0 + x * 0); ring|].
  replace (2 * S m)%nat with (S (S (2 * m))) by lia. cbn [pval]. rewrite IH.
  rewrite (pval_ext m (fun i => f (2 * S i)%nat) (fun i => f (S (S (2 * i))))) by (intros; f_equal; lia).
  rewrite (pval_ext m (fun i => f (2 * S i + 1)%nat) (fun i => f (S (S (2 * i + 1))))) by (intros; f_equal; lia).
  change (2 * 0)%nat with O. change (0 + 1)%nat with 1%nat. ring.
Qed.

Lemma pval_brev n : forall f x, pval (2 ^ n) (fun k => f (brev n k)) x = beval n f x.
Proof.
  induction n as [|n IH]; intros f x; [change (f O + x * 0 = f O); ring|].
  rewrite Nat.pow_succ_r', pval_split. cbn [beval]. rewrite <- !IH. f_equal; [|f_equal]; apply pval_ext; intros i Hi; f_equal; cbn [brev].
  - rewrite (Nat.mul_comm 2 i), Nat.Div0.mod_mul, Nat.div_mul by lia. lia.
  - rewrite (Nat.mul_comm 2 i), (Nat.add_comm _ 1), Nat.Div0.mod_add, Nat.div_add by lia. change (1 mod 2)%nat with 1%nat. change (1 / 2)%nat with O. rewrite Nat.mul_1_l, Nat.add_0_l. done.
Qed.
End Horner.

(** ** What the code computes *)

(** A vector space of the code, by the elements of [F4] that its values stand for. *)
Class VectorRep (T : Type) `{Vector Z T} := {
  vrep : T -> F4 -> Prop;
  vrep_add a b x y : vrep a x -> vrep b y -> vrep (vadd a b) (x + y)%f4;
  vrep_sub a b x y : vrep a x -> vrep b y -> vrep (vsub a b) (x - y)%f4;
  vrep_mul a b x y : vrep a x -> brepr b y -> vrep (vmul a b) (x * y)%f4;
  vrep_inj a b x : vrep a x -> vrep b x -> a = b }.

#[export] Instance elem_vrep : VectorRep Z := {|
  vrep := brepr; vrep_add := brepr_add; vrep_sub := brepr_sub; vrep_mul := brepr_mul; vrep_inj := brepr_inj |}.
#[export] Instance ext_vrep : VectorRep ExtElem := {|
  vrep := erepr; vrep_add := erepr_add; vrep_sub := erepr_sub; vrep_mul := erepr_scale; vrep_inj := erepr_inj |}.

(** The tables of roots. *)
Definition root (i : nat) : F4 := scalar (decode (Elem.ROU_FWD !!! i)).
Definition iroot (i : nat) : F4 := scalar (decode (Elem.ROU_REV !!! i)).

Lemma tables_reduced : Forall reduced Elem.ROU_FWD /\ Forall reduced Elem.ROU_REV.
Proof. split; apply Forall_fmap; repeat (constructor; [eapply rep_reduced, rep_new; unfold fits; lia|]); constructor. Qed.

Lemma root_lookup i w : Elem.ROU_FWD !! i = Some w -> brepr w (root i).
Proof.
  intros E. unfold root. rewrite (list_lookup_total_correct _ _ _ E). apply brepr_scalar, rep_self.
  by eapply (Forall_lookup_1 _ _ _ _ (proj1 tables_reduced)).
Qed.
Lemma iroot_lookup i w : Elem.ROU_REV !! i = Some w -> brepr w (iroot i).
Proof.
  intros E. unfold iroot. rewrite (list_lookup_total_correct _ _ _ E). apply brepr_scalar, rep_self.
  by eapply (Forall_lookup_1 _ _ _ _ (proj2 tables_reduced)).
Qed.

Lemma roots_exist i : (i <= 27)%nat -> exists w v, Elem.ROU_FWD !! i = Some w /\ Elem.ROU_REV !! i = Some v /\
  brepr w (root i) /\ brepr v (iroot i) /\ (root i * iroot i = 1)%f4.
Proof.
  intros Hi. destruct (lookup_lt_is_Some_2 Elem.ROU_FWD i ltac:(cbn; lia)) as [w Ew].
  destruct rou_tables as (_ & _ & Ht). destruct (Ht i w Ew) as (_ & _ & v & Ev & Hwv).
  pose proof (root_lookup i w Ew) as Hw. pose proof (iroot_lookup i v Ev) as Hv.
  exists w, v. split_and!; try done. eapply brepr_fun; [by apply brepr_mul|]. rewrite Hwv. apply brepr_one.
Qed.

Lemma roots_rooted : rooted root iroot 27.
Proof.
  split.
  - destruct (roots_exist 0 ltac:(lia)) as (w & v & Ew & _ & Hw & _). eapply brepr_fun; [exact Hw|].
    injection Ew as <-. apply brepr_one.
  - intros i Hi. destruct (roots_exist (S i) ltac:(lia)) as (w & v & Ew & _ & Hw & _ & Hinv).
    destruct rou_tables as (_ & _ & Ht). destruct (Ht (S i) w Ew) as (_ & Hs & _). destruct (Hs ltac:(done)) as [Hneg Hsq].
    rewrite Nat.sub_1_r in Hsq. cbn [Nat.pred] in Hsq. split_and!; [| |exact Hinv].
    + eapply brepr_fun; [by apply brepr_mul|]. by apply root_lookup.
    + assert (Hu : u64 (2 ^ (Z.of_nat (S i) - 1))).
      { unfold fits. pose proof (Z.pow_lt_mono_r 2 (Z.of_nat (S i) - 1) 64 ltac:(lia) ltac:(lia) ltac:(lia)). lia. }
      pose proof (brepr_pow _ _ _ Hw Hu) as Hp. rewrite Hneg in Hp.
      replace (Z.to_nat (2 ^ (Z.of_nat (S i) - 1))) with (2 ^ i)%nat in Hp
        by (replace (Z.of_nat (S i) - 1) with (Z.of_nat i) by lia; rewrite Z2Nat.inj_pow, Nat2Z.id by lia; done).
      eapply brepr_fun; [exact Hp|]. apply brepr_neg, brepr_one.
Qed.

Section Transform.
Context {Er T : Type} `{VectorRep T}.

(** The entries of a buffer stand for the values of [f]. *)
Definition vec (io : list T) (f : nat -> F4) : Prop := forall i a, io !! i = Some a -> vrep a (f i).

Lemma vec_ext io f g : vec io f -> (forall i, (i < length io)%nat -> f i = g i) -> vec io g.
Proof. intros Hv E i a Ha. rewrite <- E by (by eapply lookup_lt_Some). by apply Hv. Qed.

Lemma vec_inj io io' f : length io = length io' -> vec io f -> vec io' f -> io = io'.
Proof.
  intros Hl Hv Hv'. apply list_eq_same_length with (n := length io); [done..|]. intros i a b _ Ha Hb.
  eapply vrep_inj; [by apply Hv|by apply Hv'].
Qed.

Lemma vec_take io f n : vec io f -> vec (take n io) f.
Proof. intros Hv i a Ha. apply lookup_take_Some in Ha as [Ha _]. by apply Hv. Qed.
Lemma vec_drop io f n : vec io f -> vec (drop n io) (fun i => f (n + i)%nat).
Proof. intros Hv i a Ha. rewrite lookup_drop in Ha. by apply Hv. Qed.
Lemma vec_app lo hi f g h : vec lo f -> vec hi g ->
  (forall i, (i < length lo)%nat -> f i = h i) -> (forall i, (i < length hi)%nat -> g i = h (length lo + i)%nat) -> vec (lo ++ hi) h.
Proof.
  intros Hl Hh El Eh i a Ha. apply lookup_app_Some in Ha as [Ha|[Hi Ha]].
  - rewrite <- El by (by eapply lookup_lt_Some). by apply Hl.
  - replace i with (length lo + (i - length lo))%nat by lia. rewrite <- Eh by (by eapply lookup_lt_Some). by apply Hh.
Qed.
Lemma vec_insert io f i a x : vec io f -> vrep a x -> vec (<[i := a]> io) (fun j => if decide (j = i) then x else f j).
Proof.
  intros Hv Ha j b Hb. destruct (decide (j = i)) as [->|Hne].
  - apply list_lookup_insert_Some in Hb as [(_ & -> & _)|[? _]]; done.
  - rewrite list_lookup_insert_ne in Hb by done. by apply Hv.
Qed.

(** The loop on the pairs [(i, i + half)] from [j] on. *)
Lemma pair_loop_run (op : T -> T -> Z -> T * T) (lo hi : F4 -> F4 -> F4 -> F4) half step s : brepr step s ->
  (forall a b cur x y c, vrep a x -> vrep b y -> brepr cur c -> vrep (fst (op a b cur)) (lo x y c) /\ vrep (snd (op a b cur)) (hi x y c)) ->
  forall k j cur c io f g, (j + k = half)%nat -> length io = (2 * half)%nat -> brepr cur c -> vec io f ->
  (forall i, (i < j)%nat -> g i = f i /\ g (half + i)%nat = f (half + i)%nat) ->
  (forall i, (i < k)%nat -> g (j + i)%nat = lo (f (j + i)%nat) (f (half + (j + i))%nat) (c * fpow s i)%f4 /\
    g (half + (j + i))%nat = hi (f (j + i)%nat) (f (half + (j + i))%nat) (c * fpow s i)%f4) ->
  exists io', pair_loop (Er := Er) op (seq j k) half step cur io = Ok io' /\ length io' = (2 * half)%nat /\ vec io' g.
Proof.
  intros Hs Hop. induction k as [|k IH]; intros j cur c io f g Hj Hl Hc Hv Hg0 Hg1.
  { exists io. split_and!; [done..|]. eapply vec_ext; [done|]. intros i Hi. destruct (decide (i < j)%nat) as [Hlt|Hge].
    - symmetry. by apply Hg0.
    - replace i with (half + (i - half))%nat by lia. symmetry. apply Hg0. lia. }
  destruct (lookup_lt_is_Some_2 io j ltac:(lia)) as [a Ea].
  destruct (lookup_lt_is_Some_2 io (j + half)%nat ltac:(lia)) as [b Eb].
  cbn [seq pair_loop]. rewrite Ea, Eb. cbn [unwrap mbind outcome_bind].
  destruct (Hop a b cur _ _ c (Hv _ _ Ea) (Hv _ _ Eb) Hc) as [Hlo Hhi]. destruct (op a b cur) as [a' b']. cbn [fst snd] in *.
  destruct (Hg1 O ltac:(lia)) as [G1 G2]. change (fpow s 0) with 1%f4 in *. replace (c * 1)%f4 with c in * by ring.
  rewrite Nat.add_0_r, (Nat.add_comm half j) in *.
  eapply (IH (S j) _ (c * s)%f4); [lia|by rewrite !length_insert|by apply brepr_mul|apply vec_insert; [apply vec_insert; [exact Hv|exact Hlo]|exact Hhi]|..].
  - intros i Hi. destruct (decide (i = j)) as [->|Hne].
    + rewrite (Nat.add_comm half j). split; repeat case_decide; (lia || done).
    + destruct (Hg0 i ltac:(lia)). split; repeat case_decide; (lia || done).
  - intros i Hi. destruct (Hg1 (S i) ltac:(lia)) as [G3 G4]. rewrite !(decide_False (P := _ = _)) by lia.
    replace (S j + i)%nat with (j + S i)%nat by lia. rewrite G3, G4, fpow_S.
    split; f_equal; ring.
Qed.

Lemma fwd_butterfly_run e m : (m + e <= 27)%nat -> forall io g, length io = (2 ^ (m + e))%nat -> vec io (fun i => g (i / 2 ^ e)%nat) ->
  exists io', fwd_butterfly (Er := Er) (m + e) io e = Ok io' /\ length io' = (2 ^ (m + e))%nat /\
    vec io' (fun i => beval m g (fpow (root (m + e)) i)).
Proof.
  intros Hn. induction m as [|m IH]; intros io g Hl Hv.
  { exists io. split; [destruct e; cbn [Nat.add fwd_butterfly]; by rewrite ?Nat.eqb_refl|]. split; [done|].
    eapply vec_ext; [exact Hv|]. intros i Hi. cbn [beval]. by rewrite Nat.div_small by (cbn in Hl; lia). }
  change (S m + e)%nat with (S (m + e)) in *. cbn [fwd_butterfly]. rewrite (proj2 (Nat.eqb_neq _ _)) by lia.
  rewrite Nat.pow_succ_r' in Hl. remember (2 ^ (m + e))%nat as half eqn:Eh.
  destruct (IH ltac:(lia) (take half io) g) as (lo & -> & Hll & Hlo); [rewrite length_take; lia|by apply vec_take|].
  destruct (IH ltac:(lia) (drop half io) (fun k => g (2 ^ m + k)%nat)) as (hi & -> & Hlh & Hhi); [rewrite length_drop; lia| |].
  { eapply vec_ext; [by apply vec_drop|]. intros i Hi. cbn beta. f_equal. rewrite Eh, Nat.pow_add_r.
    rewrite Nat.div_add_l by (apply Nat.pow_nonzero; lia). done. }
  destruct (roots_exist (S (m + e)) ltac:(lia)) as (w & v & Ew & _ & Hw & _).
  change (ROU_FWD (B := Z)) with Elem.ROU_FWD. rewrite Ew. cbn [unwrap mbind outcome_bind].
  set (h := fun i => if decide (i < half)%nat then beval m g (fpow (root (m + e)) i)
                     else beval m (fun k => g (2 ^ m + k)%nat) (fpow (root (m + e)) (i - half))).
  assert (Hr : rooted root iroot (S (m + e))) by (eapply rooted_le, roots_rooted; lia).
  destruct (pair_loop_run fwd_pair (fun x y c => x + y * c)%f4 (fun x y c => x - y * c)%f4 half w _ Hw) with (k := half) (j := O) (cur := Elem.ONE) (c := 1%f4) (io := lo ++ hi) (f := h) (g := fun i => beval (S m) g (fpow (root (S (m + e))) i)) as (io' & E & Hl' & Hv');
    [| |rewrite length_app, Hll, Hlh; lia|apply brepr_one|apply (vec_app _ _ _ _ h Hlo Hhi)| | |exists io'; split; [exact E|split; [by rewrite Hl', Nat.pow_succ_r', <- Eh|exact Hv']]].
  - intros a b cur x y c Ha Hb Hc. cbn [fst snd fwd_pair]. split; [apply vrep_add|apply vrep_sub]; (done || by apply vrep_mul).
  - done.
  - intros i Hi. unfold h. by rewrite decide_True by lia.
  - intros i Hi. unfold h. rewrite decide_False, Hll by lia. do 3 f_equal. lia.
  - intros i Hi. lia.
  - intros i Hi. cbn [Nat.add]. unfold h. rewrite decide_True, decide_False by lia.
    replace (half + i - half)%nat with i by lia. rewrite Eh, !(beval_high root iroot), !(beval_low root iroot) by done. split; ring.
Qed.

Lemma rev_butterfly_run n : (n <= 27)%nat -> forall io f, length io = (2 ^ n)%nat -> vec io f ->
  exists io', rev_butterfly (Er := Er) n io = Ok io' /\ length io' = (2 ^ n)%nat /\ vec io' (rval iroot n f).
Proof.
  induction n as [|n IH]; intros Hn io f Hl Hv; [by exists io|].
  cbn [rev_butterfly]. rewrite Nat.pow_succ_r' in Hl.
  destruct (roots_exist (S n) ltac:(lia)) as (w & v & _ & Ew & _ & Hw & _).
  change (ROU_REV (B := Z)) with Elem.ROU_REV. rewrite Ew. cbn [unwrap mbind outcome_bind].
  remember (2 ^ n)%nat as half eqn:Eh.
  set (h := fun i => if decide (i < half)%nat then (f i + f (half + i)%nat)%f4
                     else ((f (i - half)%nat - f (half + (i - half))%nat) * fpow (iroot (S n)) (i - half))%f4).
  destruct (pair_loop_run rev_pair (fun x y c => x + y)%f4 (fun x y c => (x - y) * c)%f4 half v _ Hw) with (k := half) (j := O) (cur := Elem.ONE) (c := 1%f4) (io := io) (f := f) (g := h) as (io1 & E & Hl1 & Hv1);
    [|done|done|apply brepr_one|exact Hv| | |].
  - intros a b cur x y c Ha Hb Hc. cbn [fst snd rev_pair]. split; [by apply vrep_add|]. apply vrep_mul; [by apply vrep_sub|done].
  - intros i Hi. lia.
  - intros i Hi. cbn [Nat.add]. unfold h. rewrite decide_True, decide_False by lia.
    replace (half + i - half)%nat with i by lia. split; [done|ring].
  - change (ONE (E := Z)) with Elem.ONE. rewrite E. cbn [mbind outcome_bind].
    destruct (IH ltac:(lia) (take half io1) _ ltac:(rewrite length_take; lia) (vec_take _ _ half Hv1)) as (lo & -> & Hll & Hlo).
    destruct (IH ltac:(lia) (drop half io1) _ ltac:(rewrite length_drop; lia) (vec_drop _ _ half Hv1)) as (hi & -> & Hlh & Hhi).
    cbn [mbind outcome_bind]. exists (lo ++ hi). split; [done|]. split; [rewrite length_app, Nat.pow_succ_r', <- Eh; lia|].
    eapply (vec_app _ _ _ _ _ Hlo Hhi); intros i Hi; cbn [rval]; rewrite <- Eh.
    + rewrite (proj2 (Nat.ltb_lt _ _)) by lia. apply rval_ext; [|lia]. intros j Hj. unfold h. by rewrite decide_True by lia.
    + rewrite (proj2 (Nat.ltb_ge _ _)) by lia. replace (length lo + i - half)%nat with i by lia. apply rval_ext; [|lia].
      intros j Hj. unfold h. rewrite decide_False by lia. by replace (half + j - half)%nat with j by lia.
Qed.
End Transform.

Lemma two_scalar n : two n = scalar (2 ^ Z.of_nat n).
Proof.
  induction n as [|n IH]; [symmetry; apply scalar_one|]. unfold two in *. rewrite fpow_S, IH, Nat2Z.inj_succ, Z.pow_succ_r by lia.
  rewrite <- scalar_mul. f_equal. change 2 with (1 + 1). by rewrite <- scalar_add, scalar_one.
Qed.

(** The normalisation of the reverse transform. *)
Lemma norm_exists n : (n <= 27)%nat -> exists y, brepr (Elem.inv (Elem.from_u64 (Z.of_nat (2 ^ n)))) y /\ (two n * y = 1)%f4.
Proof.
  intros Hn. rewrite two_scalar, Nat2Z.inj_pow. change (Z.of_nat 2) with 2.
  pose proof (Z.pow_le_mono_r 2 (Z.of_nat n) 27 ltac:(lia) ltac:(lia)). pose proof (Z.pow_pos_nonneg 2 (Z.of_nat n) ltac:(lia) ltac:(lia)).
  destruct (rep_inv _ _ (rep_from_u64 (2 ^ Z.of_nat n) ltac:(unfold fits; lia))) as (i & Hi & Hinv & _).
  exists (scalar i). split; [by apply brepr_scalar|]. rewrite scalar_mul, <- scalar_one. apply scalar_eqm, Hinv.
  unfold eqm. rewrite !Z.mod_small by (rewrite P_val; lia). lia.
Qed.

Section Theorems.
Context {Er T : Type} `{VectorRep T}.
Abbreviation O_ := (outcome Er).

(** The entries of a buffer are elements of the field. *)
Definition elements (io : list T) : Prop := Forall (fun a => exists x, vrep a x) io.

Lemma elements_vec io : elements io -> exists f, vec io f.
Proof.
  induction 1 as [|a io (x & Hx) _ (f & Hf)]; [exists (fun _ => 0%f4); by intros i a Ha|].
  exists (fun i => match i with O => x | S i => f i end). intros [|i] b Hb; [by injection Hb as <-|]. by apply Hf.
Qed.

Lemma evaluate_run e m (io : list T) g : (m + e <= 27)%nat -> length io = (2 ^ (m + e))%nat -> vec io (fun i => g (i / 2 ^ e)%nat) ->
  exists out, (evaluate_ntt io e : O_ _) = Ok out /\ length out = (2 ^ (m + e))%nat /\ vec out (fun i => beval m g (fpow (root (m + e)) i)).
Proof.
  intros Hn Hl Hv. unfold evaluate_ntt. rewrite Hl, log2_ceil_pow2, shl1_pow2, Z.eqb_refl by lia.
  rewrite (proj2 (Z.leb_le _ _)), Nat2Z.id by lia. by apply fwd_butterfly_run.
Qed.

Lemma interpolate_run n (io : list T) f : (n <= 27)%nat -> length io = (2 ^ n)%nat -> vec io f ->
  exists out y, (interpolate_ntt io : O_ _) = Ok out /\ length out = (2 ^ n)%nat /\ (two n * y = 1)%f4 /\ vec out (fun i => y * rval iroot n f i)%f4.
Proof.
  intros Hn Hl Hv. unfold interpolate_ntt. rewrite Hl, log2_ceil_pow2, shl1_pow2, Z.eqb_refl by lia.
  rewrite (proj2 (Z.leb_le _ _)), Nat2Z.id by lia. cbn [assert_ mbind outcome_bind].
  destruct (rev_butterfly_run (Er := Er) n Hn io f Hl Hv) as (io' & -> & Hl' & Hv'). cbn [mbind outcome_bind].
  destruct (norm_exists n Hn) as (y & Hy & E). eexists _, y. split; [done|]. split; [by rewrite length_map|]. split; [done|].
  intros i a Ha. apply list_lookup_fmap_Some in Ha as (b & -> & Hb).
  replace (y * rval iroot n f i)%f4 with (rval iroot n f i * y)%f4 by ring. by apply vrep_mul; [apply Hv'|].
Qed.

(** The values of the interpolated polynomial are the entries. *)
Lemma interpolate_values n (io : list T) f : (n <= 27)%nat -> length io = (2 ^ n)%nat -> vec io f ->
  exists out g, (interpolate_ntt io : O_ _) = Ok out /\ length out = (2 ^ n)%nat /\ vec out g /\
    (forall i, (i < 2 ^ n)%nat -> beval n g (fpow (root n) i) = f i) /\
    forall h, (forall i, (i < 2 ^ n)%nat -> beval n h (fpow (root n) i) = f i) -> forall i, (i < 2 ^ n)%nat -> g i = h i.
Proof.
  intros Hn Hl Hv. destruct (interpolate_run n io f Hn Hl Hv) as (out & y & E & Hl' & Hy & Hv').
  pose proof (rooted_le root iroot n 27 Hn roots_rooted) as Hr.
  eexists out, _. split; [done|]. split; [done|]. split; [exact Hv'|]. split.
  - intros i Hi. rewrite beval_scale, (beval_rval root iroot) by done.
    transitivity (two n * y * f i)%f4; [ring|]. rewrite Hy. ring.
  - intros h Hh i Hi. rewrite (rval_ext iroot n f (fun j => beval n h (fpow (root n) j))); [|intros; symmetry; by apply Hh|done].
    rewrite (rval_beval root iroot) by done. transitivity (two n * y * h i)%f4; [ring|]. rewrite Hy. ring.
Qed.

(** C28: The transforms are inverse to each other: on a buffer of [2 ^ n] field elements
    with [n] at most 27, [interpolate_ntt] and then [evaluate_ntt] give back the buffer,
    and so do [evaluate_ntt] and then [interpolate_ntt]; none of them panics. *)
Theorem ntt_round_trip n (io : list T) : (n <= 27)%nat -> length io = (2 ^ n)%nat -> elements io ->
  (cs ← (interpolate_ntt io : O_ _); evaluate_ntt cs 0) = Ok io /\
  (vs ← (evaluate_ntt io 0 : O_ _); interpolate_ntt vs) = Ok io.
Proof.
  intros Hn Hl (f & Hv)%elements_vec. split.
  - destruct (interpolate_values n io f Hn Hl Hv) as (cs & g & -> & Hlc & Hvc & Hval & _). cbn [mbind outcome_bind].
    destruct (evaluate_run 0 n cs g) as (out & -> & Hlo & Hvo); rewrite ?Nat.add_0_r; try done.
    { eapply vec_ext; [done|]. intros i _. by rewrite Nat.div_1_r. }
    f_equal. apply (vec_inj out io f); [by rewrite Hlo, Nat.add_0_r|eapply vec_ext; [done|]|done].
    rewrite Hlo, Nat.add_0_r. intros i Hi. by apply Hval.
  - destruct (evaluate_run 0 n io f) as (vs & -> & Hlv & Hvv); rewrite ?Nat.add_0_r; try done.
    { eapply vec_ext; [done|]. intros i _. by rewrite Nat.div_1_r. }
    rewrite Nat.add_0_r in Hlv, Hvv. cbn [mbind outcome_bind].
    destruct (interpolate_values n vs _ Hn Hlv Hvv) as (out & g & -> & Hlo & Hvo & _ & Huniq).
    f_equal. apply (vec_inj out io f); [by rewrite Hlo|eapply vec_ext; [done|]|done].
    rewrite Hlo. intros i Hi. by apply Huniq.
Qed.

Lemma expand_loop_run e (input : list T) : forall k j output, (j + k = length input * 2 ^ e)%nat -> length output = (j + k)%nat ->
  (forall i, (i < j)%nat -> output !! i = input !! (i / 2 ^ e)%nat) -> (e < 64)%nat ->
  exists buf, (expand_loop (seq j k) e output input : O_ _) = Ok buf /\ length buf = (j + k)%nat /\
    forall i, (i < j + k)%nat -> buf !! i = input !! (i / 2 ^ e)%nat.
Proof.
  induction k as [|k IH]; intros j output Hj Hl Hi He.
  { exists output. rewrite Nat.add_0_r in *. done. }
  cbn [seq expand_loop]. rewrite Nat.mod_small, Nat.shiftr_div_pow2 by lia.
  destruct (lookup_lt_is_Some_2 input (j / 2 ^ e)%nat) as [x Ex]; [apply Nat.Div0.div_lt_upper_bound; rewrite Nat.mul_comm; lia|].
  rewrite Ex, (proj2 (Nat.ltb_lt _ _)) by lia. cbn [unwrap assert_ mbind outcome_bind].
  replace (j + S k)%nat with (S j + k)%nat in * by lia.
  apply IH; [done|by rewrite length_insert| |done]. intros i Hlt. destruct (decide (i = j)) as [->|Hne].
  - rewrite list_lookup_insert_eq by lia. done.
  - rewrite list_lookup_insert_ne by done. apply Hi. lia.
Qed.

(** C29: The low-degree extension: the coefficients of a polynomial of degree below [2 ^ m],
    bit-reversed, expanded by [2 ^ e] and transformed, give its values at all the powers
    of the root of unity of order [2 ^ (m + e)], in order. *)
Theorem ntt_evaluates m e (io output : list T) f : (m + e <= 27)%nat -> length io = (2 ^ m)%nat -> length output = (2 ^ (m + e))%nat -> vec io f ->
  exists cs buf out, (bit_reverse io : O_ _) = Ok cs /\ (expand output cs e : O_ _) = Ok buf /\ (evaluate_ntt buf e : O_ _) = Ok out /\
    length out = (2 ^ (m + e))%nat /\ vec out (fun i => pval (2 ^ m) f (fpow (root (m + e)) i)).
Proof.
  intros Hn Hl Hlo Hv. destruct (bit_reverse_run (Er := Er) m io ltac:(lia) Hl) as (cs & -> & Hlc & Hcs).
  destruct (expand_loop_run e cs (2 ^ (m + e)) 0 output) as (buf & Eb & Hlb & Hb); [rewrite Hlc, Nat.pow_add_r; lia|done|lia|lia|].
  destruct (evaluate_run e m buf (fun i => f (brev m i))) as (out & Eo & Hlo' & Hvo); [done|done| |].
  { intros i a Ha. pose proof (lookup_lt_Some _ _ _ Ha) as Hi. rewrite Hlb in Hi. rewrite Hb in Ha by done.
    rewrite Hcs in Ha; [by apply Hv|]. apply Nat.Div0.div_lt_upper_bound. cbn in Hi. rewrite Nat.pow_add_r in Hi. lia. }
  exists cs, buf, out. split_and!; [done| |done|done|].
  - unfold expand. rewrite Hlc. unfold mul64. rewrite shl1_pow2 by lia. rewrite <- Nat2Z.inj_mul, <- Nat.pow_add_r, wrap_small, Nat2Z.id; [done|].
    rewrite Nat2Z.inj_pow. unfold fits. pose proof (Z.pow_lt_mono_r 2 (Z.of_nat (m + e)) 64 ltac:(lia) ltac:(lia) ltac:(lia)). lia.
  - eapply vec_ext; [exact Hvo|]. intros i _. cbn beta. rewrite <- pval_brev. apply pval_ext.
    intros j Hj. by rewrite brev_involutive.
Qed.
End Theorems.

Lemma elem_elements (io : list Z) : Forall reduced io -> elements io.
Proof. intros H. eapply Forall_impl; [exact H|]. apply brepr_exists. Qed.

Lemma ntt_round_trip_witness :
  let io := map Elem.new [3; 1; 4; 1; 5; 9; 2; 6] in
  (cs ← (interpolate_ntt io : outcome unit _); evaluate_ntt cs 0) = Ok io /\ (vs ← (evaluate_ntt io 0 : outcome unit _); interpolate_ntt vs) = Ok io.
Proof.
  apply (ntt_round_trip 3); [lia|done|]. apply elem_elements, Forall_fmap.
  repeat (constructor; [eapply rep_reduced, rep_new; unfold fits; lia|]). constructor.
Defined.

Lemma ntt_evaluates_witness : exists f cs buf out,
  (bit_reverse (map Elem.new [3; 1]) : outcome unit _) = Ok cs /\ (expand (replicate 4 0) cs 1 : outcome unit _) = Ok buf /\
  (evaluate_ntt buf 1 : outcome unit _) = Ok out /\ length out = 4%nat /\ vec out (fun i => pval 2 f (fpow (root 2) i)).
Proof.
  destruct (elements_vec (map Elem.new [3; 1])) as (f & Hf).
  { apply elem_elements, Forall_fmap. repeat (constructor; [eapply rep_reduced, rep_new; unfold fits; lia|]). constructor. }
  exists f. apply (ntt_evaluates 1 1 (map Elem.new [3; 1]) (replicate 4 0) f); [lia|done|done|exact Hf].
Defined.
