(* ===== verification/PolySpec.v ===== *)
(** * Polynomials by their coefficients

    On reduced elements the routines of [poly.rs] compute with polynomials over [F4]:
    [poly_eval] their values, [poly_divide] the quotient and the remainder by [X - z],
    [poly_interpolate] the polynomial with given values at distinct points. *)
From S2P Require Export NttSpec.
Open Scope Z_scope.

#[export] Instance F4_inhabited : Inhabited F4 := populate 0%f4.

Section Polynomials.
Open Scope f4_scope.

(** The value of the polynomial with these coefficients, lowest first. *)
Definition lval (l : list F4) (x : F4) : F4 := foldr (fun a v => a + x * v) 0 l.

Lemma lval_cons a l x : lval (a :: l) x = a + x * lval l x.
Proof. reflexivity. Qed.
Lemma lval_app l k x : lval (l ++ k) x = lval l x + fpow x (length l) * lval k x.
Proof.
  induction l as [|a l IH]; [change (lval k x = 0 + 1 * lval k x); ring|].
  cbn [app length]. rewrite !lval_cons, IH, fpow_S. ring.
Qed.
Lemma lval_pval l x : lval l x = pval (length l) (fun i => nth i l 0) x.
Proof. induction l as [|a l IH]; [done|]. rewrite lval_cons, IH. reflexivity. Qed.
Lemma lval_zeros n x : lval (replicate n 0) x = 0.
Proof. induction n as [|n IH]; [done|]. cbn [replicate]. rewrite lval_cons, IH. ring. Qed.

Lemma poly_eval_loop_run cs : forall x mul tot,
  Poly.eval_loop (map elem cs) (elem x) (elem mul) (elem tot) = elem (tot + mul * lval cs x).
Proof.
  induction cs as [|c cs IH]; intros x mul tot; cbn [map Poly.eval_loop].
  - f_equal. change (lval [] x) with 0. ring.
  - change (fmul (elem mul) (elem x)) with (elem (mul * x)).
    change (fadd (elem tot) (fmul (elem c) (elem mul))) with (elem (tot + c * mul)).
    rewrite IH, lval_cons. f_equal. ring.
Qed.

Lemma poly_eval_run cs x : Poly.poly_eval (map elem cs) (elem x) = elem (lval cs x).
Proof.
  unfold Poly.poly_eval. change (ONE (E := ExtElem)) with (elem 1). change (ZERO (E := ExtElem)) with (elem 0).
  rewrite poly_eval_loop_run. f_equal. ring.
Qed.

(** Synthetic division by [X - z]. *)
Fixpoint divr (l : list F4) (z : F4) : list F4 * F4 :=
  match l with
  | [] => ([], 0)
  | a :: l => let '(q, r) := divr l z in (r :: q, z * r + a)
  end.

Lemma divr_length l z : length (fst (divr l z)) = length l.
Proof. induction l as [|a l IH]; [done|]. cbn. destruct (divr l z) as [q r]. cbn in *. by rewrite IH. Qed.

Lemma divr_value l z y : lval l y = lval (fst (divr l z)) y * (y - z) + snd (divr l z).
Proof.
  induction l as [|a l IH]; [change (0 = 0 * (y - z) + 0); ring|].
  cbn [divr]. destruct (divr l z) as [q r]. cbn [fst snd] in *. rewrite !lval_cons, IH. ring.
Qed.

Lemma divide_loop_run pre z : forall l,
  Poly.divide_loop (rev (seq 0 (length pre))) (elem z) (elem (snd (divr l z))) (map elem (pre ++ fst (divr l z)))
  = (map elem (fst (divr (pre ++ l) z)), elem (snd (divr (pre ++ l) z))).
Proof.
  induction pre as [|a pre IH] using rev_ind; intros l; [done|].
  rewrite length_app, Nat.add_1_r, seq_S, rev_app_distr. cbn [rev app Poly.divide_loop Nat.add].
  rewrite <- !app_assoc. cbn [app].
  replace (map elem (pre ++ a :: fst (divr l z)) !! length pre) with (Some (elem a))
    by (rewrite list_lookup_fmap, list_lookup_middle by done; done).
  cbn [default]. specialize (IH (a :: l)). rewrite <- IH. cbn [divr]. destruct (divr l z) as [q r]. cbn [fst snd].
  f_equal. rewrite !map_app, insert_app_r_alt by (by rewrite length_map). rewrite length_map, Nat.sub_diag. done.
Qed.

Lemma poly_divide_run l z : Poly.poly_divide (map elem l) (elem z) = (map elem (fst (divr l z)), elem (snd (divr l z))).
Proof.
  unfold Poly.poly_divide. rewrite length_map. pose proof (divide_loop_run l z []) as H.
  cbn [divr fst snd] in H. rewrite !app_nil_r in H. exact H.
Qed.

(** Multiplication by [X - z], with the coefficient that is carried. *)
Fixpoint mulc (c : F4) (l : list F4) (z : F4) : list F4 :=
  match l with
  | [] => [c]
  | a :: l => (c + a * (- z)) :: mulc a l z
  end.
Definition mulx (l : list F4) (z : F4) : list F4 := mulc 0 l z.

Lemma mulc_length c l z : length (mulc c l z) = S (length l).
Proof. revert c. induction l as [|a l IH]; intros c; cbn; [done|]. by rewrite IH. Qed.
Lemma mulx_value l z y : lval (mulx l z) y = lval l y * (y - z).
Proof.
  assert (H : forall l c, lval (mulc c l z) y = c + lval l y * (y - z)).
  { clear l. induction l as [|a l IH]; intros c; cbn [mulc]; rewrite !lval_cons; [change (lval [] y) with 0; ring|]. rewrite IH. ring. }
  unfold mulx. rewrite H. ring.
Qed.
Lemma divr_mulx l z : divr (mulx l z) z = (l ++ [0], 0).
Proof.
  assert (H : forall l c, divr (mulc c l z) z = (l ++ [0], c)).
  { clear l. induction l as [|a l IH]; intros c; cbn [mulc divr app]; [f_equal; ring|]. rewrite IH. f_equal; ring. }
  apply H.
Qed.
Lemma mulx_comm l u v : mulx (mulx l u) v = mulx (mulx l v) u.
Proof.
  assert (H : forall l c d e, d = e + c * (v - u) -> mulc d (mulc c l u) v = mulc e (mulc c l v) u).
  { clear l. induction l as [|a l IH]; intros c d e E; cbn [mulc].
    - f_equal. rewrite E. ring.
    - f_equal; [rewrite E; ring|]. apply IH. ring. }
  apply H. ring.
Qed.

(** The product of the [X - x]. *)
Definition prod (xs : list F4) : list F4 := foldl mulx [1] xs.

Lemma foldl_mulx_comm b : forall l x, foldl mulx (mulx l x) b = mulx (foldl mulx l b) x.
Proof. induction b as [|y b IH]; intros l x; [done|]. cbn [foldl]. by rewrite <- IH, mulx_comm. Qed.
Lemma prod_middle a x b : prod (a ++ x :: b) = mulx (prod (a ++ b)) x.
Proof. unfold prod. rewrite !foldl_app. cbn [foldl]. apply foldl_mulx_comm. Qed.
Lemma prod_length xs : length (prod xs) = S (length xs).
Proof.
  assert (H : forall l, length (foldl mulx l xs) = (length l + length xs)%nat); [|apply H].
  induction xs as [|x xs IH]; intros l; cbn [foldl length]; [lia|]. rewrite IH. unfold mulx. rewrite mulc_length. lia.
Qed.
Lemma prod_root xs y : lval (prod xs) y = 0 <-> y ∈ xs.
Proof.
  induction xs as [|x xs IH] using rev_ind.
  - split; [|by intros ?%not_elem_of_nil]. intros E. exfalso. apply (f_one_zero (E := F4)). rewrite <- E.
    change (lval (prod []) y) with (1 + y * 0). ring.
  - unfold prod in *. rewrite foldl_app. cbn [foldl]. rewrite mulx_value, elem_of_app, list_elem_of_singleton, <- IH. split.
    + intros [E|E]%f4_integral; [by left|right]. transitivity (y - x + x); [ring|rewrite E; ring].
    + intros [-> | ->]; ring.
Qed.
End Polynomials.

Section Interpolation.
Context {Er : Type}.
Open Scope f4_scope.
Abbreviation O_ := (outcome Er).

Lemma lookup_here {A} (pre : list A) a suf n : length pre = n -> (pre ++ a :: suf) !! n = Some a.
Proof. intros <-. by apply list_lookup_middle. Qed.
Lemma lookup_next {A} (pre : list A) a b suf n : length pre = n -> (pre ++ a :: b :: suf) !! S n = Some b.
Proof. intros <-. rewrite lookup_app_r by lia. by replace (S (length pre) - length pre)%nat with 1%nat by lia. Qed.
Lemma insert_here {A} (pre : list A) a b suf n : length pre = n -> <[n := b]> (pre ++ a :: suf) = pre ++ b :: suf.
Proof. intros <-. by rewrite insert_app_r_alt, Nat.sub_diag by lia. Qed.
Lemma insert_next {A} (pre : list A) a b c suf n : length pre = n -> <[S n := c]> (pre ++ a :: b :: suf) = pre ++ a :: c :: suf.
Proof. intros <-. rewrite insert_app_r_alt by lia. by replace (S (length pre) - length pre)%nat with 1%nat by lia. Qed.

Lemma mul_root_loop_run pre x : forall suf k,
  (Poly.mul_root_loop (rev (seq 0 (length pre))) (elem x) (map elem (pre ++ mulc 0 suf x ++ replicate k 0)) : O_ _)
  = Ok (map elem (mulc 0 (pre ++ suf) x ++ replicate k 0)).
Proof.
  induction pre as [|a pre IH] using rev_ind; intros suf k; [done|].
  rewrite length_app, Nat.add_1_r, seq_S, rev_app_distr. cbn [rev app Poly.mul_root_loop Nat.add].
  assert (Hm : exists h t, mulc 0 suf x = h :: t /\ mulc a suf x = (h + a) :: t).
  { destruct suf as [|b suf]; cbn [mulc]; do 2 eexists; (split; [reflexivity|]); f_equal; ring. }
  destruct Hm as (h & t & -> & Ec).
  rewrite <- !app_assoc, !map_app. cbn [app map].
  pose proof (length_map elem pre) as Hl. rewrite (lookup_here _ _ _ _ Hl), (lookup_next _ _ _ _ _ Hl). cbn [unwrap mbind outcome_bind].
  rewrite (insert_next _ _ _ _ _ _ Hl), (insert_here _ _ _ _ _ Hl).
  specialize (IH (a :: suf) k). cbn [mulc] in IH. rewrite Ec in IH. replace (0 + a * - x) with (a * - x) in IH by ring.
  rewrite !map_app in IH. cbn [map app] in IH. exact IH.
Qed.

Lemma product_loop_run xs : forall l k, (1 <= length l)%nat ->
  (Poly.product_loop (length l - 1) (map elem xs) (map elem (l ++ replicate (length xs + k) 0)) : O_ _)
  = Ok (map elem (foldl mulx l xs ++ replicate k 0)).
Proof.
  induction xs as [|x xs IH]; intros l k Hl; [done|]. cbn [map Poly.product_loop length].
  replace (length l - 1 + 1)%nat with (length l) by lia.
  pose proof (mul_root_loop_run l x [] (length xs + k)) as H. cbn [mulc app] in H. rewrite app_nil_r in H.
  cbn [Nat.add replicate]. rewrite H. cbn [mbind outcome_bind foldl].
  replace (S (length l - 1)) with (length (mulx l x) - 1)%nat by (unfold mulx; rewrite mulc_length; lia).
  apply IH. unfold mulx. rewrite mulc_length. lia.
Qed.

Lemma add_loop_run mul fs extra : forall pre fpre os, length fpre = length pre -> length os = length fs ->
  (Poly.add_loop (seq (length pre) (length fs)) (elem mul) (map elem (fpre ++ fs ++ extra)) (map elem (pre ++ os)) : O_ _)
  = Ok (map elem (pre ++ zip_with (fun o f => o + mul * f) os fs)).
Proof.
  induction fs as [|f fs IH]; intros pre fpre [|o os] Hp Hl; try done.
  cbn [length seq Poly.add_loop zip_with]. rewrite !map_app. cbn [map app].
  rewrite (lookup_here (map elem pre)) by (by rewrite length_map).
  rewrite (lookup_here (map elem fpre)) by (by rewrite length_map). cbn [unwrap mbind outcome_bind].
  rewrite insert_here by (by rewrite length_map).
  change (fadd (elem o) (fmul (elem mul) (elem f))) with (elem (o + mul * f)).
  specialize (IH (pre ++ [o + mul * f]) (fpre ++ [f]) os). rewrite !length_app, !map_app, <- !app_assoc in IH. cbn [length map app] in IH.
  rewrite (Nat.add_1_r (length pre)) in IH. apply IH; [lia|by injection Hl].
Qed.

Lemma map_replicate {A B} (f : A -> B) n x : map f (replicate n x) = replicate n (f x).
Proof. apply fmap_replicate. Qed.
Lemma map_const {A B} (l : list A) (b : B) : map (fun _ => b) l = replicate (length l) b.
Proof. induction l as [|a l IH]; cbn; congruence. Qed.

(** The other points. *)
Definition others (i : nat) (xs : list F4) : list F4 := take i xs ++ drop (S i) xs.

Lemma prod_others xs i x : xs !! i = Some x -> prod xs = mulx (prod (others i xs)) x.
Proof. intros E. rewrite <- (take_drop_middle xs i x E) at 1. apply prod_middle. Qed.

Lemma others_length xs i : (i < length xs)%nat -> S (length (others i xs)) = length xs.
Proof. intros Hi. unfold others. rewrite length_app, length_take, length_drop. lia. Qed.

Lemma elem_of_others xs i x t y : NoDup xs -> xs !! i = Some x -> xs !! t = Some y -> y ∈ others i xs <-> t <> i.
Proof.
  intros Hnd Ex Ey. unfold others. rewrite elem_of_app, elem_of_take, list_elem_of_lookup. split.
  - intros [(j & Hj & Hlt)|(j & Hj)] ->.
    + pose proof (NoDup_lookup _ _ _ _ Hnd Hj Ey). lia.
    + rewrite lookup_drop in Hj. pose proof (NoDup_lookup _ _ _ _ Hnd Hj Ey). lia.
  - intros Hne. destruct (decide (t < i)%nat); [left; eauto|right]. exists (t - S i)%nat. rewrite lookup_drop.
    by replace (S i + (t - S i))%nat with t by lia.
Qed.

Lemma lval_add_scaled m y : forall os fs, length os = length fs ->
  lval (zip_with (fun o f => o + m * f) os fs) y = lval os y + m * lval fs y.
Proof.
  induction os as [|o os IH]; intros [|f fs] H; try done; [change (0 = 0 + m * 0); ring|].
  cbn [zip_with]. rewrite !lval_cons, IH by (by injection H). ring.
Qed.

Lemma interpolate_loop_run xs fxs n : NoDup xs -> length xs = n -> length fxs = n -> forall k j out,
  (j + k = n)%nat -> length out = n -> (forall t x, xs !! t = Some x -> lval out x = if decide (t < j)%nat then nth t fxs 0 else 0) ->
  exists out', (Poly.interpolate_loop (seq j k) n (map elem (prod xs)) (map elem xs) (map elem fxs) (map elem out) : O_ _) = Ok (map elem out') /\
    length out' = n /\ forall t x, xs !! t = Some x -> lval out' x = nth t fxs 0.
Proof.
  intros Hnd Hx Hf. induction k as [|k IH]; intros j out Hj Hl Hout.
  { exists out. split_and!; [done..|]. intros t x Ht. rewrite (Hout _ _ Ht), decide_True; [done|]. apply lookup_lt_Some in Ht. lia. }
  destruct (lookup_lt_is_Some_2 xs j ltac:(lia)) as [xj Ex]. destruct (lookup_lt_is_Some_2 fxs j ltac:(lia)) as [fj Ef].
  cbn [seq Poly.interpolate_loop]. change (map elem ?l !! ?i) with ((elem <$> l) !! i). rewrite !list_lookup_fmap, Ex, Ef. cbn [fmap option_fmap option_map unwrap mbind outcome_bind].
  change (elem <$> prod xs) with (map elem (prod xs)). rewrite poly_divide_run, (prod_others xs j xj Ex), divr_mulx, <- (prod_others xs j xj Ex). cbn [fst].
  set (l := prod (others j xs)). rewrite poly_eval_run.
  change (fmul (elem fj) (finv (elem (lval (l ++ [0]) xj)))) with (elem (fj * finv (lval (l ++ [0]) xj))). set (m := fj * finv _).
  assert (Hll : length l = n) by (unfold l; rewrite prod_length; rewrite others_length; lia).
  assert (El : forall y, lval (l ++ [0]) y = lval l y) by (intros; rewrite lval_app; change (lval [0] ?y) with (0 + y * 0); ring).
  pose proof (add_loop_run m l [0] [] [] out eq_refl ltac:(lia)) as Ha. cbn [app length] in Ha. rewrite Hll in Ha. rewrite Ha. cbn [mbind outcome_bind].
  apply IH; [lia|rewrite length_zip_with; lia|].
  intros t x Ht. rewrite lval_add_scaled by lia. rewrite (Hout _ _ Ht). pose proof (elem_of_others xs j xj t x Hnd Ex Ht) as Ho.
  pose proof (prod_root (others j xs) x) as Hroot. fold l in Hroot. destruct (decide (t = j)) as [->|Hne].
  - assert (x = xj) as -> by congruence. rewrite decide_False, decide_True by lia. unfold m. rewrite El, (nth_lookup_Some _ _ _ _ Ef).
    assert (Hnz : lval l xj <> 0) by (intros E%Hroot; by apply Ho).
    transitivity (fj * (lval l xj * finv (lval l xj))); [ring|]. rewrite f_inv by done. ring.
  - assert (lval l x = 0) as -> by (by apply Hroot, Ho). destruct (decide (t < j)%nat), (decide (t < S j)%nat); try lia; ring.
Qed.

(** C30: Interpolation through distinct points: [poly_interpolate] returns the coefficients of
    a polynomial, of degree below the number of points, with the given values at them. *)
Theorem poly_interpolate_correct xs fxs out n : NoDup xs -> length xs = n -> length fxs = n -> length out = n -> (1 <= n)%nat ->
  exists cs, (Poly.poly_interpolate (map elem out) (map elem xs) (map elem fxs) n : O_ _) = Ok (map elem cs) /\ length cs = n /\
    forall i x fx, xs !! i = Some x -> fxs !! i = Some fx -> Poly.poly_eval (map elem cs) (elem x) = elem fx.
Proof.
  intros Hnd Hx Hf Ho Hn.
  assert (Hgen : (exists cs, (Poly.poly_interpolate (map elem out) (map elem xs) (map elem fxs) n : O_ _) = Ok (map elem cs) /\ length cs = n /\
    forall i x, xs !! i = Some x -> lval cs x = nth i fxs 0)).
  { unfold Poly.poly_interpolate. destruct (Nat.eqb_spec n 1) as [->|H1].
    - destruct xs as [|x0 [|]], fxs as [|f0 [|]], out as [|o0 [|]]; try done.
      exists [f0]. split_and!; [done..|]. intros [|i] x Ei; [|by destruct i]. cbn [nth]. change (f0 + x * 0 = f0). ring.
    - destruct (Nat.eqb_spec n 2) as [->|H2].
      + destruct xs as [|x0 [|x1 [|]]], fxs as [|f0 [|f1 [|]]], out as [|o0 [|o1 [|]]]; try done.
        exists [f0 - (f1 - f0) * finv (x1 - x0) * x0; (f1 - f0) * finv (x1 - x0)]. split_and!; [done..|].
        assert (Hinv : (x1 - x0) * finv (x1 - x0) = 1).
        { apply f_inv. intros E. apply NoDup_cons in Hnd as [Hni _]. apply Hni. rewrite list_elem_of_singleton.
          transitivity (x1 - (x1 - x0)); [ring|rewrite E; ring]. }
        set (d := finv (x1 - x0)) in *. intros [|[|i]] x Ei; [..|by destruct i]; injection Ei as <-; cbn [nth]; rewrite !lval_cons;
          change (lval [] ?x) with 0; [ring|]. transitivity (f0 + (f1 - f0) * ((x1 - x0) * d)); [ring|]. rewrite Hinv. ring.
      + pose proof (product_loop_run xs [1] 0 ltac:(cbn; lia)) as Hp. rewrite Nat.add_0_r, app_nil_r in Hp. rewrite Hx in Hp. cbn [length Nat.sub] in Hp.
        rewrite take_ge by (rewrite length_map; lia). rewrite Nat.add_1_r.
        change (<[O := ONE]> (replicate (S n) ZERO)) with (ONE (E := ExtElem) :: replicate n ZERO).
        replace (ONE (E := ExtElem) :: replicate n ZERO) with (map elem ([1] ++ replicate n 0)) by (cbn [app map]; by rewrite map_replicate).
        rewrite Hp. cbn [mbind outcome_bind].
        replace (map (fun _ => ZERO) (map elem out)) with (map elem (replicate n 0)) by (by rewrite map_replicate, map_const, length_map, Ho).
        apply interpolate_loop_run; try done; [apply length_replicate|]. intros t x Ht. rewrite decide_False by lia. apply lval_zeros. }
  destruct Hgen as (cs & E & Hlc & Hv). exists cs. split_and!; [done..|]. intros i x fx Ex Ef. rewrite poly_eval_run, (Hv _ _ Ex).
  by rewrite (nth_lookup_Some _ _ _ _ Ef).
Qed.
End Interpolation.

Lemma poly_interpolate_correct_witness : exists cs,
  (Poly.poly_interpolate (map elem (replicate 3 (ZERO (E := F4)))) (map elem [scalar 1; scalar 2; scalar 5]) (map elem [scalar 7; scalar 8; scalar 9]) 3 : outcome unit _) = Ok (map elem cs) /\
  length cs = 3%nat /\ forall i x fx, [scalar 1; scalar 2; scalar 5] !! i = Some x -> [scalar 7; scalar 8; scalar 9] !! i = Some fx ->
    Poly.poly_eval (map elem cs) (elem x) = elem fx.
Proof.
  apply (poly_interpolate_correct [scalar 1; scalar 2; scalar 5] [scalar 7; scalar 8; scalar 9] (replicate 3 (ZERO (E := F4))) 3); try done; [|lia].
  apply (bool_decide_eq_true_1 _). by vm_compute.
Defined.
