(* ===== verification/Circuit.v ===== *)
(** * What a circuit tells the verifier

    The taps (which columns of the trace are read, at which rows back), their iterators,
    and the straight-line programs of the constraint polynomials.  Both are data that the
    circuit generator writes; the code that reads them is modelled here. *)
From S2P Require Export BabyBear.
Open Scope Z_scope.

Module Taps.

(* source: src/risc0/risc0/zkp/src/taps.rs *)

(* L24-35 TapData *)
Record TapData := mkTap { offset : nat; back : nat; group : nat; combo : nat; skip : nat }.

(* L37-41 TapData::eq *)
Definition tap_eq (self other : TapData) : bool :=
  (offset self =? offset other)%nat && (back self =? back other)%nat && (group self =? group other)%nat.
(* L43-55 TapData::partial_cmp *)
Definition tap_cmp (self other : TapData) : comparison :=
  match Nat.compare (group self) (group other) with
  | Eq => match Nat.compare (offset self) (offset other) with
          | Eq => Nat.compare (back self) (back other)
          | ord => ord
          end
  | ord => ord
  end.

(** The names of the groups count; what they are only shows in messages. *)
(* L57-67 TapSet *)
Record TapSet := mkTaps {
  taps_data : list TapData; combo_taps : list nat; combo_begin : list nat; group_begin : list nat;
  combos_count : nat; reg_count : nat; tot_combo_backs : nat; group_names : list nat }.

(** A register is a position in the taps. *)
(* L150-153 RegisterRef *)
Record RegisterRef := mkReg { reg_data : list TapData; cursor : nat }.

Section Access.
Context {Er : Type}.
Abbreviation O_ := (outcome Er).

Definition reg_tap (self : RegisterRef) (i : nat) : O_ TapData := unwrap (reg_data self !! (cursor self + i)%nat).
(* L156-158 RegisterRef::group *)
Definition reg_group (self : RegisterRef) : O_ nat := group <$> reg_tap self 0.
(* L160-162 RegisterRef::offset *)
Definition reg_offset (self : RegisterRef) : O_ nat := offset <$> reg_tap self 0.
(* L164-166 RegisterRef::combo_id *)
Definition reg_combo_id (self : RegisterRef) : O_ nat := combo <$> reg_tap self 0.
(* L168-171 RegisterRef::size *)
Definition reg_size (self : RegisterRef) : O_ nat := skip <$> reg_tap self 0.
(* L173-176 RegisterRef::back *)
Definition reg_back (self : RegisterRef) (i : nat) : O_ nat := back <$> reg_tap self i.

(* L203-207 RegisterIter *)
Record RegisterIter := mkRegIter { iter_data : list TapData; iter_cursor : nat; iter_end : nat }.
(* L209-227 RegisterIter::next *)
Definition regs_next (self : RegisterIter) : option (RegisterRef * RegisterIter) :=
  cursor_tap ← iter_data self !! iter_cursor self;
  let next := (iter_cursor self + skip cursor_tap)%nat in
  if (iter_end self <? next)%nat then None
  else Some (mkReg (iter_data self) (iter_cursor self), mkRegIter (iter_data self) next (iter_end self)).

(** Collecting an iterator.  A register of size zero is yielded for ever; the fuel is
    one more than the taps there are, which is enough when there is none. *)
Fixpoint regs_collect (fuel : nat) (it : RegisterIter) : O_ (list RegisterRef) :=
  match fuel with
  | O => Panic
  | S fuel => match regs_next it with
              | None => Ok []
              | Some (r, it) => rs ← regs_collect fuel it; Ok (r :: rs)
              end
  end.

(* L262-266 TapIter *)
Record TapIter := mkTapIter { tap_data : list TapData; tap_cursor : nat; tap_end : nat }.
(* L268-282 TapIter::next *)
Definition taps_next (self : TapIter) : option (O_ TapData * TapIter) :=
  let next := S (tap_cursor self) in
  if (tap_end self <? next)%nat then None
  else Some (unwrap (tap_data self !! tap_cursor self), mkTapIter (tap_data self) next (tap_end self)).

Definition group_begin_at (self : TapSet) (i : nat) : O_ nat := unwrap (group_begin self !! i).

(* L70-72 TapSet::num_groups *)
Definition num_groups (self : TapSet) : nat := length (group_names self).
(* L74-76 TapSet::tap_size *)
Definition tap_size (self : TapSet) : O_ nat := group_begin_at self (num_groups self).
(* L78-84 TapSet::taps *)
Definition taps (self : TapSet) : O_ TapIter := end_ ← group_begin_at self (num_groups self); Ok (mkTapIter (taps_data self) 0 end_).
(* L86-92 TapSet::regs *)
Definition regs_iter (self : TapSet) : O_ RegisterIter := end_ ← group_begin_at self (num_groups self); Ok (mkRegIter (taps_data self) 0 end_).
(* L94-100 TapSet::group_taps *)
Definition group_taps (self : TapSet) (group_id : nat) : O_ TapIter :=
  cursor ← group_begin_at self group_id; end_ ← group_begin_at self (group_id + 1); Ok (mkTapIter (taps_data self) cursor end_).
(* L102-108 TapSet::group_regs *)
Definition group_regs (self : TapSet) (group_id : nat) : O_ RegisterIter :=
  cursor ← group_begin_at self group_id; end_ ← group_begin_at self (group_id + 1); Ok (mkRegIter (taps_data self) cursor end_).
(** An empty first group would have the index before the first, which is out of range. *)
(* L110-114 TapSet::group_size *)
Definition group_size (self : TapSet) (group_id : nat) : O_ nat :=
  next ← group_begin_at self (group_id + 1);
  _ ← assert_ (0 <? next)%nat;
  last ← unwrap (taps_data self !! (next - 1)%nat);
  Ok (offset last + 1)%nat.
(* L116-118 TapSet::group_name *)
Definition group_name (self : TapSet) (group_id : nat) : O_ nat := unwrap (group_names self !! group_id).
(* L120-122 TapSet::combos_size *)
Definition combos_size (self : TapSet) : nat := combos_count self.

(** The registers in the order of their iterator. *)
Definition regs (self : TapSet) : O_ (list RegisterRef) := it ← regs_iter self; regs_collect (S (length (taps_data self))) it.

(* L295-298 ComboRef *)
Record ComboRef := mkCombo { c_taps : list nat; c_offsets : list nat; combo_id : nat }.
(* L139-147 TapSet::get_combo *)
Definition get_combo (self : TapSet) (id : nat) : ComboRef := mkCombo (combo_taps self) (combo_begin self) id.
(* L313-315 ComboRef::self_offset *)
Definition self_offset (self : ComboRef) : O_ nat := unwrap (c_offsets self !! combo_id self).
(* L317-319 ComboRef::next_offset *)
Definition next_offset (self : ComboRef) : O_ nat := unwrap (c_offsets self !! (combo_id self + 1)%nat).

(** [&v[from..to]]. *)
Definition slice {A} (v : list A) (from to : nat) : O_ (list A) :=
  _ ← assert_ ((from <=? to)%nat && (to <=? length v)%nat);
  Ok (take (to - from) (drop from v)).

(* L305-307 ComboRef::size *)
Definition combo_size (self : ComboRef) : O_ nat := next ← next_offset self; begin ← self_offset self; Ok (next - begin)%nat.
(* L309-311 ComboRef::slice *)
Definition combo_slice (self : ComboRef) : O_ (list nat) :=
  begin ← self_offset self; next ← next_offset self; slice (c_taps self) begin next.

(* L322-326 ComboIter *)
Record ComboIter := mkComboIter { ci_taps : list nat; ci_offsets : list nat; ci_id : nat; ci_end : nat }.
(* L128-137 TapSet::combos *)
Definition combos (self : TapSet) : ComboIter := mkComboIter (combo_taps self) (combo_begin self) 0 (combos_count self).
(* L328-343 ComboIter::next *)
Definition combos_next (self : ComboIter) : option (ComboRef * ComboIter) :=
  let next := S (ci_id self) in
  if (ci_end self <? next)%nat then None
  else Some (mkCombo (ci_taps self) (ci_offsets self) (ci_id self), mkComboIter (ci_taps self) (ci_offsets self) next (ci_end self)).

End Access.
End Taps.

Module Adapter.

(* source: src/risc0/risc0/zkp/src/adapter.rs *)

(* L31-31 REGISTER_GROUP_ACCUM *)
Definition REGISTER_GROUP_ACCUM : nat := 0.
(* L32-32 REGISTER_GROUP_CODE *)
Definition REGISTER_GROUP_CODE : nat := 1.
(* L33-33 REGISTER_GROUP_DATA *)
Definition REGISTER_GROUP_DATA : nat := 2.

(* L95-96 ProtocolInfo *)
Definition ProtocolInfo : Type := list Z.
(* L98-109 ProtocolInfo::encode *)
Definition encode (self : ProtocolInfo) : list Z := map Elem.from_u64 self.
(* L124-124 PROOF_SYSTEM_INFO *)
Definition PROOF_SYSTEM_INFO : ProtocolInfo := [82; 73; 83; 67; 48; 95; 83; 84; 65; 82; 75; 58; 118; 49; 95; 95].

(* L46-51 MixState *)
Record MixState := mkMix { tot : ExtElem; mul : ExtElem }.

(* L155-167 PolyExtStep *)
Inductive PolyExtStep :=
  | Const (value : Z)
  | ConstExt (x0 x1 x2 x3 : Z)
  | Get (tap : nat)
  | GetGlobal (base offset : nat)
  | Add (x1 x2 : nat)
  | Sub (x1 x2 : nat)
  | Mul (x1 x2 : nat)
  | True_
  | AndEqz (chain inner : nat)
  | AndCond (chain cond inner : nat).

(* L149-152 PolyExtStepDef *)
Record PolyExtStepDef := mkDef { block : list PolyExtStep; ret : nat }.

(** The variables of the two kinds; the indices kept for debugging are left out. *)
(* L180-190 PolyExtExecutor *)
Record Vars := mkVars { fp_vars : list ExtElem; mix_vars : list MixState }.

Section Execution.
Context {Er : Type} (mix : ExtElem) (u : list ExtElem) (args : list (list Z)).
Abbreviation O_ := (outcome Er).

Definition fp (s : Vars) (i : nat) : O_ ExtElem := unwrap (fp_vars s !! i).
Definition mixv (s : Vars) (i : nat) : O_ MixState := unwrap (mix_vars s !! i).
(* L310-314 PolyExtExecutor::push_fp *)
Definition push_fp (val : ExtElem) (s : Vars) : Vars := mkVars (fp_vars s ++ [val]) (mix_vars s).
(* L316-320 PolyExtExecutor::push_mix *)
Definition push_mix (val : MixState) (s : Vars) : Vars := mkVars (fp_vars s) (mix_vars s ++ [val]).

(* L322-406 PolyExtExecutor::step *)
Definition step (op : PolyExtStep) (s : Vars) : O_ Vars :=
  match op with
  | Const value => Ok (push_fp (Ext.from_fp (Elem.from_u64 value)) s)
  | ConstExt x0 x1 x2 x3 =>
      Ok (push_fp (mkExt (Elem.from_u64 x0) (Elem.from_u64 x1) (Elem.from_u64 x2) (Elem.from_u64 x3)) s)
  | Get tap => val ← unwrap (u !! tap); Ok (push_fp val s)
  | GetGlobal base offset =>
      arg ← unwrap (args !! base); elem ← unwrap (arg !! offset); Ok (push_fp (Ext.from_subfield elem) s)
  | Add x1 x2 => a ← fp s x1; b ← fp s x2; Ok (push_fp (Ext.add a b) s)
  | Sub x1 x2 => a ← fp s x1; b ← fp s x2; Ok (push_fp (Ext.sub a b) s)
  | Mul x1 x2 => a ← fp s x1; b ← fp s x2; Ok (push_fp (Ext.mul a b) s)
  | True_ => Ok (push_mix (mkMix Ext.zero Ext.one) s)
  | AndEqz chain inner =>
      chain ← mixv s chain; inner ← fp s inner;
      Ok (push_mix (mkMix (Ext.add (tot chain) (Ext.mul (mul chain) inner)) (Ext.mul (mul chain) mix)) s)
  | AndCond chain cond inner =>
      chain ← mixv s chain; cond ← fp s cond; inner ← mixv s inner;
      Ok (push_mix (mkMix (Ext.add (tot chain) (Ext.mul (Ext.mul cond (tot inner)) (mul chain)))
                          (Ext.mul (mul chain) (mul inner))) s)
  end.

Fixpoint steps (ops : list PolyExtStep) (s : Vars) : O_ Vars :=
  match ops with
  | [] => Ok s
  | op :: ops => s ← step op s; steps ops s
  end.

(** The expected counts are the capacities of [new]; they wrap below zero. *)
(* L192-234 PolyExtExecutor::new, run *)
Definition run (def : PolyExtStepDef) : O_ MixState :=
  let mix_expected := Z.of_nat (ret def) + 1 in
  let fp_expected := wrap 64 (Z.of_nat (length (block def)) - mix_expected) in
  s ← steps (block def) (mkVars [] []);
  _ ← assert_ (Z.of_nat (length (fp_vars s)) =? fp_expected);
  _ ← assert_ (Z.of_nat (length (mix_vars s)) =? mix_expected);
  mixv s (ret def).

(* L170-177 PolyExtStepDef::step *)
Definition poly_ext (def : PolyExtStepDef) : O_ MixState := run def.

End Execution.
End Adapter.
