(* ===== verification/CircuitSpec.v ===== *)
(** * Constraint programs mean the constraints they were made of

    The interpreter of [adapter.rs] folds the constraints of a program into one value
    with the powers of a random [mix].  The reference semantics below reads the same
    steps as a conjunction of equations, some of them under a condition, and needs no
    [mix]; the theorem relates the two. *)
From S2P Require Export Circuit PolySpec.
Import Adapter.
Open Scope Z_scope.

Section Roots.
Open Scope f4_scope.

Definition zeros (l : list F4) : Prop := Forall (fun a => a = 0) l.

Lemma lval_zero l x : zeros l -> lval l x = 0.
Proof. induction 1 as [|a l -> _ IH]; [done|]. rewrite lval_cons, IH. ring. Qed.

Lemma divr_zeros l z : zeros (fst (divr l z)) -> snd (divr l z) = 0 -> zeros l.
Proof.
  induction l as [|a l IH]; [done|]. cbn [divr]. destruct (divr l z) as [q r]. cbn [fst snd] in *.
  unfold zeros in *. intros [-> Hq]%Forall_cons E. constructor; [|by apply IH]. rewrite <- E. ring.
Qed.

Lemma divr_drop l z : forall n, zeros (drop (S n) l) -> zeros (drop n (fst (divr l z))).
Proof.
  assert (H0 : forall l, zeros l -> zeros (fst (divr l z)) /\ snd (divr l z) = 0).
  { clear l. induction 1 as [|a l -> _ [IH1 IH2]]; [by split; [apply Forall_nil|]|]. cbn [divr]. destruct (divr l z) as [q r]. cbn [fst snd] in *. subst r.
    split; [by apply Forall_cons|ring]. }
  induction l as [|a l IH]; intros n Hz; [by destruct n; apply Forall_nil|]. cbn [drop] in Hz. cbn [divr]. destruct n as [|n].
  - cbn [drop] in Hz. destruct (H0 l Hz) as [H1 H2]. destruct (divr l z) as [q r]. by apply Forall_cons.
  - specialize (IH n Hz). by destruct (divr l z) as [q r].
Qed.

(** A polynomial that is not zero has fewer roots than coefficients. *)
Lemma roots_bound bad : NoDup bad -> forall n l, zeros (drop n l) -> ~ zeros l -> (forall x, x ∈ bad -> lval l x = 0) -> (length bad < n)%nat.
Proof.
  induction 1 as [|b bad Hb Hnd IH]; intros n l Hn Hl Hroot.
  - destruct n; [by destruct Hl|cbn; lia].
  - destruct n as [|n]; [by destruct Hl|]. cbn [length].
    assert (Hr : snd (divr l b) = 0).
    { rewrite <- (Hroot b) by set_solver. rewrite (divr_value l b b). ring. }
    enough (length bad < n)%nat by lia. apply (IH n (fst (divr l b))); [by apply divr_drop|intros Hz; by apply Hl, (divr_zeros l b)|].
    intros x Hx. specialize (Hroot x ltac:(set_solver)). rewrite (divr_value l b x), Hr in Hroot.
    assert (E : lval (fst (divr l b)) x * (x - b) = 0) by (rewrite <- Hroot; ring).
    apply f4_integral in E as [E|E]; [done|]. destruct Hb. replace b with x; [done|]. transitivity (x - b + b); [ring|rewrite E; ring].
Qed.

Lemma zeros_app l k : zeros (l ++ k) <-> zeros l /\ zeros k.
Proof. apply Forall_app. Qed.
Lemma zeros_scale c l : zeros (map (fmul c) l) <-> c = 0 \/ zeros l.
Proof.
  induction l as [|a l IH]; cbn [map]; [split; [by right|by constructor]|]. unfold zeros in *. rewrite !Forall_cons, IH. split.
  - intros [E [->|Hz]]; [by left|]. apply f4_integral in E as [->| ->]; auto.
  - intros [->|[-> Hz]]; (split; [ring|auto]).
Qed.
Lemma lval_scale c l x : lval (map (fmul c) l) x = c * lval l x.
Proof. induction l as [|a l IH]; cbn [map]; [change (0 = c * 0); ring|]. rewrite !lval_cons, IH. ring. Qed.
End Roots.

(** ** The reference semantics *)

Lemma scalar4_ereduced x0 x1 x2 x3 : ereduced (mkExt (Elem.new (x0 mod P)) (Elem.new (x1 mod P)) (Elem.new (x2 mod P)) (Elem.new (x3 mod P))).
Proof. eapply erep_ereduced, erep_intro; apply rep_scalar. Qed.
(** The element with these coordinates. *)
Definition scalar4 (x0 x1 x2 x3 : Z) : F4 := f4 _ (scalar4_ereduced x0 x1 x2 x3).

Section Reference.
Context (u : list F4) (globals : list (list F4)).

(** The values of the expressions; of each conjunction, whether it holds and how many
    equations it has. *)
Record Meaning := mkMeaning { values : list F4; conjunctions : list (bool * nat) }.

Definition value (v : F4) (s : Meaning) : Meaning := mkMeaning (values s ++ [v]) (conjunctions s).
Definition conj (c : bool * nat) (s : Meaning) : Meaning := mkMeaning (values s) (conjunctions s ++ [c]).

Definition meaning_step (op : PolyExtStep) (s : Meaning) : option Meaning :=
  match op with
  | Const v => Some (value (scalar v) s)
  | ConstExt x0 x1 x2 x3 => Some (value (scalar4 x0 x1 x2 x3) s)
  | Get tap => v ← u !! tap; Some (value v s)
  | GetGlobal base offset => g ← globals !! base; v ← g !! offset; Some (value v s)
  | Add x1 x2 => a ← values s !! x1; b ← values s !! x2; Some (value (a + b)%f4 s)
  | Sub x1 x2 => a ← values s !! x1; b ← values s !! x2; Some (value (a - b)%f4 s)
  | Mul x1 x2 => a ← values s !! x1; b ← values s !! x2; Some (value (a * b)%f4 s)
  | True_ => Some (conj (true, 0%nat) s)
  | AndEqz chain inner =>
      '(p, n) ← conjunctions s !! chain; v ← values s !! inner; Some (conj (p && bool_decide (v = 0%f4), S n) s)
  | AndCond chain cond inner =>
      '(p, n) ← conjunctions s !! chain; c ← values s !! cond; '(q, m) ← conjunctions s !! inner;
      Some (conj (p && (bool_decide (c = 0%f4) || q), (n + m)%nat) s)
  end.

Fixpoint meaning_steps (ops : list PolyExtStep) (s : Meaning) : option Meaning :=
  match ops with
  | [] => Some s
  | op :: ops => s ← meaning_step op s; meaning_steps ops s
  end.

(** Whether the constraints of a program hold, and how many there are. *)
Definition meaning (def : PolyExtStepDef) : option (bool * nat) :=
  s ← meaning_steps (block def) (mkMeaning [] []); conjunctions s !! ret def.
End Reference.

(** ** Programs whose references are in range *)

(** With [nf] expressions and [nm] conjunctions so far, [nu] taps and globals of sizes [na]. *)
Definition step_ok (nu : nat) (na : list nat) (op : PolyExtStep) (nf nm : nat) : bool :=
  match op with
  | Const _ | ConstExt _ _ _ _ | True_ => true
  | Get tap => tap <? nu
  | GetGlobal base offset => match na !! base with Some k => offset <? k | None => false end
  | Add x1 x2 | Sub x1 x2 | Mul x1 x2 => (x1 <? nf) && (x2 <? nf)
  | AndEqz chain inner => (chain <? nm) && (inner <? nf)
  | AndCond chain cond inner => (chain <? nm) && (cond <? nf) && (inner <? nm)
  end%nat.
Definition is_conj (op : PolyExtStep) : bool := match op with True_ | AndEqz _ _ | AndCond _ _ _ => true | _ => false end.

Fixpoint block_ok (nu : nat) (na : list nat) (ops : list PolyExtStep) (nf nm : nat) : bool :=
  match ops with
  | [] => true
  | op :: ops => step_ok nu na op nf nm && (if is_conj op then block_ok nu na ops nf (S nm) else block_ok nu na ops (S nf) nm)
  end.
(** The result is the last conjunction, and the lengths are those of vectors. *)
Definition def_ok (nu : nat) (na : list nat) (def : PolyExtStepDef) : bool :=
  block_ok nu na (block def) 0 0 && (length (filter (fun op => is_conj op = true) (block def)) =? S (ret def))%nat &&
  (Z.of_nat (length (block def)) <? 2 ^ 64).

(** ** The interpreter *)

Section Interpreter.
Context {Er : Type} (u : list F4) (globals : list (list F4)) (args : list (list Z)).
Context (Hargs : Forall2 (Forall2 brepr) args globals).
Abbreviation O_ := (outcome Er).

(** What the interpreter holds for the constraints [c]: they are mixed by powers. *)
Definition mixed (mix : F4) (c : list F4) : MixState := mkMix (elem (lval c mix)) (elem (fpow mix (length c))).
Definition vars (mix : F4) (m : Meaning) (cs : list (list F4)) : Vars := mkVars (map elem (values m)) (map (mixed mix) cs).

Definition zerob (c : list F4) : bool := forallb (fun a => bool_decide (a = 0%f4)) c.
Definition conj_of (c : list F4) : bool * nat := (zerob c, length c).

Lemma zerob_spec c : zerob c = true <-> zeros c.
Proof.
  unfold zerob, zeros. rewrite forallb_forall, Forall_forall. setoid_rewrite list_elem_of_In. split; intros H x Hx.
  - by apply (bool_decide_eq_true_1 _ (H x Hx)).
  - by apply bool_decide_eq_true_2, H.
Qed.

Lemma zerob_snoc c v : zerob (c ++ [v]) = zerob c && bool_decide (v = 0%f4).
Proof. unfold zerob. rewrite forallb_app. cbn. by rewrite andb_true_r. Qed.
Lemma zerob_cond c v d : zerob (c ++ map (fmul v) d) = zerob c && (bool_decide (v = 0%f4) || zerob d).
Proof.
  apply eq_true_iff_eq. rewrite andb_true_iff, orb_true_iff, bool_decide_eq_true, !zerob_spec, zeros_app, zeros_scale. done.
Qed.

Lemma mixed_true mix : mixed mix [] = mkMix Ext.zero Ext.one.
Proof. done. Qed.
Lemma mixed_snoc mix c v :
  mkMix (Ext.add (tot (mixed mix c)) (Ext.mul (mul (mixed mix c)) (elem v))) (Ext.mul (mul (mixed mix c)) (elem mix)) = mixed mix (c ++ [v]).
Proof.
  unfold mixed. cbn [tot mul]. rewrite lval_app, length_app. change (lval [v] mix) with (v + mix * 0)%f4.
  change (Ext.add (elem ?a) (Ext.mul (elem ?b) (elem ?c))) with (elem (a + b * c)%f4).
  change (Ext.mul (elem ?b) (elem ?c)) with (elem (b * c)%f4). f_equal; f_equal; [ring|].
  rewrite fpow_add. change (fpow mix (length [v])) with (mix * 1)%f4. ring.
Qed.
Lemma mixed_cond mix c v d :
  mkMix (Ext.add (tot (mixed mix c)) (Ext.mul (Ext.mul (elem v) (tot (mixed mix d))) (mul (mixed mix c))))
        (Ext.mul (mul (mixed mix c)) (mul (mixed mix d))) = mixed mix (c ++ map (fmul v) d).
Proof.
  unfold mixed. cbn [tot mul]. rewrite lval_app, lval_scale, length_app, length_map, fpow_add.
  change (mkMix (elem (lval c mix + v * lval d mix * fpow mix (length c))%f4) (elem (fpow mix (length c) * fpow mix (length d))%f4)
    = mkMix (elem (lval c mix + fpow mix (length c) * (v * lval d mix))%f4) (elem (fpow mix (length c) * fpow mix (length d))%f4)).
  do 2 f_equal. ring.
Qed.

Lemma fp_run mix m cs i v : values m !! i = Some v -> (fp (vars mix m cs) i : O_ _) = Ok (elem v).
Proof. intros E. unfold fp, vars. cbn [fp_vars]. change (map elem ?l) with (elem <$> l). by rewrite list_lookup_fmap, E. Qed.
Lemma mixv_run mix m cs i c : cs !! i = Some c -> (mixv (vars mix m cs) i : O_ _) = Ok (mixed mix c).
Proof. intros E. unfold mixv, vars. cbn [mix_vars]. change (map (mixed mix) ?l) with (mixed mix <$> l). by rewrite list_lookup_fmap, E. Qed.
Lemma push_fp_run mix m cs v : push_fp (elem v) (vars mix m cs) = vars mix (value v m) cs.
Proof. unfold push_fp, vars. cbn. by rewrite map_app. Qed.
Lemma push_mix_run mix m cs p c : push_mix (mixed mix c) (vars mix m cs) = vars mix (conj p m) (cs ++ [c]).
Proof. unfold push_mix, vars. cbn. by rewrite map_app. Qed.

Definition related (m : Meaning) (cs : list (list F4)) : Prop := conjunctions m = map conj_of cs.

Lemma related_value m cs v : related m cs -> related (value v m) cs.
Proof. done. Qed.
Lemma related_conj m cs c p : related m cs -> p = conj_of c -> related (conj p m) (cs ++ [c]).
Proof. unfold related. intros E ->. cbn. by rewrite E, map_app. Qed.
Lemma related_lookup m cs i c : related m cs -> cs !! i = Some c -> conjunctions m !! i = Some (zerob c, length c).
Proof. intros -> E. change (map conj_of cs) with (conj_of <$> cs). by rewrite list_lookup_fmap, E. Qed.

Definition grown (op : PolyExtStep) (m m' : Meaning) (cs cs' : list (list F4)) : Prop :=
  length (values m') = (if is_conj op then length (values m) else S (length (values m)))%nat /\
  length cs' = (if is_conj op then S (length cs) else length cs)%nat.

Lemma value_case m cs v (run : F4 -> O_ Vars) : related m cs -> (forall mix, run mix = Ok (push_fp (elem v) (vars mix m cs))) ->
  exists m' cs', Some (value v m) = Some m' /\ related m' cs' /\ (length (values m') = S (length (values m)) /\ length cs' = length cs) /\
    forall mix, run mix = Ok (vars mix m' cs').
Proof.
  intros Hrel Hrun. exists (value v m), cs. split_and!; [done|done| |done|].
  - cbn. rewrite length_app. cbn. lia.
  - intros mix. by rewrite Hrun, push_fp_run.
Qed.
Lemma conj_case m cs p c (run : F4 -> O_ Vars) : related m cs -> p = conj_of c -> (forall mix, run mix = Ok (push_mix (mixed mix c) (vars mix m cs))) ->
  exists m' cs', Some (conj p m) = Some m' /\ related m' cs' /\ (length (values m') = length (values m) /\ length cs' = S (length cs)) /\
    forall mix, run mix = Ok (vars mix m' cs').
Proof.
  intros Hrel Hp Hrun. exists (conj p m), (cs ++ [c]). split_and!; [done|by apply related_conj|done| |].
  - rewrite length_app. cbn. lia.
  - intros mix. by rewrite Hrun, (push_mix_run mix m cs p c).
Qed.

Lemma from_u64_mod v : Elem.from_u64 v = Elem.new (v mod P).
Proof. unfold Elem.from_u64. by rewrite wrap_small by apply reduced_u32, mod_reduced. Qed.

(** A reference that is in range. *)
Ltac in_range m cs Hrel :=
  repeat match goal with H : _ && _ = true |- _ => apply andb_prop in H as [? ?] | H : (_ <? _)%nat = true |- _ => apply Nat.ltb_lt in H end;
  repeat match goal with
  | H : (?i < length (values m))%nat |- _ => let E := fresh "Ev" in destruct (lookup_lt_is_Some_2 _ _ H) as [? E]; clear H; rewrite ?E
  | H : (?i < length cs)%nat |- _ => let E := fresh "Ec" in destruct (lookup_lt_is_Some_2 _ _ H) as [? E]; clear H; rewrite ?(related_lookup m cs _ _ Hrel E)
  end; cbn [mbind option_bind].
(** The interpreter reads what is there. *)
Ltac run_vars m cs :=
  intros mix; repeat match goal with
  | E : values m !! ?i = Some _ |- context [fp (vars mix m cs) ?i] => rewrite (fp_run mix m cs i _ E); cbn [mbind outcome_bind]
  | E : cs !! ?i = Some _ |- context [mixv (vars mix m cs) ?i] => rewrite (mixv_run mix m cs i _ E); cbn [mbind outcome_bind]
  end.

Lemma program_step_run op m cs : related m cs -> step_ok (length u) (map length args) op (length (values m)) (length cs) = true ->
  exists m' cs', meaning_step u globals op m = Some m' /\ related m' cs' /\ grown op m m' cs cs' /\
    forall mix, (step (elem mix) (map elem u) args op (vars mix m cs) : O_ _) = Ok (vars mix m' cs').
Proof.
  intros Hrel Hok. unfold grown.
  destruct op as [v|x0 x1 x2 x3|tap|base off|x1 x2|x1 x2|x1 x2| |chain inner|chain cond inner]; cbn [step_ok is_conj meaning_step step] in *;
    in_range m cs Hrel.
  - apply value_case; [done|]. intros mix. by rewrite from_u64_mod.
  - apply value_case; [done|]. intros mix. by rewrite !from_u64_mod.
  - destruct (lookup_lt_is_Some_2 u tap) as [v Ev]; [done|]. rewrite Ev. apply value_case; [done|]. intros mix.
    change (map elem u) with (elem <$> u). by rewrite list_lookup_fmap, Ev.
  - change (map length args) with (length <$> args) in Hok. rewrite list_lookup_fmap in Hok.
    destruct (args !! base) as [arg|] eqn:Ea; [|done]. apply Nat.ltb_lt in Hok.
    destruct (Forall2_lookup_l _ _ _ _ _ Hargs Ea) as (g & -> & Hg).
    destruct (lookup_lt_is_Some_2 arg off Hok) as [w Ew]. destruct (Forall2_lookup_l _ _ _ _ _ Hg Ew) as (v & Ev & _ & Hv).
    cbn [mbind option_bind]. rewrite Ev. apply value_case; [done|]. intros mix. cbn [unwrap mbind outcome_bind]. rewrite Ew. cbn. by rewrite Hv.
  - apply value_case; [done|]. by run_vars m cs.
  - apply value_case; [done|]. by run_vars m cs.
  - apply value_case; [done|]. by run_vars m cs.
  - by apply (conj_case m cs _ []).
  - eapply conj_case; [done| |run_vars m cs; by rewrite mixed_snoc]. unfold conj_of. rewrite zerob_snoc, length_app. cbn. f_equal. lia.
  - eapply conj_case; [done| |run_vars m cs; by rewrite mixed_cond]. unfold conj_of. by rewrite zerob_cond, length_app, length_map.
Qed.

Lemma steps_run ops : forall m cs, related m cs -> block_ok (length u) (map length args) ops (length (values m)) (length cs) = true ->
  exists m' cs', meaning_steps u globals ops m = Some m' /\ related m' cs' /\
    length cs' = (length cs + length (filter (fun op => is_conj op = true) ops))%nat /\
    (length (values m') + length cs' = length (values m) + length cs + length ops)%nat /\
    forall mix, (steps (elem mix) (map elem u) args ops (vars mix m cs) : O_ _) = Ok (vars mix m' cs').
Proof.
  induction ops as [|op ops IH]; intros m cs Hrel Hok; [exists m, cs; cbn; split_and!; auto with lia|].
  cbn [block_ok] in Hok. apply andb_prop in Hok as [Hop Hok].
  destruct (program_step_run op m cs Hrel Hop) as (m1 & cs1 & E1 & Hrel1 & [Hv Hc] & Hrun).
  destruct (IH m1 cs1 Hrel1) as (m2 & cs2 & E2 & Hrel2 & Hl & Hsum & Hrun2); [rewrite Hv, Hc; by destruct (is_conj op)|].
  exists m2, cs2. cbn [meaning_steps steps]. rewrite E1. cbn [mbind option_bind].
  split_and!; [done|done| | |intros mix; rewrite Hrun; apply Hrun2].
  - rewrite filter_cons. destruct (is_conj op); [rewrite decide_True by done|rewrite decide_False by done]; cbn [length]; lia.
  - cbn [length]. destruct (is_conj op); lia.
Qed.

Lemma assert_Ok {X} (b : bool) (k : unit -> O_ X) : b = true -> (assert_ b ≫= k) = k tt.
Proof. by intros ->. Qed.

(** The counts that the interpreter asserts. *)
Lemma counts_ok (len fps mixes ret_ : nat) : mixes = S ret_ -> (fps + mixes = len)%nat -> Z.of_nat len < 2 ^ 64 ->
  (Z.of_nat fps =? wrap 64 (Z.of_nat len - (Z.of_nat ret_ + 1))) = true /\ (Z.of_nat mixes =? Z.of_nat ret_ + 1) = true.
Proof. intros -> <- Hl. rewrite !Z.eqb_eq, wrap_small by (unfold fits; lia). lia. Qed.

Lemma poly_ext_run def : def_ok (length u) (map length args) def = true ->
  exists c, meaning u globals def = Some (zerob c, length c) /\
    forall mix, (poly_ext (elem mix) (map elem u) args def : O_ _) = Ok (mixed mix c).
Proof.
  unfold def_ok. rewrite !andb_true_iff, Nat.eqb_eq, Z.ltb_lt. intros [[Hb Hn] Hlen].
  destruct (steps_run (block def) (mkMeaning [] []) []) as (m & cs & Em & Hrel & Hl & Hsum & Hrun); [done|exact Hb|].
  cbn [length values Nat.add] in Hl, Hsum. rewrite Hn in Hl.
  destruct (lookup_lt_is_Some_2 cs (ret def)) as [c Ec]; [lia|]. exists c. split.
  - unfold meaning. rewrite Em. cbn [mbind option_bind]. by rewrite (related_lookup m cs _ _ Hrel Ec).
  - intros mix. unfold poly_ext, run. cbv zeta. rewrite (Hrun mix : steps _ _ _ (block def) (mkVars [] []) = _). cbn [mbind outcome_bind].
    change (fp_vars (vars mix m cs)) with (map elem (values m)). change (mix_vars (vars mix m cs)) with (map (mixed mix) cs). rewrite !length_map.
    destruct (counts_ok (length (block def)) (length (values m)) (length cs) (ret def) Hl Hsum Hlen) as [H1 H2].
    rewrite H1, H2. cbn [assert_ mbind outcome_bind]. by apply mixv_run.
Qed.
End Interpreter.

(** C13: The mixed value means the conjunction of the constraints.  A program whose steps refer to the
    taps, globals and earlier results that there are returns for every mix; when
    the constraints hold the value is zero whatever the mix, and when one of them fails, the
    mixes that hide it are fewer than the constraints. *)
Theorem poly_ext_sound {Er} u globals args def : Forall2 (Forall2 brepr) args globals ->
  def_ok (length u) (map length args) def = true ->
  exists holds n, meaning u globals def = Some (holds, n) /\
    (forall mix, exists m, (poly_ext (elem mix) (map elem u) args def : outcome Er _) = Ok m /\ (holds = true -> tot m = Ext.zero)) /\
    (holds = false -> forall bad, NoDup bad ->
      (forall mix m, mix ∈ bad -> (poly_ext (elem mix) (map elem u) args def : outcome Er _) = Ok m -> tot m = Ext.zero) -> (length bad < n)%nat).
Proof.
  intros Hargs Hok. destruct (poly_ext_run (Er := Er) u globals args Hargs def Hok) as (c & Em & Hrun).
  exists (zerob c), (length c). split; [done|]. split.
  - intros mix. exists (mixed mix c). split; [apply Hrun|]. intros Hz%zerob_spec. cbn. by rewrite (lval_zero c mix Hz).
  - intros Hz bad Hnd Hbad. apply (roots_bound bad Hnd _ c); [by rewrite drop_all; apply Forall_nil| |].
    + intros Hc%zerob_spec. congruence.
    + intros x Hx. apply (inj elem). exact (Hbad x _ Hx (Hrun x)).
Qed.

(** [u0 * u0 = g] where [u1] is set, and [u0 = 7]. *)
Definition square_program : PolyExtStepDef :=
  mkDef [True_; Get 0; Mul 0 0; GetGlobal 0 0; Sub 1 2; AndEqz 0 3; Const 7; Sub 0 4; AndEqz 0 5; Get 1; AndCond 2 6 1] 3.

Lemma poly_ext_sound_witness :
  exists holds n, meaning [scalar 7; scalar 1] [[scalar 49]] square_program = Some (holds, n) /\
    (forall mix, exists m, (poly_ext (elem mix) (map elem [scalar 7; scalar 1]) [[Elem.new (49 mod P)]] square_program : outcome unit _) = Ok m /\
       (holds = true -> tot m = Ext.zero)) /\
    (holds = false -> forall bad, NoDup bad ->
      (forall mix m, mix ∈ bad -> (poly_ext (elem mix) (map elem [scalar 7; scalar 1]) [[Elem.new (49 mod P)]] square_program : outcome unit _) = Ok m ->
       tot m = Ext.zero) -> (length bad < n)%nat).
Proof.
  apply (poly_ext_sound (Er := unit) [scalar 7; scalar 1] [[scalar 49]] [[Elem.new (49 mod P)]] square_program); [|reflexivity].
  constructor; [constructor; [apply brepr_scalar, rep_scalar|constructor]|constructor].
Defined.

(** The program of the example tells 7 from 8. *)
Example square_program_holds : meaning [scalar 7; scalar 1] [[scalar 49]] square_program = Some (true, 2%nat).
Proof. by vm_compute. Qed.
Example square_program_fails : meaning [scalar 8; scalar 1] [[scalar 49]] square_program = Some (false, 2%nat).
Proof. by vm_compute. Qed.

(** ** On any elements at all *)

Section Total.
Context {Er : Type} (mix : ExtElem) (u : list ExtElem) (args : list (list Z)).
Abbreviation O_ := (outcome Er).

Lemma step_total op s : step_ok (length u) (map length args) op (length (fp_vars s)) (length (mix_vars s)) = true ->
  exists s', (step mix u args op s : O_ _) = Ok s' /\
    length (fp_vars s') = (if is_conj op then length (fp_vars s) else S (length (fp_vars s))) /\
    length (mix_vars s') = (if is_conj op then S (length (mix_vars s)) else length (mix_vars s)).
Proof.
  intros Hok. unfold step, fp, mixv.
  destruct op as [v|x0 x1 x2 x3|tap|base off|x1 x2|x1 x2|x1 x2| |chain inner|chain cond inner]; cbn [step_ok is_conj] in *;
    repeat match goal with H : _ && _ = true |- _ => apply andb_prop in H as [? ?] | H : (_ <? _)%nat = true |- _ => apply Nat.ltb_lt in H end;
    try (change (map length args) with (length <$> args) in Hok; rewrite list_lookup_fmap in Hok;
         destruct (args !! base) as [arg|]; [|done]; apply Nat.ltb_lt in Hok; cbn [unwrap mbind outcome_bind]);
    repeat match goal with
    | H : (?i < length ?l)%nat |- _ => let E := fresh "E" in destruct (lookup_lt_is_Some_2 _ _ H) as [? E]; clear H; rewrite ?E
    end; cbn [unwrap mbind outcome_bind];
    eexists; (split; [reflexivity|]); cbn [push_fp push_mix fp_vars mix_vars]; rewrite length_app; cbn [length]; lia.
Qed.

Lemma steps_total ops : forall s, block_ok (length u) (map length args) ops (length (fp_vars s)) (length (mix_vars s)) = true ->
  exists s', (steps mix u args ops s : O_ _) = Ok s' /\
    length (mix_vars s') = (length (mix_vars s) + length (filter (fun op => is_conj op = true) ops))%nat /\
    (length (fp_vars s') + length (mix_vars s') = length (fp_vars s) + length (mix_vars s) + length ops)%nat.
Proof.
  induction ops as [|op ops IH]; intros s Hok; [exists s; cbn; split_and!; auto with lia|].
  cbn [block_ok] in Hok. apply andb_prop in Hok as [Hop Hok]. destruct (step_total op s Hop) as (s1 & E1 & Hf & Hm).
  destruct (IH s1) as (s2 & E2 & Hl & Hsum); [rewrite Hf, Hm; by destruct (is_conj op)|].
  exists s2. cbn [steps]. rewrite E1. cbn [mbind outcome_bind length]. split_and!; [done| |].
  - rewrite filter_cons. destruct (is_conj op); [rewrite decide_True by done|rewrite decide_False by done]; cbn [length]; lia.
  - destruct (is_conj op); lia.
Qed.

Lemma poly_ext_total def : def_ok (length u) (map length args) def = true -> exists m, (poly_ext mix u args def : O_ _) = Ok m.
Proof.
  unfold def_ok. rewrite !andb_true_iff, Nat.eqb_eq, Z.ltb_lt. intros [[Hb Hn] Hlen].
  destruct (steps_total (block def) (mkVars [] []) Hb) as (s & Hrun & Hl & Hsum). cbn [length fp_vars mix_vars Nat.add] in Hl, Hsum.
  rewrite Hn in Hl. unfold poly_ext, run. cbv zeta. rewrite Hrun. cbn [mbind outcome_bind].
  destruct (counts_ok (length (block def)) _ _ (ret def) Hl Hsum Hlen) as [-> ->]. cbn [assert_ mbind outcome_bind].
  unfold mixv. destruct (lookup_lt_is_Some_2 (mix_vars s) (ret def)) as [m ->]; [lia|]. by exists m.
Qed.
End Total.
