(* ===== verification/Stark.v ===== *)
(** * The verifier of the STARK

    [Fri] checks that a committed function is close to a polynomial, by folding it round
    after round; [Verifier] drives the protocol of a seal: the Merkle trees of the
    register groups, the validity polynomial at a random point, and the quotients that
    FRI is run on.  The hash functions and the generator are the suite's; the constraint
    polynomial is the circuit's. *)
From S2P Require Export Ntt Circuit.
From S2P Require Poseidon2.
Import Merkle.
#[export] Existing Instance Poseidon2.Poseidon2.elem_words.
Open Scope Z_scope.

(** The hash of a slice of extension elements, which only the verifier calls. *)
Class HashExt := { hash_ext_elem_slice : list ExtElem -> Digest }.
#[export] Instance poseidon2_hash_ext : HashExt := {| hash_ext_elem_slice := Poseidon2.Poseidon2.hash_ext_elem_slice |}.
#[export] Existing Instances Poseidon2.Poseidon2.Poseidon2HashFn Poseidon2.Poseidon2.Poseidon2Rng_rng.

(** An extension element is four words, each of them reduced. *)
(* src/risc0/risc0/core/src/field/baby_bear.rs:377-388 CheckedBitPattern for ExtElem *)
#[export] Instance ext_words : ElemWords ExtElem := {|
  Merkle.WORDS := 4;
  Merkle.elem_words := Ext.elems;
  Merkle.elem_of_words ws :=
    match ws with
    | [w0; w1; w2; w3] => if Ext.is_valid_bit_pattern ws then Some (mkExt w0 w1 w2 w3) else None
    | _ => None
    end |}.

(* source: src/risc0/risc0/zkp/src/lib.rs *)
(* L38-38 MAX_CYCLES_PO2 *)
Definition MAX_CYCLES_PO2 : Z := 24.
(* L41-42 QUERIES *)
Definition QUERIES : nat := 50.
(* L46-47 INV_RATE *)
Definition INV_RATE : nat := 4.
(* L49-49 FRI_FOLD_PO2 *)
Definition FRI_FOLD_PO2 : nat := 4.
(* L51-52 FRI_FOLD *)
Definition FRI_FOLD : nat := 16.
(* L54-55 FRI_MIN_DEGREE *)
Definition FRI_MIN_DEGREE : nat := 256.
(* src/risc0/risc0/core/src/field/baby_bear.rs:357-358 EXT_SIZE *)
Definition EXT_SIZE : nat := 4.

(** [usize::div_ceil] and [log2_ceil] of indices. *)
Definition div_ceil (a b : nat) : nat := ((a + b - 1) / b)%nat.
Definition log2_ceil_nat (n : nat) : nat := Z.to_nat (log2_ceil (Z.of_nat n)).

Definition subelems {Er} (elems : list Z) : outcome Er ExtElem :=
  match Ext.from_subelems elems with Ok e => Ok e | _ => Panic end.

Module Fri.
Section Fri.
Context {R : Type} `{HashFn Z, Rng R Z ExtElem}.
Abbreviation VI := (state (ReadIOP R) VerificationError).

(* source: src/risc0/risc0/zkp/src/verify/fri.rs *)

(* L32-39 VerifyRoundInfo *)
Record VerifyRoundInfo := mkRound { domain : nat; merkle : MerkleTreeVerifier; mix : ExtElem }.

(* L42-60 VerifyRoundInfo::new *)
Definition round_new (in_domain : nat) : VI VerifyRoundInfo :=
  let domain := (in_domain / FRI_FOLD)%nat in
  merkle ← verifier_new (E := Z) domain (FRI_FOLD * EXT_SIZE) QUERIES;
  mix ← random_ext_elem;
  mret (mkRound domain merkle mix).

(** The elements of a column, whose parts are stored one after the other. *)
Definition column_elems (n : nat) (data : list Z) : outcome VerificationError (list ExtElem) :=
  mapM (fun i =>
    inps ← mapM (fun j => unwrap (data !! (j * n + i)%nat)) (seq 0 EXT_SIZE);
    subelems inps) (seq 0 n).

(* src/risc0/risc0/zkp/src/verify/mod.rs:499-509 Verifier::poly_eval, the body of poly_eval repeated *)
Definition poly_eval (coeffs : list ExtElem) (x : ExtElem) : ExtElem := Poly.poly_eval coeffs x.

(* L66-100 Verifier::verify_query *)
Definition verify_query (round : VerifyRoundInfo) (pos : nat) (goal : ExtElem) : VI (nat * ExtElem) :=
  _ ← lift (assert_ (negb (domain round =? 0)%nat));
  let quot := (pos / domain round)%nat in
  let group := (pos mod domain round)%nat in
  data ← verify (merkle round) group;
  data_ext ← lift (column_elems FRI_FOLD data);
  present ← lift (unwrap (data_ext !! quot));
  if negb (bool_decide (present = goal)) then throw InvalidProof else
  let root_po2 := log2_ceil_nat (FRI_FOLD * domain round) in
  root ← lift (unwrap (Elem.ROU_REV !! root_po2));
  let inv_wk := pow root (Z.of_nat group) in
  data_ext ← lift (Ntt.interpolate_ntt data_ext);
  data_ext ← lift (Ntt.bit_reverse data_ext);
  mret (group, poly_eval data_ext (Ext.mul_elem (mix round) inv_wk)).

(** The rounds, until the degree is small enough; the degree bounds their number. *)
Fixpoint fri_rounds (fuel degree domain : nat) (rounds : list VerifyRoundInfo) : VI (list VerifyRoundInfo * nat * nat) :=
  match fuel with
  | O => panic
  | S fuel =>
      if (FRI_MIN_DEGREE <? degree)%nat then
        round ← round_new domain;
        fri_rounds fuel (degree / FRI_FOLD) (domain / FRI_FOLD) (rounds ++ [round])
      else mret (rounds, degree, domain)
  end.

Fixpoint query_rounds (rounds : list VerifyRoundInfo) (pos : nat) (goal : ExtElem) : VI (nat * ExtElem) :=
  match rounds with
  | [] => mret (pos, goal)
  | round :: rounds => '(pos, goal) ← verify_query round pos goal; query_rounds rounds pos goal
  end.

(** One query: the value that [inner] vouches for is folded to the final polynomial. *)
Definition query (inner : nat -> VI ExtElem) (rounds : list VerifyRoundInfo) (orig_domain degree : nat) (gen_ : Z)
    (final_coeffs : list Z) : VI unit :=
  pos ← random_bits (Z.of_nat (log2_ceil_nat orig_domain));
  let pos := Z.to_nat pos in
  goal ← inner pos;
  '(pos, goal) ← query_rounds rounds pos goal;
  let x := pow gen_ (Z.of_nat pos) in
  poly_buf ← lift (column_elems degree final_coeffs);
  let fx := poly_eval poly_buf (Ext.from_subfield x) in
  if negb (bool_decide (fx = goal)) then throw InvalidProof else mret tt.

Fixpoint repeat (n : nat) (m : VI unit) : VI unit :=
  match n with
  | O => mret tt
  | S n => m;; repeat n m
  end.

(* L102-164 Verifier::fri_verify *)
Definition fri_verify (tot_cycles : nat) (inner : nat -> VI ExtElem) : VI unit :=
  let degree := tot_cycles in
  let orig_domain := (INV_RATE * degree)%nat in
  let rounds_capacity := log2_ceil_nat (div_ceil (div_ceil degree FRI_FOLD) FRI_FOLD_PO2) in
  '(rounds, degree, domain) ← fri_rounds (S degree) degree orig_domain [];
  _ ← lift (assert_ (length rounds <=? rounds_capacity)%nat);
  final_coeffs ← read_field_elem_slice (EXT_SIZE * degree);
  commit (hash_elem_slice final_coeffs);;
  gen_ ← lift (unwrap (Elem.ROU_FWD !! log2_ceil_nat domain));
  repeat QUERIES (query inner rounds orig_domain degree gen_ final_coeffs).

End Fri.
End Fri.

Module Verifier.
Import Fri.

(* source: src/risc0/risc0/zkp/src/verify/mod.rs *)

Section Verifier.
Context {R : Type} `{HashFn Z, HashExt, Rng R Z ExtElem}.
Abbreviation VI := (state (ReadIOP R) VerificationError).

(* L155-160 VerifyParams::CHECK_SIZE *)
Definition CHECK_SIZE : nat := INV_RATE * EXT_SIZE.

(** The taps and the hash suite do not change. *)
(* L161-174 Verifier *)
Record Verifier := mkVer {
  iop : ReadIOP R; po2 : nat; tot_cycles : nat; merkle_verifiers : list (option MerkleTreeVerifier) }.
Abbreviation VM := (state Verifier VerificationError).

(** A step on the transcript ([self.iop()]). *)
(* L195-198 Verifier::iop *)
Definition on_iop {A} (m : VI A) : VM A := fun v =>
  let '(o, i) := m (iop v) in (o, mkVer i (po2 v) (tot_cycles v) (merkle_verifiers v)).

Context (taps : Taps.TapSet).

(* L181-193 Verifier::new *)
Definition new (seal : list Z) (rng : R) : Verifier :=
  mkVer (read_new seal rng) 0 0 (replicate (Taps.num_groups taps) None).

(* L201-210 Verifier::commit_circuit_info *)
Definition commit_circuit_info (circuit_info : Adapter.ProtocolInfo) : VM unit :=
  on_iop (commit (hash_elem_slice (Adapter.encode Adapter.PROOF_SYSTEM_INFO)));;
  on_iop (commit (hash_elem_slice (Adapter.encode circuit_info))).

Definition set_verifier (reg_group_id : nat) (merkle : MerkleTreeVerifier) (v : Verifier) : Verifier :=
  mkVer (iop v) (po2 v) (tot_cycles v) (<[reg_group_id := Some merkle]> (merkle_verifiers v)).

(* L215-238 Verifier::verify_group *)
Definition verify_group (reg_group_id : nat) : VM Digest :=
  v ← get;
  present ← lift (unwrap (merkle_verifiers v !! reg_group_id));
  match present with
  | Some _ => throw ReceiptFormatError
  | None =>
      group_size ← lift (Taps.group_size taps reg_group_id);
      let domain := (INV_RATE * tot_cycles v)%nat in
      merkle ← on_iop (verifier_new (E := Z) domain group_size QUERIES);
      modify (set_verifier reg_group_id merkle);;
      lift (unwrap (root merkle))
  end.

(* L242-246 Verifier::read_rng *)
Fixpoint read_rng (elems : nat) : VM (list Z) :=
  match elems with
  | O => mret []
  | S elems => e ← on_iop random_elem; es ← read_rng elems; mret (e :: es)
  end.

(** [tot[i] += v]. *)
Definition add_at (i : nat) (v : ExtElem) (tot : list ExtElem) : outcome VerificationError (list ExtElem) :=
  t ← unwrap (tot !! i); Ok (<[i := Ext.add t v]> tot).

(* L264-266 Verifier::fri_eval_taps, the loop over the registers *)
Fixpoint tap_sums (regs : list Taps.RegisterRef) (tap_mix_pows : list ExtElem) (rows : list (list Z)) (tot : list ExtElem)
    : outcome VerificationError (list ExtElem) :=
  match regs, tap_mix_pows with
  | reg :: regs, cur :: pows =>
      group ← Taps.reg_group reg; offset ← Taps.reg_offset reg;
      row ← unwrap (rows !! group); cell ← unwrap (row !! offset);
      combo ← Taps.reg_combo_id reg;
      tot ← add_at combo (Ext.mul_elem cur cell) tot;
      tap_sums regs pows rows tot
  | _, _ => Ok tot
  end.

(* L267-269 Verifier::fri_eval_taps, the loop over the check columns *)
Fixpoint check_sums (is_ : list nat) (check_mix_pows : list ExtElem) (check_row : list Z) (combo_count : nat) (tot : list ExtElem)
    : outcome VerificationError (list ExtElem) :=
  match is_, check_mix_pows with
  | i :: is_, cur :: pows =>
      cell ← unwrap (check_row !! i);
      tot ← add_at combo_count (Ext.mul_elem cur cell) tot;
      check_sums is_ pows check_row combo_count tot
  | _, _ => Ok tot
  end.

(** The product of the [x - z * back_one ^ back]. *)
Definition divisor (x z : ExtElem) (back_one : Z) (backs : list nat) : ExtElem :=
  foldl (fun divisor back => Ext.mul divisor (Ext.sub x (Ext.mul_elem z (pow back_one (Z.of_nat back))))) Ext.one backs.

(* L271-284 Verifier::fri_eval_taps, the loop over the combos *)
Fixpoint combo_quotients (is_ : list nat) (combo_u tot : list ExtElem) (back_one : Z) (x z ret : ExtElem)
    : outcome VerificationError ExtElem :=
  match is_ with
  | [] => Ok ret
  | i :: is_ =>
      t ← unwrap (tot !! i);
      from ← unwrap (Taps.combo_begin taps !! i); to ← unwrap (Taps.combo_begin taps !! (i + 1)%nat);
      us ← Taps.slice combo_u from to;
      let num := Ext.sub t (poly_eval us x) in
      backs ← Taps.combo_slice (Taps.get_combo taps i);
      combo_quotients is_ combo_u tot back_one x z (Ext.add ret (Ext.mul num (Ext.inv (divisor x z back_one backs))))
  end.

(* L250-289 Verifier::fri_eval_taps *)
Definition fri_eval_taps (combo_u : list ExtElem) (check_row : list Z) (back_one x : Z) (z : ExtElem) (rows : list (list Z))
    (tap_mix_pows check_mix_pows : list ExtElem) : outcome VerificationError ExtElem :=
  let combo_count := Taps.combos_size taps in
  let tot := replicate (combo_count + 1) Ext.zero in
  let x := Ext.from_subfield x in
  regs ← Taps.regs taps;
  tot ← tap_sums regs tap_mix_pows rows tot;
  tot ← check_sums (seq 0 CHECK_SIZE) check_mix_pows check_row combo_count tot;
  ret ← combo_quotients (seq 0 combo_count) combo_u tot back_one x z Ext.zero;
  t ← unwrap (tot !! combo_count); u ← unwrap (combo_u !! Taps.tot_combo_backs taps);
  let check_num := Ext.sub t u in
  let check_div := Ext.sub x (Ext.pow z (Z.of_nat INV_RATE)) in
  Ok (Ext.add ret (Ext.mul check_num (Ext.inv check_div))).

(** The taps of one register, evaluated at the rows back from [z]. *)
Fixpoint reg_evals (is_ : list nat) (reg : Taps.RegisterRef) (z : ExtElem) (back_one : Z) (coeffs : list ExtElem)
    : outcome VerificationError (list ExtElem) :=
  match is_ with
  | [] => Ok []
  | i :: is_ =>
      back ← Taps.reg_back reg i;
      let x := Ext.mul_elem z (pow back_one (Z.of_nat back)) in
      rest ← reg_evals is_ reg z back_one coeffs;
      Ok (poly_eval coeffs x :: rest)
  end.
(* L349-359 Verifier::verify_validity, the loop over the registers *)
Fixpoint tap_evals (regs : list Taps.RegisterRef) (cur_pos : nat) (z : ExtElem) (back_one : Z) (coeff_u : list ExtElem)
    : outcome VerificationError (list ExtElem) :=
  match regs with
  | [] => Ok []
  | reg :: regs =>
      size ← Taps.reg_size reg;
      (** the slice is taken once for each tap; an empty register takes none *)
      coeffs ← (if (size =? 0)%nat then Ok [] else Taps.slice coeff_u cur_pos (cur_pos + size));
      evals ← reg_evals (seq 0 size) reg z back_one coeffs;
      rest ← tap_evals regs (cur_pos + size) z back_one coeff_u;
      Ok (evals ++ rest)
  end.

(* L386-405 Verifier::verify_validity, the check polynomial *)
Fixpoint check_poly (i : nat) (remap : list nat) (num_taps : nat) (z : ExtElem) (coeff_u : list ExtElem) (check : ExtElem)
    : outcome VerificationError ExtElem :=
  match remap with
  | [] => Ok check
  | rmi :: remap =>
      let part k one check :=
        c ← unwrap (coeff_u !! (num_taps + rmi + k)%nat);
        Ok (Ext.add check (Ext.mul (Ext.mul c (Ext.pow z (Z.of_nat i))) one)) in
      check ← part 0%nat (mkExt Elem.ONE Elem.ZERO Elem.ZERO Elem.ZERO) check;
      check ← part 4%nat (mkExt Elem.ZERO Elem.ONE Elem.ZERO Elem.ZERO) check;
      check ← part 8%nat (mkExt Elem.ZERO Elem.ZERO Elem.ONE Elem.ZERO) check;
      check ← part 12%nat (mkExt Elem.ZERO Elem.ZERO Elem.ZERO Elem.ONE) check;
      check_poly (S i) remap num_taps z coeff_u check
  end.

(** The mixed coefficients of one register. *)
Fixpoint mix_reg (is_ : list nat) (begin cur_pos : nat) (cur_mix : ExtElem) (coeff_u combo_u : list ExtElem)
    : outcome VerificationError (list ExtElem) :=
  match is_ with
  | [] => Ok combo_u
  | i :: is_ =>
      c ← unwrap (coeff_u !! (cur_pos + i)%nat);
      combo_u ← add_at (begin + i) (Ext.mul cur_mix c) combo_u;
      mix_reg is_ begin cur_pos cur_mix coeff_u combo_u
  end.
(* L426-434 Verifier::verify_validity, the loop over the registers *)
Fixpoint mix_taps (regs : list Taps.RegisterRef) (mix : ExtElem) (coeff_u combo_u : list ExtElem) (cur_mix : ExtElem) (cur_pos : nat)
    (pows : list ExtElem) : outcome VerificationError (list ExtElem * ExtElem * nat * list ExtElem) :=
  match regs with
  | [] => Ok (combo_u, cur_mix, cur_pos, pows)
  | reg :: regs =>
      size ← Taps.reg_size reg;
      combo ← Taps.reg_combo_id reg;
      begin ← (if (size =? 0)%nat then Ok 0%nat else unwrap (Taps.combo_begin taps !! combo));
      combo_u ← mix_reg (seq 0 size) begin cur_pos cur_mix coeff_u combo_u;
      mix_taps regs mix coeff_u combo_u (Ext.mul cur_mix mix) (cur_pos + size) (pows ++ [cur_mix])
  end.
(* L443-448 Verifier::verify_validity, the loop over the check columns *)
Fixpoint mix_check (n : nat) (mix : ExtElem) (coeff_u combo_u : list ExtElem) (cur_mix : ExtElem) (cur_pos : nat) (pows : list ExtElem)
    : outcome VerificationError (list ExtElem * list ExtElem) :=
  match n with
  | O => Ok (combo_u, pows)
  | S n =>
      c ← unwrap (coeff_u !! cur_pos);
      combo_u ← add_at (Taps.tot_combo_backs taps) (Ext.mul cur_mix c) combo_u;
      mix_check n mix coeff_u combo_u (Ext.mul cur_mix mix) (S cur_pos) (pows ++ [cur_mix])
  end.

(** The rows of all the groups, in order. *)
Fixpoint verify_rows (verifiers : list (option MerkleTreeVerifier)) (idx : nat) : VI (list (list Z)) :=
  match verifiers with
  | [] => mret []
  | merkle :: verifiers =>
      merkle ← lift (unwrap merkle);
      row ← verify merkle idx;
      rows ← verify_rows verifiers idx;
      mret (row :: rows)
  end.

(* L454-467 Verifier::verify_validity, the function that FRI is run on *)
Definition fri_inner (gen_ : Z) (verifiers : list (option MerkleTreeVerifier)) (check_merkle : MerkleTreeVerifier)
    (combo_u : list ExtElem) (back_one : Z) (z : ExtElem) (tap_mix_pows check_mix_pows : list ExtElem) (idx : nat) : VI ExtElem :=
  let x := pow gen_ (Z.of_nat idx) in
  rows ← verify_rows verifiers idx;
  check_row ← verify check_merkle idx;
  lift (fri_eval_taps combo_u check_row back_one x z rows tap_mix_pows check_mix_pows).

(* L296-469 Verifier::verify_validity *)
Definition verify_validity (validity_fn : ExtElem -> list ExtElem -> outcome VerificationError ExtElem) : VM unit :=
  v ← get;
  _ ← lift (assert_ (forallb (fun m => match m with Some _ => true | None => false end) (merkle_verifiers v)));
  poly_mix ← on_iop random_ext_elem;
  let domain := (INV_RATE * tot_cycles v)%nat in
  check_merkle ← on_iop (verifier_new (E := Z) domain CHECK_SIZE QUERIES);
  z ← on_iop random_ext_elem;
  back_one ← lift (unwrap (Elem.ROU_REV !! po2 v));
  num_taps ← lift (Taps.tap_size taps);
  coeff_u ← on_iop (read_field_elem_slice (num_taps + CHECK_SIZE));
  on_iop (commit (hash_ext_elem_slice coeff_u));;
  regs ← lift (Taps.regs taps);
  eval_u ← lift (tap_evals regs 0 z back_one coeff_u);
  let three := Elem.from_u64 3 in
  let eval_u := eval_u ++ [Ext.mul_elem z three] in
  _ ← lift (assert_ (length eval_u =? num_taps + 1)%nat);
  result ← lift (validity_fn poly_mix eval_u);
  check ← lift (check_poly 0 [0; 2; 1; 3]%nat num_taps z coeff_u Ext.zero);
  let check := Ext.mul check (Ext.sub (Ext.pow (Ext.mul (Ext.from_subfield three) z) (Z.of_nat (tot_cycles v))) Ext.one) in
  if negb (bool_decide (check = result)) then throw InvalidProof else
  mix ← on_iop random_ext_elem;
  '(combo_u, cur_mix, cur_pos, tap_mix_pows) ←
    lift (mix_taps regs mix coeff_u (replicate (Taps.tot_combo_backs taps + 1) Ext.zero) Ext.one 0 []);
  _ ← lift (assert_ (length tap_mix_pows =? Taps.reg_count taps)%nat);
  '(combo_u, check_mix_pows) ← lift (mix_check CHECK_SIZE mix coeff_u combo_u cur_mix cur_pos []);
  _ ← lift (assert_ (length check_mix_pows =? CHECK_SIZE)%nat);
  gen_ ← lift (unwrap (Elem.ROU_FWD !! log2_ceil_nat domain));
  on_iop (fri_verify (tot_cycles v)
    (fri_inner gen_ (merkle_verifiers v) check_merkle combo_u back_one z tap_mix_pows check_mix_pows)).

(* L476-497 Verifier::read_slice_with_po2 *)
Definition read_slice_with_po2 (size : nat) : VM (list Z * nat) :=
  slice ← on_iop (read_field_elem_slice (size + 1));
  on_iop (commit (hash_elem_slice slice));;
  po2 ← lift (unwrap (slice !! size));
  if MAX_CYCLES_PO2 <? po2 then throw ReceiptFormatError else
  modify (fun v => mkVer (iop v) (Z.to_nat po2) (2 ^ Z.to_nat po2) (merkle_verifiers v));;
  mret (take size slice, Z.to_nat po2).

(** What a circuit provides: its constraint polynomial, on the random mix, the taps
    and the globals. *)
(* src/risc0/risc0/zkp/src/adapter.rs:126-130 CircuitInfo *)
Record Circuit := mkCircuit {
  CIRCUIT_INFO : Adapter.ProtocolInfo; OUTPUT_SIZE : nat; MIX_SIZE : nat;
  poly_ext : ExtElem -> list ExtElem -> list (list Z) -> outcome VerificationError Adapter.MixState }.

(* L517-578 verify *)
Definition verify (circuit : Circuit) (rng : R) (seal : list Z) (check_code : nat -> Digest -> outcome VerificationError unit)
    : outcome VerificationError unit :=
  match seal with
  | [] => Err ReceiptFormatError
  | _ => fst ((
      commit_circuit_info (CIRCUIT_INFO circuit);;
      '(out, po2) ← read_slice_with_po2 (OUTPUT_SIZE circuit);
      code_root ← verify_group Adapter.REGISTER_GROUP_CODE;
      lift (check_code po2 code_root);;
      _ ← verify_group Adapter.REGISTER_GROUP_DATA;
      mix ← read_rng (MIX_SIZE circuit);
      _ ← verify_group Adapter.REGISTER_GROUP_ACCUM;
      verify_validity (fun poly_mix eval_u => Adapter.tot <$> poly_ext circuit poly_mix eval_u [out; mix]);;
      on_iop verify_complete) (new seal rng))
  end.

(* src/risc0/risc0/zkp/src/adapter.rs:132-135 GroupInfo *)
Record GroupInfo := mkGroup { global_count : nat; mix_count : nat }.

(* L600-618 verify_v3, the loop over the groups *)
Fixpoint groups_v3 (i : nat) (groups : list GroupInfo) (mix globals : list Z) : VM (list Z * list Z) :=
  match groups with
  | [] => mret (mix, globals)
  | group :: groups =>
      m ← read_rng (mix_count group);
      g ← (if (0 <? global_count group)%nat
           then (g ← on_iop (read_field_elem_slice (global_count group)); on_iop (commit (hash_elem_slice g));; mret g)
           else mret []);
      _ ← verify_group i;
      groups_v3 (S i) groups (mix ++ m) (globals ++ g)
  end.

(** Here [po2] is the caller's and not bounded. *)
(* L583-629 verify_v3 *)
Definition verify_v3 (groups : list GroupInfo)
    (poly_ext : ExtElem -> list ExtElem -> list (list Z) -> outcome VerificationError Adapter.MixState)
    (rng : R) (seal : list Z) (po2 : nat) : outcome VerificationError unit :=
  match seal with
  | [] => Err ReceiptFormatError
  | _ => fst ((
      modify (fun v => mkVer (iop v) po2 (Z.to_nat (shl1 (Z.of_nat po2))) (merkle_verifiers v));;
      '(mix, globals) ← groups_v3 0 groups [] [];
      verify_validity (fun poly_mix eval_u => Adapter.tot <$> poly_ext poly_mix eval_u [globals; mix]);;
      on_iop verify_complete) (new seal rng))
  end.

End Verifier.
End Verifier.
