(* ===== verification/StarkTotal.v ===== *)
(** * The verifier of the STARK never panics

    On any 32-bit words at all, for a circuit whose tables are consistent ([taps_ok], a
    check that runs), the verifier of a seal returns or reports an error: every index that
    it takes from the proof or from the transcript is in range, every tree has a power of
    two of rows, the capacities it asserts are enough, and it hashes no pair of digests
    that the hash functions panic on: those of the proof it has checked, and the others
    are hashes themselves.  The state that a computation keeps is that the rest of the
    proof is made of 32-bit words. *)
From S2P Require Export Stark MerkleSpec NttSpec.
From S2P Require Poseidon2Spec.
Import Merkle Fri Verifier.
#[export] Existing Instance Poseidon2Spec.elem_words_ok.
Open Scope nat_scope.

(** ** Computations that do not panic *)

(** What the computations on a state keep of it. *)
Class StateOk (S : Type) := state_ok : S -> Prop.

Section Safe.
Context {S E : Type} `{StateOk S}.

(** [safe m Q]: from any good state, [m] returns a value with [Q], in a good state, or an error. *)
Definition safe {A} (m : state S E A) (Q : A -> Prop) : Prop :=
  forall s, state_ok s -> match m s with (Ok a, s') => Q a /\ state_ok s' | (Err _, _) => True | (Panic, _) => False end.
Definition osafe {A} (o : outcome E A) (Q : A -> Prop) : Prop :=
  match o with Ok a => Q a | Err _ => True | Panic => False end.

Lemma m_safe_ret {A} (a : A) (Q : A -> Prop) : Q a -> safe (mret a) Q.
Proof. by intros Ha s Hs. Qed.
Lemma m_safe_throw {A} e (Q : A -> Prop) : safe (throw e) Q.
Proof. by intros s. Qed.
Lemma m_safe_bind {A B} (m : state S E A) (f : A -> state S E B) P Q :
  safe m P -> (forall a, P a -> safe (f a) Q) -> safe (m ≫= f) Q.
Proof.
  intros Hm Hf s Hs. specialize (Hm s Hs). unfold mbind, state_bind. destruct (m s) as [[a|e|] s']; [|done|done].
  destruct Hm. by apply Hf.
Qed.
Lemma safe_weaken {A} (m : state S E A) (P Q : A -> Prop) : safe m P -> (forall a, P a -> Q a) -> safe m Q.
Proof. intros Hm HQ s Hs. specialize (Hm s Hs). destruct (m s) as [[a|e|] s']; [|done|done]. destruct Hm. auto. Qed.
Lemma m_safe_lift {A} (o : outcome E A) Q : osafe o Q -> safe (lift o) Q.
Proof. intros Ho s Hs. unfold lift. by destruct o. Qed.
Lemma safe_modify f (Q : unit -> Prop) : (forall s, state_ok s -> state_ok (f s)) -> Q tt -> safe (modify f) Q.
Proof. intros Hf HQ s Hs. split; [exact HQ|by apply Hf]. Qed.
Lemma osafe_Ok {A} (a : A) (Q : A -> Prop) : Q a -> osafe (Ok a) Q.
Proof. done. Qed.
Lemma osafe_bind {A B} (m : outcome E A) (f : A -> outcome E B) P Q :
  osafe m P -> (forall a, P a -> osafe (f a) Q) -> osafe (m ≫= f) Q.
Proof. intros Hm Hf. destruct m; cbn in *; auto. Qed.
Lemma osafe_weaken {A} (o : outcome E A) (P Q : A -> Prop) : osafe o P -> (forall a, P a -> Q a) -> osafe o Q.
Proof. destruct o; cbn; auto. Qed.
Lemma osafe_unwrap {A} (o : option A) (Q : A -> Prop) a : o = Some a -> Q a -> osafe (unwrap o) Q.
Proof. by intros ->. Qed.
Lemma osafe_assert b (Q : unit -> Prop) : b = true -> Q tt -> osafe (assert_ b) Q.
Proof. by intros ->. Qed.
Lemma osafe_lookup {A} (l : list A) i (Q : A -> Prop) : i < length l -> (forall a, l !! i = Some a -> Q a) -> osafe (unwrap (l !! i)) Q.
Proof. intros Hi HQ. destruct (lookup_lt_is_Some_2 l i Hi) as [a E1]. rewrite E1. by apply HQ. Qed.
Lemma osafe_index {A} (l : list A) i : i < length l -> osafe (unwrap (l !! i)) (fun _ => True).
Proof. intros Hi. by apply osafe_lookup. Qed.
Lemma safe_index {A} (l : list A) i : i < length l -> safe (lift (unwrap (l !! i))) (fun _ => True).
Proof. intros Hi. by apply m_safe_lift, osafe_index. Qed.
Lemma safe_assert b : b = true -> safe (lift (assert_ b)) (fun _ => True).
Proof. intros ->. by apply m_safe_lift. Qed.
Lemma safe_Ok {A} (a : A) : safe (lift (Ok a)) (fun b => b = a).
Proof. by apply m_safe_lift. Qed.
End Safe.

Create HintDb safe.
#[export] Hint Resolve m_safe_ret m_safe_throw osafe_Ok osafe_assert : safe.

(** ** The transform does not panic, whatever the words *)

Section Transform.
Context {Er T : Type} `{Vector Z T}.

Lemma pair_loop_ok (op : T -> T -> Z -> T * T) half step : forall k j cur (io : list T), j + k = half -> length io = 2 * half ->
  exists io', (Ntt.pair_loop op (seq j k) half step cur io : outcome Er _) = Ok io' /\ length io' = 2 * half.
Proof.
  induction k as [|k IH]; intros j cur io Hj Hl; [by exists io|]. cbn [seq Ntt.pair_loop].
  destruct (lookup_lt_is_Some_2 io j ltac:(lia)) as [a ->]. destruct (lookup_lt_is_Some_2 io (j + half) ltac:(lia)) as [b ->].
  cbn [unwrap mbind outcome_bind]. destruct (op a b cur). apply IH; [lia|by rewrite !length_insert].
Qed.

Lemma rev_butterfly_ok n : n <= 27 -> forall (io : list T), length io = 2 ^ n ->
  exists io', (Ntt.rev_butterfly n io : outcome Er _) = Ok io' /\ length io' = 2 ^ n.
Proof.
  induction n as [|n IH]; intros Hn io Hl; [by exists io|]. cbn [Ntt.rev_butterfly].
  destruct (roots_exist (S n) Hn) as (w & v & _ & Ew & _). change (ROU_REV (B := Z)) with Elem.ROU_REV. rewrite Ew.
  cbn [unwrap mbind outcome_bind]. rewrite Nat.pow_succ_r' in *.
  destruct (pair_loop_ok Ntt.rev_pair (2 ^ n) v (2 ^ n) 0 Elem.ONE io eq_refl Hl) as (io1 & E1 & Hl1).
  change (ONE (E := Z)) with Elem.ONE. rewrite E1. cbn [mbind outcome_bind].
  destruct (IH ltac:(lia) (take (2 ^ n) io1)) as (lo & -> & Hlo); [rewrite length_take; lia|].
  destruct (IH ltac:(lia) (drop (2 ^ n) io1)) as (hi & -> & Hhi); [rewrite length_drop; lia|].
  cbn [mbind outcome_bind]. exists (lo ++ hi). split; [done|]. rewrite length_app. lia.
Qed.

Lemma interpolate_ok n (io : list T) : n <= 27 -> length io = 2 ^ n ->
  exists io', (Ntt.interpolate_ntt io : outcome Er _) = Ok io' /\ length io' = 2 ^ n.
Proof.
  intros Hn Hl. unfold Ntt.interpolate_ntt. rewrite Hl, log2_ceil_pow2, shl1_pow2, Z.eqb_refl by lia.
  rewrite (proj2 (Z.leb_le _ _)), Nat2Z.id by lia. cbn [assert_ mbind outcome_bind].
  destruct (rev_butterfly_ok n Hn io Hl) as (io' & -> & Hl'). cbn [mbind outcome_bind].
  eexists. split; [done|]. by rewrite length_map.
Qed.
End Transform.

(** ** Columns *)

Lemma column_elems_ok n data : length data = 4 * n -> exists es, column_elems n data = Ok es /\ length es = n /\
  forall i, i < n -> es !! i = Some (mkExt (nth i data 0%Z) (nth (n + i) data 0%Z) (nth (2 * n + i) data 0%Z) (nth (3 * n + i) data 0%Z)).
Proof.
  intros Hl. set (g := fun i => mkExt (nth i data 0%Z) (nth (n + i) data 0%Z) (nth (2 * n + i) data 0%Z) (nth (3 * n + i) data 0%Z)).
  exists (map g (seq 0 n)). split; [|split; [by rewrite length_map, length_seq|]].
  - unfold column_elems. apply mapM_seq. intros i Hi.
    assert (E : forall j, j < 4 -> (unwrap (data !! (j * n + i)) : outcome VerificationError Z) = Ok (nth (j * n + i) data 0%Z)).
    { intros j Hj. rewrite (nth_lookup_ok data (j * n + i) 0%Z); [done|]. nia. }
    change (seq 0 EXT_SIZE) with [0; 1; 2; 3]. cbn [mapM]. rewrite !E by lia. cbn [mbind outcome_bind mret outcome_ret].
    unfold g. cbn [subelems Ext.from_subelems]. replace (0 * n + i) with i by lia. replace (1 * n + i) with (n + i) by lia. done.
  - intros i Hi. change (map g (seq 0 n)) with (g <$> seq 0 n). rewrite list_lookup_fmap, lookup_seq_lt by done. done.
Qed.

Lemma log2_ceil_nat_pow k : k <= 63 -> log2_ceil_nat (2 ^ k) = k.
Proof. intros Hk. unfold log2_ceil_nat. rewrite log2_ceil_pow2 by done. lia. Qed.

#[export] Instance ext_words_ok : ElemWordsOk ExtElem.
Proof.
  refine {| elem_ok := ereduced |}; [cbn; lia|done| |].
  - intros e He. cbn. unfold ereduced, Ext.elems in He. rewrite !Forall_cons in He. destruct He as (H0 & H1 & H2 & H3 & _).
    unfold Ext.is_valid_bit_pattern, reduced in *. cbn [foldl andb]. rewrite !(proj2 (Z.ltb_lt _ _)) by lia. by destruct e.
  - intros ws e Hws He. cbn in He. destruct ws as [|w0 [|w1 [|w2 [|w3 [|]]]]]; try done. rewrite !Forall_cons in Hws. destruct Hws as (H0 & H1 & H2 & H3 & _).
    unfold Ext.is_valid_bit_pattern in He. cbn [foldl andb] in He. destruct (_ && _) eqn:Ev; [|done]. injection He as <-.
    rewrite !andb_true_iff, !Z.ltb_lt in Ev. destruct Ev as (((V0 & V1) & V2) & V3). unfold fits in *.
    unfold ereduced, Ext.elems, reduced. cbn. repeat (apply Forall_cons; split; [lia|]). by apply Forall_nil.
Defined.

(** The rest of a proof is made of 32-bit words. *)
#[export] Instance words_state {R : Type} : StateOk (ReadIOP R) := fun iop => Forall (fits 32) (proof iop).

Section Protocol.
Context {R : Type} {HF : HashFn Z} {HX : HashExt} {RG : Rng R Z ExtElem} (Hh : hashes_valid (E := Z)).
Abbreviation VI := (state (ReadIOP R) VerificationError).

(** ** Trees *)

(** A verifier of a tree with [2 ^ k] rows and [cols] columns. *)
Definition tree (k cols : nat) (v : MerkleTreeVerifier) : Prop :=
  exists t, verifier_ok (E := Z) v t /\ row_size (v_params v) = 2 ^ k /\ col_size (v_params v) = cols /\ t <= k.

Lemma verifier_new_safe k cols q : k < 32 -> safe (verifier_new (E := Z) (R := R) (2 ^ k) cols q) (tree k cols).
Proof.
  intros Hk iop Hi. destruct (new_params_pow (Er := VerificationError) k cols q Hk) as (t & Eprm & Htk & _).
  pose proof (verifier_new_spec k cols q iop _ t Eprm eq_refl) as Hv.
  destruct (verifier_new (2 ^ k) cols q iop) as [[v|e|] iop1]; [|done|by apply Hv; split; [apply Hh|]]. destruct Hv as (Hv & Hp & Hpf & _).
  unfold state_ok, words_state in *. rewrite Hpf in Hi. apply Forall_app in Hi as [_ Hi]. split; [|exact Hi].
  exists t. rewrite Hp. cbn. split_and!; try done. lia.
Qed.

Lemma verify_safe k cols v idx : tree k cols v -> safe (Merkle.verify (E := Z) (R := R) v idx) (fun out => idx < 2 ^ k /\ length out = cols).
Proof.
  intros (t & Hv & Hr & Hc & Ht) iop Hi. pose proof (verify_cases v t k iop idx Hv Hr Ht) as H1.
  destruct (Merkle.verify v idx iop) as [[out|e|] iop1]; [|done|by apply H1].
  destruct H1 as (Hlt & Hl & ds & j & _ & ws & _ & Hpf). unfold state_ok, words_state in *. rewrite Hpf, !Forall_app in Hi.
  split; [by rewrite <- Hc|apply Hi].
Qed.

Lemma root_safe k cols v : tree k cols v -> osafe (E := VerificationError) (unwrap (root v)) (fun _ => True).
Proof. intros (t & Hv & _). by rewrite (v_root v t Hv). Qed.

Lemma read_elems_safe {T} `{ElemWordsOk T} n : safe (read_field_elem_slice (T := T) (R := R) n) (fun es => length es = n).
Proof.
  intros iop Hi. destruct (read_elems_cases (T := T) n iop) as [(es & more & Hl & -> & ws & _ & _ & Hpf)|(iop' & ->)]; [|done].
  split; [exact Hl|]. unfold state_ok, words_state in *. rewrite Hpf in Hi. by apply Forall_app in Hi as [_ Hi].
Qed.

(** The transcript's draws and commitments read no words. *)
Lemma draw_safe {A} (f : R -> A * R) : safe (E := VerificationError) (draw f) (fun _ => True).
Proof. intros s Hs. unfold draw. by destruct (f (rng s)). Qed.
Lemma commit_safe d : safe (E := VerificationError) (commit (R := R) d) (fun _ => True).
Proof. by apply safe_modify. Qed.
End Protocol.

(** ** FRI *)

Section FriSafe.
Context {R : Type} {HF : HashFn Z} {RG : Rng R Z ExtElem} (Hh : hashes_valid (E := Z)).
Abbreviation VI := (state (ReadIOP R) VerificationError).

(** A round over a domain of [2 ^ k] points folds onto one of [2 ^ (k - 4)]. *)
Definition round_ok (k : nat) (round : VerifyRoundInfo) : Prop := domain round = 2 ^ k /\ tree k (FRI_FOLD * EXT_SIZE) (merkle round).

Inductive rounds_ok : nat -> list VerifyRoundInfo -> nat -> Prop :=
  | rounds_nil k : rounds_ok k [] k
  | rounds_cons k round rounds k' : round_ok k round -> rounds_ok k rounds k' -> rounds_ok (k + 4) (round :: rounds) k'.

Lemma rounds_app k rs k' r k'' : rounds_ok k rs k' -> k' = k'' + 4 -> round_ok k'' r -> rounds_ok k (rs ++ [r]) k''.
Proof. induction 1 as [k|k r' rs k' Hr _ IH]; intros -> Hr''; cbn [app].
  - apply rounds_cons; [done|constructor].
  - apply rounds_cons; [done|]. by apply IH.
Qed.

Lemma rounds_length k rs k' : rounds_ok k rs k' -> k = k' + 4 * length rs.
Proof. induction 1; cbn [length]; lia. Qed.

Lemma fold_pow k : 2 ^ (k + 4) / FRI_FOLD = 2 ^ k.
Proof. rewrite Nat.pow_add_r. by apply Nat.div_mul. Qed.

Lemma round_new_safe k : k < 32 -> safe (round_new (R := R) (2 ^ (k + 4))) (round_ok k).
Proof.
  intros Hk. unfold round_new. rewrite fold_pow.
  eapply m_safe_bind; [by apply verifier_new_safe|]. intros v Hv.
  eapply m_safe_bind; [apply draw_safe|]. intros x _. by apply m_safe_ret.
Qed.

Lemma verify_query_safe k round pos goal : k + 4 <= 27 -> round_ok k round -> pos < 2 ^ (k + 4) ->
  safe (verify_query (R := R) round pos goal) (fun pg => fst pg < 2 ^ k).
Proof.
  intros Hk [Hd Ht] Hpos. assert (Hk0 : 2 ^ k <> 0) by (by apply Nat.pow_nonzero). unfold verify_query. rewrite Hd.
  rewrite (proj2 (Nat.eqb_neq _ _)) by done. eapply m_safe_bind; [by apply safe_assert|]. intros [] _. cbv zeta.
  eapply m_safe_bind; [by eapply verify_safe|]. intros data [Hg Hl].
  destruct (column_elems_ok FRI_FOLD data) as (es & Ee & Hes & _); [exact Hl|]. rewrite Ee.
  eapply m_safe_bind; [apply safe_Ok|]. intros _ ->.
  eapply m_safe_bind; [apply safe_index|].
  { rewrite Hes. apply Nat.Div0.div_lt_upper_bound. rewrite Nat.pow_add_r in Hpos. exact Hpos. }
  intros present _. destruct (negb _); [apply m_safe_throw|].
  assert (Epo2 : log2_ceil_nat (FRI_FOLD * 2 ^ k) = k + 4).
  { change FRI_FOLD with (2 ^ 4). rewrite <- Nat.pow_add_r, Nat.add_comm. apply log2_ceil_nat_pow. lia. }
  rewrite Epo2. eapply m_safe_bind; [apply safe_index; cbn; lia|]. intros root _.
  destruct (interpolate_ok (Er := VerificationError) 4 es ltac:(lia) Hes) as (cs & -> & Hcs).
  eapply m_safe_bind; [apply safe_Ok|]. intros _ ->.
  destruct (bit_reverse_run (Er := VerificationError) 4 cs ltac:(lia) Hcs) as (bs & -> & _).
  eapply m_safe_bind; [apply safe_Ok|]. intros _ ->.
  by apply m_safe_ret.
Qed.

Lemma query_rounds_safe k rs k' : rounds_ok k rs k' -> k <= 27 -> forall pos goal, pos < 2 ^ k ->
  safe (query_rounds (R := R) rs pos goal) (fun pg => fst pg < 2 ^ k').
Proof.
  induction 1 as [k|k r rs k' Hr _ IH]; intros Hk pos goal Hpos; cbn [query_rounds]; [by apply m_safe_ret|].
  eapply m_safe_bind; [by apply (verify_query_safe k)|]. intros [pos' goal'] Hp. apply IH; [lia|exact Hp].
Qed.

Lemma fri_rounds_safe fuel : forall k0 rs d, d < fuel -> d <= 24 -> rounds_ok k0 rs (d + 2) -> 4 * length rs + d <= 24 ->
  safe (fri_rounds (R := R) fuel (2 ^ d) (2 ^ (d + 2)) rs)
    (fun '(rs', degree, domain) => exists d', degree = 2 ^ d' /\ domain = 2 ^ (d' + 2) /\ rounds_ok k0 rs' (d' + 2) /\
       (rs' = rs \/ 5 <= d')).
Proof.
  induction fuel as [|fuel IH]; intros k0 rs d Hf Hd Hrs Hlen; [lia|]. cbn [fri_rounds].
  destruct (Nat.ltb_spec FRI_MIN_DEGREE (2 ^ d)) as [Hlt|Hge].
  - assert (9 <= d).
    { destruct (Nat.le_gt_cases d 8); [|lia]. pose proof (Nat.pow_le_mono_r 2 d 8 ltac:(lia) ltac:(lia)). unfold FRI_MIN_DEGREE in Hlt. change (2 ^ 8) with 256 in *. lia. }
    assert (E1 : 2 ^ d / FRI_FOLD = 2 ^ (d - 4)) by (rewrite <- (fold_pow (d - 4)); do 2 f_equal; lia).
    assert (E2 : 2 ^ (d + 2) / FRI_FOLD = 2 ^ (d - 4 + 2)) by (rewrite <- (fold_pow (d - 4 + 2)); do 2 f_equal; lia).
    rewrite E1, E2. replace (d + 2) with (d - 4 + 2 + 4) by lia.
    eapply m_safe_bind; [apply round_new_safe; lia|]. intros r Hr.
    eapply safe_weaken; [apply IH; [lia|lia|eapply rounds_app; [exact Hrs|lia|exact Hr]|rewrite length_app; cbn; lia]|].
    intros [[rs' degree] domain] (d' & -> & -> & Hr' & Hor). exists d'. split_and!; try done. right. destruct Hor as [-> |]; [|done].
    apply rounds_length in Hr', Hrs. rewrite length_app in Hr'. cbn in Hr'. lia.
  - apply m_safe_ret. exists d. auto.
Qed.

Lemma capacity d : 9 <= d <= 24 -> log2_ceil_nat (div_ceil (div_ceil (2 ^ d) FRI_FOLD) FRI_FOLD_PO2) = d - 6.
Proof.
  intros Hd. assert (E : forall a n, 0 < a -> div_ceil (a * n) a = n).
  { intros a n Ha. unfold div_ceil. replace (a * n + a - 1) with ((a - 1) + n * a) by lia. rewrite Nat.div_add by lia.
    rewrite Nat.div_small by lia. lia. }
  replace (2 ^ d) with (FRI_FOLD * (FRI_FOLD_PO2 * 2 ^ (d - 6))).
  - rewrite !E by (unfold FRI_FOLD, FRI_FOLD_PO2; lia). apply log2_ceil_nat_pow. lia.
  - change FRI_FOLD with (2 ^ 4). change FRI_FOLD_PO2 with (2 ^ 2). rewrite <- !Nat.pow_add_r. f_equal. lia.
Qed.

Lemma repeat_safe n (m : VI unit) : safe m (fun _ => True) -> safe (repeat n m) (fun _ => True).
Proof. intros Hm. induction n as [|n IH]; cbn [repeat]; [by apply m_safe_ret|]. eapply m_safe_bind; [exact Hm|done]. Qed.

Lemma fri_verify_safe d (inner : nat -> VI ExtElem) : d <= 24 -> (forall pos, safe (inner pos) (fun _ => pos < 2 ^ (d + 2))) ->
  safe (fri_verify (2 ^ d) inner) (fun _ => True).
Proof.
  intros Hd Hin. unfold fri_verify. change INV_RATE with (2 ^ 2). rewrite <- Nat.pow_add_r, (Nat.add_comm 2 d).
  eapply m_safe_bind; [eapply (fri_rounds_safe _ (d + 2)); [|done|constructor|cbn; lia]|].
  { pose proof (Nat.pow_gt_lin_r 2 d). lia. }
  intros [[rs degree] dom] (d' & -> & -> & Hrs & Hor).
  pose proof (rounds_length _ _ _ Hrs) as Hl.
  eapply m_safe_bind; [apply safe_assert|].
  { apply Nat.leb_le. destruct Hor as [-> |H5]; [cbn; lia|]. destruct (decide (length rs = 0)) as [->|]; [lia|]. rewrite capacity by lia. lia. }
  intros [] _. eapply m_safe_bind; [apply read_elems_safe|]. intros cs Hcs.
  eapply m_safe_bind; [apply commit_safe|]. intros _ _.
  rewrite log2_ceil_nat_pow by lia.
  eapply m_safe_bind; [apply safe_index; cbn; lia|]. intros gen_ _.
  apply repeat_safe. unfold query. eapply m_safe_bind; [apply draw_safe|].
  intros pos _. cbv zeta. eapply m_safe_bind; [apply Hin|]. intros goal Hpos.
  eapply m_safe_bind; [by apply (query_rounds_safe (d + 2) rs (d' + 2)); [done|lia|]|]. intros [pos' goal'] Hp'.
  destruct (column_elems_ok (2 ^ d') cs) as (es & -> & _ & _); [by rewrite Hcs|].
  eapply m_safe_bind with (P := fun _ => True); [by apply m_safe_lift|]. intros es' _.
  destruct (negb _); [apply m_safe_throw|by apply m_safe_ret].
Qed.
End FriSafe.

(** ** The tables of a circuit *)

Section Tables.
Context (t : Taps.TapSet).
Abbreviation O_ := (outcome VerificationError).

Definition is_ok {A} (o : O_ A) : bool := match o with Ok _ => true | _ => false end.

(** A register lies in the taps, is not empty, and names a column and a combo that exist. *)
Definition reg_ok (r : Taps.RegisterRef) : bool :=
  match Taps.reg_data r !! (Taps.cursor r) with
  | None => false
  | Some d =>
      (Taps.group d <? Taps.num_groups t) &&
      match (Taps.group_size t (Taps.group d) : O_ nat) with Ok n => Taps.offset d <? n | _ => false end &&
      (Taps.combo d <? Taps.combos_count t) && (0 <? Taps.skip d) &&
      (Taps.cursor r + Taps.skip d <=? length (Taps.reg_data r)) &&
      match Taps.combo_begin t !! Taps.combo d with
      | Some b => b + Taps.skip d <=? Taps.tot_combo_backs t + 1
      | None => false
      end
  end.

Definition size_of (r : Taps.RegisterRef) : nat := match (Taps.reg_size r : O_ nat) with Ok n => n | _ => 0 end.
Definition sizes (rs : list Taps.RegisterRef) : nat := foldr (fun r n => size_of r + n) 0 rs.

(** A combo is a range of the mixed coefficients and of the combo taps. *)
Definition combo_ok (i : nat) : bool :=
  match Taps.combo_begin t !! i, Taps.combo_begin t !! (i + 1) with
  | Some from, Some to => (from <=? to) && (to <=? Taps.tot_combo_backs t + 1) && (to <=? length (Taps.combo_taps t))
  | _, _ => false
  end.

Definition taps_ok : bool :=
  match (Taps.regs t : O_ _), (Taps.tap_size t : O_ _) with
  | Ok rs, Ok n => forallb reg_ok rs && (sizes rs =? n) && (length rs =? Taps.reg_count t)
  | _, _ => false
  end && forallb combo_ok (seq 0 (Taps.combos_count t)) && forallb (fun g => is_ok (Taps.group_size t g)) (seq 0 (Taps.num_groups t)).

Record reg_fact (r : Taps.RegisterRef) (d : Taps.TapData) : Prop := mkRegFact {
  rf_tap : (Taps.reg_tap r 0 : O_ _) = Ok d;
  rf_size : size_of r = Taps.skip d;
  rf_group : exists n, (Taps.group_size t (Taps.group d) : O_ nat) = Ok n /\ Taps.offset d < n;
  rf_group_lt : Taps.group d < Taps.num_groups t;
  rf_combo : Taps.combo d < Taps.combos_count t;
  rf_pos : 0 < Taps.skip d;
  rf_back i : i < Taps.skip d -> exists e, (Taps.reg_tap r i : O_ _) = Ok e;
  rf_begin : exists b, Taps.combo_begin t !! Taps.combo d = Some b /\ b + Taps.skip d <= Taps.tot_combo_backs t + 1 }.

Lemma reg_ok_fact r : reg_ok r = true -> exists d, reg_fact r d.
Proof.
  unfold reg_ok. destruct (Taps.reg_data r !! Taps.cursor r) as [d|] eqn:Ed; [|done]. intros Hr.
  repeat (apply andb_prop in Hr as [Hr ?]). exists d.
  assert (Et : (Taps.reg_tap r 0 : O_ _) = Ok d) by (unfold Taps.reg_tap; by rewrite Nat.add_0_r, Ed).
  destruct (Taps.group_size t (Taps.group d)) as [n|e|] eqn:Eg; [|done|done].
  destruct (Taps.combo_begin t !! Taps.combo d) as [b|] eqn:Eb; [|done].
  repeat match goal with H : (_ <? _) = true |- _ => apply Nat.ltb_lt in H | H : (_ <=? _) = true |- _ => apply Nat.leb_le in H end.
  split; [exact Et| | |done|done|done| |]; [|by exists n| |by exists b].
  - unfold size_of, Taps.reg_size. by rewrite Et.
  - intros i Hi. unfold Taps.reg_tap. destruct (lookup_lt_is_Some_2 (Taps.reg_data r) (Taps.cursor r + i)) as [e Ee]; [lia|].
    rewrite Ee. by exists e.
Qed.

Record taps_fact (rs : list Taps.RegisterRef) (n : nat) : Prop := mkTapsFact {
  tf_regs : (Taps.regs t : O_ _) = Ok rs;
  tf_size : (Taps.tap_size t : O_ _) = Ok n;
  tf_reg : Forall (fun r => exists d, reg_fact r d) rs;
  tf_sizes : sizes rs = n;
  tf_count : length rs = Taps.reg_count t;
  tf_combo i : i < Taps.combos_count t -> combo_ok i = true;
  tf_group g : g < Taps.num_groups t -> exists m, (Taps.group_size t g : O_ _) = Ok m }.

Lemma taps_ok_fact : taps_ok = true -> exists rs n, taps_fact rs n.
Proof.
  unfold taps_ok. intros Ht. apply andb_prop in Ht as [Ht Hg]. apply andb_prop in Ht as [Ht Hc].
  destruct (Taps.regs t) as [rs|e|] eqn:Er; [|done|done]. destruct (Taps.tap_size t) as [n|e|] eqn:En; [|done|done].
  apply andb_prop in Ht as [Ht Hl%Nat.eqb_eq]. apply andb_prop in Ht as [Ht Hs%Nat.eqb_eq].
  exists rs, n. split; try done.
  - apply Forall_forall. intros r Hr. apply reg_ok_fact. rewrite forallb_forall in Ht. by apply Ht, list_elem_of_In.
  - intros i Hi. rewrite forallb_forall in Hc. apply Hc, in_seq. lia.
  - intros g Hg'. rewrite forallb_forall in Hg. specialize (Hg g ltac:(apply in_seq; lia)).
    destruct (Taps.group_size t g) as [m|e|]; [by exists m|done|done].
Qed.

(** ** The evaluation of the taps *)

Context (rs : list Taps.RegisterRef) (n : nat) (Hf : taps_fact rs n).

Lemma add_at_safe i v tot : i < length tot -> osafe (add_at i v tot) (fun tot' => length tot' = length tot).
Proof.
  intros Hi. unfold add_at. eapply osafe_bind; [by apply osafe_index|]. intros e _. cbn. by rewrite length_insert.
Qed.

(** Rows with a cell for every column of their group. *)
Definition rows_ok (rows : list (list Z)) : Prop := length rows = Taps.num_groups t /\
  forall g row m, rows !! g = Some row -> (Taps.group_size t g : O_ _) = Ok m -> length row = m.

Lemma tap_sums_safe rows : rows_ok rows -> forall regs pows tot, Forall (fun r => exists d, reg_fact r d) regs ->
  Taps.combos_count t < length tot -> osafe (tap_sums regs pows rows tot) (fun tot' => length tot' = length tot).
Proof.
  intros [Hl Hr]. induction regs as [|r regs IH]; intros pows tot Hrs Hc; [done|]. destruct pows as [|cur pows]; [done|].
  apply Forall_cons in Hrs as [[d Hd] Hrs]. cbn [tap_sums].
  unfold Taps.reg_group, Taps.reg_offset, Taps.reg_combo_id. rewrite (rf_tap _ _ Hd). cbn [fmap outcome_fmap mbind outcome_bind].
  destruct (lookup_lt_is_Some_2 rows (Taps.group d)) as [row Ew]; [rewrite Hl; apply (rf_group_lt _ _ Hd)|].
  destruct (rf_group _ _ Hd) as (m & Em & Ho). pose proof (Hr _ _ _ Ew Em) as Hlr. rewrite Ew. cbn [unwrap mbind outcome_bind].
  eapply osafe_bind; [apply osafe_index; lia|]. intros cell _.
  eapply osafe_bind; [apply add_at_safe; pose proof (rf_combo _ _ Hd); lia|]. intros tot' Ht'; cbv beta in Ht'.
  eapply osafe_weaken; [apply IH; [done|lia]|]. intros tot'' Ht''. by rewrite Ht''.
Qed.

Lemma check_sums_safe row : length row = CHECK_SIZE -> forall is_ pows tot c, Forall (fun i => i < CHECK_SIZE) is_ -> c < length tot ->
  osafe (check_sums is_ pows row c tot) (fun tot' => length tot' = length tot).
Proof.
  intros Hl. induction is_ as [|i is_ IH]; intros pows tot c His Hc; [done|]. destruct pows as [|cur pows]; [done|].
  apply Forall_cons in His as [Hi His]. cbn [check_sums]. eapply osafe_bind; [apply osafe_index; lia|]. intros cell _.
  eapply osafe_bind; [by apply add_at_safe|]. intros tot' Ht'; cbv beta in Ht'. eapply osafe_weaken; [apply IH; [done|lia]|]. intros tot'' Ht''. by rewrite Ht''.
Qed.

Lemma combo_quotients_safe us tot b x z : length us = Taps.tot_combo_backs t + 1 -> forall is_ ret,
  Forall (fun i => i < Taps.combos_count t /\ i < length tot) is_ -> osafe (combo_quotients t is_ us tot b x z ret) (fun _ => True).
Proof.
  intros Hu. induction is_ as [|i is_ IH]; intros ret His; [done|]. apply Forall_cons in His as [[Hi Hit] His]. cbn [combo_quotients].
  eapply osafe_bind; [by apply osafe_index|]. intros e _. pose proof (tf_combo _ _ Hf i Hi) as Hc. unfold combo_ok in Hc.
  unfold Taps.combo_slice, Taps.self_offset, Taps.next_offset, Taps.get_combo. cbn [Taps.c_offsets Taps.combo_id Taps.c_taps].
  destruct (Taps.combo_begin t !! i) as [from|]; [|done]. destruct (Taps.combo_begin t !! (i + 1)) as [to|]; [|done].
  apply andb_prop in Hc as [Hc H3]. apply andb_prop in Hc as [H1 H2]. apply Nat.leb_le in H2. rewrite <- Hu in H2. apply Nat.leb_le in H2.
  cbn [unwrap mbind outcome_bind]. unfold Taps.slice. rewrite H1, H2. cbn [andb assert_ mbind outcome_bind unwrap].
  rewrite H3. cbn [andb assert_ mbind outcome_bind]. by apply IH.
Qed.

Lemma fri_eval_taps_safe us row b x z rows tp cp : length us = Taps.tot_combo_backs t + 1 -> length row = CHECK_SIZE -> rows_ok rows ->
  osafe (fri_eval_taps t us row b x z rows tp cp) (fun _ => True).
Proof.
  intros Hu Hrow Hrows. unfold fri_eval_taps. rewrite (tf_regs _ _ Hf). cbn [mbind outcome_bind]. unfold Taps.combos_size.
  eapply osafe_bind; [apply tap_sums_safe; [done|apply Hf|rewrite length_replicate; lia]|]. intros tot Ht. rewrite length_replicate in Ht.
  eapply osafe_bind; [apply check_sums_safe; [done|apply Forall_seq; lia|lia]|]. intros tot' Ht'; cbv beta in Ht'.
  eapply osafe_bind; [apply combo_quotients_safe; [done|apply Forall_seq; lia]|]. intros ret _.
  eapply osafe_bind; [apply osafe_index; lia|]. intros e _. eapply osafe_bind; [apply osafe_index; lia|]. done.
Qed.

Lemma reg_evals_safe r d z b cs : reg_fact r d -> forall is_, Forall (fun i => i < Taps.skip d) is_ ->
  osafe (reg_evals is_ r z b cs) (fun es => length es = length is_).
Proof.
  intros Hd. induction is_ as [|i is_ IH]; intros His; [done|]. apply Forall_cons in His as [Hi His]. cbn [reg_evals]. unfold Taps.reg_back.
  destruct (rf_back _ _ Hd i Hi) as [e ->]. cbn [fmap outcome_fmap mbind outcome_bind]. eapply osafe_bind; [by apply IH|]. intros es He. cbn. by rewrite He.
Qed.

Lemma reg_size_of r d : reg_fact r d -> (Taps.reg_size r : O_ _) = Ok (size_of r).
Proof. intros Hd. rewrite (rf_size _ _ Hd). unfold Taps.reg_size. by rewrite (rf_tap _ _ Hd). Qed.

Lemma tap_evals_safe z b us : forall regs pos, Forall (fun r => exists d, reg_fact r d) regs -> pos + sizes regs <= length us ->
  osafe (tap_evals regs pos z b us) (fun es => length es = sizes regs).
Proof.
  induction regs as [|r regs IH]; intros pos Hrs Hl; [done|]. apply Forall_cons in Hrs as [[d Hd] Hrs]. cbn [tap_evals sizes foldr] in *.
  fold (sizes regs) in *. rewrite (reg_size_of r d Hd). cbn [mbind outcome_bind].
  rewrite (proj2 (Nat.eqb_neq _ _)) by (rewrite (rf_size _ _ Hd); pose proof (rf_pos _ _ Hd); lia).
  unfold Taps.slice. rewrite !(proj2 (Nat.leb_le _ _)) by lia. cbn [andb assert_ mbind outcome_bind].
  eapply osafe_bind; [apply (reg_evals_safe r d); [done|rewrite (rf_size _ _ Hd); apply Forall_seq; lia]|]. intros es He. cbv beta in He. rewrite length_seq in He.
  eapply osafe_bind; [apply IH; [done|lia]|]. intros rest Hrest. cbv beta in Hrest. cbn. rewrite length_app. lia.
Qed.

Lemma check_poly_safe num z us : length us = num + CHECK_SIZE -> forall remap i c, Forall (fun r => r < 4) remap ->
  osafe (check_poly i remap num z us c) (fun _ => True).
Proof.
  intros Hl. change CHECK_SIZE with 16 in Hl. induction remap as [|r remap IH]; intros i c Hr; [done|]. apply Forall_cons in Hr as [Hi Hr]. cbn [check_poly].
  repeat (eapply osafe_bind with (P := fun _ => True); [eapply osafe_bind; [apply osafe_index; lia|done]|intros ? _]). by apply IH.
Qed.

Lemma mix_reg_safe b pos cur us : forall is_ combo, Forall (fun i => pos + i < length us /\ b + i < length combo) is_ ->
  osafe (mix_reg is_ b pos cur us combo) (fun combo' => length combo' = length combo).
Proof.
  induction is_ as [|i is_ IH]; intros combo His; [done|]. apply Forall_cons in His as [[H1 H2] His]. cbn [mix_reg].
  eapply osafe_bind; [by apply osafe_index|]. intros c _. eapply osafe_bind; [by apply add_at_safe|]. intros combo' Hc.
  eapply osafe_weaken; [apply IH; by rewrite Hc|]. intros ? ?. congruence.
Qed.

Lemma mix_taps_safe mix us : forall regs combo cur pos pows, Forall (fun r => exists d, reg_fact r d) regs ->
  pos + sizes regs <= length us -> length combo = Taps.tot_combo_backs t + 1 ->
  osafe (mix_taps t regs mix us combo cur pos pows)
    (fun '(combo', _, pos', pows') => length combo' = length combo /\ pos' = pos + sizes regs /\ length pows' = length pows + length regs).
Proof.
  induction regs as [|r regs IH]; intros combo cur pos pows Hrs Hl Hc; [cbn; lia|]. apply Forall_cons in Hrs as [[d Hd] Hrs].
  cbn [mix_taps sizes foldr length] in *. fold (sizes regs) in *. rewrite (reg_size_of r d Hd). unfold Taps.reg_combo_id. rewrite (rf_tap _ _ Hd).
  cbn [fmap outcome_fmap mbind outcome_bind]. pose proof (rf_pos _ _ Hd). pose proof (rf_size _ _ Hd) as Es.
  rewrite (proj2 (Nat.eqb_neq _ _)) by lia. destruct (rf_begin _ _ Hd) as (b & -> & Hb). cbn [unwrap mbind outcome_bind].
  eapply osafe_bind; [apply mix_reg_safe, Forall_seq; intros i Hi; split; lia|]. intros combo' Hc'; cbv beta in Hc'.
  eapply osafe_weaken; [apply IH; [done|lia|lia]|]. intros [[[c' cm] p'] ps'] (H1 & H2 & H3). rewrite length_app in H3. cbn in H3. lia.
Qed.

Lemma mix_check_safe mix us : forall k combo cur pos pows, pos + k <= length us -> Taps.tot_combo_backs t < length combo ->
  osafe (mix_check t k mix us combo cur pos pows) (fun '(combo', pows') => length combo' = length combo /\ length pows' = length pows + k).
Proof.
  induction k as [|k IH]; intros combo cur pos pows Hl Hc; [cbn; lia|]. cbn [mix_check].
  eapply osafe_bind; [apply osafe_index; lia|]. intros c _. eapply osafe_bind; [by apply add_at_safe|]. intros combo' Hc'; cbv beta in Hc'.
  eapply osafe_weaken; [apply IH; lia|]. intros [c' p'] [H1 H2]. rewrite length_app in H2. cbn in H2. lia.
Qed.
End Tables.

(** ** The protocol *)

Section Protocol_safe.
Context {R : Type} {HF : HashFn Z} {HX : HashExt} {RG : Rng R Z ExtElem} (Hh : hashes_valid (E := Z)) (t : Taps.TapSet).
Abbreviation VI := (state (ReadIOP R) VerificationError).
Abbreviation Ver := (Verifier (R := R)).
Abbreviation VM := (state Ver VerificationError).
Abbreviation O_ := (outcome VerificationError).

(** From a state with [P], [m] returns with [Q] or an error. *)
Definition hoare {A} (P : Ver -> Prop) (m : VM A) (Q : A -> Ver -> Prop) : Prop :=
  forall v, P v -> match m v with (Ok a, v') => Q a v' | (Err _, _) => True | (Panic, _) => False end.

Lemma hoare_ret {A} P (a : A) (Q : A -> Ver -> Prop) : (forall v, P v -> Q a v) -> hoare P (mret a) Q.
Proof. intros H v Hv. by apply H. Qed.
Lemma hoare_throw {A} P e (Q : A -> Ver -> Prop) : hoare P (throw e) Q.
Proof. by intros v _. Qed.
Lemma hoare_bind {A B} P (m : VM A) (f : A -> VM B) M Q : hoare P m M -> (forall a, hoare (M a) (f a) Q) -> hoare P (m ≫= f) Q.
Proof.
  intros Hm Hf v Hv. specialize (Hm v Hv). unfold mbind, state_bind. destruct (m v) as [[a|e|] v']; [by apply Hf|done|done].
Qed.
Lemma hoare_weaken {A} P (m : VM A) (Q Q' : A -> Ver -> Prop) : hoare P m Q -> (forall a v, Q a v -> Q' a v) -> hoare P m Q'.
Proof. intros Hm HQ v Hv. specialize (Hm v Hv). destruct (m v) as [[a|e|] v']; auto. Qed.
Lemma hoare_get {B} P (f : Ver -> VM B) Q : (forall v, P v -> hoare P (f v) Q) -> hoare P (get ≫= f) Q.
Proof. intros H v Hv. by apply (H v). Qed.
(** A computation on outcomes, its value with [C]. *)
Lemma hoare_lift {A B} P (o : O_ A) (f : A -> VM B) C Q : osafe o C -> (forall a, C a -> hoare P (f a) Q) -> hoare P (lift o ≫= f) Q.
Proof. intros Ho Hf v Hv. unfold mbind, state_bind, lift. destruct o as [a|e|]; [by apply Hf|done|done]. Qed.
Lemma hoare_pure {A} (C : Prop) P (m : VM A) Q : (C -> hoare P m Q) -> hoare (fun v => C /\ P v) m Q.
Proof. intros H v [HC Hv]. by apply H. Qed.

(** The part of the state that the transcript does not change, and the words left to read. *)
Definition at_ (p : nat) (ms : list (option MerkleTreeVerifier)) (v : Ver) : Prop :=
  po2 v = p /\ tot_cycles v = 2 ^ p /\ merkle_verifiers v = ms /\ state_ok (iop v).
Definition start (ms : list (option MerkleTreeVerifier)) (v : Ver) : Prop := merkle_verifiers v = ms /\ state_ok (iop v).

Lemma hoare_iop {A B} p ms (m : VI A) (f : A -> VM B) C Q : safe m C -> (forall a, C a -> hoare (at_ p ms) (f a) Q) ->
  hoare (at_ p ms) (on_iop m ≫= f) Q.
Proof.
  intros Hm Hf v (E1 & E2 & E3 & Hi). specialize (Hm (iop v) Hi). unfold mbind, state_bind, on_iop.
  destruct (m (iop v)) as [[a|e|] i]; [|done|done]. destruct Hm as [Ha Hi']. by apply Hf.
Qed.
Lemma hoare_iop_last {A} p ms (m : VI A) C : safe m C -> hoare (at_ p ms) (on_iop m) (fun a v => C a /\ at_ p ms v).
Proof.
  intros Hm v (E1 & E2 & E3 & Hi). specialize (Hm (iop v) Hi). unfold on_iop. destruct (m (iop v)) as [[a|e|] i]; [|done|done].
  destruct Hm as [Ha Hi']. by split.
Qed.

(** ** Groups *)

Context (rs : list Taps.RegisterRef) (n : nat) (Hf : taps_fact t rs n).

(** The tree of group [g] is in place. *)
Definition slot (p g : nat) (o : option MerkleTreeVerifier) : Prop :=
  exists v m, o = Some v /\ (Taps.group_size t g : O_ _) = Ok m /\ tree (p + 2) m v.

Lemma verify_group_safe p ms g : p <= 24 -> g < Taps.num_groups t -> ms !! g = Some None ->
  hoare (at_ p ms) (verify_group t g) (fun _ v => exists o, slot p g o /\ at_ p (<[g := o]> ms) v).
Proof.
  intros Hp Hg Hs. unfold verify_group. apply hoare_get. intros v (Ep & Et & Em & _).
  rewrite Em, Hs. eapply hoare_lift; [by apply osafe_Ok with (Q := fun o => o = None)|]. intros _ ->.
  destruct (tf_group _ _ _ Hf g Hg) as [m Egm].
  eapply hoare_lift; [rewrite Egm; by apply osafe_Ok with (Q := fun o => o = m)|]. intros _ ->.
  rewrite Et. change INV_RATE with (2 ^ 2). rewrite <- Nat.pow_add_r, (Nat.add_comm 2 p). cbv zeta.
  eapply hoare_iop; [apply verifier_new_safe; [done|lia]|]. intros mk Hmk. pose proof (root_safe _ _ _ Hmk) as Hr.
  intros w (E1 & E2 & E3 & Hi). unfold mbind, state_bind, modify, lift. destruct (unwrap (root mk)); [|done|done].
  exists (Some mk). split; [by exists mk, m|]. split_and!; [done|done| |exact Hi]. cbn. by rewrite E3.
Qed.

Lemma read_rng_safe p ms k : hoare (at_ p ms) (read_rng (R := R) k) (fun l v => length l = k /\ at_ p ms v).
Proof.
  induction k as [|k IH]; cbn [read_rng]; [by apply hoare_ret|].
  eapply hoare_iop; [apply draw_safe|]. intros e _. eapply hoare_bind; [exact IH|]. intros es. apply hoare_pure. intros Hl.
  apply hoare_ret. intros v Hv. cbn. by rewrite Hl.
Qed.

Lemma verify_rows_safe p idx : forall ms g, (forall j o, ms !! j = Some o -> slot p (g + j) o) ->
  safe (verify_rows (R := R) ms idx) (fun rows => length rows = length ms /\
    forall j row m, rows !! j = Some row -> (Taps.group_size t (g + j) : O_ _) = Ok m -> length row = m).
Proof.
  induction ms as [|o ms IH]; intros g Hms; cbn [verify_rows]; [by apply m_safe_ret|].
  destruct (Hms 0 o eq_refl) as (v & m & -> & Eg & Ht). rewrite Nat.add_0_r in Eg.
  eapply m_safe_bind; [apply safe_Ok|]. intros _ ->. eapply m_safe_bind; [by eapply verify_safe|]. intros row [_ Hrow].
  eapply m_safe_bind; [apply (IH (S g)); intros j o Ho; replace (S g + j) with (g + S j) by lia; by apply Hms|].
  intros rows [Hl Hr]. apply m_safe_ret. split; [cbn; lia|]. intros [|j] row' m' Hj Em; cbn in Hj.
  - injection Hj as <-. rewrite Nat.add_0_r in Em. congruence.
  - apply (Hr j); [done|]. by replace (S g + j) with (g + S j) by lia.
Qed.

(** Every group has its tree. *)
Definition slots_ok (p : nat) (ms : list (option MerkleTreeVerifier)) : Prop :=
  length ms = Taps.num_groups t /\ forall g o, ms !! g = Some o -> slot p g o.

Lemma fri_inner_safe p gen_ ms ck us b z tp cp idx : slots_ok p ms -> tree (p + 2) CHECK_SIZE ck ->
  length us = Taps.tot_combo_backs t + 1 -> safe (fri_inner (R := R) t gen_ ms ck us b z tp cp idx) (fun _ => idx < 2 ^ (p + 2)).
Proof.
  intros [Hl Hs] Hck Hu. unfold fri_inner. eapply m_safe_bind; [by apply (verify_rows_safe p idx ms 0)|]. intros rows [Hlr Hrows].
  eapply m_safe_bind; [by eapply verify_safe|]. intros row [Hidx Hrow]. apply m_safe_lift.
  eapply osafe_weaken; [by eapply (fri_eval_taps_safe t rs n Hf); [..|split; [congruence|exact Hrows]]|]. done.
Qed.

(** ** The validity of the trace, and the whole verifier *)

Lemma slots_some p ms : slots_ok p ms -> forallb (fun m => match m with Some _ => true | None => false end) ms = true.
Proof.
  intros [_ Hs]. apply forallb_forall. intros o Ho. apply list_elem_of_In, list_elem_of_lookup in Ho as [g Ho].
  by destruct (Hs g o Ho) as (v & m & -> & _).
Qed.

Lemma verify_validity_safe p ms vf : p <= 24 -> slots_ok p ms -> (forall m us, length us = n + 1 -> osafe (vf m us) (fun _ => True)) ->
  hoare (at_ p ms) (verify_validity t vf) (fun _ v => True /\ at_ p ms v).
Proof.
  intros Hp Hms Hvf. unfold verify_validity. apply hoare_get. intros v (Ep & Et & Em & _). rewrite Ep, Et, Em, (slots_some p ms Hms).
  eapply hoare_lift; [by apply osafe_Ok with (Q := fun _ => True)|]. intros _ _.
  eapply hoare_iop; [apply draw_safe|]. intros poly_mix _. cbv zeta.
  change (INV_RATE * 2 ^ p) with (2 ^ 2 * 2 ^ p). rewrite <- Nat.pow_add_r, (Nat.add_comm 2 p).
  eapply hoare_iop; [apply verifier_new_safe; [done|lia]|]. intros ck Hck.
  eapply hoare_iop; [apply draw_safe|]. intros z _.
  eapply hoare_lift; [apply osafe_index; cbn; lia|]. intros back_one _.
  rewrite (tf_size _ _ _ Hf). eapply hoare_lift; [by apply osafe_Ok with (Q := fun k => k = n)|]. intros _ ->.
  eapply hoare_iop; [apply read_elems_safe|]. intros us Hus. cbv beta in Hus.
  eapply hoare_iop; [apply commit_safe|]. intros _ _.
  rewrite (tf_regs _ _ _ Hf). eapply hoare_lift; [by apply osafe_Ok with (Q := fun k => k = rs)|]. intros _ ->.
  pose proof (tf_sizes _ _ _ Hf) as Esz.
  eapply hoare_lift; [apply (tap_evals_safe t z back_one us rs 0); [apply (tf_reg _ _ _ Hf)|lia]|]. intros eval_u Hev. cbv beta in Hev.
  assert (Hev1 : length (eval_u ++ [Ext.mul_elem z (Elem.from_u64 3)]) = n + 1) by (rewrite length_app; cbn; lia).
  rewrite Hev1, Nat.eqb_refl.
  eapply hoare_lift; [by apply osafe_Ok with (Q := fun _ => True)|]. intros _ _.
  eapply hoare_lift; [by apply Hvf|]. intros result _.
  eapply hoare_lift; [apply check_poly_safe; [done|repeat constructor; lia]|]. intros check _.
  destruct (negb _); [apply hoare_throw|].
  eapply hoare_iop; [apply draw_safe|]. intros mix _.
  eapply hoare_lift; [eapply (mix_taps_safe t); [apply (tf_reg _ _ _ Hf)|lia|apply length_replicate]|].
  intros [[[combo_u cur_mix] cur_pos] pows] (Hc & -> & Hpw). cbn [length] in Hpw.
  rewrite Hpw, (tf_count _ _ _ Hf), Nat.eqb_refl. rewrite length_replicate in Hc.
  eapply hoare_lift; [by apply osafe_Ok with (Q := fun _ => True)|]. intros _ _.
  eapply hoare_lift; [apply mix_check_safe; lia|]. intros [combo_u' cpows] [Hc' Hcp]. cbn [length] in Hcp.
  rewrite Hcp, Nat.eqb_refl.
  eapply hoare_lift; [by apply osafe_Ok with (Q := fun _ => True)|]. intros _ _.
  rewrite log2_ceil_nat_pow by lia. eapply hoare_lift; [apply osafe_index; cbn; lia|]. intros gen_ _.
  apply hoare_iop_last, fri_verify_safe; [done..|]. intros pos. apply fri_inner_safe; [done|done|congruence].
Qed.


(** The state after the header of the seal: a size that was read, and no tree yet. *)
Lemma read_slice_safe ms k : hoare (start ms) (read_slice_with_po2 (R := R) k)
  (fun '(out, p) v => (length out = k /\ p <= 24) /\ at_ p ms v).
Proof.
  intros v [Hv Hi]. unfold read_slice_with_po2, mbind at 1, state_bind at 1, on_iop at 1.
  pose proof (read_elems_safe (T := Z) (R := R) (k + 1) (iop v) Hi) as Hr.
  destruct (read_field_elem_slice (k + 1) (iop v)) as [[slice|e|] i]; [|done|done]. destruct Hr as [Hr Hi'].
  unfold mbind, state_bind, on_iop, lift, commit, modify. cbn [iop].
  destruct (lookup_lt_is_Some_2 slice k ltac:(lia)) as [p ->]. cbn [unwrap].
  destruct (Z.ltb_spec MAX_CYCLES_PO2 p) as [|Hp]; [done|]. cbn. unfold MAX_CYCLES_PO2 in Hp.
  split; [|done]. rewrite length_take. lia.
Qed.

Lemma slots_filled p o0 o1 o2 ms : Taps.num_groups t = 3 -> ms = [o0; o1; o2] -> slot p 0 o0 -> slot p 1 o1 -> slot p 2 o2 -> slots_ok p ms.
Proof.
  intros Hn -> H0 H1 H2. split; [by rewrite Hn|]. intros g o Hg.
  destruct g as [|[|[|g]]]; cbn in Hg; [by injection Hg as <-..|done].
Qed.

Lemma verify_safe_all (c : Circuit) rng seal check_code : Forall (fits 32) seal -> Taps.num_groups t = 3 ->
  (forall m us out mix, length us = n + 1 -> length out = OUTPUT_SIZE c -> length mix = MIX_SIZE c -> poly_ext c m us [out; mix] <> Panic) ->
  (forall p d, check_code p d <> Panic) ->
  osafe (Verifier.verify t c rng seal check_code) (fun _ => True).
Proof.
  intros Hseal Hn Hpoly Hcode. unfold Verifier.verify. destruct seal as [|w seal]; [done|].
  set (prog := commit_circuit_info _ ;; _).
  assert (Hprog : hoare (start (replicate 3 None)) prog (fun _ _ => True)).
  { unfold prog. eapply hoare_bind with (M := fun _ => start (replicate 3 None)); [by intros v Hv|]. intros [].
    eapply hoare_bind; [apply read_slice_safe|]. intros [out p]. apply hoare_pure. intros [Hout Hp].
    eapply hoare_bind; [apply verify_group_safe; [done|rewrite Hn; by apply Nat.ltb_lt|done]|]. intros code_root v (o1 & Ho1 & Hv). revert v Hv.
    eapply hoare_lift with (C := fun _ => True); [specialize (Hcode p code_root); by destruct (check_code p code_root)|]. intros _ _.
    eapply hoare_bind; [apply verify_group_safe; [done|rewrite Hn; by apply Nat.ltb_lt|done]|]. intros _ v (o2 & Ho2 & Hv). revert v Hv.
    eapply hoare_bind; [apply read_rng_safe|]. intros mix. apply hoare_pure. intros Hmix.
    eapply hoare_bind; [apply verify_group_safe; [done|rewrite Hn; by apply Nat.ltb_lt|done]|]. intros _ v (o0 & Ho0 & Hv). revert v Hv.
    eapply hoare_bind; [apply verify_validity_safe; [done|by eapply slots_filled; [done|reflexivity|..]|]|].
    - cbv beta. intros m us Hus. specialize (Hpoly m us out mix Hus Hout Hmix). by destruct (poly_ext c m us [out; mix]).
    - intros ?. apply hoare_pure. intros _ v _. unfold on_iop, verify_complete. by destruct (proof (iop v)). }
  specialize (Hprog (new t (w :: seal) rng)). unfold new in *. cbn [merkle_verifiers] in Hprog. rewrite Hn in *. specialize (Hprog (conj eq_refl Hseal)).
  by destruct (prog _) as [[a|e|] v'].
Qed.

(** ** The groups of the third version, in order *)

(** The first [i] groups have their trees, the others have none. *)
Definition filled (p i : nat) (ms : list (option MerkleTreeVerifier)) : Prop :=
  length ms = Taps.num_groups t /\ (forall g o, g < i -> ms !! g = Some o -> slot p g o) /\
  (forall g, i <= g -> g < Taps.num_groups t -> ms !! g = Some None).

Lemma filled_step p i ms o : i < Taps.num_groups t -> filled p i ms -> slot p i o -> filled p (S i) (<[i := o]> ms).
Proof.
  intros Hi (Hl & Hs & Hnone) Ho. split_and!; [by rewrite length_insert| |].
  - intros g o' Hg. destruct (decide (g = i)) as [-> |Hne].
    + rewrite list_lookup_insert_eq by lia. by intros [= <-].
    + rewrite list_lookup_insert_ne by done. apply Hs. lia.
  - intros g Hg Hlt. rewrite list_lookup_insert_ne by lia. apply Hnone; lia.
Qed.

(** What the groups read: their mix and their globals. *)
Definition mix_total (groups : list GroupInfo) : nat := list_sum (map mix_count groups).
Definition global_total (groups : list GroupInfo) : nat := list_sum (map global_count groups).

Lemma groups_v3_safe p : p <= 24 -> forall groups i ms mix globals, i + length groups = Taps.num_groups t -> filled p i ms ->
  hoare (at_ p ms) (groups_v3 t i groups mix globals) (fun '(mix', globals') v =>
    (length mix' = length mix + mix_total groups /\ length globals' = length globals + global_total groups) /\ exists ms', slots_ok p ms' /\ at_ p ms' v).
Proof.
  intros Hp. induction groups as [|group groups IH]; intros i ms mix globals Hi Hms; cbn [groups_v3 length] in *.
  { apply hoare_ret. intros v Hv. split; [cbn; lia|]. exists ms. split; [|exact Hv]. destruct Hms as (Hl & Hs & _).
    split; [done|]. intros g o Hg. apply Hs; [|done]. apply lookup_lt_Some in Hg. lia. }
  eapply hoare_bind; [apply read_rng_safe|]. intros m. apply hoare_pure. intros Hm.
  eapply hoare_bind with (M := fun g v => length g = global_count group /\ at_ p ms v).
  { destruct (Nat.ltb_spec 0 (global_count group)); [|apply hoare_ret; intros v Hv; cbn; split; [lia|exact Hv]].
    eapply hoare_iop; [apply read_elems_safe|]. intros g Hg. eapply hoare_iop; [apply commit_safe|]. intros _ _. by apply hoare_ret. }
  intros g. apply hoare_pure. intros Hg. eapply hoare_bind; [apply verify_group_safe; [done|lia|apply Hms; lia]|]. intros _ v (o & Ho & Hv). revert v Hv.
  eapply hoare_weaken; [apply IH; [lia|]; apply filled_step; [lia|done|done]|].
  intros [mix' globals'] v [Hl Hv]. rewrite !length_app in Hl. split; [|exact Hv]. unfold mix_total, global_total in *. change (list_sum (map mix_count (group :: groups))) with (mix_count group + list_sum (map mix_count groups)). change (list_sum (map global_count (group :: groups))) with (global_count group + list_sum (map global_count groups)). cbv beta in Hm. lia.
Qed.

Lemma verify_v3_safe groups poly_ext rng seal p : Forall (fits 32) seal -> p <= 24 -> length groups = Taps.num_groups t ->
  (forall m us mix globals, length us = n + 1 -> length globals = global_total groups -> length mix = mix_total groups -> poly_ext m us [globals; mix] <> Panic) ->
  osafe (verify_v3 t groups poly_ext rng seal p) (fun _ => True).
Proof.
  intros Hseal Hp Hg Hpoly. unfold verify_v3. destruct seal as [|w seal]; [done|]. rewrite shl1_pow2 by lia.
  set (prog := modify _ ;; _).
  assert (Hprog : hoare (start (replicate (Taps.num_groups t) None)) prog (fun _ _ => True)).
  { unfold prog. eapply hoare_bind with (M := fun _ => at_ p (replicate (Taps.num_groups t) None)).
    { intros v [Hv Hi]. split_and!; [done| |done|exact Hi]. apply Nat2Z.id. }
    intros _. eapply hoare_bind.
    { apply groups_v3_safe; [done|exact Hg|]. split_and!; [apply length_replicate|lia|]. intros g _ Hlt. by apply lookup_replicate_2. }
    intros [mix globals]. apply hoare_pure. intros [Hmix Hglo] v (ms & Hms & Hv). revert v Hv. eapply hoare_bind; [apply verify_validity_safe; [done|exact Hms|]|].
    - cbv beta. intros m us Hus. specialize (Hpoly m us mix globals Hus Hglo Hmix). by destruct (poly_ext m us [globals; mix]).
    - intros ?. apply hoare_pure. intros _ v _. unfold on_iop, verify_complete. by destruct (proof (iop v)). }
  specialize (Hprog (new t (w :: seal) rng) (conj eq_refl Hseal)). by destruct (prog _) as [[a|e|] v'].
Qed.
End Protocol_safe.
