(* ===== verification/StarkSpec.v ===== *)
(** * The STARK verifier answers every seal

    The totality of [StarkTotal], for circuits given by their tables and by a constraint
    program, where what the circuit has to satisfy is a check that evaluates. *)
From S2P Require Export StarkTotal CircuitSpec.
Import Merkle Fri Verifier.
Open Scope nat_scope.

(** A circuit whose constraint polynomial is a program. *)
Definition program_circuit (info : Adapter.ProtocolInfo) (out mix : nat) (def : Adapter.PolyExtStepDef) : Circuit :=
  mkCircuit info out mix (fun poly_mix u args => Adapter.poly_ext poly_mix u args def).

(** The tables are consistent and the program reads what there is. *)
Definition circuit_ok (t : Taps.TapSet) (out mix : nat) (def : Adapter.PolyExtStepDef) : bool :=
  taps_ok t && (Taps.num_groups t =? 3) &&
  match (Taps.tap_size t : outcome VerificationError nat) with Ok n => def_ok (n + 1) [out; mix] def | _ => false end.

Section Answers.
Context {R : Type} {HF : HashFn Z} {HX : HashExt} {RG : Rng R Z ExtElem}.

(** C12: The verifier answers every seal.  Hashing a pair of digests may panic, as Poseidon2's does
    unless both are reduced; of the hash functions it is only assumed that they keep their
    contract: valid digests and valid elements have hashes, which are valid (Poseidon2 does, by
    a theorem).  For a circuit whose tables and constraint program pass a check that evaluates
    (those of the recursion circuit, whose seals it verifies, pass it), and a caller whose own
    check of the code root does not panic, any 32-bit words whatever are accepted or refused with
    an error: the verifier does not hash digests of the proof before it has found them valid, is
    never out of range, never fails an assertion, and never runs out of rounds. *)
Theorem stark_verify_total t info out mix def (rng : R) seal check_code : hashes_valid (E := Z) ->
  circuit_ok t out mix def = true -> Forall (fits 32) seal -> (forall po2 root, check_code po2 root <> Panic) ->
  Verifier.verify t (program_circuit info out mix def) rng seal check_code = Ok tt \/
  exists e, Verifier.verify t (program_circuit info out mix def) rng seal check_code = Err e.
Proof.
  unfold circuit_ok. rewrite !andb_true_iff, Nat.eqb_eq. intros Hh [[Ht Hn] Hdef] Hseal Hcode.
  destruct (taps_ok_fact t Ht) as (rs & n & Hf). rewrite (tf_size _ _ _ Hf) in Hdef.
  pose proof (verify_safe_all Hh t rs n Hf (program_circuit info out mix def) rng seal check_code Hseal Hn) as Hv.
  destruct (Verifier.verify t (program_circuit info out mix def) rng seal check_code) as [[]|e|]; [by left|right; by exists e|].
  exfalso. apply Hv; [|exact Hcode]. intros m us o mx Hus Ho Hm. cbn [poly_ext program_circuit OUTPUT_SIZE MIX_SIZE] in *.
  destruct (poly_ext_total (Er := VerificationError) m us [o; mx] def) as [x ->]; [|done]. cbn [map]. by rewrite Hus, Ho, Hm.
Qed.

(** So does the verifier of the third version, for a size that its caller bounds and groups that are the circuit's. *)
Theorem stark_verify_v3_total t groups poly_ext (rng : R) seal po2 : hashes_valid (E := Z) -> taps_ok t = true -> Forall (fits 32) seal -> po2 <= 24 -> length groups = Taps.num_groups t ->
  (forall n m us mix globals, Taps.tap_size (Er := VerificationError) t = Ok n -> length us = n + 1 ->
     length globals = global_total groups -> length mix = mix_total groups -> poly_ext m us [globals; mix] <> Panic) ->
  verify_v3 t groups poly_ext rng seal po2 = Ok tt \/ exists e, verify_v3 t groups poly_ext rng seal po2 = Err e.
Proof.
  intros Hh Ht Hseal Hp Hg Hpoly. destruct (taps_ok_fact t Ht) as (rs & n & Hf).
  pose proof (verify_v3_safe Hh t rs n Hf groups poly_ext rng seal po2 Hseal Hp Hg) as Hv.
  destruct (verify_v3 t groups poly_ext rng seal po2) as [[]|e|]; [by left|right; by exists e|].
  exfalso. apply Hv. intros m us mix globals Hus Hglo Hmix. apply (Hpoly n); [apply Hf|done..].
Qed.
End Answers.

(** Three groups of one column each, read in the current row and, for the last, in the one before. *)
Definition example_taps : Taps.TapSet :=
  Taps.mkTaps [Taps.mkTap 0 0 0 0 1; Taps.mkTap 0 0 1 0 1; Taps.mkTap 0 0 2 1 2; Taps.mkTap 0 1 2 1 2]
    [0; 0; 1] [0; 1; 3] [0; 1; 2; 4] 2 3 3 [0; 1; 2].
(** The last column doubles in every row. *)
Definition example_program : Adapter.PolyExtStepDef :=
  Adapter.mkDef [Adapter.True_; Adapter.Const 2; Adapter.Get 3; Adapter.Mul 0 1; Adapter.Get 2; Adapter.Sub 3 2; Adapter.AndEqz 0 4] 1.

Lemma sevens_u32 n : Forall (fits 32) (replicate n 7%Z).
Proof. apply Forall_replicate. unfold fits. lia. Qed.

Lemma stark_verify_v3_total_witness : let r := verify_v3 (R := Poseidon2.Poseidon2.Poseidon2Rng) example_taps [mkGroup 0 2; mkGroup 3 0; mkGroup 1 1]
    (fun m us _ => Adapter.poly_ext m us [] example_program) Poseidon2.Poseidon2.rng_new (replicate 100 7%Z) 16 in r = Ok tt \/ exists e, r = Err e.
Proof.
  apply (stark_verify_v3_total example_taps); [exact Poseidon2Spec.poseidon2_hashes_valid|by vm_compute|apply sevens_u32|lia|done|].
  intros n m us mix globals [= <-] Hus _ _. destruct (poly_ext_total (Er := VerificationError) m us [] example_program) as [x ->]; [|done].
  rewrite Hus. by vm_compute.
Defined.
