(* ===== verification/Tables.v ===== *)
(** * Constraint programs in binary

    The programs that the circuit generator writes have tens of thousands of steps, and refer
    to taps and to expressions by number.  Here a program is a list of steps with binary
    numbers, [to_step] reads a step as one of the interpreter's, and [def_check] is the check
    of [CircuitSpec.def_ok] in one pass over binary counters, with the lemma that it decides
    no more.  [Rv32imTables] and [RecursionTables] hold the two programs. *)
From S2P Require Export StarkSpec.
Import Adapter.
Open Scope Z_scope.

Module Binary.

(* source: src/risc0/risc0/zkp/src/adapter.rs *)
(* L155-167 PolyExtStep *)
Inductive Step :=
  | Const (value : Z)
  | ConstExt (x0 x1 x2 x3 : Z)
  | Get (tap : Z)
  | GetGlobal (base offset : Z)
  | Add (x1 x2 : Z)
  | Sub (x1 x2 : Z)
  | Mul (x1 x2 : Z)
  | True_
  | AndEqz (chain inner : Z)
  | AndCond (chain cond inner : Z).

Definition to_step (op : Step) : PolyExtStep :=
  match op with
  | Const value => Adapter.Const value
  | ConstExt x0 x1 x2 x3 => Adapter.ConstExt x0 x1 x2 x3
  | Get tap => Adapter.Get (Z.to_nat tap)
  | GetGlobal base offset => Adapter.GetGlobal (Z.to_nat base) (Z.to_nat offset)
  | Add x1 x2 => Adapter.Add (Z.to_nat x1) (Z.to_nat x2)
  | Sub x1 x2 => Adapter.Sub (Z.to_nat x1) (Z.to_nat x2)
  | Mul x1 x2 => Adapter.Mul (Z.to_nat x1) (Z.to_nat x2)
  | True_ => Adapter.True_
  | AndEqz chain inner => Adapter.AndEqz (Z.to_nat chain) (Z.to_nat inner)
  | AndCond chain cond inner => Adapter.AndCond (Z.to_nat chain) (Z.to_nat cond) (Z.to_nat inner)
  end.

(** The program of a list of steps, with the number of its result. *)
Definition program (ops : list Step) (ret : Z) : PolyExtStepDef := mkDef (map to_step ops) (Z.to_nat ret).

Definition below (x n : Z) : bool := (0 <=? x) && (x <? n).
Definition step_check (nu : Z) (na : list Z) (op : Step) (nf nm : Z) : bool :=
  match op with
  | Const _ | ConstExt _ _ _ _ | True_ => true
  | Get tap => below tap nu
  | GetGlobal base offset => match na !! Z.to_nat base with Some k => below offset k | None => false end
  | Add x1 x2 | Sub x1 x2 | Mul x1 x2 => below x1 nf && below x2 nf
  | AndEqz chain inner => below chain nm && below inner nf
  | AndCond chain cond inner => below chain nm && below cond nf && below inner nm
  end.
Definition conj (op : Step) : bool := match op with True_ | AndEqz _ _ | AndCond _ _ _ => true | _ => false end.

(** The expressions and conjunctions after a block, if every step of it reads what there is. *)
Fixpoint block_check (nu : Z) (na : list Z) (ops : list Step) (nf nm : Z) : option (Z * Z) :=
  match ops with
  | [] => Some (nf, nm)
  | op :: ops =>
      if step_check nu na op nf nm then
        if conj op then block_check nu na ops nf (Z.succ nm) else block_check nu na ops (Z.succ nf) nm
      else None
  end.
Definition def_check (nu : Z) (na : list Z) (ops : list Step) (ret : Z) : bool :=
  match block_check nu na ops 0 0 with
  | Some (nf, nm) => (0 <=? ret) && (nm =? ret + 1) && (nf + nm <? 2 ^ 64)
  | None => false
  end.

Lemma below_nat x n : below x n = true -> (Z.to_nat x <? Z.to_nat n)%nat = true.
Proof. unfold below. rewrite andb_true_iff, Z.leb_le, Z.ltb_lt, Nat.ltb_lt. lia. Qed.

Lemma conj_step op : is_conj (to_step op) = conj op.
Proof. by destruct op. Qed.

Lemma step_check_ok nu na op nf nm : step_check nu na op nf nm = true ->
  step_ok (Z.to_nat nu) (map Z.to_nat na) (to_step op) (Z.to_nat nf) (Z.to_nat nm) = true.
Proof.
  destruct op; cbn [step_check step_ok to_step]; rewrite ?andb_true_iff; auto using below_nat; try naive_solver (auto using below_nat).
  change (map Z.to_nat na) with (Z.to_nat <$> na). rewrite list_lookup_fmap. destruct (na !! _); cbn; [apply below_nat|done].
Qed.

Lemma block_check_ok nu na ops : forall nf nm nf' nm', 0 <= nf -> 0 <= nm -> block_check nu na ops nf nm = Some (nf', nm') ->
  block_ok (Z.to_nat nu) (map Z.to_nat na) (map to_step ops) (Z.to_nat nf) (Z.to_nat nm) = true /\
  nm' = nm + Z.of_nat (length (filter (fun op => is_conj op = true) (map to_step ops))) /\ nf' + nm' = nf + nm + Z.of_nat (length ops).
Proof.
  induction ops as [|op ops IH]; intros nf nm nf' nm' Hf Hm; cbn [block_check map block_ok length]; [intros [= <- <-]; cbn; lia|].
  destruct (step_check nu na op nf nm) eqn:Es; [|done]. rewrite (step_check_ok _ _ _ _ _ Es), filter_cons, conj_step.
  destruct (conj op) eqn:Ec; intros E; apply IH in E as (Hb & Hl & Hs); try lia.
  - rewrite Z2Nat.inj_succ in Hb by lia. rewrite decide_True by done. cbn [length andb]. split; [exact Hb|lia].
  - rewrite Z2Nat.inj_succ in Hb by lia. rewrite decide_False by done. cbn [andb]. split; [exact Hb|lia].
Qed.

Lemma def_check_ok nu na ops ret : def_check nu na ops ret = true -> def_ok (Z.to_nat nu) (map Z.to_nat na) (program ops ret) = true.
Proof.
  unfold def_check. destruct (block_check nu na ops 0 0) as [[nf nm]|] eqn:E; [|done].
  rewrite !andb_true_iff, Z.leb_le, Z.eqb_eq, Z.ltb_lt. intros [[Hr Hn] Hl].
  apply block_check_ok in E as (Hb & Hc & Hs); [|lia..]. unfold def_ok, program. cbn [block Adapter.ret].
  rewrite !andb_true_iff, Nat.eqb_eq, Z.ltb_lt, length_map. split_and!; [exact Hb|lia|lia].
Qed.
End Binary.
