(* ===== verification/Rv32imTables.v ===== *)
(** * The tables of the rv32im circuit

    The taps and the constraint program that the verifier of a segment is compiled with, step
    by step as [zirgen/taps.rs] and [zirgen/poly_ext.rs] list them, and the checks that the
    verifier's theorems ask of a circuit, evaluated on them. *)
From S2P Require Export Tables.
Import Taps.
Open Scope nat_scope.

Module Rv32imTables.

(* source: src/risc0/risc0/circuit/rv32im/src/zirgen/taps.rs *)
(* L24-1416 TAPSET.taps *)
Definition taps_data : list Taps.TapData := [
  mkTap 0 0 0 0 1; mkTap 1 0 0 0 1; mkTap 2 0 0 0 1; mkTap 3 0 0 0 1; mkTap 4 0 0 0 1; mkTap 5 0 0 0 1;
  mkTap 6 0 0 0 1; mkTap 7 0 0 0 1; mkTap 8 0 0 0 1; mkTap 9 0 0 0 1; mkTap 10 0 0 0 1; mkTap 11 0 0 0 1;
  mkTap 12 0 0 0 1; mkTap 13 0 0 0 1; mkTap 14 0 0 0 1; mkTap 15 0 0 0 1; mkTap 16 0 0 0 1; mkTap 17 0 0 0 1;
  mkTap 18 0 0 0 1; mkTap 19 0 0 0 1; mkTap 20 0 0 0 1; mkTap 21 0 0 0 1; mkTap 22 0 0 0 1; mkTap 23 0 0 0 1;
  mkTap 24 0 0 0 1; mkTap 25 0 0 0 1; mkTap 26 0 0 0 1; mkTap 27 0 0 0 1; mkTap 28 0 0 0 1; mkTap 29 0 0 0 1;
  mkTap 30 0 0 0 1; mkTap 31 0 0 0 1; mkTap 32 0 0 0 1; mkTap 33 0 0 0 1; mkTap 34 0 0 0 1; mkTap 35 0 0 0 1;
  mkTap 36 0 0 0 1; mkTap 37 0 0 0 1; mkTap 38 0 0 0 1; mkTap 39 0 0 0 1; mkTap 40 0 0 0 1; mkTap 41 0 0 0 1;
  mkTap 42 0 0 0 1; mkTap 43 0 0 0 1; mkTap 44 0 0 0 1; mkTap 45 0 0 0 1; mkTap 46 0 0 0 1; mkTap 47 0 0 0 1;
  mkTap 48 0 0 0 1; mkTap 49 0 0 0 1; mkTap 50 0 0 0 1; mkTap 51 0 0 0 1; mkTap 52 0 0 0 1; mkTap 53 0 0 0 1;
  mkTap 54 0 0 0 1; mkTap 55 0 0 0 1; mkTap 56 0 0 0 1; mkTap 57 0 0 0 1; mkTap 58 0 0 0 1; mkTap 59 0 0 0 1;
  mkTap 60 0 0 0 1; mkTap 61 0 0 0 1; mkTap 62 0 0 0 1; mkTap 63 0 0 0 1; mkTap 64 0 0 0 1; mkTap 65 0 0 0 1;
  mkTap 66 0 0 0 1; mkTap 67 0 0 0 1; mkTap 68 0 0 0 1; mkTap 69 0 0 0 1; mkTap 70 0 0 0 1; mkTap 71 0 0 0 1;
  mkTap 72 0 0 0 1; mkTap 73 0 0 0 1; mkTap 74 0 0 0 1; mkTap 75 0 0 0 1; mkTap 76 0 0 0 1; mkTap 77 0 0 0 1;
  mkTap 78 0 0 0 1; mkTap 79 0 0 0 1; mkTap 80 0 0 0 1; mkTap 81 0 0 0 1; mkTap 82 0 0 0 1; mkTap 83 0 0 0 1;
  mkTap 84 0 0 0 1; mkTap 85 0 0 0 1; mkTap 86 0 0 0 1; mkTap 87 0 0 0 1; mkTap 88 0 0 0 1; mkTap 89 0 0 0 1;
  mkTap 90 0 0 0 1; mkTap 91 0 0 0 1; mkTap 92 0 0 0 1; mkTap 93 0 0 0 1; mkTap 94 0 0 0 1; mkTap 95 0 0 0 1;
  mkTap 96 0 0 0 1; mkTap 97 0 0 0 1; mkTap 98 0 0 0 1; mkTap 99 0 0 0 1; mkTap 100 0 0 0 1; mkTap 101 0 0 0 1;
  mkTap 102 0 0 0 1; mkTap 103 0 0 0 1; mkTap 104 0 0 0 1; mkTap 105 0 0 0 1; mkTap 106 0 0 0 1; mkTap 107 0 0 0 1;
  mkTap 108 0 0 0 1; mkTap 109 0 0 0 1; mkTap 110 0 0 0 1; mkTap 111 0 0 0 1; mkTap 112 0 0 0 1; mkTap 113 0 0 0 1;
  mkTap 114 0 0 0 1; mkTap 115 0 0 0 1; mkTap 116 0 0 0 1; mkTap 117 0 0 0 1; mkTap 118 0 0 0 1; mkTap 119 0 0 0 1;
  mkTap 120 0 0 0 1; mkTap 121 0 0 0 1; mkTap 122 0 0 0 1; mkTap 123 0 0 0 1; mkTap 124 0 0 0 1; mkTap 125 0 0 0 1;
  mkTap 126 0 0 0 1; mkTap 127 0 0 0 1; mkTap 128 0 0 0 1; mkTap 129 0 0 0 1; mkTap 130 0 0 0 1; mkTap 131 0 0 0 1;
  mkTap 132 0 0 0 1; mkTap 133 0 0 0 1; mkTap 134 0 0 0 1; mkTap 135 0 0 0 1; mkTap 136 0 0 0 1; mkTap 137 0 0 0 1;
  mkTap 138 0 0 0 1; mkTap 139 0 0 0 1; mkTap 140 0 0 0 1; mkTap 141 0 0 0 1; mkTap 142 0 0 0 1; mkTap 143 0 0 0 1;
  mkTap 144 0 0 0 1; mkTap 145 0 0 0 1; mkTap 146 0 0 0 1; mkTap 147 0 0 0 1; mkTap 148 0 0 0 1; mkTap 149 0 0 0 1;
  mkTap 150 0 0 0 1; mkTap 151 0 0 0 1; mkTap 152 0 0 0 1; mkTap 153 0 0 0 1; mkTap 154 0 0 0 1; mkTap 155 0 0 0 1;
  mkTap 156 0 0 0 1; mkTap 157 0 0 0 1; mkTap 158 0 0 0 1; mkTap 159 0 0 0 1; mkTap 160 0 0 0 1; mkTap 161 0 0 0 1;
  mkTap 162 0 0 0 1; mkTap 163 0 0 0 1; mkTap 164 0 0 0 1; mkTap 165 0 0 0 1; mkTap 166 0 0 0 1; mkTap 167 0 0 0 1;
  mkTap 168 0 0 0 1; mkTap 169 0 0 0 1; mkTap 170 0 0 0 1; mkTap 171 0 0 0 1; mkTap 172 0 0 0 1; mkTap 173 0 0 0 1;
  mkTap 174 0 0 0 1; mkTap 175 0 0 0 1; mkTap 176 0 0 0 1; mkTap 177 0 0 0 1; mkTap 178 0 0 0 1; mkTap 179 0 0 0 1;
  mkTap 180 0 0 0 1; mkTap 181 0 0 0 1; mkTap 182 0 0 0 1; mkTap 183 0 0 0 1; mkTap 184 0 0 0 1; mkTap 185 0 0 0 1;
  mkTap 186 0 0 0 1; mkTap 187 0 0 0 1; mkTap 188 0 0 0 1; mkTap 189 0 0 0 1; mkTap 190 0 0 0 1; mkTap 191 0 0 0 1;
  mkTap 192 0 0 0 1; mkTap 193 0 0 0 1; mkTap 194 0 0 0 1; mkTap 195 0 0 0 1; mkTap 196 0 0 0 1; mkTap 197 0 0 0 1;
  mkTap 198 0 0 0 1].

(* L1417-2858 TAPSET.taps *)
Definition taps_accum : list Taps.TapData := [
  mkTap 0 0 1 1 2; mkTap 0 1 1 1 2; mkTap 1 0 1 1 2; mkTap 1 1 1 1 2; mkTap 2 0 1 1 2; mkTap 2 1 1 1 2;
  mkTap 3 0 1 1 2; mkTap 3 1 1 1 2; mkTap 4 0 1 0 1; mkTap 5 0 1 0 1; mkTap 6 0 1 0 1; mkTap 7 0 1 0 1;
  mkTap 8 0 1 0 1; mkTap 9 0 1 0 1; mkTap 10 0 1 0 1; mkTap 11 0 1 0 1; mkTap 12 0 1 0 1; mkTap 13 0 1 0 1;
  mkTap 14 0 1 0 1; mkTap 15 0 1 0 1; mkTap 16 0 1 0 1; mkTap 17 0 1 0 1; mkTap 18 0 1 0 1; mkTap 19 0 1 0 1;
  mkTap 20 0 1 0 1; mkTap 21 0 1 0 1; mkTap 22 0 1 0 1; mkTap 23 0 1 0 1; mkTap 24 0 1 0 1; mkTap 25 0 1 0 1;
  mkTap 26 0 1 0 1; mkTap 27 0 1 0 1; mkTap 28 0 1 0 1; mkTap 29 0 1 0 1; mkTap 30 0 1 0 1; mkTap 31 0 1 0 1;
  mkTap 32 0 1 0 1; mkTap 33 0 1 0 1; mkTap 34 0 1 0 1; mkTap 35 0 1 0 1; mkTap 36 0 1 0 1; mkTap 37 0 1 0 1;
  mkTap 38 0 1 0 1; mkTap 39 0 1 0 1; mkTap 40 0 1 0 1; mkTap 41 0 1 0 1; mkTap 42 0 1 0 1; mkTap 43 0 1 0 1;
  mkTap 44 0 1 0 1; mkTap 45 0 1 0 1; mkTap 46 0 1 0 1; mkTap 47 0 1 0 1; mkTap 48 0 1 0 1; mkTap 49 0 1 0 1;
  mkTap 50 0 1 0 1; mkTap 51 0 1 0 1; mkTap 52 0 1 0 1; mkTap 53 0 1 0 1; mkTap 54 0 1 0 1; mkTap 55 0 1 0 1;
  mkTap 56 0 1 0 1; mkTap 57 0 1 0 1; mkTap 58 0 1 0 1; mkTap 59 0 1 0 1; mkTap 60 0 1 0 1; mkTap 61 0 1 0 1;
  mkTap 62 0 1 0 1; mkTap 63 0 1 0 1; mkTap 64 0 1 0 1; mkTap 65 0 1 0 1; mkTap 66 0 1 0 1; mkTap 67 0 1 0 1;
  mkTap 68 0 1 0 1; mkTap 69 0 1 0 1; mkTap 70 0 1 0 1; mkTap 71 0 1 0 1; mkTap 72 0 1 0 1; mkTap 73 0 1 0 1;
  mkTap 74 0 1 0 1; mkTap 75 0 1 0 1; mkTap 76 0 1 0 1; mkTap 77 0 1 0 1; mkTap 78 0 1 0 1; mkTap 79 0 1 0 1;
  mkTap 80 0 1 0 1; mkTap 81 0 1 0 1; mkTap 82 0 1 0 1; mkTap 83 0 1 0 1; mkTap 84 0 1 0 1; mkTap 85 0 1 0 1;
  mkTap 86 0 1 0 1; mkTap 87 0 1 0 1; mkTap 88 0 1 0 1; mkTap 89 0 1 0 1; mkTap 90 0 1 0 1; mkTap 91 0 1 0 1;
  mkTap 92 0 1 0 1; mkTap 93 0 1 0 1; mkTap 94 0 1 0 1; mkTap 95 0 1 0 1; mkTap 96 0 1 0 1; mkTap 97 0 1 0 1;
  mkTap 98 0 1 0 1; mkTap 99 0 1 0 1; mkTap 100 0 1 0 1; mkTap 101 0 1 0 1; mkTap 102 0 1 0 1; mkTap 103 0 1 0 1;
  mkTap 104 0 1 0 1; mkTap 105 0 1 0 1; mkTap 106 0 1 0 1; mkTap 107 0 1 0 1; mkTap 108 0 1 0 1; mkTap 109 0 1 0 1;
  mkTap 110 0 1 0 1; mkTap 111 0 1 0 1; mkTap 112 0 1 0 1; mkTap 113 0 1 0 1; mkTap 114 0 1 0 1; mkTap 115 0 1 0 1;
  mkTap 116 0 1 0 1; mkTap 117 0 1 0 1; mkTap 118 0 1 0 1; mkTap 119 0 1 0 1; mkTap 120 0 1 0 1; mkTap 121 0 1 0 1;
  mkTap 122 0 1 0 1; mkTap 123 0 1 0 1; mkTap 124 0 1 0 1; mkTap 125 0 1 0 1; mkTap 126 0 1 0 1; mkTap 127 0 1 0 1;
  mkTap 128 0 1 0 1; mkTap 129 0 1 0 1; mkTap 130 0 1 0 1; mkTap 131 0 1 0 1; mkTap 132 0 1 0 1; mkTap 133 0 1 0 1;
  mkTap 134 0 1 0 1; mkTap 135 0 1 0 1; mkTap 136 0 1 0 1; mkTap 137 0 1 0 1; mkTap 138 0 1 0 1; mkTap 139 0 1 0 1;
  mkTap 140 0 1 0 1; mkTap 141 0 1 0 1; mkTap 142 0 1 0 1; mkTap 143 0 1 0 1; mkTap 144 0 1 0 1; mkTap 145 0 1 0 1;
  mkTap 146 0 1 0 1; mkTap 147 0 1 0 1; mkTap 148 0 1 0 1; mkTap 149 0 1 0 1; mkTap 150 0 1 0 1; mkTap 151 0 1 0 1;
  mkTap 152 0 1 0 1; mkTap 153 0 1 0 1; mkTap 154 0 1 0 1; mkTap 155 0 1 0 1; mkTap 156 0 1 1 2; mkTap 156 1 1 1 2;
  mkTap 157 0 1 1 2; mkTap 157 1 1 1 2; mkTap 158 0 1 1 2; mkTap 158 1 1 1 2; mkTap 159 0 1 1 2; mkTap 159 1 1 1 2;
  mkTap 160 0 1 1 2; mkTap 160 1 1 1 2; mkTap 161 0 1 1 2; mkTap 161 1 1 1 2; mkTap 162 0 1 1 2; mkTap 162 1 1 1 2;
  mkTap 163 0 1 1 2; mkTap 163 1 1 1 2; mkTap 164 0 1 1 2; mkTap 164 1 1 1 2; mkTap 165 0 1 1 2; mkTap 165 1 1 1 2;
  mkTap 166 0 1 1 2; mkTap 166 1 1 1 2; mkTap 167 0 1 1 2; mkTap 167 1 1 1 2; mkTap 168 0 1 1 2; mkTap 168 1 1 1 2;
  mkTap 169 0 1 1 2; mkTap 169 1 1 1 2; mkTap 170 0 1 1 2; mkTap 170 1 1 1 2; mkTap 171 0 1 1 2; mkTap 171 1 1 1 2;
  mkTap 172 0 1 1 2; mkTap 172 1 1 1 2; mkTap 173 0 1 1 2; mkTap 173 1 1 1 2; mkTap 174 0 1 1 2; mkTap 174 1 1 1 2;
  mkTap 175 0 1 1 2; mkTap 175 1 1 1 2; mkTap 176 0 1 1 2; mkTap 176 1 1 1 2; mkTap 177 0 1 1 2; mkTap 177 1 1 1 2;
  mkTap 178 0 1 1 2; mkTap 178 1 1 1 2].

(* L22-2867 TAPSET *)
Definition TAPSET : Taps.TapSet :=
  mkTaps (taps_data ++ taps_accum)
    [0; 0; 1] [0; 1; 3] [0; 199; 405] 2 378 3 [0; 1].

Open Scope Z_scope.
Import Binary.

(* source: src/risc0/risc0/circuit/rv32im/src/zirgen/poly_ext.rs *)
(* L20-519 POLY_EXT_DEF.block *)
Definition block_0 : list Step := [
  Const 0; ConstExt 128 0 0 0; Const 2013265920; Const 2013265919; Const 24691; Const 1971; Const 1843; Const 1715;
  Const 1587; Const 1459; Const 1331; Const 1203; Const 1075; Const 995; Const 867; Const 739; Const 611; Const 227;
  Const 291; Const 163; Const 643; Const 515; Const 259; Const 131; Const 403; Const 275; Const 33427; Const 659;
  Const 147; Const 915; Const 787; Const 531; Const 435; Const 307; Const 33459; Const 691; Const 179; Const 947;
  Const 819; Const 563; Const 32819; ConstExt 256 0 0 0; Const 4194304; Const 2005401601; Const 31; Const 1810596765;
  Const 1210751726; Const 1327682690; Const 1886977120; Const 1551596046; Const 1186174623; Const 1199068823;
  Const 1240419708; Const 1708681573; Const 308575117; Const 1111544260; Const 822033215; Const 1891545577;
  Const 440300254; Const 1726563304; Const 1365519753; Const 924863639; Const 1540960371; Const 1052077299;
  Const 1930103076; Const 918610824; Const 13683276; Const 606789471; Const 1974912880; Const 65998480;
  Const 1461037801; Const 1997365680; Const 801504236; Const 1792686146; Const 1001081699; Const 98371040;
  Const 1389833583; Const 106789798; Const 1188752902; Const 20525701; Const 1558116381; Const 1942928017;
  Const 1928969209; Const 51866717; Const 658182609; Const 1867716110; Const 111593398; Const 375892129;
  Const 1083257840; Const 497520322; Const 1380248020; Const 1827572010; Const 150307788; Const 1040977421;
  Const 1291790245; Const 862495875; Const 989176635; Const 831813382; Const 1608891156; Const 1507649755;
  Const 755691969; Const 1792450386; Const 1781980094; Const 447555988; Const 241306552; Const 1421525369;
  Const 1672219447; Const 1042892522; Const 1715719711; Const 1470845646; Const 273790406; Const 1910423126;
  Const 1507936940; Const 1751797115; Const 1262312258; Const 760115692; Const 1545325389; Const 1363837384;
  Const 1239734761; Const 1099252725; Const 1687379185; Const 1964135730; Const 162506101; Const 1841795381;
  Const 989618631; Const 1878280202; Const 1221257987; Const 1584033957; Const 1150912935; Const 525458520;
  Const 809508074; Const 457372011; Const 1401020792; Const 434078361; Const 51256176; Const 1079030649;
  Const 1917549072; Const 638242172; Const 1303271640; Const 1748789933; Const 930036496; Const 1946596189;
  Const 172614232; Const 1622328571; Const 1201063290; Const 1307439985; Const 1393671120; Const 1478577620;
  Const 238616145; Const 875839332; Const 306391314; Const 1908416316; Const 395622276; Const 343354132;
  Const 641665156; Const 76770019; Const 1006235079; Const 463976218; Const 1647670797; Const 1549062383;
  Const 1997503974; Const 1389166148; Const 1090783436; Const 1293938517; Const 942439428; Const 976057819;
  Const 53007114; Const 623051854; Const 716894289; Const 1660766320; Const 1111203133; Const 1150410028;
  Const 1649953458; Const 48375137; Const 1269493554; Const 162510541; Const 897025192; Const 1464793095;
  Const 1296144415; Const 1065075039; Const 1647665372; Const 1549779579; Const 1338899225; Const 1608853840;
  Const 1282239129; Const 1180307149; Const 202271745; Const 1198261138; Const 708123747; Const 1679178250;
  Const 1740472809; Const 538103555; Const 1737016378; Const 1930780904; Const 459826664; Const 59510015;
  Const 925018226; Const 530151394; Const 1454563174; Const 1424297384; Const 686842369; Const 1066694495;
  Const 781141772; Const 1402624179; Const 78845751; Const 1629316321; Const 204228775; Const 552696906;
  Const 622609176; Const 1773108264; Const 1832911930; Const 158646617; Const 1889603648; Const 1854174607;
  Const 588764636; Const 946500736; Const 1339793538; Const 1004040026; Const 228520958; Const 890243564;
  Const 993455846; Const 720724951; Const 1718628547; Const 1215259350; Const 1518763784; Const 815798990;
  Const 813674331; Const 1463323727; Const 140621810; Const 14387587; Const 427731030; Const 855276054;
  Const 1989924532; Const 454905424; Const 1889898; Const 1080533265; Const 117294666; Const 1883820770;
  Const 825405577; Const 1664590951; Const 1170029417; Const 118043943; Const 1124078057; Const 192082241;
  Const 790726260; Const 205609311; Const 342857858; Const 217046702; Const 1917861751; Const 157582794;
  Const 738091882; Const 1891637550; Const 1213686459; Const 1136469704; Const 1290028279; Const 142102402;
  Const 1333667262; Const 246143118; Const 1003792297; Const 1950429111; Const 390340387; Const 1439947916;
  Const 608401422; Const 1257820264; Const 540703332; Const 314968988; Const 1896271507; Const 1663353317;
  Const 714957516; Const 723038058; Const 1587822577; Const 27129487; Const 1845603984; Const 127253399;
  Const 1206940496; Const 1567618575; Const 1209164052; Const 53041581; Const 128479034; Const 1147522062;
  Const 695835963; Const 262278199; Const 131070; Const 33554432; Const 16777216; Const 131072; Const 1073725615;
  Const 1073725607; Const 1073725614; Const 1073725606; Const 1073725613; Const 1073725605; Const 1073725612;
  Const 1073725604; Const 1073725611; Const 1073725603; Const 1073725610; Const 1073725602; Const 1073725609;
  Const 1073725601; Const 1073725447; Const 1073725445; Const 1073725608; Const 1073725600; Const 1073725453;
  Const 15; Const 1073725452; Const 1073725591; Const 1073725590; Const 1073725589; Const 1073725588;
  Const 1073725587; Const 1073725586; Const 1073725585; Const 1073725584; Const 1073725451; Const 1073725450;
  Const 1073725457; Const 770; Const 1073731537; Const 1073727488; Const 1073731536; Const 1073726464;
  Const 1073730369; Const 1073725568; Const 255; Const 1006632961; Const 11; Const 1073725472; Const 1073725440;
  Const 1677721601; ConstExt 1 0 0 0; Const 1073741824; Const 1073731520; Const 1073725632; Const 1073731522;
  Const 1073725573; Const 1073731521; Const 1073725572; Const 1073731583; Const 9; Const 115; Const 231; Const 88;
  Const 220; Const 341; Const 209; Const 77; Const 66; Const 114; Const 125; Const 92; Const 103; Const 279;
  Const 268; Const 99; Const 25; Const 14; Const 46; Const 35; Const 24; Const 13; Const 56; Const 45; Const 375;
  Const 243; Const 111; Const 287; Const 155; Const 23; Const 19; Const 55; Const 3; Const 44; Const 374; Const 242;
  Const 5; Const 110; Const 286; Const 154; Const 22; Const 132; Const 51; Const 65520; Const 61440; Const 32768;
  Const 8192; Const 4096; Const 2048; Const 1024; Const 512; Const 128; Const 64; Const 1073610752; Const 16384;
  Const 6; Const 49151; Const 65535; Const 1342177281; Const 4; Const 7; Const 16; Const 2; Const 256; Const 12;
  Const 10; Const 32; Const 65536; Const 8; ConstExt 0 0 0 0; Const 1; ConstExt 0 0 0 1; ConstExt 0 0 1 0;
  ConstExt 0 1 0 0; Get 0; Get 1; Get 2; Get 3; Get 4; Get 5; Get 6; Get 7; Get 8; Get 9; Get 10; Get 11; Get 12;
  Get 13; Get 14; Get 15; Get 16; Get 17; Get 18; Get 19; Get 20; Get 21; Get 22; Get 23; Get 24; Get 25; Get 26;
  Get 27; Get 28; Get 29; Get 30; Get 31; Get 32; Get 33; Get 34; Get 35; Get 36; Get 37; Get 38; Get 39; Get 40;
  Get 41; Get 42; Get 43; Get 44; Get 45; Get 46; Get 47; Get 48; Get 49; Get 50; Get 51; Get 52; Get 53; Get 54;
  Get 55; Get 56; Get 57; Get 58; Get 59; Get 60; Get 61; Get 62; Get 63; Get 64; Get 65; Get 66; Get 67; Get 68;
  Get 69; Get 70; Get 71; Get 72; Get 73; Get 74; Get 75; Get 76; Get 77; Get 78; Get 79; Get 80; Get 81; Get 82;
  Get 83; Get 84; Get 85].

(* L520-1019 POLY_EXT_DEF.block *)
Definition block_1 : list Step := [
  Get 86; Get 87; Get 88; Get 89; Get 90; Get 91; Get 92; Get 93; Get 94; Get 95; Get 96; Get 97; Get 98; Get 99;
  Get 100; Get 101; Get 102; Get 103; Get 104; Get 105; Get 106; Get 107; Get 108; Get 109; Get 110; Get 111;
  Get 112; Get 113; Get 114; Get 115; Get 116; Get 117; Get 118; Get 119; Get 120; Get 121; Get 122; Get 123;
  Get 124; Get 125; Get 126; Get 127; Get 128; Get 129; Get 130; Get 131; Get 132; Get 133; Get 134; Get 135;
  Get 136; Get 137; Get 138; Get 139; Get 140; Get 141; Get 142; Get 143; Get 144; Get 145; Get 146; Get 147;
  Get 148; Get 149; Get 150; Get 151; Get 152; Get 153; Get 154; Get 155; Get 156; Get 157; Get 158; Get 159;
  Get 160; Get 161; Get 162; Get 163; Get 164; Get 165; Get 166; Get 167; Get 168; Get 169; Get 170; Get 171;
  Get 172; Get 173; Get 174; Get 175; Get 176; Get 177; Get 178; Get 179; Get 180; Get 181; Get 182; Get 183;
  Get 184; Get 185; Get 186; Get 187; Get 188; Get 189; Get 190; Get 191; Get 192; Get 193; Get 194; Get 195;
  Get 196; Get 197; Get 198; Get 199; Get 201; Get 203; Get 205; Get 207; Get 208; Get 209; Get 210; Get 211;
  Get 212; Get 213; Get 214; Get 215; Get 216; Get 217; Get 218; Get 219; Get 220; Get 221; Get 222; Get 223;
  Get 224; Get 225; Get 226; Get 227; Get 228; Get 229; Get 230; Get 231; Get 232; Get 233; Get 234; Get 235;
  Get 236; Get 237; Get 238; Get 239; Get 240; Get 241; Get 242; Get 243; Get 244; Get 245; Get 246; Get 247;
  Get 248; Get 249; Get 250; Get 251; Get 252; Get 253; Get 254; Get 255; Get 256; Get 257; Get 258; Get 259;
  Get 260; Get 261; Get 262; Get 263; Get 264; Get 265; Get 266; Get 267; Get 268; Get 269; Get 270; Get 271;
  Get 272; Get 273; Get 274; Get 275; Get 276; Get 277; Get 278; Get 279; Get 280; Get 281; Get 282; Get 283;
  Get 284; Get 285; Get 286; Get 287; Get 288; Get 289; Get 290; Get 291; Get 292; Get 293; Get 294; Get 295;
  Get 296; Get 297; Get 298; Get 299; Get 300; Get 301; Get 302; Get 303; Get 304; Get 305; Get 306; Get 307;
  Get 308; Get 309; Get 310; Get 311; Get 312; Get 313; Get 314; Get 315; Get 316; Get 317; Get 318; Get 319;
  Get 320; Get 321; Get 322; Get 323; Get 324; Get 325; Get 326; Get 327; Get 328; Get 329; Get 330; Get 331;
  Get 332; Get 333; Get 334; Get 335; Get 336; Get 337; Get 338; Get 339; Get 340; Get 341; Get 342; Get 343;
  Get 344; Get 345; Get 346; Get 347; Get 348; Get 349; Get 350; Get 351; Get 352; Get 353; Get 354; Get 355;
  Get 356; Get 357; Get 358; Get 359; Get 361; Get 363; Get 365; Get 367; Get 369; Get 371; Get 373; Get 375;
  Get 377; Get 379; Get 381; Get 383; Get 385; Get 387; Get 389; Get 391; Get 393; Get 395; Get 397; Get 399;
  Get 401; Get 403; Get 200; Get 202; Get 204; Get 206; Get 382; Get 384; Get 386; Get 388; Get 390; Get 392;
  Get 394; Get 396; Get 398; Get 400; Get 402; Get 404; GetGlobal 0 0; GetGlobal 0 1; GetGlobal 0 2; GetGlobal 0 3;
  GetGlobal 0 4; GetGlobal 0 5; GetGlobal 0 6; GetGlobal 0 7; GetGlobal 0 8; GetGlobal 0 9; GetGlobal 0 10;
  GetGlobal 0 11; GetGlobal 0 12; GetGlobal 0 13; GetGlobal 0 14; GetGlobal 0 15; GetGlobal 0 16; GetGlobal 0 17;
  GetGlobal 0 18; GetGlobal 0 19; GetGlobal 0 20; GetGlobal 0 21; GetGlobal 0 22; GetGlobal 0 23; GetGlobal 0 24;
  GetGlobal 0 25; GetGlobal 0 26; GetGlobal 0 27; GetGlobal 0 28; GetGlobal 0 29; GetGlobal 0 30; GetGlobal 0 31;
  GetGlobal 0 32; GetGlobal 0 33; GetGlobal 0 34; GetGlobal 0 35; GetGlobal 0 36; GetGlobal 0 37; GetGlobal 0 38;
  GetGlobal 0 39; GetGlobal 0 40; GetGlobal 0 41; GetGlobal 0 42; GetGlobal 0 43; GetGlobal 0 44; GetGlobal 0 45;
  GetGlobal 0 46; GetGlobal 0 47; GetGlobal 0 48; GetGlobal 0 49; GetGlobal 0 50; GetGlobal 0 51; GetGlobal 0 52;
  GetGlobal 0 53; GetGlobal 1 0; GetGlobal 1 1; GetGlobal 1 2; GetGlobal 1 3; Mul 863 413; Add 862 866; Mul 864 412;
  Add 867 868; Mul 865 411; Add 869 870; GetGlobal 1 4; GetGlobal 1 5; GetGlobal 1 6; GetGlobal 1 7; Mul 873 413;
  Add 872 876; Mul 874 412; Add 877 878; Mul 875 411; Add 879 880; GetGlobal 1 8; GetGlobal 1 9; GetGlobal 1 10;
  GetGlobal 1 11; Mul 883 413; Add 882 886; Mul 884 412; Add 887 888; Mul 885 411; Add 889 890; GetGlobal 1 12;
  GetGlobal 1 13; GetGlobal 1 14; GetGlobal 1 15; Mul 893 413; Add 892 896; Mul 894 412; Add 897 898; Mul 895 411;
  Add 899 900; GetGlobal 1 16; GetGlobal 1 17; GetGlobal 1 18; GetGlobal 1 19; Mul 903 413; Add 902 906; Mul 904 412;
  Add 907 908; Mul 905 411; Add 909 910; GetGlobal 1 20; GetGlobal 1 21; GetGlobal 1 22; GetGlobal 1 23; Mul 913 413;
  Add 912 916; Mul 914 412; Add 917 918; Mul 915 411; Add 919 920; GetGlobal 1 24; GetGlobal 1 25; GetGlobal 1 26;
  GetGlobal 1 27; Mul 923 413; Add 922 926; Mul 924 412; Add 927 928; Mul 925 411; Add 929 930; GetGlobal 1 28;
  GetGlobal 1 29; GetGlobal 1 30; GetGlobal 1 31; Mul 933 413; Add 932 936; Mul 934 412; Add 937 938; Mul 935 411;
  Add 939 940; GetGlobal 1 32; GetGlobal 1 33; GetGlobal 1 34; GetGlobal 1 35; Mul 943 413; Add 942 946; Mul 944 412;
  Add 947 948; Mul 945 411; Add 949 950; GetGlobal 1 36; GetGlobal 1 37; GetGlobal 1 38; GetGlobal 1 39; Mul 953 413;
  Add 952 956; Mul 954 412; Add 957 958; Mul 955 411; Add 959 960; GetGlobal 1 40; GetGlobal 1 41; GetGlobal 1 42;
  GetGlobal 1 43; Mul 963 413; Add 962 966; Mul 964 412; Add 967 968; Mul 965 411; Add 969 970; GetGlobal 1 44;
  GetGlobal 1 45; GetGlobal 1 46; GetGlobal 1 47; Mul 973 413; Add 972 976; Mul 974 412; Add 977 978; Mul 975 411;
  Add 979 980; GetGlobal 1 48; GetGlobal 1 49; GetGlobal 1 50; GetGlobal 1 51; Mul 983 413; Add 982 986; Mul 984 412;
  Add 987 988; Mul 985 411; Add 989 990; GetGlobal 1 52; GetGlobal 1 53; GetGlobal 1 54; GetGlobal 1 55; Mul 993 413;
  Add 992 996; Mul 994 412; Add 997 998].

(* L1020-1519 POLY_EXT_DEF.block *)
Definition block_2 : list Step := [
  Mul 995 411; Add 999 1000; GetGlobal 1 56; GetGlobal 1 57; GetGlobal 1 58; GetGlobal 1 59; Mul 1003 413;
  Add 1002 1006; Mul 1004 412; Add 1007 1008; Mul 1005 411; Add 1009 1010; GetGlobal 1 60; GetGlobal 1 61;
  GetGlobal 1 62; GetGlobal 1 63; Mul 1013 413; Add 1012 1016; Mul 1014 412; Add 1017 1018; Mul 1015 411;
  Add 1019 1020; GetGlobal 1 64; GetGlobal 1 65; GetGlobal 1 66; GetGlobal 1 67; Mul 1023 413; Add 1022 1026;
  Mul 1024 412; Add 1027 1028; Mul 1025 411; Add 1029 1030; GetGlobal 1 68; GetGlobal 1 69; GetGlobal 1 70;
  GetGlobal 1 71; Mul 1033 413; Add 1032 1036; Mul 1034 412; Add 1037 1038; Mul 1035 411; Add 1039 1040;
  GetGlobal 1 72; GetGlobal 1 73; GetGlobal 1 74; GetGlobal 1 75; Mul 1043 413; Add 1042 1046; Mul 1044 412;
  Add 1047 1048; Mul 1045 411; Add 1049 1050; GetGlobal 1 76; GetGlobal 1 77; GetGlobal 1 78; GetGlobal 1 79;
  Mul 1053 413; Add 1052 1056; Mul 1054 412; Add 1057 1058; Mul 1055 411; Add 1059 1060; GetGlobal 1 80;
  GetGlobal 1 81; GetGlobal 1 82; GetGlobal 1 83; Mul 1063 413; Add 1062 1066; Mul 1064 412; Add 1067 1068;
  Mul 1065 411; Add 1069 1070; GetGlobal 1 84; GetGlobal 1 85; GetGlobal 1 86; GetGlobal 1 87; Mul 1073 413;
  Add 1072 1076; Mul 1074 412; Add 1077 1078; Mul 1075 411; Add 1079 1080; GetGlobal 1 88; GetGlobal 1 89;
  GetGlobal 1 90; GetGlobal 1 91; Mul 1083 413; Add 1082 1086; Mul 1084 412; Add 1087 1088; Mul 1085 411;
  Add 1089 1090; GetGlobal 1 92; GetGlobal 1 93; GetGlobal 1 94; GetGlobal 1 95; Mul 1093 413; Add 1092 1096;
  Mul 1094 412; Add 1097 1098; Mul 1095 411; Add 1099 1100; GetGlobal 1 96; GetGlobal 1 97; GetGlobal 1 98;
  GetGlobal 1 99; Mul 1103 413; Add 1102 1106; Mul 1104 412; Add 1107 1108; Mul 1105 411; Add 1109 1110;
  GetGlobal 1 100; GetGlobal 1 101; GetGlobal 1 102; GetGlobal 1 103; Mul 1113 413; Add 1112 1116; Mul 1114 412;
  Add 1117 1118; Mul 1115 411; Add 1119 1120; GetGlobal 1 104; GetGlobal 1 105; GetGlobal 1 106; GetGlobal 1 107;
  Mul 1123 413; Add 1122 1126; Mul 1124 412; Add 1127 1128; Mul 1125 411; Add 1129 1130; GetGlobal 1 108;
  GetGlobal 1 109; GetGlobal 1 110; GetGlobal 1 111; Mul 1133 413; Add 1132 1136; Mul 1134 412; Add 1137 1138;
  Mul 1135 411; Add 1139 1140; GetGlobal 1 112; GetGlobal 1 113; GetGlobal 1 114; GetGlobal 1 115; Mul 1143 413;
  Add 1142 1146; Mul 1144 412; Add 1147 1148; Mul 1145 411; Add 1149 1150; GetGlobal 1 116; GetGlobal 1 117;
  GetGlobal 1 118; GetGlobal 1 119; Mul 1153 413; Add 1152 1156; Mul 1154 412; Add 1157 1158; Mul 1155 411;
  Add 1159 1160; GetGlobal 1 120; GetGlobal 1 121; GetGlobal 1 122; GetGlobal 1 123; Mul 1163 413; Add 1162 1166;
  Mul 1164 412; Add 1167 1168; Mul 1165 411; Add 1169 1170; GetGlobal 1 124; GetGlobal 1 125; GetGlobal 1 126;
  GetGlobal 1 127; Mul 1173 413; Add 1172 1176; Mul 1174 412; Add 1177 1178; Mul 1175 411; Add 1179 1180;
  GetGlobal 1 128; GetGlobal 1 129; GetGlobal 1 130; GetGlobal 1 131; Mul 1183 413; Add 1182 1186; Mul 1184 412;
  Add 1187 1188; Mul 1185 411; Add 1189 1190; GetGlobal 1 132; GetGlobal 1 133; GetGlobal 1 134; GetGlobal 1 135;
  Mul 1193 413; Add 1192 1196; Mul 1194 412; Add 1197 1198; Mul 1195 411; Add 1199 1200; GetGlobal 1 136;
  GetGlobal 1 137; GetGlobal 1 138; GetGlobal 1 139; Mul 1203 413; Add 1202 1206; Mul 1204 412; Add 1207 1208;
  Mul 1205 411; Add 1209 1210; GetGlobal 1 196; GetGlobal 1 197; GetGlobal 1 198; GetGlobal 1 199; Mul 1213 413;
  Add 1212 1216; Mul 1214 412; Add 1217 1218; Mul 1215 411; Add 1219 1220; Get 405; True_; Sub 414 410; Mul 414 1223;
  AndEqz 0 1224; Sub 415 410; Mul 415 1225; AndEqz 1 1226; Sub 416 410; Mul 416 1227; AndEqz 2 1228; Sub 417 410;
  Mul 417 1229; AndEqz 3 1230; Sub 418 410; Mul 418 1231; AndEqz 4 1232; Sub 419 410; Mul 419 1233; AndEqz 5 1234;
  Add 414 415; Add 1235 416; Add 1236 417; Add 1237 418; Add 1238 419; Sub 1239 410; AndEqz 6 1240; Sub 420 410;
  Mul 420 1241; AndEqz 7 1242; Sub 421 410; Mul 421 1243; AndEqz 8 1244; Sub 422 410; Mul 422 1245; AndEqz 9 1246;
  Sub 423 410; Mul 423 1247; AndEqz 10 1248; Sub 424 410; Mul 424 1249; AndEqz 11 1250; Sub 425 410; Mul 425 1251;
  AndEqz 12 1252; Sub 426 410; Mul 426 1253; AndEqz 13 1254; Sub 427 410; Mul 427 1255; AndEqz 14 1256; Add 420 421;
  Add 1257 422; Add 1258 423; Add 1259 424; Add 1260 425; Add 1261 426; Add 1262 427; Sub 1263 410; AndEqz 15 1264;
  Sub 0 428; Add 891 409; Mul 901 448; Add 1266 1267; Sub 871 1268; Mul 901 449; Add 1270 409; Sub 871 1271;
  Mul 618 413; Add 617 1273; Mul 619 412; Add 1274 1275; Mul 620 411; Add 1276 1277; Mul 1278 1269; Mul 1279 1272;
  Mul 1269 1265; Mul 1272 1265; Add 1281 1282; Sub 1280 1283; AndEqz 0 1284; Add 1278 409; Mul 901 450; Add 1286 409;
  Sub 871 1287; Mul 901 451; Add 1289 409; Sub 871 1290; Mul 622 413; Add 621 1292; Mul 623 412; Add 1293 1294;
  Mul 624 411; Add 1295 1296; Mul 1297 1288; Mul 1298 1291; Mul 1288 1265; Mul 1291 1265; Add 1300 1301;
  Sub 1299 1302; AndEqz 17 1303; Add 1285 1297; Sub 1222 410; AndEqz 18 1305; Add 446 450; Mul 447 408;
  Sub 1306 1307; AndEqz 19 1308; Mul 449 407; Add 448 1309; Sub 447 1310; AndEqz 20 1311; Mul 450 406; Sub 451 1312;
  AndEqz 21 1313; Sub 429 808; AndEqz 22 1314; Sub 437 816; AndEqz 23 1315; Sub 452 845; AndEqz 24 1316; Sub 453 846;
  AndEqz 25 1317; Sub 430 809; AndEqz 26 1318; Sub 438 817; AndEqz 27 1319; Sub 454 847; AndEqz 28 1320; Sub 455 848;
  AndEqz 29 1321; Sub 431 810; AndEqz 30 1322; Sub 439 818; AndEqz 31 1323; Sub 456 849; AndEqz 32 1324; Sub 457 850;
  AndEqz 33 1325; Sub 432 811; AndEqz 34 1326; Sub 440 819; AndEqz 35 1327; Sub 458 851; AndEqz 36 1328; Sub 459 852;
  AndEqz 37 1329; Sub 433 812; AndEqz 38 1330; Sub 441 820; AndEqz 39 1331; Sub 460 853; AndEqz 40 1332; Sub 461 854;
  AndEqz 41 1333; Sub 434 813; AndEqz 42 1334; Sub 442 821; AndEqz 43 1335; Sub 462 855; AndEqz 44 1336; Sub 463 856;
  AndEqz 45 1337; Sub 435 814; AndEqz 46 1338; Sub 443 822; AndEqz 47 1339; Sub 464 857; AndEqz 48 1340; Sub 465 858;
  AndEqz 49 1341; Sub 436 815; AndEqz 50 1342; Sub 444 823; AndEqz 51 1343; Sub 466 859; AndEqz 52 1344; Sub 467 860;
  AndEqz 53 1345; Mul 881 405; Add 1346 409; Add 1347 891; Mul 901 429; Add 1348 1349; Mul 911 430; Add 1350 1351;
  Mul 921 431; Add 1352 1353; Mul 931 432; Add 1354 1355; Mul 941 433; Add 1356 1357; Mul 951 434; Add 1358 1359;
  Mul 961 435; Add 1360 1361; Mul 971 436; Add 1362 1363; Sub 871 1364; Mul 881 404; Add 1366 409; Add 1367 891;
  Mul 901 437; Add 1368 1369; Mul 911 438; Add 1370 1371; Mul 921 439; Add 1372 1373; Mul 931 440; Add 1374 1375;
  Mul 941 441; Add 1376 1377; Mul 951 442; Add 1378 1379; Mul 961 443; Add 1380 1381; Mul 971 444; Add 1382 1383;
  Sub 871 1384; Mul 626 413; Add 625 1386; Mul 627 412; Add 1387 1388; Mul 628 411; Add 1389 1390; Mul 1391 1365;
  Mul 1392 1385; Mul 1365 1265; Mul 1385 428; Add 1394 1395; Sub 1393 1396; AndEqz 54 1397; Add 1304 1391;
  Add 881 409; Add 1399 409; Add 1400 409; Sub 871 1401; Mul 901 403; Add 1400 1403; Sub 871 1404; Mul 630 413;
  Add 629 1406; Mul 631 412; Add 1407 1408; Mul 632 411; Add 1409 1410; Mul 1411 1402; Mul 1412 1405; Mul 1402 1265;
  Mul 1405 428; Add 1414 1415; Sub 1413 1416; AndEqz 55 1417; Add 1398 1411; Add 1399 891; Add 1419 409;
  Sub 871 1420; Mul 901 407; Add 1419 1422; Sub 871 1423; Mul 634 413; Add 633 1425; Mul 635 412; Add 1426 1427;
  Mul 636 411; Add 1428 1429; Mul 1430 1421; Mul 1431 1424; Mul 1421 1265; Mul 1424 428; Add 1433 1434;
  Sub 1432 1435; AndEqz 56 1436; Add 1418 1430; Mul 891 402; Add 1399 1438; Add 1439 409; Sub 871 1440].

(* L1520-2019 POLY_EXT_DEF.block *)
Definition block_3 : list Step := [
  Mul 447 401; Mul 901 1442; Add 1439 1443; Sub 871 1444; Mul 638 413; Add 637 1446; Mul 639 412; Add 1447 1448;
  Mul 640 411; Add 1449 1450; Mul 1451 1441; Mul 1452 1445; Mul 1441 1265; Mul 1445 428; Add 1454 1455;
  Sub 1453 1456; AndEqz 57 1457; Add 1437 1451; Mul 881 402; Add 1459 409; Add 1460 891; Add 1461 409; Add 1462 409;
  Add 1463 409; Add 1464 931; Sub 871 1465; Mul 891 446; Add 1460 1467; Add 1468 409; Add 1469 409; Add 1470 409;
  Add 1471 409; Sub 871 1472; Mul 642 413; Add 641 1474; Mul 643 412; Add 1475 1476; Mul 644 411; Add 1477 1478;
  Mul 1479 1466; Mul 1480 1473; Mul 1466 1265; Mul 1473 428; Add 1482 1483; Sub 1481 1484; AndEqz 58 1485;
  Add 1458 1479; Mul 881 400; Add 1487 409; Add 1488 409; Sub 871 1489; Mul 891 445; Add 1488 1491; Sub 871 1492;
  Mul 646 413; Add 645 1494; Mul 647 412; Add 1495 1496; Mul 648 411; Add 1497 1498; Mul 1499 1490; Mul 1500 1493;
  Mul 1490 1265; Mul 1493 428; Add 1502 1503; Sub 1501 1504; AndEqz 59 1505; Add 1486 1499; Mul 614 413;
  Add 613 1507; Mul 615 412; Add 1508 1509; Mul 616 411; Add 1510 1511; Mul 793 413; Add 792 1513; Mul 794 412;
  Add 1514 1515; Mul 795 411; Add 1516 1517; Add 1518 1506; Sub 1512 1519; AndEqz 60 1520; Mul 414 420;
  AndCond 16 1521 61; Add 1438 409; Add 1522 409; Sub 871 1523; Mul 901 438; Add 1266 1525; Sub 871 1526;
  Mul 1278 1524; Mul 1528 1527; Mul 1524 1265; Mul 1527 1265; Add 1530 1531; Sub 1529 1532; AndEqz 0 1533;
  Sub 439 410; Mul 439 1534; AndEqz 63 1535; Sub 440 410; Mul 440 1536; AndEqz 64 1537; Mul 438 399; Mul 440 402;
  Add 1538 1539; Add 1540 439; Sub 1541 434; AndEqz 65 1542; Mul 901 441; Add 1266 1543; Sub 871 1544; Mul 433 398;
  Mul 1546 397; Sub 410 1546; Mul 1548 396; Add 1547 1549; Sub 1550 435; Sub 1551 441; AndEqz 66 1552; Mul 881 395;
  Add 1553 409; Mul 891 442; Add 1554 1555; Mul 901 443; Add 1556 1557; Mul 911 444; Add 1558 1559; Mul 921 445;
  Add 1560 1561; Sub 871 1562; Mul 1297 1545; Mul 1564 1563; Mul 1545 1265; Mul 1563 1265; Add 1566 1567;
  Sub 1565 1568; AndEqz 67 1569; Mul 432 402; Mul 901 1570; Add 1556 1571; Add 1572 1559; Add 1573 1561;
  Sub 871 1574; Sub 1570 443; Sub 1576 410; Mul 901 1577; Add 1522 1578; Sub 871 1579; Mul 1391 1575; Mul 1581 1580;
  Mul 1575 1265; Mul 1580 428; Add 1583 1584; Sub 1582 1585; AndEqz 68 1586; Add 1554 1467; Mul 901 447;
  Add 1587 1588; Mul 911 448; Add 1589 1590; Mul 921 449; Add 1591 1592; Sub 871 1593; Add 1587 1571; Add 1595 1590;
  Add 1596 1592; Sub 871 1597; Mul 1411 1594; Mul 1599 1598; Mul 1594 428; Mul 1598 1265; Add 1601 1602;
  Sub 1600 1603; AndEqz 69 1604; Sub 1570 447; Sub 1605 410; Mul 901 1606; Add 1522 1607; Sub 871 1608; Mul 440 445;
  Sub 410 440; Mul 1611 444; Add 1610 1612; Add 1266 1286; Sub 871 1614; Mul 1430 1609; Mul 1616 1615; Mul 1609 1265;
  Mul 1615 1265; Add 1618 1619; Sub 1617 1620; AndEqz 70 1621; Sub 451 410; Mul 451 1622; AndEqz 71 1623;
  Sub 452 410; Mul 452 1624; AndEqz 72 1625; Mul 450 399; Mul 452 402; Add 1626 1627; Add 1628 451; Sub 1629 1613;
  AndEqz 73 1630; Sub 453 410; Mul 453 1631; AndEqz 74 1632; Mul 453 402; Sub 399 1633; Mul 901 454; Add 1266 1635;
  Sub 871 1636; Sub 455 410; Mul 455 1638; AndEqz 75 1639; Mul 901 456; Add 1266 1640; Sub 871 1641; Mul 1451 1637;
  Mul 1643 1642; Mul 1637 1265; Mul 1642 1265; Add 1645 1646; Sub 1644 1647; AndEqz 76 1648; Sub 457 410;
  Mul 457 1649; AndEqz 77 1650; Mul 455 407; Add 454 1651; Add 434 1634; Sub 1652 1653; AndEqz 78 1654; Mul 457 407;
  Add 456 1655; Add 435 455; Sub 1656 1657; AndEqz 79 1658; Sub 458 410; Mul 458 1659; AndEqz 80 1660; Sub 459 410;
  Mul 459 1661; AndEqz 81 1662; Sub 460 410; Mul 460 1663; AndEqz 82 1664; Sub 461 410; Mul 461 1665; AndEqz 83 1666;
  Sub 462 410; Mul 462 1667; AndEqz 84 1668; Sub 463 410; Mul 463 1669; AndEqz 85 1670; Sub 464 410; Mul 464 1671;
  AndEqz 86 1672; Sub 465 410; Mul 465 1673; AndEqz 87 1674; Sub 466 410; Mul 466 1675; AndEqz 88 1676; Sub 467 410;
  Mul 467 1677; AndEqz 89 1678; Sub 468 410; Mul 468 1679; AndEqz 90 1680; Sub 469 410; Mul 469 1681; AndEqz 91 1682;
  Sub 470 410; Mul 470 1683; AndEqz 92 1684; Sub 471 410; Mul 471 1685; AndEqz 93 1686; Sub 472 410; Mul 472 1687;
  AndEqz 94 1688; Sub 473 410; Mul 473 1689; AndEqz 95 1690; Sub 474 410; Mul 474 1691; AndEqz 96 1692; Sub 475 410;
  Mul 475 1693; AndEqz 97 1694; Sub 476 410; Mul 476 1695; AndEqz 98 1696; Sub 477 410; Mul 477 1697; AndEqz 99 1698;
  Sub 478 410; Mul 478 1699; AndEqz 100 1700; Sub 479 410; Mul 479 1701; AndEqz 101 1702; Sub 480 410; Mul 480 1703;
  AndEqz 102 1704; Sub 481 410; Mul 481 1705; AndEqz 103 1706; Sub 482 410; Mul 482 1707; AndEqz 104 1708;
  Sub 483 410; Mul 483 1709; AndEqz 105 1710; Sub 484 410; Mul 484 1711; AndEqz 106 1712; Sub 485 410; Mul 485 1713;
  AndEqz 107 1714; Sub 486 410; Mul 486 1715; AndEqz 108 1716; Sub 487 410; Mul 487 1717; AndEqz 109 1718;
  Sub 488 410; Mul 488 1719; AndEqz 110 1720; Sub 489 410; Mul 489 1721; AndEqz 111 1722; Sub 491 410; Mul 491 1723;
  AndEqz 112 1724; Sub 492 410; Mul 492 1725; AndEqz 113 1726; Sub 493 410; Mul 493 1727; AndEqz 114 1728;
  Sub 494 410; Mul 494 1729; AndEqz 115 1730; Sub 495 410; Mul 495 1731; AndEqz 116 1732; Sub 496 410; Mul 496 1733;
  AndEqz 117 1734; Sub 497 410; Mul 497 1735; AndEqz 118 1736; Add 491 492; Add 1737 493; Add 1738 494; Add 1739 495;
  Add 1740 496; Add 1741 497; Sub 1742 410; AndEqz 119 1743; Sub 498 410; Mul 498 1744; AndEqz 120 1745; Sub 499 410;
  Mul 499 1746; AndEqz 121 1747; Sub 500 410; Mul 500 1748; AndEqz 122 1749; Sub 501 410; Mul 501 1750;
  AndEqz 123 1751; Sub 502 410; Mul 502 1752; AndEqz 124 1753; Sub 503 410; Mul 503 1754; AndEqz 125 1755;
  Sub 504 410; Mul 504 1756; AndEqz 126 1757; Add 498 499; Add 1758 500; Add 1759 501; Add 1760 502; Add 1761 503;
  Add 1762 504; Sub 1763 410; AndEqz 127 1764; Mul 435 394; Add 1765 438; Sub 1766 442; AndEqz 128 1767; Mul 451 452;
  Sub 410 1768; Sub 453 1769; AndEqz 129 1770; Add 1613 393; Add 1766 410; Mul 440 1772; Mul 1611 393; Add 1773 1774;
  Mul 453 1771; Sub 410 453; Mul 1777 1775; Add 1776 1778; Sub 1779 446; AndEqz 130 1780; Sub 454 436;
  AndEqz 131 1781; Sub 456 437; AndEqz 132 1782; Mul 453 448; Mul 1777 1613; Add 1783 1784; Mul 440 448;
  Mul 1611 445; Add 1786 1787; Mul 453 449; Mul 1777 1788; Add 1789 1790; Mul 459 402; Add 458 1792; Mul 460 399;
  Add 1793 1794; Mul 461 408; Add 1795 1796; Mul 462 401; Add 1797 1798; Mul 463 406; Add 1799 1800; Mul 464 392;
  Add 1801 1802; Mul 465 391; Add 1803 1804; Mul 466 403; Add 1805 1806; Mul 467 390; Add 1807 1808; Mul 468 389;
  Add 1809 1810; Mul 469 388; Add 1811 1812; Mul 470 387; Add 1813 1814; Mul 471 386; Add 1815 1816; Mul 472 394;
  Add 1817 1818; Mul 473 385; Add 1819 1820; Sub 1785 1821; AndEqz 133 1822; Mul 475 402; Add 474 1823; Mul 476 399;
  Add 1824 1825; Mul 477 408; Add 1826 1827; Mul 478 401; Add 1828 1829; Mul 479 406; Add 1830 1831; Mul 480 392;
  Add 1832 1833; Mul 481 391; Add 1834 1835; Mul 482 403; Add 1836 1837; Mul 483 390; Add 1838 1839; Mul 484 389;
  Add 1840 1841; Mul 485 388; Add 1842 1843; Mul 486 387; Add 1844 1845; Mul 487 386; Add 1846 1847; Mul 488 394;
  Add 1848 1849; Mul 489 385; Add 1850 1851; Sub 1791 1852; AndEqz 134 1853; Mul 484 402; Add 483 1854; Mul 485 399;
  Add 1855 1856; Mul 486 408; Add 1857 1858; Mul 487 401; Add 1859 1860; Mul 488 406; Add 1861 1862].

(* L2020-2519 POLY_EXT_DEF.block *)
Definition block_4 : list Step := [
  Mul 489 392; Add 1863 1864; Mul 471 402; Add 470 1866; Mul 472 399; Add 1867 1868; Mul 479 402; Add 478 1870;
  Mul 480 399; Add 1871 1872; Mul 481 408; Add 1873 1874; Mul 482 401; Add 1875 1876; Mul 489 384; Mul 1865 406;
  Add 1878 1879; Add 1880 1877; Mul 489 397; Mul 466 402; Add 465 1883; Mul 467 399; Add 1884 1885; Mul 468 408;
  Add 1886 1887; Mul 469 401; Add 1888 1889; Add 1880 1890; Mul 467 402; Add 466 1892; Mul 468 399; Add 1893 1894;
  Mul 469 408; Add 1895 1896; Mul 465 388; Add 1878 1898; Mul 1863 406; Add 1899 1900; Mul 1897 402; Add 1901 1902;
  Mul 480 402; Add 479 1904; Mul 481 399; Add 1905 1906; Mul 482 408; Add 1907 1908; Mul 483 401; Add 1909 1910;
  Mul 484 406; Add 1911 1912; Mul 485 392; Add 1913 1914; Mul 486 391; Add 1915 1916; Mul 487 403; Add 1917 1918;
  Mul 488 390; Add 1919 1920; Mul 473 408; Add 1869 1922; Mul 1923 387; Mul 478 388; Add 1924 1925; Mul 1921 402;
  Add 1926 1927; Mul 489 383; Add 1929 1828; Mul 1869 387; Add 1820 1931; Mul 491 498; Mul 1869 391; Add 1803 1934;
  Mul 1865 389; Add 1935 1936; Sub 1937 382; Mul 1933 1938; AndEqz 135 1939; Mul 1933 382; Mul 491 499; Sub 1937 40;
  Mul 1941 1942; AndEqz 136 1943; Mul 1941 382; Add 1940 1944; Mul 1941 406; Mul 1941 381; Add 1933 1941;
  Mul 491 500; Sub 1937 39; Mul 1949 1950; AndEqz 137 1951; Mul 1949 382; Add 1945 1952; Mul 1949 399; Mul 1949 380;
  Add 1947 1955; Add 1948 1949; Mul 491 501; Sub 1937 38; Mul 1958 1959; AndEqz 138 1960; Mul 1958 382;
  Add 1953 1961; Mul 1958 395; Add 1954 1963; Mul 1958 379; Add 1956 1965; Add 1957 1958; Mul 491 502; Sub 1937 37;
  Mul 1968 1969; AndEqz 139 1970; Mul 1968 382; Add 1962 1971; Mul 1968 400; Add 1964 1973; Mul 1968 378;
  Add 1966 1975; Add 1967 1968; Mul 491 503; Sub 1937 36; Mul 1978 1979; AndEqz 140 1980; Mul 1978 382;
  Add 1972 1981; Add 1974 1978; Mul 1978 377; Add 1976 1984; Add 1977 1978; Mul 491 504; Sub 1937 35; Mul 1987 1988;
  AndEqz 141 1989; Mul 1987 382; Add 1982 1990; Mul 1987 376; Add 1983 1992; Mul 1987 375; Add 1985 1994;
  Add 1986 1987; Mul 492 498; Sub 1937 34; Mul 1997 1998; AndEqz 142 1999; Mul 1997 382; Add 1991 2000; Mul 1997 376;
  Add 1993 2002; Mul 1997 406; Add 1946 2004; Mul 1997 374; Add 1995 2006; Add 1996 1997; Mul 492 499; Sub 1937 33;
  Mul 2009 2010; AndEqz 143 2011; Mul 2009 382; Add 2001 2012; Mul 2009 402; Add 2003 2014; Mul 2009 373;
  Add 2007 2016; Add 2008 2009; Mul 492 500; Sub 1937 32; Mul 2019 2020; AndEqz 144 2021; Mul 2019 382;
  Add 2013 2022; Mul 2019 372; Add 2015 2024; Mul 2019 371; Add 2017 2026; Add 2018 2019; Mul 492 501; Add 1936 370;
  Sub 1937 2030; Mul 2029 2031; AndEqz 145 2032; Mul 2029 370; Add 2023 2033; Mul 2029 1865; Add 2005 2035;
  Mul 2029 1881; Mul 2029 1882; Add 2027 2029; Add 2028 2029; Mul 492 502; Add 1936 31; Sub 1937 2042; Mul 2041 2043;
  AndEqz 146 2044; Mul 2041 370; Add 2034 2045; Mul 2041 399; Add 2025 2047; Mul 2041 1865; Add 2036 2049;
  Mul 2041 1881; Add 2037 2051; Mul 2041 1882; Add 2038 2053; Mul 2041 369; Add 2039 2055; Add 2040 2041;
  Mul 492 503; Add 1936 30; Sub 1937 2059; Mul 2058 2060; AndEqz 147 2061; Mul 2058 370; Add 2046 2062; Mul 2058 395;
  Add 2048 2064; Mul 2058 1865; Add 2050 2066; Mul 2058 1881; Add 2052 2068; Mul 2058 1882; Add 2054 2070;
  Mul 2058 368; Add 2056 2072; Add 2057 2058; Mul 492 504; Add 1936 29; Sub 1937 2076; Mul 2075 2077;
  AndEqz 148 2078; Mul 2075 370; Add 2063 2079; Mul 2075 400; Add 2065 2081; Mul 2075 1865; Add 2067 2083;
  Mul 2075 1881; Add 2069 2085; Mul 2075 1882; Add 2071 2087; Mul 2075 367; Add 2073 2089; Add 2074 2075;
  Mul 493 498; Sub 1937 28; Mul 2092 2093; AndEqz 149 2094; Mul 2092 370; Add 2080 2095; Add 2082 2092;
  Mul 2092 1877; Add 2086 2098; Mul 2092 366; Add 2090 2100; Add 2091 2092; Mul 493 499; Sub 1937 27; Mul 2103 2104;
  AndEqz 150 2105; Mul 2103 370; Add 2096 2106; Mul 2103 376; Add 2097 2108; Mul 2103 1877; Add 2099 2110;
  Mul 2103 365; Add 2101 2112; Add 2102 2103; Mul 493 500; Sub 1937 26; Mul 2115 2116; AndEqz 151 2117; Mul 2115 370;
  Add 2107 2118; Mul 2115 376; Add 2109 2120; Mul 2115 406; Add 2084 2122; Mul 2115 1877; Add 2111 2124;
  Mul 2115 364; Add 2113 2126; Add 2114 2115; Mul 493 501; Add 1936 25; Sub 1937 2130; Mul 2129 2131;
  AndEqz 152 2132; Mul 2129 370; Add 2119 2133; Mul 2129 402; Add 2121 2135; Mul 2129 1865; Add 2123 2137;
  Mul 2129 1881; Add 2125 2139; Mul 2129 1882; Add 2088 2141; Mul 2129 363; Add 2127 2143; Add 2128 2129;
  Mul 493 502; Add 1936 24; Sub 1937 2147; Mul 2146 2148; AndEqz 153 2149; Mul 2146 370; Add 2134 2150; Mul 2146 372;
  Add 2136 2152; Mul 2146 1865; Add 2138 2154; Mul 2146 1881; Add 2140 2156; Mul 2146 1882; Add 2142 2158;
  Mul 2146 362; Add 2144 2160; Add 2145 2146; Mul 493 503; Add 1936 372; Sub 1937 2164; Mul 2163 2165;
  AndEqz 154 2166; Mul 2163 372; Add 2151 2167; Mul 2163 1865; Add 2155 2169; Mul 2163 1881; Add 2157 2171;
  Mul 2163 1882; Add 2159 2173; Mul 2163 402; Add 2161 2175; Add 2162 2163; Mul 493 504; Add 1936 23; Sub 1937 2179;
  Mul 2178 2180; AndEqz 155 2181; Mul 2178 372; Add 2168 2182; Add 2153 2178; Mul 2178 1865; Add 2170 2185;
  Mul 2178 1881; Add 2172 2187; Mul 2178 1882; Add 2174 2189; Mul 2178 361; Add 2176 2191; Add 2177 2178;
  Mul 494 498; Add 1936 22; Sub 1937 2195; Mul 2194 2196; AndEqz 156 2197; Mul 2194 372; Add 2183 2198; Mul 2194 402;
  Add 2184 2200; Mul 2194 1865; Add 2186 2202; Mul 2194 1881; Add 2188 2204; Mul 2194 1882; Add 2190 2206;
  Mul 2194 360; Add 2192 2208; Add 2193 2194; Mul 494 499; Add 1936 21; Sub 1937 2212; Mul 2211 2213;
  AndEqz 157 2214; Mul 2211 372; Add 2199 2215; Mul 2211 399; Add 2201 2217; Mul 2211 1865; Add 2203 2219;
  Mul 2211 1881; Add 2205 2221; Mul 2211 1882; Add 2207 2223; Mul 2211 359; Add 2209 2225; Add 2210 2211;
  Mul 494 500; Add 1936 20; Sub 1937 2229; Mul 2228 2230; AndEqz 158 2231; Mul 2228 372; Add 2216 2232; Mul 2228 376;
  Add 2218 2234; Mul 2228 1865; Add 2220 2236; Mul 2228 1881; Add 2222 2238; Mul 2228 1882; Add 2224 2240;
  Mul 2228 358; Add 2226 2242; Add 2227 2228; Mul 494 501; Add 1936 359; Sub 1937 2246; Mul 2245 2247;
  AndEqz 159 2248; Mul 2245 359; Add 2233 2249; Mul 2245 1865; Add 2237 2251; Mul 2245 1891; Add 2239 2253;
  Mul 2245 1882; Add 2241 2255; Mul 2245 372; Add 2243 2257; Add 2244 2245; Mul 494 502; Add 1936 19; Sub 1937 2261;
  Mul 2260 2262; AndEqz 160 2263; Mul 2260 359; Add 2250 2264; Add 2235 2260; Mul 2260 1865; Add 2252 2267;
  Mul 2260 1891; Add 2254 2269; Mul 2260 1882; Add 2256 2271; Mul 2260 357; Add 2258 2273; Add 2259 2260;
  Mul 494 503; Add 1936 18; Sub 1937 2277; Mul 2276 2278; AndEqz 161 2279; Mul 2276 359; Add 2265 2280; Mul 2276 402;
  Add 2266 2282; Mul 2276 1865; Add 2268 2284; Mul 2276 1891; Add 2270 2286; Mul 2276 1882; Add 2272 2288;
  Mul 2276 356; Add 2274 2290; Add 2275 2276; Mul 494 504; Add 1936 355; Sub 1937 2294; Mul 2293 2295;
  AndEqz 162 2296; Mul 2293 355; Add 2281 2297; Mul 2293 1865; Add 2285 2299; Mul 2293 1903; Add 2287 2301;
  Mul 2293 1882; Add 2289 2303; Mul 2293 354; Add 2291 2305; Add 2292 2293; Mul 495 498; Add 1936 17; Sub 1937 2309;
  Mul 2308 2310; AndEqz 163 2311; Mul 2308 355; Add 2298 2312; Add 2283 2308; Mul 2308 1865; Add 2300 2315;
  Mul 2308 1903; Add 2302 2317; Mul 2308 1882; Add 2304 2319; Mul 2308 353; Add 2306 2321; Add 2307 2308;
  Mul 495 499; Add 1936 16; Sub 1937 2325; Mul 2324 2326; AndEqz 164 2327; Mul 2324 355; Add 2313 2328; Mul 2324 399;
  Add 2314 2330; Mul 2324 1865; Add 2316 2332].

(* L2520-3019 POLY_EXT_DEF.block *)
Definition block_5 : list Step := [
  Mul 2324 1903; Add 2318 2334; Mul 2324 1882; Add 2320 2336; Mul 2324 352; Add 2322 2338; Add 2323 2324;
  Mul 495 500; Add 1936 15; Sub 1937 2342; Mul 2341 2343; AndEqz 165 2344; Mul 2341 355; Add 2329 2345; Mul 2341 376;
  Add 2331 2347; Mul 2341 1865; Add 2333 2349; Mul 2341 1903; Add 2335 2351; Mul 2341 1882; Add 2337 2353;
  Mul 2341 351; Add 2339 2355; Add 2340 2341; Mul 495 501; Add 1936 14; Sub 1937 2359; Mul 2358 2360;
  AndEqz 166 2361; Mul 2358 355; Add 2346 2362; Mul 2358 395; Add 2348 2364; Mul 2358 1865; Add 2350 2366;
  Mul 2358 1903; Add 2352 2368; Mul 2358 1882; Add 2354 2370; Mul 2358 350; Add 2356 2372; Add 2357 2358;
  Mul 495 502; Add 1936 13; Sub 1937 2376; Mul 2375 2377; AndEqz 167 2378; Mul 2375 355; Add 2363 2379; Mul 2375 400;
  Add 2365 2381; Mul 2375 1865; Add 2367 2383; Mul 2375 1903; Add 2369 2385; Mul 2375 1882; Add 2371 2387;
  Mul 2375 349; Add 2373 2389; Add 2374 2375; Mul 495 503; Add 1934 366; Add 2393 1936; Sub 1937 2394; Mul 2392 2395;
  AndEqz 168 2396; Mul 2392 366; Add 2380 2397; Mul 2392 1869; Add 2382 2399; Mul 2392 1865; Add 2384 2401;
  Mul 2392 1928; Add 2386 2403; Mul 2392 1930; Add 2388 2405; Mul 2392 376; Add 2390 2407; Add 2391 2392;
  Mul 495 504; Add 1936 352; Sub 1937 2411; Mul 2410 2412; AndEqz 169 2413; Mul 2410 352; Add 2398 2414;
  Mul 2410 1865; Add 2402 2416; Mul 2410 1881; Add 2404 2418; Mul 2410 1882; Add 2406 2420; Mul 2410 395;
  Add 2408 2422; Add 2409 2410; Mul 496 498; Add 1934 371; Add 2426 1936; Sub 1937 2427; Mul 2425 2428;
  AndEqz 170 2429; Mul 2425 371; Add 2415 2430; Mul 2425 1869; Add 2400 2432; Mul 2425 1865; Add 2417 2434;
  Mul 2425 1932; Add 2419 2436; Mul 2425 1852; Add 2421 2438; Mul 2425 400; Add 2423 2440; Add 2424 2425;
  Mul 496 499; Add 1934 369; Add 2444 1936; Sub 1937 2445; Mul 2443 2446; AndEqz 171 2447; Mul 2443 369;
  Add 2431 2448; Mul 2443 1869; Add 2433 2450; Mul 2443 1865; Add 2435 2452; Mul 2443 1932; Add 2437 2454;
  Mul 2443 1852; Add 2439 2456; Mul 2443 408; Add 2441 2458; Add 2442 2443; Mul 496 500; Sub 1937 12; Mul 2461 2462;
  AndEqz 172 2463; Mul 2461 382; Add 2449 2464; Add 2453 2461; Mul 2461 348; Add 2459 2467; Add 2460 2461;
  Mul 496 501; Sub 1937 11; Mul 2470 2471; AndEqz 173 2472; Mul 2470 382; Add 2465 2473; Add 2451 2470;
  Add 2466 2470; Mul 2470 347; Add 2468 2477; Add 2469 2470; Mul 496 502; Sub 1937 10; Mul 2480 2481;
  AndEqz 174 2482; Mul 2480 382; Add 2474 2483; Mul 2480 402; Add 2475 2485; Add 2476 2480; Mul 2480 346;
  Add 2478 2488; Add 2479 2480; Mul 496 503; Sub 1937 9; Mul 2491 2492; AndEqz 175 2493; Mul 2491 382; Add 2484 2494;
  Mul 2491 372; Add 2486 2496; Add 2487 2491; Mul 2491 345; Add 2489 2499; Add 2490 2491; Mul 496 504; Sub 1937 8;
  Mul 2502 2503; AndEqz 176 2504; Mul 2502 382; Add 2495 2505; Mul 2502 399; Add 2497 2507; Add 2498 2502;
  Mul 2502 344; Add 2500 2510; Add 2501 2502; Mul 497 498; Sub 1937 7; Mul 2513 2514; AndEqz 177 2515; Mul 2513 382;
  Add 2506 2516; Mul 2513 376; Add 2508 2518; Add 2509 2513; Mul 2513 343; Add 2511 2521; Add 2512 2513; Mul 497 499;
  Sub 1937 6; Mul 2524 2525; AndEqz 178 2526; Mul 2524 382; Add 2517 2527; Mul 2524 395; Add 2519 2529;
  Add 2520 2524; Mul 2524 342; Add 2522 2532; Add 2523 2524; Mul 497 500; Sub 1937 5; Mul 2535 2536; AndEqz 179 2537;
  Mul 2535 382; Add 2528 2538; Mul 2535 400; Add 2530 2540; Add 2531 2535; Mul 2535 355; Add 2533 2543;
  Add 2534 2535; Mul 497 501; Sub 1937 341; Mul 2546 2547; AndEqz 180 2548; Mul 2546 341; Add 2539 2549;
  Mul 2546 1881; Add 2455 2551; Mul 2546 1882; Add 2457 2553; Mul 2546 340; Add 2544 2555; Add 2545 2546;
  Mul 497 502; Sub 1937 4; Mul 2558 2559; AndEqz 181 2560; Mul 2558 341; Add 2550 2561; Mul 2558 360; Add 2542 2563;
  Mul 2558 1881; Add 2552 2565; Mul 2558 1882; Add 2554 2567; Mul 2558 405; Add 2556 2569; Add 2557 2558;
  Sub 2571 410; AndEqz 182 2572; Sub 2541 1869; AndEqz 183 2573; Sub 2564 1865; AndEqz 184 2574; Sub 2562 490;
  AndEqz 185 2575; Sub 1803 490; AndEqz 186 2576; Sub 2570 507; AndEqz 187 2577; Sub 2566 505; AndEqz 188 2578;
  Sub 2568 506; AndEqz 189 2579; Sub 432 431; Mul 2580 402; Mul 901 2581; Add 1522 2582; Sub 871 2583; Mul 474 402;
  Add 473 2585; Mul 475 399; Add 2586 2587; Mul 476 408; Add 2588 2589; Mul 477 401; Add 2590 2591; Mul 881 399;
  Add 2593 409; Mul 891 431; Add 2594 2595; Mul 901 434; Add 2596 2597; Mul 911 435; Add 2598 2599; Mul 921 436;
  Add 2600 2601; Mul 931 437; Add 2602 2603; Mul 941 2592; Add 2604 2605; Mul 951 1877; Add 2606 2607; Mul 961 1890;
  Add 2608 2609; Mul 971 505; Add 2610 2611; Mul 981 506; Add 2612 2613; Mul 991 507; Add 2614 2615; Sub 871 2616;
  Mul 1479 2584; Mul 2618 2617; Mul 2584 430; Mul 2617 1265; Add 2620 2621; Sub 2619 2622; AndEqz 190 2623;
  Sub 0 429; Mul 901 516; Add 1266 2625; Sub 871 2626; Mul 1499 1524; Mul 2628 2627; Mul 1524 2624; Mul 2627 2624;
  Add 2630 2631; Sub 2629 2632; AndEqz 191 2633; Sub 517 410; Mul 517 2634; AndEqz 192 2635; Sub 518 410;
  Mul 518 2636; AndEqz 193 2637; Mul 516 399; Mul 518 402; Add 2638 2639; Add 2640 517; Sub 2641 512;
  AndEqz 194 2642; Mul 901 519; Add 1266 2643; Sub 871 2644; Mul 511 398; Mul 2646 397; Sub 410 2646; Mul 2648 396;
  Add 2647 2649; Sub 2650 513; Sub 2651 519; AndEqz 195 2652; Mul 891 520; Add 1554 2653; Mul 901 521; Add 2654 2655;
  Mul 911 522; Add 2656 2657; Mul 921 523; Add 2658 2659; Sub 871 2660; Mul 650 413; Add 649 2662; Mul 651 412;
  Add 2663 2664; Mul 652 411; Add 2665 2666; Mul 2667 2645; Mul 2668 2661; Mul 2645 2624; Mul 2661 2624;
  Add 2670 2671; Sub 2669 2672; AndEqz 196 2673; Add 1506 2667; Mul 510 402; Mul 901 2675; Add 2654 2676;
  Add 2677 2657; Add 2678 2659; Sub 871 2679; Sub 2675 521; Sub 2681 410; Mul 901 2682; Add 1522 2683; Sub 871 2684;
  Mul 654 413; Add 653 2686; Mul 655 412; Add 2687 2688; Mul 656 411; Add 2689 2690; Mul 2691 2680; Mul 2692 2685;
  Mul 2680 2624; Mul 2685 429; Add 2694 2695; Sub 2693 2696; AndEqz 197 2697; Add 2674 2691; Mul 891 524;
  Add 1554 2699; Mul 901 525; Add 2700 2701; Mul 911 526; Add 2702 2703; Mul 921 527; Add 2704 2705; Sub 871 2706;
  Add 2700 2676; Add 2708 2703; Add 2709 2705; Sub 871 2710; Mul 658 413; Add 657 2712; Mul 659 412; Add 2713 2714;
  Mul 660 411; Add 2715 2716; Mul 2717 2707; Mul 2718 2711; Mul 2707 429; Mul 2711 2624; Add 2720 2721;
  Sub 2719 2722; AndEqz 198 2723; Add 2698 2717; Sub 2675 525; Sub 2725 410; Mul 901 2726; Add 1522 2727;
  Sub 871 2728; Mul 518 523; Sub 410 518; Mul 2731 522; Add 2730 2732; Mul 901 528; Add 1266 2734; Sub 871 2735;
  Mul 662 413; Add 661 2737; Mul 663 412; Add 2738 2739; Mul 664 411; Add 2740 2741; Mul 2742 2729; Mul 2743 2736;
  Mul 2729 2624; Mul 2736 2624; Add 2745 2746; Sub 2744 2747; AndEqz 199 2748; Add 2724 2742; Sub 529 410;
  Mul 529 2750; AndEqz 200 2751; Sub 530 410; Mul 530 2752; AndEqz 201 2753; Mul 528 399; Mul 530 402; Add 2754 2755;
  Add 2756 529; Sub 2757 2733; AndEqz 202 2758; Sub 531 410; Mul 531 2759; AndEqz 203 2760; Mul 531 402;
  Sub 399 2761; Mul 901 532; Add 1266 2763; Sub 871 2764; Sub 533 410; Mul 533 2766; AndEqz 204 2767; Mul 901 534;
  Add 1266 2768; Sub 871 2769; Mul 666 413; Add 665 2771; Mul 667 412; Add 2772 2773; Mul 668 411; Add 2774 2775;
  Mul 2776 2765; Mul 2777 2770; Mul 2765 2624; Mul 2770 2624; Add 2779 2780; Sub 2778 2781; AndEqz 205 2782;
  Add 2749 2776; Sub 535 410; Mul 535 2784; AndEqz 206 2785; Mul 533 407; Add 532 2786; Add 512 2762; Sub 2787 2788;
  AndEqz 207 2789; Mul 535 407].

(* L3020-3519 POLY_EXT_DEF.block *)
Definition block_6 : list Step := [
  Add 534 2790; Add 513 533; Sub 2791 2792; AndEqz 208 2793; Sub 536 410; Mul 536 2794; AndEqz 209 2795; Sub 537 410;
  Mul 537 2796; AndEqz 210 2797; Sub 538 410; Mul 538 2798; AndEqz 211 2799; Sub 539 410; Mul 539 2800;
  AndEqz 212 2801; Sub 540 410; Mul 540 2802; AndEqz 213 2803; Sub 541 410; Mul 541 2804; AndEqz 214 2805;
  Sub 542 410; Mul 542 2806; AndEqz 215 2807; Sub 543 410; Mul 543 2808; AndEqz 216 2809; Sub 544 410; Mul 544 2810;
  AndEqz 217 2811; Sub 545 410; Mul 545 2812; AndEqz 218 2813; Sub 546 410; Mul 546 2814; AndEqz 219 2815;
  Sub 547 410; Mul 547 2816; AndEqz 220 2817; Sub 548 410; Mul 548 2818; AndEqz 221 2819; Sub 549 410; Mul 549 2820;
  AndEqz 222 2821; Sub 550 410; Mul 550 2822; AndEqz 223 2823; Sub 551 410; Mul 551 2824; AndEqz 224 2825;
  Sub 552 410; Mul 552 2826; AndEqz 225 2827; Sub 553 410; Mul 553 2828; AndEqz 226 2829; Sub 554 410; Mul 554 2830;
  AndEqz 227 2831; Sub 555 410; Mul 555 2832; AndEqz 228 2833; Sub 556 410; Mul 556 2834; AndEqz 229 2835;
  Sub 557 410; Mul 557 2836; AndEqz 230 2837; Sub 558 410; Mul 558 2838; AndEqz 231 2839; Sub 559 410; Mul 559 2840;
  AndEqz 232 2841; Sub 560 410; Mul 560 2842; AndEqz 233 2843; Sub 561 410; Mul 561 2844; AndEqz 234 2845;
  Sub 562 410; Mul 562 2846; AndEqz 235 2847; Sub 563 410; Mul 563 2848; AndEqz 236 2849; Sub 564 410; Mul 564 2850;
  AndEqz 237 2851; Sub 565 410; Mul 565 2852; AndEqz 238 2853; Sub 566 410; Mul 566 2854; AndEqz 239 2855;
  Sub 567 410; Mul 567 2856; AndEqz 240 2857; Sub 569 410; Mul 569 2858; AndEqz 241 2859; Sub 570 410; Mul 570 2860;
  AndEqz 242 2861; Sub 571 410; Mul 571 2862; AndEqz 243 2863; Sub 572 410; Mul 572 2864; AndEqz 244 2865;
  Sub 573 410; Mul 573 2866; AndEqz 245 2867; Sub 574 410; Mul 574 2868; AndEqz 246 2869; Sub 575 410; Mul 575 2870;
  AndEqz 247 2871; Add 569 570; Add 2872 571; Add 2873 572; Add 2874 573; Add 2875 574; Add 2876 575; Sub 2877 410;
  AndEqz 248 2878; Sub 576 410; Mul 576 2879; AndEqz 249 2880; Sub 577 410; Mul 577 2881; AndEqz 250 2882;
  Sub 578 410; Mul 578 2883; AndEqz 251 2884; Sub 579 410; Mul 579 2885; AndEqz 252 2886; Sub 580 410; Mul 580 2887;
  AndEqz 253 2888; Sub 581 410; Mul 581 2889; AndEqz 254 2890; Sub 582 410; Mul 582 2891; AndEqz 255 2892;
  Add 576 577; Add 2893 578; Add 2894 579; Add 2895 580; Add 2896 581; Add 2897 582; Sub 2898 410; AndEqz 256 2899;
  Mul 513 394; Add 2900 516; Sub 2901 520; AndEqz 257 2902; Mul 529 530; Sub 410 2903; Sub 531 2904; AndEqz 258 2905;
  Add 2733 393; Add 2901 410; Mul 518 2907; Mul 2731 393; Add 2908 2909; Mul 531 2906; Sub 410 531; Mul 2912 2910;
  Add 2911 2913; Sub 2914 524; AndEqz 259 2915; Sub 532 514; AndEqz 260 2916; Sub 534 515; AndEqz 261 2917;
  Mul 531 526; Mul 2912 2733; Add 2918 2919; Mul 518 526; Mul 2731 523; Add 2921 2922; Mul 531 527; Mul 2912 2923;
  Add 2924 2925; Mul 537 402; Add 536 2927; Mul 538 399; Add 2928 2929; Mul 539 408; Add 2930 2931; Mul 540 401;
  Add 2932 2933; Mul 541 406; Add 2934 2935; Mul 542 392; Add 2936 2937; Mul 543 391; Add 2938 2939; Mul 544 403;
  Add 2940 2941; Mul 545 390; Add 2942 2943; Mul 546 389; Add 2944 2945; Mul 547 388; Add 2946 2947; Mul 548 387;
  Add 2948 2949; Mul 549 386; Add 2950 2951; Mul 550 394; Add 2952 2953; Mul 551 385; Add 2954 2955; Sub 2920 2956;
  AndEqz 262 2957; Mul 553 402; Add 552 2958; Mul 554 399; Add 2959 2960; Mul 555 408; Add 2961 2962; Mul 556 401;
  Add 2963 2964; Mul 557 406; Add 2965 2966; Mul 558 392; Add 2967 2968; Mul 559 391; Add 2969 2970; Mul 560 403;
  Add 2971 2972; Mul 561 390; Add 2973 2974; Mul 562 389; Add 2975 2976; Mul 563 388; Add 2977 2978; Mul 564 387;
  Add 2979 2980; Mul 565 386; Add 2981 2982; Mul 566 394; Add 2983 2984; Mul 567 385; Add 2985 2986; Sub 2926 2987;
  AndEqz 263 2988; Mul 562 402; Add 561 2989; Mul 563 399; Add 2990 2991; Mul 564 408; Add 2992 2993; Mul 565 401;
  Add 2994 2995; Mul 566 406; Add 2996 2997; Mul 567 392; Add 2998 2999; Mul 549 402; Add 548 3001; Mul 550 399;
  Add 3002 3003; Mul 557 402; Add 556 3005; Mul 558 399; Add 3006 3007; Mul 559 408; Add 3008 3009; Mul 560 401;
  Add 3010 3011; Mul 567 384; Mul 3000 406; Add 3013 3014; Add 3015 3012; Mul 567 397; Mul 544 402; Add 543 3018;
  Mul 545 399; Add 3019 3020; Mul 546 408; Add 3021 3022; Mul 547 401; Add 3023 3024; Add 3015 3025; Mul 545 402;
  Add 544 3027; Mul 546 399; Add 3028 3029; Mul 547 408; Add 3030 3031; Mul 543 388; Add 3013 3033; Mul 2998 406;
  Add 3034 3035; Mul 3032 402; Add 3036 3037; Mul 558 402; Add 557 3039; Mul 559 399; Add 3040 3041; Mul 560 408;
  Add 3042 3043; Mul 561 401; Add 3044 3045; Mul 562 406; Add 3046 3047; Mul 563 392; Add 3048 3049; Mul 564 391;
  Add 3050 3051; Mul 565 403; Add 3052 3053; Mul 566 390; Add 3054 3055; Mul 551 408; Add 3004 3057; Mul 3058 387;
  Mul 556 388; Add 3059 3060; Mul 3056 402; Add 3061 3062; Mul 567 383; Add 3064 2963; Mul 3004 387; Add 2955 3066;
  Mul 569 576; Mul 3004 391; Add 2938 3069; Mul 3000 389; Add 3070 3071; Sub 3072 382; Mul 3068 3073;
  AndEqz 264 3074; Mul 3068 382; Mul 569 577; Sub 3072 40; Mul 3076 3077; AndEqz 265 3078; Mul 3076 382;
  Add 3075 3079; Mul 3076 406; Mul 3076 381; Add 3068 3076; Mul 569 578; Sub 3072 39; Mul 3084 3085; AndEqz 266 3086;
  Mul 3084 382; Add 3080 3087; Mul 3084 399; Mul 3084 380; Add 3082 3090; Add 3083 3084; Mul 569 579; Sub 3072 38;
  Mul 3093 3094; AndEqz 267 3095; Mul 3093 382; Add 3088 3096; Mul 3093 395; Add 3089 3098; Mul 3093 379;
  Add 3091 3100; Add 3092 3093; Mul 569 580; Sub 3072 37; Mul 3103 3104; AndEqz 268 3105; Mul 3103 382;
  Add 3097 3106; Mul 3103 400; Add 3099 3108; Mul 3103 378; Add 3101 3110; Add 3102 3103; Mul 569 581; Sub 3072 36;
  Mul 3113 3114; AndEqz 269 3115; Mul 3113 382; Add 3107 3116; Add 3109 3113; Mul 3113 377; Add 3111 3119;
  Add 3112 3113; Mul 569 582; Sub 3072 35; Mul 3122 3123; AndEqz 270 3124; Mul 3122 382; Add 3117 3125; Mul 3122 376;
  Add 3118 3127; Mul 3122 375; Add 3120 3129; Add 3121 3122; Mul 570 576; Sub 3072 34; Mul 3132 3133;
  AndEqz 271 3134; Mul 3132 382; Add 3126 3135; Mul 3132 376; Add 3128 3137; Mul 3132 406; Add 3081 3139;
  Mul 3132 374; Add 3130 3141; Add 3131 3132; Mul 570 577; Sub 3072 33; Mul 3144 3145; AndEqz 272 3146; Mul 3144 382;
  Add 3136 3147; Mul 3144 402; Add 3138 3149; Mul 3144 373; Add 3142 3151; Add 3143 3144; Mul 570 578; Sub 3072 32;
  Mul 3154 3155; AndEqz 273 3156; Mul 3154 382; Add 3148 3157; Mul 3154 372; Add 3150 3159; Mul 3154 371;
  Add 3152 3161; Add 3153 3154; Mul 570 579; Add 3071 370; Sub 3072 3165; Mul 3164 3166; AndEqz 274 3167;
  Mul 3164 370; Add 3158 3168; Mul 3164 3000; Add 3140 3170; Mul 3164 3016; Mul 3164 3017; Add 3162 3164;
  Add 3163 3164; Mul 570 580; Add 3071 31; Sub 3072 3177; Mul 3176 3178; AndEqz 275 3179; Mul 3176 370;
  Add 3169 3180; Mul 3176 399; Add 3160 3182; Mul 3176 3000; Add 3171 3184; Mul 3176 3016; Add 3172 3186;
  Mul 3176 3017; Add 3173 3188; Mul 3176 369; Add 3174 3190; Add 3175 3176; Mul 570 581; Add 3071 30; Sub 3072 3194;
  Mul 3193 3195; AndEqz 276 3196; Mul 3193 370; Add 3181 3197; Mul 3193 395; Add 3183 3199; Mul 3193 3000;
  Add 3185 3201; Mul 3193 3016; Add 3187 3203; Mul 3193 3017; Add 3189 3205; Mul 3193 368; Add 3191 3207;
  Add 3192 3193; Mul 570 582; Add 3071 29; Sub 3072 3211; Mul 3210 3212; AndEqz 277 3213; Mul 3210 370;
  Add 3198 3214; Mul 3210 400; Add 3200 3216; Mul 3210 3000; Add 3202 3218; Mul 3210 3016].

(* L3520-4019 POLY_EXT_DEF.block *)
Definition block_7 : list Step := [
  Add 3204 3220; Mul 3210 3017; Add 3206 3222; Mul 3210 367; Add 3208 3224; Add 3209 3210; Mul 571 576; Sub 3072 28;
  Mul 3227 3228; AndEqz 278 3229; Mul 3227 370; Add 3215 3230; Add 3217 3227; Mul 3227 3012; Add 3221 3233;
  Mul 3227 366; Add 3225 3235; Add 3226 3227; Mul 571 577; Sub 3072 27; Mul 3238 3239; AndEqz 279 3240; Mul 3238 370;
  Add 3231 3241; Mul 3238 376; Add 3232 3243; Mul 3238 3012; Add 3234 3245; Mul 3238 365; Add 3236 3247;
  Add 3237 3238; Mul 571 578; Sub 3072 26; Mul 3250 3251; AndEqz 280 3252; Mul 3250 370; Add 3242 3253; Mul 3250 376;
  Add 3244 3255; Mul 3250 406; Add 3219 3257; Mul 3250 3012; Add 3246 3259; Mul 3250 364; Add 3248 3261;
  Add 3249 3250; Mul 571 579; Add 3071 25; Sub 3072 3265; Mul 3264 3266; AndEqz 281 3267; Mul 3264 370;
  Add 3254 3268; Mul 3264 402; Add 3256 3270; Mul 3264 3000; Add 3258 3272; Mul 3264 3016; Add 3260 3274;
  Mul 3264 3017; Add 3223 3276; Mul 3264 363; Add 3262 3278; Add 3263 3264; Mul 571 580; Add 3071 24; Sub 3072 3282;
  Mul 3281 3283; AndEqz 282 3284; Mul 3281 370; Add 3269 3285; Mul 3281 372; Add 3271 3287; Mul 3281 3000;
  Add 3273 3289; Mul 3281 3016; Add 3275 3291; Mul 3281 3017; Add 3277 3293; Mul 3281 362; Add 3279 3295;
  Add 3280 3281; Mul 571 581; Add 3071 372; Sub 3072 3299; Mul 3298 3300; AndEqz 283 3301; Mul 3298 372;
  Add 3286 3302; Mul 3298 3000; Add 3290 3304; Mul 3298 3016; Add 3292 3306; Mul 3298 3017; Add 3294 3308;
  Mul 3298 402; Add 3296 3310; Add 3297 3298; Mul 571 582; Add 3071 23; Sub 3072 3314; Mul 3313 3315;
  AndEqz 284 3316; Mul 3313 372; Add 3303 3317; Add 3288 3313; Mul 3313 3000; Add 3305 3320; Mul 3313 3016;
  Add 3307 3322; Mul 3313 3017; Add 3309 3324; Mul 3313 361; Add 3311 3326; Add 3312 3313; Mul 572 576; Add 3071 22;
  Sub 3072 3330; Mul 3329 3331; AndEqz 285 3332; Mul 3329 372; Add 3318 3333; Mul 3329 402; Add 3319 3335;
  Mul 3329 3000; Add 3321 3337; Mul 3329 3016; Add 3323 3339; Mul 3329 3017; Add 3325 3341; Mul 3329 360;
  Add 3327 3343; Add 3328 3329; Mul 572 577; Add 3071 21; Sub 3072 3347; Mul 3346 3348; AndEqz 286 3349;
  Mul 3346 372; Add 3334 3350; Mul 3346 399; Add 3336 3352; Mul 3346 3000; Add 3338 3354; Mul 3346 3016;
  Add 3340 3356; Mul 3346 3017; Add 3342 3358; Mul 3346 359; Add 3344 3360; Add 3345 3346; Mul 572 578; Add 3071 20;
  Sub 3072 3364; Mul 3363 3365; AndEqz 287 3366; Mul 3363 372; Add 3351 3367; Mul 3363 376; Add 3353 3369;
  Mul 3363 3000; Add 3355 3371; Mul 3363 3016; Add 3357 3373; Mul 3363 3017; Add 3359 3375; Mul 3363 358;
  Add 3361 3377; Add 3362 3363; Mul 572 579; Add 3071 359; Sub 3072 3381; Mul 3380 3382; AndEqz 288 3383;
  Mul 3380 359; Add 3368 3384; Mul 3380 3000; Add 3372 3386; Mul 3380 3026; Add 3374 3388; Mul 3380 3017;
  Add 3376 3390; Mul 3380 372; Add 3378 3392; Add 3379 3380; Mul 572 580; Add 3071 19; Sub 3072 3396; Mul 3395 3397;
  AndEqz 289 3398; Mul 3395 359; Add 3385 3399; Add 3370 3395; Mul 3395 3000; Add 3387 3402; Mul 3395 3026;
  Add 3389 3404; Mul 3395 3017; Add 3391 3406; Mul 3395 357; Add 3393 3408; Add 3394 3395; Mul 572 581; Add 3071 18;
  Sub 3072 3412; Mul 3411 3413; AndEqz 290 3414; Mul 3411 359; Add 3400 3415; Mul 3411 402; Add 3401 3417;
  Mul 3411 3000; Add 3403 3419; Mul 3411 3026; Add 3405 3421; Mul 3411 3017; Add 3407 3423; Mul 3411 356;
  Add 3409 3425; Add 3410 3411; Mul 572 582; Add 3071 355; Sub 3072 3429; Mul 3428 3430; AndEqz 291 3431;
  Mul 3428 355; Add 3416 3432; Mul 3428 3000; Add 3420 3434; Mul 3428 3038; Add 3422 3436; Mul 3428 3017;
  Add 3424 3438; Mul 3428 354; Add 3426 3440; Add 3427 3428; Mul 573 576; Add 3071 17; Sub 3072 3444; Mul 3443 3445;
  AndEqz 292 3446; Mul 3443 355; Add 3433 3447; Add 3418 3443; Mul 3443 3000; Add 3435 3450; Mul 3443 3038;
  Add 3437 3452; Mul 3443 3017; Add 3439 3454; Mul 3443 353; Add 3441 3456; Add 3442 3443; Mul 573 577; Add 3071 16;
  Sub 3072 3460; Mul 3459 3461; AndEqz 293 3462; Mul 3459 355; Add 3448 3463; Mul 3459 399; Add 3449 3465;
  Mul 3459 3000; Add 3451 3467; Mul 3459 3038; Add 3453 3469; Mul 3459 3017; Add 3455 3471; Mul 3459 352;
  Add 3457 3473; Add 3458 3459; Mul 573 578; Add 3071 15; Sub 3072 3477; Mul 3476 3478; AndEqz 294 3479;
  Mul 3476 355; Add 3464 3480; Mul 3476 376; Add 3466 3482; Mul 3476 3000; Add 3468 3484; Mul 3476 3038;
  Add 3470 3486; Mul 3476 3017; Add 3472 3488; Mul 3476 351; Add 3474 3490; Add 3475 3476; Mul 573 579; Add 3071 14;
  Sub 3072 3494; Mul 3493 3495; AndEqz 295 3496; Mul 3493 355; Add 3481 3497; Mul 3493 395; Add 3483 3499;
  Mul 3493 3000; Add 3485 3501; Mul 3493 3038; Add 3487 3503; Mul 3493 3017; Add 3489 3505; Mul 3493 350;
  Add 3491 3507; Add 3492 3493; Mul 573 580; Add 3071 13; Sub 3072 3511; Mul 3510 3512; AndEqz 296 3513;
  Mul 3510 355; Add 3498 3514; Mul 3510 400; Add 3500 3516; Mul 3510 3000; Add 3502 3518; Mul 3510 3038;
  Add 3504 3520; Mul 3510 3017; Add 3506 3522; Mul 3510 349; Add 3508 3524; Add 3509 3510; Mul 573 581; Add 3069 366;
  Add 3528 3071; Sub 3072 3529; Mul 3527 3530; AndEqz 297 3531; Mul 3527 366; Add 3515 3532; Mul 3527 3004;
  Add 3517 3534; Mul 3527 3000; Add 3519 3536; Mul 3527 3063; Add 3521 3538; Mul 3527 3065; Add 3523 3540;
  Mul 3527 376; Add 3525 3542; Add 3526 3527; Mul 573 582; Add 3071 352; Sub 3072 3546; Mul 3545 3547;
  AndEqz 298 3548; Mul 3545 352; Add 3533 3549; Mul 3545 3000; Add 3537 3551; Mul 3545 3016; Add 3539 3553;
  Mul 3545 3017; Add 3541 3555; Mul 3545 395; Add 3543 3557; Add 3544 3545; Mul 574 576; Add 3069 371; Add 3561 3071;
  Sub 3072 3562; Mul 3560 3563; AndEqz 299 3564; Mul 3560 371; Add 3550 3565; Mul 3560 3004; Add 3535 3567;
  Mul 3560 3000; Add 3552 3569; Mul 3560 3067; Add 3554 3571; Mul 3560 2987; Add 3556 3573; Mul 3560 400;
  Add 3558 3575; Add 3559 3560; Mul 574 577; Add 3069 369; Add 3579 3071; Sub 3072 3580; Mul 3578 3581;
  AndEqz 300 3582; Mul 3578 369; Add 3566 3583; Mul 3578 3004; Add 3568 3585; Mul 3578 3000; Add 3570 3587;
  Mul 3578 3067; Add 3572 3589; Mul 3578 2987; Add 3574 3591; Mul 3578 408; Add 3576 3593; Add 3577 3578;
  Mul 574 578; Sub 3072 12; Mul 3596 3597; AndEqz 301 3598; Mul 3596 382; Add 3584 3599; Add 3588 3596; Mul 3596 348;
  Add 3594 3602; Add 3595 3596; Mul 574 579; Sub 3072 11; Mul 3605 3606; AndEqz 302 3607; Mul 3605 382;
  Add 3600 3608; Add 3586 3605; Add 3601 3605; Mul 3605 347; Add 3603 3612; Add 3604 3605; Mul 574 580; Sub 3072 10;
  Mul 3615 3616; AndEqz 303 3617; Mul 3615 382; Add 3609 3618; Mul 3615 402; Add 3610 3620; Add 3611 3615;
  Mul 3615 346; Add 3613 3623; Add 3614 3615; Mul 574 581; Sub 3072 9; Mul 3626 3627; AndEqz 304 3628; Mul 3626 382;
  Add 3619 3629; Mul 3626 372; Add 3621 3631; Add 3622 3626; Mul 3626 345; Add 3624 3634; Add 3625 3626; Mul 574 582;
  Sub 3072 8; Mul 3637 3638; AndEqz 305 3639; Mul 3637 382; Add 3630 3640; Mul 3637 399; Add 3632 3642;
  Add 3633 3637; Mul 3637 344; Add 3635 3645; Add 3636 3637; Mul 575 576; Sub 3072 7; Mul 3648 3649; AndEqz 306 3650;
  Mul 3648 382; Add 3641 3651; Mul 3648 376; Add 3643 3653; Add 3644 3648; Mul 3648 343; Add 3646 3656;
  Add 3647 3648; Mul 575 577; Sub 3072 6; Mul 3659 3660; AndEqz 307 3661; Mul 3659 382; Add 3652 3662; Mul 3659 395;
  Add 3654 3664; Add 3655 3659; Mul 3659 342; Add 3657 3667; Add 3658 3659; Mul 575 578; Sub 3072 5; Mul 3670 3671;
  AndEqz 308 3672; Mul 3670 382; Add 3663 3673; Mul 3670 400; Add 3665 3675; Add 3666 3670; Mul 3670 355;
  Add 3668 3678; Add 3669 3670; Mul 575 579; Sub 3072 341; Mul 3681 3682; AndEqz 309 3683; Mul 3681 341;
  Add 3674 3684; Mul 3681 3016; Add 3590 3686; Mul 3681 3017].

(* L4020-4519 POLY_EXT_DEF.block *)
Definition block_8 : list Step := [
  Add 3592 3688; Mul 3681 340; Add 3679 3690; Add 3680 3681; Mul 575 580; Sub 3072 4; Mul 3693 3694; AndEqz 310 3695;
  Mul 3693 341; Add 3685 3696; Mul 3693 360; Add 3677 3698; Mul 3693 3016; Add 3687 3700; Mul 3693 3017;
  Add 3689 3702; Mul 3693 405; Add 3691 3704; Add 3692 3693; Sub 3706 410; AndEqz 311 3707; Sub 3676 3004;
  AndEqz 312 3708; Sub 3699 3000; AndEqz 313 3709; Sub 3697 568; AndEqz 314 3710; Sub 2938 568; AndEqz 315 3711;
  Sub 3705 585; AndEqz 316 3712; Sub 3701 583; AndEqz 317 3713; Sub 3703 584; AndEqz 318 3714; Sub 510 509;
  Mul 3715 402; Mul 901 3716; Add 1522 3717; Sub 871 3718; Mul 552 402; Add 551 3720; Mul 553 399; Add 3721 3722;
  Mul 554 408; Add 3723 3724; Mul 555 401; Add 3725 3726; Mul 891 509; Add 2594 3728; Mul 901 512; Add 3729 3730;
  Mul 911 513; Add 3731 3732; Mul 921 514; Add 3733 3734; Mul 931 515; Add 3735 3736; Mul 941 3727; Add 3737 3738;
  Mul 951 3012; Add 3739 3740; Mul 961 3025; Add 3741 3742; Mul 971 583; Add 3743 3744; Mul 981 584; Add 3745 3746;
  Mul 991 585; Add 3747 3748; Sub 871 3749; Mul 670 413; Add 669 3751; Mul 671 412; Add 3752 3753; Mul 672 411;
  Add 3754 3755; Mul 3756 3719; Mul 3757 3750; Mul 3719 508; Mul 3750 2624; Add 3759 3760; Sub 3758 3761;
  AndEqz 319 3762; Add 2783 3756; Add 1518 3763; Sub 1512 3764; AndEqz 320 3765; Mul 414 421; AndCond 62 3766 321;
  Mul 891 429; Add 1554 3767; Mul 901 430; Add 3768 3769; Mul 911 431; Add 3770 3771; Mul 921 432; Add 3772 3773;
  Sub 871 3774; Mul 901 402; Add 3768 3776; Add 3777 3771; Add 3778 3773; Sub 871 3779; Mul 1278 3775; Mul 3781 3780;
  Mul 3775 428; Mul 3780 1265; Add 3783 3784; Sub 3782 3785; AndEqz 0 3786; Sub 402 430; Sub 3787 410; Mul 901 3788;
  Add 1522 3789; Sub 871 3790; Mul 891 433; Add 1554 3792; Add 3793 2597; Add 3794 2599; Add 3795 2601; Sub 871 3796;
  Mul 1297 3791; Mul 3798 3797; Mul 3791 1265; Mul 3797 1265; Add 3800 3801; Sub 3799 3802; AndEqz 323 3803;
  Add 3793 3776; Add 3804 2599; Add 3805 2601; Sub 871 3806; Sub 402 434; Sub 3808 410; Mul 901 3809; Add 1522 3810;
  Sub 871 3811; Mul 1391 3807; Mul 3813 3812; Mul 3807 1265; Mul 3812 428; Add 3815 3816; Sub 3814 3817;
  AndEqz 324 3818; Mul 891 437; Add 1554 3819; Add 3820 1525; Mul 911 439; Add 3821 3822; Mul 921 440; Add 3823 3824;
  Sub 871 3825; Add 3820 3776; Add 3827 3822; Add 3828 3824; Sub 871 3829; Mul 1411 3826; Mul 3831 3830;
  Mul 3826 428; Mul 3830 1265; Add 3833 3834; Sub 3832 3835; AndEqz 325 3836; Sub 402 438; Sub 3837 410;
  Mul 901 3838; Add 1522 3839; Sub 871 3840; Mul 891 441; Add 1554 3842; Mul 901 442; Add 3843 3844; Mul 911 443;
  Add 3845 3846; Mul 921 444; Add 3847 3848; Sub 871 3849; Mul 1430 3841; Mul 3851 3850; Mul 3841 1265;
  Mul 3850 1265; Add 3853 3854; Sub 3852 3855; AndEqz 326 3856; Mul 901 372; Add 3843 3857; Mul 911 445;
  Add 3858 3859; Mul 921 446; Add 3860 3861; Sub 871 3862; Sub 372 442; Sub 3864 410; Mul 901 3865; Add 1522 3866;
  Sub 871 3867; Mul 1451 3863; Mul 3869 3868; Mul 3863 1265; Mul 3868 428; Add 3871 3872; Sub 3870 3873;
  AndEqz 327 3874; AndEqz 328 432; Sub 431 410; Mul 431 3875; AndEqz 329 3876; Sub 410 431; Sub 861 3877;
  AndEqz 330 3878; AndEqz 331 440; Mul 861 372; Sub 410 861; Add 3879 3880; Mul 439 3881; Sub 3882 410;
  Mul 3882 3883; Sub 3882 372; Mul 3884 3885; AndEqz 332 3886; AndEqz 333 446; Sub 445 372; AndEqz 334 3887;
  Sub 429 339; AndEqz 335 3888; Mul 861 338; Mul 3880 337; Add 3889 3890; Sub 433 3891; AndEqz 336 3892; Mul 861 336;
  Mul 3880 335; Add 3893 3894; Sub 437 3895; AndEqz 337 3896; Mul 861 334; Mul 3880 333; Add 3897 3898; Sub 441 3899;
  AndEqz 338 3900; Add 1460 1438; Mul 901 435; Add 3901 3902; Mul 911 436; Add 3903 3904; Mul 921 3882;
  Add 3905 3906; Add 3907 931; Sub 871 3908; Mul 1480 3909; Mul 1466 428; Mul 3909 1265; Add 3911 3912;
  Sub 3910 3913; AndEqz 339 3914; Mul 891 332; Add 1554 3915; Add 3916 409; Mul 911 845; Add 3917 3918; Mul 921 846;
  Add 3919 3920; Sub 871 3921; Mul 1499 3922; Mul 3923 331; Sub 3924 409; AndEqz 340 3925; AndEqz 341 1520;
  Mul 414 422; AndCond 322 3926 342; Add 1554 2595; Mul 901 432; Add 3927 3928; Mul 911 433; Add 3929 3930;
  Mul 921 434; Add 3931 3932; Sub 871 3933; Mul 429 402; Add 3935 410; Mul 901 3936; Add 3927 3937; Add 3938 2599;
  Add 3939 2601; Sub 871 3940; Mul 1278 3934; Mul 3942 3941; Mul 3934 428; Mul 3941 1265; Add 3944 3945;
  Sub 3943 3946; AndEqz 0 3947; Sub 3936 432; Sub 3948 410; Mul 901 3949; Add 1522 3950; Sub 871 3951; Mul 1297 3952;
  Mul 3953 3826; Mul 3952 1265; Mul 3826 1265; Add 3955 3956; Sub 3954 3957; AndEqz 344 3958; Add 3820 3937;
  Mul 911 441; Add 3959 3960; Mul 921 442; Add 3961 3962; Sub 871 3963; Sub 3936 438; Sub 3965 410; Mul 901 3966;
  Add 1522 3967; Sub 871 3968; Mul 1391 3964; Mul 3970 3969; Mul 3964 1265; Mul 3969 428; Add 3972 3973;
  Sub 3971 3974; AndEqz 345 3975; AndEqz 346 824; AndEqz 347 442; Sub 431 3891; AndEqz 348 3976; AndEqz 349 3896;
  Mul 441 3881; Add 1460 3767; Add 3978 3902; Add 3979 3904; Mul 921 3977; Add 3980 3981; Mul 931 430; Add 3982 3983;
  Sub 871 3984; Add 429 410; Mul 891 3986; Add 1460 3987; Add 3988 409; Add 3989 409; Add 3990 409; Add 3991 409;
  Sub 871 3992; Mul 1411 3985; Mul 3994 3993; Mul 3985 428; Mul 3993 1265; Add 3996 3997; Sub 3995 3998;
  AndEqz 350 3999; Add 1518 1418; Sub 1512 4000; AndEqz 351 4001; Mul 414 423; AndCond 343 4002 352; Sub 433 435;
  Mul 4003 402; Mul 901 4004; Add 1522 4005; Sub 871 4006; Sub 441 410; Mul 441 4008; AndEqz 0 4009; Mul 1278 4007;
  Mul 4010 1563; Mul 4007 1265; Add 4012 1567; Sub 4011 4013; AndEqz 354 4014; Mul 433 402; Mul 901 4015;
  Add 1556 4016; Add 4017 1559; Add 4018 1561; Sub 871 4019; Sub 4015 443; Sub 4021 410; Mul 901 4022; Add 1522 4023;
  Sub 871 4024; Mul 1297 4020; Mul 4026 4025; Mul 4020 1265; Mul 4025 428; Add 4028 4029; Sub 4027 4030;
  AndEqz 355 4031; Add 1587 4016; Add 4032 1590; Add 4033 1592; Sub 871 4034; Mul 1391 1594; Mul 4036 4035;
  Mul 4035 1265; Add 1601 4038; Sub 4037 4039; AndEqz 356 4040; Sub 4015 447; Sub 4041 410; Mul 901 4042;
  Add 1522 4043; Sub 871 4044; Sub 436 410; Mul 436 4046; Mul 4047 330; Mul 4048 329; Sub 410 4048; Mul 4050 328;
  Add 4049 4051; Add 4052 450; Sub 4053 442; AndEqz 357 4054; Mul 441 392; Add 4052 4055; Add 4056 451; Sub 4057 446;
  AndEqz 358 4058; Sub 450 451; Mul 441 4059; AndEqz 359 4060; Mul 441 444; Sub 410 441; Mul 4062 448; Add 4061 4063;
  Sub 4064 452; AndEqz 360 4065; Mul 441 445; Mul 4062 449; Add 4066 4067; Sub 4068 453; AndEqz 361 4069;
  Mul 891 454; Add 1554 4070; Mul 901 455; Add 4071 4072; Mul 911 456; Add 4073 4074; Mul 921 457; Add 4075 4076;
  Sub 871 4077; Mul 1411 4045; Mul 4079 4078; Mul 4045 1265; Mul 4078 1265; Add 4081 4082; Sub 4080 4083;
  AndEqz 362 4084; Add 4015 410; Mul 901 4085; Add 4071 4086; Mul 911 458; Add 4087 4088; Mul 921 459; Add 4089 4090;
  Sub 871 4091; Sub 4085 455; Sub 4093 410; Mul 901 4094; Add 1522 4095; Sub 871 4096; Mul 1430 4092; Mul 4098 4097;
  Mul 4092 1265; Mul 4097 428; Add 4100 4101; Sub 4099 4102; AndEqz 363 4103; AndEqz 364 1666; Mul 460 462;
  Sub 410 461; Sub 4104 4105; AndEqz 365 4106; Mul 461 460; AndEqz 366 4107; Mul 461 462; AndEqz 367 4108;
  Mul 461 392; Add 4052 4109; Add 4110 460; Sub 4111 454; AndEqz 368 4112; AndEqz 369 1672; Mul 464 467; Sub 410 464;
  Mul 4114 465; Add 4113 4115; Mul 464 468; Mul 4114 466; Add 4117 4118; Sub 4116 458; AndEqz 370 4120; Sub 4119 459;
  AndEqz 371 4121; Add 1460 3792; Add 4122 1369; Add 4123 1371; Add 4124 2601; Mul 931 434].

(* L4520-5019 POLY_EXT_DEF.block *)
Definition block_9 : list Step := [
  Add 4125 4126; Sub 871 4127; Add 433 410; Mul 891 4129; Add 1460 4130; Mul 901 439; Add 4131 4132; Mul 911 440;
  Add 4133 4134; Add 4135 2601; Add 4136 4126; Sub 871 4137; Mul 1451 4128; Mul 4139 4138; Mul 4128 428;
  Mul 4138 1265; Add 4141 4142; Sub 4140 4143; AndEqz 372 4144; Mul 881 376; Add 4145 409; Mul 891 463;
  Add 4146 4147; Mul 901 444; Add 4148 4149; Add 4150 3859; Mul 921 452; Add 4151 4152; Mul 931 453; Add 4153 4154;
  Mul 941 465; Add 4155 4156; Mul 951 466; Add 4157 4158; Mul 961 467; Add 4159 4160; Mul 971 468; Add 4161 4162;
  Sub 871 4163; Mul 463 402; Add 4165 464; Mul 4166 327; Mul 891 434; Add 2594 4168; Add 4169 1369; Add 4170 1371;
  Add 4171 1373; Add 4172 1375; Mul 941 450; Add 4173 4174; Mul 951 451; Add 4175 4176; Mul 961 460; Add 4177 4178;
  Add 4179 409; Add 4180 409; Mul 991 4167; Add 4181 4182; Sub 871 4183; Mul 1479 4164; Mul 4185 4184; Mul 4164 1265;
  Mul 4184 1265; Add 4187 4188; Sub 4186 4189; AndEqz 373 4190; Sub 469 471; Mul 4191 402; Mul 901 4192;
  Add 1522 4193; Sub 871 4194; AndEqz 374 1698; Mul 891 478; Add 1554 4196; Mul 901 479; Add 4197 4198; Mul 911 480;
  Add 4199 4200; Mul 921 481; Add 4201 4202; Sub 871 4203; Mul 1499 4195; Mul 4205 4204; Mul 4195 2624;
  Mul 4204 2624; Add 4207 4208; Sub 4206 4209; AndEqz 375 4210; Mul 469 402; Mul 901 4211; Add 4197 4212;
  Add 4213 4200; Add 4214 4202; Sub 871 4215; Sub 4211 479; Sub 4217 410; Mul 901 4218; Add 1522 4219; Sub 871 4220;
  Mul 2667 4216; Mul 4222 4221; Mul 4216 2624; Mul 4221 429; Add 4224 4225; Sub 4223 4226; AndEqz 376 4227;
  Mul 891 482; Add 1554 4228; Mul 901 483; Add 4229 4230; Mul 911 484; Add 4231 4232; Mul 921 485; Add 4233 4234;
  Sub 871 4235; Add 4229 4212; Add 4237 4232; Add 4238 4234; Sub 871 4239; Mul 2691 4236; Mul 4241 4240;
  Mul 4236 429; Mul 4240 2624; Add 4243 4244; Sub 4242 4245; AndEqz 377 4246; Sub 4211 483; Sub 4247 410;
  Mul 901 4248; Add 1522 4249; Sub 871 4250; Mul 1688 330; Mul 4252 329; Sub 410 4252; Mul 4254 328; Add 4253 4255;
  Add 4256 486; Sub 4257 478; AndEqz 378 4258; Mul 477 392; Add 4256 4259; Add 4260 487; Sub 4261 482;
  AndEqz 379 4262; Sub 486 487; Mul 477 4263; AndEqz 380 4264; Mul 477 480; Sub 410 477; Mul 4266 484; Add 4265 4267;
  Sub 4268 488; AndEqz 381 4269; Mul 477 481; Mul 4266 485; Add 4270 4271; Sub 4272 489; AndEqz 382 4273;
  Mul 891 490; Add 1554 4274; Mul 901 491; Add 4275 4276; Mul 911 492; Add 4277 4278; Mul 921 493; Add 4279 4280;
  Sub 871 4281; Mul 2717 4251; Mul 4283 4282; Mul 4251 2624; Mul 4282 2624; Add 4285 4286; Sub 4284 4287;
  AndEqz 383 4288; Add 4211 410; Mul 901 4289; Add 4275 4290; Mul 911 494; Add 4291 4292; Mul 921 495; Add 4293 4294;
  Sub 871 4295; Sub 4289 491; Sub 4297 410; Mul 901 4298; Add 1522 4299; Sub 871 4300; Mul 2742 4296; Mul 4302 4301;
  Mul 4296 2624; Mul 4301 429; Add 4304 4305; Sub 4303 4306; AndEqz 384 4307; AndEqz 385 1736; Sub 410 497;
  Sub 2425 4308; AndEqz 386 4309; Mul 497 496; AndEqz 387 4310; AndEqz 388 2513; Mul 497 392; Add 4256 4311;
  Add 4312 496; Sub 4313 490; AndEqz 389 4314; AndEqz 390 1749; Mul 500 503; Sub 410 500; Mul 4316 501;
  Add 4315 4317; Mul 500 504; Mul 4316 502; Add 4319 4320; Sub 4318 494; AndEqz 391 4322; Sub 4321 495;
  AndEqz 392 4323; Mul 891 469; Add 1460 4324; Mul 901 473; Add 4325 4326; Mul 911 474; Add 4327 4328; Mul 921 472;
  Add 4329 4330; Mul 931 470; Add 4331 4332; Sub 871 4333; Add 469 410; Mul 891 4335; Add 1460 4336; Mul 901 475;
  Add 4337 4338; Mul 911 476; Add 4339 4340; Add 4341 4330; Add 4342 4332; Sub 871 4343; Mul 2776 4334;
  Mul 4345 4344; Mul 4334 429; Mul 4344 2624; Add 4347 4348; Sub 4346 4349; AndEqz 393 4350; Mul 891 499;
  Add 4146 4351; Mul 901 480; Add 4352 4353; Mul 911 481; Add 4354 4355; Mul 921 488; Add 4356 4357; Mul 931 489;
  Add 4358 4359; Mul 941 501; Add 4360 4361; Mul 951 502; Add 4362 4363; Mul 961 503; Add 4364 4365; Mul 971 504;
  Add 4366 4367; Sub 871 4368; Mul 499 402; Add 4370 500; Mul 4371 327; Mul 891 470; Add 2594 4373; Add 4374 4326;
  Add 4375 4328; Mul 921 475; Add 4376 4377; Mul 931 476; Add 4378 4379; Mul 941 486; Add 4380 4381; Mul 951 487;
  Add 4382 4383; Mul 961 496; Add 4384 4385; Add 4386 409; Add 4387 409; Mul 991 4372; Add 4388 4389; Sub 871 4390;
  Mul 3756 4369; Mul 4392 4391; Mul 4369 2624; Mul 4391 2624; Add 4394 4395; Sub 4393 4396; AndEqz 394 4397;
  Sub 505 507; Mul 4398 402; Sub 0 430; Mul 901 4399; Add 1522 4401; Sub 871 4402; Sub 513 410; Mul 513 4404;
  AndEqz 395 4405; Mul 891 514; Add 1554 4406; Mul 901 515; Add 4407 4408; Mul 911 516; Add 4409 4410; Mul 921 517;
  Add 4411 4412; Sub 871 4413; Mul 674 413; Add 673 4415; Mul 675 412; Add 4416 4417; Mul 676 411; Add 4418 4419;
  Mul 4420 4403; Mul 4421 4414; Mul 4403 4400; Mul 4414 4400; Add 4423 4424; Sub 4422 4425; AndEqz 396 4426;
  Add 3763 4420; Mul 505 402; Mul 901 4428; Add 4407 4429; Add 4430 4410; Add 4431 4412; Sub 871 4432; Sub 4428 515;
  Sub 4434 410; Mul 901 4435; Add 1522 4436; Sub 871 4437; Mul 678 413; Add 677 4439; Mul 679 412; Add 4440 4441;
  Mul 680 411; Add 4442 4443; Mul 4444 4433; Mul 4445 4438; Mul 4433 4400; Mul 4438 430; Add 4447 4448;
  Sub 4446 4449; AndEqz 397 4450; Add 4427 4444; Mul 891 518; Add 1554 4452; Add 4453 2643; Mul 911 520;
  Add 4454 4455; Mul 921 521; Add 4456 4457; Sub 871 4458; Add 4453 4429; Add 4460 4455; Add 4461 4457; Sub 871 4462;
  Mul 682 413; Add 681 4464; Mul 683 412; Add 4465 4466; Mul 684 411; Add 4467 4468; Mul 4469 4459; Mul 4470 4463;
  Mul 4459 430; Mul 4463 4400; Add 4472 4473; Sub 4471 4474; AndEqz 398 4475; Add 4451 4469; Sub 4428 519;
  Sub 4477 410; Mul 901 4478; Add 1522 4479; Sub 871 4480; Sub 508 410; Mul 508 4482; Mul 4483 330; Mul 4484 329;
  Sub 410 4484; Mul 4486 328; Add 4485 4487; Add 4488 522; Sub 4489 514; AndEqz 399 4490; Mul 513 392; Add 4488 4491;
  Add 4492 523; Sub 4493 518; AndEqz 400 4494; Sub 522 523; Mul 513 4495; AndEqz 401 4496; Mul 513 516; Sub 410 513;
  Mul 4498 520; Add 4497 4499; Sub 4500 524; AndEqz 402 4501; Mul 513 517; Mul 4498 521; Add 4502 4503; Sub 4504 525;
  AndEqz 403 4505; Mul 891 526; Add 1554 4506; Mul 901 527; Add 4507 4508; Mul 911 528; Add 4509 4510; Mul 921 529;
  Add 4511 4512; Sub 871 4513; Mul 686 413; Add 685 4515; Mul 687 412; Add 4516 4517; Mul 688 411; Add 4518 4519;
  Mul 4520 4481; Mul 4521 4514; Mul 4481 4400; Mul 4514 4400; Add 4523 4524; Sub 4522 4525; AndEqz 404 4526;
  Add 4476 4520; Add 4428 410; Mul 901 4528; Add 4507 4529; Mul 911 530; Add 4530 4531; Mul 921 531; Add 4532 4533;
  Sub 871 4534; Sub 4528 527; Sub 4536 410; Mul 901 4537; Add 1522 4538; Sub 871 4539; Mul 690 413; Add 689 4541;
  Mul 691 412; Add 4542 4543; Mul 692 411; Add 4544 4545; Mul 4546 4535; Mul 4547 4540; Mul 4535 4400; Mul 4540 430;
  Add 4549 4550; Sub 4548 4551; AndEqz 405 4552; Add 4527 4546; AndEqz 406 2767; Mul 532 534; Sub 410 533;
  Sub 4554 4555; AndEqz 407 4556; Mul 533 532; AndEqz 408 4557; Mul 533 534; AndEqz 409 4558; Mul 533 392;
  Add 4488 4559; Add 4560 532; Sub 4561 526; AndEqz 410 4562; AndEqz 411 2795; Mul 536 539; Sub 410 536;
  Mul 4564 537; Add 4563 4565; Mul 536 540; Mul 4564 538; Add 4567 4568; Sub 4566 530; AndEqz 412 4570; Sub 4569 531;
  AndEqz 413 4571; Mul 891 505; Add 1460 4572; Mul 901 509; Add 4573 4574; Mul 911 510; Add 4575 4576; Mul 921 508;
  Add 4577 4578; Mul 931 506; Add 4579 4580; Sub 871 4581; Add 505 410; Mul 891 4583].

(* L5020-5519 POLY_EXT_DEF.block *)
Definition block_10 : list Step := [
  Add 1460 4584; Mul 901 511; Add 4585 4586; Mul 911 512; Add 4587 4588; Add 4589 4578; Add 4590 4580; Sub 871 4591;
  Mul 694 413; Add 693 4593; Mul 695 412; Add 4594 4595; Mul 696 411; Add 4596 4597; Mul 4598 4582; Mul 4599 4592;
  Mul 4582 430; Mul 4592 4400; Add 4601 4602; Sub 4600 4603; AndEqz 414 4604; Add 4553 4598; Mul 891 535;
  Add 4146 4606; Add 4607 2625; Mul 911 517; Add 4608 4609; Mul 921 524; Add 4610 4611; Mul 931 525; Add 4612 4613;
  Mul 941 537; Add 4614 4615; Mul 951 538; Add 4616 4617; Mul 961 539; Add 4618 4619; Mul 971 540; Add 4620 4621;
  Sub 871 4622; Mul 535 402; Add 4624 536; Mul 4625 327; Mul 891 506; Add 2594 4627; Add 4628 4574; Add 4629 4576;
  Mul 921 511; Add 4630 4631; Mul 931 512; Add 4632 4633; Mul 941 522; Add 4634 4635; Mul 951 523; Add 4636 4637;
  Mul 961 532; Add 4638 4639; Add 4640 409; Add 4641 409; Mul 991 4626; Add 4642 4643; Sub 871 4644; Mul 698 413;
  Add 697 4646; Mul 699 412; Add 4647 4648; Mul 700 411; Add 4649 4650; Mul 4651 4623; Mul 4652 4645; Mul 4623 4400;
  Mul 4645 4400; Add 4654 4655; Sub 4653 4656; AndEqz 415 4657; Add 4605 4651; Sub 541 543; Mul 4659 402; Sub 0 431;
  Mul 901 4660; Add 1522 4662; Sub 871 4663; AndEqz 416 2821; Mul 891 550; Add 1554 4665; Mul 901 551; Add 4666 4667;
  Mul 911 552; Add 4668 4669; Mul 921 553; Add 4670 4671; Sub 871 4672; Mul 702 413; Add 701 4674; Mul 703 412;
  Add 4675 4676; Mul 704 411; Add 4677 4678; Mul 4679 4664; Mul 4680 4673; Mul 4664 4661; Mul 4673 4661;
  Add 4682 4683; Sub 4681 4684; AndEqz 417 4685; Add 4658 4679; Mul 541 402; Mul 901 4687; Add 4666 4688;
  Add 4689 4669; Add 4690 4671; Sub 871 4691; Sub 4687 551; Sub 4693 410; Mul 901 4694; Add 1522 4695; Sub 871 4696;
  Mul 706 413; Add 705 4698; Mul 707 412; Add 4699 4700; Mul 708 411; Add 4701 4702; Mul 4703 4692; Mul 4704 4697;
  Mul 4692 4661; Mul 4697 431; Add 4706 4707; Sub 4705 4708; AndEqz 418 4709; Add 4686 4703; Mul 891 554;
  Add 1554 4711; Mul 901 555; Add 4712 4713; Mul 911 556; Add 4714 4715; Mul 921 557; Add 4716 4717; Sub 871 4718;
  Add 4712 4688; Add 4720 4715; Add 4721 4717; Sub 871 4722; Mul 710 413; Add 709 4724; Mul 711 412; Add 4725 4726;
  Mul 712 411; Add 4727 4728; Mul 4729 4719; Mul 4730 4723; Mul 4719 431; Mul 4723 4661; Add 4732 4733;
  Sub 4731 4734; AndEqz 419 4735; Add 4710 4729; Sub 4687 555; Sub 4737 410; Mul 901 4738; Add 1522 4739;
  Sub 871 4740; Mul 2811 330; Mul 4742 329; Sub 410 4742; Mul 4744 328; Add 4743 4745; Add 4746 558; Sub 4747 550;
  AndEqz 420 4748; Mul 549 392; Add 4746 4749; Add 4750 559; Sub 4751 554; AndEqz 421 4752; Sub 558 559;
  Mul 549 4753; AndEqz 422 4754; Mul 549 552; Sub 410 549; Mul 4756 556; Add 4755 4757; Sub 4758 560;
  AndEqz 423 4759; Mul 549 553; Mul 4756 557; Add 4760 4761; Sub 4762 561; AndEqz 424 4763; Mul 891 562;
  Add 1554 4764; Mul 901 563; Add 4765 4766; Mul 911 564; Add 4767 4768; Mul 921 565; Add 4769 4770; Sub 871 4771;
  Mul 714 413; Add 713 4773; Mul 715 412; Add 4774 4775; Mul 716 411; Add 4776 4777; Mul 4778 4741; Mul 4779 4772;
  Mul 4741 4661; Mul 4772 4661; Add 4781 4782; Sub 4780 4783; AndEqz 425 4784; Add 4736 4778; Add 4687 410;
  Mul 901 4786; Add 4765 4787; Mul 911 566; Add 4788 4789; Mul 921 567; Add 4790 4791; Sub 871 4792; Sub 4786 563;
  Sub 4794 410; Mul 901 4795; Add 1522 4796; Sub 871 4797; Mul 718 413; Add 717 4799; Mul 719 412; Add 4800 4801;
  Mul 720 411; Add 4802 4803; Mul 4804 4793; Mul 4805 4798; Mul 4793 4661; Mul 4798 431; Add 4807 4808;
  Sub 4806 4809; AndEqz 426 4810; Add 4785 4804; AndEqz 427 2859; Mul 568 570; Sub 410 569; Sub 4812 4813;
  AndEqz 428 4814; Mul 569 568; AndEqz 429 4815; Mul 569 570; AndEqz 430 4816; Mul 569 392; Add 4746 4817;
  Add 4818 568; Sub 4819 562; AndEqz 431 4820; AndEqz 432 2865; Mul 572 575; Sub 410 572; Mul 4822 573;
  Add 4821 4823; Mul 4822 574; Add 3329 4825; Sub 4824 566; AndEqz 433 4827; Sub 4826 567; AndEqz 434 4828;
  Mul 891 541; Add 1460 4829; Mul 901 545; Add 4830 4831; Mul 911 546; Add 4832 4833; Mul 921 544; Add 4834 4835;
  Mul 931 542; Add 4836 4837; Sub 871 4838; Add 541 410; Mul 891 4840; Add 1460 4841; Mul 901 547; Add 4842 4843;
  Mul 911 548; Add 4844 4845; Add 4846 4835; Add 4847 4837; Sub 871 4848; Mul 722 413; Add 721 4850; Mul 723 412;
  Add 4851 4852; Mul 724 411; Add 4853 4854; Mul 4855 4839; Mul 4856 4849; Mul 4839 431; Mul 4849 4661;
  Add 4858 4859; Sub 4857 4860; AndEqz 435 4861; Add 4811 4855; Mul 891 571; Add 4146 4863; Mul 901 552;
  Add 4864 4865; Mul 911 553; Add 4866 4867; Mul 921 560; Add 4868 4869; Mul 931 561; Add 4870 4871; Mul 941 573;
  Add 4872 4873; Mul 951 574; Add 4874 4875; Mul 961 575; Add 4876 4877; Mul 971 576; Add 4878 4879; Sub 871 4880;
  Mul 571 402; Add 4882 572; Mul 4883 327; Mul 891 542; Add 2594 4885; Add 4886 4831; Add 4887 4833; Mul 921 547;
  Add 4888 4889; Mul 931 548; Add 4890 4891; Mul 941 558; Add 4892 4893; Mul 951 559; Add 4894 4895; Mul 961 568;
  Add 4896 4897; Add 4898 409; Add 4899 409; Mul 991 4884; Add 4900 4901; Sub 871 4902; Mul 726 413; Add 725 4904;
  Mul 727 412; Add 4905 4906; Mul 728 411; Add 4907 4908; Mul 4909 4881; Mul 4910 4903; Mul 4881 4661; Mul 4903 4661;
  Add 4912 4913; Sub 4911 4914; AndEqz 436 4915; Add 4862 4909; Sub 577 579; Mul 4917 402; Sub 0 432; Mul 901 4918;
  Add 1522 4920; Sub 871 4921; Sub 585 410; Mul 585 4923; AndEqz 437 4924; Mul 891 586; Add 1554 4925; Mul 901 587;
  Add 4926 4927; Mul 911 588; Add 4928 4929; Mul 921 589; Add 4930 4931; Sub 871 4932; Mul 730 413; Add 729 4934;
  Mul 731 412; Add 4935 4936; Mul 732 411; Add 4937 4938; Mul 4939 4922; Mul 4940 4933; Mul 4922 4919; Mul 4933 4919;
  Add 4942 4943; Sub 4941 4944; AndEqz 438 4945; Add 4916 4939; Mul 577 402; Mul 901 4947; Add 4926 4948;
  Add 4949 4929; Add 4950 4931; Sub 871 4951; Sub 4947 587; Sub 4953 410; Mul 901 4954; Add 1522 4955; Sub 871 4956;
  Mul 734 413; Add 733 4958; Mul 735 412; Add 4959 4960; Mul 736 411; Add 4961 4962; Mul 4963 4952; Mul 4964 4957;
  Mul 4952 4919; Mul 4957 432; Add 4966 4967; Sub 4965 4968; AndEqz 439 4969; Add 4946 4963; Mul 891 590;
  Add 1554 4971; Mul 901 591; Add 4972 4973; Mul 911 592; Add 4974 4975; Mul 921 593; Add 4976 4977; Sub 871 4978;
  Add 4972 4948; Add 4980 4975; Add 4981 4977; Sub 871 4982; Mul 738 413; Add 737 4984; Mul 739 412; Add 4985 4986;
  Mul 740 411; Add 4987 4988; Mul 4989 4979; Mul 4990 4983; Mul 4979 432; Mul 4983 4919; Add 4992 4993;
  Sub 4991 4994; AndEqz 440 4995; Add 4970 4989; Sub 4947 591; Sub 4997 410; Mul 901 4998; Add 1522 4999;
  Sub 871 5000; Mul 2888 330; Mul 5002 329; Sub 410 5002; Mul 5004 328; Add 5003 5005; Add 5006 594; Sub 5007 586;
  AndEqz 441 5008; Mul 585 392; Add 5006 5009; Add 5010 595; Sub 5011 590; AndEqz 442 5012; Sub 594 595;
  Mul 585 5013; AndEqz 443 5014; Mul 585 588; Sub 410 585; Mul 5016 592; Add 5015 5017; Sub 5018 596;
  AndEqz 444 5019; Mul 585 589; Mul 5016 593; Add 5020 5021; Sub 5022 597; AndEqz 445 5023; Mul 891 598;
  Add 1554 5024; Mul 901 599; Add 5025 5026; Mul 911 600; Add 5027 5028; Mul 921 601; Add 5029 5030; Sub 871 5031;
  Mul 742 413; Add 741 5033; Mul 743 412; Add 5034 5035; Mul 744 411; Add 5036 5037; Mul 5038 5001; Mul 5039 5032;
  Mul 5001 4919; Mul 5032 4919; Add 5041 5042; Sub 5040 5043; AndEqz 446 5044; Add 4996 5038; Add 4947 410;
  Mul 901 5046; Add 5025 5047; Mul 911 602; Add 5048 5049; Mul 921 603].

(* L5520-6019 POLY_EXT_DEF.block *)
Definition block_11 : list Step := [
  Add 5050 5051; Sub 871 5052; Sub 5046 599; Sub 5054 410; Mul 901 5055; Add 1522 5056; Sub 871 5057; Mul 746 413;
  Add 745 5059; Mul 747 412; Add 5060 5061; Mul 748 411; Add 5062 5063; Mul 5064 5053; Mul 5065 5058; Mul 5053 4919;
  Mul 5058 432; Add 5067 5068; Sub 5066 5069; AndEqz 447 5070; Add 5045 5064; Sub 605 410; Mul 605 5072;
  AndEqz 448 5073; Mul 604 606; Sub 410 605; Sub 5074 5075; AndEqz 449 5076; Mul 605 604; AndEqz 450 5077;
  Mul 605 606; AndEqz 451 5078; Mul 605 392; Add 5006 5079; Add 5080 604; Sub 5081 598; AndEqz 452 5082; Sub 608 410;
  Mul 608 5083; AndEqz 453 5084; Mul 608 611; Sub 410 608; Mul 5086 609; Add 5085 5087; Mul 608 612; Mul 5086 610;
  Add 5089 5090; Sub 5088 602; AndEqz 454 5092; Sub 5091 603; AndEqz 455 5093; Mul 891 577; Add 1460 5094;
  Mul 901 581; Add 5095 5096; Mul 911 582; Add 5097 5098; Mul 921 580; Add 5099 5100; Mul 931 578; Add 5101 5102;
  Sub 871 5103; Add 577 410; Mul 891 5105; Add 1460 5106; Mul 901 583; Add 5107 5108; Mul 911 584; Add 5109 5110;
  Add 5111 5100; Add 5112 5102; Sub 871 5113; Mul 750 413; Add 749 5115; Mul 751 412; Add 5116 5117; Mul 752 411;
  Add 5118 5119; Mul 5120 5104; Mul 5121 5114; Mul 5104 432; Mul 5114 4919; Add 5123 5124; Sub 5122 5125;
  AndEqz 456 5126; Add 5071 5120; Mul 891 607; Add 4146 5128; Mul 901 588; Add 5129 5130; Mul 911 589; Add 5131 5132;
  Mul 921 596; Add 5133 5134; Mul 931 597; Add 5135 5136; Mul 941 609; Add 5137 5138; Mul 951 610; Add 5139 5140;
  Mul 961 611; Add 5141 5142; Mul 971 612; Add 5143 5144; Sub 871 5145; Mul 607 402; Add 5147 608; Mul 5148 327;
  Mul 891 578; Add 2594 5150; Add 5151 5096; Add 5152 5098; Mul 921 583; Add 5153 5154; Mul 931 584; Add 5155 5156;
  Mul 941 594; Add 5157 5158; Mul 951 595; Add 5159 5160; Mul 961 604; Add 5161 5162; Add 5163 409; Add 5164 409;
  Mul 991 5149; Add 5165 5166; Sub 871 5167; Mul 754 413; Add 753 5169; Mul 755 412; Add 5170 5171; Mul 756 411;
  Add 5172 5173; Mul 5174 5146; Mul 5175 5168; Mul 5146 4919; Mul 5168 4919; Add 5177 5178; Sub 5176 5179;
  AndEqz 457 5180; Add 5127 5174; Add 1518 5181; Sub 1512 5182; AndEqz 458 5183; Mul 414 424; AndCond 353 5184 459;
  Mul 4010 3850; Add 4012 3854; Sub 5185 5186; AndEqz 0 5187; Add 3843 4016; Add 5188 3846; Add 5189 3848;
  Sub 871 5190; Sub 4015 442; Sub 5192 410; Mul 901 5193; Add 1522 5194; Sub 871 5195; Mul 1297 5191; Mul 5197 5196;
  Mul 5191 1265; Mul 5196 428; Add 5199 5200; Sub 5198 5201; AndEqz 461 5202; Add 1554 1491; Mul 901 446;
  Add 5203 5204; Mul 911 447; Add 5205 5206; Mul 921 448; Add 5207 5208; Sub 871 5209; Add 5203 4086; Mul 911 449;
  Add 5211 5212; Mul 921 450; Add 5213 5214; Sub 871 5215; Mul 1391 5210; Mul 5217 5216; Mul 5210 428; Mul 5216 1265;
  Add 5219 5220; Sub 5218 5221; AndEqz 462 5222; Sub 4085 446; Sub 5223 410; Mul 901 5224; Add 1522 5225;
  Sub 871 5226; Add 4052 451; Sub 5228 441; AndEqz 463 5229; Sub 454 410; Mul 454 5230; AndEqz 464 5231; Mul 453 455;
  Sub 410 454; Sub 5232 5233; AndEqz 465 5234; Mul 454 453; AndEqz 466 5235; Mul 454 455; AndEqz 467 5236;
  Mul 454 392; Add 4052 5237; Add 5238 453; Sub 5239 445; AndEqz 468 5240; AndEqz 469 1662; Mul 459 462; Sub 410 459;
  Mul 5242 460; Add 5241 5243; Mul 459 463; Mul 5242 461; Add 5245 5246; Sub 5244 449; AndEqz 470 5248; Sub 5247 450;
  AndEqz 471 5249; Mul 1411 5227; Mul 5250 4128; Mul 5227 1265; Mul 4128 1265; Add 5252 5253; Sub 5251 5254;
  AndEqz 472 5255; Mul 891 458; Add 4146 5256; Add 5257 1557; Add 5258 1559; Mul 921 456; Add 5259 5260; Mul 931 457;
  Add 5261 5262; Mul 941 460; Add 5263 5264; Mul 951 461; Add 5265 5266; Mul 961 462; Add 5267 5268; Mul 971 463;
  Add 5269 5270; Sub 871 5271; Mul 1430 4138; Mul 5273 5272; Mul 5272 428; Add 4142 5275; Sub 5274 5276;
  AndEqz 473 5277; Mul 458 402; Add 5278 459; Mul 5279 327; Add 5280 410; Mul 941 451; Add 4173 5282; Mul 951 452;
  Add 5283 5284; Mul 961 453; Add 5285 5286; Mul 971 456; Add 5287 5288; Mul 981 457; Add 5289 5290; Mul 991 5281;
  Add 5291 5292; Sub 871 5293; Sub 464 466; Mul 5295 402; Mul 901 5296; Add 1522 5297; Sub 871 5298; Mul 1451 5294;
  Mul 5300 5299; Mul 5294 2624; Mul 5299 1265; Add 5302 5303; Sub 5301 5304; AndEqz 474 5305; Mul 891 472;
  Add 1554 5306; Add 5307 4326; Add 5308 4328; Add 5309 4377; Sub 871 5310; Mul 464 402; Mul 901 5312; Add 5307 5313;
  Add 5314 4328; Add 5315 4377; Sub 871 5316; Mul 1479 5311; Mul 5318 5317; Mul 5311 429; Mul 5317 2624;
  Add 5320 5321; Sub 5319 5322; AndEqz 475 5323; Sub 5312 473; Sub 5324 410; Mul 901 5325; Add 1522 5326;
  Sub 871 5327; Mul 891 476; Add 1554 5329; Mul 901 477; Add 5330 5331; Mul 911 478; Add 5332 5333; Mul 921 479;
  Add 5334 5335; Sub 871 5336; Mul 1499 5328; Mul 5338 5337; Mul 5328 2624; Mul 5337 2624; Add 5340 5341;
  Sub 5339 5342; AndEqz 476 5343; Add 5312 410; Mul 901 5344; Add 5330 5345; Add 5346 4200; Add 5347 4202;
  Sub 871 5348; Sub 5344 477; Sub 5350 410; Mul 901 5351; Add 1522 5352; Sub 871 5353; Mul 2667 5349; Mul 5355 5354;
  Mul 5349 2624; Mul 5354 429; Add 5357 5358; Sub 5356 5359; AndEqz 477 5360; Mul 1678 330; Mul 5361 329;
  Sub 410 5361; Mul 5363 328; Add 5362 5364; Add 5365 482; Sub 5366 472; AndEqz 478 5367; AndEqz 479 1714;
  Mul 484 486; Sub 410 485; Sub 5368 5369; AndEqz 480 5370; Mul 485 484; AndEqz 481 5371; Mul 485 486;
  AndEqz 482 5372; Add 5365 1914; Add 5373 484; Sub 5374 476; AndEqz 483 5375; Sub 490 410; Mul 490 5376;
  AndEqz 484 5377; Mul 490 493; Sub 410 490; Mul 5379 491; Add 5378 5380; Mul 490 494; Mul 5379 492; Add 5382 5383;
  Sub 5381 480; AndEqz 485 5385; Sub 5384 481; AndEqz 486 5386; Mul 891 464; Add 1460 5387; Mul 901 468;
  Add 5388 5389; Mul 911 469; Add 5390 5391; Mul 921 467; Add 5392 5393; Mul 931 465; Add 5394 5395; Sub 871 5396;
  Add 464 410; Mul 891 5398; Add 1460 5399; Mul 901 470; Add 5400 5401; Mul 911 471; Add 5402 5403; Add 5404 5393;
  Add 5405 5395; Sub 871 5406; Mul 2691 5397; Mul 5408 5407; Mul 5397 429; Mul 5407 2624; Add 5410 5411;
  Sub 5409 5412; AndEqz 487 5413; Mul 891 489; Add 4146 5414; Mul 901 474; Add 5415 5416; Mul 911 475; Add 5417 5418;
  Mul 921 487; Add 5419 5420; Mul 931 488; Add 5421 5422; Mul 941 491; Add 5423 5424; Mul 951 492; Add 5425 5426;
  Mul 961 493; Add 5427 5428; Mul 971 494; Add 5429 5430; Sub 871 5431; Mul 489 402; Add 5433 490; Mul 5434 327;
  Add 5435 410; Mul 891 465; Add 2594 5437; Add 5438 5389; Add 5439 5391; Mul 921 470; Add 5440 5441; Mul 931 471;
  Add 5442 5443; Mul 941 482; Add 5444 5445; Mul 951 483; Add 5446 5447; Mul 961 484; Add 5448 5449; Mul 971 487;
  Add 5450 5451; Mul 981 488; Add 5452 5453; Mul 991 5436; Add 5454 5455; Sub 871 5456; Mul 2717 5432; Mul 5458 5457;
  Mul 5432 2624; Mul 5457 2624; Add 5460 5461; Sub 5459 5462; AndEqz 488 5463; Sub 495 497; Mul 5464 402;
  Mul 901 5465; Add 1522 5466; Sub 871 5467; Mul 891 503; Add 1554 5469; Mul 901 504; Add 5470 5471; Mul 911 505;
  Add 5472 5473; Mul 921 506; Add 5474 5475; Sub 871 5476; Mul 2742 5468; Mul 5478 5477; Mul 5468 4400;
  Mul 5477 4400; Add 5480 5481; Sub 5479 5482; AndEqz 489 5483; Mul 495 402; Mul 901 5484; Add 5470 5485;
  Add 5486 5473; Add 5487 5475; Sub 871 5488; Sub 5484 504; Sub 5490 410; Mul 901 5491; Add 1522 5492; Sub 871 5493;
  Mul 2776 5489; Mul 5495 5494; Mul 5489 4400; Mul 5494 430; Add 5497 5498; Sub 5496 5499; AndEqz 490 5500;
  Mul 891 507; Add 1554 5501; Mul 901 508; Add 5502 5503; Mul 911 509; Add 5504 5505; Mul 921 510].

(* L6020-6519 POLY_EXT_DEF.block *)
Definition block_12 : list Step := [
  Add 5506 5507; Sub 871 5508; Add 5484 410; Mul 901 5510; Add 5502 5511; Mul 911 511; Add 5512 5513; Mul 921 512;
  Add 5514 5515; Sub 871 5516; Mul 3756 5509; Mul 5518 5517; Mul 5509 430; Mul 5517 4400; Add 5520 5521;
  Sub 5519 5522; AndEqz 491 5523; Sub 5510 508; Sub 5524 410; Mul 901 5525; Add 1522 5526; Sub 871 5527;
  Mul 1745 330; Mul 5529 329; Sub 410 5529; Mul 5531 328; Add 5530 5532; Add 5533 513; Sub 5534 503; AndEqz 492 5535;
  Sub 516 410; Mul 516 5536; AndEqz 493 5537; Mul 515 517; Sub 410 516; Sub 5538 5539; AndEqz 494 5540; Mul 516 515;
  AndEqz 495 5541; Mul 516 517; AndEqz 496 5542; Mul 516 392; Add 5533 5543; Add 5544 515; Sub 5545 507;
  AndEqz 497 5546; Sub 521 410; Mul 521 5547; AndEqz 498 5548; Mul 521 524; Sub 410 521; Mul 5550 522; Add 5549 5551;
  Mul 521 525; Mul 5550 523; Add 5553 5554; Sub 5552 511; AndEqz 499 5556; Sub 5555 512; AndEqz 500 5557;
  Mul 891 495; Add 1460 5558; Mul 901 499; Add 5559 5560; Mul 911 500; Add 5561 5562; Mul 921 498; Add 5563 5564;
  Mul 931 496; Add 5565 5566; Sub 871 5567; Mul 4420 5528; Mul 5569 5568; Mul 5528 4400; Mul 5568 4400;
  Add 5571 5572; Sub 5570 5573; AndEqz 501 5574; Add 495 410; Mul 891 5575; Add 1460 5576; Mul 901 501;
  Add 5577 5578; Mul 911 502; Add 5579 5580; Add 5581 5564; Add 5582 5566; Sub 871 5583; Add 4146 2653; Mul 901 505;
  Add 5585 5586; Mul 911 506; Add 5587 5588; Mul 921 518; Add 5589 5590; Mul 931 519; Add 5591 5592; Add 5593 4635;
  Add 5594 4637; Mul 961 524; Add 5595 5596; Mul 971 525; Add 5597 5598; Sub 871 5599; Mul 4444 5584; Mul 5601 5600;
  Mul 5584 4400; Mul 5600 430; Add 5603 5604; Sub 5602 5605; AndEqz 502 5606; Mul 520 402; Add 5607 521;
  Mul 5608 327; Add 5609 410; Mul 891 496; Add 2594 5611; Add 5612 5560; Add 5613 5562; Mul 921 501; Add 5614 5615;
  Mul 931 502; Add 5616 5617; Mul 941 513; Add 5618 5619; Mul 951 514; Add 5620 5621; Mul 961 515; Add 5622 5623;
  Mul 971 518; Add 5624 5625; Mul 981 519; Add 5626 5627; Mul 991 5610; Add 5628 5629; Sub 871 5630; Sub 526 528;
  Mul 5632 402; Mul 901 5633; Add 1522 5634; Sub 871 5635; Mul 4469 5631; Mul 5637 5636; Mul 5631 4661;
  Mul 5636 4400; Add 5639 5640; Sub 5638 5641; AndEqz 503 5642; Mul 891 534; Add 1554 5643; Mul 901 535;
  Add 5644 5645; Mul 911 536; Add 5646 5647; Mul 921 537; Add 5648 5649; Sub 871 5650; Mul 526 402; Mul 901 5652;
  Add 5644 5653; Add 5654 5647; Add 5655 5649; Sub 871 5656; Mul 4520 5651; Mul 5658 5657; Mul 5651 431;
  Mul 5657 4661; Add 5660 5661; Sub 5659 5662; AndEqz 504 5663; Sub 5652 535; Sub 5664 410; Mul 901 5665;
  Add 1522 5666; Sub 871 5667; Mul 891 538; Add 1554 5669; Mul 901 539; Add 5670 5671; Mul 911 540; Add 5672 5673;
  Mul 921 541; Add 5674 5675; Sub 871 5676; Mul 4546 5668; Mul 5678 5677; Mul 5668 4661; Mul 5677 4661;
  Add 5680 5681; Sub 5679 5682; AndEqz 505 5683; Add 5652 410; Mul 901 5684; Add 5670 5685; Mul 911 542;
  Add 5686 5687; Mul 921 543; Add 5688 5689; Sub 871 5690; Sub 5684 539; Sub 5692 410; Mul 901 5693; Add 1522 5694;
  Sub 871 5695; Mul 4598 5691; Mul 5697 5696; Mul 5691 4661; Mul 5696 431; Add 5699 5700; Sub 5698 5701;
  AndEqz 506 5702; Mul 2751 330; Mul 5703 329; Sub 410 5703; Mul 5705 328; Add 5704 5706; Add 5707 544; Sub 5708 534;
  AndEqz 507 5709; AndEqz 508 2817; Mul 546 548; Sub 410 547; Sub 5710 5711; AndEqz 509 5712; Mul 547 546;
  AndEqz 510 5713; Mul 547 548; AndEqz 511 5714; Mul 547 392; Add 5707 5715; Add 5716 546; Sub 5717 538;
  AndEqz 512 5718; AndEqz 513 2827; Mul 552 555; Sub 410 552; Mul 5720 553; Add 5719 5721; Mul 552 556; Mul 5720 554;
  Add 5723 5724; Sub 5722 542; AndEqz 514 5726; Sub 5725 543; AndEqz 515 5727; Add 1460 4506; Mul 901 530;
  Add 5728 5729; Mul 911 531; Add 5730 5731; Add 5732 4512; Mul 931 527; Add 5733 5734; Sub 871 5735; Add 526 410;
  Mul 891 5737; Add 1460 5738; Add 5739 2763; Mul 911 533; Add 5740 5741; Add 5742 4512; Add 5743 5734; Sub 871 5744;
  Mul 4651 5736; Mul 5746 5745; Mul 5736 431; Mul 5745 4661; Add 5748 5749; Sub 5747 5750; AndEqz 516 5751;
  Mul 891 551; Add 4146 5752; Mul 901 536; Add 5753 5754; Mul 911 537; Add 5755 5756; Mul 921 549; Add 5757 5758;
  Mul 931 550; Add 5759 5760; Mul 941 553; Add 5761 5762; Mul 951 554; Add 5763 5764; Mul 961 555; Add 5765 5766;
  Mul 971 556; Add 5767 5768; Sub 871 5769; Mul 551 402; Add 5771 552; Mul 5772 327; Add 5773 410; Mul 891 527;
  Add 2594 5775; Add 5776 5729; Add 5777 5731; Mul 921 532; Add 5778 5779; Mul 931 533; Add 5780 5781; Mul 941 544;
  Add 5782 5783; Mul 951 545; Add 5784 5785; Mul 961 546; Add 5786 5787; Mul 971 549; Add 5788 5789; Mul 981 550;
  Add 5790 5791; Mul 991 5774; Add 5792 5793; Sub 871 5794; Mul 4679 5770; Mul 5796 5795; Mul 5770 4661;
  Mul 5795 4661; Add 5798 5799; Sub 5797 5800; AndEqz 517 5801; Sub 557 559; Mul 5802 402; Mul 901 5803;
  Add 1522 5804; Sub 871 5805; Mul 891 565; Add 1554 5807; Mul 901 566; Add 5808 5809; Mul 911 567; Add 5810 5811;
  Mul 921 568; Add 5812 5813; Sub 871 5814; Mul 4703 5806; Mul 5816 5815; Mul 5806 4919; Mul 5815 4919;
  Add 5818 5819; Sub 5817 5820; AndEqz 518 5821; Mul 901 3005; Add 5808 5822; Add 5823 5811; Add 5824 5813;
  Sub 871 5825; Sub 3005 566; Sub 5827 410; Mul 901 5828; Add 1522 5829; Sub 871 5830; Mul 4729 5826; Mul 5832 5831;
  Mul 5826 4919; Mul 5831 432; Add 5834 5835; Sub 5833 5836; AndEqz 519 5837; Mul 891 569; Add 1554 5838;
  Mul 901 570; Add 5839 5840; Mul 911 571; Add 5841 5842; Mul 921 572; Add 5843 5844; Sub 871 5845; Add 3005 410;
  Mul 901 5847; Add 5839 5848; Mul 911 573; Add 5849 5850; Mul 921 574; Add 5851 5852; Sub 871 5853; Mul 4778 5846;
  Mul 5855 5854; Mul 5846 432; Mul 5854 4919; Add 5857 5858; Sub 5856 5859; AndEqz 520 5860; Sub 5847 570;
  Sub 5861 410; Mul 901 5862; Add 1522 5863; Sub 871 5864; Mul 2843 330; Mul 5866 329; Sub 410 5866; Mul 5868 328;
  Add 5867 5869; Add 5870 575; Sub 5871 565; AndEqz 521 5872; AndEqz 522 2884; Mul 577 579; Sub 410 578;
  Sub 5873 5874; AndEqz 523 5875; Mul 578 577; AndEqz 524 5876; Mul 578 579; AndEqz 525 5877; Mul 578 392;
  Add 5870 5878; Add 5879 577; Sub 5880 569; AndEqz 526 5881; Sub 583 410; Mul 583 5882; AndEqz 527 5883;
  Mul 583 586; Sub 410 583; Mul 5885 584; Add 5884 5886; Mul 583 587; Mul 5885 585; Add 5888 5889; Sub 5887 573;
  AndEqz 528 5891; Sub 5890 574; AndEqz 529 5892; Mul 891 557; Add 1460 5893; Mul 901 561; Add 5894 5895;
  Mul 911 562; Add 5896 5897; Add 5898 4869; Mul 931 558; Add 5899 5900; Sub 871 5901; Mul 4804 5865; Mul 5903 5902;
  Mul 5865 4919; Mul 5902 4919; Add 5905 5906; Sub 5904 5907; AndEqz 530 5908; Add 557 410; Mul 891 5909;
  Add 1460 5910; Add 5911 4766; Add 5912 4768; Add 5913 4869; Add 5914 5900; Sub 871 5915; Mul 891 582;
  Add 4146 5917; Mul 901 567; Add 5918 5919; Mul 911 568; Add 5920 5921; Add 5922 5100; Mul 931 581; Add 5923 5924;
  Mul 941 584; Add 5925 5926; Mul 951 585; Add 5927 5928; Mul 961 586; Add 5929 5930; Mul 971 587; Add 5931 5932;
  Sub 871 5933; Mul 4855 5916; Mul 5935 5934; Mul 5916 4919; Mul 5934 432; Add 5937 5938; Sub 5936 5939;
  AndEqz 531 5940; Mul 582 402; Add 5941 583; Mul 5942 327; Add 5943 410; Mul 891 558; Add 2594 5945; Add 5946 5895;
  Add 5947 5897; Mul 921 563; Add 5948 5949; Mul 931 564; Add 5950 5951; Mul 941 575; Add 5952 5953; Mul 951 576;
  Add 5954 5955; Mul 961 577; Add 5956 5957; Mul 971 580; Add 5958 5959; Mul 981 581; Add 5960 5961; Mul 991 5944;
  Add 5962 5963; Sub 871 5964; Mul 4909 5965].

(* L6520-7019 POLY_EXT_DEF.block *)
Definition block_13 : list Step := [
  Mul 5966 331; Mul 4919 331; Add 5968 409; Sub 5967 5969; AndEqz 532 5970; Add 1518 4916; Sub 1512 5971;
  AndEqz 533 5972; Mul 414 425; AndCond 460 5973 534; Sub 432 410; Mul 432 5974; AndEqz 0 5975; Sub 433 410;
  Mul 433 5976; AndEqz 536 5977; Sub 434 410; Mul 434 5978; AndEqz 537 5979; Sub 435 410; Mul 435 5980;
  AndEqz 538 5981; AndEqz 539 4047; Add 432 433; Add 5982 434; Add 5983 435; Add 5984 436; Sub 5985 410;
  AndEqz 540 5986; Sub 431 438; Mul 5987 402; Mul 901 5988; Add 1522 5989; Sub 871 5990; Mul 891 444; Add 1554 5992;
  Mul 901 445; Add 5993 5994; Mul 911 446; Add 5995 5996; Mul 921 447; Add 5997 5998; Sub 871 5999; Mul 1278 5991;
  Mul 6001 6000; Mul 5991 1265; Mul 6000 1265; Add 6003 6004; Sub 6002 6005; AndEqz 541 6006; Mul 431 402;
  Mul 901 6007; Add 5993 6008; Add 6009 5996; Add 6010 5998; Sub 871 6011; Sub 6007 445; Sub 6013 410; Mul 901 6014;
  Add 1522 6015; Sub 871 6016; Mul 1297 6012; Mul 6018 6017; Mul 6012 1265; Mul 6017 428; Add 6020 6021;
  Sub 6019 6022; AndEqz 542 6023; Mul 891 448; Add 1554 6024; Add 6025 1270; Mul 911 450; Add 6026 6027; Mul 921 451;
  Add 6028 6029; Sub 871 6030; Add 6007 410; Mul 901 6032; Add 6025 6033; Mul 911 452; Add 6034 6035; Mul 921 453;
  Add 6036 6037; Sub 871 6038; Mul 1391 6031; Mul 6040 6039; Mul 6031 428; Mul 6039 1265; Add 6042 6043;
  Sub 6041 6044; AndEqz 543 6045; Sub 6032 449; Sub 6046 410; Mul 901 6047; Add 1522 6048; Sub 871 6049;
  Mul 1535 330; Mul 6051 329; Sub 410 6051; Mul 6053 328; Add 6052 6054; Add 6055 454; Sub 6056 444; AndEqz 544 6057;
  AndEqz 545 1650; Mul 456 458; Sub 410 457; Sub 6058 6059; AndEqz 546 6060; Mul 457 456; AndEqz 547 6061;
  Mul 457 458; AndEqz 548 6062; Mul 457 392; Add 6055 6063; Add 6064 456; Sub 6065 448; AndEqz 549 6066; Mul 901 461;
  Add 1266 6067; Sub 871 6068; Mul 1411 6050; Mul 6070 6069; Mul 6050 1265; Mul 6069 1265; Add 6072 6073;
  Sub 6071 6074; AndEqz 550 6075; AndEqz 551 1668; Mul 901 463; Add 1266 6076; Sub 871 6077; AndEqz 552 1672;
  Mul 462 407; Add 461 6079; Add 446 459; Sub 6080 6081; AndEqz 553 6082; Mul 464 407; Add 463 6083; Add 447 460;
  Add 6085 462; Sub 6084 6086; AndEqz 554 6087; Mul 901 465; Add 1266 6088; Sub 871 6089; Mul 1430 6078;
  Mul 6091 6090; Mul 6078 1265; Mul 6090 1265; Add 6093 6094; Sub 6092 6095; AndEqz 555 6096; AndEqz 556 1676;
  AndEqz 557 1678; Mul 465 399; Add 6097 1892; Add 6098 466; Sub 6099 461; AndEqz 558 6100; Add 1266 5389;
  Sub 871 6101; Mul 439 398; Mul 6103 397; Sub 410 6103; Mul 6105 396; Add 6104 6106; Sub 6107 463; Sub 6108 468;
  AndEqz 559 6109; Add 1554 4324; Add 6110 5401; Add 6111 5403; Add 6112 4330; Sub 871 6113; Mul 1451 6102;
  Mul 6115 6114; Mul 6102 1265; Mul 6114 1265; Add 6117 6118; Sub 6116 6119; AndEqz 560 6120; Add 6110 6008;
  Add 6121 5403; Add 6122 4330; Sub 871 6123; Sub 6007 470; Sub 6125 410; Mul 901 6126; Add 1522 6127; Sub 871 6128;
  Mul 1479 6124; Mul 6130 6129; Mul 6124 1265; Mul 6129 428; Add 6132 6133; Sub 6131 6134; AndEqz 561 6135;
  Add 5416 409; Sub 871 6136; Add 4338 409; Sub 871 6138; Mul 1499 6137; Mul 6140 6139; Mul 6137 1265; Mul 6139 1265;
  Add 6142 6143; Sub 6141 6144; AndEqz 562 6145; Mul 432 476; Mul 6146 403; Mul 433 473; Add 6147 6148;
  AndEqz 563 1698; Mul 901 478; Add 1266 6150; Sub 871 6151; Mul 478 326; Mul 477 385; Add 6153 6154; Sub 6149 6155;
  AndEqz 564 6156; Mul 463 394; Add 6157 465; Sub 6158 469; AndEqz 565 6159; Mul 467 472; Sub 410 467; Mul 6161 471;
  Add 6160 6162; Sub 473 6163; AndEqz 566 6164; Mul 475 403; Add 6165 474; Sub 473 6166; AndEqz 567 6167;
  Mul 466 475; Sub 410 466; Mul 6169 474; Add 6168 6170; Sub 476 6171; AndEqz 568 6172; Mul 477 325; Mul 6173 403;
  Add 6174 476; Mul 432 6175; Add 6176 6148; Mul 434 471; Add 6177 6178; Mul 435 476; Add 6179 6180; Mul 436 473;
  Add 6181 6182; Sub 452 6183; AndEqz 569 6184; Mul 432 477; Mul 6185 397; Mul 433 477; Mul 6187 397; Add 6186 6188;
  Mul 434 472; Add 6189 6190; Sub 453 6191; AndEqz 570 6192; Add 1460 2595; Mul 901 440; Add 6193 6194;
  Add 6195 3960; Add 6196 1373; Add 6197 2603; Sub 871 6198; Mul 2667 6152; Mul 6200 6199; Mul 6152 1265;
  Mul 6199 1265; Add 6202 6203; Sub 6201 6204; AndEqz 571 6205; Add 431 410; Mul 891 6206; Add 1460 6207;
  Add 6208 3844; Add 6209 3846; Add 6210 1373; Add 6211 2603; Sub 871 6212; Mul 434 402; Add 433 6214; Mul 435 372;
  Add 6215 6216; Mul 436 399; Add 6217 6218; Mul 6219 327; Add 6220 402; Add 2594 3819; Add 6222 6194; Add 6223 3960;
  Add 6224 3962; Mul 931 443; Add 6225 6226; Mul 941 454; Add 6227 6228; Mul 951 455; Add 6229 6230; Mul 961 456;
  Add 6231 6232; Mul 971 459; Add 6233 6234; Mul 981 460; Add 6235 6236; Mul 991 6221; Add 6237 6238; Sub 871 6239;
  Mul 2691 6213; Mul 6241 6240; Mul 6213 1265; Mul 6240 428; Add 6243 6244; Sub 6242 6245; AndEqz 572 6246;
  AndEqz 573 1704; AndEqz 574 1706; AndEqz 575 1708; AndEqz 576 1710; AndEqz 577 1712; Add 480 481; Add 6247 482;
  Add 6248 483; Add 6249 484; Sub 6250 410; AndEqz 578 6251; Sub 479 486; Mul 6252 402; Mul 901 6253; Add 1522 6254;
  Sub 871 6255; Mul 891 492; Add 1554 6257; Mul 901 493; Add 6258 6259; Add 6260 4292; Add 6261 4294; Sub 871 6262;
  Mul 2717 6256; Mul 6264 6263; Mul 6256 2624; Mul 6263 2624; Add 6266 6267; Sub 6265 6268; AndEqz 579 6269;
  Mul 901 1870; Add 6258 6270; Add 6271 4292; Add 6272 4294; Sub 871 6273; Sub 1870 493; Sub 6275 410; Mul 901 6276;
  Add 1522 6277; Sub 871 6278; Mul 2742 6274; Mul 6280 6279; Mul 6274 2624; Mul 6279 429; Add 6282 6283;
  Sub 6281 6284; AndEqz 580 6285; Add 1554 5611; Mul 901 497; Add 6286 6287; Mul 911 498; Add 6288 6289; Mul 921 499;
  Add 6290 6291; Sub 871 6292; Add 1870 410; Mul 901 6294; Add 6286 6295; Add 6296 5562; Add 6297 5615; Sub 871 6298;
  Mul 2776 6293; Mul 6300 6299; Mul 6293 429; Mul 6299 2624; Add 6302 6303; Sub 6301 6304; AndEqz 581 6305;
  Sub 6294 497; Sub 6306 410; Mul 901 6307; Add 1522 6308; Sub 871 6309; Mul 1718 330; Mul 6311 329; Sub 410 6311;
  Mul 6313 328; Add 6312 6314; Add 6315 502; Sub 6316 492; AndEqz 582 6317; Sub 505 410; Mul 505 6318;
  AndEqz 583 6319; Mul 504 506; Sub 410 505; Sub 6320 6321; AndEqz 584 6322; Mul 505 504; AndEqz 585 6323;
  Mul 505 506; AndEqz 586 6324; Mul 505 392; Add 6315 6325; Add 6326 504; Sub 6327 496; AndEqz 587 6328;
  Add 1266 4574; Sub 871 6329; Mul 3756 6310; Mul 6331 6330; Mul 6310 2624; Mul 6330 2624; Add 6333 6334;
  Sub 6332 6335; AndEqz 588 6336; Sub 510 410; Mul 510 6337; AndEqz 589 6338; Add 1266 4586; Sub 871 6339;
  Sub 512 410; Mul 512 6341; AndEqz 590 6342; Mul 510 407; Add 509 6343; Add 494 507; Sub 6344 6345; AndEqz 591 6346;
  Mul 512 407; Add 511 6347; Add 495 508; Add 6349 510; Sub 6348 6350; AndEqz 592 6351; Mul 901 513; Add 1266 6352;
  Sub 871 6353; Mul 4420 6340; Mul 6355 6354; Mul 6340 2624; Mul 6354 2624; Add 6357 6358; Sub 6356 6359;
  AndEqz 593 6360; Sub 514 410; Mul 514 6361; AndEqz 594 6362; Sub 515 410; Mul 515 6363; AndEqz 595 6364;
  Mul 513 399; Mul 515 402; Add 6365 6366; Add 6367 514; Sub 6368 509; AndEqz 596 6369; Mul 487 398; Mul 6370 397;
  Sub 410 6370; Mul 6372 396; Add 6371 6373; Sub 6374 511; Sub 6375 516; AndEqz 597 6376; Mul 891 517; Add 1554 6377;
  Mul 901 518; Add 6378 6379; Mul 911 519; Add 6380 6381; Mul 921 520; Add 6382 6383; Sub 871 6384; Mul 4444 2627;
  Mul 6386 6385; Mul 6385 2624; Add 2631 6388; Sub 6387 6389; AndEqz 598 6390; Add 6378 6270; Add 6391 6381;
  Add 6392 6383; Sub 871 6393; Sub 1870 518; Sub 6395 410; Mul 901 6396; Add 1522 6397; Sub 871 6398].

(* L7020-7519 POLY_EXT_DEF.block *)
Definition block_14 : list Step := [
  Mul 4469 6394; Mul 6400 6399; Mul 6394 2624; Mul 6399 429; Add 6402 6403; Sub 6401 6404; AndEqz 599 6405;
  Mul 901 522; Add 6406 409; Sub 871 6407; Mul 901 523; Add 6409 409; Sub 871 6410; Mul 4520 6408; Mul 6412 6411;
  Mul 6408 2624; Mul 6411 2624; Add 6414 6415; Sub 6413 6416; AndEqz 600 6417; Mul 480 524; Mul 6418 403;
  Mul 481 521; Add 6419 6420; Sub 525 410; Mul 525 6422; AndEqz 601 6423; Mul 901 526; Add 1266 6424; Sub 871 6425;
  Mul 526 326; Mul 525 385; Add 6427 6428; Sub 6421 6429; AndEqz 602 6430; Mul 511 394; Add 6431 513; Sub 6432 517;
  AndEqz 603 6433; Mul 515 520; Sub 410 515; Mul 6435 519; Add 6434 6436; Sub 521 6437; AndEqz 604 6438; Mul 523 403;
  Add 6439 522; Sub 521 6440; AndEqz 605 6441; Mul 514 523; Sub 410 514; Mul 6443 522; Add 6442 6444; Sub 524 6445;
  AndEqz 606 6446; Mul 525 325; Mul 6447 403; Add 6448 524; Mul 480 6449; Add 6450 6420; Mul 482 519; Add 6451 6452;
  Mul 483 524; Add 6453 6454; Mul 484 521; Add 6455 6456; Sub 500 6457; AndEqz 607 6458; Mul 480 525; Mul 6459 397;
  Mul 481 525; Mul 6461 397; Add 6460 6462; Mul 482 520; Add 6463 6464; Sub 501 6465; AndEqz 608 6466; Mul 891 479;
  Add 1460 6467; Mul 901 488; Add 6468 6469; Mul 911 489; Add 6470 6471; Add 6472 5420; Mul 931 485; Add 6473 6474;
  Sub 871 6475; Mul 4546 6426; Mul 6477 6476; Mul 6426 2624; Mul 6476 2624; Add 6479 6480; Sub 6478 6481;
  AndEqz 609 6482; Add 479 410; Mul 891 6483; Add 1460 6484; Mul 901 490; Add 6485 6486; Mul 911 491; Add 6487 6488;
  Add 6489 5420; Add 6490 6474; Sub 871 6491; Mul 482 402; Add 481 6493; Mul 483 372; Add 6494 6495; Mul 484 399;
  Add 6496 6497; Mul 6498 327; Add 6499 402; Mul 891 485; Add 2594 6501; Add 6502 6469; Add 6503 6471; Mul 921 490;
  Add 6504 6505; Mul 931 491; Add 6506 6507; Mul 941 502; Add 6508 6509; Mul 951 503; Add 6510 6511; Mul 961 504;
  Add 6512 6513; Mul 971 507; Add 6514 6515; Mul 981 508; Add 6516 6517; Mul 991 6500; Add 6518 6519; Sub 871 6520;
  Mul 4598 6492; Mul 6522 6521; Mul 6492 2624; Mul 6521 429; Add 6524 6525; Sub 6523 6526; AndEqz 610 6527;
  Sub 528 410; Mul 528 6528; AndEqz 611 6529; AndEqz 612 2751; AndEqz 613 2753; AndEqz 614 2760; Sub 532 410;
  Mul 532 6530; AndEqz 615 6531; Add 528 529; Add 6532 530; Add 6533 531; Add 6534 532; Sub 6535 410;
  AndEqz 616 6536; Sub 527 534; Mul 6537 402; Mul 901 6538; Add 1522 6539; Sub 871 6540; Mul 891 540; Add 1554 6542;
  Mul 901 541; Add 6543 6544; Add 6545 5687; Add 6546 5689; Sub 871 6547; Mul 4651 6541; Mul 6549 6548;
  Mul 6541 4400; Mul 6548 4400; Add 6551 6552; Sub 6550 6553; AndEqz 617 6554; Mul 527 402; Mul 901 6555;
  Add 6543 6556; Add 6557 5687; Add 6558 5689; Sub 871 6559; Sub 6555 541; Sub 6561 410; Mul 901 6562; Add 1522 6563;
  Sub 871 6564; Mul 4679 6560; Mul 6566 6565; Mul 6560 4400; Mul 6565 430; Add 6568 6569; Sub 6567 6570;
  AndEqz 618 6571; Mul 891 544; Add 1554 6572; Add 6573 4831; Add 6574 4833; Add 6575 4889; Sub 871 6576;
  Add 6555 410; Mul 901 6578; Add 6573 6579; Add 6580 4845; Add 6581 5758; Sub 871 6582; Mul 4703 6577;
  Mul 6584 6583; Mul 6577 430; Mul 6583 4400; Add 6586 6587; Sub 6585 6588; AndEqz 619 6589; Sub 6578 545;
  Sub 6590 410; Mul 901 6591; Add 1522 6592; Sub 871 6593; Mul 2785 330; Mul 6595 329; Sub 410 6595; Mul 6597 328;
  Add 6596 6598; Add 6599 550; Sub 6600 540; AndEqz 620 6601; AndEqz 621 2829; Mul 552 554; Sub 410 553;
  Sub 6602 6603; AndEqz 622 6604; Mul 553 552; AndEqz 623 6605; Mul 553 554; AndEqz 624 6606; Mul 553 392;
  Add 6599 6607; Add 6608 552; Sub 6609 544; AndEqz 625 6610; Mul 901 557; Add 1266 6611; Sub 871 6612;
  Mul 4729 6594; Mul 6614 6613; Mul 6594 4400; Mul 6613 4400; Add 6616 6617; Sub 6615 6618; AndEqz 626 6619;
  AndEqz 627 2839; Mul 901 559; Add 1266 6620; Sub 871 6621; AndEqz 628 2843; Mul 558 407; Add 557 6623; Add 542 555;
  Sub 6624 6625; AndEqz 629 6626; Mul 560 407; Add 559 6627; Add 543 556; Add 6629 558; Sub 6628 6630;
  AndEqz 630 6631; Add 1266 5895; Sub 871 6632; Mul 4778 6622; Mul 6634 6633; Mul 6622 4400; Mul 6633 4400;
  Add 6636 6637; Sub 6635 6638; AndEqz 631 6639; AndEqz 632 2847; AndEqz 633 2849; Mul 561 399; Mul 563 402;
  Add 6640 6641; Add 6642 562; Sub 6643 557; AndEqz 634 6644; Mul 901 564; Add 1266 6645; Sub 871 6646; Mul 535 398;
  Mul 6648 397; Sub 410 6648; Mul 6650 396; Add 6649 6651; Sub 6652 559; Sub 6653 564; AndEqz 635 6654;
  Mul 4804 6647; Mul 6655 5815; Mul 6647 4400; Mul 5815 4400; Add 6657 6658; Sub 6656 6659; AndEqz 636 6660;
  Add 5808 6556; Add 6661 5811; Add 6662 5813; Sub 871 6663; Sub 6555 566; Sub 6665 410; Mul 901 6666; Add 1522 6667;
  Sub 871 6668; Mul 4855 6664; Mul 6670 6669; Mul 6664 4400; Mul 6669 430; Add 6672 6673; Sub 6671 6674;
  AndEqz 637 6675; Add 5840 409; Sub 871 6676; Mul 901 571; Add 6678 409; Sub 871 6679; Mul 4909 6677; Mul 6681 6680;
  Mul 6677 4400; Mul 6680 4400; Add 6683 6684; Sub 6682 6685; AndEqz 638 6686; Mul 528 572; Mul 6687 403;
  Mul 529 569; Add 6688 6689; AndEqz 639 2867; Mul 901 574; Add 1266 6691; Sub 871 6692; Mul 574 326; Mul 573 385;
  Add 6694 6695; Sub 6690 6696; AndEqz 640 6697; Mul 559 394; Add 6698 561; Sub 6699 565; AndEqz 641 6700;
  Mul 563 568; Sub 410 563; Mul 6702 567; Add 6701 6703; Sub 569 6704; AndEqz 642 6705; Mul 571 403; Add 6706 570;
  Sub 569 6707; AndEqz 643 6708; Mul 562 571; Sub 410 562; Mul 6710 570; Add 6709 6711; Sub 572 6712;
  AndEqz 644 6713; Mul 573 325; Mul 6714 403; Add 6715 572; Mul 528 6716; Add 6717 6689; Mul 530 567; Add 6718 6719;
  Mul 531 572; Add 6720 6721; Mul 532 569; Add 6722 6723; Sub 548 6724; AndEqz 645 6725; Mul 528 573; Mul 6726 397;
  Mul 529 573; Mul 6728 397; Add 6727 6729; Mul 530 568; Add 6730 6731; Sub 549 6732; AndEqz 646 6733; Add 1460 5775;
  Add 6734 5754; Add 6735 5756; Mul 921 535; Add 6736 6737; Add 6738 5781; Sub 871 6739; Mul 4939 6693;
  Mul 6741 6740; Mul 6693 4400; Mul 6740 4400; Add 6743 6744; Sub 6742 6745; AndEqz 647 6746; Add 527 410;
  Mul 891 6747; Add 1460 6748; Mul 901 538; Add 6749 6750; Mul 911 539; Add 6751 6752; Add 6753 6737; Add 6754 5781;
  Sub 871 6755; Add 529 2755; Mul 531 372; Add 6757 6758; Mul 532 399; Add 6759 6760; Mul 6761 327; Add 6762 402;
  Mul 891 533; Add 2594 6764; Add 6765 5754; Add 6766 5756; Mul 921 538; Add 6767 6768; Mul 931 539; Add 6769 6770;
  Mul 941 550; Add 6771 6772; Mul 951 551; Add 6773 6774; Mul 961 552; Add 6775 6776; Mul 971 555; Add 6777 6778;
  Mul 981 556; Add 6779 6780; Mul 991 6763; Add 6781 6782; Sub 871 6783; Mul 4963 6756; Mul 6785 6784; Mul 6756 4400;
  Mul 6784 430; Add 6787 6788; Sub 6786 6789; AndEqz 648 6790; Add 1518 4970; Sub 1512 6791; AndEqz 649 6792;
  Mul 414 426; AndCond 535 6793 650; Sub 5983 410; AndEqz 538 6794; Sub 431 436; Mul 6795 402; Mul 901 6796;
  Add 1522 6797; Sub 871 6798; Sub 442 410; Mul 442 6800; AndEqz 652 6801; Mul 891 443; Add 1554 6802; Add 6803 4149;
  Add 6804 3859; Add 6805 3861; Sub 871 6806; Mul 1278 6799; Mul 6808 6807; Mul 6799 1265; Mul 6807 1265;
  Add 6810 6811; Sub 6809 6812; AndEqz 653 6813; Add 6803 6008; Add 6814 3859; Add 6815 3861; Sub 871 6816;
  Sub 6007 444; Sub 6818 410; Mul 901 6819; Add 1522 6820; Sub 871 6821; Mul 1297 6817; Mul 6823 6822; Mul 6817 1265;
  Mul 6822 428; Add 6825 6826; Sub 6824 6827; AndEqz 654 6828; Mul 891 447; Add 1554 6829; Add 6830 1267;
  Add 6831 5212; Add 6832 5214; Sub 871 6833; Add 6830 6008; Add 6835 5212; Add 6836 5214; Sub 871 6837;
  Mul 1391 6834; Mul 6839 6838; Mul 6834 428; Mul 6838 1265; Add 6841 6842].

(* L7520-8019 POLY_EXT_DEF.block *)
Definition block_15 : list Step := [
  Sub 6840 6843; AndEqz 655 6844; Sub 6007 448; Sub 6845 410; Mul 901 6846; Add 1522 6847; Sub 871 6848; Sub 437 410;
  Mul 437 6850; Mul 6851 330; Mul 6852 329; Sub 410 6852; Mul 6854 328; Add 6853 6855; Add 6856 451; Sub 6857 443;
  AndEqz 656 6858; Mul 442 392; Add 6856 6859; Add 6860 452; Sub 6861 447; AndEqz 657 6862; Sub 451 452;
  Mul 442 6863; AndEqz 658 6864; Mul 442 445; Sub 410 442; Mul 6866 449; Add 6865 6867; Sub 6868 453;
  AndEqz 659 6869; Mul 442 446; Mul 6866 450; Add 6870 6871; Sub 6872 454; AndEqz 660 6873; Mul 901 458;
  Add 1266 6874; Sub 871 6875; Mul 1411 6849; Mul 6877 6876; Mul 6849 1265; Mul 6876 1265; Add 6879 6880;
  Sub 6878 6881; AndEqz 661 6882; AndEqz 662 1662; Mul 901 460; Add 1266 6883; Sub 871 6884; AndEqz 663 1666;
  Mul 459 407; Add 458 6886; Add 445 456; Sub 6887 6888; AndEqz 664 6889; Mul 461 407; Add 460 6890; Add 446 457;
  Add 6892 459; Sub 6891 6893; AndEqz 665 6894; Mul 901 462; Add 1266 6895; Sub 871 6896; Mul 1430 6885;
  Mul 6898 6897; Mul 6885 1265; Mul 6897 1265; Add 6900 6901; Sub 6899 6902; AndEqz 666 6903; AndEqz 667 1670;
  AndEqz 668 1672; Mul 462 399; Add 6904 5312; Add 6905 463; Sub 6906 458; AndEqz 669 6907; Mul 437 398;
  Mul 6908 397; Sub 410 6908; Mul 6910 396; Add 6909 6911; Sub 6912 460; Sub 6913 465; AndEqz 670 6914; Mul 891 466;
  Add 1554 6915; Mul 901 467; Add 6916 6917; Mul 911 468; Add 6918 6919; Mul 921 469; Add 6920 6921; Sub 871 6922;
  Mul 1451 6090; Mul 6924 6923; Mul 6923 1265; Add 6094 6926; Sub 6925 6927; AndEqz 671 6928; Add 6916 6033;
  Mul 911 470; Add 6929 6930; Mul 921 471; Add 6931 6932; Sub 871 6933; Sub 6032 467; Sub 6935 410; Mul 901 6936;
  Add 1522 6937; Sub 871 6938; Mul 1479 6934; Mul 6940 6939; Mul 6934 1265; Mul 6939 428; Add 6942 6943;
  Sub 6941 6944; AndEqz 672 6945; Add 4326 409; Sub 871 6946; Mul 1499 6947; Mul 6948 6137; Mul 6947 1265;
  Add 6950 6142; Sub 6949 6951; AndEqz 673 6952; Mul 901 476; Add 6953 409; Sub 871 6954; Add 5331 409; Sub 871 6956;
  Mul 2667 6955; Mul 6958 6957; Mul 6955 1265; Mul 6957 1265; Add 6960 6961; Sub 6959 6962; AndEqz 674 6963;
  Mul 460 394; Add 6964 462; Sub 6965 466; AndEqz 675 6966; Mul 464 469; Mul 4114 468; Add 6967 6968; Sub 472 6969;
  AndEqz 676 6970; Mul 474 403; Add 6971 473; Sub 472 6972; AndEqz 677 6973; Mul 463 474; Sub 410 463; Mul 6975 473;
  Add 6974 6976; Sub 475 6977; AndEqz 678 6978; Mul 477 403; Add 6979 476; Sub 453 6980; AndEqz 679 6981;
  Mul 432 463; Mul 476 403; Add 6983 473; Mul 6982 6984; Mul 432 6975; Add 6971 476; Mul 6986 6987; Add 6985 6988;
  Add 433 434; Mul 6990 453; Add 6989 6991; Sub 478 6992; AndEqz 680 6993; Mul 5982 464; Mul 6994 468; Mul 5982 4114;
  Mul 6996 478; Add 6995 6997; Mul 434 453; Add 6998 6999; Sub 470 7000; AndEqz 681 7001; Mul 6994 478; Mul 6996 469;
  Add 7002 7003; Mul 434 454; Add 7004 7005; Sub 471 7006; AndEqz 682 7007; Add 6193 1525; Add 7008 3822;
  Mul 921 437; Add 7009 7010; Mul 931 435; Add 7011 7012; Sub 871 7013; Add 6208 6194; Add 7015 3960; Add 7016 7010;
  Add 7017 7012; Sub 871 7018; Mul 2691 7014; Mul 7020 7019; Mul 7014 428; Mul 7019 1265; Add 7022 7023;
  Sub 7021 7024; AndEqz 683 7025; Mul 6215 327; Add 7026 372; Mul 891 435; Add 2594 7028; Add 7029 1525;
  Add 7030 3822; Add 7031 3824; Mul 931 441; Add 7032 7033; Add 7034 5282; Add 7035 5284; Mul 961 455; Add 7036 7037;
  Add 7038 5288; Add 7039 5290; Mul 991 7027; Add 7040 7041; Sub 871 7042; AndEqz 684 1704; AndEqz 685 1706;
  AndEqz 686 1708; Sub 6248 410; AndEqz 687 7044; Sub 479 484; Mul 7045 402; Mul 901 7046; Add 1522 7047;
  Sub 871 7048; Mul 2717 7043; Mul 7050 7049; Mul 7043 2624; Mul 7049 1265; Add 7052 7053; Sub 7051 7054;
  AndEqz 688 7055; AndEqz 689 5377; Mul 891 491; Add 1554 7056; Mul 901 492; Add 7057 7058; Mul 911 493;
  Add 7059 7060; Mul 921 494; Add 7061 7062; Sub 871 7063; Add 7057 6270; Add 7065 7060; Add 7066 7062; Sub 871 7067;
  Mul 2742 7064; Mul 7069 7068; Mul 7064 429; Mul 7068 2624; Add 7071 7072; Sub 7070 7073; AndEqz 690 7074;
  Sub 1870 492; Sub 7075 410; Mul 901 7076; Add 1522 7077; Sub 871 7078; Add 1554 5558; Mul 901 496; Add 7080 7081;
  Mul 911 497; Add 7082 7083; Add 7084 5564; Sub 871 7085; Mul 2776 7079; Mul 7087 7086; Mul 7079 2624;
  Mul 7086 2624; Add 7089 7090; Sub 7088 7091; AndEqz 691 7092; Add 7080 6270; Add 7093 7083; Add 7094 5564;
  Sub 871 7095; Sub 1870 496; Sub 7097 410; Mul 901 7098; Add 1522 7099; Sub 871 7100; Mul 3756 7096; Mul 7102 7101;
  Mul 7096 2624; Mul 7101 429; Add 7104 7105; Sub 7103 7106; AndEqz 692 7107; Mul 1714 330; Mul 7108 329;
  Sub 410 7108; Mul 7110 328; Add 7109 7111; Add 7112 499; Sub 7113 491; AndEqz 693 7114; Mul 490 392; Add 7112 7115;
  Add 7116 500; Sub 7117 495; AndEqz 694 7118; Sub 499 500; Mul 490 7119; AndEqz 695 7120; Mul 5379 497;
  Add 5378 7121; Sub 7122 501; AndEqz 696 7123; Mul 5379 498; Add 5382 7124; Sub 7125 502; AndEqz 697 7126;
  Mul 901 506; Add 1266 7127; Sub 871 7128; Sub 507 410; Mul 507 7130; AndEqz 698 7131; Add 1266 5503; Sub 871 7132;
  Mul 4420 7129; Mul 7134 7133; Mul 7129 2624; Mul 7133 2624; Add 7136 7137; Sub 7135 7138; AndEqz 699 7139;
  Sub 509 410; Mul 509 7140; AndEqz 700 7141; Mul 507 407; Add 506 7142; Add 493 504; Sub 7143 7144; AndEqz 701 7145;
  Mul 509 407; Add 508 7146; Add 494 505; Add 7148 507; Sub 7147 7149; AndEqz 702 7150; Mul 901 510; Add 1266 7151;
  Sub 871 7152; Sub 511 410; Mul 511 7154; AndEqz 703 7155; AndEqz 704 6342; Mul 510 399; Mul 512 402; Add 7156 7157;
  Add 7158 511; Sub 7159 506; AndEqz 705 7160; Mul 4444 7153; Mul 7161 6354; Mul 7153 2624; Add 7163 6358;
  Sub 7162 7164; AndEqz 706 7165; Mul 485 398; Mul 7166 397; Sub 410 7166; Mul 7168 396; Add 7167 7169; Sub 7170 508;
  Sub 7171 513; AndEqz 707 7172; Add 4407 6295; Mul 911 518; Add 7173 7174; Mul 921 519; Add 7175 7176; Sub 871 7177;
  Mul 4469 4414; Mul 7179 7178; Mul 4414 429; Mul 7178 2624; Add 7181 7182; Sub 7180 7183; AndEqz 708 7184;
  Sub 6294 515; Sub 7185 410; Mul 901 7186; Add 1522 7187; Sub 871 7188; Add 2655 409; Sub 871 7190; Mul 4520 7189;
  Mul 7192 7191; Mul 7189 2624; Mul 7191 2624; Add 7194 7195; Sub 7193 7196; AndEqz 709 7197; Mul 901 524;
  Add 7198 409; Sub 871 7199; Mul 4546 6408; Mul 7201 7200; Mul 7200 2624; Add 6414 7203; Sub 7202 7204;
  AndEqz 710 7205; Add 2701 409; Sub 871 7206; Mul 508 394; Add 7208 510; Sub 7209 514; AndEqz 711 7210; Mul 512 517;
  Sub 410 512; Mul 7212 516; Add 7211 7213; Sub 520 7214; AndEqz 712 7215; Mul 522 403; Add 7216 521; Sub 520 7217;
  AndEqz 713 7218; Mul 511 522; Sub 410 511; Mul 7220 521; Add 7219 7221; Sub 523 7222; AndEqz 714 7223; Mul 525 403;
  Add 7224 524; Sub 501 7225; AndEqz 715 7226; Mul 480 511; Mul 524 403; Add 7228 521; Mul 7227 7229; Mul 480 7220;
  Add 7216 524; Mul 7231 7232; Add 7230 7233; Add 481 482; Mul 7235 501; Add 7234 7236; Sub 526 7237;
  AndEqz 716 7238; Mul 6247 512; Mul 7239 516; Mul 6247 7212; Mul 7241 526; Add 7240 7242; Mul 482 501;
  Add 7243 7244; Sub 518 7245; AndEqz 717 7246; Mul 7239 526; Mul 7241 517; Add 7247 7248; Mul 482 502;
  Add 7249 7250; Sub 519 7251; AndEqz 718 7252; Mul 901 486; Add 6468 7253; Mul 911 487; Add 7254 7255;
  Add 7256 4234; Mul 931 483; Add 7257 7258; Sub 871 7259; Mul 4598 7207; Mul 7261 7260; Mul 7207 2624;
  Mul 7260 2624; Add 7263 7264; Sub 7262 7265; AndEqz 719 7266; Add 6485 6469; Add 7267 6471; Add 7268 4234;
  Add 7269 7258; Sub 871 7270; Mul 6494 327; Add 7272 372; Mul 891 483; Add 2594 7274; Add 7275 7253; Add 7276 7255;
  Add 7277 4357].

(* L8020-8519 POLY_EXT_DEF.block *)
Definition block_16 : list Step := [
  Add 7278 4359; Mul 941 499; Add 7279 7280; Mul 951 500; Add 7281 7282; Add 7283 4365; Add 7284 4367; Mul 981 505;
  Add 7285 7286; Mul 991 7273; Add 7287 7288; Sub 871 7289; Mul 4651 7271; Mul 7291 7290; Mul 7271 2624;
  Mul 7290 429; Add 7293 7294; Sub 7292 7295; AndEqz 720 7296; AndEqz 721 6529; AndEqz 722 2751; AndEqz 723 2753;
  Sub 6533 410; AndEqz 724 7297; Sub 527 532; Mul 7298 402; Mul 901 7299; Add 1522 7300; Sub 871 7301;
  AndEqz 725 2799; Mul 891 539; Add 1554 7303; Mul 901 540; Add 7304 7305; Mul 911 541; Add 7306 7307; Mul 921 542;
  Add 7308 7309; Sub 871 7310; Mul 4679 7302; Mul 7312 7311; Mul 7302 4400; Mul 7311 4400; Add 7314 7315;
  Sub 7313 7316; AndEqz 726 7317; Add 7304 6556; Add 7318 7307; Add 7319 7309; Sub 871 7320; Sub 6555 540;
  Sub 7322 410; Mul 901 7323; Add 1522 7324; Sub 871 7325; Mul 4703 7321; Mul 7327 7326; Mul 7321 4400; Mul 7326 430;
  Add 7329 7330; Sub 7328 7331; AndEqz 727 7332; Mul 891 543; Add 1554 7333; Mul 901 544; Add 7334 7335; Mul 911 545;
  Add 7336 7337; Mul 921 546; Add 7338 7339; Sub 871 7340; Add 7334 6556; Add 7342 7337; Add 7343 7339; Sub 871 7344;
  Mul 4729 7341; Mul 7346 7345; Mul 7341 430; Mul 7345 4400; Add 7348 7349; Sub 7347 7350; AndEqz 728 7351;
  Sub 6555 544; Sub 7352 410; Mul 901 7353; Add 1522 7354; Sub 871 7355; Mul 2767 330; Mul 7357 329; Sub 410 7357;
  Mul 7359 328; Add 7358 7360; Add 7361 547; Sub 7362 539; AndEqz 729 7363; Mul 538 392; Add 7361 7364; Add 7365 548;
  Sub 7366 543; AndEqz 730 7367; Sub 547 548; Mul 538 7368; AndEqz 731 7369; Mul 538 541; Sub 410 538; Mul 7371 545;
  Add 7370 7372; Sub 7373 549; AndEqz 732 7374; Mul 538 542; Mul 7371 546; Add 7375 7376; Sub 7377 550;
  AndEqz 733 7378; Mul 901 554; Add 1266 7379; Sub 871 7380; Mul 4778 7356; Mul 7382 7381; Mul 7356 4400;
  Mul 7381 4400; Add 7384 7385; Sub 7383 7386; AndEqz 734 7387; AndEqz 735 2833; Mul 901 556; Add 1266 7388;
  Sub 871 7389; AndEqz 736 2837; Mul 555 407; Add 554 7391; Add 541 552; Sub 7392 7393; AndEqz 737 7394; Mul 557 407;
  Add 556 7395; Add 542 553; Add 7397 555; Sub 7396 7398; AndEqz 738 7399; Mul 901 558; Add 1266 7400; Sub 871 7401;
  Mul 4804 7390; Mul 7403 7402; Mul 7390 4400; Mul 7402 4400; Add 7405 7406; Sub 7404 7407; AndEqz 739 7408;
  AndEqz 740 2841; AndEqz 741 2843; Mul 560 402; Add 3007 7409; Add 7410 559; Sub 7411 554; AndEqz 742 7412;
  Mul 533 398; Mul 7413 397; Sub 410 7413; Mul 7415 396; Add 7414 7416; Sub 7417 556; Sub 7418 561; AndEqz 743 7419;
  Mul 4855 6633; Mul 7420 4772; Mul 4772 4400; Add 6637 7422; Sub 7421 7423; AndEqz 744 7424; Add 4765 6579;
  Add 7425 4789; Add 7426 4791; Sub 871 7427; Sub 6578 563; Sub 7429 410; Mul 901 7430; Add 1522 7431; Sub 871 7432;
  Mul 4909 7428; Mul 7434 7433; Mul 7428 4400; Mul 7433 430; Add 7436 7437; Sub 7435 7438; AndEqz 745 7439;
  Mul 901 569; Add 7440 409; Sub 871 7441; Mul 4939 7442; Mul 7443 6677; Mul 7442 4400; Add 7445 6683; Sub 7444 7446;
  AndEqz 746 7447; Mul 901 572; Add 7448 409; Sub 871 7449; Mul 901 573; Add 7451 409; Sub 871 7452; Mul 4963 7450;
  Mul 7454 7453; Mul 7450 4400; Mul 7453 4400; Add 7456 7457; Sub 7455 7458; AndEqz 747 7459; Mul 556 394;
  Add 7460 558; Sub 7461 562; AndEqz 748 7462; Mul 560 565; Sub 410 560; Mul 7464 564; Add 7463 7465; Sub 568 7466;
  AndEqz 749 7467; Mul 570 403; Add 7468 569; Sub 568 7469; AndEqz 750 7470; Mul 559 570; Sub 410 559; Mul 7472 569;
  Add 7471 7473; Sub 571 7474; AndEqz 751 7475; Mul 573 403; Add 7476 572; Sub 549 7477; AndEqz 752 7478;
  Mul 528 559; Mul 572 403; Add 7480 569; Mul 7479 7481; Mul 528 7472; Add 7468 572; Mul 7483 7484; Add 7482 7485;
  Add 529 530; Mul 7487 549; Add 7486 7488; Sub 574 7489; AndEqz 753 7490; Mul 6532 560; Mul 7491 564; Mul 6532 7464;
  Mul 7493 574; Add 7492 7494; Mul 530 549; Add 7495 7496; Sub 566 7497; AndEqz 754 7498; Mul 7491 574; Mul 7493 565;
  Add 7499 7500; Mul 530 550; Add 7501 7502; Sub 567 7503; AndEqz 755 7504; Add 6734 2768; Mul 911 535;
  Add 7505 7506; Mul 921 533; Add 7507 7508; Mul 931 531; Add 7509 7510; Sub 871 7511; Add 6749 5754; Add 7513 5756;
  Add 7514 7508; Add 7515 7510; Sub 871 7516; Mul 4989 7512; Mul 7518 7517; Mul 7512 430; Mul 7517 4400;
  Add 7520 7521; Sub 7519 7522; AndEqz 756 7523; Mul 6757 327; Add 7524 372; Mul 891 531; Add 2594 7526;
  Add 7527 2768; Add 7528 7506; Mul 921 536; Add 7529 7530; Mul 931 537; Add 7531 7532; Mul 941 547; Add 7533 7534;
  Mul 951 548; Add 7535 7536; Mul 961 551; Add 7537 7538; Mul 971 552; Add 7539 7540; Mul 981 553; Add 7541 7542;
  Mul 991 7525; Add 7543 7544; Sub 871 7545; Mul 5038 7546; Mul 7547 331; Mul 4400 331; Add 7549 409; Sub 7548 7550;
  AndEqz 757 7551; Add 1518 5045; Sub 1512 7552; AndEqz 758 7553; Mul 414 427; AndCond 651 7554 759; Sub 432 434;
  Mul 7555 402; Mul 901 7556; Add 1522 7557; Sub 871 7558; AndEqz 0 1537; Mul 1278 7559; Mul 7560 3850;
  Mul 7559 1265; Add 7562 3854; Sub 7561 7563; AndEqz 761 7564; Add 3843 1571; Add 7565 3846; Add 7566 3848;
  Sub 871 7567; Sub 1570 442; Sub 7569 410; Mul 901 7570; Add 1522 7571; Sub 871 7572; Mul 1297 7568; Mul 7574 7573;
  Mul 7568 1265; Mul 7573 428; Add 7576 7577; Sub 7575 7578; AndEqz 762 7579; Add 5203 1571; Add 7580 5206;
  Add 7581 5208; Sub 871 7582; Mul 5217 7583; Mul 7583 1265; Add 5219 7585; Sub 7584 7586; AndEqz 763 7587;
  Sub 1570 446; Sub 7588 410; Mul 901 7589; Add 1522 7590; Sub 871 7591; Mul 5981 330; Mul 7593 329; Sub 410 7593;
  Mul 7595 328; Add 7594 7596; Add 7597 449; Sub 7598 441; AndEqz 764 7599; Mul 440 392; Add 7597 7600; Add 7601 450;
  Sub 7602 445; AndEqz 765 7603; Sub 449 450; Mul 440 7604; AndEqz 766 7605; Mul 440 443; Mul 1611 447;
  Add 7606 7607; Sub 7608 451; AndEqz 767 7609; Mul 440 444; Mul 1611 448; Add 7610 7611; Sub 7612 452;
  AndEqz 768 7613; AndEqz 769 1650; AndEqz 770 1660; Mul 458 463; Sub 410 458; Mul 7615 461; Add 7614 7616;
  Mul 458 464; Mul 7615 462; Add 7618 7619; Add 7617 7620; AndEqz 771 1662; Mul 7621 460; Sub 7622 5242;
  AndEqz 772 7623; Mul 459 7621; AndEqz 773 7624; Mul 459 460; AndEqz 774 7625; Mul 1411 7592; Mul 7626 6090;
  Mul 7592 1265; Add 7628 6094; Sub 7627 7629; AndEqz 775 7630; AndEqz 776 1676; Add 1266 6917; Sub 871 7631;
  AndEqz 777 1680; Mul 466 407; Add 465 7633; Add 436 454; Sub 7634 7635; AndEqz 778 7636; Mul 468 407; Add 467 7637;
  Add 437 455; Add 7639 466; Sub 7638 7640; AndEqz 779 7641; Mul 457 5242; Mul 6059 459; Add 7642 7643; Mul 7644 465;
  Sub 410 7644; Mul 7646 438; Add 7645 7647; Mul 7644 467; Mul 7646 439; Add 7649 7650; Sub 469 7648;
  AndEqz 780 7652; Sub 470 7651; AndEqz 781 7653; Mul 891 432; Add 1460 7654; Mul 901 436; Add 7655 7656;
  Mul 911 437; Add 7657 7658; Mul 921 435; Add 7659 7660; Mul 931 433; Add 7661 7662; Sub 871 7663; Mul 1430 7632;
  Mul 7665 7664; Mul 7632 1265; Mul 7664 1265; Add 7667 7668; Sub 7666 7669; AndEqz 782 7670; Add 432 410;
  Mul 891 7671; Add 1460 7672; Mul 901 469; Add 7673 7674; Add 7675 6930; Add 7676 7660; Add 7677 7662; Sub 871 7678;
  Mul 891 456; Add 4146 7680; Add 7681 1557; Add 7682 1559; Add 7683 6029; Mul 931 452; Add 7684 7685; Mul 941 461;
  Add 7686 7687; Mul 951 462; Add 7688 7689; Mul 961 463; Add 7690 7691; Mul 971 464; Add 7692 7693; Sub 871 7694;
  Mul 1451 7679; Mul 7696 7695; Mul 7679 1265; Mul 7695 428; Add 7698 7699; Sub 7697 7700; AndEqz 783 7701;
  Mul 456 402; Add 7702 458; Mul 7703 402; Add 7704 457; Mul 7705 327; Add 7706 399; Add 2594 3792; Add 7708 7656;
  Add 7709 7658; Mul 921 438; Add 7710 7711; Mul 931 439; Add 7712 7713].

(* L8520-9019 POLY_EXT_DEF.block *)
Definition block_17 : list Step := [
  Mul 941 449; Add 7714 7715; Mul 951 450; Add 7716 7717; Add 7718 5286; Mul 971 454; Add 7719 7720; Mul 981 455;
  Add 7721 7722; Mul 991 7707; Add 7723 7724; Sub 871 7725; Sub 471 473; Mul 7727 402; Mul 901 7728; Add 1522 7729;
  Sub 871 7730; Mul 1479 7726; Mul 7732 7731; Mul 7726 2624; Mul 7731 1265; Add 7734 7735; Sub 7733 7736;
  AndEqz 784 7737; AndEqz 785 1702; Mul 891 480; Add 1554 7738; Mul 901 481; Add 7739 7740; Mul 911 482;
  Add 7741 7742; Mul 921 483; Add 7743 7744; Sub 871 7745; Mul 901 1866; Add 7739 7747; Add 7748 7742; Add 7749 7744;
  Sub 871 7750; Mul 1499 7746; Mul 7752 7751; Mul 7746 429; Mul 7751 2624; Add 7754 7755; Sub 7753 7756;
  AndEqz 786 7757; Sub 1866 481; Sub 7758 410; Mul 901 7759; Add 1522 7760; Sub 871 7761; Mul 891 484; Add 1554 7763;
  Mul 901 485; Add 7764 7765; Mul 911 486; Add 7766 7767; Add 7768 5420; Sub 871 7769; Mul 2667 7762; Mul 7771 7770;
  Mul 7762 2624; Mul 7770 2624; Add 7773 7774; Sub 7772 7775; AndEqz 787 7776; Add 7764 7747; Add 7777 7767;
  Add 7778 5420; Sub 871 7779; Sub 1866 485; Sub 7781 410; Mul 901 7782; Add 1522 7783; Sub 871 7784; Mul 2691 7780;
  Mul 7786 7785; Mul 7780 2624; Mul 7785 429; Add 7788 7789; Sub 7787 7790; AndEqz 788 7791; Mul 1692 330;
  Mul 7792 329; Sub 410 7792; Mul 7794 328; Add 7793 7795; Add 7796 488; Sub 7797 480; AndEqz 789 7798; Mul 479 392;
  Add 7796 7799; Add 7800 489; Sub 7801 484; AndEqz 790 7802; Sub 488 489; Mul 479 7803; AndEqz 791 7804;
  Mul 479 482; Sub 410 479; Mul 7806 486; Add 7805 7807; Sub 7808 490; AndEqz 792 7809; Mul 479 483; Mul 7806 487;
  Add 7810 7811; Sub 7812 491; AndEqz 793 7813; AndEqz 794 1734; AndEqz 795 1736; Mul 4308 500; Add 2558 7814;
  Mul 497 503; Mul 4308 501; Add 7816 7817; Add 7815 7818; AndEqz 796 1745; Mul 7819 499; Sub 410 498; Sub 7820 7821;
  AndEqz 797 7822; Mul 498 7819; AndEqz 798 7823; Mul 498 499; AndEqz 799 7824; Add 1266 5471; Sub 871 7825;
  AndEqz 800 6319; Mul 2717 7826; Mul 7827 7129; Mul 7826 2624; Add 7829 7136; Sub 7828 7830; AndEqz 801 7831;
  AndEqz 802 7131; Mul 505 407; Add 504 7832; Add 475 493; Sub 7833 7834; AndEqz 803 7835; Add 476 494; Add 7836 505;
  Sub 7143 7837; AndEqz 804 7838; Mul 496 7821; Sub 410 496; Mul 7840 498; Add 7839 7841; Mul 7842 504; Sub 410 7842;
  Mul 7844 477; Add 7843 7845; Mul 7842 506; Mul 7844 478; Add 7847 7848; Sub 508 7846; AndEqz 805 7850;
  Sub 509 7849; AndEqz 806 7851; Mul 891 471; Add 1460 7852; Add 7853 4338; Add 7854 4340; Mul 921 474;
  Add 7855 7856; Mul 931 472; Add 7857 7858; Sub 871 7859; Add 471 410; Mul 891 7861; Add 1460 7862; Add 7863 5503;
  Add 7864 5505; Add 7865 7856; Add 7866 7858; Sub 871 7867; Mul 2742 7860; Mul 7869 7868; Mul 7860 429;
  Mul 7868 2624; Add 7871 7872; Sub 7870 7873; AndEqz 807 7874; Add 4146 5558; Mul 901 482; Add 7875 7876;
  Mul 911 483; Add 7877 7878; Add 7879 6505; Add 7880 6507; Mul 941 500; Add 7881 7882; Mul 951 501; Add 7883 7884;
  Mul 961 502; Add 7885 7886; Mul 971 503; Add 7887 7888; Sub 871 7889; Add 5484 497; Mul 7891 402; Add 7892 496;
  Mul 7893 327; Add 7894 399; Add 2594 5306; Add 7896 4338; Add 7897 4340; Mul 921 477; Add 7898 7899; Mul 931 478;
  Add 7900 7901; Mul 941 488; Add 7902 7903; Mul 951 489; Add 7904 7905; Mul 961 492; Add 7906 7907; Mul 971 493;
  Add 7908 7909; Mul 981 494; Add 7910 7911; Mul 991 7895; Add 7912 7913; Sub 871 7914; Mul 2776 7890; Mul 7916 7915;
  Mul 7890 2624; Mul 7915 2624; Add 7918 7919; Sub 7917 7920; AndEqz 808 7921; Sub 510 512; Mul 7922 402;
  Mul 901 7923; Add 1522 7924; Sub 871 7925; AndEqz 809 2637; Mul 891 519; Add 1554 7927; Mul 901 520; Add 7928 7929;
  Mul 911 521; Add 7930 7931; Mul 921 522; Add 7932 7933; Sub 871 7934; Mul 3756 7926; Mul 7936 7935; Mul 7926 4400;
  Mul 7935 4400; Add 7938 7939; Sub 7937 7940; AndEqz 810 7941; Add 7928 2676; Add 7942 7931; Add 7943 7933;
  Sub 871 7944; Sub 2675 520; Sub 7946 410; Mul 901 7947; Add 1522 7948; Sub 871 7949; Mul 4420 7945; Mul 7951 7950;
  Mul 7945 4400; Mul 7950 430; Add 7953 7954; Sub 7952 7955; AndEqz 811 7956; Mul 891 523; Add 1554 7957;
  Add 7958 7198; Mul 911 525; Add 7959 7960; Mul 921 526; Add 7961 7962; Sub 871 7963; Add 7958 2676; Add 7965 7960;
  Add 7966 7962; Sub 871 7967; Mul 4444 7964; Mul 7969 7968; Mul 7964 430; Mul 7968 4400; Add 7971 7972;
  Sub 7970 7973; AndEqz 812 7974; Sub 2675 524; Sub 7975 410; Mul 901 7976; Add 1522 7977; Sub 871 7978;
  Mul 4405 330; Mul 7980 329; Sub 410 7980; Mul 7982 328; Add 7981 7983; Add 7984 527; Sub 7985 519; AndEqz 813 7986;
  Mul 518 392; Add 7984 7987; Add 7988 528; Sub 7989 523; AndEqz 814 7990; Sub 527 528; Mul 518 7991;
  AndEqz 815 7992; Mul 518 521; Mul 2731 525; Add 7993 7994; Sub 7995 529; AndEqz 816 7996; Mul 518 522;
  Mul 2731 526; Add 7997 7998; Sub 7999 530; AndEqz 817 8000; AndEqz 818 2785; AndEqz 819 2795; Mul 536 541;
  Mul 4564 539; Add 8001 8002; Mul 536 542; Mul 4564 540; Add 8004 8005; Add 8003 8006; AndEqz 820 2797;
  Mul 8007 538; Sub 410 537; Sub 8008 8009; AndEqz 821 8010; Mul 537 8007; AndEqz 822 8011; Mul 537 538;
  AndEqz 823 8012; Mul 901 543; Add 1266 8013; Sub 871 8014; Mul 4469 7979; Mul 8016 8015; Mul 7979 4400;
  Mul 8015 4400; Add 8018 8019; Sub 8017 8020; AndEqz 824 8021; AndEqz 825 2811; Add 1266 4831; Sub 871 8022;
  AndEqz 826 2815; Mul 544 407; Add 543 8024; Add 514 532; Sub 8025 8026; AndEqz 827 8027; Mul 546 407; Add 545 8028;
  Add 515 533; Add 8030 544; Sub 8029 8031; AndEqz 828 8032; Mul 535 8009; Sub 410 535; Mul 8034 537; Add 8033 8035;
  Mul 8036 543; Sub 410 8036; Mul 8038 516; Add 8037 8039; Mul 8036 545; Mul 8038 517; Add 8041 8042; Sub 547 8040;
  AndEqz 829 8044; Sub 548 8043; AndEqz 830 8045; Mul 891 510; Add 1460 8046; Mul 901 514; Add 8047 8048;
  Mul 911 515; Add 8049 8050; Mul 921 513; Add 8051 8052; Mul 931 511; Add 8053 8054; Sub 871 8055; Mul 4520 8023;
  Mul 8057 8056; Mul 8023 4400; Mul 8056 4400; Add 8059 8060; Sub 8058 8061; AndEqz 831 8062; Add 510 410;
  Mul 891 8063; Add 1460 8064; Add 8065 4843; Add 8066 4845; Add 8067 8052; Add 8068 8054; Sub 871 8069;
  Add 4146 5643; Add 8071 2655; Add 8072 2657; Add 8073 4512; Mul 931 530; Add 8074 8075; Mul 941 539; Add 8076 8077;
  Mul 951 540; Add 8078 8079; Mul 961 541; Add 8080 8081; Mul 971 542; Add 8082 8083; Sub 871 8084; Mul 4546 8070;
  Mul 8086 8085; Mul 8070 4400; Mul 8085 430; Add 8088 8089; Sub 8087 8090; AndEqz 832 8091; Mul 534 402;
  Add 8092 536; Mul 8093 402; Add 8094 535; Mul 8095 327; Add 8096 399; Mul 891 511; Add 2594 8098; Add 8099 8048;
  Add 8100 8050; Mul 921 516; Add 8101 8102; Mul 931 517; Add 8103 8104; Mul 941 527; Add 8105 8106; Mul 951 528;
  Add 8107 8108; Mul 961 531; Add 8109 8110; Mul 971 532; Add 8111 8112; Mul 981 533; Add 8113 8114; Mul 991 8097;
  Add 8115 8116; Sub 871 8117; Sub 549 551; Mul 8119 402; Mul 901 8120; Add 1522 8121; Sub 871 8122; Mul 4598 8118;
  Mul 8124 8123; Mul 8118 4661; Mul 8123 4400; Add 8126 8127; Sub 8125 8128; AndEqz 833 8129; AndEqz 834 2837;
  Add 1554 5945; Add 8130 6620; Mul 911 560; Add 8131 8132; Mul 921 561; Add 8133 8134; Sub 871 8135; Mul 901 3001;
  Add 8130 8137; Add 8138 8132; Add 8139 8134; Sub 871 8140; Mul 4651 8136; Mul 8142 8141; Mul 8136 431;
  Mul 8141 4661; Add 8144 8145; Sub 8143 8146; AndEqz 835 8147; Sub 3001 559; Sub 8148 410; Mul 901 8149;
  Add 1522 8150; Sub 871 8151; Mul 4679 8152; Mul 8153 4772; Mul 8152 4661; Add 8155 4782; Sub 8154 8156;
  AndEqz 836 8157; Add 4765 8137; Add 8158 4768; Add 8159 4770; Sub 871 8160].

(* L9020-9519 POLY_EXT_DEF.block *)
Definition block_18 : list Step := [
  Sub 3001 563; Sub 8162 410; Mul 901 8163; Add 1522 8164; Sub 871 8165; Mul 4703 8161; Mul 8167 8166; Mul 8161 4661;
  Mul 8166 431; Add 8169 8170; Sub 8168 8171; AndEqz 837 8172; Mul 2827 330; Mul 8173 329; Sub 410 8173;
  Mul 8175 328; Add 8174 8176; Add 8177 566; Sub 8178 558; AndEqz 838 8179; Mul 557 392; Add 8177 8180; Add 8181 567;
  Sub 8182 562; AndEqz 839 8183; Sub 566 567; Mul 557 8184; AndEqz 840 8185; Mul 557 560; Sub 410 557; Mul 8187 564;
  Add 8186 8188; Sub 8189 568; AndEqz 841 8190; Mul 557 561; Mul 8187 565; Add 8191 8192; Sub 8193 569;
  AndEqz 842 8194; AndEqz 843 2869; AndEqz 844 2871; Sub 410 575; Mul 8195 578; Add 3693 8196; Mul 575 581;
  Mul 8195 579; Add 8198 8199; Add 8197 8200; AndEqz 845 2880; Mul 8201 577; Sub 410 576; Sub 8202 8203;
  AndEqz 846 8204; Mul 576 8201; AndEqz 847 8205; Mul 576 577; AndEqz 848 8206; Mul 901 582; Add 1266 8207;
  Sub 871 8208; AndEqz 849 5883; Mul 901 584; Add 1266 8210; Sub 871 8211; Mul 4729 8209; Mul 8213 8212;
  Mul 8209 4661; Mul 8212 4661; Add 8215 8216; Sub 8214 8217; AndEqz 850 8218; AndEqz 851 4924; Mul 583 407;
  Add 582 8219; Add 553 571; Sub 8220 8221; AndEqz 852 8222; Mul 585 407; Add 584 8223; Add 554 572; Add 8225 583;
  Sub 8224 8226; AndEqz 853 8227; Mul 574 8203; Sub 410 574; Mul 8229 576; Add 8228 8230; Mul 8231 582; Sub 410 8231;
  Mul 8233 555; Add 8232 8234; Mul 8231 584; Mul 8233 556; Add 8236 8237; Sub 586 8235; AndEqz 854 8239;
  Sub 587 8238; AndEqz 855 8240; Mul 891 549; Add 1460 8241; Mul 901 553; Add 8242 8243; Mul 911 554; Add 8244 8245;
  Mul 921 552; Add 8246 8247; Add 8248 5760; Sub 871 8249; Add 549 410; Mul 891 8251; Add 1460 8252; Mul 901 586;
  Add 8253 8254; Mul 911 587; Add 8255 8256; Add 8257 8247; Add 8258 5760; Sub 871 8259; Mul 4778 8250;
  Mul 8261 8260; Mul 8250 431; Mul 8260 4661; Add 8263 8264; Sub 8262 8265; AndEqz 856 8266; Mul 891 573;
  Add 4146 8267; Mul 901 560; Add 8268 8269; Mul 911 561; Add 8270 8271; Add 8272 5813; Mul 931 569; Add 8273 8274;
  Mul 941 578; Add 8275 8276; Mul 951 579; Add 8277 8278; Mul 961 580; Add 8279 8280; Mul 971 581; Add 8281 8282;
  Sub 871 8283; Mul 573 402; Add 8285 575; Mul 8286 402; Add 8287 574; Mul 8288 327; Add 8289 399; Add 2594 4665;
  Add 8291 8243; Add 8292 8245; Mul 921 555; Add 8293 8294; Mul 931 556; Add 8295 8296; Mul 941 566; Add 8297 8298;
  Mul 951 567; Add 8299 8300; Mul 961 570; Add 8301 8302; Mul 971 571; Add 8303 8304; Mul 981 572; Add 8305 8306;
  Mul 991 8290; Add 8307 8308; Sub 871 8309; Mul 4804 8284; Mul 8311 8310; Mul 8284 4661; Mul 8310 4661;
  Add 8313 8314; Sub 8312 8315; AndEqz 857 8316; Add 1518 4811; Sub 1512 8317; AndEqz 858 8318; Mul 415 420;
  AndCond 760 8319 859; Sub 435 437; Mul 8320 402; Mul 901 8321; Add 1522 8322; Sub 871 8323; Mul 1278 8324;
  Mul 8325 5210; Mul 8324 1265; Mul 5210 1265; Add 8327 8328; Sub 8326 8329; AndEqz 0 8330; Mul 435 402;
  Add 8331 410; Mul 901 8332; Add 5203 8333; Add 8334 5212; Add 8335 5214; Sub 871 8336; Sub 8332 446; Sub 8338 410;
  Mul 901 8339; Add 1522 8340; Sub 871 8341; Mul 1297 8337; Mul 8343 8342; Mul 8337 1265; Mul 8342 428;
  Add 8345 8346; Sub 8344 8347; AndEqz 861 8348; AndEqz 862 1625; Mul 451 453; Sub 410 452; Sub 8349 8350;
  AndEqz 863 8351; AndEqz 864 1768; Mul 452 453; AndEqz 865 8352; Sub 438 410; Mul 438 8353; Mul 8354 330;
  Mul 8355 329; Sub 410 8355; Mul 8357 328; Add 8356 8358; Mul 452 392; Add 8359 8360; Add 8361 451; Sub 8362 445;
  AndEqz 866 8363; AndEqz 867 1650; Mul 1391 1642; Mul 8364 6876; Add 1646 6880; Sub 8365 8366; AndEqz 868 8367;
  AndEqz 869 1662; Add 439 454; Sub 1656 8368; AndEqz 870 8369; Add 440 455; Add 8370 457; Sub 6887 8371;
  AndEqz 871 8372; Sub 441 449; AndEqz 872 8373; Sub 442 450; AndEqz 873 8374; Add 1460 7028; Add 8375 4132;
  Add 8376 4134; Add 8377 7711; Mul 931 436; Add 8378 8379; Sub 871 8380; Add 435 410; Mul 891 8382; Add 1460 8383;
  Add 8384 1640; Add 8385 4088; Add 8386 7711; Add 8387 8379; Sub 871 8388; Mul 1411 8381; Mul 8390 8389;
  Mul 8381 428; Mul 8389 1265; Add 8392 8393; Sub 8391 8394; AndEqz 874 8395; Mul 891 436; Add 2594 8396;
  Add 8397 4132; Add 8398 4134; Mul 921 441; Add 8399 8400; Mul 931 442; Add 8401 8402; Mul 941 443; Add 8403 8404;
  Mul 951 444; Add 8405 8406; Mul 961 451; Add 8407 8408; Add 8409 7720; Add 8410 7722; Mul 991 376; Add 8411 8412;
  Sub 871 8413; Sub 460 462; Mul 8415 402; Mul 901 8416; Add 1522 8417; Sub 871 8418; Mul 1430 8414; Mul 8420 8419;
  Mul 8414 2624; Mul 8419 1265; Add 8422 8423; Sub 8421 8424; AndEqz 875 8425; Add 1554 4373; Mul 901 471;
  Add 8426 8427; Mul 911 472; Add 8428 8429; Mul 921 473; Add 8430 8431; Sub 871 8432; Mul 460 402; Add 8434 410;
  Mul 901 8435; Add 8426 8436; Add 8437 4328; Add 8438 4377; Sub 871 8439; Mul 1451 8433; Mul 8441 8440;
  Mul 8433 429; Mul 8440 2624; Add 8443 8444; Sub 8442 8445; AndEqz 876 8446; Sub 8435 471; Sub 8447 410;
  Mul 901 8448; Add 1522 8449; Sub 871 8450; AndEqz 877 1698; Mul 476 478; Sub 8452 4266; AndEqz 878 8453;
  Mul 477 476; AndEqz 879 8454; Mul 477 478; AndEqz 880 8455; Mul 1670 330; Mul 8456 329; Sub 410 8456; Mul 8458 328;
  Add 8457 8459; Add 8460 4259; Add 8461 476; Sub 8462 470; AndEqz 881 8463; Add 1266 7740; Sub 871 8464;
  Mul 1479 8451; Mul 8466 8465; Mul 8451 2624; Mul 8465 2624; Add 8468 8469; Sub 8467 8470; AndEqz 882 8471;
  AndEqz 883 1708; Add 1266 4230; Sub 871 8472; AndEqz 884 1712; Mul 482 407; Add 481 8474; Add 464 479;
  Sub 8475 8476; AndEqz 885 8477; Mul 484 407; Add 483 8478; Add 465 480; Add 8480 482; Sub 8479 8481;
  AndEqz 886 8482; Sub 466 474; AndEqz 887 8483; Sub 467 475; AndEqz 888 8484; Mul 891 460; Add 1460 8485;
  Mul 901 464; Add 8486 8487; Mul 911 465; Add 8488 8489; Mul 921 463; Add 8490 8491; Mul 931 461; Add 8492 8493;
  Sub 871 8494; Mul 1499 8473; Mul 8496 8495; Mul 8473 2624; Mul 8495 2624; Add 8498 8499; Sub 8497 8500;
  AndEqz 889 8501; Add 460 410; Mul 891 8502; Add 1460 8503; Add 8504 7740; Add 8505 7878; Add 8506 8491;
  Add 8507 8493; Sub 871 8508; Mul 891 461; Add 2594 8510; Add 8511 8487; Add 8512 8489; Mul 921 466; Add 8513 8514;
  Mul 931 467; Add 8515 8516; Mul 941 468; Add 8517 8518; Mul 951 469; Add 8519 8520; Mul 961 476; Add 8521 8522;
  Mul 971 479; Add 8523 8524; Mul 981 480; Add 8525 8526; Add 8527 8412; Sub 871 8528; Mul 2667 8509; Mul 8530 8529;
  Mul 8509 2624; Mul 8529 429; Add 8532 8533; Sub 8531 8534; AndEqz 890 8535; Sub 485 487; Mul 8536 402;
  Mul 901 8537; Add 1522 8538; Sub 871 8539; Mul 2691 8540; Mul 8541 7086; Mul 8540 4400; Mul 7086 4400;
  Add 8543 8544; Sub 8542 8545; AndEqz 891 8546; Mul 485 402; Add 8547 410; Mul 901 8548; Add 7080 8549; Mul 911 499;
  Add 8550 8551; Mul 921 500; Add 8552 8553; Sub 871 8554; Sub 8548 496; Sub 8556 410; Mul 901 8557; Add 1522 8558;
  Sub 871 8559; Mul 2717 8555; Mul 8561 8560; Mul 8555 4400; Mul 8560 430; Add 8563 8564; Sub 8562 8565;
  AndEqz 892 8566; AndEqz 893 1753; Mul 501 503; Sub 410 502; Sub 8567 8568; AndEqz 894 8569; Mul 502 501;
  AndEqz 895 8570; Mul 502 503; AndEqz 896 8571; Mul 1720 330; Mul 8572 329; Sub 410 8572; Mul 8574 328;
  Add 8573 8575; Mul 502 392; Add 8576 8577; Add 8578 501; Sub 8579 495; AndEqz 897 8580; AndEqz 898 7131;
  Mul 2742 7129; Mul 8581 7133; Mul 7129 4400; Mul 7133 4400; Add 8583 8584; Sub 8582 8585; AndEqz 899 8586;
  AndEqz 900 7141; Add 489 504; Sub 7143 8587; AndEqz 901 8588; Add 490 505; Add 8589 507; Sub 7147 8590;
  AndEqz 902 8591; Sub 491 499; AndEqz 903 8592; Sub 492 500; AndEqz 904 8593].

(* L9520-10019 POLY_EXT_DEF.block *)
Definition block_19 : list Step := [
  Add 1460 6501; Mul 901 489; Add 8594 8595; Mul 911 490; Add 8596 8597; Add 8598 4357; Mul 931 486; Add 8599 8600;
  Sub 871 8601; Add 485 410; Mul 891 8603; Add 1460 8604; Add 8605 7127; Mul 911 508; Add 8606 8607; Add 8608 4357;
  Add 8609 8600; Sub 871 8610; Mul 2776 8602; Mul 8612 8611; Mul 8602 430; Mul 8611 4400; Add 8614 8615;
  Sub 8613 8616; AndEqz 905 8617; Mul 891 486; Add 2594 8618; Add 8619 8595; Add 8620 8597; Mul 921 491;
  Add 8621 8622; Mul 931 492; Add 8623 8624; Mul 941 493; Add 8625 8626; Mul 951 494; Add 8627 8628; Mul 961 501;
  Add 8629 8630; Add 8631 4367; Add 8632 7286; Add 8633 8412; Sub 871 8634; Mul 3756 8635; Mul 8636 7926;
  Mul 8635 4661; Add 8638 7938; Sub 8637 8639; AndEqz 906 8640; Add 2675 410; Mul 901 8641; Add 2654 8642;
  Mul 911 524; Add 8643 8644; Mul 921 525; Add 8645 8646; Sub 871 8647; Mul 4420 2661; Mul 8649 8648; Mul 2661 431;
  Mul 8648 4661; Add 8651 8652; Sub 8650 8653; AndEqz 907 8654; Sub 8641 521; Sub 8655 410; Mul 901 8656;
  Add 1522 8657; Sub 871 8658; Sub 527 410; Mul 527 8660; AndEqz 908 8661; Mul 526 528; Sub 410 527; Sub 8662 8663;
  AndEqz 909 8664; Mul 527 526; AndEqz 910 8665; Mul 527 528; AndEqz 911 8666; Mul 527 392; Add 7984 8667;
  Add 8668 526; Sub 8669 520; AndEqz 912 8670; Mul 901 531; Add 1266 8671; Sub 871 8672; Mul 4444 8659;
  Mul 8674 8673; Mul 8659 4661; Mul 8673 4661; Add 8676 8677; Sub 8675 8678; AndEqz 913 8679; AndEqz 914 6531;
  Mul 901 533; Add 1266 8680; Sub 871 8681; Sub 534 410; Mul 534 8683; AndEqz 915 8684; Mul 532 407; Add 531 8685;
  Add 514 529; Sub 8686 8687; AndEqz 916 8688; Mul 534 407; Add 533 8689; Add 515 530; Add 8691 532; Sub 8690 8692;
  AndEqz 917 8693; Sub 516 524; AndEqz 918 8694; Sub 517 525; AndEqz 919 8695; Mul 4469 8682; Mul 8696 8056;
  Mul 8682 4661; Mul 8056 4661; Add 8698 8699; Sub 8697 8700; AndEqz 920 8701; Add 8065 8671; Add 8702 5741;
  Add 8703 8052; Add 8704 8054; Sub 871 8705; Mul 941 518; Add 8105 8707; Mul 951 519; Add 8708 8709; Mul 961 526;
  Add 8710 8711; Mul 971 529; Add 8712 8713; Mul 981 530; Add 8714 8715; Add 8716 8412; Sub 871 8717; Mul 4520 8706;
  Mul 8719 8718; Mul 8706 4661; Mul 8718 431; Add 8721 8722; Sub 8720 8723; AndEqz 921 8724; Sub 535 537;
  Mul 8725 402; Mul 901 8726; Add 1522 8727; Sub 871 8728; Mul 891 545; Add 1554 8730; Mul 901 546; Add 8731 8732;
  Mul 911 547; Add 8733 8734; Mul 921 548; Add 8735 8736; Sub 871 8737; Mul 4546 8729; Mul 8739 8738; Mul 8729 4919;
  Mul 8738 4919; Add 8741 8742; Sub 8740 8743; AndEqz 922 8744; Add 4624 410; Mul 901 8745; Add 8731 8746;
  Mul 911 549; Add 8747 8748; Mul 921 550; Add 8749 8750; Sub 871 8751; Sub 8745 546; Sub 8753 410; Mul 901 8754;
  Add 1522 8755; Sub 871 8756; Mul 4598 8752; Mul 8758 8757; Mul 8752 4919; Mul 8757 432; Add 8760 8761;
  Sub 8759 8762; AndEqz 923 8763; AndEqz 924 2827; Mul 551 553; Sub 8764 5720; AndEqz 925 8765; Mul 552 551;
  AndEqz 926 8766; AndEqz 927 6605; Mul 2799 330; Mul 8767 329; Sub 410 8767; Mul 8769 328; Add 8768 8770;
  Mul 552 392; Add 8771 8772; Add 8773 551; Sub 8774 545; AndEqz 928 8775; AndEqz 929 2837; Mul 4651 7390;
  Mul 8776 7402; Mul 7390 4919; Mul 7402 4919; Add 8778 8779; Sub 8777 8780; AndEqz 930 8781; AndEqz 931 2841;
  Add 539 554; Sub 7396 8782; AndEqz 932 8783; Mul 559 407; Add 558 8784; Add 540 555; Add 8786 557; Sub 8785 8787;
  AndEqz 933 8788; Sub 541 549; AndEqz 934 8789; Sub 542 550; AndEqz 935 8790; Add 1460 4606; Add 8791 5671;
  Add 8792 5673; Add 8793 6768; Mul 931 536; Add 8794 8795; Sub 871 8796; Add 535 410; Mul 891 8798; Add 1460 8799;
  Add 8800 7388; Mul 911 558; Add 8801 8802; Add 8803 6768; Add 8804 8795; Sub 871 8805; Mul 4679 8797;
  Mul 8807 8806; Mul 8797 432; Mul 8806 4919; Add 8809 8810; Sub 8808 8811; AndEqz 936 8812; Mul 891 536;
  Add 2594 8813; Add 8814 5671; Add 8815 5673; Add 8816 5675; Add 8817 4837; Mul 941 543; Add 8818 8819; Mul 951 544;
  Add 8820 8821; Add 8822 7538; Mul 971 554; Add 8823 8824; Mul 981 555; Add 8825 8826; Add 8827 8412; Sub 871 8828;
  Sub 560 562; Mul 8830 402; Sub 0 433; Mul 901 8831; Add 1522 8833; Sub 871 8834; Mul 4703 8829; Mul 8836 8835;
  Mul 8829 8832; Mul 8835 4919; Add 8838 8839; Sub 8837 8840; AndEqz 937 8841; Mul 891 570; Add 1554 8842;
  Add 8843 6678; Mul 911 572; Add 8844 8845; Mul 921 573; Add 8846 8847; Sub 871 8848; Add 7409 410; Mul 901 8850;
  Add 8843 8851; Mul 911 574; Add 8852 8853; Mul 921 575; Add 8854 8855; Sub 871 8856; Mul 4729 8849; Mul 8858 8857;
  Mul 8849 433; Mul 8857 8832; Add 8860 8861; Sub 8859 8862; AndEqz 938 8863; Sub 8850 571; Sub 8864 410;
  Mul 901 8865; Add 1522 8866; Sub 871 8867; AndEqz 939 2882; Mul 576 578; Sub 410 577; Sub 8869 8870;
  AndEqz 940 8871; AndEqz 941 8206; AndEqz 942 5876; Mul 2849 330; Mul 8872 329; Sub 410 8872; Mul 8874 328;
  Add 8873 8875; Mul 577 392; Add 8876 8877; Add 8878 576; Sub 8879 570; AndEqz 943 8880; Add 1266 5096;
  Sub 871 8881; Mul 4778 8868; Mul 8883 8882; Mul 8868 8832; Mul 8882 8832; Add 8885 8886; Sub 8884 8887;
  AndEqz 944 8888; AndEqz 945 2892; Add 1266 5108; Sub 871 8889; Sub 584 410; Mul 584 8891; AndEqz 946 8892;
  Mul 582 407; Add 581 8893; Add 564 579; Sub 8894 8895; AndEqz 947 8896; Mul 584 407; Add 583 8897; Add 565 580;
  Add 8899 582; Sub 8898 8900; AndEqz 948 8901; Sub 566 574; AndEqz 949 8902; Sub 567 575; AndEqz 950 8903;
  Mul 891 560; Add 1460 8904; Add 8905 6645; Mul 911 565; Add 8906 8907; Add 8908 5949; Add 8909 4871; Sub 871 8910;
  Mul 4804 8890; Mul 8912 8911; Mul 8890 8832; Mul 8911 8832; Add 8914 8915; Sub 8913 8916; AndEqz 951 8917;
  Add 560 410; Mul 891 8918; Add 1460 8919; Add 8920 5096; Mul 911 583; Add 8921 8922; Add 8923 5949; Add 8924 4871;
  Sub 871 8925; Mul 891 561; Add 2594 8927; Add 8928 6645; Add 8929 8907; Mul 921 566; Add 8930 8931; Mul 931 567;
  Add 8932 8933; Mul 941 568; Add 8934 8935; Mul 951 569; Add 8936 8937; Mul 961 576; Add 8938 8939; Mul 971 579;
  Add 8940 8941; Mul 981 580; Add 8942 8943; Add 8944 8412; Sub 871 8945; Mul 4855 8926; Mul 8947 8946;
  Mul 8926 8832; Mul 8946 433; Add 8949 8950; Sub 8948 8951; AndEqz 952 8952; Sub 585 587; Mul 8953 402; Sub 0 434;
  Mul 901 8954; Add 1522 8956; Sub 871 8957; Mul 891 595; Add 1554 8959; Mul 901 596; Add 8960 8961; Mul 911 597;
  Add 8962 8963; Mul 921 598; Add 8964 8965; Sub 871 8966; Mul 4909 8958; Mul 8968 8967; Mul 8958 8955;
  Mul 8967 8955; Add 8970 8971; Sub 8969 8972; AndEqz 953 8973; Mul 585 402; Add 8974 410; Mul 901 8975;
  Add 8960 8976; Mul 911 599; Add 8977 8978; Mul 921 600; Add 8979 8980; Sub 871 8981; Sub 8975 596; Sub 8983 410;
  Mul 901 8984; Add 1522 8985; Sub 871 8986; Mul 4939 8982; Mul 8988 8987; Mul 8982 8955; Mul 8987 434;
  Add 8990 8991; Sub 8989 8992; AndEqz 954 8993; Sub 602 410; Mul 602 8994; AndEqz 955 8995; Mul 601 603;
  Sub 410 602; Sub 8996 8997; AndEqz 956 8998; Mul 602 601; AndEqz 957 8999; Mul 602 603; AndEqz 958 9000;
  Sub 588 410; Mul 588 9001; Mul 9002 330; Mul 9003 329; Sub 410 9003; Mul 9005 328; Add 9004 9006; Mul 602 392;
  Add 9007 9008; Add 9009 601; Sub 9010 595; AndEqz 959 9011; Mul 901 606; Add 1266 9012; Sub 871 9013; Sub 607 410;
  Mul 607 9015; AndEqz 960 9016; Mul 901 608; Add 1266 9017; Sub 871 9018; Mul 4963 9014; Mul 9020 9019;
  Mul 9014 8955; Mul 9019 8955; Add 9022 9023; Sub 9021 9024; AndEqz 961 9025; Sub 609 410; Mul 609 9026;
  AndEqz 962 9027; Mul 607 407; Add 606 9028; Add 589 604; Sub 9029 9030; AndEqz 963 9031; Mul 609 407; Add 608 9032;
  Add 590 605].

(* L10020-10519 POLY_EXT_DEF.block *)
Definition block_20 : list Step := [
  Add 9034 607; Sub 9033 9035; AndEqz 964 9036; Sub 591 599; AndEqz 965 9037; Sub 592 600; AndEqz 966 9038;
  Mul 891 585; Add 1460 9039; Mul 901 589; Add 9040 9041; Mul 911 590; Add 9042 9043; Mul 921 588; Add 9044 9045;
  Mul 931 586; Add 9046 9047; Sub 871 9048; Add 585 410; Mul 891 9050; Add 1460 9051; Add 9052 9012; Mul 911 608;
  Add 9053 9054; Add 9055 9045; Add 9056 9047; Sub 871 9057; Mul 4989 9049; Mul 9059 9058; Mul 9049 434;
  Mul 9058 8955; Add 9061 9062; Sub 9060 9063; AndEqz 967 9064; Add 2594 4925; Add 9065 9041; Add 9066 9043;
  Mul 921 591; Add 9067 9068; Mul 931 592; Add 9069 9070; Mul 941 593; Add 9071 9072; Mul 951 594; Add 9073 9074;
  Mul 961 601; Add 9075 9076; Mul 971 604; Add 9077 9078; Mul 981 605; Add 9079 9080; Add 9081 8412; Sub 871 9082;
  Mul 5038 9083; Mul 9084 331; Mul 8955 331; Add 9086 409; Sub 9085 9087; AndEqz 968 9088; AndEqz 969 7553;
  Mul 415 421; AndCond 860 9089 970; Sub 434 436; Mul 9090 402; Mul 901 9091; Add 1522 9092; Sub 871 9093;
  Mul 1278 9094; Mul 9095 1563; Mul 9094 1265; Add 9097 1567; Sub 9096 9098; AndEqz 0 9099; Mul 901 6214;
  Add 1556 9100; Add 9101 1559; Add 9102 1561; Sub 871 9103; Sub 6214 443; Sub 9105 410; Mul 901 9106; Add 1522 9107;
  Sub 871 9108; Mul 1297 9104; Mul 9110 9109; Mul 9104 1265; Mul 9109 428; Add 9112 9113; Sub 9111 9114;
  AndEqz 972 9115; Add 6856 446; Sub 9116 442; AndEqz 973 9117; Add 6214 410; Mul 901 9118; Add 6025 9119;
  Add 9120 6035; Add 9121 6037; Sub 871 9122; Mul 6040 9123; Mul 9123 1265; Add 6042 9125; Sub 9124 9126;
  AndEqz 974 9127; Sub 9118 449; Sub 9128 410; Mul 901 9129; Add 1522 9130; Sub 871 9131; AndEqz 975 1639;
  Mul 454 456; Sub 410 455; Sub 9133 9134; AndEqz 976 9135; AndEqz 977 5236; Mul 455 456; AndEqz 978 9136;
  Mul 455 392; Add 6856 9137; Add 9138 454; Sub 9139 448; AndEqz 979 9140; Mul 901 459; Add 1266 9141; Sub 871 9142;
  Mul 1411 9132; Mul 9144 9143; Mul 9132 1265; Mul 9143 1265; Add 9146 9147; Sub 9145 9148; AndEqz 980 9149;
  AndEqz 981 1664; AndEqz 982 1668; Mul 460 407; Add 459 9150; Add 444 457; Sub 9151 9152; AndEqz 983 9153;
  Add 445 458; Add 9154 460; Sub 6080 9155; AndEqz 984 9156; Sub 440 452; AndEqz 985 9157; Sub 441 453;
  AndEqz 986 9158; Add 1460 4168; Add 9159 1525; Add 9160 3822; Add 9161 7010; Add 9162 7012; Sub 871 9163;
  Mul 1430 6069; Mul 9165 9164; Mul 9164 1265; Add 6073 9167; Sub 9166 9168; AndEqz 987 9169; Add 434 410;
  Mul 891 9170; Add 1460 9171; Add 9172 9141; Mul 911 461; Add 9173 9174; Add 9175 7010; Add 9176 7012; Sub 871 9177;
  Mul 941 446; Add 7034 9179; Mul 951 447; Add 9180 9181; Mul 961 454; Add 9182 9183; Mul 971 457; Add 9184 9185;
  Mul 981 458; Add 9186 9187; Mul 991 395; Add 9188 9189; Sub 871 9190; Mul 1451 9178; Mul 9192 9191; Mul 9178 1265;
  Mul 9191 428; Add 9194 9195; Sub 9193 9196; AndEqz 988 9197; Sub 463 465; Mul 9198 402; Mul 901 9199;
  Add 1522 9200; Sub 871 9201; Add 1554 7852; Mul 901 472; Add 9203 9204; Mul 911 473; Add 9205 9206; Add 9207 7856;
  Sub 871 9208; Mul 1479 9202; Mul 9210 9209; Mul 9202 2624; Mul 9209 2624; Add 9212 9213; Sub 9211 9214;
  AndEqz 989 9215; Mul 901 4165; Add 9203 9216; Add 9217 9206; Add 9218 7856; Sub 871 9219; Sub 4165 472;
  Sub 9221 410; Mul 901 9222; Add 1522 9223; Sub 871 9224; Mul 1499 9220; Mul 9226 9225; Mul 9220 2624; Mul 9225 429;
  Add 9228 9229; Sub 9227 9230; AndEqz 990 9231; Mul 1676 330; Mul 9232 329; Sub 410 9232; Mul 9234 328;
  Add 9233 9235; Add 9236 475; Sub 9237 471; AndEqz 991 9238; Mul 891 477; Add 1554 9239; Add 9240 6150; Mul 911 479;
  Add 9241 9242; Mul 921 480; Add 9243 9244; Sub 871 9245; Add 4165 410; Mul 901 9247; Add 9240 9248; Add 9249 4355;
  Mul 921 482; Add 9250 9251; Sub 871 9252; Mul 2667 9246; Mul 9254 9253; Mul 9246 429; Mul 9253 2624; Add 9256 9257;
  Sub 9255 9258; AndEqz 992 9259; Sub 9247 478; Sub 9260 410; Mul 901 9261; Add 1522 9262; Sub 871 9263;
  AndEqz 993 1712; Mul 483 485; Sub 410 484; Sub 9265 9266; AndEqz 994 9267; Mul 484 483; AndEqz 995 9268;
  AndEqz 996 5371; Mul 484 392; Add 9236 9269; Add 9270 483; Sub 9271 477; AndEqz 997 9272; Add 1266 6469;
  Sub 871 9273; Mul 2691 9264; Mul 9275 9274; Mul 9264 2624; Mul 9274 2624; Add 9277 9278; Sub 9276 9279;
  AndEqz 998 9280; AndEqz 999 1722; Add 1266 6486; Sub 871 9281; AndEqz 1000 1724; Mul 489 407; Add 488 9283;
  Add 473 486; Sub 9284 9285; AndEqz 1001 9286; Mul 491 407; Add 490 9287; Add 474 487; Add 9289 489; Sub 9288 9290;
  AndEqz 1002 9291; Sub 469 481; AndEqz 1003 9292; Sub 470 482; AndEqz 1004 9293; Add 1460 4147; Add 9294 6917;
  Add 9295 6919; Add 9296 8514; Mul 931 464; Add 9297 9298; Sub 871 9299; Mul 2717 9282; Mul 9301 9300;
  Mul 9282 2624; Mul 9300 2624; Add 9303 9304; Sub 9302 9305; AndEqz 1005 9306; Add 463 410; Mul 891 9307;
  Add 1460 9308; Add 9309 6469; Add 9310 8597; Add 9311 8514; Add 9312 9298; Sub 871 9313; Add 2594 5387;
  Add 9315 6917; Add 9316 6919; Add 9317 6921; Add 9318 4332; Mul 941 475; Add 9319 9320; Mul 951 476; Add 9321 9322;
  Mul 961 483; Add 9323 9324; Mul 971 486; Add 9325 9326; Mul 981 487; Add 9327 9328; Add 9329 9189; Sub 871 9330;
  Mul 2742 9314; Mul 9332 9331; Mul 9314 2624; Mul 9331 429; Add 9334 9335; Sub 9333 9336; AndEqz 1006 9337;
  Sub 492 494; Mul 9338 402; Mul 901 9339; Add 1522 9340; Sub 871 9341; Mul 891 500; Add 1554 9343; Add 9344 5578;
  Add 9345 5580; Mul 921 503; Add 9346 9347; Sub 871 9348; Mul 2776 9342; Mul 9350 9349; Mul 9342 4400;
  Mul 9349 4400; Add 9352 9353; Sub 9351 9354; AndEqz 1007 9355; Mul 492 402; Mul 901 9356; Add 9344 9357;
  Add 9358 5580; Add 9359 9347; Sub 871 9360; Sub 9356 501; Sub 9362 410; Mul 901 9363; Add 1522 9364; Sub 871 9365;
  Mul 3756 9361; Mul 9367 9366; Mul 9361 4400; Mul 9366 430; Add 9369 9370; Sub 9368 9371; AndEqz 1008 9372;
  Mul 1732 330; Mul 9373 329; Sub 410 9373; Mul 9375 328; Add 9374 9376; Add 9377 504; Sub 9378 500;
  AndEqz 1009 9379; Add 1554 4627; Mul 901 507; Add 9380 9381; Add 9382 8607; Mul 921 509; Add 9383 9384;
  Sub 871 9385; Add 9356 410; Mul 901 9387; Add 9380 9388; Add 9389 4576; Add 9390 4631; Sub 871 9391; Mul 4420 9386;
  Mul 9393 9392; Mul 9386 430; Mul 9392 4400; Add 9395 9396; Sub 9394 9397; AndEqz 1010 9398; Sub 9387 507;
  Sub 9399 410; Mul 901 9400; Add 1522 9401; Sub 871 9402; AndEqz 1011 4405; Mul 512 514; Sub 9404 4498;
  AndEqz 1012 9405; Mul 513 512; AndEqz 1013 9406; Mul 513 514; AndEqz 1014 9407; Add 9377 4491; Add 9408 512;
  Sub 9409 506; AndEqz 1015 9410; Mul 901 517; Add 1266 9411; Sub 871 9412; Mul 4444 9403; Mul 9414 9413;
  Mul 9403 4400; Mul 9413 4400; Add 9416 9417; Sub 9415 9418; AndEqz 1016 9419; AndEqz 1017 2637; Sub 520 410;
  Mul 520 9420; AndEqz 1018 9421; Mul 518 407; Add 517 9422; Add 502 515; Sub 9423 9424; AndEqz 1019 9425;
  Mul 520 407; Add 519 9426; Add 503 516; Add 9428 518; Sub 9427 9429; AndEqz 1020 9430; Sub 498 510;
  AndEqz 1021 9431; Sub 499 511; AndEqz 1022 9432; Add 1460 6257; Add 9433 7081; Add 9434 7083; Add 9435 4294;
  Mul 931 493; Add 9436 9437; Sub 871 9438; Mul 4469 2645; Mul 9440 9439; Mul 2645 4400; Mul 9439 4400;
  Add 9442 9443; Sub 9441 9444; AndEqz 1023 9445; Add 492 410; Mul 891 9446; Add 1460 9447; Add 9448 9411;
  Add 9449 6381; Add 9450 4294; Add 9451 9437; Sub 871 9452; Mul 891 493; Add 2594 9454; Add 9455 7081;
  Add 9456 7083; Add 9457 5564; Mul 931 499; Add 9458 9459; Mul 941 504; Add 9460 9461; Mul 951 505; Add 9462 9463;
  Mul 961 512; Add 9464 9465; Mul 971 515; Add 9466 9467; Mul 981 516; Add 9468 9469; Add 9470 9189; Sub 871 9471;
  Mul 4520 9453; Mul 9473 9472].

(* L10520-11019 POLY_EXT_DEF.block *)
Definition block_21 : list Step := [
  Mul 9453 4400; Mul 9472 430; Add 9475 9476; Sub 9474 9477; AndEqz 1024 9478; Sub 521 523; Mul 9479 402;
  Mul 901 9480; Add 1522 9481; Sub 871 9482; Mul 891 529; Add 1554 9484; Add 9485 5729; Add 9486 5731; Add 9487 5779;
  Sub 871 9488; Mul 4546 9483; Mul 9490 9489; Mul 9483 4661; Mul 9489 4661; Add 9492 9493; Sub 9491 9494;
  AndEqz 1025 9495; Mul 521 402; Mul 901 9496; Add 9485 9497; Add 9498 5731; Add 9499 5779; Sub 871 9500;
  Sub 9496 530; Sub 9502 410; Mul 901 9503; Add 1522 9504; Sub 871 9505; Mul 4598 9501; Mul 9507 9506; Mul 9501 4661;
  Mul 9506 431; Add 9509 9510; Sub 9508 9511; AndEqz 1026 9512; Sub 524 410; Mul 524 9513; Mul 9514 330;
  Mul 9515 329; Sub 410 9515; Mul 9517 328; Add 9516 9518; Add 9519 533; Sub 9520 529; AndEqz 1027 9521;
  Add 1554 4606; Add 9522 5754; Add 9523 5756; Add 9524 6768; Sub 871 9525; Add 9496 410; Mul 901 9527;
  Add 9522 9528; Add 9529 6752; Mul 921 540; Add 9530 9531; Sub 871 9532; Mul 4651 9526; Mul 9534 9533; Mul 9526 431;
  Mul 9533 4661; Add 9536 9537; Sub 9535 9538; AndEqz 1028 9539; Sub 9527 536; Sub 9540 410; Mul 901 9541;
  Add 1522 9542; Sub 871 9543; AndEqz 1029 2807; Mul 541 543; Sub 410 542; Sub 9545 9546; AndEqz 1030 9547;
  Mul 542 541; AndEqz 1031 9548; Mul 542 543; AndEqz 1032 9549; Add 9519 2937; Add 9550 541; Sub 9551 535;
  AndEqz 1033 9552; Add 1266 8732; Sub 871 9553; Mul 4679 9544; Mul 9555 9554; Mul 9544 4661; Mul 9554 4661;
  Add 9557 9558; Sub 9556 9559; AndEqz 1034 9560; AndEqz 1035 2817; Mul 901 548; Add 1266 9561; Sub 871 9562;
  AndEqz 1036 2821; Mul 547 407; Add 546 9564; Add 531 544; Sub 9565 9566; AndEqz 1037 9567; Mul 549 407;
  Add 548 9568; Add 532 545; Add 9570 547; Sub 9569 9571; AndEqz 1038 9572; Sub 527 539; AndEqz 1039 9573;
  Sub 528 540; AndEqz 1040 9574; Mul 891 521; Add 1460 9575; Add 9576 2701; Add 9577 2703; Add 9578 4611;
  Mul 931 522; Add 9579 9580; Sub 871 9581; Mul 4703 9563; Mul 9583 9582; Mul 9563 4661; Mul 9582 4661;
  Add 9585 9586; Sub 9584 9587; AndEqz 1041 9588; Add 521 410; Mul 891 9589; Add 1460 9590; Add 9591 8732;
  Add 9592 4845; Add 9593 4611; Add 9594 9580; Sub 871 9595; Mul 891 522; Add 2594 9597; Add 9598 2701;
  Add 9599 2703; Add 9600 2705; Mul 931 528; Add 9601 9602; Mul 941 533; Add 9603 9604; Mul 951 534; Add 9605 9606;
  Add 9607 8081; Mul 971 544; Add 9608 9609; Mul 981 545; Add 9610 9611; Add 9612 9189; Sub 871 9613; Mul 4729 9596;
  Mul 9615 9614; Mul 9596 4661; Mul 9614 431; Add 9617 9618; Sub 9616 9619; AndEqz 1042 9620; Sub 550 552;
  Mul 9621 402; Mul 901 9622; Add 1522 9623; Sub 871 9624; Mul 4778 9625; Mul 9626 8136; Mul 9625 4919;
  Mul 8136 4919; Add 9628 9629; Sub 9627 9630; AndEqz 1043 9631; Mul 550 402; Mul 901 9632; Add 8130 9633;
  Add 9634 8132; Add 9635 8134; Sub 871 9636; Sub 9632 559; Sub 9638 410; Mul 901 9639; Add 1522 9640; Sub 871 9641;
  Mul 4804 9637; Mul 9643 9642; Mul 9637 4919; Mul 9642 432; Add 9645 9646; Sub 9644 9647; AndEqz 1044 9648;
  Mul 2829 330; Mul 9649 329; Sub 410 9649; Mul 9651 328; Add 9650 9652; Add 9653 562; Sub 9654 558;
  AndEqz 1045 9655; Mul 891 564; Add 1554 9656; Mul 901 565; Add 9657 9658; Add 9659 4789; Add 9660 4791;
  Sub 871 9661; Add 9632 410; Mul 901 9663; Add 9657 9664; Add 9665 5921; Mul 921 569; Add 9666 9667; Sub 871 9668;
  Mul 4855 9662; Mul 9670 9669; Mul 9662 432; Mul 9669 4919; Add 9672 9673; Sub 9671 9674; AndEqz 1046 9675;
  Sub 9663 565; Sub 9676 410; Mul 901 9677; Add 1522 9678; Sub 871 9679; AndEqz 1047 2863; Mul 570 572; Sub 410 571;
  Sub 9681 9682; AndEqz 1048 9683; Mul 571 570; AndEqz 1049 9684; Mul 571 572; AndEqz 1050 9685; Mul 571 392;
  Add 9653 9686; Add 9687 570; Sub 9688 564; AndEqz 1051 9689; Mul 901 575; Add 1266 9690; Sub 871 9691;
  Mul 4909 9680; Mul 9693 9692; Mul 9680 4919; Mul 9692 4919; Add 9695 9696; Sub 9694 9697; AndEqz 1052 9698;
  AndEqz 1053 2880; Mul 901 577; Add 1266 9699; Sub 871 9700; AndEqz 1054 2884; Mul 576 407; Add 575 9702;
  Add 560 573; Sub 9703 9704; AndEqz 1055 9705; Mul 578 407; Add 577 9706; Add 561 574; Add 9708 576; Sub 9707 9709;
  AndEqz 1056 9710; Sub 556 568; AndEqz 1057 9711; Sub 557 569; AndEqz 1058 9712; Add 1460 4665; Add 9713 7379;
  Mul 911 555; Add 9714 9715; Add 9716 4671; Mul 931 551; Add 9717 9718; Sub 871 9719; Mul 4939 9701; Mul 9721 9720;
  Mul 9701 4919; Mul 9720 4919; Add 9723 9724; Sub 9722 9725; AndEqz 1059 9726; Add 550 410; Mul 891 9727;
  Add 1460 9728; Add 9729 9690; Mul 911 577; Add 9730 9731; Add 9732 4671; Add 9733 9718; Sub 871 9734;
  Add 2594 5752; Add 9736 7379; Add 9737 9715; Mul 921 556; Add 9738 9739; Mul 931 557; Add 9740 9741; Mul 941 562;
  Add 9742 9743; Mul 951 563; Add 9744 9745; Add 9746 8302; Mul 971 573; Add 9747 9748; Mul 981 574; Add 9749 9750;
  Add 9751 9189; Sub 871 9752; Mul 4963 9735; Mul 9754 9753; Mul 9735 4919; Mul 9753 432; Add 9756 9757;
  Sub 9755 9758; AndEqz 1060 9759; Sub 579 581; Mul 9760 402; Mul 901 9761; Add 1522 9762; Sub 871 9763; Mul 891 587;
  Add 1554 9765; Add 9766 5130; Add 9767 5132; Mul 921 590; Add 9768 9769; Sub 871 9770; Mul 4989 9764;
  Mul 9772 9771; Mul 9764 8832; Mul 9771 8832; Add 9774 9775; Sub 9773 9776; AndEqz 1061 9777; Mul 579 402;
  Mul 901 9778; Add 9766 9779; Add 9780 5132; Add 9781 9769; Sub 871 9782; Sub 9778 588; Sub 9784 410; Mul 901 9785;
  Add 1522 9786; Sub 871 9787; Mul 5038 9783; Mul 9789 9788; Mul 9783 8832; Mul 9788 433; Add 9791 9792;
  Sub 9790 9793; AndEqz 1062 9794; Mul 2892 330; Mul 9795 329; Sub 410 9795; Mul 9797 328; Add 9796 9798;
  Add 9799 591; Sub 9800 587; AndEqz 1063 9801; Mul 891 593; Add 1554 9802; Mul 901 594; Add 9803 9804; Mul 911 595;
  Add 9805 9806; Add 9807 5134; Sub 871 9808; Add 9778 410; Mul 901 9810; Add 9803 9811; Add 9812 8963;
  Add 9813 8965; Sub 871 9814; Mul 5064 9809; Mul 9816 9815; Mul 9809 433; Mul 9815 8832; Add 9818 9819;
  Sub 9817 9820; AndEqz 1064 9821; Sub 9810 594; Sub 9822 410; Mul 901 9823; Add 1522 9824; Sub 871 9825;
  Sub 600 410; Mul 600 9827; AndEqz 1065 9828; Mul 599 601; Sub 410 600; Sub 9829 9830; AndEqz 1066 9831;
  Mul 600 599; AndEqz 1067 9832; Mul 600 601; AndEqz 1068 9833; Mul 600 392; Add 9799 9834; Add 9835 599;
  Sub 9836 593; AndEqz 1069 9837; Mul 901 604; Add 1266 9838; Sub 871 9839; Mul 5120 9826; Mul 9841 9840;
  Mul 9826 8832; Mul 9840 8832; Add 9843 9844; Sub 9842 9845; AndEqz 1070 9846; AndEqz 1071 5073; AndEqz 1072 9016;
  Mul 605 407; Add 604 9847; Add 589 602; Sub 9848 9849; AndEqz 1073 9850; Add 590 603; Add 9851 605; Sub 9029 9852;
  AndEqz 1074 9853; Sub 585 597; AndEqz 1075 9854; Sub 586 598; AndEqz 1076 9855; Mul 891 579; Add 1460 9856;
  Add 9857 5108; Add 9858 5110; Mul 921 582; Add 9859 9860; Mul 931 580; Add 9861 9862; Sub 871 9863; Mul 5174 9014;
  Mul 9865 9864; Mul 9014 8832; Mul 9864 8832; Add 9867 9868; Sub 9866 9869; AndEqz 1077 9870; Add 579 410;
  Mul 891 9871; Add 1460 9872; Add 9873 9838; Mul 911 606; Add 9874 9875; Add 9876 9860; Add 9877 9862; Sub 871 9878;
  Mul 891 580; Add 2594 9880; Add 9881 5108; Add 9882 5110; Mul 921 585; Add 9883 9884; Add 9885 9047; Mul 941 591;
  Add 9886 9887; Mul 951 592; Add 9888 9889; Mul 961 599; Add 9890 9891; Mul 971 602; Add 9892 9893; Mul 981 603;
  Add 9894 9895; Add 9896 9189; Sub 871 9897; Mul 758 413; Add 757 9899; Mul 759 412; Add 9900 9901; Mul 760 411;
  Add 9902 9903; Mul 9904 9879; Mul 9905 9898; Mul 9879 8832; Mul 9898 433; Add 9907 9908; Sub 9906 9909;
  AndEqz 1078 9910; Add 5181 9904; Add 1518 9911; Sub 1512 9912; AndEqz 1079 9913; Mul 415 422;
  AndCond 971 9914 1080; Sub 437 439; Mul 9915 402; Mul 901 9916].

(* L11020-11519 POLY_EXT_DEF.block *)
Definition block_22 : list Step := [
  Add 1522 9917; Sub 871 9918; Mul 1278 9919; Mul 9920 6834; Mul 9919 1265; Mul 6834 1265; Add 9922 9923;
  Sub 9921 9924; AndEqz 0 9925; Mul 437 402; Add 9926 410; Mul 901 9927; Add 6830 9928; Mul 911 451; Add 9929 9930;
  Add 9931 4152; Sub 871 9932; Sub 9927 448; Sub 9934 410; Mul 901 9935; Add 1522 9936; Sub 871 9937; Mul 1297 9933;
  Mul 9939 9938; Mul 9933 1265; Mul 9938 428; Add 9941 9942; Sub 9940 9943; AndEqz 1082 9944; AndEqz 1083 5231;
  AndEqz 1084 5234; AndEqz 1085 5235; AndEqz 1086 5236; Mul 1537 330; Mul 9945 329; Sub 410 9945; Mul 9947 328;
  Add 9946 9948; Add 9949 5237; Add 9950 453; Sub 9951 447; AndEqz 1087 9952; Add 1460 3819; Add 9953 1543;
  Mul 911 442; Add 9954 9955; Add 9956 3824; Mul 931 438; Add 9957 9958; Sub 871 9959; Add 437 410; Mul 891 9961;
  Add 1460 9962; Add 9963 1557; Add 9964 1559; Add 9965 3824; Add 9966 9958; Sub 871 9967; Mul 1391 9960;
  Mul 9969 9968; Mul 9960 428; Mul 9968 1265; Add 9971 9972; Sub 9970 9973; AndEqz 1088 9974; Mul 891 438;
  Add 2594 9975; Add 9976 1543; Add 9977 9955; Mul 921 443; Add 9978 9979; Mul 931 444; Add 9980 9981; Mul 941 445;
  Add 9982 9983; Mul 951 446; Add 9984 9985; Add 9986 5286; Mul 971 451; Add 9987 9988; Mul 981 452; Add 9989 9990;
  Mul 991 400; Add 9991 9992; Sub 871 9993; Sub 456 458; Mul 9995 402; Mul 901 9996; Add 1522 9997; Sub 871 9998;
  Mul 1411 9994; Mul 10000 9999; Mul 9994 2624; Mul 9999 1265; Add 10002 10003; Sub 10001 10004; AndEqz 1089 10005;
  Add 7702 410; Mul 901 10006; Add 6916 10007; Add 10008 6930; Add 10009 6932; Sub 871 10010; Mul 1430 6923;
  Mul 10012 10011; Mul 6923 429; Mul 10011 2624; Add 10014 10015; Sub 10013 10016; AndEqz 1090 10017; Sub 10006 467;
  Sub 10018 410; Mul 901 10019; Add 1522 10020; Sub 871 10021; AndEqz 1091 1690; Mul 472 474; Sub 410 473;
  Sub 10023 10024; AndEqz 1092 10025; Mul 473 472; AndEqz 1093 10026; Mul 473 474; AndEqz 1094 10027; Mul 1662 330;
  Mul 10028 329; Sub 410 10028; Mul 10030 328; Add 10029 10031; Mul 473 392; Add 10032 10033; Add 10034 472;
  Sub 10035 466; AndEqz 1095 10036; Add 1460 7680; Add 10037 6883; Add 10038 9174; Add 10039 4090; Add 10040 5262;
  Sub 871 10041; Mul 1451 10022; Mul 10043 10042; Mul 10022 2624; Mul 10042 2624; Add 10045 10046; Sub 10044 10047;
  AndEqz 1096 10048; Add 456 410; Mul 891 10049; Add 1460 10050; Add 10051 6895; Mul 911 463; Add 10052 10053;
  Add 10054 4090; Add 10055 5262; Sub 871 10056; Mul 891 457; Add 2594 10058; Add 10059 6883; Add 10060 9174;
  Mul 921 462; Add 10061 10062; Mul 931 463; Add 10063 10064; Mul 941 464; Add 10065 10066; Mul 951 465;
  Add 10067 10068; Mul 961 472; Add 10069 10070; Mul 971 470; Add 10071 10072; Mul 981 471; Add 10073 10074;
  Add 10075 9992; Sub 871 10076; Mul 1479 10057; Mul 10078 10077; Mul 10057 2624; Mul 10077 429; Add 10080 10081;
  Sub 10079 10082; AndEqz 1097 10083; Sub 475 477; Mul 10084 402; Mul 901 10085; Add 1522 10086; Sub 871 10087;
  Add 1554 6501; Add 10089 7253; Add 10090 7255; Add 10091 4357; Sub 871 10092; Mul 1499 10088; Mul 10094 10093;
  Mul 10088 4400; Mul 10093 4400; Add 10096 10097; Sub 10095 10098; AndEqz 1098 10099; Add 1823 410; Mul 901 10100;
  Add 10089 10101; Add 10102 6471; Add 10103 6505; Sub 871 10104; Sub 10100 486; Sub 10106 410; Mul 901 10107;
  Add 1522 10108; Sub 871 10109; Mul 2667 10105; Mul 10111 10110; Mul 10105 4400; Mul 10110 430; Add 10113 10114;
  Sub 10112 10115; AndEqz 1099 10116; AndEqz 1100 1726; Mul 491 493; Sub 410 492; Sub 10117 10118; AndEqz 1101 10119;
  Mul 492 491; AndEqz 1102 10120; Mul 492 493; AndEqz 1103 10121; Mul 1700 330; Mul 10122 329; Sub 410 10122;
  Mul 10124 328; Add 10123 10125; Mul 492 392; Add 10126 10127; Add 10128 491; Sub 10129 485; AndEqz 1104 10130;
  Mul 891 475; Add 1460 10131; Add 10132 4198; Add 10133 4200; Mul 921 478; Add 10134 10135; Add 10136 4379;
  Sub 871 10137; Add 475 410; Mul 891 10139; Add 1460 10140; Add 10141 7740; Add 10142 7742; Add 10143 10135;
  Add 10144 4379; Sub 871 10145; Mul 2691 10138; Mul 10147 10146; Mul 10138 430; Mul 10146 4400; Add 10149 10150;
  Sub 10148 10151; AndEqz 1105 10152; Add 2594 5329; Add 10153 4198; Add 10154 4200; Add 10155 4202; Mul 931 482;
  Add 10156 10157; Mul 941 483; Add 10158 10159; Mul 951 484; Add 10160 10161; Mul 961 491; Add 10162 10163;
  Mul 971 489; Add 10164 10165; Mul 981 490; Add 10166 10167; Add 10168 9992; Sub 871 10169; Sub 494 496;
  Mul 10171 402; Mul 901 10172; Add 1522 10173; Sub 871 10174; Mul 2717 10170; Mul 10176 10175; Mul 10170 4661;
  Mul 10175 4400; Add 10178 10179; Sub 10177 10180; AndEqz 1106 10181; Mul 891 504; Add 1554 10182; Add 10183 5586;
  Add 10184 5588; Mul 921 507; Add 10185 10186; Sub 871 10187; Mul 494 402; Add 10189 410; Mul 901 10190;
  Add 10183 10191; Add 10192 8607; Add 10193 9384; Sub 871 10194; Mul 2742 10188; Mul 10196 10195; Mul 10188 431;
  Mul 10195 4661; Add 10198 10199; Sub 10197 10200; AndEqz 1107 10201; Sub 10190 505; Sub 10202 410; Mul 901 10203;
  Add 1522 10204; Sub 871 10205; AndEqz 1108 7155; Mul 510 512; Sub 10207 7220; AndEqz 1109 10208; Mul 511 510;
  AndEqz 1110 10209; Mul 511 512; AndEqz 1111 10210; Mul 1736 330; Mul 10211 329; Sub 410 10211; Mul 10213 328;
  Add 10212 10214; Mul 511 392; Add 10215 10216; Add 10217 510; Sub 10218 504; AndEqz 1112 10219; Mul 891 494;
  Add 1460 10220; Mul 901 498; Add 10221 10222; Add 10223 8551; Mul 921 497; Add 10224 10225; Mul 931 495;
  Add 10226 10227; Sub 871 10228; Mul 2776 10206; Mul 10230 10229; Mul 10206 4661; Mul 10229 4661; Add 10232 10233;
  Sub 10231 10234; AndEqz 1113 10235; Add 494 410; Mul 891 10236; Add 1460 10237; Mul 901 500; Add 10238 10239;
  Mul 911 501; Add 10240 10241; Add 10242 10225; Add 10243 10227; Sub 871 10244; Add 2594 5558; Add 10246 10222;
  Add 10247 8551; Add 10248 8553; Mul 931 501; Add 10249 10250; Add 10251 6509; Add 10252 6511; Mul 961 510;
  Add 10253 10254; Mul 971 508; Add 10255 10256; Mul 981 509; Add 10257 10258; Add 10259 9992; Sub 871 10260;
  Mul 3756 10245; Mul 10262 10261; Mul 10245 4661; Mul 10261 431; Add 10264 10265; Sub 10263 10266;
  AndEqz 1114 10267; Sub 513 515; Mul 10268 402; Mul 901 10269; Add 1522 10270; Sub 871 10271; Mul 4420 10272;
  Mul 10273 7964; Mul 10272 4919; Mul 7964 4919; Add 10275 10276; Sub 10274 10277; AndEqz 1115 10278; Mul 513 402;
  Add 10279 410; Mul 901 10280; Add 7958 10281; Mul 911 527; Add 10282 10283; Mul 921 528; Add 10284 10285;
  Sub 871 10286; Sub 10280 524; Sub 10288 410; Mul 901 10289; Add 1522 10290; Sub 871 10291; Mul 4444 10287;
  Mul 10293 10292; Mul 10287 4919; Mul 10292 432; Add 10295 10296; Sub 10294 10297; AndEqz 1116 10298;
  AndEqz 1117 2753; Mul 529 531; Sub 410 530; Sub 10299 10300; AndEqz 1118 10301; AndEqz 1119 2903; Mul 530 531;
  AndEqz 1120 10302; Mul 5537 330; Mul 10303 329; Sub 410 10303; Mul 10305 328; Add 10304 10306; Mul 530 392;
  Add 10307 10308; Add 10309 529; Sub 10310 523; AndEqz 1121 10311; Mul 891 513; Add 1460 10312; Add 10313 9411;
  Add 10314 7174; Add 10315 8102; Mul 931 514; Add 10316 10317; Sub 871 10318; Add 513 410; Mul 891 10320;
  Add 1460 10321; Add 10322 2643; Add 10323 4455; Add 10324 8102; Add 10325 10317; Sub 871 10326; Mul 4469 10319;
  Mul 10328 10327; Mul 10319 432; Mul 10327 4919; Add 10330 10331; Sub 10329 10332; AndEqz 1122 10333; Add 2594 4406;
  Add 10334 9411; Add 10335 7174; Add 10336 7176; Mul 931 520; Add 10337 10338; Mul 941 521; Add 10339 10340;
  Mul 951 522; Add 10341 10342; Mul 961 529; Add 10343 10344; Mul 971 527; Add 10345 10346; Mul 981 528;
  Add 10347 10348; Add 10349 9992; Sub 871 10350; Sub 532 534; Mul 10352 402; Mul 901 10353; Add 1522 10354;
  Sub 871 10355; Mul 4520 10351; Mul 10357 10356; Mul 10351 8832; Mul 10356 4919; Add 10359 10360; Sub 10358 10361;
  AndEqz 1123 10362; Add 1554 4885; Add 10363 8013; Mul 911 544; Add 10364 10365; Mul 921 545; Add 10366 10367;
  Sub 871 10368; Mul 532 402; Add 10370 410; Mul 901 10371; Add 10363 10372; Add 10373 4833].

(* L11520-12019 POLY_EXT_DEF.block *)
Definition block_23 : list Step := [
  Add 10374 4889; Sub 871 10375; Mul 4546 10369; Mul 10377 10376; Mul 10369 433; Mul 10376 8832; Add 10379 10380;
  Sub 10378 10381; AndEqz 1124 10382; Sub 10371 543; Sub 10383 410; Mul 901 10384; Add 1522 10385; Sub 871 10386;
  AndEqz 1125 2821; Mul 548 550; Sub 10388 4756; AndEqz 1126 10389; Mul 549 548; AndEqz 1127 10390; Mul 549 550;
  AndEqz 1128 10391; Add 6599 4749; Add 10392 548; Sub 10393 542; AndEqz 1129 10394; Mul 891 532; Add 1460 10395;
  Add 10396 5754; Add 10397 5756; Add 10398 6737; Add 10399 5781; Sub 871 10400; Mul 4598 10387; Mul 10402 10401;
  Mul 10387 8832; Mul 10401 8832; Add 10404 10405; Sub 10403 10406; AndEqz 1130 10407; Add 532 410; Mul 891 10408;
  Add 1460 10409; Add 10410 6750; Add 10411 6752; Add 10412 6737; Add 10413 5781; Sub 871 10414; Mul 941 540;
  Add 6771 10416; Mul 951 541; Add 10417 10418; Mul 961 548; Add 10419 10420; Mul 971 546; Add 10421 10422;
  Mul 981 547; Add 10423 10424; Add 10425 9992; Sub 871 10426; Mul 4651 10415; Mul 10428 10427; Mul 10415 8832;
  Mul 10427 433; Add 10430 10431; Sub 10429 10432; AndEqz 1131 10433; Sub 551 553; Mul 10434 402; Mul 901 10435;
  Add 1522 10436; Sub 871 10437; Add 1554 8927; Mul 901 562; Add 10439 10440; Mul 911 563; Add 10441 10442;
  Mul 921 564; Add 10443 10444; Sub 871 10445; Mul 4679 10438; Mul 10447 10446; Mul 10438 8955; Mul 10446 8955;
  Add 10449 10450; Sub 10448 10451; AndEqz 1132 10452; Add 5771 410; Mul 901 10453; Add 10439 10454; Add 10455 8907;
  Add 10456 8931; Sub 871 10457; Sub 10453 562; Sub 10459 410; Mul 901 10460; Add 1522 10461; Sub 871 10462;
  Mul 4703 10458; Mul 10464 10463; Mul 10458 8955; Mul 10463 434; Add 10466 10467; Sub 10465 10468;
  AndEqz 1133 10469; Sub 568 410; Mul 568 10470; AndEqz 1134 10471; Mul 567 569; Sub 410 568; Sub 10472 10473;
  AndEqz 1135 10474; Mul 568 567; AndEqz 1136 10475; AndEqz 1137 4815; Mul 2831 330; Mul 10476 329; Sub 410 10476;
  Mul 10478 328; Add 10477 10479; Mul 568 392; Add 10480 10481; Add 10482 567; Sub 10483 561; AndEqz 1138 10484;
  Add 1460 5752; Add 10485 4713; Add 10486 4715; Mul 921 554; Add 10487 10488; Mul 931 552; Add 10489 10490;
  Sub 871 10491; Add 551 410; Mul 891 10493; Add 1460 10494; Add 10495 6611; Add 10496 8802; Add 10497 10488;
  Add 10498 10490; Sub 871 10499; Mul 4729 10492; Mul 10501 10500; Mul 10492 434; Mul 10500 8955; Add 10503 10504;
  Sub 10502 10505; AndEqz 1139 10506; Mul 891 552; Add 2594 10507; Add 10508 4713; Add 10509 4715; Add 10510 4717;
  Add 10511 5900; Mul 941 559; Add 10512 10513; Mul 951 560; Add 10514 10515; Mul 961 567; Add 10516 10517;
  Mul 971 565; Add 10518 10519; Mul 981 566; Add 10520 10521; Add 10522 9992; Sub 871 10523; Sub 570 572;
  Mul 10525 402; Sub 0 435; Mul 901 10526; Add 1522 10528; Sub 871 10529; Mul 4778 10524; Mul 10531 10530;
  Mul 10524 10527; Mul 10530 8955; Add 10533 10534; Sub 10532 10535; AndEqz 1140 10536; Add 1554 9880;
  Add 10537 5096; Add 10538 5098; Add 10539 5154; Sub 871 10540; Mul 570 402; Add 10542 410; Mul 901 10543;
  Add 10537 10544; Add 10545 5110; Add 10546 9884; Sub 871 10547; Mul 4804 10541; Mul 10549 10548; Mul 10541 435;
  Mul 10548 10527; Add 10551 10552; Sub 10550 10553; AndEqz 1141 10554; Sub 10543 581; Sub 10555 410; Mul 901 10556;
  Add 1522 10557; Sub 871 10558; Sub 587 410; Mul 587 10560; AndEqz 1142 10561; Mul 586 588; Sub 410 587;
  Sub 10562 10563; AndEqz 1143 10564; Mul 587 586; AndEqz 1144 10565; Mul 587 588; AndEqz 1145 10566; Mul 2867 330;
  Mul 10567 329; Sub 410 10567; Mul 10569 328; Add 10568 10570; Mul 587 392; Add 10571 10572; Add 10573 586;
  Sub 10574 580; AndEqz 1146 10575; Add 1460 8842; Add 10576 6691; Mul 911 575; Add 10577 10578; Add 10579 8847;
  Mul 931 571; Add 10580 10581; Sub 871 10582; Mul 4855 10559; Mul 10584 10583; Mul 10559 10527; Mul 10583 10527;
  Add 10586 10587; Sub 10585 10588; AndEqz 1147 10589; Add 570 410; Mul 891 10590; Add 1460 10591; Mul 901 576;
  Add 10592 10593; Add 10594 9731; Add 10595 8847; Add 10596 10581; Sub 871 10597; Add 2594 4863; Add 10599 6691;
  Add 10600 10578; Mul 921 576; Add 10601 10602; Mul 931 577; Add 10603 10604; Add 10605 8276; Add 10606 8278;
  Add 10607 5930; Mul 971 584; Add 10608 10609; Mul 981 585; Add 10610 10611; Add 10612 9992; Sub 871 10613;
  Mul 4909 10598; Mul 10615 10614; Mul 10598 10527; Mul 10614 435; Add 10617 10618; Sub 10616 10619;
  AndEqz 1148 10620; Sub 589 591; Mul 10621 402; Sub 0 436; Mul 901 10622; Add 1522 10624; Sub 871 10625;
  Mul 891 599; Add 1554 10627; Mul 901 600; Add 10628 10629; Mul 911 601; Add 10630 10631; Mul 921 602;
  Add 10632 10633; Sub 871 10634; Mul 4939 10626; Mul 10636 10635; Mul 10626 10623; Mul 10635 10623; Add 10638 10639;
  Sub 10637 10640; AndEqz 1149 10641; Mul 589 402; Add 10642 410; Mul 901 10643; Add 10628 10644; Mul 911 603;
  Add 10645 10646; Mul 921 604; Add 10647 10648; Sub 871 10649; Sub 10643 600; Sub 10651 410; Mul 901 10652;
  Add 1522 10653; Sub 871 10654; Mul 4963 10650; Mul 10656 10655; Mul 10650 10623; Mul 10655 436; Add 10658 10659;
  Sub 10657 10660; AndEqz 1150 10661; Sub 606 410; Mul 606 10662; AndEqz 1151 10663; Mul 605 607; Sub 410 606;
  Sub 10664 10665; AndEqz 1152 10666; AndEqz 1153 5078; Mul 606 607; AndEqz 1154 10667; Sub 592 410; Mul 592 10668;
  Mul 10669 330; Mul 10670 329; Sub 410 10670; Mul 10672 328; Add 10671 10673; Mul 606 392; Add 10674 10675;
  Add 10676 605; Sub 10677 599; AndEqz 1155 10678; Mul 891 589; Add 1460 10679; Mul 901 593; Add 10680 10681;
  Mul 911 594; Add 10682 10683; Mul 921 592; Add 10684 10685; Mul 931 590; Add 10686 10687; Sub 871 10688;
  Add 589 410; Mul 891 10690; Add 1460 10691; Mul 901 595; Add 10692 10693; Mul 911 596; Add 10694 10695;
  Add 10696 10685; Add 10697 10687; Sub 871 10698; Mul 4989 10689; Mul 10700 10699; Mul 10689 436; Mul 10699 10623;
  Add 10702 10703; Sub 10701 10704; AndEqz 1156 10705; Add 2594 4971; Add 10706 10681; Add 10707 10683; Mul 921 595;
  Add 10708 10709; Mul 931 596; Add 10710 10711; Mul 941 597; Add 10712 10713; Mul 951 598; Add 10714 10715;
  Mul 961 605; Add 10716 10717; Mul 971 603; Add 10718 10719; Mul 981 604; Add 10720 10721; Add 10722 9992;
  Sub 871 10723; Mul 5038 10724; Mul 10725 331; Mul 10623 331; Add 10727 409; Sub 10726 10728; AndEqz 1157 10729;
  AndEqz 1158 7553; Mul 415 423; AndCond 1081 10730 1159; Sub 456 449; AndEqz 872 10731; Sub 458 450;
  AndEqz 1161 10732; Add 8384 1543; Add 10733 9955; Add 10734 7711; Add 10735 8379; Sub 871 10736; Mul 8390 10737;
  Mul 10737 1265; Add 8392 10739; Sub 10738 10740; AndEqz 1162 10741; Mul 991 408; Add 8411 10742; Sub 871 10743;
  Mul 1430 10744; Mul 10745 8419; Mul 10744 2624; Add 10747 8423; Sub 10746 10748; AndEqz 1163 10749;
  AndEqz 1164 8446; AndEqz 1165 1698; AndEqz 1166 8453; AndEqz 1167 8454; AndEqz 1168 8455; AndEqz 1169 8463;
  AndEqz 1170 8471; AndEqz 1171 1708; AndEqz 1172 1712; AndEqz 1173 8477; AndEqz 1174 8482; Sub 481 474;
  AndEqz 1175 10750; Sub 483 475; AndEqz 1176 10751; AndEqz 1177 8501; Mul 901 466; Add 8504 10752; Mul 911 467;
  Add 10753 10754; Add 10755 8491; Add 10756 8493; Sub 871 10757; Add 8527 10742; Sub 871 10759; Mul 2667 10758;
  Mul 10761 10760; Mul 10758 2624; Mul 10760 429; Add 10763 10764; Sub 10762 10765; AndEqz 1178 10766;
  AndEqz 1179 8546; AndEqz 1180 8566; AndEqz 1181 1753; AndEqz 1182 8569; AndEqz 1183 8570; AndEqz 1184 8571;
  AndEqz 1185 8580; AndEqz 1186 7131; AndEqz 1187 8586; AndEqz 1188 7141; AndEqz 1189 8588; AndEqz 1190 8591;
  Sub 506 499; AndEqz 1191 10767; Sub 508 500; AndEqz 1192 10768; Add 8605 4276; Add 10769 4278; Add 10770 4357;
  Add 10771 8600; Sub 871 10772; Mul 8612 10773; Mul 10773 4400; Add 8614 10775; Sub 10774 10776; AndEqz 1193 10777;
  Add 8633 10742; Sub 871 10778; Mul 3756 10779; Mul 10780 7926; Mul 10779 4661; Add 10782 7938; Sub 10781 10783;
  AndEqz 1194 10784; AndEqz 1195 8654; AndEqz 1196 8661; AndEqz 1197 8664; AndEqz 1198 8665; AndEqz 1199 8666;
  AndEqz 1200 8670; AndEqz 1201 8679; AndEqz 1202 6531; AndEqz 1203 8684; AndEqz 1204 8688; AndEqz 1205 8693;
  Sub 531 524; AndEqz 1206 10785; Sub 533 525; AndEqz 1207 10786; AndEqz 1208 8701; Add 8065 2625; Add 10787 4609;
  Add 10788 8052].

(* L12020-12519 POLY_EXT_DEF.block *)
Definition block_24 : list Step := [
  Add 10789 8054; Sub 871 10790; Add 8716 10742; Sub 871 10792; Mul 4520 10791; Mul 10794 10793; Mul 10791 4661;
  Mul 10793 431; Add 10796 10797; Sub 10795 10798; AndEqz 1209 10799; AndEqz 1210 8744; AndEqz 1211 8763;
  AndEqz 1212 2827; AndEqz 1213 8765; AndEqz 1214 8766; AndEqz 1215 6605; AndEqz 1216 8775; AndEqz 1217 2837;
  AndEqz 1218 8781; AndEqz 1219 2841; AndEqz 1220 8783; AndEqz 1221 8788; Sub 556 549; AndEqz 1222 10800;
  Sub 558 550; AndEqz 1223 10801; Add 8800 6544; Add 10802 5687; Add 10803 6768; Add 10804 8795; Sub 871 10805;
  Mul 8807 10806; Mul 10806 4919; Add 8809 10808; Sub 10807 10809; AndEqz 1224 10810; Add 8827 10742; Sub 871 10811;
  Mul 4703 10812; Mul 10813 8835; Mul 10812 8832; Add 10815 8839; Sub 10814 10816; AndEqz 1225 10817;
  AndEqz 1226 8863; AndEqz 1227 2882; AndEqz 1228 8871; AndEqz 1229 8206; AndEqz 1230 5876; AndEqz 1231 8880;
  AndEqz 1232 8888; AndEqz 1233 2892; AndEqz 1234 8892; AndEqz 1235 8896; AndEqz 1236 8901; Sub 581 574;
  AndEqz 1237 10818; Sub 583 575; AndEqz 1238 10819; AndEqz 1239 8917; Add 8920 5809; Add 10820 5811; Add 10821 5949;
  Add 10822 4871; Sub 871 10823; Add 8944 10742; Sub 871 10825; Mul 4855 10824; Mul 10827 10826; Mul 10824 8832;
  Mul 10826 433; Add 10829 10830; Sub 10828 10831; AndEqz 1240 10832; AndEqz 1241 8973; AndEqz 1242 8993;
  AndEqz 1243 8995; AndEqz 1244 8998; AndEqz 1245 8999; AndEqz 1246 9000; AndEqz 1247 9011; AndEqz 1248 9016;
  AndEqz 1249 9025; AndEqz 1250 9027; AndEqz 1251 9031; AndEqz 1252 9036; Sub 606 599; AndEqz 1253 10833;
  Sub 608 600; AndEqz 1254 10834; Add 9052 4973; Add 10835 4975; Add 10836 9045; Add 10837 9047; Sub 871 10838;
  Mul 9059 10839; Mul 10839 8955; Add 9061 10841; Sub 10840 10842; AndEqz 1255 10843; Add 9081 10742; Sub 871 10844;
  Mul 5038 10845; Mul 10846 331; Sub 10847 9087; AndEqz 1256 10848; AndEqz 1257 7553; Mul 415 424;
  AndCond 1160 10849 1258; Sub 429 431; Mul 10850 402; Mul 901 10851; Add 1522 10852; Sub 871 10853; Mul 1278 10854;
  Mul 10855 3826; Mul 10854 1265; Add 10857 3956; Sub 10856 10858; AndEqz 0 10859; Mul 1297 3964; Mul 10860 3969;
  Sub 10861 3974; AndEqz 1260 10862; Mul 901 3935; Add 6803 10863; Add 10864 3859; Add 10865 3861; Sub 871 10866;
  Mul 1391 6807; Mul 10868 10867; Mul 6807 428; Mul 10867 1265; Add 10870 10871; Sub 10869 10872; AndEqz 1261 10873;
  Sub 3935 444; Sub 10874 410; Mul 901 10875; Add 1522 10876; Sub 871 10877; AndEqz 1262 432; Sub 433 441;
  AndEqz 1263 10879; Sub 434 442; AndEqz 1264 10880; Mul 861 324; Mul 3880 323; Add 10881 10882; Mul 861 322;
  Mul 3880 321; Add 10884 10885; Sub 437 10883; AndEqz 1265 10887; Sub 443 10886; AndEqz 1266 10888; Mul 901 433;
  Add 3978 10889; Mul 911 434; Add 10890 10891; Add 10892 409; Add 10893 3983; Sub 871 10894; Mul 1411 10878;
  Mul 10896 10895; Mul 10878 1265; Mul 10895 1265; Add 10898 10899; Sub 10897 10900; AndEqz 1267 10901;
  Add 3988 5994; Add 10902 5996; Mul 921 372; Add 10903 10904; Add 10905 3983; Sub 871 10906; Mul 891 430;
  Add 2594 10908; Add 10909 10889; Add 10910 10891; Add 10911 7660; Add 10912 8379; Add 10913 409; Add 10914 409;
  Add 10915 409; Add 10916 409; Add 10917 409; Mul 991 340; Add 10918 10919; Sub 871 10920; Mul 1430 10907;
  Mul 10922 10921; Mul 10907 1265; Mul 10921 428; Add 10924 10925; Sub 10923 10926; AndEqz 1268 10927; Add 1518 1437;
  Sub 1512 10928; AndEqz 1269 10929; Mul 415 425; AndCond 1259 10930 1270; Add 3820 10863; Add 10931 3822;
  Add 10932 3824; Sub 871 10933; Sub 3935 438; Sub 10935 410; Mul 901 10936; Add 1522 10937; Sub 871 10938;
  Mul 1391 10934; Mul 10940 10939; Mul 10934 1265; Mul 10939 428; Add 10942 10943; Sub 10941 10944; AndEqz 345 10945;
  Mul 861 320; Mul 3880 319; Add 10946 10947; Sub 431 10883; AndEqz 1272 10949; Sub 437 10948; AndEqz 1273 10950;
  Add 3980 409; Add 10951 3983; Sub 871 10952; Add 3988 4132; Add 10954 4134; Add 10955 10904; Add 10956 3983;
  Sub 871 10957; Mul 1411 10953; Mul 10959 10958; Mul 10953 428; Mul 10958 1265; Add 10961 10962; Sub 10960 10963;
  AndEqz 1274 10964; AndEqz 1275 4001; Mul 415 426; AndCond 1271 10965 1276; Mul 1297 10934; Mul 10966 10939;
  Sub 10967 10944; AndEqz 1260 10968; Add 1266 3844; Sub 871 10969; Sub 443 410; Mul 443 10971; AndEqz 1278 10972;
  Add 1266 4149; Sub 871 10973; Mul 1391 10970; Mul 10975 10974; Mul 10970 1265; Mul 10974 1265; Add 10977 10978;
  Sub 10976 10979; AndEqz 1279 10980; Sub 445 410; Mul 445 10981; AndEqz 1280 10982; Mul 443 407; Add 442 10983;
  Add 439 441; Sub 10984 10985; AndEqz 1281 10986; Mul 445 407; Add 444 10987; Add 440 443; Sub 10988 10989;
  AndEqz 1282 10990; Sub 432 372; AndEqz 1283 10991; Mul 861 399; Sub 441 10992; AndEqz 1284 10993;
  AndEqz 1285 10887; Add 10892 10904; Add 10994 3983; Sub 871 10995; Add 3988 3844; Add 10997 1559; Add 10998 409;
  Add 10999 3983; Sub 871 11000; Mul 1411 10996; Mul 11002 11001; Mul 10996 428; Mul 11001 1265; Add 11004 11005;
  Sub 11003 11006; AndEqz 1286 11007; Mul 951 402; Add 10914 11008; Add 11009 409; Mul 971 318; Add 11010 11011;
  Add 11012 409; Mul 991 405; Add 11013 11014; Sub 871 11015; Mul 1430 11016; Mul 11017 331; Mul 1265 331;
  Add 11019 409; Sub 11018 11020; AndEqz 1287 11021; AndEqz 1288 10929; Mul 415 427; AndCond 1277 11022 1289;
  Add 3843 10863; Add 11023 3846; Add 11024 3848; Sub 871 11025; Mul 1391 3850; Mul 11027 11026; Mul 3850 428;
  Mul 11026 1265; Add 11029 11030; Sub 11028 11031; AndEqz 1278 11032; Sub 3935 442; Sub 11033 410; Mul 901 11034;
  Add 1522 11035; Sub 871 11036; Mul 1411 11037; Mul 11038 5210; Mul 11037 1265; Add 11040 8328; Sub 11039 11041;
  AndEqz 1291 11042; Add 5203 10863; Add 11043 5206; Add 11044 5208; Sub 871 11045; Sub 3935 446; Sub 11047 410;
  Mul 901 11048; Add 1522 11049; Sub 871 11050; Mul 1430 11046; Mul 11052 11051; Mul 11046 1265; Mul 11051 428;
  Add 11054 11055; Sub 11053 11056; AndEqz 1292 11057; Mul 891 449; Add 1554 11058; Add 11059 1286; Add 11060 9930;
  Add 11061 4152; Sub 871 11062; Add 11059 10863; Add 11064 9930; Add 11065 4152; Sub 871 11066; Mul 1451 11063;
  Mul 11068 11067; Mul 11063 428; Mul 11067 1265; Add 11070 11071; Sub 11069 11072; AndEqz 1293 11073; Sub 3935 450;
  Sub 11074 410; Mul 901 11075; Add 1522 11076; Sub 871 11077; Mul 891 453; Add 1554 11079; Add 11080 1635;
  Mul 911 455; Add 11081 11082; Add 11083 5260; Sub 871 11084; Mul 1479 11078; Mul 11086 11085; Mul 11078 1265;
  Mul 11085 1265; Add 11088 11089; Sub 11087 11090; AndEqz 1294 11091; Add 11080 10863; Add 11092 11082;
  Add 11093 5260; Sub 871 11094; Sub 3935 454; Sub 11096 410; Mul 901 11097; Add 1522 11098; Sub 871 11099;
  Mul 1499 11095; Mul 11101 11100; Mul 11095 1265; Mul 11100 428; Add 11103 11104; Sub 11102 11105;
  AndEqz 1295 11106; Add 1554 10058; Add 11107 6874; Mul 911 459; Add 11108 11109; Mul 921 460; Add 11110 11111;
  Sub 871 11112; Add 11107 10863; Add 11114 11109; Add 11115 11111; Sub 871 11116; Mul 2667 11113; Mul 11118 11117;
  Mul 11113 428; Mul 11117 1265; Add 11120 11121; Sub 11119 11122; AndEqz 1296 11123; Sub 3935 458; Sub 11124 410;
  Mul 901 11125; Add 1522 11126; Sub 871 11127; Add 1554 8510; Add 11129 6895; Add 11130 10053; Mul 921 464;
  Add 11131 11132; Sub 871 11133; Mul 2691 11128; Mul 11135 11134; Mul 11128 1265; Mul 11134 1265; Add 11137 11138;
  Sub 11136 11139; AndEqz 1297 11140; Add 11129 10863; Add 11141 10053; Add 11142 11132; Sub 871 11143; Sub 3935 462;
  Sub 11145 410; Mul 901 11146; Add 1522 11147; Sub 871 11148; Mul 2717 11144; Mul 11150 11149; Mul 11144 1265;
  Mul 11149 428; Add 11152 11153; Sub 11151 11154; AndEqz 1298 11155; Add 1554 5437; Add 11156 10752;
  Add 11157 10754; Mul 921 468; Add 11158 11159; Sub 871 11160; Add 11156 10863; Add 11162 10754; Add 11163 11159;
  Sub 871 11164; Mul 2742 11161; Mul 11166 11165; Mul 11161 428; Mul 11165 1265; Add 11168 11169; Sub 11167 11170;
  AndEqz 1299 11171; Sub 3935 466; Sub 11172 410; Mul 901 11173; Add 1522 11174; Sub 871 11175; Mul 2776 11176;
  Mul 11177 6114; Mul 11176 1265; Add 11179 6118; Sub 11178 11180; AndEqz 1300 11181; Add 6110 10863; Add 11182 5403;
  Add 11183 4330; Sub 871 11184; Sub 3935 470; Sub 11186 410; Mul 901 11187; Add 1522 11188; Sub 871 11189;
  Mul 3756 11185; Mul 11191 11190; Mul 11185 1265; Mul 11190 428; Add 11193 11194; Sub 11192 11195; AndEqz 1301 11196].

(* L12520-13019 POLY_EXT_DEF.block *)
Definition block_25 : list Step := [
  Mul 891 473; Add 1554 11197; Add 11198 5416; Add 11199 5418; Mul 921 476; Add 11200 11201; Sub 871 11202;
  Add 11198 10863; Add 11204 5418; Add 11205 11201; Sub 871 11206; Mul 4420 11203; Mul 11208 11207; Mul 11203 428;
  Mul 11207 1265; Add 11210 11211; Sub 11209 11212; AndEqz 1302 11213; Sub 3935 474; Sub 11214 410; Mul 901 11215;
  Add 1522 11216; Sub 871 11217; Mul 4444 11218; Mul 11219 9246; Mul 11218 1265; Mul 9246 1265; Add 11221 11222;
  Sub 11220 11223; AndEqz 1303 11224; Add 9240 10863; Add 11225 9242; Add 11226 9244; Sub 871 11227; Sub 3935 478;
  Sub 11229 410; Mul 901 11230; Add 1522 11231; Sub 871 11232; Mul 4469 11228; Mul 11234 11233; Mul 11228 1265;
  Mul 11233 428; Add 11236 11237; Sub 11235 11238; AndEqz 1304 11239; AndEqz 1305 10991; Sub 437 317;
  AndEqz 1306 11240; AndEqz 1307 439; AndEqz 1308 440; Sub 441 316; AndEqz 1309 11241; Sub 445 315;
  AndEqz 1310 11242; Sub 824 410; AndEqz 1311 11243; Sub 825 443; AndEqz 1312 11244; Sub 826 444; AndEqz 1313 11245;
  Sub 827 447; AndEqz 1314 11246; Sub 828 448; AndEqz 1315 11247; Sub 449 314; AndEqz 1316 11248; Sub 829 451;
  AndEqz 1317 11249; Sub 830 452; AndEqz 1318 11250; Sub 453 313; AndEqz 1319 11251; Sub 831 455; AndEqz 1320 11252;
  Sub 832 456; AndEqz 1321 11253; Sub 457 312; AndEqz 1322 11254; Sub 833 459; AndEqz 1323 11255; Sub 834 460;
  AndEqz 1324 11256; Sub 461 311; AndEqz 1325 11257; Sub 835 463; AndEqz 1326 11258; Sub 836 464; AndEqz 1327 11259;
  Sub 465 310; AndEqz 1328 11260; Sub 837 467; AndEqz 1329 11261; Sub 838 468; AndEqz 1330 11262; Sub 469 309;
  AndEqz 1331 11263; Sub 839 471; AndEqz 1332 11264; Sub 840 472; AndEqz 1333 11265; Sub 473 308; AndEqz 1334 11266;
  Sub 841 475; AndEqz 1335 11267; Sub 842 476; AndEqz 1336 11268; Sub 477 307; AndEqz 1337 11269; Sub 843 479;
  AndEqz 1338 11270; Sub 844 480; AndEqz 1339 11271; Mul 4520 10996; Mul 11272 3993; Add 11004 3997; Sub 11273 11274;
  AndEqz 1340 11275; Mul 4546 10921; Mul 11276 331; Sub 11277 11020; AndEqz 1341 11278; Add 1518 4553;
  Sub 1512 11279; AndEqz 1342 11280; Mul 416 420; AndCond 1290 11281 1343; Sub 429 432; Mul 11282 402; Mul 901 11283;
  Add 1522 11284; Sub 871 11285; Add 1554 9975; Add 11287 4132; Add 11288 4134; Add 11289 8400; Sub 871 11290;
  Mul 1278 11286; Mul 11292 11291; Mul 11286 1265; Mul 11291 1265; Add 11294 11295; Sub 11293 11296; AndEqz 0 11297;
  Add 11287 10863; Add 11298 4134; Add 11299 8400; Sub 871 11300; Sub 3935 439; Sub 11302 410; Mul 901 11303;
  Add 1522 11304; Sub 871 11305; Mul 1297 11301; Mul 11307 11306; Mul 11301 1265; Mul 11306 428; Add 11309 11310;
  Sub 11308 11311; AndEqz 1345 11312; Add 1556 10863; Add 11313 1559; Add 11314 1561; Sub 871 11315; Mul 1391 1563;
  Mul 11317 11316; Mul 1563 428; Mul 11316 1265; Add 11319 11320; Sub 11318 11321; AndEqz 1346 11322; Sub 3935 443;
  Sub 11323 410; Mul 901 11324; Add 1522 11325; Sub 871 11326; Mul 1411 11327; Mul 11328 1594; Mul 11327 1265;
  Mul 1594 1265; Add 11330 11331; Sub 11329 11332; AndEqz 1347 11333; Add 1587 10863; Add 11334 1590; Add 11335 1592;
  Sub 871 11336; Sub 3935 447; Sub 11338 410; Mul 901 11339; Add 1522 11340; Sub 871 11341; Mul 1430 11337;
  Mul 11343 11342; Mul 11337 1265; Mul 11342 428; Add 11345 11346; Sub 11344 11347; AndEqz 1348 11348; Mul 891 450;
  Add 1554 11349; Add 11350 1289; Add 11351 6035; Add 11352 6037; Sub 871 11353; Add 11350 3937; Mul 911 454;
  Add 11355 11356; Mul 921 455; Add 11357 11358; Sub 871 11359; Mul 1451 11354; Mul 11361 11360; Mul 11354 428;
  Mul 11360 1265; Add 11363 11364; Sub 11362 11365; AndEqz 1349 11366; Sub 3936 451; Sub 11367 410; Mul 901 11368;
  Add 1522 11369; Sub 871 11370; Mul 1479 11371; Mul 11372 1642; Mul 11371 1265; Add 11374 1646; Sub 11373 11375;
  AndEqz 1350 11376; AndEqz 1351 1650; AndEqz 1352 1660; Mul 456 399; Add 11377 5278; Add 11378 457; Sub 11379 444;
  AndEqz 1353 11380; Sub 433 372; AndEqz 1354 11381; Sub 438 317; AndEqz 1355 11382; AndEqz 1356 1536;
  AndEqz 1357 441; Sub 442 315; AndEqz 1358 11383; Sub 446 306; AndEqz 1359 11384; Sub 450 316; AndEqz 1360 11385;
  AndEqz 1361 449; AndEqz 1362 455; Sub 448 454; Sub 459 11386; AndEqz 1363 11387; Mul 445 394; Add 11388 456;
  Add 457 5278; Add 3978 2597; Add 11391 2599; Add 11392 10904; Mul 931 431; Add 11393 11394; Sub 871 11395;
  Mul 1499 9143; Mul 11397 11396; Mul 11396 1265; Add 9147 11399; Sub 11398 11400; AndEqz 1364 11401; Mul 881 305;
  Add 11402 409; Add 11403 3987; Mul 901 11389; Add 11404 11405; Mul 911 11390; Add 11406 11407; Mul 921 454;
  Add 11408 11409; Sub 871 11410; Add 11403 10908; Add 11412 6883; Add 11413 9174; Add 11414 409; Sub 871 11415;
  Mul 2667 11411; Mul 11417 11416; Mul 11411 1265; Mul 11416 428; Add 11419 11420; Sub 11418 11421;
  AndEqz 1365 11422; Add 430 410; Mul 891 11423; Add 1460 11424; Add 11425 7656; Add 11426 7658; Add 11427 10904;
  Add 11428 11394; Sub 871 11429; Add 2604 409; Add 11431 409; Add 11432 409; Add 11433 409; Add 11434 409;
  Add 11435 10919; Sub 871 11436; Mul 2691 11430; Mul 11438 11437; Mul 11430 1265; Mul 11437 428; Add 11440 11441;
  Sub 11439 11442; AndEqz 1366 11443; Add 1518 2698; Sub 1512 11444; AndEqz 1367 11445; Mul 416 421;
  AndCond 1344 11446 1368; Add 5203 3937; Add 11447 5212; Add 11448 5214; Sub 871 11449; Sub 3936 446; Sub 11451 410;
  Mul 901 11452; Add 1522 11453; Sub 871 11454; Mul 1430 11450; Mul 11456 11455; Mul 11450 1265; Mul 11455 428;
  Add 11458 11459; Sub 11457 11460; AndEqz 1292 11461; Add 1266 1289; Sub 871 11462; AndEqz 1370 10991;
  AndEqz 1371 11240; Sub 439 402; AndEqz 1372 11464; AndEqz 1373 440; Sub 441 306; AndEqz 1374 11465; Sub 445 316;
  AndEqz 1375 11466; AndEqz 1376 444; AndEqz 1377 450; Sub 443 449; Sub 451 11467; AndEqz 1378 11468; Mul 1451 11463;
  Mul 11469 10996; Mul 11463 1265; Mul 10996 1265; Add 11471 11472; Sub 11470 11473; AndEqz 1379 11474;
  Add 3988 3902; Add 11475 3904; Add 11476 10904; Add 11477 3983; Sub 871 11478; Mul 1479 11479; Mul 11480 10921;
  Mul 11479 1265; Add 11482 10925; Sub 11481 11483; AndEqz 1380 11484; Add 1518 1486; Sub 1512 11485;
  AndEqz 1381 11486; Mul 416 422; AndCond 1369 11487 1382; AndEqz 1296 1650; AndEqz 1384 1660; AndEqz 1385 1664;
  AndEqz 1386 1666; Mul 459 399; Mul 461 402; Add 11488 11489; Add 11490 460; Sub 11491 439; AndEqz 1387 11492;
  Mul 2667 9143; Mul 11493 6897; Add 9147 6901; Sub 11494 11495; AndEqz 1388 11496; AndEqz 1389 1670;
  AndEqz 1390 1672; Sub 6906 443; AndEqz 1391 11497; AndEqz 1392 1676; AndEqz 1393 1678; Sub 6099 447;
  AndEqz 1394 11498; Mul 440 394; Add 11499 459; AndEqz 1395 1680; Mul 11500 469; Sub 410 468; Sub 11501 11502;
  AndEqz 1396 11503; Mul 468 11500; AndEqz 1397 11504; Mul 468 469; AndEqz 1398 11505; Mul 2691 6090;
  Mul 11506 11203; Mul 11203 1265; Add 6094 11508; Sub 11507 11509; AndEqz 1399 11510; Mul 2717 11207;
  Mul 11511 11218; Mul 11218 428; Add 11211 11513; Sub 11512 11514; AndEqz 1400 11515; Mul 2742 9246;
  Mul 11516 11228; Mul 9246 428; Add 11518 11236; Sub 11517 11519; AndEqz 1401 11520; Mul 891 481; Add 1554 11521;
  Add 11522 7876; Add 11523 7878; Mul 921 484; Add 11524 11525; Sub 871 11526; Mul 2776 11233; Mul 11528 11527;
  Mul 11233 1265; Mul 11527 1265; Add 11530 11531; Sub 11529 11532; AndEqz 1402 11533; Add 11522 10863;
  Add 11534 7878; Add 11535 11525; Sub 871 11536; Sub 3935 482; Sub 11538 410; Mul 901 11539; Add 1522 11540;
  Sub 871 11541; Mul 3756 11537; Mul 11543 11542; Mul 11537 1265; Mul 11542 428; Add 11545 11546; Sub 11544 11547;
  AndEqz 1403 11548; Add 10089 10863; Add 11549 7255; Add 11550 4357; Sub 871 11551; Mul 4420 10093; Mul 11553 11552;
  Mul 10093 428; Mul 11552 1265; Add 11555 11556; Sub 11554 11557; AndEqz 1404 11558; Sub 3935 486; Sub 11559 410;
  Mul 901 11560; Add 1522 11561; Sub 871 11562; Add 1554 5414; Add 11564 6486; Add 11565 6488; Mul 921 492;
  Add 11566 11567; Sub 871 11568; Mul 4444 11563; Mul 11570 11569; Mul 11563 1265; Mul 11569 1265; Add 11572 11573;
  Sub 11571 11574; AndEqz 1405 11575; Add 11564 10863; Add 11576 6488; Add 11577 11567; Sub 871 11578; Sub 3935 490;
  Sub 11580 410; Mul 901 11581; Add 1522 11582; Sub 871 11583; Mul 4469 11579; Mul 11585 11584; Mul 11579 1265;
  Mul 11584 428; Add 11587 11588; Sub 11586 11589; AndEqz 1406 11590; Add 1554 9454].

(* L13020-13519 POLY_EXT_DEF.block *)
Definition block_26 : list Step := [
  Mul 901 494; Add 11591 11592; Mul 911 495; Add 11593 11594; Mul 921 496; Add 11595 11596; Sub 871 11597;
  Add 11591 10863; Add 11599 11594; Add 11600 11596; Sub 871 11601; Mul 4520 11598; Mul 11603 11602; Mul 11598 428;
  Mul 11602 1265; Add 11605 11606; Sub 11604 11607; AndEqz 1407 11608; Sub 3935 494; Sub 11609 410; Mul 901 11610;
  Add 1522 11611; Sub 871 11612; Mul 891 497; Add 1554 11614; Add 11615 10222; Add 11616 8551; Add 11617 8553;
  Sub 871 11618; Mul 4546 11613; Mul 11620 11619; Mul 11613 1265; Mul 11619 1265; Add 11622 11623; Sub 11621 11624;
  AndEqz 1408 11625; Add 11615 10863; Add 11626 8551; Add 11627 8553; Sub 871 11628; Sub 3935 498; Sub 11630 410;
  Mul 901 11631; Add 1522 11632; Sub 871 11633; Mul 4598 11629; Mul 11635 11634; Mul 11629 1265; Mul 11634 428;
  Add 11637 11638; Sub 11636 11639; AndEqz 1409 11640; Mul 891 501; Add 1554 11641; Mul 901 502; Add 11642 11643;
  Mul 911 503; Add 11644 11645; Mul 921 504; Add 11646 11647; Sub 871 11648; Add 11642 10863; Add 11650 11645;
  Add 11651 11647; Sub 871 11652; Mul 4651 11649; Mul 11654 11653; Mul 11649 428; Mul 11653 1265; Add 11656 11657;
  Sub 11655 11658; AndEqz 1410 11659; Sub 3935 502; Sub 11660 410; Mul 901 11661; Add 1522 11662; Sub 871 11663;
  Add 3986 451; Add 1554 4572; Add 11666 7127; Mul 911 507; Add 11667 11668; Add 11669 4578; Sub 871 11670;
  Mul 4679 11664; Mul 11672 11671; Mul 11664 1265; Mul 11671 1265; Add 11674 11675; Sub 11673 11676;
  AndEqz 1411 11677; Mul 11665 402; Add 11678 410; Mul 901 11679; Add 11666 11680; Add 11681 5505; Add 11682 5507;
  Sub 871 11683; Sub 11679 506; Sub 11685 410; Mul 901 11686; Add 1522 11687; Sub 871 11688; Mul 4703 11684;
  Mul 11690 11689; Mul 11684 1265; Mul 11689 428; Add 11692 11693; Sub 11691 11694; AndEqz 1412 11695; Add 1554 8098;
  Add 11696 3730; Add 11697 3732; Add 11698 3734; Sub 871 11699; Add 11696 11680; Add 11701 8050; Add 11702 8102;
  Sub 871 11703; Mul 4729 11700; Mul 11705 11704; Mul 11700 428; Mul 11704 1265; Add 11707 11708; Sub 11706 11709;
  AndEqz 1413 11710; Sub 11679 512; Sub 11711 410; Mul 901 11712; Add 1522 11713; Sub 871 11714; Mul 4778 11715;
  Mul 11716 6385; Mul 11715 1265; Mul 6385 1265; Add 11718 11719; Sub 11717 11720; AndEqz 1414 11721; Add 6378 11680;
  Add 11722 7931; Add 11723 7933; Sub 871 11724; Sub 11679 518; Sub 11726 410; Mul 901 11727; Add 1522 11728;
  Sub 871 11729; Mul 4804 11725; Mul 11731 11730; Mul 11725 1265; Mul 11730 428; Add 11733 11734; Sub 11732 11735;
  AndEqz 1415 11736; Add 7958 11680; Add 11737 10283; Add 11738 10285; Sub 871 11739; Mul 4855 7964; Mul 11741 11740;
  Mul 7964 428; Mul 11740 1265; Add 11743 11744; Sub 11742 11745; AndEqz 1416 11746; Sub 11679 524; Sub 11747 410;
  Mul 901 11748; Add 1522 11749; Sub 871 11750; Mul 4909 11751; Mul 11752 9489; Mul 11751 1265; Mul 9489 1265;
  Add 11754 11755; Sub 11753 11756; AndEqz 1417 11757; Add 9485 11680; Add 11758 5741; Mul 921 534; Add 11759 11760;
  Sub 871 11761; Sub 11679 530; Sub 11763 410; Mul 901 11764; Add 1522 11765; Sub 871 11766; Mul 4939 11762;
  Mul 11768 11767; Mul 11762 1265; Mul 11767 428; Add 11770 11771; Sub 11769 11772; AndEqz 1418 11773;
  Add 9522 11680; Add 11774 6752; Add 11775 9531; Sub 871 11776; Mul 4963 9526; Mul 11778 11777; Mul 9526 428;
  Mul 11777 1265; Add 11780 11781; Sub 11779 11782; AndEqz 1419 11783; Sub 11679 536; Sub 11784 410; Mul 901 11785;
  Add 1522 11786; Sub 871 11787; Add 1554 4829; Mul 901 542; Add 11789 11790; Mul 911 543; Add 11791 11792;
  Add 11793 4835; Sub 871 11794; Mul 4989 11788; Mul 11796 11795; Mul 11788 1265; Mul 11795 1265; Add 11798 11799;
  Sub 11797 11800; AndEqz 1420 11801; Add 11789 11680; Add 11802 7337; Add 11803 7339; Sub 871 11804; Sub 11679 542;
  Sub 11806 410; Mul 901 11807; Add 1522 11808; Sub 871 11809; Mul 5038 11805; Mul 11811 11810; Mul 11805 1265;
  Mul 11810 428; Add 11813 11814; Sub 11812 11815; AndEqz 1421 11816; Mul 891 547; Add 1554 11817; Add 11818 9561;
  Add 11819 8748; Add 11820 8750; Sub 871 11821; Add 11818 11680; Mul 911 551; Add 11823 11824; Add 11825 8247;
  Sub 871 11826; Mul 5064 11822; Mul 11828 11827; Mul 11822 428; Mul 11827 1265; Add 11830 11831; Sub 11829 11832;
  AndEqz 1422 11833; Sub 11679 548; Sub 11834 410; Mul 901 11835; Add 1522 11836; Sub 871 11837; Sub 453 317;
  AndEqz 1423 11839; Sub 455 372; AndEqz 1424 11840; AndEqz 1425 456; Sub 437 316; AndEqz 1426 11841; Sub 441 315;
  AndEqz 1427 11842; Sub 445 306; AndEqz 1428 11843; Sub 449 304; AndEqz 1429 11844; Mul 468 303; Mul 11502 11500;
  Add 11845 11846; Sub 470 11847; AndEqz 1430 11848; Mul 468 302; Add 11849 11846; Sub 471 11850; AndEqz 1431 11851;
  Mul 457 385; Mul 458 394; Add 11852 11853; Sub 452 11854; AndEqz 1432 11855; Sub 473 470; AndEqz 1433 11856;
  Sub 505 471; AndEqz 1434 11857; Add 470 410; Sub 477 11858; AndEqz 1435 11859; Sub 511 7861; AndEqz 1436 11860;
  Add 470 402; Sub 481 11861; AndEqz 1437 11862; Add 471 402; Sub 517 11863; AndEqz 1438 11864; Add 470 372;
  Sub 485 11865; AndEqz 1439 11866; Add 471 372; Sub 523 11867; AndEqz 1440 11868; Add 470 399; Sub 489 11869;
  AndEqz 1441 11870; Add 471 399; Sub 529 11871; AndEqz 1442 11872; Add 470 376; Sub 493 11873; AndEqz 1443 11874;
  Add 471 376; Sub 535 11875; AndEqz 1444 11876; Add 470 395; Sub 497 11877; AndEqz 1445 11878; Add 471 395;
  Sub 541 11879; AndEqz 1446 11880; Add 470 400; Sub 501 11881; AndEqz 1447 11882; Add 471 400; Sub 547 11883;
  AndEqz 1448 11884; Mul 444 394; Add 11885 462; Mul 457 401; Mul 6059 408; Add 11887 11888; Mul 451 11889;
  Add 11886 11890; Sub 472 11891; AndEqz 1449 11892; Mul 452 399; Mul 5120 11838; Mul 11894 10996; Mul 11838 1265;
  Add 11896 11472; Sub 11895 11897; AndEqz 1450 11898; Add 451 11893; Mul 448 394; Add 11900 465; Mul 476 407;
  Add 11902 475; Mul 480 407; Add 11904 479; Mul 488 407; Add 11906 487; Mul 492 407; Add 11908 491; Mul 496 407;
  Add 11910 495; Mul 500 407; Add 11912 499; Mul 504 407; Add 11914 503; Mul 881 357; Add 11916 409; Add 11917 3987;
  Mul 901 11899; Add 11918 11919; Mul 911 11886; Add 11920 11921; Mul 921 11901; Add 11922 11923; Mul 931 11903;
  Add 11924 11925; Mul 941 11905; Add 11926 11927; Mul 951 8479; Add 11928 11929; Mul 961 11907; Add 11930 11931;
  Mul 971 11909; Add 11932 11933; Mul 981 11911; Add 11934 11935; Mul 991 11913; Add 11936 11937; Mul 1001 11915;
  Add 11938 11939; Sub 871 11940; Mul 516 407; Add 11942 515; Mul 522 407; Add 11944 521; Mul 528 407; Add 11946 527;
  Mul 540 407; Add 11948 539; Mul 552 407; Add 11950 551; Mul 891 11665; Add 11917 11952; Mul 901 11893;
  Add 11953 11954; Add 11955 8429; Add 11956 11923; Mul 931 6344; Add 11957 11958; Mul 941 11943; Add 11959 11960;
  Mul 951 11945; Add 11961 11962; Mul 961 11947; Add 11963 11964; Mul 971 8690; Add 11965 11966; Mul 981 11949;
  Add 11967 11968; Mul 991 8029; Add 11969 11970; Mul 1001 11951; Add 11971 11972; Sub 871 11973; Mul 5174 11941;
  Mul 11975 11974; Mul 11941 1265; Mul 11974 428; Add 11977 11978; Sub 11976 11979; AndEqz 1451 11980; Add 429 451;
  Add 11981 402; Mul 891 11982; Add 1460 11983; Add 11984 3902; Add 11985 3904; Add 11986 10904; Add 11987 3983;
  Sub 871 11988; Mul 9904 11989; Mul 11990 10921; Mul 11989 1265; Add 11992 10925; Sub 11991 11993;
  AndEqz 1452 11994; AndEqz 1453 9913; Mul 416 423; AndCond 1383 11995 1454; Sub 450 410; Mul 450 11996;
  AndEqz 1293 11997; AndEqz 1456 1625; AndEqz 1457 1632; Mul 451 399; Add 11998 1633; Add 11999 452; Sub 12000 447;
  AndEqz 1458 12001; Mul 450 372; Mul 11469 1637; Add 11471 1645; Sub 12003 12004; AndEqz 1459 12005; Mul 12002 398;
  Mul 12006 397; Sub 410 12006; Mul 12008 396; Add 12007 12009; Sub 12010 448; Sub 12011 454; AndEqz 1460 12012;
  AndEqz 1461 10991; AndEqz 1462 11240; Sub 439 376; AndEqz 1463 12013; AndEqz 1464 440; Sub 441 301;
  AndEqz 1465 12014; Sub 445 300; AndEqz 1466 12015; Sub 443 450; AndEqz 1467 12016; AndEqz 1468 444; Add 452 453;
  AndEqz 1469 12017; Add 11900 451; Add 429 449; Add 12019 410; Add 12018 449; Mul 881 372; Add 12022 409;
  Add 12023 3987; Mul 901 12018; Add 12024 12025; Add 12026 6027; Sub 871 12027].

(* L13520-14019 POLY_EXT_DEF.block *)
Definition block_27 : list Step := [
  Mul 1479 10996; Mul 12029 12028; Mul 12028 1265; Add 11004 12031; Sub 12030 12032; AndEqz 1470 12033;
  Mul 891 12020; Add 12023 12034; Mul 901 12021; Add 12035 12036; Add 12037 6027; Sub 871 12038; Add 12019 402;
  Mul 891 12040; Add 1460 12041; Add 12042 3902; Add 12043 3904; Add 12044 10904; Add 12045 3983; Sub 871 12046;
  Mul 1499 12039; Mul 12048 12047; Mul 12039 428; Mul 12047 1265; Add 12050 12051; Sub 12049 12052;
  AndEqz 1471 12053; Mul 2667 10921; Mul 12054 331; Sub 12055 11020; AndEqz 1472 12056; Add 1518 2674;
  Sub 1512 12057; AndEqz 1473 12058; Mul 416 424; AndCond 1455 12059 1474; Sub 430 410; Mul 430 12060;
  AndEqz 0 12061; AndEqz 1476 3876; AndEqz 1477 5977; Mul 5974 434; Sub 410 433; Sub 12062 12063; AndEqz 1478 12064;
  Mul 433 5974; AndEqz 1479 12065; Mul 433 434; AndEqz 1480 12066; Mul 1278 3826; Mul 12067 10934; Add 3833 10942;
  Sub 12068 12069; AndEqz 1481 12070; Mul 1297 10939; Mul 12071 3850; Mul 10939 1265; Add 12073 3854;
  Sub 12072 12074; AndEqz 1482 12075; Mul 1391 11026; Mul 12076 11037; Mul 11037 428; Add 11030 12078;
  Sub 12077 12079; AndEqz 1483 12080; Mul 1411 5210; Mul 12081 11046; Add 5219 11054; Sub 12082 12083;
  AndEqz 1484 12084; Mul 1430 11051; Mul 12085 11063; Mul 11051 1265; Mul 11063 1265; Add 12087 12088;
  Sub 12086 12089; AndEqz 1485 12090; Mul 1451 11067; Mul 12091 11078; Mul 11078 428; Add 11071 12093;
  Sub 12092 12094; AndEqz 1486 12095; Mul 1479 11085; Mul 12096 11095; Mul 11085 428; Add 12098 11103;
  Sub 12097 12099; AndEqz 1487 12100; Mul 1499 11100; Mul 12101 11113; Mul 11100 1265; Mul 11113 1265;
  Add 12103 12104; Sub 12102 12105; AndEqz 1488 12106; Mul 2667 11117; Mul 12107 11128; Mul 11128 428;
  Add 11121 12109; Sub 12108 12110; AndEqz 1489 12111; Mul 2691 11134; Mul 12112 11144; Mul 11134 428;
  Add 12114 11152; Sub 12113 12115; AndEqz 1490 12116; Mul 2717 11149; Mul 12117 11161; Mul 11149 1265;
  Mul 11161 1265; Add 12119 12120; Sub 12118 12121; AndEqz 1491 12122; Mul 2742 11165; Mul 12123 11176;
  Mul 11176 428; Add 11169 12125; Sub 12124 12126; AndEqz 1492 12127; Mul 2776 6114; Mul 12128 11185; Mul 6114 428;
  Add 12130 11193; Sub 12129 12131; AndEqz 1493 12132; Mul 3756 11190; Mul 12133 11203; Mul 11190 1265;
  Add 12135 11508; Sub 12134 12136; AndEqz 1494 12137; Mul 4420 11207; Mul 12138 11218; Sub 12139 11514;
  AndEqz 1495 12140; Mul 4444 9246; Mul 12141 11228; Sub 12142 11519; AndEqz 1496 12143; Mul 4469 11233;
  Mul 12144 11527; Sub 12145 11532; AndEqz 1497 12146; Mul 4520 11537; Mul 12147 11542; Sub 12148 11547;
  AndEqz 1498 12149; Mul 4546 10093; Mul 12150 11552; Sub 12151 11557; AndEqz 1499 12152; Mul 4598 11563;
  Mul 12153 11569; Sub 12154 11574; AndEqz 1500 12155; Mul 4651 11579; Mul 12156 11584; Sub 12157 11589;
  AndEqz 1501 12158; Mul 4679 11598; Mul 12159 11602; Sub 12160 11607; AndEqz 1502 12161; Mul 4703 11613;
  Mul 12162 11619; Sub 12163 11624; AndEqz 1503 12164; Mul 4729 11629; Mul 12165 11634; Sub 12166 11639;
  AndEqz 1504 12167; Add 11642 3937; Add 12168 5473; Add 12169 5475; Sub 871 12170; Mul 4778 11649; Mul 12172 12171;
  Mul 12171 1265; Add 11656 12174; Sub 12173 12175; AndEqz 1505 12176; Sub 3936 502; Sub 12177 410; Mul 901 12178;
  Add 1522 12179; Sub 871 12180; Mul 4804 12181; Mul 12182 5509; Mul 12181 1265; Mul 5509 1265; Add 12184 12185;
  Sub 12183 12186; AndEqz 1506 12187; Add 5502 3937; Add 12188 5513; Add 12189 5515; Sub 871 12190; Sub 3936 508;
  Sub 12192 410; Mul 901 12193; Add 1522 12194; Sub 871 12195; Mul 4855 12191; Mul 12197 12196; Mul 12191 1265;
  Mul 12196 428; Add 12199 12200; Sub 12198 12201; AndEqz 1507 12202; Add 1554 10312; Add 12203 8048; Add 12204 8050;
  Add 12205 8102; Sub 871 12206; Add 12203 3937; Add 12208 4609; Add 12209 5590; Sub 871 12210; Mul 4909 12207;
  Mul 12212 12211; Mul 12207 428; Mul 12211 1265; Add 12214 12215; Sub 12213 12216; AndEqz 1508 12217; Sub 3936 514;
  Sub 12218 410; Mul 901 12219; Add 1522 12220; Sub 871 12221; Mul 4939 12222; Mul 12223 7935; Mul 12222 1265;
  Mul 7935 1265; Add 12225 12226; Sub 12224 12227; AndEqz 1509 12228; Add 7928 3937; Mul 911 523; Add 12229 12230;
  Add 12231 4611; Sub 871 12232; Sub 3936 520; Sub 12234 410; Mul 901 12235; Add 1522 12236; Sub 871 12237;
  Mul 4963 12233; Mul 12239 12238; Mul 12233 1265; Mul 12238 428; Add 12241 12242; Sub 12240 12243;
  AndEqz 1510 12244; Mul 891 525; Add 1554 12245; Add 12246 6424; Add 12247 10283; Add 12248 10285; Sub 871 12249;
  Add 12246 3937; Mul 911 529; Add 12251 12252; Mul 921 530; Add 12253 12254; Sub 871 12255; Mul 4989 12250;
  Mul 12257 12256; Mul 12250 428; Mul 12256 1265; Add 12259 12260; Sub 12258 12261; AndEqz 1511 12262; Sub 3936 526;
  Sub 12263 410; Mul 901 12264; Add 1522 12265; Sub 871 12266; Add 1554 7526; Add 12268 2763; Add 12269 5741;
  Add 12270 11760; Sub 871 12271; Mul 5038 12267; Mul 12273 12272; Mul 12267 1265; Mul 12272 1265; Add 12275 12276;
  Sub 12274 12277; AndEqz 1512 12278; Add 12268 3937; Add 12279 7506; Add 12280 7530; Sub 871 12281; Sub 3936 532;
  Sub 12283 410; Mul 901 12284; Add 1522 12285; Sub 871 12286; Mul 5064 12282; Mul 12288 12287; Mul 12282 1265;
  Mul 12287 428; Add 12290 12291; Sub 12289 12292; AndEqz 1513 12293; Mul 891 537; Add 1554 12294; Add 12295 6750;
  Add 12296 6752; Add 12297 9531; Sub 871 12298; Add 12295 3937; Add 12300 7307; Add 12301 7309; Sub 871 12302;
  Mul 5120 12299; Mul 12304 12303; Mul 12299 428; Mul 12303 1265; Add 12306 12307; Sub 12305 12308;
  AndEqz 1514 12309; Sub 3936 538; Sub 12310 410; Mul 901 12311; Add 1522 12312; Sub 871 12313; Mul 5174 12314;
  Mul 12315 7341; Mul 12314 1265; Mul 7341 1265; Add 12317 12318; Sub 12316 12319; AndEqz 1515 12320; Add 7334 3937;
  Add 12321 8734; Add 12322 8736; Sub 871 12323; Sub 3936 544; Sub 12325 410; Mul 901 12326; Add 1522 12327;
  Sub 871 12328; Mul 9904 12324; Mul 12330 12329; Mul 12324 1265; Mul 12329 428; Add 12332 12333; Sub 12331 12334;
  AndEqz 1516 12335; Mul 433 431; Sub 437 435; AndEqz 1517 12337; Add 435 408; Mul 430 12338; Sub 410 430;
  Mul 12340 303; Add 12339 12341; Sub 469 12342; AndEqz 1518 12343; Mul 433 436; Mul 12063 302; Add 12344 12345;
  Sub 501 12346; AndEqz 1519 12347; Sub 503 505; Mul 12336 12348; AndEqz 1520 12349; Sub 504 506; Mul 12336 12350;
  AndEqz 1521 12351; Mul 440 407; Add 12352 439; Sub 557 12353; Mul 430 12354; AndEqz 1522 12355; Mul 472 407;
  Add 12356 471; Sub 565 12357; Mul 430 12358; AndEqz 1523 12359; Sub 557 439; Mul 12340 12360; AndEqz 1524 12361;
  Sub 558 440; Mul 12340 12362; AndEqz 1525 12363; Sub 441 8382; AndEqz 1526 12364; Add 435 340; Mul 430 12365;
  Mul 12340 299; Add 12366 12367; Sub 473 12368; AndEqz 1527 12369; Add 436 410; Mul 433 12370; Mul 12063 298;
  Add 12371 12372; Sub 507 12373; AndEqz 1528 12374; Sub 509 511; Mul 12336 12375; AndEqz 1529 12376; Mul 12336 7922;
  AndEqz 1530 12377; Mul 444 407; Add 12378 443; Sub 558 12379; Mul 430 12380; AndEqz 1531 12381; Sub 566 11903;
  Mul 430 12382; AndEqz 1532 12383; Sub 559 443; Mul 12340 12384; AndEqz 1533 12385; Sub 560 444; Mul 12340 12386;
  AndEqz 1534 12387; Add 435 402; Sub 445 12388; AndEqz 1535 12389; Add 435 405; Mul 430 12390; Mul 12340 297;
  Add 12391 12392; Sub 477 12393; AndEqz 1536 12394; Add 436 402; Mul 433 12395; Mul 12063 296; Add 12396 12397;
  Sub 513 12398; AndEqz 1537 12399; Sub 515 517; Mul 12336 12400; AndEqz 1538 12401; Sub 516 518; Mul 12336 12402;
  AndEqz 1539 12403; Mul 448 407; Add 12404 447; Sub 559 12405; Mul 430 12406; AndEqz 1540 12407; Sub 567 11905;
  Mul 430 12408; AndEqz 1541 12409; Sub 561 447; Mul 12340 12410; AndEqz 1542 12411; Sub 562 448; Mul 12340 12412;
  AndEqz 1543 12413; Add 435 372; Sub 449 12414; AndEqz 1544 12415; Add 435 327; Mul 430 12416; Mul 12340 295;
  Add 12417 12418; Sub 481 12419; AndEqz 1545 12420; Add 436 372; Mul 433 12421; Mul 12063 294; Add 12422 12423;
  Sub 519 12424; AndEqz 1546 12425; Mul 12336 9479; AndEqz 1547 12426; Sub 522 524; Mul 12336 12427;
  AndEqz 1548 12428; Mul 452 407; Add 12429 451; Sub 560 12430; Mul 430 12431; AndEqz 1549 12432; Sub 568 8479;
  Mul 430 12433; AndEqz 1550 12434; Sub 563 451; Mul 12340 12435; AndEqz 1551 12436; Sub 564 452; Mul 12340 12437;
  AndEqz 1552 12438; Add 435 399; Sub 453 12439; AndEqz 1553 12440; Add 435 404; Mul 430 12441; Mul 12340 293;
  Add 12442 12443].

(* L14020-14519 POLY_EXT_DEF.block *)
Definition block_28 : list Step := [
  Sub 485 12444; AndEqz 1554 12445; Add 436 399; Mul 433 12446; Mul 12063 292; Add 12447 12448; Sub 525 12449;
  AndEqz 1555 12450; Sub 527 529; Mul 12336 12451; AndEqz 1556 12452; Sub 528 530; Mul 12336 12453;
  AndEqz 1557 12454; Mul 456 407; Add 12455 455; Sub 561 12456; Mul 430 12457; AndEqz 1558 12458; Sub 569 11907;
  Mul 430 12459; AndEqz 1559 12460; Sub 565 455; Mul 12340 12461; AndEqz 1560 12462; Sub 566 456; Mul 12340 12463;
  AndEqz 1561 12464; Add 435 376; Sub 457 12465; AndEqz 1562 12466; Add 435 361; Mul 430 12467; Mul 12340 291;
  Add 12468 12469; Sub 489 12470; AndEqz 1563 12471; Add 436 376; Mul 433 12472; Mul 12063 290; Add 12473 12474;
  Sub 531 12475; AndEqz 1564 12476; Sub 533 535; Mul 12336 12477; AndEqz 1565 12478; Sub 534 536; Mul 12336 12479;
  AndEqz 1566 12480; Sub 562 9151; Mul 430 12481; AndEqz 1567 12482; Sub 570 11909; Mul 430 12483; AndEqz 1568 12484;
  Sub 567 459; Mul 12340 12485; AndEqz 1569 12486; Sub 568 460; Mul 12340 12487; AndEqz 1570 12488; Add 435 395;
  Sub 461 12489; AndEqz 1571 12490; Add 435 357; Mul 430 12491; Mul 12340 289; Add 12492 12493; Sub 493 12494;
  AndEqz 1572 12495; Add 436 395; Mul 433 12496; Mul 12063 288; Add 12497 12498; Sub 537 12499; AndEqz 1573 12500;
  Sub 539 541; Mul 12336 12501; AndEqz 1574 12502; Sub 540 542; Mul 12336 12503; AndEqz 1575 12504; Sub 563 6084;
  Mul 430 12505; AndEqz 1576 12506; Sub 571 11911; Mul 430 12507; AndEqz 1577 12508; Sub 569 463; Mul 12340 12509;
  AndEqz 1578 12510; Sub 570 464; Mul 12340 12511; AndEqz 1579 12512; Add 435 400; Sub 465 12513; AndEqz 1580 12514;
  Add 435 305; Mul 430 12515; Mul 12340 287; Add 12516 12517; Sub 497 12518; AndEqz 1581 12519; Add 436 400;
  Mul 433 12520; Mul 12063 286; Add 12521 12522; Sub 543 12523; AndEqz 1582 12524; Sub 545 547; Mul 12336 12525;
  AndEqz 1583 12526; Sub 546 548; Mul 12336 12527; AndEqz 1584 12528; Sub 564 7638; Mul 430 12529; AndEqz 1585 12530;
  Sub 572 11913; Mul 430 12531; AndEqz 1586 12532; Sub 571 467; Mul 12340 12533; AndEqz 1587 12534; Sub 572 468;
  Mul 12340 12535; AndEqz 1588 12536; Mul 430 285; Add 432 12537; Mul 431 407; Add 12538 12539; Add 11917 3767;
  Mul 901 12540; Add 12541 12542; Add 12543 2599; Add 12544 2601; Mul 931 549; Add 12545 12546; Add 12547 6772;
  Add 12548 6774; Add 12549 6776; Mul 971 553; Add 12550 12551; Mul 981 554; Add 12552 12553; Mul 991 555;
  Add 12554 12555; Mul 1001 556; Add 12556 12557; Sub 871 12558; Sub 12540 410; Mul 430 408; Add 12561 408;
  Add 435 12562; Mul 901 12560; Add 11918 12564; Mul 911 12563; Add 12565 12566; Add 12567 2601; Mul 931 573;
  Add 12568 12569; Mul 941 574; Add 12570 12571; Mul 951 575; Add 12572 12573; Add 12574 8939; Mul 971 577;
  Add 12575 12576; Mul 981 578; Add 12577 12578; Mul 991 579; Add 12579 12580; Mul 1001 580; Add 12581 12582;
  Sub 871 12583; Mul 762 413; Add 761 12585; Mul 763 412; Add 12586 12587; Mul 764 411; Add 12588 12589;
  Mul 12590 12559; Mul 12591 12584; Mul 12559 428; Mul 12584 1265; Add 12593 12594; Sub 12592 12595;
  AndEqz 1589 12596; Add 9911 12590; Mul 506 407; Add 12598 505; Mul 524 407; Add 12600 523; Mul 530 407;
  Add 12602 529; Mul 536 407; Add 12604 535; Mul 542 407; Add 12606 541; Mul 548 407; Add 12608 547; Mul 881 340;
  Add 12610 409; Add 12611 891; Mul 901 549; Add 12612 12613; Mul 911 550; Add 12614 12615; Mul 921 551;
  Add 12616 12617; Add 12618 10490; Add 12619 5762; Add 12620 5764; Add 12621 5766; Add 12622 5768; Mul 981 557;
  Add 12623 12624; Mul 991 558; Add 12625 12626; Mul 1001 559; Add 12627 12628; Mul 1011 560; Add 12629 12630;
  Mul 1021 561; Add 12631 12632; Mul 1031 562; Add 12633 12634; Mul 1041 563; Add 12635 12636; Mul 1051 564;
  Add 12637 12638; Mul 1061 565; Add 12639 12640; Mul 1071 566; Add 12641 12642; Mul 1081 567; Add 12643 12644;
  Mul 1091 568; Add 12645 12646; Mul 1101 569; Add 12647 12648; Mul 1111 570; Add 12649 12650; Mul 1121 571;
  Add 12651 12652; Mul 1131 572; Add 12653 12654; Mul 1141 12599; Add 12655 12656; Mul 1151 6348; Add 12657 12658;
  Mul 1161 9423; Add 12659 12660; Mul 1171 12601; Add 12661 12662; Mul 1181 12603; Add 12663 12664; Mul 1191 12605;
  Add 12665 12666; Mul 1201 12607; Add 12667 12668; Mul 1211 12609; Add 12669 12670; Sub 871 12671; Add 12611 409;
  Add 12673 12613; Add 12674 12615; Add 12675 12617; Add 12676 10490; Add 12677 5762; Add 12678 5764; Add 12679 5766;
  Add 12680 5768; Add 12681 12624; Add 12682 12626; Add 12683 12628; Add 12684 12630; Add 12685 12632;
  Add 12686 12634; Add 12687 12636; Add 12688 12638; Add 12689 12640; Add 12690 12642; Add 12691 12644;
  Add 12692 12646; Add 12693 12648; Add 12694 12650; Add 12695 12652; Add 12696 12654; Mul 1141 573; Add 12697 12698;
  Mul 1151 574; Add 12699 12700; Mul 1161 575; Add 12701 12702; Mul 1171 576; Add 12703 12704; Mul 1181 577;
  Add 12705 12706; Mul 1191 578; Add 12707 12708; Mul 1201 579; Add 12709 12710; Mul 1211 580; Add 12711 12712;
  Sub 871 12713; Mul 766 413; Add 765 12715; Mul 767 412; Add 12716 12717; Mul 768 411; Add 12718 12719;
  Mul 12720 12672; Mul 12721 12714; Mul 12672 1265; Mul 12714 1265; Add 12723 12724; Sub 12722 12725;
  AndEqz 1590 12726; Add 12597 12720; Add 1518 12727; Sub 1512 12728; AndEqz 1591 12729; Mul 416 425;
  AndCond 1475 12730 1592; Add 1554 7654; Add 12731 10889; Add 12732 10891; Add 12733 7660; Sub 871 12734;
  Add 12731 3937; Add 12736 3904; Add 12737 7010; Sub 871 12738; Mul 1278 12735; Mul 12740 12739; Mul 12735 428;
  Mul 12739 1265; Add 12742 12743; Sub 12741 12744; AndEqz 1477 12745; Sub 3936 433; Sub 12746 410; Mul 901 12747;
  Add 1522 12748; Sub 871 12749; Add 1525 409; Sub 871 12751; Mul 1297 12750; Mul 12753 12752; Mul 12750 1265;
  Mul 12752 1265; Add 12755 12756; Sub 12754 12757; AndEqz 1594 12758; Add 4132 409; Sub 871 12759; Add 6194 409;
  Sub 871 12761; Mul 1391 12760; Mul 12763 12762; Mul 12760 1265; Mul 12762 1265; Add 12765 12766; Sub 12764 12767;
  AndEqz 1595 12768; Mul 431 434; Mul 3877 435; Add 12769 12770; Mul 431 436; Mul 3877 437; Add 12772 12773;
  Sub 12771 12774; AndEqz 1596 12775; Mul 431 435; Mul 3877 434; Add 12776 12777; Mul 431 437; Mul 3877 436;
  Add 12779 12780; Mul 439 403; Add 438 12782; Sub 12778 12783; AndEqz 1597 12784; Mul 430 438; Mul 12340 440;
  Add 12785 12786; Mul 430 440; Mul 12340 439; Add 12788 12789; Mul 12790 403; Add 12787 12791; Sub 12781 12792;
  AndEqz 1598 12793; Mul 430 431; Sub 441 12794; AndEqz 1599 12795; Add 432 441; Add 430 6007; Add 12797 410;
  Mul 441 399; Sub 12798 12799; Add 442 410; Add 11403 3767; Add 12802 3928; Mul 911 12797; Add 12803 12804;
  Mul 921 12801; Add 12805 12806; Sub 871 12807; Mul 1411 10970; Mul 12809 12808; Mul 12808 1265; Add 10977 12811;
  Sub 12810 12812; AndEqz 1600 12813; Mul 901 12796; Add 11404 12814; Mul 911 12800; Add 12815 12816; Add 12817 3962;
  Sub 871 12818; Mul 1430 12819; Mul 12820 331; Mul 428 331; Add 12822 409; Sub 12821 12823; AndEqz 1601 12824;
  AndEqz 1602 10929; Mul 416 426; AndCond 1593 12825 1603; Add 1266 10889; Sub 871 12826; Add 1554 4168;
  Add 12828 3902; Add 12829 3904; Add 12830 7010; Sub 871 12831; Mul 1278 12827; Mul 12833 12832; Mul 12827 1265;
  Mul 12832 1265; Add 12835 12836; Sub 12834 12837; AndEqz 0 12838; Add 1570 410; Mul 901 12839; Add 12828 12840;
  Add 12841 1371; Add 12842 1373; Sub 871 12843; Sub 12839 435; Sub 12845 410; Mul 901 12846; Add 1522 12847;
  Sub 871 12848; Mul 1297 12844; Mul 12850 12849; Mul 12844 1265; Mul 12849 428; Add 12852 12853; Sub 12851 12854;
  AndEqz 1605 12855; Add 433 399; Add 11403 7654; Add 12857 2597; Add 12858 409; Mul 921 12856; Add 12859 12860;
  Sub 871 12861; Add 11403 7672; Mul 901 9170; Add 12863 12864; Add 12865 409; Mul 921 433; Add 12866 12867;
  Sub 871 12868; Mul 1391 12862; Mul 12870 12869; Mul 12862 428; Mul 12869 1265; Add 12872 12873; Sub 12871 12874;
  AndEqz 1606 12875; Mul 1411 1545; Mul 12876 1563; Mul 1545 2624; Mul 1563 2624; Add 12878 12879; Sub 12877 12880;
  AndEqz 1607 12881; Add 1539 410; Mul 901 12882; Add 1556 12883; Add 12884 5996; Add 12885 5998; Sub 871 12886;
  Sub 12882 443; Sub 12888 410; Mul 901 12889].

(* L14520-15019 POLY_EXT_DEF.block *)
Definition block_29 : list Step := [
  Add 1522 12890; Sub 871 12891; Mul 1430 12887; Mul 12893 12892; Mul 12887 2624; Mul 12892 429; Add 12895 12896;
  Sub 12894 12897; AndEqz 1608 12898; Add 441 399; Mul 891 440; Add 11403 12900; Add 12901 3844; Add 12902 409;
  Mul 921 12899; Add 12903 12904; Sub 871 12905; Add 440 410; Mul 891 12907; Add 11403 12908; Mul 901 12801;
  Add 12909 12910; Add 12911 409; Add 12912 8400; Sub 871 12913; Mul 1451 12906; Mul 12915 12914; Mul 12906 429;
  Mul 12914 2624; Add 12917 12918; Sub 12916 12919; AndEqz 1609 12920; Add 1266 1270; Sub 871 12921; Mul 1479 12922;
  Mul 12923 11354; Mul 12922 4400; Mul 11354 4400; Add 12925 12926; Sub 12924 12927; AndEqz 1610 12928; Mul 448 402;
  Add 12929 410; Mul 901 12930; Add 11350 12931; Add 12932 11356; Add 12933 11358; Sub 871 12934; Sub 12930 451;
  Sub 12936 410; Mul 901 12937; Add 1522 12938; Sub 871 12939; Mul 1499 12935; Mul 12941 12940; Mul 12935 4400;
  Mul 12940 430; Add 12943 12944; Sub 12942 12945; AndEqz 1611 12946; Add 449 399; Add 11403 6024; Add 12948 1286;
  Add 12949 409; Mul 921 12947; Add 12950 12951; Sub 871 12952; Add 448 410; Add 450 410; Mul 891 12954;
  Add 11403 12956; Mul 901 12955; Add 12957 12958; Add 12959 409; Add 12960 1592; Sub 871 12961; Mul 2667 12953;
  Mul 12963 12962; Mul 12953 430; Mul 12962 4400; Add 12965 12966; Sub 12964 12967; AndEqz 1612 12968; Mul 901 457;
  Add 1266 12969; Sub 871 12970; Add 1554 5256; Add 12972 9141; Mul 911 460; Add 12973 12974; Mul 921 461;
  Add 12975 12976; Sub 871 12977; Mul 2691 12971; Mul 12979 12978; Mul 12971 4661; Mul 12978 4661; Add 12981 12982;
  Sub 12980 12983; AndEqz 1613 12984; Add 12972 10007; Mul 911 462; Add 12985 12986; Add 12987 8491; Sub 871 12988;
  Sub 10006 459; Sub 12990 410; Mul 901 12991; Add 1522 12992; Sub 871 12993; Mul 2717 12989; Mul 12995 12994;
  Mul 12989 4661; Mul 12994 431; Add 12997 12998; Sub 12996 12999; AndEqz 1614 13000; Add 457 399; Add 11403 7680;
  Add 13002 6874; Add 13003 409; Mul 921 13001; Add 13004 13005; Sub 871 13006; Add 458 410; Add 11403 10050;
  Mul 901 13008; Add 13009 13010; Add 13011 409; Add 13012 4076; Sub 871 13013; Mul 2742 13007; Mul 13015 13014;
  Mul 13007 431; Mul 13014 4661; Add 13017 13018; Sub 13016 13019; AndEqz 1615 13020; Add 1518 2749; Sub 1512 13021;
  AndEqz 1616 13022; Mul 416 427; AndCond 1604 13023 1617; Add 3927 10863; Add 13024 3930; Add 13025 3932;
  Sub 871 13026; Mul 3942 13027; Mul 13027 1265; Add 3944 13029; Sub 13028 13030; AndEqz 1476 13031; Sub 3935 432;
  Sub 13032 410; Mul 901 13033; Add 1522 13034; Sub 871 13035; Add 1554 7028; Add 13037 7656; Add 13038 7658;
  Add 13039 7711; Sub 871 13040; Mul 1297 13036; Mul 13042 13041; Mul 13036 1265; Mul 13041 1265; Add 13044 13045;
  Sub 13043 13046; AndEqz 1619 13047; Add 13037 10863; Add 13048 7658; Add 13049 7711; Sub 871 13050; Sub 3935 436;
  Sub 13052 410; Mul 901 13053; Add 1522 13054; Sub 871 13055; Mul 1391 13051; Mul 13057 13056; Mul 13051 1265;
  Mul 13056 428; Add 13059 13060; Sub 13058 13061; AndEqz 1620 13062; AndEqz 1621 1535; AndEqz 1622 1537;
  AndEqz 1623 4009; Add 439 440; Add 13063 441; Sub 13064 410; AndEqz 1624 13065; AndEqz 1625 6801;
  AndEqz 1626 10972; Sub 444 410; Mul 444 13066; AndEqz 1627 13067; AndEqz 1628 10982; Sub 446 410; Mul 446 13068;
  AndEqz 1629 13069; Sub 447 410; Mul 447 13070; AndEqz 1630 13071; Sub 448 410; Mul 448 13072; AndEqz 1631 13073;
  Add 442 443; Add 13074 444; Add 13075 445; Add 13076 446; Add 13077 447; Add 13078 448; Sub 13079 410;
  AndEqz 1632 13080; Sub 449 410; Mul 449 13081; AndEqz 1633 13082; AndEqz 1634 11997; AndEqz 1635 1623;
  AndEqz 1636 1625; AndEqz 1637 1632; AndEqz 1638 5231; AndEqz 1639 1639; Sub 456 410; Mul 456 13083;
  AndEqz 1640 13084; Add 6874 409; Sub 871 13085; Mul 1411 13086; Mul 13087 9143; Mul 13086 1265; Add 13089 9147;
  Sub 13088 13090; AndEqz 1641 13091; AndEqz 1642 1666; AndEqz 1643 6903; AndEqz 1644 1670; Add 437 459;
  Sub 6891 13092; AndEqz 1645 13093; Mul 463 407; Add 462 13094; Add 438 458; Add 13096 461; Sub 13095 13097;
  AndEqz 1646 13098; Sub 462 396; AndEqz 1647 1672; Mul 13099 465; Sub 13100 4114; AndEqz 1648 13101; Mul 464 13099;
  AndEqz 1649 13102; Mul 464 465; AndEqz 1650 13103; Add 1266 10752; Sub 871 13104; AndEqz 1651 1678;
  AndEqz 1652 1680; Mul 466 399; Mul 468 402; Add 13106 13107; Add 13108 467; Sub 13109 460; AndEqz 1653 13110;
  Mul 430 372; Add 1266 7674; Sub 871 13112; Mul 1451 13105; Mul 13114 13113; Mul 13105 1265; Mul 13113 1265;
  Add 13116 13117; Sub 13115 13118; AndEqz 1654 13119; Mul 13111 398; Mul 13120 397; Sub 410 13120; Mul 13122 396;
  Add 13121 13123; Sub 13124 462; Sub 13125 469; AndEqz 1655 13126; Add 5401 409; Sub 871 13127; Add 8427 409;
  Sub 871 13129; Mul 1479 13128; Mul 13131 13130; Mul 13128 1265; Mul 13130 1265; Add 13133 13134; Sub 13132 13135;
  AndEqz 1656 13136; Add 9204 409; Sub 871 13137; Mul 1499 13138; Mul 13139 6947; Mul 13138 1265; Add 13141 6950;
  Sub 13140 13142; AndEqz 1657 13143; Mul 2667 6137; Mul 13144 6139; Sub 13145 6144; AndEqz 1658 13146;
  Mul 2691 6955; Mul 13147 6957; Sub 13148 6962; AndEqz 1659 13149; Add 6150 409; Sub 871 13150; Add 4198 409;
  Sub 871 13152; Mul 2717 13151; Mul 13154 13153; Mul 13151 1265; Mul 13153 1265; Add 13156 13157; Sub 13155 13158;
  AndEqz 1660 13159; Add 4353 409; Sub 871 13160; Add 7740 409; Sub 871 13162; Mul 2742 13161; Mul 13164 13163;
  Mul 13161 1265; Mul 13163 1265; Add 13166 13167; Sub 13165 13168; AndEqz 1661 13169; Add 7876 409; Sub 871 13170;
  Add 4230 409; Sub 871 13172; Mul 2776 13171; Mul 13174 13173; Mul 13171 1265; Mul 13173 1265; Add 13176 13177;
  Sub 13175 13178; AndEqz 1662 13179; Mul 901 484; Add 13180 409; Sub 871 13181; Add 7765 409; Sub 871 13183;
  Mul 3756 13182; Mul 13185 13184; Mul 13182 1265; Mul 13184 1265; Add 13187 13188; Sub 13186 13189;
  AndEqz 1663 13190; Mul 441 402; Add 440 13191; Mul 13192 387; Mul 444 402; Add 443 13194; Mul 445 372;
  Add 13195 13196; Mul 446 399; Add 13197 13198; Mul 447 376; Add 13199 13200; Mul 448 395; Add 13201 13202;
  Mul 13203 403; Add 13193 13204; Mul 450 402; Add 449 13206; Add 13207 11998; Mul 13208 406; Add 13205 13209;
  Add 452 1633; Mul 454 399; Add 13211 13212; Mul 455 408; Add 13213 13214; Mul 456 401; Add 13215 13216;
  Add 13210 13217; Sub 434 13218; AndEqz 1664 13219; Sub 433 457; AndEqz 1665 13220; Mul 430 329; Mul 12340 328;
  Add 13221 13222; Add 13223 13217; Sub 435 13224; AndEqz 1666 13225; Mul 458 407; Add 13226 459; Sub 13227 11887;
  AndEqz 1667 13228; Add 467 468; AndEqz 1668 13229; Mul 464 12340; AndEqz 1669 13230; Mul 471 403; Add 470 13231;
  Mul 473 403; Add 472 13233; Sub 13232 490; Mul 439 13235; AndEqz 1670 13236; Sub 13234 491; Mul 439 13237;
  AndEqz 1671 13238; Sub 6166 492; Mul 439 13239; AndEqz 1672 13240; Sub 6980 493; Mul 439 13241; AndEqz 1673 13242;
  Mul 479 403; Add 478 13243; Mul 481 403; Add 480 13245; Sub 13244 494; Mul 439 13247; AndEqz 1674 13248;
  Sub 13246 495; Mul 439 13249; AndEqz 1675 13250; Mul 483 403; Add 482 13251; Mul 485 403; Add 484 13253;
  Sub 13252 496; Mul 439 13255; AndEqz 1676 13256; Sub 13254 497; Mul 439 13257; AndEqz 1677 13258; Mul 462 394;
  Add 13259 466; Add 3935 440; Sub 0 13063; Mul 891 13260; Add 1554 13263; Add 13264 7253; Add 13265 8597;
  Add 13266 8622; Sub 871 13267; Mul 901 13261; Add 13264 13269; Mul 911 13232; Add 13270 13271; Mul 921 13234;
  Add 13272 13273; Sub 871 13274; Mul 4420 13268; Mul 13276 13275; Mul 13268 13063; Mul 13275 13262; Add 13278 13279;
  Sub 13277 13280; AndEqz 1678 13281; Sub 13261 486; Sub 13282 410; Mul 901 13283; Add 1522 13284; Sub 871 13285;
  Add 13260 410; Mul 891 13287; Add 1554 13288; Mul 901 487; Add 13289 13290; Add 13291 4278; Add 13292 4280;
  Sub 871 13293; Mul 4444 13286; Mul 13295 13294; Mul 13286 13262; Mul 13294 13262; Add 13297 13298; Sub 13296 13299;
  AndEqz 1679 13300; Add 13289 13269; Mul 911 6166; Add 13301 13302; Mul 921 6980; Add 13303 13304; Sub 871 13305;
  Sub 13261 487; Sub 13307 410; Mul 901 13308; Add 1522 13309; Sub 871 13310; Mul 4469 13306; Mul 13312 13311;
  Mul 13306 13262; Mul 13311 13063; Add 13314 13315; Sub 13313 13316; AndEqz 1680 13317].

(* L15020-15519 POLY_EXT_DEF.block *)
Definition block_30 : list Step := [
  Add 13260 402; Mul 891 13318; Add 1554 13319; Add 13320 6469; Add 13321 4292; Add 13322 4294; Sub 871 13323;
  Add 13320 13269; Mul 911 13244; Add 13325 13326; Mul 921 13246; Add 13327 13328; Sub 871 13329; Mul 4520 13324;
  Mul 13331 13330; Mul 13324 13063; Mul 13330 13262; Add 13333 13334; Sub 13332 13335; AndEqz 1681 13336;
  Sub 13261 488; Sub 13337 410; Mul 901 13338; Add 1522 13339; Sub 871 13340; Add 13260 372; Mul 891 13342;
  Add 1554 13343; Add 13344 8595; Mul 911 496; Add 13345 13346; Add 13347 10225; Sub 871 13348; Mul 4546 13341;
  Mul 13350 13349; Mul 13341 13262; Mul 13349 13262; Add 13352 13353; Sub 13351 13354; AndEqz 1682 13355;
  Add 13344 13269; Mul 911 13252; Add 13356 13357; Mul 921 13254; Add 13358 13359; Sub 871 13360; Sub 13261 489;
  Sub 13362 410; Mul 901 13363; Add 1522 13364; Sub 871 13365; Mul 4598 13361; Mul 13367 13366; Mul 13361 13262;
  Mul 13366 13063; Add 13369 13370; Sub 13368 13371; AndEqz 1683 13372; Add 12023 3767; Mul 901 431; Add 13373 13374;
  Add 13375 1351; Sub 871 13376; Mul 901 6206; Add 12024 13378; Add 13379 1351; Sub 871 13380; Mul 4651 13377;
  Mul 13382 13381; Mul 13377 428; Mul 13381 1265; Add 13384 13385; Sub 13383 13386; AndEqz 1684 13387; Add 1518 4658;
  Sub 1512 13388; AndEqz 1685 13389; Mul 417 420; AndCond 1618 13390 1686; AndEqz 0 10982; Sub 397 448;
  Add 13391 410; Sub 397 449; Mul 445 13392; Sub 410 445; Mul 13395 448; Add 13394 13396; Mul 445 13393;
  Mul 13395 449; Add 13398 13399; AndEqz 1688 1623; Mul 901 452; Add 1266 13401; Sub 871 13402; Mul 1278 1615;
  Mul 13404 13403; Mul 13403 1265; Add 1619 13406; Sub 13405 13407; AndEqz 1689 13408; AndEqz 1690 1632; Mul 451 407;
  Add 450 13409; Add 446 13397; Sub 13410 13411; AndEqz 1691 13412; Mul 453 407; Add 452 13413; Add 447 13400;
  Add 13415 451; Sub 13414 13416; AndEqz 1692 13417; Mul 445 395; Mul 891 13418; Add 4146 13419; Add 13420 5204;
  Add 13421 5206; Add 13422 5208; Mul 931 449; Add 13423 13424; Add 13425 4174; Add 13426 5284; Add 13427 409;
  Add 13428 409; Sub 871 13429; AndEqz 1693 1639; Sub 397 458; Add 13431 410; Sub 397 459; Mul 455 13432;
  Mul 9134 458; Add 13434 13435; Mul 455 13433; Mul 9134 459; Add 13437 13438; Mul 1297 13430; Mul 13440 6885;
  Mul 13430 2624; Mul 6885 444; Add 13442 13443; Sub 13441 13444; AndEqz 1694 13445; AndEqz 1695 1666;
  AndEqz 1696 1670; Add 456 13436; Sub 6891 13446; AndEqz 1697 13447; Add 457 13439; Add 13448 461; Sub 13095 13449;
  AndEqz 1698 13450; Mul 455 395; Mul 891 13451; Add 4146 13452; Add 13453 1640; Mul 911 457; Add 13454 13455;
  Mul 921 458; Add 13456 13457; Mul 931 459; Add 13458 13459; Add 13460 5264; Add 13461 7689; Add 13462 409;
  Add 13463 409; Sub 871 13464; Mul 1391 6897; Mul 13466 13465; Mul 6897 454; Mul 13465 2624; Add 13468 13469;
  Sub 13467 13470; AndEqz 1699 13471; AndEqz 1700 1674; Sub 397 468; Add 13472 410; Sub 397 469; Mul 465 13473;
  Sub 410 465; Mul 13476 468; Add 13475 13477; Mul 465 13474; Mul 13476 469; Add 13479 13480; Add 1266 5401;
  Sub 871 13482; AndEqz 1701 1686; Add 1266 9204; Sub 871 13484; Mul 1411 13483; Mul 13486 13485; Mul 13483 4400;
  Mul 13485 4400; Add 13488 13489; Sub 13487 13490; AndEqz 1702 13491; AndEqz 1703 1690; Mul 471 407; Add 470 13492;
  Add 466 13478; Sub 13493 13494; AndEqz 1704 13495; Mul 473 407; Add 472 13496; Add 467 13481; Add 13498 471;
  Sub 13497 13499; AndEqz 1705 13500; Mul 465 395; Mul 891 13501; Add 4146 13502; Add 13503 10752; Add 13504 10754;
  Add 13505 11159; Mul 931 469; Add 13506 13507; Mul 941 470; Add 13508 13509; Mul 951 472; Add 13510 13511;
  Add 13512 409; Add 13513 409; Sub 871 13514; AndEqz 1706 1694; Sub 397 478; Add 13516 410; Sub 397 479;
  Mul 475 13517; Sub 410 475; Mul 13520 478; Add 13519 13521; Mul 475 13518; Mul 13520 479; Add 13523 13524;
  Add 1266 4353; Sub 871 13526; Mul 1430 13515; Mul 13528 13527; Mul 13515 4661; Mul 13527 464; Add 13530 13531;
  Sub 13529 13532; AndEqz 1707 13533; AndEqz 1708 1706; Add 1266 7876; Sub 871 13534; AndEqz 1709 1710; Mul 481 407;
  Add 480 13536; Add 476 13522; Sub 13537 13538; AndEqz 1710 13539; Mul 483 407; Add 482 13540; Add 477 13525;
  Add 13542 481; Sub 13541 13543; AndEqz 1711 13544; Mul 475 395; Mul 891 13545; Add 4146 13546; Add 13547 6953;
  Mul 911 477; Add 13548 13549; Add 13550 10135; Mul 931 479; Add 13551 13552; Mul 941 480; Add 13553 13554;
  Mul 951 482; Add 13555 13556; Add 13557 409; Add 13558 409; Sub 871 13559; Mul 1451 13535; Mul 13561 13560;
  Mul 13535 474; Mul 13560 4661; Add 13563 13564; Sub 13562 13565; AndEqz 1712 13566; AndEqz 1713 1714; Sub 397 488;
  Add 13567 410; Sub 397 489; Mul 485 13568; Mul 5369 488; Add 13570 13571; Mul 485 13569; Mul 5369 489;
  Add 13573 13574; AndEqz 1714 1724; Add 1266 7058; Sub 871 13576; Mul 1479 9282; Mul 13578 13577; Mul 9282 4919;
  Mul 13577 4919; Add 13580 13581; Sub 13579 13582; AndEqz 1715 13583; AndEqz 1716 1728; Add 486 13572;
  Sub 9288 13584; AndEqz 1717 13585; Mul 493 407; Add 492 13586; Add 487 13575; Add 13588 491; Sub 13587 13589;
  AndEqz 1718 13590; Mul 485 395; Mul 891 13591; Add 4146 13592; Add 13593 7253; Add 13594 7255; Add 13595 4357;
  Add 13596 4359; Mul 941 490; Add 13597 13598; Add 13599 5426; Add 13600 409; Add 13601 409; Sub 871 13602;
  AndEqz 1719 1732; Sub 397 498; Add 13604 410; Sub 397 499; Mul 495 13605; Sub 410 495; Mul 13608 498;
  Add 13607 13609; Mul 495 13606; Mul 13608 499; Add 13611 13612; Add 1266 10239; Sub 871 13614; Mul 1499 13603;
  Mul 13616 13615; Mul 13603 8832; Mul 13615 484; Add 13618 13619; Sub 13617 13620; AndEqz 1720 13621;
  AndEqz 1721 1751; Add 1266 11643; Sub 871 13622; AndEqz 1722 1755; Mul 501 407; Add 500 13624; Add 496 13610;
  Sub 13625 13626; AndEqz 1723 13627; Mul 503 407; Add 502 13628; Add 497 13613; Add 13630 501; Sub 13629 13631;
  AndEqz 1724 13632; Mul 495 395; Mul 891 13633; Add 4146 13634; Add 13635 7081; Add 13636 7083; Add 13637 5564;
  Add 13638 9459; Add 13639 7882; Add 13640 4363; Add 13641 409; Add 13642 409; Sub 871 13643; Mul 2667 13623;
  Mul 13645 13644; Mul 13623 494; Mul 13644 8832; Add 13647 13648; Sub 13646 13649; AndEqz 1725 13650;
  AndEqz 1726 6319; Sub 397 508; Add 13651 410; Sub 397 509; Mul 505 13652; Mul 6321 508; Add 13654 13655;
  Mul 505 13653; Mul 6321 509; Add 13657 13658; AndEqz 1727 7155; Add 1266 3730; Sub 871 13660; Mul 2691 7153;
  Mul 13662 13661; Mul 7153 8955; Mul 13661 8955; Add 13664 13665; Sub 13663 13666; AndEqz 1728 13667;
  AndEqz 1729 4405; Mul 511 407; Add 510 13668; Add 506 13656; Sub 13669 13670; AndEqz 1730 13671; Mul 513 407;
  Add 512 13672; Add 507 13659; Add 13674 511; Sub 13673 13675; AndEqz 1731 13676; Mul 505 395; Mul 891 13677;
  Add 4146 13678; Add 13679 7127; Add 13680 11668; Add 13681 4578; Mul 931 509; Add 13682 13683; Mul 941 510;
  Add 13684 13685; Mul 951 512; Add 13686 13687; Add 13688 409; Add 13689 409; Sub 871 13690; AndEqz 1732 6364;
  Sub 397 518; Add 13692 410; Sub 397 519; Mul 515 13693; Mul 6435 518; Add 13695 13696; Mul 515 13694;
  Add 13698 6436; Add 1266 7929; Sub 871 13700; Mul 2717 13691; Mul 13702 13701; Mul 13691 10527; Mul 13701 504;
  Add 13704 13705; Sub 13703 13706; AndEqz 1733 13707; AndEqz 1734 5548; Add 1266 6406; Sub 871 13708; Sub 523 410;
  Mul 523 13710; AndEqz 1735 13711; Mul 521 407; Add 520 13712; Add 516 13697; Sub 13713 13714; AndEqz 1736 13715;
  Mul 523 407; Add 522 13716; Add 517 13699; Add 13718 521; Sub 13717 13719; AndEqz 1737 13720; Mul 515 395;
  Mul 891 13721; Add 4146 13722; Add 13723 2625; Add 13724 4609; Add 13725 5590; Add 13726 5592; Mul 941 520;
  Add 13727 13728; Add 13729 10342; Add 13730 409; Add 13731 409; Sub 871 13732; Mul 2742 13709; Mul 13734 13733;
  Mul 13709 514; Mul 13733 10527; Add 13736 13737; Sub 13735 13738; AndEqz 1738 13739; AndEqz 1739 6423; Sub 397 528;
  Add 13740 410; Sub 397 529; Mul 525 13741; Sub 410 525; Mul 13744 528; Add 13743 13745; Mul 525 13742;
  Mul 13744 529; Add 13747 13748; Add 1266 5729; Sub 871 13750; AndEqz 1740 2760; Mul 2776 13751; Mul 13752 2765;
  Mul 13751 10623; Mul 2765 10623; Add 13754 13755; Sub 13753 13756].

(* L15520-16019 POLY_EXT_DEF.block *)
Definition block_31 : list Step := [
  AndEqz 1741 13757; AndEqz 1742 2767; Mul 531 407; Add 530 13758; Add 526 13746; Sub 13759 13760; AndEqz 1743 13761;
  Add 527 13749; Add 13762 531; Sub 2787 13763; AndEqz 1744 13764; Mul 525 395; Mul 891 13765; Add 4146 13766;
  Add 13767 6424; Add 13768 10283; Add 13769 10285; Mul 931 529; Add 13770 13771; Mul 941 530; Add 13772 13773;
  Mul 951 532; Add 13774 13775; Add 13776 409; Add 13777 409; Sub 871 13778; AndEqz 1745 2785; Sub 397 538;
  Add 13780 410; Sub 397 539; Mul 535 13781; Mul 8034 538; Add 13783 13784; Mul 535 13782; Mul 8034 539;
  Add 13786 13787; Sub 0 437; Add 1266 7305; Sub 871 13790; Mul 3756 13779; Mul 13792 13791; Mul 13779 13789;
  Mul 13791 524; Add 13794 13795; Sub 13793 13796; AndEqz 1746 13797; AndEqz 1747 2805; Add 1266 11790;
  Sub 871 13798; AndEqz 1748 2809; Mul 541 407; Add 540 13800; Add 536 13785; Sub 13801 13802; AndEqz 1749 13803;
  Mul 543 407; Add 542 13804; Add 537 13788; Add 13806 541; Sub 13805 13807; AndEqz 1750 13808; Mul 535 395;
  Mul 891 13809; Add 4146 13810; Add 13811 5754; Add 13812 5756; Add 13813 6768; Add 13814 6770; Add 13815 10416;
  Mul 951 542; Add 13816 13817; Add 13818 409; Add 13819 409; Sub 871 13820; Mul 4420 13799; Mul 13822 13821;
  Mul 13799 534; Mul 13821 13789; Add 13824 13825; Sub 13823 13826; AndEqz 1751 13827; AndEqz 1752 2813; Sub 397 548;
  Add 13828 410; Sub 397 549; Mul 545 13829; Sub 410 545; Mul 13832 548; Add 13831 13833; Mul 545 13830;
  Mul 13832 549; Add 13835 13836; Sub 0 438; Mul 901 550; Add 1266 13839; Sub 871 13840; AndEqz 1753 2825;
  Add 1266 4865; Sub 871 13842; Mul 4444 13841; Mul 13844 13843; Mul 13841 13838; Mul 13843 13838; Add 13846 13847;
  Sub 13845 13848; AndEqz 1754 13849; AndEqz 1755 2829; Mul 551 407; Add 550 13850; Add 546 13834; Sub 13851 13852;
  AndEqz 1756 13853; Mul 553 407; Add 552 13854; Add 547 13837; Add 13856 551; Sub 13855 13857; AndEqz 1757 13858;
  Mul 545 395; Mul 891 13859; Add 4146 13860; Add 13861 8732; Add 13862 8734; Add 13863 8736; Add 13864 12546;
  Add 13865 6772; Mul 951 552; Add 13866 13867; Add 13868 409; Add 13869 409; Sub 871 13870; AndEqz 1758 2833;
  Sub 397 558; Add 13872 410; Sub 397 559; Mul 555 13873; Sub 410 555; Mul 13876 558; Add 13875 13877; Mul 555 13874;
  Mul 13876 559; Add 13879 13880; Sub 0 439; Add 1266 8269; Sub 871 13883; Mul 4469 13871; Mul 13885 13884;
  Mul 13871 13882; Mul 13884 544; Add 13887 13888; Sub 13886 13889; AndEqz 1759 13890; AndEqz 1760 2845;
  Add 1266 10440; Sub 871 13891; AndEqz 1761 2849; Mul 561 407; Add 560 13893; Add 556 13878; Sub 13894 13895;
  AndEqz 1762 13896; Mul 563 407; Add 562 13897; Add 557 13881; Add 13899 561; Sub 13898 13900; AndEqz 1763 13901;
  Mul 555 395; Mul 891 13902; Add 4146 13903; Add 13904 7388; Mul 911 557; Add 13905 13906; Mul 921 558;
  Add 13907 13908; Mul 931 559; Add 13909 13910; Mul 941 560; Add 13911 13912; Mul 951 562; Add 13913 13914;
  Add 13915 409; Add 13916 409; Sub 871 13917; Mul 4520 13892; Mul 13919 13918; Mul 13892 554; Mul 13918 13882;
  Add 13921 13922; Sub 13920 13923; AndEqz 1764 13924; AndEqz 1765 2853; Sub 397 568; Add 13925 410; Sub 397 569;
  Mul 565 13926; Sub 410 565; Mul 13929 568; Add 13928 13930; Mul 565 13927; Mul 13929 569; Add 13932 13933;
  Sub 0 440; Add 1266 5840; Sub 871 13936; AndEqz 1766 2863; Add 1266 7448; Sub 871 13938; Mul 4546 13937;
  Mul 13940 13939; Mul 13937 13935; Mul 13939 13935; Add 13942 13943; Sub 13941 13944; AndEqz 1767 13945;
  AndEqz 1768 2867; Mul 571 407; Add 570 13946; Add 566 13931; Sub 13947 13948; AndEqz 1769 13949; Mul 573 407;
  Add 572 13950; Add 567 13934; Add 13952 571; Sub 13951 13953; AndEqz 1770 13954; Mul 565 395; Mul 891 13955;
  Add 4146 13956; Add 13957 5809; Add 13958 5811; Add 13959 5813; Add 13960 8274; Mul 941 570; Add 13961 13962;
  Mul 951 572; Add 13963 13964; Add 13965 409; Add 13966 409; Sub 871 13967; AndEqz 1771 2871; Sub 397 578;
  Add 13969 410; Sub 397 579; Mul 575 13970; Add 13972 8196; Mul 575 13971; Add 13974 8199; Sub 0 441; Mul 901 580;
  Add 1266 13977; Sub 871 13978; Mul 4598 13968; Mul 13980 13979; Mul 13968 13976; Mul 13979 564; Add 13982 13983;
  Sub 13981 13984; AndEqz 1772 13985; AndEqz 1773 2890; AndEqz 1774 5883; Mul 581 407; Add 580 13986; Add 576 13973;
  Sub 13987 13988; AndEqz 1775 13989; Add 577 13975; Add 13990 581; Sub 8220 13991; AndEqz 1776 13992; Mul 575 395;
  Mul 891 13993; Add 4146 13994; Add 13995 10593; Add 13996 9731; Mul 921 578; Add 13997 13998; Mul 931 579;
  Add 13999 14000; Mul 941 580; Add 14001 14002; Mul 951 582; Add 14003 14004; Add 14005 409; Add 14006 409;
  Sub 871 14007; Mul 4651 8209; Mul 14009 14008; Mul 8209 574; Mul 14008 13976; Add 14011 14012; Sub 14010 14013;
  AndEqz 1777 14014; AndEqz 1778 4924; Sub 397 588; Add 14015 410; Sub 397 589; Mul 585 14016; Mul 5016 588;
  Add 14018 14019; Mul 585 14017; Mul 5016 589; Add 14021 14022; Sub 0 442; Mul 901 590; Add 1266 14025;
  Sub 871 14026; Sub 591 410; Mul 591 14028; AndEqz 1779 14029; Mul 901 592; Add 1266 14030; Sub 871 14031;
  Mul 4679 14027; Mul 14033 14032; Mul 14027 14024; Mul 14032 14024; Add 14035 14036; Sub 14034 14037;
  AndEqz 1780 14038; Sub 593 410; Mul 593 14039; AndEqz 1781 14040; Mul 591 407; Add 590 14041; Add 586 14020;
  Sub 14042 14043; AndEqz 1782 14044; Mul 593 407; Add 592 14045; Add 587 14023; Add 14047 591; Sub 14046 14048;
  AndEqz 1783 14049; Mul 585 395; Mul 891 14050; Add 4146 14051; Add 14052 8254; Add 14053 8256; Add 14054 9045;
  Mul 931 589; Add 14055 14056; Mul 941 590; Add 14057 14058; Add 14059 9889; Add 14060 409; Add 14061 409;
  Sub 871 14062; Sub 595 410; Mul 595 14064; AndEqz 1784 14065; Sub 397 598; Add 14066 410; Sub 397 599;
  Mul 595 14067; Sub 410 595; Mul 14070 598; Add 14069 14071; Mul 595 14068; Mul 14070 599; Add 14073 14074;
  Sub 0 443; Add 1266 10629; Sub 871 14077; Mul 4703 14063; Mul 14079 14078; Mul 14063 14076; Mul 14078 584;
  Add 14081 14082; Sub 14080 14083; AndEqz 1785 14084; Sub 601 410; Mul 601 14085; AndEqz 1786 14086; Mul 901 602;
  Add 1266 14087; Sub 871 14088; Sub 603 410; Mul 603 14090; AndEqz 1787 14091; Mul 601 407; Add 600 14092;
  Add 596 14072; Sub 14093 14094; AndEqz 1788 14095; Mul 603 407; Add 602 14096; Add 597 14075; Add 14098 601;
  Sub 14097 14099; AndEqz 1789 14100; Mul 595 395; Mul 891 14101; Add 4146 14102; Add 14103 8961; Add 14104 8963;
  Add 14105 8965; Mul 931 599; Add 14106 14107; Mul 941 600; Add 14108 14109; Mul 951 602; Add 14110 14111;
  Add 14112 409; Add 14113 409; Sub 871 14114; Mul 4729 14089; Mul 14116 14115; Mul 14089 594; Mul 14115 14076;
  Add 14118 14119; Sub 14117 14120; AndEqz 1790 14121; Add 1518 4736; Sub 1512 14122; AndEqz 1791 14123; Mul 417 421;
  AndCond 1687 14124 1792; AndEqz 0 3876; AndEqz 1794 5975; AndEqz 1795 5977; Add 431 432; Add 14125 433;
  Sub 14126 410; AndEqz 1796 14127; AndEqz 1797 1537; AndEqz 1798 4009; AndEqz 1799 6801; AndEqz 1800 10972;
  AndEqz 1801 13067; AndEqz 1802 10982; AndEqz 1803 13069; AndEqz 1804 13071; AndEqz 1805 13073; AndEqz 1806 13082;
  AndEqz 1807 11997; AndEqz 1808 1623; AndEqz 1809 1625; AndEqz 1810 1632; AndEqz 1811 5231; AndEqz 1812 1639;
  AndEqz 1813 13084; AndEqz 1814 1650; AndEqz 1815 1660; AndEqz 1816 1662; AndEqz 1817 1664; AndEqz 1818 1666;
  AndEqz 1819 1668; AndEqz 1820 1670; AndEqz 1821 1672; AndEqz 1822 1674; AndEqz 1823 1676; AndEqz 1824 1678;
  AndEqz 1825 1680; AndEqz 1826 1682; AndEqz 1827 1684; AndEqz 1828 1686; AndEqz 1829 1688; AndEqz 1830 1690;
  AndEqz 1831 1692; AndEqz 1832 1694; AndEqz 1833 1696; AndEqz 1834 1698; AndEqz 1835 1700; AndEqz 1836 1702;
  AndEqz 1837 1704; AndEqz 1838 1706; AndEqz 1839 1708; AndEqz 1840 1710; AndEqz 1841 1712; AndEqz 1842 1714;
  AndEqz 1843 1716; AndEqz 1844 1718; AndEqz 1845 1720; AndEqz 1846 1722; AndEqz 1847 5377; AndEqz 1848 1724;
  AndEqz 1849 1726; AndEqz 1850 1728; AndEqz 1851 1730; AndEqz 1852 1732; AndEqz 1853 1734; AndEqz 1854 1736;
  AndEqz 1855 1745; AndEqz 1856 1747; AndEqz 1857 1749; AndEqz 1858 1751; AndEqz 1859 1753; AndEqz 1860 1755;
  Mul 440 472; Mul 473 402; Add 472 14129; Mul 441 473; Mul 14131 402; Add 14128 14132; Mul 442 399; Add 13192 14134;
  Mul 474 399; Add 14130 14136].

(* L16020-16519 POLY_EXT_DEF.block *)
Definition block_32 : list Step := [
  Mul 442 474; Mul 14138 399; Add 14133 14139; Mul 443 408; Add 14135 14141; Mul 475 408; Add 14137 14143;
  Mul 443 475; Mul 14145 408; Add 14140 14146; Mul 444 401; Add 14142 14148; Mul 476 401; Add 14144 14150;
  Mul 444 476; Mul 14152 401; Add 14147 14153; Mul 445 406; Add 14149 14155; Mul 477 406; Add 14151 14157;
  Mul 445 477; Mul 14159 406; Add 14154 14160; Mul 446 392; Add 14156 14162; Mul 478 392; Add 14158 14164;
  Mul 446 478; Mul 14166 392; Add 14161 14167; Mul 447 391; Add 14163 14169; Mul 479 391; Add 14165 14171;
  Mul 447 479; Mul 14173 391; Add 14168 14174; Mul 448 403; Add 14170 14176; Mul 480 403; Add 14172 14178;
  Mul 448 480; Mul 14180 403; Add 14175 14181; Mul 449 390; Add 14177 14183; Mul 481 390; Add 14179 14185;
  Mul 449 481; Mul 14187 390; Add 14182 14188; Mul 450 389; Add 14184 14190; Mul 482 389; Add 14186 14192;
  Mul 450 482; Mul 14194 389; Add 14189 14195; Mul 451 388; Add 14191 14197; Mul 483 388; Add 14193 14199;
  Mul 451 483; Mul 14201 388; Add 14196 14202; Mul 452 387; Add 14198 14204; Mul 484 387; Add 14200 14206;
  Mul 452 484; Mul 14208 387; Add 14203 14209; Mul 453 386; Add 14205 14211; Mul 485 386; Add 14207 14213;
  Mul 453 485; Mul 14215 386; Add 14210 14216; Mul 454 394; Add 14212 14218; Mul 486 394; Add 14214 14220;
  Mul 454 486; Mul 14222 394; Add 14217 14223; Mul 455 385; Add 14219 14225; Mul 487 385; Add 14221 14227;
  Mul 455 487; Mul 14229 385; Add 14224 14230; Mul 456 488; Mul 457 402; Add 456 14233; Add 488 5433; Mul 457 489;
  Mul 14236 402; Add 14232 14237; Mul 458 399; Add 14234 14239; Mul 490 399; Add 14235 14241; Mul 458 490;
  Mul 14243 399; Add 14238 14244; Mul 459 408; Add 14240 14246; Mul 491 408; Add 14242 14248; Mul 459 491;
  Mul 14250 408; Add 14245 14251; Mul 460 401; Add 14247 14253; Mul 492 401; Add 14249 14255; Mul 460 492;
  Mul 14257 401; Add 14252 14258; Mul 461 406; Add 14254 14260; Mul 493 406; Add 14256 14262; Mul 461 493;
  Mul 14264 406; Add 14259 14265; Mul 462 392; Add 14261 14267; Mul 494 392; Add 14263 14269; Mul 462 494;
  Mul 14271 392; Add 14266 14272; Mul 463 391; Add 14268 14274; Mul 495 391; Add 14270 14276; Mul 463 495;
  Mul 14278 391; Add 14273 14279; Mul 464 403; Add 14275 14281; Mul 496 403; Add 14277 14283; Mul 464 496;
  Mul 14285 403; Add 14280 14286; Mul 465 390; Add 14282 14288; Mul 497 390; Add 14284 14290; Mul 465 497;
  Mul 14292 390; Add 14287 14293; Mul 466 389; Add 14289 14295; Mul 498 389; Add 14291 14297; Mul 466 498;
  Mul 14299 389; Add 14294 14300; Mul 467 388; Add 14296 14302; Mul 499 388; Add 14298 14304; Mul 467 499;
  Mul 14306 388; Add 14301 14307; Mul 468 387; Add 14303 14309; Mul 500 387; Add 14305 14311; Mul 468 500;
  Mul 14313 387; Add 14308 14314; Mul 469 386; Add 14310 14316; Mul 501 386; Add 14312 14318; Mul 469 501;
  Mul 14320 386; Add 14315 14321; Mul 470 394; Add 14317 14323; Mul 502 394; Add 14319 14325; Mul 470 502;
  Mul 14327 394; Add 14322 14328; Mul 471 385; Add 14324 14330; Mul 503 385; Add 14326 14332; Mul 471 503;
  Mul 14334 385; Add 14329 14335; Sub 14226 434; AndEqz 1861 14337; Sub 14331 435; AndEqz 1862 14338; Sub 14228 436;
  AndEqz 1863 14339; Sub 14333 437; AndEqz 1864 14340; Mul 431 3; Mul 432 2; Add 14341 14342; Add 14343 433;
  Add 14226 14228; Mul 14125 14345; Mul 14344 14231; Add 14346 14347; Sub 14348 438; AndEqz 1865 14349;
  Add 14331 14333; Mul 14125 14350; Mul 14344 14336; Add 14351 14352; Sub 14353 439; AndEqz 1866 14354; Add 432 4015;
  Mul 14355 395; Add 14356 410; Mul 891 14357; Add 4146 14358; Add 14359 2597; Add 14360 2599; Add 14361 2601;
  Add 14362 2603; Mul 941 438; Add 14363 14364; Mul 951 439; Add 14365 14366; Add 14367 409; Add 14368 409;
  Sub 871 14369; AndEqz 1867 6319; Sub 506 410; Mul 506 14371; AndEqz 1868 14372; AndEqz 1869 7131; Add 505 506;
  Add 14373 507; Sub 14374 410; AndEqz 1870 14375; AndEqz 1871 6362; AndEqz 1872 6364; AndEqz 1873 5537;
  AndEqz 1874 2635; AndEqz 1875 2637; Sub 519 410; Mul 519 14376; AndEqz 1876 14377; AndEqz 1877 9421;
  AndEqz 1878 5548; Sub 522 410; Mul 522 14378; AndEqz 1879 14379; AndEqz 1880 13711; AndEqz 1881 9514;
  AndEqz 1882 6423; Sub 526 410; Mul 526 14380; AndEqz 1883 14381; AndEqz 1884 8661; AndEqz 1885 6529;
  AndEqz 1886 2751; AndEqz 1887 2753; AndEqz 1888 2760; AndEqz 1889 6531; AndEqz 1890 2767; AndEqz 1891 8684;
  AndEqz 1892 2785; AndEqz 1893 2795; AndEqz 1894 2797; AndEqz 1895 2799; AndEqz 1896 2801; AndEqz 1897 2803;
  AndEqz 1898 2805; AndEqz 1899 2807; AndEqz 1900 2809; AndEqz 1901 2811; AndEqz 1902 2813; AndEqz 1903 2815;
  AndEqz 1904 2817; AndEqz 1905 2819; AndEqz 1906 2821; AndEqz 1907 2823; AndEqz 1908 2825; AndEqz 1909 2827;
  AndEqz 1910 2829; AndEqz 1911 2831; AndEqz 1912 2833; AndEqz 1913 2835; AndEqz 1914 2837; AndEqz 1915 2839;
  AndEqz 1916 2841; AndEqz 1917 2843; AndEqz 1918 2845; AndEqz 1919 2847; AndEqz 1920 2849; AndEqz 1921 2851;
  AndEqz 1922 2853; AndEqz 1923 2855; AndEqz 1924 2857; AndEqz 1925 10471; AndEqz 1926 2859; AndEqz 1927 2861;
  AndEqz 1928 2863; AndEqz 1929 2865; AndEqz 1930 2867; AndEqz 1931 2869; AndEqz 1932 2871; AndEqz 1933 2880;
  AndEqz 1934 2882; Mul 514 546; Add 514 6366; Mul 547 402; Add 546 14384; Mul 515 547; Mul 14386 402;
  Add 14382 14387; Add 14383 2638; Mul 548 399; Add 14385 14390; Mul 516 548; Mul 14392 399; Add 14388 14393;
  Mul 517 408; Add 14389 14395; Mul 549 408; Add 14391 14397; Mul 517 549; Mul 14399 408; Add 14394 14400;
  Mul 518 401; Add 14396 14402; Mul 550 401; Add 14398 14404; Mul 518 550; Mul 14406 401; Add 14401 14407;
  Mul 519 406; Add 14403 14409; Mul 551 406; Add 14405 14411; Mul 519 551; Mul 14413 406; Add 14408 14414;
  Mul 520 392; Add 14410 14416; Add 14412 8772; Mul 520 552; Mul 14419 392; Add 14415 14420; Mul 521 391;
  Add 14417 14422; Mul 553 391; Add 14418 14424; Mul 521 553; Mul 14426 391; Add 14421 14427; Add 14423 7216;
  Mul 554 403; Add 14425 14430; Mul 522 554; Mul 14432 403; Add 14428 14433; Mul 523 390; Add 14429 14435;
  Mul 555 390; Add 14431 14437; Mul 523 555; Mul 14439 390; Add 14434 14440; Mul 524 389; Add 14436 14442;
  Mul 556 389; Add 14438 14444; Mul 524 556; Mul 14446 389; Add 14441 14447; Mul 525 388; Add 14443 14449;
  Mul 557 388; Add 14445 14451; Mul 525 557; Mul 14453 388; Add 14448 14454; Mul 526 387; Add 14450 14456;
  Mul 558 387; Add 14452 14458; Mul 526 558; Mul 14460 387; Add 14455 14461; Mul 527 386; Add 14457 14463;
  Mul 559 386; Add 14459 14465; Mul 527 559; Mul 14467 386; Add 14462 14468; Mul 528 394; Add 14464 14470;
  Mul 560 394; Add 14466 14472; Mul 528 560; Mul 14474 394; Add 14469 14475; Mul 529 385; Add 14471 14477;
  Mul 561 385; Add 14473 14479; Mul 529 561; Mul 14481 385; Add 14476 14482; Mul 530 562; Add 530 2761; Add 562 6641;
  Mul 531 563; Mul 14487 402; Add 14484 14488; Add 14485 6760; Mul 564 399; Add 14486 14491; Mul 532 564;
  Mul 14493 399; Add 14489 14494; Mul 533 408; Add 14490 14496; Mul 565 408; Add 14492 14498; Mul 533 565;
  Mul 14500 408; Add 14495 14501; Mul 534 401; Add 14497 14503; Mul 566 401; Add 14499 14505; Mul 534 566;
  Mul 14507 401; Add 14502 14508; Mul 535 406; Add 14504 14510; Mul 567 406; Add 14506 14512; Mul 535 567;
  Mul 14514 406; Add 14509 14515; Mul 536 392; Add 14511 14517; Add 14513 10481; Mul 536 568; Mul 14520 392;
  Add 14516 14521; Mul 537 391; Add 14518 14523; Mul 569 391; Add 14519 14525; Mul 537 569; Mul 14527 391;
  Add 14522 14528; Mul 538 403; Add 14524 14530; Add 14526 7468; Mul 538 570; Mul 14533 403; Add 14529 14534;
  Mul 539 390; Add 14531 14536; Mul 571 390; Add 14532 14538; Mul 539 571; Mul 14540 390; Add 14535 14541;
  Mul 540 389; Add 14537 14543; Mul 572 389; Add 14539 14545; Mul 540 572; Mul 14547 389; Add 14542 14548;
  Mul 541 388; Add 14544 14550; Mul 573 388; Add 14546 14552; Mul 541 573; Mul 14554 388; Add 14549 14555;
  Mul 542 387; Add 14551 14557; Mul 574 387; Add 14553 14559; Mul 542 574; Mul 14561 387; Add 14556 14562].

(* L16520-17019 POLY_EXT_DEF.block *)
Definition block_33 : list Step := [
  Mul 543 386; Add 14558 14564; Mul 575 386; Add 14560 14566; Mul 543 575; Mul 14568 386; Add 14563 14569;
  Mul 544 394; Add 14565 14571; Mul 576 394; Add 14567 14573; Mul 544 576; Mul 14575 394; Add 14570 14576;
  Mul 545 385; Add 14572 14578; Mul 577 385; Add 14574 14580; Mul 545 577; Mul 14582 385; Add 14577 14583;
  Sub 14478 508; AndEqz 1935 14585; Sub 14579 509; AndEqz 1936 14586; Sub 14480 510; AndEqz 1937 14587;
  Sub 14581 511; AndEqz 1938 14588; Mul 505 3; Mul 506 2; Add 14589 14590; Add 14591 507; Add 14478 14480;
  Mul 14373 14593; Mul 14592 14483; Add 14594 14595; Sub 14596 512; AndEqz 1939 14597; Add 14579 14581;
  Mul 14373 14598; Mul 14592 14584; Add 14599 14600; Sub 14601 513; AndEqz 1940 14602; Mul 507 402; Add 506 14603;
  Mul 14604 395; Add 14605 410; Mul 891 14606; Add 4146 14607; Add 14608 5503; Add 14609 5505; Add 14610 5507;
  Add 14611 8054; Mul 941 512; Add 14612 14613; Mul 951 513; Add 14614 14615; Add 14616 409; Add 14617 409;
  Sub 871 14618; Mul 1278 14370; Mul 14620 14619; Mul 14370 504; Mul 14619 430; Add 14622 14623; Sub 14621 14624;
  AndEqz 1941 14625; Add 1518 1285; Sub 1512 14626; AndEqz 1942 14627; Mul 417 422; AndCond 1793 14628 1943;
  Sub 397 440; Add 14629 410; Sub 397 441; AndEqz 0 10972; Mul 1278 10970; Mul 14632 10974; Sub 14633 10979;
  AndEqz 1945 14634; AndEqz 1946 10982; Add 438 14630; Sub 10984 14635; AndEqz 1947 14636; Add 439 14631;
  Add 14637 443; Sub 10988 14638; AndEqz 1948 14639; AndEqz 1949 13069; Add 1266 1588; Sub 871 14640; Mul 447 326;
  Mul 446 385; Add 14642 14643; Sub 439 14644; AndEqz 1950 14645; AndEqz 1951 13073; Mul 1297 14641; Mul 14646 12922;
  Mul 14641 1265; Mul 12922 1265; Add 14648 14649; Sub 14647 14650; AndEqz 1952 14651; Mul 449 326; Mul 448 385;
  Add 14652 14653; Sub 441 14654; AndEqz 1953 14655; AndEqz 1954 11997; Mul 451 326; Mul 450 385; Add 14656 14657;
  Sub 444 14658; AndEqz 1955 14659; AndEqz 1956 1625; AndEqz 1957 1632; Sub 410 448; Mul 446 14660; Sub 410 450;
  Mul 14661 14662; Sub 410 446; Mul 14664 448; Mul 14665 450; Add 14663 14666; Sub 452 14667; AndEqz 1958 14668;
  Add 452 450; Mul 1627 450; Sub 14669 14670; Sub 453 14671; AndEqz 1959 14672; Add 4146 1438; Add 14673 1525;
  Add 14674 3822; Add 14675 3824; Add 14676 7033; Mul 941 453; Add 14677 14678; Add 14679 409; Mul 961 13395;
  Add 14680 14681; Add 14682 409; Sub 871 14683; Mul 1391 11463; Mul 14685 14684; Mul 11463 437; Mul 14684 1265;
  Add 14687 14688; Sub 14686 14689; AndEqz 1960 14690; Sub 397 457; Add 14691 410; AndEqz 1961 1664; Mul 1411 9143;
  Mul 14693 6069; Mul 9143 2624; Mul 6069 2624; Add 14695 14696; Sub 14694 14697; AndEqz 1962 14698;
  AndEqz 1963 1668; Add 455 14692; Sub 9151 14699; AndEqz 1964 14700; Add 456 13431; Add 14701 460; Sub 6080 14702;
  AndEqz 1965 14703; AndEqz 1966 1670; Add 1266 8487; Sub 871 14704; Mul 464 326; Mul 463 385; Add 14706 14707;
  Sub 456 14708; AndEqz 1967 14709; AndEqz 1968 1674; Mul 1430 14705; Mul 14710 13105; Mul 14705 2624;
  Mul 13105 2624; Add 14712 14713; Sub 14711 14714; AndEqz 1969 14715; Mul 466 326; Mul 465 385; Add 14716 14717;
  Sub 458 14718; AndEqz 1970 14719; AndEqz 1971 1678; Mul 468 326; Mul 467 385; Add 14720 14721; Sub 461 14722;
  AndEqz 1972 14723; AndEqz 1973 1682; AndEqz 1974 1684; Mul 463 13476; Mul 14724 6161; Mul 6975 465; Mul 14726 467;
  Add 14725 14727; Sub 469 14728; AndEqz 1975 14729; Add 469 467; Mul 4211 467; Sub 14730 14731; Sub 470 14732;
  AndEqz 1976 14733; Sub 410 462; Add 14673 4072; Add 14735 4074; Add 14736 4076; Mul 931 458; Add 14737 14738;
  Add 14739 13509; Add 14740 409; Mul 961 14734; Add 14741 14742; Add 14743 409; Sub 871 14744; Mul 6115 14745;
  Mul 6102 454; Mul 14745 2624; Add 14747 14748; Sub 14746 14749; AndEqz 1977 14750; Sub 397 474; Add 14751 410;
  Sub 397 475; Add 1266 6953; Sub 871 14754; AndEqz 1978 1698; Mul 1479 14755; Mul 14756 6152; Mul 14755 4400;
  Mul 6152 4400; Add 14758 14759; Sub 14757 14760; AndEqz 1979 14761; AndEqz 1980 1702; Mul 477 407; Add 476 14762;
  Add 472 14752; Sub 14763 14764; AndEqz 1981 14765; Mul 479 407; Add 478 14766; Add 473 14753; Add 14768 477;
  Sub 14767 14769; AndEqz 1982 14770; AndEqz 1983 1704; Mul 481 326; Mul 480 385; Add 14771 14772; Sub 473 14773;
  AndEqz 1984 14774; AndEqz 1985 1708; Mul 1499 8465; Mul 14775 8473; Mul 8465 4400; Mul 8473 4400; Add 14777 14778;
  Sub 14776 14779; AndEqz 1986 14780; Mul 483 326; Mul 482 385; Add 14781 14782; Sub 475 14783; AndEqz 1987 14784;
  AndEqz 1988 1712; Add 1266 7765; Sub 871 14785; Mul 485 326; Mul 484 385; Add 14787 14788; Sub 478 14789;
  AndEqz 1989 14790; AndEqz 1990 1716; AndEqz 1991 1718; Sub 410 482; Mul 480 14791; Mul 14792 9266; Sub 410 480;
  Mul 14794 482; Mul 14795 484; Add 14793 14796; Sub 486 14797; AndEqz 1992 14798; Add 486 484; Mul 486 402;
  Mul 14800 484; Sub 14799 14801; Sub 487 14802; AndEqz 1993 14803; Add 14673 9204; Add 14804 9206; Add 14805 7856;
  Mul 931 475; Add 14806 14807; Mul 941 487; Add 14808 14809; Add 14810 409; Mul 961 7806; Add 14811 14812;
  Add 14813 409; Sub 871 14814; Mul 2667 14786; Mul 14816 14815; Mul 14786 471; Mul 14815 4400; Add 14818 14819;
  Sub 14817 14820; AndEqz 1994 14821; Sub 397 491; Add 14822 410; Sub 397 492; Add 1266 6259; Sub 871 14825;
  AndEqz 1995 1730; Mul 901 495; Add 1266 14827; Sub 871 14828; Mul 2691 14826; Mul 14830 14829; Mul 14826 4661;
  Mul 14829 4661; Add 14832 14833; Sub 14831 14834; AndEqz 1996 14835; AndEqz 1997 1734; Mul 494 407; Add 493 14836;
  Add 489 14823; Sub 14837 14838; AndEqz 1998 14839; Add 490 14824; Add 14840 494; Sub 11911 14841;
  AndEqz 1999 14842; AndEqz 2000 1736; Add 1266 10222; Sub 871 14843; Mul 498 326; Mul 497 385; Add 14845 14846;
  Sub 490 14847; AndEqz 2001 14848; AndEqz 2002 1747; Mul 2717 14844; Mul 14849 13615; Mul 14844 4661;
  Mul 13615 4661; Add 14851 14852; Sub 14850 14853; AndEqz 2003 14854; Mul 500 326; Mul 499 385; Add 14855 14856;
  Sub 492 14857; AndEqz 2004 14858; AndEqz 2005 1751; Mul 502 326; Mul 501 385; Add 14859 14860; Sub 495 14861;
  AndEqz 2006 14862; AndEqz 2007 1755; AndEqz 2008 1757; Sub 410 499; Mul 497 14863; Sub 410 501; Mul 14864 14865;
  Mul 4308 499; Mul 14867 501; Add 14866 14868; Sub 503 14869; AndEqz 2009 14870; Add 503 501; Mul 503 402;
  Mul 14872 501; Sub 14871 14873; Sub 504 14874; AndEqz 2010 14875; Add 14673 8595; Add 14876 8597; Add 14877 8622;
  Add 14878 8624; Add 14879 9461; Add 14880 409; Mul 961 7840; Add 14881 14882; Add 14883 409; Sub 871 14884;
  Mul 2742 13623; Mul 14886 14885; Mul 13623 488; Mul 14885 4661; Add 14888 14889; Sub 14887 14890;
  AndEqz 2011 14891; AndEqz 2012 7155; Mul 2776 7153; Mul 14892 13661; Mul 7153 4919; Mul 13661 4919;
  Add 14894 14895; Sub 14893 14896; AndEqz 2013 14897; AndEqz 2014 4405; Add 506 13652; Sub 13669 14898;
  AndEqz 2015 14899; Add 507 13653; Add 14900 511; Sub 13673 14901; AndEqz 2016 14902; AndEqz 2017 6362;
  Add 1266 4408; Sub 871 14903; Mul 515 326; Mul 514 385; Add 14905 14906; Sub 507 14907; AndEqz 2018 14908;
  AndEqz 2019 5537; Mul 3756 14904; Mul 14909 9413; Mul 14904 4919; Mul 9413 4919; Add 14911 14912; Sub 14910 14913;
  AndEqz 2020 14914; Mul 517 326; Mul 516 385; Add 14915 14916; Sub 509 14917; AndEqz 2021 14918; AndEqz 2022 2637;
  Mul 519 326; Mul 518 385; Add 14919 14920; Sub 512 14921; AndEqz 2023 14922; AndEqz 2024 9421; AndEqz 2025 5548;
  Mul 514 5539; Mul 14923 2731; Mul 6443 516; Mul 14925 518; Add 14924 14926; Sub 520 14927; AndEqz 2026 14928;
  Add 520 518; Mul 5607 518; Sub 14929 14930; Sub 521 14931; AndEqz 2027 14932; Add 14673 7127; Add 14933 11668;
  Add 14934 4578; Add 14935 13683; Add 14936 10340; Add 14937 409; Mul 961 4498; Add 14938 14939; Add 14940 409;
  Sub 871 14941; Mul 4420 2645; Mul 14943 14942; Mul 2645 505; Mul 14942 4919; Add 14945 14946; Sub 14944 14947;
  AndEqz 2028 14948; Sub 397 525; Add 14949 410; Sub 397 526; Add 1266 4508; Sub 871 14952; AndEqz 2029 6529;
  Mul 901 529; Add 1266 14954; Sub 871 14955; Mul 4444 14953; Mul 14957 14956; Mul 14953 8832; Mul 14956 8832;
  Add 14959 14960; Sub 14958 14961; AndEqz 2030 14962; AndEqz 2031 2753; Add 523 14950; Sub 11947 14963;
  AndEqz 2032 14964; Add 524 14951].

(* L17020-17519 POLY_EXT_DEF.block *)
Definition block_34 : list Step := [
  Add 14965 528; Sub 12603 14966; AndEqz 2033 14967; AndEqz 2034 2760; Mul 532 326; Mul 531 385; Add 14968 14969;
  Sub 524 14970; AndEqz 2035 14971; AndEqz 2036 2767; Mul 4469 2765; Mul 14972 2770; Mul 2765 8832; Mul 2770 8832;
  Add 14974 14975; Sub 14973 14976; AndEqz 2037 14977; Mul 534 326; Mul 533 385; Add 14978 14979; Sub 526 14980;
  AndEqz 2038 14981; AndEqz 2039 2785; Add 1266 5754; Sub 871 14982; Mul 536 326; Mul 535 385; Add 14984 14985;
  Sub 529 14986; AndEqz 2040 14987; AndEqz 2041 2797; AndEqz 2042 2799; Mul 531 4555; Mul 14988 8034; Mul 2912 533;
  Mul 14990 535; Add 14989 14991; Sub 537 14992; AndEqz 2043 14993; Add 537 535; Mul 2927 535; Sub 14994 14995;
  Sub 538 14996; AndEqz 2044 14997; Add 14673 6409; Add 14998 8644; Add 14999 8646; Mul 931 526; Add 15000 15001;
  Mul 941 538; Add 15002 15003; Add 15004 409; Mul 961 10300; Add 15005 15006; Add 15007 409; Sub 871 15008;
  Mul 4520 14983; Mul 15010 15009; Mul 14983 522; Mul 15009 8832; Add 15012 15013; Sub 15011 15014;
  AndEqz 2045 15015; Sub 397 542; Add 15016 410; Sub 397 543; Add 1266 7335; Sub 871 15019; AndEqz 2046 2813;
  Mul 4546 15020; Mul 15021 9554; Mul 15020 8955; Mul 9554 8955; Add 15023 15024; Sub 15022 15025; AndEqz 2047 15026;
  AndEqz 2048 2817; Mul 545 407; Add 544 15027; Add 540 15017; Sub 15028 15029; AndEqz 2049 15030; Add 541 15018;
  Add 15031 545; Sub 9565 15032; AndEqz 2050 15033; AndEqz 2051 2819; Add 1266 12613; Sub 871 15034; Mul 549 326;
  Mul 548 385; Add 15036 15037; Sub 541 15038; AndEqz 2052 15039; AndEqz 2053 2823; Add 1266 4667; Sub 871 15040;
  Mul 4598 15035; Mul 15042 15041; Mul 15035 8955; Mul 15041 8955; Add 15044 15045; Sub 15043 15046;
  AndEqz 2054 15047; Mul 551 326; Mul 550 385; Add 15048 15049; Sub 543 15050; AndEqz 2055 15051; AndEqz 2056 2827;
  Add 1266 8243; Sub 871 15052; Mul 553 326; Mul 552 385; Add 15054 15055; Sub 546 15056; AndEqz 2057 15057;
  AndEqz 2058 2831; AndEqz 2059 2833; Sub 410 550; Mul 548 15058; Mul 15059 5720; Sub 410 548; Mul 15061 550;
  Mul 15062 552; Add 15060 15063; Sub 554 15064; AndEqz 2060 15065; Add 554 552; Mul 554 402; Mul 15067 552;
  Sub 15066 15068; Sub 555 15069; AndEqz 2061 15070; Add 14673 7305; Add 15071 7307; Add 15072 7309; Mul 931 543;
  Add 15073 15074; Mul 941 555; Add 15075 15076; Add 15077 409; Mul 961 5711; Add 15078 15079; Add 15080 409;
  Sub 871 15081; Mul 4651 15053; Mul 15083 15082; Mul 15053 539; Mul 15082 8955; Add 15085 15086; Sub 15084 15087;
  AndEqz 2062 15088; Add 13874 410; Sub 397 560; AndEqz 2063 2847; Add 1266 4766; Sub 871 15091; Mul 4679 6633;
  Mul 15093 15092; Mul 6633 10527; Mul 15092 10527; Add 15095 15096; Sub 15094 15097; AndEqz 2064 15098;
  AndEqz 2065 2851; Mul 562 407; Add 561 15099; Add 557 15089; Sub 15100 15101; AndEqz 2066 15102; Mul 564 407;
  Add 563 15103; Add 558 15090; Add 15105 562; Sub 15104 15106; AndEqz 2067 15107; AndEqz 2068 2853; Add 1266 5809;
  Sub 871 15108; Mul 566 326; Mul 565 385; Add 15110 15111; Sub 558 15112; AndEqz 2069 15113; AndEqz 2070 2857;
  Mul 901 568; Add 1266 15114; Sub 871 15115; Mul 4703 15109; Mul 15117 15116; Mul 15109 10527; Mul 15116 10527;
  Add 15119 15120; Sub 15118 15121; AndEqz 2071 15122; Mul 568 326; Add 15123 2986; Sub 560 15124; AndEqz 2072 15125;
  AndEqz 2073 2859; Mul 570 326; Mul 569 385; Add 15126 15127; Sub 563 15128; AndEqz 2074 15129; AndEqz 2075 2863;
  AndEqz 2076 2865; Sub 410 567; Mul 565 15130; Mul 15131 4813; Mul 13929 567; Mul 15133 569; Add 15132 15134;
  Sub 571 15135; AndEqz 2077 15136; Add 571 569; Mul 4882 569; Sub 15137 15138; Sub 572 15139; AndEqz 2078 15140;
  Sub 410 564; Add 14673 6611; Add 15142 8802; Mul 921 559; Add 15143 15144; Mul 931 560; Add 15145 15146;
  Mul 941 572; Add 15147 15148; Add 15149 409; Mul 961 15141; Add 15150 15151; Add 15152 409; Sub 871 15153;
  Mul 4729 13937; Mul 15155 15154; Mul 13937 556; Mul 15154 10527; Add 15157 15158; Sub 15156 15159;
  AndEqz 2079 15160; Sub 397 576; Add 15161 410; Sub 397 577; Mul 901 578; Add 1266 15164; Sub 871 15165;
  AndEqz 2080 2886; Mul 4778 15166; Mul 15167 13979; Mul 15166 10623; Mul 13979 10623; Add 15169 15170;
  Sub 15168 15171; AndEqz 2081 15172; AndEqz 2082 2890; Mul 579 407; Add 578 15173; Add 574 15162; Sub 15174 15175;
  AndEqz 2083 15176; Add 575 15163; Add 15177 579; Sub 13987 15178; AndEqz 2084 15179; AndEqz 2085 2892; Mul 583 326;
  Mul 582 385; Add 15180 15181; Sub 575 15182; AndEqz 2086 15183; AndEqz 2087 8892; Mul 901 585; Add 1266 15184;
  Sub 871 15185; Mul 8912 15186; Mul 8890 10623; Mul 15186 10623; Add 15188 15189; Sub 15187 15190;
  AndEqz 2088 15191; Mul 585 326; Mul 584 385; Add 15192 15193; Sub 577 15194; AndEqz 2089 15195; Sub 586 410;
  Mul 586 15196; AndEqz 2090 15197; Add 1266 4927; Sub 871 15198; Mul 587 326; Mul 586 385; Add 15200 15201;
  Sub 580 15202; AndEqz 2091 15203; AndEqz 2092 9002; Sub 589 410; Mul 589 15204; AndEqz 2093 15205; Sub 410 584;
  Mul 582 15206; Sub 410 586; Mul 15207 15208; Sub 410 582; Mul 15210 584; Mul 15211 586; Add 15209 15212;
  Sub 588 15213; AndEqz 2094 15214; Add 588 586; Mul 588 402; Mul 15216 586; Sub 15215 15217; Sub 589 15218;
  AndEqz 2095 15219; Sub 410 581; Add 14673 6691; Add 15221 10578; Add 15222 10602; Add 15223 10604; Mul 941 589;
  Add 15224 15225; Add 15226 409; Mul 961 15220; Add 15227 15228; Add 15229 409; Sub 871 15230; Mul 4855 15199;
  Mul 15232 15231; Mul 15199 573; Mul 15231 10623; Add 15234 15235; Sub 15233 15236; AndEqz 2096 15237;
  Add 1518 4862; Sub 1512 15238; AndEqz 2097 15239; Mul 417 423; AndCond 1944 15240 2098; Add 10889 409;
  Sub 871 15241; Add 2597 409; Sub 871 15243; Mul 1278 15242; Mul 15245 15244; Mul 15242 1265; Mul 15244 1265;
  Add 15247 15248; Sub 15246 15249; AndEqz 1795 15250; Add 3902 409; Sub 871 15251; Add 7656 409; Sub 871 15253;
  Mul 1297 15252; Mul 15255 15254; Mul 15252 1265; Mul 15254 1265; Add 15257 15258; Sub 15256 15259;
  AndEqz 2100 15260; AndEqz 2101 6851; Mul 437 391; Mul 438 326; Add 15261 15262; Sub 436 15263; AndEqz 2102 15264;
  Mul 1391 12752; Mul 15265 12760; Add 12756 12765; Sub 15266 15267; AndEqz 2103 15268; Add 1543 409; Sub 871 15269;
  Mul 1411 12762; Mul 15271 15270; Mul 15270 1265; Add 12766 15273; Sub 15272 15274; AndEqz 2104 15275; Add 3844 409;
  Sub 871 15276; AndEqz 2105 10972; Add 4149 409; Sub 871 15278; Mul 1430 15277; Mul 15280 15279; Mul 15277 1265;
  Mul 15279 1265; Add 15282 15283; Sub 15281 15284; AndEqz 2106 15285; Mul 443 391; Mul 444 326; Add 15286 15287;
  Sub 442 15288; AndEqz 2107 15289; Mul 433 439; Mul 433 440; Mul 434 439; Add 15291 15292; Mul 15293 403;
  Add 15290 15294; Add 1266 5994; Sub 871 15296; Add 5204 409; Sub 871 15298; Mul 1451 15297; Mul 15300 15299;
  Mul 15297 1265; Mul 15299 1265; Add 15302 15303; Sub 15301 15304; AndEqz 2108 15305; AndEqz 2109 13071;
  AndEqz 2110 13073; Mul 446 407; Add 445 15306; Mul 447 284; Add 15307 15308; Mul 448 283; Add 15309 15310;
  Sub 15295 15311; AndEqz 2111 15312; Mul 447 403; Add 446 15313; Mul 448 390; Add 15314 15315; Mul 433 441;
  Add 15316 15317; Mul 434 440; Add 15318 15319; Mul 435 439; Add 15320 15321; Mul 433 442; Mul 434 441;
  Add 15323 15324; Mul 435 440; Add 15325 15326; Mul 436 439; Add 15327 15328; Mul 15329 403; Add 15322 15330;
  Mul 12923 1288; Add 14649 1300; Sub 15332 15333; AndEqz 2112 15334; AndEqz 2113 1623; AndEqz 2114 1625;
  Mul 450 407; Add 449 15335; Mul 451 284; Add 15336 15337; Mul 452 283; Add 15338 15339; Sub 15331 15340;
  AndEqz 2115 15341; Mul 432 443; Mul 451 403; Add 450 15343; Mul 452 390; Add 15344 15345; Add 15346 285;
  Mul 434 403; Add 433 15348; Mul 15349 15342; Sub 15347 15350; Mul 440 403; Add 439 15352; Mul 15353 12779;
  Sub 15351 15354; Mul 434 442; Add 15355 15356; Mul 435 441; Add 15357 15358; Mul 436 440; Add 15359 15360;
  Mul 435 442; Mul 436 441; Add 15362 15363; Mul 15364 403; Add 15361 15365; Mul 901 453; Add 1266 15367;
  Sub 871 15368; Add 1635 409; Sub 871 15370; Mul 1499 15369; Mul 15372 15371; Mul 15369 1265; Mul 15371 1265;
  Add 15374 15375; Sub 15373 15376; AndEqz 2116 15377; AndEqz 2117 1639; AndEqz 2118 13084; Mul 454 407;
  Add 453 15378].

(* L17520-18019 POLY_EXT_DEF.block *)
Definition block_35 : list Step := [
  Mul 455 284; Add 15379 15380; Mul 456 283; Add 15381 15382; Sub 15366 15383; AndEqz 2119 15384; Mul 2667 12971;
  Mul 15385 13086; Mul 12971 1265; Add 15387 13089; Sub 15386 15388; AndEqz 2120 15389; Add 457 13226; Mul 455 403;
  Add 454 15391; Mul 456 390; Add 15392 15393; Add 15394 282; Mul 436 403; Add 435 15396; Mul 15397 15342;
  Sub 15395 15398; Mul 442 403; Add 441 15400; Mul 15401 12779; Sub 15399 15402; Mul 436 442; Add 15403 15404;
  Sub 15390 15405; AndEqz 2121 15406; Mul 3877 432; AndEqz 2122 15407; Sub 402 431; Sub 15408 432; Mul 15409 395;
  Add 15410 372; Mul 891 15411; Add 4146 15412; Mul 901 15349; Add 15413 15414; Mul 911 15397; Add 15415 15416;
  Mul 921 15353; Add 15417 15418; Mul 931 15401; Add 15419 15420; Add 15421 9983; Mul 951 449; Add 15422 15423;
  Add 15424 5286; Add 15425 9185; Sub 871 15426; AndEqz 2123 1664; AndEqz 2124 1666; Add 6895 409; Sub 871 15428;
  Mul 2691 15427; Mul 15430 15429; Mul 15427 2624; Mul 15429 430; Add 15432 15433; Sub 15431 15434;
  AndEqz 2125 15435; Add 6076 409; Sub 871 15436; Add 8487 409; Sub 871 15438; Mul 2717 15437; Mul 15440 15439;
  Mul 15437 2624; Mul 15439 2624; Add 15442 15443; Sub 15441 15444; AndEqz 2126 15445; Add 6088 409; Sub 871 15446;
  AndEqz 2127 1676; Add 6917 409; Sub 871 15448; Mul 2742 15447; Mul 15450 15449; Mul 15447 2624; Mul 15449 2624;
  Add 15452 15453; Sub 15451 15454; AndEqz 2128 15455; Mul 466 391; Mul 467 326; Add 15456 15457; Sub 465 15458;
  AndEqz 2129 15459; Add 5389 409; Sub 871 15460; Add 7674 409; Sub 871 15462; Mul 2776 15461; Mul 15464 15463;
  Mul 15461 2624; Mul 15463 2624; Add 15466 15467; Sub 15465 15468; AndEqz 2130 15469; Mul 3756 13128;
  Mul 15470 13130; Mul 13128 2624; Mul 13130 2624; Add 15472 15473; Sub 15471 15474; AndEqz 2131 15475;
  AndEqz 2132 1688; Mul 472 391; Mul 473 326; Add 15476 15477; Sub 471 15478; AndEqz 2133 15479; Mul 462 468;
  Mul 462 469; Mul 463 468; Add 15481 15482; Mul 15483 403; Add 15480 15484; Add 1266 5416; Sub 871 15486;
  Mul 4420 6947; Mul 15488 15487; Mul 6947 2624; Mul 15487 2624; Add 15490 15491; Sub 15489 15492; AndEqz 2134 15493;
  AndEqz 2135 1696; AndEqz 2136 1698; Mul 475 407; Add 474 15494; Mul 476 284; Add 15495 15496; Mul 477 283;
  Add 15497 15498; Sub 15485 15499; AndEqz 2137 15500; Add 475 6983; Mul 477 390; Add 15501 15502; Mul 462 470;
  Add 15503 15504; Mul 463 469; Add 15505 15506; Add 15507 4117; Mul 462 471; Mul 463 470; Add 15509 15510;
  Add 15511 6967; Mul 465 468; Add 15512 15513; Mul 15514 403; Add 15508 15515; Mul 4444 6139; Mul 15517 6152;
  Mul 6139 2624; Mul 6152 2624; Add 15519 15520; Sub 15518 15521; AndEqz 2138 15522; AndEqz 2139 1704;
  AndEqz 2140 1706; Mul 480 284; Add 14767 15523; Mul 481 283; Add 15524 15525; Sub 15516 15526; AndEqz 2141 15527;
  Mul 460 466; Mul 461 472; Add 479 14178; Add 15530 14185; Add 15531 285; Mul 463 403; Add 462 15533;
  Mul 15534 15529; Sub 15532 15535; Mul 469 403; Add 468 15537; Mul 15538 15528; Sub 15536 15539; Mul 463 471;
  Add 15540 15541; Mul 464 470; Add 15542 15543; Mul 465 469; Add 15544 15545; Mul 464 471; Mul 465 470;
  Add 15547 15548; Mul 15549 403; Add 15546 15550; Mul 4469 13153; Mul 15552 13535; Mul 13153 2624; Mul 13535 2624;
  Add 15554 15555; Sub 15553 15556; AndEqz 2142 15557; AndEqz 2143 1712; AndEqz 2144 1714; Mul 484 284;
  Add 13541 15558; Mul 485 283; Add 15559 15560; Sub 15551 15561; AndEqz 2145 15562; Add 1266 7253; Sub 871 15563;
  Mul 4520 13173; Mul 15565 15564; Mul 13173 2624; Mul 15564 2624; Add 15567 15568; Sub 15566 15569;
  AndEqz 2146 15570; Add 13290 409; Sub 871 15571; Mul 487 407; Add 486 15573; Mul 484 403; Add 483 15575;
  Mul 485 390; Add 15576 15577; Add 15578 282; Mul 465 403; Add 464 15580; Mul 15581 15529; Sub 15579 15582;
  Mul 13232 15528; Sub 15583 15584; Mul 465 471; Add 15585 15586; Sub 15574 15587; AndEqz 2147 15588; Sub 410 460;
  Mul 15589 461; AndEqz 2148 15590; Sub 402 460; Sub 15591 461; Mul 15592 395; Add 15593 372; Mul 891 15594;
  Add 4146 15595; Mul 901 15534; Add 15596 15597; Mul 911 15581; Add 15598 15599; Mul 921 15538; Add 15600 15601;
  Mul 931 13232; Add 15602 15603; Mul 941 474; Add 15604 15605; Mul 951 478; Add 15606 15607; Mul 961 482;
  Add 15608 15609; Add 15610 9326; Sub 871 15611; Mul 4546 15572; Mul 15613 15612; Mul 15572 459; Mul 15612 2624;
  Add 15615 15616; Sub 15614 15617; AndEqz 2149 15618; AndEqz 2150 11280; Mul 417 424; AndCond 2099 15619 2151;
  AndEqz 536 5981; AndEqz 2153 4047; Add 1266 1369; Sub 871 15620; AndEqz 2154 8354; AndEqz 2155 1535; Add 1266 6194;
  Sub 871 15622; Mul 1278 15621; Mul 15624 15623; Mul 15621 1265; Mul 15623 1265; Add 15626 15627; Sub 15625 15628;
  AndEqz 2156 15629; Mul 437 326; Mul 436 385; Add 15630 15631; Sub 15632 434; AndEqz 2157 15633; Mul 436 432;
  Sub 435 15634; AndEqz 2158 15635; Sub 410 435; Mul 15636 438; AndEqz 2159 15637; Mul 15636 439; AndEqz 2160 15638;
  Sub 397 433; Add 15639 410; Mul 438 407; Sub 15640 15641; Sub 15642 440; Mul 435 15643; Sub 440 433;
  Mul 15636 15645; Add 15644 15646; AndEqz 2161 15647; Sub 397 434; Add 15648 438; Mul 439 407; Sub 15649 15650;
  Sub 15651 441; Mul 435 15652; Sub 441 434; Mul 15636 15654; Add 15653 15655; AndEqz 2162 15656; AndEqz 2163 13067;
  AndEqz 2164 10982; Add 1266 5204; Sub 871 15657; Mul 1564 15658; Mul 15658 1265; Add 1566 15660; Sub 15659 15661;
  AndEqz 2165 15662; AndEqz 2166 13071; AndEqz 2167 13073; Mul 1391 12922; Mul 15663 1615; Add 14649 1619;
  Sub 15664 15665; AndEqz 2168 15666; Mul 446 326; Mul 445 385; Add 15667 15668; Sub 15669 443; AndEqz 2169 15670;
  Mul 445 432; Sub 444 15671; AndEqz 2170 15672; Sub 410 444; Mul 15673 447; AndEqz 2171 15674; Mul 15673 448;
  AndEqz 2172 15675; Sub 397 442; Add 15676 410; Mul 447 407; Sub 15677 15678; Sub 15679 449; Mul 444 15680;
  Sub 449 442; Mul 15673 15682; Add 15681 15683; AndEqz 2173 15684; Sub 397 443; Add 15685 447; Sub 15686 12404;
  Sub 15687 450; Mul 444 15688; Sub 450 443; Mul 15673 15690; Add 15689 15691; AndEqz 2174 15692; Add 1266 4072;
  Sub 871 15693; Mul 1411 15694; Mul 15695 1642; Mul 15694 1265; Add 15697 1646; Sub 15696 15698; AndEqz 2175 15699;
  AndEqz 2176 1660; Mul 1430 12971; Mul 15700 9143; Add 15387 9147; Sub 15701 15702; AndEqz 2177 15703;
  AndEqz 2178 1664; Add 453 455; Sub 15390 15704; AndEqz 2179 15705; Add 454 456; Add 15706 458; Sub 9151 15707;
  AndEqz 2180 15708; AndEqz 2181 1666; Mul 13074 462; Sub 15709 4105; AndEqz 2182 15710; Mul 461 13074;
  AndEqz 2183 15711; AndEqz 2184 4108; Sub 397 455; Sub 397 456; AndEqz 2185 1672; Mul 1451 6078; Mul 15714 6090;
  Sub 15715 6095; AndEqz 2186 15716; AndEqz 2187 1676; Add 449 15712; Sub 6084 15717; AndEqz 2188 15718;
  Add 450 15713; Add 15719 464; Sub 7634 15720; AndEqz 2189 15721; AndEqz 2190 1678; AndEqz 2191 1680;
  AndEqz 2192 1682; Add 1266 8427; Sub 871 15722; Mul 1479 13483; Mul 15724 15723; Mul 13483 1265; Mul 15723 1265;
  Add 15726 15727; Sub 15725 15728; AndEqz 2193 15729; Mul 6161 468; AndEqz 2194 15730; Mul 6161 469;
  AndEqz 2195 15731; Sub 397 451; Add 15732 410; Sub 15733 7637; Sub 15734 470; Mul 467 15735; Sub 470 451;
  Mul 6161 15737; Add 15736 15738; AndEqz 2196 15739; Sub 397 452; Add 15740 468; Mul 469 407; Sub 15741 15742;
  Sub 15743 471; Mul 467 15744; Sub 471 452; Mul 6161 15746; Add 15745 15747; AndEqz 2197 15748; AndEqz 2198 1688;
  AndEqz 2199 1690; Add 1266 4338; Sub 871 15749; Mul 1499 15487; Mul 15751 15750; Mul 15487 1265; Mul 15750 1265;
  Add 15753 15754; Sub 15752 15755; AndEqz 2200 15756; Mul 15636 472; AndEqz 2201 15757; Mul 15636 473;
  AndEqz 2202 15758; Add 15712 410; Sub 15759 12356; Sub 15760 474; Mul 435 15761; Sub 474 455; Mul 15636 15763;
  Add 15762 15764; AndEqz 2203 15765; Add 15713 472; Sub 15766 13496; Sub 15767 475; Mul 435 15768; Sub 475 456;
  Mul 15636 15770; Add 15769 15771; AndEqz 2204 15772; Mul 444 15636; Mul 15673 435; Add 15773 15774; Mul 4105 15775;
  Sub 467 15776; AndEqz 2205 15777; Sub 457 440; AndEqz 2206 15778; Sub 459 441; AndEqz 2207 15779; Mul 4105 6169;
  AndEqz 2208 15780; Mul 432 395; Add 15781 399; Mul 891 15782; Add 4146 15783; Add 15784 10889; Add 15785 10891;
  Add 15786 3962; Add 15787 6226; Add 15788 13509].

(* L18020-18519 POLY_EXT_DEF.block *)
Definition block_36 : list Step := [
  Mul 951 471; Add 15789 15790; Mul 961 474; Add 15791 15792; Mul 971 475; Add 15793 15794; Sub 871 15795;
  Mul 891 305; Add 4146 15797; Add 15798 1289; Add 15799 6035; Add 15800 1592; Mul 931 450; Add 15801 15802;
  Add 15803 14678; Mul 951 454; Add 15804 15805; Add 15806 409; Add 15807 409; Sub 871 15808; Mul 2667 15796;
  Mul 15810 15809; Mul 15796 1265; Mul 15809 431; Add 15812 15813; Sub 15811 15814; AndEqz 2209 15815;
  AndEqz 2210 1698; AndEqz 2211 1704; AndEqz 2212 1706; AndEqz 2213 1710; AndEqz 2214 1712; Mul 2691 13535;
  Mul 15816 14786; Mul 14786 2624; Add 15555 15818; Sub 15817 15819; AndEqz 2215 15820; Mul 482 326; Mul 481 385;
  Add 15821 15822; Sub 15823 479; AndEqz 2216 15824; Sub 480 4270; AndEqz 2217 15825; Mul 14794 483;
  AndEqz 2218 15826; Mul 14794 484; AndEqz 2219 15827; Sub 13517 13540; Sub 15828 485; Mul 480 15829; Sub 485 478;
  Mul 14794 15831; Add 15830 15832; AndEqz 2220 15833; Add 13518 483; Sub 15834 8478; Sub 15835 486; Mul 480 15836;
  Sub 486 479; Mul 14794 15838; Add 15837 15839; AndEqz 2221 15840; AndEqz 2222 1722; AndEqz 2223 5377;
  Add 1266 4276; Sub 871 15841; Mul 2717 15564; Mul 15843 15842; Mul 15842 2624; Add 15568 15845; Sub 15844 15846;
  AndEqz 2224 15847; AndEqz 2225 1726; AndEqz 2226 1728; Add 1266 11592; Sub 871 15848; Mul 2742 15849;
  Mul 15850 14829; Mul 15849 2624; Mul 14829 2624; Add 15852 15853; Sub 15851 15854; AndEqz 2227 15855; Mul 491 326;
  Mul 490 385; Add 15856 15857; Sub 15858 488; AndEqz 2228 15859; Mul 490 477; Sub 489 15860; AndEqz 2229 15861;
  Sub 410 489; Mul 15862 492; AndEqz 2230 15863; Mul 15862 493; AndEqz 2231 15864; Sub 397 487; Add 15865 410;
  Sub 15866 11908; Sub 15867 494; Mul 489 15868; Sub 494 487; Mul 15862 15870; Add 15869 15871; AndEqz 2232 15872;
  Add 13567 492; Sub 15873 13586; Sub 15874 495; Mul 489 15875; Sub 495 488; Mul 15862 15877; Add 15876 15878;
  AndEqz 2233 15879; Add 1266 5578; Sub 871 15880; Mul 2776 13615; Mul 15882 15881; Mul 13615 2624; Mul 15881 2624;
  Add 15884 15885; Sub 15883 15886; AndEqz 2234 15887; AndEqz 2235 1755; Mul 3756 13623; Mul 15888 7826;
  Mul 13623 2624; Add 15890 7829; Sub 15889 15891; AndEqz 2236 15892; AndEqz 2237 6319; Add 498 500; Sub 13629 15893;
  AndEqz 2238 15894; Add 499 501; Add 15895 503; Sub 7833 15896; AndEqz 2239 15897; Add 487 488; AndEqz 2240 14372;
  Mul 15898 507; Sub 410 506; Sub 15899 15900; AndEqz 2241 15901; Mul 506 15898; AndEqz 2242 15902; Mul 506 507;
  AndEqz 2243 15903; Sub 397 500; Sub 397 501; AndEqz 2244 7141; Mul 4420 7133; Mul 15906 7153; Add 7137 7163;
  Sub 15907 15908; AndEqz 2245 15909; AndEqz 2246 7155; Add 494 15904; Sub 7147 15910; AndEqz 2247 15911;
  Add 495 15905; Add 15912 509; Sub 13669 15913; AndEqz 2248 15914; AndEqz 2249 6342; AndEqz 2250 4405;
  AndEqz 2251 6362; Mul 4444 14904; Mul 15915 2627; Mul 14904 2624; Add 15917 2631; Sub 15916 15918;
  AndEqz 2252 15919; Mul 7212 513; AndEqz 2253 15920; Mul 7212 514; AndEqz 2254 15921; Sub 397 496; Add 15922 410;
  Sub 15923 13672; Sub 15924 515; Mul 512 15925; Sub 515 496; Mul 7212 15927; Add 15926 15928; AndEqz 2255 15929;
  Sub 397 497; Add 15930 513; Mul 514 407; Sub 15931 15932; Sub 15933 516; Mul 512 15934; Sub 516 497;
  Mul 7212 15936; Add 15935 15937; AndEqz 2256 15938; AndEqz 2257 2635; AndEqz 2258 2637; Mul 9440 13701;
  Mul 13701 2624; Add 2670 15940; Sub 15939 15941; AndEqz 2259 15942; Mul 14794 517; AndEqz 2260 15943;
  Mul 14794 518; AndEqz 2261 15944; Add 15904 410; Mul 517 407; Sub 15945 15946; Sub 15947 519; Mul 480 15948;
  Sub 519 500; Mul 14794 15950; Add 15949 15951; AndEqz 2262 15952; Add 15905 517; Sub 15953 9422; Sub 15954 520;
  Mul 480 15955; Sub 520 501; Mul 14794 15957; Add 15956 15958; AndEqz 2263 15959; Mul 489 14794; Mul 15862 480;
  Add 15960 15961; Mul 15900 15962; Sub 512 15963; AndEqz 2264 15964; Sub 502 485; AndEqz 2265 15965; Sub 504 486;
  AndEqz 2266 15966; Mul 15900 7220; AndEqz 2267 15967; Mul 477 395; Add 15968 399; Mul 891 15969; Add 4146 15970;
  Add 15971 6150; Add 15972 9242; Add 15973 5420; Add 15974 5422; Mul 941 515; Add 15975 15976; Mul 951 516;
  Add 15977 15978; Mul 961 519; Add 15979 15980; Mul 971 520; Add 15981 15982; Sub 871 15983; Add 15798 7081;
  Add 15985 7083; Add 15986 7062; Add 15987 10227; Mul 941 498; Add 15988 15989; Mul 951 499; Add 15990 15991;
  Add 15992 409; Add 15993 409; Sub 871 15994; Mul 4520 15984; Mul 15996 15995; Mul 15984 2624; Mul 15995 476;
  Add 15998 15999; Sub 15997 16000; AndEqz 2268 16001; AndEqz 2269 14379; AndEqz 2270 6423; AndEqz 2271 14381;
  AndEqz 2272 6529; AndEqz 2273 2751; Mul 4546 14953; Mul 16002 13751; Mul 14953 4400; Mul 13751 4400;
  Add 16004 16005; Sub 16003 16006; AndEqz 2274 16007; Mul 527 326; Mul 526 385; Add 16008 16009; Sub 16010 524;
  AndEqz 2275 16011; Mul 526 522; Sub 525 16012; AndEqz 2276 16013; AndEqz 2277 13745; AndEqz 2278 13748;
  Sub 397 523; Add 16014 410; Sub 16015 11946; Sub 16016 530; Mul 525 16017; Sub 530 523; Mul 13744 16019;
  Add 16018 16020; AndEqz 2279 16021; Sub 397 524; Add 16022 528; Mul 529 407; Sub 16023 16024; Sub 16025 531;
  Mul 525 16026; Mul 13744 10785; Add 16027 16028; AndEqz 2280 16029; AndEqz 2281 8684; AndEqz 2282 2785;
  Mul 4598 8673; Mul 16030 14983; Mul 8673 4400; Mul 14983 4400; Add 16032 16033; Sub 16031 16034; AndEqz 2283 16035;
  AndEqz 2284 2797; AndEqz 2285 2799; Add 1266 5671; Sub 871 16036; Mul 4651 16037; Mul 16038 13791; Mul 16037 4400;
  Mul 13791 4400; Add 16040 16041; Sub 16039 16042; AndEqz 2286 16043; Sub 14986 533; AndEqz 2287 16044; Mul 535 522;
  Sub 534 16045; AndEqz 2288 16046; Sub 410 534; Mul 16047 537; AndEqz 2289 16048; Mul 16047 538; AndEqz 2290 16049;
  Sub 397 532; Add 16050 410; Mul 537 407; Sub 16051 16052; Sub 16053 539; Mul 534 16054; Sub 539 532;
  Mul 16047 16056; Add 16055 16057; AndEqz 2291 16058; Sub 397 533; Add 16059 537; Mul 538 407; Sub 16060 16061;
  Sub 16062 540; Mul 534 16063; Sub 540 533; Mul 16047 16065; Add 16064 16066; AndEqz 2292 16067; Mul 4679 8023;
  Mul 16068 9554; Mul 9554 4400; Add 8059 16070; Sub 16069 16071; AndEqz 2293 16072; Add 1266 4843; Sub 871 16073;
  AndEqz 2294 2819; Mul 4703 16074; Mul 16075 15035; Mul 16074 4400; Mul 15035 4400; Add 16077 16078;
  Sub 16076 16079; AndEqz 2295 16080; AndEqz 2296 2823; Add 543 545; Sub 12609 16081; AndEqz 2297 16082; Mul 550 407;
  Add 549 16083; Add 544 546; Add 16085 548; Sub 16084 16086; AndEqz 2298 16087; Add 532 533; AndEqz 2299 2825;
  Mul 16088 552; Sub 410 551; Sub 16089 16090; AndEqz 2300 16091; Mul 551 16088; AndEqz 2301 16092; AndEqz 2302 8766;
  Sub 397 545; Sub 397 546; AndEqz 2303 2831; Add 1266 4713; Sub 871 16095; Mul 4729 15053; Mul 16097 16096;
  Mul 15053 4400; Mul 16096 4400; Add 16099 16100; Sub 16098 16101; AndEqz 2304 16102; AndEqz 2305 2835; Mul 554 407;
  Add 553 16103; Add 539 16093; Sub 16104 16105; AndEqz 2306 16106; Mul 556 407; Add 555 16107; Add 540 16094;
  Add 16109 554; Sub 16108 16110; AndEqz 2307 16111; AndEqz 2308 2837; AndEqz 2309 2839; AndEqz 2310 2841;
  Mul 4778 13884; Mul 16112 6633; Mul 13884 4400; Add 16114 6637; Sub 16113 16115; AndEqz 2311 16116; Mul 8187 558;
  AndEqz 2312 16117; Mul 8187 559; AndEqz 2313 16118; Sub 397 541; Add 16119 410; Sub 16120 6623; Sub 16121 560;
  Mul 557 16122; Sub 560 541; Mul 8187 16124; Add 16123 16125; AndEqz 2314 16126; Add 15016 558; Sub 16127 8784;
  Sub 16128 561; Mul 557 16129; Sub 561 542; Mul 8187 16131; Add 16130 16132; AndEqz 2315 16133; AndEqz 2316 2847;
  AndEqz 2317 2849; Add 1266 9658; Sub 871 16134; Mul 6655 16135; Mul 16135 4400; Add 6657 16137; Sub 16136 16138;
  AndEqz 2318 16139; Mul 13744 562; AndEqz 2319 16140; Mul 13744 563; AndEqz 2320 16141; Add 16093 410;
  Sub 16142 15099; Sub 16143 564; Mul 525 16144; Sub 564 545; Mul 13744 16146; Add 16145 16147; AndEqz 2321 16148;
  Add 16094 562; Sub 16149 13897; Sub 16150 565; Mul 525 16151; Sub 565 546; Mul 13744 16153; Add 16152 16154;
  AndEqz 2322 16155; Mul 534 13744; Mul 16047 525; Add 16156 16157; Mul 16090 16158; Sub 557 16159;
  AndEqz 2323 16160; Sub 547 530; AndEqz 2324 16161; Sub 549 531; AndEqz 2325 16162; Sub 410 556; Mul 16090 16163;
  AndEqz 2326 16164; Mul 522 395; Add 16165 399; Mul 891 16166; Add 4146 16167; Add 16168 6409; Add 16169 8644;
  Add 16170 5779].

(* L18520-19019 POLY_EXT_DEF.block *)
Definition block_37 : list Step := [
  Add 16171 5781; Add 16172 13912; Mul 951 561; Add 16173 16174; Mul 961 564; Add 16175 16176; Add 16177 10519;
  Sub 871 16178; Add 15798 6544; Add 16180 5687; Mul 921 539; Add 16181 16182; Mul 931 540; Add 16183 16184;
  Add 16185 8819; Add 16186 8821; Add 16187 409; Add 16188 409; Sub 871 16189; Mul 4855 16179; Mul 16191 16190;
  Mul 16179 4400; Mul 16190 521; Add 16193 16194; Sub 16192 16195; AndEqz 2327 16196; AndEqz 2328 15239; Mul 417 425;
  AndCond 2152 16197 2329; AndEqz 0 8354; AndEqz 2331 1535; AndEqz 2332 1537; Add 438 439; Add 16198 440;
  Sub 16199 410; AndEqz 2333 16200; AndEqz 2334 4009; AndEqz 2335 6801; AndEqz 2336 10972; AndEqz 2337 13067;
  AndEqz 2338 10982; AndEqz 2339 13069; AndEqz 2340 13071; AndEqz 2341 13073; AndEqz 2342 1632; Mul 1278 1272;
  Mul 16201 1637; Add 1282 1645; Sub 16202 16203; AndEqz 2343 16204; Mul 454 326; Mul 453 385; Add 16205 16206;
  Sub 435 16207; AndEqz 2344 16208; AndEqz 2345 1639; Mul 449 403; Add 16209 441; Mul 442 402; Add 16210 16211;
  Mul 443 399; Add 16212 16213; Mul 444 408; Add 16214 16215; Mul 445 401; Add 16216 16217; Mul 446 406;
  Add 16218 16219; Mul 447 392; Add 16220 16221; Mul 448 391; Add 16222 16223; Sub 16224 436; AndEqz 2346 16225;
  Add 13191 4062; Add 14134 6866; Mul 16226 16227; Mul 443 401; Sub 410 443; Add 16229 16230; Mul 16228 16231;
  Sub 16232 450; AndEqz 2347 16233; Mul 444 403; Add 16234 15673; Mul 450 16235; Mul 13395 16236; Sub 451 16237;
  AndEqz 2348 16238; Mul 445 16236; Sub 452 16239; AndEqz 2349 16240; Mul 440 453; Sub 455 16241; AndEqz 2350 16242;
  Mul 455 15648; Mul 9134 434; Add 16243 16244; Sub 456 16245; AndEqz 2351 16246; Sub 397 435; Mul 455 16247;
  Mul 9134 435; Add 16248 16249; Sub 457 16250; AndEqz 2352 16251; Sub 397 460; Mul 455 16252; Mul 9134 460;
  Add 16253 16254; Sub 458 16255; AndEqz 2353 16256; Sub 397 461; Mul 455 16257; Mul 9134 461; Add 16258 16259;
  Sub 459 16260; AndEqz 2354 16261; Add 439 1539; Mul 16262 395; Add 16263 376; Mul 891 16264; Add 4146 16265;
  Add 16266 2597; Add 16267 2599; Add 16268 2601; Add 16269 2603; Add 16270 5264; Add 16271 5266; Add 16272 409;
  Add 16273 409; Sub 871 16274; Mul 438 305; Mul 439 399; Add 16276 16277; Mul 440 399; Add 16278 16279;
  Mul 891 16280; Add 4146 16281; Add 16282 1640; Add 16283 13455; Add 16284 6029; Add 16285 7685; Mul 941 458;
  Add 16286 16287; Mul 951 459; Add 16288 16289; Add 16290 5268; Add 16291 5270; Sub 871 16292; Mul 1297 16275;
  Mul 16294 16293; Mul 16275 1265; Mul 16293 433; Add 16296 16297; Sub 16295 16298; AndEqz 2355 16299;
  AndEqz 2356 1682; AndEqz 2357 1684; AndEqz 2358 1686; Add 469 470; Add 16300 471; Sub 16301 410; AndEqz 2359 16302;
  AndEqz 2360 1688; AndEqz 2361 1690; AndEqz 2362 1692; AndEqz 2363 1694; AndEqz 2364 1696; AndEqz 2365 1698;
  AndEqz 2366 1700; AndEqz 2367 1702; AndEqz 2368 1712; Mul 1391 13161; Mul 16303 14786; Mul 13161 2624;
  Add 16305 15818; Sub 16304 16306; AndEqz 2369 16307; Sub 466 14789; AndEqz 2370 16308; AndEqz 2371 1716;
  Add 14178 472; Add 16309 14129; Add 16310 14136; Add 16311 14143; Add 16312 14150; Add 16313 14157;
  Add 16314 14164; Add 16315 14171; Sub 16316 467; AndEqz 2372 16317; Mul 472 402; Sub 410 472; Add 16318 16319;
  Mul 473 399; Add 16321 10024; Mul 16320 16322; Mul 474 401; Sub 410 474; Add 16324 16325; Mul 16323 16326;
  Sub 16327 481; AndEqz 2373 16328; Add 6165 13520; Mul 481 16329; Sub 410 476; Mul 16331 16330; Sub 482 16332;
  AndEqz 2374 16333; Mul 476 16330; Sub 483 16334; AndEqz 2375 16335; Mul 471 484; Sub 486 16336; AndEqz 2376 16337;
  Sub 397 465; Mul 486 16338; Sub 410 486; Mul 16340 465; Add 16339 16341; Sub 487 16342; AndEqz 2377 16343;
  Sub 397 466; Mul 486 16344; Mul 16340 466; Add 16345 16346; Sub 488 16347; AndEqz 2378 16348; Mul 486 14822;
  Mul 16340 491; Add 16349 16350; Sub 489 16351; AndEqz 2379 16352; Mul 486 14824; Mul 16340 492; Add 16353 16354;
  Sub 490 16355; AndEqz 2380 16356; Mul 1867 395; Add 16357 376; Mul 891 16358; Add 4146 16359; Add 16360 6088;
  Mul 911 466; Add 16361 16362; Add 16363 5393; Mul 931 468; Add 16364 16365; Add 16366 5424; Add 16367 5426;
  Add 16368 409; Add 16369 409; Sub 871 16370; Mul 469 305; Mul 470 399; Add 16372 16373; Mul 471 399;
  Add 16374 16375; Mul 891 16376; Add 4146 16377; Add 16378 13290; Mul 911 488; Add 16379 16380; Add 16381 9251;
  Add 16382 7258; Mul 941 489; Add 16383 16384; Mul 951 490; Add 16385 16386; Add 16387 5428; Add 16388 5430;
  Sub 871 16389; Mul 1411 16371; Mul 16391 16390; Mul 16371 2624; Mul 16390 464; Add 16393 16394; Sub 16392 16395;
  AndEqz 2381 16396; AndEqz 2382 1749; AndEqz 2383 1751; AndEqz 2384 1753; Add 500 501; Add 16397 502; Sub 16398 410;
  AndEqz 2385 16399; AndEqz 2386 1755; AndEqz 2387 1757; AndEqz 2388 6319; AndEqz 2389 14372; AndEqz 2390 7131;
  AndEqz 2391 4483; AndEqz 2392 7141; AndEqz 2393 6338; Add 4586 409; Sub 871 16400; AndEqz 2394 6364;
  Mul 1430 16401; Mul 16402 2627; Mul 16401 4400; Mul 2627 4400; Add 16404 16405; Sub 16403 16406; AndEqz 2395 16407;
  Mul 516 326; Mul 515 385; Add 16408 16409; Sub 497 16410; AndEqz 2396 16411; AndEqz 2397 2635; Mul 511 403;
  Add 16412 503; Mul 504 402; Add 16413 16414; Mul 505 399; Add 16415 16416; Mul 506 408; Add 16417 16418;
  Mul 507 401; Add 16419 16420; Mul 508 406; Add 16421 16422; Mul 509 392; Add 16423 16424; Mul 510 391;
  Add 16425 16426; Sub 16427 498; AndEqz 2398 16428; Sub 410 503; Add 14872 16429; Mul 504 399; Sub 410 504;
  Add 16431 16432; Mul 16430 16433; Mul 505 401; Add 16435 6321; Mul 16434 16436; Sub 16437 512; AndEqz 2399 16438;
  Mul 506 403; Add 16439 15900; Mul 512 16440; Sub 410 507; Mul 16442 16441; Sub 513 16443; AndEqz 2400 16444;
  Mul 507 16441; Sub 514 16445; AndEqz 2401 16446; Mul 502 515; Sub 517 16447; AndEqz 2402 16448; Mul 517 15922;
  Sub 410 517; Mul 16450 496; Add 16449 16451; Sub 518 16452; AndEqz 2403 16453; Mul 517 15930; Mul 16450 497;
  Add 16454 16455; Sub 519 16456; AndEqz 2404 16457; Sub 397 522; Mul 517 16458; Mul 16450 522; Add 16459 16460;
  Sub 520 16461; AndEqz 2405 16462; Mul 517 16014; Mul 16450 523; Add 16463 16464; Sub 521 16465; AndEqz 2406 16466;
  Mul 502 402; Add 501 16467; Mul 16468 395; Add 16469 376; Mul 891 16470; Add 4146 16471; Add 16472 7081;
  Add 16473 7083; Add 16474 5564; Add 16475 9459; Add 16476 4635; Add 16477 4637; Add 16478 409; Add 16479 409;
  Sub 871 16480; Mul 500 305; Mul 501 399; Add 16482 16483; Mul 502 399; Add 16484 16485; Mul 891 16486;
  Add 4146 16487; Add 16488 6379; Add 16489 6381; Add 16490 8052; Add 16491 10317; Add 16492 13728; Mul 951 521;
  Add 16493 16494; Add 16495 5596; Add 16496 5598; Sub 871 16497; Mul 1451 16481; Mul 16499 16498; Mul 16481 4400;
  Mul 16498 495; Add 16501 16502; Sub 16500 16503; AndEqz 2407 16504; AndEqz 2408 2760; AndEqz 2409 6531;
  AndEqz 2410 2767; Add 531 532; Add 16505 533; Sub 16506 410; AndEqz 2411 16507; AndEqz 2412 8684; AndEqz 2413 2785;
  AndEqz 2414 2795; AndEqz 2415 2797; AndEqz 2416 2799; AndEqz 2417 2801; AndEqz 2418 2803; AndEqz 2419 2805;
  Add 11790 409; Sub 871 16508; AndEqz 2420 2815; Mul 1479 16509; Mul 16510 16074; Mul 16509 4661; Mul 16074 4661;
  Add 16512 16513; Sub 16511 16514; AndEqz 2421 16515; Mul 547 326; Mul 546 385; Add 16516 16517; Sub 528 16518;
  AndEqz 2422 16519; AndEqz 2423 2819; Mul 542 403; Add 16520 534; Add 16521 4624; Mul 536 399; Add 16522 16523;
  Mul 537 408; Add 16524 16525; Mul 538 401; Add 16526 16527; Mul 539 406; Add 16528 16529; Mul 540 392;
  Add 16530 16531; Mul 541 391; Add 16532 16533; Sub 16534 529; AndEqz 2424 16535; Add 8092 16047; Mul 535 399;
  Add 16537 8034; Mul 16536 16538; Mul 536 401; Add 16540 4564; Mul 16539 16541; Sub 16542 543; AndEqz 2425 16543;
  Mul 537 403; Add 16544 8009; Mul 543 16545; Mul 7371 16546; Sub 544 16547; AndEqz 2426 16548; Mul 538 16546;
  Sub 545 16549; AndEqz 2427 16550; Mul 533 546; Sub 548 16551; AndEqz 2428 16552; Sub 397 527; Mul 548 16553;
  Mul 15061 527; Add 16554 16555; Sub 549 16556; AndEqz 2429 16557; Mul 548 13740; Mul 15061 528; Add 16558 16559;
  Sub 550 16560; AndEqz 2430 16561; Sub 397 553; Mul 548 16562; Mul 15061 553; Add 16563 16564; Sub 551 16565;
  AndEqz 2431 16566].

(* L19020-19519 POLY_EXT_DEF.block *)
Definition block_38 : list Step := [
  Sub 397 554; Mul 548 16567; Mul 15061 554; Add 16568 16569; Sub 552 16570; AndEqz 2432 16571; Mul 533 402;
  Add 532 16572; Mul 16573 395; Add 16574 376; Mul 891 16575; Add 4146 16576; Add 16577 4508; Add 16578 4510;
  Add 16579 4512; Add 16580 8075; Add 16581 5762; Add 16582 5764; Add 16583 409; Add 16584 409; Sub 871 16585;
  Mul 531 305; Add 16587 6760; Mul 533 399; Add 16588 16589; Mul 891 16590; Add 4146 16591; Add 16592 12613;
  Add 16593 12615; Add 16594 4835; Mul 931 545; Add 16595 16596; Mul 941 551; Add 16597 16598; Add 16599 13867;
  Add 16600 5766; Add 16601 5768; Sub 871 16602; Mul 1499 16586; Mul 16604 16603; Mul 16586 4661; Mul 16603 526;
  Add 16606 16607; Sub 16605 16608; AndEqz 2433 16609; AndEqz 2434 2847; AndEqz 2435 2849; AndEqz 2436 2851;
  Add 562 563; Add 16610 564; Sub 16611 410; AndEqz 2437 16612; AndEqz 2438 2853; AndEqz 2439 2855; AndEqz 2440 2857;
  AndEqz 2441 10471; AndEqz 2442 2859; AndEqz 2443 2861; AndEqz 2444 2863; AndEqz 2445 2865; AndEqz 2446 2882;
  Mul 2667 7453; Mul 16613 15166; Mul 7453 4919; Mul 15166 4919; Add 16615 16616; Sub 16614 16617; AndEqz 2447 16618;
  Mul 578 326; Add 16619 14580; Sub 559 16620; AndEqz 2448 16621; AndEqz 2449 2886; Add 7476 565; Mul 566 402;
  Add 16622 16623; Mul 567 399; Add 16624 16625; Mul 568 408; Add 16626 16627; Mul 569 401; Add 16628 16629;
  Mul 570 406; Add 16630 16631; Add 16632 9686; Mul 572 391; Add 16633 16634; Sub 16635 560; AndEqz 2450 16636;
  Mul 565 402; Add 16637 13929; Mul 566 399; Sub 410 566; Add 16639 16640; Mul 16638 16641; Mul 567 401;
  Add 16643 15130; Mul 16642 16644; Sub 16645 574; AndEqz 2451 16646; Mul 568 403; Add 16647 10473; Mul 574 16648;
  Mul 4813 16649; Sub 575 16650; AndEqz 2452 16651; Mul 569 16649; Sub 576 16652; AndEqz 2453 16653; Mul 564 577;
  Sub 579 16654; AndEqz 2454 16655; Mul 579 13872; Sub 410 579; Mul 16657 558; Add 16656 16658; Sub 580 16659;
  AndEqz 2455 16660; Mul 579 13874; Mul 16657 559; Add 16661 16662; Sub 581 16663; AndEqz 2456 16664; Sub 397 584;
  Mul 579 16665; Mul 16657 584; Add 16666 16667; Sub 582 16668; AndEqz 2457 16669; Sub 397 585; Mul 579 16670;
  Mul 16657 585; Add 16671 16672; Sub 583 16673; AndEqz 2458 16674; Mul 564 402; Add 563 16675; Mul 16676 395;
  Add 16677 376; Mul 891 16678; Add 4146 16679; Add 16680 7400; Mul 911 559; Add 16681 16682; Add 16683 4869;
  Add 16684 4871; Add 16685 5926; Add 16686 5928; Add 16687 409; Add 16688 409; Sub 871 16689; Mul 562 305;
  Add 16691 2991; Add 16692 14491; Mul 891 16693; Add 4146 16694; Add 16695 13977; Mul 911 581; Add 16696 16697;
  Add 16698 8855; Mul 931 576; Add 16699 16700; Mul 941 582; Add 16701 16702; Mul 951 583; Add 16703 16704;
  Add 16705 5930; Add 16706 5932; Sub 871 16707; Mul 2691 16690; Mul 16709 16708; Mul 16690 4919; Mul 16708 557;
  Add 16711 16712; Sub 16710 16713; AndEqz 2459 16714; AndEqz 2460 11445; Mul 417 426; AndCond 2330 16715 2461;
  AndEqz 1796 5979; AndEqz 2463 5981; AndEqz 2464 4047; AndEqz 2465 6851; AndEqz 2466 8354; Add 14126 434;
  Add 16716 435; Add 16717 436; Add 16718 437; Add 16719 438; Sub 16720 410; AndEqz 2467 16721; Mul 431 281;
  Add 439 16722; Mul 432 280; Add 16723 16724; Mul 433 279; Add 16725 16726; Mul 434 278; Add 16727 16728;
  Mul 435 277; Add 16729 16730; Mul 436 276; Add 16731 16732; Mul 437 275; Add 16733 16734; Mul 438 274;
  Add 16735 16736; Mul 16737 16737; Mul 16738 16737; Sub 16739 463; AndEqz 2468 16740; Mul 463 463; Mul 16741 16737;
  Mul 431 273; Add 440 16743; Mul 432 272; Add 16744 16745; Mul 433 271; Add 16746 16747; Mul 434 270;
  Add 16748 16749; Mul 435 269; Add 16750 16751; Mul 436 268; Add 16752 16753; Mul 437 267; Add 16754 16755;
  Mul 438 266; Add 16756 16757; Mul 16758 16758; Mul 16759 16758; Sub 16760 464; AndEqz 2469 16761; Mul 464 464;
  Mul 16762 16758; Mul 431 265; Add 441 16764; Mul 432 264; Add 16765 16766; Mul 433 263; Add 16767 16768;
  Mul 434 262; Add 16769 16770; Mul 435 261; Add 16771 16772; Mul 436 260; Add 16773 16774; Mul 437 259;
  Add 16775 16776; Mul 438 258; Add 16777 16778; Mul 16779 16779; Mul 16780 16779; Sub 16781 465; AndEqz 2470 16782;
  Mul 465 465; Mul 16783 16779; Mul 431 257; Add 442 16785; Mul 432 256; Add 16786 16787; Mul 433 255;
  Add 16788 16789; Mul 434 254; Add 16790 16791; Mul 435 253; Add 16792 16793; Mul 436 252; Add 16794 16795;
  Mul 437 251; Add 16796 16797; Mul 438 250; Add 16798 16799; Mul 16800 16800; Mul 16801 16800; Sub 16802 466;
  AndEqz 2471 16803; Mul 466 466; Mul 16804 16800; Mul 431 249; Add 443 16806; Mul 432 248; Add 16807 16808;
  Mul 433 247; Add 16809 16810; Mul 434 246; Add 16811 16812; Mul 435 245; Add 16813 16814; Mul 436 244;
  Add 16815 16816; Mul 437 243; Add 16817 16818; Mul 438 242; Add 16819 16820; Mul 16821 16821; Mul 16822 16821;
  Sub 16823 467; AndEqz 2472 16824; Mul 467 467; Mul 16825 16821; Mul 431 241; Add 444 16827; Mul 432 240;
  Add 16828 16829; Mul 433 239; Add 16830 16831; Mul 434 238; Add 16832 16833; Mul 435 237; Add 16834 16835;
  Mul 436 236; Add 16836 16837; Mul 437 235; Add 16838 16839; Mul 438 234; Add 16840 16841; Mul 16842 16842;
  Mul 16843 16842; Sub 16844 468; AndEqz 2473 16845; Mul 468 468; Mul 16846 16842; Mul 431 233; Add 445 16848;
  Mul 432 232; Add 16849 16850; Mul 433 231; Add 16851 16852; Mul 434 230; Add 16853 16854; Mul 435 229;
  Add 16855 16856; Mul 436 228; Add 16857 16858; Mul 437 227; Add 16859 16860; Mul 438 226; Add 16861 16862;
  Mul 16863 16863; Mul 16864 16863; Sub 16865 469; AndEqz 2474 16866; Mul 469 469; Mul 16867 16863; Mul 431 225;
  Add 446 16869; Mul 432 224; Add 16870 16871; Mul 433 223; Add 16872 16873; Mul 434 222; Add 16874 16875;
  Mul 435 221; Add 16876 16877; Mul 436 220; Add 16878 16879; Mul 437 219; Add 16880 16881; Mul 438 218;
  Add 16882 16883; Mul 16884 16884; Mul 16885 16884; Sub 16886 470; AndEqz 2475 16887; Mul 470 470; Mul 16888 16884;
  Mul 431 217; Add 447 16890; Mul 432 216; Add 16891 16892; Mul 433 215; Add 16893 16894; Mul 434 214;
  Add 16895 16896; Mul 435 213; Add 16897 16898; Mul 436 212; Add 16899 16900; Mul 437 211; Add 16901 16902;
  Mul 438 210; Add 16903 16904; Mul 16905 16905; Mul 16906 16905; Sub 16907 471; AndEqz 2476 16908; Mul 471 471;
  Mul 16909 16905; Mul 431 209; Add 448 16911; Mul 432 208; Add 16912 16913; Mul 433 207; Add 16914 16915;
  Mul 434 206; Add 16916 16917; Mul 435 205; Add 16918 16919; Mul 436 204; Add 16920 16921; Mul 437 203;
  Add 16922 16923; Mul 438 202; Add 16924 16925; Mul 16926 16926; Mul 16927 16926; Sub 16928 472; AndEqz 2477 16929;
  Mul 472 472; Mul 16930 16926; Mul 431 201; Add 449 16932; Mul 432 200; Add 16933 16934; Mul 433 199;
  Add 16935 16936; Mul 434 198; Add 16937 16938; Mul 435 197; Add 16939 16940; Mul 436 196; Add 16941 16942;
  Mul 437 195; Add 16943 16944; Mul 438 194; Add 16945 16946; Mul 16947 16947; Mul 16948 16947; Sub 16949 473;
  AndEqz 2478 16950; Mul 473 473; Mul 16951 16947; Mul 431 193; Add 450 16953; Mul 432 192; Add 16954 16955;
  Mul 433 191; Add 16956 16957; Mul 434 190; Add 16958 16959; Mul 435 189; Add 16960 16961; Mul 436 188;
  Add 16962 16963; Mul 437 187; Add 16964 16965; Mul 438 186; Add 16966 16967; Mul 16968 16968; Mul 16969 16968;
  Sub 16970 474; AndEqz 2479 16971; Mul 474 474; Mul 16972 16968; Mul 431 185; Add 451 16974; Mul 432 184;
  Add 16975 16976; Mul 433 183; Add 16977 16978; Mul 434 182; Add 16979 16980; Mul 435 181; Add 16981 16982;
  Mul 436 180; Add 16983 16984; Mul 437 179; Add 16985 16986; Mul 438 178; Add 16987 16988; Mul 16989 16989;
  Mul 16990 16989; Sub 16991 475; AndEqz 2480 16992; Mul 475 475; Mul 16993 16989; Mul 431 177; Add 452 16995;
  Mul 432 176; Add 16996 16997; Mul 433 175; Add 16998 16999; Mul 434 174; Add 17000 17001; Mul 435 173;
  Add 17002 17003; Mul 436 172; Add 17004 17005; Mul 437 171; Add 17006 17007; Mul 438 170; Add 17008 17009;
  Mul 17010 17010; Mul 17011 17010; Sub 17012 476; AndEqz 2481 17013; Mul 476 476; Mul 17014 17010; Mul 431 169].

(* L19520-20019 POLY_EXT_DEF.block *)
Definition block_39 : list Step := [
  Add 453 17016; Mul 432 168; Add 17017 17018; Mul 433 167; Add 17019 17020; Mul 434 166; Add 17021 17022;
  Mul 435 165; Add 17023 17024; Mul 436 164; Add 17025 17026; Mul 437 163; Add 17027 17028; Mul 438 162;
  Add 17029 17030; Mul 17031 17031; Mul 17032 17031; Sub 17033 477; AndEqz 2482 17034; Mul 477 477; Mul 17035 17031;
  Mul 431 161; Add 454 17037; Mul 432 160; Add 17038 17039; Mul 433 159; Add 17040 17041; Mul 434 158;
  Add 17042 17043; Mul 435 157; Add 17044 17045; Mul 436 156; Add 17046 17047; Mul 437 155; Add 17048 17049;
  Mul 438 154; Add 17050 17051; Mul 17052 17052; Mul 17053 17052; Sub 17054 478; AndEqz 2483 17055; Mul 478 478;
  Mul 17056 17052; Mul 431 153; Add 455 17058; Mul 432 152; Add 17059 17060; Mul 433 151; Add 17061 17062;
  Mul 434 150; Add 17063 17064; Mul 435 149; Add 17065 17066; Mul 436 148; Add 17067 17068; Mul 437 147;
  Add 17069 17070; Mul 438 146; Add 17071 17072; Mul 17073 17073; Mul 17074 17073; Sub 17075 479; AndEqz 2484 17076;
  Mul 479 479; Mul 17077 17073; Mul 431 145; Add 456 17079; Mul 432 144; Add 17080 17081; Mul 433 143;
  Add 17082 17083; Mul 434 142; Add 17084 17085; Mul 435 141; Add 17086 17087; Mul 436 140; Add 17088 17089;
  Mul 437 139; Add 17090 17091; Mul 438 138; Add 17092 17093; Mul 17094 17094; Mul 17095 17094; Sub 17096 480;
  AndEqz 2485 17097; Mul 480 480; Mul 17098 17094; Mul 431 137; Add 457 17100; Mul 432 136; Add 17101 17102;
  Mul 433 135; Add 17103 17104; Mul 434 134; Add 17105 17106; Mul 435 133; Add 17107 17108; Mul 436 132;
  Add 17109 17110; Mul 437 131; Add 17111 17112; Mul 438 130; Add 17113 17114; Mul 17115 17115; Mul 17116 17115;
  Sub 17117 481; AndEqz 2486 17118; Mul 481 481; Mul 17119 17115; Mul 431 129; Add 458 17121; Mul 432 128;
  Add 17122 17123; Mul 433 127; Add 17124 17125; Mul 434 126; Add 17126 17127; Mul 435 125; Add 17128 17129;
  Mul 436 124; Add 17130 17131; Mul 437 123; Add 17132 17133; Mul 438 122; Add 17134 17135; Mul 17136 17136;
  Mul 17137 17136; Sub 17138 482; AndEqz 2487 17139; Mul 482 482; Mul 17140 17136; Mul 431 121; Add 459 17142;
  Mul 432 120; Add 17143 17144; Mul 433 119; Add 17145 17146; Mul 434 118; Add 17147 17148; Mul 435 117;
  Add 17149 17150; Mul 436 116; Add 17151 17152; Mul 437 115; Add 17153 17154; Mul 438 114; Add 17155 17156;
  Mul 17157 17157; Mul 17158 17157; Sub 17159 483; AndEqz 2488 17160; Mul 483 483; Mul 17161 17157; Mul 431 113;
  Add 460 17163; Mul 432 112; Add 17164 17165; Mul 433 111; Add 17166 17167; Mul 434 110; Add 17168 17169;
  Mul 435 109; Add 17170 17171; Mul 436 108; Add 17172 17173; Mul 437 107; Add 17174 17175; Mul 438 106;
  Add 17176 17177; Mul 17178 17178; Mul 17179 17178; Sub 17180 484; AndEqz 2489 17181; Mul 484 484; Mul 17182 17178;
  Mul 431 105; Add 461 17184; Mul 432 104; Add 17185 17186; Mul 433 103; Add 17187 17188; Mul 434 102;
  Add 17189 17190; Mul 435 101; Add 17191 17192; Mul 436 100; Add 17193 17194; Mul 437 99; Add 17195 17196;
  Mul 438 98; Add 17197 17198; Mul 17199 17199; Mul 17200 17199; Sub 17201 485; AndEqz 2490 17202; Mul 485 485;
  Mul 17203 17199; Mul 431 97; Add 462 17205; Mul 432 96; Add 17206 17207; Mul 433 95; Add 17208 17209; Mul 434 94;
  Add 17210 17211; Mul 435 93; Add 17212 17213; Mul 436 92; Add 17214 17215; Mul 437 91; Add 17216 17217; Mul 438 90;
  Add 17218 17219; Mul 17220 17220; Mul 17221 17220; Sub 17222 486; AndEqz 2491 17223; Mul 486 486; Mul 17224 17220;
  Add 16742 16763; Add 16784 16805; Mul 16763 402; Add 17228 17227; Mul 16805 402; Add 17230 17226; Mul 17227 399;
  Add 17232 17231; Mul 17226 399; Add 17234 17229; Add 17231 17235; Add 17229 17233; Add 16826 16847;
  Add 16868 16889; Mul 16847 402; Add 17240 17239; Mul 16889 402; Add 17242 17238; Mul 17239 399; Add 17244 17243;
  Mul 17238 399; Add 17246 17241; Add 17243 17247; Add 17241 17245; Add 17236 17248; Add 17235 17247;
  Add 17237 17249; Add 17233 17245; Add 16910 16931; Add 16952 16973; Mul 16931 402; Add 17256 17255; Mul 16973 402;
  Add 17258 17254; Mul 17255 399; Add 17260 17259; Mul 17254 399; Add 17262 17257; Add 17259 17263; Add 17257 17261;
  Add 17250 17264; Add 17251 17263; Add 17252 17265; Add 17253 17261; Add 16994 17015; Add 17036 17057;
  Mul 17015 402; Add 17272 17271; Mul 17057 402; Add 17274 17270; Mul 17271 399; Add 17276 17275; Mul 17270 399;
  Add 17278 17273; Add 17275 17279; Add 17273 17277; Add 17266 17280; Add 17267 17279; Add 17268 17281;
  Add 17269 17277; Add 17078 17099; Add 17120 17141; Mul 17099 402; Add 17288 17287; Mul 17141 402; Add 17290 17286;
  Mul 17287 399; Add 17292 17291; Mul 17286 399; Add 17294 17289; Add 17291 17295; Add 17289 17293; Add 17282 17296;
  Add 17283 17295; Add 17284 17297; Add 17285 17293; Add 17162 17183; Add 17204 17225; Mul 17183 402;
  Add 17304 17303; Mul 17225 402; Add 17306 17302; Mul 17303 399; Add 17308 17307; Mul 17302 399; Add 17310 17305;
  Add 17307 17311; Add 17305 17309; Add 17298 17312; Add 17299 17311; Add 17300 17313; Add 17301 17309;
  Add 17236 17314; Add 17235 17315; Add 17237 17316; Add 17233 17317; Add 17248 17314; Add 17247 17315;
  Add 17249 17316; Add 17245 17317; Add 17264 17314; Add 17263 17315; Add 17265 17316; Add 17261 17317;
  Add 17280 17314; Add 17279 17315; Add 17281 17316; Add 17277 17317; Add 17296 17314; Add 17295 17315;
  Add 17297 17316; Add 17293 17317; Add 17312 17314; Add 17311 17315; Add 17313 17316; Add 17309 17317;
  Sub 17318 487; AndEqz 2492 17342; Sub 17319 488; AndEqz 2493 17343; Sub 17320 489; AndEqz 2494 17344;
  Sub 17321 490; AndEqz 2495 17345; Sub 17322 491; AndEqz 2496 17346; Sub 17323 492; AndEqz 2497 17347;
  Sub 17324 493; AndEqz 2498 17348; Sub 17325 494; AndEqz 2499 17349; Sub 17326 495; AndEqz 2500 17350;
  Sub 17327 496; AndEqz 2501 17351; Sub 17328 497; AndEqz 2502 17352; Sub 17329 498; AndEqz 2503 17353;
  Sub 17330 499; AndEqz 2504 17354; Sub 17331 500; AndEqz 2505 17355; Sub 17332 501; AndEqz 2506 17356;
  Sub 17333 502; AndEqz 2507 17357; Sub 17334 503; AndEqz 2508 17358; Sub 17335 504; AndEqz 2509 17359;
  Sub 17336 505; AndEqz 2510 17360; Sub 17337 506; AndEqz 2511 17361; Sub 17338 507; AndEqz 2512 17362;
  Sub 17339 508; AndEqz 2513 17363; Sub 17340 509; AndEqz 2514 17364; Sub 17341 510; AndEqz 2515 17365; Mul 434 372;
  Add 14355 17366; Mul 435 399; Add 17367 17368; Mul 436 376; Add 17369 17370; Mul 437 395; Add 17371 17372;
  Mul 438 400; Add 17373 17374; Add 431 1570; Mul 433 372; Add 17376 17377; Mul 434 340; Add 17378 17379;
  Mul 435 376; Add 17380 17381; Mul 436 395; Add 17382 17383; Mul 437 400; Add 17384 17385; Mul 438 408;
  Add 17386 17387; Mul 881 408; Add 17389 409; Add 17390 10908; Mul 901 17375; Add 17391 17392; Add 17393 3822;
  Add 17394 3824; Add 17395 7033; Mul 941 442; Add 17396 17397; Mul 951 443; Add 17398 17399; Mul 961 444;
  Add 17400 17401; Mul 971 445; Add 17402 17403; Mul 981 446; Add 17404 17405; Mul 991 447; Add 17406 17407;
  Mul 1001 448; Add 17408 17409; Mul 1011 449; Add 17410 17411; Mul 1021 450; Add 17412 17413; Mul 1031 451;
  Add 17414 17415; Mul 1041 452; Add 17416 17417; Mul 1051 453; Add 17418 17419; Mul 1061 454; Add 17420 17421;
  Mul 1071 455; Add 17422 17423; Mul 1081 456; Add 17424 17425; Mul 1091 457; Add 17426 17427; Mul 1101 458;
  Add 17428 17429; Mul 1111 459; Add 17430 17431; Mul 1121 460; Add 17432 17433; Mul 1131 461; Add 17434 17435;
  Mul 1141 462; Add 17436 17437; Sub 871 17438; Mul 901 17388; Add 17391 17440; Add 17441 7255; Add 17442 4357;
  Add 17443 4359; Add 17444 13598; Mul 951 491; Add 17445 17446; Add 17447 7907; Add 17448 7909; Add 17449 7911;
  Mul 991 495; Add 17450 17451; Mul 1001 496; Add 17452 17453; Mul 1011 497; Add 17454 17455; Mul 1021 498;
  Add 17456 17457; Mul 1031 499; Add 17458 17459; Mul 1041 500; Add 17460 17461; Mul 1051 501; Add 17462 17463;
  Mul 1061 502; Add 17464 17465; Mul 1071 503; Add 17466 17467; Mul 1081 504; Add 17468 17469; Mul 1091 505;
  Add 17470 17471; Mul 1101 506; Add 17472 17473; Mul 1111 507; Add 17474 17475; Mul 1121 508; Add 17476 17477;
  Mul 1131 509; Add 17478 17479; Mul 1141 510; Add 17480 17481].

(* L20020-20519 POLY_EXT_DEF.block *)
Definition block_40 : list Step := [
  Sub 871 17482; Mul 1278 17439; Mul 17484 17483; Mul 17439 428; Mul 17483 1265; Add 17486 17487; Sub 17485 17488;
  AndEqz 2516 17489; AndEqz 2517 6342; AndEqz 2518 4405; AndEqz 2519 6362; AndEqz 2520 6364; AndEqz 2521 5537;
  AndEqz 2522 2635; AndEqz 2523 2637; AndEqz 2524 14377; Add 512 513; Add 17490 514; Add 17491 515; Add 17492 516;
  Add 17493 517; Add 17494 518; Add 17495 519; Sub 17496 410; AndEqz 2525 17497; Mul 512 281; Add 520 17498;
  Mul 513 280; Add 17499 17500; Mul 514 279; Add 17501 17502; Mul 515 278; Add 17503 17504; Mul 516 277;
  Add 17505 17506; Mul 517 276; Add 17507 17508; Mul 518 275; Add 17509 17510; Mul 519 274; Add 17511 17512;
  Mul 17513 17513; Mul 17514 17513; Sub 17515 544; AndEqz 2526 17516; Mul 544 544; Mul 17517 17513; Mul 512 273;
  Add 521 17519; Mul 513 272; Add 17520 17521; Mul 514 271; Add 17522 17523; Mul 515 270; Add 17524 17525;
  Mul 516 269; Add 17526 17527; Mul 517 268; Add 17528 17529; Mul 518 267; Add 17530 17531; Mul 519 266;
  Add 17532 17533; Mul 17534 17534; Mul 17535 17534; Sub 17536 545; AndEqz 2527 17537; Mul 545 545; Mul 17538 17534;
  Mul 512 265; Add 522 17540; Mul 513 264; Add 17541 17542; Mul 514 263; Add 17543 17544; Mul 515 262;
  Add 17545 17546; Mul 516 261; Add 17547 17548; Mul 517 260; Add 17549 17550; Mul 518 259; Add 17551 17552;
  Mul 519 258; Add 17553 17554; Mul 17555 17555; Mul 17556 17555; Sub 17557 546; AndEqz 2528 17558; Mul 546 546;
  Mul 17559 17555; Mul 512 257; Add 523 17561; Mul 513 256; Add 17562 17563; Mul 514 255; Add 17564 17565;
  Mul 515 254; Add 17566 17567; Mul 516 253; Add 17568 17569; Mul 517 252; Add 17570 17571; Mul 518 251;
  Add 17572 17573; Mul 519 250; Add 17574 17575; Mul 17576 17576; Mul 17577 17576; Sub 17578 547; AndEqz 2529 17579;
  Mul 547 547; Mul 17580 17576; Mul 512 249; Add 524 17582; Mul 513 248; Add 17583 17584; Mul 514 247;
  Add 17585 17586; Mul 515 246; Add 17587 17588; Mul 516 245; Add 17589 17590; Mul 517 244; Add 17591 17592;
  Mul 518 243; Add 17593 17594; Mul 519 242; Add 17595 17596; Mul 17597 17597; Mul 17598 17597; Sub 17599 548;
  AndEqz 2530 17600; Mul 548 548; Mul 17601 17597; Mul 512 241; Add 525 17603; Mul 513 240; Add 17604 17605;
  Mul 514 239; Add 17606 17607; Mul 515 238; Add 17608 17609; Mul 516 237; Add 17610 17611; Mul 517 236;
  Add 17612 17613; Mul 518 235; Add 17614 17615; Mul 519 234; Add 17616 17617; Mul 17618 17618; Mul 17619 17618;
  Sub 17620 549; AndEqz 2531 17621; Mul 549 549; Mul 17622 17618; Mul 512 233; Add 526 17624; Mul 513 232;
  Add 17625 17626; Mul 514 231; Add 17627 17628; Mul 515 230; Add 17629 17630; Mul 516 229; Add 17631 17632;
  Mul 517 228; Add 17633 17634; Mul 518 227; Add 17635 17636; Mul 519 226; Add 17637 17638; Mul 17639 17639;
  Mul 17640 17639; Sub 17641 550; AndEqz 2532 17642; Mul 550 550; Mul 17643 17639; Mul 512 225; Add 527 17645;
  Mul 513 224; Add 17646 17647; Mul 514 223; Add 17648 17649; Mul 515 222; Add 17650 17651; Mul 516 221;
  Add 17652 17653; Mul 517 220; Add 17654 17655; Mul 518 219; Add 17656 17657; Mul 519 218; Add 17658 17659;
  Mul 17660 17660; Mul 17661 17660; Sub 17662 551; AndEqz 2533 17663; Mul 551 551; Mul 17664 17660; Mul 512 217;
  Add 528 17666; Mul 513 216; Add 17667 17668; Mul 514 215; Add 17669 17670; Mul 515 214; Add 17671 17672;
  Mul 516 213; Add 17673 17674; Mul 517 212; Add 17675 17676; Mul 518 211; Add 17677 17678; Mul 519 210;
  Add 17679 17680; Mul 17681 17681; Mul 17682 17681; Sub 17683 552; AndEqz 2534 17684; Mul 552 552; Mul 17685 17681;
  Mul 512 209; Add 529 17687; Mul 513 208; Add 17688 17689; Mul 514 207; Add 17690 17691; Mul 515 206;
  Add 17692 17693; Mul 516 205; Add 17694 17695; Mul 517 204; Add 17696 17697; Mul 518 203; Add 17698 17699;
  Mul 519 202; Add 17700 17701; Mul 17702 17702; Mul 17703 17702; Sub 17704 553; AndEqz 2535 17705; Mul 553 553;
  Mul 17706 17702; Mul 512 201; Add 530 17708; Mul 513 200; Add 17709 17710; Mul 514 199; Add 17711 17712;
  Mul 515 198; Add 17713 17714; Mul 516 197; Add 17715 17716; Mul 517 196; Add 17717 17718; Mul 518 195;
  Add 17719 17720; Mul 519 194; Add 17721 17722; Mul 17723 17723; Mul 17724 17723; Sub 17725 554; AndEqz 2536 17726;
  Mul 554 554; Mul 17727 17723; Mul 512 193; Add 531 17729; Mul 513 192; Add 17730 17731; Mul 514 191;
  Add 17732 17733; Mul 515 190; Add 17734 17735; Mul 516 189; Add 17736 17737; Mul 517 188; Add 17738 17739;
  Mul 518 187; Add 17740 17741; Mul 519 186; Add 17742 17743; Mul 17744 17744; Mul 17745 17744; Sub 17746 555;
  AndEqz 2537 17747; Mul 555 555; Mul 17748 17744; Mul 512 185; Add 532 17750; Mul 513 184; Add 17751 17752;
  Mul 514 183; Add 17753 17754; Mul 515 182; Add 17755 17756; Mul 516 181; Add 17757 17758; Mul 517 180;
  Add 17759 17760; Mul 518 179; Add 17761 17762; Mul 519 178; Add 17763 17764; Mul 17765 17765; Mul 17766 17765;
  Sub 17767 556; AndEqz 2538 17768; Mul 556 556; Mul 17769 17765; Mul 512 177; Add 533 17771; Mul 513 176;
  Add 17772 17773; Mul 514 175; Add 17774 17775; Mul 515 174; Add 17776 17777; Mul 516 173; Add 17778 17779;
  Mul 517 172; Add 17780 17781; Mul 518 171; Add 17782 17783; Mul 519 170; Add 17784 17785; Mul 17786 17786;
  Mul 17787 17786; Sub 17788 557; AndEqz 2539 17789; Mul 557 557; Mul 17790 17786; Mul 512 169; Add 534 17792;
  Mul 513 168; Add 17793 17794; Mul 514 167; Add 17795 17796; Mul 515 166; Add 17797 17798; Mul 516 165;
  Add 17799 17800; Mul 517 164; Add 17801 17802; Mul 518 163; Add 17803 17804; Mul 519 162; Add 17805 17806;
  Mul 17807 17807; Mul 17808 17807; Sub 17809 558; AndEqz 2540 17810; Mul 558 558; Mul 17811 17807; Mul 512 161;
  Add 535 17813; Mul 513 160; Add 17814 17815; Mul 514 159; Add 17816 17817; Mul 515 158; Add 17818 17819;
  Mul 516 157; Add 17820 17821; Mul 517 156; Add 17822 17823; Mul 518 155; Add 17824 17825; Mul 519 154;
  Add 17826 17827; Mul 17828 17828; Mul 17829 17828; Sub 17830 559; AndEqz 2541 17831; Mul 559 559; Mul 17832 17828;
  Mul 512 153; Add 536 17834; Mul 513 152; Add 17835 17836; Mul 514 151; Add 17837 17838; Mul 515 150;
  Add 17839 17840; Mul 516 149; Add 17841 17842; Mul 517 148; Add 17843 17844; Mul 518 147; Add 17845 17846;
  Mul 519 146; Add 17847 17848; Mul 17849 17849; Mul 17850 17849; Sub 17851 560; AndEqz 2542 17852; Mul 560 560;
  Mul 17853 17849; Mul 512 145; Add 537 17855; Mul 513 144; Add 17856 17857; Mul 514 143; Add 17858 17859;
  Mul 515 142; Add 17860 17861; Mul 516 141; Add 17862 17863; Mul 517 140; Add 17864 17865; Mul 518 139;
  Add 17866 17867; Mul 519 138; Add 17868 17869; Mul 17870 17870; Mul 17871 17870; Sub 17872 561; AndEqz 2543 17873;
  Mul 561 561; Mul 17874 17870; Mul 512 137; Add 538 17876; Mul 513 136; Add 17877 17878; Mul 514 135;
  Add 17879 17880; Mul 515 134; Add 17881 17882; Mul 516 133; Add 17883 17884; Mul 517 132; Add 17885 17886;
  Mul 518 131; Add 17887 17888; Mul 519 130; Add 17889 17890; Mul 17891 17891; Mul 17892 17891; Sub 17893 562;
  AndEqz 2544 17894; Mul 562 562; Mul 17895 17891; Mul 512 129; Add 539 17897; Mul 513 128; Add 17898 17899;
  Mul 514 127; Add 17900 17901; Mul 515 126; Add 17902 17903; Mul 516 125; Add 17904 17905; Mul 517 124;
  Add 17906 17907; Mul 518 123; Add 17908 17909; Mul 519 122; Add 17910 17911; Mul 17912 17912; Mul 17913 17912;
  Sub 17914 563; AndEqz 2545 17915; Mul 563 563; Mul 17916 17912; Mul 512 121; Add 540 17918; Mul 513 120;
  Add 17919 17920; Mul 514 119; Add 17921 17922; Mul 515 118; Add 17923 17924; Mul 516 117; Add 17925 17926;
  Mul 517 116; Add 17927 17928; Mul 518 115; Add 17929 17930; Mul 519 114; Add 17931 17932; Mul 17933 17933;
  Mul 17934 17933; Sub 17935 564; AndEqz 2546 17936; Mul 564 564; Mul 17937 17933; Mul 512 113; Add 541 17939;
  Mul 513 112; Add 17940 17941; Mul 514 111; Add 17942 17943; Mul 515 110; Add 17944 17945; Mul 516 109;
  Add 17946 17947; Mul 517 108; Add 17948 17949; Mul 518 107].

(* L20520-21019 POLY_EXT_DEF.block *)
Definition block_41 : list Step := [
  Add 17950 17951; Mul 519 106; Add 17952 17953; Mul 17954 17954; Mul 17955 17954; Sub 17956 565; AndEqz 2547 17957;
  Mul 565 565; Mul 17958 17954; Mul 512 105; Add 542 17960; Mul 513 104; Add 17961 17962; Mul 514 103;
  Add 17963 17964; Mul 515 102; Add 17965 17966; Mul 516 101; Add 17967 17968; Mul 517 100; Add 17969 17970;
  Mul 518 99; Add 17971 17972; Mul 519 98; Add 17973 17974; Mul 17975 17975; Mul 17976 17975; Sub 17977 566;
  AndEqz 2548 17978; Mul 566 566; Mul 17979 17975; Mul 512 97; Add 543 17981; Mul 513 96; Add 17982 17983;
  Mul 514 95; Add 17984 17985; Mul 515 94; Add 17986 17987; Mul 516 93; Add 17988 17989; Mul 517 92; Add 17990 17991;
  Mul 518 91; Add 17992 17993; Mul 519 90; Add 17994 17995; Mul 17996 17996; Mul 17997 17996; Sub 17998 567;
  AndEqz 2549 17999; Mul 567 567; Mul 18000 17996; Add 17518 17539; Add 17560 17581; Mul 17539 402; Add 18004 18003;
  Mul 17581 402; Add 18006 18002; Mul 18003 399; Add 18008 18007; Mul 18002 399; Add 18010 18005; Add 18007 18011;
  Add 18005 18009; Add 17602 17623; Add 17644 17665; Mul 17623 402; Add 18016 18015; Mul 17665 402; Add 18018 18014;
  Mul 18015 399; Add 18020 18019; Mul 18014 399; Add 18022 18017; Add 18019 18023; Add 18017 18021; Add 18012 18024;
  Add 18011 18023; Add 18013 18025; Add 18009 18021; Add 17686 17707; Add 17728 17749; Mul 17707 402;
  Add 18032 18031; Mul 17749 402; Add 18034 18030; Mul 18031 399; Add 18036 18035; Mul 18030 399; Add 18038 18033;
  Add 18035 18039; Add 18033 18037; Add 18026 18040; Add 18027 18039; Add 18028 18041; Add 18029 18037;
  Add 17770 17791; Add 17812 17833; Mul 17791 402; Add 18048 18047; Mul 17833 402; Add 18050 18046; Mul 18047 399;
  Add 18052 18051; Mul 18046 399; Add 18054 18049; Add 18051 18055; Add 18049 18053; Add 18042 18056;
  Add 18043 18055; Add 18044 18057; Add 18045 18053; Add 17854 17875; Add 17896 17917; Mul 17875 402;
  Add 18064 18063; Mul 17917 402; Add 18066 18062; Mul 18063 399; Add 18068 18067; Mul 18062 399; Add 18070 18065;
  Add 18067 18071; Add 18065 18069; Add 18058 18072; Add 18059 18071; Add 18060 18073; Add 18061 18069;
  Add 17938 17959; Add 17980 18001; Mul 17959 402; Add 18080 18079; Mul 18001 402; Add 18082 18078; Mul 18079 399;
  Add 18084 18083; Mul 18078 399; Add 18086 18081; Add 18083 18087; Add 18081 18085; Add 18074 18088;
  Add 18075 18087; Add 18076 18089; Add 18077 18085; Add 18012 18090; Add 18011 18091; Add 18013 18092;
  Add 18009 18093; Add 18024 18090; Add 18023 18091; Add 18025 18092; Add 18021 18093; Add 18040 18090;
  Add 18039 18091; Add 18041 18092; Add 18037 18093; Add 18056 18090; Add 18055 18091; Add 18057 18092;
  Add 18053 18093; Add 18072 18090; Add 18071 18091; Add 18073 18092; Add 18069 18093; Add 18088 18090;
  Add 18087 18091; Add 18089 18092; Add 18085 18093; Sub 18094 568; AndEqz 2550 18118; Sub 18095 569;
  AndEqz 2551 18119; Sub 18096 570; AndEqz 2552 18120; Sub 18097 571; AndEqz 2553 18121; Sub 18098 572;
  AndEqz 2554 18122; Sub 18099 573; AndEqz 2555 18123; Sub 18100 574; AndEqz 2556 18124; Sub 18101 575;
  AndEqz 2557 18125; Sub 18102 576; AndEqz 2558 18126; Sub 18103 577; AndEqz 2559 18127; Sub 18104 578;
  AndEqz 2560 18128; Sub 18105 579; AndEqz 2561 18129; Sub 18106 580; AndEqz 2562 18130; Sub 18107 581;
  AndEqz 2563 18131; Sub 18108 582; AndEqz 2564 18132; Sub 18109 583; AndEqz 2565 18133; Sub 18110 584;
  AndEqz 2566 18134; Sub 18111 585; AndEqz 2567 18135; Sub 18112 586; AndEqz 2568 18136; Sub 18113 587;
  AndEqz 2569 18137; Sub 18114 588; AndEqz 2570 18138; Sub 18115 589; AndEqz 2571 18139; Sub 18116 590;
  AndEqz 2572 18140; Sub 18117 591; AndEqz 2573 18141; Mul 514 402; Add 513 18142; Mul 515 372; Add 18143 18144;
  Add 18145 2638; Mul 517 376; Add 18146 18147; Mul 518 395; Add 18148 18149; Mul 519 400; Add 18150 18151;
  Add 512 10279; Mul 514 372; Add 18153 18154; Mul 515 340; Add 18155 18156; Mul 516 376; Add 18157 18158;
  Mul 517 395; Add 18159 18160; Mul 518 400; Add 18161 18162; Mul 519 408; Add 18163 18164; Add 17390 8098;
  Mul 901 18152; Add 18166 18167; Add 18168 4455; Add 18169 4457; Add 18170 9580; Mul 941 523; Add 18171 18172;
  Mul 951 524; Add 18173 18174; Mul 961 525; Add 18175 18176; Mul 971 526; Add 18177 18178; Mul 981 527;
  Add 18179 18180; Mul 991 528; Add 18181 18182; Mul 1001 529; Add 18183 18184; Mul 1011 530; Add 18185 18186;
  Mul 1021 531; Add 18187 18188; Mul 1031 532; Add 18189 18190; Mul 1041 533; Add 18191 18192; Mul 1051 534;
  Add 18193 18194; Mul 1061 535; Add 18195 18196; Mul 1071 536; Add 18197 18198; Mul 1081 537; Add 18199 18200;
  Mul 1091 538; Add 18201 18202; Mul 1101 539; Add 18203 18204; Mul 1111 540; Add 18205 18206; Mul 1121 541;
  Add 18207 18208; Mul 1131 542; Add 18209 18210; Mul 1141 543; Add 18211 18212; Sub 871 18213; Mul 901 18165;
  Add 18166 18215; Add 18216 5921; Add 18217 9667; Mul 931 570; Add 18218 18219; Mul 941 571; Add 18220 18221;
  Add 18222 13964; Mul 961 573; Add 18223 18224; Mul 971 574; Add 18225 18226; Mul 981 575; Add 18227 18228;
  Mul 991 576; Add 18229 18230; Mul 1001 577; Add 18231 18232; Mul 1011 578; Add 18233 18234; Mul 1021 579;
  Add 18235 18236; Mul 1031 580; Add 18237 18238; Mul 1041 581; Add 18239 18240; Mul 1051 582; Add 18241 18242;
  Mul 1061 583; Add 18243 18244; Mul 1071 584; Add 18245 18246; Mul 1081 585; Add 18247 18248; Mul 1091 586;
  Add 18249 18250; Mul 1101 587; Add 18251 18252; Mul 1111 588; Add 18253 18254; Mul 1121 589; Add 18255 18256;
  Mul 1131 590; Add 18257 18258; Mul 1141 591; Add 18259 18260; Sub 871 18261; Mul 1297 18214; Mul 18263 18262;
  Mul 18214 429; Mul 18262 2624; Add 18265 18266; Sub 18264 18267; AndEqz 2574 18268; Add 1518 1304; Sub 1512 18269;
  AndEqz 2575 18270; Mul 417 427; AndCond 2462 18271 2576; Add 431 89; Mul 18272 18272; Mul 18273 18272;
  Sub 455 18274; AndEqz 0 18275; Mul 455 455; Mul 18276 18272; Sub 476 18277; AndEqz 2578 18278; Add 476 432;
  Add 18279 433; Add 18280 434; Add 18281 435; Add 18282 436; Add 18283 437; Add 18284 438; Add 18285 439;
  Add 18286 440; Add 18287 441; Add 18288 442; Add 18289 443; Add 18290 444; Add 18291 445; Add 18292 446;
  Add 18293 447; Add 18294 448; Add 18295 449; Add 18296 450; Add 18297 451; Add 18298 452; Add 18299 453;
  Add 18300 454; Mul 476 88; Add 18301 18302; Mul 432 87; Add 18301 18304; Mul 433 86; Add 18301 18306; Mul 434 85;
  Add 18301 18308; Mul 435 84; Add 18301 18310; Mul 436 83; Add 18301 18312; Mul 437 82; Add 18301 18314; Mul 438 81;
  Add 18301 18316; Mul 439 80; Add 18301 18318; Mul 440 79; Add 18301 18320; Mul 441 78; Add 18301 18322; Mul 442 77;
  Add 18301 18324; Mul 443 76; Add 18301 18326; Mul 444 75; Add 18301 18328; Mul 445 74; Add 18301 18330; Mul 446 73;
  Add 18301 18332; Mul 447 72; Add 18301 18334; Mul 448 71; Add 18301 18336; Mul 449 70; Add 18301 18338; Mul 450 69;
  Add 18301 18340; Mul 451 68; Add 18301 18342; Mul 452 67; Add 18301 18344; Mul 453 66; Add 18301 18346; Mul 454 65;
  Add 18301 18348; Add 18303 64; Mul 18350 18350; Mul 18351 18350; Sub 456 18352; AndEqz 2579 18353; Mul 456 456;
  Mul 18354 18350; Sub 477 18355; AndEqz 2580 18356; Add 477 18305; Add 18357 18307; Add 18358 18309;
  Add 18359 18311; Add 18360 18313; Add 18361 18315; Add 18362 18317; Add 18363 18319; Add 18364 18321;
  Add 18365 18323; Add 18366 18325; Add 18367 18327; Add 18368 18329; Add 18369 18331; Add 18370 18333;
  Add 18371 18335; Add 18372 18337; Add 18373 18339; Add 18374 18341; Add 18375 18343; Add 18376 18345;
  Add 18377 18347; Add 18378 18349; Mul 477 88; Add 18379 18380; Mul 18305 87; Add 18379 18382; Mul 18307 86;
  Add 18379 18384; Mul 18309 85; Add 18379 18386; Mul 18311 84; Add 18379 18388; Mul 18313 83; Add 18379 18390;
  Mul 18315 82; Add 18379 18392; Mul 18317 81; Add 18379 18394; Mul 18319 80; Add 18379 18396; Mul 18321 79;
  Add 18379 18398; Mul 18323 78; Add 18379 18400; Mul 18325 77; Add 18379 18402; Mul 18327 76; Add 18379 18404;
  Mul 18329 75; Add 18379 18406; Mul 18331 74; Add 18379 18408; Mul 18333 73; Add 18379 18410; Mul 18335 72;
  Add 18379 18412; Mul 18337 71; Add 18379 18414; Mul 18339 70; Add 18379 18416].

(* L21020-21519 POLY_EXT_DEF.block *)
Definition block_42 : list Step := [
  Mul 18341 69; Add 18379 18418; Mul 18343 68; Add 18379 18420; Mul 18345 67; Add 18379 18422; Mul 18347 66;
  Add 18379 18424; Mul 18349 65; Add 18379 18426; Add 18381 63; Mul 18428 18428; Mul 18429 18428; Sub 457 18430;
  AndEqz 2581 18431; Mul 457 457; Mul 18432 18428; Sub 478 18433; AndEqz 2582 18434; Add 478 18383; Add 18435 18385;
  Add 18436 18387; Add 18437 18389; Add 18438 18391; Add 18439 18393; Add 18440 18395; Add 18441 18397;
  Add 18442 18399; Add 18443 18401; Add 18444 18403; Add 18445 18405; Add 18446 18407; Add 18447 18409;
  Add 18448 18411; Add 18449 18413; Add 18450 18415; Add 18451 18417; Add 18452 18419; Add 18453 18421;
  Add 18454 18423; Add 18455 18425; Add 18456 18427; Mul 478 88; Add 18457 18458; Mul 18383 87; Add 18457 18460;
  Mul 18385 86; Add 18457 18462; Mul 18387 85; Add 18457 18464; Mul 18389 84; Add 18457 18466; Mul 18391 83;
  Add 18457 18468; Mul 18393 82; Add 18457 18470; Mul 18395 81; Add 18457 18472; Mul 18397 80; Add 18457 18474;
  Mul 18399 79; Add 18457 18476; Mul 18401 78; Add 18457 18478; Mul 18403 77; Add 18457 18480; Mul 18405 76;
  Add 18457 18482; Mul 18407 75; Add 18457 18484; Mul 18409 74; Add 18457 18486; Mul 18411 73; Add 18457 18488;
  Mul 18413 72; Add 18457 18490; Mul 18415 71; Add 18457 18492; Mul 18417 70; Add 18457 18494; Mul 18419 69;
  Add 18457 18496; Mul 18421 68; Add 18457 18498; Mul 18423 67; Add 18457 18500; Mul 18425 66; Add 18457 18502;
  Mul 18427 65; Add 18457 18504; Add 18459 62; Mul 18506 18506; Mul 18507 18506; Sub 458 18508; AndEqz 2583 18509;
  Mul 458 458; Mul 18510 18506; Sub 479 18511; AndEqz 2584 18512; Add 479 18461; Add 18513 18463; Add 18514 18465;
  Add 18515 18467; Add 18516 18469; Add 18517 18471; Add 18518 18473; Add 18519 18475; Add 18520 18477;
  Add 18521 18479; Add 18522 18481; Add 18523 18483; Add 18524 18485; Add 18525 18487; Add 18526 18489;
  Add 18527 18491; Add 18528 18493; Add 18529 18495; Add 18530 18497; Add 18531 18499; Add 18532 18501;
  Add 18533 18503; Add 18534 18505; Mul 479 88; Add 18535 18536; Mul 18461 87; Add 18535 18538; Mul 18463 86;
  Add 18535 18540; Mul 18465 85; Add 18535 18542; Mul 18467 84; Add 18535 18544; Mul 18469 83; Add 18535 18546;
  Mul 18471 82; Add 18535 18548; Mul 18473 81; Add 18535 18550; Mul 18475 80; Add 18535 18552; Mul 18477 79;
  Add 18535 18554; Mul 18479 78; Add 18535 18556; Mul 18481 77; Add 18535 18558; Mul 18483 76; Add 18535 18560;
  Mul 18485 75; Add 18535 18562; Mul 18487 74; Add 18535 18564; Mul 18489 73; Add 18535 18566; Mul 18491 72;
  Add 18535 18568; Mul 18493 71; Add 18535 18570; Mul 18495 70; Add 18535 18572; Mul 18497 69; Add 18535 18574;
  Mul 18499 68; Add 18535 18576; Mul 18501 67; Add 18535 18578; Mul 18503 66; Add 18535 18580; Mul 18505 65;
  Add 18535 18582; Add 18537 61; Mul 18584 18584; Mul 18585 18584; Sub 459 18586; AndEqz 2585 18587; Mul 459 459;
  Mul 18588 18584; Sub 480 18589; AndEqz 2586 18590; Add 480 18539; Add 18591 18541; Add 18592 18543;
  Add 18593 18545; Add 18594 18547; Add 18595 18549; Add 18596 18551; Add 18597 18553; Add 18598 18555;
  Add 18599 18557; Add 18600 18559; Add 18601 18561; Add 18602 18563; Add 18603 18565; Add 18604 18567;
  Add 18605 18569; Add 18606 18571; Add 18607 18573; Add 18608 18575; Add 18609 18577; Add 18610 18579;
  Add 18611 18581; Add 18612 18583; Mul 480 88; Add 18613 18614; Mul 18539 87; Add 18613 18616; Mul 18541 86;
  Add 18613 18618; Mul 18543 85; Add 18613 18620; Mul 18545 84; Add 18613 18622; Mul 18547 83; Add 18613 18624;
  Mul 18549 82; Add 18613 18626; Mul 18551 81; Add 18613 18628; Mul 18553 80; Add 18613 18630; Mul 18555 79;
  Add 18613 18632; Mul 18557 78; Add 18613 18634; Mul 18559 77; Add 18613 18636; Mul 18561 76; Add 18613 18638;
  Mul 18563 75; Add 18613 18640; Mul 18565 74; Add 18613 18642; Mul 18567 73; Add 18613 18644; Mul 18569 72;
  Add 18613 18646; Mul 18571 71; Add 18613 18648; Mul 18573 70; Add 18613 18650; Mul 18575 69; Add 18613 18652;
  Mul 18577 68; Add 18613 18654; Mul 18579 67; Add 18613 18656; Mul 18581 66; Add 18613 18658; Mul 18583 65;
  Add 18613 18660; Add 18615 60; Mul 18662 18662; Mul 18663 18662; Sub 460 18664; AndEqz 2587 18665; Mul 460 460;
  Mul 18666 18662; Sub 481 18667; AndEqz 2588 18668; Add 481 18617; Add 18669 18619; Add 18670 18621;
  Add 18671 18623; Add 18672 18625; Add 18673 18627; Add 18674 18629; Add 18675 18631; Add 18676 18633;
  Add 18677 18635; Add 18678 18637; Add 18679 18639; Add 18680 18641; Add 18681 18643; Add 18682 18645;
  Add 18683 18647; Add 18684 18649; Add 18685 18651; Add 18686 18653; Add 18687 18655; Add 18688 18657;
  Add 18689 18659; Add 18690 18661; Mul 481 88; Add 18691 18692; Mul 18617 87; Add 18691 18694; Mul 18619 86;
  Add 18691 18696; Mul 18621 85; Add 18691 18698; Mul 18623 84; Add 18691 18700; Mul 18625 83; Add 18691 18702;
  Mul 18627 82; Add 18691 18704; Mul 18629 81; Add 18691 18706; Mul 18631 80; Add 18691 18708; Mul 18633 79;
  Add 18691 18710; Mul 18635 78; Add 18691 18712; Mul 18637 77; Add 18691 18714; Mul 18639 76; Add 18691 18716;
  Mul 18641 75; Add 18691 18718; Mul 18643 74; Add 18691 18720; Mul 18645 73; Add 18691 18722; Mul 18647 72;
  Add 18691 18724; Mul 18649 71; Add 18691 18726; Mul 18651 70; Add 18691 18728; Mul 18653 69; Add 18691 18730;
  Mul 18655 68; Add 18691 18732; Mul 18657 67; Add 18691 18734; Mul 18659 66; Add 18691 18736; Mul 18661 65;
  Add 18691 18738; Add 18693 59; Mul 18740 18740; Mul 18741 18740; Sub 461 18742; AndEqz 2589 18743; Mul 461 461;
  Mul 18744 18740; Sub 482 18745; AndEqz 2590 18746; Add 482 18695; Add 18747 18697; Add 18748 18699;
  Add 18749 18701; Add 18750 18703; Add 18751 18705; Add 18752 18707; Add 18753 18709; Add 18754 18711;
  Add 18755 18713; Add 18756 18715; Add 18757 18717; Add 18758 18719; Add 18759 18721; Add 18760 18723;
  Add 18761 18725; Add 18762 18727; Add 18763 18729; Add 18764 18731; Add 18765 18733; Add 18766 18735;
  Add 18767 18737; Add 18768 18739; Mul 482 88; Add 18769 18770; Mul 18695 87; Add 18769 18772; Mul 18697 86;
  Add 18769 18774; Mul 18699 85; Add 18769 18776; Mul 18701 84; Add 18769 18778; Mul 18703 83; Add 18769 18780;
  Mul 18705 82; Add 18769 18782; Mul 18707 81; Add 18769 18784; Mul 18709 80; Add 18769 18786; Mul 18711 79;
  Add 18769 18788; Mul 18713 78; Add 18769 18790; Mul 18715 77; Add 18769 18792; Mul 18717 76; Add 18769 18794;
  Mul 18719 75; Add 18769 18796; Mul 18721 74; Add 18769 18798; Mul 18723 73; Add 18769 18800; Mul 18725 72;
  Add 18769 18802; Mul 18727 71; Add 18769 18804; Mul 18729 70; Add 18769 18806; Mul 18731 69; Add 18769 18808;
  Mul 18733 68; Add 18769 18810; Mul 18735 67; Add 18769 18812; Mul 18737 66; Add 18769 18814; Mul 18739 65;
  Add 18769 18816; Add 18771 58; Mul 18818 18818; Mul 18819 18818; Sub 462 18820; AndEqz 2591 18821; Mul 462 462;
  Mul 18822 18818; Sub 483 18823; AndEqz 2592 18824; Add 483 18773; Add 18825 18775; Add 18826 18777;
  Add 18827 18779; Add 18828 18781; Add 18829 18783; Add 18830 18785; Add 18831 18787; Add 18832 18789;
  Add 18833 18791; Add 18834 18793; Add 18835 18795; Add 18836 18797; Add 18837 18799; Add 18838 18801;
  Add 18839 18803; Add 18840 18805; Add 18841 18807; Add 18842 18809; Add 18843 18811; Add 18844 18813;
  Add 18845 18815; Add 18846 18817; Mul 483 88; Add 18847 18848; Mul 18773 87; Add 18847 18850; Mul 18775 86;
  Add 18847 18852; Mul 18777 85; Add 18847 18854; Mul 18779 84; Add 18847 18856; Mul 18781 83; Add 18847 18858;
  Mul 18783 82; Add 18847 18860; Mul 18785 81; Add 18847 18862; Mul 18787 80; Add 18847 18864; Mul 18789 79;
  Add 18847 18866; Mul 18791 78; Add 18847 18868; Mul 18793 77; Add 18847 18870; Mul 18795 76; Add 18847 18872;
  Mul 18797 75; Add 18847 18874; Mul 18799 74; Add 18847 18876; Mul 18801 73; Add 18847 18878; Mul 18803 72;
  Add 18847 18880; Mul 18805 71; Add 18847 18882; Mul 18807 70; Add 18847 18884; Mul 18809 69; Add 18847 18886;
  Mul 18811 68; Add 18847 18888; Mul 18813 67; Add 18847 18890; Mul 18815 66; Add 18847 18892; Mul 18817 65;
  Add 18847 18894; Add 18849 57; Mul 18896 18896; Mul 18897 18896; Sub 463 18898; AndEqz 2593 18899; Mul 16741 18896;
  Sub 484 18900; AndEqz 2594 18901; Add 484 18851; Add 18902 18853].

(* L21520-22019 POLY_EXT_DEF.block *)
Definition block_43 : list Step := [
  Add 18903 18855; Add 18904 18857; Add 18905 18859; Add 18906 18861; Add 18907 18863; Add 18908 18865;
  Add 18909 18867; Add 18910 18869; Add 18911 18871; Add 18912 18873; Add 18913 18875; Add 18914 18877;
  Add 18915 18879; Add 18916 18881; Add 18917 18883; Add 18918 18885; Add 18919 18887; Add 18920 18889;
  Add 18921 18891; Add 18922 18893; Add 18923 18895; Mul 484 88; Add 18924 18925; Mul 18851 87; Add 18924 18927;
  Mul 18853 86; Add 18924 18929; Mul 18855 85; Add 18924 18931; Mul 18857 84; Add 18924 18933; Mul 18859 83;
  Add 18924 18935; Mul 18861 82; Add 18924 18937; Mul 18863 81; Add 18924 18939; Mul 18865 80; Add 18924 18941;
  Mul 18867 79; Add 18924 18943; Mul 18869 78; Add 18924 18945; Mul 18871 77; Add 18924 18947; Mul 18873 76;
  Add 18924 18949; Mul 18875 75; Add 18924 18951; Mul 18877 74; Add 18924 18953; Mul 18879 73; Add 18924 18955;
  Mul 18881 72; Add 18924 18957; Mul 18883 71; Add 18924 18959; Mul 18885 70; Add 18924 18961; Mul 18887 69;
  Add 18924 18963; Mul 18889 68; Add 18924 18965; Mul 18891 67; Add 18924 18967; Mul 18893 66; Add 18924 18969;
  Mul 18895 65; Add 18924 18971; Add 18926 56; Mul 18973 18973; Mul 18974 18973; Sub 464 18975; AndEqz 2595 18976;
  Mul 16762 18973; Sub 485 18977; AndEqz 2596 18978; Add 485 18928; Add 18979 18930; Add 18980 18932;
  Add 18981 18934; Add 18982 18936; Add 18983 18938; Add 18984 18940; Add 18985 18942; Add 18986 18944;
  Add 18987 18946; Add 18988 18948; Add 18989 18950; Add 18990 18952; Add 18991 18954; Add 18992 18956;
  Add 18993 18958; Add 18994 18960; Add 18995 18962; Add 18996 18964; Add 18997 18966; Add 18998 18968;
  Add 18999 18970; Add 19000 18972; Mul 485 88; Add 19001 19002; Mul 18928 87; Add 19001 19004; Mul 18930 86;
  Add 19001 19006; Mul 18932 85; Add 19001 19008; Mul 18934 84; Add 19001 19010; Mul 18936 83; Add 19001 19012;
  Mul 18938 82; Add 19001 19014; Mul 18940 81; Add 19001 19016; Mul 18942 80; Add 19001 19018; Mul 18944 79;
  Add 19001 19020; Mul 18946 78; Add 19001 19022; Mul 18948 77; Add 19001 19024; Mul 18950 76; Add 19001 19026;
  Mul 18952 75; Add 19001 19028; Mul 18954 74; Add 19001 19030; Mul 18956 73; Add 19001 19032; Mul 18958 72;
  Add 19001 19034; Mul 18960 71; Add 19001 19036; Mul 18962 70; Add 19001 19038; Mul 18964 69; Add 19001 19040;
  Mul 18966 68; Add 19001 19042; Mul 18968 67; Add 19001 19044; Mul 18970 66; Add 19001 19046; Mul 18972 65;
  Add 19001 19048; Add 19003 55; Mul 19050 19050; Mul 19051 19050; Sub 465 19052; AndEqz 2597 19053; Mul 16783 19050;
  Sub 486 19054; AndEqz 2598 19055; Add 486 19005; Add 19056 19007; Add 19057 19009; Add 19058 19011;
  Add 19059 19013; Add 19060 19015; Add 19061 19017; Add 19062 19019; Add 19063 19021; Add 19064 19023;
  Add 19065 19025; Add 19066 19027; Add 19067 19029; Add 19068 19031; Add 19069 19033; Add 19070 19035;
  Add 19071 19037; Add 19072 19039; Add 19073 19041; Add 19074 19043; Add 19075 19045; Add 19076 19047;
  Add 19077 19049; Mul 486 88; Add 19078 19079; Mul 19005 87; Add 19078 19081; Mul 19007 86; Add 19078 19083;
  Mul 19009 85; Add 19078 19085; Mul 19011 84; Add 19078 19087; Mul 19013 83; Add 19078 19089; Mul 19015 82;
  Add 19078 19091; Mul 19017 81; Add 19078 19093; Mul 19019 80; Add 19078 19095; Mul 19021 79; Add 19078 19097;
  Mul 19023 78; Add 19078 19099; Mul 19025 77; Add 19078 19101; Mul 19027 76; Add 19078 19103; Mul 19029 75;
  Add 19078 19105; Mul 19031 74; Add 19078 19107; Mul 19033 73; Add 19078 19109; Mul 19035 72; Add 19078 19111;
  Mul 19037 71; Add 19078 19113; Mul 19039 70; Add 19078 19115; Mul 19041 69; Add 19078 19117; Mul 19043 68;
  Add 19078 19119; Mul 19045 67; Add 19078 19121; Mul 19047 66; Add 19078 19123; Mul 19049 65; Add 19078 19125;
  Add 19080 54; Mul 19127 19127; Mul 19128 19127; Sub 466 19129; AndEqz 2599 19130; Mul 16804 19127; Sub 487 19131;
  AndEqz 2600 19132; Add 487 19082; Add 19133 19084; Add 19134 19086; Add 19135 19088; Add 19136 19090;
  Add 19137 19092; Add 19138 19094; Add 19139 19096; Add 19140 19098; Add 19141 19100; Add 19142 19102;
  Add 19143 19104; Add 19144 19106; Add 19145 19108; Add 19146 19110; Add 19147 19112; Add 19148 19114;
  Add 19149 19116; Add 19150 19118; Add 19151 19120; Add 19152 19122; Add 19153 19124; Add 19154 19126; Mul 487 88;
  Add 19155 19156; Mul 19082 87; Add 19155 19158; Mul 19084 86; Add 19155 19160; Mul 19086 85; Add 19155 19162;
  Mul 19088 84; Add 19155 19164; Mul 19090 83; Add 19155 19166; Mul 19092 82; Add 19155 19168; Mul 19094 81;
  Add 19155 19170; Mul 19096 80; Add 19155 19172; Mul 19098 79; Add 19155 19174; Mul 19100 78; Add 19155 19176;
  Mul 19102 77; Add 19155 19178; Mul 19104 76; Add 19155 19180; Mul 19106 75; Add 19155 19182; Mul 19108 74;
  Add 19155 19184; Mul 19110 73; Add 19155 19186; Mul 19112 72; Add 19155 19188; Mul 19114 71; Add 19155 19190;
  Mul 19116 70; Add 19155 19192; Mul 19118 69; Add 19155 19194; Mul 19120 68; Add 19155 19196; Mul 19122 67;
  Add 19155 19198; Mul 19124 66; Add 19155 19200; Mul 19126 65; Add 19155 19202; Add 19157 53; Mul 19204 19204;
  Mul 19205 19204; Sub 467 19206; AndEqz 2601 19207; Mul 16825 19204; Sub 488 19208; AndEqz 2602 19209;
  Add 488 19159; Add 19210 19161; Add 19211 19163; Add 19212 19165; Add 19213 19167; Add 19214 19169;
  Add 19215 19171; Add 19216 19173; Add 19217 19175; Add 19218 19177; Add 19219 19179; Add 19220 19181;
  Add 19221 19183; Add 19222 19185; Add 19223 19187; Add 19224 19189; Add 19225 19191; Add 19226 19193;
  Add 19227 19195; Add 19228 19197; Add 19229 19199; Add 19230 19201; Add 19231 19203; Mul 488 88; Add 19232 19233;
  Mul 19159 87; Add 19232 19235; Mul 19161 86; Add 19232 19237; Mul 19163 85; Add 19232 19239; Mul 19165 84;
  Add 19232 19241; Mul 19167 83; Add 19232 19243; Mul 19169 82; Add 19232 19245; Mul 19171 81; Add 19232 19247;
  Mul 19173 80; Add 19232 19249; Mul 19175 79; Add 19232 19251; Mul 19177 78; Add 19232 19253; Mul 19179 77;
  Add 19232 19255; Mul 19181 76; Add 19232 19257; Mul 19183 75; Add 19232 19259; Mul 19185 74; Add 19232 19261;
  Mul 19187 73; Add 19232 19263; Mul 19189 72; Add 19232 19265; Mul 19191 71; Add 19232 19267; Mul 19193 70;
  Add 19232 19269; Mul 19195 69; Add 19232 19271; Mul 19197 68; Add 19232 19273; Mul 19199 67; Add 19232 19275;
  Mul 19201 66; Add 19232 19277; Mul 19203 65; Add 19232 19279; Add 19234 52; Mul 19281 19281; Mul 19282 19281;
  Sub 468 19283; AndEqz 2603 19284; Mul 16846 19281; Sub 489 19285; AndEqz 2604 19286; Add 489 19236;
  Add 19287 19238; Add 19288 19240; Add 19289 19242; Add 19290 19244; Add 19291 19246; Add 19292 19248;
  Add 19293 19250; Add 19294 19252; Add 19295 19254; Add 19296 19256; Add 19297 19258; Add 19298 19260;
  Add 19299 19262; Add 19300 19264; Add 19301 19266; Add 19302 19268; Add 19303 19270; Add 19304 19272;
  Add 19305 19274; Add 19306 19276; Add 19307 19278; Add 19308 19280; Mul 489 88; Add 19309 19310; Mul 19236 87;
  Add 19309 19312; Mul 19238 86; Add 19309 19314; Mul 19240 85; Add 19309 19316; Mul 19242 84; Add 19309 19318;
  Mul 19244 83; Add 19309 19320; Mul 19246 82; Add 19309 19322; Mul 19248 81; Add 19309 19324; Mul 19250 80;
  Add 19309 19326; Mul 19252 79; Add 19309 19328; Mul 19254 78; Add 19309 19330; Mul 19256 77; Add 19309 19332;
  Mul 19258 76; Add 19309 19334; Mul 19260 75; Add 19309 19336; Mul 19262 74; Add 19309 19338; Mul 19264 73;
  Add 19309 19340; Mul 19266 72; Add 19309 19342; Mul 19268 71; Add 19309 19344; Mul 19270 70; Add 19309 19346;
  Mul 19272 69; Add 19309 19348; Mul 19274 68; Add 19309 19350; Mul 19276 67; Add 19309 19352; Mul 19278 66;
  Add 19309 19354; Mul 19280 65; Add 19309 19356; Add 19311 51; Mul 19358 19358; Mul 19359 19358; Sub 469 19360;
  AndEqz 2605 19361; Mul 16867 19358; Sub 490 19362; AndEqz 2606 19363; Add 490 19313; Add 19364 19315;
  Add 19365 19317; Add 19366 19319; Add 19367 19321; Add 19368 19323; Add 19369 19325; Add 19370 19327;
  Add 19371 19329; Add 19372 19331; Add 19373 19333; Add 19374 19335; Add 19375 19337; Add 19376 19339;
  Add 19377 19341; Add 19378 19343; Add 19379 19345; Add 19380 19347; Add 19381 19349; Add 19382 19351;
  Add 19383 19353; Add 19384 19355; Add 19385 19357; Mul 490 88; Add 19386 19387; Mul 19313 87; Add 19386 19389;
  Mul 19315 86].

(* L22020-22519 POLY_EXT_DEF.block *)
Definition block_44 : list Step := [
  Add 19386 19391; Mul 19317 85; Add 19386 19393; Mul 19319 84; Add 19386 19395; Mul 19321 83; Add 19386 19397;
  Mul 19323 82; Add 19386 19399; Mul 19325 81; Add 19386 19401; Mul 19327 80; Add 19386 19403; Mul 19329 79;
  Add 19386 19405; Mul 19331 78; Add 19386 19407; Mul 19333 77; Add 19386 19409; Mul 19335 76; Add 19386 19411;
  Mul 19337 75; Add 19386 19413; Mul 19339 74; Add 19386 19415; Mul 19341 73; Add 19386 19417; Mul 19343 72;
  Add 19386 19419; Mul 19345 71; Add 19386 19421; Mul 19347 70; Add 19386 19423; Mul 19349 69; Add 19386 19425;
  Mul 19351 68; Add 19386 19427; Mul 19353 67; Add 19386 19429; Mul 19355 66; Add 19386 19431; Mul 19357 65;
  Add 19386 19433; Add 19388 50; Mul 19435 19435; Mul 19436 19435; Sub 470 19437; AndEqz 2607 19438; Mul 16888 19435;
  Sub 491 19439; AndEqz 2608 19440; Add 491 19390; Add 19441 19392; Add 19442 19394; Add 19443 19396;
  Add 19444 19398; Add 19445 19400; Add 19446 19402; Add 19447 19404; Add 19448 19406; Add 19449 19408;
  Add 19450 19410; Add 19451 19412; Add 19452 19414; Add 19453 19416; Add 19454 19418; Add 19455 19420;
  Add 19456 19422; Add 19457 19424; Add 19458 19426; Add 19459 19428; Add 19460 19430; Add 19461 19432;
  Add 19462 19434; Mul 491 88; Add 19463 19464; Mul 19390 87; Add 19463 19466; Mul 19392 86; Add 19463 19468;
  Mul 19394 85; Add 19463 19470; Mul 19396 84; Add 19463 19472; Mul 19398 83; Add 19463 19474; Mul 19400 82;
  Add 19463 19476; Mul 19402 81; Add 19463 19478; Mul 19404 80; Add 19463 19480; Mul 19406 79; Add 19463 19482;
  Mul 19408 78; Add 19463 19484; Mul 19410 77; Add 19463 19486; Mul 19412 76; Add 19463 19488; Mul 19414 75;
  Add 19463 19490; Mul 19416 74; Add 19463 19492; Mul 19418 73; Add 19463 19494; Mul 19420 72; Add 19463 19496;
  Mul 19422 71; Add 19463 19498; Mul 19424 70; Add 19463 19500; Mul 19426 69; Add 19463 19502; Mul 19428 68;
  Add 19463 19504; Mul 19430 67; Add 19463 19506; Mul 19432 66; Add 19463 19508; Mul 19434 65; Add 19463 19510;
  Add 19465 49; Mul 19512 19512; Mul 19513 19512; Sub 471 19514; AndEqz 2609 19515; Mul 16909 19512; Sub 492 19516;
  AndEqz 2610 19517; Add 492 19467; Add 19518 19469; Add 19519 19471; Add 19520 19473; Add 19521 19475;
  Add 19522 19477; Add 19523 19479; Add 19524 19481; Add 19525 19483; Add 19526 19485; Add 19527 19487;
  Add 19528 19489; Add 19529 19491; Add 19530 19493; Add 19531 19495; Add 19532 19497; Add 19533 19499;
  Add 19534 19501; Add 19535 19503; Add 19536 19505; Add 19537 19507; Add 19538 19509; Add 19539 19511; Mul 492 88;
  Add 19540 19541; Mul 19467 87; Add 19540 19543; Mul 19469 86; Add 19540 19545; Mul 19471 85; Add 19540 19547;
  Mul 19473 84; Add 19540 19549; Mul 19475 83; Add 19540 19551; Mul 19477 82; Add 19540 19553; Mul 19479 81;
  Add 19540 19555; Mul 19481 80; Add 19540 19557; Mul 19483 79; Add 19540 19559; Mul 19485 78; Add 19540 19561;
  Mul 19487 77; Add 19540 19563; Mul 19489 76; Add 19540 19565; Mul 19491 75; Add 19540 19567; Mul 19493 74;
  Add 19540 19569; Mul 19495 73; Add 19540 19571; Mul 19497 72; Add 19540 19573; Mul 19499 71; Add 19540 19575;
  Mul 19501 70; Add 19540 19577; Mul 19503 69; Add 19540 19579; Mul 19505 68; Add 19540 19581; Mul 19507 67;
  Add 19540 19583; Mul 19509 66; Add 19540 19585; Mul 19511 65; Add 19540 19587; Add 19542 48; Mul 19589 19589;
  Mul 19590 19589; Sub 472 19591; AndEqz 2611 19592; Mul 16930 19589; Sub 493 19593; AndEqz 2612 19594;
  Add 493 19544; Add 19595 19546; Add 19596 19548; Add 19597 19550; Add 19598 19552; Add 19599 19554;
  Add 19600 19556; Add 19601 19558; Add 19602 19560; Add 19603 19562; Add 19604 19564; Add 19605 19566;
  Add 19606 19568; Add 19607 19570; Add 19608 19572; Add 19609 19574; Add 19610 19576; Add 19611 19578;
  Add 19612 19580; Add 19613 19582; Add 19614 19584; Add 19615 19586; Add 19616 19588; Mul 493 88; Add 19617 19618;
  Mul 19544 87; Add 19617 19620; Mul 19546 86; Add 19617 19622; Mul 19548 85; Add 19617 19624; Mul 19550 84;
  Add 19617 19626; Mul 19552 83; Add 19617 19628; Mul 19554 82; Add 19617 19630; Mul 19556 81; Add 19617 19632;
  Mul 19558 80; Add 19617 19634; Mul 19560 79; Add 19617 19636; Mul 19562 78; Add 19617 19638; Mul 19564 77;
  Add 19617 19640; Mul 19566 76; Add 19617 19642; Mul 19568 75; Add 19617 19644; Mul 19570 74; Add 19617 19646;
  Mul 19572 73; Add 19617 19648; Mul 19574 72; Add 19617 19650; Mul 19576 71; Add 19617 19652; Mul 19578 70;
  Add 19617 19654; Mul 19580 69; Add 19617 19656; Mul 19582 68; Add 19617 19658; Mul 19584 67; Add 19617 19660;
  Mul 19586 66; Add 19617 19662; Mul 19588 65; Add 19617 19664; Add 19619 47; Mul 19666 19666; Mul 19667 19666;
  Sub 473 19668; AndEqz 2613 19669; Mul 16951 19666; Sub 494 19670; AndEqz 2614 19671; Add 494 19621;
  Add 19672 19623; Add 19673 19625; Add 19674 19627; Add 19675 19629; Add 19676 19631; Add 19677 19633;
  Add 19678 19635; Add 19679 19637; Add 19680 19639; Add 19681 19641; Add 19682 19643; Add 19683 19645;
  Add 19684 19647; Add 19685 19649; Add 19686 19651; Add 19687 19653; Add 19688 19655; Add 19689 19657;
  Add 19690 19659; Add 19691 19661; Add 19692 19663; Add 19693 19665; Mul 494 88; Add 19694 19695; Mul 19621 87;
  Add 19694 19697; Mul 19623 86; Add 19694 19699; Mul 19625 85; Add 19694 19701; Mul 19627 84; Add 19694 19703;
  Mul 19629 83; Add 19694 19705; Mul 19631 82; Add 19694 19707; Mul 19633 81; Add 19694 19709; Mul 19635 80;
  Add 19694 19711; Mul 19637 79; Add 19694 19713; Mul 19639 78; Add 19694 19715; Mul 19641 77; Add 19694 19717;
  Mul 19643 76; Add 19694 19719; Mul 19645 75; Add 19694 19721; Mul 19647 74; Add 19694 19723; Mul 19649 73;
  Add 19694 19725; Mul 19651 72; Add 19694 19727; Mul 19653 71; Add 19694 19729; Mul 19655 70; Add 19694 19731;
  Mul 19657 69; Add 19694 19733; Mul 19659 68; Add 19694 19735; Mul 19661 67; Add 19694 19737; Mul 19663 66;
  Add 19694 19739; Mul 19665 65; Add 19694 19741; Add 19696 46; Mul 19743 19743; Mul 19744 19743; Sub 474 19745;
  AndEqz 2615 19746; Mul 16972 19743; Sub 495 19747; AndEqz 2616 19748; Add 495 19698; Add 19749 19700;
  Add 19750 19702; Add 19751 19704; Add 19752 19706; Add 19753 19708; Add 19754 19710; Add 19755 19712;
  Add 19756 19714; Add 19757 19716; Add 19758 19718; Add 19759 19720; Add 19760 19722; Add 19761 19724;
  Add 19762 19726; Add 19763 19728; Add 19764 19730; Add 19765 19732; Add 19766 19734; Add 19767 19736;
  Add 19768 19738; Add 19769 19740; Add 19770 19742; Mul 495 88; Add 19771 19772; Mul 19698 87; Add 19771 19774;
  Mul 19700 86; Add 19771 19776; Mul 19702 85; Add 19771 19778; Mul 19704 84; Add 19771 19780; Mul 19706 83;
  Add 19771 19782; Mul 19708 82; Add 19771 19784; Mul 19710 81; Add 19771 19786; Mul 19712 80; Add 19771 19788;
  Mul 19714 79; Add 19771 19790; Mul 19716 78; Add 19771 19792; Mul 19718 77; Add 19771 19794; Mul 19720 76;
  Add 19771 19796; Mul 19722 75; Add 19771 19798; Mul 19724 74; Add 19771 19800; Mul 19726 73; Add 19771 19802;
  Mul 19728 72; Add 19771 19804; Mul 19730 71; Add 19771 19806; Mul 19732 70; Add 19771 19808; Mul 19734 69;
  Add 19771 19810; Mul 19736 68; Add 19771 19812; Mul 19738 67; Add 19771 19814; Mul 19740 66; Add 19771 19816;
  Mul 19742 65; Add 19771 19818; Add 19773 45; Mul 19820 19820; Mul 19821 19820; Sub 475 19822; AndEqz 2617 19823;
  Mul 16993 19820; Sub 496 19824; AndEqz 2618 19825; Add 496 19775; Add 19826 19777; Add 19827 19779;
  Add 19828 19781; Add 19829 19783; Add 19830 19785; Add 19831 19787; Add 19832 19789; Add 19833 19791;
  Add 19834 19793; Add 19835 19795; Add 19836 19797; Add 19837 19799; Add 19838 19801; Add 19839 19803;
  Add 19840 19805; Add 19841 19807; Add 19842 19809; Add 19843 19811; Add 19844 19813; Add 19845 19815;
  Add 19846 19817; Add 19847 19819; Mul 496 88; Add 19848 19849; Mul 19775 87; Add 19848 19851; Mul 19777 86;
  Add 19848 19853; Mul 19779 85; Add 19848 19855; Mul 19781 84; Add 19848 19857; Mul 19783 83; Add 19848 19859;
  Mul 19785 82; Add 19848 19861; Mul 19787 81; Add 19848 19863; Mul 19789 80; Add 19848 19865; Mul 19791 79;
  Add 19848 19867; Mul 19793 78; Add 19848 19869; Mul 19795 77; Add 19848 19871; Mul 19797 76; Add 19848 19873;
  Mul 19799 75; Add 19848 19875; Mul 19801 74; Add 19848 19877; Mul 19803 73].

(* L22520-23019 POLY_EXT_DEF.block *)
Definition block_45 : list Step := [
  Add 19848 19879; Mul 19805 72; Add 19848 19881; Mul 19807 71; Add 19848 19883; Mul 19809 70; Add 19848 19885;
  Mul 19811 69; Add 19848 19887; Mul 19813 68; Add 19848 19889; Mul 19815 67; Add 19848 19891; Mul 19817 66;
  Add 19848 19893; Mul 19819 65; Add 19848 19895; Sub 497 19850; AndEqz 2619 19897; Sub 498 19852; AndEqz 2620 19898;
  Sub 499 19854; AndEqz 2621 19899; Sub 500 19856; AndEqz 2622 19900; Sub 501 19858; AndEqz 2623 19901;
  Sub 502 19860; AndEqz 2624 19902; Sub 503 19862; AndEqz 2625 19903; Sub 504 19864; AndEqz 2626 19904;
  Sub 505 19866; AndEqz 2627 19905; Sub 506 19868; AndEqz 2628 19906; Sub 507 19870; AndEqz 2629 19907;
  Sub 508 19872; AndEqz 2630 19908; Sub 509 19874; AndEqz 2631 19909; Sub 510 19876; AndEqz 2632 19910;
  Sub 511 19878; AndEqz 2633 19911; Sub 512 19880; AndEqz 2634 19912; Sub 513 19882; AndEqz 2635 19913;
  Sub 514 19884; AndEqz 2636 19914; Sub 515 19886; AndEqz 2637 19915; Sub 516 19888; AndEqz 2638 19916;
  Sub 517 19890; AndEqz 2639 19917; Sub 518 19892; AndEqz 2640 19918; Sub 519 19894; AndEqz 2641 19919;
  Sub 520 19896; AndEqz 2642 19920; Mul 901 340; Add 17391 19921; Add 19922 3771; Add 19923 3773; Add 19924 7662;
  Mul 941 434; Add 19925 19926; Mul 951 435; Add 19927 19928; Mul 961 436; Add 19929 19930; Mul 971 437;
  Add 19931 19932; Mul 981 438; Add 19933 19934; Mul 991 439; Add 19935 19936; Mul 1001 440; Add 19937 19938;
  Mul 1011 441; Add 19939 19940; Mul 1021 442; Add 19941 19942; Mul 1031 443; Add 19943 19944; Mul 1041 444;
  Add 19945 19946; Mul 1051 445; Add 19947 19948; Mul 1061 446; Add 19949 19950; Mul 1071 447; Add 19951 19952;
  Mul 1081 448; Add 19953 19954; Mul 1091 449; Add 19955 19956; Mul 1101 450; Add 19957 19958; Mul 1111 451;
  Add 19959 19960; Mul 1121 452; Add 19961 19962; Mul 1131 453; Add 19963 19964; Mul 1141 454; Add 19965 19966;
  Sub 871 19967; Mul 901 399; Add 17391 19969; Add 19970 7083; Add 19971 5564; Add 19972 9459; Add 19973 7882;
  Add 19974 7884; Add 19975 7886; Add 19976 7888; Mul 981 504; Add 19977 19978; Mul 991 505; Add 19979 19980;
  Mul 1001 506; Add 19981 19982; Mul 1011 507; Add 19983 19984; Mul 1021 508; Add 19985 19986; Mul 1031 509;
  Add 19987 19988; Mul 1041 510; Add 19989 19990; Mul 1051 511; Add 19991 19992; Mul 1061 512; Add 19993 19994;
  Mul 1071 513; Add 19995 19996; Mul 1081 514; Add 19997 19998; Mul 1091 515; Add 19999 20000; Mul 1101 516;
  Add 20001 20002; Mul 1111 517; Add 20003 20004; Mul 1121 518; Add 20005 20006; Mul 1131 519; Add 20007 20008;
  Mul 1141 520; Add 20009 20010; Sub 871 20011; Mul 1278 19968; Mul 20013 20012; Mul 19968 428; Mul 20012 1265;
  Add 20015 20016; Sub 20014 20017; AndEqz 2643 20018; Add 522 89; Mul 20019 20019; Mul 20020 20019; Sub 546 20021;
  AndEqz 2644 20022; Mul 17559 20019; Sub 567 20023; AndEqz 2645 20024; Add 567 523; Add 20025 524; Add 20026 525;
  Add 20027 526; Add 20028 527; Add 20029 528; Add 20030 529; Add 20031 530; Add 20032 531; Add 20033 532;
  Add 20034 533; Add 20035 534; Add 20036 535; Add 20037 536; Add 20038 537; Add 20039 538; Add 20040 539;
  Add 20041 540; Add 20042 541; Add 20043 542; Add 20044 543; Add 20045 544; Add 20046 545; Mul 567 88;
  Add 20047 20048; Mul 523 87; Add 20047 20050; Mul 524 86; Add 20047 20052; Mul 525 85; Add 20047 20054; Mul 526 84;
  Add 20047 20056; Mul 527 83; Add 20047 20058; Mul 528 82; Add 20047 20060; Mul 529 81; Add 20047 20062; Mul 530 80;
  Add 20047 20064; Mul 531 79; Add 20047 20066; Mul 532 78; Add 20047 20068; Mul 533 77; Add 20047 20070; Mul 534 76;
  Add 20047 20072; Mul 535 75; Add 20047 20074; Mul 536 74; Add 20047 20076; Mul 537 73; Add 20047 20078; Mul 538 72;
  Add 20047 20080; Mul 539 71; Add 20047 20082; Mul 540 70; Add 20047 20084; Mul 541 69; Add 20047 20086; Mul 542 68;
  Add 20047 20088; Mul 543 67; Add 20047 20090; Mul 544 66; Add 20047 20092; Mul 545 65; Add 20047 20094;
  Add 20049 64; Mul 20096 20096; Mul 20097 20096; Sub 547 20098; AndEqz 2646 20099; Mul 17580 20096; Sub 568 20100;
  AndEqz 2647 20101; Add 568 20051; Add 20102 20053; Add 20103 20055; Add 20104 20057; Add 20105 20059;
  Add 20106 20061; Add 20107 20063; Add 20108 20065; Add 20109 20067; Add 20110 20069; Add 20111 20071;
  Add 20112 20073; Add 20113 20075; Add 20114 20077; Add 20115 20079; Add 20116 20081; Add 20117 20083;
  Add 20118 20085; Add 20119 20087; Add 20120 20089; Add 20121 20091; Add 20122 20093; Add 20123 20095; Mul 568 88;
  Add 20124 20125; Mul 20051 87; Add 20124 20127; Mul 20053 86; Add 20124 20129; Mul 20055 85; Add 20124 20131;
  Mul 20057 84; Add 20124 20133; Mul 20059 83; Add 20124 20135; Mul 20061 82; Add 20124 20137; Mul 20063 81;
  Add 20124 20139; Mul 20065 80; Add 20124 20141; Mul 20067 79; Add 20124 20143; Mul 20069 78; Add 20124 20145;
  Mul 20071 77; Add 20124 20147; Mul 20073 76; Add 20124 20149; Mul 20075 75; Add 20124 20151; Mul 20077 74;
  Add 20124 20153; Mul 20079 73; Add 20124 20155; Mul 20081 72; Add 20124 20157; Mul 20083 71; Add 20124 20159;
  Mul 20085 70; Add 20124 20161; Mul 20087 69; Add 20124 20163; Mul 20089 68; Add 20124 20165; Mul 20091 67;
  Add 20124 20167; Mul 20093 66; Add 20124 20169; Mul 20095 65; Add 20124 20171; Add 20126 63; Mul 20173 20173;
  Mul 20174 20173; Sub 548 20175; AndEqz 2648 20176; Mul 17601 20173; Sub 569 20177; AndEqz 2649 20178;
  Add 569 20128; Add 20179 20130; Add 20180 20132; Add 20181 20134; Add 20182 20136; Add 20183 20138;
  Add 20184 20140; Add 20185 20142; Add 20186 20144; Add 20187 20146; Add 20188 20148; Add 20189 20150;
  Add 20190 20152; Add 20191 20154; Add 20192 20156; Add 20193 20158; Add 20194 20160; Add 20195 20162;
  Add 20196 20164; Add 20197 20166; Add 20198 20168; Add 20199 20170; Add 20200 20172; Mul 569 88; Add 20201 20202;
  Mul 20128 87; Add 20201 20204; Mul 20130 86; Add 20201 20206; Mul 20132 85; Add 20201 20208; Mul 20134 84;
  Add 20201 20210; Mul 20136 83; Add 20201 20212; Mul 20138 82; Add 20201 20214; Mul 20140 81; Add 20201 20216;
  Mul 20142 80; Add 20201 20218; Mul 20144 79; Add 20201 20220; Mul 20146 78; Add 20201 20222; Mul 20148 77;
  Add 20201 20224; Mul 20150 76; Add 20201 20226; Mul 20152 75; Add 20201 20228; Mul 20154 74; Add 20201 20230;
  Mul 20156 73; Add 20201 20232; Mul 20158 72; Add 20201 20234; Mul 20160 71; Add 20201 20236; Mul 20162 70;
  Add 20201 20238; Mul 20164 69; Add 20201 20240; Mul 20166 68; Add 20201 20242; Mul 20168 67; Add 20201 20244;
  Mul 20170 66; Add 20201 20246; Mul 20172 65; Add 20201 20248; Add 20203 62; Mul 20250 20250; Mul 20251 20250;
  Sub 549 20252; AndEqz 2650 20253; Mul 17622 20250; Sub 570 20254; AndEqz 2651 20255; Add 570 20205;
  Add 20256 20207; Add 20257 20209; Add 20258 20211; Add 20259 20213; Add 20260 20215; Add 20261 20217;
  Add 20262 20219; Add 20263 20221; Add 20264 20223; Add 20265 20225; Add 20266 20227; Add 20267 20229;
  Add 20268 20231; Add 20269 20233; Add 20270 20235; Add 20271 20237; Add 20272 20239; Add 20273 20241;
  Add 20274 20243; Add 20275 20245; Add 20276 20247; Add 20277 20249; Mul 570 88; Add 20278 20279; Mul 20205 87;
  Add 20278 20281; Mul 20207 86; Add 20278 20283; Mul 20209 85; Add 20278 20285; Mul 20211 84; Add 20278 20287;
  Mul 20213 83; Add 20278 20289; Mul 20215 82; Add 20278 20291; Mul 20217 81; Add 20278 20293; Mul 20219 80;
  Add 20278 20295; Mul 20221 79; Add 20278 20297; Mul 20223 78; Add 20278 20299; Mul 20225 77; Add 20278 20301;
  Mul 20227 76; Add 20278 20303; Mul 20229 75; Add 20278 20305; Mul 20231 74; Add 20278 20307; Mul 20233 73;
  Add 20278 20309; Mul 20235 72; Add 20278 20311; Mul 20237 71; Add 20278 20313; Mul 20239 70; Add 20278 20315;
  Mul 20241 69; Add 20278 20317; Mul 20243 68; Add 20278 20319; Mul 20245 67; Add 20278 20321; Mul 20247 66;
  Add 20278 20323; Mul 20249 65; Add 20278 20325; Add 20280 61; Mul 20327 20327; Mul 20328 20327; Sub 550 20329;
  AndEqz 2652 20330; Mul 17643 20327; Sub 571 20331; AndEqz 2653 20332; Add 571 20282; Add 20333 20284;
  Add 20334 20286; Add 20335 20288; Add 20336 20290; Add 20337 20292; Add 20338 20294; Add 20339 20296;
  Add 20340 20298; Add 20341 20300; Add 20342 20302; Add 20343 20304].

(* L23020-23519 POLY_EXT_DEF.block *)
Definition block_46 : list Step := [
  Add 20344 20306; Add 20345 20308; Add 20346 20310; Add 20347 20312; Add 20348 20314; Add 20349 20316;
  Add 20350 20318; Add 20351 20320; Add 20352 20322; Add 20353 20324; Add 20354 20326; Mul 571 88; Add 20355 20356;
  Mul 20282 87; Add 20355 20358; Mul 20284 86; Add 20355 20360; Mul 20286 85; Add 20355 20362; Mul 20288 84;
  Add 20355 20364; Mul 20290 83; Add 20355 20366; Mul 20292 82; Add 20355 20368; Mul 20294 81; Add 20355 20370;
  Mul 20296 80; Add 20355 20372; Mul 20298 79; Add 20355 20374; Mul 20300 78; Add 20355 20376; Mul 20302 77;
  Add 20355 20378; Mul 20304 76; Add 20355 20380; Mul 20306 75; Add 20355 20382; Mul 20308 74; Add 20355 20384;
  Mul 20310 73; Add 20355 20386; Mul 20312 72; Add 20355 20388; Mul 20314 71; Add 20355 20390; Mul 20316 70;
  Add 20355 20392; Mul 20318 69; Add 20355 20394; Mul 20320 68; Add 20355 20396; Mul 20322 67; Add 20355 20398;
  Mul 20324 66; Add 20355 20400; Mul 20326 65; Add 20355 20402; Add 20357 60; Mul 20404 20404; Mul 20405 20404;
  Sub 551 20406; AndEqz 2654 20407; Mul 17664 20404; Sub 572 20408; AndEqz 2655 20409; Add 572 20359;
  Add 20410 20361; Add 20411 20363; Add 20412 20365; Add 20413 20367; Add 20414 20369; Add 20415 20371;
  Add 20416 20373; Add 20417 20375; Add 20418 20377; Add 20419 20379; Add 20420 20381; Add 20421 20383;
  Add 20422 20385; Add 20423 20387; Add 20424 20389; Add 20425 20391; Add 20426 20393; Add 20427 20395;
  Add 20428 20397; Add 20429 20399; Add 20430 20401; Add 20431 20403; Mul 572 88; Add 20432 20433; Mul 20359 87;
  Add 20432 20435; Mul 20361 86; Add 20432 20437; Mul 20363 85; Add 20432 20439; Mul 20365 84; Add 20432 20441;
  Mul 20367 83; Add 20432 20443; Mul 20369 82; Add 20432 20445; Mul 20371 81; Add 20432 20447; Mul 20373 80;
  Add 20432 20449; Mul 20375 79; Add 20432 20451; Mul 20377 78; Add 20432 20453; Mul 20379 77; Add 20432 20455;
  Mul 20381 76; Add 20432 20457; Mul 20383 75; Add 20432 20459; Mul 20385 74; Add 20432 20461; Mul 20387 73;
  Add 20432 20463; Mul 20389 72; Add 20432 20465; Mul 20391 71; Add 20432 20467; Mul 20393 70; Add 20432 20469;
  Mul 20395 69; Add 20432 20471; Mul 20397 68; Add 20432 20473; Mul 20399 67; Add 20432 20475; Mul 20401 66;
  Add 20432 20477; Mul 20403 65; Add 20432 20479; Add 20434 59; Mul 20481 20481; Mul 20482 20481; Sub 552 20483;
  AndEqz 2656 20484; Mul 17685 20481; Sub 573 20485; AndEqz 2657 20486; Add 573 20436; Add 20487 20438;
  Add 20488 20440; Add 20489 20442; Add 20490 20444; Add 20491 20446; Add 20492 20448; Add 20493 20450;
  Add 20494 20452; Add 20495 20454; Add 20496 20456; Add 20497 20458; Add 20498 20460; Add 20499 20462;
  Add 20500 20464; Add 20501 20466; Add 20502 20468; Add 20503 20470; Add 20504 20472; Add 20505 20474;
  Add 20506 20476; Add 20507 20478; Add 20508 20480; Mul 573 88; Add 20509 20510; Mul 20436 87; Add 20509 20512;
  Mul 20438 86; Add 20509 20514; Mul 20440 85; Add 20509 20516; Mul 20442 84; Add 20509 20518; Mul 20444 83;
  Add 20509 20520; Mul 20446 82; Add 20509 20522; Mul 20448 81; Add 20509 20524; Mul 20450 80; Add 20509 20526;
  Mul 20452 79; Add 20509 20528; Mul 20454 78; Add 20509 20530; Mul 20456 77; Add 20509 20532; Mul 20458 76;
  Add 20509 20534; Mul 20460 75; Add 20509 20536; Mul 20462 74; Add 20509 20538; Mul 20464 73; Add 20509 20540;
  Mul 20466 72; Add 20509 20542; Mul 20468 71; Add 20509 20544; Mul 20470 70; Add 20509 20546; Mul 20472 69;
  Add 20509 20548; Mul 20474 68; Add 20509 20550; Mul 20476 67; Add 20509 20552; Mul 20478 66; Add 20509 20554;
  Mul 20480 65; Add 20509 20556; Add 20511 58; Mul 20558 20558; Mul 20559 20558; Sub 553 20560; AndEqz 2658 20561;
  Mul 17706 20558; Sub 574 20562; AndEqz 2659 20563; Add 574 20513; Add 20564 20515; Add 20565 20517;
  Add 20566 20519; Add 20567 20521; Add 20568 20523; Add 20569 20525; Add 20570 20527; Add 20571 20529;
  Add 20572 20531; Add 20573 20533; Add 20574 20535; Add 20575 20537; Add 20576 20539; Add 20577 20541;
  Add 20578 20543; Add 20579 20545; Add 20580 20547; Add 20581 20549; Add 20582 20551; Add 20583 20553;
  Add 20584 20555; Add 20585 20557; Mul 574 88; Add 20586 20587; Mul 20513 87; Add 20586 20589; Mul 20515 86;
  Add 20586 20591; Mul 20517 85; Add 20586 20593; Mul 20519 84; Add 20586 20595; Mul 20521 83; Add 20586 20597;
  Mul 20523 82; Add 20586 20599; Mul 20525 81; Add 20586 20601; Mul 20527 80; Add 20586 20603; Mul 20529 79;
  Add 20586 20605; Mul 20531 78; Add 20586 20607; Mul 20533 77; Add 20586 20609; Mul 20535 76; Add 20586 20611;
  Mul 20537 75; Add 20586 20613; Mul 20539 74; Add 20586 20615; Mul 20541 73; Add 20586 20617; Mul 20543 72;
  Add 20586 20619; Mul 20545 71; Add 20586 20621; Mul 20547 70; Add 20586 20623; Mul 20549 69; Add 20586 20625;
  Mul 20551 68; Add 20586 20627; Mul 20553 67; Add 20586 20629; Mul 20555 66; Add 20586 20631; Mul 20557 65;
  Add 20586 20633; Add 20588 57; Mul 20635 20635; Mul 20636 20635; Sub 554 20637; AndEqz 2660 20638; Mul 17727 20635;
  Sub 575 20639; AndEqz 2661 20640; Add 575 20590; Add 20641 20592; Add 20642 20594; Add 20643 20596;
  Add 20644 20598; Add 20645 20600; Add 20646 20602; Add 20647 20604; Add 20648 20606; Add 20649 20608;
  Add 20650 20610; Add 20651 20612; Add 20652 20614; Add 20653 20616; Add 20654 20618; Add 20655 20620;
  Add 20656 20622; Add 20657 20624; Add 20658 20626; Add 20659 20628; Add 20660 20630; Add 20661 20632;
  Add 20662 20634; Mul 575 88; Add 20663 20664; Mul 20590 87; Add 20663 20666; Mul 20592 86; Add 20663 20668;
  Mul 20594 85; Add 20663 20670; Mul 20596 84; Add 20663 20672; Mul 20598 83; Add 20663 20674; Mul 20600 82;
  Add 20663 20676; Mul 20602 81; Add 20663 20678; Mul 20604 80; Add 20663 20680; Mul 20606 79; Add 20663 20682;
  Mul 20608 78; Add 20663 20684; Mul 20610 77; Add 20663 20686; Mul 20612 76; Add 20663 20688; Mul 20614 75;
  Add 20663 20690; Mul 20616 74; Add 20663 20692; Mul 20618 73; Add 20663 20694; Mul 20620 72; Add 20663 20696;
  Mul 20622 71; Add 20663 20698; Mul 20624 70; Add 20663 20700; Mul 20626 69; Add 20663 20702; Mul 20628 68;
  Add 20663 20704; Mul 20630 67; Add 20663 20706; Mul 20632 66; Add 20663 20708; Mul 20634 65; Add 20663 20710;
  Add 20665 56; Mul 20712 20712; Mul 20713 20712; Sub 555 20714; AndEqz 2662 20715; Mul 17748 20712; Sub 576 20716;
  AndEqz 2663 20717; Add 576 20667; Add 20718 20669; Add 20719 20671; Add 20720 20673; Add 20721 20675;
  Add 20722 20677; Add 20723 20679; Add 20724 20681; Add 20725 20683; Add 20726 20685; Add 20727 20687;
  Add 20728 20689; Add 20729 20691; Add 20730 20693; Add 20731 20695; Add 20732 20697; Add 20733 20699;
  Add 20734 20701; Add 20735 20703; Add 20736 20705; Add 20737 20707; Add 20738 20709; Add 20739 20711; Mul 576 88;
  Add 20740 20741; Mul 20667 87; Add 20740 20743; Mul 20669 86; Add 20740 20745; Mul 20671 85; Add 20740 20747;
  Mul 20673 84; Add 20740 20749; Mul 20675 83; Add 20740 20751; Mul 20677 82; Add 20740 20753; Mul 20679 81;
  Add 20740 20755; Mul 20681 80; Add 20740 20757; Mul 20683 79; Add 20740 20759; Mul 20685 78; Add 20740 20761;
  Mul 20687 77; Add 20740 20763; Mul 20689 76; Add 20740 20765; Mul 20691 75; Add 20740 20767; Mul 20693 74;
  Add 20740 20769; Mul 20695 73; Add 20740 20771; Mul 20697 72; Add 20740 20773; Mul 20699 71; Add 20740 20775;
  Mul 20701 70; Add 20740 20777; Mul 20703 69; Add 20740 20779; Mul 20705 68; Add 20740 20781; Mul 20707 67;
  Add 20740 20783; Mul 20709 66; Add 20740 20785; Mul 20711 65; Add 20740 20787; Add 20742 55; Mul 20789 20789;
  Mul 20790 20789; Sub 556 20791; AndEqz 2664 20792; Mul 17769 20789; Sub 577 20793; AndEqz 2665 20794;
  Add 577 20744; Add 20795 20746; Add 20796 20748; Add 20797 20750; Add 20798 20752; Add 20799 20754;
  Add 20800 20756; Add 20801 20758; Add 20802 20760; Add 20803 20762; Add 20804 20764; Add 20805 20766;
  Add 20806 20768; Add 20807 20770; Add 20808 20772; Add 20809 20774; Add 20810 20776; Add 20811 20778;
  Add 20812 20780; Add 20813 20782; Add 20814 20784; Add 20815 20786; Add 20816 20788; Mul 577 88; Add 20817 20818;
  Mul 20744 87; Add 20817 20820; Mul 20746 86; Add 20817 20822; Mul 20748 85; Add 20817 20824; Mul 20750 84;
  Add 20817 20826; Mul 20752 83; Add 20817 20828; Mul 20754 82; Add 20817 20830; Mul 20756 81].

(* L23520-24019 POLY_EXT_DEF.block *)
Definition block_47 : list Step := [
  Add 20817 20832; Mul 20758 80; Add 20817 20834; Mul 20760 79; Add 20817 20836; Mul 20762 78; Add 20817 20838;
  Mul 20764 77; Add 20817 20840; Mul 20766 76; Add 20817 20842; Mul 20768 75; Add 20817 20844; Mul 20770 74;
  Add 20817 20846; Mul 20772 73; Add 20817 20848; Mul 20774 72; Add 20817 20850; Mul 20776 71; Add 20817 20852;
  Mul 20778 70; Add 20817 20854; Mul 20780 69; Add 20817 20856; Mul 20782 68; Add 20817 20858; Mul 20784 67;
  Add 20817 20860; Mul 20786 66; Add 20817 20862; Mul 20788 65; Add 20817 20864; Add 20819 54; Mul 20866 20866;
  Mul 20867 20866; Sub 557 20868; AndEqz 2666 20869; Mul 17790 20866; Sub 578 20870; AndEqz 2667 20871;
  Add 578 20821; Add 20872 20823; Add 20873 20825; Add 20874 20827; Add 20875 20829; Add 20876 20831;
  Add 20877 20833; Add 20878 20835; Add 20879 20837; Add 20880 20839; Add 20881 20841; Add 20882 20843;
  Add 20883 20845; Add 20884 20847; Add 20885 20849; Add 20886 20851; Add 20887 20853; Add 20888 20855;
  Add 20889 20857; Add 20890 20859; Add 20891 20861; Add 20892 20863; Add 20893 20865; Mul 578 88; Add 20894 20895;
  Mul 20821 87; Add 20894 20897; Mul 20823 86; Add 20894 20899; Mul 20825 85; Add 20894 20901; Mul 20827 84;
  Add 20894 20903; Mul 20829 83; Add 20894 20905; Mul 20831 82; Add 20894 20907; Mul 20833 81; Add 20894 20909;
  Mul 20835 80; Add 20894 20911; Mul 20837 79; Add 20894 20913; Mul 20839 78; Add 20894 20915; Mul 20841 77;
  Add 20894 20917; Mul 20843 76; Add 20894 20919; Mul 20845 75; Add 20894 20921; Mul 20847 74; Add 20894 20923;
  Mul 20849 73; Add 20894 20925; Mul 20851 72; Add 20894 20927; Mul 20853 71; Add 20894 20929; Mul 20855 70;
  Add 20894 20931; Mul 20857 69; Add 20894 20933; Mul 20859 68; Add 20894 20935; Mul 20861 67; Add 20894 20937;
  Mul 20863 66; Add 20894 20939; Mul 20865 65; Add 20894 20941; Add 20896 53; Mul 20943 20943; Mul 20944 20943;
  Sub 558 20945; AndEqz 2668 20946; Mul 17811 20943; Sub 579 20947; AndEqz 2669 20948; Add 579 20898;
  Add 20949 20900; Add 20950 20902; Add 20951 20904; Add 20952 20906; Add 20953 20908; Add 20954 20910;
  Add 20955 20912; Add 20956 20914; Add 20957 20916; Add 20958 20918; Add 20959 20920; Add 20960 20922;
  Add 20961 20924; Add 20962 20926; Add 20963 20928; Add 20964 20930; Add 20965 20932; Add 20966 20934;
  Add 20967 20936; Add 20968 20938; Add 20969 20940; Add 20970 20942; Mul 579 88; Add 20971 20972; Mul 20898 87;
  Add 20971 20974; Mul 20900 86; Add 20971 20976; Mul 20902 85; Add 20971 20978; Mul 20904 84; Add 20971 20980;
  Mul 20906 83; Add 20971 20982; Mul 20908 82; Add 20971 20984; Mul 20910 81; Add 20971 20986; Mul 20912 80;
  Add 20971 20988; Mul 20914 79; Add 20971 20990; Mul 20916 78; Add 20971 20992; Mul 20918 77; Add 20971 20994;
  Mul 20920 76; Add 20971 20996; Mul 20922 75; Add 20971 20998; Mul 20924 74; Add 20971 21000; Mul 20926 73;
  Add 20971 21002; Mul 20928 72; Add 20971 21004; Mul 20930 71; Add 20971 21006; Mul 20932 70; Add 20971 21008;
  Mul 20934 69; Add 20971 21010; Mul 20936 68; Add 20971 21012; Mul 20938 67; Add 20971 21014; Mul 20940 66;
  Add 20971 21016; Mul 20942 65; Add 20971 21018; Add 20973 52; Mul 21020 21020; Mul 21021 21020; Sub 559 21022;
  AndEqz 2670 21023; Mul 17832 21020; Sub 580 21024; AndEqz 2671 21025; Add 580 20975; Add 21026 20977;
  Add 21027 20979; Add 21028 20981; Add 21029 20983; Add 21030 20985; Add 21031 20987; Add 21032 20989;
  Add 21033 20991; Add 21034 20993; Add 21035 20995; Add 21036 20997; Add 21037 20999; Add 21038 21001;
  Add 21039 21003; Add 21040 21005; Add 21041 21007; Add 21042 21009; Add 21043 21011; Add 21044 21013;
  Add 21045 21015; Add 21046 21017; Add 21047 21019; Mul 580 88; Add 21048 21049; Mul 20975 87; Add 21048 21051;
  Mul 20977 86; Add 21048 21053; Mul 20979 85; Add 21048 21055; Mul 20981 84; Add 21048 21057; Mul 20983 83;
  Add 21048 21059; Mul 20985 82; Add 21048 21061; Mul 20987 81; Add 21048 21063; Mul 20989 80; Add 21048 21065;
  Mul 20991 79; Add 21048 21067; Mul 20993 78; Add 21048 21069; Mul 20995 77; Add 21048 21071; Mul 20997 76;
  Add 21048 21073; Mul 20999 75; Add 21048 21075; Mul 21001 74; Add 21048 21077; Mul 21003 73; Add 21048 21079;
  Mul 21005 72; Add 21048 21081; Mul 21007 71; Add 21048 21083; Mul 21009 70; Add 21048 21085; Mul 21011 69;
  Add 21048 21087; Mul 21013 68; Add 21048 21089; Mul 21015 67; Add 21048 21091; Mul 21017 66; Add 21048 21093;
  Mul 21019 65; Add 21048 21095; Add 21050 51; Mul 21097 21097; Mul 21098 21097; Sub 560 21099; AndEqz 2672 21100;
  Mul 17853 21097; Sub 581 21101; AndEqz 2673 21102; Add 581 21052; Add 21103 21054; Add 21104 21056;
  Add 21105 21058; Add 21106 21060; Add 21107 21062; Add 21108 21064; Add 21109 21066; Add 21110 21068;
  Add 21111 21070; Add 21112 21072; Add 21113 21074; Add 21114 21076; Add 21115 21078; Add 21116 21080;
  Add 21117 21082; Add 21118 21084; Add 21119 21086; Add 21120 21088; Add 21121 21090; Add 21122 21092;
  Add 21123 21094; Add 21124 21096; Mul 581 88; Add 21125 21126; Mul 21052 87; Add 21125 21128; Mul 21054 86;
  Add 21125 21130; Mul 21056 85; Add 21125 21132; Mul 21058 84; Add 21125 21134; Mul 21060 83; Add 21125 21136;
  Mul 21062 82; Add 21125 21138; Mul 21064 81; Add 21125 21140; Mul 21066 80; Add 21125 21142; Mul 21068 79;
  Add 21125 21144; Mul 21070 78; Add 21125 21146; Mul 21072 77; Add 21125 21148; Mul 21074 76; Add 21125 21150;
  Mul 21076 75; Add 21125 21152; Mul 21078 74; Add 21125 21154; Mul 21080 73; Add 21125 21156; Mul 21082 72;
  Add 21125 21158; Mul 21084 71; Add 21125 21160; Mul 21086 70; Add 21125 21162; Mul 21088 69; Add 21125 21164;
  Mul 21090 68; Add 21125 21166; Mul 21092 67; Add 21125 21168; Mul 21094 66; Add 21125 21170; Mul 21096 65;
  Add 21125 21172; Add 21127 50; Mul 21174 21174; Mul 21175 21174; Sub 561 21176; AndEqz 2674 21177; Mul 17874 21174;
  Sub 582 21178; AndEqz 2675 21179; Add 582 21129; Add 21180 21131; Add 21181 21133; Add 21182 21135;
  Add 21183 21137; Add 21184 21139; Add 21185 21141; Add 21186 21143; Add 21187 21145; Add 21188 21147;
  Add 21189 21149; Add 21190 21151; Add 21191 21153; Add 21192 21155; Add 21193 21157; Add 21194 21159;
  Add 21195 21161; Add 21196 21163; Add 21197 21165; Add 21198 21167; Add 21199 21169; Add 21200 21171;
  Add 21201 21173; Mul 582 88; Add 21202 21203; Mul 21129 87; Add 21202 21205; Mul 21131 86; Add 21202 21207;
  Mul 21133 85; Add 21202 21209; Mul 21135 84; Add 21202 21211; Mul 21137 83; Add 21202 21213; Mul 21139 82;
  Add 21202 21215; Mul 21141 81; Add 21202 21217; Mul 21143 80; Add 21202 21219; Mul 21145 79; Add 21202 21221;
  Mul 21147 78; Add 21202 21223; Mul 21149 77; Add 21202 21225; Mul 21151 76; Add 21202 21227; Mul 21153 75;
  Add 21202 21229; Mul 21155 74; Add 21202 21231; Mul 21157 73; Add 21202 21233; Mul 21159 72; Add 21202 21235;
  Mul 21161 71; Add 21202 21237; Mul 21163 70; Add 21202 21239; Mul 21165 69; Add 21202 21241; Mul 21167 68;
  Add 21202 21243; Mul 21169 67; Add 21202 21245; Mul 21171 66; Add 21202 21247; Mul 21173 65; Add 21202 21249;
  Add 21204 49; Mul 21251 21251; Mul 21252 21251; Sub 562 21253; AndEqz 2676 21254; Mul 17895 21251; Sub 583 21255;
  AndEqz 2677 21256; Add 583 21206; Add 21257 21208; Add 21258 21210; Add 21259 21212; Add 21260 21214;
  Add 21261 21216; Add 21262 21218; Add 21263 21220; Add 21264 21222; Add 21265 21224; Add 21266 21226;
  Add 21267 21228; Add 21268 21230; Add 21269 21232; Add 21270 21234; Add 21271 21236; Add 21272 21238;
  Add 21273 21240; Add 21274 21242; Add 21275 21244; Add 21276 21246; Add 21277 21248; Add 21278 21250; Mul 583 88;
  Add 21279 21280; Mul 21206 87; Add 21279 21282; Mul 21208 86; Add 21279 21284; Mul 21210 85; Add 21279 21286;
  Mul 21212 84; Add 21279 21288; Mul 21214 83; Add 21279 21290; Mul 21216 82; Add 21279 21292; Mul 21218 81;
  Add 21279 21294; Mul 21220 80; Add 21279 21296; Mul 21222 79; Add 21279 21298; Mul 21224 78; Add 21279 21300;
  Mul 21226 77; Add 21279 21302; Mul 21228 76; Add 21279 21304; Mul 21230 75; Add 21279 21306; Mul 21232 74;
  Add 21279 21308; Mul 21234 73; Add 21279 21310; Mul 21236 72; Add 21279 21312; Mul 21238 71; Add 21279 21314;
  Mul 21240 70; Add 21279 21316; Mul 21242 69; Add 21279 21318; Mul 21244 68].

(* L24020-24519 POLY_EXT_DEF.block *)
Definition block_48 : list Step := [
  Add 21279 21320; Mul 21246 67; Add 21279 21322; Mul 21248 66; Add 21279 21324; Mul 21250 65; Add 21279 21326;
  Add 21281 48; Mul 21328 21328; Mul 21329 21328; Sub 563 21330; AndEqz 2678 21331; Mul 17916 21328; Sub 584 21332;
  AndEqz 2679 21333; Add 584 21283; Add 21334 21285; Add 21335 21287; Add 21336 21289; Add 21337 21291;
  Add 21338 21293; Add 21339 21295; Add 21340 21297; Add 21341 21299; Add 21342 21301; Add 21343 21303;
  Add 21344 21305; Add 21345 21307; Add 21346 21309; Add 21347 21311; Add 21348 21313; Add 21349 21315;
  Add 21350 21317; Add 21351 21319; Add 21352 21321; Add 21353 21323; Add 21354 21325; Add 21355 21327; Mul 584 88;
  Add 21356 21357; Mul 21283 87; Add 21356 21359; Mul 21285 86; Add 21356 21361; Mul 21287 85; Add 21356 21363;
  Mul 21289 84; Add 21356 21365; Mul 21291 83; Add 21356 21367; Mul 21293 82; Add 21356 21369; Mul 21295 81;
  Add 21356 21371; Mul 21297 80; Add 21356 21373; Mul 21299 79; Add 21356 21375; Mul 21301 78; Add 21356 21377;
  Mul 21303 77; Add 21356 21379; Mul 21305 76; Add 21356 21381; Mul 21307 75; Add 21356 21383; Mul 21309 74;
  Add 21356 21385; Mul 21311 73; Add 21356 21387; Mul 21313 72; Add 21356 21389; Mul 21315 71; Add 21356 21391;
  Mul 21317 70; Add 21356 21393; Mul 21319 69; Add 21356 21395; Mul 21321 68; Add 21356 21397; Mul 21323 67;
  Add 21356 21399; Mul 21325 66; Add 21356 21401; Mul 21327 65; Add 21356 21403; Add 21358 47; Mul 21405 21405;
  Mul 21406 21405; Sub 564 21407; AndEqz 2680 21408; Mul 17937 21405; Sub 585 21409; AndEqz 2681 21410;
  Add 585 21360; Add 21411 21362; Add 21412 21364; Add 21413 21366; Add 21414 21368; Add 21415 21370;
  Add 21416 21372; Add 21417 21374; Add 21418 21376; Add 21419 21378; Add 21420 21380; Add 21421 21382;
  Add 21422 21384; Add 21423 21386; Add 21424 21388; Add 21425 21390; Add 21426 21392; Add 21427 21394;
  Add 21428 21396; Add 21429 21398; Add 21430 21400; Add 21431 21402; Add 21432 21404; Mul 585 88; Add 21433 21434;
  Mul 21360 87; Add 21433 21436; Mul 21362 86; Add 21433 21438; Mul 21364 85; Add 21433 21440; Mul 21366 84;
  Add 21433 21442; Mul 21368 83; Add 21433 21444; Mul 21370 82; Add 21433 21446; Mul 21372 81; Add 21433 21448;
  Mul 21374 80; Add 21433 21450; Mul 21376 79; Add 21433 21452; Mul 21378 78; Add 21433 21454; Mul 21380 77;
  Add 21433 21456; Mul 21382 76; Add 21433 21458; Mul 21384 75; Add 21433 21460; Mul 21386 74; Add 21433 21462;
  Mul 21388 73; Add 21433 21464; Mul 21390 72; Add 21433 21466; Mul 21392 71; Add 21433 21468; Mul 21394 70;
  Add 21433 21470; Mul 21396 69; Add 21433 21472; Mul 21398 68; Add 21433 21474; Mul 21400 67; Add 21433 21476;
  Mul 21402 66; Add 21433 21478; Mul 21404 65; Add 21433 21480; Add 21435 46; Mul 21482 21482; Mul 21483 21482;
  Sub 565 21484; AndEqz 2682 21485; Mul 17958 21482; Sub 586 21486; AndEqz 2683 21487; Add 586 21437;
  Add 21488 21439; Add 21489 21441; Add 21490 21443; Add 21491 21445; Add 21492 21447; Add 21493 21449;
  Add 21494 21451; Add 21495 21453; Add 21496 21455; Add 21497 21457; Add 21498 21459; Add 21499 21461;
  Add 21500 21463; Add 21501 21465; Add 21502 21467; Add 21503 21469; Add 21504 21471; Add 21505 21473;
  Add 21506 21475; Add 21507 21477; Add 21508 21479; Add 21509 21481; Mul 586 88; Add 21510 21511; Mul 21437 87;
  Add 21510 21513; Mul 21439 86; Add 21510 21515; Mul 21441 85; Add 21510 21517; Mul 21443 84; Add 21510 21519;
  Mul 21445 83; Add 21510 21521; Mul 21447 82; Add 21510 21523; Mul 21449 81; Add 21510 21525; Mul 21451 80;
  Add 21510 21527; Mul 21453 79; Add 21510 21529; Mul 21455 78; Add 21510 21531; Mul 21457 77; Add 21510 21533;
  Mul 21459 76; Add 21510 21535; Mul 21461 75; Add 21510 21537; Mul 21463 74; Add 21510 21539; Mul 21465 73;
  Add 21510 21541; Mul 21467 72; Add 21510 21543; Mul 21469 71; Add 21510 21545; Mul 21471 70; Add 21510 21547;
  Mul 21473 69; Add 21510 21549; Mul 21475 68; Add 21510 21551; Mul 21477 67; Add 21510 21553; Mul 21479 66;
  Add 21510 21555; Mul 21481 65; Add 21510 21557; Add 21512 45; Mul 21559 21559; Mul 21560 21559; Sub 566 21561;
  AndEqz 2684 21562; Mul 17979 21559; Sub 587 21563; AndEqz 2685 21564; Add 587 21514; Add 21565 21516;
  Add 21566 21518; Add 21567 21520; Add 21568 21522; Add 21569 21524; Add 21570 21526; Add 21571 21528;
  Add 21572 21530; Add 21573 21532; Add 21574 21534; Add 21575 21536; Add 21576 21538; Add 21577 21540;
  Add 21578 21542; Add 21579 21544; Add 21580 21546; Add 21581 21548; Add 21582 21550; Add 21583 21552;
  Add 21584 21554; Add 21585 21556; Add 21586 21558; Mul 587 88; Add 21587 21588; Mul 21514 87; Add 21587 21590;
  Mul 21516 86; Add 21587 21592; Mul 21518 85; Add 21587 21594; Mul 21520 84; Add 21587 21596; Mul 21522 83;
  Add 21587 21598; Mul 21524 82; Add 21587 21600; Mul 21526 81; Add 21587 21602; Mul 21528 80; Add 21587 21604;
  Mul 21530 79; Add 21587 21606; Mul 21532 78; Add 21587 21608; Mul 21534 77; Add 21587 21610; Mul 21536 76;
  Add 21587 21612; Mul 21538 75; Add 21587 21614; Mul 21540 74; Add 21587 21616; Mul 21542 73; Add 21587 21618;
  Mul 21544 72; Add 21587 21620; Mul 21546 71; Add 21587 21622; Mul 21548 70; Add 21587 21624; Mul 21550 69;
  Add 21587 21626; Mul 21552 68; Add 21587 21628; Mul 21554 67; Add 21587 21630; Mul 21556 66; Add 21587 21632;
  Mul 21558 65; Add 21587 21634; Sub 588 21589; AndEqz 2686 21636; Sub 589 21591; AndEqz 2687 21637; Sub 590 21593;
  AndEqz 2688 21638; Sub 591 21595; AndEqz 2689 21639; Sub 592 21597; AndEqz 2690 21640; Sub 593 21599;
  AndEqz 2691 21641; Sub 594 21601; AndEqz 2692 21642; Sub 595 21603; AndEqz 2693 21643; Sub 596 21605;
  AndEqz 2694 21644; Sub 597 21607; AndEqz 2695 21645; Sub 598 21609; AndEqz 2696 21646; Sub 599 21611;
  AndEqz 2697 21647; Sub 600 21613; AndEqz 2698 21648; Sub 601 21615; AndEqz 2699 21649; Sub 602 21617;
  AndEqz 2700 21650; Sub 603 21619; AndEqz 2701 21651; Sub 604 21621; AndEqz 2702 21652; Sub 605 21623;
  AndEqz 2703 21653; Sub 606 21625; AndEqz 2704 21654; Sub 607 21627; AndEqz 2705 21655; Sub 608 21629;
  AndEqz 2706 21656; Sub 609 21631; AndEqz 2707 21657; Sub 610 21633; AndEqz 2708 21658; Sub 611 21635;
  AndEqz 2709 21659; Add 17390 9575; Add 21660 19921; Add 21661 2657; Add 21662 2659; Mul 931 524; Add 21663 21664;
  Mul 941 525; Add 21665 21666; Mul 951 526; Add 21667 21668; Mul 961 527; Add 21669 21670; Mul 971 528;
  Add 21671 21672; Mul 981 529; Add 21673 21674; Mul 991 530; Add 21675 21676; Mul 1001 531; Add 21677 21678;
  Mul 1011 532; Add 21679 21680; Mul 1021 533; Add 21681 21682; Mul 1031 534; Add 21683 21684; Mul 1041 535;
  Add 21685 21686; Mul 1051 536; Add 21687 21688; Mul 1061 537; Add 21689 21690; Mul 1071 538; Add 21691 21692;
  Mul 1081 539; Add 21693 21694; Mul 1091 540; Add 21695 21696; Mul 1101 541; Add 21697 21698; Mul 1111 542;
  Add 21699 21700; Mul 1121 543; Add 21701 21702; Mul 1131 544; Add 21703 21704; Mul 1141 545; Add 21705 21706;
  Sub 871 21707; Add 21660 19969; Add 21709 4929; Add 21710 4931; Add 21711 10687; Add 21712 9887; Add 21713 9889;
  Mul 961 593; Add 21714 21715; Mul 971 594; Add 21716 21717; Mul 981 595; Add 21718 21719; Mul 991 596;
  Add 21720 21721; Mul 1001 597; Add 21722 21723; Mul 1011 598; Add 21724 21725; Mul 1021 599; Add 21726 21727;
  Mul 1031 600; Add 21728 21729; Mul 1041 601; Add 21730 21731; Mul 1051 602; Add 21732 21733; Mul 1061 603;
  Add 21734 21735; Mul 1071 604; Add 21736 21737; Mul 1081 605; Add 21738 21739; Mul 1091 606; Add 21740 21741;
  Mul 1101 607; Add 21742 21743; Mul 1111 608; Add 21744 21745; Mul 1121 609; Add 21746 21747; Mul 1131 610;
  Add 21748 21749; Mul 1141 611; Add 21750 21751; Sub 871 21752; Mul 1297 21708; Mul 21754 21753; Mul 21708 429;
  Mul 21753 2624; Add 21756 21757; Sub 21755 21758; AndEqz 2710 21759; AndEqz 2711 18270; Mul 418 420;
  AndCond 2577 21760 2712; Add 1488 2595; Sub 871 21761; Add 1488 6207; Sub 871 21763; Mul 1278 21762;
  Mul 21765 21764; Mul 21762 428; Mul 21764 1265; Add 21767 21768; Sub 21766 21769; AndEqz 0 21770; Add 12612 1286;
  Add 21771 9930; Add 21772 4152; Add 21773 4154; Add 21774 6228; Add 21775 6230; Add 21776 6232; Add 21777 9185;
  Mul 981 434; Add 21778 21779; Mul 991 435; Add 21780 21781; Mul 1001 436; Add 21782 21783].

(* L24520-25019 POLY_EXT_DEF.block *)
Definition block_49 : list Step := [
  Mul 1011 437; Add 21784 21785; Mul 1021 438; Add 21786 21787; Mul 1031 439; Add 21788 21789; Mul 1041 440;
  Add 21790 21791; Mul 1051 441; Add 21792 21793; Mul 1061 442; Add 21794 21795; Mul 1071 443; Add 21796 21797;
  Mul 1081 444; Add 21798 21799; Mul 1091 445; Add 21800 21801; Mul 1101 446; Add 21802 21803; Mul 1111 447;
  Add 21804 21805; Mul 1121 448; Add 21806 21807; Mul 1131 449; Add 21808 21809; Mul 1141 458; Add 21810 21811;
  Mul 1151 459; Add 21812 21813; Mul 1161 460; Add 21814 21815; Mul 1171 461; Add 21816 21817; Mul 1181 462;
  Add 21818 21819; Mul 1191 463; Add 21820 21821; Mul 1201 464; Add 21822 21823; Mul 1211 465; Add 21824 21825;
  Sub 871 21826; Add 12673 1286; Add 21828 9930; Add 21829 4152; Add 21830 4154; Add 21831 6228; Add 21832 6230;
  Add 21833 6232; Add 21834 9185; Add 21835 21779; Add 21836 21781; Add 21837 21783; Add 21838 21785;
  Add 21839 21787; Add 21840 21789; Add 21841 21791; Add 21842 21793; Add 21843 21795; Add 21844 21797;
  Add 21845 21799; Add 21846 21801; Add 21847 21803; Add 21848 21805; Add 21849 21807; Add 21850 21809; Mul 1141 474;
  Add 21851 21852; Mul 1151 475; Add 21853 21854; Mul 1161 476; Add 21855 21856; Mul 1171 477; Add 21857 21858;
  Mul 1181 478; Add 21859 21860; Mul 1191 479; Add 21861 21862; Mul 1201 480; Add 21863 21864; Mul 1211 481;
  Add 21865 21866; Sub 871 21867; Mul 1297 21827; Mul 21869 21868; Mul 21827 433; Mul 21868 432; Add 21871 21872;
  Sub 21870 21873; AndEqz 2714 21874; Add 434 435; Add 436 437; Add 8331 21876; Add 9926 21875; Mul 21876 399;
  Add 21879 21878; Mul 21875 399; Add 21881 21877; Add 21878 21882; Add 21877 21880; Add 440 441; Mul 439 402;
  Add 21886 21885; Add 13191 16198; Mul 21885 399; Add 21889 21888; Mul 16198 399; Add 21891 21887; Add 21888 21892;
  Add 21887 21890; Add 21883 21893; Add 21882 21892; Add 21884 21894; Add 21880 21890; Add 444 445; Mul 443 402;
  Add 21900 21899; Mul 445 402; Add 21902 13074; Mul 21899 399; Add 21904 21903; Mul 13074 399; Add 21906 21901;
  Add 21903 21907; Add 21901 21905; Add 21895 21908; Add 21896 21907; Add 21897 21909; Add 21898 21905; Add 446 447;
  Add 448 449; Mul 447 402; Add 21916 21915; Mul 449 402; Add 21918 21914; Mul 21915 399; Add 21920 21919;
  Mul 21914 399; Add 21922 21917; Add 21919 21923; Add 21917 21921; Add 21910 21924; Add 21911 21923;
  Add 21912 21925; Add 21913 21921; Add 450 451; Mul 451 402; Add 21931 12017; Add 1633 21930; Mul 12017 399;
  Add 21934 21933; Mul 21930 399; Add 21936 21932; Add 21933 21937; Add 21932 21935; Add 21926 21938;
  Add 21927 21937; Add 21928 21939; Add 21929 21935; Add 454 455; Add 456 457; Mul 455 402; Add 21946 21945;
  Add 14233 21944; Mul 21945 399; Add 21949 21948; Mul 21944 399; Add 21951 21947; Add 21948 21952; Add 21947 21950;
  Add 21940 21953; Add 21941 21952; Add 21942 21954; Add 21943 21950; Add 21883 21955; Add 21882 21956;
  Add 21884 21957; Add 21880 21958; Add 21893 21955; Add 21892 21956; Add 21894 21957; Add 21890 21958;
  Add 21908 21955; Add 21907 21956; Add 21909 21957; Add 21905 21958; Add 21924 21955; Add 21923 21956;
  Add 21925 21957; Add 21921 21958; Add 21938 21955; Add 21937 21956; Add 21939 21957; Add 21935 21958;
  Add 21953 21955; Add 21952 21956; Add 21954 21957; Add 21950 21958; Add 17390 2595; Add 21983 409; Mul 911 21959;
  Add 21984 21985; Mul 921 21960; Add 21986 21987; Mul 931 21961; Add 21988 21989; Mul 941 21962; Add 21990 21991;
  Mul 951 21963; Add 21992 21993; Mul 961 21964; Add 21994 21995; Mul 971 21965; Add 21996 21997; Mul 981 21966;
  Add 21998 21999; Mul 991 21967; Add 22000 22001; Mul 1001 21968; Add 22002 22003; Mul 1011 21969; Add 22004 22005;
  Mul 1021 21970; Add 22006 22007; Mul 1031 21971; Add 22008 22009; Mul 1041 21972; Add 22010 22011; Mul 1051 21973;
  Add 22012 22013; Mul 1061 21974; Add 22014 22015; Mul 1071 21975; Add 22016 22017; Mul 1081 21976; Add 22018 22019;
  Mul 1091 21977; Add 22020 22021; Mul 1101 21978; Add 22022 22023; Mul 1111 21979; Add 22024 22025; Mul 1121 21980;
  Add 22026 22027; Mul 1131 21981; Add 22028 22029; Mul 1141 21982; Add 22030 22031; Sub 871 22032; Mul 901 408;
  Add 21983 22034; Add 22035 4088; Add 22036 4090; Mul 931 460; Add 22037 22038; Add 22039 7687; Add 22040 7689;
  Add 22041 7691; Add 22042 7693; Mul 981 465; Add 22043 22044; Mul 991 466; Add 22045 22046; Mul 1001 467;
  Add 22047 22048; Mul 1011 468; Add 22049 22050; Mul 1021 469; Add 22051 22052; Mul 1031 470; Add 22053 22054;
  Mul 1041 471; Add 22055 22056; Mul 1051 472; Add 22057 22058; Mul 1061 473; Add 22059 22060; Mul 1071 474;
  Add 22061 22062; Mul 1081 475; Add 22063 22064; Mul 1091 476; Add 22065 22066; Mul 1101 477; Add 22067 22068;
  Mul 1111 478; Add 22069 22070; Mul 1121 479; Add 22071 22072; Mul 1131 480; Add 22073 22074; Mul 1141 481;
  Add 22075 22076; Sub 871 22077; Mul 1391 22033; Mul 22079 22078; Mul 22033 1265; Mul 22078 428; Add 22081 22082;
  Sub 22080 22083; AndEqz 2715 22084; Add 1488 4228; Sub 871 22085; Add 482 410; Mul 891 22087; Add 1488 22088;
  Sub 871 22089; Mul 1411 22086; Mul 22091 22090; Mul 22086 429; Mul 22090 2624; Add 22093 22094; Sub 22092 22095;
  AndEqz 2716 22096; Add 12612 5578; Add 22097 5580; Add 22098 9347; Mul 931 504; Add 22099 22100; Mul 941 505;
  Add 22101 22102; Mul 951 506; Add 22103 22104; Mul 961 507; Add 22105 22106; Add 22107 10256; Mul 981 485;
  Add 22108 22109; Mul 991 486; Add 22110 22111; Mul 1001 487; Add 22112 22113; Mul 1011 488; Add 22114 22115;
  Mul 1021 489; Add 22116 22117; Mul 1031 490; Add 22118 22119; Mul 1041 491; Add 22120 22121; Mul 1051 492;
  Add 22122 22123; Mul 1061 493; Add 22124 22125; Mul 1071 494; Add 22126 22127; Mul 1081 495; Add 22128 22129;
  Mul 1091 496; Add 22130 22131; Mul 1101 497; Add 22132 22133; Mul 1111 498; Add 22134 22135; Mul 1121 499;
  Add 22136 22137; Mul 1131 500; Add 22138 22139; Mul 1141 509; Add 22140 22141; Mul 1151 510; Add 22142 22143;
  Mul 1161 511; Add 22144 22145; Mul 1171 512; Add 22146 22147; Mul 1181 513; Add 22148 22149; Mul 1191 514;
  Add 22150 22151; Mul 1201 515; Add 22152 22153; Mul 1211 516; Add 22154 22155; Sub 871 22156; Add 12673 5578;
  Add 22158 5580; Add 22159 9347; Add 22160 22100; Add 22161 22102; Add 22162 22104; Add 22163 22106;
  Add 22164 10256; Add 22165 22109; Add 22166 22111; Add 22167 22113; Add 22168 22115; Add 22169 22117;
  Add 22170 22119; Add 22171 22121; Add 22172 22123; Add 22173 22125; Add 22174 22127; Add 22175 22129;
  Add 22176 22131; Add 22177 22133; Add 22178 22135; Add 22179 22137; Add 22180 22139; Mul 1141 525; Add 22181 22182;
  Mul 1151 526; Add 22183 22184; Mul 1161 527; Add 22185 22186; Mul 1171 528; Add 22187 22188; Mul 1181 529;
  Add 22189 22190; Mul 1191 530; Add 22191 22192; Mul 1201 531; Add 22193 22194; Mul 1211 532; Add 22195 22196;
  Sub 871 22197; Mul 1430 22157; Mul 22199 22198; Mul 22157 484; Mul 22198 483; Add 22201 22202; Sub 22200 22203;
  AndEqz 2717 22204; Add 485 486; Add 14800 15898; Mul 488 402; Add 22207 22205; Mul 15898 399; Add 22209 22208;
  Mul 22205 399; Add 22211 22206; Add 22208 22212; Add 22206 22210; Add 489 490; Mul 490 402; Add 22216 1737;
  Add 9356 22215; Mul 1737 399; Add 22219 22218; Mul 22215 399; Add 22221 22217; Add 22218 22222; Add 22217 22220;
  Add 22213 22223; Add 22212 22222; Add 22214 22224; Add 22210 22220; Add 493 494; Add 495 496; Add 10189 22230;
  Mul 496 402; Add 22232 22229; Mul 22230 399; Add 22234 22233; Mul 22229 399; Add 22236 22231; Add 22233 22237;
  Add 22231 22235; Add 22225 22238; Add 22226 22237; Add 22227 22239; Add 22228 22235; Add 497 498; Add 499 500;
  Mul 498 402; Add 22246 22245; Mul 500 402; Add 22248 22244; Mul 22245 399; Add 22250 22249; Mul 22244 399;
  Add 22252 22247; Add 22249 22253; Add 22247 22251; Add 22240 22254; Add 22241 22253; Add 22242 22255;
  Add 22243 22251; Add 501 502; Add 503 504; Add 16467 22261; Add 16414 22260; Mul 22261 399; Add 22264 22263;
  Mul 22260 399; Add 22266 22262; Add 22263 22267; Add 22262 22265; Add 22256 22268; Add 22257 22267;
  Add 22258 22269; Add 22259 22265; Add 507 508; Mul 506 402; Add 22275 22274; Mul 508 402; Add 22277 14373;
  Mul 22274 399; Add 22279 22278].

(* L25020-25519 POLY_EXT_DEF.block *)
Definition block_50 : list Step := [
  Mul 14373 399; Add 22281 22276; Add 22278 22282; Add 22276 22280; Add 22270 22283; Add 22271 22282;
  Add 22272 22284; Add 22273 22280; Add 22213 22285; Add 22212 22286; Add 22214 22287; Add 22210 22288;
  Add 22223 22285; Add 22222 22286; Add 22224 22287; Add 22220 22288; Add 22238 22285; Add 22237 22286;
  Add 22239 22287; Add 22235 22288; Add 22254 22285; Add 22253 22286; Add 22255 22287; Add 22251 22288;
  Add 22268 22285; Add 22267 22286; Add 22269 22287; Add 22265 22288; Add 22283 22285; Add 22282 22286;
  Add 22284 22287; Add 22280 22288; Add 17390 4228; Add 22313 409; Mul 911 22289; Add 22314 22315; Mul 921 22290;
  Add 22316 22317; Mul 931 22291; Add 22318 22319; Mul 941 22292; Add 22320 22321; Mul 951 22293; Add 22322 22323;
  Mul 961 22294; Add 22324 22325; Mul 971 22295; Add 22326 22327; Mul 981 22296; Add 22328 22329; Mul 991 22297;
  Add 22330 22331; Mul 1001 22298; Add 22332 22333; Mul 1011 22299; Add 22334 22335; Mul 1021 22300; Add 22336 22337;
  Mul 1031 22301; Add 22338 22339; Mul 1041 22302; Add 22340 22341; Mul 1051 22303; Add 22342 22343; Mul 1061 22304;
  Add 22344 22345; Mul 1071 22305; Add 22346 22347; Mul 1081 22306; Add 22348 22349; Mul 1091 22307; Add 22350 22351;
  Mul 1101 22308; Add 22352 22353; Mul 1111 22309; Add 22354 22355; Mul 1121 22310; Add 22356 22357; Mul 1131 22311;
  Add 22358 22359; Mul 1141 22312; Add 22360 22361; Sub 871 22362; Add 22313 22034; Add 22364 5505; Add 22365 5507;
  Add 22366 8054; Add 22367 14613; Add 22368 14615; Mul 961 514; Add 22369 22370; Add 22371 9467; Add 22372 9469;
  Mul 991 517; Add 22373 22374; Mul 1001 518; Add 22375 22376; Mul 1011 519; Add 22377 22378; Mul 1021 520;
  Add 22379 22380; Mul 1031 521; Add 22381 22382; Mul 1041 522; Add 22383 22384; Mul 1051 523; Add 22385 22386;
  Mul 1061 524; Add 22387 22388; Mul 1071 525; Add 22389 22390; Mul 1081 526; Add 22391 22392; Mul 1091 527;
  Add 22393 22394; Mul 1101 528; Add 22395 22396; Mul 1111 529; Add 22397 22398; Mul 1121 530; Add 22399 22400;
  Mul 1131 531; Add 22401 22402; Mul 1141 532; Add 22403 22404; Sub 871 22405; Mul 1451 22363; Mul 22407 22406;
  Mul 22363 2624; Mul 22406 429; Add 22409 22410; Sub 22408 22411; AndEqz 2718 22412; Add 1488 6764; Sub 871 22413;
  Add 533 410; Mul 891 22415; Add 1488 22416; Sub 871 22417; Mul 1479 22414; Mul 22419 22418; Mul 22414 430;
  Mul 22418 4400; Add 22421 22422; Sub 22420 22423; AndEqz 2719 22424; Add 12612 4865; Add 22425 4867;
  Add 22426 10488; Mul 931 555; Add 22427 22428; Mul 941 556; Add 22429 22430; Mul 951 557; Add 22431 22432;
  Mul 961 558; Add 22433 22434; Mul 971 559; Add 22435 22436; Mul 981 536; Add 22437 22438; Mul 991 537;
  Add 22439 22440; Mul 1001 538; Add 22441 22442; Mul 1011 539; Add 22443 22444; Mul 1021 540; Add 22445 22446;
  Mul 1031 541; Add 22447 22448; Mul 1041 542; Add 22449 22450; Mul 1051 543; Add 22451 22452; Mul 1061 544;
  Add 22453 22454; Mul 1071 545; Add 22455 22456; Mul 1081 546; Add 22457 22458; Mul 1091 547; Add 22459 22460;
  Mul 1101 548; Add 22461 22462; Mul 1111 549; Add 22463 22464; Mul 1121 550; Add 22465 22466; Mul 1131 551;
  Add 22467 22468; Mul 1141 560; Add 22469 22470; Mul 1151 561; Add 22471 22472; Mul 1161 562; Add 22473 22474;
  Mul 1171 563; Add 22475 22476; Mul 1181 564; Add 22477 22478; Mul 1191 565; Add 22479 22480; Mul 1201 566;
  Add 22481 22482; Mul 1211 567; Add 22483 22484; Sub 871 22485; Add 12673 4865; Add 22487 4867; Add 22488 10488;
  Add 22489 22428; Add 22490 22430; Add 22491 22432; Add 22492 22434; Add 22493 22436; Add 22494 22438;
  Add 22495 22440; Add 22496 22442; Add 22497 22444; Add 22498 22446; Add 22499 22448; Add 22500 22450;
  Add 22501 22452; Add 22502 22454; Add 22503 22456; Add 22504 22458; Add 22505 22460; Add 22506 22462;
  Add 22507 22464; Add 22508 22466; Add 22509 22468; Mul 1141 576; Add 22510 22511; Mul 1151 577; Add 22512 22513;
  Mul 1161 578; Add 22514 22515; Mul 1171 579; Add 22516 22517; Mul 1181 580; Add 22518 22519; Mul 1191 581;
  Add 22520 22521; Mul 1201 582; Add 22522 22523; Mul 1211 583; Add 22524 22525; Sub 871 22526; Mul 1499 22486;
  Mul 22528 22527; Mul 22486 535; Mul 22527 534; Add 22530 22531; Sub 22529 22532; AndEqz 2720 22533; Add 536 537;
  Add 538 539; Add 2927 22535; Mul 539 402; Add 22537 22534; Mul 22535 399; Add 22539 22538; Mul 22534 399;
  Add 22541 22536; Add 22538 22542; Add 22536 22540; Add 540 541; Add 542 543; Add 4687 22546; Mul 543 402;
  Add 22548 22545; Mul 22546 399; Add 22550 22549; Mul 22545 399; Add 22552 22547; Add 22549 22553; Add 22547 22551;
  Add 22543 22554; Add 22542 22553; Add 22544 22555; Add 22540 22551; Add 544 545; Add 546 547; Add 3027 22561;
  Add 14384 22560; Mul 22561 399; Add 22564 22563; Mul 22560 399; Add 22566 22562; Add 22563 22567; Add 22562 22565;
  Add 22556 22568; Add 22557 22567; Add 22558 22569; Add 22559 22565; Add 548 549; Add 550 551; Add 3001 22575;
  Add 5771 22574; Mul 22575 399; Add 22578 22577; Mul 22574 399; Add 22580 22576; Add 22577 22581; Add 22576 22579;
  Add 22570 22582; Add 22571 22581; Add 22572 22583; Add 22573 22579; Add 552 553; Add 554 555; Add 2958 22589;
  Mul 555 402; Add 22591 22588; Mul 22589 399; Add 22593 22592; Mul 22588 399; Add 22595 22590; Add 22592 22596;
  Add 22590 22594; Add 22584 22597; Add 22585 22596; Add 22586 22598; Add 22587 22594; Add 556 557; Add 558 559;
  Add 3005 22604; Mul 559 402; Add 22606 22603; Mul 22604 399; Add 22608 22607; Mul 22603 399; Add 22610 22605;
  Add 22607 22611; Add 22605 22609; Add 22599 22612; Add 22600 22611; Add 22601 22613; Add 22602 22609;
  Add 22543 22614; Add 22542 22615; Add 22544 22616; Add 22540 22617; Add 22554 22614; Add 22553 22615;
  Add 22555 22616; Add 22551 22617; Add 22568 22614; Add 22567 22615; Add 22569 22616; Add 22565 22617;
  Add 22582 22614; Add 22581 22615; Add 22583 22616; Add 22579 22617; Add 22597 22614; Add 22596 22615;
  Add 22598 22616; Add 22594 22617; Add 22612 22614; Add 22611 22615; Add 22613 22616; Add 22609 22617;
  Add 17390 6764; Add 22642 409; Mul 911 22618; Add 22643 22644; Mul 921 22619; Add 22645 22646; Mul 931 22620;
  Add 22647 22648; Mul 941 22621; Add 22649 22650; Mul 951 22622; Add 22651 22652; Mul 961 22623; Add 22653 22654;
  Mul 971 22624; Add 22655 22656; Mul 981 22625; Add 22657 22658; Mul 991 22626; Add 22659 22660; Mul 1001 22627;
  Add 22661 22662; Mul 1011 22628; Add 22663 22664; Mul 1021 22629; Add 22665 22666; Mul 1031 22630; Add 22667 22668;
  Mul 1041 22631; Add 22669 22670; Mul 1051 22632; Add 22671 22672; Mul 1061 22633; Add 22673 22674; Mul 1071 22634;
  Add 22675 22676; Mul 1081 22635; Add 22677 22678; Mul 1091 22636; Add 22679 22680; Mul 1101 22637; Add 22681 22682;
  Mul 1111 22638; Add 22683 22684; Mul 1121 22639; Add 22685 22686; Mul 1131 22640; Add 22687 22688; Mul 1141 22641;
  Add 22689 22690; Sub 871 22691; Add 22642 22034; Add 22693 8132; Add 22694 8134; Mul 931 562; Add 22695 22696;
  Mul 941 563; Add 22697 22698; Mul 951 564; Add 22699 22700; Mul 961 565; Add 22701 22702; Mul 971 566;
  Add 22703 22704; Mul 981 567; Add 22705 22706; Mul 991 568; Add 22707 22708; Mul 1001 569; Add 22709 22710;
  Mul 1011 570; Add 22711 22712; Mul 1021 571; Add 22713 22714; Mul 1031 572; Add 22715 22716; Mul 1041 573;
  Add 22717 22718; Mul 1051 574; Add 22719 22720; Mul 1061 575; Add 22721 22722; Mul 1071 576; Add 22723 22724;
  Mul 1081 577; Add 22725 22726; Mul 1091 578; Add 22727 22728; Mul 1101 579; Add 22729 22730; Mul 1111 580;
  Add 22731 22732; Mul 1121 581; Add 22733 22734; Mul 1131 582; Add 22735 22736; Mul 1141 583; Add 22737 22738;
  Sub 871 22739; Mul 2667 22692; Mul 22741 22740; Mul 22692 4400; Mul 22740 430; Add 22743 22744; Sub 22742 22745;
  AndEqz 2721 22746; AndEqz 2722 12058; Mul 418 421; AndCond 2713 22747 2723; Add 1347 3767; Add 22748 3769;
  Add 22749 3771; Add 22750 3773; Add 22751 7662; Add 22752 19926; Add 22753 19928; Add 22754 19930; Add 22755 19932;
  Sub 871 22756; Mul 891 3935; Add 1347 22758; Add 22759 1525; Add 22760 3822; Add 22761 3824; Add 22762 7033;
  Add 22763 17397; Add 22764 17399; Add 22765 17401; Add 22766 17403; Sub 871 22767; Mul 1278 22757; Mul 22769 22768;
  Mul 22757 428; Mul 22768 1265; Add 22771 22772; Sub 22770 22773].

(* L25520-26019 POLY_EXT_DEF.block *)
Definition block_51 : list Step := [
  AndEqz 0 22774; Mul 891 3936; Add 1347 22775; Add 22776 5204; Add 22777 5206; Add 22778 5208; Add 22779 13424;
  Add 22780 4174; Add 22781 4176; Mul 961 452; Add 22782 22783; Mul 971 453; Add 22784 22785; Sub 871 22786;
  Add 12612 409; Add 22788 409; Add 22789 409; Add 22790 409; Add 22791 409; Add 22792 409; Add 22793 409;
  Add 22794 409; Add 22795 17405; Add 22796 17407; Add 22797 17409; Add 22798 17411; Add 22799 17413;
  Add 22800 17415; Add 22801 17417; Add 22802 17419; Mul 1061 438; Add 22803 22804; Mul 1071 439; Add 22805 22806;
  Mul 1081 440; Add 22807 22808; Mul 1091 441; Add 22809 22810; Mul 1101 442; Add 22811 22812; Mul 1111 443;
  Add 22813 22814; Mul 1121 444; Add 22815 22816; Mul 1131 445; Add 22817 22818; Mul 1141 430; Add 22819 22820;
  Mul 1151 431; Add 22821 22822; Mul 1161 432; Add 22823 22824; Mul 1171 433; Add 22825 22826; Mul 1181 434;
  Add 22827 22828; Mul 1191 435; Add 22829 22830; Mul 1201 436; Add 22831 22832; Mul 1211 437; Add 22833 22834;
  Sub 871 22835; Mul 1297 22787; Mul 22837 22836; Mul 22787 1265; Mul 22836 428; Add 22839 22840; Sub 22838 22841;
  AndEqz 2725 22842; AndEqz 2726 18270; Mul 418 422; AndCond 2724 22843 2727; Sub 44 433; AndEqz 0 1676;
  Mul 22844 467; Sub 22845 6169; AndEqz 2729 22846; Mul 466 22844; AndEqz 2730 22847; Mul 466 467; AndEqz 2731 22848;
  Add 12731 409; Add 22849 6027; Add 22850 6029; Sub 871 22851; Add 1554 7672; Add 22853 409; Add 22854 6035;
  Add 22855 6037; Sub 871 22856; Mul 1278 22852; Mul 22858 22857; Mul 22852 428; Mul 22857 428; Add 22860 22861;
  Sub 22859 22862; AndEqz 2732 22863; Add 432 402; Mul 891 22864; Add 1554 22865; Add 22866 409; Add 22867 11356;
  Add 22868 11358; Sub 871 22869; Add 432 372; Mul 891 22871; Add 1554 22872; Add 22873 409; Add 22874 4074;
  Add 22875 4076; Sub 871 22876; Mul 1297 22870; Mul 22878 22877; Mul 22870 428; Mul 22877 428; Add 22880 22881;
  Sub 22879 22882; AndEqz 2733 22883; Add 432 399; Mul 891 22884; Add 1554 22885; Add 22886 409; Add 22887 4088;
  Add 22888 4090; Sub 871 22889; Add 432 376; Mul 891 22891; Add 1554 22892; Add 22893 409; Add 22894 12974;
  Add 22895 12976; Sub 871 22896; Mul 1391 22890; Mul 22898 22897; Mul 22890 428; Mul 22897 428; Add 22900 22901;
  Sub 22899 22902; AndEqz 2734 22903; Add 432 395; Mul 891 22904; Add 1554 22905; Add 22906 409; Add 22907 12986;
  Add 22908 8491; Sub 871 22909; Add 432 400; Mul 891 22911; Add 1554 22912; Add 22913 409; Mul 911 464;
  Add 22914 22915; Mul 921 465; Add 22916 22917; Sub 871 22918; Mul 1411 22910; Mul 22920 22919; Mul 22910 428;
  Mul 22919 428; Add 22922 22923; Sub 22921 22924; AndEqz 2735 22925; Mul 881 327; Add 22926 409; Add 22927 7654;
  Add 22928 10889; Add 22929 10891; Add 22930 7660; Add 22931 8379; Mul 941 437; Add 22932 22933; Mul 951 438;
  Add 22934 22935; Mul 961 439; Add 22936 22937; Mul 971 440; Add 22938 22939; Mul 981 441; Add 22940 22941;
  Sub 871 22942; Add 432 408; Mul 891 22944; Add 22927 22945; Mul 901 4129; Add 22946 22947; Add 22948 9955;
  Add 22949 9979; Add 22950 9981; Add 22951 9983; Add 22952 9985; Mul 961 447; Add 22953 22954; Mul 971 448;
  Add 22955 22956; Mul 981 449; Add 22957 22958; Sub 871 22959; Mul 1430 22943; Mul 22961 22960; Mul 22943 1265;
  Mul 22960 428; Add 22963 22964; Sub 22962 22965; AndEqz 2736 22966; Add 12611 6915; Add 22967 2597; Add 22968 2599;
  Add 22969 2601; Add 22970 2603; Add 22971 14364; Add 22972 14366; Mul 961 440; Add 22973 22974; Mul 971 441;
  Add 22975 22976; Mul 981 450; Add 22977 22978; Mul 991 451; Add 22979 22980; Mul 1001 452; Add 22981 22982;
  Mul 1011 453; Add 22983 22984; Mul 1021 454; Add 22985 22986; Mul 1031 455; Add 22987 22988; Mul 1041 456;
  Add 22989 22990; Mul 1051 457; Add 22991 22992; Mul 1061 458; Add 22993 22994; Mul 1071 459; Add 22995 22996;
  Mul 1081 460; Add 22997 22998; Mul 1091 461; Add 22999 23000; Mul 1101 462; Add 23001 23002; Mul 1111 463;
  Add 23003 23004; Mul 1121 464; Add 23005 23006; Mul 1131 465; Add 23007 23008; Mul 1141 442; Add 23009 23010;
  Mul 1151 443; Add 23011 23012; Mul 1161 444; Add 23013 23014; Mul 1171 445; Add 23015 23016; Mul 1181 446;
  Add 23017 23018; Mul 1191 447; Add 23019 23020; Mul 1201 448; Add 23021 23022; Mul 1211 449; Add 23023 23024;
  Sub 871 23025; Sub 44 469; AndEqz 2737 1753; Mul 23027 503; Sub 23028 8568; AndEqz 2738 23029; Mul 502 23027;
  AndEqz 2739 23030; AndEqz 2740 8571; Mul 891 468; Add 1554 23031; Add 23032 409; Add 23033 7767; Add 23034 5420;
  Sub 871 23035; Mul 1451 23026; Mul 23037 23036; Mul 23026 429; Mul 23036 1265; Add 23039 23040; Sub 23038 23041;
  AndEqz 2741 23042; Add 468 410; Mul 891 23043; Add 1554 23044; Add 23045 409; Add 23046 16380; Mul 921 489;
  Add 23047 23048; Sub 871 23049; Add 468 402; Mul 891 23051; Add 1554 23052; Add 23053 409; Add 23054 8597;
  Add 23055 8622; Sub 871 23056; Mul 1479 23050; Mul 23058 23057; Mul 23050 429; Mul 23057 429; Add 23060 23061;
  Sub 23059 23062; AndEqz 2742 23063; Add 468 372; Mul 891 23064; Add 1554 23065; Add 23066 409; Add 23067 4278;
  Add 23068 4280; Sub 871 23069; Add 468 399; Mul 891 23071; Add 1554 23072; Add 23073 409; Add 23074 4292;
  Add 23075 4294; Sub 871 23076; Mul 1499 23070; Mul 23078 23077; Mul 23070 429; Mul 23077 429; Add 23080 23081;
  Sub 23079 23082; AndEqz 2743 23083; Add 468 376; Mul 891 23084; Add 1554 23085; Add 23086 409; Add 23087 13346;
  Add 23088 10225; Sub 871 23089; Add 468 395; Mul 891 23091; Add 1554 23092; Add 23093 409; Add 23094 6289;
  Add 23095 6291; Sub 871 23096; Mul 2667 23090; Mul 23098 23097; Mul 23090 429; Mul 23097 429; Add 23100 23101;
  Sub 23099 23102; AndEqz 2744 23103; Add 468 400; Mul 891 23104; Add 1554 23105; Add 23106 409; Add 23107 5562;
  Add 23108 5615; Sub 871 23109; Add 22927 23031; Add 23111 7674; Add 23112 6930; Add 23113 6932; Add 23114 7858;
  Mul 941 473; Add 23115 23116; Mul 951 474; Add 23117 23118; Mul 961 475; Add 23119 23120; Mul 971 476;
  Add 23121 23122; Mul 981 477; Add 23123 23124; Sub 871 23125; Mul 2691 23110; Mul 23127 23126; Mul 23110 429;
  Mul 23126 429; Add 23129 23130; Sub 23128 23131; AndEqz 2745 23132; Add 468 408; Mul 891 23133; Add 22927 23134;
  Mul 901 4335; Add 23135 23136; Add 23137 5333; Add 23138 5335; Mul 931 480; Add 23139 23140; Mul 941 481;
  Add 23141 23142; Add 23143 13556; Add 23144 9324; Mul 971 484; Add 23145 23146; Add 23147 22109; Sub 871 23148;
  Mul 891 502; Add 12611 23150; Add 23151 5401; Add 23152 5403; Add 23153 4330; Mul 931 473; Add 23154 23155;
  Add 23156 15605; Mul 951 475; Add 23157 23158; Add 23159 8522; Mul 971 477; Add 23160 23161; Mul 981 486;
  Add 23162 23163; Mul 991 487; Add 23164 23165; Mul 1001 488; Add 23166 23167; Mul 1011 489; Add 23168 23169;
  Mul 1021 490; Add 23170 23171; Mul 1031 491; Add 23172 23173; Mul 1041 492; Add 23174 23175; Mul 1051 493;
  Add 23176 23177; Mul 1061 494; Add 23178 23179; Mul 1071 495; Add 23180 23181; Mul 1081 496; Add 23182 23183;
  Mul 1091 497; Add 23184 23185; Mul 1101 498; Add 23186 23187; Mul 1111 499; Add 23188 23189; Mul 1121 500;
  Add 23190 23191; Mul 1131 501; Add 23192 23193; Mul 1141 478; Add 23194 23195; Mul 1151 479; Add 23196 23197;
  Mul 1161 480; Add 23198 23199; Mul 1171 481; Add 23200 23201; Mul 1181 482; Add 23202 23203; Mul 1191 483;
  Add 23204 23205; Mul 1201 484; Add 23206 23207; Mul 1211 485; Add 23208 23209; Sub 871 23210; Mul 2717 23149;
  Mul 23212 23211; Mul 23149 2624; Mul 23211 2624; Add 23214 23215; Sub 23213 23216; AndEqz 2746 23217; Sub 44 505;
  AndEqz 2747 2799; Mul 23218 539; Sub 23219 7371; AndEqz 2748 23220; Mul 538 23218; AndEqz 2749 23221; Mul 538 539;
  AndEqz 2750 23222; Add 10183 409; Add 23223 2657; Add 23224 2659; Sub 871 23225; Add 504 410; Mul 891 23227;
  Add 1554 23228; Add 23229 409; Add 23230 8644; Add 23231 8646; Sub 871 23232; Mul 2742 23226; Mul 23234 23233;
  Mul 23226 430; Mul 23233 430; Add 23236 23237; Sub 23235 23238; AndEqz 2751 23239; Add 504 402; Mul 891 23240;
  Add 1554 23241; Add 23242 409; Add 23243 2703; Add 23244 2705; Sub 871 23245].

(* L26020-26519 POLY_EXT_DEF.block *)
Definition block_52 : list Step := [
  Add 504 372; Mul 891 23247; Add 1554 23248; Add 23249 409; Add 23250 4510; Add 23251 4512; Sub 871 23252;
  Mul 2776 23246; Mul 23254 23253; Mul 23246 430; Mul 23253 430; Add 23256 23257; Sub 23255 23258; AndEqz 2752 23259;
  Add 504 399; Mul 891 23260; Add 1554 23261; Add 23262 409; Add 23263 4531; Add 23264 4533; Sub 871 23265;
  Add 504 376; Mul 891 23267; Add 1554 23268; Add 23269 409; Mul 911 532; Add 23270 23271; Add 23272 7508;
  Sub 871 23273; Mul 3756 23266; Mul 23275 23274; Mul 23266 430; Mul 23274 430; Add 23277 23278; Sub 23276 23279;
  AndEqz 2753 23280; Add 504 395; Mul 891 23281; Add 1554 23282; Add 23283 409; Mul 911 534; Add 23284 23285;
  Add 23286 6737; Sub 871 23287; Add 504 400; Mul 891 23289; Add 1554 23290; Add 23291 409; Add 23292 5647;
  Add 23293 5649; Sub 871 23294; Mul 4420 23288; Mul 23296 23295; Mul 23288 430; Mul 23295 430; Add 23298 23299;
  Sub 23297 23300; AndEqz 2754 23301; Add 22927 10182; Add 23302 5586; Add 23303 5588; Add 23304 10186; Mul 931 508;
  Add 23305 23306; Mul 941 509; Add 23307 23308; Mul 951 510; Add 23309 23310; Mul 961 511; Add 23311 23312;
  Mul 971 512; Add 23313 23314; Mul 981 513; Add 23315 23316; Sub 871 23317; Add 504 408; Mul 891 23319;
  Add 22927 23320; Mul 901 4583; Add 23321 23322; Mul 911 514; Add 23323 23324; Mul 921 515; Add 23325 23326;
  Mul 931 516; Add 23327 23328; Mul 941 517; Add 23329 23330; Mul 951 518; Add 23331 23332; Add 23333 15980;
  Add 23334 15982; Mul 981 521; Add 23335 23336; Sub 871 23337; Mul 4444 23318; Mul 23339 23338; Mul 23318 4400;
  Mul 23338 430; Add 23341 23342; Sub 23340 23343; AndEqz 2755 23344; Add 12611 5669; Add 23345 7127;
  Add 23346 11668; Add 23347 4578; Add 23348 13683; Add 23349 13685; Mul 951 511; Add 23350 23351; Add 23352 9465;
  Mul 971 513; Add 23353 23354; Mul 981 522; Add 23355 23356; Mul 991 523; Add 23357 23358; Mul 1001 524;
  Add 23359 23360; Mul 1011 525; Add 23361 23362; Mul 1021 526; Add 23363 23364; Mul 1031 527; Add 23365 23366;
  Mul 1041 528; Add 23367 23368; Mul 1051 529; Add 23369 23370; Mul 1061 530; Add 23371 23372; Mul 1071 531;
  Add 23373 23374; Mul 1081 532; Add 23375 23376; Mul 1091 533; Add 23377 23378; Mul 1101 534; Add 23379 23380;
  Mul 1111 535; Add 23381 23382; Mul 1121 536; Add 23383 23384; Mul 1131 537; Add 23385 23386; Mul 1141 514;
  Add 23387 23388; Mul 1151 515; Add 23389 23390; Mul 1161 516; Add 23391 23392; Mul 1171 517; Add 23393 23394;
  Mul 1181 518; Add 23395 23396; Mul 1191 519; Add 23397 23398; Mul 1201 520; Add 23399 23400; Mul 1211 521;
  Add 23401 23402; Sub 871 23403; Sub 44 541; AndEqz 2756 2869; Mul 23405 575; Sub 23406 8229; AndEqz 2757 23407;
  Mul 574 23405; AndEqz 2758 23408; Mul 574 575; AndEqz 2759 23409; Add 6543 409; Add 23410 8802; Add 23411 15144;
  Sub 871 23412; Mul 4469 23404; Mul 23414 23413; Mul 23404 431; Mul 23413 4400; Add 23416 23417; Sub 23415 23418;
  AndEqz 2760 23419; Add 540 410; Mul 891 23420; Add 1554 23421; Add 23422 409; Add 23423 8132; Add 23424 8134;
  Sub 871 23425; Add 540 402; Mul 891 23427; Add 1554 23428; Add 23429 409; Add 23430 5897; Add 23431 5949;
  Sub 871 23432; Mul 4520 23426; Mul 23434 23433; Mul 23426 431; Mul 23433 431; Add 23436 23437; Sub 23435 23438;
  AndEqz 2761 23439; Add 540 372; Mul 891 23440; Add 1554 23441; Add 23442 409; Add 23443 4768; Add 23444 4770;
  Sub 871 23445; Add 540 399; Mul 891 23447; Add 1554 23448; Add 23449 409; Add 23450 4789; Add 23451 4791;
  Sub 871 23452; Mul 4546 23446; Mul 23454 23453; Mul 23446 431; Mul 23453 431; Add 23456 23457; Sub 23455 23458;
  AndEqz 2762 23459; Add 540 376; Mul 891 23460; Add 1554 23461; Add 23462 409; Add 23463 5921; Add 23464 9667;
  Sub 871 23465; Add 540 395; Mul 891 23467; Add 1554 23468; Add 23469 409; Mul 911 570; Add 23470 23471;
  Mul 921 571; Add 23472 23473; Sub 871 23474; Mul 4598 23466; Mul 23476 23475; Mul 23466 431; Mul 23475 431;
  Add 23478 23479; Sub 23477 23480; AndEqz 2763 23481; Add 540 400; Mul 891 23482; Add 1554 23483; Add 23484 409;
  Add 23485 8845; Add 23486 8847; Sub 871 23487; Add 22927 6542; Add 23489 6544; Add 23490 5687; Add 23491 5689;
  Mul 931 544; Add 23492 23493; Mul 941 545; Add 23494 23495; Mul 951 546; Add 23496 23497; Mul 961 547;
  Add 23498 23499; Mul 971 548; Add 23500 23501; Mul 981 549; Add 23502 23503; Sub 871 23504; Mul 4651 23488;
  Mul 23506 23505; Mul 23488 431; Mul 23505 431; Add 23508 23509; Sub 23507 23510; AndEqz 2764 23511; Add 540 408;
  Mul 891 23512; Add 22927 23513; Mul 901 4840; Add 23514 23515; Add 23516 12615; Add 23517 12617; Add 23518 10490;
  Add 23519 5762; Add 23520 5764; Add 23521 5766; Add 23522 5768; Add 23523 12624; Sub 871 23524; Mul 891 574;
  Add 12611 23526; Add 23527 11790; Add 23528 11792; Add 23529 4835; Add 23530 16596; Mul 941 546; Add 23531 23532;
  Mul 951 547; Add 23533 23534; Add 23535 10420; Add 23536 5789; Mul 981 558; Add 23537 23538; Mul 991 559;
  Add 23539 23540; Mul 1001 560; Add 23541 23542; Mul 1011 561; Add 23543 23544; Mul 1021 562; Add 23545 23546;
  Mul 1031 563; Add 23547 23548; Mul 1041 564; Add 23549 23550; Mul 1051 565; Add 23551 23552; Mul 1061 566;
  Add 23553 23554; Mul 1071 567; Add 23555 23556; Mul 1081 568; Add 23557 23558; Mul 1091 569; Add 23559 23560;
  Mul 1101 570; Add 23561 23562; Mul 1111 571; Add 23563 23564; Mul 1121 572; Add 23565 23566; Mul 1131 573;
  Add 23567 23568; Mul 1141 550; Add 23569 23570; Mul 1151 551; Add 23571 23572; Mul 1161 552; Add 23573 23574;
  Mul 1171 553; Add 23575 23576; Mul 1181 554; Add 23577 23578; Mul 1191 555; Add 23579 23580; Mul 1201 556;
  Add 23581 23582; Mul 1211 557; Add 23583 23584; Sub 871 23585; Mul 4679 23525; Mul 23587 23586; Mul 23525 4661;
  Mul 23586 4661; Add 23589 23590; Sub 23588 23591; AndEqz 2765 23592; Add 1518 4686; Sub 1512 23593;
  AndEqz 2766 23594; Mul 418 423; AndCond 2728 23595 2767; Mul 429 43; Add 23596 42; Mul 891 23597; Add 1347 23598;
  Add 23599 3769; Add 23600 3771; Add 23601 3773; Add 23602 7662; Add 23603 19926; Add 23604 19928; Add 23605 19930;
  Add 23606 19932; Sub 871 23607; Add 22927 3767; Add 23609 409; Add 23610 409; Add 23611 409; Add 23612 409;
  Add 23613 409; Add 23614 409; Add 23615 409; Add 23616 409; Add 23617 409; Sub 871 23618; Mul 1278 23608;
  Mul 23620 23619; Mul 23608 1265; Mul 23619 1265; Add 23622 23623; Sub 23621 23624; AndEqz 0 23625; Add 429 403;
  Mul 891 23626; Add 22927 23627; Mul 901 406; Add 23628 23629; Add 23630 1351; Add 23631 1353; Add 23632 1355;
  Add 23633 1357; Add 23634 1359; Add 23635 1361; Add 23636 1363; Mul 981 437; Add 23637 23638; Sub 871 23639;
  Mul 1297 23640; Mul 23641 331; Sub 23642 12823; AndEqz 2769 23643; AndEqz 2770 18270; Mul 418 424;
  AndCond 2768 23644 2771; Add 1367 3767; Add 23645 3769; Add 23646 3771; Add 23647 3773; Add 23648 7662;
  Add 23649 19926; Add 23650 19928; Add 23651 19930; Add 23652 19932; Sub 871 23653; Add 1367 22758; Add 23655 1525;
  Add 23656 3822; Add 23657 3824; Add 23658 7033; Add 23659 17397; Add 23660 17399; Add 23661 17401; Add 23662 17403;
  Sub 871 23663; Mul 1278 23654; Mul 23665 23664; Mul 23654 1265; Mul 23664 428; Add 23667 23668; Sub 23666 23669;
  AndEqz 0 23670; Add 1367 22775; Add 23671 5204; Add 23672 5206; Add 23673 5208; Add 23674 13424; Add 23675 4174;
  Add 23676 4176; Add 23677 22783; Add 23678 22785; Sub 871 23679; Mul 1297 23680; Mul 23681 22836; Mul 23680 1265;
  Mul 22836 1265; Add 23683 23684; Sub 23682 23685; AndEqz 2773 23686; AndEqz 2774 18270; Mul 418 425;
  AndCond 2772 23687 2775; AndEqz 0 1692; Mul 22844 475; Sub 23688 16325; AndEqz 2777 23689; Mul 474 22844;
  AndEqz 2778 23690; Mul 474 475; AndEqz 2779 23691; Add 12731 10752; Add 23692 6027; Add 23693 6029; Sub 871 23694;
  Add 22853 6917; Add 23696 6035; Add 23697 6037; Sub 871 23698; Mul 1278 23695; Mul 23700 23699; Mul 23695 1265;
  Mul 23699 1265; Add 23702 23703; Sub 23701 23704; AndEqz 2780 23705; Add 22866 5389; Add 23706 11356;
  Add 23707 11358; Sub 871 23708; Add 22873 7674; Add 23710 4074; Add 23711 4076; Sub 871 23712; Mul 1297 23709;
  Mul 23714 23713; Mul 23709 1265; Mul 23713 1265].

(* L26520-27019 POLY_EXT_DEF.block *)
Definition block_53 : list Step := [
  Add 23716 23717; Sub 23715 23718; AndEqz 2781 23719; Add 22886 5401; Add 23720 4088; Add 23721 4090; Sub 871 23722;
  Add 22893 8427; Add 23724 12974; Add 23725 12976; Sub 871 23726; Mul 1391 23723; Mul 23728 23727; Mul 23723 1265;
  Mul 23727 1265; Add 23730 23731; Sub 23729 23732; AndEqz 2782 23733; Add 22906 9204; Add 23734 12986;
  Add 23735 8491; Sub 871 23736; Add 22913 4326; Add 23738 22915; Add 23739 22917; Sub 871 23740; Mul 1411 23737;
  Mul 23742 23741; Mul 23737 1265; Mul 23741 1265; Add 23744 23745; Sub 23743 23746; AndEqz 2783 23747; Mul 881 361;
  Add 23748 409; Add 23749 7654; Add 23750 10889; Add 23751 10891; Add 23752 7660; Add 23753 8379; Add 23754 22933;
  Add 23755 22935; Add 23756 22937; Add 23757 22939; Add 23758 22941; Sub 871 23759; Add 23749 22945;
  Add 23761 22947; Add 23762 9955; Add 23763 9979; Add 23764 9981; Add 23765 9983; Add 23766 9985; Add 23767 22954;
  Add 23768 22956; Add 23769 22958; Sub 871 23770; Mul 1430 23760; Mul 23772 23771; Mul 23760 428; Mul 23771 1265;
  Add 23774 23775; Sub 23773 23776; AndEqz 2784 23777; Mul 891 474; Add 12611 23778; Add 23779 2597; Add 23780 2599;
  Add 23781 2601; Add 23782 2603; Add 23783 14364; Add 23784 14366; Add 23785 22974; Add 23786 22976;
  Add 23787 22978; Add 23788 22980; Add 23789 22982; Add 23790 22984; Add 23791 22986; Add 23792 22988;
  Add 23793 22990; Add 23794 22992; Add 23795 22994; Add 23796 22996; Add 23797 22998; Add 23798 23000;
  Add 23799 23002; Add 23800 23004; Add 23801 23006; Add 23802 23008; Add 23803 23010; Add 23804 23012;
  Add 23805 23014; Add 23806 23016; Add 23807 23018; Add 23808 23020; Add 23809 23022; Add 23810 23024;
  Sub 871 23811; Sub 44 477; AndEqz 2785 2637; Mul 23813 519; Sub 23814 2731; AndEqz 2786 23815; Mul 518 23813;
  AndEqz 2787 23816; Mul 518 519; AndEqz 2788 23817; Add 5330 7151; Add 23818 4292; Add 23819 4294; Sub 871 23820;
  Mul 1451 23812; Mul 23822 23821; Mul 23812 2624; Mul 23821 1265; Add 23824 23825; Sub 23823 23826;
  AndEqz 2789 23827; Add 476 410; Mul 891 23828; Add 1554 23829; Add 23830 4586; Add 23831 13346; Add 23832 10225;
  Sub 871 23833; Add 476 402; Mul 891 23835; Add 1554 23836; Add 23837 3730; Add 23838 6289; Add 23839 6291;
  Sub 871 23840; Mul 1479 23834; Mul 23842 23841; Mul 23834 2624; Mul 23841 2624; Add 23844 23845; Sub 23843 23846;
  AndEqz 2790 23847; Add 476 372; Mul 891 23848; Add 1554 23849; Add 23850 6352; Add 23851 5562; Add 23852 5615;
  Sub 871 23853; Add 476 399; Mul 891 23855; Add 1554 23856; Add 23857 8048; Add 23858 5580; Add 23859 9347;
  Sub 871 23860; Mul 1499 23854; Mul 23862 23861; Mul 23854 2624; Mul 23861 2624; Add 23864 23865; Sub 23863 23866;
  AndEqz 2791 23867; Add 476 376; Mul 891 23868; Add 1554 23869; Add 23870 4408; Mul 911 504; Add 23871 23872;
  Mul 921 505; Add 23873 23874; Sub 871 23875; Add 476 395; Mul 891 23877; Add 1554 23878; Add 23879 2625;
  Add 23880 5588; Add 23881 10186; Sub 871 23882; Mul 2667 23876; Mul 23884 23883; Mul 23876 2624; Mul 23883 2624;
  Add 23886 23887; Sub 23885 23888; AndEqz 2792 23889; Add 476 400; Mul 891 23890; Add 1554 23891; Add 23892 9411;
  Add 23893 8607; Add 23894 9384; Sub 871 23895; Add 23749 5329; Add 23897 5331; Add 23898 5333; Add 23899 5335;
  Add 23900 23140; Add 23901 23142; Add 23902 13556; Add 23903 9324; Add 23904 23146; Add 23905 22109; Sub 871 23906;
  Mul 2691 23896; Mul 23908 23907; Mul 23896 2624; Mul 23907 2624; Add 23910 23911; Sub 23909 23912;
  AndEqz 2793 23913; Add 476 408; Add 477 410; Mul 891 23914; Add 23749 23916; Mul 901 23915; Add 23917 23918;
  Add 23919 7767; Add 23920 5420; Add 23921 5422; Add 23922 16384; Add 23923 16386; Add 23924 10163; Mul 971 492;
  Add 23925 23926; Mul 981 493; Add 23927 23928; Sub 871 23929; Add 12611 4452; Add 23931 6150; Add 23932 9242;
  Add 23933 9244; Mul 931 481; Add 23934 23935; Add 23936 5445; Add 23937 5447; Add 23938 5449; Mul 971 485;
  Add 23939 23940; Add 23941 7911; Add 23942 17451; Add 23943 17453; Add 23944 17455; Add 23945 17457;
  Add 23946 17459; Add 23947 17461; Add 23948 17463; Add 23949 17465; Add 23950 17467; Add 23951 17469;
  Add 23952 17471; Add 23953 17473; Add 23954 17475; Add 23955 17477; Add 23956 17479; Mul 1141 486; Add 23957 23958;
  Mul 1151 487; Add 23959 23960; Mul 1161 488; Add 23961 23962; Mul 1171 489; Add 23963 23964; Mul 1181 490;
  Add 23965 23966; Mul 1191 491; Add 23967 23968; Mul 1201 492; Add 23969 23970; Mul 1211 493; Add 23971 23972;
  Sub 871 23973; Mul 2717 23930; Mul 23975 23974; Mul 23930 2624; Mul 23974 429; Add 23977 23978; Sub 23976 23979;
  AndEqz 2794 23980; Sub 44 521; AndEqz 2795 2847; Mul 23981 563; Sub 23982 6710; AndEqz 2796 23983; Mul 562 23981;
  AndEqz 2797 23984; Mul 562 563; AndEqz 2798 23985; Add 2654 7379; Mul 911 538; Add 23986 23987; Add 23988 16182;
  Sub 871 23989; Add 520 410; Mul 891 23991; Add 1554 23992; Add 23993 4713; Add 23994 5673; Add 23995 5675;
  Sub 871 23996; Mul 2742 23990; Mul 23998 23997; Mul 23990 4400; Mul 23997 4400; Add 24000 24001; Sub 23999 24002;
  AndEqz 2799 24003; Add 520 402; Mul 891 24004; Add 1554 24005; Add 24006 7388; Add 24007 5687; Add 24008 5689;
  Sub 871 24009; Add 520 372; Mul 891 24011; Add 1554 24012; Add 24013 6611; Add 24014 10365; Add 24015 10367;
  Sub 871 24016; Mul 2776 24010; Mul 24018 24017; Mul 24010 4400; Mul 24017 4400; Add 24020 24021; Sub 24019 24022;
  AndEqz 2800 24023; Add 520 399; Mul 891 24024; Add 1554 24025; Add 24026 7400; Add 24027 4833; Add 24028 4889;
  Sub 871 24029; Add 520 376; Mul 891 24031; Add 1554 24032; Add 24033 6620; Add 24034 4845; Add 24035 5758;
  Sub 871 24036; Mul 3756 24030; Mul 24038 24037; Mul 24030 4400; Mul 24037 4400; Add 24040 24041; Sub 24039 24042;
  AndEqz 2801 24043; Add 520 395; Mul 891 24044; Add 1554 24045; Add 24046 8269; Add 24047 12615; Add 24048 12617;
  Sub 871 24049; Add 520 400; Mul 891 24051; Add 1554 24052; Add 24053 5895; Add 24054 4669; Add 24055 4671;
  Sub 871 24056; Mul 4420 24050; Mul 24058 24057; Mul 24050 4400; Mul 24057 4400; Add 24060 24061; Sub 24059 24062;
  AndEqz 2802 24063; Add 23749 2653; Add 24064 2655; Add 24065 2657; Add 24066 2659; Add 24067 21664;
  Add 24068 21666; Add 24069 21668; Add 24070 21670; Add 24071 21672; Add 24072 21674; Sub 871 24073; Add 520 408;
  Mul 891 24075; Add 23749 24076; Mul 901 9589; Add 24077 24078; Add 24079 4531; Add 24080 4533; Mul 931 532;
  Add 24081 24082; Add 24083 9604; Add 24084 9606; Mul 961 535; Add 24085 24086; Mul 971 536; Add 24087 24088;
  Mul 981 537; Add 24089 24090; Sub 871 24091; Mul 4444 24074; Mul 24093 24092; Mul 24074 430; Mul 24092 4400;
  Add 24095 24096; Sub 24094 24097; AndEqz 2803 24098; Add 12611 4764; Add 24099 6406; Add 24100 12230;
  Add 24101 4611; Add 24102 4613; Mul 941 526; Add 24103 24104; Mul 951 527; Add 24105 24106; Mul 961 528;
  Add 24107 24108; Add 24109 8713; Mul 981 538; Add 24110 24111; Mul 991 539; Add 24112 24113; Mul 1001 540;
  Add 24114 24115; Mul 1011 541; Add 24116 24117; Mul 1021 542; Add 24118 24119; Mul 1031 543; Add 24120 24121;
  Mul 1041 544; Add 24122 24123; Mul 1051 545; Add 24124 24125; Mul 1061 546; Add 24126 24127; Mul 1071 547;
  Add 24128 24129; Mul 1081 548; Add 24130 24131; Mul 1091 549; Add 24132 24133; Mul 1101 550; Add 24134 24135;
  Mul 1111 551; Add 24136 24137; Mul 1121 552; Add 24138 24139; Mul 1131 553; Add 24140 24141; Mul 1141 530;
  Add 24142 24143; Mul 1151 531; Add 24144 24145; Mul 1161 532; Add 24146 24147; Mul 1171 533; Add 24148 24149;
  Mul 1181 534; Add 24150 24151; Mul 1191 535; Add 24152 24153; Mul 1201 536; Add 24154 24155; Mul 1211 537;
  Add 24156 24157; Sub 871 24158; Sub 44 565; AndEqz 2804 10663; Mul 24160 607; Sub 24161 10665; AndEqz 2805 24162;
  Mul 606 24160; AndEqz 2806 24163; AndEqz 2807 10667; Mul 901 598; Add 9657 24164; Add 24165 5098; Add 24166 5154;
  Sub 871 24167; Mul 4469 24159; Mul 24169 24168; Mul 24159 4661; Mul 24168 4400; Add 24171 24172; Sub 24170 24173;
  AndEqz 2808 24174; Add 564 410; Mul 891 24175; Add 1554 24176; Add 24177 5026; Add 24178 5110; Add 24179 9884;
  Sub 871 24180; Add 564 402; Mul 891 24182; Add 1554 24183; Add 24184 10629; Mul 911 586; Add 24185 24186;
  Mul 921 587; Add 24187 24188].

(* L27020-27519 POLY_EXT_DEF.block *)
Definition block_54 : list Step := [
  Sub 871 24189; Mul 4520 24181; Mul 24191 24190; Mul 24181 4661; Mul 24190 4661; Add 24193 24194; Sub 24192 24195;
  AndEqz 2809 24196; Add 564 372; Mul 891 24197; Add 1554 24198; Mul 901 601; Add 24199 24200; Add 24201 4929;
  Add 24202 4931; Sub 871 24203; Add 564 399; Mul 891 24205; Add 1554 24206; Add 24207 14087; Add 24208 9043;
  Add 24209 9068; Sub 871 24210; Mul 4546 24204; Mul 24212 24211; Mul 24204 4661; Mul 24211 4661; Add 24214 24215;
  Sub 24213 24216; AndEqz 2810 24217; Add 564 376; Mul 891 24218; Add 1554 24219; Mul 901 603; Add 24220 24221;
  Add 24222 4975; Add 24223 4977; Sub 871 24224; Add 564 395; Mul 891 24226; Add 1554 24227; Add 24228 9838;
  Add 24229 10683; Add 24230 10709; Sub 871 24231; Mul 4598 24225; Mul 24233 24232; Mul 24225 4661; Mul 24232 4661;
  Add 24235 24236; Sub 24234 24237; AndEqz 2811 24238; Add 564 400; Mul 891 24239; Add 1554 24240; Mul 901 605;
  Add 24241 24242; Add 24243 10695; Mul 921 597; Add 24244 24245; Sub 871 24246; Add 23749 9656; Add 24248 9658;
  Add 24249 4789; Add 24250 4791; Mul 931 568; Add 24251 24252; Mul 941 569; Add 24253 24254; Mul 951 570;
  Add 24255 24256; Mul 961 571; Add 24257 24258; Mul 971 572; Add 24259 24260; Mul 981 573; Add 24261 24262;
  Sub 871 24263; Mul 4651 24247; Mul 24265 24264; Mul 24247 4661; Mul 24264 4661; Add 24267 24268; Sub 24266 24269;
  AndEqz 2812 24270; Add 564 408; Add 565 410; Mul 891 24271; Add 23749 24273; Mul 901 24272; Add 24274 24275;
  Add 24276 8853; Add 24277 8855; Add 24278 16700; Mul 941 577; Add 24279 24280; Mul 951 578; Add 24281 24282;
  Mul 961 579; Add 24283 24284; Add 24285 5959; Add 24286 5961; Sub 871 24287; Mul 891 606; Add 12611 24289;
  Add 24290 5809; Add 24291 5811; Add 24292 5813; Add 24293 8274; Add 24294 13962; Mul 951 571; Add 24295 24296;
  Mul 961 572; Add 24297 24298; Add 24299 9748; Mul 981 582; Add 24300 24301; Mul 991 583; Add 24302 24303;
  Mul 1001 584; Add 24304 24305; Mul 1011 585; Add 24306 24307; Mul 1021 586; Add 24308 24309; Mul 1031 587;
  Add 24310 24311; Mul 1041 588; Add 24312 24313; Mul 1051 589; Add 24314 24315; Mul 1061 590; Add 24316 24317;
  Mul 1071 591; Add 24318 24319; Mul 1081 592; Add 24320 24321; Mul 1091 593; Add 24322 24323; Mul 1101 594;
  Add 24324 24325; Mul 1111 595; Add 24326 24327; Mul 1121 596; Add 24328 24329; Mul 1131 597; Add 24330 24331;
  Mul 1141 574; Add 24332 24333; Mul 1151 575; Add 24334 24335; Mul 1161 576; Add 24336 24337; Mul 1171 577;
  Add 24338 24339; Mul 1181 578; Add 24340 24341; Mul 1191 579; Add 24342 24343; Mul 1201 580; Add 24344 24345;
  Mul 1211 581; Add 24346 24347; Sub 871 24348; Mul 4679 24288; Mul 24350 24349; Mul 24288 4661; Mul 24349 431;
  Add 24352 24353; Sub 24351 24354; AndEqz 2813 24355; AndEqz 2814 23594; Mul 418 426; AndCond 2776 24356 2815;
  Add 1367 23598; Add 24357 3769; Add 24358 3771; Add 24359 3773; Add 24360 7662; Add 24361 19926; Add 24362 19928;
  Add 24363 19930; Add 24364 19932; Sub 871 24365; Add 23749 3767; Add 24367 409; Add 24368 409; Add 24369 409;
  Add 24370 409; Add 24371 409; Add 24372 409; Add 24373 409; Add 24374 409; Add 24375 409; Sub 871 24376;
  Mul 1278 24366; Mul 24378 24377; Mul 24366 428; Mul 24377 428; Add 24380 24381; Sub 24379 24382; AndEqz 0 24383;
  Add 23749 23627; Add 24384 23629; Add 24385 1351; Add 24386 1353; Add 24387 1355; Add 24388 1357; Add 24389 1359;
  Add 24390 1361; Add 24391 1363; Add 24392 23638; Sub 871 24393; Mul 1297 24394; Mul 24395 331; Sub 24396 11020;
  AndEqz 2817 24397; AndEqz 2818 18270; Mul 418 427; AndCond 2816 24398 2819; Mul 22769 23654; Add 22771 23667;
  Sub 24399 24400; AndEqz 0 24401; AndEqz 2821 14627; Mul 419 420; AndCond 2820 24402 2822; Add 1399 2595;
  Add 24403 3928; Sub 871 24404; Add 432 401; Mul 901 24406; Add 24403 24407; Sub 871 24408; Mul 1278 24405;
  Mul 24410 24409; Mul 24405 428; Mul 24409 1265; Add 24412 24413; Sub 24411 24414; AndEqz 0 24415; Add 2595 409;
  Add 24416 3928; Sub 871 24417; Mul 901 7671; Add 24416 24419; Sub 871 24420; Mul 1297 24418; Mul 24422 24421;
  Mul 24418 434; Mul 24421 433; Add 24424 24425; Sub 24423 24426; AndEqz 2824 24427; Mul 901 22864; Add 24416 24428;
  Sub 871 24429; Mul 901 22871; Add 24416 24431; Sub 871 24432; Mul 1391 24430; Mul 24434 24433; Mul 24430 436;
  Mul 24433 435; Add 24436 24437; Sub 24435 24438; AndEqz 2825 24439; Mul 901 22884; Add 24416 24440; Sub 871 24441;
  Mul 901 22891; Add 24416 24443; Sub 871 24444; Mul 1411 24442; Mul 24446 24445; Mul 24442 438; Mul 24445 437;
  Add 24448 24449; Sub 24447 24450; AndEqz 2826 24451; Mul 901 22904; Add 24416 24452; Sub 871 24453; Mul 901 22911;
  Add 24416 24455; Sub 871 24456; Mul 1430 24454; Mul 24458 24457; Mul 24454 440; Mul 24457 439; Add 24460 24461;
  Sub 24459 24462; AndEqz 2827 24463; Mul 901 22944; Add 24416 24464; Sub 871 24465; Add 432 340; Mul 901 24467;
  Add 24416 24468; Sub 871 24469; Mul 1451 24466; Mul 24471 24470; Mul 24466 442; Mul 24470 441; Add 24473 24474;
  Sub 24472 24475; AndEqz 2828 24476; Add 432 405; Mul 901 24477; Add 24416 24478; Sub 871 24479; Add 432 327;
  Mul 901 24481; Add 24416 24482; Sub 871 24483; Mul 1479 24480; Mul 24485 24484; Mul 24480 444; Mul 24484 443;
  Add 24487 24488; Sub 24486 24489; AndEqz 2829 24490; Add 432 404; Mul 901 24491; Add 24416 24492; Sub 871 24493;
  Add 432 361; Mul 901 24495; Add 24416 24496; Sub 871 24497; Mul 1499 24494; Mul 24499 24498; Mul 24494 446;
  Mul 24498 445; Add 24501 24502; Sub 24500 24503; AndEqz 2830 24504; Add 432 357; Mul 901 24505; Add 24416 24506;
  Sub 871 24507; Add 432 305; Mul 901 24509; Add 24416 24510; Sub 871 24511; Mul 2667 24508; Mul 24513 24512;
  Mul 24508 448; Mul 24512 447; Add 24515 24516; Sub 24514 24517; AndEqz 2831 24518; Add 1399 11058; Add 24519 1286;
  Sub 871 24520; Add 450 401; Mul 901 24522; Add 24519 24523; Sub 871 24524; Mul 2691 24521; Mul 24526 24525;
  Mul 24521 429; Mul 24525 2624; Add 24528 24529; Sub 24527 24530; AndEqz 2832 24531; Add 11058 409; Add 24532 1286;
  Sub 871 24533; Add 24532 12958; Sub 871 24535; Mul 2717 24534; Mul 24537 24536; Mul 24534 452; Mul 24536 451;
  Add 24539 24540; Sub 24538 24541; AndEqz 2833 24542; Add 450 402; Mul 901 24543; Add 24532 24544; Sub 871 24545;
  Add 450 372; Mul 901 24547; Add 24532 24548; Sub 871 24549; Mul 2742 24546; Mul 24551 24550; Mul 24546 454;
  Mul 24550 453; Add 24553 24554; Sub 24552 24555; AndEqz 2834 24556; Add 450 399; Mul 901 24557; Add 24532 24558;
  Sub 871 24559; Add 450 376; Mul 901 24561; Add 24532 24562; Sub 871 24563; Mul 2776 24560; Mul 24565 24564;
  Mul 24560 456; Mul 24564 455; Add 24567 24568; Sub 24566 24569; AndEqz 2835 24570; Add 450 395; Mul 901 24571;
  Add 24532 24572; Sub 871 24573; Add 450 400; Mul 901 24575; Add 24532 24576; Sub 871 24577; Mul 3756 24574;
  Mul 24579 24578; Mul 24574 458; Mul 24578 457; Add 24581 24582; Sub 24580 24583; AndEqz 2836 24584; Add 450 408;
  Mul 901 24585; Add 24532 24586; Sub 871 24587; Add 450 340; Mul 901 24589; Add 24532 24590; Sub 871 24591;
  Mul 4420 24588; Mul 24593 24592; Mul 24588 460; Mul 24592 459; Add 24595 24596; Sub 24594 24597; AndEqz 2837 24598;
  Add 450 405; Mul 901 24599; Add 24532 24600; Sub 871 24601; Add 450 327; Mul 901 24603; Add 24532 24604;
  Sub 871 24605; Mul 4444 24602; Mul 24607 24606; Mul 24602 462; Mul 24606 461; Add 24609 24610; Sub 24608 24611;
  AndEqz 2838 24612; Add 450 404; Mul 901 24613; Add 24532 24614; Sub 871 24615; Add 450 361; Mul 901 24617;
  Add 24532 24618; Sub 871 24619; Mul 4469 24616; Mul 24621 24620; Mul 24616 464; Mul 24620 463; Add 24623 24624;
  Sub 24622 24625; AndEqz 2839 24626; Add 450 357; Mul 901 24627; Add 24532 24628; Sub 871 24629; Add 450 305;
  Mul 901 24631; Add 24532 24632; Sub 871 24633; Mul 4520 24630; Mul 24635 24634; Mul 24630 466; Mul 24634 465;
  Add 24637 24638; Sub 24636 24639; AndEqz 2840 24640; Mul 891 467; Add 1399 24641; Add 24642 5389; Sub 871 24643;
  Add 468 401; Mul 901 24645; Add 24642 24646; Sub 871 24647; Mul 4546 24644; Mul 24649 24648; Mul 24644 430;
  Mul 24648 4400; Add 24651 24652; Sub 24650 24653; AndEqz 2841 24654; Add 24641 409; Add 24655 5389].

(* L27520-27865 POLY_EXT_DEF.block *)
Definition block_55 : list Step := [
  Sub 871 24656; Mul 901 23043; Add 24655 24658; Sub 871 24659; Mul 4598 24657; Mul 24661 24660; Mul 24657 470;
  Mul 24660 469; Add 24663 24664; Sub 24662 24665; AndEqz 2842 24666; Mul 901 23051; Add 24655 24667; Sub 871 24668;
  Mul 901 23064; Add 24655 24670; Sub 871 24671; Mul 4651 24669; Mul 24673 24672; Mul 24669 472; Mul 24672 471;
  Add 24675 24676; Sub 24674 24677; AndEqz 2843 24678; Mul 901 23071; Add 24655 24679; Sub 871 24680; Mul 901 23084;
  Add 24655 24682; Sub 871 24683; Mul 4679 24681; Mul 24685 24684; Mul 24681 474; Mul 24684 473; Add 24687 24688;
  Sub 24686 24689; AndEqz 2844 24690; Mul 901 23091; Add 24655 24691; Sub 871 24692; Mul 901 23104; Add 24655 24694;
  Sub 871 24695; Mul 4703 24693; Mul 24697 24696; Mul 24693 476; Mul 24696 475; Add 24699 24700; Sub 24698 24701;
  AndEqz 2845 24702; Mul 901 23133; Add 24655 24703; Sub 871 24704; Add 468 340; Mul 901 24706; Add 24655 24707;
  Sub 871 24708; Mul 4729 24705; Mul 24710 24709; Mul 24705 478; Mul 24709 477; Add 24712 24713; Sub 24711 24714;
  AndEqz 2846 24715; Add 468 405; Mul 901 24716; Add 24655 24717; Sub 871 24718; Add 468 327; Mul 901 24720;
  Add 24655 24721; Sub 871 24722; Mul 4778 24719; Mul 24724 24723; Mul 24719 480; Mul 24723 479; Add 24726 24727;
  Sub 24725 24728; AndEqz 2847 24729; Add 468 404; Mul 901 24730; Add 24655 24731; Sub 871 24732; Add 468 361;
  Mul 901 24734; Add 24655 24735; Sub 871 24736; Mul 4804 24733; Mul 24738 24737; Mul 24733 482; Mul 24737 481;
  Add 24740 24741; Sub 24739 24742; AndEqz 2848 24743; Add 468 357; Mul 901 24744; Add 24655 24745; Sub 871 24746;
  Add 468 305; Mul 901 24748; Add 24655 24749; Sub 871 24750; Mul 4855 24747; Mul 24752 24751; Mul 24747 484;
  Mul 24751 483; Add 24754 24755; Sub 24753 24756; AndEqz 2849 24757; AndEqz 2850 15239; Mul 419 421;
  AndCond 2823 24758 2851; Sub 769 410; Mul 769 24759; AndEqz 0 24760; Sub 770 410; Mul 770 24761; AndEqz 2853 24762;
  Sub 771 410; Mul 771 24763; AndEqz 2854 24764; Sub 772 410; Mul 772 24765; AndEqz 2855 24766; Sub 773 410;
  Mul 773 24767; AndEqz 2856 24768; Sub 774 410; Mul 774 24769; AndEqz 2857 24770; Sub 775 410; Mul 775 24771;
  AndEqz 2858 24772; Add 769 770; Add 24773 771; Add 24774 772; Add 24775 773; Add 24776 774; Add 24777 775;
  Sub 24778 410; AndEqz 2859 24779; Mul 13390 13203; Mul 771 402; Add 770 24781; Mul 772 372; Add 24782 24783;
  Mul 773 399; Add 24784 24785; Mul 774 376; Add 24786 24787; Mul 775 395; Add 24788 24789; Sub 24790 24780;
  AndEqz 2860 24791; Mul 470 331; Add 24792 409; Mul 1221 331; Mul 24794 471; Add 24793 24795; Mul 24794 391;
  Add 24797 1; Mul 24794 1221; Mul 24799 472; Add 24796 24800; Mul 24799 391; Add 24798 24802; Mul 24799 1221;
  Mul 24804 473; Add 24801 24805; Mul 24804 391; Add 24803 24807; Mul 24804 1221; Mul 24809 474; Add 24806 24810;
  Mul 24809 391; Add 24808 24812; Mul 24809 1221; Mul 24814 475; Add 24811 24815; Mul 24814 391; Add 24813 24817;
  Mul 24814 1221; Mul 24819 476; Add 24816 24820; Mul 24819 391; Add 24818 24822; Mul 24819 1221; Mul 24824 477;
  Add 24821 24825; Mul 24824 391; Add 24823 24827; Mul 24824 1221; Mul 24829 478; Add 24826 24830; Mul 24829 391;
  Add 24828 24832; Mul 24829 1221; Mul 24834 479; Add 24831 24835; Mul 24834 391; Add 24833 24837; Mul 24834 1221;
  Mul 24839 480; Add 24836 24840; Mul 24839 391; Add 24838 24842; Mul 24839 1221; Mul 24844 481; Add 24841 24845;
  Mul 24844 391; Add 24843 24847; Mul 24844 1221; Mul 24849 482; Add 24846 24850; Mul 24849 391; Add 24848 24852;
  Mul 24849 1221; Mul 24854 483; Add 24851 24855; Mul 24854 391; Add 24853 24857; Mul 24854 1221; Mul 24859 484;
  Add 24856 24860; Mul 24859 391; Add 24858 24862; Mul 24859 1221; Mul 24864 485; Add 24861 24865; Mul 24864 391;
  Add 24863 24867; Mul 24864 1221; Mul 24866 13390; Mul 777 413; Add 776 24871; Mul 778 412; Add 24872 24873;
  Mul 779 411; Add 24874 24875; Sub 24870 24876; AndEqz 2861 24877; Mul 797 413; Add 796 24878; Mul 798 412;
  Add 24879 24880; Mul 799 411; Add 24881 24882; Add 24883 24876; Sub 13208 399; Mul 781 413; Add 780 24886;
  Mul 782 412; Add 24887 24888; Mul 783 411; Add 24889 24890; Sub 24891 409; Mul 24892 769; AndEqz 2862 24893;
  Mul 785 413; Add 784 24894; Mul 786 412; Add 24895 24896; Mul 787 411; Add 24897 24898; Sub 24899 331;
  Mul 24900 769; AndEqz 2863 24901; Mul 789 413; Add 788 24902; Mul 790 412; Add 24903 24904; Mul 791 411;
  Add 24905 24906; Sub 24907 409; Mul 24908 769; AndEqz 2864 24909; Mul 24884 24869; Sub 24891 24910; Mul 24911 770;
  AndEqz 2865 24912; Mul 801 413; Add 800 24913; Mul 802 412; Add 24914 24915; Mul 803 411; Add 24916 24917;
  Sub 24899 24918; Mul 24919 770; AndEqz 2866 24920; Mul 805 413; Add 804 24921; Mul 806 412; Add 24922 24923;
  Mul 807 411; Add 24924 24925; Sub 24907 24926; Mul 24927 770; AndEqz 2867 24928; Mul 24892 771; AndEqz 2868 24929;
  Sub 24899 24884; Mul 24930 771; AndEqz 2869 24931; Mul 24927 771; AndEqz 2870 24932; Mul 24892 772;
  AndEqz 2871 24933; Mul 24900 772; AndEqz 2872 24934; Mul 24918 24884; Mul 24935 24885; Add 24926 24936;
  Sub 24907 24937; Mul 24938 772; AndEqz 2873 24939; Sub 24876 24868; Mul 24940 394; Add 24883 24941;
  Sub 24891 24942; Mul 24943 773; AndEqz 2874 24944; Mul 24919 773; AndEqz 2875 24945; Mul 24927 773;
  AndEqz 2876 24946; Mul 24876 403; Add 24883 24947; Sub 24891 24948; Mul 24949 774; AndEqz 2877 24950;
  Mul 24919 774; AndEqz 2878 24951; Mul 24927 774; AndEqz 2879 24952; Mul 24892 775; AndEqz 2880 24953;
  Mul 24900 775; AndEqz 2881 24954; Mul 24908 775; AndEqz 2882 24955; Sub 41 1221; Mul 24884 24956; Sub 24926 24957;
  Mul 24958 775; AndEqz 2883 24959; AndCond 2852 410 2884].
(* L18-27868 POLY_EXT_DEF *)
Definition POLY_EXT_DEF : Adapter.PolyExtStepDef := program (concat [
  block_0; block_1; block_2; block_3; block_4; block_5; block_6; block_7; block_8; block_9; block_10; block_11;
  block_12; block_13; block_14; block_15; block_16; block_17; block_18; block_19; block_20; block_21; block_22;
  block_23; block_24; block_25; block_26; block_27; block_28; block_29; block_30; block_31; block_32; block_33;
  block_34; block_35; block_36; block_37; block_38; block_39; block_40; block_41; block_42; block_43; block_44;
  block_45; block_46; block_47; block_48; block_49; block_50; block_51; block_52; block_53; block_54; block_55]) 2885.

(** The taps are consistent, there are 405 of them, and every step of the program reads what
    there is: the taps and the check value, the 54 globals and the 200 elements of the mix. *)
Lemma rv32im_taps_checked : taps_ok TAPSET && (Taps.num_groups TAPSET =? 2)%nat = true.
Proof. vm_compute. reflexivity. Qed.
Lemma rv32im_tap_count : (Taps.tap_size TAPSET : outcome Merkle.VerificationError nat) = Ok 405%nat.
Proof. reflexivity. Qed.
Lemma rv32im_program_checked : def_ok (405 + 1) [54; 200]%nat POLY_EXT_DEF = true.
Proof. apply (def_check_ok 406 [54; 200]). vm_compute. reflexivity. Qed.
End Rv32imTables.
