(* ===== verification/RecursionTables.v ===== *)
(** * The tables of the recursion circuit

    The taps and the constraint program that the verifier of a succinct receipt is compiled
    with, as [taps.rs] and [poly_ext.rs] of the recursion circuit list them, the root of the
    programs it may run, and the check that the verifier's theorems ask of a circuit,
    evaluated on the tables. *)
From S2P Require Export Tables.
Import Taps.
Open Scope nat_scope.

Module RecursionTables.

(* source: src/risc0/risc0/circuit/recursion/src/taps.rs *)
(* L23-134 TAPSET.taps *)
Definition taps_accum : list Taps.TapData := [
  mkTap 0 0 0 1 2; mkTap 0 1 0 1 2; mkTap 1 0 0 1 2; mkTap 1 1 0 1 2; mkTap 2 0 0 1 2; mkTap 2 1 0 1 2;
  mkTap 3 0 0 1 2; mkTap 3 1 0 1 2; mkTap 4 0 0 0 1; mkTap 5 0 0 0 1; mkTap 6 0 0 0 1; mkTap 7 0 0 0 1;
  mkTap 8 0 0 0 1; mkTap 9 0 0 0 1; mkTap 10 0 0 0 1; mkTap 11 0 0 0 1].

(* L135-295 TAPSET.taps *)
Definition taps_code : list Taps.TapData := [
  mkTap 0 0 1 0 1; mkTap 1 0 1 0 1; mkTap 2 0 1 0 1; mkTap 3 0 1 0 1; mkTap 4 0 1 0 1; mkTap 5 0 1 0 1;
  mkTap 6 0 1 0 1; mkTap 7 0 1 0 1; mkTap 8 0 1 0 1; mkTap 9 0 1 0 1; mkTap 10 0 1 0 1; mkTap 11 0 1 0 1;
  mkTap 12 0 1 0 1; mkTap 13 0 1 0 1; mkTap 14 0 1 0 1; mkTap 15 0 1 0 1; mkTap 16 0 1 0 1; mkTap 17 0 1 0 1;
  mkTap 18 0 1 0 1; mkTap 19 0 1 0 1; mkTap 20 0 1 0 1; mkTap 21 0 1 0 1; mkTap 22 0 1 0 1].

(* L296-4523 TAPSET.taps *)
Definition taps_data : list Taps.TapData := [
  mkTap 0 0 2 1 2; mkTap 0 1 2 1 2; mkTap 1 0 2 1 2; mkTap 1 1 2 1 2; mkTap 2 0 2 1 2; mkTap 2 1 2 1 2;
  mkTap 3 0 2 1 2; mkTap 3 1 2 1 2; mkTap 4 0 2 1 2; mkTap 4 1 2 1 2; mkTap 5 0 2 0 1; mkTap 6 0 2 0 1;
  mkTap 7 0 2 0 1; mkTap 8 0 2 0 1; mkTap 9 0 2 0 1; mkTap 10 0 2 0 1; mkTap 11 0 2 0 1; mkTap 12 0 2 0 1;
  mkTap 13 0 2 0 1; mkTap 14 0 2 0 1; mkTap 15 0 2 0 1; mkTap 16 0 2 0 1; mkTap 17 0 2 0 1; mkTap 18 0 2 0 1;
  mkTap 19 0 2 0 1; mkTap 20 0 2 0 1; mkTap 21 0 2 0 1; mkTap 22 0 2 0 1; mkTap 23 0 2 0 1; mkTap 24 0 2 0 1;
  mkTap 25 0 2 0 1; mkTap 26 0 2 2 6; mkTap 26 1 2 2 6; mkTap 26 2 2 2 6; mkTap 26 3 2 2 6; mkTap 26 4 2 2 6;
  mkTap 26 68 2 2 6; mkTap 27 0 2 2 6; mkTap 27 1 2 2 6; mkTap 27 2 2 2 6; mkTap 27 3 2 2 6; mkTap 27 4 2 2 6;
  mkTap 27 68 2 2 6; mkTap 28 0 2 2 6; mkTap 28 1 2 2 6; mkTap 28 2 2 2 6; mkTap 28 3 2 2 6; mkTap 28 4 2 2 6;
  mkTap 28 68 2 2 6; mkTap 29 0 2 2 6; mkTap 29 1 2 2 6; mkTap 29 2 2 2 6; mkTap 29 3 2 2 6; mkTap 29 4 2 2 6;
  mkTap 29 68 2 2 6; mkTap 30 0 2 2 6; mkTap 30 1 2 2 6; mkTap 30 2 2 2 6; mkTap 30 3 2 2 6; mkTap 30 4 2 2 6;
  mkTap 30 68 2 2 6; mkTap 31 0 2 2 6; mkTap 31 1 2 2 6; mkTap 31 2 2 2 6; mkTap 31 3 2 2 6; mkTap 31 4 2 2 6;
  mkTap 31 68 2 2 6; mkTap 32 0 2 2 6; mkTap 32 1 2 2 6; mkTap 32 2 2 2 6; mkTap 32 3 2 2 6; mkTap 32 4 2 2 6;
  mkTap 32 68 2 2 6; mkTap 33 0 2 2 6; mkTap 33 1 2 2 6; mkTap 33 2 2 2 6; mkTap 33 3 2 2 6; mkTap 33 4 2 2 6;
  mkTap 33 68 2 2 6; mkTap 34 0 2 2 6; mkTap 34 1 2 2 6; mkTap 34 2 2 2 6; mkTap 34 3 2 2 6; mkTap 34 4 2 2 6;
  mkTap 34 68 2 2 6; mkTap 35 0 2 2 6; mkTap 35 1 2 2 6; mkTap 35 2 2 2 6; mkTap 35 3 2 2 6; mkTap 35 4 2 2 6;
  mkTap 35 68 2 2 6; mkTap 36 0 2 2 6; mkTap 36 1 2 2 6; mkTap 36 2 2 2 6; mkTap 36 3 2 2 6; mkTap 36 4 2 2 6;
  mkTap 36 68 2 2 6; mkTap 37 0 2 2 6; mkTap 37 1 2 2 6; mkTap 37 2 2 2 6; mkTap 37 3 2 2 6; mkTap 37 4 2 2 6;
  mkTap 37 68 2 2 6; mkTap 38 0 2 2 6; mkTap 38 1 2 2 6; mkTap 38 2 2 2 6; mkTap 38 3 2 2 6; mkTap 38 4 2 2 6;
  mkTap 38 68 2 2 6; mkTap 39 0 2 2 6; mkTap 39 1 2 2 6; mkTap 39 2 2 2 6; mkTap 39 3 2 2 6; mkTap 39 4 2 2 6;
  mkTap 39 68 2 2 6; mkTap 40 0 2 2 6; mkTap 40 1 2 2 6; mkTap 40 2 2 2 6; mkTap 40 3 2 2 6; mkTap 40 4 2 2 6;
  mkTap 40 68 2 2 6; mkTap 41 0 2 2 6; mkTap 41 1 2 2 6; mkTap 41 2 2 2 6; mkTap 41 3 2 2 6; mkTap 41 4 2 2 6;
  mkTap 41 68 2 2 6; mkTap 42 0 2 2 6; mkTap 42 1 2 2 6; mkTap 42 2 2 2 6; mkTap 42 3 2 2 6; mkTap 42 4 2 2 6;
  mkTap 42 68 2 2 6; mkTap 43 0 2 2 6; mkTap 43 1 2 2 6; mkTap 43 2 2 2 6; mkTap 43 3 2 2 6; mkTap 43 4 2 2 6;
  mkTap 43 68 2 2 6; mkTap 44 0 2 2 6; mkTap 44 1 2 2 6; mkTap 44 2 2 2 6; mkTap 44 3 2 2 6; mkTap 44 4 2 2 6;
  mkTap 44 68 2 2 6; mkTap 45 0 2 2 6; mkTap 45 1 2 2 6; mkTap 45 2 2 2 6; mkTap 45 3 2 2 6; mkTap 45 4 2 2 6;
  mkTap 45 68 2 2 6; mkTap 46 0 2 2 6; mkTap 46 1 2 2 6; mkTap 46 2 2 2 6; mkTap 46 3 2 2 6; mkTap 46 4 2 2 6;
  mkTap 46 68 2 2 6; mkTap 47 0 2 2 6; mkTap 47 1 2 2 6; mkTap 47 2 2 2 6; mkTap 47 3 2 2 6; mkTap 47 4 2 2 6;
  mkTap 47 68 2 2 6; mkTap 48 0 2 2 6; mkTap 48 1 2 2 6; mkTap 48 2 2 2 6; mkTap 48 3 2 2 6; mkTap 48 4 2 2 6;
  mkTap 48 68 2 2 6; mkTap 49 0 2 2 6; mkTap 49 1 2 2 6; mkTap 49 2 2 2 6; mkTap 49 3 2 2 6; mkTap 49 4 2 2 6;
  mkTap 49 68 2 2 6; mkTap 50 0 2 2 6; mkTap 50 1 2 2 6; mkTap 50 2 2 2 6; mkTap 50 3 2 2 6; mkTap 50 4 2 2 6;
  mkTap 50 68 2 2 6; mkTap 51 0 2 2 6; mkTap 51 1 2 2 6; mkTap 51 2 2 2 6; mkTap 51 3 2 2 6; mkTap 51 4 2 2 6;
  mkTap 51 68 2 2 6; mkTap 52 0 2 2 6; mkTap 52 1 2 2 6; mkTap 52 2 2 2 6; mkTap 52 3 2 2 6; mkTap 52 4 2 2 6;
  mkTap 52 68 2 2 6; mkTap 53 0 2 2 6; mkTap 53 1 2 2 6; mkTap 53 2 2 2 6; mkTap 53 3 2 2 6; mkTap 53 4 2 2 6;
  mkTap 53 68 2 2 6; mkTap 54 0 2 2 6; mkTap 54 1 2 2 6; mkTap 54 2 2 2 6; mkTap 54 3 2 2 6; mkTap 54 4 2 2 6;
  mkTap 54 68 2 2 6; mkTap 55 0 2 2 6; mkTap 55 1 2 2 6; mkTap 55 2 2 2 6; mkTap 55 3 2 2 6; mkTap 55 4 2 2 6;
  mkTap 55 68 2 2 6; mkTap 56 0 2 2 6; mkTap 56 1 2 2 6; mkTap 56 2 2 2 6; mkTap 56 3 2 2 6; mkTap 56 4 2 2 6;
  mkTap 56 68 2 2 6; mkTap 57 0 2 2 6; mkTap 57 1 2 2 6; mkTap 57 2 2 2 6; mkTap 57 3 2 2 6; mkTap 57 4 2 2 6;
  mkTap 57 68 2 2 6; mkTap 58 0 2 0 1; mkTap 59 0 2 0 1; mkTap 60 0 2 2 6; mkTap 60 1 2 2 6; mkTap 60 2 2 2 6;
  mkTap 60 3 2 2 6; mkTap 60 4 2 2 6; mkTap 60 68 2 2 6; mkTap 61 0 2 2 6; mkTap 61 1 2 2 6; mkTap 61 2 2 2 6;
  mkTap 61 3 2 2 6; mkTap 61 4 2 2 6; mkTap 61 68 2 2 6; mkTap 62 0 2 2 6; mkTap 62 1 2 2 6; mkTap 62 2 2 2 6;
  mkTap 62 3 2 2 6; mkTap 62 4 2 2 6; mkTap 62 68 2 2 6; mkTap 63 0 2 2 6; mkTap 63 1 2 2 6; mkTap 63 2 2 2 6;
  mkTap 63 3 2 2 6; mkTap 63 4 2 2 6; mkTap 63 68 2 2 6; mkTap 64 0 2 2 6; mkTap 64 1 2 2 6; mkTap 64 2 2 2 6;
  mkTap 64 3 2 2 6; mkTap 64 4 2 2 6; mkTap 64 68 2 2 6; mkTap 65 0 2 2 6; mkTap 65 1 2 2 6; mkTap 65 2 2 2 6;
  mkTap 65 3 2 2 6; mkTap 65 4 2 2 6; mkTap 65 68 2 2 6; mkTap 66 0 2 2 6; mkTap 66 1 2 2 6; mkTap 66 2 2 2 6;
  mkTap 66 3 2 2 6; mkTap 66 4 2 2 6; mkTap 66 68 2 2 6; mkTap 67 0 2 2 6; mkTap 67 1 2 2 6; mkTap 67 2 2 2 6;
  mkTap 67 3 2 2 6; mkTap 67 4 2 2 6; mkTap 67 68 2 2 6; mkTap 68 0 2 2 6; mkTap 68 1 2 2 6; mkTap 68 2 2 2 6;
  mkTap 68 3 2 2 6; mkTap 68 4 2 2 6; mkTap 68 68 2 2 6; mkTap 69 0 2 2 6; mkTap 69 1 2 2 6; mkTap 69 2 2 2 6;
  mkTap 69 3 2 2 6; mkTap 69 4 2 2 6; mkTap 69 68 2 2 6; mkTap 70 0 2 2 6; mkTap 70 1 2 2 6; mkTap 70 2 2 2 6;
  mkTap 70 3 2 2 6; mkTap 70 4 2 2 6; mkTap 70 68 2 2 6; mkTap 71 0 2 2 6; mkTap 71 1 2 2 6; mkTap 71 2 2 2 6;
  mkTap 71 3 2 2 6; mkTap 71 4 2 2 6; mkTap 71 68 2 2 6; mkTap 72 0 2 2 6; mkTap 72 1 2 2 6; mkTap 72 2 2 2 6;
  mkTap 72 3 2 2 6; mkTap 72 4 2 2 6; mkTap 72 68 2 2 6; mkTap 73 0 2 2 6; mkTap 73 1 2 2 6; mkTap 73 2 2 2 6;
  mkTap 73 3 2 2 6; mkTap 73 4 2 2 6; mkTap 73 68 2 2 6; mkTap 74 0 2 2 6; mkTap 74 1 2 2 6; mkTap 74 2 2 2 6;
  mkTap 74 3 2 2 6; mkTap 74 4 2 2 6; mkTap 74 68 2 2 6; mkTap 75 0 2 2 6; mkTap 75 1 2 2 6; mkTap 75 2 2 2 6;
  mkTap 75 3 2 2 6; mkTap 75 4 2 2 6; mkTap 75 68 2 2 6; mkTap 76 0 2 2 6; mkTap 76 1 2 2 6; mkTap 76 2 2 2 6;
  mkTap 76 3 2 2 6; mkTap 76 4 2 2 6; mkTap 76 68 2 2 6; mkTap 77 0 2 2 6; mkTap 77 1 2 2 6; mkTap 77 2 2 2 6;
  mkTap 77 3 2 2 6; mkTap 77 4 2 2 6; mkTap 77 68 2 2 6; mkTap 78 0 2 2 6; mkTap 78 1 2 2 6; mkTap 78 2 2 2 6;
  mkTap 78 3 2 2 6; mkTap 78 4 2 2 6; mkTap 78 68 2 2 6; mkTap 79 0 2 2 6; mkTap 79 1 2 2 6; mkTap 79 2 2 2 6;
  mkTap 79 3 2 2 6; mkTap 79 4 2 2 6; mkTap 79 68 2 2 6; mkTap 80 0 2 2 6; mkTap 80 1 2 2 6; mkTap 80 2 2 2 6;
  mkTap 80 3 2 2 6; mkTap 80 4 2 2 6; mkTap 80 68 2 2 6; mkTap 81 0 2 2 6; mkTap 81 1 2 2 6; mkTap 81 2 2 2 6;
  mkTap 81 3 2 2 6; mkTap 81 4 2 2 6; mkTap 81 68 2 2 6; mkTap 82 0 2 2 6; mkTap 82 1 2 2 6; mkTap 82 2 2 2 6;
  mkTap 82 3 2 2 6; mkTap 82 4 2 2 6; mkTap 82 68 2 2 6; mkTap 83 0 2 2 6; mkTap 83 1 2 2 6; mkTap 83 2 2 2 6;
  mkTap 83 3 2 2 6; mkTap 83 4 2 2 6; mkTap 83 68 2 2 6; mkTap 84 0 2 2 6; mkTap 84 1 2 2 6; mkTap 84 2 2 2 6;
  mkTap 84 3 2 2 6; mkTap 84 4 2 2 6; mkTap 84 68 2 2 6; mkTap 85 0 2 2 6; mkTap 85 1 2 2 6; mkTap 85 2 2 2 6;
  mkTap 85 3 2 2 6; mkTap 85 4 2 2 6; mkTap 85 68 2 2 6; mkTap 86 0 2 2 6; mkTap 86 1 2 2 6; mkTap 86 2 2 2 6;
  mkTap 86 3 2 2 6; mkTap 86 4 2 2 6; mkTap 86 68 2 2 6; mkTap 87 0 2 2 6; mkTap 87 1 2 2 6; mkTap 87 2 2 2 6;
  mkTap 87 3 2 2 6; mkTap 87 4 2 2 6; mkTap 87 68 2 2 6; mkTap 88 0 2 2 6; mkTap 88 1 2 2 6; mkTap 88 2 2 2 6;
  mkTap 88 3 2 2 6; mkTap 88 4 2 2 6; mkTap 88 68 2 2 6; mkTap 89 0 2 2 6; mkTap 89 1 2 2 6; mkTap 89 2 2 2 6;
  mkTap 89 3 2 2 6; mkTap 89 4 2 2 6; mkTap 89 68 2 2 6; mkTap 90 0 2 2 6; mkTap 90 1 2 2 6; mkTap 90 2 2 2 6;
  mkTap 90 3 2 2 6; mkTap 90 4 2 2 6; mkTap 90 68 2 2 6; mkTap 91 0 2 2 6; mkTap 91 1 2 2 6; mkTap 91 2 2 2 6;
  mkTap 91 3 2 2 6; mkTap 91 4 2 2 6; mkTap 91 68 2 2 6; mkTap 92 0 2 1 2; mkTap 92 1 2 1 2; mkTap 93 0 2 1 2;
  mkTap 93 1 2 1 2; mkTap 94 0 2 3 6; mkTap 94 1 2 3 6; mkTap 94 2 2 3 6; mkTap 94 7 2 3 6; mkTap 94 15 2 3 6;
  mkTap 94 16 2 3 6; mkTap 95 0 2 3 6; mkTap 95 1 2 3 6; mkTap 95 2 2 3 6; mkTap 95 7 2 3 6; mkTap 95 15 2 3 6;
  mkTap 95 16 2 3 6; mkTap 96 0 2 3 6; mkTap 96 1 2 3 6; mkTap 96 2 2 3 6; mkTap 96 7 2 3 6; mkTap 96 15 2 3 6;
  mkTap 96 16 2 3 6; mkTap 97 0 2 3 6; mkTap 97 1 2 3 6; mkTap 97 2 2 3 6; mkTap 97 7 2 3 6; mkTap 97 15 2 3 6;
  mkTap 97 16 2 3 6; mkTap 98 0 2 3 6; mkTap 98 1 2 3 6; mkTap 98 2 2 3 6; mkTap 98 7 2 3 6; mkTap 98 15 2 3 6;
  mkTap 98 16 2 3 6; mkTap 99 0 2 3 6; mkTap 99 1 2 3 6; mkTap 99 2 2 3 6; mkTap 99 7 2 3 6; mkTap 99 15 2 3 6;
  mkTap 99 16 2 3 6; mkTap 100 0 2 3 6; mkTap 100 1 2 3 6; mkTap 100 2 2 3 6; mkTap 100 7 2 3 6; mkTap 100 15 2 3 6;
  mkTap 100 16 2 3 6; mkTap 101 0 2 3 6; mkTap 101 1 2 3 6; mkTap 101 2 2 3 6; mkTap 101 7 2 3 6; mkTap 101 15 2 3 6;
  mkTap 101 16 2 3 6; mkTap 102 0 2 3 6; mkTap 102 1 2 3 6; mkTap 102 2 2 3 6; mkTap 102 7 2 3 6; mkTap 102 15 2 3 6;
  mkTap 102 16 2 3 6; mkTap 103 0 2 3 6; mkTap 103 1 2 3 6; mkTap 103 2 2 3 6; mkTap 103 7 2 3 6; mkTap 103 15 2 3 6;
  mkTap 103 16 2 3 6; mkTap 104 0 2 3 6; mkTap 104 1 2 3 6; mkTap 104 2 2 3 6; mkTap 104 7 2 3 6; mkTap 104 15 2 3 6;
  mkTap 104 16 2 3 6; mkTap 105 0 2 3 6; mkTap 105 1 2 3 6; mkTap 105 2 2 3 6; mkTap 105 7 2 3 6; mkTap 105 15 2 3 6;
  mkTap 105 16 2 3 6; mkTap 106 0 2 3 6; mkTap 106 1 2 3 6; mkTap 106 2 2 3 6; mkTap 106 7 2 3 6; mkTap 106 15 2 3 6;
  mkTap 106 16 2 3 6; mkTap 107 0 2 3 6; mkTap 107 1 2 3 6; mkTap 107 2 2 3 6; mkTap 107 7 2 3 6; mkTap 107 15 2 3 6;
  mkTap 107 16 2 3 6; mkTap 108 0 2 3 6; mkTap 108 1 2 3 6; mkTap 108 2 2 3 6; mkTap 108 7 2 3 6; mkTap 108 15 2 3 6;
  mkTap 108 16 2 3 6; mkTap 109 0 2 3 6; mkTap 109 1 2 3 6; mkTap 109 2 2 3 6; mkTap 109 7 2 3 6; mkTap 109 15 2 3 6;
  mkTap 109 16 2 3 6; mkTap 110 0 2 3 6; mkTap 110 1 2 3 6; mkTap 110 2 2 3 6; mkTap 110 7 2 3 6; mkTap 110 15 2 3 6;
  mkTap 110 16 2 3 6; mkTap 111 0 2 3 6; mkTap 111 1 2 3 6; mkTap 111 2 2 3 6; mkTap 111 7 2 3 6; mkTap 111 15 2 3 6;
  mkTap 111 16 2 3 6; mkTap 112 0 2 3 6; mkTap 112 1 2 3 6; mkTap 112 2 2 3 6; mkTap 112 7 2 3 6; mkTap 112 15 2 3 6;
  mkTap 112 16 2 3 6; mkTap 113 0 2 3 6; mkTap 113 1 2 3 6; mkTap 113 2 2 3 6; mkTap 113 7 2 3 6; mkTap 113 15 2 3 6;
  mkTap 113 16 2 3 6; mkTap 114 0 2 4 5; mkTap 114 2 2 4 5; mkTap 114 7 2 4 5; mkTap 114 15 2 4 5;
  mkTap 114 16 2 4 5; mkTap 115 0 2 4 5; mkTap 115 2 2 4 5; mkTap 115 7 2 4 5; mkTap 115 15 2 4 5;
  mkTap 115 16 2 4 5; mkTap 116 0 2 4 5; mkTap 116 2 2 4 5; mkTap 116 7 2 4 5; mkTap 116 15 2 4 5;
  mkTap 116 16 2 4 5; mkTap 117 0 2 4 5; mkTap 117 2 2 4 5; mkTap 117 7 2 4 5; mkTap 117 15 2 4 5;
  mkTap 117 16 2 4 5; mkTap 118 0 2 4 5; mkTap 118 2 2 4 5; mkTap 118 7 2 4 5; mkTap 118 15 2 4 5;
  mkTap 118 16 2 4 5; mkTap 119 0 2 4 5; mkTap 119 2 2 4 5; mkTap 119 7 2 4 5; mkTap 119 15 2 4 5;
  mkTap 119 16 2 4 5; mkTap 120 0 2 4 5; mkTap 120 2 2 4 5; mkTap 120 7 2 4 5; mkTap 120 15 2 4 5;
  mkTap 120 16 2 4 5; mkTap 121 0 2 4 5; mkTap 121 2 2 4 5; mkTap 121 7 2 4 5; mkTap 121 15 2 4 5;
  mkTap 121 16 2 4 5; mkTap 122 0 2 4 5; mkTap 122 2 2 4 5; mkTap 122 7 2 4 5; mkTap 122 15 2 4 5;
  mkTap 122 16 2 4 5; mkTap 123 0 2 4 5; mkTap 123 2 2 4 5; mkTap 123 7 2 4 5; mkTap 123 15 2 4 5;
  mkTap 123 16 2 4 5; mkTap 124 0 2 4 5; mkTap 124 2 2 4 5; mkTap 124 7 2 4 5; mkTap 124 15 2 4 5;
  mkTap 124 16 2 4 5; mkTap 125 0 2 3 6; mkTap 125 1 2 3 6; mkTap 125 2 2 3 6; mkTap 125 7 2 3 6; mkTap 125 15 2 3 6;
  mkTap 125 16 2 3 6; mkTap 126 0 2 0 1; mkTap 127 0 2 0 1].

(* L21-4534 TAPSET *)
Definition TAPSET : Taps.TapSet :=
  mkTaps (taps_accum ++ taps_code ++ taps_data)
    [0; 0; 1; 0; 1; 2; 3; 4; 68; 0; 1; 2; 7; 15; 16; 0; 2; 7; 15; 16] [0; 1; 3; 9; 15; 20] [0; 16; 39; 643] 5 163 20 [0; 1; 2].

Open Scope Z_scope.
Import Binary.

(* source: src/risc0/risc0/circuit/recursion/src/poly_ext.rs *)
(* L28-527 DEF.block *)
Definition block_0 : list Step := [
  Const 0; Const 1; Const 2; Const 3; Const 4; Const 5; Const 6; Const 7; Const 8; Const 9; Const 10;
  Const 2013265910; Const 65536; Const 1509949441; Const 16; Const 32; Const 64; Const 128; Const 2005401601;
  Const 256; Const 512; Const 1024; Const 2048; Const 4096; Const 8192; Const 16384; Const 32768; Const 2013235201;
  Const 131072; Const 262144; Const 524288; Const 1048576; Const 2097152; Const 4194304; Const 8388608;
  Const 16777216; Const 33554432; Const 67108864; Const 134217728; Const 268435456; Const 536870912;
  Const 1073741824; Const 268435454; Const 943718400; Const 262278199; Const 127253399; Const 314968988;
  Const 246143118; Const 157582794; Const 118043943; Const 454905424; Const 815798990; Const 1004040026;
  Const 1773108264; Const 1066694495; Const 1930780904; Const 1180307149; Const 1464793095; Const 1660766320;
  Const 1389166148; Const 343354132; Const 1307439985; Const 638242172; Const 525458520; Const 1964135730;
  Const 1751797115; Const 1421525369; Const 831813382; Const 1003792297; Const 1006235079; Const 1090783436;
  Const 1111203133; Const 1124078057; Const 1150912935; Const 1170029417; Const 117294666; Const 1201063290;
  Const 1206940496; Const 1209164052; Const 1213686459; Const 1221257987; Const 1239734761; Const 1262312258;
  Const 1269493554; Const 1282239129; Const 128479034; Const 1290028279; Const 1291790245; Const 1296144415;
  Const 1303271640; Const 1333667262; Const 1338899225; Const 1339793538; Const 1380248020; Const 1393671120;
  Const 1401020792; Const 140621810; Const 1454563174; Const 150307788; Const 1507936940; Const 1518763784;
  Const 1545325389; Const 1587822577; Const 1608891156; Const 162506101; Const 1647665372; Const 1647670797;
  Const 1649953458; Const 1672219447; Const 1687379185; Const 1715719711; Const 1718628547; Const 172614232;
  Const 1737016378; Const 1740472809; Const 1781980094; Const 1832911930; Const 1845603984; Const 1889603648;
  Const 1889898; Const 1896271507; Const 1917549072; Const 1917861751; Const 1989924532; Const 1997503974;
  Const 202271745; Const 204228775; Const 228520958; Const 238616145; Const 241306552; Const 273790406;
  Const 306391314; Const 342857858; Const 390340387; Const 395622276; Const 427731030; Const 459826664;
  Const 51256176; Const 53007114; Const 540703332; Const 588764636; Const 608401422; Const 622609176;
  Const 641665156; Const 686842369; Const 695835963; Const 708123747; Const 714957516; Const 716894289;
  Const 738091882; Const 755691969; Const 781141772; Const 78845751; Const 790726260; Const 809508074;
  Const 813674331; Const 825405577; Const 897025192; Const 925018226; Const 930036496; Const 942439428;
  Const 989176635; Const 989618631; Const 993455846; Const 1042892522; Const 1065075039; Const 1079030649;
  Const 1080533265; Const 1099252725; Const 1147522062; Const 1150410028; Const 1198261138; Const 1215259350;
  Const 1257820264; Const 1293938517; Const 1402624179; Const 142102402; Const 1424297384; Const 1463323727;
  Const 1478577620; Const 1507649755; Const 1549062383; Const 1567618575; Const 1584033957; Const 158646617;
  Const 1608853840; Const 1622328571; Const 162510541; Const 1663353317; Const 1664590951; Const 1748789933;
  Const 1827572010; Const 1841795381; Const 1891637550; Const 1908416316; Const 1910423126; Const 192082241;
  Const 1950429111; Const 217046702; Const 27129487; Const 447555988; Const 457372011; Const 538103555;
  Const 552696906; Const 59510015; Const 623051854; Const 760115692; Const 76770019; Const 855276054;
  Const 862495875; Const 890243564; Const 946500736; Const 497520322; Const 1001081699; Const 106789798;
  Const 1083257840; Const 111593398; Const 1188752902; Const 13683276; Const 1389833583; Const 1461037801;
  Const 1558116381; Const 1792686146; Const 1867716110; Const 1928969209; Const 1942928017; Const 1974912880;
  Const 1997365680; Const 20525701; Const 375892129; Const 51866717; Const 606789471; Const 658182609;
  Const 65998480; Const 801504236; Const 918610824; Const 98371040; Const 1930103076; Const 1052077299;
  Const 1540960371; Const 924863639; Const 1365519753; Const 1726563304; Const 440300254; Const 1891545577;
  Const 822033215; Const 1111544260; Const 308575117; Const 1708681573; Const 1240419708; Const 1199068823;
  Const 1186174623; Const 1551596046; Const 1886977120; Const 1327682690; Const 1210751726; Const 1810596765;
  Const 53041581; Const 723038058; Const 1439947916; Const 1136469704; Const 205609311; Const 1883820770;
  Const 14387587; Const 720724951; Const 1854174607; Const 1629316321; Const 530151394; Const 1679178250;
  Const 1549779579; Const 48375137; Const 976057819; Const 463976218; Const 875839332; Const 1946596189;
  Const 434078361; Const 1878280202; Const 1363837384; Const 1470845646; Const 1792450386; Const 1040977421;
  Const 12; Const 48; Const 192; True_; Get 17; Get 24; Get 16; Get 496; Get 450; Get 456; Get 458; Get 460; Get 466;
  Get 472; Get 478; Get 484; Get 490; Mul 287 10; Mul 289 2; Mul 290 3; Mul 291 4; Mul 292 5; Mul 293 6; Mul 294 7;
  Mul 295 8; Mul 296 9; Add 288 298; Add 306 299; Add 307 300; Add 308 301; Add 309 302; Add 310 303; Add 311 304;
  Add 312 305; Add 313 297; Sub 314 285; AndEqz 0 315; Get 444; Get 25; Get 27; Get 26; Get 49; AndEqz 0 320; Get 50;
  AndEqz 2 321; Get 51; AndEqz 3 322; Get 52; AndEqz 4 323; Get 53; AndEqz 5 324; Get 54; AndEqz 6 325; Get 55;
  AndEqz 7 326; Get 56; AndEqz 8 327; Get 57; AndEqz 9 328; Get 58; AndEqz 10 329; Get 59; Sub 330 286;
  AndEqz 11 331; Get 60; Sub 332 317; AndEqz 12 333; Get 61; Sub 334 319; AndEqz 13 335; Get 62; Sub 336 318;
  AndEqz 14 337; Get 63; AndEqz 15 338; AndCond 1 316 16; Sub 320 317; AndEqz 0 339; Sub 325 319; AndEqz 18 340;
  Add 321 326; Add 322 327; Add 323 328; Add 324 329; AndEqz 19 331; Sub 332 341; AndEqz 20 345; Sub 334 342;
  AndEqz 21 346; Sub 336 343; AndEqz 22 347; Sub 338 344; AndEqz 23 348; AndCond 17 288 24; Sub 321 326; Sub 322 327;
  Sub 323 328; Sub 324 329; Sub 332 349; AndEqz 20 353; Sub 334 350; AndEqz 26 354; Sub 336 351; AndEqz 27 355;
  Sub 338 352; AndEqz 28 356; AndCond 25 289 29; Mul 321 326; Mul 321 327; Mul 321 328; Mul 321 329; Mul 322 329;
  Mul 323 329; Mul 324 329; Mul 322 326; Mul 322 327; Mul 322 328; Mul 323 326; Mul 323 327; Mul 323 328;
  Mul 324 326; Mul 324 327; Mul 324 328; Mul 363 11; Add 358 364; Add 359 365; Add 360 366; Add 361 369; Add 362 372;
  Mul 378 11; Add 375 367; Add 376 368; Add 377 371; Add 380 373; Add 381 370; Add 374 379; Mul 382 11; Add 357 386;
  Sub 332 387; AndEqz 20 388; Sub 334 385; AndEqz 31 389; Sub 336 383; AndEqz 32 390; Sub 338 384; AndEqz 33 391;
  AndCond 30 290 34; Mul 291 319; AndEqz 18 325; AndEqz 36 326; AndEqz 37 327; AndEqz 38 328; AndEqz 39 329;
  Mul 321 332; Mul 321 334; Mul 321 336; Mul 321 338; Mul 322 338; Mul 323 338; Mul 324 338; Mul 322 332;
  Mul 322 334; Mul 322 336; Mul 323 332; Mul 323 334; Mul 323 336; Mul 324 332; Mul 324 334; Mul 324 336; Mul 399 11;
  Add 394 400; Add 395 401; Add 396 402; Add 397 405; Add 398 408; Mul 414 11; Add 411 403; Add 412 404; Add 413 407;
  Add 416 409; Add 417 406; Add 410 415; Mul 418 11; Add 393 422; Sub 1 423; AndEqz 40 424; Sub 0 421; AndEqz 41 425;
  Sub 0 419; AndEqz 42 426; Sub 0 420; AndEqz 43 427; AndCond 35 392 44; Sub 1 319; Mul 291 428; Get 502; Sub 1 332;
  Mul 332 431; AndEqz 40 432; Mul 430 321; Sub 433 431; AndEqz 46 434; AndEqz 47 393; AndCond 45 429 48; Sub 0 332;
  AndEqz 29 435; Sub 0 334; AndEqz 50 436; Sub 0 336; AndEqz 51 437; Sub 0 338; AndEqz 52 438; AndCond 49 292 53;
  AndEqz 12 332; AndEqz 55 334; AndEqz 56 336; AndEqz 57 338; AndCond 54 293 58; Mul 317 334].

(* L528-1027 DEF.block *)
Definition block_1 : list Step := [
  AndEqz 11 439; Mul 319 336; AndEqz 60 440; Mul 319 338; AndEqz 61 441; AndCond 59 294 62; Get 636; Mul 318 442;
  Mul 443 12; Add 444 322; Mul 445 12; Add 446 321; Mul 447 12; Add 448 327; Mul 449 12; Add 450 326; Sub 430 451;
  AndEqz 19 452; AndEqz 64 331; Sub 332 451; AndEqz 65 453; AndEqz 66 334; AndEqz 67 336; AndEqz 68 338;
  AndCond 63 295 69; Mul 318 321; Add 319 454; Sub 325 455; AndEqz 18 456; AndEqz 71 331; Sub 332 326; AndEqz 72 457;
  Sub 334 327; AndEqz 73 458; Sub 336 328; AndEqz 74 459; Sub 338 329; AndEqz 75 460; AndCond 70 296 76; Mul 319 318;
  Sub 1 318; Mul 319 462; Mul 461 324; Mul 428 318; Mul 428 462; Mul 463 323; Mul 465 322; Mul 466 321; Add 464 467;
  Add 470 468; Add 471 469; AndEqz 40 331; Sub 332 472; AndEqz 78 473; AndEqz 79 334; AndEqz 80 336; AndEqz 81 338;
  AndCond 77 287 82; Add 286 1; Get 28; Get 514; Get 520; Get 526; Get 532; Get 538; Get 544; Get 550; Get 556;
  Get 562; Get 568; Mul 477 2; Mul 478 3; Mul 479 4; Mul 480 5; Mul 481 6; Mul 482 7; Mul 483 8; Mul 484 9;
  Mul 485 10; Add 476 486; Add 495 487; Add 496 488; Add 497 489; Add 498 490; Add 499 491; Add 500 492; Add 501 493;
  Add 502 494; Sub 503 475; AndEqz 83 504; Get 508; Get 29; Get 31; Get 30; Get 64; AndEqz 0 509; Get 65;
  AndEqz 85 510; Get 66; AndEqz 86 511; Get 67; AndEqz 87 512; Get 68; AndEqz 88 513; Get 69; AndEqz 89 514; Get 70;
  AndEqz 90 515; Get 76; AndEqz 91 516; Get 82; AndEqz 92 517; Get 88; AndEqz 93 518; Get 94; Sub 519 474;
  AndEqz 94 520; Get 100; Sub 521 506; AndEqz 95 522; Get 106; Sub 523 508; AndEqz 96 524; Get 112; Sub 525 507;
  AndEqz 97 526; Get 118; AndEqz 98 527; AndCond 84 505 99; Sub 509 506; AndEqz 0 528; Sub 514 508; AndEqz 101 529;
  Add 510 515; Add 511 516; Add 512 517; Add 513 518; AndEqz 102 520; Sub 521 530; AndEqz 103 534; Sub 523 531;
  AndEqz 104 535; Sub 525 532; AndEqz 105 536; Sub 527 533; AndEqz 106 537; AndCond 100 476 107; Sub 510 515;
  Sub 511 516; Sub 512 517; Sub 513 518; Sub 521 538; AndEqz 103 542; Sub 523 539; AndEqz 109 543; Sub 525 540;
  AndEqz 110 544; Sub 527 541; AndEqz 111 545; AndCond 108 477 112; Mul 510 515; Mul 510 516; Mul 510 517;
  Mul 510 518; Mul 511 518; Mul 512 518; Mul 513 518; Mul 511 515; Mul 511 516; Mul 511 517; Mul 512 515;
  Mul 512 516; Mul 512 517; Mul 513 515; Mul 513 516; Mul 513 517; Mul 552 11; Add 547 553; Add 548 554; Add 549 555;
  Add 550 558; Add 551 561; Mul 567 11; Add 564 556; Add 565 557; Add 566 560; Add 569 562; Add 570 559; Add 563 568;
  Mul 571 11; Add 546 575; Sub 521 576; AndEqz 103 577; Sub 523 574; AndEqz 114 578; Sub 525 572; AndEqz 115 579;
  Sub 527 573; AndEqz 116 580; AndCond 113 478 117; Mul 479 508; AndEqz 101 514; AndEqz 119 515; AndEqz 120 516;
  AndEqz 121 517; AndEqz 122 518; Mul 510 521; Mul 510 523; Mul 510 525; Mul 510 527; Mul 511 527; Mul 512 527;
  Mul 513 527; Mul 511 521; Mul 511 523; Mul 511 525; Mul 512 521; Mul 512 523; Mul 512 525; Mul 513 521;
  Mul 513 523; Mul 513 525; Mul 588 11; Add 583 589; Add 584 590; Add 585 591; Add 586 594; Add 587 597; Mul 603 11;
  Add 600 592; Add 601 593; Add 602 596; Add 605 598; Add 606 595; Add 599 604; Mul 607 11; Add 582 611; Sub 1 612;
  AndEqz 123 613; Sub 0 610; AndEqz 124 614; Sub 0 608; AndEqz 125 615; Sub 0 609; AndEqz 126 616;
  AndCond 118 581 127; Sub 1 508; Mul 479 617; Get 574; Sub 1 521; Mul 521 620; AndEqz 123 621; Mul 619 510;
  Sub 622 620; AndEqz 129 623; AndEqz 130 582; AndCond 128 618 131; Sub 0 521; AndEqz 112 624; Sub 0 523;
  AndEqz 133 625; Sub 0 525; AndEqz 134 626; Sub 0 527; AndEqz 135 627; AndCond 132 480 136; AndEqz 95 521;
  AndEqz 138 523; AndEqz 139 525; AndEqz 140 527; AndCond 137 481 141; Mul 506 523; AndEqz 94 628; Mul 508 525;
  AndEqz 143 629; Mul 508 527; AndEqz 144 630; AndCond 142 482 145; Get 502; Mul 507 631; Mul 632 12; Add 633 511;
  Mul 634 12; Add 635 510; Mul 636 12; Add 637 516; Mul 638 12; Add 639 515; Sub 619 640; AndEqz 102 641;
  AndEqz 147 520; Sub 521 640; AndEqz 148 642; AndEqz 149 523; AndEqz 150 525; AndEqz 151 527; AndCond 146 483 152;
  Mul 507 510; Add 508 643; Sub 514 644; AndEqz 101 645; AndEqz 154 520; Sub 521 515; AndEqz 155 646; Sub 523 516;
  AndEqz 156 647; Sub 525 517; AndEqz 157 648; Sub 527 518; AndEqz 158 649; AndCond 153 484 159; Mul 508 507;
  Sub 1 507; Mul 508 651; Mul 650 513; Mul 617 507; Mul 617 651; Mul 652 512; Mul 654 511; Mul 655 510; Add 653 656;
  Add 659 657; Add 660 658; AndEqz 123 520; Sub 521 661; AndEqz 161 662; AndEqz 162 523; AndEqz 163 525;
  AndEqz 164 527; AndCond 160 485 165; Add 286 2; Get 32; Get 585; Get 590; Get 595; Get 600; Get 605; Get 610;
  Get 615; Get 620; Get 625; Get 630; Mul 666 2; Mul 667 3; Mul 668 4; Mul 669 5; Mul 670 6; Mul 671 7; Mul 672 8;
  Mul 673 9; Mul 674 10; Add 665 675; Add 684 676; Add 685 677; Add 686 678; Add 687 679; Add 688 680; Add 689 681;
  Add 690 682; Add 691 683; Sub 692 664; AndEqz 166 693; Get 580; Get 33; Get 35; Get 34; Get 124; AndEqz 0 698;
  Get 130; AndEqz 168 699; Get 136; AndEqz 169 700; Get 142; AndEqz 170 701; Get 148; AndEqz 171 702; Get 154;
  AndEqz 172 703; Get 160; AndEqz 173 704; Get 166; AndEqz 174 705; Get 172; AndEqz 175 706; Get 178; AndEqz 176 707;
  Get 184; Sub 708 663; AndEqz 177 709; Get 190; Sub 710 695; AndEqz 178 711; Get 196; Sub 712 697; AndEqz 179 713;
  Get 202; Sub 714 696; AndEqz 180 715; Get 208; AndEqz 181 716; AndCond 167 694 182; Sub 698 695; AndEqz 0 717;
  Sub 703 697; AndEqz 184 718; Add 699 704; Add 700 705; Add 701 706; Add 702 707; AndEqz 185 709; Sub 710 719;
  AndEqz 186 723; Sub 712 720; AndEqz 187 724; Sub 714 721; AndEqz 188 725; Sub 716 722; AndEqz 189 726;
  AndCond 183 665 190; Sub 699 704; Sub 700 705; Sub 701 706; Sub 702 707; Sub 710 727; AndEqz 186 731; Sub 712 728;
  AndEqz 192 732; Sub 714 729; AndEqz 193 733; Sub 716 730; AndEqz 194 734; AndCond 191 666 195; Mul 699 704;
  Mul 699 705; Mul 699 706; Mul 699 707; Mul 700 707; Mul 701 707; Mul 702 707; Mul 700 704; Mul 700 705;
  Mul 700 706; Mul 701 704; Mul 701 705; Mul 701 706; Mul 702 704; Mul 702 705; Mul 702 706; Mul 741 11; Add 736 742;
  Add 737 743; Add 738 744; Add 739 747; Add 740 750; Mul 756 11; Add 753 745; Add 754 746; Add 755 749; Add 758 751;
  Add 759 748; Add 752 757; Mul 760 11; Add 735 764; Sub 710 765; AndEqz 186 766; Sub 712 763; AndEqz 197 767;
  Sub 714 761; AndEqz 198 768; Sub 716 762; AndEqz 199 769; AndCond 196 667 200; Mul 668 697; AndEqz 184 703;
  AndEqz 202 704; AndEqz 203 705; AndEqz 204 706; AndEqz 205 707; Mul 699 710; Mul 699 712; Mul 699 714; Mul 699 716;
  Mul 700 716; Mul 701 716; Mul 702 716; Mul 700 710; Mul 700 712; Mul 700 714; Mul 701 710; Mul 701 712;
  Mul 701 714; Mul 702 710; Mul 702 712; Mul 702 714; Mul 777 11; Add 772 778; Add 773 779; Add 774 780; Add 775 783;
  Add 776 786].

(* L1028-1527 DEF.block *)
Definition block_2 : list Step := [
  Mul 792 11; Add 789 781; Add 790 782; Add 791 785; Add 794 787; Add 795 784; Add 788 793; Mul 796 11; Add 771 800;
  Sub 1 801; AndEqz 206 802; Sub 0 799; AndEqz 207 803; Sub 0 797; AndEqz 208 804; Sub 0 798; AndEqz 209 805;
  AndCond 201 770 210; Sub 1 697; Mul 668 806; Get 635; Sub 1 710; Mul 710 809; AndEqz 206 810; Mul 808 699;
  Sub 811 809; AndEqz 212 812; AndEqz 213 771; AndCond 211 807 214; Sub 0 710; AndEqz 195 813; Sub 0 712;
  AndEqz 216 814; Sub 0 714; AndEqz 217 815; Sub 0 716; AndEqz 218 816; AndCond 215 669 219; AndEqz 178 710;
  AndEqz 221 712; AndEqz 222 714; AndEqz 223 716; AndCond 220 670 224; Mul 695 712; AndEqz 177 817; Mul 697 714;
  AndEqz 226 818; Mul 697 716; AndEqz 227 819; AndCond 225 671 228; Get 574; Mul 696 820; Mul 821 12; Add 822 700;
  Mul 823 12; Add 824 699; Mul 825 12; Add 826 705; Mul 827 12; Add 828 704; Sub 808 829; AndEqz 185 830;
  AndEqz 230 709; Sub 710 829; AndEqz 231 831; AndEqz 232 712; AndEqz 233 714; AndEqz 234 716; AndCond 229 672 235;
  Mul 696 699; Add 697 832; Sub 703 833; AndEqz 184 834; AndEqz 237 709; Sub 710 704; AndEqz 238 835; Sub 712 705;
  AndEqz 239 836; Sub 714 706; AndEqz 240 837; Sub 716 707; AndEqz 241 838; AndCond 236 673 242; Mul 697 696;
  Sub 1 696; Mul 697 840; Mul 839 702; Mul 806 696; Mul 806 840; Mul 841 701; Mul 843 700; Mul 844 699; Add 842 845;
  Add 848 846; Add 849 847; AndEqz 206 709; Sub 710 850; AndEqz 244 851; AndEqz 245 712; AndEqz 246 714;
  AndEqz 247 716; AndCond 243 674 248; AndCond 0 284 249; Get 18; AndCond 0 317 0; Sub 326 286; AndEqz 0 853;
  AndEqz 252 327; AndEqz 253 328; AndEqz 254 329; AndEqz 255 330; AndCond 251 319 256; Sub 326 697; AndEqz 0 854;
  Sub 332 696; AndEqz 258 855; Mul 699 700; Mul 701 702; Mul 701 2; Mul 702 2; Mul 857 2; Add 699 858; Add 700 859;
  Add 856 860; Mul 703 704; Mul 703 4; Mul 704 4; Mul 864 4; Add 861 865; Add 862 866; Add 863 867; Mul 705 706;
  Mul 705 8; Mul 706 8; Mul 871 8; Add 868 872; Add 869 873; Add 870 874; Mul 707 708; Mul 707 14; Mul 708 14;
  Mul 878 14; Add 875 879; Add 876 880; Add 877 881; Mul 710 712; Mul 710 15; Mul 712 15; Mul 885 15; Add 882 886;
  Add 883 887; Add 884 888; Mul 714 716; Mul 714 16; Mul 716 16; Mul 892 16; Add 889 893; Add 890 894; Add 891 895;
  Get 214; Get 220; Mul 899 900; Mul 899 17; Mul 900 17; Mul 901 17; Add 896 902; Add 897 903; Add 898 904; Get 226;
  Get 232; Mul 908 909; Mul 908 19; Mul 909 19; Mul 910 19; Add 905 911; Add 906 912; Add 907 913; Get 238; Get 244;
  Mul 917 918; Mul 917 20; Mul 918 20; Mul 919 20; Add 914 920; Add 915 921; Add 916 922; Get 250; Get 256;
  Mul 926 927; Mul 926 21; Mul 927 21; Mul 928 21; Add 923 929; Add 924 930; Add 925 931; Get 262; Get 263;
  Mul 935 936; Mul 935 22; Mul 936 22; Mul 937 22; Add 932 938; Add 933 939; Add 934 940; Get 264; Get 270;
  Mul 944 945; Mul 944 23; Mul 945 23; Mul 946 23; Add 941 947; Add 942 948; Add 943 949; Get 276; Get 282;
  Mul 953 954; Mul 953 24; Mul 954 24; Mul 955 24; Add 950 956; Add 951 957; Add 952 958; Get 288; Get 294;
  Mul 962 963; Mul 962 25; Mul 963 25; Mul 964 25; Add 959 965; Add 960 966; Add 961 967; Get 300; Get 306;
  Mul 971 972; Mul 971 26; Mul 972 26; Mul 973 26; Add 968 974; Add 969 975; Add 970 976; Get 312; Get 318;
  Mul 980 981; Mul 980 12; Mul 981 12; Mul 982 12; Add 977 983; Add 978 984; Add 979 985; Get 324; Get 330;
  Mul 989 990; Mul 989 28; Mul 990 28; Mul 991 28; Add 986 992; Add 987 993; Add 988 994; Get 336; Get 342;
  Mul 998 999; Mul 998 29; Mul 999 29; Mul 1000 29; Add 995 1001; Add 996 1002; Add 997 1003; Get 348; Get 354;
  Mul 1007 1008; Mul 1007 30; Mul 1008 30; Mul 1009 30; Add 1004 1010; Add 1005 1011; Add 1006 1012; Get 360;
  Get 366; Mul 1016 1017; Mul 1016 31; Mul 1017 31; Mul 1018 31; Add 1013 1019; Add 1014 1020; Add 1015 1021;
  Get 372; Get 378; Mul 1025 1026; Mul 1025 32; Mul 1026 32; Mul 1027 32; Add 1022 1028; Add 1023 1029;
  Add 1024 1030; Get 384; Get 390; Mul 1034 1035; Mul 1034 33; Mul 1035 33; Mul 1036 33; Add 1031 1037;
  Add 1032 1038; Add 1033 1039; Get 396; Get 402; Mul 1043 1044; Mul 1043 34; Mul 1044 34; Mul 1045 34;
  Add 1040 1046; Add 1041 1047; Add 1042 1048; Get 408; Get 414; Mul 1052 1053; Mul 1052 35; Mul 1053 35;
  Mul 1054 35; Add 1049 1055; Add 1050 1056; Add 1051 1057; Get 420; Get 426; Mul 1061 1062; Mul 1061 36;
  Mul 1062 36; Mul 1063 36; Add 1058 1064; Add 1059 1065; Add 1060 1066; Get 432; Get 438; Mul 1070 1071;
  Mul 1070 37; Mul 1071 37; Mul 1072 37; Add 1067 1073; Add 1068 1074; Add 1069 1075; Mul 316 288; Mul 316 38;
  Mul 288 38; Mul 1079 38; Add 1076 1080; Add 1077 1081; Add 1078 1082; Mul 289 290; Mul 289 39; Mul 290 39;
  Mul 1086 39; Add 1083 1087; Add 1084 1088; Add 1085 1089; Mul 291 292; Mul 291 40; Mul 292 40; Mul 1093 40;
  Add 1090 1094; Add 1091 1095; Add 1092 1096; Mul 293 294; Mul 293 41; Mul 294 41; Mul 1100 41; Add 1097 1101;
  Add 1098 1102; Add 1099 1103; Sub 1104 327; AndEqz 259 1107; Sub 1105 334; AndEqz 260 1108; Sub 510 286;
  AndEqz 261 1109; Sub 511 1106; AndEqz 262 1110; AndEqz 263 512; AndEqz 264 513; AndEqz 265 514;
  AndCond 257 318 266; Get 36; Mul 699 980; Mul 700 981; Mul 700 2; Mul 981 2; Mul 1113 2; Add 699 1114;
  Add 980 1115; Add 1112 1116; Mul 701 989; Mul 701 4; Mul 989 4; Mul 1120 4; Add 1117 1121; Add 1118 1122;
  Add 1119 1123; Mul 702 990; Mul 702 8; Mul 990 8; Mul 1127 8; Add 1124 1128; Add 1125 1129; Add 1126 1130;
  Mul 703 998; Mul 703 14; Mul 998 14; Mul 1134 14; Add 1131 1135; Add 1132 1136; Add 1133 1137; Mul 704 999;
  Mul 704 15; Mul 999 15; Mul 1141 15; Add 1138 1142; Add 1139 1143; Add 1140 1144; Mul 705 1007; Mul 705 16;
  Mul 1007 16; Mul 1148 16; Add 1145 1149; Add 1146 1150; Add 1147 1151; Mul 706 1008; Mul 706 17; Mul 1008 17;
  Mul 1155 17; Add 1152 1156; Add 1153 1157; Add 1154 1158; Mul 707 1016; Mul 707 19; Mul 1016 19; Mul 1162 19;
  Add 1159 1163; Add 1160 1164; Add 1161 1165; Mul 708 1017; Mul 708 20; Mul 1017 20; Mul 1169 20; Add 1166 1170;
  Add 1167 1171; Add 1168 1172; Mul 710 1025; Mul 710 21; Mul 1025 21; Mul 1176 21; Add 1173 1177; Add 1174 1178;
  Add 1175 1179; Mul 712 1026; Mul 712 22; Mul 1026 22; Mul 1183 22; Add 1180 1184; Add 1181 1185; Add 1182 1186;
  Mul 714 1034; Mul 714 23; Mul 1034 23; Mul 1190 23; Add 1187 1191; Add 1188 1192; Add 1189 1193; Mul 716 1035;
  Mul 716 24; Mul 1035 24; Mul 1197 24; Add 1194 1198; Add 1195 1199; Add 1196 1200; Mul 899 1043; Mul 899 25;
  Mul 1043 25; Mul 1204 25; Add 1201 1205; Add 1202 1206; Add 1203 1207; Mul 900 1044; Mul 900 26; Mul 1044 26;
  Mul 1211 26; Add 1208 1212; Add 1209 1213; Add 1210 1214; Sub 1215 327; AndEqz 259 1218; Sub 1216 334;
  AndEqz 268 1219; Mul 908 1052; Mul 909 1053; Mul 909 2; Mul 1053 2; Mul 1221 2; Add 908 1222; Add 1052 1223;
  Add 1220 1224; Mul 917 1061; Mul 917 4].

(* L1528-2027 DEF.block *)
Definition block_3 : list Step := [
  Mul 1061 4; Mul 1228 4; Add 1225 1229; Add 1226 1230; Add 1227 1231; Mul 918 1062; Mul 918 8; Mul 1062 8;
  Mul 1235 8; Add 1232 1236; Add 1233 1237; Add 1234 1238; Mul 926 1070; Mul 926 14; Mul 1070 14; Mul 1242 14;
  Add 1239 1243; Add 1240 1244; Add 1241 1245; Mul 927 1071; Mul 927 15; Mul 1071 15; Mul 1249 15; Add 1246 1250;
  Add 1247 1251; Add 1248 1252; Mul 935 316; Mul 935 16; Mul 316 16; Mul 1256 16; Add 1253 1257; Add 1254 1258;
  Add 1255 1259; Mul 936 288; Mul 936 17; Mul 288 17; Mul 1263 17; Add 1260 1264; Add 1261 1265; Add 1262 1266;
  Mul 944 289; Mul 944 19; Mul 289 19; Mul 1270 19; Add 1267 1271; Add 1268 1272; Add 1269 1273; Mul 945 290;
  Mul 945 20; Mul 290 20; Mul 1277 20; Add 1274 1278; Add 1275 1279; Add 1276 1280; Mul 953 291; Mul 953 21;
  Mul 291 21; Mul 1284 21; Add 1281 1285; Add 1282 1286; Add 1283 1287; Mul 954 292; Mul 954 22; Mul 292 22;
  Mul 1291 22; Add 1288 1292; Add 1289 1293; Add 1290 1294; Mul 962 293; Mul 962 23; Mul 293 23; Mul 1298 23;
  Add 1295 1299; Add 1296 1300; Add 1297 1301; Mul 963 294; Mul 963 24; Mul 294 24; Mul 1305 24; Add 1302 1306;
  Add 1303 1307; Add 1304 1308; Mul 971 295; Mul 971 25; Mul 295 25; Mul 1312 25; Add 1309 1313; Add 1310 1314;
  Add 1311 1315; Mul 972 296; Mul 296 26; Mul 1319 26; Add 1316 975; Add 1317 1320; Add 1318 1321; Sub 1322 328;
  AndEqz 269 1325; Sub 1323 336; AndEqz 270 1326; Mul 1324 12; Add 1327 1217; AndEqz 0 1109; Sub 511 1328;
  AndEqz 272 1329; AndEqz 273 512; AndEqz 274 513; AndEqz 275 514; AndCond 271 1111 276; Sub 1 1111; Mul 1324 2;
  Mul 1217 2; Add 327 334; Add 328 336; Sub 1333 1332; Sub 1334 1331; Sub 511 1335; AndEqz 272 1337; Sub 512 1336;
  AndEqz 278 1338; AndEqz 279 513; AndEqz 280 514; AndCond 277 1330 281; AndCond 267 475 282; Mul 287 16; Mul 430 17;
  Mul 505 19; Mul 476 20; Mul 477 21; Mul 478 22; Mul 479 23; Mul 480 24; Mul 481 25; Mul 482 26; Mul 292 2;
  Mul 293 4; Mul 294 8; Mul 295 14; Mul 296 15; Add 291 1349; Add 1354 1350; Add 1355 1351; Add 1356 1352;
  Add 1357 1353; Add 1358 1339; Add 1359 1340; Add 1360 1341; Add 1361 1342; Add 1362 1343; Add 1363 1344;
  Add 1364 1345; Add 1365 1346; Add 1366 1347; Add 1367 1348; Sub 0 1368; Mul 1369 27; Sub 1370 324; Mul 1371 13;
  Sub 1 1372; Mul 1372 1373; AndEqz 259 1374; Mul 484 2; Mul 485 4; Mul 619 8; Mul 694 14; Mul 665 15; Mul 666 16;
  Mul 667 17; Mul 668 19; Mul 669 20; Mul 670 21; Mul 671 22; Mul 672 23; Mul 673 24; Mul 674 25; Mul 808 26;
  Add 483 1375; Add 1390 1376; Add 1391 1377; Add 1392 1378; Add 1393 1379; Add 1394 1380; Add 1395 1381;
  Add 1396 1382; Add 1397 1383; Add 1398 1384; Add 1399 1385; Add 1400 1386; Add 1401 1387; Add 1402 1388;
  Add 1403 1389; Sub 1370 1404; Mul 1405 27; Sub 1406 325; Mul 1407 13; Sub 1 1408; Mul 1408 1409; AndEqz 284 1410;
  Mul 516 2; Mul 517 4; Mul 518 8; Mul 519 14; Mul 521 15; Mul 523 16; Mul 525 17; Mul 527 19; Mul 698 20;
  Mul 699 21; Mul 700 22; Mul 701 23; Mul 702 24; Mul 703 25; Mul 704 26; Add 515 1411; Add 1426 1412; Add 1427 1413;
  Add 1428 1414; Add 1429 1415; Add 1430 1416; Add 1431 1417; Add 1432 1418; Add 1433 1419; Add 1434 1420;
  Add 1435 1421; Add 1436 1422; Add 1437 1423; Add 1438 1424; Add 1439 1425; Sub 327 1440; Mul 1441 27; Sub 1442 320;
  Mul 1443 13; Sub 1 1444; Mul 1444 1445; AndEqz 285 1446; Add 328 1442; Mul 706 2; Mul 707 4; Mul 708 8; Mul 710 14;
  Mul 716 17; Mul 899 19; Mul 900 20; Mul 908 21; Mul 909 22; Mul 917 23; Mul 918 24; Mul 926 25; Mul 927 26;
  Add 705 1448; Add 1461 1449; Add 1462 1450; Add 1463 1451; Add 1464 887; Add 1465 893; Add 1466 1452;
  Add 1467 1453; Add 1468 1454; Add 1469 1455; Add 1470 1456; Add 1471 1457; Add 1472 1458; Add 1473 1459;
  Add 1474 1460; Sub 1447 1475; Mul 1476 27; Sub 1477 321; Mul 1478 13; Sub 1 1479; Mul 1479 1480; AndEqz 286 1481;
  Mul 945 2; Mul 953 4; Mul 954 8; Mul 962 14; Mul 963 15; Mul 971 16; Mul 972 17; Mul 980 19; Mul 981 20;
  Mul 989 21; Mul 990 22; Mul 998 23; Mul 999 24; Mul 1007 25; Mul 1008 26; Add 944 1482; Add 1497 1483;
  Add 1498 1484; Add 1499 1485; Add 1500 1486; Add 1501 1487; Add 1502 1488; Add 1503 1489; Add 1504 1490;
  Add 1505 1491; Add 1506 1492; Add 1507 1493; Add 1508 1494; Add 1509 1495; Add 1510 1496; Sub 334 1511;
  Mul 1512 27; Sub 1513 322; Mul 1514 13; Sub 1 1515; Mul 1515 1516; AndEqz 287 1517; Add 336 1513; Mul 1017 2;
  Mul 1025 4; Mul 1026 8; Mul 1034 14; Mul 1035 15; Mul 1043 16; Mul 1044 17; Mul 1052 19; Mul 1053 20; Mul 1061 21;
  Mul 1062 22; Mul 1070 23; Mul 1071 24; Mul 316 25; Mul 288 26; Add 1016 1519; Add 1534 1520; Add 1535 1521;
  Add 1536 1522; Add 1537 1523; Add 1538 1524; Add 1539 1525; Add 1540 1526; Add 1541 1527; Add 1542 1528;
  Add 1543 1529; Add 1544 1530; Add 1545 1531; Add 1546 1532; Add 1547 1533; Sub 1518 1548; Mul 1549 27;
  Sub 1550 323; Mul 1551 13; Sub 1 1552; Mul 1552 1553; AndEqz 288 1554; AndCond 283 506 289; AndEqz 0 1374;
  AndEqz 291 1410; Get 74; Get 80; Get 86; Get 92; Get 98; Get 104; Get 110; Get 116; Get 122; Get 128; Get 134;
  Get 140; Get 146; Get 152; Get 158; Get 164; Get 170; Get 176; Get 182; Get 188; Get 194; Get 200; Get 206;
  Get 212; Get 218; Get 224; Get 230; Get 236; Get 242; Get 248; Get 254; Get 260; Get 75; Get 81; Get 87; Get 93;
  Get 99; Get 105; Get 111; Get 117; Get 123; Get 129; Get 135; Get 141; Get 147; Get 153; Get 159; Get 165; Get 171;
  Get 177; Get 183; Get 189; Get 195; Get 201; Get 207; Get 213; Get 219; Get 225; Get 231; Get 237; Get 243;
  Get 249; Get 255; Get 261; Mul 1556 2; Mul 1557 4; Mul 1558 8; Mul 1559 14; Mul 1560 15; Mul 1561 16; Mul 1562 17;
  Mul 1563 19; Mul 1564 20; Mul 1565 21; Mul 1566 22; Mul 1567 23; Mul 1568 24; Mul 1569 25; Mul 1570 26; Mul 1572 2;
  Mul 1573 4; Mul 1574 8; Mul 1575 14; Mul 1576 15; Mul 1577 16; Mul 1578 17; Mul 1579 19; Mul 1580 20; Mul 1581 21;
  Mul 1582 22; Mul 1583 23; Mul 1584 24; Mul 1585 25; Mul 1586 26; Mul 1588 2; Mul 1589 4; Mul 1590 8; Mul 1591 14;
  Mul 1592 15; Mul 1593 16; Mul 1594 17; Mul 1595 19; Mul 1596 20; Mul 1597 21; Mul 1598 22; Mul 1599 23;
  Mul 1600 24; Mul 1601 25; Mul 1602 26; Mul 1604 2; Mul 1605 4; Mul 1606 8; Mul 1607 14; Mul 1608 15; Mul 1609 16;
  Mul 1610 17; Mul 1611 19; Mul 1612 20; Mul 1613 21; Mul 1614 22; Mul 1615 23; Mul 1616 24; Mul 1617 25;
  Mul 1618 26; Add 1555 1619; Add 1571 1634; Add 1587 1649; Add 1603 1664; Add 1679 1620; Add 1680 1635;
  Add 1681 1650; Add 1682 1665; Add 1683 1621; Add 1684 1636; Add 1685 1651; Add 1686 1666; Add 1687 1622;
  Add 1688 1637; Add 1689 1652; Add 1690 1667; Add 1691 1623; Add 1692 1638; Add 1693 1653; Add 1694 1668;
  Add 1695 1624; Add 1696 1639; Add 1697 1654; Add 1698 1669; Add 1699 1625; Add 1700 1640; Add 1701 1655;
  Add 1702 1670].

(* L2028-2527 DEF.block *)
Definition block_4 : list Step := [
  Add 1703 1626; Add 1704 1641; Add 1705 1656; Add 1706 1671; Add 1707 1627; Add 1708 1642; Add 1709 1657;
  Add 1710 1672; Add 1711 1628; Add 1712 1643; Add 1713 1658; Add 1714 1673; Add 1715 1629; Add 1716 1644;
  Add 1717 1659; Add 1718 1674; Add 1719 1630; Add 1720 1645; Add 1721 1660; Add 1722 1675; Add 1723 1631;
  Add 1724 1646; Add 1725 1661; Add 1726 1676; Add 1727 1632; Add 1728 1647; Add 1729 1662; Add 1730 1677;
  Add 1733 1663; Add 1734 1678; Add 1731 1633; Add 1732 1648; Add 1737 1735; Add 1738 1736; Sub 1739 1440;
  Mul 1741 27; Sub 1742 320; Mul 1743 13; Sub 1 1744; Mul 1744 1745; AndEqz 292 1746; Add 1740 1742; Sub 1747 1475;
  Mul 1748 27; Sub 1749 321; Mul 1750 13; Sub 1 1751; Mul 1751 1752; AndEqz 293 1753; Get 268; Get 274; Get 280;
  Get 286; Get 292; Get 298; Get 304; Get 310; Get 316; Get 322; Get 328; Get 334; Get 340; Get 346; Get 352;
  Get 358; Get 364; Get 370; Get 376; Get 382; Get 388; Get 394; Get 400; Get 406; Get 412; Get 418; Get 424;
  Get 430; Get 436; Get 442; Get 448; Get 454; Get 269; Get 275; Get 281; Get 287; Get 293; Get 299; Get 305;
  Get 311; Get 317; Get 323; Get 329; Get 335; Get 341; Get 347; Get 353; Get 359; Get 365; Get 371; Get 377;
  Get 383; Get 389; Get 395; Get 401; Get 407; Get 413; Get 419; Get 425; Get 431; Get 437; Get 443; Get 449;
  Get 455; Mul 1755 2; Mul 1756 4; Mul 1757 8; Mul 1758 14; Mul 1759 15; Mul 1760 16; Mul 1761 17; Mul 1762 19;
  Mul 1763 20; Mul 1764 21; Mul 1765 22; Mul 1766 23; Mul 1767 24; Mul 1768 25; Mul 1769 26; Mul 1771 2; Mul 1772 4;
  Mul 1773 8; Mul 1774 14; Mul 1775 15; Mul 1776 16; Mul 1777 17; Mul 1778 19; Mul 1779 20; Mul 1780 21; Mul 1781 22;
  Mul 1782 23; Mul 1783 24; Mul 1784 25; Mul 1785 26; Mul 1787 2; Mul 1788 4; Mul 1789 8; Mul 1790 14; Mul 1791 15;
  Mul 1792 16; Mul 1793 17; Mul 1794 19; Mul 1795 20; Mul 1796 21; Mul 1797 22; Mul 1798 23; Mul 1799 24;
  Mul 1800 25; Mul 1801 26; Mul 1803 2; Mul 1804 4; Mul 1805 8; Mul 1806 14; Mul 1807 15; Mul 1808 16; Mul 1809 17;
  Mul 1810 19; Mul 1811 20; Mul 1812 21; Mul 1813 22; Mul 1814 23; Mul 1815 24; Mul 1816 25; Mul 1817 26;
  Add 1754 1818; Add 1770 1833; Add 1786 1848; Add 1802 1863; Add 1878 1819; Add 1879 1834; Add 1880 1849;
  Add 1881 1864; Add 1882 1820; Add 1883 1835; Add 1884 1850; Add 1885 1865; Add 1886 1821; Add 1887 1836;
  Add 1888 1851; Add 1889 1866; Add 1890 1822; Add 1891 1837; Add 1892 1852; Add 1893 1867; Add 1894 1823;
  Add 1895 1838; Add 1896 1853; Add 1897 1868; Add 1898 1824; Add 1899 1839; Add 1900 1854; Add 1901 1869;
  Add 1902 1825; Add 1903 1840; Add 1904 1855; Add 1905 1870; Add 1906 1826; Add 1907 1841; Add 1908 1856;
  Add 1909 1871; Add 1910 1827; Add 1911 1842; Add 1912 1857; Add 1913 1872; Add 1914 1828; Add 1915 1843;
  Add 1916 1858; Add 1917 1873; Add 1918 1829; Add 1919 1844; Add 1920 1859; Add 1921 1874; Add 1922 1830;
  Add 1923 1845; Add 1924 1860; Add 1925 1875; Add 1926 1831; Add 1927 1846; Add 1928 1861; Add 1929 1876;
  Add 1932 1862; Add 1933 1877; Add 1930 1832; Add 1931 1847; Add 1936 1934; Add 1937 1935; Sub 1938 1511;
  Mul 1940 27; Sub 1941 322; Mul 1942 13; Sub 1 1943; Mul 1943 1944; AndEqz 294 1945; Add 1939 1941; Sub 1946 1548;
  Mul 1947 27; Sub 1948 323; Mul 1949 13; Sub 1 1950; Mul 1950 1951; AndEqz 295 1952; Mul 698 2; Mul 699 4;
  Mul 700 8; Mul 701 14; Mul 702 15; Mul 703 16; Mul 704 17; Mul 900 2; Mul 908 4; Mul 909 8; Mul 917 14; Mul 918 15;
  Mul 926 16; Mul 927 17; Add 527 1953; Add 899 1960; Add 1967 1954; Add 1968 1961; Add 1969 1955; Add 1970 1962;
  Add 1971 1956; Add 1972 1963; Add 1973 1957; Add 1974 1964; Add 1975 1958; Add 1976 1965; Add 1977 1959;
  Add 1978 1966; Mul 1432 19; Mul 1467 19; Add 1979 1981; Add 1980 1982; AndEqz 296 854; Sub 327 1984;
  AndEqz 297 1985; Sub 328 1983; AndEqz 298 1986; AndEqz 299 329; AndEqz 300 330; Mul 1503 19; Mul 1540 19;
  Add 1160 1987; Add 1268 1988; AndEqz 301 855; Sub 334 1990; AndEqz 302 1991; Sub 336 1989; AndEqz 303 1992;
  AndEqz 304 338; AndEqz 305 509; AndCond 290 508 306; Mul 327 42; Mul 669 2; Mul 670 4; Mul 671 8; Mul 672 14;
  Mul 673 15; Mul 674 16; Mul 808 17; Add 668 1994; Add 2001 1995; Add 2002 1996; Add 2003 1997; Add 2004 1998;
  Add 2005 1999; Add 2006 2000; Sub 1993 2007; Mul 2008 18; Sub 2009 1396; Mul 2010 18; Mul 476 2; Mul 477 4;
  Mul 478 8; Mul 479 14; Mul 480 15; Mul 481 16; Mul 482 17; Add 505 2012; Add 2019 2013; Add 2020 2014;
  Add 2021 2015; Add 2022 2016; Add 2023 2017; Add 2024 2018; Sub 2011 2025; Mul 2026 18; Sub 2027 1360; Mul 2028 18;
  AndEqz 0 2029; Add 668 669; Add 294 295; Add 2030 670; Add 2031 296; Add 2033 287; Add 2032 671; Add 2035 672;
  Add 2036 673; Add 2037 674; Add 2038 808; Add 2039 483; Add 2040 484; Add 2041 485; Add 2042 619; Add 2043 694;
  Add 2044 665; Add 2045 666; Add 2046 667; Add 2047 505; Add 2048 476; Add 2049 477; Add 2050 478; Add 2051 479;
  Add 2052 480; Add 2053 481; Add 2054 482; Add 2055 291; Add 2056 292; Add 2057 293; Sub 2034 324; Mul 2059 2058;
  AndEqz 308 2060; AndEqz 309 430; AndCond 259 1330 310; Sub 327 2007; Mul 2061 18; Sub 2062 1396; Mul 2063 18;
  Sub 0 2064; AndEqz 0 2065; Sub 328 2025; Mul 2066 18; Sub 2067 1360; Mul 2068 18; Sub 0 2069; AndEqz 312 2070;
  AndEqz 313 324; AndCond 311 1111 314; AndEqz 315 325; Get 71; Get 77; Get 83; Get 89; Get 95; Get 101; Get 107;
  Get 113; Get 119; Get 125; Get 131; Get 137; Get 143; Get 149; Get 155; Get 161; Get 167; Get 173; Get 179;
  Get 185; Get 191; Get 197; Get 203; Get 209; Get 215; Get 221; Get 227; Get 233; Get 239; Get 245; Get 251;
  Get 257; Get 265; Get 271; Get 277; Get 283; Get 289; Get 295; Get 301; Get 307; Get 313; Get 319; Get 325;
  Get 331; Get 337; Get 343; Get 349; Get 355; Get 361; Get 367; Get 373; Get 379; Get 385; Get 391; Get 397;
  Get 403; Get 409; Get 415; Get 421; Get 427; Get 433; Get 439; Get 445; Get 451; Get 266; Get 272; Get 278;
  Get 284; Get 290; Get 296; Get 302; Get 308; Get 314; Get 320; Get 326; Get 332; Get 338; Get 344; Get 350;
  Get 356; Get 362; Get 368; Get 374; Get 380; Get 386; Get 392; Get 398; Get 404; Get 410; Get 416; Get 422;
  Get 428; Get 434; Get 440; Get 446; Get 452; Get 72; Get 78; Get 84; Get 90; Get 96; Get 102; Get 108; Get 114;
  Get 120; Get 126; Get 132; Get 138; Get 144; Get 150; Get 156; Get 162].

(* L2528-3027 DEF.block *)
Definition block_5 : list Step := [
  Get 168; Get 174; Get 180; Get 186; Get 192; Get 198; Get 204; Get 210; Get 216; Get 222; Get 228; Get 234;
  Get 240; Get 246; Get 252; Get 258; Get 267; Get 273; Get 279; Get 285; Get 291; Get 297; Get 303; Get 309;
  Get 315; Get 321; Get 327; Get 333; Get 339; Get 345; Get 351; Get 357; Get 363; Get 369; Get 375; Get 381;
  Get 387; Get 393; Get 399; Get 405; Get 411; Get 417; Get 423; Get 429; Get 435; Get 441; Get 447; Get 453; Get 73;
  Get 79; Get 85; Get 91; Get 97; Get 103; Get 109; Get 115; Get 121; Get 127; Get 133; Get 139; Get 145; Get 151;
  Get 157; Get 163; Get 169; Get 175; Get 181; Get 187; Get 193; Get 199; Get 205; Get 211; Get 217; Get 223;
  Get 229; Get 235; Get 241; Get 247; Get 253; Get 259; Mul 2071 2; Mul 2071 2167; Mul 2072 2; Mul 2072 2168;
  Mul 2073 2; Mul 2073 2169; Mul 2074 2; Mul 2074 2170; Mul 2075 2; Mul 2075 2171; Mul 2076 2; Mul 2076 2172;
  Mul 2077 2; Mul 2077 2173; Mul 2078 2; Mul 2078 2174; Mul 2079 2; Mul 2079 2175; Mul 2080 2; Mul 2080 2176;
  Mul 2081 2; Mul 2081 2177; Mul 2082 2; Mul 2082 2178; Mul 2083 2; Mul 2083 2179; Mul 2084 2; Mul 2084 2180;
  Mul 2085 2; Mul 2085 2181; Mul 2086 2; Mul 2086 2182; Mul 2087 2; Mul 2087 2183; Mul 2088 2; Mul 2088 2184;
  Mul 2089 2; Mul 2089 2185; Mul 2090 2; Mul 2090 2186; Mul 2091 2; Mul 2091 2187; Mul 2092 2; Mul 2092 2188;
  Mul 2093 2; Mul 2093 2189; Mul 2094 2; Mul 2094 2190; Mul 2095 2; Mul 2095 2191; Mul 2096 2; Mul 2096 2192;
  Mul 2097 2; Mul 2097 2193; Mul 2098 2; Mul 2098 2194; Mul 2099 2; Mul 2099 2195; Mul 2100 2; Mul 2100 2196;
  Mul 2101 2; Mul 2101 2197; Mul 2102 2; Mul 2102 2198; Mul 2103 2; Mul 2103 2135; Mul 2104 2; Mul 2104 2136;
  Mul 2105 2; Mul 2105 2137; Mul 2106 2; Mul 2106 2138; Mul 2107 2; Mul 2107 2139; Mul 2108 2; Mul 2108 2140;
  Mul 2109 2; Mul 2109 2141; Mul 2110 2; Mul 2110 2142; Mul 2111 2; Mul 2111 2143; Mul 2112 2; Mul 2112 2144;
  Mul 2113 2; Mul 2113 2145; Mul 2114 2; Mul 2114 2146; Mul 2115 2; Mul 2115 2147; Mul 2116 2; Mul 2116 2148;
  Mul 2117 2; Mul 2117 2149; Mul 2118 2; Mul 2118 2150; Mul 2119 2; Mul 2119 2151; Mul 2120 2; Mul 2120 2152;
  Mul 2121 2; Mul 2121 2153; Mul 2122 2; Mul 2122 2154; Mul 2123 2; Mul 2123 2155; Mul 2124 2; Mul 2124 2156;
  Mul 2125 2; Mul 2125 2157; Mul 2126 2; Mul 2126 2158; Mul 2127 2; Mul 2127 2159; Mul 2128 2; Mul 2128 2160;
  Mul 2129 2; Mul 2129 2161; Mul 2130 2; Mul 2130 2162; Mul 2131 2; Mul 2131 2163; Mul 2132 2; Mul 2132 2164;
  Mul 2133 2; Mul 2133 2165; Mul 2134 2; Mul 2134 2166; Mul 2263 2080; Mul 2264 2231; Mul 2265 2081; Mul 2266 2232;
  Mul 2267 2082; Mul 2268 2233; Mul 2269 2083; Mul 2270 2234; Mul 2271 2084; Mul 2272 2235; Mul 2273 2085;
  Mul 2274 2236; Mul 2275 2086; Mul 2276 2237; Mul 2277 2087; Mul 2278 2238; Mul 2279 2088; Mul 2280 2239;
  Mul 2281 2089; Mul 2282 2240; Mul 2283 2090; Mul 2284 2241; Mul 2285 2091; Mul 2286 2242; Mul 2287 2092;
  Mul 2288 2243; Mul 2289 2093; Mul 2290 2244; Mul 2291 2094; Mul 2292 2245; Mul 2293 2095; Mul 2294 2246;
  Mul 2295 2096; Mul 2296 2247; Mul 2297 2097; Mul 2298 2248; Mul 2299 2098; Mul 2300 2249; Mul 2301 2099;
  Mul 2302 2250; Mul 2303 2100; Mul 2304 2251; Mul 2305 2101; Mul 2306 2252; Mul 2307 2102; Mul 2308 2253;
  Mul 2309 2071; Mul 2310 2254; Mul 2311 2072; Mul 2312 2255; Mul 2313 2073; Mul 2314 2256; Mul 2315 2074;
  Mul 2316 2257; Mul 2317 2075; Mul 2318 2258; Mul 2319 2076; Mul 2320 2259; Mul 2321 2077; Mul 2322 2260;
  Mul 2323 2078; Mul 2324 2261; Mul 2325 2079; Mul 2326 2262; Mul 2327 2117; Mul 2329 2118; Mul 2331 2119;
  Mul 2333 2120; Mul 2335 2121; Mul 2337 2122; Mul 2339 2123; Mul 2341 2124; Mul 2343 2125; Mul 2345 2126;
  Mul 2347 2127; Mul 2349 2128; Mul 2351 2129; Mul 2353 2130; Mul 2355 2131; Mul 2357 2132; Mul 2359 2133;
  Mul 2361 2134; Mul 2363 2103; Mul 2365 2104; Mul 2367 2105; Mul 2369 2106; Mul 2371 2107; Mul 2373 2108;
  Mul 2375 2109; Mul 2377 2110; Mul 2379 2111; Mul 2381 2112; Mul 2383 2113; Mul 2385 2114; Mul 2387 2115;
  Mul 2389 2116; Sub 1 2071; Sub 1 2072; Sub 1 2073; Sub 1 2074; Sub 1 2075; Sub 1 2076; Sub 1 2077; Sub 1 2078;
  Sub 1 2079; Sub 1 2080; Sub 1 2081; Sub 1 2082; Sub 1 2083; Sub 1 2084; Sub 1 2085; Sub 1 2086; Sub 1 2087;
  Sub 1 2088; Sub 1 2089; Sub 1 2090; Sub 1 2091; Sub 1 2092; Sub 1 2093; Sub 1 2094; Sub 1 2095; Sub 1 2096;
  Sub 1 2097; Sub 1 2098; Sub 1 2099; Sub 1 2100; Sub 1 2101; Sub 1 2102; Sub 1 2103; Sub 1 2104; Sub 1 2105;
  Sub 1 2106; Sub 1 2107; Sub 1 2108; Sub 1 2109; Sub 1 2110; Sub 1 2111; Sub 1 2112; Sub 1 2113; Sub 1 2114;
  Sub 1 2115; Sub 1 2116; Sub 1 2117; Sub 1 2118; Sub 1 2119; Sub 1 2120; Sub 1 2121; Sub 1 2122; Sub 1 2123;
  Sub 1 2124; Sub 1 2125; Sub 1 2126; Sub 1 2127; Sub 1 2128; Sub 1 2129; Sub 1 2130; Sub 1 2131; Sub 1 2132;
  Sub 1 2133; Sub 1 2134; Sub 1 2167; Sub 1 2168; Sub 1 2169; Sub 1 2170; Sub 1 2171; Sub 1 2172; Sub 1 2173;
  Sub 1 2174; Sub 1 2175; Sub 1 2176; Sub 1 2177; Sub 1 2178; Sub 1 2179; Sub 1 2180; Sub 1 2181; Sub 1 2182;
  Sub 1 2183; Sub 1 2184; Sub 1 2185; Sub 1 2186; Sub 1 2187; Sub 1 2188; Sub 1 2189; Sub 1 2190; Sub 1 2191;
  Sub 1 2192; Sub 1 2193; Sub 1 2194; Sub 1 2195; Sub 1 2196; Sub 1 2197; Sub 1 2198; Sub 1 2231; Sub 1 2232;
  Sub 1 2233; Sub 1 2234; Sub 1 2235; Sub 1 2236; Sub 1 2237; Sub 1 2238; Sub 1 2239; Sub 1 2240; Sub 1 2241;
  Sub 1 2242; Sub 1 2243; Sub 1 2244; Sub 1 2245; Sub 1 2246; Sub 1 2247; Sub 1 2248; Sub 1 2249; Sub 1 2250;
  Sub 1 2251; Sub 1 2252; Sub 1 2253; Sub 1 2254; Sub 1 2255; Sub 1 2256; Sub 1 2257; Sub 1 2258; Sub 1 2259;
  Sub 1 2260; Sub 1 2261; Sub 1 2262; Add 2071 2080; Add 2072 2081; Add 2073 2082; Add 2074 2083; Add 2075 2084;
  Add 2076 2085; Add 2077 2086; Add 2078 2087; Add 2079 2088; Add 2080 2089; Add 2081 2090; Add 2082 2091;
  Add 2083 2092; Add 2084 2093; Add 2085 2094; Add 2086 2095; Add 2087 2096; Add 2088 2097; Add 2089 2098;
  Add 2090 2099; Add 2091 2100; Add 2092 2101; Add 2093 2102; Add 2094 2071; Add 2095 2072; Add 2096 2073;
  Add 2097 2074; Add 2098 2075; Add 2099 2076; Add 2100 2077; Add 2101 2078; Add 2102 2079; Add 2103 2117;
  Add 2104 2118; Add 2105 2119; Add 2106 2120; Add 2107 2121; Add 2108 2122; Add 2109 2123; Add 2110 2124;
  Add 2111 2125; Add 2112 2126; Add 2113 2127; Add 2114 2128; Add 2115 2129; Add 2116 2130; Add 2117 2131;
  Add 2118 2132; Add 2119 2133; Add 2120 2134; Add 2121 2103; Add 2122 2104; Add 2123 2105; Add 2124 2106;
  Add 2125 2107; Add 2126 2108; Add 2127 2109; Add 2128 2110; Add 2129 2111; Add 2130 2112; Add 2131 2113;
  Add 2132 2114; Add 2133 2115; Add 2134 2116; Mul 2071 2551; Mul 2072 2552; Mul 2073 2553; Mul 2074 2554].

(* L3028-3527 DEF.block *)
Definition block_6 : list Step := [
  Mul 2075 2555; Mul 2076 2556; Mul 2077 2557; Mul 2078 2558; Mul 2079 2559; Mul 2080 2560; Mul 2081 2561;
  Mul 2082 2562; Mul 2083 2563; Mul 2084 2564; Mul 2085 2565; Mul 2086 2566; Mul 2087 2567; Mul 2088 2568;
  Mul 2089 2569; Mul 2090 2570; Mul 2091 2571; Mul 2092 2572; Mul 2093 2573; Mul 2094 2574; Mul 2095 2575;
  Mul 2096 2576; Mul 2097 2577; Mul 2098 2578; Mul 2099 2579; Mul 2100 2580; Mul 2101 2581; Mul 2102 2582;
  Mul 2264 2583; Mul 2266 2584; Mul 2268 2585; Mul 2270 2586; Mul 2272 2587; Mul 2274 2588; Mul 2276 2589;
  Mul 2278 2590; Mul 2280 2591; Mul 2282 2592; Mul 2284 2593; Mul 2286 2594; Mul 2288 2595; Mul 2290 2596;
  Mul 2292 2597; Mul 2294 2598; Mul 2296 2599; Mul 2298 2600; Mul 2300 2601; Mul 2302 2602; Mul 2304 2603;
  Mul 2306 2604; Mul 2308 2605; Mul 2310 2606; Mul 2312 2607; Mul 2314 2608; Mul 2316 2609; Mul 2318 2610;
  Mul 2320 2611; Mul 2322 2612; Mul 2324 2613; Mul 2326 2614; Mul 2487 2167; Mul 2488 2168; Mul 2489 2169;
  Mul 2490 2170; Mul 2491 2171; Mul 2492 2172; Mul 2493 2173; Mul 2494 2174; Mul 2495 2175; Mul 2496 2176;
  Mul 2497 2177; Mul 2498 2178; Mul 2499 2179; Mul 2500 2180; Mul 2501 2181; Mul 2502 2182; Mul 2503 2183;
  Mul 2504 2184; Mul 2505 2185; Mul 2506 2186; Mul 2507 2187; Mul 2508 2188; Mul 2509 2189; Mul 2510 2190;
  Mul 2511 2191; Mul 2512 2192; Mul 2513 2193; Mul 2514 2194; Mul 2515 2195; Mul 2516 2196; Mul 2517 2197;
  Mul 2518 2198; Mul 2679 2231; Mul 2680 2232; Mul 2681 2233; Mul 2682 2234; Mul 2683 2235; Mul 2684 2236;
  Mul 2685 2237; Mul 2686 2238; Mul 2687 2239; Mul 2688 2240; Mul 2689 2241; Mul 2690 2242; Mul 2691 2243;
  Mul 2692 2244; Mul 2693 2245; Mul 2694 2246; Mul 2695 2247; Mul 2696 2248; Mul 2697 2249; Mul 2698 2250;
  Mul 2699 2251; Mul 2700 2252; Mul 2701 2253; Mul 2702 2254; Mul 2703 2255; Mul 2704 2256; Mul 2705 2257;
  Mul 2706 2258; Mul 2707 2259; Mul 2708 2260; Mul 2709 2261; Mul 2710 2262; Mul 2743 2231; Mul 2744 2232;
  Mul 2745 2233; Mul 2746 2234; Mul 2747 2235; Mul 2748 2236; Mul 2749 2237; Mul 2750 2238; Mul 2751 2239;
  Mul 2752 2240; Mul 2753 2241; Mul 2754 2242; Mul 2755 2243; Mul 2756 2244; Mul 2757 2245; Mul 2758 2246;
  Mul 2759 2247; Mul 2760 2248; Mul 2761 2249; Mul 2762 2250; Mul 2763 2251; Mul 2764 2252; Mul 2765 2253;
  Mul 2766 2254; Mul 2767 2255; Mul 2768 2256; Mul 2769 2257; Mul 2770 2258; Mul 2771 2259; Mul 2772 2260;
  Mul 2773 2261; Mul 2774 2262; Mul 2519 2199; Mul 2520 2200; Mul 2521 2201; Mul 2522 2202; Mul 2523 2203;
  Mul 2524 2204; Mul 2525 2205; Mul 2526 2206; Mul 2527 2207; Mul 2528 2208; Mul 2529 2209; Mul 2530 2210;
  Mul 2531 2211; Mul 2532 2212; Mul 2533 2213; Mul 2534 2214; Mul 2535 2215; Mul 2536 2216; Mul 2537 2217;
  Mul 2538 2218; Mul 2539 2219; Mul 2540 2220; Mul 2541 2221; Mul 2542 2222; Mul 2543 2223; Mul 2544 2224;
  Mul 2545 2225; Mul 2546 2226; Mul 2547 2227; Mul 2548 2228; Mul 2549 2229; Mul 2550 2230; Sub 2615 2391;
  Sub 2616 2393; Sub 2617 2395; Sub 2618 2397; Sub 2619 2399; Sub 2620 2401; Sub 2621 2403; Sub 2622 2405;
  Sub 2623 2407; Sub 2624 2409; Sub 2625 2411; Sub 2626 2413; Sub 2627 2415; Sub 2628 2417; Sub 2629 2419;
  Sub 2630 2421; Sub 2631 2423; Sub 2632 2425; Sub 2633 2427; Sub 2634 2429; Sub 2635 2431; Sub 2636 2433;
  Sub 2637 2435; Sub 2638 2437; Sub 2639 2439; Sub 2640 2441; Sub 2641 2443; Sub 2642 2445; Sub 2643 2447;
  Sub 2644 2449; Sub 2645 2451; Sub 2646 2453; Sub 2647 2455; Sub 2648 2456; Sub 2649 2457; Sub 2650 2458;
  Sub 2651 2459; Sub 2652 2460; Sub 2653 2461; Sub 2654 2462; Sub 2655 2463; Sub 2656 2464; Sub 2657 2465;
  Sub 2658 2466; Sub 2659 2467; Sub 2660 2468; Sub 2661 2469; Sub 2662 2470; Sub 2663 2471; Sub 2664 2472;
  Sub 2665 2473; Sub 2666 2474; Sub 2667 2475; Sub 2668 2476; Sub 2669 2477; Sub 2670 2478; Sub 2671 2479;
  Sub 2672 2480; Sub 2673 2481; Sub 2674 2482; Sub 2675 2483; Sub 2676 2484; Sub 2677 2485; Sub 2678 2486;
  Add 2071 2882; Add 2072 2883; Add 2073 2884; Add 2074 2885; Add 2075 2886; Add 2076 2887; Add 2077 2888;
  Add 2078 2889; Add 2079 2890; Add 2080 2891; Add 2081 2892; Add 2082 2893; Add 2083 2894; Add 2084 2895;
  Add 2085 2896; Add 2086 2897; Add 2087 2898; Add 2088 2899; Add 2089 2900; Add 2090 2901; Add 2091 2902;
  Add 2092 2871; Add 2093 2872; Add 2094 2873; Add 2095 2874; Add 2096 2875; Add 2097 2876; Add 2098 2877;
  Add 2099 2878; Add 2100 2879; Add 2101 2880; Add 2102 2881; Add 2103 2908; Add 2104 2909; Add 2105 2910;
  Add 2106 2911; Add 2107 2912; Add 2108 2913; Add 2109 2914; Add 2110 2915; Add 2111 2916; Add 2112 2917;
  Add 2113 2918; Add 2114 2919; Add 2115 2920; Add 2116 2921; Add 2117 2922; Add 2118 2923; Add 2119 2924;
  Add 2120 2925; Add 2121 2926; Add 2122 2927; Add 2123 2928; Add 2124 2929; Add 2125 2930; Add 2126 2931;
  Add 2127 2932; Add 2128 2933; Add 2129 2934; Add 2130 2903; Add 2131 2904; Add 2132 2905; Add 2133 2906;
  Add 2134 2907; Add 2328 2839; Add 2330 2840; Add 2332 2841; Add 2334 2842; Add 2336 2843; Add 2338 2844;
  Add 2340 2845; Add 2342 2846; Add 2344 2847; Add 2346 2848; Add 2348 2849; Add 2350 2850; Add 2352 2851;
  Add 2354 2852; Add 2356 2853; Add 2358 2854; Add 2360 2855; Add 2362 2856; Add 2364 2857; Add 2366 2858;
  Add 2368 2859; Add 2370 2860; Add 2372 2861; Add 2374 2862; Add 2376 2863; Add 2378 2864; Add 2380 2865;
  Add 2382 2866; Add 2384 2867; Add 2386 2868; Add 2388 2869; Add 2390 2870; Add 2711 2775; Add 2712 2776;
  Add 2713 2777; Add 2714 2778; Add 2715 2779; Add 2716 2780; Add 2717 2781; Add 2718 2782; Add 2719 2783;
  Add 2720 2784; Add 2721 2785; Add 2722 2786; Add 2723 2787; Add 2724 2788; Add 2725 2789; Add 2726 2790;
  Add 2727 2791; Add 2728 2792; Add 2729 2793; Add 2730 2794; Add 2731 2795; Add 2732 2796; Add 2733 2797;
  Add 2734 2798; Add 2735 2799; Add 2736 2800; Add 2737 2801; Add 2738 2802; Add 2739 2803; Add 2740 2804;
  Add 2741 2805; Add 2742 2806; Mul 3000 2; Mul 3001 4; Mul 3002 8; Mul 3003 14; Mul 3004 15; Mul 3005 16;
  Mul 3006 17; Mul 3007 19; Mul 3008 20; Mul 3009 21; Mul 3010 22; Mul 3011 23; Mul 3012 24; Mul 3013 25;
  Mul 3014 26; Mul 3016 2; Mul 3017 4; Mul 3018 8; Mul 3019 14; Mul 3020 15; Mul 3021 16; Mul 3022 17; Mul 3023 19;
  Mul 3024 20; Mul 3025 21; Mul 3026 22; Mul 3027 23; Mul 3028 24; Mul 3029 25; Mul 3030 26; Mul 2263 2882;
  Mul 2265 2883; Mul 2267 2884; Mul 2269 2885; Mul 2271 2886; Mul 2273 2887; Mul 2275 2888; Mul 2277 2889;
  Mul 2279 2890; Mul 2281 2891; Mul 2283 2892; Mul 2285 2893; Mul 2287 2894; Mul 2289 2895; Mul 2291 2896;
  Mul 2293 2897; Mul 2295 2898; Mul 2297 2899; Mul 2299 2900; Mul 2301 2901; Mul 2303 2902; Mul 2305 2871;
  Mul 2307 2872; Mul 2309 2873; Mul 2311 2874; Mul 2313 2875; Mul 2315 2876; Mul 2317 2877; Mul 2319 2878;
  Mul 2321 2879; Mul 2323 2880; Mul 2325 2881; Mul 2327 2908; Mul 2329 2909; Mul 2331 2910; Mul 2333 2911;
  Mul 2335 2912; Mul 2337 2913; Mul 2339 2914; Mul 2341 2915; Mul 2343 2916; Mul 2345 2917; Mul 2347 2918;
  Mul 2349 2919; Mul 2351 2920; Mul 2353 2921; Mul 2355 2922; Mul 2357 2923; Mul 2359 2924; Mul 2361 2925;
  Mul 2363 2926; Mul 2365 2927; Mul 2367 2928; Mul 2369 2929; Mul 2371 2930; Mul 2373 2931; Mul 2375 2932;
  Mul 2377 2933; Mul 2379 2934; Mul 2381 2903; Mul 2383 2904; Mul 2385 2905; Mul 2387 2906; Mul 2389 2907;
  Sub 2935 3093; Sub 2936 3094; Sub 2937 3095; Sub 2938 3096; Sub 2939 3097; Sub 2940 3098; Sub 2941 3099;
  Sub 2942 3100; Sub 2943 3101; Sub 2944 3102; Sub 2945 3103; Sub 2946 3104; Sub 2947 3105; Sub 2948 3106;
  Sub 2949 3107; Sub 2950 3108; Sub 2951 3109; Sub 2952 3110; Sub 2953 3111; Sub 2954 3112; Sub 2955 3113;
  Sub 2956 3114; Sub 2957 3115; Sub 2958 3116; Sub 2959 3117; Sub 2960 3118].

(* L3528-4027 DEF.block *)
Definition block_7 : list Step := [
  Sub 2961 3119; Sub 2962 3120; Sub 2963 3121; Sub 2964 3122; Sub 2965 3123; Sub 2966 3124; Sub 2967 3125;
  Sub 2968 3126; Sub 2969 3127; Sub 2970 3128; Sub 2971 3129; Sub 2972 3130; Sub 2973 3131; Sub 2974 3132;
  Sub 2975 3133; Sub 2976 3134; Sub 2977 3135; Sub 2978 3136; Sub 2979 3137; Sub 2980 3138; Sub 2981 3139;
  Sub 2982 3140; Sub 2983 3141; Sub 2984 3142; Sub 2985 3143; Sub 2986 3144; Sub 2987 3145; Sub 2988 3146;
  Sub 2989 3147; Sub 2990 3148; Sub 2991 3149; Sub 2992 3150; Sub 2993 3151; Sub 2994 3152; Sub 2995 3153;
  Sub 2996 3154; Sub 2997 3155; Sub 2998 3156; Add 3031 2807; Add 3032 2808; Add 3033 2809; Add 3034 2810;
  Add 3035 2811; Add 3036 2812; Add 3037 2813; Add 3038 2814; Add 3039 2815; Add 3040 2816; Add 3041 2817;
  Add 3042 2818; Add 3043 2819; Add 3044 2820; Add 3045 2821; Add 3046 2822; Add 3047 2823; Add 3048 2824;
  Add 3049 2825; Add 3050 2826; Add 3051 2827; Add 3052 2828; Add 3053 2829; Add 3054 2830; Add 3055 2831;
  Add 3056 2832; Add 3057 2833; Add 3058 2834; Add 3059 2835; Add 3060 2836; Add 3061 2837; Add 3062 2838;
  Mul 3157 25; Mul 3158 26; Mul 3160 2; Mul 3161 4; Mul 3162 8; Mul 3163 14; Mul 3164 15; Mul 3165 16; Mul 3166 17;
  Mul 3167 19; Mul 3168 20; Mul 3169 21; Mul 3170 22; Mul 3171 23; Mul 3172 24; Mul 3173 25; Mul 3174 26; Mul 3176 2;
  Mul 3177 4; Mul 3178 8; Mul 3179 14; Mul 3180 15; Mul 3181 16; Mul 3182 17; Mul 3183 19; Mul 3184 20; Mul 3185 21;
  Mul 3186 22; Mul 3187 23; Mul 3188 24; Mul 3189 21; Mul 3190 22; Mul 3191 23; Mul 3192 24; Mul 3193 25;
  Mul 3194 26; Mul 3196 2; Mul 3197 4; Mul 3198 8; Mul 3199 14; Mul 3200 15; Mul 3201 16; Mul 3202 17; Mul 3203 19;
  Mul 3204 20; Mul 3205 21; Mul 3206 22; Mul 3207 23; Mul 3208 24; Mul 3209 25; Mul 3210 26; Mul 3212 2; Mul 3213 4;
  Mul 3214 8; Mul 3215 14; Mul 3216 15; Mul 3217 16; Mul 3218 17; Mul 3219 19; Mul 3220 20; Add 3221 2392;
  Add 3222 2394; Add 3223 2396; Add 3224 2398; Add 3225 2400; Add 3226 2402; Add 3227 2404; Add 3228 2406;
  Add 3229 2408; Add 3230 2410; Add 3231 2412; Add 3232 2414; Add 3233 2416; Add 3234 2418; Add 3235 2420;
  Add 3236 2422; Add 3237 2424; Add 3238 2426; Add 3239 2428; Add 3240 2430; Add 3241 2432; Add 3242 2434;
  Add 3243 2436; Add 3244 2438; Add 3245 2440; Add 3246 2442; Add 3247 2444; Add 3248 2446; Add 3249 2448;
  Add 3250 2450; Add 3251 2452; Add 3252 2454; Add 2999 3063; Add 3015 3078; Mul 3314 2; Mul 3315 4; Mul 3316 8;
  Mul 3317 14; Mul 3318 15; Mul 3319 16; Mul 3320 17; Mul 3321 19; Mul 3322 20; Mul 3323 21; Mul 3324 22;
  Mul 3325 23; Mul 3326 24; Mul 3327 25; Mul 3328 26; Mul 3330 2; Mul 3331 4; Mul 3332 8; Mul 3333 14; Mul 3334 15;
  Mul 3335 16; Mul 3336 17; Mul 3337 19; Mul 3338 20; Mul 3339 21; Mul 3340 22; Mul 3341 23; Mul 3342 24;
  Mul 3343 25; Mul 3344 26; Add 3345 3064; Add 3346 3079; Add 3159 3255; Add 3175 3270; Add 3195 3289; Add 3211 3304;
  Add 3377 3065; Add 3378 3080; Add 3379 3256; Add 3380 3271; Add 3381 3290; Add 3382 3305; Add 3313 3347;
  Add 3329 3362; Add 3383 3066; Add 3384 3081; Add 3385 3257; Add 3386 3272; Add 3387 3291; Add 3388 3306;
  Add 3389 3348; Add 3390 3363; Add 3391 3067; Add 3392 3082; Add 3393 3258; Add 3394 3273; Add 3395 3292;
  Add 3396 3307; Add 3397 3349; Add 3398 3364; Add 3399 3068; Add 3400 3083; Add 3401 3259; Add 3402 3274;
  Add 3403 3293; Add 3404 3308; Add 3405 3350; Add 3406 3365; Add 3407 3069; Add 3408 3084; Add 3409 3260;
  Add 3410 3275; Add 3411 3294; Add 3412 3309; Add 3413 3351; Add 3414 3366; Add 3415 3070; Add 3416 3085;
  Add 3417 3261; Add 3418 3276; Add 3419 3295; Add 3420 3310; Add 3421 3352; Add 3422 3367; Add 3423 3071;
  Add 3424 3086; Add 3425 3262; Add 3426 3277; Add 3427 3296; Add 3428 3311; Add 3429 3353; Add 3430 3368;
  Add 3431 3072; Add 3432 3087; Add 3433 3263; Add 3434 3278; Add 3435 3297; Add 3436 3312; Add 3437 3354;
  Add 3438 3369; Add 3439 3073; Add 3440 3088; Add 3441 3264; Add 3442 3279; Add 3443 3298; Add 3444 3283;
  Add 3445 3355; Add 3446 3370; Add 3447 3074; Add 3448 3089; Add 3449 3265; Add 3450 3280; Add 3451 3299;
  Add 3452 3284; Add 3453 3356; Add 3454 3371; Add 3455 3075; Add 3456 3090; Add 3457 3266; Add 3458 3281;
  Add 3459 3300; Add 3460 3285; Add 3461 3357; Add 3462 3372; Add 3463 3076; Add 3464 3091; Add 3465 3267;
  Add 3466 3282; Add 3467 3301; Add 3468 3286; Add 3469 3358; Add 3470 3373; Add 3471 3077; Add 3472 3092;
  Add 3473 3268; Add 3474 3253; Add 3475 3302; Add 3476 3287; Add 3477 3359; Add 3478 3374; Add 3481 3269;
  Add 3482 3254; Add 3483 3303; Add 3484 3288; Add 3485 3360; Add 3486 3375; Add 3479 3489; Add 3480 3490;
  Add 1936 3493; Add 1937 3494; Add 334 3495; Add 336 3496; Add 1404 3498; Add 1368 3497; Add 3491 3361;
  Add 3492 3376; Add 3499 1738; Add 3500 1737; Add 3501 3487; Add 3502 3488; Add 3499 3506; Add 3500 3505;
  Sub 935 3508; AndEqz 316 3509; Sub 289 3504; AndEqz 317 3510; Sub 936 3507; AndEqz 318 3511; Sub 290 3503;
  AndEqz 319 3512; Sub 935 1440; Mul 3513 27; Sub 3514 320; Mul 3515 13; Sub 1 3516; Mul 3516 3517; AndEqz 320 3518;
  Add 936 3514; Sub 3519 1475; Mul 3520 27; Sub 3521 321; Mul 3522 13; Sub 1 3523; Mul 3523 3524; AndEqz 321 3525;
  Sub 289 1511; Mul 3526 27; Sub 3527 322; Mul 3528 13; Sub 1 3529; Mul 3529 3530; AndEqz 322 3531; Add 290 3527;
  Sub 3532 1548; Mul 3533 27; Sub 3534 323; Mul 3535 13; Sub 1 3536; Mul 3536 3537; AndEqz 323 3538;
  AndCond 307 507 324; AndEqz 0 326; AndEqz 326 327; AndEqz 327 328; AndEqz 328 329; AndEqz 329 330; AndEqz 330 855;
  Get 464; Get 470; Get 476; Get 500; Get 506; Get 512; Get 518; Get 524; Get 530; Get 536; Get 542; Get 548;
  Get 572; Get 578; Get 583; Get 588; Get 593; Get 598; Get 603; Get 608; Get 613; Get 618; Get 623; Get 628;
  Get 633; Get 639; Get 482; Get 488; Get 494; Get 554; Get 560; Get 566; Get 501; Get 507; Get 513; Get 519;
  Get 525; Get 531; Get 537; Get 543; Get 549; Get 555; Get 561; Get 567; Get 573; Get 579; Get 584; Get 589;
  Get 594; Get 599; Get 604; Get 609; Get 614; Get 619; Get 624; Get 629; Get 634; Get 640; Get 465; Get 471;
  Get 477; Get 483; Get 489; Get 495; Get 498; Get 504; Get 510; Get 462; Get 468; Get 474; Get 480; Get 486;
  Get 492; Get 516; Get 576; Get 581; Get 586; Get 591; Get 596; Get 601; Get 606; Get 611; Get 616; Get 621;
  Get 626; Get 631; Get 637; Get 522; Get 528; Get 534; Get 540; Get 546; Get 552; Get 558; Get 564; Get 570;
  Get 499; Get 505; Get 511; Get 517; Get 523; Get 529; Get 535; Get 541; Get 547; Get 553; Get 559; Get 565;
  Get 571; Get 577; Get 582; Get 587; Get 592; Get 597; Get 602; Get 607; Get 612; Get 617; Get 622; Get 627;
  Get 632; Get 638; Get 463; Get 469; Get 475; Get 481; Get 487; Get 493; Mul 3539 2].

(* L4028-4527 DEF.block *)
Definition block_8 : list Step := [
  Mul 3540 2; Mul 3541 2; Mul 3542 2; Mul 3543 2; Mul 3544 2; Mul 3545 2; Mul 3546 2; Mul 3547 2; Mul 3548 2;
  Mul 3549 2; Mul 3550 2; Mul 3551 2; Mul 3552 2; Mul 3553 2; Mul 3554 2; Mul 3555 2; Mul 3556 2; Mul 3557 2;
  Mul 3558 2; Mul 3559 2; Mul 3560 2; Mul 3561 2; Mul 3562 2; Mul 3563 2; Mul 3564 2; Mul 3565 2; Mul 3566 2;
  Mul 3567 2; Mul 3568 2; Mul 3569 2; Mul 3570 2; Mul 3603 2; Mul 3604 2; Mul 3605 2; Mul 3606 2; Mul 3607 2;
  Mul 3608 2; Mul 3609 2; Mul 3610 2; Mul 3611 2; Mul 3612 2; Mul 3613 2; Mul 3614 2; Mul 3615 2; Mul 3616 2;
  Mul 3617 2; Mul 3618 2; Mul 3619 2; Mul 3620 2; Mul 3621 2; Mul 3622 2; Mul 3623 2; Mul 3624 2; Mul 3625 2;
  Mul 3626 2; Mul 3627 2; Mul 3628 2; Mul 3629 2; Mul 3630 2; Mul 3631 2; Mul 3632 2; Mul 3633 2; Mul 3634 2;
  Mul 3571 16; Mul 3572 17; Mul 3573 19; Mul 3574 20; Mul 3575 21; Mul 3576 22; Mul 3577 23; Mul 3578 24;
  Mul 3579 25; Mul 3580 26; Mul 3582 2; Mul 3583 4; Mul 3584 8; Mul 3585 14; Mul 3586 15; Mul 3587 16; Mul 3588 17;
  Mul 3589 19; Mul 3590 20; Mul 3591 21; Mul 3592 22; Mul 3593 23; Mul 3594 24; Mul 3595 25; Mul 3596 26; Mul 3598 2;
  Mul 3599 4; Mul 3600 8; Mul 3601 14; Mul 3602 15; Mul 3635 16; Mul 3636 17; Mul 3637 19; Mul 3638 20; Mul 3639 21;
  Mul 3640 22; Mul 3641 23; Mul 3642 24; Mul 3643 25; Mul 3644 26; Mul 3646 2; Mul 3647 4; Mul 3648 8; Mul 3649 14;
  Mul 3650 15; Mul 3651 16; Mul 3652 17; Mul 3653 19; Mul 3654 20; Mul 3655 21; Mul 3656 22; Mul 3657 23;
  Mul 3658 24; Mul 3659 25; Mul 3660 26; Mul 3662 2; Mul 3663 4; Mul 3664 8; Mul 3665 14; Mul 3666 15; Mul 3667 3570;
  Mul 3668 3551; Mul 3669 3552; Mul 3670 3556; Mul 3670 3570; Mul 3671 3557; Mul 3672 3558; Mul 3673 3559;
  Mul 3674 3560; Mul 3675 3561; Mul 3676 3562; Mul 3677 3563; Mul 3678 3564; Mul 3679 3565; Mul 3680 3566;
  Mul 3681 3567; Mul 3682 3542; Mul 3683 3543; Mul 3684 3544; Mul 3685 3545; Mul 3686 3546; Mul 3687 3547;
  Mul 3688 3548; Mul 3689 3549; Mul 3690 3550; Mul 3691 3568; Mul 3692 3569; Mul 3693 3553; Mul 3694 3554;
  Mul 3694 3568; Mul 3695 3555; Mul 3695 3569; Mul 3699 3623; Mul 3700 3612; Mul 3700 3624; Mul 3701 3625;
  Mul 3701 3626; Mul 3702 3617; Mul 3703 3618; Mul 3704 3619; Mul 3705 3620; Mul 3706 3621; Mul 3707 3622;
  Mul 3708 3627; Mul 3709 3626; Mul 3710 3627; Mul 3711 3628; Mul 3712 3629; Mul 3713 3630; Mul 3714 3631;
  Mul 3715 3632; Mul 3716 3633; Mul 3717 3634; Mul 3718 3613; Mul 3719 3614; Mul 3720 3615; Mul 3721 3616;
  Mul 3722 3628; Mul 3723 3629; Mul 3724 3630; Mul 3725 3631; Mul 3726 3632; Mul 3727 3633; Mul 3728 3634;
  Add 3539 3570; Add 3540 3551; Add 3541 3552; Add 3542 3556; Add 3542 3570; Add 3543 3557; Add 3544 3558;
  Add 3545 3559; Add 3546 3560; Add 3547 3561; Add 3548 3562; Add 3549 3563; Add 3550 3564; Add 3551 3565;
  Add 3552 3566; Add 3553 3567; Add 3554 3542; Add 3555 3543; Add 3556 3544; Add 3557 3545; Add 3558 3546;
  Add 3559 3547; Add 3560 3548; Add 3561 3549; Add 3562 3550; Add 3563 3568; Add 3564 3569; Add 3565 3553;
  Add 3566 3554; Add 3566 3568; Add 3567 3555; Add 3567 3569; Add 3603 3623; Add 3604 3612; Add 3604 3624;
  Add 3605 3625; Add 3605 3626; Add 3606 3617; Add 3607 3618; Add 3608 3619; Add 3609 3620; Add 3610 3621;
  Add 3611 3622; Add 3612 3627; Add 3613 3626; Add 3614 3627; Add 3615 3628; Add 3616 3629; Add 3617 3630;
  Add 3618 3631; Add 3619 3632; Add 3620 3633; Add 3621 3634; Add 3622 3613; Add 3623 3614; Add 3624 3615;
  Add 3625 3616; Add 3626 3628; Add 3627 3629; Add 3628 3630; Add 3629 3631; Add 3630 3632; Add 3631 3633;
  Add 3632 3634; Sub 3859 3795; Sub 3884 3820; Sub 3886 3822; Sub 3888 3824; Sub 3891 3827; Sub 3898 3834;
  Sub 3912 3848; Sub 3913 3849; Sub 3914 3850; Sub 3915 3851; Sub 3916 3852; Sub 3917 3853; Sub 3918 3854;
  Sub 3855 3791; Sub 3856 3792; Sub 3857 3793; Sub 3858 3794; Sub 3860 3796; Sub 3861 3797; Sub 3862 3798;
  Sub 3863 3799; Sub 3864 3800; Sub 3865 3801; Sub 3866 3802; Sub 3867 3803; Sub 3868 3804; Sub 3869 3805;
  Sub 3870 3806; Sub 3871 3807; Sub 3872 3808; Sub 3873 3809; Sub 3874 3810; Sub 3875 3811; Sub 3876 3812;
  Sub 3877 3813; Sub 3878 3814; Sub 3879 3815; Sub 3880 3816; Sub 3881 3817; Sub 3882 3818; Sub 3883 3819;
  Sub 3885 3821; Sub 3887 3823; Sub 3889 3825; Sub 3890 3826; Sub 3892 3828; Sub 3893 3829; Sub 3894 3830;
  Sub 3895 3831; Sub 3896 3832; Sub 3897 3833; Sub 3899 3835; Sub 3900 3836; Sub 3901 3837; Sub 3902 3838;
  Sub 3903 3839; Sub 3904 3840; Sub 3905 3841; Sub 3906 3842; Sub 3907 3843; Sub 3908 3844; Sub 3909 3845;
  Sub 3910 3846; Sub 3911 3847; Add 3581 3741; Add 3597 3756; Add 3645 3771; Add 3661 3786; Add 3539 3940;
  Add 3540 3941; Add 3541 3942; Add 3543 3944; Add 3544 3945; Add 3545 3946; Add 3546 3947; Add 3547 3948;
  Add 3548 3949; Add 3549 3950; Add 3550 3951; Add 3551 3955; Add 3552 3956; Add 3553 3957; Add 3554 3932;
  Add 3555 3933; Add 3556 3934; Add 3557 3958; Add 3558 3959; Add 3559 3960; Add 3560 3935; Add 3561 3936;
  Add 3562 3937; Add 3563 3938; Add 3564 3939; Add 3565 3943; Add 3568 3952; Add 3569 3953; Add 3570 3954;
  Add 3603 3963; Add 3606 3966; Add 3607 3967; Add 3608 3968; Add 3609 3969; Add 3610 3961; Add 3611 3962;
  Add 3613 3972; Add 3614 3973; Add 3615 3974; Add 3616 3975; Add 3617 3976; Add 3618 3977; Add 3619 3978;
  Add 3620 3979; Add 3621 3980; Add 3622 3981; Add 3623 3982; Add 3624 3964; Add 3625 3965; Add 3633 3970;
  Add 3634 3971; Mul 3667 3940; Mul 3668 3941; Mul 3669 3942; Mul 3671 3944; Mul 3672 3945; Mul 3673 3946;
  Mul 3674 3947; Mul 3675 3948; Mul 3676 3949; Mul 3677 3950; Mul 3678 3951; Mul 3679 3955; Mul 3680 3956;
  Mul 3681 3957; Mul 3682 3932; Mul 3683 3933; Mul 3684 3934; Mul 3685 3958; Mul 3686 3959; Mul 3687 3960;
  Mul 3688 3935; Mul 3689 3936; Mul 3690 3937; Mul 3691 3938; Mul 3692 3939; Mul 3693 3943; Mul 3696 3952;
  Mul 3697 3953; Mul 3698 3954; Mul 3699 3963; Mul 3702 3966; Mul 3703 3967; Mul 3704 3968; Mul 3705 3969;
  Mul 3706 3961; Mul 3707 3962; Mul 3709 3972; Mul 3710 3973; Mul 3711 3974; Mul 3712 3975; Mul 3713 3976;
  Mul 3714 3977; Mul 3715 3978; Mul 3716 3979; Mul 3717 3980; Mul 3718 3981; Mul 3719 3982; Mul 3720 3964;
  Mul 3721 3965; Mul 3729 3970; Mul 3730 3971; Mul 3919 26; Mul 3920 24; Mul 3921 25; Mul 3922 16; Mul 3923 17;
  Mul 3924 19; Mul 3925 20; Mul 3926 21; Mul 3927 22; Mul 3928 23; Mul 3929 24; Mul 3930 25; Mul 3931 26;
  Sub 3987 4038; Sub 3988 4039; Sub 3989 4040; Sub 3990 4041; Sub 3991 4042; Sub 3992 4043; Sub 3993 4044;
  Sub 3994 4045; Sub 3995 4046; Sub 3996 4047; Sub 3997 4048; Sub 3998 4049; Sub 3999 4050; Sub 4000 4051;
  Sub 4001 4052; Sub 4002 4053; Sub 4003 4054; Sub 4004 4055; Sub 4005 4056; Sub 4006 4057; Sub 4007 4058;
  Sub 4008 4059; Sub 4009 4060; Sub 4010 4061; Sub 4011 4062; Sub 4012 4063; Sub 4013 4064; Sub 4014 4065;
  Sub 4015 4066; Sub 4016 4067; Sub 4017 4068; Sub 4018 4069; Sub 4019 4070; Sub 4020 4071; Sub 4021 4072;
  Sub 4022 4073; Sub 4023 4074; Sub 4024 4075; Sub 4025 4076; Sub 4026 4077; Sub 4027 4078; Sub 4028 4079;
  Sub 4029 4080; Sub 4030 4081; Sub 4031 4082; Sub 4032 4083; Sub 4033 4084; Sub 4034 4085; Sub 4035 4086;
  Sub 4036 4087; Sub 4037 4088; Add 3983 3742; Add 3984 3757; Add 3985 3772; Add 3986 3787; Mul 4102 20; Mul 4103 21;
  Mul 4104 22; Mul 4106 2; Mul 4107 4; Mul 4108 8; Mul 4109 14; Mul 4110 15; Mul 4111 16; Mul 4112 17; Mul 4113 22].

(* L4528-5027 DEF.block *)
Definition block_9 : list Step := [
  Mul 4114 23; Mul 4115 24; Mul 4116 25; Mul 4117 26; Mul 4119 2; Mul 4120 4; Mul 4121 8; Mul 4122 14; Mul 4123 15;
  Mul 4124 16; Mul 4125 17; Mul 4126 19; Mul 4127 23; Mul 4128 19; Mul 4129 20; Mul 4130 21; Mul 4131 15;
  Mul 4132 26; Mul 4134 2; Mul 4135 4; Mul 4136 8; Mul 4137 14; Mul 4138 4; Mul 4139 8; Mul 4140 14; Mul 4141 15;
  Mul 4142 16; Mul 4143 17; Mul 4144 19; Mul 4145 20; Mul 4146 21; Mul 4147 22; Mul 4148 23; Mul 4149 24;
  Mul 4150 25; Mul 4152 2; Add 4153 3743; Add 4154 3758; Add 4155 3773; Add 4156 3788; Add 4204 3744; Add 4205 3759;
  Add 4206 3774; Add 4207 3789; Add 4105 4160; Add 4118 4172; Add 4133 4186; Add 4151 4203; Add 4208 3745;
  Add 4209 3760; Add 4210 3775; Add 4211 3790; Add 4212 4161; Add 4213 4173; Add 4214 4187; Add 4215 4190;
  Add 4216 3746; Add 4217 3731; Add 4218 3776; Add 4219 3761; Add 4220 4162; Add 4221 4174; Add 4222 4188;
  Add 4223 4191; Add 4224 3747; Add 4225 3732; Add 4226 3777; Add 4227 3762; Add 4228 4163; Add 4229 4175;
  Add 4230 4189; Add 4231 4192; Add 4232 3748; Add 4233 3733; Add 4234 3778; Add 4235 3763; Add 4236 4164;
  Add 4237 4176; Add 4238 4184; Add 4239 4193; Add 4240 3749; Add 4241 3734; Add 4242 3779; Add 4243 3764;
  Add 4244 4165; Add 4245 4177; Add 4246 4092; Add 4247 4194; Add 4248 3750; Add 4249 3735; Add 4250 3780;
  Add 4251 3765; Add 4252 4166; Add 4253 4178; Add 4254 4093; Add 4255 4195; Add 4256 3751; Add 4257 3736;
  Add 4258 3781; Add 4259 3766; Add 4260 4181; Add 4261 4179; Add 4262 4094; Add 4263 4196; Add 4264 3752;
  Add 4265 3737; Add 4266 3782; Add 4267 3767; Add 4268 4182; Add 4269 4157; Add 4270 4095; Add 4271 4197;
  Add 4272 3753; Add 4273 3738; Add 4274 3783; Add 4275 3768; Add 4276 4183; Add 4277 4158; Add 4278 4096;
  Add 4279 4198; Add 4280 3754; Add 4281 3739; Add 4282 3784; Add 4283 3769; Add 4284 4167; Add 4285 4159;
  Add 4286 4097; Add 4287 4199; Add 4288 3755; Add 4289 3740; Add 4290 3785; Add 4291 3770; Add 4292 4168;
  Add 4293 4180; Add 4294 4098; Add 4295 4200; Add 4300 4169; Add 4301 4090; Add 4302 4099; Add 4303 4201;
  Add 4304 4170; Add 4305 4091; Add 4306 4100; Add 4307 4202; Add 4310 4101; Add 4311 4185; Add 4308 4171;
  Add 4309 4089; Add 4298 4312; Add 4299 4313; Add 4314 4317; Add 4315 4316; Add 4296 4319; Add 4297 4318; Get 641;
  Sub 4322 4321; AndEqz 331 4323; Get 642; Sub 4324 4320; AndEqz 332 4325; Sub 4322 1368; Mul 4326 27; Sub 4327 324;
  Mul 4328 13; Sub 1 4329; Mul 4329 4330; AndEqz 333 4331; Add 4324 4327; Sub 4332 1404; Mul 4333 27; Sub 4334 325;
  Mul 4335 13; Sub 1 4336; Mul 4336 4337; AndEqz 334 4338; AndEqz 335 3509; AndEqz 336 3510; AndEqz 337 3511;
  AndEqz 338 3512; AndEqz 339 3518; AndEqz 340 3525; AndEqz 341 3531; AndEqz 342 3538; AndCond 325 664 343;
  Mul 328 2; Mul 329 3; Add 327 4339; Add 4341 4340; Sub 4342 696; AndEqz 0 4343; Sub 330 697; AndEqz 0 4344;
  GetGlobal 0 0; Sub 4345 332; AndEqz 346 4346; GetGlobal 0 1; Sub 4347 334; AndEqz 347 4348; Add 697 1;
  Sub 509 4349; AndEqz 348 4350; GetGlobal 0 2; Sub 4351 510; AndEqz 349 4352; GetGlobal 0 3; Sub 4353 511;
  AndEqz 350 4354; Add 697 2; Sub 514 4355; AndEqz 351 4356; GetGlobal 0 4; Sub 4357 515; AndEqz 352 4358;
  GetGlobal 0 5; Sub 4359 516; AndEqz 353 4360; Add 697 3; Sub 519 4361; AndEqz 354 4362; GetGlobal 0 6;
  Sub 4363 521; AndEqz 355 4364; GetGlobal 0 7; Sub 4365 523; AndEqz 356 4366; AndCond 345 326 357; GetGlobal 0 8;
  Sub 4367 332; AndEqz 346 4368; GetGlobal 0 9; Sub 4369 334; AndEqz 359 4370; AndEqz 360 4350; GetGlobal 0 10;
  Sub 4371 510; AndEqz 361 4372; GetGlobal 0 11; Sub 4373 511; AndEqz 362 4374; AndEqz 363 4356; GetGlobal 0 12;
  Sub 4375 515; AndEqz 364 4376; GetGlobal 0 13; Sub 4377 516; AndEqz 365 4378; AndEqz 366 4362; GetGlobal 0 14;
  Sub 4379 521; AndEqz 367 4380; GetGlobal 0 15; Sub 4381 523; AndEqz 368 4382; AndCond 358 327 369; GetGlobal 0 16;
  Sub 4383 332; AndEqz 346 4384; GetGlobal 0 17; Sub 4385 334; AndEqz 371 4386; AndEqz 372 4350; GetGlobal 0 18;
  Sub 4387 510; AndEqz 373 4388; GetGlobal 0 19; Sub 4389 511; AndEqz 374 4390; AndEqz 375 4356; GetGlobal 0 20;
  Sub 4391 515; AndEqz 376 4392; GetGlobal 0 21; Sub 4393 516; AndEqz 377 4394; AndEqz 378 4362; GetGlobal 0 22;
  Sub 4395 521; AndEqz 379 4396; GetGlobal 0 23; Sub 4397 523; AndEqz 380 4398; AndCond 370 328 381; GetGlobal 0 24;
  Sub 4399 332; AndEqz 346 4400; GetGlobal 0 25; Sub 4401 334; AndEqz 383 4402; AndEqz 384 4350; GetGlobal 0 26;
  Sub 4403 510; AndEqz 385 4404; GetGlobal 0 27; Sub 4405 511; AndEqz 386 4406; AndEqz 387 4356; GetGlobal 0 28;
  Sub 4407 515; AndEqz 388 4408; GetGlobal 0 29; Sub 4409 516; AndEqz 389 4410; AndEqz 390 4362; GetGlobal 0 30;
  Sub 4411 521; AndEqz 391 4412; GetGlobal 0 31; Sub 4413 523; AndEqz 392 4414; AndCond 382 329 393;
  AndCond 344 695 394; AndCond 250 852 395; Get 19; Mul 285 43; Sub 1 285; Add 4416 4417; Sub 320 507; AndEqz 0 4419;
  Mul 321 4418; Sub 325 664; AndEqz 397 4421; Mul 326 4418; Sub 330 695; AndEqz 398 4423; Mul 332 4418; Sub 509 697;
  AndEqz 399 4425; Mul 510 4418; Sub 514 696; AndEqz 400 4427; Mul 515 4418; Sub 519 1111; AndEqz 401 4429; Get 37;
  Mul 521 4418; Sub 698 4430; AndEqz 402 4432; Get 38; Mul 699 4418; Sub 703 4433; AndEqz 403 4435; Get 497; Get 503;
  Get 509; Get 515; Get 521; Get 527; Get 533; Get 539; Get 545; Get 551; Get 557; Get 563; Get 569; Get 575;
  Get 445; Get 451; Get 457; Get 459; Get 461; Get 467; Get 473; Get 479; Get 485; Get 491; Mul 317 4436;
  Mul 317 4437; Mul 317 4438; Mul 317 4439; Mul 317 4440; Mul 317 4441; Mul 317 4450; Mul 317 4451; Mul 317 4452;
  Mul 317 4453; Mul 317 4454; Mul 317 4455; Mul 317 4456; Mul 317 4457; Mul 317 4458; Mul 317 4459; Mul 318 44;
  Mul 475 4422; Mul 475 4424; Mul 475 4426; Mul 475 4428; Mul 475 4431; Mul 475 4434; Mul 475 4420; Mul 506 4422;
  Mul 506 4424; Mul 506 4426; Mul 506 4428; Mul 506 4431; Mul 506 4434; Mul 506 4420; Mul 508 4422; Mul 508 4424;
  Mul 508 4426; Mul 508 4428; Mul 508 4431; Mul 508 4434; Mul 508 4420; Mul 317 319; Mul 704 4418; Add 317 319;
  Add 4460 4485; Add 4462 4487; Add 4464 4489; Add 4466 4483; Add 4468 4478; Add 4470 4480; Add 4472 4482;
  Add 4474 4490; Add 4461 4486; Add 4463 4488; Add 4467 4477; Add 4469 4479; Add 4471 4481; Add 4475 4484;
  Mul 4509 2; Mul 4510 2; Mul 4511 2; Mul 4512 2; Mul 4513 2; Mul 4514 2; Mul 475 4499; Mul 506 4499; Mul 508 4499;
  Mul 462 4504; Sub 4500 4498; Add 4501 4509; Add 4502 4510; Add 4504 4511; Add 4505 4512; Add 4506 4513;
  Add 4508 4514; Add 4515 4531; Add 4517 4529; Add 4518 4528; Add 4520 4526; Add 4465 4522; Add 4473 4521;
  Mul 4526 4; Mul 4527 4; Mul 4528 4; Mul 4529 4; Mul 4530 4; Mul 4531 4; Mul 4536 2; Mul 4537 2; Mul 4525 4442;
  Mul 4525 4443; Mul 4525 4444; Mul 4525 4445; Mul 4525 4446; Mul 4525 4447; Mul 4525 4448; Mul 4525 4449;
  Add 4503 4536; Add 4507 4537; Add 4540 4533; Add 4541 4534; Add 4516 4554; Add 4544 4527; Add 4519 4555;
  Add 4545 4530; Add 4546 4497; Add 4548 4492; Add 4550 4494; Add 4552 4496; Add 4538 4532; Add 4539 4558;
  Add 4542 4560; Add 4543 4535; Add 4547 4491; Add 4549 4493; Add 4551 4495; Add 4553 4523; Mul 4554 4; Mul 4555 4;
  Mul 4570 2; Mul 4571 2; Mul 4572 2; Mul 4573 2; Add 4533 4557; Add 4534 4556; Add 4532 4569; Add 4559 4567;
  Add 4561 4568; Add 4535 4566; Add 4562 4570; Add 4563 4571; Add 4564 4572; Add 4565 4573; Add 4576 4587;
  Add 4577 4586; Add 4578 4589; Add 4579 4588; Add 4574 4559].

(* L5028-5527 DEF.block *)
Definition block_10 : list Step := [
  Add 4575 4561; Mul 4586 4; Mul 4587 4; Mul 4588 4; Mul 4589 4; Add 4556 4568; Add 4557 4595; Add 4558 4594;
  Add 4560 4595; Add 4596 4590; Add 4597 4591; Add 4598 4592; Add 4599 4593; Add 4600 4569; Add 4601 4566;
  Add 4580 4603; Add 4581 4584; Add 4590 4605; Add 4591 4604; Add 4592 4607; Add 4593 4606; Add 4608 4567;
  Add 4609 4594; Add 4610 4585; Add 4611 4582; Add 4616 4604; Add 4617 4605; Add 4618 4602; Add 4619 4583;
  Add 4620 4606; Add 4621 4607; Add 4622 4612; Add 4623 4613; Add 4556 4624; Add 4557 4625; Add 4566 4625;
  Add 4567 4624; Add 4594 4625; Add 4568 4624; Add 4595 4625; Add 4569 4624; Add 4604 4624; Add 4605 4625;
  Add 4606 4624; Add 4607 4625; Add 4626 4614; Add 4627 4615; Add 4580 4640; Add 4581 4641; Add 4582 4641;
  Add 4602 4640; Add 4583 4641; Add 4603 4640; Add 4584 4641; Add 4585 4640; Add 4612 4640; Add 4613 4641;
  Add 4614 4640; Add 4615 4641; Mul 318 4643; Add 4654 4524; Add 4655 4476; Sub 316 4656; AndEqz 404 4657;
  Mul 318 4628; Mul 318 45; Mul 462 4511; Add 4658 4660; Add 4661 4659; Sub 288 4662; AndEqz 405 4663; Mul 318 4642;
  Mul 318 46; Mul 462 4505; Add 4664 4666; Add 4667 4665; Sub 289 4668; AndEqz 406 4669; Mul 318 4629; Mul 318 47;
  Mul 462 4512; Add 4670 4672; Add 4673 4671; Sub 290 4674; AndEqz 407 4675; Mul 318 4648; Mul 318 48; Mul 462 4506;
  Add 4676 4678; Add 4679 4677; Sub 291 4680; AndEqz 408 4681; Mul 318 4633; Mul 318 49; Mul 462 4513; Add 4682 4684;
  Add 4685 4683; Sub 292 4686; AndEqz 409 4687; Mul 318 4647; Mul 318 50; Mul 462 4507; Add 4688 4690; Add 4691 4689;
  Sub 293 4692; AndEqz 410 4693; Mul 318 4634; Mul 318 51; Mul 462 4537; Add 4694 4696; Add 4697 4695; Sub 294 4698;
  AndEqz 411 4699; Mul 318 4644; Mul 318 52; Mul 462 4508; Add 4700 4702; Add 4703 4701; Sub 295 4704;
  AndEqz 412 4705; Mul 318 4635; Mul 318 53; Mul 462 4514; Add 4706 4708; Add 4709 4707; Sub 296 4710;
  AndEqz 413 4711; Mul 318 4649; Mul 318 54; Mul 462 4501; Add 4712 4714; Add 4715 4713; Sub 287 4716;
  AndEqz 414 4717; Mul 318 4630; Mul 318 55; Mul 462 4509; Add 4718 4720; Add 4721 4719; Sub 430 4722;
  AndEqz 415 4723; Mul 318 4646; Mul 318 56; Mul 462 4502; Add 4724 4726; Add 4727 4725; Sub 505 4728;
  AndEqz 416 4729; Mul 318 4631; Mul 318 57; Mul 462 4510; Add 4730 4732; Add 4733 4731; Sub 476 4734;
  AndEqz 417 4735; Mul 318 4645; Mul 318 58; Mul 462 4503; Add 4736 4738; Add 4739 4737; Sub 477 4740;
  AndEqz 418 4741; Mul 318 4632; Mul 318 59; Mul 462 4536; Add 4742 4744; Add 4745 4743; Sub 478 4746;
  AndEqz 419 4747; Mul 318 4651; Mul 318 60; Mul 462 4562; Add 4748 4750; Add 4751 4749; Sub 479 4752;
  AndEqz 420 4753; Mul 318 4636; Mul 318 61; Mul 462 4570; Add 4754 4756; Add 4757 4755; Sub 480 4758;
  AndEqz 421 4759; Mul 318 4650; Mul 318 62; Mul 462 4563; Add 4760 4762; Add 4763 4761; Sub 481 4764;
  AndEqz 422 4765; Mul 318 4637; Mul 318 63; Mul 462 4571; Add 4766 4768; Add 4769 4767; Sub 482 4770;
  AndEqz 423 4771; Mul 318 4653; Mul 318 64; Mul 462 4564; Add 4772 4774; Add 4775 4773; Sub 483 4776;
  AndEqz 424 4777; Mul 318 4638; Mul 318 65; Mul 462 4572; Add 4778 4780; Add 4781 4779; Sub 484 4782;
  AndEqz 425 4783; Mul 318 4652; Mul 318 66; Mul 462 4565; Add 4784 4786; Add 4787 4785; Sub 485 4788;
  AndEqz 426 4789; Mul 318 4639; Mul 318 67; Mul 462 4573; Add 4790 4792; Add 4793 4791; Sub 619 4794;
  AndEqz 427 4795; AndCond 396 4415 428; Get 20; Get 497; Get 503; Get 509; Get 515; Get 521; Get 527; Get 533;
  Get 539; Get 545; Get 551; Get 557; Get 563; Get 569; Get 575; Get 457; Get 459; Get 461; Get 467; Get 473;
  Get 479; Get 485; Get 491; Mul 2133 2133; Mul 4819 4819; Sub 320 4820; AndEqz 0 4821; Mul 2134 2134; Mul 320 4819;
  Mul 4823 2133; Mul 4822 4822; Sub 321 4825; AndEqz 430 4826; Mul 4811 4811; Mul 321 4822; Mul 4828 2134;
  Mul 4827 4827; Sub 322 4830; AndEqz 431 4831; Mul 4812 4812; Mul 322 4827; Mul 4833 4811; Mul 4832 4832;
  Sub 323 4835; AndEqz 432 4836; Mul 4813 4813; Mul 323 4832; Mul 4838 4812; Mul 4837 4837; Sub 324 4840;
  AndEqz 433 4841; Mul 4814 4814; Mul 324 4837; Mul 4843 4813; Mul 4842 4842; Sub 325 4845; AndEqz 434 4846;
  Mul 4815 4815; Mul 325 4842; Mul 4848 4814; Mul 4847 4847; Sub 326 4850; AndEqz 435 4851; Mul 4816 4816;
  Mul 326 4847; Mul 4853 4815; Mul 4852 4852; Sub 327 4855; AndEqz 436 4856; Mul 4817 4817; Mul 327 4852;
  Mul 4858 4816; Mul 4857 4857; Sub 328 4860; AndEqz 437 4861; Mul 4818 4818; Mul 328 4857; Mul 4863 4817;
  Mul 4862 4862; Sub 329 4865; AndEqz 438 4866; Mul 4797 4797; Mul 329 4862; Mul 4868 4818; Mul 4867 4867;
  Sub 330 4870; AndEqz 439 4871; Mul 4798 4798; Mul 330 4867; Mul 4873 4797; Mul 4872 4872; Sub 332 4875;
  AndEqz 440 4876; Mul 4799 4799; Mul 332 4872; Mul 4878 4798; Mul 4877 4877; Sub 334 4880; AndEqz 441 4881;
  Mul 4800 4800; Mul 334 4877; Mul 4883 4799; Mul 4882 4882; Sub 336 4885; AndEqz 442 4886; Mul 4801 4801;
  Mul 336 4882; Mul 4888 4800; Mul 4887 4887; Sub 338 4890; AndEqz 443 4891; Mul 4802 4802; Mul 338 4887;
  Mul 4893 4801; Mul 4892 4892; Sub 509 4895; AndEqz 444 4896; Mul 4803 4803; Mul 509 4892; Mul 4898 4802;
  Mul 4897 4897; Sub 510 4900; AndEqz 445 4901; Mul 4804 4804; Mul 510 4897; Mul 4903 4803; Mul 4902 4902;
  Sub 511 4905; AndEqz 446 4906; Mul 4805 4805; Mul 511 4902; Mul 4908 4804; Mul 4907 4907; Sub 512 4910;
  AndEqz 447 4911; Mul 4806 4806; Mul 512 4907; Mul 4913 4805; Mul 4912 4912; Sub 513 4915; AndEqz 448 4916;
  Mul 4807 4807; Mul 513 4912; Mul 4918 4806; Mul 4917 4917; Sub 514 4920; AndEqz 449 4921; Mul 4808 4808;
  Mul 514 4917; Mul 4923 4807; Mul 4922 4922; Sub 515 4925; AndEqz 450 4926; Mul 4809 4809; Mul 515 4922;
  Mul 4928 4808; Mul 4927 4927; Sub 516 4930; AndEqz 451 4931; Mul 4810 4810; Mul 516 4927; Mul 4933 4809;
  Mul 4932 4932; Sub 517 4935; AndEqz 452 4936; Add 4854 4859; Add 4864 4869; Add 4874 4879; Add 4884 4889;
  Add 4894 4899; Add 4904 4909; Add 4914 4919; Add 4924 4929; Add 4824 4829; Add 4834 4839; Add 4844 4849;
  Mul 4937 4; Mul 4938 4; Mul 4939 4; Mul 4940 4; Mul 4941 4; Mul 4942 4; Mul 4943 4; Mul 4944 4; Mul 4945 4;
  Mul 4946 4; Mul 4947 4; Mul 4849 2; Mul 4859 2; Mul 4869 2; Mul 4879 2; Mul 4889 2; Mul 4899 2; Mul 4909 2;
  Mul 4919 2; Mul 4929 2; Mul 4829 2; Mul 4839 2; Add 4959 4937; Add 4960 4947; Add 4961 4939; Add 4962 4938;
  Add 4963 4941; Add 4964 4940; Add 4965 4943; Add 4966 4942; Add 4968 4946; Add 4969 4945; Add 4948 4971;
  Add 4949 4972; Add 4950 4973; Add 4951 4974; Add 4952 4975; Add 4953 4976; Add 4954 4977; Add 4958 4970;
  Mul 517 4932; Mul 285 73; Mul 285 74; Mul 285 76; Mul 285 84; Mul 285 90; Mul 285 92; Mul 285 99; Mul 285 100;
  Mul 285 109; Mul 285 113; Mul 285 117; Mul 285 121; Mul 285 122; Mul 285 123; Mul 285 124; Mul 285 129;
  Mul 285 134; Mul 285 139; Mul 285 142; Mul 285 144; Mul 285 145; Mul 285 148; Mul 285 157; Mul 285 161; Mul 319 69;
  Mul 319 75; Mul 319 78; Mul 319 79; Mul 319 95; Mul 319 96; Mul 319 98; Mul 319 101; Mul 319 105; Mul 319 107;
  Mul 319 110; Mul 319 118; Mul 319 128; Mul 319 133; Mul 319 146; Mul 319 147; Mul 319 150; Mul 319 152;
  Mul 319 153; Mul 319 158; Mul 319 159; Mul 319 160; Mul 319 162; Mul 319 163; Mul 318 68; Mul 318 70; Mul 318 71;
  Mul 318 72; Mul 318 77; Mul 318 82; Mul 318 88; Mul 318 89; Mul 318 93].

(* L5528-6027 DEF.block *)
Definition block_11 : list Step := [
  Mul 318 94; Mul 318 103; Mul 318 104; Mul 318 108; Mul 318 116; Mul 318 119; Mul 318 120; Mul 318 125; Mul 318 127;
  Mul 318 136; Mul 318 143; Mul 318 149; Mul 318 151; Mul 318 154; Mul 318 155; Mul 317 80; Mul 317 81; Mul 317 83;
  Mul 317 85; Mul 317 86; Mul 317 87; Mul 317 91; Mul 317 97; Mul 317 102; Mul 317 106; Mul 317 111; Mul 317 112;
  Mul 317 114; Mul 317 115; Mul 317 126; Mul 317 130; Mul 317 131; Mul 317 132; Mul 317 135; Mul 317 137;
  Mul 317 138; Mul 317 140; Mul 317 141; Mul 317 156; Mul 4988 4810; Add 4970 4980; Add 4971 4987; Add 4972 4982;
  Add 4973 4981; Add 4974 4984; Add 4975 4983; Add 4976 4986; Add 4977 4985; Add 4956 4978; Add 4957 4979;
  Add 4934 5085; Add 4967 5096; Add 4955 5097; Mul 5096 4; Mul 5085 2; Add 4989 5061; Add 4990 5084; Add 4991 5072;
  Add 4992 5067; Add 4993 5065; Add 4994 5082; Add 4995 5076; Add 4996 5071; Add 4997 5062; Add 4998 5073;
  Add 4999 5069; Add 5000 5080; Add 5001 5078; Add 5002 5079; Add 5003 5070; Add 5004 5074; Add 5005 5077;
  Add 5006 5083; Add 5007 5075; Add 5008 5068; Add 5009 5064; Add 5010 5081; Add 5011 5063; Add 5012 5066;
  Add 4978 5095; Add 4979 5094; Add 5100 4944; Add 5099 5127; Add 5101 5035; Add 5102 5014; Add 5103 5033;
  Add 5104 5021; Add 5105 5016; Add 5106 5024; Add 5107 5023; Add 5108 5036; Add 5109 5020; Add 5110 5027;
  Add 5111 5028; Add 5112 5017; Add 5113 5031; Add 5114 5018; Add 5115 5013; Add 5116 5029; Add 5117 5025;
  Add 5118 5026; Add 5119 5030; Add 5120 5032; Add 5121 5015; Add 5122 5034; Add 5123 5022; Add 5124 5019;
  Add 5094 4987; Add 5095 4980; Add 5129 5048; Add 5130 5051; Add 5131 5044; Add 5132 5043; Add 5133 5057;
  Add 5134 5050; Add 5135 5049; Add 5136 5054; Add 5137 5042; Add 5138 5053; Add 5139 5052; Add 5140 5059;
  Add 5141 5040; Add 5142 5060; Add 5143 5056; Add 5144 5047; Add 5145 5046; Add 5146 5037; Add 5147 5058;
  Add 5148 5055; Add 5149 5041; Add 5150 5038; Add 5151 5039; Add 5152 5045; Add 5097 5128; Add 5127 5098;
  Add 5153 4981; Add 5154 4982; Add 5125 5086; Add 5126 5087; Add 5181 4983; Add 5182 4984; Add 5183 5088;
  Add 5184 5089; Add 5185 4985; Add 5186 4986; Add 5187 5090; Add 5188 5091; Add 5189 5098; Add 5190 5128;
  Add 5191 5092; Add 5192 5093; Add 5094 5193; Add 5095 5194; Add 4980 5194; Add 4981 5193; Add 4982 5194;
  Add 4983 5193; Add 4984 5194; Add 4985 5193; Add 4986 5194; Add 5098 5193; Add 5128 5194; Add 4987 5193;
  Add 5195 5179; Add 5196 5180; Add 5125 5209; Add 5126 5210; Add 5086 5209; Add 5087 5210; Add 5088 5209;
  Add 5089 5210; Add 5090 5209; Add 5091 5210; Add 5092 5209; Add 5093 5210; Add 5179 5209; Add 5180 5210;
  Add 5212 5175; Sub 518 5223; AndEqz 453 5224; Mul 518 518; Mul 5225 5225; Sub 909 5226; AndEqz 454 5227;
  Add 5197 5165; Mul 909 5225; Mul 5229 518; Sub 519 5228; AndEqz 455 5231; Mul 519 519; Mul 5232 5232; Sub 917 5233;
  AndEqz 456 5234; Add 5211 5172; Mul 917 5232; Mul 5236 519; Sub 521 5235; AndEqz 457 5238; Mul 521 521;
  Mul 5239 5239; Sub 918 5240; AndEqz 458 5241; Add 5198 5159; Mul 918 5239; Mul 5243 521; Sub 523 5242;
  AndEqz 459 5245; Mul 523 523; Mul 5246 5246; Sub 926 5247; AndEqz 460 5248; Add 5214 5167; Mul 926 5246;
  Mul 5250 523; Sub 525 5249; AndEqz 461 5252; Mul 525 525; Mul 5253 5253; Sub 927 5254; AndEqz 462 5255;
  Add 5208 5156; Mul 927 5253; Mul 5257 525; Sub 527 5256; AndEqz 463 5259; Mul 527 527; Mul 5260 5260; Sub 935 5261;
  AndEqz 464 5262; Add 5213 5168; Mul 935 5260; Mul 5264 527; Sub 698 5263; AndEqz 465 5266; Mul 698 698;
  Mul 5267 5267; Sub 936 5268; AndEqz 466 5269; Add 5199 5162; Mul 936 5267; Mul 5271 698; Sub 699 5270;
  AndEqz 467 5273; Mul 699 699; Mul 5274 5274; Sub 944 5275; AndEqz 468 5276; Add 5216 5160; Mul 944 5274;
  Mul 5278 699; Sub 700 5277; AndEqz 469 5280; Mul 700 700; Mul 5281 5281; Sub 945 5282; AndEqz 470 5283;
  Add 5200 5173; Mul 945 5281; Mul 5285 700; Sub 701 5284; AndEqz 471 5287; Mul 701 701; Mul 5288 5288; Sub 953 5289;
  AndEqz 472 5290; Add 5215 5174; Mul 953 5288; Mul 5292 701; Sub 702 5291; AndEqz 473 5294; Mul 702 702;
  Mul 5295 5295; Sub 954 5296; AndEqz 474 5297; Add 5201 5164; Mul 954 5295; Mul 5299 702; Sub 703 5298;
  AndEqz 475 5301; Mul 703 703; Mul 5302 5302; Sub 962 5303; AndEqz 476 5304; Add 5218 5158; Mul 962 5302;
  Mul 5306 703; Sub 704 5305; AndEqz 477 5308; Mul 704 704; Mul 5309 5309; Sub 963 5310; AndEqz 478 5311;
  Add 5202 5177; Mul 963 5309; Mul 5313 704; Sub 705 5312; AndEqz 479 5315; Mul 705 705; Mul 5316 5316; Sub 971 5317;
  AndEqz 480 5318; Add 5217 5176; Mul 971 5316; Mul 5320 705; Sub 706 5319; AndEqz 481 5322; Mul 706 706;
  Mul 5323 5323; Sub 972 5324; AndEqz 482 5325; Add 5203 5169; Mul 972 5323; Mul 5327 706; Sub 707 5326;
  AndEqz 483 5329; Mul 707 707; Mul 5330 5330; Sub 980 5331; AndEqz 484 5332; Add 5220 5171; Mul 980 5330;
  Mul 5334 707; Sub 708 5333; AndEqz 485 5336; Mul 708 708; Mul 5337 5337; Sub 981 5338; AndEqz 486 5339;
  Add 5204 5157; Mul 981 5337; Mul 5341 708; Sub 710 5340; AndEqz 487 5343; Mul 710 710; Mul 5344 5344; Sub 989 5345;
  AndEqz 488 5346; Add 5219 5166; Mul 989 5344; Mul 5348 710; Sub 712 5347; AndEqz 489 5350; Mul 712 712;
  Mul 5351 5351; Sub 990 5352; AndEqz 490 5353; Add 5205 5155; Mul 990 5351; Mul 5355 712; Sub 714 5354;
  AndEqz 491 5357; Mul 714 714; Mul 5358 5358; Sub 998 5359; AndEqz 492 5360; Add 5222 5163; Mul 998 5358;
  Mul 5362 714; Sub 716 5361; AndEqz 493 5364; Mul 716 716; Mul 5365 5365; Sub 999 5366; AndEqz 494 5367;
  Add 5206 5161; Mul 999 5365; Mul 5369 716; Sub 899 5368; AndEqz 495 5371; Mul 899 899; Mul 5372 5372;
  Sub 1007 5373; AndEqz 496 5374; Add 5221 5170; Mul 1007 5372; Mul 5376 899; Sub 900 5375; AndEqz 497 5378;
  Mul 900 900; Mul 5379 5379; Sub 1008 5380; AndEqz 498 5381; Add 5207 5178; Mul 1008 5379; Mul 5383 900;
  Sub 908 5382; AndEqz 499 5385; Mul 908 908; Mul 5386 5386; Sub 1016 5387; AndEqz 500 5388; Add 5230 5237;
  Add 5244 5251; Add 5258 5265; Add 5272 5279; Add 5286 5293; Add 5300 5307; Add 5314 5321; Add 5328 5335;
  Add 5342 5349; Add 5356 5363; Add 5370 5377; Mul 5389 4; Mul 5390 4; Mul 5391 4; Mul 5392 4; Mul 5393 4;
  Mul 5394 4; Mul 5395 4; Mul 5396 4; Mul 5397 4; Mul 5398 4; Mul 5399 4; Mul 5237 2; Mul 5251 2; Mul 5265 2;
  Mul 5279 2; Mul 5293 2; Mul 5307 2; Mul 5321 2; Mul 5335 2; Mul 5349 2; Mul 5363 2; Mul 5377 2; Add 5411 5390;
  Add 5412 5389; Add 5413 5392; Add 5414 5391; Add 5415 5394; Add 5416 5393; Add 5417 5396; Add 5418 5395;
  Add 5419 5398; Add 5420 5397; Add 5402 5424; Add 5403 5425; Add 5404 5426; Add 5405 5427; Add 5406 5428;
  Add 5407 5429; Add 5408 5430; Add 5409 5431; Mul 1016 5386; Mul 285 166; Mul 285 168; Mul 285 169; Mul 285 172;
  Mul 285 173; Mul 285 176; Mul 285 177; Mul 285 181; Mul 285 183; Mul 285 185; Mul 285 186; Mul 285 187;
  Mul 285 189; Mul 285 194; Mul 285 195; Mul 285 198; Mul 285 199; Mul 285 200; Mul 285 202; Mul 285 203;
  Mul 285 205; Mul 285 208; Mul 285 209; Mul 285 211; Mul 319 164; Mul 319 165; Mul 319 167; Mul 319 170;
  Mul 319 171; Mul 319 174; Mul 319 175; Mul 319 178; Mul 319 179; Mul 319 180; Mul 319 182; Mul 319 184;
  Mul 319 188; Mul 319 190; Mul 319 191; Mul 319 192; Mul 319 193; Mul 319 196; Mul 319 197; Mul 319 201;
  Mul 319 204; Mul 319 206; Mul 319 207; Mul 319 210; Mul 5440 908; Add 5441 5484; Add 5442 5486; Add 5443 5475;
  Add 5444 5488; Add 5445 5483; Add 5446 5481; Add 5447 5485; Add 5448 5487].

(* L6028-6527 DEF.block *)
Definition block_12 : list Step := [
  Add 5449 5480; Add 5450 5466; Add 5451 5478; Add 5452 5468; Add 5453 5467; Add 5454 5473; Add 5455 5465;
  Add 5456 5482; Add 5457 5477; Add 5458 5474; Add 5459 5469; Add 5460 5471; Add 5461 5470; Add 5462 5472;
  Add 5463 5479; Add 5464 5476; Add 5424 5433; Add 5425 5432; Add 5426 5435; Add 5427 5434; Add 5428 5437;
  Add 5429 5436; Add 5430 5439; Add 5431 5438; Add 5400 5422; Add 5401 5423; Add 5384 5489; Add 5421 5524;
  Add 5410 5525; Mul 5524 4; Mul 5489 2; Add 5422 5523; Add 5423 5522; Add 5528 5399; Add 5527 5531; Add 5522 5432;
  Add 5523 5433; Add 5525 5532; Add 5531 5526; Add 5533 5434; Add 5534 5435; Add 5529 5514; Add 5530 5515;
  Add 5537 5436; Add 5538 5437; Add 5539 5516; Add 5540 5517; Add 5541 5438; Add 5542 5439; Add 5543 5518;
  Add 5544 5519; Add 5545 5526; Add 5546 5532; Add 5547 5520; Add 5548 5521; Add 5522 5549; Add 5523 5550;
  Add 5432 5549; Add 5433 5550; Add 5434 5549; Add 5435 5550; Add 5436 5549; Add 5437 5550; Add 5438 5549;
  Add 5439 5550; Add 5526 5549; Add 5532 5550; Add 5551 5535; Add 5552 5536; Add 5529 5565; Add 5530 5566;
  Add 5514 5565; Add 5515 5566; Add 5516 5565; Add 5517 5566; Add 5518 5565; Add 5519 5566; Add 5520 5565;
  Add 5521 5566; Add 5535 5565; Add 5536 5566; Add 5568 5492; Sub 316 5579; AndEqz 501 5580; Add 5553 5506;
  Sub 288 5581; AndEqz 502 5582; Add 5567 5494; Sub 289 5583; AndEqz 503 5584; Add 5554 5495; Sub 290 5585;
  AndEqz 504 5586; Add 5570 5505; Sub 291 5587; AndEqz 505 5588; Add 5555 5502; Sub 292 5589; AndEqz 506 5590;
  Add 5569 5511; Sub 293 5591; AndEqz 507 5592; Add 5556 5493; Sub 294 5593; AndEqz 508 5594; Add 5572 5513;
  Sub 295 5595; AndEqz 509 5596; Add 5557 5509; Sub 296 5597; AndEqz 510 5598; Add 5571 5496; Sub 287 5599;
  AndEqz 511 5600; Add 5558 5508; Sub 430 5601; AndEqz 512 5602; Add 5574 5499; Sub 505 5603; AndEqz 513 5604;
  Add 5559 5501; Sub 476 5605; AndEqz 514 5606; Add 5573 5510; Sub 477 5607; AndEqz 515 5608; Add 5560 5497;
  Sub 478 5609; AndEqz 516 5610; Add 5576 5503; Sub 479 5611; AndEqz 517 5612; Add 5561 5500; Sub 480 5613;
  AndEqz 518 5614; Add 5575 5490; Sub 481 5615; AndEqz 519 5616; Add 5562 5498; Sub 482 5617; AndEqz 520 5618;
  Add 5578 5491; Sub 483 5619; AndEqz 521 5620; Add 5563 5504; Sub 484 5621; AndEqz 522 5622; Add 5577 5507;
  Sub 485 5623; AndEqz 523 5624; Add 5564 5512; Sub 619 5625; AndEqz 524 5626; AndCond 429 4796 525; Get 21;
  Sub 320 2133; AndEqz 0 5628; Add 320 212; Mul 5629 5629; Mul 5630 5630; Sub 518 5631; AndEqz 527 5632;
  Mul 4797 217; Mul 4798 214; Mul 4799 219; Mul 4800 236; Mul 4801 213; Mul 4802 222; Mul 4803 234; Mul 4804 227;
  Mul 4805 220; Mul 4806 233; Mul 4807 226; Mul 4808 231; Mul 4809 218; Mul 4810 235; Mul 2134 229; Mul 4811 216;
  Mul 4812 223; Mul 4813 232; Mul 4814 230; Mul 4815 224; Mul 4816 225; Mul 4817 221; Mul 4818 228; Mul 518 5630;
  Mul 5656 5629; Mul 5657 215; Add 5657 2134; Add 5659 4811; Add 5660 4812; Add 5661 4813; Add 5662 4814;
  Add 5663 4815; Add 5664 4816; Add 5665 4817; Add 5666 4818; Add 5667 4797; Add 5668 4798; Add 5669 4799;
  Add 5670 4800; Add 5671 4801; Add 5672 4802; Add 5673 4803; Add 5674 4804; Add 5675 4805; Add 5676 4806;
  Add 5677 4807; Add 5678 4808; Add 5679 4809; Add 5680 4810; Add 5681 5633; Add 5681 5634; Add 5681 5635;
  Add 5681 5636; Add 5681 5637; Add 5681 5638; Add 5681 5639; Add 5681 5640; Add 5681 5641; Add 5681 5642;
  Add 5681 5643; Add 5681 5644; Add 5681 5645; Add 5681 5646; Add 5681 5647; Add 5681 5648; Add 5681 5649;
  Add 5681 5650; Add 5681 5651; Add 5681 5652; Add 5681 5653; Add 5681 5654; Add 5681 5655; Add 5681 5658;
  Sub 321 5705; AndEqz 528 5706; Add 321 237; Mul 5707 5707; Mul 5708 5708; Sub 519 5709; AndEqz 529 5710;
  Mul 5682 217; Mul 5683 214; Mul 5684 219; Mul 5685 236; Mul 5686 213; Mul 5687 222; Mul 5688 234; Mul 5689 227;
  Mul 5690 220; Mul 5691 233; Mul 5692 226; Mul 5693 231; Mul 5694 218; Mul 5695 235; Mul 5696 229; Mul 5697 216;
  Mul 5698 223; Mul 5699 232; Mul 5700 230; Mul 5701 224; Mul 5702 225; Mul 5703 221; Mul 5704 228; Mul 519 5708;
  Mul 5734 5707; Mul 5735 215; Add 5735 5696; Add 5737 5697; Add 5738 5698; Add 5739 5699; Add 5740 5700;
  Add 5741 5701; Add 5742 5702; Add 5743 5703; Add 5744 5704; Add 5745 5682; Add 5746 5683; Add 5747 5684;
  Add 5748 5685; Add 5749 5686; Add 5750 5687; Add 5751 5688; Add 5752 5689; Add 5753 5690; Add 5754 5691;
  Add 5755 5692; Add 5756 5693; Add 5757 5694; Add 5758 5695; Add 5759 5711; Add 5759 5712; Add 5759 5713;
  Add 5759 5714; Add 5759 5715; Add 5759 5716; Add 5759 5717; Add 5759 5718; Add 5759 5719; Add 5759 5720;
  Add 5759 5721; Add 5759 5722; Add 5759 5723; Add 5759 5724; Add 5759 5725; Add 5759 5726; Add 5759 5727;
  Add 5759 5728; Add 5759 5729; Add 5759 5730; Add 5759 5731; Add 5759 5732; Add 5759 5733; Add 5759 5736;
  Sub 322 5783; AndEqz 530 5784; Add 322 238; Mul 5785 5785; Mul 5786 5786; Sub 521 5787; AndEqz 531 5788;
  Mul 5760 217; Mul 5761 214; Mul 5762 219; Mul 5763 236; Mul 5764 213; Mul 5765 222; Mul 5766 234; Mul 5767 227;
  Mul 5768 220; Mul 5769 233; Mul 5770 226; Mul 5771 231; Mul 5772 218; Mul 5773 235; Mul 5774 229; Mul 5775 216;
  Mul 5776 223; Mul 5777 232; Mul 5778 230; Mul 5779 224; Mul 5780 225; Mul 5781 221; Mul 5782 228; Mul 521 5786;
  Mul 5812 5785; Mul 5813 215; Add 5813 5774; Add 5815 5775; Add 5816 5776; Add 5817 5777; Add 5818 5778;
  Add 5819 5779; Add 5820 5780; Add 5821 5781; Add 5822 5782; Add 5823 5760; Add 5824 5761; Add 5825 5762;
  Add 5826 5763; Add 5827 5764; Add 5828 5765; Add 5829 5766; Add 5830 5767; Add 5831 5768; Add 5832 5769;
  Add 5833 5770; Add 5834 5771; Add 5835 5772; Add 5836 5773; Add 5837 5789; Add 5837 5790; Add 5837 5791;
  Add 5837 5792; Add 5837 5793; Add 5837 5794; Add 5837 5795; Add 5837 5796; Add 5837 5797; Add 5837 5798;
  Add 5837 5799; Add 5837 5800; Add 5837 5801; Add 5837 5802; Add 5837 5803; Add 5837 5804; Add 5837 5805;
  Add 5837 5806; Add 5837 5807; Add 5837 5808; Add 5837 5809; Add 5837 5810; Add 5837 5811; Add 5837 5814;
  Sub 323 5861; AndEqz 532 5862; Add 323 239; Mul 5863 5863; Mul 5864 5864; Sub 523 5865; AndEqz 533 5866;
  Mul 5838 217; Mul 5839 214; Mul 5840 219; Mul 5841 236; Mul 5842 213; Mul 5843 222; Mul 5844 234; Mul 5845 227;
  Mul 5846 220; Mul 5847 233; Mul 5848 226; Mul 5849 231; Mul 5850 218; Mul 5851 235; Mul 5852 229; Mul 5853 216;
  Mul 5854 223; Mul 5855 232; Mul 5856 230; Mul 5857 224; Mul 5858 225; Mul 5859 221; Mul 5860 228; Mul 523 5864;
  Mul 5890 5863; Mul 5891 215; Add 5891 5852; Add 5893 5853; Add 5894 5854; Add 5895 5855; Add 5896 5856;
  Add 5897 5857; Add 5898 5858; Add 5899 5859; Add 5900 5860; Add 5901 5838; Add 5902 5839; Add 5903 5840;
  Add 5904 5841; Add 5905 5842; Add 5906 5843; Add 5907 5844; Add 5908 5845; Add 5909 5846; Add 5910 5847;
  Add 5911 5848; Add 5912 5849; Add 5913 5850; Add 5914 5851; Add 5915 5867; Add 5915 5868; Add 5915 5869;
  Add 5915 5870; Add 5915 5871; Add 5915 5872; Add 5915 5873; Add 5915 5874; Add 5915 5875; Add 5915 5876;
  Add 5915 5877; Add 5915 5878; Add 5915 5879; Add 5915 5880; Add 5915 5881; Add 5915 5882; Add 5915 5883;
  Add 5915 5884; Add 5915 5885; Add 5915 5886; Add 5915 5887; Add 5915 5888; Add 5915 5889; Add 5915 5892;
  Sub 324 5939; AndEqz 534 5940; Add 324 240; Mul 5941 5941; Mul 5942 5942; Sub 525 5943; AndEqz 535 5944;
  Mul 5916 217; Mul 5917 214; Mul 5918 219; Mul 5919 236; Mul 5920 213; Mul 5921 222; Mul 5922 234; Mul 5923 227;
  Mul 5924 220; Mul 5925 233; Mul 5926 226; Mul 5927 231; Mul 5928 218; Mul 5929 235; Mul 5930 229; Mul 5931 216;
  Mul 5932 223; Mul 5933 232].

(* L6528-7027 DEF.block *)
Definition block_13 : list Step := [
  Mul 5934 230; Mul 5935 224; Mul 5936 225; Mul 5937 221; Mul 5938 228; Mul 525 5942; Mul 5968 5941; Mul 5969 215;
  Add 5969 5930; Add 5971 5931; Add 5972 5932; Add 5973 5933; Add 5974 5934; Add 5975 5935; Add 5976 5936;
  Add 5977 5937; Add 5978 5938; Add 5979 5916; Add 5980 5917; Add 5981 5918; Add 5982 5919; Add 5983 5920;
  Add 5984 5921; Add 5985 5922; Add 5986 5923; Add 5987 5924; Add 5988 5925; Add 5989 5926; Add 5990 5927;
  Add 5991 5928; Add 5992 5929; Add 5993 5945; Add 5993 5946; Add 5993 5947; Add 5993 5948; Add 5993 5949;
  Add 5993 5950; Add 5993 5951; Add 5993 5952; Add 5993 5953; Add 5993 5954; Add 5993 5955; Add 5993 5956;
  Add 5993 5957; Add 5993 5958; Add 5993 5959; Add 5993 5960; Add 5993 5961; Add 5993 5962; Add 5993 5963;
  Add 5993 5964; Add 5993 5965; Add 5993 5966; Add 5993 5967; Add 5993 5970; Sub 325 6017; AndEqz 536 6018;
  Add 325 241; Mul 6019 6019; Mul 6020 6020; Sub 527 6021; AndEqz 537 6022; Mul 5994 217; Mul 5995 214; Mul 5996 219;
  Mul 5997 236; Mul 5998 213; Mul 5999 222; Mul 6000 234; Mul 6001 227; Mul 6002 220; Mul 6003 233; Mul 6004 226;
  Mul 6005 231; Mul 6006 218; Mul 6007 235; Mul 6008 229; Mul 6009 216; Mul 6010 223; Mul 6011 232; Mul 6012 230;
  Mul 6013 224; Mul 6014 225; Mul 6015 221; Mul 6016 228; Mul 527 6020; Mul 6046 6019; Mul 6047 215; Add 6047 6008;
  Add 6049 6009; Add 6050 6010; Add 6051 6011; Add 6052 6012; Add 6053 6013; Add 6054 6014; Add 6055 6015;
  Add 6056 6016; Add 6057 5994; Add 6058 5995; Add 6059 5996; Add 6060 5997; Add 6061 5998; Add 6062 5999;
  Add 6063 6000; Add 6064 6001; Add 6065 6002; Add 6066 6003; Add 6067 6004; Add 6068 6005; Add 6069 6006;
  Add 6070 6007; Add 6071 6023; Add 6071 6024; Add 6071 6025; Add 6071 6026; Add 6071 6027; Add 6071 6028;
  Add 6071 6029; Add 6071 6030; Add 6071 6031; Add 6071 6032; Add 6071 6033; Add 6071 6034; Add 6071 6035;
  Add 6071 6036; Add 6071 6037; Add 6071 6038; Add 6071 6039; Add 6071 6040; Add 6071 6041; Add 6071 6042;
  Add 6071 6043; Add 6071 6044; Add 6071 6045; Add 6071 6048; Sub 326 6095; AndEqz 538 6096; Add 326 242;
  Mul 6097 6097; Mul 6098 6098; Sub 698 6099; AndEqz 539 6100; Mul 6072 217; Mul 6073 214; Mul 6074 219;
  Mul 6075 236; Mul 6076 213; Mul 6077 222; Mul 6078 234; Mul 6079 227; Mul 6080 220; Mul 6081 233; Mul 6082 226;
  Mul 6083 231; Mul 6084 218; Mul 6085 235; Mul 6086 229; Mul 6087 216; Mul 6088 223; Mul 6089 232; Mul 6090 230;
  Mul 6091 224; Mul 6092 225; Mul 6093 221; Mul 6094 228; Mul 698 6098; Mul 6124 6097; Mul 6125 215; Add 6125 6086;
  Add 6127 6087; Add 6128 6088; Add 6129 6089; Add 6130 6090; Add 6131 6091; Add 6132 6092; Add 6133 6093;
  Add 6134 6094; Add 6135 6072; Add 6136 6073; Add 6137 6074; Add 6138 6075; Add 6139 6076; Add 6140 6077;
  Add 6141 6078; Add 6142 6079; Add 6143 6080; Add 6144 6081; Add 6145 6082; Add 6146 6083; Add 6147 6084;
  Add 6148 6085; Add 6149 6101; Add 6149 6102; Add 6149 6103; Add 6149 6104; Add 6149 6105; Add 6149 6106;
  Add 6149 6107; Add 6149 6108; Add 6149 6109; Add 6149 6110; Add 6149 6111; Add 6149 6112; Add 6149 6113;
  Add 6149 6114; Add 6149 6115; Add 6149 6116; Add 6149 6117; Add 6149 6118; Add 6149 6119; Add 6149 6120;
  Add 6149 6121; Add 6149 6122; Add 6149 6123; Add 6149 6126; Sub 327 6173; AndEqz 540 6174; Add 327 243;
  Mul 6175 6175; Mul 6176 6176; Sub 699 6177; AndEqz 541 6178; Mul 6150 217; Mul 6151 214; Mul 6152 219;
  Mul 6153 236; Mul 6154 213; Mul 6155 222; Mul 6156 234; Mul 6157 227; Mul 6158 220; Mul 6159 233; Mul 6160 226;
  Mul 6161 231; Mul 6162 218; Mul 6163 235; Mul 6164 229; Mul 6165 216; Mul 6166 223; Mul 6167 232; Mul 6168 230;
  Mul 6169 224; Mul 6170 225; Mul 6171 221; Mul 6172 228; Mul 699 6176; Mul 6202 6175; Mul 6203 215; Add 6203 6164;
  Add 6205 6165; Add 6206 6166; Add 6207 6167; Add 6208 6168; Add 6209 6169; Add 6210 6170; Add 6211 6171;
  Add 6212 6172; Add 6213 6150; Add 6214 6151; Add 6215 6152; Add 6216 6153; Add 6217 6154; Add 6218 6155;
  Add 6219 6156; Add 6220 6157; Add 6221 6158; Add 6222 6159; Add 6223 6160; Add 6224 6161; Add 6225 6162;
  Add 6226 6163; Add 6227 6179; Add 6227 6180; Add 6227 6181; Add 6227 6182; Add 6227 6183; Add 6227 6184;
  Add 6227 6185; Add 6227 6186; Add 6227 6187; Add 6227 6188; Add 6227 6189; Add 6227 6190; Add 6227 6191;
  Add 6227 6192; Add 6227 6193; Add 6227 6194; Add 6227 6195; Add 6227 6196; Add 6227 6197; Add 6227 6198;
  Add 6227 6199; Add 6227 6200; Add 6227 6201; Add 6227 6204; Sub 328 6251; AndEqz 542 6252; Add 328 244;
  Mul 6253 6253; Mul 6254 6254; Sub 700 6255; AndEqz 543 6256; Mul 6228 217; Mul 6229 214; Mul 6230 219;
  Mul 6231 236; Mul 6232 213; Mul 6233 222; Mul 6234 234; Mul 6235 227; Mul 6236 220; Mul 6237 233; Mul 6238 226;
  Mul 6239 231; Mul 6240 218; Mul 6241 235; Mul 6242 229; Mul 6243 216; Mul 6244 223; Mul 6245 232; Mul 6246 230;
  Mul 6247 224; Mul 6248 225; Mul 6249 221; Mul 6250 228; Mul 700 6254; Mul 6280 6253; Mul 6281 215; Add 6281 6242;
  Add 6283 6243; Add 6284 6244; Add 6285 6245; Add 6286 6246; Add 6287 6247; Add 6288 6248; Add 6289 6249;
  Add 6290 6250; Add 6291 6228; Add 6292 6229; Add 6293 6230; Add 6294 6231; Add 6295 6232; Add 6296 6233;
  Add 6297 6234; Add 6298 6235; Add 6299 6236; Add 6300 6237; Add 6301 6238; Add 6302 6239; Add 6303 6240;
  Add 6304 6241; Add 6305 6257; Add 6305 6258; Add 6305 6259; Add 6305 6260; Add 6305 6261; Add 6305 6262;
  Add 6305 6263; Add 6305 6264; Add 6305 6265; Add 6305 6266; Add 6305 6267; Add 6305 6268; Add 6305 6269;
  Add 6305 6270; Add 6305 6271; Add 6305 6272; Add 6305 6273; Add 6305 6274; Add 6305 6275; Add 6305 6276;
  Add 6305 6277; Add 6305 6278; Add 6305 6279; Add 6305 6282; Sub 329 6329; AndEqz 544 6330; Add 329 245;
  Mul 6331 6331; Mul 6332 6332; Sub 701 6333; AndEqz 545 6334; Mul 6306 217; Mul 6307 214; Mul 6308 219;
  Mul 6309 236; Mul 6310 213; Mul 6311 222; Mul 6312 234; Mul 6313 227; Mul 6314 220; Mul 6315 233; Mul 6316 226;
  Mul 6317 231; Mul 6318 218; Mul 6319 235; Mul 6320 229; Mul 6321 216; Mul 6322 223; Mul 6323 232; Mul 6324 230;
  Mul 6325 224; Mul 6326 225; Mul 6327 221; Mul 6328 228; Mul 701 6332; Mul 6358 6331; Mul 6359 215; Add 6359 6320;
  Add 6361 6321; Add 6362 6322; Add 6363 6323; Add 6364 6324; Add 6365 6325; Add 6366 6326; Add 6367 6327;
  Add 6368 6328; Add 6369 6306; Add 6370 6307; Add 6371 6308; Add 6372 6309; Add 6373 6310; Add 6374 6311;
  Add 6375 6312; Add 6376 6313; Add 6377 6314; Add 6378 6315; Add 6379 6316; Add 6380 6317; Add 6381 6318;
  Add 6382 6319; Add 6383 6335; Add 6383 6336; Add 6383 6337; Add 6383 6338; Add 6383 6339; Add 6383 6340;
  Add 6383 6341; Add 6383 6342; Add 6383 6343; Add 6383 6344; Add 6383 6345; Add 6383 6346; Add 6383 6347;
  Add 6383 6348; Add 6383 6349; Add 6383 6350; Add 6383 6351; Add 6383 6352; Add 6383 6353; Add 6383 6354;
  Add 6383 6355; Add 6383 6356; Add 6383 6357; Add 6383 6360; Sub 330 6407; AndEqz 546 6408; Add 330 246;
  Mul 6409 6409; Mul 6410 6410; Sub 702 6411; AndEqz 547 6412; Mul 6384 217; Mul 6385 214; Mul 6386 219;
  Mul 6387 236; Mul 6388 213; Mul 6389 222; Mul 6390 234; Mul 6391 227; Mul 6392 220; Mul 6393 233; Mul 6394 226;
  Mul 6395 231; Mul 6396 218; Mul 6397 235; Mul 6398 229; Mul 6399 216; Mul 6400 223; Mul 6401 232; Mul 6402 230;
  Mul 6403 224; Mul 6404 225; Mul 6405 221; Mul 6406 228; Mul 702 6410; Mul 6436 6409; Mul 6437 215; Add 6437 6398;
  Add 6439 6399; Add 6440 6400; Add 6441 6401; Add 6442 6402; Add 6443 6403; Add 6444 6404; Add 6445 6405;
  Add 6446 6406; Add 6447 6384; Add 6448 6385; Add 6449 6386].

(* L7028-7527 DEF.block *)
Definition block_14 : list Step := [
  Add 6450 6387; Add 6451 6388; Add 6452 6389; Add 6453 6390; Add 6454 6391; Add 6455 6392; Add 6456 6393;
  Add 6457 6394; Add 6458 6395; Add 6459 6396; Add 6460 6397; Add 6461 6413; Add 6461 6414; Add 6461 6415;
  Add 6461 6416; Add 6461 6417; Add 6461 6418; Add 6461 6419; Add 6461 6420; Add 6461 6421; Add 6461 6422;
  Add 6461 6423; Add 6461 6424; Add 6461 6425; Add 6461 6426; Add 6461 6427; Add 6461 6428; Add 6461 6429;
  Add 6461 6430; Add 6461 6431; Add 6461 6432; Add 6461 6433; Add 6461 6434; Add 6461 6435; Add 6461 6438;
  Sub 332 6485; AndEqz 548 6486; Add 332 247; Mul 6487 6487; Mul 6488 6488; Sub 703 6489; AndEqz 549 6490;
  Mul 6462 217; Mul 6463 214; Mul 6464 219; Mul 6465 236; Mul 6466 213; Mul 6467 222; Mul 6468 234; Mul 6469 227;
  Mul 6470 220; Mul 6471 233; Mul 6472 226; Mul 6473 231; Mul 6474 218; Mul 6475 235; Mul 6476 229; Mul 6477 216;
  Mul 6478 223; Mul 6479 232; Mul 6480 230; Mul 6481 224; Mul 6482 225; Mul 6483 221; Mul 6484 228; Mul 703 6488;
  Mul 6514 6487; Mul 6515 215; Add 6515 6476; Add 6517 6477; Add 6518 6478; Add 6519 6479; Add 6520 6480;
  Add 6521 6481; Add 6522 6482; Add 6523 6483; Add 6524 6484; Add 6525 6462; Add 6526 6463; Add 6527 6464;
  Add 6528 6465; Add 6529 6466; Add 6530 6467; Add 6531 6468; Add 6532 6469; Add 6533 6470; Add 6534 6471;
  Add 6535 6472; Add 6536 6473; Add 6537 6474; Add 6538 6475; Add 6539 6491; Add 6539 6492; Add 6539 6493;
  Add 6539 6494; Add 6539 6495; Add 6539 6496; Add 6539 6497; Add 6539 6498; Add 6539 6499; Add 6539 6500;
  Add 6539 6501; Add 6539 6502; Add 6539 6503; Add 6539 6504; Add 6539 6505; Add 6539 6506; Add 6539 6507;
  Add 6539 6508; Add 6539 6509; Add 6539 6510; Add 6539 6511; Add 6539 6512; Add 6539 6513; Add 6539 6516;
  Sub 334 6563; AndEqz 550 6564; Add 334 248; Mul 6565 6565; Mul 6566 6566; Sub 704 6567; AndEqz 551 6568;
  Mul 6540 217; Mul 6541 214; Mul 6542 219; Mul 6543 236; Mul 6544 213; Mul 6545 222; Mul 6546 234; Mul 6547 227;
  Mul 6548 220; Mul 6549 233; Mul 6550 226; Mul 6551 231; Mul 6552 218; Mul 6553 235; Mul 6554 229; Mul 6555 216;
  Mul 6556 223; Mul 6557 232; Mul 6558 230; Mul 6559 224; Mul 6560 225; Mul 6561 221; Mul 6562 228; Mul 704 6566;
  Mul 6592 6565; Mul 6593 215; Add 6593 6554; Add 6595 6555; Add 6596 6556; Add 6597 6557; Add 6598 6558;
  Add 6599 6559; Add 6600 6560; Add 6601 6561; Add 6602 6562; Add 6603 6540; Add 6604 6541; Add 6605 6542;
  Add 6606 6543; Add 6607 6544; Add 6608 6545; Add 6609 6546; Add 6610 6547; Add 6611 6548; Add 6612 6549;
  Add 6613 6550; Add 6614 6551; Add 6615 6552; Add 6616 6553; Add 6617 6569; Add 6617 6570; Add 6617 6571;
  Add 6617 6572; Add 6617 6573; Add 6617 6574; Add 6617 6575; Add 6617 6576; Add 6617 6577; Add 6617 6578;
  Add 6617 6579; Add 6617 6580; Add 6617 6581; Add 6617 6582; Add 6617 6583; Add 6617 6584; Add 6617 6585;
  Add 6617 6586; Add 6617 6587; Add 6617 6588; Add 6617 6589; Add 6617 6590; Add 6617 6591; Add 6617 6594;
  Sub 336 6641; AndEqz 552 6642; Add 336 249; Mul 6643 6643; Mul 6644 6644; Sub 705 6645; AndEqz 553 6646;
  Mul 6618 217; Mul 6619 214; Mul 6620 219; Mul 6621 236; Mul 6622 213; Mul 6623 222; Mul 6624 234; Mul 6625 227;
  Mul 6626 220; Mul 6627 233; Mul 6628 226; Mul 6629 231; Mul 6630 218; Mul 6631 235; Mul 6632 229; Mul 6633 216;
  Mul 6634 223; Mul 6635 232; Mul 6636 230; Mul 6637 224; Mul 6638 225; Mul 6639 221; Mul 6640 228; Mul 705 6644;
  Mul 6670 6643; Mul 6671 215; Add 6671 6632; Add 6673 6633; Add 6674 6634; Add 6675 6635; Add 6676 6636;
  Add 6677 6637; Add 6678 6638; Add 6679 6639; Add 6680 6640; Add 6681 6618; Add 6682 6619; Add 6683 6620;
  Add 6684 6621; Add 6685 6622; Add 6686 6623; Add 6687 6624; Add 6688 6625; Add 6689 6626; Add 6690 6627;
  Add 6691 6628; Add 6692 6629; Add 6693 6630; Add 6694 6631; Add 6695 6647; Add 6695 6648; Add 6695 6649;
  Add 6695 6650; Add 6695 6651; Add 6695 6652; Add 6695 6653; Add 6695 6654; Add 6695 6655; Add 6695 6656;
  Add 6695 6657; Add 6695 6658; Add 6695 6659; Add 6695 6660; Add 6695 6661; Add 6695 6662; Add 6695 6663;
  Add 6695 6664; Add 6695 6665; Add 6695 6666; Add 6695 6667; Add 6695 6668; Add 6695 6669; Add 6695 6672;
  Sub 338 6719; AndEqz 554 6720; Add 338 250; Mul 6721 6721; Mul 6722 6722; Sub 706 6723; AndEqz 555 6724;
  Mul 6696 217; Mul 6697 214; Mul 6698 219; Mul 6699 236; Mul 6700 213; Mul 6701 222; Mul 6702 234; Mul 6703 227;
  Mul 6704 220; Mul 6705 233; Mul 6706 226; Mul 6707 231; Mul 6708 218; Mul 6709 235; Mul 6710 229; Mul 6711 216;
  Mul 6712 223; Mul 6713 232; Mul 6714 230; Mul 6715 224; Mul 6716 225; Mul 6717 221; Mul 6718 228; Mul 706 6722;
  Mul 6748 6721; Mul 6749 215; Add 6749 6710; Add 6751 6711; Add 6752 6712; Add 6753 6713; Add 6754 6714;
  Add 6755 6715; Add 6756 6716; Add 6757 6717; Add 6758 6718; Add 6759 6696; Add 6760 6697; Add 6761 6698;
  Add 6762 6699; Add 6763 6700; Add 6764 6701; Add 6765 6702; Add 6766 6703; Add 6767 6704; Add 6768 6705;
  Add 6769 6706; Add 6770 6707; Add 6771 6708; Add 6772 6709; Add 6773 6725; Add 6773 6726; Add 6773 6727;
  Add 6773 6728; Add 6773 6729; Add 6773 6730; Add 6773 6731; Add 6773 6732; Add 6773 6733; Add 6773 6734;
  Add 6773 6735; Add 6773 6736; Add 6773 6737; Add 6773 6738; Add 6773 6739; Add 6773 6740; Add 6773 6741;
  Add 6773 6742; Add 6773 6743; Add 6773 6744; Add 6773 6745; Add 6773 6746; Add 6773 6747; Add 6773 6750;
  Sub 509 6797; AndEqz 556 6798; Add 509 251; Mul 6799 6799; Mul 6800 6800; Sub 707 6801; AndEqz 557 6802;
  Mul 6774 217; Mul 6775 214; Mul 6776 219; Mul 6777 236; Mul 6778 213; Mul 6779 222; Mul 6780 234; Mul 6781 227;
  Mul 6782 220; Mul 6783 233; Mul 6784 226; Mul 6785 231; Mul 6786 218; Mul 6787 235; Mul 6788 229; Mul 6789 216;
  Mul 6790 223; Mul 6791 232; Mul 6792 230; Mul 6793 224; Mul 6794 225; Mul 6795 221; Mul 6796 228; Mul 707 6800;
  Mul 6826 6799; Mul 6827 215; Add 6827 6788; Add 6829 6789; Add 6830 6790; Add 6831 6791; Add 6832 6792;
  Add 6833 6793; Add 6834 6794; Add 6835 6795; Add 6836 6796; Add 6837 6774; Add 6838 6775; Add 6839 6776;
  Add 6840 6777; Add 6841 6778; Add 6842 6779; Add 6843 6780; Add 6844 6781; Add 6845 6782; Add 6846 6783;
  Add 6847 6784; Add 6848 6785; Add 6849 6786; Add 6850 6787; Add 6851 6803; Add 6851 6804; Add 6851 6805;
  Add 6851 6806; Add 6851 6807; Add 6851 6808; Add 6851 6809; Add 6851 6810; Add 6851 6811; Add 6851 6812;
  Add 6851 6813; Add 6851 6814; Add 6851 6815; Add 6851 6816; Add 6851 6817; Add 6851 6818; Add 6851 6819;
  Add 6851 6820; Add 6851 6821; Add 6851 6822; Add 6851 6823; Add 6851 6824; Add 6851 6825; Add 6851 6828;
  Sub 510 6875; AndEqz 558 6876; Add 510 252; Mul 6877 6877; Mul 6878 6878; Sub 708 6879; AndEqz 559 6880;
  Mul 6852 217; Mul 6853 214; Mul 6854 219; Mul 6855 236; Mul 6856 213; Mul 6857 222; Mul 6858 234; Mul 6859 227;
  Mul 6860 220; Mul 6861 233; Mul 6862 226; Mul 6863 231; Mul 6864 218; Mul 6865 235; Mul 6866 229; Mul 6867 216;
  Mul 6868 223; Mul 6869 232; Mul 6870 230; Mul 6871 224; Mul 6872 225; Mul 6873 221; Mul 6874 228; Mul 708 6878;
  Mul 6904 6877; Mul 6905 215; Add 6905 6866; Add 6907 6867; Add 6908 6868; Add 6909 6869; Add 6910 6870;
  Add 6911 6871; Add 6912 6872; Add 6913 6873; Add 6914 6874; Add 6915 6852; Add 6916 6853; Add 6917 6854;
  Add 6918 6855; Add 6919 6856; Add 6920 6857; Add 6921 6858; Add 6922 6859; Add 6923 6860; Add 6924 6861;
  Add 6925 6862; Add 6926 6863; Add 6927 6864; Add 6928 6865; Add 6929 6881; Add 6929 6882; Add 6929 6883;
  Add 6929 6884; Add 6929 6885; Add 6929 6886; Add 6929 6887; Add 6929 6888; Add 6929 6889].

(* L7528-8027 DEF.block *)
Definition block_15 : list Step := [
  Add 6929 6890; Add 6929 6891; Add 6929 6892; Add 6929 6893; Add 6929 6894; Add 6929 6895; Add 6929 6896;
  Add 6929 6897; Add 6929 6898; Add 6929 6899; Add 6929 6900; Add 6929 6901; Add 6929 6902; Add 6929 6903;
  Add 6929 6906; Sub 511 6953; AndEqz 560 6954; Add 511 253; Mul 6955 6955; Mul 6956 6956; Sub 710 6957;
  AndEqz 561 6958; Mul 6930 217; Mul 6931 214; Mul 6932 219; Mul 6933 236; Mul 6934 213; Mul 6935 222; Mul 6936 234;
  Mul 6937 227; Mul 6938 220; Mul 6939 233; Mul 6940 226; Mul 6941 231; Mul 6942 218; Mul 6943 235; Mul 6944 229;
  Mul 6945 216; Mul 6946 223; Mul 6947 232; Mul 6948 230; Mul 6949 224; Mul 6950 225; Mul 6951 221; Mul 6952 228;
  Mul 710 6956; Mul 6982 6955; Mul 6983 215; Add 6983 6944; Add 6985 6945; Add 6986 6946; Add 6987 6947;
  Add 6988 6948; Add 6989 6949; Add 6990 6950; Add 6991 6951; Add 6992 6952; Add 6993 6930; Add 6994 6931;
  Add 6995 6932; Add 6996 6933; Add 6997 6934; Add 6998 6935; Add 6999 6936; Add 7000 6937; Add 7001 6938;
  Add 7002 6939; Add 7003 6940; Add 7004 6941; Add 7005 6942; Add 7006 6943; Add 7007 6959; Add 7007 6960;
  Add 7007 6961; Add 7007 6962; Add 7007 6963; Add 7007 6964; Add 7007 6965; Add 7007 6966; Add 7007 6967;
  Add 7007 6968; Add 7007 6969; Add 7007 6970; Add 7007 6971; Add 7007 6972; Add 7007 6973; Add 7007 6974;
  Add 7007 6975; Add 7007 6976; Add 7007 6977; Add 7007 6978; Add 7007 6979; Add 7007 6980; Add 7007 6981;
  Add 7007 6984; Sub 512 7031; AndEqz 562 7032; Add 512 254; Mul 7033 7033; Mul 7034 7034; Sub 712 7035;
  AndEqz 563 7036; Mul 7008 217; Mul 7009 214; Mul 7010 219; Mul 7011 236; Mul 7012 213; Mul 7013 222; Mul 7014 234;
  Mul 7015 227; Mul 7016 220; Mul 7017 233; Mul 7018 226; Mul 7019 231; Mul 7020 218; Mul 7021 235; Mul 7022 229;
  Mul 7023 216; Mul 7024 223; Mul 7025 232; Mul 7026 230; Mul 7027 224; Mul 7028 225; Mul 7029 221; Mul 7030 228;
  Mul 712 7034; Mul 7060 7033; Mul 7061 215; Add 7061 7022; Add 7063 7023; Add 7064 7024; Add 7065 7025;
  Add 7066 7026; Add 7067 7027; Add 7068 7028; Add 7069 7029; Add 7070 7030; Add 7071 7008; Add 7072 7009;
  Add 7073 7010; Add 7074 7011; Add 7075 7012; Add 7076 7013; Add 7077 7014; Add 7078 7015; Add 7079 7016;
  Add 7080 7017; Add 7081 7018; Add 7082 7019; Add 7083 7020; Add 7084 7021; Add 7085 7037; Add 7085 7038;
  Add 7085 7039; Add 7085 7040; Add 7085 7041; Add 7085 7042; Add 7085 7043; Add 7085 7044; Add 7085 7045;
  Add 7085 7046; Add 7085 7047; Add 7085 7048; Add 7085 7049; Add 7085 7050; Add 7085 7051; Add 7085 7052;
  Add 7085 7053; Add 7085 7054; Add 7085 7055; Add 7085 7056; Add 7085 7057; Add 7085 7058; Add 7085 7059;
  Add 7085 7062; Sub 513 7109; AndEqz 564 7110; Add 513 255; Mul 7111 7111; Mul 7112 7112; Sub 714 7113;
  AndEqz 565 7114; Mul 7086 217; Mul 7087 214; Mul 7088 219; Mul 7089 236; Mul 7090 213; Mul 7091 222; Mul 7092 234;
  Mul 7093 227; Mul 7094 220; Mul 7095 233; Mul 7096 226; Mul 7097 231; Mul 7098 218; Mul 7099 235; Mul 7100 229;
  Mul 7101 216; Mul 7102 223; Mul 7103 232; Mul 7104 230; Mul 7105 224; Mul 7106 225; Mul 7107 221; Mul 7108 228;
  Mul 714 7112; Mul 7138 7111; Mul 7139 215; Add 7139 7100; Add 7141 7101; Add 7142 7102; Add 7143 7103;
  Add 7144 7104; Add 7145 7105; Add 7146 7106; Add 7147 7107; Add 7148 7108; Add 7149 7086; Add 7150 7087;
  Add 7151 7088; Add 7152 7089; Add 7153 7090; Add 7154 7091; Add 7155 7092; Add 7156 7093; Add 7157 7094;
  Add 7158 7095; Add 7159 7096; Add 7160 7097; Add 7161 7098; Add 7162 7099; Add 7163 7115; Add 7163 7116;
  Add 7163 7117; Add 7163 7118; Add 7163 7119; Add 7163 7120; Add 7163 7121; Add 7163 7122; Add 7163 7123;
  Add 7163 7124; Add 7163 7125; Add 7163 7126; Add 7163 7127; Add 7163 7128; Add 7163 7129; Add 7163 7130;
  Add 7163 7131; Add 7163 7132; Add 7163 7133; Add 7163 7134; Add 7163 7135; Add 7163 7136; Add 7163 7137;
  Add 7163 7140; Sub 514 7187; AndEqz 566 7188; Add 514 256; Mul 7189 7189; Mul 7190 7190; Sub 716 7191;
  AndEqz 567 7192; Mul 7164 217; Mul 7165 214; Mul 7166 219; Mul 7167 236; Mul 7168 213; Mul 7169 222; Mul 7170 234;
  Mul 7171 227; Mul 7172 220; Mul 7173 233; Mul 7174 226; Mul 7175 231; Mul 7176 218; Mul 7177 235; Mul 7178 229;
  Mul 7179 216; Mul 7180 223; Mul 7181 232; Mul 7182 230; Mul 7183 224; Mul 7184 225; Mul 7185 221; Mul 7186 228;
  Mul 716 7190; Mul 7216 7189; Mul 7217 215; Add 7217 7178; Add 7219 7179; Add 7220 7180; Add 7221 7181;
  Add 7222 7182; Add 7223 7183; Add 7224 7184; Add 7225 7185; Add 7226 7186; Add 7227 7164; Add 7228 7165;
  Add 7229 7166; Add 7230 7167; Add 7231 7168; Add 7232 7169; Add 7233 7170; Add 7234 7171; Add 7235 7172;
  Add 7236 7173; Add 7237 7174; Add 7238 7175; Add 7239 7176; Add 7240 7177; Add 7241 7218; Add 7241 7193;
  Add 7241 7194; Add 7241 7195; Add 7241 7196; Add 7241 7197; Add 7241 7198; Add 7241 7199; Add 7241 7200;
  Add 7241 7201; Add 7241 7202; Add 7241 7203; Add 7241 7204; Add 7241 7205; Add 7241 7206; Add 7241 7207;
  Add 7241 7208; Add 7241 7209; Add 7241 7210; Add 7241 7211; Add 7241 7212; Add 7241 7213; Add 7241 7214;
  Add 7241 7215; Sub 515 7242; AndEqz 568 7266; Add 7242 257; Sub 316 7267; AndEqz 569 7268; Add 7257 258;
  Sub 288 7269; AndEqz 570 7270; Add 7258 259; Sub 289 7271; AndEqz 571 7272; Add 7259 260; Sub 290 7273;
  AndEqz 572 7274; Add 7260 261; Sub 291 7275; AndEqz 573 7276; Add 7261 262; Sub 292 7277; AndEqz 574 7278;
  Add 7262 263; Sub 293 7279; AndEqz 575 7280; Add 7263 264; Sub 294 7281; AndEqz 576 7282; Add 7264 265;
  Sub 295 7283; AndEqz 577 7284; Add 7265 266; Sub 296 7285; AndEqz 578 7286; Add 7243 267; Sub 287 7287;
  AndEqz 579 7288; Add 7244 268; Sub 430 7289; AndEqz 580 7290; Add 7245 269; Sub 505 7291; AndEqz 581 7292;
  Add 7246 270; Sub 476 7293; AndEqz 582 7294; Add 7247 271; Sub 477 7295; AndEqz 583 7296; Add 7248 272;
  Sub 478 7297; AndEqz 584 7298; Add 7249 273; Sub 479 7299; AndEqz 585 7300; Add 7250 274; Sub 480 7301;
  AndEqz 586 7302; Add 7251 275; Sub 481 7303; AndEqz 587 7304; Add 7252 276; Sub 482 7305; AndEqz 588 7306;
  Add 7253 277; Sub 483 7307; AndEqz 589 7308; Add 7254 278; Sub 484 7309; AndEqz 590 7310; Add 7255 279;
  Sub 485 7311; AndEqz 591 7312; Add 7256 280; Sub 619 7313; AndEqz 592 7314; AndCond 526 5627 593; Get 22;
  Mul 475 2133; Mul 475 2134; Mul 475 4811; Mul 475 4812; Mul 475 4813; Mul 475 4814; Mul 475 4815; Mul 475 4816;
  Mul 285 42; Mul 506 4797; Mul 506 4798; Mul 506 4799; Mul 506 4800; Mul 506 4801; Mul 506 4802; Mul 506 4817;
  Mul 506 4818; Mul 508 4803; Mul 508 4804; Mul 508 4805; Mul 508 4806; Mul 508 4807; Mul 508 4808; Mul 508 4809;
  Mul 508 4810; Add 7324 4417; Add 7316 7331; Add 7317 7332; Add 7318 7325; Add 7319 7326; Add 7320 7327;
  Add 7321 7328; Add 7322 7329; Add 7323 7330; Add 7342 7333; Add 7343 7334; Add 7344 7335; Add 7345 7336;
  Add 7346 7337; Add 7347 7338; Add 7348 7339; Add 7349 7340; Mul 7350 7341; Sub 320 286; AndEqz 0 7359;
  Sub 321 7358; AndEqz 595 7360; AndEqz 596 322; AndEqz 597 323; AndEqz 598 324; Mul 7351 7341; Sub 325 474;
  AndEqz 599 7362; Sub 326 7361; AndEqz 600 7363; AndEqz 601 327; AndEqz 602 328; AndEqz 603 329; Mul 7352 7341;
  Sub 330 663; AndEqz 604 7365; Sub 332 7364; AndEqz 605 7366; AndEqz 606 334; AndEqz 607 336; AndEqz 608 338;
  Mul 7353 7341; Add 286 3; Sub 509 7368; AndEqz 609 7369; Sub 510 7367; AndEqz 610 7370; AndEqz 611 511;
  AndEqz 612 512; AndEqz 613 513; Mul 7354 7341; Add 286 4; Sub 514 7372; AndEqz 614 7373; Sub 515 7371;
  AndEqz 615 7374; AndEqz 616 516; AndEqz 617 517; AndEqz 618 518; Mul 7355 7341; Add 286 5; Sub 519 7376;
  AndEqz 619 7377; Sub 521 7375].

(* L8028-8527 DEF.block *)
Definition block_16 : list Step := [
  AndEqz 620 7378; AndEqz 621 523; AndEqz 622 525; AndEqz 623 527; Mul 7356 7341; Add 286 6; Sub 698 7380;
  AndEqz 624 7381; Sub 699 7379; AndEqz 625 7382; AndEqz 626 700; AndEqz 627 701; AndEqz 628 702; Mul 7357 7341;
  Add 286 7; Sub 703 7384; AndEqz 629 7385; Sub 704 7383; AndEqz 630 7386; AndEqz 631 705; AndEqz 632 706;
  AndEqz 633 707; Sub 316 2133; AndEqz 634 7387; Sub 288 2134; AndEqz 635 7388; Sub 289 4811; AndEqz 636 7389;
  Sub 290 4812; AndEqz 637 7390; Sub 291 4813; AndEqz 638 7391; Sub 292 4814; AndEqz 639 7392; Sub 293 4815;
  AndEqz 640 7393; Sub 294 4816; AndEqz 641 7394; Sub 295 4817; AndEqz 642 7395; Sub 296 4818; AndEqz 643 7396;
  Sub 287 4797; AndEqz 644 7397; Sub 430 4798; AndEqz 645 7398; Sub 505 4799; AndEqz 646 7399; Sub 476 4800;
  AndEqz 647 7400; Sub 477 4801; AndEqz 648 7401; Sub 478 4802; AndEqz 649 7402; Sub 479 4803; AndEqz 650 7403;
  Sub 480 4804; AndEqz 651 7404; Sub 481 4805; AndEqz 652 7405; Sub 482 4806; AndEqz 653 7406; Sub 483 4807;
  AndEqz 654 7407; Sub 484 4808; AndEqz 655 7408; Sub 485 4809; AndEqz 656 7409; Sub 619 4810; AndEqz 657 7410;
  AndCond 594 7315 658; Get 23; Sub 320 285; AndEqz 0 7412; Mul 694 694; Mul 694 665; Mul 694 666; Mul 694 667;
  Mul 665 667; Mul 666 667; Mul 667 667; Mul 321 694; Mul 321 665; Mul 321 666; Mul 321 667; Mul 322 667;
  Mul 323 667; Mul 324 667; Mul 665 665; Mul 665 666; Mul 666 666; Mul 322 694; Mul 322 665; Mul 322 666;
  Mul 323 694; Mul 323 665; Mul 323 666; Mul 324 694; Mul 324 665; Mul 324 666; Mul 7419 11; Mul 7426 11;
  Add 7414 7414; Add 7415 7427; Add 7416 7428; Add 7417 7429; Add 7418 7418; Add 7421 7430; Add 7422 7431;
  Add 7423 7432; Add 7424 7435; Add 7425 7438; Mul 7445 11; Mul 7450 11; Add 7442 7415; Add 7443 7428; Add 7444 7417;
  Add 7447 7433; Add 7448 7434; Add 7449 7437; Add 7453 7439; Add 7454 7416; Add 7441 7451; Add 7456 7440;
  Add 7457 7436; Add 7446 7452; Mul 7455 11; Mul 7458 11; Add 7413 7465; Add 7420 7466; Sub 668 7467;
  AndEqz 660 7469; Sub 669 7461; AndEqz 661 7470; Sub 670 7459; AndEqz 662 7471; Sub 671 7460; AndEqz 663 7472;
  Mul 668 668; Mul 668 669; Mul 668 670; Mul 668 671; Mul 668 694; Mul 668 665; Mul 668 666; Mul 668 667;
  Mul 668 321; Mul 668 322; Mul 668 323; Mul 668 324; Mul 669 671; Mul 669 667; Mul 669 324; Mul 670 671;
  Mul 670 667; Mul 670 324; Mul 671 671; Mul 671 667; Mul 671 324; Mul 669 669; Mul 669 670; Mul 669 694;
  Mul 669 665; Mul 669 666; Mul 669 321; Mul 669 322; Mul 669 323; Mul 670 670; Mul 670 694; Mul 670 665;
  Mul 670 666; Mul 670 321; Mul 670 322; Mul 670 323; Mul 671 694; Mul 671 665; Mul 671 666; Mul 671 321;
  Mul 671 322; Mul 671 323; Mul 7491 11; Mul 7492 11; Mul 7493 11; Add 7474 7474; Add 7475 7494; Add 7476 7495;
  Add 7478 7496; Add 7479 7497; Add 7480 7498; Add 7482 7499; Add 7483 7500; Add 7484 7501; Add 7485 7502;
  Add 7486 7505; Add 7487 7508; Add 7488 7488; Add 7489 7511; Add 7490 7514; Mul 7530 11; Mul 7531 11; Mul 7532 11;
  Add 7518 7533; Add 7519 7475; Add 7520 7495; Add 7521 7534; Add 7522 7503; Add 7523 7504; Add 7525 7506;
  Add 7526 7507; Add 7527 7485; Add 7528 7510; Add 7529 7513; Add 7537 7515; Add 7538 7476; Add 7540 7516;
  Add 7541 7509; Add 7542 7517; Add 7543 7512; Add 7524 7535; Mul 7536 667; Mul 7536 324; Mul 7539 324; Mul 7536 694;
  Mul 7536 665; Mul 7536 666; Mul 7536 321; Mul 7536 322; Mul 7536 323; Mul 7539 321; Mul 7539 322; Mul 7539 323;
  Mul 7544 11; Mul 7545 11; Mul 7546 11; Add 7473 7566; Add 7477 7567; Add 7481 7568; Mul 7547 667; Mul 7547 324;
  Mul 7548 667; Mul 7548 324; Mul 7549 324; Mul 7550 324; Mul 7569 694; Mul 7569 665; Mul 7569 666; Mul 7569 667;
  Mul 7569 321; Mul 7569 322; Mul 7569 323; Mul 7569 324; Mul 7570 321; Mul 7570 322; Mul 7570 323; Mul 7570 324;
  Mul 7547 694; Mul 7547 665; Mul 7547 666; Mul 7547 321; Mul 7547 322; Mul 7547 323; Mul 7548 694; Mul 7548 665;
  Mul 7548 666; Mul 7548 321; Mul 7548 322; Mul 7548 323; Mul 7549 321; Mul 7549 322; Mul 7549 323; Mul 7550 321;
  Mul 7550 322; Mul 7550 323; Mul 7574 11; Mul 7575 11; Mul 7577 11; Add 7572 7598; Add 7573 7601; Add 7576 7607;
  Add 7554 7592; Add 7555 7595; Add 7556 7604; Add 7579 7557; Add 7580 7558; Add 7581 7559; Add 7583 7560;
  Add 7584 7561; Add 7585 7562; Add 7587 7563; Add 7588 7564; Add 7589 7565; Mul 7611 11; Mul 7612 11; Mul 7613 11;
  Add 7614 7597; Add 7615 7600; Add 7616 7606; Add 7618 7590; Add 7619 7591; Add 7621 7593; Add 7622 7594;
  Add 7624 7602; Add 7625 7603; Add 7632 7608; Add 7633 7596; Add 7634 7609; Add 7635 7599; Add 7636 7610;
  Add 7637 7605; Add 7617 7626; Add 7620 7627; Add 7623 7628; Mul 7629 11; Mul 7630 11; Mul 7631 11; Add 7578 7647;
  Add 7582 7648; Add 7586 7649; Sub 672 7650; AndEqz 664 7653; Sub 673 7644; AndEqz 665 7654; Sub 674 7638;
  AndEqz 666 7655; Sub 808 7639; AndEqz 667 7656; Mul 672 7462; Mul 672 7463; Mul 672 7464; Mul 672 7468;
  Mul 672 668; Mul 672 669; Mul 672 670; Mul 672 671; Mul 672 694; Mul 672 665; Mul 672 666; Mul 672 667;
  Mul 672 321; Mul 672 322; Mul 672 323; Mul 672 324; Mul 673 7463; Mul 673 671; Mul 673 667; Mul 673 324;
  Mul 674 7463; Mul 674 671; Mul 674 667; Mul 674 324; Mul 808 7463; Mul 808 671; Mul 808 667; Mul 808 324;
  Mul 673 7462; Mul 673 7464; Mul 673 7468; Mul 673 668; Mul 673 669; Mul 673 670; Mul 673 694; Mul 673 665;
  Mul 673 666; Mul 673 321; Mul 673 322; Mul 673 323; Mul 674 7462; Mul 674 7464; Mul 674 7468; Mul 674 668;
  Mul 674 669; Mul 674 670; Mul 674 694; Mul 674 665; Mul 674 666; Mul 674 321; Mul 674 322; Mul 674 323;
  Mul 808 7462; Mul 808 7464; Mul 808 7468; Mul 808 668; Mul 808 669; Mul 808 670; Mul 808 694; Mul 808 665;
  Mul 808 666; Mul 808 321; Mul 808 322; Mul 808 323; Mul 7681 11; Mul 7682 11; Mul 7683 11; Mul 7684 11;
  Add 7657 7686; Add 7658 7685; Add 7659 7687; Add 7662 7688; Add 7663 7689; Add 7664 7690; Add 7666 7691;
  Add 7667 7692; Add 7668 7693; Add 7670 7694; Add 7671 7695; Add 7672 7696; Add 7673 7697; Add 7674 7702;
  Add 7675 7705; Add 7676 7708; Add 7677 7709; Add 7678 7714; Add 7679 7717; Add 7680 7720; Mul 7741 11; Mul 7742 11;
  Mul 7743 11; Mul 7744 11; Add 7725 7699; Add 7726 7698; Add 7728 7746; Add 7729 7700; Add 7730 7701; Add 7732 7703;
  Add 7733 7704; Add 7735 7706; Add 7736 7707; Add 7737 7710; Add 7738 7713; Add 7739 7716; Add 7740 7719;
  Add 7749 7721; Add 7750 7711; Add 7752 7722; Add 7753 7712; Add 7754 7723; Add 7755 7715; Add 7756 7724;
  Add 7757 7718; Add 7727 7745; Add 7731 7747; Add 7734 7748; Mul 7751 324; Mul 7751 321; Mul 7751 322; Mul 7751 323;
  Mul 7758 11; Mul 7759 11; Mul 7760 11; Mul 7761 11; Add 7661 7778; Add 7660 7777; Add 7665 7779; Add 7669 7780;
  Mul 7764 324; Mul 7765 324; Mul 7781 321; Mul 7781 322; Mul 7781 323; Mul 7781 324; Mul 7764 321; Mul 7764 322;
  Mul 7764 323; Mul 7765 321; Mul 7765 322; Mul 7765 323; Mul 7786 11; Add 7785 7796; Add 7773 7793; Add 7788 7774;
  Add 7789 7775; Add 7790 7776; Mul 7798 11; Add 7799 7795; Add 7801 7791; Add 7802 7792; Add 7805 7797;
  Add 7806 7794; Add 7800 7803; Mul 7804 11; Add 7787 7810; Sub 509 1; Sub 509 2; Sub 509 3; Mul 509 7812;
  Mul 7815 7813; Mul 7816 7814; AndEqz 668 7817; Sub 699 281; Sub 699 4; Sub 699 8; Mul 699 7819; Mul 7821 7820;
  Mul 7822 7818; AndEqz 669 7823; Sub 908 14; Sub 908 15; Sub 908 282; Mul 908 7824; Mul 7827 7825].

(* L8528-9027 DEF.block *)
Definition block_17 : list Step := [
  Mul 7828 7826; AndEqz 670 7829; Sub 980 17; Sub 980 283; Sub 980 16; Mul 980 7832; Mul 7833 7830; Mul 7834 7831;
  AndEqz 671 7835; Add 509 699; Add 7836 908; Add 7837 980; Mul 317 19; Mul 7839 4450; Sub 510 1; Sub 510 2;
  Sub 510 3; Add 7840 7838; Mul 510 7841; Mul 7845 7842; Mul 7846 7843; AndEqz 672 7847; Sub 700 281; Sub 700 4;
  Sub 700 8; Mul 700 7849; Mul 7851 7850; Mul 7852 7848; AndEqz 673 7853; Sub 909 14; Sub 909 15; Sub 909 282;
  Mul 909 7854; Mul 7857 7855; Mul 7858 7856; AndEqz 674 7859; Sub 981 17; Sub 981 283; Sub 981 16; Mul 981 7862;
  Mul 7863 7860; Mul 7864 7861; AndEqz 675 7865; Add 510 700; Add 7866 909; Add 7867 981; Mul 7868 321; Mul 7868 322;
  Mul 7868 323; Mul 7868 324; Mul 7839 4451; Sub 511 1; Sub 511 2; Sub 511 3; Add 7873 7868; Mul 511 7874;
  Mul 7878 7875; Mul 7879 7876; Add 7838 7869; AndEqz 676 7880; Sub 701 281; Sub 701 4; Sub 701 8; Mul 701 7883;
  Mul 7885 7884; Mul 7886 7882; AndEqz 677 7887; Sub 917 14; Sub 917 15; Sub 917 282; Mul 917 7888; Mul 7891 7889;
  Mul 7892 7890; AndEqz 678 7893; Sub 989 17; Sub 989 283; Sub 989 16; Mul 989 7896; Mul 7897 7894; Mul 7898 7895;
  AndEqz 679 7899; Add 511 701; Add 7900 917; Add 7901 989; Mul 7902 694; Mul 7902 665; Mul 7902 666; Mul 7902 667;
  Mul 7839 4452; Sub 512 1; Sub 512 2; Sub 512 3; Add 7907 7902; Mul 512 7908; Mul 7912 7909; Mul 7913 7910;
  Add 7870 7904; Add 7871 7905; Add 7872 7906; Add 7881 7903; AndEqz 680 7914; Sub 702 281; Sub 702 4; Sub 702 8;
  Mul 702 7920; Mul 7922 7921; Mul 7923 7919; AndEqz 681 7924; Sub 918 14; Sub 918 15; Sub 918 282; Mul 918 7925;
  Mul 7928 7926; Mul 7929 7927; AndEqz 682 7930; Sub 990 17; Sub 990 283; Sub 990 16; Mul 990 7933; Mul 7934 7931;
  Mul 7935 7932; AndEqz 683 7936; Add 512 702; Add 7937 918; Add 7938 990; Mul 7939 7462; Mul 7939 7463;
  Mul 7939 7464; Mul 7939 7468; Mul 7839 4453; Sub 513 1; Sub 513 2; Sub 513 3; Add 7944 7939; Mul 513 7945;
  Mul 7949 7946; Mul 7950 7947; Add 7915 7942; Add 7916 7940; Add 7917 7941; Add 7918 7943; AndEqz 684 7951;
  Sub 703 281; Sub 703 4; Sub 703 8; Mul 703 7957; Mul 7959 7958; Mul 7960 7956; AndEqz 685 7961; Sub 926 14;
  Sub 926 15; Sub 926 282; Mul 926 7962; Mul 7965 7963; Mul 7966 7964; AndEqz 686 7967; Sub 998 17; Sub 998 283;
  Sub 998 16; Mul 998 7970; Mul 7971 7968; Mul 7972 7969; AndEqz 687 7973; Add 513 703; Add 7974 926; Add 7975 998;
  Mul 7976 668; Mul 7976 669; Mul 7976 670; Mul 7976 671; Mul 7839 4454; Sub 514 1; Sub 514 2; Sub 514 3;
  Add 7981 7976; Mul 514 7982; Mul 7986 7983; Mul 7987 7984; Add 7952 7978; Add 7953 7979; Add 7954 7980;
  Add 7955 7977; AndEqz 688 7988; Sub 704 281; Sub 704 4; Sub 704 8; Mul 704 7994; Mul 7996 7995; Mul 7997 7993;
  AndEqz 689 7998; Sub 927 14; Sub 927 15; Sub 927 282; Mul 927 7999; Mul 8002 8000; Mul 8003 8001; AndEqz 690 8004;
  Sub 999 17; Sub 999 283; Sub 999 16; Mul 999 8007; Mul 8008 8005; Mul 8009 8006; AndEqz 691 8010; Add 514 704;
  Add 8011 927; Add 8012 999; Mul 8013 7551; Mul 8013 7552; Mul 8013 7553; Mul 8013 7571; Mul 7839 4455; Sub 515 1;
  Sub 515 2; Sub 515 3; Add 8018 8013; Mul 515 8019; Mul 8023 8020; Mul 8024 8021; Add 7989 8016; Add 7990 8014;
  Add 7991 8015; Add 7992 8017; AndEqz 692 8025; Sub 705 281; Sub 705 4; Sub 705 8; Mul 705 8031; Mul 8033 8032;
  Mul 8034 8030; AndEqz 693 8035; Sub 935 14; Sub 935 15; Sub 935 282; Mul 935 8036; Mul 8039 8037; Mul 8040 8038;
  AndEqz 694 8041; Sub 1007 17; Sub 1007 283; Sub 1007 16; Mul 1007 8044; Mul 8045 8042; Mul 8046 8043;
  AndEqz 695 8047; Add 515 705; Add 8048 935; Add 8049 1007; Mul 8050 7549; Mul 8050 7550; Mul 8050 7539;
  Mul 8050 7570; Mul 7839 4456; Sub 516 1; Sub 516 2; Sub 516 3; Add 8055 8050; Mul 516 8056; Mul 8060 8057;
  Mul 8061 8058; Add 8026 8053; Add 8027 8051; Add 8028 8052; Add 8029 8054; AndEqz 696 8062; Sub 706 281; Sub 706 4;
  Sub 706 8; Mul 706 8068; Mul 8070 8069; Mul 8071 8067; AndEqz 697 8072; Sub 936 14; Sub 936 15; Sub 936 282;
  Mul 936 8073; Mul 8076 8074; Mul 8077 8075; AndEqz 698 8078; Sub 1008 17; Sub 1008 283; Sub 1008 16; Mul 1008 8081;
  Mul 8082 8079; Mul 8083 8080; AndEqz 699 8084; Add 516 706; Add 8085 936; Add 8086 1008; Mul 8087 7642;
  Mul 8087 7643; Mul 8087 7646; Mul 8087 7652; Mul 7839 4457; Sub 517 1; Sub 517 2; Sub 517 3; Add 8092 8087;
  Mul 517 8093; Mul 8097 8094; Mul 8098 8095; Add 8063 8090; Add 8064 8088; Add 8065 8089; Add 8066 8091;
  AndEqz 700 8099; Sub 707 281; Sub 707 4; Sub 707 8; Mul 707 8105; Mul 8107 8106; Mul 8108 8104; AndEqz 701 8109;
  Sub 944 14; Sub 944 15; Sub 944 282; Mul 944 8110; Mul 8113 8111; Mul 8114 8112; AndEqz 702 8115; Sub 1016 17;
  Sub 1016 283; Sub 1016 16; Mul 1016 8118; Mul 8119 8116; Mul 8120 8117; AndEqz 703 8121; Add 517 707; Add 8122 944;
  Add 8123 1016; Mul 8124 7547; Mul 8124 7548; Mul 8124 7536; Mul 8124 7569; Mul 7839 4458; Sub 518 1; Sub 518 2;
  Sub 518 3; Add 8129 8124; Mul 518 8130; Mul 8134 8131; Mul 8135 8132; Add 8100 8127; Add 8101 8125; Add 8102 8126;
  Add 8103 8128; AndEqz 704 8136; Sub 708 281; Sub 708 4; Sub 708 8; Mul 708 8142; Mul 8144 8143; Mul 8145 8141;
  AndEqz 705 8146; Sub 945 14; Sub 945 15; Sub 945 282; Mul 945 8147; Mul 8150 8148; Mul 8151 8149; AndEqz 706 8152;
  Sub 1017 17; Sub 1017 283; Sub 1017 16; Mul 1017 8155; Mul 8156 8153; Mul 8157 8154; AndEqz 707 8158; Add 518 708;
  Add 8159 945; Add 8160 1017; Mul 8161 7640; Mul 8161 7641; Mul 8161 7645; Mul 8161 7651; Mul 7839 4459; Sub 519 1;
  Sub 519 2; Sub 519 3; Add 8166 8161; Mul 519 8167; Mul 8171 8168; Mul 8172 8169; Add 8137 8164; Add 8138 8162;
  Add 8139 8163; Add 8140 8165; AndEqz 708 8173; Sub 710 281; Sub 710 4; Sub 710 8; Mul 710 8179; Mul 8181 8180;
  Mul 8182 8178; AndEqz 709 8183; Sub 953 14; Sub 953 15; Sub 953 282; Mul 953 8184; Mul 8187 8185; Mul 8188 8186;
  AndEqz 710 8189; Sub 1025 17; Sub 1025 283; Sub 1025 16; Mul 1025 8192; Mul 8193 8190; Mul 8194 8191;
  AndEqz 711 8195; Add 519 710; Add 8196 953; Add 8197 1025; Mul 8198 672; Mul 8198 673; Mul 8198 674; Mul 8198 808;
  Mul 7839 4436; Sub 521 1; Sub 521 2; Sub 521 3; Add 8203 8198; Mul 521 8204; Mul 8208 8205; Mul 8209 8206;
  Add 8174 8200; Add 8175 8201; Add 8176 8202; Add 8177 8199; AndEqz 712 8210; Sub 712 281; Sub 712 4; Sub 712 8;
  Mul 712 8216; Mul 8218 8217; Mul 8219 8215; AndEqz 713 8220; Sub 954 14; Sub 954 15; Sub 954 282; Mul 954 8221;
  Mul 8224 8222; Mul 8225 8223; AndEqz 714 8226; Sub 1026 17; Sub 1026 283; Sub 1026 16; Mul 1026 8229;
  Mul 8230 8227; Mul 8231 8228; AndEqz 715 8232; Add 521 712; Add 8233 954; Add 8234 1026; Mul 8235 7768;
  Mul 8235 7769; Mul 8235 7772; Mul 8235 7784; Mul 7839 4437; Sub 523 1; Sub 523 2; Sub 523 3; Add 8240 8235;
  Mul 523 8241; Mul 8245 8242; Mul 8246 8243; Add 8211 8238; Add 8212 8236; Add 8213 8237; Add 8214 8239;
  AndEqz 716 8247; Sub 714 281; Sub 714 4; Sub 714 8; Mul 714 8253; Mul 8255 8254; Mul 8256 8252; AndEqz 717 8257;
  Sub 962 14; Sub 962 15; Sub 962 282; Mul 962 8258; Mul 8261 8259; Mul 8262 8260; AndEqz 718 8263; Sub 1034 17;
  Sub 1034 283; Sub 1034 16; Mul 1034 8266; Mul 8267 8264; Mul 8268 8265; AndEqz 719 8269; Add 523 714; Add 8270 962;
  Add 8271 1034; Mul 8272 7766; Mul 8272 7767; Mul 8272 7771; Mul 8272 7783; Mul 7839 4438; Sub 525 1].

(* L9028-9527 DEF.block *)
Definition block_18 : list Step := [
  Sub 525 2; Sub 525 3; Add 8277 8272; Mul 525 8278; Mul 8282 8279; Mul 8283 8280; Add 8248 8275; Add 8249 8273;
  Add 8250 8274; Add 8251 8276; AndEqz 720 8284; Sub 716 281; Sub 716 4; Sub 716 8; Mul 716 8290; Mul 8292 8291;
  Mul 8293 8289; AndEqz 721 8294; Sub 963 14; Sub 963 15; Sub 963 282; Mul 963 8295; Mul 8298 8296; Mul 8299 8297;
  AndEqz 722 8300; Sub 1035 17; Sub 1035 283; Sub 1035 16; Mul 1035 8303; Mul 8304 8301; Mul 8305 8302;
  AndEqz 723 8306; Add 525 716; Add 8307 963; Add 8308 1035; Mul 8309 7762; Mul 8309 7763; Mul 8309 7770;
  Mul 8309 7782; Mul 7839 4439; Sub 527 1; Sub 527 2; Sub 527 3; Add 8314 8309; Mul 527 8315; Mul 8319 8316;
  Mul 8320 8317; Add 8285 8312; Add 8286 8310; Add 8287 8311; Add 8288 8313; AndEqz 724 8321; Sub 899 281; Sub 899 4;
  Sub 899 8; Mul 899 8327; Mul 8329 8328; Mul 8330 8326; AndEqz 725 8331; Sub 971 14; Sub 971 15; Sub 971 282;
  Mul 971 8332; Mul 8335 8333; Mul 8336 8334; AndEqz 726 8337; Sub 1043 17; Sub 1043 283; Sub 1043 16; Mul 1043 8340;
  Mul 8341 8338; Mul 8342 8339; AndEqz 727 8343; Add 527 899; Add 8344 971; Add 8345 1043; Mul 8346 7764;
  Mul 8346 7765; Mul 8346 7751; Mul 8346 7781; Mul 7839 4440; Sub 698 1; Sub 698 2; Sub 698 3; Add 8351 8346;
  Mul 698 8352; Mul 8356 8353; Mul 8357 8354; Add 8322 8349; Add 8323 8347; Add 8324 8348; Add 8325 8350;
  AndEqz 728 8358; Sub 900 281; Sub 900 4; Sub 900 8; Mul 900 8364; Mul 8366 8365; Mul 8367 8363; AndEqz 729 8368;
  Sub 972 14; Sub 972 15; Sub 972 282; Mul 972 8369; Mul 8372 8370; Mul 8373 8371; AndEqz 730 8374; Sub 1044 17;
  Sub 1044 283; Sub 1044 16; Mul 1044 8377; Mul 8378 8375; Mul 8379 8376; AndEqz 731 8380; Add 698 900; Add 8381 972;
  Add 8382 1044; Mul 8383 7807; Mul 8383 7808; Mul 8383 7809; Mul 8383 7811; Mul 7839 4441; Add 8388 8383;
  Add 8359 8386; Add 8360 8384; Add 8361 8385; Add 8362 8387; Sub 325 286; AndEqz 732 8394; Sub 326 8393;
  AndEqz 733 8395; Sub 327 8390; AndEqz 734 8396; Sub 328 8391; AndEqz 735 8397; Sub 329 8392; AndEqz 736 8398;
  Add 8207 8244; Add 8281 8318; Add 8355 8389; Add 7844 7877; Add 7911 7948; Add 7985 8022; Add 8059 8096;
  Add 8133 8170; Mul 8399 4; Mul 8400 4; Mul 8401 4; Mul 8402 4; Mul 8403 4; Mul 8404 4; Mul 8405 4; Mul 8406 4;
  Mul 8244 2; Mul 8318 2; Mul 8389 2; Mul 7877 2; Mul 7948 2; Mul 8022 2; Mul 8096 2; Mul 8170 2; Add 8415 8406;
  Add 8416 8401; Add 8417 8400; Add 8418 8403; Add 8419 8402; Add 8420 8405; Add 8421 8404; Add 8422 8399;
  Add 8407 8423; Add 8408 8424; Add 8409 8425; Add 8412 8428; Add 8413 8429; Add 8414 8430; Mul 319 4442;
  Mul 319 4444; Mul 319 4446; Mul 319 4448; Mul 319 4443; Mul 319 4445; Mul 319 4447; Mul 319 4449; Add 8423 8436;
  Add 8424 8433; Add 8425 8432; Add 8428 8435; Add 8429 8434; Add 8430 8431; Add 8410 8426; Add 8411 8427;
  Add 8437 8441; Add 8438 8442; Add 8439 8443; Add 8440 8444; Mul 8453 4; Mul 8454 4; Mul 8455 4; Mul 8456 4;
  Mul 8441 2; Mul 8442 2; Mul 8443 2; Mul 8444 2; Mul 462 7844; Add 8426 8452; Add 8427 8451; Add 8461 8454;
  Add 8462 8453; Add 8463 8456; Add 8464 8455; Add 8457 8468; Add 8458 8469; Add 8459 8470; Add 8460 8471;
  Add 8451 8434; Add 8452 8435; Add 8468 8473; Add 8469 8472; Add 8470 8475; Add 8471 8474; Add 8476 8436;
  Add 8477 8431; Add 8466 8448; Add 8467 8449; Add 8482 8432; Add 8483 8433; Add 8484 8450; Add 8485 8445;
  Add 8486 8472; Add 8487 8473; Add 8488 8446; Add 8489 8447; Add 8490 8474; Add 8491 8475; Add 8492 8478;
  Add 8493 8479; Add 8451 8494; Add 8452 8495; Add 8431 8495; Add 8432 8494; Add 8433 8495; Add 8434 8494;
  Add 8435 8495; Add 8436 8494; Add 8472 8494; Add 8473 8495; Add 8474 8494; Add 8475 8495; Add 8496 8480;
  Add 8497 8481; Add 8466 8510; Add 8467 8511; Add 8445 8511; Add 8446 8510; Add 8447 8511; Add 8448 8510;
  Add 8449 8511; Add 8450 8510; Add 8478 8510; Add 8479 8511; Add 8480 8510; Add 8481 8511; Mul 318 8513;
  Add 8524 8465; Add 8525 4476; Sub 316 8526; AndEqz 737 8527; Mul 318 8498; Mul 462 7877; Add 8528 8529;
  Add 8530 4659; Sub 288 8531; AndEqz 738 8532; Mul 318 8512; Mul 462 7911; Add 8533 8534; Add 8535 4665;
  Sub 289 8536; AndEqz 739 8537; Mul 318 8499; Mul 462 7948; Add 8538 8539; Add 8540 4671; Sub 290 8541;
  AndEqz 740 8542; Mul 318 8518; Mul 462 7985; Add 8543 8544; Add 8545 4677; Sub 291 8546; AndEqz 741 8547;
  Mul 318 8503; Mul 462 8022; Add 8548 8549; Add 8550 4683; Sub 292 8551; AndEqz 742 8552; Mul 318 8517;
  Mul 462 8059; Add 8553 8554; Add 8555 4689; Sub 293 8556; AndEqz 743 8557; Mul 318 8504; Mul 462 8096;
  Add 8558 8559; Add 8560 4695; Sub 294 8561; AndEqz 744 8562; Mul 318 8514; Mul 462 8133; Add 8563 8564;
  Add 8565 4701; Sub 295 8566; AndEqz 745 8567; Mul 318 8505; Mul 462 8170; Add 8568 8569; Add 8570 4707;
  Sub 296 8571; AndEqz 746 8572; Mul 318 8519; Mul 462 8207; Add 8573 8574; Add 8575 4713; Sub 287 8576;
  AndEqz 747 8577; Mul 318 8500; Mul 462 8244; Add 8578 8579; Add 8580 4719; Sub 430 8581; AndEqz 748 8582;
  Mul 318 8516; Mul 462 8281; Add 8583 8584; Add 8585 4725; Sub 505 8586; AndEqz 749 8587; Mul 318 8501;
  Mul 462 8318; Add 8588 8589; Add 8590 4731; Sub 476 8591; AndEqz 750 8592; Mul 318 8515; Mul 462 8355;
  Add 8593 8594; Add 8595 4737; Sub 477 8596; AndEqz 751 8597; Mul 318 8502; Mul 462 8389; Add 8598 8599;
  Add 8600 4743; Sub 478 8601; AndEqz 752 8602; Mul 318 8521; Mul 462 8437; Add 8603 8604; Add 8605 4749;
  Sub 479 8606; AndEqz 753 8607; Mul 318 8506; Mul 462 8441; Add 8608 8609; Add 8610 4755; Sub 480 8611;
  AndEqz 754 8612; Mul 318 8520; Mul 462 8438; Add 8613 8614; Add 8615 4761; Sub 481 8616; AndEqz 755 8617;
  Mul 318 8507; Mul 462 8442; Add 8618 8619; Add 8620 4767; Sub 482 8621; AndEqz 756 8622; Mul 318 8523;
  Mul 462 8439; Add 8623 8624; Add 8625 4773; Sub 483 8626; AndEqz 757 8627; Mul 318 8508; Mul 462 8443;
  Add 8628 8629; Add 8630 4779; Sub 484 8631; AndEqz 758 8632; Mul 318 8522; Mul 462 8440; Add 8633 8634;
  Add 8635 4785; Sub 485 8636; AndEqz 759 8637; Mul 318 8509; Mul 462 8444; Add 8638 8639; Add 8640 4791;
  Sub 619 8641; AndEqz 760 8642; AndCond 659 7411 761; AndCond 0 285 0; AndCond 763 317 0; AndCond 764 319 0;
  AndCond 765 318 0; AndCond 766 475 0; AndCond 767 695 0; AndCond 762 852 768; AndCond 769 4415 0;
  AndCond 770 7315 0; AndCond 771 284 0; AndCond 0 318 0; AndCond 773 475 0; AndCond 774 506 0; AndCond 775 508 0;
  AndCond 776 507 0; AndCond 777 664 0; AndCond 778 695 0; AndCond 772 852 779; AndCond 780 4415 0;
  AndCond 781 7315 0; AndCond 782 7411 0; Get 40; Sub 899 8643; Sub 1 8644; Mul 8644 8645; AndEqz 0 8646; Get 42;
  Sub 8647 900; AndEqz 0 8648; Get 44; Sub 8649 908; AndEqz 785 8650; Get 46; Sub 8651 909; AndEqz 786 8652; Get 48;
  Sub 8653 917; AndEqz 787 8654; AndCond 784 8645 788; Sub 918 899; Sub 1 8655; Mul 8655 8656; AndEqz 789 8657;
  Sub 900 926; AndEqz 0 8658; Sub 908 927; AndEqz 791 8659; Sub 909 935; AndEqz 792 8660; Sub 917 936;
  AndEqz 793 8661; AndCond 790 8656 794; Sub 944 918; Sub 1 8662; Mul 8662 8663; AndEqz 795 8664; Sub 926 945;
  AndEqz 0 8665; Sub 927 953; AndEqz 797 8666; Sub 935 954; AndEqz 798 8667; Sub 936 962; AndEqz 799 8668;
  AndCond 796 8663 800; Sub 963 944; Sub 1 8669; Mul 8669 8670; AndEqz 801 8671; Sub 945 971; AndEqz 0 8672;
  Sub 953 972; AndEqz 803 8673; Sub 954 980; AndEqz 804 8674; Sub 962 981; AndEqz 805 8675; AndCond 802 8670 806;
  Sub 989 963; Sub 1 8676; Mul 8676 8677; AndEqz 807 8678; Sub 971 990; AndEqz 0 8679; Sub 972 998; AndEqz 809 8680;
  Sub 980 999; AndEqz 810 8681; Sub 981 1007; AndEqz 811 8682; AndCond 808 8677 812; Sub 1008 989; Sub 1 8683;
  Mul 8683 8684].

(* L9528-10027 DEF.block *)
Definition block_19 : list Step := [
  AndEqz 813 8685; Sub 990 1016; AndEqz 0 8686; Sub 998 1017; AndEqz 815 8687; Sub 999 1025; AndEqz 816 8688;
  Sub 1007 1026; AndEqz 817 8689; AndCond 814 8684 818; Sub 1034 1008; Sub 1 8690; Mul 8690 8691; AndEqz 819 8692;
  Sub 1016 1035; AndEqz 0 8693; Sub 1017 1043; AndEqz 821 8694; Sub 1025 1044; AndEqz 822 8695; Sub 1026 1052;
  AndEqz 823 8696; AndCond 820 8691 824; Sub 1053 1034; Sub 1 8697; Mul 8697 8698; AndEqz 825 8699; Sub 1035 1061;
  AndEqz 0 8700; Sub 1043 1062; AndEqz 827 8701; Sub 1044 1070; AndEqz 828 8702; Sub 1052 1071; AndEqz 829 8703;
  AndCond 826 8698 830; Get 39; Sub 8704 1053; Sub 1 8705; Mul 8705 8706; AndEqz 831 8707; Get 41; Sub 1061 8708;
  AndEqz 0 8709; Get 43; Sub 1062 8710; AndEqz 833 8711; Get 45; Sub 1070 8712; AndEqz 834 8713; Get 47;
  Sub 1071 8714; AndEqz 835 8715; AndCond 832 8706 836; AndCond 783 284 837; AndEqz 0 8704; AndEqz 839 8708;
  AndEqz 840 8710; AndEqz 841 8712; AndEqz 842 8714; AndCond 0 317 843; Sub 326 8643; Sub 1 8716; Mul 8716 8717;
  AndEqz 0 8718; Sub 8647 327; AndEqz 0 8719; Sub 8649 328; AndEqz 846 8720; Sub 8651 329; AndEqz 847 8721;
  Sub 8653 330; AndEqz 848 8722; AndCond 845 8717 849; AndCond 844 319 850; Sub 515 8643; Sub 1 8723; Mul 8723 8724;
  AndEqz 0 8725; Sub 8647 516; AndEqz 0 8726; Sub 8649 517; AndEqz 853 8727; Sub 8651 518; AndEqz 854 8728;
  Sub 8653 519; AndEqz 855 8729; AndCond 852 8724 856; Sub 1 646; Mul 646 8730; AndEqz 857 8731; Sub 516 523;
  AndEqz 0 8732; Sub 517 525; AndEqz 859 8733; Sub 518 527; AndEqz 860 8734; Sub 519 698; AndEqz 861 8735;
  AndCond 858 8730 862; Sub 8704 521; Sub 1 8736; Mul 8736 8737; AndEqz 863 8738; Sub 523 8708; AndEqz 0 8739;
  Sub 525 8710; AndEqz 865 8740; Sub 527 8712; AndEqz 866 8741; Sub 698 8714; AndEqz 867 8742; AndCond 864 8737 868;
  AndCond 851 318 869; AndCond 870 475 869; Sub 510 8643; Sub 1 8743; Mul 8743 8744; AndEqz 0 8745; Sub 8647 511;
  AndEqz 0 8746; Sub 8649 512; AndEqz 873 8747; Sub 8651 513; AndEqz 874 8748; Sub 8653 514; AndEqz 875 8749;
  AndCond 872 8744 876; Sub 8704 510; Sub 1 8750; Mul 8750 8751; AndEqz 877 8752; Sub 511 8708; AndEqz 0 8753;
  Sub 512 8710; AndEqz 879 8754; Sub 513 8712; AndEqz 880 8755; Sub 514 8714; AndEqz 881 8756; AndCond 878 8751 882;
  AndCond 871 506 883; AndCond 884 508 883; AndCond 885 507 883; AndCond 886 664 883; Sub 698 8643; Sub 1 8757;
  Mul 8757 8758; AndEqz 0 8759; Sub 8647 699; AndEqz 0 8760; Sub 8649 700; AndEqz 889 8761; Sub 8651 701;
  AndEqz 890 8762; Sub 8653 702; AndEqz 891 8763; AndCond 888 8758 892; Sub 703 698; Sub 1 8764; Mul 8764 8765;
  AndEqz 893 8766; AndEqz 0 727; AndEqz 895 728; AndEqz 896 729; AndEqz 897 730; AndCond 894 8765 898; Sub 708 703;
  Sub 1 8767; Mul 8767 8768; AndEqz 899 8769; Sub 704 710; AndEqz 0 8770; Sub 705 712; AndEqz 901 8771; Sub 706 714;
  AndEqz 902 8772; Sub 707 716; AndEqz 903 8773; AndCond 900 8768 904; Sub 8704 708; Sub 1 8774; Mul 8774 8775;
  AndEqz 905 8776; Sub 710 8708; AndEqz 0 8777; Sub 712 8710; AndEqz 907 8778; Sub 714 8712; AndEqz 908 8779;
  Sub 716 8714; AndEqz 909 8780; AndCond 906 8775 910; AndCond 887 695 911; AndCond 838 852 912;
  AndCond 913 4415 837; Sub 8704 8643; AndEqz 0 8781; Sub 8708 8647; AndEqz 915 8782; Sub 8710 8649; AndEqz 916 8783;
  Sub 8712 8651; AndEqz 917 8784; Sub 8714 8653; AndEqz 918 8785; AndCond 914 4796 919; AndCond 920 5627 919;
  AndCond 921 7315 837; Sub 330 8643; Sub 1 8786; Mul 8786 8787; AndEqz 0 8788; Sub 8647 332; AndEqz 0 8789;
  Sub 8649 334; AndEqz 924 8790; Sub 8651 336; AndEqz 925 8791; Sub 8653 338; AndEqz 926 8792; AndCond 923 8787 927;
  Sub 8704 330; Sub 1 8793; Mul 8793 8794; AndEqz 928 8795; Sub 332 8708; AndEqz 0 8796; Sub 334 8710;
  AndEqz 930 8797; Sub 336 8712; AndEqz 931 8798; Sub 338 8714; AndEqz 932 8799; AndCond 929 8794 933;
  AndCond 922 7411 934; AndCond 935 284 0; AndCond 936 852 779; AndCond 937 4415 0; AndCond 938 4796 0;
  AndCond 939 5627 0; AndCond 940 7315 0; AndCond 941 7411 0; GetGlobal 1 0; GetGlobal 1 1; GetGlobal 1 10;
  GetGlobal 1 11; GetGlobal 1 12; GetGlobal 1 13; GetGlobal 1 14; GetGlobal 1 15; GetGlobal 1 16; GetGlobal 1 17;
  GetGlobal 1 18; GetGlobal 1 19; GetGlobal 1 2; GetGlobal 1 3; GetGlobal 1 4; GetGlobal 1 5; GetGlobal 1 6;
  GetGlobal 1 7; GetGlobal 1 8; GetGlobal 1 9; Mul 8800 8704; Mul 8800 325; Mul 8800 330; Mul 8800 509; Mul 8800 514;
  Mul 8800 519; Mul 8800 698; Mul 8800 703; Mul 8800 708; Mul 8800 320; Mul 8800 899; Mul 8800 918; Mul 8800 944;
  Mul 8800 963; Mul 8800 989; Mul 8800 1008; Mul 8800 1034; Mul 8800 1053; Mul 8801 8704; Mul 8801 325; Mul 8801 330;
  Mul 8801 509; Mul 8801 514; Mul 8801 519; Mul 8801 698; Mul 8801 703; Mul 8801 708; Mul 8801 320; Mul 8801 899;
  Mul 8801 918; Mul 8801 944; Mul 8801 963; Mul 8801 989; Mul 8801 1008; Mul 8801 1034; Mul 8801 1053; Mul 8802 327;
  Mul 8802 334; Mul 8802 8710; Mul 8802 511; Mul 8802 516; Mul 8802 523; Mul 8802 700; Mul 8802 705; Mul 8802 712;
  Mul 8802 908; Mul 8802 927; Mul 8802 953; Mul 8802 972; Mul 8802 322; Mul 8802 998; Mul 8802 1017; Mul 8802 1043;
  Mul 8802 1062; Mul 8803 327; Mul 8803 334; Mul 8803 8710; Mul 8803 511; Mul 8803 516; Mul 8803 523; Mul 8803 700;
  Mul 8803 705; Mul 8803 712; Mul 8803 908; Mul 8803 927; Mul 8803 953; Mul 8803 972; Mul 8803 322; Mul 8803 998;
  Mul 8803 1017; Mul 8803 1043; Mul 8803 1062; Mul 8805 328; Mul 8805 336; Mul 8805 512; Mul 8805 517; Mul 8805 8712;
  Mul 8805 525; Mul 8805 701; Mul 8805 706; Mul 8805 714; Mul 8805 909; Mul 8805 935; Mul 8805 954; Mul 8805 980;
  Mul 8805 999; Mul 8805 1025; Mul 8805 323; Mul 8805 1044; Mul 8805 1070; Mul 8806 328; Mul 8806 336; Mul 8806 512;
  Mul 8806 517; Mul 8806 8712; Mul 8806 525; Mul 8806 701; Mul 8806 706; Mul 8806 714; Mul 8806 909; Mul 8806 935;
  Mul 8806 954; Mul 8806 980; Mul 8806 999; Mul 8806 1025; Mul 8806 323; Mul 8806 1044; Mul 8806 1070; Mul 8807 328;
  Mul 8807 336; Mul 8807 512; Mul 8807 517; Mul 8807 8712; Mul 8807 525; Mul 8807 701; Mul 8807 706; Mul 8807 714;
  Mul 8807 909; Mul 8807 935; Mul 8807 954; Mul 8807 980; Mul 8807 999; Mul 8807 1025; Mul 8807 323; Mul 8807 1044;
  Mul 8807 1070; Mul 8809 329; Mul 8809 338; Mul 8809 513; Mul 8809 518; Mul 8809 527; Mul 8809 702; Mul 8809 8714;
  Mul 8809 707; Mul 8809 716; Mul 8809 917; Mul 8809 936; Mul 8809 962; Mul 8809 981; Mul 8809 1007; Mul 8809 1026;
  Mul 8809 1052; Mul 8809 1071; Mul 8809 324; Mul 8810 329; Mul 8810 338; Mul 8810 513; Mul 8810 518; Mul 8810 527;
  Mul 8810 702; Mul 8810 8714; Mul 8810 707; Mul 8810 716; Mul 8810 917; Mul 8810 936; Mul 8810 962; Mul 8810 981;
  Mul 8810 1007; Mul 8810 1026; Mul 8810 1052; Mul 8810 1071; Mul 8810 324; Mul 8811 329; Mul 8811 338; Mul 8811 513;
  Mul 8811 518; Mul 8811 527; Mul 8811 702; Mul 8811 8714; Mul 8811 707; Mul 8811 716; Mul 8811 917; Mul 8811 936;
  Mul 8811 962; Mul 8811 981; Mul 8811 1007; Mul 8811 1026; Mul 8811 1052; Mul 8811 1071; Mul 8811 324;
  Mul 8812 8704; Mul 8812 325; Mul 8812 330; Mul 8812 509; Mul 8812 514; Mul 8812 519; Mul 8812 698; Mul 8812 703;
  Mul 8812 708; Mul 8812 320; Mul 8812 899; Mul 8812 918; Mul 8812 944; Mul 8812 963; Mul 8812 989; Mul 8812 1008;
  Mul 8812 1034; Mul 8812 1053; Mul 8813 8704; Mul 8813 325; Mul 8813 330; Mul 8813 509; Mul 8813 514; Mul 8813 519;
  Mul 8813 698; Mul 8813 703; Mul 8813 708; Mul 8813 320; Mul 8813 899; Mul 8813 918; Mul 8813 944; Mul 8813 963;
  Mul 8813 989; Mul 8813 1008; Mul 8813 1034; Mul 8813 1053; Mul 8815 8708; Mul 8815 326; Mul 8815 332; Mul 8815 510;
  Mul 8815 515; Mul 8815 521; Mul 8815 699; Mul 8815 704; Mul 8815 710; Mul 8815 900; Mul 8815 926; Mul 8815 321;
  Mul 8815 945; Mul 8815 971; Mul 8815 990; Mul 8815 1016; Mul 8815 1035; Mul 8815 1061; Mul 8816 8708; Mul 8816 326;
  Mul 8816 332].

(* L10028-10527 DEF.block *)
Definition block_20 : list Step := [
  Mul 8816 510; Mul 8816 515; Mul 8816 521; Mul 8816 699; Mul 8816 704; Mul 8816 710; Mul 8816 900; Mul 8816 926;
  Mul 8816 321; Mul 8816 945; Mul 8816 971; Mul 8816 990; Mul 8816 1016; Mul 8816 1035; Mul 8816 1061; Mul 8817 8708;
  Mul 8817 326; Mul 8817 332; Mul 8817 510; Mul 8817 515; Mul 8817 521; Mul 8817 699; Mul 8817 704; Mul 8817 710;
  Mul 8817 900; Mul 8817 926; Mul 8817 321; Mul 8817 945; Mul 8817 971; Mul 8817 990; Mul 8817 1016; Mul 8817 1035;
  Mul 8817 1061; Mul 8819 327; Mul 8819 334; Mul 8819 8710; Mul 8819 511; Mul 8819 516; Mul 8819 523; Mul 8819 700;
  Mul 8819 705; Mul 8819 712; Mul 8819 908; Mul 8819 927; Mul 8819 953; Mul 8819 972; Mul 8819 322; Mul 8819 998;
  Mul 8819 1017; Mul 8819 1043; Mul 8819 1062; Mul 8804 328; Mul 8804 336; Mul 8804 512; Mul 8804 517; Mul 8804 8712;
  Mul 8804 525; Mul 8804 701; Mul 8804 706; Mul 8804 714; Mul 8804 909; Mul 8804 935; Mul 8804 954; Mul 8804 980;
  Mul 8804 999; Mul 8804 1025; Mul 8804 323; Mul 8804 1044; Mul 8804 1070; Mul 8808 329; Mul 8808 338; Mul 8808 513;
  Mul 8808 518; Mul 8808 527; Mul 8808 702; Mul 8808 8714; Mul 8808 707; Mul 8808 716; Mul 8808 917; Mul 8808 936;
  Mul 8808 962; Mul 8808 981; Mul 8808 1007; Mul 8808 1026; Mul 8808 1052; Mul 8808 1071; Mul 8808 324;
  Mul 8814 8708; Mul 8814 326; Mul 8814 332; Mul 8814 510; Mul 8814 515; Mul 8814 521; Mul 8814 699; Mul 8814 704;
  Mul 8814 710; Mul 8814 900; Mul 8814 926; Mul 8814 321; Mul 8814 945; Mul 8814 971; Mul 8814 990; Mul 8814 1016;
  Mul 8814 1035; Mul 8814 1061; Mul 8818 327; Mul 8818 334; Mul 8818 8710; Mul 8818 511; Mul 8818 516; Mul 8818 523;
  Mul 8818 700; Mul 8818 705; Mul 8818 712; Mul 8818 908; Mul 8818 927; Mul 8818 953; Mul 8818 972; Mul 8818 322;
  Mul 8818 998; Mul 8818 1017; Mul 8818 1043; Mul 8818 1062; Add 8820 1; Add 8821 1; Add 8822 1; Add 8823 1;
  Add 8824 1; Add 8825 1; Add 8826 1; Add 8827 1; Add 8828 1; Add 8829 1; Add 8830 1; Add 8831 1; Add 8832 1;
  Add 8833 1; Add 8834 1; Add 8835 1; Add 8836 1; Add 8837 1; Add 9180 9144; Add 9181 9145; Add 9182 9146;
  Add 9183 9147; Add 9184 9148; Add 9185 9149; Add 9186 9150; Add 9187 9151; Add 9188 9152; Add 9189 9155;
  Add 9190 9153; Add 9191 9154; Add 9192 9156; Add 9193 9157; Add 9194 9158; Add 9195 9159; Add 9196 9160;
  Add 9197 9161; Add 9198 9164; Add 9199 9162; Add 9200 9163; Add 9201 9165; Add 9202 9166; Add 9203 9167;
  Add 9204 9168; Add 9205 9169; Add 9206 9170; Add 9207 9175; Add 9208 9171; Add 9209 9172; Add 9210 9173;
  Add 9211 9174; Add 9212 9176; Add 9213 9177; Add 9214 9178; Add 9215 9179; Add 8838 9036; Add 8839 9037;
  Add 8840 9038; Add 8841 9039; Add 8842 9040; Add 8843 9041; Add 8844 9042; Add 8845 9043; Add 8846 9044;
  Add 8847 9047; Add 8848 9045; Add 8849 9046; Add 8850 9048; Add 8851 9049; Add 8852 9050; Add 8853 9051;
  Add 8854 9052; Add 8855 9053; Add 9000 9054; Add 9001 9055; Add 9002 9056; Add 9003 9057; Add 9004 9058;
  Add 9005 9059; Add 9006 9060; Add 9007 9061; Add 9008 9062; Add 9009 9065; Add 9010 9063; Add 9011 9064;
  Add 9012 9066; Add 9013 9067; Add 9014 9068; Add 9015 9069; Add 9016 9070; Add 9017 9071; Add 9018 9072;
  Add 9019 9073; Add 9020 9074; Add 9021 9075; Add 9022 9076; Add 9023 9077; Add 9024 9078; Add 9025 9079;
  Add 9026 9080; Add 9027 9083; Add 9028 9081; Add 9029 9082; Add 9030 9084; Add 9031 9085; Add 9032 9086;
  Add 9033 9087; Add 9034 9088; Add 9035 9089; Add 9216 9112; Add 9217 9108; Add 9218 9109; Add 9219 9110;
  Add 9220 9111; Add 9221 9113; Add 9222 9114; Add 9223 9115; Add 9224 9116; Add 9225 9123; Add 9226 9117;
  Add 9227 9118; Add 9228 9119; Add 9229 9120; Add 9230 9121; Add 9231 9122; Add 9232 9124; Add 9233 9125;
  Add 9234 9092; Add 9235 9090; Add 9236 9091; Add 9237 9093; Add 9238 9094; Add 9239 9095; Add 9240 9096;
  Add 9241 9097; Add 9242 9098; Add 9243 9103; Add 9244 9099; Add 9245 9100; Add 9246 9101; Add 9247 9102;
  Add 9248 9104; Add 9249 9105; Add 9250 9106; Add 9251 9107; Add 9252 8858; Add 9253 8856; Add 9254 8857;
  Add 9255 8859; Add 9256 8860; Add 9257 8861; Add 9258 8862; Add 9259 8863; Add 9260 8864; Add 9261 8869;
  Add 9262 8865; Add 9263 8866; Add 9264 8867; Add 9265 8868; Add 9266 8870; Add 9267 8871; Add 9268 8872;
  Add 9269 8873; Add 9270 8876; Add 9271 8874; Add 9272 8875; Add 9273 8877; Add 9274 8878; Add 9275 8879;
  Add 9276 8880; Add 9277 8881; Add 9278 8882; Add 9279 8887; Add 9280 8883; Add 9281 8884; Add 9282 8885;
  Add 9283 8886; Add 9284 8888; Add 9285 8889; Add 9286 8890; Add 9287 8891; Add 9288 9132; Add 9289 9126;
  Add 9290 9127; Add 9292 9129; Add 9293 9130; Add 9295 9133; Add 9296 9134; Add 9299 9136; Add 9300 9137;
  Add 9302 9139; Add 9303 9140; Add 9305 9142; Add 9291 9128; Add 9294 9131; Add 9297 9143; Add 9298 9135;
  Add 9301 9138; Add 9304 9141; Add 9306 8896; Add 9307 8892; Add 9308 8893; Add 9309 8894; Add 9310 8895;
  Add 9311 8897; Add 9312 8898; Add 9313 8899; Add 9314 8900; Add 9315 8907; Add 9316 8901; Add 9317 8902;
  Add 9318 8903; Add 9319 8904; Add 9320 8905; Add 9321 8906; Add 9322 8908; Add 9323 8909; Add 9324 8914;
  Add 9325 8910; Add 9326 8911; Add 9327 8912; Add 9328 8913; Add 9329 8915; Add 9330 8916; Add 9331 8917;
  Add 9332 8918; Add 9333 8925; Add 9334 8919; Add 9335 8920; Add 9336 8921; Add 9337 8922; Add 9338 8923;
  Add 9339 8924; Add 9340 8926; Add 9341 8927; Add 9342 8932; Add 9343 8928; Add 9344 8929; Add 9345 8930;
  Add 9346 8931; Add 9347 8933; Add 9348 8934; Add 9349 8935; Add 9350 8936; Add 9351 8943; Add 9352 8937;
  Add 9353 8938; Add 9354 8939; Add 9355 8940; Add 9356 8941; Add 9357 8942; Add 9358 8944; Add 9359 8945;
  Add 9378 8952; Add 9379 8946; Add 9380 8947; Add 9382 8949; Add 9383 8950; Add 9385 8953; Add 9386 8954;
  Add 9389 8956; Add 9390 8957; Add 9392 8959; Add 9393 8960; Add 9395 8962; Add 9396 8970; Add 9397 8964;
  Add 9398 8965; Add 9400 8967; Add 9401 8968; Add 9403 8971; Add 9404 8972; Add 9407 8974; Add 9408 8975;
  Add 9410 8977; Add 9411 8978; Add 9413 8980; Add 9414 8988; Add 9415 8982; Add 9416 8983; Add 9418 8985;
  Add 9419 8986; Add 9421 8989; Add 9422 8990; Add 9425 8992; Add 9426 8993; Add 9428 8995; Add 9429 8996;
  Add 9431 8998; Add 9381 8948; Add 9384 8951; Add 9387 8963; Add 9388 8955; Add 9391 8958; Add 9394 8961;
  Add 9399 8966; Add 9402 8969; Add 9405 8981; Add 9406 8973; Add 9409 8976; Add 9412 8979; Add 9417 8984;
  Add 9420 8987; Add 9423 8999; Add 9424 8991; Add 9427 8994; Add 9430 8997; Mul 9468 9459; Mul 9469 9461;
  Mul 9470 9457; Mul 9471 9463; Mul 9472 9465; Mul 9473 9467; Mul 9468 9435; Mul 9468 9447; Mul 9468 9363;
  Mul 9469 9437; Mul 9469 9449; Mul 9469 9365; Mul 9470 9433; Mul 9470 9445; Mul 9470 9361; Mul 9471 9439;
  Mul 9471 9451; Mul 9471 9367; Mul 9472 9441; Mul 9472 9453; Mul 9472 9369; Mul 9473 9443; Mul 9473 9455;
  Mul 9473 9371; Mul 9474 9459; Mul 9475 9461; Mul 9476 9457; Mul 9477 9463; Mul 9478 9465; Mul 9479 9467;
  Mul 9480 9459; Mul 9481 9461; Mul 9482 9457; Mul 9483 9463; Mul 9484 9465; Mul 9485 9467; Mul 9372 9435;
  Mul 9372 9447; Mul 9372 9459; Mul 9372 9363; Mul 9373 9437; Mul 9373 9449; Mul 9373 9461; Mul 9373 9365;
  Mul 9374 9433; Mul 9374 9445; Mul 9374 9457; Mul 9374 9361; Mul 9375 9439; Mul 9375 9451; Mul 9375 9463;
  Mul 9375 9367; Mul 9376 9441; Mul 9376 9453; Mul 9376 9465; Mul 9376 9369; Mul 9377 9443; Mul 9377 9455;
  Mul 9377 9467; Mul 9377 9371; Mul 9474 9435; Mul 9474 9447; Mul 9474 9363; Mul 9475 9437; Mul 9475 9449;
  Mul 9475 9365; Mul 9476 9433; Mul 9476 9445; Mul 9476 9361; Mul 9477 9439; Mul 9477 9451].

(* L10528-11027 DEF.block *)
Definition block_21 : list Step := [
  Mul 9477 9367; Mul 9478 9441; Mul 9478 9453; Mul 9478 9369; Mul 9479 9443; Mul 9479 9455; Mul 9479 9371;
  Mul 9480 9435; Mul 9480 9447; Mul 9480 9363; Mul 9481 9437; Mul 9481 9449; Mul 9481 9365; Mul 9482 9433;
  Mul 9482 9445; Mul 9482 9361; Mul 9483 9439; Mul 9483 9451; Mul 9483 9367; Mul 9484 9441; Mul 9484 9453;
  Mul 9484 9369; Mul 9485 9443; Mul 9485 9455; Mul 9485 9371; Mul 9516 11; Mul 9517 11; Mul 9518 11; Mul 9519 11;
  Mul 9520 11; Mul 9521 11; Add 9510 9565; Add 9511 9568; Add 9512 9571; Add 9513 9574; Add 9514 9577; Add 9515 9580;
  Add 9486 9547; Add 9487 9550; Add 9488 9553; Add 9489 9556; Add 9490 9559; Add 9491 9562; Add 9522 9494;
  Add 9523 9492; Add 9524 9493; Add 9526 9497; Add 9527 9495; Add 9528 9496; Add 9530 9500; Add 9531 9498;
  Add 9532 9499; Add 9534 9503; Add 9535 9501; Add 9536 9502; Add 9538 9506; Add 9539 9504; Add 9540 9505;
  Add 9542 9509; Add 9543 9507; Add 9544 9508; Mul 9588 11; Mul 9589 11; Mul 9590 11; Mul 9591 11; Mul 9592 11;
  Mul 9593 11; Add 9594 9564; Add 9595 9567; Add 9596 9570; Add 9597 9573; Add 9598 9576; Add 9599 9579;
  Add 9600 9618; Add 9601 9548; Add 9602 9546; Add 9603 9619; Add 9604 9551; Add 9605 9549; Add 9606 9620;
  Add 9607 9554; Add 9608 9552; Add 9609 9621; Add 9610 9557; Add 9611 9555; Add 9612 9622; Add 9613 9560;
  Add 9614 9558; Add 9615 9623; Add 9616 9563; Add 9617 9561; Mul 9630 9460; Mul 9633 9462; Mul 9636 9458;
  Mul 9639 9464; Mul 9642 9466; Mul 9645 9456; Mul 9624 11; Mul 9625 11; Mul 9626 11; Mul 9627 11; Mul 9628 11;
  Mul 9629 11; Mul 9630 9436; Mul 9630 9448; Mul 9630 9364; Mul 9633 9438; Mul 9633 9450; Mul 9633 9366;
  Mul 9636 9434; Mul 9636 9446; Mul 9636 9362; Mul 9639 9440; Mul 9639 9452; Mul 9639 9368; Mul 9642 9442;
  Mul 9642 9454; Mul 9642 9370; Mul 9645 9432; Mul 9645 9444; Mul 9645 9360; Add 9631 9582; Add 9632 9566;
  Add 9634 9583; Add 9635 9569; Add 9637 9584; Add 9638 9572; Add 9640 9585; Add 9641 9575; Add 9643 9586;
  Add 9644 9578; Add 9646 9587; Add 9647 9581; Add 9525 9654; Add 9529 9655; Add 9533 9656; Add 9537 9657;
  Add 9541 9658; Add 9545 9659; Mul 9678 9460; Mul 9679 9460; Mul 9680 9462; Mul 9681 9462; Mul 9682 9458;
  Mul 9683 9458; Mul 9684 9464; Mul 9685 9464; Mul 9686 9466; Mul 9687 9466; Mul 9688 9456; Mul 9689 9456;
  Mul 9690 9436; Mul 9690 9448; Mul 9690 9460; Mul 9690 9364; Mul 9691 9438; Mul 9691 9450; Mul 9691 9462;
  Mul 9691 9366; Mul 9692 9434; Mul 9692 9446; Mul 9692 9458; Mul 9692 9362; Mul 9693 9440; Mul 9693 9452;
  Mul 9693 9464; Mul 9693 9368; Mul 9694 9442; Mul 9694 9454; Mul 9694 9466; Mul 9694 9370; Mul 9695 9432;
  Mul 9695 9444; Mul 9695 9456; Mul 9695 9360; Mul 9678 9436; Mul 9678 9448; Mul 9678 9364; Mul 9679 9436;
  Mul 9679 9448; Mul 9679 9364; Mul 9680 9438; Mul 9680 9450; Mul 9680 9366; Mul 9681 9438; Mul 9681 9450;
  Mul 9681 9366; Mul 9682 9434; Mul 9682 9446; Mul 9682 9362; Mul 9683 9434; Mul 9683 9446; Mul 9683 9362;
  Mul 9684 9440; Mul 9684 9452; Mul 9684 9368; Mul 9685 9440; Mul 9685 9452; Mul 9685 9368; Mul 9686 9442;
  Mul 9686 9454; Mul 9686 9370; Mul 9687 9442; Mul 9687 9454; Mul 9687 9370; Mul 9688 9432; Mul 9688 9444;
  Mul 9688 9360; Mul 9689 9432; Mul 9689 9444; Mul 9689 9360; Mul 9697 11; Mul 9699 11; Mul 9701 11; Mul 9703 11;
  Mul 9705 11; Mul 9707 11; Add 9696 9736; Add 9698 9742; Add 9700 9748; Add 9702 9754; Add 9704 9760; Add 9706 9766;
  Add 9648 9733; Add 9649 9739; Add 9650 9745; Add 9651 9751; Add 9652 9757; Add 9653 9763; Add 9708 9662;
  Add 9709 9660; Add 9710 9661; Add 9712 9665; Add 9713 9663; Add 9714 9664; Add 9716 9668; Add 9717 9666;
  Add 9718 9667; Add 9720 9671; Add 9721 9669; Add 9722 9670; Add 9724 9674; Add 9725 9672; Add 9726 9673;
  Add 9728 9677; Add 9729 9675; Add 9730 9676; Mul 9774 11; Mul 9775 11; Mul 9776 11; Mul 9777 11; Mul 9778 11;
  Mul 9779 11; Add 9780 9735; Add 9781 9741; Add 9782 9747; Add 9783 9753; Add 9784 9759; Add 9785 9765;
  Add 9787 9734; Add 9788 9732; Add 9790 9740; Add 9791 9738; Add 9793 9746; Add 9794 9744; Add 9796 9752;
  Add 9797 9750; Add 9799 9758; Add 9800 9756; Add 9802 9764; Add 9803 9762; Add 9786 9804; Add 9789 9805;
  Add 9792 9806; Add 9816 9768; Add 9817 9737; Add 9818 9769; Add 9819 9743; Add 9820 9770; Add 9821 9749;
  Add 9822 9771; Add 9823 9755; Add 9824 9772; Add 9825 9761; Add 9826 9773; Add 9827 9767; Add 9795 9807;
  Add 9798 9808; Add 9801 9809; Mul 9810 11; Mul 9811 11; Mul 9812 11; Mul 9813 11; Mul 9814 11; Mul 9815 11;
  Add 9711 9846; Add 9715 9847; Add 9719 9848; Add 9723 9849; Add 9727 9850; Add 9731 9851; Get 8; Get 9; Get 10;
  Get 11; Get 1; Get 3; Get 5; Get 7; Mul 9858 9837; Mul 9858 9838; Mul 9858 9843; Mul 9858 9855; Mul 9859 9838;
  Mul 9860 9838; Mul 9861 9838; Mul 9862 9830; Mul 9862 9854; Mul 9862 9835; Mul 9862 9836; Mul 9863 9836;
  Mul 9864 9836; Mul 9865 9836; Mul 9859 9837; Mul 9859 9843; Mul 9859 9855; Mul 9860 9837; Mul 9860 9843;
  Mul 9860 9855; Mul 9861 9837; Mul 9861 9843; Mul 9861 9855; Mul 9863 9830; Mul 9863 9854; Mul 9863 9835;
  Mul 9864 9830; Mul 9864 9854; Mul 9864 9835; Mul 9865 9830; Mul 9865 9854; Mul 9865 9835; Mul 9872 11; Mul 9879 11;
  Add 9866 9881; Add 9867 9880; Add 9868 9882; Add 9870 9883; Add 9871 9886; Add 9873 9890; Add 9875 9889;
  Add 9876 9891; Add 9877 9894; Add 9878 9897; Mul 9904 11; Mul 9909 11; Add 9900 9885; Add 9901 9884; Add 9903 9887;
  Add 9905 9911; Add 9906 9893; Add 9907 9892; Add 9908 9895; Add 9912 9898; Add 9913 9888; Add 9902 9910;
  Mul 9914 11; Mul 9918 11; Add 9916 9899; Add 9917 9896; Add 9874 9923; Add 9869 9922; Sub 9926 9927; AndEqz 0 9928;
  Sub 9915 9921; AndEqz 943 9929; Sub 9924 9919; AndEqz 944 9930; Sub 9925 9920; AndEqz 945 9931; Mul 9858 9828;
  Mul 9858 9852; Mul 9858 9831; Mul 9858 9832; Mul 9859 9832; Mul 9860 9832; Mul 9861 9832; Mul 9859 9828;
  Mul 9859 9852; Mul 9859 9831; Mul 9860 9828; Mul 9860 9852; Mul 9860 9831; Mul 9861 9828; Mul 9861 9852;
  Mul 9861 9831; Mul 9938 11; Add 9932 9940; Add 9934 9939; Add 9935 9941; Add 9936 9944; Add 9937 9947; Get 14;
  Get 15; Get 12; Get 13; Mul 9954 9840; Mul 9955 9840; Mul 9956 9839; Mul 9956 9840; Mul 9956 9844; Mul 9956 9856;
  Mul 9957 9840; Mul 9953 11; Mul 9954 9839; Mul 9954 9844; Mul 9954 9856; Mul 9955 9839; Mul 9955 9844;
  Mul 9955 9856; Mul 9957 9839; Mul 9957 9844; Mul 9957 9856; Mul 9959 11; Add 9949 9965; Add 9950 9943;
  Add 9951 9942; Add 9952 9945; Add 9958 9969; Add 9960 9973; Add 9961 9972; Add 9962 9974; Add 9964 9966;
  Mul 9979 11; Mul 9980 11; Add 9977 9948; Add 9978 9946; Add 9981 9968; Add 9982 9967; Add 9984 9970; Add 9933 9985;
  Add 9989 9975; Add 9990 9971; Add 9983 9986; Mul 9991 11; Add 9963 9996; Sub 9992 9997; AndEqz 946 9998;
  Sub 9976 9995; AndEqz 947 9999; Sub 9987 9993; AndEqz 948 10000; Sub 9988 9994; AndEqz 949 10001; Mul 9954 9834;
  Mul 9955 9834; Mul 9956 9829; Mul 9956 9853; Mul 9956 9833; Mul 9956 9834; Mul 9957 9834; Mul 9954 9829;
  Mul 9954 9853; Mul 9954 9833; Mul 9955 9829; Mul 9955 9853; Mul 9955 9833; Mul 9957 9829; Mul 9957 9853;
  Mul 9957 9833; Mul 10003 11; Add 10002 10014; Add 10004 10016; Add 10006 10015; Add 10007 10017; Add 10008 10011;
  Get 0; Get 2; Get 4; Get 6; Mul 10024 9841; Mul 10024 9842; Mul 10024 9845; Mul 10024 9857; Mul 10025 9842;
  Mul 10026 9842; Mul 10027 9842; Mul 10019 11; Mul 10025 9841; Mul 10025 9845; Mul 10025 9857; Mul 10026 9841;
  Mul 10026 9845; Mul 10026 9857; Mul 10027 9841; Mul 10027 9845; Mul 10027 9857; Mul 10034 11; Add 10020 10035;
  Add 10021 10010; Add 10022 10009].

(* L11028-11527 DEF.block *)
Definition block_22 : list Step := [
  Add 10023 10012; Add 10028 10037; Add 10029 10036; Add 10030 10038; Add 10032 10039; Add 10033 10042; Mul 10049 11;
  Mul 10054 11; Add 10047 10018; Add 10048 10013; Add 10050 10041; Add 10051 10040; Add 10053 10043; Add 10005 10055;
  Add 10059 10045; Add 10060 10044; Add 10052 10056; Mul 10061 11; Add 10031 10066; Sub 10062 10067;
  AndEqz 950 10068; Sub 10046 10065; AndEqz 951 10069; Sub 10057 10063; AndEqz 952 10070; Sub 10058 10064;
  AndEqz 953 10071; AndCond 942 284 954; Sub 10024 1; AndEqz 0 10072; AndEqz 956 10025; AndEqz 957 10026;
  AndEqz 958 10027; AndCond 0 317 959; Sub 9862 1; AndEqz 0 10073; AndEqz 961 9863; AndEqz 962 9864; AndEqz 963 9865;
  AndCond 960 319 964; Mul 8800 326; Mul 8800 332; Mul 8800 510; Mul 8800 515; Mul 8800 521; Mul 8801 326;
  Mul 8801 332; Mul 8801 510; Mul 8801 515; Mul 8801 521; Mul 8802 328; Mul 8802 336; Mul 8802 512; Mul 8802 517;
  Mul 8802 525; Mul 8803 328; Mul 8803 336; Mul 8803 512; Mul 8803 517; Mul 8803 525; Mul 8805 329; Mul 8805 338;
  Mul 8805 513; Mul 8805 518; Mul 8805 527; Mul 8806 329; Mul 8806 338; Mul 8806 513; Mul 8806 518; Mul 8806 527;
  Mul 8807 329; Mul 8807 338; Mul 8807 513; Mul 8807 518; Mul 8807 527; Mul 8809 330; Mul 8809 509; Mul 8809 514;
  Mul 8809 519; Mul 8809 698; Mul 8810 330; Mul 8810 509; Mul 8810 514; Mul 8810 519; Mul 8810 698; Mul 8811 330;
  Mul 8811 509; Mul 8811 514; Mul 8811 519; Mul 8811 698; Mul 8812 326; Mul 8812 332; Mul 8812 510; Mul 8812 515;
  Mul 8812 521; Mul 8813 326; Mul 8813 332; Mul 8813 510; Mul 8813 515; Mul 8813 521; Mul 8815 327; Mul 8815 334;
  Mul 8815 511; Mul 8815 516; Mul 8815 523; Mul 8816 327; Mul 8816 334; Mul 8816 511; Mul 8816 516; Mul 8816 523;
  Mul 8817 327; Mul 8817 334; Mul 8817 511; Mul 8817 516; Mul 8817 523; Mul 8819 328; Mul 8819 336; Mul 8819 512;
  Mul 8819 517; Mul 8819 525; Mul 8804 329; Mul 8804 338; Mul 8804 513; Mul 8804 518; Mul 8804 527; Mul 8808 330;
  Mul 8808 509; Mul 8808 514; Mul 8808 519; Mul 8808 698; Mul 8814 327; Mul 8814 334; Mul 8814 511; Mul 8814 516;
  Mul 8814 523; Mul 8818 328; Mul 8818 336; Mul 8818 512; Mul 8818 517; Mul 8818 525; Add 10074 1; Add 10075 1;
  Add 10076 1; Add 10077 1; Add 10078 1; Add 10174 10164; Add 10175 10165; Add 10176 10166; Add 10177 10167;
  Add 10178 10168; Add 10179 10169; Add 10180 10170; Add 10181 10171; Add 10182 10172; Add 10183 10173;
  Add 10079 10134; Add 10080 10135; Add 10081 10136; Add 10082 10137; Add 10083 10138; Add 10124 10139;
  Add 10125 10140; Add 10126 10141; Add 10127 10142; Add 10128 10143; Add 10129 10144; Add 10130 10145;
  Add 10131 10146; Add 10132 10147; Add 10133 10148; Add 10184 10154; Add 10185 10155; Add 10186 10156;
  Add 10187 10157; Add 10188 10158; Add 10189 10149; Add 10190 10150; Add 10191 10151; Add 10192 10152;
  Add 10193 10153; Add 10194 10084; Add 10195 10085; Add 10196 10086; Add 10197 10087; Add 10198 10088;
  Add 10199 10089; Add 10200 10090; Add 10201 10091; Add 10202 10092; Add 10203 10093; Add 10205 10160;
  Add 10208 10163; Add 10204 10159; Add 10206 10161; Add 10207 10162; Add 10209 10094; Add 10210 10095;
  Add 10211 10096; Add 10212 10097; Add 10213 10098; Add 10214 10099; Add 10215 10100; Add 10216 10101;
  Add 10217 10102; Add 10218 10103; Add 10219 10104; Add 10220 10105; Add 10221 10106; Add 10222 10107;
  Add 10223 10108; Add 10230 10110; Add 10233 10113; Add 10235 10115; Add 10238 10118; Add 10240 10120;
  Add 10243 10123; Add 10229 10109; Add 10231 10111; Add 10232 10112; Add 10234 10114; Add 10236 10116;
  Add 10237 10117; Add 10239 10119; Add 10241 10121; Add 10242 10122; Mul 10250 10248; Mul 10252 10249;
  Mul 10250 10244; Mul 10250 10246; Mul 10250 10224; Mul 10252 10245; Mul 10252 10247; Mul 10252 10225;
  Mul 10253 10248; Mul 10255 10249; Mul 10256 10248; Mul 10258 10249; Mul 10226 10244; Mul 10226 10246;
  Mul 10226 10248; Mul 10226 10224; Mul 10228 10245; Mul 10228 10247; Mul 10228 10249; Mul 10228 10225;
  Mul 10253 10244; Mul 10253 10246; Mul 10253 10224; Mul 10255 10245; Mul 10255 10247; Mul 10255 10225;
  Mul 10256 10244; Mul 10256 10246; Mul 10256 10224; Mul 10258 10245; Mul 10258 10247; Mul 10258 10225; Mul 10269 11;
  Mul 10270 11; Add 10267 10286; Add 10268 10289; Add 10259 10280; Add 10260 10283; Add 10271 10263; Add 10272 10261;
  Add 10273 10262; Add 10275 10266; Add 10276 10264; Add 10277 10265; Mul 10293 11; Mul 10294 11; Add 10295 10285;
  Add 10296 10288; Add 10298 10281; Add 10299 10279; Add 10301 10284; Add 10302 10282; Add 10297 10303;
  Add 10307 10291; Add 10308 10287; Add 10309 10292; Add 10310 10290; Add 10300 10304; Mul 10305 11; Mul 10306 11;
  Add 10274 10317; Add 10278 10318; Mul 9858 10314; Mul 9858 10315; Mul 9858 10316; Mul 9858 10320; Mul 9859 10315;
  Mul 9860 10315; Mul 9861 10315; Mul 9862 10311; Mul 9862 10319; Mul 9862 10312; Mul 9862 10313; Mul 9863 10313;
  Mul 9864 10313; Mul 9865 10313; Mul 9859 10314; Mul 9859 10316; Mul 9859 10320; Mul 9860 10314; Mul 9860 10316;
  Mul 9860 10320; Mul 9861 10314; Mul 9861 10316; Mul 9861 10320; Mul 9863 10311; Mul 9863 10319; Mul 9863 10312;
  Mul 9864 10311; Mul 9864 10319; Mul 9864 10312; Mul 9865 10311; Mul 9865 10319; Mul 9865 10312; Mul 10327 11;
  Mul 10334 11; Add 10321 10336; Add 10322 10335; Add 10323 10337; Add 10325 10338; Add 10326 10341; Add 10328 10345;
  Add 10330 10344; Add 10331 10346; Add 10332 10349; Add 10333 10352; Mul 10359 11; Mul 10364 11; Add 10355 10340;
  Add 10356 10339; Add 10358 10342; Add 10360 10366; Add 10361 10348; Add 10362 10347; Add 10363 10350;
  Add 10367 10353; Add 10368 10343; Add 10357 10365; Mul 10369 11; Mul 10373 11; Add 10371 10354; Add 10372 10351;
  Add 10329 10378; Add 10324 10377; Sub 10381 10382; AndEqz 0 10383; Sub 10370 10376; AndEqz 966 10384;
  Sub 10379 10374; AndEqz 967 10385; Sub 10380 10375; AndEqz 968 10386; Mul 9858 10251; Mul 9858 10227;
  Mul 9858 10254; Mul 9858 10257; Mul 9859 10257; Mul 9860 10257; Mul 9861 10257; Mul 9859 10251; Mul 9859 10227;
  Mul 9859 10254; Mul 9860 10251; Mul 9860 10227; Mul 9860 10254; Mul 9861 10251; Mul 9861 10227; Mul 9861 10254;
  Mul 10393 11; Add 10387 10395; Add 10389 10394; Add 10390 10396; Add 10391 10399; Add 10392 10402; Mul 10024 9444;
  Mul 10024 9456; Mul 10024 9432; Mul 10024 9360; Mul 10025 9456; Mul 10026 9456; Mul 10027 9456; Mul 10408 11;
  Mul 10025 9444; Mul 10025 9432; Mul 10025 9360; Mul 10026 9444; Mul 10026 9432; Mul 10026 9360; Mul 10027 9444;
  Mul 10027 9432; Mul 10027 9360; Mul 10415 11; Add 10404 10416; Add 10405 10398; Add 10406 10397; Add 10407 10400;
  Add 10409 10418; Add 10410 10417; Add 10411 10419; Add 10413 10420; Add 10414 10423; Mul 10430 11; Mul 10435 11;
  Add 10428 10403; Add 10429 10401; Add 10431 10422; Add 10432 10421; Add 10434 10424; Add 10388 10436;
  Add 10440 10426; Add 10441 10425; Add 10433 10437; Mul 10442 11; Add 10412 10447; Sub 10443 10448;
  AndEqz 969 10449; Sub 10427 10446; AndEqz 970 10450; Sub 10438 10444; AndEqz 971 10451; Sub 10439 10445;
  AndEqz 972 10452; AndCond 965 318 973; AndCond 974 475 973; Mul 10251 9456; Mul 10251 9432; Mul 10251 9444;
  Mul 10251 9360; Mul 10254 9456; Mul 10257 9456; Mul 10227 9432; Mul 10227 9444; Mul 10227 9456; Mul 10227 9360;
  Mul 10254 9432; Mul 10254 9444; Mul 10254 9360; Mul 10257 9432; Mul 10257 9444; Mul 10257 9360; Mul 10458 11;
  Add 10457 10467; Add 10453 10464; Add 10459 10456; Add 10460 10454; Add 10461 10455; Mul 10470 11; Add 10471 10466;
  Add 10473 10465; Add 10474 10463; Add 10477 10469; Add 10478 10468; Add 10472 10475; Mul 10476 11; Add 10462 10482;
  Mul 10024 10479; Mul 10024 10480; Mul 10024 10481; Mul 10024 10483; Mul 10025 10480; Mul 10026 10480;
  Mul 10027 10480; Mul 10025 10479; Mul 10025 10481; Mul 10025 10483; Mul 10026 10479; Mul 10026 10481;
  Mul 10026 10483; Mul 10027 10479; Mul 10027 10481; Mul 10027 10483; Mul 10490 11; Add 10484 10492; Add 10485 10491;
  Add 10486 10493; Add 10488 10494; Add 10489 10497; Mul 10505 11; Add 10501 10496; Add 10502 10495; Add 10504 10498;
  Add 10507 10500; Add 10508 10499; Add 10503 10506; Mul 10509 11; Add 10487 10513; Sub 10381 10514; AndEqz 0 10515;
  Sub 10370 10512; AndEqz 976 10516; Sub 10379 10510; AndEqz 977 10517; Sub 10380 10511; AndEqz 978 10518;
  AndCond 975 506 979].

(* L11528-12027 DEF.block *)
Definition block_23 : list Step := [
  AndCond 980 508 979; AndCond 981 507 979; AndCond 982 664 979; Mul 9434 9480; Mul 9435 9460; Mul 9438 9456;
  Mul 9434 9468; Mul 9434 9474; Mul 9434 9372; Mul 9435 9436; Mul 9435 9448; Mul 9435 9364; Mul 9438 9432;
  Mul 9438 9444; Mul 9438 9360; Mul 9446 9480; Mul 9447 9460; Mul 9450 9456; Mul 9458 9480; Mul 9459 9460;
  Mul 9462 9456; Mul 9362 9468; Mul 9362 9474; Mul 9362 9480; Mul 9362 9372; Mul 9363 9436; Mul 9363 9448;
  Mul 9363 9460; Mul 9363 9364; Mul 9366 9432; Mul 9366 9444; Mul 9366 9456; Mul 9366 9360; Mul 9446 9468;
  Mul 9446 9474; Mul 9446 9372; Mul 9447 9436; Mul 9447 9448; Mul 9447 9364; Mul 9450 9432; Mul 9450 9444;
  Mul 9450 9360; Mul 9458 9468; Mul 9458 9474; Mul 9458 9372; Mul 9459 9436; Mul 9459 9448; Mul 9459 9364;
  Mul 9462 9432; Mul 9462 9444; Mul 9462 9360; Mul 10534 11; Mul 10535 11; Mul 10536 11; Add 10531 10559;
  Add 10532 10562; Add 10533 10565; Add 10519 10550; Add 10520 10553; Add 10521 10556; Add 10537 10524;
  Add 10538 10522; Add 10539 10523; Add 10541 10527; Add 10542 10525; Add 10543 10526; Add 10545 10530;
  Add 10546 10528; Add 10547 10529; Mul 10570 11; Mul 10571 11; Mul 10572 11; Add 10573 10558; Add 10574 10561;
  Add 10575 10564; Add 10577 10551; Add 10578 10549; Add 10580 10554; Add 10581 10552; Add 10583 10557;
  Add 10584 10555; Add 10576 10585; Add 10579 10586; Add 10591 10567; Add 10592 10560; Add 10593 10568;
  Add 10594 10563; Add 10595 10569; Add 10596 10566; Add 10582 10587; Mul 10588 11; Mul 10589 11; Mul 10590 11;
  Add 10540 10606; Add 10544 10607; Add 10548 10608; Mul 9858 9680; Mul 9858 9681; Mul 9858 9633; Mul 9858 9691;
  Mul 9859 9681; Mul 9860 9681; Mul 9861 9681; Mul 9862 10597; Mul 9862 10609; Mul 9862 10599; Mul 9862 10600;
  Mul 9863 10600; Mul 9864 10600; Mul 9865 10600; Mul 9859 9680; Mul 9859 9633; Mul 9859 9691; Mul 9860 9680;
  Mul 9860 9633; Mul 9860 9691; Mul 9861 9680; Mul 9861 9633; Mul 9861 9691; Mul 9863 10597; Mul 9863 10609;
  Mul 9863 10599; Mul 9864 10597; Mul 9864 10609; Mul 9864 10599; Mul 9865 10597; Mul 9865 10609; Mul 9865 10599;
  Mul 10618 11; Mul 10625 11; Add 10612 10627; Add 10613 10626; Add 10614 10628; Add 10616 10629; Add 10617 10632;
  Add 10619 10636; Add 10621 10635; Add 10622 10637; Add 10623 10640; Add 10624 10643; Mul 10650 11; Mul 10655 11;
  Add 10646 10631; Add 10647 10630; Add 10649 10633; Add 10651 10657; Add 10652 10639; Add 10653 10638;
  Add 10654 10641; Add 10658 10644; Add 10659 10634; Add 10648 10656; Mul 10660 11; Mul 10664 11; Add 10662 10645;
  Add 10663 10642; Add 10620 10669; Add 10615 10668; Sub 10672 10673; AndEqz 0 10674; Sub 10661 10667;
  AndEqz 984 10675; Sub 10670 10665; AndEqz 985 10676; Sub 10671 10666; AndEqz 986 10677; Mul 9858 10598;
  Mul 9858 10610; Mul 9858 10601; Mul 9858 10602; Mul 9859 10602; Mul 9860 10602; Mul 9861 10602; Mul 9859 10598;
  Mul 9859 10610; Mul 9859 10601; Mul 9860 10598; Mul 9860 10610; Mul 9860 10601; Mul 9861 10598; Mul 9861 10610;
  Mul 9861 10601; Mul 10684 11; Add 10678 10686; Add 10680 10685; Add 10681 10687; Add 10682 10690; Add 10683 10693;
  Mul 10024 10603; Mul 10024 10604; Mul 10024 10605; Mul 10024 10611; Mul 10025 10604; Mul 10026 10604;
  Mul 10027 10604; Mul 10699 11; Mul 10025 10603; Mul 10025 10605; Mul 10025 10611; Mul 10026 10603; Mul 10026 10605;
  Mul 10026 10611; Mul 10027 10603; Mul 10027 10605; Mul 10027 10611; Mul 10706 11; Add 10695 10707; Add 10696 10689;
  Add 10697 10688; Add 10698 10691; Add 10700 10709; Add 10701 10708; Add 10702 10710; Add 10704 10711;
  Add 10705 10714; Mul 10721 11; Mul 10726 11; Add 10719 10694; Add 10720 10692; Add 10722 10713; Add 10723 10712;
  Add 10725 10715; Add 10679 10727; Add 10731 10717; Add 10732 10716; Add 10724 10728; Mul 10733 11; Add 10703 10738;
  Sub 10734 10739; AndEqz 987 10740; Sub 10718 10737; AndEqz 988 10741; Sub 10729 10735; AndEqz 989 10742;
  Sub 10730 10736; AndEqz 990 10743; AndCond 983 695 991; AndCond 955 852 992; AndCond 993 4415 954; Sub 10024 9862;
  AndEqz 0 10744; Sub 10025 9863; AndEqz 995 10745; Sub 10026 9864; AndEqz 996 10746; Sub 10027 9865;
  AndEqz 997 10747; AndCond 994 4796 998; AndCond 999 5627 998; AndCond 1000 7315 954; Mul 9434 9456; Mul 9434 9432;
  Mul 9434 9444; Mul 9434 9360; Mul 9446 9456; Mul 9458 9456; Mul 9362 9432; Mul 9362 9444; Mul 9362 9456;
  Mul 9362 9360; Mul 9446 9432; Mul 9446 9444; Mul 9446 9360; Mul 9458 9432; Mul 9458 9444; Mul 9458 9360;
  Mul 10753 11; Add 10752 10762; Add 10748 10759; Add 10754 10751; Add 10755 10749; Add 10756 10750; Mul 10765 11;
  Add 10766 10761; Add 10768 10760; Add 10769 10758; Add 10772 10764; Add 10773 10763; Add 10767 10770; Mul 10771 11;
  Add 10757 10777; Mul 10024 10774; Mul 10024 10775; Mul 10024 10776; Mul 10024 10778; Mul 10025 10775;
  Mul 10026 10775; Mul 10027 10775; Mul 9862 9636; Mul 9862 9692; Mul 9862 9682; Mul 9862 9683; Mul 9863 9683;
  Mul 9864 9683; Mul 9865 9683; Mul 10025 10774; Mul 10025 10776; Mul 10025 10778; Mul 10026 10774; Mul 10026 10776;
  Mul 10026 10778; Mul 10027 10774; Mul 10027 10776; Mul 10027 10778; Mul 9863 9636; Mul 9863 9692; Mul 9863 9682;
  Mul 9864 9636; Mul 9864 9692; Mul 9864 9682; Mul 9865 9636; Mul 9865 9692; Mul 9865 9682; Mul 10785 11;
  Mul 10792 11; Add 10779 10794; Add 10780 10793; Add 10781 10795; Add 10783 10796; Add 10784 10799; Add 10786 10803;
  Add 10788 10802; Add 10789 10804; Add 10790 10807; Add 10791 10810; Mul 10817 11; Mul 10822 11; Add 10813 10798;
  Add 10814 10797; Add 10816 10800; Add 10818 10824; Add 10819 10806; Add 10820 10805; Add 10821 10808;
  Add 10825 10811; Add 10826 10801; Add 10815 10823; Mul 10827 11; Mul 10831 11; Add 10829 10812; Add 10830 10809;
  Add 10787 10836; Add 10782 10835; Sub 10839 10840; AndEqz 0 10841; Sub 10828 10834; AndEqz 1002 10842;
  Sub 10837 10832; AndEqz 1003 10843; Sub 10838 10833; AndEqz 1004 10844; AndCond 1001 7411 1005; Sub 1 475;
  Mul 475 10845; AndEqz 0 10846; Sub 1 506; Mul 506 10847; AndEqz 1007 10848; Add 475 506; Mul 508 617;
  AndEqz 1008 10850; Add 10849 508; Sub 10851 1; AndEqz 1009 10852; AndCond 1006 4415 1010; AndCond 1011 7315 1010;
  Sub 1 316; Mul 316 10853; AndEqz 0 10854; Sub 1 288; Mul 288 10855; AndEqz 1013 10856; Sub 1 289; Add 316 288;
  Mul 289 10857; AndEqz 1014 10859; Sub 1 290; Add 10858 289; Mul 290 10860; AndEqz 1015 10862; Sub 1 291;
  Add 10861 290; Mul 291 10863; AndEqz 1016 10865; Sub 1 292; Add 10864 291; Mul 292 10866; AndEqz 1017 10868;
  Sub 1 293; Add 10867 292; Mul 293 10869; AndEqz 1018 10871; Sub 1 294; Add 10870 293; Mul 294 10872;
  AndEqz 1019 10874; Sub 1 295; Add 10873 294; Mul 295 10875; AndEqz 1020 10877; Sub 1 296; Add 10876 295;
  Mul 296 10878; AndEqz 1021 10880; Sub 1 287; Add 10879 296; Mul 287 10881; AndEqz 1022 10883; Add 10882 287;
  Sub 10884 1; AndEqz 1023 10885; Sub 1 505; Mul 505 10886; AndEqz 1024 10887; Sub 1 476; Mul 476 10888;
  AndEqz 1025 10889; Sub 1 477; Add 505 476; Mul 477 10890; AndEqz 1026 10892; Sub 1 478; Add 10891 477;
  Mul 478 10893; AndEqz 1027 10895; Sub 1 479; Add 10894 478; Mul 479 10896; AndEqz 1028 10898; Sub 1 480;
  Add 10897 479; Mul 480 10899; AndEqz 1029 10901; Sub 1 481; Add 10900 480; Mul 481 10902; AndEqz 1030 10904;
  Sub 1 482; Add 10903 481; Mul 482 10905; AndEqz 1031 10907; Sub 1 483; Add 10906 482; Mul 483 10908;
  AndEqz 1032 10910; Sub 1 484; Add 10909 483; Mul 484 10911; AndEqz 1033 10913; Sub 1 485; Add 10912 484;
  Mul 485 10914; AndEqz 1034 10916; Add 10915 485; Sub 10917 1; AndEqz 1035 10918; Sub 1 694; Mul 694 10919;
  AndEqz 1036 10920; Sub 1 665; Mul 665 10921; AndEqz 1037 10922; Sub 1 666; Add 694 665; Mul 666 10923;
  AndEqz 1038 10925; Sub 1 667; Add 10924 666; Mul 667 10926; AndEqz 1039 10928; Sub 1 668; Add 10927 667;
  Mul 668 10929; AndEqz 1040 10931; Sub 1 669; Add 10930 668; Mul 669 10932; AndEqz 1041 10934; Sub 1 670;
  Add 10933 669; Mul 670 10935; AndEqz 1042 10937; Sub 1 671; Add 10936 670; Mul 671 10938; AndEqz 1043 10940;
  Sub 1 672; Add 10939 671; Mul 672 10941; AndEqz 1044 10943; Sub 1 673; Add 10942 672; Mul 673 10944;
  AndEqz 1045 10946; Sub 1 674; Add 10945 673; Mul 674 10947; AndEqz 1046 10949; Add 10948 674; Sub 10950 1].

(* L12028-12386 DEF.block *)
Definition block_24 : list Step := [
  AndEqz 1047 10951; AndCond 1012 284 1048; Sub 1 320; Sub 2 320; Sub 3 320; Mul 320 10952; Mul 10955 10953;
  Mul 10956 10954; AndEqz 0 10957; Sub 1 321; Sub 2 321; Sub 3 321; Mul 321 10958; Mul 10961 10959; Mul 10962 10960;
  AndEqz 1050 10963; Sub 1 322; Sub 2 322; Sub 3 322; Mul 322 10964; Mul 10967 10965; Mul 10968 10966;
  AndEqz 1051 10969; Sub 1 323; Sub 2 323; Sub 3 323; Mul 323 10970; Mul 10973 10971; Mul 10974 10972;
  AndEqz 1052 10975; Sub 1 324; Sub 2 324; Sub 3 324; Mul 324 10976; Mul 10979 10977; Mul 10980 10978;
  AndEqz 1053 10981; Sub 1 325; Sub 2 325; Sub 3 325; Mul 325 10982; Mul 10985 10983; Mul 10986 10984;
  AndEqz 1054 10987; Sub 1 699; Mul 699 10988; AndEqz 0 10989; Sub 1 700; Mul 700 10990; AndEqz 1056 10991;
  Sub 1 701; Mul 701 10992; AndEqz 1057 10993; Sub 1 702; Mul 702 10994; AndEqz 1058 10995; Sub 1 703; Mul 703 10996;
  AndEqz 1059 10997; Sub 1 704; Mul 704 10998; AndEqz 1060 10999; Sub 1 705; Mul 705 11000; AndEqz 1061 11001;
  Sub 1 706; Mul 706 11002; AndEqz 1062 11003; Sub 1 707; Mul 707 11004; AndEqz 1063 11005; Sub 1 708; Mul 708 11006;
  AndEqz 1064 11007; AndEqz 1065 810; Sub 1 712; Mul 712 11008; AndEqz 1066 11009; Sub 1 714; Mul 714 11010;
  AndEqz 1067 11011; Sub 1 716; Mul 716 11012; AndEqz 1068 11013; Sub 1 899; Mul 899 11014; AndEqz 1069 11015;
  Sub 1 900; Mul 900 11016; AndEqz 1070 11017; Sub 1 908; Mul 908 11018; AndEqz 1071 11019; Sub 1 909; Mul 909 11020;
  AndEqz 1072 11021; Sub 1 917; Mul 917 11022; AndEqz 1073 11023; Sub 1 918; Mul 918 11024; AndEqz 1074 11025;
  Sub 1 926; Mul 926 11026; AndEqz 1075 11027; Sub 1 927; Mul 927 11028; AndEqz 1076 11029; Sub 1 935; Mul 935 11030;
  AndEqz 1077 11031; Sub 1 936; Mul 936 11032; AndEqz 1078 11033; Sub 1 944; Mul 944 11034; AndEqz 1079 11035;
  Sub 1 945; Mul 945 11036; AndEqz 1080 11037; Sub 1 953; Mul 953 11038; AndEqz 1081 11039; Sub 1 954; Mul 954 11040;
  AndEqz 1082 11041; Sub 1 962; Mul 962 11042; AndEqz 1083 11043; Sub 1 963; Mul 963 11044; AndEqz 1084 11045;
  Sub 1 971; Mul 971 11046; AndEqz 1085 11047; Sub 1 972; Mul 972 11048; AndEqz 1086 11049; Sub 1 980; Mul 980 11050;
  AndEqz 1087 11051; Sub 1 981; Mul 981 11052; AndEqz 1088 11053; Sub 1 989; Mul 989 11054; AndEqz 1089 11055;
  Sub 1 990; Mul 990 11056; AndEqz 1090 11057; Sub 1 998; Mul 998 11058; AndEqz 1091 11059; Sub 1 999; Mul 999 11060;
  AndEqz 1092 11061; Sub 1 1007; Mul 1007 11062; AndEqz 1093 11063; Sub 1 1008; Mul 1008 11064; AndEqz 1094 11065;
  Sub 1 1016; Mul 1016 11066; AndEqz 1095 11067; Sub 1 1017; Mul 1017 11068; AndEqz 1096 11069; Sub 1 1025;
  Mul 1025 11070; AndEqz 1097 11071; Sub 1 1026; Mul 1026 11072; AndEqz 1098 11073; Sub 1 1034; Mul 1034 11074;
  AndEqz 1099 11075; Sub 1 1035; Mul 1035 11076; AndEqz 1100 11077; Sub 1 1043; Mul 1043 11078; AndEqz 1101 11079;
  Sub 1 1044; Mul 1044 11080; AndEqz 1102 11081; Sub 1 1052; Mul 1052 11082; AndEqz 1103 11083; Sub 1 1053;
  Mul 1053 11084; AndEqz 1104 11085; Sub 1 1061; Mul 1061 11086; AndEqz 1105 11087; Sub 1 1062; Mul 1062 11088;
  AndEqz 1106 11089; Sub 1 1070; Mul 1070 11090; AndEqz 1107 11091; Sub 1 1071; Mul 1071 11092; AndEqz 1108 11093;
  AndEqz 1109 10854; AndEqz 1110 10856; AndEqz 1111 10859; AndEqz 1112 10862; AndEqz 1113 10865; AndEqz 1114 10868;
  AndEqz 1115 10871; AndEqz 1116 10874; AndCond 1055 318 1117; AndEqz 1117 10877; AndEqz 1119 10880;
  AndCond 1118 475 1120; Sub 1 515; Mul 515 11094; AndEqz 0 11095; Sub 1 516; Mul 516 11096; AndEqz 1122 11097;
  Sub 1 517; Mul 517 11098; AndEqz 1123 11099; Sub 1 518; Mul 518 11100; AndEqz 1124 11101; Sub 1 519; Mul 519 11102;
  AndEqz 1125 11103; AndEqz 1126 621; Sub 1 523; Mul 523 11104; AndEqz 1127 11105; Sub 1 525; Mul 525 11106;
  AndEqz 1128 11107; Sub 1 527; Mul 527 11108; AndEqz 1129 11109; Sub 1 698; Mul 698 11110; AndEqz 1130 11111;
  AndEqz 1131 10989; AndEqz 1132 10991; AndEqz 1133 10993; AndEqz 1134 10995; AndEqz 1135 10997; AndEqz 1136 10999;
  AndEqz 1137 11001; AndEqz 1138 11003; AndEqz 1139 11005; AndEqz 1140 11007; AndEqz 1141 810; AndEqz 1142 11009;
  AndEqz 1143 11011; AndEqz 1144 11013; AndEqz 1145 11015; AndEqz 1146 11017; AndEqz 1147 11019; AndEqz 1148 11021;
  AndEqz 1149 11023; AndEqz 1150 11025; AndEqz 1151 11027; AndEqz 1152 11029; AndEqz 1153 11035; AndEqz 1154 11037;
  AndEqz 1155 11039; AndEqz 1156 11041; AndEqz 1157 11043; AndEqz 1158 11045; AndEqz 1159 11047; AndEqz 1160 11049;
  AndEqz 1161 11051; AndEqz 1162 11053; AndEqz 1163 11055; AndEqz 1164 11057; AndEqz 1165 11059; AndEqz 1166 11061;
  AndEqz 1167 11063; AndEqz 1168 11065; AndEqz 1169 11067; AndEqz 1170 11069; AndEqz 1171 11071; AndEqz 1172 11073;
  AndEqz 1173 11075; AndEqz 1174 11077; AndEqz 1175 11079; AndEqz 1176 11081; AndEqz 1177 11083; AndEqz 1178 11085;
  AndEqz 1179 11087; AndEqz 1180 11089; AndEqz 1181 11091; AndEqz 1182 11093; AndEqz 1183 10854; AndEqz 1184 10856;
  AndEqz 1185 10865; AndEqz 1186 10868; AndEqz 1187 10871; AndEqz 1188 10874; AndEqz 1189 10877; AndEqz 1190 10880;
  AndEqz 1191 10883; Sub 1 430; Mul 430 11112; AndEqz 1192 11113; AndEqz 1193 10887; AndEqz 1194 10889;
  AndEqz 1195 10892; AndEqz 1196 10895; AndEqz 1197 10898; AndEqz 1198 10901; AndEqz 1199 10904; AndEqz 1200 10907;
  AndEqz 1201 10910; AndEqz 1202 10913; AndEqz 1203 10916; Sub 1 619; Mul 619 11114; AndEqz 1204 11115;
  AndEqz 1205 10920; AndEqz 1206 10922; AndEqz 1207 10925; AndEqz 1208 10928; AndEqz 1209 10931; AndEqz 1210 10934;
  AndEqz 1211 10937; AndEqz 1212 10940; AndEqz 1213 10943; AndEqz 1214 10946; AndEqz 1215 10949; Sub 1 808;
  Mul 808 11116; AndEqz 1216 11117; AndCond 1121 506 1217; AndCond 1218 508 1217; AndCond 1219 507 1217;
  AndCond 1220 664 1217; Sub 1 326; Mul 326 11118; AndEqz 0 11119; Sub 1 327; Mul 327 11120; AndEqz 1222 11121;
  Sub 1 328; Add 326 327; Mul 328 11122; AndEqz 1223 11124; Sub 1 329; Add 11123 328; Mul 329 11125;
  AndEqz 1224 11127; Add 11126 329; Sub 11128 1; AndEqz 1225 11129; AndCond 1221 695 1226; AndCond 1049 852 1227].
(* L27-12389 DEF *)
Definition DEF : Adapter.PolyExtStepDef := program (concat [
  block_0; block_1; block_2; block_3; block_4; block_5; block_6; block_7; block_8; block_9; block_10; block_11;
  block_12; block_13; block_14; block_15; block_16; block_17; block_18; block_19; block_20; block_21; block_22;
  block_23; block_24]) 1228.

(* src/risc0/risc0/circuit/recursion/src/control_id.rs:59-60 ALLOWED_CONTROL_ROOT *)
Definition ALLOWED_CONTROL_ROOT : Merkle.Digest :=
  Merkle.mkDigest 0x1340f6b1 0x38bb0bf7 0x3d3a8b6a 0x5c2c5563 0x544aeab5 0x1efbc79e 0x1d032acc 0x678148bf.

(** The circuit passes the verifier's check: the globals are the 32 elements of the output, and
    the mix has 20. *)
Lemma recursion_taps_checked : taps_ok TAPSET && (Taps.num_groups TAPSET =? 3)%nat = true.
Proof. vm_compute. reflexivity. Qed.
Lemma recursion_tap_count : (Taps.tap_size TAPSET : outcome Merkle.VerificationError nat) = Ok 643%nat.
Proof. reflexivity. Qed.
Lemma recursion_program_checked : def_ok (643 + 1) [32; 20]%nat DEF = true.
Proof. apply (def_check_ok 644 [32; 20]). vm_compute. reflexivity. Qed.
Lemma recursion_circuit_ok : circuit_ok TAPSET 32 20 DEF = true.
Proof. unfold circuit_ok. rewrite recursion_tap_count, recursion_taps_checked. exact recursion_program_checked. Qed.
End RecursionTables.
