(* ===== verification/FriSpec.v ===== *)
(** * What a FRI query checks

    A query reads a column of each committed layer: the sixteen values of a layer at the
    points above one point of the next.  [verify_query] compares one of them with the
    value it carries and replaces it by the value of the folded polynomial; the theorems
    say so for any column and, for the columns of an honest prover, that the query is
    accepted. *)
From S2P Require Export Stark MerkleSpec PolySpec.
Import Fri.
Open Scope nat_scope.

(** ** Folding *)

Section Folding.
Open Scope f4_scope.

(** The coefficients [16 k .. 16 k + 15] become one, mixed by the powers of [m]. *)
Definition fold (m : F4) (f : nat -> F4) (k : nat) : F4 := pval 16 (fun j => f (16 * k + j)%nat) m.

Lemma pval_add a b f x : pval (a + b) f x = pval a f x + fpow x a * pval b (fun i => f (a + i)%nat) x.
Proof.
  revert f. induction a as [|a IH]; intros f; [change (pval b f x = 0 + 1 * pval b f x); ring|].
  cbn [Nat.add pval]. rewrite IH, fpow_S. ring.
Qed.
Lemma pval_plus n f g x : pval n (fun i => f i + g i) x = pval n f x + pval n g x.
Proof. revert f g. induction n as [|n IH]; intros f g; [change (0 = 0 + 0); ring|]. cbn [pval]. rewrite (IH (fun i => f (S i)) (fun i => g (S i))). ring. Qed.
Lemma pval_times n c f x : pval n (fun i => c * f i) x = c * pval n f x.
Proof. revert f. induction n as [|n IH]; intros f; [change (0 = c * 0); ring|]. cbn [pval]. rewrite (IH (fun i => f (S i))). ring. Qed.
Lemma pval_scale_arg n f c x : pval n (fun i => fpow c i * f i) x = pval n f (c * x).
Proof.
  revert f. induction n as [|n IH]; intros f; [done|]. cbn [pval]. change (fpow c 0) with 1.
  rewrite (pval_ext n _ (fun i => c * (fpow c i * f (S i)))) by (intros; rewrite fpow_S; ring).
  rewrite pval_times, (IH (fun i => f (S i))). ring.
Qed.

(** The values of a polynomial by the residues of the exponents. *)
Lemma pval_residues c n f x : pval (c * n) f x = pval c (fun j => pval n (fun k => f (c * k + j)%nat) (fpow x c)) x.
Proof.
  revert f. induction n as [|n IH]; intros f.
  { rewrite Nat.mul_0_r. change (pval 0 ?f x) with 0. symmetry. change (pval c (fun _ => 0) x = 0).
    rewrite (pval_ext c _ (fun _ => 0 * 0)) by (intros; ring). rewrite (pval_times c 0 (fun _ => 0)). ring. }
  rewrite Nat.mul_succ_r, Nat.add_comm, pval_add, (IH (fun i => f (c + i)%nat)).
  rewrite <- pval_times, <- pval_plus. apply pval_ext. intros j _. cbn [pval]. f_equal.
  { f_equal. lia. } f_equal. apply pval_ext. intros i _. f_equal. lia.
Qed.

Lemma pval_zero c x : pval c (fun _ => 0) x = 0.
Proof. induction c as [|c IH]; [done|]. cbn [pval]. rewrite IH. ring. Qed.
Lemma pval_swap n c h x m : pval n (fun k => pval c (h k) m) x = pval c (fun j => pval n (fun k => h k j) x) m.
Proof.
  revert h. induction n as [|n IH]; intros h; [symmetry; apply (pval_zero c m)|].
  cbn [pval]. rewrite (IH (fun k => h (S k))), <- pval_times, <- pval_plus. done.
Qed.

Lemma fold_value m f n x : pval n (fold m f) x = pval 16 (fun j => pval n (fun k => f (16 * k + j)%nat) x) m.
Proof. apply (pval_swap n 16 (fun k j => f (16 * k + j)%nat)). Qed.
End Folding.

(** ** The points of a column *)

Lemma root_descend a b : a + b <= 27 -> fpow (root (a + b)) (2 ^ b) = root a.
Proof.
  induction b as [|b IH]; intros Hb; [rewrite Nat.add_0_r; change (fpow ?x (2 ^ 0)) with (x * 1)%f4; ring|].
  rewrite Nat.pow_succ_r', fpow_mul, Nat.add_succ_r.
  assert (E : fpow (root (S (a + b))) 2 = root (a + b)).
  { destruct roots_rooted as [_ H]. destruct (H (a + b) ltac:(lia)) as (<- & _). change (fpow ?x 2) with (x * (x * 1))%f4. ring. }
  rewrite E. apply IH. lia.
Qed.

(** The points above the point [group] of the next domain, of [2 ^ k] points. *)
Definition point (k group i : nat) : F4 := fpow (root (k + 4)) (group + i * 2 ^ k).

Lemma point_shift k group i : k + 4 <= 27 -> point k group i = (fpow (root (k + 4)) group * fpow (root 4) i)%f4.
Proof.
  intros Hk. unfold point. rewrite fpow_add, (Nat.mul_comm i), fpow_mul. do 2 f_equal.
  rewrite (Nat.add_comm k 4). apply root_descend. lia.
Qed.
Lemma point_below k group i : k + 4 <= 27 -> fpow (point k group i) 16 = fpow (root k) group.
Proof.
  intros Hk. rewrite point_shift, fpow_prod by done. rewrite <- !fpow_mul, (Nat.mul_comm group), (Nat.mul_comm i), !fpow_mul.
  change 16 with (2 ^ 4) at 1. rewrite root_descend by done.
  assert (E : fpow (root 4) 16 = 1%f4) by (apply (root_period root iroot 27 4); [apply roots_rooted|lia]). rewrite E, fpow_1. ring.
Qed.

(** The values of a polynomial at the points of a column have those of its fold below. *)
Lemma fold_column k group (m : F4) f n : k + 4 <= 27 ->
  (forall i, pval (16 * n) f (point k group i) = pval 16 (fun j => pval n (fun t => f (16 * t + j)) (fpow (root k) group)) (point k group i)) /\
  pval n (fold m f) (fpow (root k) group) = pval 16 (fun j => pval n (fun t => f (16 * t + j)) (fpow (root k) group)) m.
Proof. intros Hk. split; [|apply fold_value]. intros i. rewrite pval_residues. apply pval_ext. intros j _. by rewrite point_below. Qed.

(** ** The computation on one column *)

(** Sixteen elements with the values [v] come from exactly one polynomial of degree
    below 16 on the column, and the code evaluates it at [m]. *)
Definition column_values (k group : nat) (c v : nat -> F4) : Prop := forall i, i < 16 -> pval 16 c (point k group i) = v i.

Lemma root_nz k group : k <= 27 -> exists y, (fpow (root k) group * y = 1)%f4 /\ forall w, Elem.ROU_REV !! k = Some w -> u64 (Z.of_nat group) ->
  brepr (pow w (Z.of_nat group)) y.
Proof.
  intros Hk. destruct (roots_exist k Hk) as (w & v & _ & Ev & _ & Hv & Hinv). exists (fpow (iroot k) group). split.
  - by rewrite <- fpow_prod, Hinv, fpow_1.
  - intros w' Ew Hu. assert (w' = v) as -> by congruence. pose proof (brepr_pow v (iroot k) (Z.of_nat group) Hv Hu) as Hp. by rewrite Nat2Z.id in Hp.
Qed.

Lemma column_fold {Er} k group (es : list ExtElem) (v : nat -> F4) (m : F4) w : k + 4 <= 27 -> u64 (Z.of_nat group) -> length es = 16 -> vec es v ->
  Elem.ROU_REV !! (k + 4) = Some w ->
  exists cs bs c, (Ntt.interpolate_ntt es : outcome Er _) = Ok cs /\ (Ntt.bit_reverse cs : outcome Er _) = Ok bs /\ column_values k group c v /\
    forall c', column_values k group c' v -> poly_eval bs (Ext.mul_elem (elem m) (pow w (Z.of_nat group))) = elem (pval 16 c' m).
Proof.
  intros Hk Hg Hl Hv Ew. destruct (interpolate_values (Er := Er) 4 es v ltac:(lia) Hl Hv) as (cs & g & Ecs & Hlc & Hvc & Hval & Huniq).
  destruct (bit_reverse_run (Er := Er) 4 cs ltac:(lia) Hlc) as (bs & Ebs & Hlb & Hbs).
  destruct (root_nz (k + 4) group Hk) as (y & Hy & Hrep). specialize (Hrep w Ew Hg).
  set (x := fpow (root (k + 4)) group) in *.
  exists cs, bs, (fun j => (fpow y j * g (brev 4 j))%f4). split_and!; [done|done| |].
  - intros i Hi. rewrite (pval_scale_arg 16 (fun j => g (brev 4 j))), point_shift by done. fold x.
    rewrite (pval_brev 4). rewrite <- Hval by done. f_equal. transitivity ((x * y) * fpow (root 4) i)%f4; [ring|]. rewrite Hy. ring.
  - intros c' Hc'. assert (E : forall j, j < 16 -> g (brev 4 j) = (fpow x j * c' j)%f4).
    { intros j Hj. rewrite (Huniq (fun i => (fpow x (brev 4 i) * c' (brev 4 i))%f4)); [by rewrite brev_involutive| |apply (brev_lt 4)].
      intros i Hi. rewrite <- (pval_brev 4). rewrite (pval_ext (2 ^ 4) _ (fun j => (fpow x j * c' j)%f4)) by (intros t Ht; by rewrite brev_involutive).
      rewrite pval_scale_arg. rewrite <- Hc' by done. by rewrite point_shift. }
    assert (Ebl : bs = map elem (map (fun j => (fpow x j * c' j)%f4) (seq 0 16))).
    { apply list_eq_same_length with (n := 16); [done|done|]. intros j a b Hj Ha Hb. rewrite Hbs in Ha by done.
      apply Hvc in Ha. rewrite E in Ha by done. change (map elem ?l) with (elem <$> l) in Hb. rewrite list_lookup_fmap in Hb.
      change (map ?f ?l) with (f <$> l) in Hb. rewrite list_lookup_fmap, lookup_seq_lt in Hb by done. cbn in Hb. injection Hb as <-. exact Ha. }
    rewrite Ebl. rewrite (erepr_scale (elem m) _ m y eq_refl Hrep). unfold poly_eval. rewrite poly_eval_run. f_equal.
    rewrite lval_pval, length_map, length_seq.
    rewrite (pval_ext 16 _ (fun j => (fpow x j * c' j)%f4)).
    + rewrite pval_scale_arg. f_equal. transitivity ((x * y) * m)%f4; [ring|]. rewrite Hy. ring.
    + intros j Hj. rewrite (nth_lookup_Some _ j 0%f4 (fpow x j * c' j)%f4); [done|].
      change (map ?f ?l) with (f <$> l). by rewrite list_lookup_fmap, lookup_seq_lt.
Qed.

(** ** Queries *)

Section Queries.
Context {R : Type} {HF : Merkle.HashFn Z} {RG : Merkle.Rng R Z ExtElem}.
Abbreviation IOP := (Merkle.ReadIOP R).

(** The elements with these values. *)
Definition elems_of (n : nat) (v : nat -> F4) : list ExtElem := map (fun i => elem (v i)) (seq 0 n).

Lemma elems_of_lookup n v i : i < n -> elems_of n v !! i = Some (elem (v i)).
Proof. intros Hi. unfold elems_of. change (map ?f ?l) with (f <$> l). by rewrite list_lookup_fmap, lookup_seq_lt. Qed.
Lemma ext_elems_of_length n v : length (elems_of n v) = n.
Proof. unfold elems_of. by rewrite length_map, length_seq. Qed.
Lemma elems_of_vec n v : vec (elems_of n v) v.
Proof.
  intros i a Ha. pose proof (lookup_lt_Some _ _ _ Ha) as Hi. rewrite ext_elems_of_length in Hi. rewrite elems_of_lookup in Ha by done. by injection Ha as <-.
Qed.
Lemma elems_of_ext n v v' : (forall i, i < n -> v i = v' i) -> elems_of n v = elems_of n v'.
Proof. intros H. apply map_ext_in. intros i Hi%in_seq. rewrite H by lia. done. Qed.
Lemma elems_of_eval n v x : poly_eval (elems_of n v) (elem x) = elem (pval n v x).
Proof.
  unfold poly_eval, elems_of. rewrite <- (map_map v elem), poly_eval_run, lval_pval, length_map, length_seq. f_equal.
  apply pval_ext. intros i Hi. change (map v ?l) with (v <$> l). rewrite (nth_lookup_Some _ i 0%f4 (v i)); [done|].
  by rewrite list_lookup_fmap, lookup_seq_lt.
Qed.

(** The next value is that of the column's polynomial at the random point of the round. *)
Lemma verify_query_run k round m pos goal (iop iop' : IOP) data v : k + 4 <= 27 -> domain round = 2 ^ k -> mix round = elem m -> pos < 2 ^ (k + 4) ->
  Merkle.verify (merkle round) (pos mod 2 ^ k) iop = (Ok data, iop') -> column_elems FRI_FOLD data = Ok (elems_of 16 v) ->
  (exists c, column_values k (pos mod 2 ^ k) c v) /\
  forall c, column_values k (pos mod 2 ^ k) c v -> verify_query round pos goal iop =
    if bool_decide (elem (v (pos / 2 ^ k)) = goal) then (Ok (pos mod 2 ^ k, elem (pval 16 c m)), iop') else (Err Merkle.InvalidProof, iop').
Proof.
  intros Hk Hd Hm Hpos Hv Hdata. assert (Hk0 : 2 ^ k <> 0) by (by apply Nat.pow_nonzero).
  assert (Hg : u64 (Z.of_nat (pos mod 2 ^ k))).
  { pose proof (Nat.mod_upper_bound pos (2 ^ k) Hk0) as Hlt. apply Nat2Z.inj_lt in Hlt. rewrite Nat2Z.inj_pow in Hlt. change (Z.of_nat 2) with 2%Z in Hlt.
    pose proof (Z.pow_lt_mono_r 2 (Z.of_nat k) 64 ltac:(lia) ltac:(lia) ltac:(lia)). unfold fits. lia. }
  assert (Hq : pos / 2 ^ k < 16).
  { apply Nat.Div0.div_lt_upper_bound. by rewrite Nat.pow_add_r in Hpos. }
  destruct (roots_exist (k + 4) Hk) as (_ & w & _ & Ew & _).
  destruct (column_fold (Er := Merkle.VerificationError) k (pos mod 2 ^ k) (elems_of 16 v) v m w Hk Hg (ext_elems_of_length 16 v) (elems_of_vec 16 v) Ew)
    as (cs & bs & c0 & Ecs & Ebs & Hc0 & Hfold).
  split; [by exists c0|]. intros c Hc. unfold verify_query. rewrite Hd, (proj2 (Nat.eqb_neq _ _)) by done.
  cbn [negb assert_]. rewrite run_lift_Ok. cbv zeta. rewrite (run_bind _ _ _ _ _ Hv), Hdata, run_lift_Ok, elems_of_lookup by done.
  cbn [unwrap]. rewrite run_lift_Ok. destruct (bool_decide _); cbn [negb]; [|done].
  assert (Epo2 : log2_ceil_nat (FRI_FOLD * 2 ^ k) = k + 4).
  { unfold log2_ceil_nat. change FRI_FOLD with (2 ^ 4). rewrite <- Nat.pow_add_r, Nat.add_comm, log2_ceil_pow2 by lia. lia. }
  rewrite Epo2, Ew. cbn [unwrap]. rewrite run_lift_Ok. cbv zeta. rewrite Ecs, run_lift_Ok, Ebs, run_lift_Ok, Hm, (Hfold c Hc). done.
Qed.

(** The layers of an honest prover, as a query opens them one after the other: the column
    that a tree opens has the values of a polynomial, of [16 * n] coefficients on
    [2 ^ (k + 4)] points, and the next layer has those of its fold. *)
Inductive honest : nat -> nat -> (nat -> F4) -> list VerifyRoundInfo -> nat -> IOP ->
    nat -> nat -> (nat -> F4) -> nat -> IOP -> Prop :=
  | honest_nil k n f pos iop : honest k n f [] pos iop k n f pos iop
  | honest_cons k n f round rounds pos iop m data iop1 k' n' f' pos' iop' :
      domain round = 2 ^ k -> mix round = elem m ->
      Merkle.verify (merkle round) (pos mod 2 ^ k) iop = (Ok data, iop1) ->
      column_elems FRI_FOLD data = Ok (elems_of 16 (fun i => pval (16 * n) f (point k (pos mod 2 ^ k) i))) ->
      honest k n (fold m f) rounds (pos mod 2 ^ k) iop1 k' n' f' pos' iop' ->
      honest (k + 4) (16 * n) f (round :: rounds) pos iop k' n' f' pos' iop'.

(** The value of a layer at one of its points. *)
Definition layer_value (k n : nat) (f : nat -> F4) (pos : nat) : F4 := pval n f (fpow (root k) pos).

Lemma layer_value_column k n f pos : pval n f (point k (pos mod 2 ^ k) (pos / 2 ^ k)) = layer_value (k + 4) n f pos.
Proof.
  unfold layer_value, point. do 2 f_equal. rewrite (Nat.mul_comm (pos / _)), Nat.add_comm. symmetry. by apply Nat.div_mod, Nat.pow_nonzero.
Qed.

Lemma query_rounds_honest k n f rounds pos iop k' n' f' pos' iop' : honest k n f rounds pos iop k' n' f' pos' iop' ->
  k <= 27 -> pos < 2 ^ k ->
  pos' < 2 ^ k' /\ query_rounds rounds pos (elem (layer_value k n f pos)) iop = (Ok (pos', elem (layer_value k' n' f' pos')), iop').
Proof.
  induction 1 as [|k n f round rounds pos iop m data iop1 k' n' f' pos' iop' Hd Hm Hv Hdata _ IH]; intros Hk Hpos; [done|].
  assert (Hk0 : 2 ^ k <> 0) by (by apply Nat.pow_nonzero).
  assert (Hq : pos / 2 ^ k < 16) by (apply Nat.Div0.div_lt_upper_bound; by rewrite Nat.pow_add_r in Hpos).
  destruct (fold_column k (pos mod 2 ^ k) m f n Hk) as [Hcol Hnext].
  destruct (verify_query_run k round m pos (elem (layer_value (k + 4) (16 * n) f pos)) iop iop1 data _ Hk Hd Hm Hpos Hv Hdata) as [_ Hrun].
  specialize (Hrun _ (fun i _ => eq_sym (Hcol i))). rewrite <- Hnext in Hrun. rewrite bool_decide_eq_true_2 in Hrun.
  - cbn [query_rounds]. rewrite (run_bind _ _ _ _ _ Hrun). apply IH; [lia|by apply Nat.mod_upper_bound].
  - by rewrite layer_value_column.
Qed.

(** A wrong value is refused where it is first compared. *)
Lemma query_rounds_wrong k n f rounds pos iop k' n' f' pos' iop' goal : honest k n f rounds pos iop k' n' f' pos' iop' ->
  k <= 27 -> pos < 2 ^ k -> rounds <> [] -> goal <> elem (layer_value k n f pos) ->
  exists iop'', query_rounds rounds pos goal iop = (Err Merkle.InvalidProof, iop'').
Proof.
  intros Hh Hk Hpos Hne Hgoal. destruct Hh as [|k n f round rounds pos iop m data iop1 k' n' f' pos' iop' Hd Hm Hv Hdata _]; [done|].
  destruct (verify_query_run k round m pos goal iop iop1 data _ Hk Hd Hm Hpos Hv Hdata) as [[c Hc] Hrun].
  specialize (Hrun c Hc). rewrite bool_decide_eq_false_2 in Hrun.
  - exists iop1. cbn [query_rounds]. unfold mbind, state_bind. by rewrite Hrun.
  - intros E. apply Hgoal. by rewrite <- E, layer_value_column.
Qed.

(** The point of the last domain. *)
Lemma gen_point k pos g : k <= 27 -> pos < 2 ^ k -> Elem.ROU_FWD !! k = Some g -> Ext.from_subfield (pow g (Z.of_nat pos)) = elem (fpow (root k) pos).
Proof.
  intros Hk Hpos Eg. destruct (roots_exist k Hk) as (w & _ & Ew & _ & Hw & _). assert (g = w) as -> by congruence.
  assert (Hu : u64 (Z.of_nat pos)).
  { apply Nat2Z.inj_lt in Hpos. rewrite Nat2Z.inj_pow in Hpos. change (Z.of_nat 2) with 2%Z in Hpos.
    pose proof (Z.pow_lt_mono_r 2 (Z.of_nat k) 64 ltac:(lia) ltac:(lia) ltac:(lia)). unfold fits. lia. }
  destruct (brepr_pow w (root k) (Z.of_nat pos) Hw Hu) as [_ E]. by rewrite Nat2Z.id in E.
Qed.
End Queries.

(** One step of a query, on any column of reduced elements: there is a polynomial of degree below 16
    with the column's values at the points above the new position; when the value carried is
    the column's at the old position, the step returns the polynomial's value at the random
    point of the round, and otherwise it refuses the proof. *)
Theorem verify_query_folds {R} {HF : Merkle.HashFn Z} k round m pos goal (iop iop' : Merkle.ReadIOP R) data v :
  k + 4 <= 27 -> domain round = 2 ^ k -> mix round = elem m -> pos < 2 ^ (k + 4) ->
  Merkle.verify (merkle round) (pos mod 2 ^ k) iop = (Ok data, iop') -> column_elems FRI_FOLD data = Ok (elems_of 16 v) ->
  exists c, (forall i, i < 16 -> pval 16 c (point k (pos mod 2 ^ k) i) = v i) /\
    verify_query round pos goal iop =
      if bool_decide (goal = elem (v (pos / 2 ^ k))) then (Ok (pos mod 2 ^ k, elem (pval 16 c m)), iop') else (Err Merkle.InvalidProof, iop').
Proof.
  intros Hk Hd Hm Hpos Hv Hdata. destruct (verify_query_run k round m pos goal iop iop' data v Hk Hd Hm Hpos Hv Hdata) as [[c Hc] Hrun].
  exists c. split; [exact Hc|]. rewrite (Hrun c Hc).
  destruct (decide (goal = elem (v (pos / 2 ^ k)))) as [-> |Hne]; [by rewrite !bool_decide_eq_true_2|].
  by rewrite !bool_decide_eq_false_2.
Qed.

(** C14: A query decides: when the trees open to the layers of a polynomial and its folds, and the last
    one is sent in full, a query accepts exactly the true value of the polynomial at the
    position that it drew, and refuses any other. *)
Theorem fri_query_decides {R} {HF : Merkle.HashFn Z} {RG : Merkle.Rng R Z ExtElem} k n f rounds k' n' f' pos' inner p goal gen_ final
    (iop iop0 iop1 iop2 : Merkle.ReadIOP R) :
  k <= 27 -> (p < 2 ^ Z.of_nat k)%Z ->
  Merkle.random_bits (E := Z) (X := ExtElem) (Z.of_nat k) iop = (Ok p, iop0) -> inner (Z.to_nat p) iop0 = (Ok goal, iop1) ->
  honest k n f rounds (Z.to_nat p) iop1 k' n' f' pos' iop2 ->
  column_elems n' final = Ok (elems_of n' f') -> Elem.ROU_FWD !! k' = Some gen_ ->
  fst (query inner rounds (2 ^ k) n' gen_ final iop) =
    if bool_decide (goal = elem (layer_value k n f (Z.to_nat p))) then Ok tt else Err Merkle.InvalidProof.
Proof.
  intros Hk Hp Hbits Hin Hh Hfinal Hgen. assert (Hpos : Z.to_nat p < 2 ^ k).
  { apply Nat2Z.inj_lt. rewrite Nat2Z.inj_pow. change (Z.of_nat 2) with 2%Z.
    pose proof (Z.pow_pos_nonneg 2 (Z.of_nat k) ltac:(lia) ltac:(lia)). lia. }
  unfold query. unfold log2_ceil_nat. rewrite log2_ceil_pow2, Nat2Z.id by lia. rewrite (run_bind _ _ _ _ _ Hbits). cbv zeta. rewrite (run_bind _ _ _ _ _ Hin).
  destruct (query_rounds_honest k n f rounds _ iop1 k' n' f' pos' iop2 Hh Hk Hpos) as [Hpos' Hrun].
  assert (Hlast : k' <= 27 /\ (rounds = [] -> k' = k /\ n' = n /\ f' = f /\ pos' = Z.to_nat p /\ iop2 = iop1)).
  { clear -Hh Hk. split; [|intros ->; by inversion Hh]. revert Hk. induction Hh; lia. }
  destruct Hlast as [Hk' Hnil].
  assert (Hend : forall g, fst ((lift (column_elems n' final) ≫= (fun poly_buf =>
      if negb (bool_decide (poly_eval poly_buf (Ext.from_subfield (pow gen_ (Z.of_nat pos'))) = g)) then throw Merkle.InvalidProof else mret tt)) iop2)
    = if bool_decide (g = elem (layer_value k' n' f' pos')) then Ok tt else Err Merkle.InvalidProof).
  { intros g. rewrite Hfinal, run_lift_Ok, (gen_point k' pos' gen_ Hk' Hpos' Hgen), elems_of_eval.
    destruct (decide (g = elem (layer_value k' n' f' pos'))) as [-> |Hne].
    - by rewrite !bool_decide_eq_true_2 by done.
    - rewrite !bool_decide_eq_false_2; [done|done|]. intros E. by apply Hne. }
  destruct (decide (goal = elem (layer_value k n f (Z.to_nat p)))) as [-> |Hne].
  - rewrite (run_bind _ _ _ _ _ Hrun). cbv zeta. rewrite Hend. by rewrite !bool_decide_eq_true_2.
  - rewrite (bool_decide_eq_false_2 _ Hne). destruct (decide (rounds = [])) as [Hr|Hr].
    + destruct (Hnil Hr) as (-> & -> & -> & -> & ->). subst rounds. cbn [query_rounds].
      rewrite (run_bind (mret (Z.to_nat p, goal)) _ iop1 (Z.to_nat p, goal) iop1 eq_refl). cbv zeta. rewrite Hend. by rewrite bool_decide_eq_false_2.
    + destruct (query_rounds_wrong k n f rounds _ iop1 k' n' f' pos' iop2 goal Hh Hk Hpos Hr Hne) as [iop'' E].
      unfold mbind at 1, state_bind at 1. by rewrite E.
Qed.

(** ** An example: sixteen coefficients, folded to one, with a hash that tells nothing apart *)

Module Example.
#[local] Instance zero_hash : Merkle.HashFn Z := {|
  Merkle.hash_pair _ _ := Some Merkle.ZERO; Merkle.hash_elem_slice _ := Merkle.ZERO; Merkle.is_digest_valid _ := true |}.
#[local] Instance five_rng : Merkle.Rng unit Z ExtElem := {|
  Merkle.rng_mix _ r := r; Merkle.rng_random_bits bits r := (5 mod 2 ^ bits, r)%Z;
  Merkle.rng_random_elem r := (Elem.new 5, r); Merkle.rng_random_ext_elem r := (Ext.one, r) |}.

Definition coeffs (i : nat) : F4 := scalar (Z.of_nat i + 1).
Definition column : list Z := map (fun i => e0 (elem (pval 16 coeffs (point 0 0 i)))) (seq 0 16) ++ replicate 48 0%Z.
Definition tree : Merkle.MerkleTreeVerifier :=
  match fst (Merkle.verifier_new (E := Z) (X := ExtElem) 1 64 50 (Merkle.mkRead (replicate 8 0%Z) tt)) with
  | Ok v => v | _ => Merkle.mkVerifier (Merkle.mkParams 0 0 0 0) [] [] end.
Definition round : VerifyRoundInfo := mkRound 1 tree (elem (scalar 3)).
Definition last : list Z := Ext.elems (elem (fold (scalar 3) coeffs 0)).
(** The function that vouches for the true value. *)
Definition inner (pos : nat) : state (Merkle.ReadIOP unit) Merkle.VerificationError ExtElem := mret (elem (layer_value 4 16 coeffs pos)).
Definition iop (words : list Z) : Merkle.ReadIOP unit := Merkle.mkRead words tt.

Example verify_ok : Merkle.verify (E := Z) (R := unit) tree 0 (iop column) = (Ok column, iop []).
Proof. by vm_compute. Qed.

Example example_column_ok : column_elems FRI_FOLD column = Ok (elems_of 16 (fun i => pval (16 * 1) coeffs (point 0 (5 mod 2 ^ 0) i))).
Proof. by vm_compute. Qed.
End Example.
#[local] Existing Instances Example.zero_hash Example.five_rng.

Lemma verify_query_folds_witness : exists c, (forall i, i < 16 -> pval 16 c (point 0 (5 mod 2 ^ 0) i) = pval (16 * 1) Example.coeffs (point 0 (5 mod 2 ^ 0) i)) /\
  verify_query Example.round 5 Ext.one (Example.iop Example.column) = 
    if bool_decide (Ext.one = elem (pval (16 * 1) Example.coeffs (point 0 (5 mod 2 ^ 0) (5 / 2 ^ 0)))) then (Ok (5 mod 2 ^ 0, elem (pval 16 c (scalar 3))), Example.iop [])
    else (Err Merkle.InvalidProof, Example.iop []).
Proof.
  apply (verify_query_folds 0 Example.round (scalar 3) 5 Ext.one (Example.iop Example.column) (Example.iop []) Example.column);
    [lia|done|done|cbn; lia|apply Example.verify_ok|apply Example.example_column_ok].
Defined.

Lemma fri_query_decides_witness :
  fst (query Example.inner [Example.round] (2 ^ 4) 1 Elem.ONE Example.last (Example.iop Example.column)) =
    if bool_decide (elem (layer_value 4 16 Example.coeffs 5) = elem (layer_value 4 16 Example.coeffs 5)) then Ok tt else Err Merkle.InvalidProof.
Proof.
  apply (fri_query_decides 4 16 Example.coeffs [Example.round] 0 1 (fold (scalar 3) Example.coeffs) 0 Example.inner 5
    (elem (layer_value 4 16 Example.coeffs 5)) Elem.ONE Example.last (Example.iop Example.column) (Example.iop Example.column) (Example.iop Example.column) (Example.iop []));
    [lia|done|done|done| |by vm_compute|done].
  apply (honest_cons 0 1 _ _ _ _ _ (scalar 3) Example.column (Example.iop [])); [done|done|apply Example.verify_ok|apply Example.example_column_ok|constructor].
Defined.
