(* ===== verification/MemImage.v ===== *)
(** * The memory image

    A sparse image of guest memory: pages, the digests of a Merkle tree over all
    [2^22] pages (node [i] has the children [2 i] and [2 i + 1], the root is 1) and
    the set of nodes whose digest is out of date.  [BTreeMap] and [BTreeSet] are
    finite maps and sets; where the source iterates over one it is sorted here. *)
From S2P Require Export Addr Poseidon2.
From stdpp Require Import sorting.
Import Merkle(Digest, mkDigest, as_words, DIGEST_WORDS).
Open Scope word_scope.
Open Scope Z_scope.

#[global] Existing Instance Merkle.digest_eq_dec.

(** An array of [PAGE_BYTES] bytes; slices with [page_subaddr] are in range. *)
(* src/risc0/risc0/binfmt/src/image.rs:87-88 Page *)
Definition Page : Type := list Z.

(** The hashes of a page and of a pair of digests. *)
Class ImageHash := {
  page_digest : Page -> Digest;
  pair_digest : Digest -> Digest -> Digest }.

Module Image.

(* source: src/risc0/risc0/binfmt/src/image.rs *)
(* L50-50 MERKLE_TREE_DEPTH *)
Definition MERKLE_TREE_DEPTH : nat := 22.

(* L420-422 Page::default *)
Definition page_default : Page := replicate 1024 0.

(* L459-467 Page::load *)
Definition load (self : Page) (addr : Z) : Z :=
  let byte_addr := Z.to_nat (WordAddr.baddr (WordAddr.page_subaddr addr)) in
  from_le_bytes (take 4 (drop byte_addr self)).

(** A write of bytes at an offset inside an array. *)
Definition copy_at (off : nat) (bytes self : list Z) : list Z :=
  take off self ++ bytes ++ drop (off + length bytes) self.

(* L489-495 Page::store *)
Definition store (addr word : Z) (self : Page) : Page :=
  let byte_addr := Z.to_nat (WordAddr.baddr (WordAddr.page_subaddr addr)) in
  copy_at byte_addr (to_le_bytes word) self.

(* L549-560 cells_to_digest *)
Definition cells_to_digest (cells : list Z) : Digest :=
  let w i := Elem.as_u32 (cells !!! i) in
  mkDigest (w 0%nat) (w 1%nat) (w 2%nat) (w 3%nat) (w 4%nat) (w 5%nat) (w 6%nat) (w 7%nat).

(** One iteration over a block of the page's words. *)
(* L439-447 Page::digest, the loop *)
Definition digest_block (self : Page) (cells : list Z) (i : nat) : list Z :=
  Poseidon2.poseidon2_mix
    (foldl (fun cells j =>
       let addr := Z.of_nat (i * DIGEST_WORDS + j) in
       let word := load self addr in
       <[(2 * j + 1)%nat := Elem.new (word .>> 16)]> (<[(2 * j)%nat := Elem.new (word .& 0xffff)]> cells))
     cells (seq 0 DIGEST_WORDS)).

(* L437-449 Page::digest *)
Definition poseidon2_page_digest (self : Page) : Digest :=
  cells_to_digest (foldl (digest_block self) (replicate Poseidon2.CELLS Elem.ZERO)
    (seq 0 (Z.to_nat PAGE_WORDS / DIGEST_WORDS))).

(* L538-546 DigestPair::digest *)
Definition poseidon2_pair_digest (lhs rhs : Digest) : Digest :=
  let cells := replicate Poseidon2.CELLS Elem.ZERO in
  let cells := foldl (fun cells i =>
      <[(DIGEST_WORDS + i)%nat := Elem.new (as_words lhs !!! i)]> (<[i := Elem.new (as_words rhs !!! i)]> cells))
    cells (seq 0 DIGEST_WORDS) in
  cells_to_digest (Poseidon2.poseidon2_mix cells).

#[global] Instance poseidon2_image_hash : ImageHash | 10 :=
  {| page_digest := poseidon2_page_digest; pair_digest := poseidon2_pair_digest |}.

(** The [anyhow] errors. *)
Inductive error := UnavailablePage (page_idx : Z) | DirtyDigest (digest_idx : Z) | UnavailableDigest (digest_idx : Z).

(* L110-125 MemoryImage *)
Record MemoryImage := mkImage { pages : gmap Z Page; digests : gmap Z Digest; dirty : gset Z }.

Definition set_pages (f : gmap Z Page -> gmap Z Page) (m : MemoryImage) := mkImage (f (pages m)) (digests m) (dirty m).
Definition set_digests (f : gmap Z Digest -> gmap Z Digest) (m : MemoryImage) := mkImage (pages m) (f (digests m)) (dirty m).
Definition set_dirty (f : gset Z -> gset Z) (m : MemoryImage) := mkImage (pages m) (digests m) (f (dirty m)).

(** [u32::ilog2]; zero panics. *)
Definition ilog2 {E} (x : Z) : outcome E Z := if 0 <? x then Ok (Z.log2 x) else Panic.

Section Image.
Context `{ImageHash}.
Abbreviation M := (state MemoryImage error).

(* L65-78 ZeroCache::new *)
Definition zero_digests : list Digest :=
  snd (foldl (fun '(digest, digests) depth => (pair_digest digest digest, <[depth := digest]> digests))
    (page_digest page_default, replicate (MERKLE_TREE_DEPTH + 1) Merkle.ZERO)
    (rev (seq 0 (MERKLE_TREE_DEPTH + 1)))).

(* L128-135 MemoryImage::default *)
Definition image_default : MemoryImage := mkImage ∅ {[1 := nth 0 zero_digests Merkle.ZERO]} ∅.

(* L160-162 MemoryImage::get_page_indexes *)
Definition get_page_indexes (self : MemoryImage) : gset Z := dom (pages self).
(* L173-175 MemoryImage::into_pages *)
Definition into_pages (self : MemoryImage) : gmap Z Page := pages self.

(** The loop to the nearest ancestor with a digest: the loop ends at zero. *)
(* L318-322 MemoryImage::is_zero, the loop *)
Fixpoint nearest (fuel : nat) (self : MemoryImage) (digest_idx depth : Z) : outcome error (Z * Z) :=
  match fuel with
  | O => Panic
  | S fuel =>
      match digests self !! digest_idx with
      | Some _ => Ok (digest_idx, depth)
      | None => if 0 <? digest_idx then nearest fuel self (digest_idx / 2) (depth - 1) else Ok (digest_idx, depth)
      end
  end.

(* L314-330 MemoryImage::is_zero *)
Definition is_zero (self : MemoryImage) (digest_idx : Z) : outcome error bool :=
  depth ← ilog2 digest_idx;
  '(digest_idx, depth) ← nearest 33 self digest_idx depth;
  if digest_idx =? 0 then Panic else
  digest ← unwrap (digests self !! digest_idx);
  zero ← unwrap (zero_digests !! Z.to_nat depth);
  Ok (bool_decide (digest = zero) || bool_decide (digest_idx ∈ dirty self)).

(* L178-192 MemoryImage::get_page *)
Definition get_page (page_idx : Z) (self : MemoryImage) : outcome error Page :=
  match pages self !! page_idx with
  | Some page => Ok page
  | None =>
      let digest_idx := MEMORY_PAGES +32 page_idx in
      zero ← is_zero self digest_idx;
      if (zero : bool) then Ok page_default else Err (UnavailablePage page_idx)
  end.

(* L333-341 MemoryImage::mark_dirty *)
Fixpoint mark_dirty_loop (fuel : nat) (digest_idx : Z) (dirty : gset Z) : gset Z :=
  match fuel with
  | O => dirty
  | S fuel =>
      if digest_idx =? 0 then dirty else
      if decide (digest_idx ∈ dirty) then dirty else mark_dirty_loop fuel (digest_idx / 2) ({[digest_idx]} ∪ dirty)
  end.
Definition mark_dirty (digest_idx : Z) : M unit := modify (set_dirty (mark_dirty_loop 33 digest_idx)).

(* L195-201 MemoryImage::set_page *)
Definition set_page (page_idx : Z) (page : Page) : M unit :=
  let digest_idx := MEMORY_PAGES +32 page_idx in
  modify (set_pages <[page_idx := page]>);;
  mark_dirty digest_idx.

(** The mutable reference that is returned is an update of the page, run by the caller. *)
(* L207-225 MemoryImage::get_page_mut *)
Definition get_page_mut (page_idx : Z) (f : Page -> Page) : M unit := fun self =>
  let digest_idx := MEMORY_PAGES +32 page_idx in
  match pages self !! page_idx with
  | Some page => (mark_dirty digest_idx;; modify (set_pages <[page_idx := f page]>)) self
  | None =>
      (zero ← lift (is_zero self digest_idx);
       if (zero : bool)
       then mark_dirty digest_idx;; modify (set_pages <[page_idx := f page_default]>)
       else throw (UnavailablePage page_idx)) self
  end.

(* L228-230 MemoryImage::get_word *)
Definition get_word (addr : Z) (self : MemoryImage) : outcome error Z :=
  page ← get_page (WordAddr.page_idx addr) self; Ok (load page addr).

(* L233-236 MemoryImage::set_word *)
Definition set_word (addr word : Z) : M unit := get_page_mut (WordAddr.page_idx addr) (store addr word).

(** Every iteration copies at least a byte. *)
(* L240-250 MemoryImage::set_region, the loop *)
Fixpoint set_region_loop (fuel : nat) (pos : Z) (data : list Z) : M unit :=
  match data with
  | [] => mret tt
  | _ =>
      match fuel with
      | O => panic
      | S fuel =>
          let off := Z.to_nat (ByteAddr.page_subaddr pos) in
          let copy_len := Nat.min (Z.to_nat PAGE_BYTES - off) (length data) in
          get_page_mut (ByteAddr.page_idx pos) (copy_at off (take copy_len data));;
          set_region_loop fuel (ByteAddr.add_usize pos (Z.of_nat copy_len)) (drop copy_len data)
      end
  end.

(* L238-252 MemoryImage::set_region *)
Definition set_region (start : Z) (data : list Z) : M unit := set_region_loop (length data) start data.

(* L255-261 MemoryImage::set_page_with_digest *)
Definition set_page_with_digest (page_idx : Z) (page : Page) (digest : Digest) : M unit :=
  let digest_idx := MEMORY_PAGES +32 page_idx in
  modify (set_digests <[digest_idx := digest]>);;
  modify (set_pages <[page_idx := page]>);;
  mark_dirty (digest_idx / 2).

(* L264-276 MemoryImage::get_digest *)
Definition get_digest (digest_idx : Z) (self : MemoryImage) : outcome error Digest :=
  _ ← ensure (bool_decide (digest_idx ∉ dirty self)) (DirtyDigest digest_idx);
  match digests self !! digest_idx with
  | Some digest => Ok digest
  | None =>
      zero ← is_zero self digest_idx;
      if (zero : bool) then depth ← ilog2 digest_idx; unwrap (zero_digests !! Z.to_nat depth)
      else Err (UnavailableDigest digest_idx)
  end.

(* L289-294 MemoryImage::set_digest *)
Definition set_digest (digest_idx : Z) (digest : Digest) : M unit :=
  modify (set_digests <[digest_idx := digest]>);;
  mark_dirty (digest_idx / 2).

(** A read of the image. *)
Definition query {A} (f : MemoryImage -> outcome error A) : M A := fun self => (f self, self).

(** [entry(k).or_insert_with(v)], returning the value. *)
Definition entry_or_insert (k : Z) (v : Digest) : M Digest := fun self =>
  match digests self !! k with
  | Some d => (Ok d, self)
  | None => (Ok v, set_digests <[k := v]> self)
  end.

(* L373-385 MemoryImage::update_inner_digest *)
Definition update_inner_digest (digest_idx : Z) : M unit :=
  lift (assert_ (digest_idx <? MEMORY_PAGES));;
  child_depth ← lift (ilog2 digest_idx);
  zero ← lift (unwrap (zero_digests !! Z.to_nat (child_depth + 1)));
  let lhs_idx := digest_idx * 2 in
  let rhs_idx := digest_idx * 2 + 1 in
  lhs ← entry_or_insert lhs_idx zero;
  rhs ← entry_or_insert rhs_idx zero;
  modify (set_digests <[digest_idx := pair_digest lhs rhs]>).

(* L388-395 MemoryImage::update_page_digest *)
Definition update_page_digest (digest_idx : Z) : M unit :=
  lift (assert_ (MEMORY_PAGES <=? digest_idx));;
  let page_idx := digest_idx - MEMORY_PAGES in
  page ← query (fun self => unwrap (pages self !! page_idx));
  modify (set_digests <[digest_idx := page_digest page]>).

(* L402-408 MemoryImage::update_dirty_digest *)
Definition update_dirty_digest (digest_idx : Z) : M unit :=
  if digest_idx <? MEMORY_PAGES then update_inner_digest digest_idx else update_page_digest digest_idx.

Fixpoint run_all {A} (f : A -> M unit) (l : list A) : M unit :=
  match l with [] => mret tt | a :: l => f a;; run_all f l end.

(* L345-350 MemoryImage::update_digests *)
Definition update_digests : M unit :=
  dirty ← gets dirty;
  modify (set_dirty (fun _ => ∅));;
  run_all update_dirty_digest (rev (merge_sort Z.le (elements dirty))).

(* L355-370 MemoryImage::update_subtree_digests *)
Fixpoint update_subtree_loop (fuel : nat) (digest_idx : Z) : M unit := fun self =>
  match fuel with
  | O => (Panic, self)
  | S fuel =>
      if decide (digest_idx ∈ dirty self) then
        (modify (set_dirty (.∖ {[digest_idx]}));;
         (if digest_idx <? MEMORY_PAGES then
            let lhs_idx := digest_idx * 2 in
            let rhs_idx := digest_idx * 2 + 1 in
            update_subtree_loop fuel lhs_idx;;
            update_subtree_loop fuel rhs_idx
          else mret tt);;
         update_dirty_digest digest_idx) self
      else (Ok tt, self)
  end.
Definition update_subtree_digests (digest_idx : Z) : M unit := update_subtree_loop (S MERKLE_TREE_DEPTH) digest_idx.

(* L279-282 MemoryImage::get_or_update_digest *)
Definition get_or_update_digest (digest_idx : Z) : M Digest :=
  update_subtree_digests digest_idx;; query (get_digest digest_idx).

(** Errors under an [unwrap] are panics. *)
Definition unwrap_ok {A} (o : outcome error A) : outcome error A :=
  match o with Ok a => Ok a | _ => Panic end.
Definition unwrapped {A} (m : M A) : M A := fun self => let '(o, self) := m self in (unwrap_ok o, self).

(* L297-301 MemoryImage::image_id *)
Definition image_id : M Digest := update_digests;; query (fun self => unwrap_ok (get_digest 1 self)).
(* L304-306 MemoryImage::user_id *)
Definition user_id : M Digest := unwrapped (get_or_update_digest 2).
(* L309-311 MemoryImage::kernel_id *)
Definition kernel_id : M Digest := unwrapped (get_or_update_digest 3).
(** The iterator runs over the map in the order of its keys. *)
(* L167-170 MemoryImage::digests *)
Definition all_digests : M (gmap Z Digest) := update_digests;; gets digests.

End Image.
End Image.

(** A digest of the repository's test of the zero tree: two zero pages. *)
Example zero_pair_digest :
  Image.poseidon2_pair_digest
    (mkDigest 887106596 647188172 285718520 726353188 1573757409 1011398177 1260255359 1721085093)
    (mkDigest 887106596 647188172 285718520 726353188 1573757409 1011398177 1260255359 1721085093) =
  mkDigest 1003049952 92904501 827513029 244029497 641003476 1233144454 498728077 1681097115.
Proof. vm_compute. reflexivity. Qed.
