(* ===== verification/MemImageSpec.v ===== *)
(** * The memory image is a Merkle tree over its pages

    [node_digest F i] is the digest of node [i] of the full tree over the page
    function [F].  [wf] relates digests and stale nodes to a target digest of every
    node and holds of partial images too; [img_ok m F] says that the image [m]
    holds the pages [F], with the invariants A, B and C of the source. *)
From S2P Require Export MemImage R0ctx.
From stdpp Require Import sorting.
Import Merkle(Digest) Image.
Import Isa(le_load, le_store).
Open Scope word_scope.
Open Scope Z_scope.

(** ** Nodes *)

Ltac dlia := Z.div_mod_to_equations; lia.

Definition is_node (i : Z) : Prop := 1 <= i < 8388608.
Definition height (i : Z) : nat := (22 - Z.to_nat (Z.log2 i))%nat.

(** [j] is [i] or one of its ancestors. *)
Definition anc (j i : Z) : Prop := 1 <= j /\ exists k : nat, i / 2 ^ Z.of_nat k = j.

Lemma pages_val : MEMORY_PAGES = 4194304. Proof. reflexivity. Qed.

Lemma log2_node i : is_node i -> 0 <= Z.log2 i <= 22.
Proof.
  unfold is_node. intros H. split; [apply Z.log2_nonneg|].
  change 22 with (Z.log2 8388607). apply Z.log2_le_mono. lia.
Qed.

Lemma log2_leaf i : 4194304 <= i < 8388608 -> Z.log2 i = 22.
Proof. intros H. apply Z.log2_unique; lia. Qed.

Lemma log2_inner i : 1 <= i < 4194304 -> Z.log2 i <= 21.
Proof. intros H. change 21 with (Z.log2 4194303). apply Z.log2_le_mono. lia. Qed.

Lemma height_leaf i : 4194304 <= i < 8388608 -> height i = 0%nat.
Proof. intros H. unfold height. by rewrite (log2_leaf i H). Qed.

Lemma height_child i c : 1 <= i < 4194304 -> c = 2 * i \/ c = 2 * i + 1 -> height i = S (height c).
Proof.
  intros H Hc. unfold height. pose proof (log2_inner i H). pose proof (Z.log2_nonneg i).
  assert (E : Z.log2 c = Z.succ (Z.log2 i)) by (destruct Hc as [->| ->]; [apply Z.log2_double|apply Z.log2_succ_double]; lia).
  rewrite E. lia.
Qed.

Lemma log2_half i : 2 <= i -> Z.log2 (i / 2) = Z.log2 i - 1.
Proof.
  intros H. pose proof (Z.div_mod i 2 ltac:(lia)) as E. pose proof (Z.mod_pos_bound i 2 ltac:(lia)).
  destruct (Z.eq_dec (i mod 2) 0) as [E0|E0].
  - replace i with (2 * (i / 2)) at 2 by lia. rewrite Z.log2_double by lia. lia.
  - replace i with (2 * (i / 2) + 1) at 2 by lia. rewrite Z.log2_succ_double by lia. lia.
Qed.

Lemma child_half i c : c = 2 * i \/ c = 2 * i + 1 -> c / 2 = i.
Proof. intros [->| ->]; dlia. Qed.
Lemma half_child c : c = 2 * (c / 2) \/ c = 2 * (c / 2) + 1.
Proof. dlia. Qed.

Lemma pow_S k : 2 ^ Z.of_nat (S k) = 2 * 2 ^ Z.of_nat k.
Proof. rewrite Nat2Z.inj_succ, Z.pow_succ_r by lia. done. Qed.

Lemma div_pow_S i k : i / 2 ^ Z.of_nat (S k) = i / 2 / 2 ^ Z.of_nat k.
Proof. rewrite pow_S. rewrite Z.div_div by lia. done. Qed.

Lemma anc_refl i : 1 <= i -> anc i i.
Proof. intros H. split; [done|]. exists 0%nat. by rewrite Z.div_1_r. Qed.

Lemma anc_half j i : anc j (i / 2) -> anc j i.
Proof. intros [Hj [k E]]. split; [done|]. exists (S k). by rewrite div_pow_S. Qed.

Lemma anc_inv j i : anc j i -> j = i \/ anc j (i / 2).
Proof.
  intros [Hj [[|k] E]]; [left; by rewrite Z.div_1_r in E|right]. split; [done|]. exists k. by rewrite <- div_pow_S.
Qed.

Lemma anc_up j i : anc j i -> 2 <= j -> anc (j / 2) i.
Proof.
  intros [Hj [k E]] H2. split; [dlia|]. exists (S k). rewrite pow_S, Z.mul_comm, <- Z.div_div, E by lia. done.
Qed.

Lemma anc_le j i : anc j i -> j <= i.
Proof.
  intros [Hj [k <-]]. pose proof (Z.pow_pos_nonneg 2 (Z.of_nat k)).
  destruct (Z.ltb_spec i 0); [|apply Z.div_le_upper_bound; nia].
  assert (i / 2 ^ Z.of_nat k < 0) by (apply Z.div_lt_upper_bound; lia). lia.
Qed.

Lemma anc_child j c i : c = 2 * i \/ c = 2 * i + 1 -> anc j c -> j = c \/ anc j i.
Proof. intros Hc H. apply anc_inv in H as [->|H]; [by left|right]. by rewrite (child_half i c Hc) in H. Qed.

(** A descendant of an inner node that is not the node is under one of its children. *)
Lemma anc_down i j : anc i j -> i <> j -> anc (2 * i) j \/ anc (2 * i + 1) j.
Proof.
  intros [Hi [k E]]. revert j E. induction k as [|k IH]; intros j E Hne; [rewrite Z.div_1_r in E; lia|].
  rewrite div_pow_S in E. destruct (Z.eq_dec (j / 2) i) as [Ej|Ej].
  - destruct (half_child j) as [Ec|Ec]; [left|right]; rewrite <- Ej; rewrite <- Ec; apply anc_refl; lia.
  - destruct (IH (j / 2) E) as [H|H]; [done|left|right]; by apply anc_half.
Qed.

Section Spec.
Context `{ImageHash}.

(** ** Digests of the full tree *)

Fixpoint zero_h (h : nat) : Digest :=
  match h with O => page_digest page_default | S h => pair_digest (zero_h h) (zero_h h) end.

Fixpoint dig (F : Z -> Page) (h : nat) (i : Z) : Digest :=
  match h with
  | O => page_digest (F (i - MEMORY_PAGES))
  | S h => pair_digest (dig F h (2 * i)) (dig F h (2 * i + 1))
  end.
Definition node_digest (F : Z -> Page) (i : Z) : Digest := dig F (height i) i.

Lemma node_digest_inner F i : 1 <= i < 4194304 -> node_digest F i = pair_digest (node_digest F (2 * i)) (node_digest F (2 * i + 1)).
Proof.
  intros H0. unfold node_digest. rewrite (height_child i (2 * i) H0) by (by left). cbn [dig].
  assert (E : height (2 * i + 1) = height (2 * i)).
  { pose proof (height_child i (2 * i) H0 ltac:(by left)). pose proof (height_child i (2 * i + 1) H0 ltac:(by right)). lia. }
  by rewrite E.
Qed.

Lemma node_digest_leaf F i : 4194304 <= i < 8388608 -> node_digest F i = page_digest (F (i - MEMORY_PAGES)).
Proof. intros H0. unfold node_digest. by rewrite height_leaf. Qed.

(** Induction from the leaves up. *)
Lemma node_ind (Q : Z -> Prop) : (forall i, 4194304 <= i < 8388608 -> Q i) ->
  (forall i, 1 <= i < 4194304 -> Q (2 * i) -> Q (2 * i + 1) -> Q i) -> forall i, is_node i -> Q i.
Proof.
  intros Hl Hi. assert (HQ : forall h i, is_node i -> height i = h -> Q i).
  { induction h as [|h IH]; intros i Hn Hh; unfold is_node in Hn.
    - apply Hl. destruct (Z.ltb_spec i 4194304); [|lia]. rewrite (height_child i (2 * i)) in Hh by (lia || by left). lia.
    - destruct (Z.ltb_spec i 4194304); [|rewrite height_leaf in Hh by lia; lia].
      apply Hi; [lia|..]; apply IH; unfold is_node; try lia.
      + rewrite (height_child i (2 * i)) in Hh by (lia || by left). lia.
      + rewrite (height_child i (2 * i + 1)) in Hh by (lia || by right). lia. }
  intros i Hn. by apply (HQ (height i)).
Qed.

Lemma node_digest_ext F F' i : is_node i -> (forall p, anc i (MEMORY_PAGES + p) -> F p = F' p) ->
  node_digest F i = node_digest F' i.
Proof.
  revert i. apply (node_ind (fun i => (forall p, anc i (MEMORY_PAGES + p) -> F p = F' p) -> node_digest F i = node_digest F' i)).
  - intros i Hi HF. rewrite !node_digest_leaf by done. f_equal. apply HF.
    replace (MEMORY_PAGES + (i - MEMORY_PAGES)) with i by lia. apply anc_refl. lia.
  - intros i Hi IH1 IH2 HF. rewrite !(node_digest_inner _ i) by done. rewrite IH1, IH2; [done|..];
      intros p Hp; apply HF; apply (anc_up _ _) in Hp; [|lia| |lia];
      by rewrite (child_half i) in Hp by (first [by left | by right]).
Qed.

Lemma node_digest_zero F i : is_node i -> (forall p, anc i (MEMORY_PAGES + p) -> F p = page_default) ->
  node_digest F i = zero_h (height i).
Proof.
  intros Hi HF. rewrite (node_digest_ext F (fun _ => page_default) i Hi HF). clear HF. revert i Hi. apply node_ind.
  - intros i Hi. rewrite node_digest_leaf, height_leaf by done. done.
  - intros i Hi IH1 IH2. rewrite node_digest_inner, IH1, IH2 by done.
    rewrite (height_child i (2 * i) Hi) at 1 by (by left). cbn [zero_h].
    assert (E : height (2 * i + 1) = height (2 * i)).
    { pose proof (height_child i (2 * i) Hi ltac:(by left)). pose proof (height_child i (2 * i + 1) Hi ltac:(by right)). lia. }
    by rewrite E.
Qed.

Fixpoint twice (n : nat) (d : Digest) : Digest := match n with O => d | S n => twice n (pair_digest d d) end.

Lemma twice_zero n : forall h, twice n (zero_h h) = zero_h (h + n).
Proof. induction n as [|n IH]; intros h; cbn [twice]; [by rewrite Nat.add_0_r|]. change (twice n (zero_h (S h)) = zero_h (h + S n)). rewrite IH. f_equal. lia. Qed.

Lemma zero_cache_loop n : forall d l, (n <= length l)%nat ->
  let r := foldl (fun '(digest, digests) depth => (pair_digest digest digest, <[depth := digest]> digests)) (d, l) (rev (seq 0 n)) in
  length (snd r) = length l /\
  forall k, snd r !! k = if decide (k < n)%nat then Some (twice (n - 1 - k) d) else l !! k.
Proof.
  induction n as [|n IH]; intros d l Hn; [done|].
  rewrite (seq_S n 0), rev_app_distr. cbn [rev app foldl Nat.add].
  destruct (IH (pair_digest d d) (<[n := d]> l)) as [IH1 IH2]; [rewrite length_insert; lia|].
  cbn [snd]. split; [by rewrite IH1, length_insert|]. intros k. rewrite IH2.
  destruct (decide (k < n)%nat) as [Hk|Hk].
  - rewrite decide_True by lia. replace (S n - 1 - k)%nat with (S (n - 1 - k)) by lia. done.
  - destruct (decide (k < S n)%nat) as [Hk'|Hk'].
    + replace k with n by lia. rewrite list_lookup_insert_eq by lia. by replace (S n - 1 - n)%nat with 0%nat by lia.
    + apply list_lookup_insert_ne. lia.
Qed.

Lemma zero_digests_lookup d : (d <= 22)%nat -> zero_digests !! d = Some (zero_h (22 - d)).
Proof.
  intros Hd. unfold zero_digests. change MERKLE_TREE_DEPTH with 22%nat.
  destruct (zero_cache_loop (22 + 1) (page_digest page_default) (replicate (22 + 1) Merkle.ZERO)) as [_ E]; [by rewrite length_replicate|].
  rewrite E, decide_True by lia. f_equal. change (page_digest page_default) with (zero_h 0). by rewrite twice_zero.
Qed.

Lemma zero_at i : is_node i -> zero_digests !! Z.to_nat (Z.log2 i) = Some (zero_h (height i)).
Proof. intros Hi. pose proof (log2_node i Hi). apply zero_digests_lookup. lia. Qed.

(** ** Well-formed digests

    [S] is the set of stale nodes, [D] what every node's digest should be. *)

Record wf (pg : gmap Z Page) (ds : gmap Z Digest) (S : gset Z) (D : Z -> Digest) : Prop := mkWf {
  wf_nodes i : i ∈ S -> is_node i;
  wf_up i : i ∈ S -> i = 1 \/ i / 2 ∈ S;
  wf_root : is_Some (ds !! 1);
  wf_leaf i : i ∈ S -> 4194304 <= i -> exists p, pg !! (i - MEMORY_PAGES) = Some p /\ D i = page_digest p;
  wf_clean i d : i ∉ S -> ds !! i = Some d -> D i = d;
  wf_inner i : i ∈ S -> i < 4194304 -> D i = pair_digest (D (2 * i)) (D (2 * i + 1));
  wf_zero i : is_node i -> i ∉ S -> ds !! i = None -> i / 2 ∈ S -> D i = zero_h (height i) }.

(** What [update_dirty_digest] makes of the digests. *)
Definition fill (c : Z) (ds : gmap Z Digest) : gmap Z Digest :=
  match ds !! c with Some _ => ds | None => <[c := zero_h (height c)]> ds end.
Definition step_ds (D : Z -> Digest) (i : Z) (ds : gmap Z Digest) : gmap Z Digest :=
  if i <? 4194304 then <[i := D i]> (fill (2 * i + 1) (fill (2 * i) ds)) else <[i := D i]> ds.

Lemma fill_lookup c ds j : fill c ds !! j = match ds !! j with Some d => Some d | None => if decide (j = c) then Some (zero_h (height c)) else None end.
Proof.
  unfold fill. destruct (ds !! c) eqn:E.
  - destruct (ds !! j) eqn:Ej; [done|]. destruct (decide (j = c)) as [->|]; [by rewrite E in Ej|done].
  - destruct (decide (j = c)) as [->|Hne]; [by rewrite lookup_insert_eq, E|].
    rewrite lookup_insert_ne by done. by destruct (ds !! j).
Qed.

Lemma step_ds_lookup D i ds j : step_ds D i ds !! j =
  if decide (j = i) then Some (D i) else
  match ds !! j with
  | Some d => Some d
  | None => if decide (i < 4194304 /\ j / 2 = i) then Some (zero_h (height j)) else None
  end.
Proof.
  unfold step_ds. destruct (decide (j = i)) as [->|Hne].
  - destruct (i <? 4194304); by rewrite lookup_insert_eq.
  - destruct (Z.ltb_spec i 4194304); rewrite lookup_insert_ne, ?fill_lookup by done.
    + destruct (ds !! j); [done|]. destruct (half_child j).
      * destruct (decide (i < 4194304 /\ j / 2 = i)) as [[_ E]|Hn].
        { rewrite decide_True by lia. by replace (2 * i) with j by lia. }
        { rewrite !decide_False by dlia. done. }
      * destruct (decide (i < 4194304 /\ j / 2 = i)) as [[_ E]|Hn].
        { rewrite decide_False, decide_True by lia. by replace (2 * i + 1) with j by lia. }
        { rewrite !decide_False by dlia. done. }
    + destruct (ds !! j); [done|]. by rewrite decide_False by lia.
Qed.

Lemma child_zero pg ds S D i c : wf pg ds S D -> i ∈ S -> i < 4194304 -> c = 2 * i \/ c = 2 * i + 1 -> c ∉ S ->
  ds !! c = None -> D c = zero_h (height c).
Proof.
  intros Hw Hi Hlt Hc Hn Hd. pose proof (wf_nodes _ _ _ _ Hw i Hi) as Hin. unfold is_node in Hin.
  apply (wf_zero _ _ _ _ Hw); [unfold is_node; lia|done|done|]. by rewrite (child_half i).
Qed.

(** Updating a stale node whose children are up to date. *)
Lemma update_step pg ds S D i x : wf pg ds S D -> i ∈ S -> 2 * i ∉ S -> 2 * i + 1 ∉ S ->
  update_dirty_digest i (mkImage pg ds x) = (Ok tt, mkImage pg (step_ds D i ds) x) /\
  wf pg (step_ds D i ds) (S ∖ {[i]}) D.
Proof.
  intros Hw Hi Hl Hr. pose proof (wf_nodes _ _ _ _ Hw i Hi) as Hn. split.
  - unfold update_dirty_digest, step_ds. rewrite pages_val. destruct (Z.ltb_spec i 4194304) as [Hlt|Hge].
    + unfold update_inner_digest. rewrite pages_val.
      replace (i <? 4194304) with true by (symmetry; by apply Z.ltb_lt).
      unfold ilog2. replace (0 <? i) with true by (symmetry; apply Z.ltb_lt; destruct Hn; lia).
      assert (Ez : forall c, c = 2 * i \/ c = 2 * i + 1 -> zero_digests !! Z.to_nat (Z.log2 i + 1) = Some (zero_h (height c))).
      { intros c Hc. pose proof (log2_inner i ltac:(unfold is_node in Hn; lia)). pose proof (Z.log2_nonneg i).
        rewrite zero_digests_lookup by lia. do 2 f_equal.
        pose proof (height_child i c ltac:(unfold is_node in Hn; lia) Hc) as E. unfold height in E at 1. lia. }
      cbn [assert_]. rewrite !run_lift_Ok, (Ez (2 * i)) by (by left). cbn [unwrap]. rewrite run_lift_Ok.
      assert (Eh : height (2 * i + 1) = height (2 * i)).
      { pose proof (height_child i (2 * i) ltac:(unfold is_node in Hn; lia) ltac:(by left)).
        pose proof (height_child i (2 * i + 1) ltac:(unfold is_node in Hn; lia) ltac:(by right)). lia. }
      rewrite (Z.mul_comm i 2).
      assert (Hent : forall c d ds0, c = 2 * i \/ c = 2 * i + 1 -> c ∉ S -> D c = default d (ds0 !! c) ->
        entry_or_insert c d (mkImage pg ds0 x) = (Ok (D c), mkImage pg (match ds0 !! c with Some _ => ds0 | None => <[c := d]> ds0 end) x)).
      { intros c d ds0 Hc HcS E. unfold entry_or_insert. cbn [digests]. destruct (ds0 !! c); cbn in E; by rewrite E. }
      assert (E1 : D (2 * i) = default (zero_h (height (2 * i))) (ds !! (2 * i))).
      { destruct (ds !! (2 * i)) eqn:E; [by apply (wf_clean _ _ _ _ Hw)|]. apply (child_zero _ _ _ _ i _ Hw); auto. }
      assert (E2 : D (2 * i + 1) = default (zero_h (height (2 * i + 1))) (fill (2 * i) ds !! (2 * i + 1))).
      { rewrite fill_lookup. destruct (ds !! (2 * i + 1)) eqn:E; [by apply (wf_clean _ _ _ _ Hw)|].
        rewrite decide_False by lia. apply (child_zero _ _ _ _ i _ Hw); auto. }
      rewrite (run_bind _ _ _ _ _ (Hent _ _ _ (or_introl eq_refl) Hl E1)). fold (fill (2 * i) ds). rewrite <- Eh.
      rewrite (run_bind _ _ _ _ _ (Hent _ _ _ (or_intror eq_refl) Hr E2)).
      fold (fill (2 * i + 1) (fill (2 * i) ds)). unfold modify, set_digests. cbn [pages digests dirty].
      by rewrite (wf_inner _ _ _ _ Hw i Hi Hlt).
    + unfold update_page_digest. rewrite pages_val.
      replace (4194304 <=? i) with true by (symmetry; by apply Z.leb_le).
      destruct (wf_leaf _ _ _ _ Hw i Hi Hge) as (p & Ep & ED). rewrite pages_val in Ep.
      cbn [assert_]. rewrite run_lift_Ok. unfold query, mbind, state_bind. cbn [pages]. rewrite Ep.
      cbn [unwrap]. unfold modify, set_digests. cbn [pages digests dirty]. by rewrite ED.
  - constructor.
    + intros j Hj. apply (wf_nodes _ _ _ _ Hw). set_solver.
    + intros j Hj. destruct (wf_up _ _ _ _ Hw j) as [|Hu]; [set_solver|by left|right].
      apply elem_of_difference. split; [done|]. intros E%elem_of_singleton.
      destruct (half_child j) as [Ej|Ej]; rewrite Ej, E in Hj; set_solver.
    + rewrite step_ds_lookup. destruct (decide _); [by eexists|]. destruct (wf_root _ _ _ _ Hw) as [d ->]. by eexists.
    + intros j Hj. apply (wf_leaf _ _ _ _ Hw). set_solver.
    + intros j d Hj Ed. rewrite step_ds_lookup in Ed. destruct (decide (j = i)) as [->|Hne]; [congruence|].
      assert (HjS : j ∉ S) by set_solver. destruct (ds !! j) eqn:E; [by apply (wf_clean _ _ _ _ Hw); congruence|].
      destruct (decide _) as [[Hlt E2]|]; [|done]. injection Ed as <-.
      apply (child_zero _ _ _ _ i _ Hw); try done. rewrite <- E2. apply half_child.
    + intros j Hj. apply (wf_inner _ _ _ _ Hw). set_solver.
    + intros j Hj Hj' Ed Hu. rewrite step_ds_lookup in Ed. destruct (decide (j = i)) as [|Hne]; [done|].
      destruct (ds !! j) eqn:E; [done|]. apply (wf_zero _ _ _ _ Hw); set_solver.
Qed.

(** ** Bringing digests up to date *)

(** A property of the digests and the stale nodes that the updates of a wave keep. *)
Definition kept (pg : gmap Z Page) (D : Z -> Digest) (Q : gmap Z Digest -> gset Z -> Prop) : Prop :=
  forall ds S i, wf pg ds S D -> Q ds S -> i ∈ S -> 2 * i ∉ S -> 2 * i + 1 ∉ S -> Q (step_ds D i ds) (S ∖ {[i]}).

Lemma run_all_steps pg D Q x l : kept pg D Q -> forall ds S, wf pg ds S D -> Q ds S ->
  StronglySorted Z.ge l -> NoDup l -> (forall i, i ∈ l <-> i ∈ S) ->
  exists ds', run_all update_dirty_digest l (mkImage pg ds x) = (Ok tt, mkImage pg ds' x) /\
    wf pg ds' ∅ D /\ Q ds' ∅.
Proof.
  intros HQ. induction l as [|i l IH]; intros ds S Hw Hq Hs Hd Hl.
  - assert (S = ∅) as -> by (apply set_eq; intros i; rewrite <- Hl; set_solver). by exists ds.
  - inversion Hs as [|? ? Hs' Hge]; subst. apply NoDup_cons in Hd as [Hni Hd]. rewrite Forall_forall in Hge.
    assert (Hi : i ∈ S) by (apply Hl; left). pose proof (wf_nodes _ _ _ _ Hw i Hi) as [Hn _].
    assert (Hk : forall c, i < c -> c ∉ S).
    { intros c Hc Hin. apply Hl, elem_of_cons in Hin as [->|Hin]; [lia|]. specialize (Hge c Hin). lia. }
    assert (H1 : 2 * i ∉ S) by (apply Hk; lia). assert (H2 : 2 * i + 1 ∉ S) by (apply Hk; lia).
    destruct (update_step pg ds S D i x Hw Hi H1 H2) as [E Hw']. cbn [run_all].
    rewrite (run_bind _ _ _ _ _ E). apply (IH _ (S ∖ {[i]})); try done.
    + by apply HQ.
    + intros j. rewrite elem_of_difference, elem_of_singleton, <- Hl, elem_of_cons.
      split; [intros Hj; split; [by right|by intros ->]|intros [[->|?] ?]; done].
Qed.

Lemma ge_rev l : StronglySorted Z.le l -> StronglySorted Z.ge (rev l).
Proof.
  induction 1 as [|a l Hs IH Ha]; cbn [rev]; [constructor|].
  assert (Happ : forall l1, StronglySorted Z.ge l1 -> Forall (fun b => b >= a) l1 -> StronglySorted Z.ge (l1 ++ [a])).
  { induction 1 as [|b l1 Hs1 IH1 Hb]; intros Hf; cbn [app]; [repeat constructor|].
    apply Forall_cons in Hf as [Hba Hf]. constructor; [by apply IH1|]. apply Forall_app. split; [done|]. by repeat constructor. }
  apply Happ; [done|]. apply Forall_rev. eapply Forall_impl; [exact Ha|]. cbn. lia.
Qed.

Lemma update_digests_run m D Q : wf (pages m) (digests m) (dirty m) D -> kept (pages m) D Q -> Q (digests m) (dirty m) ->
  exists ds, update_digests m = (Ok tt, mkImage (pages m) ds ∅) /\ wf (pages m) ds ∅ D /\ Q ds ∅.
Proof.
  intros Hw HQ Hq. unfold update_digests. rewrite run_gets, run_modify. destruct m as [pg ds S]. cbn [pages digests dirty] in *.
  unfold set_dirty. cbn [pages digests dirty]. apply (run_all_steps pg D Q ∅ _ HQ ds S Hw Hq).
  - apply ge_rev, (StronglySorted_merge_sort Z.le).
  - apply NoDup_ListNoDup, List.NoDup_rev, NoDup_ListNoDup. rewrite merge_sort_Permutation. apply NoDup_elements.
  - intros i. rewrite list_elem_of_In, <- in_rev, <- list_elem_of_In, merge_sort_Permutation.
    apply elem_of_elements.
Qed.

(** Stale nodes have stale ancestors. *)
Lemma closed_anc (T : gset Z) i j : (forall a, a ∈ T -> a = 1 \/ a / 2 ∈ T) -> i ∈ T -> anc j i -> j ∈ T.
Proof.
  intros Hup Hi [Hj [k E]]. revert i Hi E. induction k as [|k IH]; intros i Hi E; [rewrite Z.div_1_r in E; congruence|].
  rewrite div_pow_S in E. destruct (Hup i Hi) as [->|Hi']; [|by apply (IH (i / 2))].
  change (1 / 2) with 0 in E. rewrite Z.div_0_l in E by lia. lia.
Qed.

(** The recursion: [Pn] are the nodes above whose update is pending. *)
Lemma update_subtree_run pg D Q : kept pg D Q -> forall fuel i ds (T Pn : gset Z), is_node i -> (height i < fuel)%nat ->
  wf pg ds (T ∪ Pn) D -> Q ds (T ∪ Pn) -> (forall j, j ∈ Pn -> ~ anc i j) ->
  exists ds' T', update_subtree_loop fuel i (mkImage pg ds T) = (Ok tt, mkImage pg ds' T') /\
    wf pg ds' (T' ∪ Pn) D /\ Q ds' (T' ∪ Pn) /\ forall j, j ∈ T' <-> j ∈ T /\ ~ anc i j.
Proof.
  intros HQ. induction fuel as [|fuel IH]; intros i ds T Pn Hi Hf Hw Hq HP; [lia|]. cbn [update_subtree_loop dirty].
  destruct (decide (i ∈ T)) as [HiT|HiT].
  2:{ exists ds, T. split; [done|]. split; [done|]. split; [done|]. intros j. split; [|tauto]. intros Hj. split; [done|].
      intros Ha. assert (Hup : i ∈ T ∪ Pn) by (apply (closed_anc _ j i); [apply (wf_up _ _ _ _ Hw)|set_solver|done]).
      apply elem_of_union in Hup as [?|Hp]; [done|]. apply (HP i Hp). apply anc_refl. destruct Hi; lia. }
  rewrite run_modify. unfold set_dirty. cbn [pages digests dirty].
  assert (HiP : i ∉ Pn) by (intros Hp; apply (HP i Hp), anc_refl; destruct Hi; lia).
  assert (Eset : T ∖ {[i]} ∪ ({[i]} ∪ Pn) = T ∪ Pn).
  { apply set_eq. intros j. destruct (decide (j = i)); set_solver. }
  assert (Hmid : exists ds1 T1, (if i <? MEMORY_PAGES then
      update_subtree_loop fuel (i * 2);; update_subtree_loop fuel (i * 2 + 1) else mret tt) (mkImage pg ds (T ∖ {[i]})) =
      (Ok tt, mkImage pg ds1 T1) /\ wf pg ds1 (T1 ∪ ({[i]} ∪ Pn)) D /\ Q ds1 (T1 ∪ ({[i]} ∪ Pn)) /\
      forall j, j ∈ T1 <-> j ∈ T /\ ~ anc i j).
  { rewrite pages_val, (Z.mul_comm i 2). destruct (Z.ltb_spec i 4194304) as [Hlt|Hge].
    - assert (Hii : 1 <= i < 4194304) by (destruct Hi; lia).
      destruct (IH (2 * i) ds (T ∖ {[i]}) ({[i]} ∪ Pn)) as (ds1 & T1 & E1 & Hw1 & Hq1 & HT1).
      { unfold is_node. lia. } { rewrite (height_child i (2 * i) Hii) in Hf by (by left). lia. }
      { by rewrite Eset. } { by rewrite Eset. }
      { intros j [->%elem_of_singleton|Hj]%elem_of_union Ha; [apply anc_le in Ha; lia|]. apply (HP j Hj).
        apply (anc_up (2 * i) j) in Ha; [|lia]. by rewrite (child_half i) in Ha by (by left). }
      destruct (IH (2 * i + 1) ds1 T1 ({[i]} ∪ Pn)) as (ds2 & T2 & E2 & Hw2 & Hq2 & HT2); try done.
      { unfold is_node. lia. } { rewrite (height_child i (2 * i + 1) Hii) in Hf by (by right). lia. }
      { intros j [->%elem_of_singleton|Hj]%elem_of_union Ha; [apply anc_le in Ha; lia|]. apply (HP j Hj).
        apply (anc_up (2 * i + 1) j) in Ha; [|lia]. by rewrite (child_half i) in Ha by (by right). }
      exists ds2, T2. rewrite (run_bind _ _ _ _ _ E1). split; [done|]. split; [done|]. split; [done|].
      intros j. rewrite HT2, HT1, elem_of_difference, elem_of_singleton. split.
      + intros [[[Hj Hne] H1] H2]. split; [done|]. intros Ha. destruct (anc_down i j Ha ltac:(done)); done.
      + intros [Hj Hna]. assert (j <> i) by (intros ->; apply Hna, anc_refl; lia). split; [split; [done|]|];
          intros Ha; apply Hna; (apply anc_up in Ha; [|lia]); by rewrite (child_half i) in Ha by (first [by left | by right]).
    - exists ds, (T ∖ {[i]}). split; [done|]. rewrite Eset. split; [done|]. split; [done|].
      intros j. rewrite elem_of_difference, elem_of_singleton. split.
      + intros [Hj Hne]. split; [done|]. intros Ha. destruct (anc_down i j Ha ltac:(done)) as [Hd|Hd]; apply anc_le in Hd;
          pose proof (wf_nodes _ _ _ _ Hw j ltac:(set_solver)) as [_ ?]; lia.
      + intros [Hj Hna]. split; [done|]. intros ->. apply Hna, anc_refl. lia. }
  destruct Hmid as (ds1 & T1 & E1 & Hw1 & Hq1 & HT1). rewrite (run_bind _ _ _ _ _ E1).
  assert (Hc : forall c, c = 2 * i \/ c = 2 * i + 1 -> c ∉ T1 ∪ ({[i]} ∪ Pn)).
  { intros c Hc. assert (Ha : anc i c) by (apply anc_half; rewrite (child_half i c Hc); apply anc_refl; destruct Hi; lia).
    rewrite !elem_of_union, HT1, elem_of_singleton. intros [[_ ?]|[->|Hp]]; [done|destruct Hi; lia|by apply (HP c)]. }
  assert (Hi1 : i ∈ T1 ∪ ({[i]} ∪ Pn)) by set_solver.
  destruct (update_step pg ds1 _ D i T1 Hw1 Hi1 (Hc _ (or_introl eq_refl)) (Hc _ (or_intror eq_refl))) as [E2 Hw2].
  pose proof (HQ _ _ i Hw1 Hq1 Hi1 (Hc _ (or_introl eq_refl)) (Hc _ (or_intror eq_refl))) as Hq2.
  assert (Eset2 : (T1 ∪ ({[i]} ∪ Pn)) ∖ {[i]} = T1 ∪ Pn).
  { assert (i ∉ T1) by (rewrite HT1; intros [_ Hn]; apply Hn, anc_refl; destruct Hi; lia). set_solver. }
  rewrite Eset2 in Hw2, Hq2. exists (step_ds D i ds1), T1. done.
Qed.

(** ** Marking *)

Lemma mark_dirty_spec fuel : forall i (T : gset Z) j, 0 <= i < 2 ^ Z.of_nat fuel ->
  (forall a, a ∈ T -> a = 1 \/ a / 2 ∈ T \/ a / 2 = i) ->
  j ∈ mark_dirty_loop fuel i T <-> j ∈ T \/ anc j i.
Proof.
  assert (Ha0 : forall j, ~ anc j 0) by (intros j Ha; pose proof (anc_le _ _ Ha); destruct Ha; lia).
  induction fuel as [|fuel IH]; intros i T j Hi Hup; cbn [mark_dirty_loop].
  - assert (i = 0) as -> by (cbn in Hi; lia). pose proof (Ha0 j). tauto.
  - destruct (Z.eqb_spec i 0) as [->|Hne]; [pose proof (Ha0 j); tauto|]. destruct (decide (i ∈ T)) as [HiT|HiT].
    + split; [by left|]. intros [?|Ha]; [done|]. apply (closed_anc T i j); [|done..].
      intros a Ha'. destruct (Hup a Ha') as [?|[?| ->]]; auto.
    + rewrite IH.
      * rewrite elem_of_union, elem_of_singleton. split.
        { intros [[->|?]|Ha]; [right; apply anc_refl; lia|by left|right; by apply anc_half]. }
        { intros [?|Ha]; [by left; right|]. apply anc_inv in Ha as [->|?]; [by left; left|by right]. }
      * rewrite pow_S in Hi. dlia.
      * intros a [->%elem_of_singleton|Ha]%elem_of_union; [by right; right|].
        destruct (Hup a Ha) as [?|[?| ->]]; [by left|right; left; set_solver|right; left; set_solver].
Qed.

Lemma mark_dirty_closed i (T : gset Z) j : 0 <= i < 8388608 -> (forall a, a ∈ T -> a = 1 \/ a / 2 ∈ T) ->
  j ∈ mark_dirty_loop 33 i T <-> j ∈ T \/ anc j i.
Proof.
  intros Hi Hup. apply mark_dirty_spec; [change (2 ^ Z.of_nat 33) with 8589934592; lia|].
  intros a Ha. destruct (Hup a Ha); auto.
Qed.

(** ** Complete images *)

Definition is_page (p : Z) : Prop := 0 <= p < 4194304.

(** The digests and stale nodes of an image of all of the pages [F]. *)
Record full (pg : gmap Z Page) (F : Z -> Page) (ds : gmap Z Digest) (T : gset Z) : Prop := mkFull {
  full_wf : wf pg ds T (node_digest F);
  full_nodes i : is_Some (ds !! i) -> is_node i;
  full_zero i : is_node i -> i ∉ T -> ds !! i = None -> node_digest F i = zero_h (height i);
  full_known i c : 1 <= i < 4194304 -> i ∉ T -> is_Some (ds !! i) -> c = 2 * i \/ c = 2 * i + 1 -> ds !! c = None ->
    node_digest F i = zero_h (height i) }.

Record img_ok (m : MemoryImage) (F : Z -> Page) : Prop := mkOk {
  ok_full : full (pages m) F (digests m) (dirty m);
  ok_pages p : is_page p -> pages m !! p = Some (F p) \/ pages m !! p = None /\ F p = page_default }.

(** Updates keep complete images complete. *)
Lemma full_kept pg F : kept pg (node_digest F) (full pg F).
Proof.
  intros ds T i Hw Hq Hi Hl Hr. pose proof (wf_nodes _ _ _ _ Hw i Hi) as Hn. constructor.
  - by destruct (update_step pg ds T _ i ∅ Hw Hi Hl Hr).
  - intros j [d Ed]. rewrite step_ds_lookup in Ed. destruct (decide (j = i)) as [->|]; [done|].
    destruct (ds !! j) eqn:E; [by apply (full_nodes _ _ _ _ Hq)|].
    destruct (decide _) as [[Hlt Eh]|]; [|done]. destruct Hn. unfold is_node. dlia.
  - intros j Hj HjT Ed. rewrite step_ds_lookup in Ed. destruct (decide (j = i)) as [->|]; [done|].
    destruct (ds !! j) eqn:E; [done|]. apply (full_zero _ _ _ _ Hq); [done|set_solver|done].
  - intros j c Hj HjT Hd Hc Ec. rewrite step_ds_lookup in Ec. destruct (decide (c = i)) as [|Hci]; [done|].
    destruct (ds !! c) eqn:E; [done|]. destruct (decide (i < 4194304 /\ c / 2 = i)) as [|Hno]; [done|].
    rewrite step_ds_lookup in Hd. destruct (decide (j = i)) as [->|Hji].
    + destruct Hno. split; [lia|by apply child_half].
    + assert (HjS : j ∉ T) by set_solver. destruct (ds !! j) eqn:Ej.
      * apply (full_known _ _ _ _ Hq j c); [done..|by rewrite Ej|done|done].
      * apply (full_zero _ _ _ _ Hq); [unfold is_node; lia|done|done].
Qed.

Lemma nearest_spec fuel m : is_Some (digests m !! 1) -> forall j, 1 <= j < 2 ^ Z.of_nat fuel ->
  exists a k, nearest fuel m j (Z.log2 j) = Ok (a, Z.log2 a) /\ a = j / 2 ^ Z.of_nat k /\ 1 <= a /\ is_Some (digests m !! a) /\
    forall k', (k' < k)%nat -> digests m !! (j / 2 ^ Z.of_nat k') = None.
Proof.
  intros H1. induction fuel as [|fuel IH]; intros j Hj; [cbn in Hj; lia|]. cbn [nearest].
  destruct (digests m !! j) eqn:E.
  - exists j, 0%nat. rewrite Z.div_1_r. split_and!; [done..|lia|by rewrite E|lia].
  - replace (0 <? j) with true by (symmetry; apply Z.ltb_lt; lia).
    assert (j <> 1) by (intros ->; destruct H1; congruence). rewrite <- log2_half by lia.
    destruct (IH (j / 2)) as (a & k & E1 & Ea & Ha & Hs & Hk); [rewrite pow_S in Hj; dlia|].
    exists a, (S k). rewrite div_pow_S. split_and!; [done..|]. intros [|k'] Hk'; [by rewrite Z.div_1_r|].
    rewrite div_pow_S. apply Hk. lia.
Qed.

(** A clean node that is not known has the digest of zero pages, and the image says so. *)
Lemma is_zero_true m F i : img_ok m F -> is_node i -> i ∉ dirty m ->
  (is_Some (digests m !! i) -> node_digest F i = zero_h (height i)) -> is_zero m i = Ok true.
Proof.
  intros [Hf _] Hi Hd Hk. pose proof (full_wf _ _ _ _ Hf) as Hw. unfold is_zero, ilog2.
  replace (0 <? i) with true by (symmetry; apply Z.ltb_lt; destruct Hi; lia). cbn [mbind outcome_bind].
  destruct (nearest_spec 33 m (wf_root _ _ _ _ Hw) i) as (a & k & E & Ea & Ha & [d Ed] & Hn).
  { destruct Hi. change (2 ^ Z.of_nat 33) with 8589934592. lia. }
  rewrite E. cbn [mbind outcome_bind]. destruct (Z.eqb_spec a 0); [lia|]. rewrite Ed. cbn [unwrap mbind outcome_bind].
  assert (Hna : is_node a). { apply (full_nodes _ _ _ _ Hf). by rewrite Ed. }
  rewrite (zero_at a Hna). cbn [unwrap mbind outcome_bind]. f_equal. apply orb_true_iff.
  destruct (decide (a ∈ dirty m)) as [Hin|Hni]; [right; by apply bool_decide_eq_true_2|left].
  apply bool_decide_eq_true_2. rewrite <- (wf_clean _ _ _ _ Hw a d Hni Ed). destruct k as [|k].
  - rewrite Z.div_1_r in Ea. subst a. apply Hk. by rewrite Ed.
  - specialize (Hn k ltac:(lia)). set (c := i / 2 ^ Z.of_nat k) in *.
    assert (Ec : a = c / 2) by (unfold c; rewrite Ea, pow_S, Z.mul_comm, <- Z.div_div by lia; done).
    assert (Hc : c = 2 * a \/ c = 2 * a + 1) by (rewrite Ec; apply half_child).
    assert (Hcl : c < 8388608) by (unfold c; apply Z.div_lt_upper_bound; [lia|destruct Hi; nia]).
    apply (full_known _ _ _ _ Hf a c); [destruct Hna; lia|done|by rewrite Ed|done|done].
Qed.

Lemma page_node p : is_page p -> MEMORY_PAGES +32 p = 4194304 + p.
Proof. unfold is_page, add32. rewrite pages_val. intros Hp. apply wrap_small. unfold fits. lia. Qed.

Lemma leaf_page F p : is_page p -> node_digest F (4194304 + p) = page_digest (F p).
Proof. unfold is_page. intros Hp. rewrite node_digest_leaf, pages_val by lia. do 2 f_equal. lia. Qed.

Lemma page_unset_zero m F p : img_ok m F -> is_page p -> pages m !! p = None ->
  is_zero m (MEMORY_PAGES +32 p) = Ok true /\ F p = page_default.
Proof.
  intros Hm Hp Hn. destruct (ok_pages _ _ Hm p Hp) as [E|[_ E]]; [congruence|]. split; [|done].
  rewrite page_node by done. unfold is_page in Hp. apply (is_zero_true m F); [done|unfold is_node; lia| |].
  - intros Hd. destruct (wf_leaf _ _ _ _ (full_wf _ _ _ _ (ok_full _ _ Hm)) _ Hd) as (pg & Epg & _); [lia|].
    rewrite pages_val in Epg. replace (4194304 + p - 4194304) with p in Epg by lia. congruence.
  - intros _. rewrite leaf_page, E, height_leaf by (done || lia). done.
Qed.

Lemma get_page_run m F p : img_ok m F -> is_page p -> get_page p m = Ok (F p).
Proof.
  intros Hm Hp. unfold get_page. destruct (pages m !! p) as [pg|] eqn:E.
  - destruct (ok_pages _ _ Hm p Hp) as [E'|[E' _]]; congruence.
  - destruct (page_unset_zero m F p Hm Hp E) as [-> ->]. done.
Qed.

(** ** Writing pages *)

Definition upd (F : Z -> Page) (p : Z) (pg : Page) : Z -> Page := fun q => if decide (q = p) then pg else F q.

Lemma upd_digest F p pg i : is_page p -> is_node i -> ~ anc i (4194304 + p) -> node_digest (upd F p pg) i = node_digest F i.
Proof.
  intros Hp Hi Ha. apply node_digest_ext; [done|]. intros q Hq. unfold upd. destruct (decide (q = p)) as [->|]; [|done].
  rewrite pages_val in Hq. done.
Qed.

(** Storing a page and marking its ancestors. *)
Lemma store_page_ok m F p pg : img_ok m F -> is_page p ->
  img_ok (mkImage (<[p := pg]> (pages m)) (digests m) (mark_dirty_loop 33 (MEMORY_PAGES +32 p) (dirty m))) (upd F p pg).
Proof.
  intros Hm Hp. pose proof (ok_full _ _ Hm) as Hf. pose proof (full_wf _ _ _ _ Hf) as Hw. rewrite page_node by done.
  assert (Hmem : forall j, j ∈ mark_dirty_loop 33 (4194304 + p) (dirty m) <-> j ∈ dirty m \/ anc j (4194304 + p)).
  { intros j. apply mark_dirty_closed; [unfold is_page in Hp; lia|apply (wf_up _ _ _ _ Hw)]. }
  assert (Hout : forall j, j ∉ mark_dirty_loop 33 (4194304 + p) (dirty m) -> j ∉ dirty m /\ ~ anc j (4194304 + p)).
  { intros j Hj. rewrite Hmem in Hj. tauto. }
  assert (Hanc : forall j, anc j (4194304 + p) -> is_node j).
  { intros j Ha. pose proof (anc_le _ _ Ha). destruct Ha. unfold is_node, is_page in *. lia. }
  constructor; cbn [pages digests dirty].
  2:{ intros q Hq. unfold upd. destruct (decide (q = p)) as [->|]; [left; apply lookup_insert_eq|].
      rewrite lookup_insert_ne by done. by apply (ok_pages _ _ Hm). }
  constructor; [constructor|..].
  - intros j Hj. apply Hmem in Hj as [Hj|Hj]; [by apply (wf_nodes _ _ _ _ Hw)|auto].
  - intros j Hj. apply Hmem in Hj as [Hj|Hj].
    + destruct (wf_up _ _ _ _ Hw j Hj) as [|Hu]; [by left|right; apply Hmem; by left].
    + destruct (Z.eq_dec j 1); [by left|right]. apply Hmem. right. apply anc_up; [done|]. destruct Hj; lia.
  - apply (wf_root _ _ _ _ Hw).
  - intros j Hj Hge. assert (Hjn : is_node j) by (apply Hmem in Hj as [Hj|Hj]; [by apply (wf_nodes _ _ _ _ Hw)|auto]).
    rewrite pages_val. destruct (Z.eq_dec j (4194304 + p)) as [->|Hne].
    + exists pg. replace (4194304 + p - 4194304) with p by lia. split; [apply lookup_insert_eq|].
      rewrite leaf_page by done. unfold upd. by rewrite decide_True.
    + apply Hmem in Hj as [Hj|Ha].
      * destruct (wf_leaf _ _ _ _ Hw j Hj Hge) as (q & Eq & ED). rewrite pages_val in Eq. exists q.
        split; [rewrite lookup_insert_ne by lia; done|]. rewrite upd_digest; [done..|].
        intros Ha. apply anc_inv in Ha as [?|Ha]; [done|]. apply anc_le in Ha. unfold is_page in Hp. dlia.
      * apply anc_inv in Ha as [?|Ha]; [done|]. apply anc_le in Ha. unfold is_page in Hp. dlia.
  - intros j d Hj Ed. destruct (Hout j Hj) as [Hj1 Hj2]. rewrite upd_digest; [by apply (wf_clean _ _ _ _ Hw)|done| |done].
    apply (full_nodes _ _ _ _ Hf). by rewrite Ed.
  - intros j Hj Hlt. apply node_digest_inner. apply Hmem in Hj as [Hj|Hj]; [pose proof (wf_nodes _ _ _ _ Hw j Hj) as Hn|pose proof (Hanc j Hj) as Hn];
      destruct Hn; lia.
  - intros j Hj HjT Ed _. destruct (Hout j HjT) as [Hj1 Hj2]. rewrite upd_digest by done. by apply (full_zero _ _ _ _ Hf).
  - apply (full_nodes _ _ _ _ Hf).
  - intros j Hj HjT Ed. destruct (Hout j HjT) as [Hj1 Hj2]. rewrite upd_digest by done. by apply (full_zero _ _ _ _ Hf).
  - intros j c Hj HjT Hs Hc Ec. destruct (Hout j HjT) as [Hj1 Hj2].
    rewrite upd_digest; [by apply (full_known _ _ _ _ Hf j c)|done|unfold is_node; lia|done].
Qed.
(** ** The operations *)

#[local] Opaque zero_digests zero_h.


Lemma set_page_run m F p pg : img_ok m F -> is_page p ->
  exists m', set_page p pg m = (Ok tt, m') /\ img_ok m' (upd F p pg).
Proof. intros Hm Hp. unfold set_page. rewrite run_modify. eexists. split; [reflexivity|]. exact (store_page_ok m F p pg Hm Hp). Qed.

Lemma get_page_mut_run m F p f : img_ok m F -> is_page p ->
  exists m', get_page_mut p f m = (Ok tt, m') /\ img_ok m' (upd F p (f (F p))).
Proof.
  intros Hm Hp. unfold get_page_mut. destruct (pages m !! p) as [pg|] eqn:E.
  - destruct (ok_pages _ _ Hm p Hp) as [E'|[E' _]]; [|congruence]. assert (pg = F p) as -> by congruence.
    unfold mark_dirty. rewrite run_modify. eexists. split; [reflexivity|]. exact (store_page_ok m F p _ Hm Hp).
  - destruct (page_unset_zero m F p Hm Hp E) as [Ez Ep]. rewrite Ez, run_lift_Ok, Ep.
    unfold mark_dirty. rewrite run_modify. eexists. split; [reflexivity|]. exact (store_page_ok m F p _ Hm Hp).
Qed.

Lemma update_digests_ok m F : img_ok m F -> exists m', update_digests m = (Ok tt, m') /\ img_ok m' F /\ dirty m' = ∅.
Proof.
  intros [Hf Hp]. destruct (update_digests_run m _ _ (full_wf _ _ _ _ Hf) (full_kept _ _) Hf) as (ds & E & _ & Hq).
  eexists. split; [exact E|]. by split.
Qed.

Lemma get_digest_run m F i : img_ok m F -> is_node i -> i ∉ dirty m -> get_digest i m = Ok (node_digest F i).
Proof.
  intros Hm Hi Hd. pose proof (ok_full _ _ Hm) as Hf. unfold get_digest.
  rewrite bool_decide_eq_true_2 by done. cbn [ensure mbind outcome_bind].
  destruct (digests m !! i) as [d|] eqn:E.
  - f_equal. symmetry. by apply (wf_clean _ _ _ _ (full_wf _ _ _ _ Hf)).
  - rewrite (is_zero_true m F i Hm Hi Hd) by (rewrite E; by intros [? ?]). cbn [mbind outcome_bind].
    unfold ilog2. replace (0 <? i) with true by (symmetry; apply Z.ltb_lt; destruct Hi; lia). cbn [mbind outcome_bind].
    rewrite (zero_at i Hi). cbn [unwrap]. f_equal. symmetry. by apply (full_zero _ _ _ _ Hf).
Qed.

Lemma get_or_update_digest_run m F i : img_ok m F -> is_node i ->
  exists m', get_or_update_digest i m = (Ok (node_digest F i), m') /\ img_ok m' F /\ pages m' = pages m.
Proof.
  intros Hm Hi. pose proof (ok_full _ _ Hm) as Hf. unfold get_or_update_digest, update_subtree_digests.
  destruct m as [pg ds T]. cbn [pages digests dirty] in Hf.
  destruct (update_subtree_run pg _ _ (full_kept pg F) (S MERKLE_TREE_DEPTH) i ds T ∅) as (ds' & T' & E & Hw' & Hq' & HT').
  - done.
  - unfold height, MERKLE_TREE_DEPTH. lia.
  - rewrite union_empty_r_L. apply Hf.
  - by rewrite union_empty_r_L.
  - set_solver.
  - rewrite union_empty_r_L in Hw', Hq'. rewrite (run_bind _ _ _ _ _ E). unfold query.
    assert (Hm' : img_ok (mkImage pg ds' T') F) by (split; [done|apply (ok_pages _ _ Hm)]).
    exists (mkImage pg ds' T'). split; [|done]. f_equal. apply get_digest_run; [done..|]. cbn [dirty]. rewrite HT'.
    intros [_ Hn]. apply Hn, anc_refl. destruct Hi; lia.
Qed.

Lemma image_id_run m F : img_ok m F -> exists m', image_id m = (Ok (node_digest F 1), m') /\ img_ok m' F /\ pages m' = pages m.
Proof.
  intros Hm. pose proof (ok_full _ _ Hm) as Hf.
  destruct (update_digests_run m _ _ (full_wf _ _ _ _ Hf) (full_kept _ _) Hf) as (ds & E & _ & Hq).
  unfold image_id. rewrite (run_bind _ _ _ _ _ E). unfold query.
  assert (Hm' : img_ok (mkImage (pages m) ds ∅) F) by (split; [done|apply (ok_pages _ _ Hm)]).
  exists (mkImage (pages m) ds ∅). split; [|done].
  rewrite (get_digest_run _ F 1 Hm') by (done || set_solver). done.
Qed.

Lemma image_default_ok : img_ok image_default (fun _ => page_default).
Proof.
  assert (E0 : nth 0 zero_digests Merkle.ZERO = zero_h 22).
  { pose proof (zero_digests_lookup 0 ltac:(lia)) as E. by rewrite (nth_lookup_Some _ _ _ _ E). }
  assert (Hz : forall i, is_node i -> node_digest (fun _ => page_default) i = zero_h (height i)) by (intros i Hi; by apply node_digest_zero).
  unfold image_default. rewrite E0. constructor; cbn [pages digests dirty]; [|by right].
  constructor; [constructor|..].
  - intros i Hi. exfalso. by apply elem_of_empty in Hi.
  - intros i Hi. exfalso. by apply elem_of_empty in Hi.
  - rewrite lookup_singleton_eq. by eexists.
  - intros i Hi. exfalso. by apply elem_of_empty in Hi.
  - intros i d _ [<- <-]%lookup_singleton_Some. apply Hz. unfold is_node. lia.
  - intros i Hi. exfalso. by apply elem_of_empty in Hi.
  - intros i Hi _ _ _. by apply Hz.
  - intros i [d [<- _]%lookup_singleton_Some]. unfold is_node. lia.
  - intros i Hi _ _. by apply Hz.
  - intros i c Hi _ _ _ _. apply Hz. unfold is_node. lia.
Qed.

(** ** Bytes *)

(** The byte memory of the pages. *)
Definition mem_of (F : Z -> Page) (a : Z) : Z := nth (Z.to_nat (a mod 1024)) (F (a / 1024)) 0.

Definition page_wf (pg : Page) : Prop := length pg = 1024%nat /\ Forall u8 pg.
Definition pages_wf (F : Z -> Page) : Prop := forall p, page_wf (F p).

Lemma copy_at_length off bs pg : (off + length bs <= length pg)%nat -> length (copy_at off bs pg) = length pg.
Proof. intros Hl. unfold copy_at. rewrite !length_app, length_take, length_drop. lia. Qed.

Lemma copy_at_nth off bs pg i : (off + length bs <= length pg)%nat ->
  nth i (copy_at off bs pg) 0 = if decide (off <= i < off + length bs)%nat then nth (i - off) bs 0 else nth i pg 0.
Proof.
  intros Hl. unfold copy_at. assert (Ht : length (take off pg) = off) by (rewrite length_take; lia).
  destruct (Nat.lt_ge_cases i off) as [Hi|Hi].
  - rewrite decide_False, app_nth1 by lia. apply nth_firstn_lt || (rewrite <- (take_drop off pg) at 2; rewrite app_nth1 by lia; done).
  - rewrite app_nth2, Ht by lia. destruct (Nat.lt_ge_cases i (off + length bs)).
    + rewrite decide_True, app_nth1 by lia. done.
    + rewrite decide_False, app_nth2 by lia. rewrite <- (take_drop (off + length bs) pg) at 2.
      rewrite (app_nth2 (take _ _)) by (rewrite length_take; lia). f_equal. rewrite length_take. lia.
Qed.

Lemma copy_at_wf off bs pg : page_wf pg -> Forall u8 bs -> (off + length bs <= 1024)%nat -> page_wf (copy_at off bs pg).
Proof.
  intros [Hl Hb] Hbs Ho. split; [rewrite copy_at_length; lia|]. unfold copy_at.
  repeat (apply Forall_app; split); [by apply Forall_take|done|by apply Forall_drop].
Qed.

Lemma mem_of_wf F : pages_wf F -> bytes_wf (mem_of F).
Proof.
  intros HF a. unfold mem_of. destruct (HF (a / 1024)) as [Hl Hb]. rewrite Forall_nth in Hb. apply Hb.
  rewrite Hl. pose proof (Z.mod_pos_bound a 1024 ltac:(lia)). lia.
Qed.

(** Writing bytes inside a page. *)
Lemma mem_of_copy F p off bs a : pages_wf F -> 0 <= off -> (Z.to_nat off + length bs <= 1024)%nat ->
  mem_of (upd F p (copy_at (Z.to_nat off) bs (F p))) a = write_bytes (mem_of F) (1024 * p + off) bs a.
Proof.
  intros HF Hoff Hl. unfold mem_of, upd. pose proof (Z.mod_pos_bound a 1024 ltac:(lia)). pose proof (Z.div_mod a 1024 ltac:(lia)).
  destruct (decide (a / 1024 = p)) as [<-|Hne].
  - rewrite copy_at_nth by (destruct (HF (a / 1024)); lia). destruct (decide _) as [Hi|Hi].
    + destruct (lookup_lt_is_Some_2 bs (Z.to_nat (a mod 1024) - Z.to_nat off)) as [b Eb]; [lia|].
      rewrite (nth_lookup_Some _ _ _ _ Eb). set (k := (Z.to_nat (a mod 1024) - Z.to_nat off)%nat) in *.
      pose proof (write_bytes_in (mem_of F) (1024 * (a / 1024) + off) bs (Z.of_nat k) b ltac:(lia)) as E.
      rewrite Nat2Z.id in E. specialize (E Eb). replace (1024 * (a / 1024) + off + Z.of_nat k) with a in E by lia. by rewrite <- E.
    + rewrite write_bytes_out; [done|]. lia.
  - rewrite write_bytes_out; [done|]. destruct (Z.lt_ge_cases a (1024 * p + off)); [by left|right].
    destruct (Z.lt_ge_cases a (1024 * p + 1024)); [|lia]. exfalso. apply Hne. symmetry. apply Z.div_unique with (a - 1024 * p); lia.
Qed.

Lemma load_mem F w : pages_wf F -> 0 <= w < 2 ^ 30 -> load (F (WordAddr.page_idx w)) w = le_load (mem_of F) (4 * w) 4.
Proof.
  intros HF Hw. unfold load, WordAddr.page_idx, WordAddr.page_subaddr. change PAGE_WORDS with 256.
  pose proof (Z.mod_pos_bound w 256 ltac:(lia)). rewrite baddr_small by (unfold MEMORY_END_ADDR; lia).
  rewrite from_le_bytes_load. f_equal. destruct (HF (w / 256)) as [Hl _].
  assert (E : forall j, 0 <= j < 4 -> mem_of F (4 * w + j) = nth (Z.to_nat (4 * (w mod 256)) + Z.to_nat j) (F (w / 256)) 0).
  { intros j Hj. unfold mem_of. pose proof (Z.div_mod w 256 ltac:(lia)).
    assert (E1 : (4 * w + j) / 1024 = w / 256) by (symmetry; apply Z.div_unique with (4 * (w mod 256) + j); lia).
    assert (E2 : (4 * w + j) mod 1024 = 4 * (w mod 256) + j) by (symmetry; apply Z.mod_unique with (w / 256); lia).
    rewrite E1, E2. f_equal. lia. }
  rewrite <- (Z.add_0_r (4 * w)) at 1. rewrite !E by lia. clear E.
  set (n := Z.to_nat (4 * (w mod 256))). assert (Hn : (n + 4 <= 1024)%nat) by (unfold n; lia). clearbody n.
  apply (nth_ext _ _ 0 0); [rewrite length_take, length_drop, Hl; cbn [length]; lia|].
  intros k Hk. rewrite length_take, length_drop in Hk.
  assert (Hd : nth k (take 4 (drop n (F (w / 256)))) 0 = nth (n + k) (F (w / 256)) 0).
  { rewrite !nth_lookup, lookup_take_lt, lookup_drop by lia. done. }
  rewrite Hd. destruct k as [|[|[|[|k]]]]; try lia; done.
Qed.

Lemma store_mem F w v a : pages_wf F -> 0 <= w < 2 ^ 30 -> u32 v ->
  mem_of (upd F (WordAddr.page_idx w) (store w v (F (WordAddr.page_idx w)))) a = le_store (mem_of F) (4 * w) 4 v a.
Proof.
  intros HF Hw Hv. unfold store, WordAddr.page_idx, WordAddr.page_subaddr. change PAGE_WORDS with 256.
  pose proof (Z.mod_pos_bound w 256 ltac:(lia)). pose proof (Z.div_mod w 256 ltac:(lia)).
  rewrite baddr_small by (unfold MEMORY_END_ADDR; lia). rewrite mem_of_copy; [|done|lia|cbn [length to_le_bytes map]; lia].
  replace (1024 * (w / 256) + 4 * (w mod 256)) with (4 * w) by lia.
  destruct (decide (4 * w <= a < 4 * w + 4)) as [Ha|Ha].
  - replace a with (4 * w + (a - 4 * w)) by lia. rewrite le_store_in by lia.
    apply write_bytes_in; [lia|]. assert (Hc : a - 4 * w = 0 \/ a - 4 * w = 1 \/ a - 4 * w = 2 \/ a - 4 * w = 3) by lia.
    destruct Hc as [->|[->|[->| ->]]]; done.
  - rewrite write_bytes_out, le_store_out; [done|lia|cbn [length to_le_bytes map]; lia].
Qed.

Lemma store_page_wf w v pg : page_wf pg -> 0 <= w < 2 ^ 30 -> page_wf (store w v pg).
Proof.
  intros Hp Hw. unfold store, WordAddr.page_subaddr. change PAGE_WORDS with 256. pose proof (Z.mod_pos_bound w 256 ltac:(lia)).
  rewrite baddr_small by (unfold MEMORY_END_ADDR; lia). apply copy_at_wf; [done| |cbn [length to_le_bytes map]; lia].
  apply Forall_fmap, Forall_true. intros i. cbn. unfold fits. apply Z.mod_pos_bound. lia.
Qed.

Lemma upd_wf F p pg : pages_wf F -> page_wf pg -> pages_wf (upd F p pg).
Proof. intros HF Hp q. unfold upd. by destruct (decide _). Qed.

Lemma page_default_wf : page_wf page_default.
Proof. split; [reflexivity|]. apply Forall_replicate. done. Qed.

Lemma set_word_run m F w v : img_ok m F -> pages_wf F -> 0 <= w < 2 ^ 30 -> u32 v ->
  exists m' F', set_word w v m = (Ok tt, m') /\ img_ok m' F' /\ pages_wf F' /\
    forall a, mem_of F' a = le_store (mem_of F) (4 * w) 4 v a.
Proof.
  intros Hm HF Hw Hv. destruct (page_idx_fits w Hw) as [H1 H2]. rewrite pages_val in H2.
  destruct (get_page_mut_run m F (WordAddr.page_idx w) (store w v) Hm (conj H1 H2)) as (m' & E & Hm').
  exists m'. eexists. split; [exact E|]. split; [exact Hm'|]. split.
  - apply upd_wf; [done|]. by apply store_page_wf.
  - intros a. by apply store_mem.
Qed.

Lemma set_region_run fuel : forall m F pos data, img_ok m F -> pages_wf F -> (length data <= fuel)%nat -> 0 <= pos ->
  pos + Z.of_nat (length data) <= 2 ^ 32 -> Forall u8 data ->
  exists m' F', set_region_loop fuel pos data m = (Ok tt, m') /\ img_ok m' F' /\ pages_wf F' /\
    forall a, mem_of F' a = write_bytes (mem_of F) pos data a.
Proof.
  induction fuel as [|fuel IH]; intros m F pos data Hm HF Hf Hpos Hend Hd.
  { destruct data; [by exists m, F|cbn in Hf; lia]. }
  destruct (decide (data = [])) as [->|Hne]; [by exists m, F|].
  assert (Hlen : (1 <= length data)%nat) by (destruct data; [done|cbn; lia]).
  unfold set_region_loop. fold set_region_loop. destruct data as [|b data'] eqn:Edata; [done|]. rewrite <- Edata in *.
  set (off := ByteAddr.page_subaddr pos). set (n := Nat.min (Z.to_nat PAGE_BYTES - Z.to_nat off) (length data)).
  assert (Hoff : off = pos mod 1024) by done. pose proof (Z.mod_pos_bound pos 1024 ltac:(lia)).
  pose proof (Z.div_mod pos 1024 ltac:(lia)) as Hdm.
  assert (Hn : (1 <= n <= length data)%nat /\ (Z.to_nat off + n <= 1024)%nat) by (unfold n; change (Z.to_nat PAGE_BYTES) with 1024%nat; lia).
  assert (Htl : length (take n data) = n) by (rewrite length_take; lia).
  destruct (get_page_mut_run m F (ByteAddr.page_idx pos) (copy_at (Z.to_nat off) (take n data)) Hm) as (m1 & E1 & Hm1).
  { unfold is_page, ByteAddr.page_idx. change PAGE_BYTES with 1024. dlia. }
  rewrite (run_bind _ _ _ _ _ E1). change (ByteAddr.page_idx pos) with (pos / 1024) in *.
  assert (HF1 : pages_wf (upd F (pos / 1024) (copy_at (Z.to_nat off) (take n data) (F (pos / 1024))))).
  { apply upd_wf; [done|]. apply copy_at_wf; [apply HF|by apply Forall_take|rewrite Htl; lia]. }
  assert (Hmem : forall a, mem_of (upd F (pos / 1024) (copy_at (Z.to_nat off) (take n data) (F (pos / 1024)))) a =
    write_bytes (mem_of F) pos (take n data) a).
  { intros a. rewrite mem_of_copy by (done || lia). by replace (1024 * (pos / 1024) + off) with pos by lia. }
  assert (Hsplit : forall a, write_bytes (mem_of F) pos data a =
    write_bytes (write_bytes (mem_of F) pos (take n data)) (pos + Z.of_nat n) (drop n data) a).
  { intros a. rewrite <- (take_drop n data) at 1. by rewrite write_bytes_app, Htl. }
  destruct (decide (drop n data = [])) as [Ed|Ed].
  - rewrite Ed. exists m1. eexists. split; [by destruct fuel|]. split; [exact Hm1|]. split; [done|].
    intros a. rewrite Hmem, Hsplit, Ed. by rewrite write_bytes_nil.
  - assert (Hlt : (n < length data)%nat).
    { destruct (Nat.lt_ge_cases n (length data)); [done|]. by rewrite drop_ge in Ed. }
    assert (Epos : ByteAddr.add_usize pos (Z.of_nat n) = pos + Z.of_nat n).
    { unfold ByteAddr.add_usize, add32. rewrite (wrap_small 32 (Z.of_nat n)), wrap_small by (unfold fits; lia). done. }
    rewrite Epos. destruct (IH m1 _ (pos + Z.of_nat n) (drop n data) Hm1 HF1) as (m2 & F2 & E2 & Hm2 & HF2 & Hmem2);
      [rewrite length_drop; lia|lia|rewrite length_drop; lia|by apply Forall_drop|].
    exists m2, F2. split; [exact E2|]. split; [done|]. split; [done|]. intros a. rewrite Hmem2, Hsplit. by apply write_bytes_ext.
Qed.

(** ** Theorems *)

(** C23: A complete image behaves as memory.  The default image holds zero pages.  For an image that holds the pages [F], every page in range can be read and is
    [F p], a word is the little-endian word of the byte memory, and setting a page,
    setting a word or copying a region of bytes (across pages, up to the end of the
    address space) succeeds and gives an image of exactly the updated memory,
    whatever digests are known or stale. *)
Theorem image_is_memory :
  img_ok image_default (fun _ => page_default) /\
  forall m F, img_ok m F -> pages_wf F ->
    (forall p, is_page p -> get_page p m = Ok (F p)) /\
    (forall w, 0 <= w < 2 ^ 30 -> get_word w m = Ok (le_load (mem_of F) (4 * w) 4)) /\
    (forall p pg, is_page p -> exists m', set_page p pg m = (Ok tt, m') /\ img_ok m' (upd F p pg)) /\
    (forall w v, 0 <= w < 2 ^ 30 -> u32 v -> exists m' F', set_word w v m = (Ok tt, m') /\ img_ok m' F' /\ pages_wf F' /\
      forall a, mem_of F' a = le_store (mem_of F) (4 * w) 4 v a) /\
    (forall start data, 0 <= start -> start + Z.of_nat (length data) <= 2 ^ 32 -> Forall u8 data ->
      exists m' F', set_region start data m = (Ok tt, m') /\ img_ok m' F' /\ pages_wf F' /\
      forall a, mem_of F' a = write_bytes (mem_of F) start data a).
Proof.
  split; [apply image_default_ok|]. intros m F Hm HF. split_and!.
  - intros p Hp. by apply get_page_run.
  - intros w Hw. unfold get_word. destruct (page_idx_fits w Hw) as [H1 H2]. rewrite pages_val in H2.
    rewrite (get_page_run m F _ Hm) by done. cbn [mbind outcome_bind]. f_equal. by apply load_mem.
  - intros p pg Hp. by apply set_page_run.
  - intros w v Hw Hv. by apply set_word_run.
  - intros start data Hs He Hd. by apply set_region_run.
Qed.

(** C21: The incremental digests are the Merkle tree.  In an image of the pages [F],
    with any stale nodes, [get_or_update_digest] of any node, by recursion over the
    stale part of its subtree, and [image_id], by one pass over the stale nodes from
    the last to the first, return the digest of the full tree over [F], and
    [user_id] and [kernel_id] those of the two halves; no call fails or panics, and
    the image still holds the pages [F]. *)
Theorem image_digests_merkle m F : img_ok m F ->
  (forall i, is_node i -> exists m', get_or_update_digest i m = (Ok (node_digest F i), m') /\ img_ok m' F) /\
  (exists m', image_id m = (Ok (dig F 22 1), m') /\ img_ok m' F) /\
  (exists m', user_id m = (Ok (dig F 21 2), m') /\ img_ok m' F) /\
  (exists m', kernel_id m = (Ok (dig F 21 3), m') /\ img_ok m' F).
Proof.
  intros Hm. assert (Hi : forall i, is_node i -> exists m', get_or_update_digest i m = (Ok (node_digest F i), m') /\ img_ok m' F).
  { intros i Hi. destruct (get_or_update_digest_run m F i Hm Hi) as (m' & E & Hm' & _). by exists m'. }
  assert (Ed : forall i h, height i = h -> node_digest F i = dig F h i) by (intros i h <-; reflexivity).
  rewrite <- (Ed 1 22%nat eq_refl), <- (Ed 2 21%nat eq_refl), <- (Ed 3 21%nat eq_refl).
  split; [exact Hi|]. split.
  { destruct (image_id_run m F Hm) as (m' & E & Hm' & _). exists m'. split; assumption. }
  split; [destruct (Hi 2 ltac:(unfold is_node; lia)) as (m' & E & Hm')|destruct (Hi 3 ltac:(unfold is_node; lia)) as (m' & E & Hm')];
    exists m'; (split; [unfold user_id, kernel_id, unwrapped; rewrite E; reflexivity|assumption]).
Qed.

End Spec.

Lemma zero_pages_wf : pages_wf (fun _ => page_default).
Proof. intros p. apply page_default_wf. Qed.

Lemma image_is_memory_witness :
  get_word 5 image_default = Ok (le_load (mem_of (fun _ => page_default)) 20 4) /\
  exists m' F', set_region 1022 [1; 2; 3; 4] image_default = (Ok tt, m') /\ img_ok m' F' /\ mem_of F' 1025 = 4.
Proof.
  destruct (proj2 image_is_memory image_default _ (proj1 image_is_memory) zero_pages_wf) as (_ & Hw & _ & _ & Hr).
  split; [exact (Hw 5 ltac:(lia))|].
  destruct (Hr 1022 [1; 2; 3; 4]) as (m' & F' & E & Hm' & _ & Hmem).
  - lia.
  - cbn. lia.
  - repeat (apply Forall_cons; split); [unfold fits; lia..|constructor].
  - exists m', F'. split; [exact E|]. split; [exact Hm'|]. rewrite Hmem. reflexivity.
Defined.

Lemma image_digests_merkle_witness :
  exists m', image_id image_default = (Ok (dig (fun _ => page_default) 22 1), m') /\ img_ok m' (fun _ => page_default).
Proof.
  destruct (image_digests_merkle image_default (fun _ => page_default) image_default_ok) as (_ & H & _). exact H.
Defined.
