(* ===== verification/Pager.v ===== *)
(** * The executor's paged memory

    [PagedMemory] copies pages of the working image into a cache on first use,
    tracks for every node of the Merkle tree whether it is loaded or dirty, charges
    paging cycles for it, and keeps the two register files out of the pages.
    [commit] writes the dirty pages back; [compute_partial_image] selects what a
    segment's proof needs of its initial image. *)
From S2P Require Export MemImage R0ctx.
From stdpp Require Import sorting.
Open Scope word_scope.
Open Scope Z_scope.

Module Pager.

(* source: src/risc0/risc0/circuit/rv32im/src/execute/pager.rs *)
(* L31-31 LOAD_ROOT_CYCLES *)
Definition LOAD_ROOT_CYCLES : Z := 1.
(* L32-32 RESUME_CYCLES *)
Definition RESUME_CYCLES : Z := 2.
(* L33-33 SUSPEND_CYCLES *)
Definition SUSPEND_CYCLES : Z := 2.
(* L34-34 STORE_ROOT_CYCLES *)
Definition STORE_ROOT_CYCLES : Z := 1.
(* L36-36 POSEIDON_PAGING *)
Definition POSEIDON_PAGING : Z := 1.
(* L37-37 POSEIDON_LOAD_IN *)
Definition POSEIDON_LOAD_IN : Z := 2.
(* L38-38 POSEIDON_DO_OUT *)
Definition POSEIDON_DO_OUT : Z := 1.
(* L39-39 POSEIDON_EXTERNAL *)
Definition POSEIDON_EXTERNAL : Z := 8.
(* L40-40 POSEIDON_INTERNAL *)
Definition POSEIDON_INTERNAL : Z := 1.
(* L41-41 POSEIDON_ENTRY *)
Definition POSEIDON_ENTRY : Z := 1.
(* L42-42 POSEIDON_BLOCK_WORDS *)
Definition POSEIDON_BLOCK_WORDS : Z := 8.
(* L43-43 POSEIDON_PAGE_ROUNDS *)
Definition POSEIDON_PAGE_ROUNDS : Z := PAGE_WORDS / POSEIDON_BLOCK_WORDS.
(* L45-45 PAGE_CYCLES *)
Definition PAGE_CYCLES : Z := POSEIDON_PAGING + 10 * POSEIDON_PAGE_ROUNDS + POSEIDON_DO_OUT.
(* L47-48 NODE_CYCLES *)
Definition NODE_CYCLES : Z :=
  POSEIDON_PAGING + POSEIDON_LOAD_IN + POSEIDON_EXTERNAL + POSEIDON_INTERNAL + POSEIDON_DO_OUT.
(* L50-57 RESERVED_PAGING_CYCLES *)
Definition RESERVED_PAGING_CYCLES : Z :=
  LOAD_ROOT_CYCLES + POSEIDON_ENTRY + POSEIDON_PAGING + RESUME_CYCLES
  + SUSPEND_CYCLES + POSEIDON_ENTRY + POSEIDON_PAGING + STORE_ROOT_CYCLES.
(* L59-59 NUM_PAGES *)
Definition NUM_PAGES : Z := 4 * 1024 * 1024.

(** The errors are those of the executor's memory. *)
Abbreviation error := PagerError.

(** ** Page states *)

(* L62-66 PageState *)
Inductive PageState := Unloaded | Loaded | Dirty.
#[global] Instance PageState_eq_dec : EqDecision PageState.
Proof. solve_decision. Defined.

(** The derived order. *)
Definition rank (s : PageState) : Z := match s with Unloaded => 0 | Loaded => 1 | Dirty => 2 end.

(* L69-72 PageTraceEvent *)
Inductive PageTraceEvent := PageIn (cycles : Z) | PageOut (cycles : Z).

(** A [BitVec] of [size] bits is the set of its ones; an index out of range panics. *)
(* L75-79 PageStates *)
Record PageStates := mkStates { size : Z; states : gset Z; indexes : list Z }.

(* L82-87 PageStates::new *)
Definition states_new (size : Z) : PageStates := mkStates (size * 2) ∅ [].

Definition bit {E} (i : Z) (s : PageStates) : outcome E bool :=
  if i <? size s then Ok (bool_decide (i ∈ states s)) else Panic.

(* L111-122 PageStates::get *)
Definition states_get {E} (index : Z) (self : PageStates) : outcome E PageState :=
  b1 ← bit (index * 2) self;
  if (b1 : bool) then Ok Dirty else
  b0 ← bit (index * 2 + 1) self;
  if (b0 : bool) then Ok Loaded else Ok Unloaded.

(* L90-108 PageStates::set *)
Definition states_set {E} (index : Z) (value : PageState) (self : PageStates) : outcome E PageStates :=
  before ← states_get index self;
  let set_before := negb (bool_decide (before = Unloaded)) in
  bits ← match value with
         | Unloaded => Panic
         | Loaded => Ok ({[index * 2 + 1]} ∪ (states self ∖ {[index * 2]}))
         | Dirty => Ok ({[index * 2]} ∪ states self)
         end;
  Ok (mkStates (size self) bits (if set_before then indexes self else indexes self ++ [index])).

(* L124-126 PageStates::keys *)
Definition keys (self : PageStates) : list Z := indexes self.
(* L128-131 PageStates::clear *)
Definition states_clear (self : PageStates) : PageStates := mkStates (size self) ∅ [].

(* L168-168 NUM_PAGE_STATES *)
Definition NUM_PAGE_STATES : Z := NUM_PAGES * 2.

(** ** The page table *)

(* L184-184 PageTable::CACHE_INDEX_BITS *)
Definition CACHE_INDEX_BITS : Z := Z.log2 NUM_PAGES.
(* L185-185 PageTable::CACHE_INDEX_MAX *)
Definition CACHE_INDEX_MAX : Z := Z.shiftl 1 CACHE_INDEX_BITS - 1.
(* L186-186 PageTable::CACHE_INDEX_MASK *)
Definition CACHE_INDEX_MASK : Z := CACHE_INDEX_MAX.
(* L187-187 PageTable::EPOCH_BITS *)
Definition EPOCH_BITS : Z := 32 - CACHE_INDEX_BITS.
(* L188-188 PageTable::EPOCH_MAX *)
Definition EPOCH_MAX : Z := Z.shiftl 1 EPOCH_BITS - 1.
(* L189-189 PageTable::EPOCH_MASK *)
Definition EPOCH_MASK : Z := Z.shiftl EPOCH_MAX CACHE_INDEX_BITS.

(** The table is an array of [NUM_PAGES] words; entries that are absent are zero. *)
(* L170-175 PageTable *)
Record PageTable := mkTable { epoch : Z; table : gmap Z Z }.

(* L191-197 PageTable::new *)
Definition table_new : PageTable := mkTable 1 ∅.

(* L200-204 PageTable::unpack_value *)
Definition unpack_value (value : Z) : Z * Z :=
  let epoch := (value .& EPOCH_MASK) .>> CACHE_INDEX_BITS in
  let cache_idx := value .& CACHE_INDEX_MASK in
  (epoch, cache_idx).

(* L207-209 PageTable::pack_value *)
Definition pack_value (epoch cache_idx : Z) : Z := (wrap 32 epoch .<< CACHE_INDEX_BITS) .| cache_idx.

(** The bounds check of the array. *)
Definition in_table (index : Z) : bool := (0 <=? index) && (index <? NUM_PAGES).

(* L212-216 PageTable::get *)
Definition table_get {E} (index : Z) (self : PageTable) : outcome E (option Z) :=
  _ ← assert_ (in_table index);
  let value := default 0 (table self !! index) in
  let '(epoch', cache_idx) := unpack_value value in
  Ok (if epoch' =? epoch self then Some cache_idx else None).

(* L220-223 PageTable::set *)
Definition table_set {E} (index cache_idx : Z) (self : PageTable) : outcome E PageTable :=
  _ ← assert_ (cache_idx <=? CACHE_INDEX_MAX);
  _ ← assert_ (in_table index);
  Ok (mkTable (epoch self) (<[index := pack_value (epoch self) (wrap 32 cache_idx)]> (table self))).

(* L225-237 PageTable::clear *)
Definition table_clear (self : PageTable) : PageTable :=
  if epoch self <? EPOCH_MAX then mkTable (epoch self + 1) (table self) else mkTable 1 ∅.

(** ** The working image *)

(** Only its pages: a page that is absent is zero. *)
(* L264-267 WorkingImage *)
Definition WorkingImage : Type := gmap Z Page.

(** The page and the image, into which an absent page has been inserted. *)
(* L275-280 WorkingImage::get_page *)
Definition wi_get_page (page_idx : Z) (self : WorkingImage) : Page * WorkingImage :=
  match self !! page_idx with
  | Some page => (page, self)
  | None => (Image.page_default, <[page_idx := Image.page_default]> self)
  end.

(* L282-284 WorkingImage::set_page *)
Definition wi_set_page (page_idx : Z) (page : Page) (self : WorkingImage) : WorkingImage := <[page_idx := page]> self.

(** A loop over a map or a set runs in the order of the keys. *)
Definition sorted (s : gset Z) : list Z := merge_sort Z.le (elements s).

(* L289-295 MemoryImage::from *)
Definition image_from `{ImageHash} (val : WorkingImage) : state unit Image.error Image.MemoryImage :=
  fun u => let '(o, m) := Image.run_all (fun idx => Image.set_page idx (default Image.page_default (val !! idx)))
                            (sorted (dom val)) Image.image_default in
           (match o with Ok _ => Ok m | Err e => Err e | Panic => Panic end, u).

(** ** Paged memory *)

(* L299-311 PagedMemory *)
Record PagedMemory := mkPaged {
  image : WorkingImage;
  page_table : PageTable;
  page_cache : list Page;
  page_states : PageStates;
  cycles : Z;
  user_registers : list Z;
  machine_registers : list Z;
  tracing_enabled : bool;
  trace_events : list PageTraceEvent }.

Definition set_image f m := mkPaged (f (image m)) (page_table m) (page_cache m) (page_states m) (cycles m) (user_registers m) (machine_registers m) (tracing_enabled m) (trace_events m).
Definition set_page_table t m := mkPaged (image m) t (page_cache m) (page_states m) (cycles m) (user_registers m) (machine_registers m) (tracing_enabled m) (trace_events m).
Definition set_page_cache f m := mkPaged (image m) (page_table m) (f (page_cache m)) (page_states m) (cycles m) (user_registers m) (machine_registers m) (tracing_enabled m) (trace_events m).
Definition set_page_states s m := mkPaged (image m) (page_table m) (page_cache m) s (cycles m) (user_registers m) (machine_registers m) (tracing_enabled m) (trace_events m).
Definition set_cycles f m := mkPaged (image m) (page_table m) (page_cache m) (page_states m) (f (cycles m)) (user_registers m) (machine_registers m) (tracing_enabled m) (trace_events m).
Definition set_user_registers f m := mkPaged (image m) (page_table m) (page_cache m) (page_states m) (cycles m) (f (user_registers m)) (machine_registers m) (tracing_enabled m) (trace_events m).
Definition set_machine_registers f m := mkPaged (image m) (page_table m) (page_cache m) (page_states m) (cycles m) (user_registers m) (f (machine_registers m)) (tracing_enabled m) (trace_events m).
Definition set_trace_events f m := mkPaged (image m) (page_table m) (page_cache m) (page_states m) (cycles m) (user_registers m) (machine_registers m) (tracing_enabled m) (f (trace_events m)).

Abbreviation M := (Prelude.state PagedMemory error).

(* src/risc0/risc0/circuit/rv32im/src/execute/mod.rs:47-49 node_idx *)
Definition node_idx (page_idx : Z) : Z := MEMORY_PAGES +32 page_idx.
(* L619-621 page_idx *)
Definition page_idx (node_idx : Z) : Z := node_idx -32 MEMORY_PAGES.

(** The first word of the register files. *)
Definition USER_REGS : Z := ByteAddr.waddr USER_REGS_ADDR.
Definition MACHINE_REGS : Z := ByteAddr.waddr MACHINE_REGS_ADDR.

(* L314-338 PagedMemory::new *)
Definition paged_new `{ImageHash} (image : Image.MemoryImage) (tracing_enabled : bool) : outcome error PagedMemory :=
  let page_idx := WordAddr.page_idx MACHINE_REGS in
  page ← match Image.get_page page_idx image with Ok page => Ok page | _ => Panic end;
  let file base := map (fun idx => Image.load page (WordAddr.add_usize base idx)) (seqZ 0 REG_MAX) in
  Ok (mkPaged (Image.into_pages image) table_new [] (states_new NUM_PAGE_STATES) RESERVED_PAGING_CYCLES
        (file USER_REGS) (file MACHINE_REGS) tracing_enabled []).

(* L340-345 PagedMemory::reset *)
Definition reset (self : PagedMemory) : PagedMemory :=
  mkPaged (image self) (table_clear (page_table self)) [] (states_clear (page_states self)) RESERVED_PAGING_CYCLES
    (user_registers self) (machine_registers self) (tracing_enabled self) (trace_events self).

(* L348-350 PagedMemory::page_indexes *)
Definition page_indexes (self : PagedMemory) : gset Z := list_to_set (keys (page_states self)).

Definition in_file (base addr : Z) : bool := (base <=? addr) && (addr <? WordAddr.add_usize base REG_MAX).

(** [regs] of the file, indexed; out of range panics. *)
Definition reg_at {E} (regs : list Z) (idx : Z) : outcome E Z := unwrap (regs !! Z.to_nat idx).

(* L353-363 PagedMemory::try_load_register *)
Definition try_load_register (addr : Z) (self : PagedMemory) : outcome error (option Z) :=
  if in_file USER_REGS addr then Some <$> reg_at (user_registers self) (WordAddr.sub_u32 addr USER_REGS)
  else if in_file MACHINE_REGS addr then Some <$> reg_at (machine_registers self) (WordAddr.sub_u32 addr MACHINE_REGS)
  else Ok None.

(* L366-378 PagedMemory::try_store_register *)
Definition try_store_register (addr word : Z) : M bool :=
  if in_file USER_REGS addr then
    let reg_idx := WordAddr.sub_u32 addr USER_REGS in
    lift (assert_ (reg_idx <? REG_MAX));;
    modify (set_user_registers <[Z.to_nat reg_idx := word]>);; mret true
  else if in_file MACHINE_REGS addr then
    let reg_idx := WordAddr.sub_u32 addr MACHINE_REGS in
    lift (assert_ (reg_idx <? REG_MAX));;
    modify (set_machine_registers <[Z.to_nat reg_idx := word]>);; mret true
  else mret false.

(** A read of the memory, and the working image's page. *)
Definition query {A} (f : PagedMemory -> outcome error A) : M A := fun m => (f m, m).
Definition image_page (page_idx : Z) : M Page := fun m =>
  let '(page, im) := wi_get_page page_idx (image m) in (Ok page, set_image (fun _ => im) m).
Definition cached (cache_idx : Z) : M Page := query (fun m => unwrap (page_cache m !! Z.to_nat cache_idx)).
Definition lookup_table (page_idx : Z) : M (option Z) := query (fun m => table_get page_idx (page_table m)).

(* L380-389 PagedMemory::peek_ram *)
Definition peek_ram (addr : Z) : M Z :=
  let page_idx := WordAddr.page_idx addr in
  o ← lookup_table page_idx;
  match o with
  | Some cache_idx => page ← cached cache_idx; mret (Image.load page addr)
  | None => page ← image_page page_idx; mret (Image.load page addr)
  end.

(* L391-400 PagedMemory::peek *)
Definition peek (addr : Z) : M Z :=
  if MEMORY_END_ADDR <=? addr then throw (InvalidPeek addr) else
  o ← query (try_load_register addr);
  match o with Some word => mret word | None => peek_ram addr end.

(* L402-413 PagedMemory::peek_page *)
Definition peek_page (page_idx : Z) : M Page :=
  if (page_idx =? ByteAddr.page_idx USER_REGS_ADDR) || (page_idx =? ByteAddr.page_idx MACHINE_REGS_ADDR)
  then throw (SystemPage page_idx) else
  o ← lookup_table page_idx;
  match o with Some cache_idx => cached cache_idx | None => image_page page_idx end.

(* L605-609 PagedMemory::trace_page_in *)
Definition trace_page_in (cycles : Z) : M unit := fun m =>
  (Ok tt, if tracing_enabled m then set_trace_events (.++ [PageIn cycles]) m else m).
(* L612-616 PagedMemory::trace_page_out *)
Definition trace_page_out (cycles : Z) : M unit := fun m =>
  (Ok tt, if tracing_enabled m then set_trace_events (.++ [PageOut cycles]) m else m).

Definition add_cycles (c : Z) : M unit := modify (set_cycles (fun cycles => cycles +32 c)).
Definition get_state (node : Z) : M PageState := query (fun m => states_get node (page_states m)).
Definition set_state (node : Z) (s : PageState) : M unit :=
  st ← query (fun m => states_set node s (page_states m)); modify (set_page_states st).

(* L568-589 PagedMemory::fixup_costs *)
Fixpoint fixup_costs (fuel : nat) (node_idx : Z) (goal : PageState) : M unit :=
  match fuel with
  | O => panic
  | S fuel =>
      if node_idx =? 0 then mret tt else
      state ← get_state node_idx;
      (if rank state <? rank goal then
         (if node_idx <? MEMORY_PAGES then
            (if decide (state = Unloaded) then add_cycles NODE_CYCLES;; trace_page_in NODE_CYCLES else mret tt);;
            (if decide (goal = Dirty) then add_cycles NODE_CYCLES;; trace_page_out NODE_CYCLES else mret tt)
          else mret tt);;
         set_state node_idx goal
       else mret tt);;
      fixup_costs fuel (node_idx / 2) goal
  end.

(* L556-565 PagedMemory::page_in *)
Definition page_in (page_idx : Z) : M unit :=
  page ← image_page page_idx;
  t ← query (fun m => table_set page_idx (Z.of_nat (length (page_cache m))) (page_table m));
  modify (set_page_table t);;
  modify (set_page_cache (.++ [page]));;
  add_cycles PAGE_CYCLES;;
  trace_page_in PAGE_CYCLES;;
  fixup_costs 33 (node_idx page_idx) Loaded.

(* L420-430 PagedMemory::load_ram *)
Definition load_ram (addr : Z) : M Z :=
  let page_idx := WordAddr.page_idx addr in
  o ← lookup_table page_idx;
  cache_idx ← match o with
              | Some cache_idx => mret cache_idx
              | None => page_in page_idx;; o ← lookup_table page_idx; lift (unwrap o)
              end;
  page ← cached cache_idx;
  mret (Image.load page addr).

(* L433-442 PagedMemory::load *)
Definition load (addr : Z) : M Z :=
  if MEMORY_END_ADDR <=? addr then throw (InvalidLoad addr) else
  o ← query (try_load_register addr);
  match o with Some word => mret word | None => load_ram addr end.

(* L445-453 PagedMemory::load_register *)
Definition load_register (base idx : Z) (self : PagedMemory) : outcome error Z :=
  if base =? USER_REGS then reg_at (user_registers self) idx
  else if base =? MACHINE_REGS then reg_at (machine_registers self) idx
  else Panic.

(** The mutable reference to the page, as the index of its copy in the cache. *)
(* L489-505 PagedMemory::page_for_writing *)
Definition page_for_writing (page_idx : Z) : M Z :=
  let node_idx := node_idx page_idx in
  state ← get_state node_idx;
  state ← (if decide (state = Unloaded) then page_in page_idx;; mret Loaded else mret state);
  (if decide (state = Loaded) then
     add_cycles PAGE_CYCLES;;
     trace_page_out PAGE_CYCLES;;
     fixup_costs 33 node_idx Dirty;;
     set_state node_idx Dirty
   else mret tt);;
  o ← lookup_table page_idx;
  cache_idx ← lift (unwrap o);
  query (fun m => assert_ (cache_idx <? Z.of_nat (length (page_cache m))));;
  mret cache_idx.

(** [f] applied to the page behind the reference. *)
Definition write_cached (cache_idx : Z) (f : Page -> Page) : M unit := modify (set_page_cache (alter f (Z.to_nat cache_idx))).

(* L456-462 PagedMemory::store_ram *)
Definition store_ram (addr word : Z) : M unit :=
  cache_idx ← page_for_writing (WordAddr.page_idx addr);
  write_cached cache_idx (Image.store addr word).

(* L465-475 PagedMemory::store *)
Definition store (addr word : Z) : M unit :=
  if MEMORY_END_ADDR <=? addr then throw (InvalidStore addr) else
  stored ← try_store_register addr word;
  if (stored : bool) then mret tt else store_ram addr word.

(* L478-486 PagedMemory::store_register *)
Definition store_register (base idx word : Z) : M unit :=
  if base =? USER_REGS then
    query (fun m => assert_ (Z.to_nat idx <? length (user_registers m))%nat);;
    modify (set_user_registers <[Z.to_nat idx := word]>)
  else if base =? MACHINE_REGS then
    query (fun m => assert_ (Z.to_nat idx <? length (machine_registers m))%nat);;
    modify (set_machine_registers <[Z.to_nat idx := word]>)
  else panic.

(** Errors under an [unwrap] are panics. *)
Definition unwrapped {A} (m : M A) : M A := fun s =>
  let '(o, s) := m s in (match o with Ok a => Ok a | _ => Panic end, s).

(* L518-521 PagedMemory::write_registers, the loop *)
Definition regs_page (user_registers machine_registers : list Z) (page : Page) : Page :=
  foldl (fun page idx =>
    Image.store (WordAddr.add_usize USER_REGS idx) (default 0 (user_registers !! Z.to_nat idx))
      (Image.store (WordAddr.add_usize MACHINE_REGS idx) (default 0 (machine_registers !! Z.to_nat idx)) page))
    page (seqZ 0 REG_MAX).

(* L509-522 PagedMemory::write_registers *)
Definition write_registers : M unit :=
  user_registers ← gets user_registers;
  machine_registers ← gets machine_registers;
  let page_idx := WordAddr.page_idx MACHINE_REGS in
  cache_idx ← unwrapped (page_for_writing page_idx);
  write_cached cache_idx (regs_page user_registers machine_registers).

(** One iteration of [commit]'s loop, on a leaf of the tree. *)
(* L533-550 PagedMemory::commit, the loop *)
Definition commit_node (node_idx : Z) (partial_image : WorkingImage) : M WorkingImage :=
  if node_idx <? MEMORY_PAGES then mret partial_image else
  page_state ← get_state node_idx;
  let page_idx := page_idx node_idx in
  if decide (page_state = Dirty) then
    o ← lookup_table page_idx;
    cache_idx ← lift (unwrap o);
    page ← cached cache_idx;
    modify (set_image (wi_set_page page_idx page));;
    mret (wi_set_page page_idx page partial_image)
  else mret partial_image.

Fixpoint commit_loop (nodes : list Z) (partial_image : WorkingImage) : M WorkingImage :=
  match nodes with
  | [] => mret partial_image
  | node_idx :: nodes => partial_image ← commit_node node_idx partial_image; commit_loop nodes partial_image
  end.

(* L524-553 PagedMemory::commit *)
Definition commit : M WorkingImage :=
  write_registers;;
  sorted_keys ← gets (fun m => merge_sort Z.le (keys (page_states m)));
  commit_loop sorted_keys ∅.

(* L595-597 PagedMemory::clear_trace_events *)
Definition clear_trace_events (self : PagedMemory) : PagedMemory := set_trace_events (fun _ => []) self.
(* L599-602 PagedMemory::touched_pages *)
Definition touched_pages (self : PagedMemory) : Z := Z.of_nat (length (page_cache self)) + 2.

(** ** The partial image of a segment *)

Section Partial.
Context `{ImageHash}.

(** The partial image that is built, and the input image whose digests are brought up to date. *)
Abbreviation C := (Prelude.state (Image.MemoryImage * Image.MemoryImage) Image.error).
Definition on_partial (m : Prelude.state Image.MemoryImage Image.error unit) : C unit := fun '(partial_image, input_image) =>
  let '(o, partial_image) := m partial_image in (o, (partial_image, input_image)).
Definition on_input {A} (m : Prelude.state Image.MemoryImage Image.error A) : C A := fun '(partial_image, input_image) =>
  let '(o, input_image) := Image.unwrapped m input_image in (o, (partial_image, input_image)).

(* L629-635 compute_partial_image, the loop over the pages *)
Definition copy_page (node_idx : Z) : C unit :=
  let page_idx := page_idx node_idx in
  page ← on_input (Image.query (Image.get_page page_idx));
  on_partial (Image.set_page page_idx page).

(* L643-648 compute_partial_image, one uncle *)
Definition copy_uncle (indexes : gset Z) (idx : Z) : C unit :=
  if decide (idx ∈ indexes) then mret tt else
  d ← on_input (Image.get_or_update_digest idx);
  on_partial (Image.set_digest idx d).

(* L638-649 compute_partial_image, the loop over the inner nodes *)
Definition copy_uncles (indexes : gset Z) (node_idx : Z) : C unit :=
  let lhs_idx := node_idx * 2 in
  let rhs_idx := node_idx * 2 + 1 in
  copy_uncle indexes lhs_idx;;
  copy_uncle indexes rhs_idx.

Fixpoint for_nodes (f : Z -> C unit) (nodes : list Z) : C unit :=
  match nodes with [] => mret tt | n :: nodes => f n;; for_nodes f nodes end.

(* L623-652 compute_partial_image *)
Definition compute_partial_image (indexes : gset Z) (input_image : Image.MemoryImage)
    : outcome Image.error Image.MemoryImage * Image.MemoryImage :=
  let nodes := sorted indexes in
  let '(o, (partial_image, input_image)) :=
    (for_nodes copy_page (base.filter (fun n => MEMORY_PAGES <= n) nodes);;
     for_nodes (copy_uncles indexes) (base.filter (fun n => n < MEMORY_PAGES) nodes)) (Image.image_default, input_image) in
  (match o with Ok _ => Ok partial_image | Err e => Err e | Panic => Panic end, input_image).
End Partial.

End Pager.
