(* ===== verification/PagerSpec.v ===== *)
(** * The paged memory is memory

    [page_at m] is the page function behind the cache, [vmem m] the byte memory that
    the executor sees (the register files lie over their words).  [inv] holds the
    cache, the page table with its epochs, the page states and the cycle count
    together; every operation keeps it and acts on [vmem] as on a flat memory. *)
From S2P Require Export Pager MemImageSpec.
From stdpp Require Import sorting.
Import Pager.
Import Isa(le_load, le_store).
Open Scope word_scope.
Open Scope Z_scope.

(** ** The page table *)

Definition tget (t : PageTable) (p : Z) : option Z :=
  let '(e, c) := unpack_value (default 0 (table t !! p)) in if e =? epoch t then Some c else None.

(** No entry is from a later epoch. *)
Record table_ok (t : PageTable) : Prop := mkTableOk {
  table_epoch : 1 <= epoch t <= 1023;
  table_old p v : table t !! p = Some v -> u32 v /\ v / 4194304 <= epoch t }.

Lemma unpack_spec v : u32 v -> unpack_value v = (v / 4194304, v mod 4194304).
Proof.
  intros Hv. unfold unpack_value. f_equal.
  - change EPOCH_MASK with (Z.shiftl (Z.ones 10) 22). change CACHE_INDEX_BITS with 22.
    change 4194304 with (2 ^ 22). rewrite <- Z.shiftr_div_pow2 by lia. zbits.
    rewrite !Z.shiftr_spec, Z.land_spec by lia. destruct (Z.ltb_spec i 10).
    + rewrite Z.shiftl_spec, Z.testbit_ones_nonneg by lia. replace (i + 22 - 22 <? 10) with true by (symmetry; apply Z.ltb_lt; lia). apply andb_true_r.
    + rewrite (fits_testbit_high 32 v (i + 22)) by (done || lia). done.
  - change CACHE_INDEX_MASK with (Z.ones 22). rewrite Z.land_ones by lia. done.
Qed.

Lemma pack_spec e c : 0 <= e <= 1023 -> 0 <= c < 4194304 -> pack_value e c = e * 4194304 + c /\ u32 (pack_value e c).
Proof.
  intros He Hc. assert (E : pack_value e c = e * 4194304 + c).
  { unfold pack_value, shl32. change CACHE_INDEX_BITS with 22. rewrite (wrap_small 32 e) by (unfold fits; lia).
    rewrite Z.shiftl_mul_pow2 by lia. change (2 ^ 22) with 4194304. rewrite wrap_small by (unfold fits; lia).
    assert (El : Z.land (e * 4194304) c = 0).
    { change 4194304 with (2 ^ 22). zbits. rewrite Z.land_spec, Z.bits_0. destruct (Z.ltb_spec i 22).
      - rewrite Z.mul_pow2_bits_low by lia. done.
      - rewrite (fits_testbit_high 22 c i) by (unfold fits; lia). apply andb_false_r. }
    pose proof (Z.add_lor_land (e * 4194304) c). lia. }
  split; [done|]. rewrite E. unfold fits. lia.
Qed.

Lemma table_get_spec {Er} t p : 0 <= p < 4194304 -> (table_get p t : outcome Er _) = Ok (tget t p).
Proof.
  intros Hp. unfold table_get, tget, in_table. change NUM_PAGES with 4194304.
  replace ((0 <=? p) && (p <? 4194304)) with true by lia. cbn [assert_ mbind outcome_bind].
  destruct (unpack_value _). done.
Qed.

Lemma table_set_spec {Er} t p c : table_ok t -> 0 <= p < 4194304 -> 0 <= c < 4194304 ->
  exists t', (table_set p c t : outcome Er _) = Ok t' /\ table_ok t' /\ forall q, tget t' q = if decide (q = p) then Some c else tget t q.
Proof.
  intros [He Ho] Hp Hc. unfold table_set, in_table. change CACHE_INDEX_MAX with 4194303. change NUM_PAGES with 4194304.
  replace (c <=? 4194303) with true by (symmetry; apply Z.leb_le; lia).
  replace ((0 <=? p) && (p <? 4194304)) with true by lia. cbn [assert_ mbind outcome_bind].
  rewrite (wrap_small 32 c) by (unfold fits; lia). destruct (pack_spec (epoch t) c) as [E Hu]; [lia..|].
  assert (Ediv : pack_value (epoch t) c / 4194304 = epoch t) by (rewrite E; dlia).
  assert (Emod : pack_value (epoch t) c mod 4194304 = c) by (rewrite E; dlia).
  eexists. split; [reflexivity|]. split; [constructor; cbn [epoch table]; [done|]|].
  - intros q v [[<- <-]|[_ Hv]]%lookup_insert_Some; [split; [done|lia]|by apply (Ho q)].
  - intros q. unfold tget. cbn [epoch table]. destruct (decide (q = p)) as [->|Hne].
    + rewrite lookup_insert_eq. cbn [from_option]. unfold id. rewrite (unpack_spec _ Hu), Ediv, Emod. by rewrite Z.eqb_refl.
    + by rewrite lookup_insert_ne by done.
Qed.

Lemma table_clear_spec t : table_ok t -> table_ok (table_clear t) /\ forall p, tget (table_clear t) p = None.
Proof.
  intros [He Ho]. unfold table_clear. change EPOCH_MAX with 1023. destruct (Z.ltb_spec (epoch t) 1023) as [Hlt|Hge].
  - split; [constructor; cbn [epoch table]; [lia|]|].
    + intros p v Hv. destruct (Ho p v Hv). split; [done|lia].
    + intros p. unfold tget. cbn [epoch table]. destruct (table t !! p) as [v|] eqn:E; cbn [from_option]; unfold id.
      * destruct (Ho p v E) as [Hu Hle]. rewrite (unpack_spec v Hu). destruct (Z.eqb_spec (v / 4194304) (epoch t + 1)); [lia|done].
      * change (unpack_value 0) with (0, 0). cbv beta iota. destruct (Z.eqb_spec 0 (epoch t + 1)); [lia|done].
  - split; [constructor; cbn [epoch table]; [lia|]; intros p v Hv; by rewrite lookup_empty in Hv|].
    intros p. unfold tget. cbn [table]. by rewrite lookup_empty.
Qed.

Lemma table_new_spec : table_ok table_new /\ forall p, tget table_new p = None.
Proof.
  split; [constructor; cbn [epoch table table_new]; [lia|]; intros p v Hv; by rewrite lookup_empty in Hv|].
  intros p. unfold tget. cbn [table table_new]. by rewrite lookup_empty.
Qed.

(** ** The page states *)

Definition sget (s : PageStates) (i : Z) : PageState :=
  if decide (i * 2 ∈ states s) then Dirty else if decide (i * 2 + 1 ∈ states s) then Loaded else Unloaded.

(** The list holds the nodes that are not unloaded, once. *)
Record states_ok (s : PageStates) : Prop := mkStatesOk {
  states_size : size s = 16777216;
  states_nodup : NoDup (indexes s);
  states_indexes i : i ∈ indexes s <-> sget s i <> Unloaded }.

Lemma states_get_spec {Er} s i : states_ok s -> is_node i -> (states_get i s : outcome Er _) = Ok (sget s i).
Proof.
  intros [Hs _ _] [Hi1 Hi2]. unfold states_get, bit, sget. rewrite Hs.
  replace (i * 2 <? 16777216) with true by (symmetry; apply Z.ltb_lt; lia).
  replace (i * 2 + 1 <? 16777216) with true by (symmetry; apply Z.ltb_lt; lia). cbn [mbind outcome_bind].
  destruct (decide (i * 2 ∈ states s)) as [Hd|Hd]; [by rewrite bool_decide_eq_true_2|]. rewrite (bool_decide_eq_false_2 _ Hd).
  destruct (decide (i * 2 + 1 ∈ states s)) as [Hl|Hl]; [by rewrite bool_decide_eq_true_2|by rewrite (bool_decide_eq_false_2 _ Hl)].
Qed.

Lemma states_set_spec {Er} s i v : states_ok s -> is_node i -> v <> Unloaded ->
  exists s', (states_set i v s : outcome Er _) = Ok s' /\ states_ok s' /\
    (forall j, sget s' j = if decide (j = i) then v else sget s j) /\
    indexes s' = (if decide (sget s i = Unloaded) then indexes s ++ [i] else indexes s).
Proof.
  intros Hs Hi Hv. unfold states_set. rewrite states_get_spec by done. cbn [mbind outcome_bind].
  set (bits := match v with Unloaded => states s | Loaded => {[i * 2 + 1]} ∪ states s ∖ {[i * 2]} | Dirty => {[i * 2]} ∪ states s end).
  assert (Eb : (match v with
         | Unloaded => Panic
         | Loaded => Ok ({[i * 2 + 1]} ∪ (states s ∖ {[i * 2]}))
         | Dirty => Ok ({[i * 2]} ∪ states s)
         end : outcome Er _) = Ok bits) by (by destruct v).
  rewrite Eb. cbn [mbind outcome_bind].
  set (idx := if negb (bool_decide (sget s i = Unloaded)) then indexes s else indexes s ++ [i]).
  assert (Ei : idx = if decide (sget s i = Unloaded) then indexes s ++ [i] else indexes s).
  { unfold idx. case_bool_decide; by destruct (decide _). }
  assert (Hget : forall j, sget (mkStates (size s) bits idx) j = if decide (j = i) then v else sget s j).
  { intros j. unfold sget. cbn [states]. destruct (decide (j = i)) as [->|Hne].
    - unfold bits. destruct v; [done|..].
      + rewrite decide_False by (rewrite elem_of_union, elem_of_difference, !elem_of_singleton; intros [?|[? ?]]; [lia|done]).
        rewrite decide_True by set_solver. done.
      + rewrite decide_True by set_solver. done.
    - assert (Hm : forall k, k <> i * 2 -> k <> i * 2 + 1 -> k ∈ bits <-> k ∈ states s) by (intros k H1 H2; unfold bits; destruct v; set_solver).
      destruct (decide (j * 2 ∈ bits)) as [H1|H1]; rewrite Hm in H1 by lia.
      + by rewrite decide_True.
      + rewrite (decide_False _ _ H1).
        destruct (decide (j * 2 + 1 ∈ bits)) as [H2|H2]; rewrite Hm in H2 by lia; [by rewrite decide_True|by rewrite decide_False]. }
  exists (mkStates (size s) bits idx). split; [done|]. split; [|done].
  constructor.
  - apply Hs.
  - cbn [indexes]. rewrite Ei. destruct (decide _) as [Eu|]; [|apply Hs]. apply NoDup_app. split; [apply Hs|].
    split; [|apply NoDup_singleton]. intros x Hx ->%list_elem_of_singleton. by apply (states_indexes _ Hs) in Hx.
  - intros j. rewrite Hget. cbn [indexes]. rewrite Ei.
    destruct (decide (sget s i = Unloaded)) as [Eu|Eu], (decide (j = i)) as [->|Hne].
    + split; [done|]. intros _. apply elem_of_app. right. by left.
    + rewrite elem_of_app, list_elem_of_singleton, (states_indexes _ Hs). tauto.
    + split; [done|]. intros _. by apply (states_indexes _ Hs).
    + apply (states_indexes _ Hs).
Qed.

Lemma states_clear_spec s : states_ok s -> states_ok (states_clear s) /\ forall i, sget (states_clear s) i = Unloaded.
Proof.
  intros [Hs _ _]. assert (H : forall i, sget (states_clear s) i = Unloaded).
  { intros i. unfold sget, states_clear. cbn [states]. by rewrite !decide_False by set_solver. }
  split; [|done]. constructor; [done|constructor|]. intros i. rewrite H. cbn [indexes states_clear]. split; [|done].
  intros Hi. by apply not_elem_of_nil in Hi.
Qed.

Lemma states_new_spec : states_ok (states_new NUM_PAGE_STATES) /\ forall i, sget (states_new NUM_PAGE_STATES) i = Unloaded.
Proof.
  assert (H : forall i, sget (states_new NUM_PAGE_STATES) i = Unloaded).
  { intros i. unfold sget, states_new. cbn [states]. by rewrite !decide_False by set_solver. }
  split; [|done]. constructor; [done|constructor|]. intros i. rewrite H. cbn [indexes states_new]. split; [|done].
  intros Hi. by apply not_elem_of_nil in Hi.
Qed.

(** ** Pages by words *)

Lemma load_u32 w pg : page_wf pg -> u32 (Image.load pg w).
Proof.
  intros [Hl Hb]. unfold Image.load, fits. set (off := Z.to_nat _).
  assert (Hf : Forall u8 (take 4 (drop off pg))) by (by apply Forall_take, Forall_drop).
  pose proof (from_le_bytes_range _ Hf). rewrite length_take in *.
  pose proof (Z.pow_le_mono_r 256 (Z.of_nat (4 `min` length (drop off pg))) 4 ltac:(lia) ltac:(lia)).
  change (256 ^ 4) with (2 ^ 32) in *. lia.
Qed.

Lemma load_mod w w' pg : w mod 256 = w' mod 256 -> Image.load pg w = Image.load pg w'.
Proof. intros E. unfold Image.load, WordAddr.page_subaddr. change PAGE_WORDS with 256. by rewrite E. Qed.

Lemma byte_off w : Z.to_nat (WordAddr.baddr (WordAddr.page_subaddr w)) = (4 * Z.to_nat (w mod 256))%nat.
Proof.
  unfold WordAddr.page_subaddr. change PAGE_WORDS with 256. pose proof (Z.mod_pos_bound w 256 ltac:(lia)).
  rewrite baddr_small by (unfold MEMORY_END_ADDR; lia). lia.
Qed.

Lemma from_bytes_inj xs ys : Forall u8 xs -> Forall u8 ys -> length xs = length ys ->
  from_le_bytes xs = from_le_bytes ys -> xs = ys.
Proof.
  intros Hx. revert ys. induction Hx as [|x xs Hx Hxs IH]; intros [|y ys] Hy Hl E; try done.
  apply Forall_cons in Hy as [Hy Hys]. cbn [from_le_bytes foldr length] in *.
  fold (from_le_bytes xs) in E. fold (from_le_bytes ys) in E. unfold fits in *.
  assert (x = y /\ from_le_bytes xs = from_le_bytes ys) as [-> E'] by lia. f_equal. apply IH; [done|lia|done].
Qed.

Lemma page_ext pg pg' : page_wf pg -> page_wf pg' -> (forall k, 0 <= k < 256 -> Image.load pg k = Image.load pg' k) -> pg = pg'.
Proof.
  intros [Hl Hb] [Hl' Hb'] E. apply (nth_ext _ _ 0 0); [congruence|]. intros i Hi. rewrite Hl in Hi.
  set (k := (i / 4)%nat). pose proof (Nat.div_mod i 4 ltac:(lia)) as Hd. pose proof (Nat.mod_upper_bound i 4 ltac:(lia)) as Hm.
  fold k in Hd. specialize (E (Z.of_nat k) ltac:(lia)). unfold Image.load in E. rewrite byte_off in E.
  rewrite Z.mod_small, Nat2Z.id in E by lia. apply from_bytes_inj in E.
  - apply (f_equal (fun l => nth (i mod 4) l 0)) in E. rewrite !nth_lookup, !lookup_take_lt, !lookup_drop in E by lia.
    rewrite <- Hd in E. by rewrite !nth_lookup.
  - by apply Forall_take, Forall_drop.
  - by apply Forall_take, Forall_drop.
  - rewrite !length_take, !length_drop. lia.
Qed.

Lemma load_store pg w v w' : page_wf pg -> u32 v ->
  Image.load (Image.store w v pg) w' = if decide (w' mod 256 = w mod 256) then v else Image.load pg w'.
Proof.
  intros Hpg Hv. pose proof (Z.mod_pos_bound w 256 ltac:(lia)) as Hw. pose proof (Z.mod_pos_bound w' 256 ltac:(lia)) as Hw'.
  set (F := fun _ : Z => pg). assert (HF : pages_wf F) by (by intros p).
  set (k := w mod 256) in *. set (k' := w' mod 256) in *.
  assert (Ek : k = k mod 256) by (symmetry; apply Z.mod_small; lia). assert (Ek' : k' = k' mod 256) by (symmetry; apply Z.mod_small; lia).
  rewrite !(load_mod w' k') by (by rewrite <- Ek'). 
  assert (Es : Image.store w v pg = Image.store k v pg) by (unfold Image.store; by rewrite !byte_off, <- Ek).
  rewrite Es. set (F' := upd F 0 (Image.store k v pg)).
  assert (HF' : pages_wf F') by (apply upd_wf; [done|apply store_page_wf; [done|lia]]).
  assert (Ep : forall j, 0 <= j < 256 -> WordAddr.page_idx j = 0) by (intros j Hj; unfold WordAddr.page_idx; change PAGE_WORDS with 256; dlia).
  pose proof (load_mem F' k' HF' ltac:(lia)) as E1. rewrite Ep in E1 by lia. unfold F' at 1, upd in E1. rewrite decide_True in E1 by done.
  rewrite E1. pose proof (load_mem F k' HF ltac:(lia)) as E2. rewrite Ep in E2 by lia. unfold F at 1 in E2. rewrite E2.
  assert (Hm : forall a, mem_of F' a = le_store (mem_of F) (4 * k) 4 v a).
  { intros a. pose proof (store_mem F k v a HF ltac:(lia) Hv) as E. rewrite Ep in E by lia. exact E. }
  destruct (decide (k' = k)) as [->|Hne].
  - rewrite (le_load_bytes _ _ _ v); [apply Z.mod_small; exact Hv|]. intros i Hi. rewrite Hm. by apply le_store_in.
  - apply le_load_ext. intros i Hi. rewrite Hm. apply le_store_out. lia.
Qed.

(** ** What the states cost *)

(** A node that was loaded is paid once, a dirty one twice. *)
Definition cost (i : Z) (s : PageState) : Z :=
  rank s * (if i <? MEMORY_PAGES then NODE_CYCLES else PAGE_CYCLES).

Definition sum (f : Z -> Z) (l : list Z) : Z := foldr (fun i acc => f i + acc) 0 l.
Definition state_cost (s : PageStates) : Z := sum (fun i => cost i (sget s i)) (indexes s).

Lemma sum_ext f g l : (forall i, i ∈ l -> f i = g i) -> sum f l = sum g l.
Proof.
  induction l as [|a l IH]; intros E; [done|]. cbn [sum foldr]. fold (sum f l). fold (sum g l).
  rewrite (E a), IH; [done| |left]. intros i Hi. apply E. by right.
Qed.

Lemma sum_app f l l' : sum f (l ++ l') = sum f l + sum f l'.
Proof. induction l as [|a l IH]; [done|]. cbn [sum foldr app]. fold (sum f (l ++ l')). rewrite IH. fold (sum f l). lia. Qed.

(** A change at one place. *)
Lemma sum_change f g l i : NoDup l -> (forall j, j <> i -> f j = g j) -> i ∈ l -> sum g l = sum f l + g i - f i.
Proof.
  induction 1 as [|a l Ha Hd IH]; intros E Hi; [by apply not_elem_of_nil in Hi|].
  cbn [sum foldr]. fold (sum f l). fold (sum g l). apply elem_of_cons in Hi as [->|Hi].
  - rewrite (sum_ext g f l); [lia|]. intros j Hj. symmetry. apply E. by intros ->.
  - rewrite IH by done. rewrite (E a); [lia|]. by intros ->.
Qed.

Lemma state_cost_set (s s' : PageStates) i v : states_ok s -> (forall j, sget s' j = if decide (j = i) then v else sget s j) ->
  indexes s' = (if decide (sget s i = Unloaded) then indexes s ++ [i] else indexes s) ->
  state_cost s' = state_cost s + cost i v - cost i (sget s i).
Proof.
  intros Hs Hg Hi. unfold state_cost. rewrite Hi. set (f := fun j => cost j (sget s j)). set (g := fun j => cost j (sget s' j)).
  assert (E : forall j, j <> i -> f j = g j) by (intros j Hj; unfold f, g; by rewrite Hg, decide_False).
  assert (Egi : g i = cost i v) by (unfold g; by rewrite Hg, decide_True). rewrite <- Egi. change (cost i (sget s i)) with (f i).
  destruct (decide (sget s i = Unloaded)) as [Eu|Eu].
  - rewrite sum_app, (sum_ext g f). + cbn [sum foldr]. assert (f i = 0) as -> by (unfold f; rewrite Eu; done). lia.
    + intros j Hj. symmetry. apply E. intros ->. by apply (states_indexes _ Hs) in Hj.
  - apply sum_change; [apply Hs|done|]. by apply (states_indexes _ Hs).
Qed.

Lemma length_bound (l : list Z) a n : NoDup l -> 0 <= n -> (forall x, x ∈ l -> a <= x < a + n) -> Z.of_nat (length l) <= n.
Proof.
  intros Hd Hn Hl. assert (length l <= length (seqZ a n))%nat as Hle; [|rewrite length_seqZ in Hle; lia].
  apply NoDup_incl_length; [by apply NoDup_ListNoDup|]. intros x Hx. apply list_elem_of_In, elem_of_seqZ. apply Hl. by apply list_elem_of_In.
Qed.

Lemma sum_le f l c : (forall i, i ∈ l -> f i <= c) -> sum f l <= c * Z.of_nat (length l).
Proof.
  induction l as [|a l IH]; intros Hf; [cbn; lia|]. cbn [sum foldr length]. fold (sum f l).
  pose proof (Hf a ltac:(left)). pose proof (IH (fun i Hi => Hf i ltac:(by right))). lia.
Qed.

Lemma sum_nonneg f l : (forall i, 0 <= f i) -> 0 <= sum f l.
Proof. intros Hf. induction l as [|a l IH]; [done|]. cbn [sum foldr]. fold (sum f l). pose proof (Hf a). lia. Qed.

(** The cycles of a segment's paging never leave 32 bits. *)
Lemma state_cost_bound s : states_ok s -> (forall i, i ∈ indexes s -> is_node i) -> 0 <= state_cost s <= 2810183654.
Proof.
  intros Hs Hn. assert (Hc : forall i st, 0 <= cost i st).
  { intros i st. unfold cost. change NODE_CYCLES with 13. change PAGE_CYCLES with 322. destruct st, (_ <? _); cbn; lia. }
  split; [by apply sum_nonneg|]. unfold state_cost.
  set (f := fun i => cost i (sget s i)).
  assert (Hsplit : forall l, sum f l = sum f (base.filter (fun i => i < 4194304) l) + sum f (base.filter (fun i => ~ i < 4194304) l)).
  { induction l as [|a l IH]; [done|]. rewrite !filter_cons. destruct (decide (a < 4194304)); [rewrite (decide_False (P := ~ _)) by tauto|rewrite (decide_True (P := ~ _)) by tauto];
      cbn [sum foldr]; unfold sum in *; lia. }
  rewrite Hsplit. pose proof (states_nodup _ Hs) as Hd.
  assert (H1 : Z.of_nat (length (base.filter (fun i => i < 4194304) (indexes s))) <= 4194303).
  { apply (length_bound _ 1); [by apply NoDup_filter|lia|]. intros x [Hx Hi]%list_elem_of_filter. destruct (Hn x Hi). lia. }
  assert (H2 : Z.of_nat (length (base.filter (fun i => ~ i < 4194304) (indexes s))) <= 4194304).
  { apply (length_bound _ 4194304); [by apply NoDup_filter|lia|]. intros x [Hx Hi]%list_elem_of_filter. destruct (Hn x Hi). lia. }
  pose proof (sum_le f (base.filter (fun i => i < 4194304) (indexes s)) 26) as B1.
  pose proof (sum_le f (base.filter (fun i => ~ i < 4194304) (indexes s)) 644) as B2.
  assert (E1 : forall i, i ∈ base.filter (fun i => i < 4194304) (indexes s) -> f i <= 26).
  { intros i [Hi _]%list_elem_of_filter. unfold f, cost. rewrite pages_val. replace (i <? 4194304) with true by lia.
    change NODE_CYCLES with 13. destruct (sget s i); cbn; lia. }
  assert (E2 : forall i, i ∈ base.filter (fun i => ~ i < 4194304) (indexes s) -> f i <= 644).
  { intros i [Hi _]%list_elem_of_filter. unfold f, cost. rewrite pages_val. replace (i <? 4194304) with false by lia.
    change PAGE_CYCLES with 322. destruct (sget s i); cbn; lia. }
  specialize (B1 E1). specialize (B2 E2). lia.
Qed.

(** ** The invariant *)

(** The pages behind the cache. *)
Definition view (m : PagedMemory) (p : Z) : Page :=
  default (default Image.page_default (image m !! p)) (tget (page_table m) p ≫= fun c => page_cache m !! Z.to_nat c).

(** [ps] are the cached pages, in the order of the cache. *)
Record cache_ok (m : PagedMemory) (ps : list Z) : Prop := mkCacheOk {
  cache_len : length ps = length (page_cache m);
  cache_nodup : NoDup ps;
  cache_pages p : p ∈ ps -> is_page p;
  cache_get p c : is_page p -> tget (page_table m) p = Some c <-> 0 <= c /\ ps !! Z.to_nat c = Some p;
  cache_loaded p : is_page p -> p ∈ ps <-> sget (page_states m) (4194304 + p) <> Unloaded;
  cache_clean p : is_page p -> sget (page_states m) (4194304 + p) <> Dirty -> view m p = default Image.page_default (image m !! p) }.

(** Cycles are paid for what is loaded. *)
Definition paid (m : PagedMemory) : Z := wrap 32 (cycles m - state_cost (page_states m)).

Record inv (m : PagedMemory) : Prop := mkInv {
  inv_table : table_ok (page_table m);
  inv_states : states_ok (page_states m);
  inv_cache : exists ps, cache_ok m ps;
  inv_nodes i : i ∈ indexes (page_states m) -> is_node i;
  inv_up i : 2 <= i -> rank (sget (page_states m) i) <= rank (sget (page_states m) (i / 2));
  inv_cycles : u32 (cycles m) /\ paid m = RESERVED_PAGING_CYCLES;
  inv_pages p : is_page p -> page_wf (view m p);
  inv_user : length (user_registers m) = 32%nat /\ Forall u32 (user_registers m);
  inv_machine : length (machine_registers m) = 32%nat /\ Forall u32 (machine_registers m) }.

(** Everything but the page states, the cycles and the trace. *)
Definition with_states (m : PagedMemory) (s : PageStates) (c : Z) (tr : list PageTraceEvent) : PagedMemory :=
  mkPaged (image m) (page_table m) (page_cache m) s c (user_registers m) (machine_registers m) (tracing_enabled m) tr.

Lemma with_states_id m : with_states m (page_states m) (cycles m) (trace_events m) = m.
Proof. by destruct m. Qed.

Lemma run_query {A B} (f : PagedMemory -> outcome error A) (k : A -> M B) m a : f m = Ok a -> (query f ≫= k) m = k a m.
Proof. intros E. unfold mbind, state_bind, query. by rewrite E. Qed.

Lemma add_trace c tr (out : bool) m : exists tr',
  (add_cycles c;; if out then trace_page_out c else trace_page_in c) (with_states m (page_states m) (cycles m) tr) =
  (Ok tt, with_states m (page_states m) (cycles m +32 c) tr').
Proof. unfold add_cycles. rewrite run_modify. destruct out; unfold trace_page_out, trace_page_in; cbn; destruct (tracing_enabled m); by eexists. Qed.

Lemma set_state_run m i v : states_ok (page_states m) -> is_node i -> v <> Unloaded ->
  exists s', set_state i v m = (Ok tt, with_states m s' (cycles m) (trace_events m)) /\ states_ok s' /\
    (forall j, sget s' j = if decide (j = i) then v else sget (page_states m) j) /\
    (forall j, j ∈ indexes s' -> j = i \/ j ∈ indexes (page_states m)) /\
    state_cost s' = state_cost (page_states m) + cost i v - cost i (sget (page_states m) i).
Proof.
  intros Hs Hi Hv. destruct (@states_set_spec error (page_states m) i v Hs Hi Hv) as (s' & E & Hs' & Hg & Hx).
  exists s'. split; [unfold set_state; by rewrite (run_query _ _ _ _ E)|]. split; [done|]. split; [done|]. split.
  - intros j. rewrite Hx. destruct (decide _); [|by right]. rewrite elem_of_app, list_elem_of_singleton. tauto.
  - by apply state_cost_set.
Qed.

(** The states after a walk to the root. *)
Definition raised (s s' : PageStates) (i : Z) (goal : PageState) : Prop := forall j,
  anc j i /\ rank (sget s j) < rank goal /\ sget s' j = goal \/
  ~ (anc j i /\ rank (sget s j) < rank goal) /\ sget s' j = sget s j.

Lemma raised_zero s i goal : i <= 0 -> raised s s i goal.
Proof. intros Hi j. right. split; [|done]. intros [Ha _]. pose proof (anc_le _ _ Ha). destruct Ha. lia. Qed.

Lemma raised_step s s1 s2 i goal : 0 < i ->
  (forall j, sget s1 j = if decide (j = i /\ rank (sget s i) < rank goal) then goal else sget s j) ->
  raised s1 s2 (i / 2) goal -> raised s s2 i goal.
Proof.
  intros Hi H1 H2 j. specialize (H2 j). rewrite H1 in H2.
  destruct (decide (j = i /\ rank (sget s i) < rank goal)) as [[-> Hr]|Hn].
  - left. split; [apply anc_refl; lia|]. split; [done|]. destruct H2 as [(_ & _ & E)|(_ & E)]; done.
  - destruct H2 as [(Ha & Hr & E)|(Hna & E)]; [left|right].
    + split; [by apply anc_half|]. done.
    + split; [|done]. intros [Ha Hr]. apply anc_inv in Ha as [->|Ha]; [by apply Hn|by apply Hna].
Qed.

(** The charge for raising an inner node; a leaf is charged by the caller. *)
Definition charge (i : Z) (st goal : PageState) : Z := if i <? 4194304 then cost i goal - cost i st else 0.

Lemma charge_run (m : PagedMemory) i st goal : 1 <= i < 4194304 -> rank st < rank goal -> u32 (cycles m) ->
  exists tr, ((if decide (st = Unloaded) then add_cycles NODE_CYCLES;; trace_page_in NODE_CYCLES else mret tt);;
    (if decide (goal = Dirty) then add_cycles NODE_CYCLES;; trace_page_out NODE_CYCLES else mret tt)) m =
    (Ok tt, with_states m (page_states m) (cycles m +32 charge i st goal) tr).
Proof.
  intros Hi Hr Hc. unfold charge, cost. rewrite pages_val. replace (i <? 4194304) with true by lia. change NODE_CYCLES with 13.
  destruct (add_trace 13 (trace_events m) false m) as [tr1 E1]. rewrite with_states_id in E1.
  destruct (add_trace 13 (trace_events m) true m) as [tr2 E2]. rewrite with_states_id in E2.
  destruct (add_trace 13 tr1 true (with_states m (page_states m) (cycles m +32 13) tr1)) as [tr3 E3].
  change (with_states (with_states m (page_states m) (cycles m +32 13) tr1)
            (page_states (with_states m (page_states m) (cycles m +32 13) tr1)) (cycles (with_states m (page_states m) (cycles m +32 13) tr1)) tr1)
    with (with_states m (page_states m) (cycles m +32 13) tr1) in E3.
  destruct st, goal; cbn [rank] in *; try lia; repeat (rewrite decide_True by done || rewrite decide_False by done).
  - exists tr1. rewrite (run_bind _ _ _ _ _ E1). done.
  - exists tr3. rewrite (run_bind _ _ _ _ _ E1). rewrite E3. unfold with_states. cbn. do 2 f_equal. unfold add32. by rewrite wrap_add_l, <- Z.add_assoc.
  - exists tr2. exact E2.
Qed.

Lemma fixup_one m i goal : is_node i -> states_ok (page_states m) -> u32 (cycles m) ->
  (forall j, j ∈ indexes (page_states m) -> is_node j) -> goal <> Unloaded ->
  exists s1 c1 tr1, (forall fuel, fixup_costs (S fuel) i goal m = fixup_costs fuel (i / 2) goal (with_states m s1 c1 tr1)) /\
    states_ok s1 /\ u32 c1 /\ (forall j, j ∈ indexes s1 -> is_node j) /\
    (forall j, sget s1 j = if decide (j = i /\ rank (sget (page_states m) i) < rank goal) then goal else sget (page_states m) j) /\
    wrap 32 (c1 - state_cost s1) = wrap 32 (paid m + (cost i (sget (page_states m) i) - cost i (sget s1 i)) + charge i (sget (page_states m) i) (sget s1 i)).
Proof.
  intros Hin Hs Hc Hn Hg. set (st := sget (page_states m) i). pose proof Hin as [Hi1 Hi2].
  destruct (Z.ltb_spec (rank st) (rank goal)) as [Hr|Hr].
  - assert (Hcyc : exists tr, (if i <? MEMORY_PAGES then
        ((if decide (st = Unloaded) then add_cycles NODE_CYCLES;; trace_page_in NODE_CYCLES else mret tt);;
         (if decide (goal = Dirty) then add_cycles NODE_CYCLES;; trace_page_out NODE_CYCLES else mret tt)) else mret tt) m =
        (Ok tt, with_states m (page_states m) (cycles m +32 charge i st goal) tr)).
    { rewrite pages_val. destruct (Z.ltb_spec i 4194304) as [Hlt|Hge]; [by apply charge_run|].
      exists (trace_events m). unfold charge. replace (i <? 4194304) with false by lia. unfold add32. rewrite Z.add_0_r, wrap_small by done.
      by rewrite with_states_id. }
    destruct Hcyc as [tr Ecyc].
    destruct (set_state_run (with_states m (page_states m) (cycles m +32 charge i st goal) tr) i goal Hs Hin Hg) as (s1 & E1 & Hs1 & Hg1 & Hx1 & Ht1).
    exists s1, (cycles m +32 charge i st goal), tr. split_and!.
    + intros fuel. cbn [fixup_costs]. replace (i =? 0) with false by lia. unfold get_state.
      rewrite (run_query _ _ _ _ (states_get_spec _ _ Hs Hin)). fold st. replace (rank st <? rank goal) with true by lia.
      unfold mbind at 1, state_bind at 1. rewrite (run_bind _ _ _ _ _ Ecyc), E1. done.
    + done.
    + apply wrap_fits. lia.
    + intros j Hj. destruct (Hx1 j Hj) as [->|]; auto.
    + intros j. rewrite Hg1. destruct (decide (j = i)), (decide (j = i /\ rank st < rank goal)); tauto.
    + rewrite Ht1, Hg1, decide_True by done. cbn [page_states with_states]. fold st. unfold paid, add32, wrap.
      rewrite Zminus_mod_idemp_l, <- Z.add_assoc, Zplus_mod_idemp_l. f_equal. lia.
  - exists (page_states m), (cycles m), (trace_events m). rewrite with_states_id. split_and!; try done.
    + intros fuel. cbn [fixup_costs]. replace (i =? 0) with false by lia. unfold get_state.
      rewrite (run_query _ _ _ _ (states_get_spec _ _ Hs Hin)). fold st. replace (rank st <? rank goal) with false by lia. done.
    + intros j. destruct (decide _) as [[-> ?]|]; [lia|done].
    + fold st. unfold charge. unfold paid. rewrite Z.sub_diag. destruct (_ <? _); rewrite ?Z.sub_diag, !Z.add_0_r, wrap_wrap by lia; done.
Qed.

Lemma fixup_inner fuel : forall i goal m, 0 <= i < 4194304 -> i < 2 ^ Z.of_nat fuel -> states_ok (page_states m) -> u32 (cycles m) ->
  (forall j, j ∈ indexes (page_states m) -> is_node j) -> goal <> Unloaded ->
  exists s' c' tr', fixup_costs (S fuel) i goal m = (Ok tt, with_states m s' c' tr') /\ states_ok s' /\ u32 c' /\
    (forall j, j ∈ indexes s' -> is_node j) /\ raised (page_states m) s' i goal /\ wrap 32 (c' - state_cost s') = paid m.
Proof.
  induction fuel as [|fuel IH]; intros i goal m Hi Hf Hs Hc Hn Hg.
  - assert (i = 0) as -> by (cbn in Hf; lia). exists (page_states m), (cycles m), (trace_events m). rewrite with_states_id.
    split_and!; try done. by apply raised_zero.
  - destruct (Z.eq_dec i 0) as [->|Hne].
    { exists (page_states m), (cycles m), (trace_events m). rewrite with_states_id. split_and!; try done. by apply raised_zero. }
    assert (Hin : is_node i) by (unfold is_node; lia).
    destruct (fixup_one m i goal Hin Hs Hc Hn Hg) as (s1 & c1 & tr1 & E1 & Hs1 & Hc1 & Hn1 & Hg1 & Hp1). rewrite E1.
    assert (Hhalf : 0 <= i / 2 < 4194304 /\ i / 2 < 2 ^ Z.of_nat fuel) by (rewrite pow_S in Hf; dlia). destruct Hhalf as [Hh1 Hh2].
    destruct (IH (i / 2) goal (with_states m s1 c1 tr1) Hh1 Hh2 Hs1 Hc1 Hn1 Hg) as (s2 & c2 & tr2 & E2 & Hs2 & Hc2 & Hn2 & Hr2 & Hp2).
    exists s2, c2, tr2. rewrite E2. split_and!; try done.
    + apply (raised_step _ s1); [lia|done|done].
    + rewrite Hp2. unfold paid at 1. cbn [page_states cycles with_states]. rewrite Hp1. unfold charge.
      replace (i <? 4194304) with true by lia. transitivity (wrap 32 (paid m)); [f_equal; lia|apply wrap_wrap; lia].
Qed.

(** From a leaf. *)
Lemma fixup_leaf i goal m : 4194304 <= i < 8388608 -> states_ok (page_states m) -> u32 (cycles m) ->
  (forall j, j ∈ indexes (page_states m) -> is_node j) -> goal <> Unloaded ->
  exists s' c' tr', fixup_costs 33 i goal m = (Ok tt, with_states m s' c' tr') /\ states_ok s' /\ u32 c' /\
    (forall j, j ∈ indexes s' -> is_node j) /\ raised (page_states m) s' i goal /\
    wrap 32 (c' - state_cost s') = wrap 32 (paid m + cost i (sget (page_states m) i) - cost i (sget s' i)).
Proof.
  intros Hi Hs Hc Hn Hg. assert (Hin : is_node i) by (unfold is_node; lia).
  destruct (fixup_one m i goal Hin Hs Hc Hn Hg) as (s1 & c1 & tr1 & E1 & Hs1 & Hc1 & Hn1 & Hg1 & Hp1). rewrite E1.
  destruct (fixup_inner 31 (i / 2) goal (with_states m s1 c1 tr1)) as (s2 & c2 & tr2 & E2 & Hs2 & Hc2 & Hn2 & Hr2 & Hp2); try done; [dlia|change (2 ^ Z.of_nat 31) with 2147483648; dlia|].
  exists s2, c2, tr2. rewrite E2. assert (Hr : raised (page_states m) s2 i goal) by (apply (raised_step _ s1); [lia|done|done]).
  split_and!; try done. rewrite Hp2. unfold paid at 1. cbn [page_states cycles with_states]. rewrite Hp1. unfold charge.
  replace (i <? 4194304) with false by lia. f_equal. assert (Es : sget s2 i = sget s1 i); [|rewrite Es; lia].
  destruct (Hr2 i) as [(Ha & _)|(_ & E)]; [|done]. apply anc_le in Ha. dlia.
Qed.

(** ** Loading pages *)

Lemma wrap_sub_l w a b : wrap w (wrap w a - b) = wrap w (a - b).
Proof. apply Zminus_mod_idemp_l. Qed.

(** The pages of the image are the same; more of them may be in it. *)
Definition based (m m' : PagedMemory) : Prop := forall p, default Image.page_default (image m' !! p) = default Image.page_default (image m !! p).

(** More may be loaded or dirty, the pages and the registers are the same. *)
Record same (m m' : PagedMemory) : Prop := mkSame {
  same_inv : inv m';
  same_based : based m m';
  same_view p : is_page p -> view m' p = view m p;
  same_user : user_registers m' = user_registers m;
  same_machine : machine_registers m' = machine_registers m;
  same_rank i : rank (sget (page_states m) i) <= rank (sget (page_states m') i) }.

Lemma same_refl m : inv m -> same m m.
Proof. by constructor. Qed.

Lemma same_trans m1 m2 m3 : same m1 m2 -> same m2 m3 -> same m1 m3.
Proof.
  intros H1 H2. constructor; [apply H2|..].
  - intros p. by rewrite (same_based _ _ H2), (same_based _ _ H1).
  - intros p Hp. by rewrite (same_view _ _ H2), (same_view _ _ H1).
  - by rewrite (same_user _ _ H2), (same_user _ _ H1).
  - by rewrite (same_machine _ _ H2), (same_machine _ _ H1).
  - intros i. pose proof (same_rank _ _ H1 i). pose proof (same_rank _ _ H2 i). lia.
Qed.

(** All of the invariant but the state of the page [p], which is cached. *)
Record pending (m : PagedMemory) (ps : list Z) (p : Z) : Prop := mkPending {
  pend_table : table_ok (page_table m);
  pend_len : length ps = length (page_cache m);
  pend_nodup : NoDup ps;
  pend_in : p ∈ ps;
  pend_pages q : q ∈ ps -> is_page q;
  pend_get q c : is_page q -> tget (page_table m) q = Some c <-> 0 <= c /\ ps !! Z.to_nat c = Some q;
  pend_loaded q : is_page q -> q <> p -> q ∈ ps <-> sget (page_states m) (4194304 + q) <> Unloaded;
  pend_clean q : is_page q -> sget (page_states m) (4194304 + q) <> Dirty -> view m q = default Image.page_default (image m !! q);
  pend_up i : 2 <= i -> rank (sget (page_states m) i) <= rank (sget (page_states m) (i / 2));
  pend_wf q : is_page q -> page_wf (view m q);
  pend_user : length (user_registers m) = 32%nat /\ Forall u32 (user_registers m);
  pend_machine : length (machine_registers m) = 32%nat /\ Forall u32 (machine_registers m) }.

Lemma inv_pending m ps p : inv m -> cache_ok m ps -> p ∈ ps -> pending m ps p.
Proof. intros Hm Hps Hp. constructor; try exact Hp; try apply Hm; try apply Hps. intros q Hq _. by apply (cache_loaded _ _ Hps). Qed.

(** Raising a leaf that is cached and charged. *)
Lemma raise_inv m s' c' tr' p goal ps : pending m ps p -> states_ok s' -> u32 c' -> goal <> Unloaded ->
  (forall j, j ∈ indexes s' -> is_node j) -> raised (page_states m) s' (4194304 + p) goal ->
  wrap 32 (c' - state_cost s') = RESERVED_PAGING_CYCLES -> inv (with_states m s' c' tr').
Proof.
  intros Hm Hs' Hc' Hg Hn' Hr Hpaid. pose proof (pend_pages _ _ _ Hm p (pend_in _ _ _ Hm)) as Hp. unfold is_page in Hp.
  assert (Hmono : forall i, rank (sget (page_states m) i) <= rank (sget s' i)).
  { intros i. destruct (Hr i) as [(_ & Hlt & ->)|(_ & ->)]; lia. }
  assert (Hother : forall q, is_page q -> q <> p -> sget s' (4194304 + q) = sget (page_states m) (4194304 + q)).
  { intros q Hq Hne. destruct (Hr (4194304 + q)) as [(Ha & _)|(_ & E)]; [|done]. unfold is_page in Hq.
    apply anc_inv in Ha as [?|Ha]; [lia|]. apply anc_le in Ha. dlia. }
  constructor; cbn [page_table page_states page_cache image cycles user_registers machine_registers with_states]; try apply Hm; try done.
  - exists ps. constructor; cbn [page_table page_states page_cache image with_states]; try apply Hm.
    + intros q Hq. destruct (Z.eq_dec q p) as [->|Hne]; [|rewrite Hother by done; by apply (pend_loaded _ _ _ Hm)].
      split; [|intros _; apply Hm]. intros _ E. destruct (Hr (4194304 + p)) as [(_ & _ & E')|(Hna & E')]; [congruence|].
      apply Hna. rewrite <- E', E. split; [apply anc_refl; lia|]. by destruct goal.
    + intros q Hq Hd. apply (pend_clean _ _ _ Hm q Hq). intros E. apply Hd. pose proof (Hmono (4194304 + q)) as H1. rewrite E in H1.
      destruct (sget s' (4194304 + q)); cbn in H1; done || lia.
  - intros i Hi. pose proof (pend_up _ _ _ Hm i Hi) as Hu. destruct (Hr i) as [(Ha & Hlt & ->)|(Hna & ->)].
    + destruct (Hr (i / 2)) as [(_ & _ & ->)|(Hna & ->)]; [lia|]. destruct (Z.lt_ge_cases (rank (sget (page_states m) (i / 2))) (rank goal)); [|lia].
      exfalso. apply Hna. split; [by apply anc_up|done].
    + pose proof (Hmono (i / 2)). lia.
Qed.

Lemma raised_mono s s' i goal j : raised s s' i goal -> rank (sget s j) <= rank (sget s' j).
Proof. intros Hr. destruct (Hr j) as [(_ & Hlt & ->)|(_ & ->)]; lia. Qed.

Lemma image_page_run m p : image_page p m = (Ok (default Image.page_default (image m !! p)), set_image (fun _ => snd (wi_get_page p (image m))) m) /\
  forall q, default Image.page_default (snd (wi_get_page p (image m)) !! q) = default Image.page_default (image m !! q).
Proof.
  unfold image_page, wi_get_page. destruct (image m !! p) as [pg|] eqn:E; [done|]. split; [done|]. unfold WorkingImage in *. intros q. cbn [snd].
  destruct (decide (q = p)) as [->|Hne]; [by rewrite lookup_insert_eq, E|by rewrite lookup_insert_ne].
Qed.

Lemma image_touch m p : inv m -> same m (set_image (fun _ => snd (wi_get_page p (image m))) m).
Proof.
  intros Hm. destruct (image_page_run m p) as [_ E]. 
  assert (Hv : forall q, view (set_image (fun _ => snd (wi_get_page p (image m))) m) q = view m q).
  { intros q. unfold view. cbn [image page_table page_cache set_image]. destruct (_ ≫= _); [done|apply E]. }
  constructor; [|exact E|done..]. constructor; try apply Hm.
  - destruct (inv_cache _ Hm) as [ps Hps]. exists ps. constructor; try apply Hps. intros q Hq Hd. rewrite Hv.
    cbn [image set_image]. rewrite E. by apply (cache_clean _ _ Hps).
  - intros q Hq. rewrite Hv. by apply (inv_pages _ Hm).
Qed.

Lemma page_idx_node p : is_page p -> node_idx p = 4194304 + p.
Proof. apply page_node. Qed.

Lemma view_uncached m p : tget (page_table m) p = None -> view m p = default Image.page_default (image m !! p).
Proof. intros E. unfold view. by rewrite E. Qed.
Lemma view_cached m p c pg : tget (page_table m) p = Some c -> page_cache m !! Z.to_nat c = Some pg -> view m p = pg.
Proof. intros E E'. unfold view. rewrite E. cbn [mbind option_bind]. by rewrite E'. Qed.

(** A cached page can be read. *)
Lemma cached_run m ps p c : cache_ok m ps -> is_page p -> tget (page_table m) p = Some c -> page_cache m !! Z.to_nat c = Some (view m p).
Proof.
  intros Hps Hp E. pose proof (proj1 (cache_get _ _ Hps p c Hp) E) as [Hc El]. apply lookup_lt_Some in El. rewrite (cache_len _ _ Hps) in El.
  destruct (lookup_lt_is_Some_2 _ _ El) as [pg Epg]. rewrite Epg. f_equal. symmetry. by apply (view_cached _ _ c).
Qed.

Lemma page_in_run m p : inv m -> is_page p -> tget (page_table m) p = None ->
  exists m' c, page_in p m = (Ok tt, m') /\ same m m' /\ tget (page_table m') p = Some c /\ sget (page_states m') (4194304 + p) = Loaded.
Proof.
  intros Hm Hp Eu. destruct (image_page_run m p) as [Ei Hi]. pose proof (image_touch m p Hm) as Hm0.
  set (m0 := set_image (fun _ => snd (wi_get_page p (image m))) m) in *. pose proof (same_inv _ _ Hm0) as Hinv0.
  destruct (inv_cache _ Hinv0) as [ps Hps]. assert (Eu0 : tget (page_table m0) p = None) by exact Eu.
  assert (Hnin : p ∉ ps).
  { intros [i Hi']%list_elem_of_lookup_1. pose proof (proj2 (cache_get _ _ Hps p (Z.of_nat i) Hp)) as Hx. rewrite Nat2Z.id in Hx.
    rewrite Hx in Eu0 by (split; [lia|done]). done. }
  assert (Hunl : sget (page_states m0) (4194304 + p) = Unloaded).
  { destruct (decide (sget (page_states m0) (4194304 + p) = Unloaded)); [done|]. exfalso. by apply Hnin, (cache_loaded _ _ Hps). }
  assert (Hlen : Z.of_nat (length (p :: ps)) <= 4194304).
  { apply (length_bound _ 0); [constructor; [done|apply Hps]|lia|]. intros x [->|Hx]%elem_of_cons; [done|]. apply (cache_pages _ _ Hps x Hx). }
  cbn [length] in Hlen. rewrite (cache_len _ _ Hps) in Hlen.
  destruct (@table_set_spec error (page_table m0) p (Z.of_nat (length (page_cache m0))) (inv_table _ Hinv0)) as (t' & Et & Ht' & Hg'); [exact Hp|lia|].
  set (pg := default Image.page_default (image m !! p)) in *.
  set (m1 := set_page_cache (.++ [pg]) (set_page_table t' m0)).
  destruct (add_trace PAGE_CYCLES (trace_events m) false m1) as [tr1 E1]. change (trace_events m) with (trace_events m1) in E1. rewrite with_states_id in E1.
  set (m2 := with_states m1 (page_states m1) (cycles m1 +32 PAGE_CYCLES) tr1) in *.
  destruct (fixup_leaf (4194304 + p) Loaded m2) as (s' & c' & tr' & E2 & Hs' & Hc' & Hn' & Hr' & Hpaid).
  { unfold is_page in Hp. lia. } { apply Hinv0. } { apply wrap_fits. lia. } { apply (inv_nodes _ Hinv0). } { done. }
  assert (El : sget s' (4194304 + p) = Loaded).
  { destruct (Hr' (4194304 + p)) as [(_ & _ & E)|(Hna & _)]; [done|]. exfalso. apply Hna. cbn [page_states m2 with_states m1 set_page_cache set_page_table].
    rewrite Hunl. split; [apply anc_refl; unfold is_page in Hp; lia|done]. }
  exists (with_states m2 s' c' tr'), (Z.of_nat (length (page_cache m0))). split; [|split; [|split]].
  - unfold page_in. rewrite (run_bind _ _ _ _ _ Ei). fold m0. rewrite (run_query _ _ _ _ Et), !run_modify. fold m1.
    unfold add_cycles in *. rewrite run_modify in E1 |- *. rewrite (run_bind _ _ _ _ _ E1), page_idx_node by done. exact E2.
  - apply (same_trans m m0 _ Hm0).
    assert (Hv : forall q, is_page q -> view m1 q = view m0 q).
    { intros q Hq. unfold view. cbn [page_table page_cache image m1 set_page_cache set_page_table]. rewrite Hg'. destruct (decide (q = p)) as [->|Hne].
      - cbn [mbind option_bind]. rewrite Nat2Z.id, list_lookup_middle, Eu0 by done. symmetry. apply Hi.
      - destruct (tget (page_table m0) q) as [c|] eqn:Ec; [|done]. cbn [mbind option_bind]. rewrite lookup_app_l; [done|].
        pose proof (cached_run m0 ps q c Hps Hq Ec) as El'. by apply lookup_lt_Some in El'. }
    assert (Hpend : pending m2 (ps ++ [p]) p).
    { constructor; cbn [page_table page_states page_cache image cycles user_registers machine_registers with_states m2 m1 set_page_cache set_page_table]; try apply Hinv0.
      - done.
      - rewrite !length_app, (cache_len _ _ Hps). done.
      - apply NoDup_app. split; [apply Hps|]. split; [|apply NoDup_singleton]. intros x Hx ->%list_elem_of_singleton. done.
      - apply elem_of_app. right. by left.
      - intros q [Hq|Hq]%elem_of_app; [by apply (cache_pages _ _ Hps)|]. by apply list_elem_of_singleton in Hq as ->.
      - intros q c Hq. rewrite Hg'. destruct (decide (q = p)) as [->|Hne].
        + split; [intros [= <-]; split; [lia|]|].
          * rewrite Nat2Z.id. apply list_lookup_middle. symmetry. apply (cache_len _ _ Hps).
          * intros [Hc0 Hl]. apply lookup_app_Some in Hl as [Hl|[Hl1 Hl]]; [exfalso; apply Hnin; by eapply list_elem_of_lookup_2|].
            apply list_lookup_singleton_Some in Hl as [Hl _]. rewrite (cache_len _ _ Hps) in *. f_equal. lia.
        + rewrite (cache_get _ _ Hps q c Hq). split; intros [Hc0 Hl]; (split; [done|]); [by apply lookup_app_l_Some|].
          apply lookup_app_Some in Hl as [Hl|[_ Hl]]; [done|]. apply list_lookup_singleton_Some in Hl as [_ Hl]. by destruct Hne.
      - intros q Hq Hne. rewrite <- (cache_loaded _ _ Hps q Hq). rewrite elem_of_app, list_elem_of_singleton. tauto.
      - intros q Hq Hd. change (view m2 q) with (view m1 q). rewrite Hv by done. apply (cache_clean _ _ Hps q Hq Hd).
      - intros q Hq. change (view m2 q) with (view m1 q). rewrite Hv by done. by apply (inv_pages _ Hinv0). }
    constructor; [|done..|intros i; apply (raised_mono _ _ _ _ i Hr')]. apply (raise_inv m2 s' c' tr' p Loaded _ Hpend Hs' Hc' ltac:(done) Hn' Hr').
    rewrite Hpaid. cbn [page_states m2 with_states m1 set_page_cache set_page_table]. rewrite Hunl, El.
    pose proof (proj2 (inv_cycles _ Hinv0)) as Hc0. unfold paid in *. cbn [page_states cycles m2 with_states m1 set_page_cache set_page_table].
    unfold cost. rewrite pages_val. replace (4194304 + p <? 4194304) with false by (unfold is_page in Hp; lia). cbn [rank]. rewrite Z.mul_0_l, Z.mul_1_l, Z.add_0_r.
    rewrite <- Hc0. unfold add32. rewrite wrap_sub_l, <- Z.sub_add_distr, wrap_sub_l. f_equal. lia.
  - cbn [page_table with_states m2 m1 set_page_cache set_page_table]. by rewrite Hg', decide_True.
  - exact El.
Qed.

Lemma lookup_table_run m p {B} (k : option Z -> M B) : is_page p -> (lookup_table p ≫= k) m = k (tget (page_table m) p) m.
Proof. intros Hp. apply run_query. apply table_get_spec. exact Hp. Qed.

Lemma cached_read m p c {B} (k : Page -> M B) : inv m -> is_page p -> tget (page_table m) p = Some c ->
  (cached c ≫= k) m = k (view m p) m.
Proof. intros Hm Hp E. destruct (inv_cache _ Hm) as [ps Hps]. apply run_query. by rewrite (cached_run m ps p c Hps Hp E). Qed.

(** Whether a page is cached is what its state says. *)
Lemma cached_state m p : inv m -> is_page p -> tget (page_table m) p = None <-> sget (page_states m) (4194304 + p) = Unloaded.
Proof.
  intros Hm Hp. destruct (inv_cache _ Hm) as [ps Hps]. pose proof (cache_loaded _ _ Hps p Hp) as Hl. split.
  - intros E. destruct (decide (sget (page_states m) (4194304 + p) = Unloaded)) as [|Hne]; [done|].
    apply Hl, list_elem_of_lookup_1 in Hne as [i Hi]. pose proof (proj2 (cache_get _ _ Hps p (Z.of_nat i) Hp)) as Hx.
    rewrite Nat2Z.id in Hx. rewrite Hx in E by (split; [lia|done]). done.
  - intros E. destruct (tget (page_table m) p) as [c|] eqn:Ec; [|done]. exfalso. apply (cache_get _ _ Hps p c Hp) in Ec as [_ Ec].
    apply list_elem_of_lookup_2, Hl in Ec. done.
Qed.

Lemma load_ram_run m w : inv m -> is_page (WordAddr.page_idx w) ->
  exists m', load_ram w m = (Ok (Image.load (view m (WordAddr.page_idx w)) w), m') /\ same m m'.
Proof.
  intros Hm Hp. unfold load_ram. set (p := WordAddr.page_idx w) in *. rewrite lookup_table_run by done.
  destruct (tget (page_table m) p) as [c|] eqn:E.
  - exists m. split; [|by apply same_refl]. unfold mbind at 1, state_bind at 1. cbn [mret state_ret]. by rewrite (cached_read m p c).
  - destruct (page_in_run m p Hm Hp E) as (m' & c & E1 & Hs & Et & _). exists m'. split; [|done].
    assert (Ec : (page_in p;; o ← lookup_table p; lift (unwrap o)) m = (Ok c, m')).
    { rewrite (run_bind _ _ _ _ _ E1), lookup_table_run, Et by done. done. }
    rewrite (run_bind _ _ _ _ _ Ec), (cached_read m' p c) by (done || apply Hs). by rewrite (same_view _ _ Hs).
Qed.

Lemma peek_page_at m p : inv m -> is_page p -> exists m',
  (o ← lookup_table p; match o with Some c => cached c | None => image_page p end) m = (Ok (view m p), m') /\ same m m'.
Proof.
  intros Hm Hp. rewrite lookup_table_run by done. destruct (tget (page_table m) p) as [c|] eqn:E.
  - exists m. split; [|by apply same_refl]. destruct (inv_cache _ Hm) as [ps Hps]. unfold cached, query.
    by rewrite (cached_run m ps p c Hps Hp E).
  - destruct (image_page_run m p) as [Ei _]. rewrite Ei, <- (view_uncached m p E). eexists. split; [done|]. by apply image_touch.
Qed.

Lemma peek_ram_run m w : inv m -> is_page (WordAddr.page_idx w) ->
  exists m', peek_ram w m = (Ok (Image.load (view m (WordAddr.page_idx w)) w), m') /\ same m m'.
Proof.
  intros Hm Hp. destruct (peek_page_at m _ Hm Hp) as (m' & E & Hs). exists m'. split; [|done]. unfold peek_ram.
  rewrite lookup_table_run in * by done. destruct (tget _ _); by rewrite (run_bind _ _ _ _ _ E).
Qed.

Lemma page_for_writing_run m p : inv m -> is_page p ->
  exists m' c, page_for_writing p m = (Ok c, m') /\ same m m' /\ tget (page_table m') p = Some c /\ sget (page_states m') (4194304 + p) = Dirty.
Proof.
  intros Hm Hp. unfold page_for_writing. rewrite page_idx_node by done. assert (Hin : is_node (4194304 + p)) by (unfold is_page, is_node in *; lia).
  unfold get_state. rewrite (run_query _ _ _ _ (states_get_spec _ _ (inv_states _ Hm) Hin)).
  set (st := sget (page_states m) (4194304 + p)).
  (* loaded first *)
  assert (H1 : exists m1 c st1, (if decide (st = Unloaded) then page_in p;; mret Loaded else mret st) m = (Ok st1, m1) /\ same m m1 /\
      tget (page_table m1) p = Some c /\ st1 = sget (page_states m1) (4194304 + p) /\ st1 <> Unloaded).
  { destruct (decide (st = Unloaded)) as [Eu|Eu].
    - destruct (page_in_run m p Hm Hp) as (m1 & c & E1 & Hs & Et & El); [by apply cached_state|]. exists m1, c, Loaded.
      rewrite (run_bind _ _ _ _ _ E1), El. done.
    - destruct (tget (page_table m) p) as [c|] eqn:Ec; [|by apply cached_state in Ec]. exists m, c, st. split; [done|]. split; [by apply same_refl|done]. }
  destruct H1 as (m1 & c & st1 & E1 & Hs1 & Et1 & Est & Hne). rewrite (run_bind _ _ _ _ _ E1). clear E1.
  pose proof (same_inv _ _ Hs1) as Hm1. destruct (inv_cache _ Hm1) as [ps Hps].
  assert (H2 : exists m2, (if decide (st1 = Loaded) then add_cycles PAGE_CYCLES;; trace_page_out PAGE_CYCLES;;
      fixup_costs 33 (4194304 + p) Dirty;; set_state (4194304 + p) Dirty else mret tt) m1 = (Ok tt, m2) /\ same m1 m2 /\
      page_table m2 = page_table m1 /\ sget (page_states m2) (4194304 + p) = Dirty).
  { destruct (decide (st1 = Loaded)) as [El|El].
    2:{ exists m1. split; [done|]. split; [by apply same_refl|]. split; [done|]. rewrite <- Est. by destruct st1. }
    destruct (add_trace PAGE_CYCLES (trace_events m1) true m1) as [tr1 Ea]. rewrite with_states_id in Ea.
    set (m2 := with_states m1 (page_states m1) (cycles m1 +32 PAGE_CYCLES) tr1) in *.
    destruct (fixup_leaf (4194304 + p) Dirty m2) as (s' & c' & tr' & E2 & Hs' & Hc' & Hn' & Hr' & Hpaid).
    { unfold is_page in Hp. lia. } { apply Hm1. } { apply wrap_fits. lia. } { apply (inv_nodes _ Hm1). } { done. }
    assert (Ed : sget s' (4194304 + p) = Dirty).
    { destruct (Hr' (4194304 + p)) as [(_ & _ & E)|(Hna & _)]; [done|]. exfalso. apply Hna. cbn [page_states m2 with_states].
      rewrite <- Est, El. split; [apply anc_refl; unfold is_page in Hp; lia|done]. }
    destruct (set_state_run (with_states m2 s' c' tr') (4194304 + p) Dirty Hs' Hin ltac:(done)) as (s2 & E3 & Hs2 & Hg2 & Hx2 & Ht2).
    cbn [page_states with_states] in Hg2, Hx2, Ht2. change (with_states (with_states m2 s' c' tr') s2 _ _) with (with_states m2 s2 c' tr') in E3.
    exists (with_states m2 s2 c' tr'). unfold add_cycles in *. rewrite run_modify in Ea |- *. split.
    { rewrite (run_bind _ _ _ _ _ Ea), (run_bind _ _ _ _ _ E2). exact E3. }
    assert (Heq : forall j, sget s2 j = sget s' j) by (intros j; rewrite Hg2; destruct (decide _) as [->|]; congruence).
    assert (Hr2 : raised (page_states m2) s2 (4194304 + p) Dirty) by (intros j; rewrite !Heq; apply Hr').
    assert (Hpin : p ∈ ps) by (apply (cache_get _ _ Hps p c Hp) in Et1 as [_ Et1]; by eapply list_elem_of_lookup_2).
    split; [|split; [done|by rewrite Hg2, decide_True]].
    constructor; [|done..|intros i; apply (raised_mono _ _ _ _ i Hr2)].
    apply (raise_inv m2 s2 c' tr' p Dirty ps); try done.
    - destruct (inv_pending m1 ps p Hm1 Hps Hpin). by constructor.
    - intros j Hj. destruct (Hx2 j Hj) as [->|]; auto.
    - rewrite Ht2, Ed.
      replace (c' - (state_cost s' + cost (4194304 + p) Dirty - cost (4194304 + p) Dirty)) with (c' - state_cost s') by lia.
      rewrite Hpaid. cbn [page_states m2 with_states]. rewrite <- Est, El, Ed.
      pose proof (proj2 (inv_cycles _ Hm1)) as Hc0. unfold paid in *. cbn [page_states cycles m2 with_states]. rewrite <- Hc0.
      unfold cost. rewrite pages_val. replace (4194304 + p <? 4194304) with false by (unfold is_page in Hp; lia). cbn [rank].
      rewrite <- Z.add_sub_assoc, Z.mul_1_l. replace (PAGE_CYCLES - 2 * PAGE_CYCLES) with (- PAGE_CYCLES) by lia. rewrite Z.add_opp_r.
      rewrite wrap_sub_l, <- Z.sub_add_distr. unfold add32. rewrite wrap_sub_l. f_equal. lia. }
  destruct H2 as (m2 & E2 & Hs2 & Etab & Ed). rewrite (run_bind _ _ _ _ _ E2). clear E2.
  exists m2, c. assert (Et2 : tget (page_table m2) p = Some c) by (by rewrite Etab). rewrite lookup_table_run, Et2 by done. cbn [unwrap]. rewrite run_lift_Ok.
  split; [|split; [by eapply same_trans|done]]. destruct (inv_cache _ (same_inv _ _ Hs2)) as [ps2 Hps2].
  pose proof (proj1 (cache_get _ _ Hps2 p c Hp) Et2) as [Hc El]. apply lookup_lt_Some in El. rewrite (cache_len _ _ Hps2) in El.
  unfold query, mbind, state_bind. replace (c <? Z.of_nat (length (page_cache m2))) with true by lia. done.
Qed.

(** ** Writing pages *)

Lemma view_upd m c p f : inv m -> is_page p -> tget (page_table m) p = Some c ->
  forall q, is_page q -> view (set_page_cache (alter f (Z.to_nat c)) m) q = upd (view m) p (f (view m p)) q.
Proof.
  intros Hm Hp Et q Hq. destruct (inv_cache _ Hm) as [ps Hps]. unfold upd. destruct (decide (q = p)) as [->|Hne].
  - apply (view_cached _ p c); [exact Et|]. cbn [page_cache set_page_cache]. by rewrite list_lookup_alter_eq, (cached_run m ps p c Hps Hp Et).
  - unfold view. cbn [page_table page_cache image set_page_cache]. destruct (tget (page_table m) q) as [d|] eqn:Ed; [|done]. cbn [mbind option_bind].
    destruct (proj1 (cache_get _ _ Hps q d Hq) Ed) as [Hd0 Hd]. destruct (proj1 (cache_get _ _ Hps p c Hp) Et) as [Hc0 Hc].
    rewrite list_lookup_alter_ne; [done|]. intros E. rewrite E in Hc. congruence.
Qed.

Lemma write_cached_run m c p f : inv m -> is_page p -> tget (page_table m) p = Some c -> sget (page_states m) (4194304 + p) = Dirty ->
  page_wf (f (view m p)) -> exists m', write_cached c f m = (Ok tt, m') /\ inv m' /\
    (forall q, is_page q -> view m' q = upd (view m) p (f (view m p)) q) /\
    user_registers m' = user_registers m /\ machine_registers m' = machine_registers m /\ page_states m' = page_states m /\ image m' = image m.
Proof.
  intros Hm Hp Et Ed Hf. pose proof (view_upd m c p f Hm Hp Et) as Hv. eexists. split; [reflexivity|].
  split; [|done]. constructor; try apply Hm.
  - destruct (inv_cache _ Hm) as [ps Hps]. exists ps. constructor; try apply Hps.
    + cbn [page_cache set_page_cache]. rewrite length_alter. apply Hps.
    + intros q Hq Hd. rewrite Hv by done. unfold upd. rewrite decide_False by (intros ->; by apply Hd). by apply (cache_clean _ _ Hps).
  - intros q Hq. rewrite Hv by done. unfold upd. destruct (decide _); [done|]. by apply (inv_pages _ Hm).
Qed.

(** ** The registers over the pages *)

Definition SYS : Z := 4194240.
Lemma sys_page : WordAddr.page_idx MACHINE_REGS = SYS. Proof. reflexivity. Qed.
Lemma sys_is_page : is_page SYS. Proof. unfold is_page, SYS. lia. Qed.

Definition regs_ok (l : list Z) : Prop := length l = 32%nat /\ Forall u32 l.

Lemma reg_u32 l i : regs_ok l -> u32 (default 0 (l !! i)).
Proof. intros [_ Hf]. destruct (l !! i) as [v|] eqn:E; cbn; [by eapply Forall_lookup_1|done]. Qed.

Lemma user_word i : 0 <= i < 32 -> WordAddr.add_usize USER_REGS i = 1073725472 + i.
Proof.
  intros Hi. unfold WordAddr.add_usize, add32. rewrite (wrap_small 32 i) by (unfold fits; lia).
  change USER_REGS with 1073725472. apply wrap_small. unfold fits. lia.
Qed.
Lemma machine_word i : 0 <= i < 32 -> WordAddr.add_usize MACHINE_REGS i = 1073725440 + i.
Proof.
  intros Hi. unfold WordAddr.add_usize, add32. rewrite (wrap_small 32 i) by (unfold fits; lia).
  change MACHINE_REGS with 1073725440. apply wrap_small. unfold fits. lia.
Qed.

(** What the word [k] of the page of the registers holds. *)
Definition reg_word (user machine : list Z) (k : Z) : option Z :=
  if decide (0 <= k < 32) then machine !! Z.to_nat k else if decide (32 <= k < 64) then user !! Z.to_nat (k - 32) else None.

Lemma regs_page_spec user machine page : regs_ok user -> regs_ok machine -> page_wf page ->
  page_wf (regs_page user machine page) /\
  forall w, Image.load (regs_page user machine page) w = default (Image.load page w) (reg_word user machine (w mod 256)).
Proof.
  intros Hu Hma Hp. unfold regs_page.
  assert (Hloop : forall l pg, page_wf pg -> Forall (fun i => 0 <= i < 32) l ->
    let r := foldl (fun page idx =>
      Image.store (WordAddr.add_usize USER_REGS idx) (default 0 (user !! Z.to_nat idx))
        (Image.store (WordAddr.add_usize MACHINE_REGS idx) (default 0 (machine !! Z.to_nat idx)) page)) pg l in
    page_wf r /\ forall w, Image.load r w =
      if decide (w mod 256 ∈ l) then default 0 (machine !! Z.to_nat (w mod 256))
      else if decide (w mod 256 - 32 ∈ l) then default 0 (user !! Z.to_nat (w mod 256 - 32)) else Image.load pg w).
  { induction l as [|i l IH]; intros pg Hpg Hl; cbn [foldl].
    - split; [done|]. intros w. rewrite !decide_False by apply not_elem_of_nil. done.
    - apply Forall_cons in Hl as [Hi Hl]. rewrite user_word, machine_word by done.
      assert (H1 : page_wf (Image.store (1073725440 + i) (default 0 (machine !! Z.to_nat i)) pg)) by (apply store_page_wf; [done|lia]).
      destruct (IH (Image.store (1073725472 + i) (default 0 (user !! Z.to_nat i)) (Image.store (1073725440 + i) (default 0 (machine !! Z.to_nat i)) pg)))
        as [IH1 IH2]; [apply store_page_wf; [done|lia]|done|]. split; [exact IH1|]. intros w. rewrite IH2. clear IH IH1 IH2.
      rewrite !load_store by (done || by apply reg_u32). rewrite Forall_forall in Hl.
      replace ((1073725472 + i) mod 256) with (32 + i) by dlia. replace ((1073725440 + i) mod 256) with i by dlia.
      set (k := w mod 256). destruct (decide (k ∈ l)) as [H2|H2]; [by rewrite decide_True by (by right)|].
      destruct (decide (k - 32 ∈ l)) as [H3|H3].
      + rewrite (decide_False (P := k ∈ i :: l)), decide_True; [done|by right|]. intros [->|?]%elem_of_cons; [|done]. specialize (Hl _ H3). lia.
      + destruct (decide (k = 32 + i)) as [Ek|Ek].
        * rewrite decide_False, decide_True; [by replace (k - 32) with i by lia|rewrite Ek; replace (32 + i - 32) with i by lia; by left|].
          intros [?|?]%elem_of_cons; [lia|done].
        * destruct (decide (k = i)) as [->|Ek2]; [by rewrite decide_True by (by left)|].
          rewrite !decide_False; [done|intros [?|?]%elem_of_cons; [lia|done]..]. }
  destruct (Hloop (seqZ 0 REG_MAX) page Hp) as [H1 H2]; [apply Forall_seqZ; intros; change REG_MAX with 32 in *; lia|].
  split; [exact H1|]. intros w. rewrite H2. pose proof (Z.mod_pos_bound w 256 ltac:(lia)). unfold reg_word. change REG_MAX with 32.
  assert (Hd : forall j (l : list Z) (d : Z), regs_ok l -> 0 <= j < 32 -> default 0 (l !! Z.to_nat j) = default d (l !! Z.to_nat j)).
  { intros j l d [Hl _] Hj. destruct (lookup_lt_is_Some_2 l (Z.to_nat j)) as [v ->]; [lia|done]. }
  destruct (decide (w mod 256 ∈ seqZ 0 32)) as [E|E]; rewrite elem_of_seqZ in E.
  - rewrite decide_True by lia. by apply Hd.
  - rewrite (decide_False (P := 0 <= w mod 256 < 32)) by lia. destruct (decide (w mod 256 - 32 ∈ seqZ 0 32)) as [E'|E']; rewrite elem_of_seqZ in E'.
    + rewrite decide_True by lia. apply Hd; [done|lia].
    + by rewrite decide_False by lia.
Qed.

(** ** The memory that is seen *)

#[global] Instance is_page_dec p : Decision (is_page p).
Proof. unfold is_page. apply _. Defined.

Definition vpages (m : PagedMemory) (p : Z) : Page :=
  if decide (p = SYS) then regs_page (user_registers m) (machine_registers m) (view m p)
  else if decide (is_page p) then view m p else Image.page_default.
Definition vmem (m : PagedMemory) : Z -> Z := mem_of (vpages m).

Lemma vpages_wf m : inv m -> pages_wf (vpages m).
Proof.
  intros Hm p. unfold vpages. destruct (decide (p = SYS)) as [->|].
  - apply regs_page_spec; [apply Hm|apply Hm|]. apply (inv_pages _ Hm), sys_is_page.
  - destruct (decide _); [by apply (inv_pages _ Hm)|apply page_default_wf].
Qed.

Lemma same_vpages m m' : same m m' -> forall p, vpages m' p = vpages m p.
Proof.
  intros Hs p. unfold vpages. rewrite (same_user _ _ Hs), (same_machine _ _ Hs). destruct (decide (p = SYS)) as [->|].
  - by rewrite (same_view _ _ Hs) by apply sys_is_page.
  - destruct (decide _); [by apply (same_view _ _ Hs)|done].
Qed.

Lemma word_page w : 0 <= w < 2 ^ 30 -> is_page (WordAddr.page_idx w).
Proof. intros Hw. destruct (page_idx_fits w Hw). by split. Qed.

Lemma in_file_spec base k w : (base, k) = (USER_REGS, 32) \/ (base, k) = (MACHINE_REGS, 0) -> 0 <= w < 2 ^ 30 ->
  in_file base w = bool_decide (WordAddr.page_idx w = SYS /\ k <= w mod 256 < k + 32) /\
  (WordAddr.page_idx w = SYS /\ k <= w mod 256 < k + 32 -> WordAddr.sub_u32 w base = w mod 256 - k).
Proof.
  intros Hb Hw. unfold in_file, WordAddr.page_idx, SYS. change PAGE_WORDS with 256.
  assert (Eb : base = 1073725440 + k) by (destruct Hb as [[= -> ->]|[= -> ->]]; reflexivity).
  assert (Ee : WordAddr.add_usize base REG_MAX = base + 32) by (destruct Hb as [[= -> ->]|[= -> ->]]; reflexivity).
  assert (Hk : k = 0 \/ k = 32) by (destruct Hb as [[= _ ->]|[= _ ->]]; auto). rewrite Ee, Eb. split.
  - symmetry. destruct (_ && _) eqn:E.
    + apply bool_decide_eq_true_2. apply andb_prop in E as [H1%Z.leb_le H2%Z.ltb_lt]. dlia.
    + apply bool_decide_eq_false_2. intros [H1 H2]. apply andb_false_iff in E as [H3%Z.leb_gt|H3%Z.ltb_ge]; dlia.
  - intros [H1 H2]. unfold WordAddr.sub_u32, sub32. rewrite wrap_small; [dlia|unfold fits; dlia].
Qed.

Lemma try_load_spec m w : inv m -> 0 <= w < 2 ^ 30 ->
  try_load_register w m = Ok (if decide (WordAddr.page_idx w = SYS) then reg_word (user_registers m) (machine_registers m) (w mod 256) else None).
Proof.
  intros Hm Hw. unfold try_load_register, reg_word. pose proof (Z.mod_pos_bound w 256 ltac:(lia)).
  destruct (in_file_spec USER_REGS 32 w ltac:(by left) Hw) as [E1 S1]. destruct (in_file_spec MACHINE_REGS 0 w ltac:(by right) Hw) as [E2 S2].
  rewrite E1, E2. destruct (decide (WordAddr.page_idx w = SYS)) as [Ep|Ep].
  2:{ rewrite !bool_decide_eq_false_2 by tauto. done. }
  assert (Hr : forall (l : list Z) i, regs_ok l -> 0 <= i < 32 -> Some <$> (reg_at l i : outcome error Z) = Ok (l !! Z.to_nat i)).
  { intros l i [Hl _] Hi. unfold reg_at. destruct (lookup_lt_is_Some_2 l (Z.to_nat i)) as [v ->]; [lia|done]. }
  destruct (decide (0 <= w mod 256 < 32)) as [H1|H1].
  - rewrite bool_decide_eq_false_2, bool_decide_eq_true_2, S2 by lia. rewrite Z.sub_0_r. apply Hr; [apply Hm|done].
  - destruct (decide (32 <= w mod 256 < 64)) as [H2|H2].
    + rewrite bool_decide_eq_true_2, S1 by lia. apply Hr; [apply Hm|lia].
    + by rewrite !bool_decide_eq_false_2 by lia.
Qed.

(** A word: of a register, or of a page. *)
Lemma vmem_word m w : inv m -> 0 <= w < 2 ^ 30 ->
  le_load (vmem m) (4 * w) 4 = default (Image.load (view m (WordAddr.page_idx w)) w)
    (if decide (WordAddr.page_idx w = SYS) then reg_word (user_registers m) (machine_registers m) (w mod 256) else None).
Proof.
  intros Hm Hw. unfold vmem. rewrite <- load_mem by (done || by apply vpages_wf). pose proof (word_page w Hw) as Hp.
  unfold vpages. destruct (decide (WordAddr.page_idx w = SYS)) as [->|Hne].
  - destruct (regs_page_spec (user_registers m) (machine_registers m) (view m SYS)) as [_ E]; [apply Hm|apply Hm|apply (inv_pages _ Hm), sys_is_page|].
    apply E.
  - by rewrite decide_True.
Qed.

Lemma paged_load_run m w : inv m -> 0 <= w < 2 ^ 30 ->
  exists m', load w m = (Ok (le_load (vmem m) (4 * w) 4), m') /\ same m m'.
Proof.
  intros Hm Hw. unfold load. change MEMORY_END_ADDR with (2 ^ 30). replace (2 ^ 30 <=? w) with false by lia.
  rewrite (run_query _ _ _ _ (try_load_spec m w Hm Hw)), vmem_word by done. destruct (if decide _ then _ else _) as [v|].
  - exists m. split; [done|by apply same_refl].
  - apply load_ram_run; [done|by apply word_page].
Qed.

Lemma peek_run m w : inv m -> 0 <= w < 2 ^ 30 ->
  exists m', peek w m = (Ok (le_load (vmem m) (4 * w) 4), m') /\ same m m'.
Proof.
  intros Hm Hw. unfold peek. change MEMORY_END_ADDR with (2 ^ 30). replace (2 ^ 30 <=? w) with false by lia.
  rewrite (run_query _ _ _ _ (try_load_spec m w Hm Hw)), vmem_word by done. destruct (if decide _ then _ else _) as [v|].
  - exists m. split; [done|by apply same_refl].
  - apply peek_ram_run; [done|by apply word_page].
Qed.

(** ** Stores *)

(** Memories that agree on the words agree. *)
Lemma words_eq f g : bytes_wf f -> bytes_wf g -> (forall w, 0 <= w < 2 ^ 30 -> le_load f (4 * w) 4 = le_load g (4 * w) 4) ->
  forall a, 0 <= a < 2 ^ 32 -> f a = g a.
Proof.
  intros Hf Hg E a Ha. pose proof (Z.div_mod a 4 ltac:(lia)) as Ed. pose proof (Z.mod_pos_bound a 4 ltac:(lia)).
  specialize (E (a / 4) ltac:(dlia)). pose proof (le_load_byte f (4 * (a / 4)) 4 (a mod 4) Hf ltac:(lia)) as E1.
  pose proof (le_load_byte g (4 * (a / 4)) 4 (a mod 4) Hg ltac:(lia)) as E2. rewrite E in E1. rewrite <- Ed in E1, E2. congruence.
Qed.

Lemma vmem_wf m : inv m -> bytes_wf (vmem m).
Proof. intros Hm. by apply mem_of_wf, vpages_wf. Qed.

Lemma le_load_store f w v w' : u32 v -> le_load (le_store f (4 * w) 4 v) (4 * w') 4 = if decide (w' = w) then v else le_load f (4 * w') 4.
Proof.
  intros Hv. destruct (decide (w' = w)) as [->|Hne].
  - rewrite (le_load_bytes _ _ _ v); [apply Z.mod_small; exact Hv|]. intros i Hi. by apply le_store_in.
  - apply le_load_ext. intros i Hi. apply le_store_out. lia.
Qed.

(** [m'] is [m] with the word [w] set to [v]. *)
Definition stored (m m' : PagedMemory) (w v : Z) : Prop :=
  inv m' /\ based m m' /\ forall a, 0 <= a < 2 ^ 32 -> vmem m' a = le_store (vmem m) (4 * w) 4 v a.

Lemma stored_words m m' w v : inv m -> inv m' -> based m m' -> u32 v ->
  (forall w', 0 <= w' < 2 ^ 30 -> le_load (vmem m') (4 * w') 4 = if decide (w' = w) then v else le_load (vmem m) (4 * w') 4) -> stored m m' w v.
Proof.
  intros Hm Hm' Hb Hv E. split; [done|]. split; [done|]. apply words_eq; [by apply vmem_wf|by apply le_store_wf, vmem_wf|].
  intros w' Hw'. rewrite le_load_store by done. by apply E.
Qed.

Lemma same_page w w' : WordAddr.page_idx w = WordAddr.page_idx w' -> w mod 256 = w' mod 256 -> w = w'.
Proof. unfold WordAddr.page_idx. change PAGE_WORDS with 256. dlia. Qed.

(** Setting a register sets the word that it lies over. *)
Definition set_reg (user : bool) (i v : Z) : PagedMemory -> PagedMemory :=
  if user then set_user_registers <[Z.to_nat i := v]> else set_machine_registers <[Z.to_nat i := v]>.

Lemma set_reg_run m w v (user : bool) : inv m -> 0 <= w < 2 ^ 30 -> u32 v -> WordAddr.page_idx w = SYS ->
  (if user then 32 else 0) <= w mod 256 < (if user then 32 else 0) + 32 ->
  stored m (set_reg user (w mod 256 - if user then 32 else 0) v m) w v.
Proof.
  intros Hm Hw Hv Ep Hk. set (i := w mod 256 - if user then 32 else 0).
  assert (Hr : forall l, regs_ok l -> regs_ok (<[Z.to_nat i := v]> l)).
  { intros l [Hl Hf]. split; [by rewrite length_insert|by apply Forall_insert]. }
  assert (Hm' : inv (set_reg user i v m)).
  { destruct (inv_cache _ Hm) as [ps Hps]. assert (Hps' : cache_ok (set_reg user i v m) ps) by (destruct user; constructor; apply Hps).
    destruct user; constructor; try apply Hm; try (by exists ps); apply Hr, Hm. }
  apply stored_words; try done; [by destruct user|]. intros w' Hw'. rewrite !vmem_word by done.
  assert (Ev : forall p, view (set_reg user i v m) p = view m p) by (intros p; by destruct user). rewrite Ev.
  destruct (decide (WordAddr.page_idx w' = SYS)) as [Ep'|Ep']; [|by rewrite decide_False by (intros ->; done)].
  assert (Hin : (Z.to_nat i < 32)%nat) by (unfold i; destruct user; lia).
  destruct (inv_user _ Hm) as [Hlu _], (inv_machine _ Hm) as [Hlm _]. pose proof (Z.mod_pos_bound w' 256 ltac:(lia)).
  destruct (decide (w' = w)) as [->|Hne].
  - unfold reg_word, i in *. destruct user; cbn [user_registers machine_registers set_reg set_user_registers set_machine_registers].
    + rewrite decide_False, decide_True, list_lookup_insert_eq by lia. done.
    + rewrite decide_True by lia. rewrite Z.sub_0_r in *. rewrite list_lookup_insert_eq by lia. done.
  - assert (Hmod : w' mod 256 <> w mod 256) by (intros E; apply Hne, same_page; congruence).
    f_equal. unfold reg_word, i in *. destruct user; cbn [user_registers machine_registers set_reg set_user_registers set_machine_registers].
    + destruct (decide (0 <= w' mod 256 < 32)); [done|]. destruct (decide (32 <= w' mod 256 < 64)); [|done]. apply list_lookup_insert_ne. lia.
    + destruct (decide (0 <= w' mod 256 < 32)); [|done]. apply list_lookup_insert_ne. lia.
Qed.

Lemma try_store_spec m w v : inv m -> 0 <= w < 2 ^ 30 -> u32 v ->
  (exists m', try_store_register w v m = (Ok true, m') /\ stored m m' w v) \/
  try_store_register w v m = (Ok false, m) /\ ~ (WordAddr.page_idx w = SYS /\ 0 <= w mod 256 < 64).
Proof.
  intros Hm Hw Hv. unfold try_store_register. pose proof (Z.mod_pos_bound w 256 ltac:(lia)).
  destruct (in_file_spec USER_REGS 32 w ltac:(by left) Hw) as [E1 S1]. destruct (in_file_spec MACHINE_REGS 0 w ltac:(by right) Hw) as [E2 S2].
  rewrite E1, E2. clear E1 E2. destruct (bool_decide_reflect (WordAddr.page_idx w = SYS /\ 32 <= w mod 256 < 32 + 32)) as [H1|H1];
    [|destruct (bool_decide_reflect (WordAddr.page_idx w = SYS /\ 0 <= w mod 256 < 0 + 32)) as [H2|H2]].
  - left. rewrite (S1 H1). change REG_MAX with 32. replace (w mod 256 - 32 <? 32) with true by lia. cbn [assert_].
    rewrite run_lift_Ok, run_modify. eexists. split; [reflexivity|]. apply (set_reg_run m w v true); tauto.
  - left. rewrite (S2 H2). change REG_MAX with 32. replace (w mod 256 - 0 <? 32) with true by lia. cbn [assert_].
    rewrite run_lift_Ok, run_modify. eexists. split; [reflexivity|]. apply (set_reg_run m w v false); tauto.
  - right. split; [done|]. intros [E Hk]. destruct (Z.lt_ge_cases (w mod 256) 32); [apply H2|apply H1]; split; lia || done.
Qed.

Lemma store_ram_run m w v : inv m -> 0 <= w < 2 ^ 30 -> u32 v -> ~ (WordAddr.page_idx w = SYS /\ 0 <= w mod 256 < 64) ->
  exists m', store_ram w v m = (Ok tt, m') /\ stored m m' w v.
Proof.
  intros Hm Hw Hv Hn. pose proof (word_page w Hw) as Hp. unfold store_ram.
  destruct (page_for_writing_run m _ Hm Hp) as (m1 & c & E1 & Hs & Et & Ed). rewrite (run_bind _ _ _ _ _ E1).
  pose proof (same_inv _ _ Hs) as Hm1. destruct (write_cached_run m1 c _ (Image.store w v) Hm1 Hp Et Ed) as (m2 & E2 & Hm2 & Hv2 & Eu & Ema & _ & Ei).
  { apply store_page_wf; [|done]. by apply (inv_pages _ Hm1). }
  exists m2. split; [done|]. apply stored_words; try done; [intros p; rewrite Ei; apply (same_based _ _ Hs)|]. intros w' Hw'. rewrite !vmem_word by done.
  pose proof (word_page w' Hw') as Hp'. rewrite Eu, Ema, (same_user _ _ Hs), (same_machine _ _ Hs), Hv2 by done.
  assert (El : Image.load (upd (view m1) (WordAddr.page_idx w) (Image.store w v (view m1 (WordAddr.page_idx w))) (WordAddr.page_idx w')) w' =
      if decide (w' = w) then v else Image.load (view m (WordAddr.page_idx w')) w').
  { unfold upd. destruct (decide (WordAddr.page_idx w' = WordAddr.page_idx w)) as [Ep|Ep].
    - rewrite load_store by (done || by apply (inv_pages _ Hm1)). rewrite (same_view _ _ Hs), <- Ep by done.
      destruct (decide (w' mod 256 = w mod 256)) as [Em|Em]; [by rewrite decide_True by by apply same_page|].
      by rewrite decide_False by (intros ->; done).
    - rewrite decide_False by (intros ->; done). by rewrite (same_view _ _ Hs). }
  rewrite El. destruct (decide (w' = w)) as [->|]; [|done]. destruct (decide (WordAddr.page_idx w = SYS)); [|done].
  pose proof (Z.mod_pos_bound w 256 ltac:(lia)). unfold reg_word. by rewrite !decide_False by (intros ?; apply Hn; split; [done|lia]).
Qed.

Lemma paged_store_run m w v : inv m -> 0 <= w < 2 ^ 30 -> u32 v -> exists m', store w v m = (Ok tt, m') /\ stored m m' w v.
Proof.
  intros Hm Hw Hv. unfold store. change MEMORY_END_ADDR with (2 ^ 30). replace (2 ^ 30 <=? w) with false by lia.
  destruct (try_store_spec m w v Hm Hw Hv) as [(m' & E & Hs)|[E Hn]]; rewrite (run_bind _ _ _ _ _ E).
  - by exists m'.
  - by apply store_ram_run.
Qed.

(** ** The register operations *)

Definition file (base : Z) : Prop := base = USER_REGS \/ base = MACHINE_REGS.

Lemma reg_word_addr base i : file base -> 0 <= i < 32 ->
  let k := if decide (base = USER_REGS) then 32 else 0 in
  0 <= base + i < 2 ^ 30 /\ WordAddr.page_idx (base + i) = SYS /\ (base + i) mod 256 = k + i.
Proof.
  intros Hb Hi. unfold WordAddr.page_idx, SYS. change PAGE_WORDS with 256.
  destruct Hb as [->| ->]; [rewrite decide_True by done; change USER_REGS with 1073725472|rewrite decide_False by done; change MACHINE_REGS with 1073725440];
    cbn zeta; split_and!; dlia.
Qed.

Lemma load_register_run m base i : inv m -> file base -> 0 <= i < 32 -> load_register base i m = Ok (le_load (vmem m) (4 * (base + i)) 4).
Proof.
  intros Hm Hb Hi. destruct (reg_word_addr base i Hb Hi) as (Hw & Ep & Ek). rewrite vmem_word, Ep, decide_True, Ek by done.
  unfold load_register, reg_word, reg_at. destruct (inv_user _ Hm) as [Hlu _], (inv_machine _ Hm) as [Hlm _].
  destruct Hb as [->| ->].
  - rewrite Z.eqb_refl, (decide_True (P := USER_REGS = USER_REGS)), decide_False, decide_True by (done || lia).
    replace (32 + i - 32) with i by lia. destruct (lookup_lt_is_Some_2 (user_registers m) (Z.to_nat i)) as [v ->]; [lia|done].
  - change (MACHINE_REGS =? USER_REGS) with false. rewrite Z.eqb_refl, (decide_False (P := MACHINE_REGS = USER_REGS)), decide_True by (done || lia).
    rewrite Z.add_0_l. destruct (lookup_lt_is_Some_2 (machine_registers m) (Z.to_nat i)) as [v ->]; [lia|done].
Qed.

Lemma store_register_run m base i v : inv m -> file base -> 0 <= i < 32 -> u32 v ->
  exists m', store_register base i v m = (Ok tt, m') /\ stored m m' (base + i) v.
Proof.
  intros Hm Hb Hi Hv. destruct (reg_word_addr base i Hb Hi) as (Hw & Ep & Ek). unfold store_register.
  destruct (inv_user _ Hm) as [Hlu _], (inv_machine _ Hm) as [Hlm _]. destruct Hb as [->| ->].
  - rewrite Z.eqb_refl. rewrite (decide_True (P := USER_REGS = USER_REGS)) in Ek by done. eexists. split.
    + rewrite (run_query _ _ _ tt); [reflexivity|]. rewrite Hlu. by replace (Z.to_nat i <? 32)%nat with true by (symmetry; apply Nat.ltb_lt; lia).
    + pose proof (set_reg_run m (USER_REGS + i) v true Hm Hw Hv Ep) as Hs. rewrite Ek in Hs. replace (32 + i - 32) with i in Hs by lia. apply Hs. lia.
  - change (MACHINE_REGS =? USER_REGS) with false. rewrite Z.eqb_refl. rewrite (decide_False (P := MACHINE_REGS = USER_REGS)) in Ek by done. eexists. split.
    + rewrite (run_query _ _ _ tt); [reflexivity|]. rewrite Hlm. by replace (Z.to_nat i <? 32)%nat with true by (symmetry; apply Nat.ltb_lt; lia).
    + pose proof (set_reg_run m (MACHINE_REGS + i) v false Hm Hw Hv Ep) as Hs. rewrite Ek in Hs. replace (0 + i - 0) with i in Hs by lia. apply Hs. lia.
Qed.

(** ** Commit and reset *)

Lemma write_registers_run m : inv m -> exists m', write_registers m = (Ok tt, m') /\ inv m' /\
  (forall p, is_page p -> view m' p = vpages m p) /\ user_registers m' = user_registers m /\ machine_registers m' = machine_registers m /\
  (forall i, rank (sget (page_states m) i) <= rank (sget (page_states m') i)) /\ sget (page_states m') (4194304 + SYS) = Dirty.
Proof.
  intros Hm. destruct (page_for_writing_run m SYS Hm sys_is_page) as (m1 & c & E1 & Hs & Et & Ed). pose proof (same_inv _ _ Hs) as Hm1.
  destruct (write_cached_run m1 c SYS (regs_page (user_registers m) (machine_registers m)) Hm1 sys_is_page Et Ed) as (m2 & E2 & Hm2 & Hv2 & Eu & Ema & Es & _).
  { apply regs_page_spec; [apply Hm|apply Hm|apply (inv_pages _ Hm1), sys_is_page]. }
  exists m2. split; [|split; [exact Hm2|split; [|split; [|split; [|split]]]]].
  - unfold write_registers. rewrite !run_gets, sys_page. cbv zeta.
    assert (Ew : unwrapped (page_for_writing SYS) m = (Ok c, m1)) by (unfold unwrapped; by rewrite E1).
    rewrite (run_bind _ _ _ _ _ Ew). exact E2.
  - intros p Hp. rewrite Hv2 by done. unfold upd, vpages. destruct (decide (p = SYS)) as [->|]; [by rewrite (same_view _ _ Hs) by apply sys_is_page|].
    by rewrite decide_True, (same_view _ _ Hs) by done.
  - by rewrite Eu, (same_user _ _ Hs).
  - by rewrite Ema, (same_machine _ _ Hs).
  - intros i. rewrite Es. apply (same_rank _ _ Hs).
  - by rewrite Es.
Qed.

(** The registers are in the page already. *)
Lemma vpages_written m m' : inv m -> inv m' -> (forall p, is_page p -> view m' p = vpages m p) ->
  user_registers m' = user_registers m -> machine_registers m' = machine_registers m -> forall p, vpages m' p = vpages m p.
Proof.
  intros Hm Hm' Hv Eu Ema p. unfold vpages at 1. rewrite Eu, Ema. destruct (decide (p = SYS)) as [->|].
  - rewrite Hv by apply sys_is_page. unfold vpages. rewrite decide_True by done.
    destruct (regs_page_spec (user_registers m) (machine_registers m) (view m SYS)) as [H1 H2]; [apply Hm|apply Hm|apply (inv_pages _ Hm), sys_is_page|].
    destruct (regs_page_spec (user_registers m) (machine_registers m) _ (inv_user _ Hm) (inv_machine _ Hm) H1) as [H3 H4].
    apply page_ext; [done..|]. intros k Hk. rewrite H4, H2. by destruct (reg_word _ _ _).
  - destruct (decide (is_page p)); [by apply Hv|]. unfold vpages. by rewrite !decide_False.
Qed.

(** A leaf that is dirty. *)
Definition dirty_page (m : PagedMemory) (p : Z) : Prop := sget (page_states m) (4194304 + p) = Dirty.

#[global] Instance dirty_page_dec m p : Decision (dirty_page m p).
Proof. unfold dirty_page. apply _. Defined.

Lemma commit_node_run m n partial : inv m -> is_node n -> exists m', commit_node n partial m =
    (Ok (if decide (4194304 <= n /\ sget (page_states m) n = Dirty) then <[n - 4194304 := view m (n - 4194304)]> partial else partial), m') /\
  inv m' /\ (forall p, is_page p -> view m' p = view m p) /\ page_states m' = page_states m /\
  user_registers m' = user_registers m /\ machine_registers m' = machine_registers m /\
  image m' = (if decide (4194304 <= n /\ sget (page_states m) n = Dirty) then <[n - 4194304 := view m (n - 4194304)]> (image m) else image m).
Proof.
  intros Hm Hn. unfold commit_node. rewrite pages_val. destruct (Z.ltb_spec n 4194304) as [Hlt|Hge].
  { exists m. rewrite !decide_False by lia. done. }
  unfold get_state. rewrite (run_query _ _ _ _ (states_get_spec _ _ (inv_states _ Hm) Hn)).
  destruct (decide (sget (page_states m) n = Dirty)) as [Ed|Ed].
  2:{ exists m. rewrite !decide_False by tauto. done. }
  rewrite !decide_True by done. set (p := n - 4194304). assert (Hp : is_page p) by (unfold is_node, is_page, p in *; lia).
  assert (Ep : page_idx n = p) by (unfold page_idx, sub32; rewrite pages_val; apply wrap_small; unfold fits, is_node in *; lia). rewrite Ep.
  rewrite lookup_table_run by done. assert (En : 4194304 + p = n) by lia.
  destruct (tget (page_table m) p) as [c|] eqn:Ec; [|apply cached_state in Ec; [|done..]; rewrite En in Ec; congruence].
  cbn [unwrap]. rewrite run_lift_Ok, (cached_read m p c), run_modify by done.
  assert (Hv : forall q, is_page q -> view (set_image (wi_set_page p (view m p)) m) q = view m q).
  { intros q Hq. unfold view at 1. cbn [page_table page_cache image set_image]. destruct (decide (q = p)) as [->|Hne].
    - destruct (inv_cache _ Hm) as [ps Hps]. rewrite Ec. cbn [mbind option_bind]. by rewrite (cached_run m ps p c Hps Hp Ec).
    - unfold view. do 2 f_equal. unfold wi_set_page, WorkingImage in *. by rewrite lookup_insert_ne. }
  eexists. split; [reflexivity|]. split; [|done]. constructor; try apply Hm.
  - destruct (inv_cache _ Hm) as [ps Hps]. exists ps. constructor; try apply Hps. intros q Hq Hd. rewrite Hv by done.
    cbn [image set_image page_states] in *. unfold wi_set_page, WorkingImage in *. rewrite lookup_insert_ne by (intros <-; by rewrite En in Hd).
    by apply (cache_clean _ _ Hps).
  - intros q Hq. rewrite Hv by done. by apply (inv_pages _ Hm).
Qed.

Lemma commit_loop_run l : forall m partial, inv m -> Forall is_node l -> exists partial' m', commit_loop l partial m = (Ok partial', m') /\
  inv m' /\ (forall p, is_page p -> view m' p = view m p) /\ page_states m' = page_states m /\
  user_registers m' = user_registers m /\ machine_registers m' = machine_registers m /\
  (forall p, partial' !! p = if decide (0 <= p /\ 4194304 + p ∈ l /\ dirty_page m p) then Some (view m p) else partial !! p) /\
  (forall p, image m' !! p = if decide (0 <= p /\ 4194304 + p ∈ l /\ dirty_page m p) then Some (view m p) else image m !! p).
Proof.
  induction l as [|n l IH]; intros m partial Hm Hl.
  - exists partial, m. split_and!; try done; intros p; rewrite decide_False; try done; intros (_ & Hx & _); by apply not_elem_of_nil in Hx.
  - apply Forall_cons in Hl as [Hn Hl]. destruct (commit_node_run m n partial Hm Hn) as (m1 & E1 & Hm1 & Hv1 & Es1 & Eu1 & Ema1 & Ei1).
    cbn [commit_loop]. rewrite (run_bind _ _ _ _ _ E1).
    match type of E1 with _ = (Ok ?x, _) => destruct (IH m1 x Hm1 Hl) as (partial' & m' & E & Hm' & Hv & Es & Eu & Ema & Hp & Hi) end.
    exists partial', m'. split; [exact E|]. split; [done|]. split; [intros p Hpp; by rewrite Hv, Hv1|].
    split; [by rewrite Es|]. split; [by rewrite Eu|]. split; [by rewrite Ema|].
    assert (Hstep : forall (x y : gmap Z Page), (forall p, y !! p = if decide (0 <= p /\ 4194304 + p ∈ l /\ dirty_page m1 p) then Some (view m1 p)
        else (if decide (4194304 <= n /\ sget (page_states m) n = Dirty) then <[n - 4194304 := view m (n - 4194304)]> x else x) !! p) ->
      forall p, y !! p = if decide (0 <= p /\ 4194304 + p ∈ n :: l /\ dirty_page m p) then Some (view m p) else x !! p).
    { intros x y Hy p. rewrite Hy. assert (Hd1 : dirty_page m1 p <-> dirty_page m p) by (unfold dirty_page; by rewrite Es1).
      destruct (decide (0 <= p /\ 4194304 + p ∈ l /\ dirty_page m1 p)) as [(H0 & H1 & H2%Hd1)|H1]; [|rewrite Hd1 in H1].
      - rewrite decide_True by (split_and!; [done|by right|done]). f_equal. apply Hv1. rewrite Forall_forall in Hl. specialize (Hl _ H1). unfold is_node, is_page in *. lia.
      - destruct (decide (4194304 <= n /\ sget (page_states m) n = Dirty)) as [[H2 H3]|H2].
        + destruct (decide (n - 4194304 = p)) as [Ep|Ep].
          * rewrite Ep, lookup_insert_eq, decide_True; [done|]. unfold dirty_page. replace (4194304 + p) with n by lia. split_and!; [lia|by left|done].
          * rewrite lookup_insert_ne, decide_False; [done| |done]. intros (H0 & [H4|H4]%elem_of_cons & H5); [lia|]. by apply H1.
        + rewrite decide_False; [done|]. intros (H0 & [H4|H4]%elem_of_cons & H5); [|by apply H1]. apply H2. rewrite <- H4. split; [lia|exact H5]. }
    split; [by apply Hstep|]. apply Hstep. intros p. rewrite Hi, Ei1. done.
Qed.

(** The image holds the memory. *)
Definition committed (m : PagedMemory) : Prop :=
  forall p, is_page p -> default Image.page_default (image m !! p) = vpages m p /\ view m p = vpages m p.

Lemma commit_run m : inv m -> exists partial m', commit m = (Ok partial, m') /\ inv m' /\ committed m' /\
  (forall p, vpages m' p = vpages m p) /\
  (forall i, rank (sget (page_states m) i) <= rank (sget (page_states m') i)) /\ dirty_page m' SYS /\
  (forall p, is_page p -> partial !! p = if decide (dirty_page m' p) then Some (vpages m p) else None).
Proof.
  intros Hm. destruct (write_registers_run m Hm) as (m1 & E1 & Hm1 & Hv1 & Eu1 & Ema1 & Hr1 & Hd1).
  unfold commit. rewrite (run_bind _ _ _ _ _ E1), run_gets. unfold keys. set (l := merge_sort Z.le (indexes (page_states m1))).
  assert (Hl : forall i, i ∈ l <-> sget (page_states m1) i <> Unloaded).
  { intros i. unfold l. rewrite merge_sort_Permutation. apply (states_indexes _ (inv_states _ Hm1)). }
  assert (Hf : Forall is_node l).
  { apply Forall_forall. intros i Hi. apply (inv_nodes _ Hm1), (states_indexes _ (inv_states _ Hm1)), Hl, Hi. }
  destruct (commit_loop_run l m1 ∅ Hm1 Hf) as (partial & m2 & E2 & Hm2 & Hv2 & Es2 & Eu2 & Ema2 & Hp & Hi).
  exists partial, m2. rewrite E2. clear E2.
  assert (Hvp : forall p, vpages m2 p = vpages m p).
  { apply vpages_written; [done..| |by rewrite Eu2|by rewrite Ema2]. intros p Hpp. rewrite Hv2 by done. by apply Hv1. }
  assert (Hd : forall p, is_page p -> 0 <= p /\ 4194304 + p ∈ l /\ dirty_page m1 p <-> dirty_page m2 p).
  { intros p Hpp. unfold dirty_page. rewrite Es2, Hl. split; [tauto|]. intros E. rewrite E. split; [apply Hpp|done]. }
  split; [done|]. split; [done|]. split; [|split; [done|split; [intros i; rewrite Es2; apply Hr1|split]]].
  - intros p Hpp. assert (Ev : view m2 p = vpages m2 p) by (rewrite Hv2, Hvp by done; by apply Hv1). split; [|done].
    rewrite Hi. destruct (decide _) as [Hx|Hx].
    + cbn [from_option]. unfold id. rewrite <- Ev. symmetry. by apply Hv2.
    + rewrite <- Ev, Hv2 by done. destruct (inv_cache _ Hm1) as [ps Hps]. symmetry. apply (cache_clean _ _ Hps p Hpp).
      intros E. apply Hx. rewrite (Hd p Hpp). unfold dirty_page. by rewrite Es2.
  - unfold dirty_page. by rewrite Es2.
  - intros p Hpp. rewrite Hp. destruct (decide (dirty_page m2 p)) as [Hx|Hx].
    + rewrite decide_True by by apply Hd. f_equal. by apply Hv1.
    + rewrite decide_False; [exact (lookup_empty (M := gmap Z) p)|]. by rewrite Hd.
Qed.

(** A fresh cache over the image. *)
Lemma fresh_inv im t s us ms te tr : table_ok t -> (forall p, tget t p = None) -> states_ok s -> (forall i, sget s i = Unloaded) ->
  (forall p, is_page p -> page_wf (default Image.page_default (im !! p))) -> regs_ok us -> regs_ok ms ->
  let m := mkPaged im t [] s RESERVED_PAGING_CYCLES us ms te tr in
  inv m /\ forall p, view m p = default Image.page_default (im !! p).
Proof.
  intros Ht Htn Hs Hsn Hw Hu Hma m. assert (Hi : indexes s = []).
  { destruct (indexes s) as [|i l] eqn:E; [done|]. exfalso. apply (proj1 (states_indexes _ Hs i)); [rewrite E; by left|apply Hsn]. }
  assert (Hv : forall p, view m p = default Image.page_default (im !! p)) by (intros p; apply view_uncached; apply Htn).
  split; [|done]. constructor; cbn [page_table page_states cycles m]; try done.
  - exists []. constructor; cbn [page_table page_states m]; [done|constructor|..].
    + intros p Hp. by apply not_elem_of_nil in Hp.
    + intros p c _. rewrite Htn. split; [done|]. intros [_ E]. done.
    + intros p _. rewrite Hsn. split; [|done]. intros Hp. by apply not_elem_of_nil in Hp.
    + intros p _ _. apply Hv.
  - intros i Hx. rewrite Hi in Hx. by apply not_elem_of_nil in Hx.
  - intros i _. by rewrite !Hsn.
  - split; [done|]. unfold paid, state_cost. cbn [page_states cycles m]. rewrite Hi. done.
  - intros p Hp. rewrite Hv. by apply Hw.
Qed.

Lemma reset_run m : inv m -> committed m -> inv (reset m) /\ (forall p, vpages (reset m) p = vpages m p).
Proof.
  intros Hm Hc. destruct (table_clear_spec _ (inv_table _ Hm)) as [Ht Htn]. destruct (states_clear_spec _ (inv_states _ Hm)) as [Hs Hsn].
  destruct (fresh_inv (image m) (table_clear (page_table m)) (states_clear (page_states m)) (user_registers m) (machine_registers m)
    (tracing_enabled m) (trace_events m) Ht Htn Hs Hsn) as [Hi Hv]; [|apply Hm|apply Hm|].
  { intros p Hp. rewrite (proj1 (Hc p Hp)). by apply vpages_wf. }
  split; [exact Hi|]. apply vpages_written; [done|exact Hi| |done|done]. intros p Hp. unfold reset. rewrite Hv. by apply Hc.
Qed.

Section Hash.
Context `{ImageHash}.

Lemma paged_new_run im F te : img_ok im F -> pages_wf F ->
  exists m, paged_new im te = Ok m /\ inv m /\ committed m /\ forall p, is_page p -> vpages m p = F p.
Proof.
  intros Him HF. unfold paged_new. rewrite sys_page, (get_page_run im F SYS Him sys_is_page). cbn [mbind outcome_bind].
  set (file base := map (fun idx => Image.load (F SYS) (WordAddr.add_usize base idx)) (seqZ 0 REG_MAX)).
  assert (Hfile : forall base, regs_ok (file base)).
  { intros base. split; [done|]. apply Forall_fmap, Forall_true. intros i. by apply load_u32. }
  destruct table_new_spec as [Ht Htn]. destruct states_new_spec as [Hs Hsn].
  assert (Hpg : forall p, is_page p -> default Image.page_default (Image.into_pages im !! p) = F p).
  { intros p Hp. unfold Image.into_pages. destruct (ok_pages _ _ Him p Hp) as [E|[E E']]; rewrite E; [done|by rewrite E']. }
  destruct (fresh_inv (Image.into_pages im) table_new (states_new NUM_PAGE_STATES) (file USER_REGS) (file MACHINE_REGS) te [] Ht Htn Hs Hsn) as [Hi Hv];
    [intros p Hp; by rewrite Hpg|apply Hfile|apply Hfile|].
  eexists. split; [reflexivity|]. cbv zeta in Hi, Hv. set (m := mkPaged _ _ _ _ _ _ _ _ _) in *. split; [exact Hi|].
  assert (Hvp : forall p, is_page p -> vpages m p = F p).
  { intros p Hp. unfold vpages. destruct (decide (p = SYS)) as [->|]; [|by rewrite decide_True, Hv, Hpg].
    rewrite Hv, Hpg by done. destruct (regs_page_spec (user_registers m) (machine_registers m) (F SYS) (Hfile _) (Hfile _) (HF _)) as [H1 H2].
    apply page_ext; [done|apply HF|]. intros k Hk. rewrite H2, Z.mod_small by lia. unfold reg_word. cbn [user_registers machine_registers m].
    assert (El : forall base i, 0 <= i < 32 -> file base !! Z.to_nat i = Some (Image.load (F SYS) (WordAddr.add_usize base i))).
    { intros base i Hx. unfold file. change (map ?f ?l) with (f <$> l). rewrite list_lookup_fmap, lookup_seqZ_lt by (change REG_MAX with 32; lia).
      cbn. by rewrite Z2Nat.id by lia. }
    destruct (decide (0 <= k < 32)) as [Hk1|Hk1].
    - rewrite El by done. cbn. apply load_mod. rewrite machine_word by done. dlia.
    - destruct (decide (32 <= k < 64)) as [Hk2|Hk2]; [|done]. rewrite El by lia. cbn. apply load_mod. rewrite user_word by lia. dlia. }
  split; [|exact Hvp]. intros p Hp. rewrite Hvp, Hv by done. split; exact (Hpg p Hp).
Qed.

End Hash.

(** ** The partial image *)

Section Partial_.
Context `{ImageHash}.
#[local] Opaque Image.zero_digests zero_h.

(** A set of nodes with all of their ancestors. *)
Definition closed (T : gset Z) : Prop := forall i, i ∈ T -> is_node i /\ (i = 1 \/ i / 2 ∈ T).

(** The image that is built when the pages [A] and the uncles among [U] are copied. *)
Record part (F : Z -> Page) (T : gset Z) (A U : list Z) (m : Image.MemoryImage) : Prop := mkPart {
  part_pages n : n ∈ A -> Image.pages m !! (n - 4194304) = Some (F (n - 4194304));
  part_dirty j : j ∈ Image.dirty m -> j ∈ T /\ (j = 1 \/ j / 2 ∈ Image.dirty m);
  part_leaf n : n ∈ A -> n ∈ Image.dirty m;
  part_stale j : j ∈ Image.dirty m -> 4194304 <= j -> j ∈ A;
  part_root : is_Some (Image.digests m !! 1);
  part_digest c d : Image.digests m !! c = Some d -> c = 1 \/ c ∉ T /\ d = node_digest F c;
  part_uncle c : c ∈ U -> c ∉ T -> is_Some (Image.digests m !! c) /\ c / 2 ∈ Image.dirty m }.

Lemma mark_part F T A U m i j : closed T -> part F T A U m -> i ∈ T ->
  j ∈ Image.mark_dirty_loop 33 i (Image.dirty m) <-> j ∈ Image.dirty m \/ anc j i.
Proof.
  intros HT Hp Hi. apply mark_dirty_closed; [destruct (HT i Hi) as [[? ?] _]; lia|]. intros a Ha. by apply (part_dirty _ _ _ _ _ Hp).
Qed.

(** The ancestors of a node of the set. *)
Lemma anc_part F T A U m i j : closed T -> part F T A U m -> i ∈ T -> j ∈ Image.dirty m \/ anc j i ->
  j ∈ T /\ (j = 1 \/ j / 2 ∈ Image.mark_dirty_loop 33 i (Image.dirty m)).
Proof.
  intros HT Hp Hi [Hj|Ha].
  - destruct (part_dirty _ _ _ _ _ Hp j Hj) as [HjT Hu]. split; [done|]. destruct Hu as [?|Hu]; [by left|right].
    apply (mark_part F T A U m i _ HT Hp Hi). by left.
  - split; [apply (closed_anc T i); [intros a Ha'; by apply HT|done..]|]. destruct (Z.eq_dec j 1); [by left|right].
    apply (mark_part F T A U m i _ HT Hp Hi). right. apply anc_up; [done|]. destruct Ha; lia.
Qed.

Lemma copy_page_run F T A U m im n : closed T -> part F T A U m -> img_ok im F -> n ∈ T -> 4194304 <= n ->
  exists m', copy_page n (m, im) = (Ok tt, (m', im)) /\ part F T (n :: A) U m'.
Proof.
  intros HT Hp Him Hn Hge. destruct (HT n Hn) as [[Hn1 Hn2] _]. unfold copy_page.
  assert (Ep : page_idx n = n - 4194304) by (unfold page_idx, sub32; rewrite pages_val; apply wrap_small; unfold fits; lia).
  assert (Hpg : is_page (n - 4194304)) by (unfold is_page; lia).
  assert (E1 : on_input (Image.query (Image.get_page (page_idx n))) (m, im) = (Ok (F (n - 4194304)), (m, im))).
  { unfold on_input, Image.unwrapped, Image.query. by rewrite Ep, (get_page_run im F _ Him Hpg). }
  rewrite (run_bind _ _ _ _ _ E1). unfold on_partial, Image.set_page, Image.mark_dirty. rewrite run_modify, Ep.
  eexists. split; [reflexivity|]. rewrite page_node by done. replace (4194304 + (n - 4194304)) with n by lia.
  assert (Hm : forall j, j ∈ Image.mark_dirty_loop 33 n (Image.dirty m) <-> j ∈ Image.dirty m \/ anc j n) by (intros j; by apply (mark_part F T A U)).
  constructor; cbn [Image.pages Image.digests Image.dirty Image.set_dirty Image.set_pages].
  - intros k Hk. destruct (Z.eq_dec k n) as [->|Hne]; [apply lookup_insert_eq|]. rewrite lookup_insert_ne by lia.
    apply (part_pages _ _ _ _ _ Hp). by apply elem_of_cons in Hk as [?|].
  - intros j Hj. apply Hm in Hj. by apply (anc_part F T A U).
  - intros k Hk. apply Hm. apply elem_of_cons in Hk as [->|Hk]; [right; apply anc_refl; lia|left; by apply (part_leaf _ _ _ _ _ Hp)].
  - intros j Hj Hj2. apply elem_of_cons. apply Hm in Hj as [Hj|Ha]; [right; by apply (part_stale _ _ _ _ _ Hp)|left].
    apply anc_inv in Ha as [?|Ha]; [done|]. apply anc_le in Ha. dlia.
  - apply Hp.
  - apply Hp.
  - intros c Hc HcT. destruct (part_uncle _ _ _ _ _ Hp c Hc HcT) as [H1 H2]. split; [done|]. apply Hm. by left.
Qed.

Lemma copy_uncle_run F T A U m im c : closed T -> part F T A U m -> img_ok im F -> is_node c -> c / 2 ∈ T ->
  exists m' im', copy_uncle T c (m, im) = (Ok tt, (m', im')) /\ part F T A (c :: U) m' /\ img_ok im' F.
Proof.
  intros HT Hp Him Hc Hh. unfold copy_uncle. destruct (decide (c ∈ T)) as [HcT|HcT].
  { exists m, im. split; [done|]. split; [|done]. destruct Hp. constructor; try done. intros c' [->|Hc']%elem_of_cons Hn; [done|by apply part_uncle0]. }
  destruct (get_or_update_digest_run im F c Him Hc) as (im' & E & Him' & _).
  assert (E1 : on_input (Image.get_or_update_digest c) (m, im) = (Ok (node_digest F c), (m, im'))).
  { unfold on_input, Image.unwrapped. by rewrite E. }
  rewrite (run_bind _ _ _ _ _ E1). unfold on_partial, Image.set_digest, Image.mark_dirty. rewrite run_modify.
  eexists _, im'. split; [reflexivity|]. split; [|done].
  assert (Hm : forall j, j ∈ Image.mark_dirty_loop 33 (c / 2) (Image.dirty m) <-> j ∈ Image.dirty m \/ anc j (c / 2)) by (intros j; by apply (mark_part F T A U)).
  destruct (HT _ Hh) as [[Hh1 Hh2] _]. destruct Hc as [Hc1 Hc2].
  constructor; cbn [Image.pages Image.digests Image.dirty Image.set_dirty Image.set_digests].
  - apply Hp.
  - intros j Hj. apply Hm in Hj. by apply (anc_part F T A U).
  - intros k Hk. apply Hm. left. by apply (part_leaf _ _ _ _ _ Hp).
  - intros j Hj Hj2. apply Hm in Hj as [Hj|Ha]; [by apply (part_stale _ _ _ _ _ Hp)|]. apply anc_le in Ha. dlia.
  - destruct (Z.eq_dec c 1) as [->|Hne]; [rewrite lookup_insert_eq; by eexists|]. rewrite lookup_insert_ne by done. apply Hp.
  - intros k d Hk. destruct (Z.eq_dec k c) as [->|Hne]; [rewrite lookup_insert_eq in Hk; right; split; congruence|].
    rewrite lookup_insert_ne in Hk by done. by apply (part_digest _ _ _ _ _ Hp).
  - intros k Hk HkT. destruct (Z.eq_dec k c) as [->|Hne].
    + rewrite lookup_insert_eq. split; [by eexists|]. apply Hm. right. apply anc_refl. lia.
    + rewrite lookup_insert_ne by done. apply elem_of_cons in Hk as [?|Hk]; [done|].
      destruct (part_uncle _ _ _ _ _ Hp k Hk HkT) as [H1 H2]. split; [done|]. apply Hm. by left.
Qed.

Lemma copy_pages_run F T U l : closed T -> forall A m im, part F T A U m -> img_ok im F -> Forall (fun n => n ∈ T /\ 4194304 <= n) l ->
  exists m', for_nodes copy_page l (m, im) = (Ok tt, (m', im)) /\ part F T (rev l ++ A) U m'.
Proof.
  intros HT. induction l as [|n l IH]; intros A m im Hp Him Hl; [by exists m|]. apply Forall_cons in Hl as [[Hn Hge] Hl]. cbn [for_nodes].
  destruct (copy_page_run F T A U m im n HT Hp Him Hn Hge) as (m1 & E1 & Hp1). rewrite (run_bind _ _ _ _ _ E1).
  destruct (IH _ m1 im Hp1 Him Hl) as (m2 & E2 & Hp2). exists m2. split; [done|]. cbn [rev]. by rewrite <- app_assoc.
Qed.

Fixpoint children (l : list Z) : list Z := match l with [] => [] | n :: l => 2 * n :: 2 * n + 1 :: children l end.

Lemma children_in c l : c / 2 ∈ l -> c ∈ children l.
Proof.
  induction l as [|n l IH]; intros Hc; [by apply not_elem_of_nil in Hc|]. cbn [children]. rewrite !elem_of_cons.
  apply elem_of_cons in Hc as [Hc|Hc]; [|auto]. destruct (half_child c); [left|right; left]; lia.
Qed.

Lemma copy_uncles_run F T A l : closed T -> forall U m im, part F T A U m -> img_ok im F -> Forall (fun n => n ∈ T /\ n < 4194304) l ->
  exists m' im' U', for_nodes (copy_uncles T) l (m, im) = (Ok tt, (m', im')) /\ part F T A U' m' /\ img_ok im' F /\
    (forall c, c ∈ U \/ c ∈ children l -> c ∈ U').
Proof.
  intros HT. induction l as [|n l IH]; intros U m im Hp Him Hl.
  { exists m, im, U. split_and!; try done. intros c [?|Hc]; [done|by apply not_elem_of_nil in Hc]. }
  apply Forall_cons in Hl as [[Hn Hlt] Hl]. cbn [for_nodes children]. destruct (HT n Hn) as [[Hn1 Hn2] _].
  destruct (copy_uncle_run F T A U m im (n * 2) HT Hp Him) as (m1 & im1 & E1 & Hp1 & Him1); [unfold is_node; lia|by rewrite Z.div_mul by lia|].
  destruct (copy_uncle_run F T A _ m1 im1 (n * 2 + 1) HT Hp1 Him1) as (m2 & im2 & E2 & Hp2 & Him2); [unfold is_node; lia|by replace ((n * 2 + 1) / 2) with n by dlia|].
  assert (E : copy_uncles T n (m, im) = (Ok tt, (m2, im2))) by (unfold copy_uncles; rewrite (run_bind _ _ _ _ _ E1); exact E2).
  rewrite (run_bind _ _ _ _ _ E). destruct (IH _ m2 im2 Hp2 Him2 Hl) as (m3 & im3 & U' & E3 & Hp3 & Him3 & HU). exists m3, im3, U'.
  split; [done|]. split; [done|]. split; [done|]. intros c Hc. apply HU. rewrite !elem_of_cons in *. rewrite !(Z.mul_comm n 2). tauto.
Qed.

Lemma part_wf F T A U m : closed T -> 1 ∈ T -> part F T A U m -> (forall n, n ∈ T -> 4194304 <= n -> n ∈ A) ->
  (forall c, c / 2 ∈ T -> is_node c -> c ∈ U) -> wf (Image.pages m) (Image.digests m) (Image.dirty m) (node_digest F).
Proof.
  intros HT H1 Hp HA HU. assert (Hall : forall i, is_node i -> i ∈ T -> i ∈ Image.dirty m).
  { apply (node_ind (fun i => i ∈ T -> i ∈ Image.dirty m)).
    - intros i Hi HiT. apply (part_leaf _ _ _ _ _ Hp), HA; [done|lia].
    - intros i Hi IH _ HiT. destruct (decide (2 * i ∈ T)) as [Hc|Hc].
      + destruct (part_dirty _ _ _ _ _ Hp _ (IH Hc)) as [_ [?|Hu]]; [lia|]. by rewrite (child_half i) in Hu by (by left).
      + assert (Hh : 2 * i / 2 = i) by (apply child_half; by left).
        destruct (part_uncle _ _ _ _ _ Hp (2 * i)) as [_ Hu]; [apply HU; [by rewrite Hh|unfold is_node; lia]|done|]. by rewrite Hh in Hu. }
  assert (Hd : forall i, i ∈ Image.dirty m -> i ∈ T) by (intros i Hi; by apply (part_dirty _ _ _ _ _ Hp)).
  constructor.
  - intros i Hi. by apply HT, Hd.
  - intros i Hi. by apply (part_dirty _ _ _ _ _ Hp).
  - apply Hp.
  - intros i Hi Hge. destruct (HT i (Hd i Hi)) as [[? ?] _]. exists (F (i - 4194304)). rewrite pages_val.
    split; [by apply (part_pages _ _ _ _ _ Hp), (part_stale _ _ _ _ _ Hp)|]. rewrite node_digest_leaf, pages_val by lia. done.
  - intros i d Hi Ed. destruct (part_digest _ _ _ _ _ Hp i d Ed) as [->|[_ E]]; [|done]. exfalso. apply Hi, Hall; [unfold is_node; lia|done].
  - intros i Hi Hlt. destruct (HT i (Hd i Hi)) as [[? ?] _]. by apply node_digest_inner.
  - intros i Hi Hni Ed Hh. exfalso. destruct (part_uncle _ _ _ _ _ Hp i) as [[d E] _]; [apply HU; [by apply Hd|done]|intros HiT; by apply Hni, Hall|]. congruence.
Qed.

Lemma partial_run F T im : closed T -> 1 ∈ T -> img_ok im F ->
  exists m im' A U, compute_partial_image T im = (Ok m, im') /\ img_ok im' F /\ part F T A U m /\
    (forall n, n ∈ T -> 4194304 <= n -> n ∈ A) /\ (forall c, c / 2 ∈ T -> is_node c -> c ∈ U).
Proof.
  intros HT H1 Him. unfold compute_partial_image. set (nodes := sorted T).
  assert (Hn : forall i, i ∈ nodes <-> i ∈ T) by (intros i; unfold nodes, sorted; rewrite merge_sort_Permutation; apply elem_of_elements).
  assert (H0 : part F T [] [] Image.image_default).
  { pose proof (image_default_ok) as Hd. pose proof (ok_full _ _ Hd) as Hf. constructor; cbn [Image.dirty Image.pages Image.image_default].
    - intros n Hx. by apply not_elem_of_nil in Hx.
    - intros j Hj. by apply elem_of_empty in Hj.
    - intros n Hx. by apply not_elem_of_nil in Hx.
    - intros j Hj. by apply elem_of_empty in Hj.
    - apply (wf_root _ _ _ _ (full_wf _ _ _ _ Hf)).
    - intros c d Hx. unfold Image.image_default in Hx. cbn [Image.digests] in Hx. apply lookup_singleton_Some in Hx as [<- _]. by left.
    - intros c Hx. by apply not_elem_of_nil in Hx. }
  destruct (copy_pages_run F T [] (base.filter (fun n => MEMORY_PAGES <= n) nodes) HT [] _ im H0 Him) as (m1 & E1 & Hp1).
  { apply Forall_forall. intros n [Hge Hx]%list_elem_of_filter. by rewrite <- Hn. }
  destruct (copy_uncles_run F T _ (base.filter (fun n => n < MEMORY_PAGES) nodes) HT [] m1 im Hp1 Him) as (m2 & im2 & U & E2 & Hp2 & Him2 & HU).
  { apply Forall_forall. intros n [Hlt Hx]%list_elem_of_filter. by rewrite <- Hn. }
  exists m2, im2, (rev (base.filter (fun n => MEMORY_PAGES <= n) nodes) ++ []), U. rewrite (run_bind _ _ _ _ _ E1), E2.
  split; [done|]. split; [done|]. split; [done|]. split.
  - intros n Hx Hge. rewrite app_nil_r, list_elem_of_In, <- in_rev, <- list_elem_of_In. apply list_elem_of_filter. by rewrite Hn.
  - intros c Hc [Hc1 Hc2]. apply HU. right. apply children_in, list_elem_of_filter. rewrite Hn. split; [rewrite pages_val; dlia|done].
Qed.

(** C20: The partial image of a segment stands for its initial image.  For a complete image of the pages [F]
    and any set of nodes of the tree with the root and all ancestors (what the paged memory
    says it touched), [compute_partial_image] succeeds; the image that it builds holds the
    pages of the set, and the digests of the uncles make its image id the Merkle root of
    all of the pages [F], although it holds only the touched ones.  The input image still
    holds [F]. *)
Theorem partial_image_sound F T im : closed T -> 1 ∈ T -> img_ok im F ->
  exists m im', compute_partial_image T im = (Ok m, im') /\ img_ok im' F /\
    (forall p, is_page p -> 4194304 + p ∈ T -> Image.get_page p m = Ok (F p)) /\
    exists m', Image.image_id m = (Ok (dig F 22 1), m').
Proof.
  intros HT H1 Him. destruct (partial_run F T im HT H1 Him) as (m & im' & A & U & E & Him' & Hp & HA & HU).
  exists m, im'. split; [exact E|]. split; [done|]. split.
  - intros p Hp' Hin. unfold Image.get_page. pose proof (part_pages _ _ _ _ _ Hp (4194304 + p)) as Hx.
    replace (4194304 + p - 4194304) with p in Hx by lia. rewrite Hx; [done|]. apply HA; [done|]. unfold is_page in Hp'. lia.
  - pose proof (part_wf F T A U m HT H1 Hp HA HU) as Hw.
    destruct (update_digests_run m (node_digest F) (fun _ _ => True) Hw) as (ds & Eu & Hw' & _); [done..|].
    eexists. unfold Image.image_id. rewrite (run_bind _ _ _ _ _ Eu). unfold Image.query, Image.get_digest. cbn [Image.dirty Image.digests].
    rewrite bool_decide_eq_true_2 by set_solver. cbn [ensure mbind outcome_bind].
    destruct (wf_root _ _ _ _ Hw') as [d Ed]. rewrite Ed. cbn [Image.unwrap_ok]. rewrite <- (wf_clean _ _ _ _ Hw' 1 d); [reflexivity|set_solver|done].
Qed.

(** C19: The paged memory behaves as flat memory.  A fresh paged memory over a complete
    image of the pages [F] has the bytes of [F].  In every state that satisfies the
    invariant, loading or peeking a word returns the little-endian word of the bytes
    (through the cache, from the image, or from a register file that lies over its
    words) and changes no byte; storing a word changes exactly its four bytes; the
    register operations act on the words of their file; and only addresses past the
    end of memory are errors, which leave the memory alone. *)
Theorem paged_memory_is_memory :
  (forall im F te, img_ok im F -> pages_wf F -> exists m, paged_new im te = Ok m /\ inv m /\
    forall a, 0 <= a < 2 ^ 32 -> vmem m a = mem_of F a) /\
  forall m, inv m ->
    (forall w, 0 <= w < 2 ^ 30 -> exists m', load w m = (Ok (le_load (vmem m) (4 * w) 4), m') /\ inv m' /\ forall a, vmem m' a = vmem m a) /\
    (forall w, 0 <= w < 2 ^ 30 -> exists m', peek w m = (Ok (le_load (vmem m) (4 * w) 4), m') /\ inv m' /\ forall a, vmem m' a = vmem m a) /\
    (forall w v, 0 <= w < 2 ^ 30 -> u32 v -> exists m', store w v m = (Ok tt, m') /\ stored m m' w v) /\
    (forall base i, file base -> 0 <= i < 32 -> load_register base i m = Ok (le_load (vmem m) (4 * (base + i)) 4)) /\
    (forall base i v, file base -> 0 <= i < 32 -> u32 v -> exists m', store_register base i v m = (Ok tt, m') /\ stored m m' (base + i) v) /\
    (forall w v, 2 ^ 30 <= w -> load w m = (Err (InvalidLoad w), m) /\ peek w m = (Err (InvalidPeek w), m) /\ store w v m = (Err (InvalidStore w), m)).
Proof.
  split.
  - intros im F te Him HF. destruct (paged_new_run im F te Him HF) as (m & E & Hm & _ & Hv). exists m. split; [done|]. split; [done|].
    intros a Ha. unfold vmem, mem_of. rewrite Hv; [done|]. unfold is_page. dlia.
  - intros m Hm. assert (Hs : forall m', same m m' -> inv m' /\ forall a, vmem m' a = vmem m a).
    { intros m' Hs. split; [apply Hs|]. intros a. unfold vmem, mem_of. by rewrite (same_vpages _ _ Hs). }
    split_and!.
    + intros w Hw. destruct (paged_load_run m w Hm Hw) as (m' & E & Hm'). eauto.
    + intros w Hw. destruct (peek_run m w Hm Hw) as (m' & E & Hm'). eauto.
    + intros w v Hw Hv. by apply paged_store_run.
    + intros base i Hb Hi. by apply load_register_run.
    + intros base i v Hb Hi Hv. by apply store_register_run.
    + intros w v Hw. unfold load, peek, store. change MEMORY_END_ADDR with (2 ^ 30). replace (2 ^ 30 <=? w) with true by lia. done.
Qed.

(** The end of a segment.  [commit] succeeds: the image then holds every byte of the
    memory, registers included, and the image that it returns has exactly the dirty
    pages, as they are in memory.  [reset] then drops the cache and starts the cycle
    count again, and the next segment sees the same memory. *)
Theorem paged_commit_reset m : inv m ->
  exists partial m', commit m = (Ok partial, m') /\ inv m' /\ committed m' /\ (forall a, vmem m' a = vmem m a) /\
    (forall p, is_page p -> partial !! p = if decide (dirty_page m' p) then Some (vpages m p) else None) /\
    inv (reset m') /\ (forall a, vmem (reset m') a = vmem m a) /\ cycles (reset m') = RESERVED_PAGING_CYCLES /\
    forall i, sget (page_states (reset m')) i = Unloaded.
Proof.
  intros Hm. destruct (commit_run m Hm) as (partial & m' & E & Hm' & Hc & Hv & _ & _ & Hp). destruct (reset_run m' Hm' Hc) as [Hr Hvr].
  exists partial, m'. split; [done|]. split; [done|]. split; [done|]. split; [intros a; unfold vmem, mem_of; by rewrite Hv|].
  split; [done|]. split; [done|]. split; [intros a; unfold vmem, mem_of; by rewrite Hvr, Hv|]. split; [done|]. apply states_clear_spec, Hm'.
Qed.

(** The paged memories of an execution: from an image, by loads, peeks, stores and register stores, and by ending segments. *)
Inductive paged_reach : PagedMemory -> Prop :=
  | reach_new im F te m : img_ok im F -> pages_wf F -> paged_new im te = Ok m -> paged_reach m
  | reach_load m w : paged_reach m -> 0 <= w -> paged_reach (snd (load w m))
  | reach_peek m w : paged_reach m -> 0 <= w -> paged_reach (snd (peek w m))
  | reach_store m w v : paged_reach m -> 0 <= w -> u32 v -> paged_reach (snd (store w v m))
  | reach_register m base i v : paged_reach m -> file base -> 0 <= i < 32 -> u32 v -> paged_reach (snd (store_register base i v m))
  | reach_commit m : paged_reach m -> paged_reach (reset (snd (commit m))).

Lemma reach_inv m : paged_reach m -> inv m.
Proof.
  induction 1 as [im F te m Him HF E|m w _ IH Hw|m w _ IH Hw|m w v _ IH Hw Hv|m base i v _ IH Hb Hi Hv|m _ IH].
  - destruct (paged_new_run im F te Him HF) as (m' & E' & Hm & _). congruence.
  - destruct (Z.lt_ge_cases w (2 ^ 30)); [destruct (paged_load_run m w IH) as (m' & E & Hs); [done|]; rewrite E; apply Hs|].
    unfold load. change MEMORY_END_ADDR with (2 ^ 30). by replace (2 ^ 30 <=? w) with true by lia.
  - destruct (Z.lt_ge_cases w (2 ^ 30)); [destruct (peek_run m w IH) as (m' & E & Hs); [done|]; rewrite E; apply Hs|].
    unfold peek. change MEMORY_END_ADDR with (2 ^ 30). by replace (2 ^ 30 <=? w) with true by lia.
  - destruct (Z.lt_ge_cases w (2 ^ 30)); [destruct (paged_store_run m w v IH) as (m' & E & Hs); [done..|]; rewrite E; apply Hs|].
    unfold store. change MEMORY_END_ADDR with (2 ^ 30). by replace (2 ^ 30 <=? w) with true by lia.
  - destruct (store_register_run m base i v IH Hb Hi Hv) as (m' & E & Hs). rewrite E. apply Hs.
  - destruct (commit_run m IH) as (partial & m' & E & Hm' & Hc & _). rewrite E. by apply reset_run.
Qed.

(** C22: Paging is paid for exactly.  In every paged memory of an execution the cycles are
    the reserved cycles plus, for every node that is loaded, its cost once, and twice
    when it is dirty, and never wrap; the touched nodes are distinct nodes of the
    tree with all of their ancestors, each at least as dirty as the nodes below it;
    and a page is cached if and only if its leaf is touched. *)
Theorem paging_accounting m : paged_reach m ->
  cycles m = RESERVED_PAGING_CYCLES + state_cost (page_states m) /\ cycles m < 2 ^ 32 /\
  NoDup (keys (page_states m)) /\ closed (page_indexes m) /\
  (forall i, 2 <= i -> rank (sget (page_states m) i) <= rank (sget (page_states m) (i / 2))) /\
  (forall p, is_page p -> tget (page_table m) p <> None <-> 4194304 + p ∈ page_indexes m).
Proof.
  intros Hr. pose proof (reach_inv m Hr) as Hm. pose proof (inv_states _ Hm) as Hs.
  pose proof (state_cost_bound _ Hs (inv_nodes _ Hm)) as Hb. destruct (inv_cycles _ Hm) as [Hc Hp].
  assert (Hin : forall i, i ∈ page_indexes m <-> sget (page_states m) i <> Unloaded).
  { intros i. unfold page_indexes, keys. rewrite elem_of_list_to_set. apply (states_indexes _ Hs). }
  split.
  { change RESERVED_PAGING_CYCLES with 10 in *. unfold paid, wrap in Hp. unfold fits in Hc.
    destruct (Z.lt_ge_cases (cycles m) (state_cost (page_states m))); [rewrite <- (Z.mod_add _ 1), Z.mod_small in Hp by lia; lia|].
    rewrite Z.mod_small in Hp by lia. lia. }
  split; [apply Hc|]. split; [apply Hs|]. split; [|split; [apply (inv_up _ Hm)|]].
  - intros i Hi. pose proof (proj1 (Hin i) Hi) as Hi'. pose proof (inv_nodes _ Hm i (proj2 (states_indexes _ Hs i) Hi')) as Hn. split; [done|].
    destruct (Z.eq_dec i 1); [by left|right]. apply Hin. intros E. pose proof (inv_up _ Hm i) as Hu. rewrite E in Hu. unfold is_node in Hn.
    specialize (Hu ltac:(lia)). destruct (sget (page_states m) i); cbn in Hu; done || lia.
  - intros p Hpp. rewrite Hin. by rewrite (cached_state m p Hm Hpp).
Qed.

End Partial_.

(** ** Witnesses *)

Lemma zero_memory_ok : img_ok Image.image_default (fun _ => Image.page_default) /\ pages_wf (fun _ => Image.page_default).
Proof. split; [apply image_default_ok|apply zero_pages_wf]. Qed.

(** The path from a leaf to the root. *)
Lemma path_closed : closed (Image.mark_dirty_loop 33 4194309 ∅) /\ forall j, j ∈ Image.mark_dirty_loop 33 4194309 ∅ <-> anc j 4194309.
Proof.
  assert (Hj : forall j, j ∈ Image.mark_dirty_loop 33 4194309 ∅ <-> anc j 4194309).
  { intros j. rewrite mark_dirty_closed; [set_solver|lia|intros a Ha; by apply elem_of_empty in Ha]. }
  split; [|done]. intros i. rewrite !Hj. intros Ha. split; [pose proof (anc_le _ _ Ha); destruct Ha; unfold is_node; lia|].
  destruct (Z.eq_dec i 1); [by left|right]. apply anc_up; [done|]. destruct Ha. lia.
Qed.

Lemma partial_image_sound_witness : exists m im' m',
  compute_partial_image (Image.mark_dirty_loop 33 4194309 ∅) Image.image_default = (Ok m, im') /\
  Image.get_page 5 m = Ok Image.page_default /\ Image.image_id m = (Ok (dig (fun _ => Image.page_default) 22 1), m').
Proof.
  destruct path_closed as [Hc Hj]. destruct (partial_image_sound (fun _ => Image.page_default) _ Image.image_default Hc) as (m & im' & E & _ & Hp & m' & Ei).
  - apply Hj. split; [lia|]. exists 22%nat. reflexivity.
  - apply zero_memory_ok.
  - exists m, im', m'. split; [exact E|]. split; [|exact Ei]. apply Hp; [unfold is_page; lia|]. apply Hj, anc_refl. lia.
Defined.

Lemma paged_memory_is_memory_witness : exists m m1 m2,
  paged_new Image.image_default false = Ok m /\ store 300 7 m = (Ok tt, m1) /\ load 300 m1 = (Ok 7, m2).
Proof.
  destruct zero_memory_ok as [Hi Hw]. destruct (proj1 paged_memory_is_memory Image.image_default _ false Hi Hw) as (m & E & Hm & _).
  destruct (proj2 paged_memory_is_memory m Hm) as (_ & _ & Hst & _). destruct (Hst 300 7 ltac:(lia) ltac:(unfold fits; lia)) as (m1 & E1 & Hm1 & Hv).
  destruct (proj2 paged_memory_is_memory m1 Hm1) as (Hl & _). destruct (Hl 300 ltac:(lia)) as (m2 & E2 & _).
  exists m, m1, m2. split; [exact E|]. split; [exact E1|]. rewrite E2. do 2 f_equal.
  transitivity (le_load (le_store (vmem m) (4 * 300) 4 7) (4 * 300) 4).
  - apply le_load_ext. intros i Hx. apply Hv. lia.
  - rewrite le_load_store by (unfold fits; lia). reflexivity.
Defined.

Lemma paged_commit_reset_witness : exists m partial m', paged_new Image.image_default false = Ok m /\
  commit m = (Ok partial, m') /\ inv (reset m').
Proof.
  destruct zero_memory_ok as [Hi Hw]. destruct (paged_new_run Image.image_default _ false Hi Hw) as (m & E & Hm & _).
  destruct (paged_commit_reset m Hm) as (partial & m' & E' & _ & _ & _ & _ & Hr & _). exists m, partial, m'. split; [exact E|]. split; [exact E'|exact Hr].
Defined.

Lemma paging_accounting_witness : exists m, paged_new Image.image_default false = Ok m /\
  cycles (snd (store 300 7 m)) = RESERVED_PAGING_CYCLES + state_cost (page_states (snd (store 300 7 m))).
Proof.
  destruct zero_memory_ok as [Hi Hw]. destruct (paged_new_run Image.image_default _ false Hi Hw) as (m & E & _). exists m. split; [exact E|].
  apply (paging_accounting (snd (store 300 7 m))). apply reach_store; [|lia|unfold fits; lia]. exact (reach_new _ _ _ _ Hi Hw E).
Defined.
