(* ===== verification/P2Ecall.v ===== *)
(** * The Poseidon2 ecall

    The accelerator reads blocks from guest memory (field elements, or words that are
    split into two halves), runs the permutation on its sponge and stores or checks
    the digest.  [rest_with_mix] is generic in the step that permutes the cells: the
    executor's is [Executor.p2_mix]. *)
From S2P Require Export R0ctx Poseidon2.
Import Merkle(DIGEST_WORDS).
Open Scope word_scope.
Open Scope Z_scope.

Module P2Ecall.

(* source: src/risc0/risc0/circuit/rv32im/src/execute/poseidon2.rs *)

Definition set_inner (f : list Z -> list Z) (p : Poseidon2State) : Poseidon2State :=
  mkP2 (has_state p) (state_addr p) (buf_out_addr p) (is_elem p) (check_out p) (p2_next_state p) (sub_state p) (buf_in_addr p) (p2_count p) (f (inner p)).
Definition set_buf_in (a : Z) (p : Poseidon2State) : Poseidon2State :=
  mkP2 (has_state p) (state_addr p) (buf_out_addr p) (is_elem p) (check_out p) (p2_next_state p) (sub_state p) a (p2_count p) (inner p).
Definition set_count (c : Z) (p : Poseidon2State) : Poseidon2State :=
  mkP2 (has_state p) (state_addr p) (buf_out_addr p) (is_elem p) (check_out p) (p2_next_state p) (sub_state p) (buf_in_addr p) c (inner p).
Definition set_next (n : CycleState) (s : Z) (p : Poseidon2State) : Poseidon2State :=
  mkP2 (has_state p) (state_addr p) (buf_out_addr p) (is_elem p) (check_out p) n s (buf_in_addr p) (p2_count p) (inner p).

(** The address of a null pointer is zero. *)
(* L40-59 Poseidon2State::new_ecall *)
Definition new_ecall (state_addr buf_in_addr buf_out_addr bits_count : Z) : Poseidon2State :=
  let is_elem := bits_count .& PFLAG_IS_ELEM in
  let check_out := bits_count .& PFLAG_CHECK_OUT in
  mkP2 (if WordAddr.is_null state_addr then 0 else 1) state_addr buf_out_addr
    (if is_elem =? 0 then 0 else 1) (if check_out =? 0 then 0 else 1) PoseidonEntry 0 buf_in_addr
    (bits_count .& 0xffff) (replicate Poseidon2.CELLS 0).

(** The state of the sponge and the current cycle state, which the calls thread. *)
Definition locals : Type := Poseidon2State * CycleState.

Section Ecall.
Context {S : Type} `{Risc0Context S}.
Abbreviation M := (state S error).

(* L61-72 Poseidon2State::step *)
Definition step (next_state : CycleState) (sub_state : Z) (l : locals) : M locals :=
  let '(p, cur_state) := l in
  let p := set_next next_state sub_state p in
  modify (Ctx.on_poseidon2_cycle cur_state p);;
  mret (p, next_state).

Definition words : list Z := seqZ 0 (Z.of_nat DIGEST_WORDS).

(* L118-130 Poseidon2State::load_p2_state *)
Definition load_p2_state (l : locals) : M locals :=
  '(p, cur_state) ← step PoseidonLoadState 0 l;
  p ← for_each words (fun i p =>
    word ← Ctx.load_u32 Record (WordAddr.add_usize (state_addr p) i);
    mret (set_inner <[(DIGEST_WORDS * 2 + Z.to_nat i)%nat := word]> p)) p;
  mret (p, cur_state).

(** The stores of eight cells from [off] on. *)
Definition store_cells (addr : Z) (off : nat) (p : Poseidon2State) : M unit :=
  for_each words (fun i _ =>
    cell ← lift (unwrap (inner p !! (off + Z.to_nat i)%nat));
    Ctx.store_u32 (WordAddr.add_usize addr i) cell) tt.

(* L132-144 Poseidon2State::store_p2_state *)
Definition store_p2_state (l : locals) : M locals :=
  '(p, cur_state) ← step PoseidonStoreState 0 l;
  store_cells (state_addr p) (DIGEST_WORDS * 2) p;;
  mret (p, cur_state).

(** The loads of eight words into cells, from the address [buf_in_addr] that they advance. *)
Definition load_cells (put : nat -> Z -> list Z -> list Z) (p : Poseidon2State) (addr : Z) : M (Poseidon2State * Z) :=
  for_each words (fun i '(p, buf_in_addr) =>
    let '(cur, next) := WordAddr.postfix_inc buf_in_addr in
    word ← Ctx.load_u32 Record cur;
    mret (set_inner (put (Z.to_nat i) word) p, next)) (p, addr).

(* L146-177 Poseidon2State::load_buf_in *)
Definition load_buf_in (l : locals) : M locals :=
  let addr := buf_in_addr (fst l) in
  '(p, cur_state) ← step PoseidonLoadIn 0 l;
  if negb (is_elem p =? 0) then
    '(p, addr) ← load_cells (fun i word => <[i := word]>) p addr;
    let p := set_buf_in addr p in
    '(p, cur_state) ← step PoseidonLoadIn 1 (p, cur_state);
    '(p, addr) ← load_cells (fun i word => <[(DIGEST_WORDS + i)%nat := word]>) p addr;
    mret (set_buf_in addr p, cur_state)
  else
    '(p, addr) ← load_cells (fun i word cells => <[(2 * i + 1)%nat := word .>> 16]> (<[(2 * i)%nat := word .& 0xffff]> cells)) p addr;
    mret (set_buf_in addr p, cur_state).

Definition is_m3 : M bool := gets (fun s => Ctx.circuit_version s =? RV32IM_M3_CIRCUIT_VERSION).

(* L180-187 Poseidon2State::trash_digest *)
Definition trash_digest (p : Poseidon2State) : M unit :=
  m3 ← is_m3;
  if (m3 : bool) then store_cells (ByteAddr.waddr RV32IM_M3_P2_TRASH_ADDR) 0 p else mret tt.

(* L190-200 Poseidon2State::trash_state *)
Definition trash_state (p : Poseidon2State) : M unit :=
  m3 ← is_m3;
  if (m3 : bool) then store_cells (ByteAddr.waddr RV32IM_M3_P2_TRASH_ADDR) (DIGEST_WORDS * 2) p else mret tt.

(* L202-231 Poseidon2State::store_buf_out *)
Definition store_buf_out (l : locals) : M locals :=
  '(p, cur_state) ← step PoseidonDoOut 0 l;
  (if negb (check_out p =? 0) then
     for_each words (fun i _ =>
       word ← Ctx.load_u32 Record (WordAddr.add_usize (buf_out_addr p) i);
       cell ← lift (unwrap (inner p !! Z.to_nat i));
       if negb (word =? cell) then throw (ErrP2Check word cell) else mret tt) tt
   else store_cells (buf_out_addr p) 0 p);;
  mret (p, cur_state).

Section Mix.
Context (mix : locals -> M locals).

(* L93-101 Poseidon2State::rest_with_mix, the loop *)
Fixpoint blocks (fuel : nat) (l : locals) : M locals :=
  match fuel with
  | O => panic
  | Datatypes.S fuel =>
      if 0 <? p2_count (fst l) then
        l ← load_buf_in l;
        '(p, cur_state) ← mix l;
        let p := set_count (p2_count p - 1) p in
        (if negb (p2_count p =? 0) then trash_digest p else mret tt);;
        blocks fuel (p, cur_state)
      else mret l
  end.

(* L74-116 Poseidon2State::rest_with_mix *)
Definition rest_with_mix (final_state : CycleState) (p : Poseidon2State) : M Poseidon2State :=
  let l := (p, p2_next_state p) in
  l ← (if has_state p =? 1 then load_p2_state l else mret l);
  l ← blocks (Datatypes.S (Z.to_nat (p2_count p))) l;
  '(p, cur_state) ← store_buf_out l;
  let p := set_buf_in 0 p in
  l ← (if has_state p =? 1 then store_p2_state (p, cur_state) else trash_state p;; mret (p, cur_state));
  '(p, _) ← step final_state 0 l;
  mret p.
End Mix.

(* L237-249 Poseidon2::load_ecall *)
Definition load_ecall : M Poseidon2State :=
  state_addr ← load_aligned_addr_from_machine_register Record REG_A0;
  buf_in_addr ← load_aligned_addr_from_machine_register Record REG_A1;
  buf_out_addr ← load_aligned_addr_from_machine_register Record REG_A2;
  bits_count ← load_machine_register Record REG_A3;
  mret (new_ecall state_addr buf_in_addr buf_out_addr bits_count).

End Ecall.
End P2Ecall.
