(* ===== verification/P2EcallSpec.v ===== *)
(** * The Poseidon2 ecall computes the sponge

    [sponge] absorbs the blocks of a memory into cells and permutes them; the ecall
    leaves its digest, its state and nothing else outside the scratch words of the
    M3 circuit. *)
From S2P Require Export P2Ecall Sha2Refine Poseidon2Spec.
From S2P Require Import RefCtx.
Import Merkle(DIGEST_WORDS) P2Ecall.
Import Isa(le_load, le_store, is_reg).
Open Scope word_scope.
Open Scope Z_scope.

(** ** The reference *)

Definition wordm (m : Z -> Z) (w : Z) : Z := le_load m (4 * w) 4.

(** The sixteen cells of a block of field elements or of words. *)
Definition stride (elem : bool) : Z := if elem then 16 else 8.
Definition block (elem : bool) (m : Z -> Z) (a : Z) : list Z :=
  if elem then map (fun i => wordm m (a + i)) (seqZ 0 16)
  else seqZ 0 8 ≫= (fun i => [wordm m (a + i) .& 0xffff; wordm m (a + i) .>> 16]).

Fixpoint sponge (mixf : list Z -> list Z) (elem : bool) (n : nat) (m : Z -> Z) (a : Z) (cells : list Z) : list Z :=
  match n with
  | O => cells
  | S n => sponge mixf elem n m (a + stride elem) (mixf (block elem m a ++ drop 16 cells))
  end.

Definition write_words (m : Z -> Z) (a : Z) (ws : list Z) : Z -> Z := write_bytes m (4 * a) (ws ≫= to_le_bytes).

(** Cells: twenty-four words. *)
Definition cells_ok (l : list Z) : Prop := length l = 24%nat /\ Forall u32 l.

Lemma write_words_snoc m a ws v x : u32 v ->
  write_words m a (ws ++ [v]) x = le_store (write_words m a ws) (4 * (a + Z.of_nat (length ws))) 4 v x.
Proof.
  intros Hv. unfold write_words. rewrite bind_app, write_bytes_app. cbn [mbind list_bind]. rewrite app_nil_r.
  assert (Hl : length (ws ≫= to_le_bytes) = (4 * length ws)%nat).
  { clear. induction ws as [|w ws IH]; [done|]. cbn [mbind list_bind]. rewrite length_app, IH. cbn [length to_le_bytes map]. lia. }
  rewrite Hl. replace (4 * a + Z.of_nat (4 * length ws)) with (4 * (a + Z.of_nat (length ws))) by lia.
  rewrite <- (le_store_bytes _ _ (to_le_bytes v)).
  - change (length (to_le_bytes v)) with 4%nat. change (to_le_bytes v) with (le_bytes 4 v). rewrite from_le_bytes_le_bytes. do 2 f_equal. by apply Z.mod_small.
  - change (to_le_bytes v) with (le_bytes 4 v). apply le_bytes_u8.
Qed.

Lemma write_words_length ws : length (ws ≫= to_le_bytes) = (4 * length ws)%nat.
Proof. induction ws as [|w ws IH]; [done|]. cbn [mbind list_bind]. rewrite length_app, IH. cbn [length to_le_bytes map]. lia. Qed.

Lemma write_words_out m a ws x : x < 4 * a \/ 4 * a + 4 * Z.of_nat (length ws) <= x -> write_words m a ws x = m x.
Proof. intros Hx. unfold write_words. apply write_bytes_out. rewrite write_words_length. lia. Qed.

Lemma write_words_ext m m' a ws x : (forall x, m x = m' x) -> write_words m a ws x = write_words m' a ws x.
Proof. apply write_bytes_ext. Qed.

Lemma bind_pointwise_in {A B} (f g : A -> list B) l : (forall x, x ∈ l -> f x = g x) -> l ≫= f = l ≫= g.
Proof.
  induction l as [|x l IH]; intros E; [done|]. rewrite !bind_cons, (E x), IH; [done| |by left]. intros y Hy. apply E. by right.
Qed.

Section Spec.
Context {S : Type} `{CtxLaws S}.

(** Eight words that are mapped. *)
Definition words_mapped (a n : Z) : Prop := 0 <= a /\ a + n <= 2 ^ 30 /\ forall i, a <= i < a + n -> c_mapped i = true.

Lemma add_word a i n : words_mapped a n -> 0 <= i < n -> WordAddr.add_usize a i = a + i /\ c_mapped (a + i) = true.
Proof.
  intros (H1 & H2 & H3) Hi. split; [|apply H3; lia]. unfold WordAddr.add_usize, add32.
  rewrite (wrap_small 32 i), wrap_small; unfold fits; lia.
Qed.

Lemma p2_step_run s c next sub p cur : csim s c ->
  exists s', step next sub (p, cur) s = (Ok (set_next next sub p, next), s') /\ csim s' c.
Proof. intros Hs. unfold step. rewrite run_modify. eexists. split; [reflexivity|]. by apply csim_poseidon2_cycle. Qed.

(** The words of [m] put into the cells. *)
Definition put_words (put : nat -> Z -> list Z -> list Z) (m : Z -> Z) (a : Z) (n : nat) (cells : list Z) : list Z :=
  foldl (fun cells i => put i (wordm m (a + Z.of_nat i)) cells) cells (seq 0 n).

Lemma put_words_S put m a n cells : put_words put m a (Datatypes.S n) cells = put n (wordm m (a + Z.of_nat n)) (put_words put m a n cells).
Proof. unfold put_words. rewrite seq_S, foldl_app. done. Qed.

Lemma load_cells_run s c put p a : csim s c -> words_mapped a 8 ->
  exists s', load_cells put p a s = (Ok (set_inner (put_words put (c_mem c) a 8) p, a + 8), s') /\ csim s' c.
Proof.
  intros Hs Ha. unfold load_cells, words.
  destruct (for_each_inv (fun i s '(q, b) => csim s c /\ q = set_inner (put_words put (c_mem c) a (Z.to_nat i)) p /\ b = a + i)
    (fun i '(p, buf_in_addr) => let '(cur, next) := WordAddr.postfix_inc buf_in_addr in
       word ← Ctx.load_u32 Record cur; mret (set_inner (put (Z.to_nat i) word) p, next)) DIGEST_WORDS) with (s := s) (l := (p, a))
    as (s' & [q b] & E & Hs' & -> & ->).
  - intros i s0 [q b] Hi (Hs0 & -> & ->). change (Z.of_nat DIGEST_WORDS) with 8 in Hi. destruct (add_word a i 8 Ha Hi) as [_ Hm].
    unfold WordAddr.postfix_inc. destruct (csim_load s0 c Record _ Hs0 Hm) as (s1 & E1 & Hs1). rewrite (run_bind _ _ _ _ _ E1).
    eexists s1, _. split; [reflexivity|]. split; [done|]. split.
    + replace (Z.to_nat (i + 1)) with (Datatypes.S (Z.to_nat i)) by lia. unfold set_inner.
      cbn [has_state state_addr buf_out_addr is_elem check_out p2_next_state sub_state buf_in_addr p2_count inner]. rewrite put_words_S, Z2Nat.id by lia. reflexivity.
    + destruct Ha as (? & ? & _). unfold add32. rewrite wrap_small; [lia|unfold fits; lia].
  - split; [done|]. split; [by destruct p|lia].
  - exists s'. split; [exact E|done].
Qed.

Lemma store_cells_run s c a off p : csim s c -> words_mapped a 8 -> cells_ok (inner p) -> (off + 8 <= 24)%nat ->
  exists s', store_cells a off p s = (Ok tt, s') /\ csim s' (with_mem c (write_words (c_mem c) a (take 8 (drop off (inner p))))).
Proof.
  intros Hs Ha [Hl Hu] Ho. unfold store_cells, words. set (ws := take 8 (drop off (inner p))).
  assert (Hlw : length ws = 8%nat) by (unfold ws; rewrite length_take, length_drop; lia).
  destruct (for_each_inv (fun i s (_ : unit) => csim s (with_mem c (write_words (c_mem c) a (take (Z.to_nat i) ws))))
    (fun i (_ : unit) => cell ← lift (unwrap (inner p !! (off + Z.to_nat i)%nat)); Ctx.store_u32 (WordAddr.add_usize a i) cell) DIGEST_WORDS)
    with (s := s) (l := tt) as (s' & [] & E & Hs').
  - intros i s0 [] Hi Hs0. change (Z.of_nat DIGEST_WORDS) with 8 in Hi. destruct (add_word a i 8 Ha Hi) as [Ea Hm].
    destruct (lookup_lt_is_Some_2 (inner p) (off + Z.to_nat i)) as [v Ev]; [lia|]. rewrite Ev, Ea. cbn [unwrap]. rewrite run_lift_Ok.
    assert (Hv : u32 v) by (by eapply Forall_lookup_1).
    destruct (csim_store s0 _ (a + i) v Hs0 Hm Hv) as (s1 & E1 & Hs1). exists s1, tt. split; [exact E1|].
    eapply csim_eq; [exact Hs1|]. split; [done|]. split; [done|]. intros x. cbn [c_mem with_mem].
    replace (Z.to_nat (i + 1)) with (Datatypes.S (Z.to_nat i)) by lia. rewrite (take_S_r ws _ v), write_words_snoc by
      (done || (unfold ws; rewrite lookup_take_lt, lookup_drop by lia; done)).
    rewrite length_take, Hlw, Nat.min_l, Z2Nat.id by lia. done.
  - eapply csim_eq; [exact Hs|]. by split_and!.
  - exists s'. split; [exact E|]. change (Z.to_nat (Z.of_nat DIGEST_WORDS)) with 8%nat in Hs'. rewrite take_ge in Hs' by lia. exact Hs'.
Qed.

(** The fields that the loop does not change, and those that it does. *)
Record p2_at (p0 : Poseidon2State) (cells : list Z) (a cnt : Z) (p : Poseidon2State) : Prop := mkAt {
  at_has : has_state p = has_state p0; at_state : state_addr p = state_addr p0; at_out : buf_out_addr p = buf_out_addr p0;
  at_elem : is_elem p = is_elem p0; at_check : check_out p = check_out p0;
  at_cells : inner p = cells; at_in : buf_in_addr p = a; at_count : p2_count p = cnt }.

Definition elem_of_flag (f : Z) : bool := negb (f =? 0).

Lemma put_block_words m a cells : length cells = 24%nat ->
  put_words (fun i word cells => <[(2 * i + 1)%nat := word .>> 16]> (<[(2 * i)%nat := word .& 0xffff]> cells)) m a 8 cells
    = block false m a ++ drop 16 cells.
Proof. intros Hl. do 24 (destruct cells as [|? cells]; [done|]). destruct cells; [|done]. reflexivity. Qed.

Lemma put_block_elems m a cells : length cells = 24%nat ->
  put_words (fun i word => <[(DIGEST_WORDS + i)%nat := word]>) m (a + 8) 8 (put_words (fun i word => <[i := word]>) m a 8 cells)
    = block true m a ++ drop 16 cells.
Proof.
  intros Hl. do 24 (destruct cells as [|? cells]; [done|]). destruct cells; [|done].
  unfold put_words. cbn -[wordm Z.add]. unfold block. change (seqZ 0 16) with [0; 1; 2; 3; 4; 5; 6; 7; 8; 9; 10; 11; 12; 13; 14; 15].
  cbn -[wordm Z.add]. rewrite <- !Z.add_assoc. reflexivity.
Qed.

Lemma load_buf_in_run s c p0 cells a cnt p cur : csim s c -> p2_at p0 cells a cnt p -> length cells = 24%nat ->
  words_mapped a (stride (elem_of_flag (is_elem p0))) ->
  exists s' p', load_buf_in (p, cur) s = (Ok (p', PoseidonLoadIn), s') /\ csim s' c /\
    p2_at p0 (block (elem_of_flag (is_elem p0)) (c_mem c) a ++ drop 16 cells) (a + stride (elem_of_flag (is_elem p0))) cnt p'.
Proof.
  intros Hs [] Hl Ha. unfold load_buf_in. cbn [fst]. rewrite at_in0.
  destruct (p2_step_run s c PoseidonLoadIn 0 p cur Hs) as (s1 & E1 & Hs1). rewrite (run_bind _ _ _ _ _ E1). cbn [is_elem set_next]. rewrite at_elem0.
  unfold elem_of_flag in *. destruct (negb (is_elem p0 =? 0)) eqn:Ee; cbn [stride] in *.
  - assert (Ha1 : words_mapped a 8) by (destruct Ha as (? & ? & Hx); split_and!; [lia|lia|intros; apply Hx; lia]).
    assert (Ha2 : words_mapped (a + 8) 8) by (destruct Ha as (? & ? & Hx); split_and!; [lia|lia|intros; apply Hx; lia]).
    match goal with |- context [load_cells ?put ?q a] => destruct (load_cells_run s1 c put q a Hs1 Ha1) as (s2 & E2 & Hs2) end.
    rewrite (run_bind _ _ _ _ _ E2). cbv beta zeta iota.
    match goal with |- context [step PoseidonLoadIn 1 (?q, ?k)] => destruct (p2_step_run s2 c PoseidonLoadIn 1 q k Hs2) as (s3 & E3 & Hs3) end.
    rewrite (run_bind _ _ _ _ _ E3).
    match goal with |- context [load_cells ?put ?q (a + 8)] => destruct (load_cells_run s3 c put q (a + 8) Hs3 Ha2) as (s4 & E4 & Hs4) end.
    rewrite (run_bind _ _ _ _ _ E4). eexists s4, _. split; [reflexivity|]. split; [done|].
    constructor; cbn [has_state state_addr buf_out_addr is_elem check_out inner buf_in_addr p2_count set_buf_in set_inner set_next]; try done; [|lia].
    rewrite at_cells0. by apply put_block_elems.
  - match goal with |- context [load_cells ?put ?q a] => destruct (load_cells_run s1 c put q a Hs1 Ha) as (s2 & E2 & Hs2) end.
    rewrite (run_bind _ _ _ _ _ E2). eexists s2, _. split; [reflexivity|]. split; [done|].
    constructor; cbn [has_state state_addr buf_out_addr is_elem check_out inner buf_in_addr p2_count set_buf_in set_inner set_next]; try done.
    rewrite at_cells0. by apply put_block_words.
Qed.

(** What a mixing step does: it permutes the cells and leaves the guest alone. *)
Definition mix_spec (mixf : list Z -> list Z) (mix : locals -> state S error locals) : Prop :=
  forall s c p cur, csim s c -> cells_ok (inner p) ->
    cells_ok (mixf (inner p)) /\ exists s', mix (p, cur) s = (Ok (set_inner mixf p, cur), s') /\ csim s' c.

Definition trash (x : Z) : Prop := RV32IM_M3_P2_TRASH_ADDR <= x < RV32IM_M3_P2_TRASH_ADDR + 32.
Definition same_but_trash (m m' : Z -> Z) : Prop := forall x, ~ trash x -> m' x = m x.

Lemma store_trash s c p off : csim s c -> words_mapped (RV32IM_M3_P2_TRASH_ADDR / 4) 8 -> cells_ok (inner p) -> (off + 8 <= 24)%nat ->
  exists s' m', (m3 ← is_m3; if (m3 : bool) then store_cells (ByteAddr.waddr RV32IM_M3_P2_TRASH_ADDR) off p else mret tt) s = (Ok tt, s') /\
    csim s' (with_mem c m') /\ same_but_trash (c_mem c) m'.
Proof.
  intros Hs Ht Hc Ho. unfold is_m3. rewrite run_gets. destruct (_ =? _).
  - destruct (store_cells_run s c _ off p Hs Ht Hc Ho) as (s' & E & Hs'). eexists s', _. split; [exact E|]. split; [exact Hs'|].
    intros x Hx. apply write_words_out. destruct Hc as [Hl _]. rewrite length_take, length_drop.
    replace (4 * (RV32IM_M3_P2_TRASH_ADDR / 4)) with RV32IM_M3_P2_TRASH_ADDR by reflexivity. unfold trash in Hx. lia.
  - exists s, (c_mem c). split; [done|]. split; [|done]. eapply csim_eq; [exact Hs|]. by split_and!.
Qed.

(** The words [a .. a + n) are mapped and none of them is scratch. *)
Definition data_words (a n : Z) : Prop :=
  words_mapped a n /\ (4 * (a + n) <= RV32IM_M3_P2_TRASH_ADDR \/ RV32IM_M3_P2_TRASH_ADDR + 32 <= 4 * a).

Lemma data_sub a n b k : data_words a n -> a <= b -> 0 <= k -> b + k <= a + n -> data_words b k.
Proof. intros [(H1 & H2 & H3) H4] Hb Hk Hn. split; [split_and!; [lia|lia|intros; apply H3; lia]|lia]. Qed.

Lemma wordm_same m m' a n i : same_but_trash m m' -> data_words a n -> a <= i < a + n -> wordm m' i = wordm m i.
Proof. intros Hm [_ Ht] Hi. apply le_load_ext. intros j Hj. apply Hm. unfold trash. lia. Qed.

Lemma block_same m m' e a n : same_but_trash m m' -> data_words a n -> stride e <= n -> block e m' a = block e m a.
Proof.
  intros Hm Ha Hn. unfold block, stride in *. destruct e.
  - apply list_fmap_ext. intros k i Hi%lookup_seqZ. apply (wordm_same m m' a n); [done|done|lia].
  - apply bind_pointwise_in. intros i Hi%elem_of_seqZ. by rewrite (wordm_same m m' a n) by (done || lia).
Qed.

Lemma block_ok e m a cells : bytes_wf m -> cells_ok cells -> cells_ok (block e m a ++ drop 16 cells).
Proof.
  intros Hm [Hl Hu]. assert (Hw : forall i, u32 (wordm m i)) by (intros i; by apply le_load_u32; [|lia]).
  split.
  - rewrite length_app, length_drop, Hl. destruct e; reflexivity.
  - apply Forall_app. split; [|by apply Forall_drop]. unfold block. destruct e.
    + apply Forall_fmap, Forall_true. intros i. apply Hw.
    + apply Forall_bind, Forall_true. intros i. specialize (Hw (a + i)). apply Forall_cons. split; [by apply fits_land|]. apply Forall_cons. split; [by apply fits_shiftr|constructor].
Qed.
Section Run.
Context (mixf : list Z -> list Z) (mix : locals -> state S error locals) (Hmix : mix_spec mixf mix).
Context (Htrash : words_mapped (RV32IM_M3_P2_TRASH_ADDR / 4) 8).

Lemma with_mem_same s c m : csim s (with_mem c m) -> c_mem (with_mem c m) = m.
Proof. done. Qed.

Lemma p2_blocks_run p0 m0 : forall n fuel a cells s c p cur, csim s c -> same_but_trash m0 (c_mem c) -> bytes_wf m0 ->
  p2_at p0 cells a (Z.of_nat n) p -> cells_ok cells -> (n < fuel)%nat ->
  data_words a (stride (elem_of_flag (is_elem p0)) * Z.of_nat n) ->
  exists s' m' p' cur', blocks mix fuel (p, cur) s = (Ok (p', cur'), s') /\ csim s' (with_mem c m') /\ same_but_trash m0 m' /\
    p2_at p0 (sponge mixf (elem_of_flag (is_elem p0)) n m0 a cells) (a + stride (elem_of_flag (is_elem p0)) * Z.of_nat n) 0 p' /\
    cells_ok (sponge mixf (elem_of_flag (is_elem p0)) n m0 a cells).
Proof.
  set (e := elem_of_flag (is_elem p0)). assert (He : 0 < stride e) by (destruct e; cbn; lia).
  induction n as [|n IH]; intros fuel a cells s c p cur Hs Hm Hb Hp Hc Hf Ha; (destruct fuel as [|fuel]; [lia|]); cbn [blocks fst sponge].
  - rewrite (at_count _ _ _ _ _ Hp). change (0 <? Z.of_nat 0) with false. cbv iota. exists s, (c_mem c), p, cur. split; [done|].
    split; [eapply csim_eq; [exact Hs|]; by split_and!|]. split; [done|]. split; [|done].
    replace (a + stride e * Z.of_nat 0) with a by lia. exact Hp.
  - rewrite (at_count _ _ _ _ _ Hp). replace (0 <? Z.of_nat (Datatypes.S n)) with true by (symmetry; apply Z.ltb_lt; lia).
    assert (En : stride e * Z.of_nat (Datatypes.S n) = stride e + stride e * Z.of_nat n) by (rewrite Nat2Z.inj_succ, Z.mul_succ_r; lia).
    assert (He0 : 0 <= stride e * Z.of_nat n) by (apply Z.mul_nonneg_nonneg; lia). rewrite En in *.
    assert (Ha1 : data_words a (stride e)) by (apply (data_sub a _ a (stride e) Ha); lia).
    destruct (load_buf_in_run s c p0 cells a _ p cur Hs Hp (proj1 Hc) (proj1 Ha1)) as (s1 & p1 & E1 & Hs1 & Hp1). fold e in Hp1.
    rewrite (run_bind _ _ _ _ _ E1). clear E1. rewrite (block_same m0 _ e a (stride e) Hm Ha1) in Hp1 by lia.
    pose proof (block_ok e m0 a cells Hb Hc) as Hbo.
    destruct (Hmix s1 c p1 PoseidonLoadIn Hs1) as (Hmo & s2 & E2 & Hs2); [by rewrite (at_cells _ _ _ _ _ Hp1)|]. rewrite (at_cells _ _ _ _ _ Hp1) in Hmo.
    rewrite (run_bind _ _ _ _ _ E2). clear E2. cbv beta zeta iota.
    set (p2 := set_count _ _).
    assert (Hp2 : p2_at p0 (mixf (block e m0 a ++ drop 16 cells)) (a + stride e) (Z.of_nat n) p2).
    { destruct Hp1. constructor; unfold p2; cbn [has_state state_addr buf_out_addr is_elem check_out inner buf_in_addr p2_count set_count set_inner]; try done; [congruence|lia]. }
    assert (H3 : exists s3 m3, (if negb (p2_count p2 =? 0) then trash_digest p2 else mret tt) s2 = (Ok tt, s3) /\ csim s3 (with_mem c m3) /\ same_but_trash m0 m3).
    { destruct (negb _).
      - destruct (store_trash s2 c p2 0 Hs2 Htrash) as (s3 & m3 & E3 & Hs3 & Hm3); [by rewrite (at_cells _ _ _ _ _ Hp2)|lia|].
        exists s3, m3. split; [exact E3|]. split; [done|]. intros x Hx. rewrite Hm3 by done. by apply Hm.
      - exists s2, (c_mem c). split; [done|]. split; [eapply csim_eq; [exact Hs2|]; by split_and!|done]. }
    destruct H3 as (s3 & m3 & E3 & Hs3 & Hm3). rewrite (run_bind _ _ _ _ _ E3). clear E3.
    destruct (IH fuel (a + stride e) _ s3 (with_mem c m3) p2 PoseidonLoadIn Hs3 Hm3 Hb Hp2 Hmo) as (s4 & m4 & p4 & k4 & E4 & Hs4 & Hm4 & Hp4 & Hc4);
      [lia|apply (data_sub a _ _ _ Ha); lia|].
    exists s4, m4, p4, k4. split; [exact E4|]. split; [done|]. split; [done|]. split; [|done].
    by rewrite Z.add_assoc.
Qed.

(** The comparison of the digest with memory. *)
Definition digest_at (m : Z -> Z) (a : Z) : list Z := map (fun i => wordm m (a + i)) (seqZ 0 8).

Lemma check_run s c a p : csim s c -> words_mapped a 8 -> cells_ok (inner p) ->
  exists s', csim s' c /\ exists r,
    for_each words (fun i (_ : unit) => word ← Ctx.load_u32 Record (WordAddr.add_usize a i);
       cell ← lift (unwrap (inner p !! Z.to_nat i));
       if negb (word =? cell) then throw (ErrP2Check word cell) else mret tt) tt s = (r, s') /\
    if decide (digest_at (c_mem c) a = take 8 (inner p)) then r = Ok tt else exists w x, w <> x /\ r = Err (ErrP2Check w x).
Proof.
  intros Hs Ha [Hl Hu]. set (body := fun i (_ : unit) => _).
  assert (Hgen : forall k j s, csim s c -> (j + k = 8)%nat -> exists s', csim s' c /\ exists r, for_each (seqZ (Z.of_nat j) (Z.of_nat k)) body tt s = (r, s') /\
    if decide (map (fun i => wordm (c_mem c) (a + i)) (seqZ (Z.of_nat j) (Z.of_nat k)) = take k (drop j (inner p))) then r = Ok tt else exists w x, w <> x /\ r = Err (ErrP2Check w x)).
  { induction k as [|k IH]; intros j s0 Hs0 Hj.
    - exists s0. split; [done|]. exists (Ok tt). split; [done|]. by rewrite decide_True by by destruct (drop j (inner p)).
    - rewrite seqZ_cons by lia. replace (Z.succ (Z.of_nat j)) with (Z.of_nat (Datatypes.S j)) by lia. replace (Z.pred (Z.of_nat (Datatypes.S k))) with (Z.of_nat k) by lia.
      cbn [for_each map]. destruct (add_word a (Z.of_nat j) 8 Ha ltac:(lia)) as [Ea Hm].
      destruct (csim_load s0 c Record _ Hs0 Hm) as (s1 & E1 & Hs1). destruct (lookup_lt_is_Some_2 (inner p) j) as [v Ev]; [lia|].
      assert (Ebody : body (Z.of_nat j) tt s0 = if wordm (c_mem c) (a + Z.of_nat j) =? v then (Ok tt, s1) else (Err (ErrP2Check (wordm (c_mem c) (a + Z.of_nat j)) v), s1)).
      { unfold body. rewrite Ea, (run_bind _ _ _ _ _ E1), Nat2Z.id, Ev. cbn [unwrap]. rewrite run_lift_Ok. unfold wordm. by destruct (_ =? _). }
      destruct (IH (Datatypes.S j) s1 Hs1 ltac:(lia)) as (s2 & Hs2 & r & E2 & Hr).
      rewrite (drop_S _ v j Ev). cbn [take]. destruct (Z.eqb_spec (wordm (c_mem c) (a + Z.of_nat j)) v) as [Eq|Hne].
      + exists s2. split; [done|]. exists r. rewrite (run_bind _ _ _ _ _ Ebody). split; [exact E2|].
        destruct (decide (map _ _ = take k _)) as [E3|E3]; [by rewrite decide_True by congruence|].
        rewrite decide_False; [done|]. intros [= _ E4]. by apply E3.
      + exists s1. split; [done|]. exists (Err (ErrP2Check (wordm (c_mem c) (a + Z.of_nat j)) v)). split.
        * unfold mbind, state_bind. by rewrite Ebody.
        * rewrite decide_False by congruence. by eexists _, _. }
  exact (Hgen 8%nat 0%nat s Hs eq_refl).
Qed.

End Run.

Section Rest.
Context (mixf : list Z -> list Z) (mix : locals -> state S error locals) (Hmix : mix_spec mixf mix).

(** The cells before the first block. *)
Definition p2_start (m : Z -> Z) (st : Z) : list Z := replicate 16 0 ++ (if st =? 0 then replicate 8 0 else digest_at m st).

Lemma p2_start_ok m st : bytes_wf m -> cells_ok (p2_start m st).
Proof.
  intros Hm. unfold p2_start. assert (Hz : forall n, Forall u32 (replicate n 0)) by (intros n; by apply Forall_replicate). split.
  - by destruct (st =? 0).
  - apply Forall_app. split; [apply Hz|]. destruct (st =? 0); [apply Hz|]. apply Forall_fmap, Forall_true. intros i. by apply le_load_u32; [|lia].
Qed.

Lemma p2_load_state_run s c p cur : csim s c -> inner p = replicate 24 0 -> words_mapped (state_addr p) 8 ->
  exists s', load_p2_state (p, cur) s =
    (Ok (set_inner (fun _ => replicate 16 0 ++ digest_at (c_mem c) (state_addr p)) (set_next PoseidonLoadState 0 p), PoseidonLoadState), s') /\ csim s' c.
Proof.
  intros Hs Hp Ha. unfold load_p2_state. destruct (p2_step_run s c PoseidonLoadState 0 p cur Hs) as (s1 & E1 & Hs1). rewrite (run_bind _ _ _ _ _ E1). clear E1.
  set (q := set_next _ _ p). unfold words.
  destruct (for_each_inv (fun i s r => csim s c /\ r = set_inner (put_words (fun i w => <[(16 + i)%nat := w]>) (c_mem c) (state_addr p) (Z.to_nat i)) q)
    (fun i p => word ← Ctx.load_u32 Record (WordAddr.add_usize (state_addr p) i);
       mret (set_inner <[(DIGEST_WORDS * 2 + Z.to_nat i)%nat := word]> p)) DIGEST_WORDS) with (s := s1) (l := q) as (s' & r & E & Hs' & ->).
  - intros i s0 r Hi (Hs0 & ->). change (Z.of_nat DIGEST_WORDS) with 8 in Hi. destruct (add_word _ i 8 Ha Hi) as [Ea Hm].
    cbn [state_addr set_inner q set_next]. rewrite Ea. destruct (csim_load s0 c Record _ Hs0 Hm) as (s2 & E2 & Hs2). rewrite (run_bind _ _ _ _ _ E2).
    eexists s2, _. split; [reflexivity|]. split; [done|]. replace (Z.to_nat (i + 1)) with (Datatypes.S (Z.to_nat i)) by lia. unfold set_inner.
    cbn [has_state state_addr buf_out_addr is_elem check_out p2_next_state sub_state buf_in_addr p2_count inner]. rewrite put_words_S, Z2Nat.id by lia. reflexivity.
  - split; [done|]. by destruct p.
  - rewrite (run_bind _ _ _ _ _ E). exists s'. split; [|done]. change (Z.to_nat (Z.of_nat DIGEST_WORDS)) with 8%nat.
    unfold mret, state_ret. do 3 f_equal. unfold set_inner. f_equal. cbn [inner q set_next]. rewrite Hp. reflexivity.
Qed.

Lemma run_result {A B} (m : state S error A) (f : A -> state S error B) s r s' : m s = (r, s') ->
  (m ≫= f) s = match r with Ok a => f a s' | Err e => (Err e, s') | Panic => (Panic, s') end.
Proof. intros E. unfold mbind, state_bind. rewrite E. by destruct r. Qed.

(** The digest is stored or checked. *)
Lemma store_buf_out_run s c p cur : csim s c -> words_mapped (buf_out_addr p) 8 -> cells_ok (inner p) ->
  exists s', let r := store_buf_out (p, cur) s in
    if check_out p =? 0
    then r = (Ok (set_next PoseidonDoOut 0 p, PoseidonDoOut), s') /\ csim s' (with_mem c (write_words (c_mem c) (buf_out_addr p) (take 8 (inner p))))
    else if decide (digest_at (c_mem c) (buf_out_addr p) = take 8 (inner p))
    then r = (Ok (set_next PoseidonDoOut 0 p, PoseidonDoOut), s') /\ csim s' c
    else exists w x, w <> x /\ r = (Err (ErrP2Check w x), s').
Proof.
  intros Hs Ha Hc. unfold store_buf_out. destruct (p2_step_run s c PoseidonDoOut 0 p cur Hs) as (s1 & E1 & Hs1). rewrite (run_bind _ _ _ _ _ E1). clear E1.
  cbn [check_out set_next buf_out_addr inner]. destruct (check_out p =? 0); cbn [negb].
  - destruct (store_cells_run s1 c (buf_out_addr p) 0 (set_next PoseidonDoOut 0 p) Hs1 Ha Hc) as (s2 & E2 & Hs2); [lia|]. exists s2. rewrite (run_bind _ _ _ _ _ E2). done.
  - destruct (check_run s1 c (buf_out_addr p) p Hs1 Ha Hc) as (s2 & Hs2 & r & E2 & Hr). exists s2. cbv zeta. rewrite (run_result _ _ _ _ _ E2).
    destruct (decide _) as [|]; [by rewrite Hr|]. destruct Hr as (w & x & Hne & ->). exists w, x. split; [exact Hne|reflexivity].
Qed.

(** The buffers of the ecall: mapped, and away from the scratch words. *)
Record p2_buffers (st i o n : Z) (elem : bool) : Prop := mkP2Buffers {
  p2_in : data_words i (stride elem * n);
  p2_out : data_words o 8;
  p2_state : st <> 0 -> data_words st 8;
  p2_trash : words_mapped (RV32IM_M3_P2_TRASH_ADDR / 4) 8 }.

(** The state, when there is one, is written after the digest. *)
Definition put_state (st : Z) (cells : list Z) (m : Z -> Z) : Z -> Z := if st =? 0 then m else write_words m st (drop 16 cells).

Lemma put_state_trash st cells m m' : same_but_trash m m' -> same_but_trash (put_state st cells m) (put_state st cells m').
Proof.
  intros Hm x Hx. unfold put_state. destruct (st =? 0); [by apply Hm|]. unfold write_words, write_bytes.
  destruct (_ !! _); [destruct (_ <=? _)|]; [done|by apply Hm..].
Qed.

Lemma write_words_trash a ws m m' : same_but_trash m m' -> same_but_trash (write_words m a ws) (write_words m' a ws).
Proof. intros Hm x Hx. unfold write_words, write_bytes. destruct (_ !! _); [destruct (_ <=? _)|]; [done|by apply Hm..]. Qed.

Lemma digest_same m m' a : same_but_trash m m' -> data_words a 8 -> digest_at m' a = digest_at m a.
Proof.
  intros Hm Ha. unfold digest_at. apply list_fmap_ext. intros k i Hi%lookup_seqZ. apply (wordm_same m m' a 8); [done|done|lia].
Qed.

(** The end of the ecall. *)
Lemma p2_finish_run s c p cur final : csim s c -> cells_ok (inner p) -> words_mapped (RV32IM_M3_P2_TRASH_ADDR / 4) 8 ->
  has_state p = (if state_addr p =? 0 then 0 else 1) -> (state_addr p <> 0 -> words_mapped (state_addr p) 8) ->
  exists p' s' m', (l ← (if has_state p =? 1 then store_p2_state (p, cur) else trash_state p;; mret (p, cur)); '(p, _) ← step final 0 l; mret p) s = (Ok p', s') /\
    csim s' (with_mem c m') /\ same_but_trash (put_state (state_addr p) (inner p) (c_mem c)) m'.
Proof.
  intros Hs Hc Ht Hh Hst. unfold put_state. rewrite Hh. destruct (Z.eqb_spec (state_addr p) 0) as [E0|E0]; [change (0 =? 1) with false|change (1 =? 1) with true]; cbv iota.
  - destruct (store_trash s c p (DIGEST_WORDS * 2) Hs Ht Hc) as (s1 & m1 & E1 & Hs1 & Hm1); [cbn; lia|].
    fold (trash_state p) in E1. destruct (p2_step_run s1 (with_mem c m1) final 0 p cur Hs1) as (s2 & E2 & Hs2).
    exists (set_next final 0 p), s2, m1. split; [|done]. assert (E : (trash_state p;; mret (p, cur)) s = (Ok (p, cur), s1)) by (rewrite (run_bind _ _ _ _ _ E1); done).
    rewrite (run_bind _ _ _ _ _ E), (run_bind _ _ _ _ _ E2). done.
  - destruct (p2_step_run s c PoseidonStoreState 0 p cur Hs) as (s1 & E1 & Hs1).
    destruct (store_cells_run s1 c (state_addr p) (DIGEST_WORDS * 2) (set_next PoseidonStoreState 0 p) Hs1 (Hst E0) Hc) as (s2 & E2 & Hs2); [cbn; lia|].
    destruct (p2_step_run s2 _ final 0 (set_next PoseidonStoreState 0 p) PoseidonStoreState Hs2) as (s3 & E3 & Hs3).
    eexists _, s3, _. split; [|split; [exact Hs3|]].
    + assert (E : store_p2_state (p, cur) s = (Ok (set_next PoseidonStoreState 0 p, PoseidonStoreState), s2)).
      { unfold store_p2_state. rewrite (run_bind _ _ _ _ _ E1). cbv beta iota. change (state_addr (set_next PoseidonStoreState 0 p)) with (state_addr p). by rewrite (run_bind _ _ _ _ _ E2). }
      rewrite (run_bind _ _ _ _ _ E), (run_bind _ _ _ _ _ E3). done.
    + cbn [inner set_next c_mem with_mem]. destruct Hc as [Hl _]. rewrite take_ge by (rewrite length_drop; cbn; lia). done.
Qed.

(** The sponge of the ecall on a memory: digest and state. *)
Definition p2_cells (c : cstate) : list Z :=
  let bits := arg c REG_A3 in
  sponge mixf (negb (bits .& PFLAG_IS_ELEM =? 0)) (Z.to_nat (bits .& 0xffff)) (c_mem c) (arg c REG_A1 / 4) (p2_start (c_mem c) (arg c REG_A0 / 4)).

(** The whole ecall with a mixing step. *)
Definition p2_ecall (final : CycleState) : state S error Poseidon2State := p ← load_ecall; rest_with_mix mix final p.

(** C31: The Poseidon2 ecall computes the sponge.  With the aligned addresses, the flags
    and the block count that the machine registers hold, and a mixing step that
    permutes the cells by [mixf], the ecall absorbs the [count] blocks in order (sixteen
    field elements, or eight words split into halves, per block) into the state it was
    given, or into zeros; it writes the first eight cells to the output, or, in check mode,
    compares them and fails exactly when they differ, naming the words; the other eight
    cells go back to the state.  No byte besides these and the scratch words of the M3
    circuit changes; a zero block count writes the initial cells; the loop ends
    within [count + 1] turns. *)
Theorem poseidon2_ecall_correct final s c :
  system_mapped -> csim s c ->
  let st := arg c REG_A0 / 4 in let i := arg c REG_A1 / 4 in let o := arg c REG_A2 / 4 in
  let bits := arg c REG_A3 in let n := bits .& 0xffff in
  arg c REG_A0 mod 4 = 0 -> arg c REG_A1 mod 4 = 0 -> arg c REG_A2 mod 4 = 0 ->
  p2_buffers st i o n (negb (bits .& PFLAG_IS_ELEM =? 0)) ->
  let cells := p2_cells c in
  (bits .& PFLAG_CHECK_OUT = 0 -> exists p s' m', p2_ecall final s = (Ok p, s') /\ csim s' (with_mem c m') /\
     same_but_trash (put_state st cells (write_words (c_mem c) o (take 8 cells))) m') /\
  (bits .& PFLAG_CHECK_OUT <> 0 ->
     (digest_at (c_mem c) o = take 8 cells -> exists p s' m', p2_ecall final s = (Ok p, s') /\ csim s' (with_mem c m') /\
        same_but_trash (put_state st cells (c_mem c)) m') /\
     (digest_at (c_mem c) o <> take 8 cells -> exists w x s', w <> x /\ p2_ecall final s = (Err (ErrP2Check w x), s'))).
Proof.
  intros Hsys Hs st i o bits n Ha0 Ha1 Ha2 Hbuf cells. destruct Hbuf as [Hin Hout Hst Htr]. pose proof (csim_bytes s c Hs) as Hb.
  assert (Hload : exists s1, load_ecall s = (Ok (new_ecall st i o bits), s1) /\ csim s1 c).
  { unfold load_ecall. destruct (aligned_arg_run s c Record REG_A0 Hsys Hs) as (s1 & Hs1 & E1); [done|]. rewrite Ha0 in E1. rewrite (run_bind _ _ _ _ _ E1).
    destruct (aligned_arg_run s1 c Record REG_A1 Hsys Hs1) as (s2 & Hs2 & E2); [done|]. rewrite Ha1 in E2. rewrite (run_bind _ _ _ _ _ E2).
    destruct (aligned_arg_run s2 c Record REG_A2 Hsys Hs2) as (s3 & Hs3 & E3); [done|]. rewrite Ha2 in E3. rewrite (run_bind _ _ _ _ _ E3).
    destruct (arg_run s3 c Record REG_A3 Hsys Hs3) as (s4 & E4 & Hs4); [done|]. rewrite (run_bind _ _ _ _ _ E4). by exists s4. }
  destruct Hload as (s1 & E1 & Hs1). unfold p2_ecall. rewrite (run_bind _ _ _ _ _ E1). clear E1.
  set (p0 := new_ecall st i o bits). unfold rest_with_mix. set (e := negb (bits .& PFLAG_IS_ELEM =? 0)) in *.
  assert (Ee : elem_of_flag (is_elem p0) = e) by (unfold p0, new_ecall, elem_of_flag, e; cbn [is_elem]; by destruct (_ =? 0)).
  assert (Hh : has_state p0 = if st =? 0 then 0 else 1) by done. assert (Hn : 0 <= n) by (apply Z.land_nonneg; right; lia).
  (* the state *)
  assert (H2 : exists s2 p2 cur2, (if has_state p0 =? 1 then load_p2_state (p0, p2_next_state p0) else mret (p0, p2_next_state p0)) s1 = (Ok (p2, cur2), s2) /\
      csim s2 c /\ p2_at p0 (p2_start (c_mem c) st) i n p2).
  { rewrite Hh. unfold p2_start. destruct (Z.eqb_spec st 0) as [E0|E0].
    - change (0 =? 1) with false. exists s1, p0, PoseidonEntry. split; [done|]. split; [done|]. by constructor.
    - change (1 =? 1) with true. destruct (p2_load_state_run s1 c p0 (p2_next_state p0) Hs1 eq_refl) as (s2 & E2 & Hs2); [apply (Hst E0)|].
      eexists s2, _, _. split; [exact E2|]. split; [done|]. by constructor. }
  destruct H2 as (s2 & p2 & cur2 & E2 & Hs2 & Hp2). rewrite (run_bind _ _ _ _ _ E2). clear E2.
  change (p2_count p0) with n. rewrite <- (Z2Nat.id n Hn) in Hp2, Hin. rewrite <- Ee in Hin.
  destruct (p2_blocks_run mixf mix Hmix Htr p0 (c_mem c) (Z.to_nat n) (Datatypes.S (Z.to_nat n)) i (p2_start (c_mem c) st) s2 c p2 cur2 Hs2) as
    (s3 & m3 & p3 & cur3 & E3 & Hs3 & Hm3 & Hp3 & Hc3); [done|done|done|by apply p2_start_ok|lia|done|].
  rewrite (run_bind _ _ _ _ _ E3). clear E3. rewrite Ee in *. change (sponge mixf e (Z.to_nat n) (c_mem c) i (p2_start (c_mem c) st)) with cells in *.
  destruct (store_buf_out_run s3 (with_mem c m3) p3 cur3 Hs3) as (s4 & H4).
  { rewrite (at_out _ _ _ _ _ Hp3). apply Hout. } { by rewrite (at_cells _ _ _ _ _ Hp3). }
  cbn [c_mem with_mem] in H4. rewrite (at_cells _ _ _ _ _ Hp3), (at_out _ _ _ _ _ Hp3), (at_check _ _ _ _ _ Hp3) in H4.
  change (buf_out_addr p0) with o in H4. rewrite (digest_same (c_mem c) m3 o Hm3 Hout) in H4.
  change (check_out p0) with (if bits .& PFLAG_CHECK_OUT =? 0 then 0 else 1) in H4.
  set (p4 := set_next PoseidonDoOut 0 p3) in *.
  assert (Hfin : forall s4 m4, csim s4 (with_mem c m4) -> exists p' s' m', (let p := set_buf_in 0 p4 in
      l ← (if has_state p =? 1 then store_p2_state (p, PoseidonDoOut) else trash_state p;; mret (p, PoseidonDoOut));
      '(p, _) ← step final 0 l; mret p) s4 = (Ok p', s') /\ csim s' (with_mem c m') /\ same_but_trash (put_state st cells m4) m').
  { intros s5 m5 Hs5. destruct (p2_finish_run s5 (with_mem c m5) (set_buf_in 0 p4) PoseidonDoOut final Hs5) as (p' & s' & m' & E & Hs' & Hm').
    - cbn [inner set_buf_in p4 set_next]. by rewrite (at_cells _ _ _ _ _ Hp3).
    - done.
    - cbn [has_state state_addr set_buf_in p4 set_next]. rewrite (at_has _ _ _ _ _ Hp3), (at_state _ _ _ _ _ Hp3). done.
    - cbn [state_addr set_buf_in p4 set_next]. rewrite (at_state _ _ _ _ _ Hp3). intros E0. apply (Hst E0).
    - exists p', s', m'. split; [exact E|]. split; [exact Hs'|]. cbn [inner set_buf_in p4 set_next state_addr] in Hm'.
      rewrite (at_cells _ _ _ _ _ Hp3), (at_state _ _ _ _ _ Hp3) in Hm'. exact Hm'. }
  split.
  - intros Hck. rewrite Hck in H4. destruct H4 as [E4 Hs4]. rewrite (run_bind _ _ _ _ _ E4).
    destruct (Hfin _ _ Hs4) as (p' & s' & m' & E & Hs' & Hm'). exists p', s', m'. split; [exact E|]. split; [done|].
    intros x Hx. rewrite Hm' by done. apply put_state_trash, Hx. by apply write_words_trash.
  - intros Hck. destruct (Z.eqb_spec (bits .& PFLAG_CHECK_OUT) 0) as [|_]; [done|]. change (1 =? 0) with false in H4. split.
    + intros Heq. rewrite decide_True in H4 by done. destruct H4 as [E4 Hs4]. rewrite (run_bind _ _ _ _ _ E4).
      destruct (Hfin _ _ Hs4) as (p' & s' & m' & E & Hs' & Hm'). exists p', s', m'. split; [exact E|]. split; [done|].
      intros x Hx. rewrite Hm' by done. by apply put_state_trash.
    + intros Hne. rewrite decide_False in H4 by done. destruct H4 as (w & x & Hwx & E4). exists w, x, s4. split; [done|].
      by rewrite (run_result _ _ _ _ _ E4).
Qed.
End Rest.
End Spec.

(** ** The permutation of the cells *)

(** The words as field elements, permuted, as words again. *)
Definition mix_cells (cells : list Z) : list Z := map Elem.as_u32 (Poseidon2.poseidon2_mix (map Elem.new cells)).

Lemma mix_cells_ok cells : cells_ok cells -> cells_ok (mix_cells cells).
Proof.
  intros [Hl Hu]. destruct (mix_ok (map Elem.new cells)) as [Hl' Hr].
  - split; [by rewrite length_map|]. apply Forall_fmap. eapply Forall_impl; [exact Hu|]. intros x Hx. apply (rep_new x Hx).
  - unfold mix_cells. split; [rewrite length_map; exact Hl'|]. apply Forall_fmap. eapply Forall_impl; [exact Hr|]. intros x Hx.
    apply reduced_u32. unfold compose, Elem.as_u32. rewrite (rep_val _ _ (rep_self x Hx)). apply mod_reduced.
Qed.

(** ** Witness: one block of field elements, no state *)

Definition p2_init : rctx :=
  mkR 0xc0000000 1 {[ 0x3fffc000 + 11 := 0x20000; 0x3fffc000 + 12 := 0x24000; 0x3fffc000 + 13 := 0x80000001; 0x8000 := 7 ]} [].

Lemma p2_init_sim : rsim p2_init (rview p2_init).
Proof.
  apply rview_sim; [by vm_compute|]. unfold p2_init. cbn [r_mem].
  do 3 (apply map_Forall_insert_2; [by vm_compute|]). apply map_Forall_singleton. by vm_compute.
Qed.

Definition p2_mix : locals -> state rctx error locals := fun '(p, cur) => mret (set_inner mix_cells p, cur).

Lemma p2_mix_spec : mix_spec mix_cells p2_mix.
Proof. intros s c p cur Hs Hc. split; [by apply mix_cells_ok|]. by exists s. Qed.

Lemma poseidon2_ecall_correct_witness : exists p s', p2_ecall p2_mix Decode p2_init = (Ok p, s').
Proof.
  destruct (poseidon2_ecall_correct mix_cells p2_mix p2_mix_spec Decode p2_init (rview p2_init) rsys p2_init_sim) as [H _].
  - by vm_compute.
  - by vm_compute.
  - by vm_compute.
  - replace (arg (rview p2_init) REG_A0 / 4) with 0 by by vm_compute.
    replace (arg (rview p2_init) REG_A1 / 4) with 0x8000 by by vm_compute.
    replace (arg (rview p2_init) REG_A2 / 4) with 0x9000 by by vm_compute.
    replace (arg (rview p2_init) REG_A3) with 0x80000001 by by vm_compute.
    constructor; [| |done|]; unfold data_words, words_mapped; split_and!; try done; change (RV32IM_M3_P2_TRASH_ADDR / 4) with 0x3fffc0a8; try lia.
    all: left; by vm_compute.
  - destruct H as (p & s' & m' & H & _); [by vm_compute|]. exists p, s'. exact H.
Defined.
