(* ===== verification/BigInt.v ===== *)
(** * The big-integer ecall

    The guest hands the host a program in the bibc bytecode that computes the witness of
    a big-integer computation.  [Bibc] decodes and evaluates such programs over an
    interface for memory; [BigInt] implements the interface on the executor's context,
    buffering what the program stores, and is the body of the ecall.  The arithmetic
    library and the byte reader are third-party crates: classes with the laws that their
    documentation states. *)
From S2P Require Export R0ctx.
From stdpp Require Import sorting.
Open Scope word_scope.
Open Scope Z_scope.

(** The malachite crate.  A [Natural] is a non-negative [Z], an [Integer] a [Z]; [None]
    is a panic. *)
Class Malachite := {
  from_limbs_asc : list Z -> Z;
  to_limbs_asc : Z -> list Z;
  natural_or : Z -> Z -> Z;
  natural_shl : Z -> Z -> Z;
  natural_rem : Z -> Z -> option Z;
  mod_inverse : Z -> Z -> option (option Z);
  integer_add : Z -> Z -> Z;
  integer_sub : Z -> Z -> Z;
  integer_mul : Z -> Z -> Z;
  integer_rem : Z -> Z -> option Z;
  integer_quo : Z -> Z -> option Z;
}.

(** [ReadBytesExt] of the byteorder crate on a cursor: an unsigned integer of [n]
    little-endian bytes and the bytes after it; [None] at the end of the stream. *)
Class ByteOrder := { read_uint_le : nat -> list Z -> option (Z * list Z) }.

Module Bibc.

(* source: src/risc0/risc0/circuit/rv32im/src/execute/bibc.rs *)
(* L28-33 Type *)
Record BType := mkType { coeffs : Z; _max_pos : Z; _max_neg : Z; _min_bits : Z }.
(* L36-41 Input *)
Record Input := mkInput { _label : Z; _bit_width : Z; _input_min_bits : Z; _is_public : bool }.
(* L44-54 OpCode *)
Inductive OpCode := Const | Load | Store | Add | Sub | Mul | Rem | Quo | Inv.
(* L57-62 Op *)
Record Op := mkOp { code : OpCode; result_type : Z; a : Z; b : Z }.
(* L64-69 Program *)
Record Program := mkProgram { inputs : list Input; types : list BType; constants : list Z; ops : list Op }.

(* L71-75 BigIntIO *)
Class BigIntIO (T : Type) := {
  load : Z -> Z -> Z -> state T error Z;
  store : Z -> Z -> Z -> Z -> state T error unit }.

(** ** Decoding *)

(** The derived [FromPrimitive], from the discriminants. *)
(* L44-54 OpCode::from_u32 *)
Definition opcode_from_u32 (n : Z) : option OpCode :=
  match n with
  | 0x2 => Some Const | 0x3 => Some Load | 0x4 => Some Store
  | 0x8 => Some Add | 0x9 => Some Sub | 0xA => Some Mul | 0xB => Some Rem | 0xC => Some Quo | 0xE => Some Inv
  | _ => None
  end.

(* L78-80 Op::arena *)
Definition arena (self : Op) : Z := wrap 32 (a self .>> 16).
(* L82-84 Op::offset *)
Definition offset (self : Op) : Z := a self .& 0xffff.

Section Decode.
Context `{ByteOrder}.

Definition read_uint (n : nat) : state (list Z) error Z := fun stream =>
  match read_uint_le n stream with
  | Some (v, stream) => (Ok v, stream)
  | None => (Err (ErrBigInt UnexpectedEof), stream)
  end.
Definition read_u16 := read_uint 2.
Definition read_u32 := read_uint 4.
Definition read_u64 := read_uint 8.

(** [Read::read_exact] of a cursor. *)
Definition read_exact (n : nat) : state (list Z) error (list Z) := fun stream =>
  if (n <=? length stream)%nat then (Ok (take n stream), drop n stream)
  else (Err (ErrBigInt UnexpectedEof), []).

(* L86-95 Op::decode *)
Definition op_decode : state (list Z) error Op :=
  bits ← read_u64;
  let opcode := opcode_from_u32 (bits .& 0x0F) in
  code ← lift (ok_or (ErrBigInt InvalidBytecode) opcode);
  mret (mkOp code ((bits .>> 4) .& 0x0FFF) ((bits .>> 16) .& 0x00FFFFFF) ((bits .>> 40) .& 0x00FFFFFF)).

(* L99-106 Input::decode *)
Definition input_decode : state (list Z) error Input :=
  _label ← read_u64;
  _bit_width ← read_u32;
  _min_bits ← read_u16;
  _is_public ← read_u16;
  mret (mkInput _label _bit_width _min_bits (negb (_is_public =? 0))).

(* L110-117 Type::decode *)
Definition type_decode : state (list Z) error BType :=
  coeffs ← read_u64;
  _max_pos ← read_u64;
  _max_neg ← read_u64;
  _min_bits ← read_u64;
  mret (mkType coeffs _max_pos _max_neg _min_bits).

(** A counted loop that pushes what it decodes. *)
Fixpoint repeat_decode {A} (n : nat) (decode : state (list Z) error A) : state (list Z) error (list A) :=
  match n with
  | O => mret []
  | S n => x ← decode; xs ← repeat_decode n decode; mret (x :: xs)
  end.

(* L121-155 Program::decode *)
Definition decode : state (list Z) error Program :=
  magic ← read_exact 4;
  lift (assert_ (bool_decide (magic = [0x62; 0x69; 0x62; 0x63])));;
  version ← read_u32;
  lift (assert_ (version =? 1));;
  num_inputs ← read_u32;
  num_types ← read_u32;
  num_constants ← read_u32;
  num_ops ← read_u32;
  inputs ← repeat_decode (Z.to_nat num_inputs) input_decode;
  types ← repeat_decode (Z.to_nat num_types) type_decode;
  constants ← repeat_decode (Z.to_nat num_constants) read_u64;
  ops ← repeat_decode (Z.to_nat num_ops) op_decode;
  mret (mkProgram inputs types constants ops).

End Decode.

(** ** Evaluation *)

(** [u64::next_multiple_of] with 16, and the cast. *)
Definition next_multiple_of_16 (n : Z) : Z :=
  let r := n mod 16 in if r =? 0 then n else add64 n (16 - r).

Section Eval.
Context `{Malachite} {T : Type} `{BigIntIO T}.

(** The values the operands are borrowed from; the destination is written afterwards. *)
(* L221-236 operands_mut *)
Definition operands (op : Op) (op_index : Z) (regs : list Z) : outcome error (Z * Z) :=
  _ ← assert_ (a op <? op_index);
  _ ← assert_ (b op <? op_index);
  let prefix := take (Z.to_nat op_index) regs in
  lhs ← unwrap (prefix !! Z.to_nat (a op));
  rhs ← unwrap (prefix !! Z.to_nat (b op));
  Ok (lhs, rhs).

(* L163-170 Program::eval, the words of a constant *)
Fixpoint const_loop (constants : list Z) (offset : Z) (words : list Z) (value : Z) : outcome error Z :=
  match words with
  | [] => Ok value
  | i :: words =>
      word ← unwrap (constants !! Z.to_nat (offset + i));
      const_loop constants offset words (natural_or value (natural_shl word (i * 64)))
  end.

(** The binary operations; [Inv] works on the absolute values. *)
(* L184-213 Program::eval, the binary operations *)
Definition binary (code : OpCode) (lhs rhs : Z) : outcome error Z :=
  match code with
  | Add => Ok (integer_add lhs rhs)
  | Sub => Ok (integer_sub lhs rhs)
  | Mul => Ok (integer_mul lhs rhs)
  | Rem => unwrap (integer_rem lhs rhs)
  | Quo => unwrap (integer_quo lhs rhs)
  | Inv =>
      let lhs := Z.abs lhs in
      let rhs := Z.abs rhs in
      r ← unwrap (natural_rem lhs rhs);
      inv ← unwrap (mod_inverse r rhs);
      ok_or (ErrBigInt DivideByZero) inv
  | _ => Panic
  end.

(* L161-215 Program::eval, one operation *)
Definition eval_op (self : Program) (op_index : Z) (op : Op) (regs : list Z) : state T error (list Z) :=
  let set value := <[Z.to_nat op_index := value]> regs in
  match code op with
  | Const => value ← lift (const_loop (constants self) (a op) (seqZ 0 (b op)) 0); mret (set value)
  | Load =>
      typ ← lift (unwrap (types self !! Z.to_nat (result_type op)));
      let count := wrap 32 (next_multiple_of_16 (coeffs typ)) in
      value ← load (arena op) (offset op) count;
      mret (set value)
  | Store =>
      typ ← lift (unwrap (types self !! Z.to_nat (result_type op)));
      let count := wrap 32 (next_multiple_of_16 (coeffs typ)) in
      value ← lift (unwrap (regs !! Z.to_nat (b op)));
      store (arena op) (offset op) count (Z.abs value);;
      mret regs
  | code =>
      '(lhs, rhs) ← lift (operands op op_index regs);
      value ← lift (binary code lhs rhs);
      mret (set value)
  end.

Fixpoint eval_loop (self : Program) (op_index : Z) (ops : list Op) (regs : list Z) : state T error (list Z) :=
  match ops with
  | [] => mret regs
  | op :: ops => regs ← eval_op self op_index op regs; eval_loop self (op_index + 1) ops regs
  end.

(** The registers are returned for the specification; the method drops them. *)
(* L157-218 Program::eval *)
Definition eval (self : Program) : state T error (list Z) :=
  eval_loop self 0 (ops self) (replicate (length (ops self)) 0).

End Eval.
End Bibc.

Module BigInt.
Export Bibc(Op, Program).

(* source: src/risc0/risc0/circuit/rv32im/src/execute/bigint.rs *)
(* L37-37 MAX_NONDET_PROGRAM_SIZE *)
Definition MAX_NONDET_PROGRAM_SIZE : Z := Z.shiftl 10 20.
(* L40-40 BIGINT_WIDTH_WORDS *)
Definition BIGINT_WIDTH_WORDS : Z := 4.
(* L43-43 BIGINT_WIDTH_BYTES *)
Definition BIGINT_WIDTH_BYTES : Z := BIGINT_WIDTH_WORDS * WORD_SIZE.

(** The [BTreeMap] from word addresses to sixteen bytes. *)
(* L46-46 BigIntWitness *)
Definition BigIntWitness : Type := gmap Z (list Z).

(* L64-70 check_bigint_addr *)
Definition check_bigint_addr (addr mode : Z) : outcome error unit :=
  ensure ((ByteAddr.waddr ZERO_PAGE_END_ADDR <=? addr)
          && ((mode =? 1) || (addr <? ByteAddr.waddr USER_BIGINT_END_ADDR))) (ErrBigInt InvalidAddress).

Section Ecall.
Context `{Malachite} {S : Type} `{Risc0Context S}.

(* L48-52 BigIntIOImpl *)
Record BigIntIOImpl := mkIO { ctx : S; mode : Z; witness : BigIntWitness }.

(* L55-61 BigIntIOImpl::new *)
Definition io_new (ctx : S) (mode : Z) : BigIntIOImpl := mkIO ctx mode ∅.

Definition on_ctx {A} (m : state S error A) : state BigIntIOImpl error A := fun io =>
  let '(o, c) := m (ctx io) in (o, mkIO c (mode io) (witness io)).

(** The loop that pushes the limbs; its bound is the number of words. *)
Fixpoint load_limbs (fuel : nat) (addr end_ : Z) : state S error (list Z) :=
  match fuel with
  | O => panic
  | Datatypes.S fuel =>
      if addr <? end_ then
        limb ← Ctx.load_u32 R0ctx.Load addr;
        limbs ← load_limbs fuel (WordAddr.inc addr) end_;
        mret (limb :: limbs)
      else mret []
  end.

(** The last limb loses the bytes past the end. *)
Definition mask (count last_limb : Z) : Z :=
  match count mod 4 with
  | 1 => last_limb .& 0x000000FF
  | 2 => last_limb .& 0x0000FFFF
  | 3 => last_limb .& 0x00FFFFFF
  | _ => last_limb
  end.
Definition mask_last (count : Z) (limbs : list Z) : list Z := alter (mask count) (length limbs - 1)%nat limbs.

(* L73-100 BigIntIOImpl::load *)
Definition io_load (arena offset count : Z) : state BigIntIOImpl error Z :=
  md ← gets mode;
  on_ctx (base ← load_aligned_addr_from_machine_register R0ctx.Load arena;
    let start_addr := WordAddr.add_u32 base (offset *32 BIGINT_WIDTH_WORDS) in
    lift (check_bigint_addr start_addr md);;
    let word_count := (count + 3) / 4 in
    limbs ← load_limbs (Z.to_nat word_count + 1) start_addr (WordAddr.add_u32 start_addr word_count);
    mret (from_limbs_asc (mask_last count limbs))).

(** [chunks(4)]. *)
Fixpoint chunks4 (limbs : list Z) : list (list Z) :=
  match limbs with
  | l0 :: l1 :: l2 :: l3 :: limbs => [l0; l1; l2; l3] :: chunks4 limbs
  | [] => []
  | limbs => [limbs]
  end.

(** A chunk's words copied over sixteen zero bytes. *)
Definition chunk_bytes (chunk : list Z) : list Z :=
  let bytes := chunk ≫= to_le_bytes in
  bytes ++ replicate (Z.to_nat BIGINT_WIDTH_BYTES - length bytes) 0.

(* L131-132 BigIntIOImpl::store, one chunk and one of the padding *)
Definition insert_chunk (addr c_i : Z) (bytes : list Z) (w : BigIntWitness) : BigIntWitness :=
  <[WordAddr.add_usize addr (c_i * BIGINT_WIDTH_WORDS) := bytes]> w.

Fixpoint insert_chunks (addr c_i : Z) (chunks : list (list Z)) (w : BigIntWitness) : BigIntWitness :=
  match chunks with
  | [] => w
  | chunk :: chunks => insert_chunks addr (c_i + 1) chunks (insert_chunk addr c_i chunk w)
  end.

(* L102-143 BigIntIOImpl::store *)
Definition io_store (arena offset count value : Z) : state BigIntIOImpl error unit :=
  md ← gets mode;
  base ← on_ctx (load_aligned_addr_from_machine_register R0ctx.Load arena);
  let addr := WordAddr.add_u32 base (offset *32 BIGINT_WIDTH_WORDS) in
  lift (check_bigint_addr addr md);;
  let limbs := to_limbs_asc value in
  let len := Z.of_nat (length limbs) in
  lift (ensure (len * WORD_SIZE <=? count) (ErrBigInt (CountTooSmall count len)));;
  lift (ensure (count mod BIGINT_WIDTH_BYTES =? 0) (ErrBigInt (CountNotMultiple count)));;
  let chunks := map chunk_bytes (chunks4 limbs) in
  let filled_chunks := Z.of_nat (length chunks) in
  let padding := count / BIGINT_WIDTH_BYTES - filled_chunks in
  modify (fun io => mkIO (ctx io) (mode io)
    (insert_chunks addr filled_chunks (replicate (Z.to_nat padding) (replicate (Z.to_nat BIGINT_WIDTH_BYTES) 0))
      (insert_chunks addr 0 chunks (witness io)))).

(* L72-144 BigIntIOImpl as BigIntIO *)
#[export] Instance io_impl : Bibc.BigIntIO BigIntIOImpl := {| Bibc.load := io_load; Bibc.store := io_store |}.

(* L146-149 BigIntExec *)
Record BigIntExec := mkExec { verify_program_size : Z; exec_witness : BigIntWitness }.

(** The words of one entry, and the entries in the order of their addresses. *)
Fixpoint write_chunk (addr i : Z) (bytes : list Z) : state S error unit :=
  match bytes with
  | b0 :: b1 :: b2 :: b3 :: bytes =>
      Ctx.store_u32 (WordAddr.add_usize addr i) (from_le_bytes [b0; b1; b2; b3]);; write_chunk addr (i + 1) bytes
  | _ => mret tt
  end.

Fixpoint write_chunks (entries : list (Z * list Z)) : state S error unit :=
  match entries with
  | [] => mret tt
  | (addr, bytes) :: entries => write_chunk addr 0 bytes;; write_chunks entries
  end.

Definition entries (w : BigIntWitness) : list (Z * list Z) :=
  map (fun addr => (addr, default [] (w !! addr))) (merge_sort Z.le (elements (dom w))).

(* L151-159 write_witness_to_memory *)
Definition write_witness_to_memory (witness : BigIntWitness) : state S error unit := write_chunks (entries witness).

(** The reads of a reader from [pos] to [end_] into a buffer of 8 KiB, until one is empty. *)
Fixpoint drain_loop (fuel : nat) (castable : bool) (op : LoadOp) (pos end_ : Z) : state S error unit :=
  match fuel with
  | O => panic
  | Datatypes.S fuel =>
      let size := Z.min (ByteAddr.saturating_add pos (Z.shiftl 8 10)) end_ - pos in
      reader_read castable op pos size;;
      if 0 <? size then drain_loop fuel castable op (ByteAddr.add_usize pos size) end_ else mret tt
  end.

(* L170-174 drain *)
Definition drain (castable : bool) (op : LoadOp) (addr size : Z) : state S error unit :=
  end_ ← lift (ok_or ErrRegionEnd (ByteAddr.checked_add addr (wrap 32 size)));
  drain_loop (Z.to_nat (wrap 32 size / Z.shiftl 8 10) + 2) castable op addr end_.

Context `{ByteOrder}.

(** [WordAddr] plus an [i32], which panics on overflow. *)
Definition plus_i32 (addr rhs : Z) : outcome error Z :=
  match WordAddr.add_i32 addr rhs with Ok addr => Ok addr | _ => Panic end.

(** [castable] and [castable'] are the alignments of the two host buffers. *)
(* L176-235 ecall *)
Definition ecall (castable castable' : bool) : state S error BigIntExec :=
  mode ← load_machine_register Record REG_T0;
  lift (ensure ((mode =? 0) || (mode =? 1)) (ErrBigInt (InvalidMode mode)));;
  blob_ptr ← load_aligned_addr_from_machine_register R0ctx.Load REG_A0;
  nondet_program_ptr ← load_aligned_addr_from_machine_register R0ctx.Load REG_T1;
  verify_program_ptr ← load_aligned_addr_from_machine_register Record REG_T2;
  let verify_program_ptr := WordAddr.sub_u32 verify_program_ptr 1 in
  consts_ptr ← load_aligned_addr_from_machine_register R0ctx.Load REG_T3;
  nondet_program_size ← Ctx.load_u32 R0ctx.Load blob_ptr;
  size_ptr ← lift (plus_i32 blob_ptr 1); verify_program_size ← Ctx.load_u32 R0ctx.Load size_ptr;
  size_ptr ← lift (plus_i32 blob_ptr 2); consts_size ← Ctx.load_u32 R0ctx.Load size_ptr;
  let nondet_program_size_bytes := nondet_program_size * WORD_SIZE in
  lift (ensure (nondet_program_size_bytes <=? MAX_NONDET_PROGRAM_SIZE) (ErrBigInt ProgramTooLarge));;
  program_bytes ← load_region castable R0ctx.Load (WordAddr.baddr nondet_program_ptr) nondet_program_size_bytes;
  program ← lift (fst (Bibc.decode program_bytes));
  witness ← (fun s =>
    let '(o, io) := Bibc.eval program (io_new s mode) in
    ((_ ← o; Ok (witness io)), ctx io));
  drain castable' R0ctx.Load (WordAddr.baddr verify_program_ptr) (verify_program_size * WORD_SIZE);;
  drain castable' R0ctx.Load (WordAddr.baddr consts_ptr) (consts_size * WORD_SIZE);;
  mret (mkExec verify_program_size witness).

(* L161-167 ecall_execute *)
Definition ecall_execute (castable castable' : bool) : state S error Z :=
  exec ← ecall castable castable';
  write_witness_to_memory (exec_witness exec);;
  mret (verify_program_size exec).

End Ecall.
End BigInt.
