(* ===== verification/BigIntSpec.v ===== *)
(** * The big-integer ecall is correct

    Decoding inverts the byte layout of bibc programs; evaluating a program gives every
    operation the value its operands determine and buffers what it stores; the ecall
    leaves those values in guest memory as little-endian integers. *)
From S2P Require Export BigInt Sha2Refine.
From S2P Require Import RefCtx.
From stdpp Require Import sorting.
Import Isa(le_load, le_store, is_reg).
Import Bibc BigInt.
Open Scope word_scope.
Open Scope Z_scope.

(** ** What the two crates document *)

(** The number whose base-2^32 digits, least significant first, are [limbs]. *)
Definition limbs_val (limbs : list Z) : Z := foldr (fun l acc => l + 2 ^ 32 * acc) 0 limbs.

Class MalachiteLaws `{Malachite} := {
  from_limbs_law l : Forall u32 l -> from_limbs_asc l = limbs_val l;
  to_limbs_law n : 0 <= n -> Forall u32 (to_limbs_asc n) /\ limbs_val (to_limbs_asc n) = n;
  to_limbs_short n k : 0 <= n < 2 ^ (32 * k) -> 0 <= k -> Z.of_nat (length (to_limbs_asc n)) <= k;
  natural_or_law x y : 0 <= x -> 0 <= y -> natural_or x y = Z.lor x y;
  natural_shl_law x k : 0 <= x -> 0 <= k -> natural_shl x k = Z.shiftl x k;
  natural_rem_law x m : 0 <= x -> 0 < m -> natural_rem x m = Some (x mod m);
  mod_inverse_law x m : 0 < x < m -> exists r, mod_inverse x m = Some r /\
    match r with Some y => 0 <= y < m /\ (x * y) mod m = 1 mod m | None => Z.gcd x m <> 1 end;
  integer_add_law x y : integer_add x y = x + y;
  integer_sub_law x y : integer_sub x y = x - y;
  integer_mul_law x y : integer_mul x y = x * y;
  integer_rem_law x y : y <> 0 -> integer_rem x y = Some (Z.rem x y);
  integer_quo_law x y : y <> 0 -> integer_quo x y = Some (Z.quot x y);
}.

Class ByteOrderLaws `{ByteOrder} := {
  read_uint_law n bytes : (n <= length bytes)%nat ->
    read_uint_le n bytes = Some (from_le_bytes (take n bytes), drop n bytes);
  read_uint_eof n bytes : (length bytes < n)%nat -> read_uint_le n bytes = None;
}.

(** ** The layout of programs *)

Module Layout.

Definition opcode (c : OpCode) : Z :=
  match c with
  | Const => 0x2 | Bibc.Load => 0x3 | Store => 0x4 | Add => 0x8 | Sub => 0x9 | Mul => 0xA | Rem => 0xB | Quo => 0xC | Inv => 0xE
  end.

(** An operation is a 64-bit word: code, type and the two operands, from bit 0 up. *)
Definition op_word (o : Op) : Z := opcode (code o) + 2 ^ 4 * result_type o + 2 ^ 16 * a o + 2 ^ 40 * b o.
Definition op_bytes (o : Op) : list Z := le_bytes 8 (op_word o).
Definition input_bytes (i : Input) : list Z :=
  le_bytes 8 (_label i) ++ le_bytes 4 (_bit_width i) ++ le_bytes 2 (_input_min_bits i)
  ++ le_bytes 2 (if _is_public i then 1 else 0).
Definition type_bytes (t : BType) : list Z :=
  le_bytes 8 (coeffs t) ++ le_bytes 8 (_max_pos t) ++ le_bytes 8 (_max_neg t) ++ le_bytes 8 (_min_bits t).

Definition program_bytes (p : Program) : list Z :=
  [0x62; 0x69; 0x62; 0x63] ++ le_bytes 4 1
  ++ le_bytes 4 (Z.of_nat (length (inputs p))) ++ le_bytes 4 (Z.of_nat (length (types p)))
  ++ le_bytes 4 (Z.of_nat (length (constants p))) ++ le_bytes 4 (Z.of_nat (length (ops p)))
  ++ (inputs p ≫= input_bytes) ++ (types p ≫= type_bytes) ++ (constants p ≫= le_bytes 8) ++ (ops p ≫= op_bytes).

Definition op_wf (o : Op) : Prop := fits 12 (result_type o) /\ fits 24 (a o) /\ fits 24 (b o).
Definition input_wf (i : Input) : Prop := u64 (_label i) /\ u32 (_bit_width i) /\ u16 (_input_min_bits i).
Definition type_wf (t : BType) : Prop := u64 (coeffs t) /\ u64 (_max_pos t) /\ u64 (_max_neg t) /\ u64 (_min_bits t).

(** Every field fits its width and every count fits its word. *)
Record program_wf (p : Program) : Prop := {
  wf_inputs : Forall input_wf (inputs p); wf_types : Forall type_wf (types p);
  wf_constants : Forall u64 (constants p); wf_ops : Forall op_wf (ops p);
  wf_counts : forall n, n ∈ [length (inputs p); length (types p); length (constants p); length (ops p)] ->
    Z.of_nat n < 2 ^ 32 }.

Section Decode.
Context `{ByteOrderLaws}.

Lemma read_uint_bytes n v rest : 0 <= v < 256 ^ Z.of_nat n -> read_uint n (le_bytes n v ++ rest) = (Ok v, rest).
Proof.
  intros Hv. unfold read_uint. rewrite read_uint_law by (rewrite length_app, le_bytes_length; lia).
  rewrite take_app_length', drop_app_length' by by rewrite le_bytes_length.
  by rewrite from_le_bytes_le_bytes, Z.mod_small.
Qed.

Lemma read_bytes {B} n v rest (k : Z -> state (list Z) error B) : 0 <= v < 256 ^ Z.of_nat n ->
  (read_uint n ≫= k) (le_bytes n v ++ rest) = k v rest.
Proof. intros Hv. exact (run_bind _ k _ _ _ (read_uint_bytes n v rest Hv)). Qed.

(** A field of the word between the fields below and above it. *)
Lemma field_mask lo w x : 0 <= w -> 0 <= lo < 2 ^ w -> 0 <= x ->
  (lo + 2 ^ w * x) .>> w = x /\ (lo + 2 ^ w * x) .& (2 ^ w - 1) = lo.
Proof.
  intros Hw Hlo Hx. pose proof (Z.pow_pos_nonneg 2 w ltac:(lia) Hw) as Hp.
  replace (2 ^ w - 1) with (Z.ones w) by (rewrite Z.ones_equiv; lia).
  rewrite Z.shiftr_div_pow2, Z.land_ones by lia. rewrite (Z.mul_comm (2 ^ w)).
  rewrite Z.div_add, Z.mod_add, Z.div_small, Z.mod_small by lia. lia.
Qed.

Lemma opcode_from opc : opcode_from_u32 (opcode opc) = Some opc /\ 0 <= opcode opc < 2 ^ 4.
Proof. by destruct opc. Qed.

Lemma op_decode_bytes o rest : op_wf o -> op_decode (op_bytes o ++ rest) = (Ok o, rest).
Proof.
  intros (Ht & Ha & Hb). destruct (opcode_from (code o)) as [Ec Hc]. unfold fits in *.
  unfold op_decode, op_bytes, read_u64. rewrite read_bytes by (unfold op_word; lia).
  assert (E0 : op_word o = opcode (code o) + 2 ^ 4 * (result_type o + 2 ^ 12 * (a o + 2 ^ 24 * b o))) by (unfold op_word; lia).
  set (x := a o + 2 ^ 24 * b o) in *. set (y := result_type o + 2 ^ 12 * x) in *.
  destruct (field_mask (opcode (code o)) 4 y) as (S1 & M1); [lia..|].
  destruct (field_mask (result_type o) 12 x) as (S2 & M2); [lia..|].
  destruct (field_mask (a o) 24 (b o)) as (S3 & M3); [lia..|].
  rewrite <- E0 in S1, M1.
  replace (op_word o .>> 16) with x by (change 16 with (4 + 12); rewrite <- Z.shiftr_shiftr, S1 by lia; exact (eq_sym S2)).
  replace (op_word o .>> 40) with (b o)
    by (change 40 with (4 + 12 + 24); rewrite <- !Z.shiftr_shiftr, S1 by lia; fold y in S2; rewrite S2; exact (eq_sym S3)).
  rewrite S1. change 0x0F with (2 ^ 4 - 1). change 0x0FFF with (2 ^ 12 - 1). change 0x00FFFFFF with (2 ^ 24 - 1).
  rewrite M1, Ec. cbn [ok_or]. rewrite run_lift_Ok. fold y in M2. rewrite M2. fold x in M3. rewrite M3.
  replace (b o .& (2 ^ 24 - 1)) with (b o).
  - by destruct o.
  - change (2 ^ 24 - 1) with (Z.ones 24). rewrite Z.land_ones, Z.mod_small by lia. done.
Qed.

Lemma input_decode_bytes i rest : input_wf i -> input_decode (input_bytes i ++ rest) = (Ok i, rest).
Proof.
  intros (H1 & H2 & H3). unfold fits in *. unfold input_decode, input_bytes, read_u64, read_u32, read_u16.
  rewrite <- !app_assoc. rewrite !read_bytes by (destruct (_is_public i); lia).
  destruct i as [l w m pub]. by destruct pub.
Qed.

Lemma type_decode_bytes t rest : type_wf t -> type_decode (type_bytes t ++ rest) = (Ok t, rest).
Proof.
  intros (H1 & H2 & H3 & H4). unfold fits in *. unfold type_decode, type_bytes, read_u64.
  rewrite <- !app_assoc. rewrite !read_bytes by lia. by destruct t.
Qed.

Lemma repeat_decode_bytes {A} (wf : A -> Prop) (dec : state (list Z) error A) (enc : A -> list Z) xs rest :
  (forall x rest, wf x -> dec (enc x ++ rest) = (Ok x, rest)) -> Forall wf xs ->
  repeat_decode (length xs) dec ((xs ≫= enc) ++ rest) = (Ok xs, rest).
Proof.
  intros Hd. induction 1 as [|x xs Hx _ IH]; [done|]. cbn [length repeat_decode]. rewrite bind_cons, <- app_assoc.
  rewrite (run_bind _ _ _ _ _ (Hd x _ Hx)), (run_bind _ _ _ _ _ IH). done.
Qed.

End Decode.
End Layout.
Import Layout.

Section Decode_.
Context `{ByteOrderLaws}.

Lemma decode_run p rest : program_wf p -> decode (program_bytes p ++ rest) = (Ok p, rest).
Proof.
  intros [H1 H2 H3 H4 Hn]. unfold decode, program_bytes, read_u32. rewrite <- !app_assoc.
  assert (Hc : forall n, n ∈ [length (inputs p); length (types p); length (constants p); length (ops p)] ->
    0 <= Z.of_nat n < 256 ^ Z.of_nat 4) by (intros n Hin; specialize (Hn n Hin); lia).
  rewrite (run_bind _ _ _ [0x62; 0x69; 0x62; 0x63] (le_bytes 4 1 ++ _)) by reflexivity.
  rewrite bool_decide_eq_true_2 by done. cbn [assert_]. rewrite run_lift_Ok.
  rewrite read_bytes by (cbn; lia). cbn [Z.eqb Pos.eqb assert_]. rewrite run_lift_Ok.
  rewrite !read_bytes by (apply Hc; set_solver). rewrite !Nat2Z.id.
  rewrite (run_bind _ _ _ _ _ (repeat_decode_bytes input_wf _ _ _ _ input_decode_bytes H1)).
  rewrite (run_bind _ _ _ _ _ (repeat_decode_bytes type_wf _ _ _ _ type_decode_bytes H2)).
  rewrite (run_bind _ _ _ _ _ (repeat_decode_bytes u64 read_u64 (le_bytes 8) _ _ (fun x rest Hx => read_uint_bytes 8 x rest Hx) H3)).
  rewrite (run_bind _ _ _ _ _ (repeat_decode_bytes op_wf _ _ _ _ op_decode_bytes H4)).
  by destruct p.
Qed.

(** The decoder of bibc programs inverts their byte layout: the bytes of a program
    whose fields fit their widths, whatever follows them, decode to that program. *)
Theorem bibc_decode_encode p rest : program_wf p -> decode (program_bytes p ++ rest) = (Ok p, rest).
Proof. apply decode_run. Qed.
End Decode_.

(** ** Limbs *)

Lemma limbs_range l : Forall u32 l -> 0 <= limbs_val l < 2 ^ (32 * Z.of_nat (length l)).
Proof.
  induction 1 as [|x l Hx _ IH]; cbn [limbs_val foldr length]; [done|]. fold (limbs_val l). unfold fits in Hx.
  rewrite Nat2Z.inj_succ. replace (32 * Z.succ (Z.of_nat (length l))) with (32 + 32 * Z.of_nat (length l)) by lia.
  rewrite Z.pow_add_r by lia. lia.
Qed.

Lemma limbs_app l x : limbs_val (l ++ [x]) = limbs_val l + 2 ^ (32 * Z.of_nat (length l)) * x.
Proof.
  induction l as [|y l IH]; [cbn; lia|]. cbn [limbs_val app foldr length]. fold (limbs_val l) (limbs_val (l ++ [x])).
  rewrite IH, Nat2Z.inj_succ. replace (32 * Z.succ (Z.of_nat (length l))) with (32 + 32 * Z.of_nat (length l)) by lia.
  rewrite Z.pow_add_r by lia. lia.
Qed.

Lemma le_load_mod mem a n k : bytes_wf mem -> (k <= n)%nat -> le_load mem a n mod 256 ^ Z.of_nat k = le_load mem a k.
Proof.
  intros Hm Hk. replace n with (k + (n - k))%nat by lia. rewrite le_load_app, (Z.mul_comm (256 ^ _)), Z.mod_add by lia.
  apply Z.mod_small. by apply le_load_range.
Qed.

Lemma limbs_load mem w n : limbs_val (map (fun i => le_load mem (4 * (w + i)) 4) (seqZ 0 (Z.of_nat n))) = le_load mem (4 * w) (4 * n).
Proof.
  induction n as [|n IH]; [done|]. rewrite Nat2Z.inj_succ. change (Z.succ (Z.of_nat n)) with (Z.of_nat n + 1).
  rewrite seqZ_app, map_app by lia. cbn [map]. rewrite Z.add_0_l. change (seqZ (Z.of_nat n) 1) with [Z.of_nat n]. cbn [map].
  rewrite limbs_app, IH, length_map, length_seqZ. replace (4 * S n)%nat with (4 * n + 4)%nat by lia. rewrite le_load_app.
  replace (4 * w + Z.of_nat (4 * n)) with (4 * (w + Z.of_nat n)) by lia. do 2 f_equal.
  replace 256 with (2 ^ 8) by done. rewrite <- Z.pow_mul_r by lia. f_equal. lia.
Qed.

(** Masking the last limb cuts the number off at [count] bytes. *)
Lemma mask_last_val count limbs : 0 <= count -> Forall u32 limbs -> Z.of_nat (length limbs) = (count + 3) / 4 ->
  limbs_val (mask_last count limbs) = limbs_val limbs mod 2 ^ (8 * count) /\ Forall u32 (mask_last count limbs).
Proof.
  intros Hc Hl Hlen. unfold mask_last.
  destruct limbs as [|x ys _] using rev_ind.
  { cbn in Hlen. replace count with 0 by (Z.to_euclidean_division_equations; lia). by split. }
  rewrite length_app in Hlen |- *. cbn [length] in *. apply Forall_app in Hl as [Hys Hx]. apply Forall_cons in Hx as [Hx _].
  replace (length ys + 1 - 1)%nat with (length ys + 0)%nat by lia. rewrite alter_app_r. cbn [alter list_alter].
  set (k := 32 * Z.of_nat (length ys)).
  pose proof (limbs_range ys Hys) as Hr. fold k in Hr.
  assert (Hf : exists r, 8 * count = k + r /\ 0 <= r <= 32 /\ mask count x = x mod 2 ^ r).
  { unfold mask, k. pose proof (Z.div_mod count 4 ltac:(lia)) as Hd. pose proof (Z.mod_pos_bound count 4 ltac:(lia)) as Hb.
    pose proof (Z.div_mod (count + 3) 4 ltac:(lia)). pose proof (Z.mod_pos_bound (count + 3) 4 ltac:(lia)).
    assert (E : count mod 4 = 0 \/ count mod 4 = 1 \/ count mod 4 = 2 \/ count mod 4 = 3) by lia.
    destruct E as [E|[E|[E|E]]]; rewrite E in *.
    - exists 32. split_and!; [lia|lia|lia|]. symmetry. by apply Z.mod_small.
    - exists 8. split_and!; [lia|lia|lia|]. by apply (Z.land_ones x 8).
    - exists 16. split_and!; [lia|lia|lia|]. by apply (Z.land_ones x 16).
    - exists 24. split_and!; [lia|lia|lia|]. by apply (Z.land_ones x 24). }
  destruct Hf as (r & Er & Hrr & ->). rewrite !limbs_app. fold k. split.
  - rewrite Er, Z.pow_add_r by lia. pose proof (Z.pow_pos_nonneg 2 k ltac:(lia) ltac:(lia)).
    pose proof (Z.pow_pos_nonneg 2 r ltac:(lia) ltac:(lia)).
    rewrite Z.rem_mul_r by lia. rewrite (Z.mul_comm (2 ^ k) x), Z.mod_add, Z.div_add by lia.
    by rewrite (Z.mod_small (limbs_val ys)), (Z.div_small (limbs_val ys)) by lia.
  - apply Forall_app. split; [done|]. apply Forall_singleton. unfold fits in *.
    pose proof (Z.pow_le_mono_r 2 r 32 ltac:(lia) ltac:(lia)).
    pose proof (Z.mod_pos_bound x (2 ^ r) ltac:(apply Z.pow_pos_nonneg; lia)). lia.
Qed.

(** ** Bytes of limbs *)

Lemma le_bytes_app n m v : le_bytes (n + m) v = le_bytes n v ++ le_bytes m (v / 256 ^ Z.of_nat n).
Proof.
  revert v. induction n as [|n IH]; intros v; [by rewrite Z.div_1_r|].
  cbn [Nat.add]. rewrite !le_bytes_S, IH. cbn [app]. do 2 f_equal. f_equal.
  rewrite Nat2Z.inj_succ, Z.pow_succ_r by lia. by rewrite Z.div_div by lia.
Qed.

Lemma le_bytes_add n v k : le_bytes n (v + 256 ^ Z.of_nat n * k) = le_bytes n v.
Proof.
  revert v. induction n as [|n IH]; intros v; [done|]. rewrite !le_bytes_S.
  rewrite Nat2Z.inj_succ, Z.pow_succ_r, <- Z.mul_assoc, (Z.mul_comm 256) by lia.
  rewrite Z.mod_add, Z.div_add by lia. by rewrite IH.
Qed.

Lemma limbs_bytes l : Forall u32 l -> l ≫= to_le_bytes = le_bytes (4 * length l) (limbs_val l).
Proof.
  induction 1 as [|x l Hx _ IH]; [done|]. rewrite bind_cons, IH. cbn [length limbs_val foldr]. fold (limbs_val l).
  replace (4 * S (length l))%nat with (4 + 4 * length l)%nat by lia. rewrite le_bytes_app.
  change (2 ^ 32) with (256 ^ Z.of_nat 4). rewrite le_bytes_add. f_equal. f_equal. unfold fits in Hx.
  rewrite (Z.mul_comm (256 ^ _)), Z.div_add by lia. by rewrite Z.div_small.
Qed.

Lemma le_bytes_zero n : le_bytes n 0 = replicate n 0.
Proof. induction n as [|n IH]; [done|]. rewrite le_bytes_S. cbn [replicate]. by rewrite Z.div_0_l, IH. Qed.

Lemma chunk_bytes_val l : Forall u32 l -> (length l <= 4)%nat -> chunk_bytes l = le_bytes 16 (limbs_val l).
Proof.
  intros Hl Hn. unfold chunk_bytes. rewrite limbs_bytes, le_bytes_length by done. change (Z.to_nat BIGINT_WIDTH_BYTES) with 16%nat.
  replace 16%nat with (4 * length l + (16 - 4 * length l))%nat at 2 by lia. rewrite le_bytes_app. f_equal.
  rewrite <- le_bytes_zero. f_equal. symmetry. apply Z.div_small. pose proof (limbs_range l Hl).
  replace (256 ^ Z.of_nat (4 * length l)) with (2 ^ (32 * Z.of_nat (length l))); [done|].
  replace 256 with (2 ^ 8) by done. rewrite <- Z.pow_mul_r by lia. f_equal. lia.
Qed.

(** The 16-byte digits of a number. *)
Definition digits (n : nat) (v : Z) : list (list Z) := map (fun j => le_bytes 16 (v / 2 ^ (128 * j))) (seqZ 0 (Z.of_nat n)).

Lemma digits_S n v : digits (S n) v = le_bytes 16 v :: digits n (v / 2 ^ 128).
Proof.
  unfold digits. rewrite Nat2Z.inj_succ, seqZ_cons by lia. cbn [map]. rewrite Z.mul_0_r, Z.pow_0_r, Z.div_1_r. f_equal.
  rewrite Z.pred_succ, <- (fmap_add_seqZ 1 0). change (map ?f ?l) with (f <$> l).
  rewrite <- list_fmap_compose. apply list_fmap_ext. intros k i Hi. cbn. apply lookup_seqZ in Hi.
  replace (128 * (1 + i)) with (128 + 128 * i) by lia. rewrite Z.pow_add_r, <- Z.div_div by lia. done.
Qed.

Lemma digits_zero n : digits n 0 = replicate n (replicate 16 0).
Proof. induction n as [|n IH]; [done|]. rewrite digits_S, Z.div_0_l, IH by lia. by rewrite le_bytes_zero. Qed.

(** The chunks of the limbs with their padding are the digits of the number. *)
Lemma chunks_digits n : forall l, Forall u32 l -> (length l <= 4 * n)%nat ->
  map chunk_bytes (chunks4 l) ++ replicate (n - length (chunks4 l)) (replicate 16 0) = digits n (limbs_val l).
Proof.
  induction n as [|n IH]; intros l Hl Hn.
  { destruct l; [done|cbn in Hn; lia]. }
  assert (Hs : forall l, Forall u32 l -> (length l < 4)%nat -> limbs_val l / 2 ^ 128 = 0 /\ (length l <= 4)%nat).
  { intros l0 Hl0 Hn0. split; [|lia]. apply Z.div_small. pose proof (limbs_range l0 Hl0).
    pose proof (Z.pow_le_mono_r 2 (32 * Z.of_nat (length l0)) 128 ltac:(lia) ltac:(lia)). lia. }
  rewrite digits_S. destruct l as [|x0 [|x1 [|x2 [|x3 l]]]]; cbn [chunks4 map app length].
  - cbn [replicate Nat.sub]. rewrite Z.div_0_l, le_bytes_zero by lia. by rewrite digits_zero.
  - destruct (Hs _ Hl) as [-> H4]; [cbn; lia|]. rewrite chunk_bytes_val by done. replace (S n - 1)%nat with n by lia. by rewrite digits_zero.
  - destruct (Hs _ Hl) as [-> H4]; [cbn; lia|]. rewrite chunk_bytes_val by done. replace (S n - 1)%nat with n by lia. by rewrite digits_zero.
  - destruct (Hs _ Hl) as [-> H4]; [cbn; lia|]. rewrite chunk_bytes_val by done. replace (S n - 1)%nat with n by lia. by rewrite digits_zero.
  - change (x0 :: x1 :: x2 :: x3 :: l) with ([x0; x1; x2; x3] ++ l) in *. apply Forall_app in Hl as [Hc Hl].
    rewrite length_app in Hn. cbn [length] in Hn. cbn [Nat.sub]. rewrite IH by (done || lia).
    assert (E : limbs_val ([x0; x1; x2; x3] ++ l) = limbs_val [x0; x1; x2; x3] + 2 ^ 128 * limbs_val l).
    { cbn [limbs_val app foldr]. fold (limbs_val l). lia. }
    pose proof (limbs_range _ Hc) as Hr. cbn [length] in Hr. rewrite E.
    rewrite (Z.mul_comm (2 ^ 128)), Z.div_add, Z.div_small, Z.add_0_l by lia. f_equal.
    rewrite chunk_bytes_val by (done || cbn; lia). rewrite (Z.mul_comm (limbs_val l)).
    change (2 ^ 128) with (256 ^ Z.of_nat 16). by rewrite le_bytes_add.
Qed.

(** ** Loads and stores of a program *)

Section Io.
Context `{MalachiteLaws} {S : Type} `{CtxLaws S}.
Hypothesis sys : system_mapped.

(** The word address of an operand, and what makes it a legal one in a mode. *)
Definition target (c : cstate) (arena offset : Z) : Z := arg c arena / 4 + 4 * offset.
Definition legal (c : cstate) (md arena offset : Z) : Prop :=
  is_reg arena /\ arg c arena mod 4 = 0 /\ 0 <= offset < 2 ^ 16 /\
  0x4000 <= target c arena offset /\ (md = 1 \/ target c arena offset < 0x2fffc000).

Lemma arg_range s c r : csim s c -> u32 (arg c r).
Proof. intros Hs. apply le_load_u32; [by apply (csim_bytes s)|lia]. Qed.

Lemma operand_run s c md op arena offset : csim s c -> legal c md arena offset -> exists s', csim s' c /\
  load_aligned_addr_from_machine_register op arena s = (Ok (arg c arena / 4), s') /\
  WordAddr.add_u32 (arg c arena / 4) (offset *32 BIGINT_WIDTH_WORDS) = target c arena offset /\
  check_bigint_addr (target c arena offset) md = Ok tt /\ 0 <= target c arena offset < 2 ^ 30 + 2 ^ 18.
Proof.
  intros Hs (Hr & Ha & Ho & Hlo & Hhi). destruct (aligned_arg_run s c op arena sys Hs Hr) as (s' & Hs' & E).
  rewrite Ha in E. exists s'. pose proof (arg_range s c arena Hs) as Hu. unfold fits in Hu.
  assert (Hq : 0 <= arg c arena / 4 < 2 ^ 30) by (Z.to_euclidean_division_equations; lia).
  assert (Et : WordAddr.add_u32 (arg c arena / 4) (offset *32 BIGINT_WIDTH_WORDS) = target c arena offset).
  { unfold WordAddr.add_u32, add32, mul32, target. change BIGINT_WIDTH_WORDS with 4.
    rewrite (wrap_small 32 (offset * 4)), wrap_small by (unfold fits; lia). lia. }
  split_and!; [done|done|done| |unfold target; lia|unfold target; lia].
  unfold check_bigint_addr. change (ByteAddr.waddr ZERO_PAGE_END_ADDR) with 0x4000. change (ByteAddr.waddr USER_BIGINT_END_ADDR) with 0x2fffc000.
  assert ((0x4000 <=? target c arena offset) && ((md =? 1) || (target c arena offset <? 0x2fffc000)) = true) as ->; [lia|done].
Qed.

Lemma load_limbs_run n : forall fuel s c w, (n < fuel)%nat -> csim s c -> 0 <= w -> region (4 * w) (4 * Z.of_nat n) ->
  exists s', load_limbs fuel w (w + Z.of_nat n) s =
    (Ok (map (fun i => le_load (c_mem c) (4 * (w + i)) 4) (seqZ 0 (Z.of_nat n))), s') /\ csim s' c.
Proof.
  induction n as [|n IH]; intros [|fuel] s c w Hf Hs Hw (Hr1 & Hr2 & Hr3); [lia| |lia|]; cbn [load_limbs].
  - destruct (Z.ltb_spec w (w + Z.of_nat 0)); [lia|]. by exists s.
  - destruct (Z.ltb_spec w (w + Z.of_nat (Datatypes.S n))); [|lia].
    destruct (csim_load s c R0ctx.Load w Hs) as (s1 & E1 & Hs1).
    { replace w with (4 * w / 4) by (rewrite Z.mul_comm, Z.div_mul by lia; done). apply Hr3. lia. }
    rewrite (run_bind _ _ _ _ _ E1). unfold WordAddr.inc, add32. rewrite Nat2Z.inj_succ in *.
    destruct (Nat.eq_dec n 0%nat) as [->|Hn].
    + destruct fuel as [|fuel]; [lia|]. cbn [load_limbs].
      assert (E : wrap 32 (w + 1) = w + 1) by (apply wrap_small; unfold fits; lia). rewrite E.
      destruct (Z.ltb_spec (w + 1) (w + Z.succ (Z.of_nat 0))); [lia|]. exists s1. split; [|done].
      change (seqZ 0 (Z.succ (Z.of_nat 0))) with [0]. cbn [map]. by rewrite Z.add_0_r.
    + rewrite wrap_small by (unfold fits; lia).
      destruct (IH fuel s1 c (w + 1) ltac:(lia) Hs1 ltac:(lia)) as (s2 & E2 & Hs2).
      { split_and!; [lia|lia|]. intros x Hx. apply Hr3. lia. }
      replace (w + Z.succ (Z.of_nat n)) with (w + 1 + Z.of_nat n) by lia.
      rewrite (run_bind _ _ _ _ _ E2). exists s2. split; [|done]. unfold mret, state_ret. do 2 f_equal.
      rewrite (seqZ_cons 0 (Z.succ (Z.of_nat n))) by lia. cbn [map]. rewrite Z.add_0_r. f_equal.
      rewrite Z.pred_succ, <- (fmap_add_seqZ 1 0). change (map ?f ?l) with (f <$> l).
      rewrite <- list_fmap_compose. apply list_fmap_ext. intros k i Hi. unfold compose. by rewrite Z.add_assoc.
Qed.

(** A load reads the little-endian number in the [count] bytes at its operand. *)
Lemma io_load_run s c md wit arena offset count : csim s c -> legal c md arena offset -> 0 <= count < 2 ^ 32 ->
  region (4 * target c arena offset) (4 * ((count + 3) / 4)) ->
  exists s', io_load arena offset count (mkIO s md wit)
    = (Ok (le_load (c_mem c) (4 * target c arena offset) (Z.to_nat count)), mkIO s' md wit) /\ csim s' c.
Proof.
  intros Hs Hl Hc Hreg. set (w := target c arena offset) in *. set (n := Z.to_nat ((count + 3) / 4)).
  assert (En : (count + 3) / 4 = Z.of_nat n) by (unfold n; rewrite Z2Nat.id; [done|apply Z.div_pos; lia]).
  destruct (operand_run s c md R0ctx.Load arena offset Hs Hl) as (s1 & Hs1 & E1 & Et & Hck & Hw). fold w in Et, Hck, Hw.
  unfold io_load. rewrite run_gets. cbn [mode]. unfold on_ctx. cbn [ctx witness].
  rewrite (run_bind _ _ _ _ _ E1), Et, Hck, run_lift_Ok, En. rewrite Nat2Z.id.
  rewrite En in Hreg. pose proof Hreg as (_ & Hend & _).
  assert (E : WordAddr.add_u32 w (Z.of_nat n) = w + Z.of_nat n).
  { unfold WordAddr.add_u32, add32. apply wrap_small. unfold fits. lia. }
  rewrite E. destruct (load_limbs_run n (n + 1) s1 c w ltac:(lia) Hs1 ltac:(lia) Hreg) as (s2 & E2 & Hs2).
  rewrite (run_bind _ _ _ _ _ E2). exists s2. split; [|done]. unfold mret, state_ret. do 2 f_equal.
  pose proof (csim_bytes s c Hs) as Hb.
  assert (Hu : Forall u32 (map (fun i => le_load (c_mem c) (4 * (w + i)) 4) (seqZ 0 (Z.of_nat n)))).
  { apply Forall_fmap, Forall_true. intros i. by apply le_load_u32. }
  destruct (mask_last_val count _ ltac:(lia) Hu) as [Hm Hmu]; [rewrite length_map, length_seqZ; lia|].
  rewrite from_limbs_law, Hm, limbs_load by done.
  rewrite <- (le_load_mod _ _ (4 * n) (Z.to_nat count)) by (done || (Z.to_euclidean_division_equations; lia)).
  rewrite Z2Nat.id by lia. by rewrite Z.pow_mul_r by lia.
Qed.

(** The witness with the digits of a value from an address on. *)
Definition put_value (addr count v : Z) (wit : BigIntWitness) : BigIntWitness :=
  insert_chunks addr 0 (digits (Z.to_nat (count / 16)) v) wit.

Lemma insert_chunks_app addr xs : forall i ys wit,
  insert_chunks addr i (xs ++ ys) wit = insert_chunks addr (i + Z.of_nat (length xs)) ys (insert_chunks addr i xs wit).
Proof.
  induction xs as [|x xs IH]; intros i ys wit; cbn [insert_chunks app length]; [by rewrite Z.add_0_r|].
  rewrite IH, Nat2Z.inj_succ. f_equal. lia.
Qed.

Lemma chunks4_length n : forall l, (length l <= 4 * n)%nat -> (length (chunks4 l) <= n)%nat.
Proof.
  induction n as [|n IH]; intros l Hl; [destruct l; cbn in *; lia|].
  destruct l as [|x0 [|x1 [|x2 [|x3 l]]]]; cbn [chunks4 length] in *; try lia.
  specialize (IH l). lia.
Qed.

(** A store buffers the digits of its value. *)
Lemma io_store_run s c md wit arena offset count v : csim s c -> legal c md arena offset ->
  0 <= count < 2 ^ 32 -> count mod 16 = 0 -> 0 <= v < 2 ^ (8 * count) ->
  exists s', io_store arena offset count v (mkIO s md wit)
    = (Ok tt, mkIO s' md (put_value (target c arena offset) count v wit)) /\ csim s' c.
Proof.
  intros Hs Hl Hc Hm Hv. set (w := target c arena offset) in *.
  destruct (operand_run s c md R0ctx.Load arena offset Hs Hl) as (s1 & Hs1 & E1 & Et & Hck & Hw). fold w in Et, Hck, Hw.
  exists s1. split; [|done]. unfold io_store. rewrite run_gets. cbn [mode].
  rewrite (run_bind _ _ _ (arg c arena / 4) (mkIO s1 md wit)) by (unfold on_ctx; cbn [ctx witness mode]; by rewrite E1).
  rewrite Et, Hck, run_lift_Ok.
  destruct (to_limbs_law v ltac:(lia)) as [Hlu Hlv].
  assert (Hlen : Z.of_nat (length (to_limbs_asc v)) <= count / 4).
  { apply to_limbs_short; [|apply Z.div_pos; lia]. replace (32 * (count / 4)) with (8 * count); [lia|].
    Z.to_euclidean_division_equations; lia. }
  change WORD_SIZE with 4. change BIGINT_WIDTH_BYTES with 16.
  assert ((Z.of_nat (length (to_limbs_asc v)) * 4 <=? count) = true) as -> by (Z.to_euclidean_division_equations; lia).
  rewrite Hm. cbn [ensure Z.eqb]. rewrite !run_lift_Ok. unfold modify. do 2 f_equal. cbn [ctx witness mode].
  unfold put_value. set (n := Z.to_nat (count / 16)).
  assert (Hn : (length (to_limbs_asc v) <= 4 * n)%nat) by (unfold n; Z.to_euclidean_division_equations; lia).
  replace (digits n v) with (digits n (limbs_val (to_limbs_asc v))) by (by rewrite Hlv).
  rewrite <- chunks_digits, insert_chunks_app, Z.add_0_l by done. rewrite !length_map.
  do 2 f_equal. pose proof (chunks4_length n _ Hn). unfold n in *. lia.
Qed.

End Io.

(** ** The value of every operation *)

Definition val (vals : list Z) (i : Z) : Z := default 0 (vals !! Z.to_nat i).

(** The bytes that a load or a store of the operation moves. *)
Definition count_of (p : Program) (op : Op) : Z :=
  match types p !! Z.to_nat (result_type op) with Some typ => wrap 32 (next_multiple_of_16 (coeffs typ)) | None => 0 end.

(** The constant whose 64-bit digits start at [a] in the pool. *)
Definition digits64 (words : list Z) : Z := foldr (fun w acc => w + 2 ^ 64 * acc) 0 words.
Definition const_value (p : Program) (op : Op) : Z := digits64 (take (Z.to_nat (b op)) (drop (Z.to_nat (a op)) (constants p))).

(** What operation [i] stores: an operand that is not computed yet is zero. *)
Definition stored_value (vals : list Z) (i : Z) (op : Op) : Z := if b op <? i then Z.abs (val vals (b op)) else 0.

Definition binary_spec (code : OpCode) (x y v : Z) : Prop :=
  match code with
  | Add => v = x + y
  | Sub => v = x - y
  | Mul => v = x * y
  | Rem => y <> 0 /\ v = Z.rem x y
  | Quo => y <> 0 /\ v = Z.quot x y
  | Inv => y <> 0 /\ Z.abs x mod Z.abs y <> 0 /\ 0 <= v < Z.abs y /\ (Z.abs x * v) mod Z.abs y = 1 mod Z.abs y
  | _ => False
  end.

Section Values.
Context {S : Type} `{CtxLaws S}.

(** The equation that the value of operation [i] satisfies on the memory of [c]. *)
Definition op_spec (c : cstate) (md : Z) (p : Program) (vals : list Z) (i : Z) (op : Op) : Prop :=
  match code op with
  | Const => a op + b op <= Z.of_nat (length (constants p)) /\ val vals i = const_value p op
  | Bibc.Load =>
      is_Some (types p !! Z.to_nat (result_type op)) /\ legal c md (arena op) (offset op) /\
      region (4 * target c (arena op) (offset op)) (count_of p op) /\
      val vals i = le_load (c_mem c) (4 * target c (arena op) (offset op)) (Z.to_nat (count_of p op))
  | Store =>
      is_Some (types p !! Z.to_nat (result_type op)) /\ legal c md (arena op) (offset op) /\
      b op < Z.of_nat (length (ops p)) /\ stored_value vals i op < 2 ^ (8 * count_of p op) /\ val vals i = 0
  | code => a op < i /\ b op < i /\ binary_spec code (val vals (a op)) (val vals (b op)) (val vals i)
  end.

Definition computes (c : cstate) (md : Z) (p : Program) (vals : list Z) : Prop :=
  length vals = length (ops p) /\ forall i op, ops p !! i = Some op -> op_spec c md p vals (Z.of_nat i) op.

(** The witness after the stores of [ops], the first of which has index [i]. *)
Fixpoint stores (c : cstate) (p : Program) (vals : list Z) (i : Z) (ops : list Op) (wit : BigIntWitness) : BigIntWitness :=
  match ops with
  | [] => wit
  | op :: ops => stores c p vals (i + 1) ops
      (match code op with
       | Store => put_value (target c (arena op) (offset op)) (count_of p op) (stored_value vals i op) wit
       | _ => wit
       end)
  end.
End Values.

Lemma lor_shifted x y n : 0 <= x < 2 ^ n -> 0 <= n -> Z.lor x (Z.shiftl y n) = x + 2 ^ n * y.
Proof.
  intros Hx Hn. rewrite Z.mul_comm, <- Z.shiftl_mul_pow2 by done. apply lor_disjoint.
  zbits. rewrite Z.land_spec, Z.bits_0, Z.shiftl_spec by lia.
  destruct (Z.ltb_spec i n); [rewrite (Z.testbit_neg_r y) by lia; apply andb_false_r|].
  rewrite <- (Z.mod_small x (2 ^ n)), Z.mod_pow2_bits_high by lia; done.
Qed.

Lemma coprime_inverse_unique x m y z : 0 < m -> 0 <= y < m -> 0 <= z < m ->
  (x * y) mod m = 1 mod m -> (x * z) mod m = 1 mod m -> y = z.
Proof.
  intros Hm Hy Hz Ey Ez.
  assert (E : (z * (x * y)) mod m = (y * (x * z)) mod m) by (f_equal; lia).
  rewrite <- (Zmult_mod_idemp_r (x * y)), <- (Zmult_mod_idemp_r (x * z)), Ey, Ez in E.
  rewrite !Zmult_mod_idemp_r, !Z.mul_1_r in E. by rewrite !Z.mod_small in E.
Qed.

Lemma inverse_coprime x m v : 0 < m -> (x * v) mod m = 1 mod m -> Z.gcd x m = 1.
Proof.
  intros Hm Hv. apply Z.bezout_1_gcd. exists v, (- ((x * v - 1) / m)).
  assert (E : (x * v - 1) mod m = 0) by (rewrite Zminus_mod, Hv, <- Zminus_mod; apply Z.mod_0_l; lia).
  pose proof (Z.div_mod (x * v - 1) m ltac:(lia)). lia.
Qed.

Section EvalRun.
Context `{MalachiteLaws} {S : Type} `{CtxLaws S}.
Hypothesis sys : system_mapped.

Lemma binary_run code x y v : binary_spec code x y v -> binary code x y = Ok v.
Proof.
  destruct code; cbn [binary_spec binary]; try done.
  - intros ->. by rewrite integer_add_law.
  - intros ->. by rewrite integer_sub_law.
  - intros ->. by rewrite integer_mul_law.
  - intros [Hy ->]. by rewrite integer_rem_law.
  - intros [Hy ->]. by rewrite integer_quo_law.
  - intros (Hy & Hr & Hv & Ev). rewrite natural_rem_law by lia. cbn [unwrap mbind outcome_bind].
    pose proof (Z.mod_pos_bound (Z.abs x) (Z.abs y) ltac:(lia)) as Hb.
    assert (Ev' : (Z.abs x mod Z.abs y * v) mod Z.abs y = 1 mod Z.abs y) by (by rewrite Zmult_mod_idemp_l).
    destruct (mod_inverse_law (Z.abs x mod Z.abs y) (Z.abs y) ltac:(lia)) as (o & -> & Ho). cbn [unwrap].
    destruct o as [z|]; cbn [ok_or].
    + destruct Ho as [Hz Ez]. by rewrite (coprime_inverse_unique (Z.abs x mod Z.abs y) (Z.abs y) z v) by (done || lia).
    + destruct Ho. apply (inverse_coprime _ (Z.abs y) v); [lia|done].
Qed.

Lemma const_loop_run consts off n : forall k value, Forall u64 consts -> 0 <= off -> 0 <= k ->
  off + k + Z.of_nat n <= Z.of_nat (length consts) -> 0 <= value < 2 ^ (64 * k) ->
  const_loop consts off (seqZ k (Z.of_nat n)) value =
    Ok (value + 2 ^ (64 * k) * digits64 (take n (drop (Z.to_nat (off + k)) consts))).
Proof.
  induction n as [|n IH]; intros k value Hc Hoff Hk Hlen Hv.
  - cbn [take digits64 foldr]. rewrite Z.mul_0_r, Z.add_0_r. done.
  - rewrite Nat2Z.inj_succ, seqZ_cons, Z.pred_succ by lia. cbn [const_loop].
    destruct (lookup_lt_is_Some_2 consts (Z.to_nat (off + k))) as [word Ew]; [lia|].
    pose proof (Forall_lookup_1 _ _ _ _ Hc Ew) as Hw. unfold fits in Hw. rewrite Ew. cbn [unwrap mbind outcome_bind].
    rewrite natural_shl_law by lia. rewrite natural_or_law by (try apply Z.shiftl_nonneg; lia).
    rewrite (Z.mul_comm k 64), lor_shifted by lia. rewrite (drop_S _ _ _ Ew). cbn [take digits64 foldr].
    fold (digits64 (take n (drop (Datatypes.S (Z.to_nat (off + k))) consts))).
    pose proof (Z.pow_pos_nonneg 2 (64 * k) ltac:(lia) ltac:(lia)) as Hp.
    assert (Ep : 2 ^ (64 * Z.succ k) = 2 ^ 64 * 2 ^ (64 * k)) by (rewrite <- Z.pow_add_r by lia; f_equal; lia).
    rewrite IH by (done || lia || (rewrite Ep; nia)). rewrite Ep.
    replace (Z.to_nat (off + Z.succ k)) with (Datatypes.S (Z.to_nat (off + k))) by lia. f_equal. lia.
Qed.

Lemma count_of_ok p op : program_wf p -> 0 <= count_of p op < 2 ^ 32 /\ count_of p op mod 16 = 0.
Proof.
  intros Hp. unfold count_of. destruct (types p !! _) as [typ|] eqn:E; [|done].
  pose proof (Forall_lookup_1 _ _ _ _ (wf_types p Hp) E) as (Ht & _). unfold fits in Ht.
  split; [apply (wrap_fits 32); lia|]. unfold next_multiple_of_16, add64.
  assert (Hm : forall w n, 4 <= w -> n mod 16 = 0 -> wrap w n mod 16 = 0).
  { intros w n Hw Hn. unfold wrap. rewrite <- Znumtheory.Zmod_div_mod; [done|lia|apply Z.pow_pos_nonneg; lia|].
    exists (2 ^ (w - 4)). rewrite <- (Z.pow_add_r 2 _ 4) by lia. f_equal. lia. }
  apply Hm; [lia|]. destruct (Z.eqb_spec (coeffs typ mod 16) 0) as [E0|E0]; [done|].
  apply Hm; [lia|]. Z.to_euclidean_division_equations; lia.
Qed.

End EvalRun.

Section EvalCorrect.
Context `{MalachiteLaws} {S : Type} `{CtxLaws S}.
Hypothesis sys : system_mapped.

(** The registers before operation [i]. *)
Definition regs_at (vals : list Z) (i : nat) : list Z := take i vals ++ replicate (length vals - i) 0.

Lemma regs_at_length vals i : (i <= length vals)%nat -> length (regs_at vals i) = length vals.
Proof. intros Hi. unfold regs_at. rewrite length_app, length_take, length_replicate. lia. Qed.

Lemma regs_at_set vals i : (i < length vals)%nat -> <[i := val vals (Z.of_nat i)]> (regs_at vals i) = regs_at vals (Datatypes.S i).
Proof.
  intros Hi. unfold regs_at, val. rewrite Nat2Z.id. destruct (lookup_lt_is_Some_2 vals i Hi) as [v Ev].
  rewrite Ev, (take_S_r _ _ v) by done. cbn [default]. replace (length vals - i)%nat with (Datatypes.S (length vals - Datatypes.S i)) by lia.
  replace i with (length (take i vals) + 0)%nat at 1 by (rewrite length_take; lia).
  rewrite insert_app_r. cbn [replicate insert list_insert]. by rewrite <- app_assoc.
Qed.

Lemma regs_at_skip vals i : (i < length vals)%nat -> val vals (Z.of_nat i) = 0 -> regs_at vals i = regs_at vals (Datatypes.S i).
Proof.
  intros Hi Hv. rewrite <- regs_at_set, Hv by done. symmetry. apply list_insert_id. unfold regs_at.
  rewrite lookup_app_r by (rewrite length_take; lia). rewrite length_take. apply lookup_replicate_2. lia.
Qed.

Lemma regs_at_lookup vals i j : (i <= length vals)%nat -> 0 <= j < Z.of_nat (length vals) ->
  regs_at vals i !! Z.to_nat j = Some (if j <? Z.of_nat i then val vals j else 0).
Proof.
  intros Hi Hj. unfold regs_at, val. destruct (Z.ltb_spec j (Z.of_nat i)).
  - rewrite lookup_app_l by (rewrite length_take; lia). rewrite lookup_take_lt by lia.
    destruct (lookup_lt_is_Some_2 vals (Z.to_nat j)) as [v Ev]; [lia|]. by rewrite Ev.
  - rewrite lookup_app_r by (rewrite length_take; lia). rewrite length_take. apply lookup_replicate_2. lia.
Qed.

Lemma operands_run vals i op : (i < length vals)%nat -> 0 <= a op < Z.of_nat i -> 0 <= b op < Z.of_nat i ->
  operands op (Z.of_nat i) (regs_at vals i) = Ok (val vals (a op), val vals (b op)).
Proof.
  intros Hi Ha Hb. unfold operands. replace (a op <? Z.of_nat i) with true by lia.
  replace (b op <? Z.of_nat i) with true by lia. cbn [assert_ mbind outcome_bind].
  rewrite !lookup_take_lt by lia. rewrite !regs_at_lookup by lia.
  replace (a op <? Z.of_nat i) with true by lia. by replace (b op <? Z.of_nat i) with true by lia.
Qed.

(** One operation: its register gets its value, a store is buffered. *)
Lemma eval_op_run c md p vals i op s wit : csim s c -> program_wf p -> computes c md p vals -> ops p !! i = Some op ->
  exists s', eval_op p (Z.of_nat i) op (regs_at vals i) (mkIO s md wit)
    = (Ok (regs_at vals (Datatypes.S i)), mkIO s' md (stores c p vals (Z.of_nat i) [op] wit)) /\ csim s' c.
Proof.
  intros Hs Hp [Hlen Hc] Hop. specialize (Hc i op Hop). pose proof (lookup_lt_Some _ _ _ Hop) as Hi. rewrite <- Hlen in Hi.
  pose proof (Forall_lookup_1 _ _ _ _ (wf_ops p Hp) Hop) as (Ht & Ha & Hb). unfold fits in Ht, Ha, Hb.
  destruct (count_of_ok p op Hp) as [Hcnt Hm]. unfold op_spec in Hc. unfold eval_op. rewrite Nat2Z.id. cbn [stores].
  assert (Hbin : code op ∈ [Add; Sub; Mul; Rem; Quo; Inv] ->
     a op < Z.of_nat i /\ b op < Z.of_nat i /\ binary_spec (code op) (val vals (a op)) (val vals (b op)) (val vals (Z.of_nat i)) ->
     exists s', ('(lhs, rhs) ← lift (operands op (Z.of_nat i) (regs_at vals i)); value ← lift (binary (code op) lhs rhs);
       mret (<[i := value]> (regs_at vals i))) (mkIO s md wit) = (Ok (regs_at vals (Datatypes.S i)), mkIO s' md wit) /\ csim s' c).
  { intros _ (H1' & H2' & H3'). exists s. split; [|done]. rewrite operands_run by lia. rewrite run_lift_Ok.
    rewrite (binary_run _ _ _ _ H3'), run_lift_Ok. by rewrite regs_at_set. }
  destruct (code op) eqn:Eop; try (apply Hbin; [set_solver|exact Hc]).
  - destruct Hc as [Hk Hv]. exists s. split; [|done].
    assert (E : const_loop (constants p) (a op) (seqZ 0 (b op)) 0 = Ok (val vals (Z.of_nat i))).
    { rewrite <- (Z2Nat.id (b op)) by lia. rewrite const_loop_run by (try lia; apply (wf_constants p Hp)).
      rewrite Hv. unfold const_value. rewrite Z.mul_0_r, Z.add_0_r, Z.pow_0_r, Z.mul_1_l. done. }
    rewrite E, run_lift_Ok. by rewrite regs_at_set.
  - destruct Hc as ([typ Et] & Hl & Hreg & Hv). rewrite Et. cbn [unwrap]. rewrite run_lift_Ok.
    assert (Ecnt : wrap 32 (next_multiple_of_16 (coeffs typ)) = count_of p op) by (unfold count_of; by rewrite Et).
    rewrite Ecnt.
    destruct (io_load_run sys s c md wit (arena op) (offset op) (count_of p op) Hs Hl Hcnt) as (s' & E & Hs').
    { replace (4 * ((count_of p op + 3) / 4)) with (count_of p op) by (Z.to_euclidean_division_equations; lia). done. }
    exists s'. split; [|done]. rewrite (run_bind _ _ _ _ _ E), <- Hv. by rewrite regs_at_set.
  - destruct Hc as ([typ Et] & Hl & Hbn & Hst & Hv). rewrite Et. cbn [unwrap]. rewrite run_lift_Ok.
    assert (Ecnt : wrap 32 (next_multiple_of_16 (coeffs typ)) = count_of p op) by (unfold count_of; by rewrite Et).
    rewrite Ecnt, regs_at_lookup by (rewrite ?Hlen; lia). cbn [unwrap]. rewrite run_lift_Ok.
    assert (Eb : Z.abs (if b op <? Z.of_nat i then val vals (b op) else 0) = stored_value vals (Z.of_nat i) op).
    { unfold stored_value. by destruct (b op <? Z.of_nat i). }
    rewrite Eb. destruct (io_store_run sys s c md wit (arena op) (offset op) (count_of p op) (stored_value vals (Z.of_nat i) op) Hs Hl Hcnt Hm) as (s' & E & Hs').
    { split; [|done]. unfold stored_value. destruct (_ <? _); lia. }
    exists s'. split; [|done]. rewrite (run_bind _ _ _ _ _ E). by rewrite regs_at_skip.
Qed.

Lemma stores_app c p vals l1 : forall i l2 wit,
  stores c p vals i (l1 ++ l2) wit = stores c p vals (i + Z.of_nat (length l1)) l2 (stores c p vals i l1 wit).
Proof.
  induction l1 as [|op l1 IH]; intros i l2 wit; cbn [app stores length]; [by rewrite Z.add_0_r|].
  rewrite IH, Nat2Z.inj_succ. f_equal. lia.
Qed.

Lemma eval_loop_run c md p vals : program_wf p -> computes c md p vals ->
  forall rest i s wit, drop i (ops p) = rest -> csim s c ->
  exists s', eval_loop p (Z.of_nat i) rest (regs_at vals i) (mkIO s md wit)
    = (Ok vals, mkIO s' md (stores c p vals (Z.of_nat i) rest wit)) /\ csim s' c.
Proof.
  intros Hp Hc. induction rest as [|op rest IH]; intros i s wit Hd Hs; cbn [eval_loop].
  - exists s. split; [|done]. unfold regs_at. apply (f_equal length) in Hd. rewrite length_drop in Hd. cbn in Hd.
    rewrite <- (proj1 Hc) in Hd. rewrite take_ge by lia. replace (length vals - i)%nat with 0%nat by lia. by rewrite app_nil_r.
  - assert (Hop : ops p !! i = Some op).
    { pose proof (lookup_drop (ops p) i 0) as E. rewrite Hd, Nat.add_0_r in E. by rewrite <- E. }
    destruct (eval_op_run c md p vals i op s wit Hs Hp Hc Hop) as (s1 & E1 & Hs1).
    rewrite (run_bind _ _ _ _ _ E1). replace (Z.of_nat i + 1) with (Z.of_nat (Datatypes.S i)) by lia.
    destruct (IH (Datatypes.S i) s1 (stores c p vals (Z.of_nat i) [op] wit)) as (s2 & E2 & Hs2); [|done|].
    { rewrite (drop_S _ _ _ Hop) in Hd. by injection Hd. }
    exists s2. split; [|done]. rewrite E2. do 2 f_equal. change (op :: rest) with ([op] ++ rest).
    rewrite stores_app. cbn [length]. do 2 f_equal. lia.
Qed.

Lemma eval_run c md p vals s wit : csim s c -> program_wf p -> computes c md p vals ->
  exists s', eval p (mkIO s md wit) = (Ok vals, mkIO s' md (stores c p vals 0 (ops p) wit)) /\ csim s' c.
Proof.
  intros Hs Hp Hc. unfold eval. destruct (eval_loop_run c md p vals Hp Hc (ops p) 0 s wit) as (s' & E & Hs'); [done|done|].
  exists s'. split; [|done]. rewrite <- (proj1 Hc). unfold regs_at in E. rewrite Nat.sub_0_r in E. exact E.
Qed.

(** C34: The evaluator of bibc programs: for every list of values that satisfies the
    equation of each operation (constants from the pool, loads from guest memory,
    exact integer arithmetic, truncated quotients and remainders, modular inverses),
    evaluation returns those values, reads every load from the memory at the start,
    leaves guest memory as it was, and buffers the digits of the stored values. *)
Theorem bibc_eval_correct c md p vals s : csim s c -> program_wf p -> computes c md p vals ->
  exists s', eval p (io_new s md) = (Ok vals, mkIO s' md (stores c p vals 0 (ops p) ∅)) /\ csim s' c.
Proof. intros Hs Hp Hc. by apply eval_run. Qed.

End EvalCorrect.

(** ** The witness in memory *)

(** The memory after the entries have been written in the order of their addresses. *)
Definition write_entries (mem : Z -> Z) (l : list (Z * list Z)) : Z -> Z :=
  foldl (fun m '(addr, bytes) => write_bytes m (4 * addr) bytes) mem l.
Definition written (wit : BigIntWitness) (mem : Z -> Z) : Z -> Z := write_entries mem (entries wit).

Section Written.
Context {S : Type} `{CtxLaws S}.

Definition entry_ok (addr : Z) (bytes : list Z) : Prop :=
  length bytes = 16%nat /\ Forall u8 bytes /\ 0 <= addr /\ region (4 * addr) 16.

Lemma write_chunk_run n : forall s c addr i bs, length bs = (4 * n)%nat -> csim s c -> Forall u8 bs -> 0 <= addr -> 0 <= i ->
  region (4 * (addr + i)) (Z.of_nat (length bs)) ->
  exists s', write_chunk addr i bs s = (Ok tt, s') /\ csim s' (with_mem c (write_bytes (c_mem c) (4 * (addr + i)) bs)).
Proof.
  induction n as [|n IH]; intros s c addr i bs Hn Hs Hb Ha Hi (Hr1 & Hr2 & Hr3).
  { destruct bs; [|done]. exists s. split; [done|]. eapply csim_eq; [exact Hs|]. by split_and!. }
  destruct bs as [|b0 [|b1 [|b2 [|b3 bs]]]]; try (cbn in Hn; lia). cbn [write_chunk length] in *.
  change (b0 :: b1 :: b2 :: b3 :: bs) with ([b0; b1; b2; b3] ++ bs) in *. apply Forall_app in Hb as [H4 Hbs].
  pose proof (from_le_bytes_range _ H4) as Hv.
  assert (E : WordAddr.add_usize addr i = addr + i).
  { unfold WordAddr.add_usize, add32. rewrite (wrap_small 32 i), wrap_small by (unfold fits; lia). done. }
  rewrite E. destruct (csim_store s c (addr + i) (from_le_bytes [b0; b1; b2; b3]) Hs) as (s1 & E1 & Hs1); [|exact Hv|].
  { replace (addr + i) with (4 * (addr + i) / 4) by (rewrite Z.mul_comm, Z.div_mul by lia; done). apply Hr3. lia. }
  rewrite (run_bind _ _ _ _ _ E1).
  destruct (IH s1 _ addr (i + 1) bs ltac:(lia) Hs1 Hbs Ha ltac:(lia)) as (s2 & E2 & Hs2).
  { split_and!; [lia|lia|]. intros x Hx. apply Hr3. lia. }
  exists s2. split; [exact E2|]. eapply csim_eq; [exact Hs2|]. split_and!; [done..|]. intros x. cbn [c_mem with_mem].
  rewrite (write_bytes_app _ _ [b0; b1; b2; b3]). cbn [length].
  replace (4 * (addr + (i + 1))) with (4 * (addr + i) + Z.of_nat 4) by lia. apply write_bytes_ext. intros y.
  by rewrite (le_store_bytes (c_mem c) (4 * (addr + i)) [b0; b1; b2; b3]).
Qed.

Lemma write_chunks_run l : Forall (fun e => entry_ok (fst e) (snd e)) l -> forall s c, csim s c ->
  exists s', write_chunks l s = (Ok tt, s') /\ csim s' (with_mem c (write_entries (c_mem c) l)).
Proof.
  induction 1 as [|[addr bytes] l (Hn & Hb & Ha & Hr) _ IH]; intros s c Hs; cbn [write_chunks].
  { exists s. split; [done|]. eapply csim_eq; [exact Hs|]. by split_and!. }
  cbn [fst snd] in *.
  destruct (write_chunk_run 4 s c addr 0 bytes Hn Hs Hb Ha ltac:(lia)) as (s1 & E1 & Hs1).
  { rewrite Z.add_0_r, Hn. exact Hr. }
  rewrite Z.add_0_r in Hs1. rewrite (run_bind _ _ _ _ _ E1). destruct (IH s1 _ Hs1) as (s2 & E2 & Hs2). by exists s2.
Qed.

Lemma entries_in wit addr bytes : (addr, bytes) ∈ entries wit <-> wit !! addr = Some bytes.
Proof.
  unfold entries, BigIntWitness in *. rewrite (list_elem_of_fmap (fun addr => (addr, default [] (wit !! addr)))). split.
  - intros (x & [= <- ->] & Hx). rewrite merge_sort_Permutation in Hx. apply elem_of_elements, elem_of_dom in Hx as [v Ev]. by rewrite Ev.
  - intros Hw. exists addr. rewrite Hw. split; [done|]. rewrite merge_sort_Permutation. apply elem_of_elements, elem_of_dom. by exists bytes.
Qed.

Lemma entries_nodup wit : NoDup (entries wit).*1.
Proof.
  unfold entries. change (map ?f ?l) with (f <$> l). rewrite <- list_fmap_compose.
  rewrite (list_fmap_id (merge_sort Z.le (elements (dom wit)))), merge_sort_Permutation. apply NoDup_elements.
Qed.

Lemma witness_run wit s c : map_Forall entry_ok wit -> csim s c ->
  exists s', write_witness_to_memory wit s = (Ok tt, s') /\ csim s' (with_mem c (written wit (c_mem c))).
Proof.
  intros Hw Hs. apply write_chunks_run; [|done]. apply Forall_forall. intros [addr bytes] Hin%entries_in. by apply Hw.
Qed.

(** An entry that no other overlaps is what its sixteen bytes hold. *)
Lemma write_entries_out l mem x : (forall addr bytes, (addr, bytes) ∈ l -> length bytes = 16%nat /\ (x < 4 * addr \/ 4 * addr + 16 <= x)) ->
  write_entries mem l x = mem x.
Proof.
  revert mem. induction l as [|[addr bytes] l IH]; intros mem Hl; [done|]. unfold write_entries. cbn [foldl].
  fold (write_entries (write_bytes mem (4 * addr) bytes) l). rewrite IH by (intros; apply Hl; by right).
  destruct (Hl addr bytes) as [Hn Hx]; [by left|]. rewrite write_bytes_out; [done|]. rewrite Hn. lia.
Qed.

Lemma write_entries_in l mem addr bytes i v : NoDup l.*1 -> (addr, bytes) ∈ l ->
  (forall addr' bytes', (addr', bytes') ∈ l -> length bytes' = 16%nat /\ (addr' <> addr -> addr' + 4 <= addr \/ addr + 4 <= addr')) ->
  0 <= i < 16 -> bytes !! Z.to_nat i = Some v -> write_entries mem l (4 * addr + i) = v.
Proof.
  intros Hnd Hin Hsep Hi Hv. revert mem. induction l as [|[addr' bytes'] l IH]; intros mem; [by apply elem_of_nil in Hin|].
  cbn [fmap list_fmap fst] in Hnd. apply NoDup_cons in Hnd as [Hni Hnd]. unfold write_entries. cbn [foldl].
  fold (write_entries (write_bytes mem (4 * addr') bytes') l).
  apply elem_of_cons in Hin as [[= <- <-]|Hin].
  - rewrite write_entries_out; [apply write_bytes_in; [lia|done]|].
    intros a b Hab. destruct (Hsep a b) as [Hn Hs]; [by right|]. split; [done|].
    assert (Hne : a <> addr) by (intros ->; apply Hni; exact (list_elem_of_fmap_2 fst _ _ Hab)).
    specialize (Hs Hne). lia.
  - apply IH; [done|done|]. intros a b Hab. apply Hsep. by right.
Qed.

(** ** The entries of the stores *)

Lemma insert_chunks_lookup addr l : forall i wit x, 0 <= addr -> 0 <= i -> addr + 4 * (i + Z.of_nat (length l)) <= 2 ^ 32 ->
  insert_chunks addr i l wit !! x =
    match decide (addr + 4 * i <= x < addr + 4 * (i + Z.of_nat (length l)) /\ (x - addr) mod 4 = 0) with
    | left _ => l !! Z.to_nat ((x - addr) / 4 - i)
    | right _ => wit !! x
    end.
Proof.
  induction l as [|bytes l IH]; intros i wit x Ha Hi Hend; cbn [insert_chunks length] in *.
  - destruct (decide _); [lia|done].
  - rewrite IH by lia. unfold insert_chunk, WordAddr.add_usize, add32, BigIntWitness in *. change BIGINT_WIDTH_WORDS with 4.
    rewrite (wrap_small 32 (i * 4)), wrap_small by (unfold fits; lia).
    destruct (Z.eq_dec x (addr + i * 4)) as [->|Hne].
    + rewrite decide_False by lia. rewrite lookup_insert_eq. rewrite decide_True.
      * replace (addr + i * 4 - addr) with (i * 4) by lia. rewrite Z.div_mul, Z.sub_diag by lia. done.
      * split; [lia|]. replace (addr + i * 4 - addr) with (i * 4) by lia. apply Z.mod_mul. lia.
    + rewrite lookup_insert_ne by done.
      destruct (decide (addr + 4 * (i + 1) <= x < addr + 4 * (i + 1 + Z.of_nat (length l)) /\ (x - addr) mod 4 = 0)) as [[Hx Hm]|Hx].
      * rewrite decide_True by lia. replace (Z.to_nat ((x - addr) / 4 - i)) with (Datatypes.S (Z.to_nat ((x - addr) / 4 - (i + 1)))) by (Z.to_euclidean_division_equations; lia).
        done.
      * rewrite decide_False; [done|]. intros [Hx1 Hx2]. apply Hx. split; [|done]. split; [|lia].
        Z.to_euclidean_division_equations; lia.
Qed.

Lemma digits_length n v : length (digits n v) = n.
Proof. unfold digits. rewrite length_map, length_seqZ. lia. Qed.

Lemma digits_lookup n v j : 0 <= j < Z.of_nat n -> digits n v !! Z.to_nat j = Some (le_bytes 16 (v / 2 ^ (128 * j))).
Proof.
  intros Hj. unfold digits. change (map ?f ?l) with (f <$> l). rewrite list_lookup_fmap, lookup_seqZ_lt by lia.
  cbn [fmap option_fmap option_map]. do 4 f_equal. lia.
Qed.

Lemma put_value_lookup addr count v wit x : 0 <= addr -> 0 <= count -> count mod 16 = 0 -> addr + count / 4 <= 2 ^ 32 ->
  put_value addr count v wit !! x =
    match decide (addr <= x < addr + count / 4 /\ (x - addr) mod 4 = 0) with
    | left _ => Some (le_bytes 16 (v / 2 ^ (32 * (x - addr))))
    | right _ => wit !! x
    end.
Proof.
  intros Ha Hc Hm Hend. unfold put_value.
  assert (En : 4 * (0 + Z.of_nat (length (digits (Z.to_nat (count / 16)) v))) = count / 4)
    by (rewrite digits_length; Z.to_euclidean_division_equations; lia).
  rewrite insert_chunks_lookup by lia. rewrite En, Z.mul_0_r, Z.add_0_r, Z.sub_0_r.
  destruct (decide _) as [[Hx Hx4]|Hx]; [|done]. rewrite digits_lookup by (Z.to_euclidean_division_equations; lia).
  do 3 f_equal. f_equal. Z.to_euclidean_division_equations; lia.
Qed.

Lemma put_value_ok addr count v wit : 0 <= addr -> 0 <= count -> count mod 16 = 0 -> region (4 * addr) count ->
  map_Forall entry_ok wit -> map_Forall entry_ok (put_value addr count v wit).
Proof.
  intros Ha Hc Hm (Hr1 & Hr2 & Hr3) Hw x bytes. rewrite put_value_lookup by (try lia; Z.to_euclidean_division_equations; lia).
  destruct (decide _) as [[Hx Hx4]|Hx]; [|by apply Hw]. intros [= <-].
  split_and!; [apply le_bytes_length|apply le_bytes_u8|lia|].
  assert (4 * x + 16 <= 4 * addr + count) by (Z.to_euclidean_division_equations; lia).
  split_and!; [lia|lia|]. intros y Hy. apply Hr3. lia.
Qed.
End Written.

(** ** The ecall *)

Section EcallCorrect.
Context `{MalachiteLaws, ByteOrderLaws} {S : Type} `{CtxLaws S}.
Hypothesis sys : system_mapped.

Lemma drain_loop_run castable op end_ : forall fuel s c pos, csim s c -> 0 <= pos <= end_ -> end_ <= MAX32 ->
  region pos (end_ - pos) -> (end_ - pos + 8191) / 8192 < Z.of_nat fuel ->
  exists s', drain_loop fuel castable op pos end_ s = (Ok tt, s') /\ csim s' c.
Proof.
  induction fuel as [|fuel IH]; intros s c pos Hs Hp He Hr Hf; [pose proof (Z.div_pos (end_ - pos + 8191) 8192); lia|].
  pose proof Hr as (Hr1 & Hr2 & Hr3). cbn [drain_loop]. change (Z.shiftl 8 10) with 8192.
  set (size := Z.min (ByteAddr.saturating_add pos 8192) end_ - pos).
  assert (Hsz : size = Z.min 8192 (end_ - pos)) by (unfold size, ByteAddr.saturating_add; lia).
  destruct (reader_run s c castable op pos size Hs ltac:(lia)) as (s1 & E1 & Hs1).
  { split_and!; [lia|lia|]. intros x Hx. apply Hr3. lia. }
  rewrite (run_bind _ _ _ _ _ E1). destruct (Z.ltb_spec 0 size); [|by exists s1].
  assert (E : ByteAddr.add_usize pos size = pos + size).
  { unfold ByteAddr.add_usize, add32. rewrite (wrap_small 32 size), wrap_small by (unfold fits; lia). done. }
  rewrite E. apply IH; [done|lia|lia| |].
  - split_and!; [lia|lia|]. intros x Hx. apply Hr3. lia.
  - rewrite Nat2Z.inj_succ in Hf. Z.to_euclidean_division_equations; lia.
Qed.

Lemma drain_run castable op s c addr size : csim s c -> 0 <= addr -> 0 <= size -> addr + wrap 32 size <= MAX32 ->
  region addr (wrap 32 size) -> exists s', drain castable op addr size s = (Ok tt, s') /\ csim s' c.
Proof.
  intros Hs Ha Hsz Hend Hr. unfold drain, ByteAddr.checked_add. pose proof (wrap_fits 32 size ltac:(lia)) as Hw. unfold fits in Hw.
  replace (addr + wrap 32 size <=? MAX32) with true by lia. cbn [ok_or]. rewrite run_lift_Ok.
  apply drain_loop_run; [done|lia|lia|by replace (addr + wrap 32 size - addr) with (wrap 32 size) by lia|].
  change (Z.shiftl 8 10) with 8192. pose proof (Z.div_pos (wrap 32 size) 8192 ltac:(lia) ltac:(lia)).
  replace (addr + wrap 32 size - addr) with (wrap 32 size) by lia.
  rewrite Nat2Z.inj_add, Z2Nat.id by lia. change (Z.of_nat 2) with 2. Z.to_euclidean_division_equations; lia.
Qed.

(** The memory of a call: the program [p] behind its pointer, and the mapped regions that
    the call reads and writes. *)
Record call (c : cstate) (md : Z) (p : Program) (vals rest : list Z) : Prop := {
  call_mode : arg c REG_T0 = md /\ (md = 0 \/ md = 1);
  call_aligned : forall r, r ∈ [REG_A0; REG_T1; REG_T2; REG_T3] -> arg c r mod 4 = 0;
  call_sizes : region (arg c REG_A0) 12;
  call_short : 4 * word c (arg c REG_A0) <= 10 * 2 ^ 20;
  call_program : map (c_mem c) (seqZ (arg c REG_T1) (4 * word c (arg c REG_A0))) = program_bytes p ++ rest;
  call_program_mapped : region (arg c REG_T1) (4 * word c (arg c REG_A0)) /\ arg c REG_T1 + 4 * word c (arg c REG_A0) < 2 ^ 32;
  call_verify : 4 <= arg c REG_T2 /\ let n := wrap 32 (4 * word c (arg c REG_A0 + 4)) in
    arg c REG_T2 - 4 + n <= MAX32 /\ region (arg c REG_T2 - 4) n;
  call_consts : let n := wrap 32 (4 * word c (arg c REG_A0 + 8)) in
    arg c REG_T3 + n <= MAX32 /\ region (arg c REG_T3) n;
  call_wf : program_wf p;
  call_values : computes c md p vals;
  call_stores : forall op, op ∈ ops p -> code op = Store -> region (4 * target c (arena op) (offset op)) (count_of p op) }.

Lemma stores_ok c md p vals : program_wf p -> computes c md p vals ->
  (forall op, op ∈ ops p -> code op = Store -> region (4 * target c (arena op) (offset op)) (count_of p op)) ->
  map_Forall entry_ok (stores c p vals 0 (ops p) ∅).
Proof.
  intros Hp [_ Hc] Hst. assert (Hok : forall rest i wit, drop i (ops p) = rest -> map_Forall entry_ok wit ->
    map_Forall entry_ok (stores c p vals (Z.of_nat i) rest wit)).
  { induction rest as [|op rest IH]; intros i wit Hd Hw; cbn [stores]; [done|].
    assert (Hop : ops p !! i = Some op).
    { pose proof (lookup_drop (ops p) i 0) as E. rewrite Hd, Nat.add_0_r in E. by rewrite <- E. }
    replace (Z.of_nat i + 1) with (Z.of_nat (Datatypes.S i)) by lia. apply IH.
    { rewrite (drop_S _ _ _ Hop) in Hd. by injection Hd. }
    destruct (code op) eqn:Eop; try done. specialize (Hc i op Hop). unfold op_spec in Hc. rewrite Eop in Hc.
    destruct Hc as (_ & (_ & _ & _ & Hlo & _) & _). destruct (count_of_ok p op Hp) as [Hn Hm].
    apply put_value_ok; [lia|lia|done| |done]. apply Hst; [by eapply list_elem_of_lookup_2|done]. }
  apply (Hok (ops p) 0%nat); [done|apply map_Forall_empty].
Qed.

Lemma call_arg_run c md p vals rest op r s : call c md p vals rest -> csim s c -> r ∈ [REG_A0; REG_T1; REG_T2; REG_T3] ->
  exists s', csim s' c /\ load_aligned_addr_from_machine_register op r s = (Ok (arg c r / 4), s') /\
    0 <= arg c r / 4 < 2 ^ 30 /\ 4 * (arg c r / 4) = arg c r.
Proof.
  intros Hc Hs Hr. pose proof (call_aligned _ _ _ _ _ Hc r Hr) as Ha. pose proof (arg_range s c r Hs) as Hu. unfold fits in Hu.
  destruct (aligned_arg_run s c op r sys Hs) as (s' & Hs' & E).
  { rewrite !elem_of_cons in Hr. destruct Hr as [->|[->|[->|[->|Hr]]]]; try done. by apply elem_of_nil in Hr. }
  rewrite Ha in E. exists s'. split_and!; [done|done|..]; Z.to_euclidean_division_equations; lia.
Qed.

Lemma size_run c md p vals rest i s : call c md p vals rest -> csim s c -> 0 <= i < 3 ->
  exists s', Ctx.load_u32 R0ctx.Load (arg c REG_A0 / 4 + i) s = (Ok (word c (arg c REG_A0 + 4 * i)), s') /\ csim s' c.
Proof.
  intros Hc Hs Hi. destruct (call_arg_run c md p vals rest Record REG_A0 s Hc Hs) as (_ & _ & _ & Hu & E4); [by left|].
  destruct (csim_load s c R0ctx.Load (arg c REG_A0 / 4 + i) Hs) as (s' & E & Hs').
  { destruct (call_sizes _ _ _ _ _ Hc) as (_ & _ & Hm). replace (arg c REG_A0 / 4 + i) with ((arg c REG_A0 + 4 * i) / 4) by (Z.to_euclidean_division_equations; lia).
    apply Hm. lia. }
  exists s'. split; [|done]. rewrite E. unfold word. do 3 f_equal. lia.
Qed.

Lemma plus_i32_small a i : 0 <= a < 2 ^ 30 -> 0 <= i < 3 -> plus_i32 a i = Ok (a + i).
Proof. intros Ha Hi. unfold plus_i32, WordAddr.add_i32. rewrite decide_True by (unfold fits; lia). done. Qed.

Lemma baddr_of a : 0 <= a < 2 ^ 30 -> WordAddr.baddr a = 4 * a.
Proof. intros Ha. unfold WordAddr.baddr, mul32. change WORD_SIZE with 4. rewrite wrap_small by (unfold fits; lia). lia. Qed.

(** C33: The big-integer ecall.  When the registers of the call hold aligned pointers to a
    bibc program, its verification program and its constants, and the program's values
    satisfy their equations on guest memory, the ecall returns the size of the
    verification program and leaves guest memory as it was except for the little-endian
    digits of the values that the program stores, written in the order of their
    addresses, later stores of one address winning. *)
Theorem bigint_ecall_correct castable castable' s c md p vals rest : csim s c -> call c md p vals rest ->
  exists s', ecall_execute castable castable' s = (Ok (word c (arg c REG_A0 + 4)), s') /\
    csim s' (with_mem c (written (stores c p vals 0 (ops p) ∅) (c_mem c))).
Proof.
  intros Hs Hc. pose proof Hc as [[Hm Hmd] Hal Hsz Hsh Hp [Hpm Hpe] Hv Hk Hwf Hcv Hst]. unfold ecall_execute, ecall.
  destruct (arg_run s c Record REG_T0 sys Hs) as (s1 & E1 & Hs1); [done|].
  fold (arg c REG_T0) in E1. rewrite Hm in E1.
  destruct (call_arg_run c md p vals rest R0ctx.Load REG_A0 s1 Hc Hs1) as (s2 & Hs2 & E2 & Hb & Hb4); [set_solver|].
  destruct (call_arg_run c md p vals rest R0ctx.Load REG_T1 s2 Hc Hs2) as (s3 & Hs3 & E3 & Hn & Hn4); [set_solver|].
  destruct (call_arg_run c md p vals rest Record REG_T2 s3 Hc Hs3) as (s4 & Hs4 & E4 & Hvp & Hvp4); [set_solver|].
  destruct (call_arg_run c md p vals rest R0ctx.Load REG_T3 s4 Hc Hs4) as (s5 & Hs5 & E5 & Hcp & Hcp4); [set_solver|].
  destruct (size_run c md p vals rest 0 s5 Hc Hs5) as (s6 & E6 & Hs6); [lia|]. rewrite !Z.add_0_r in E6.
  destruct (size_run c md p vals rest 1 s6 Hc Hs6) as (s7 & E7 & Hs7); [lia|]. rewrite Z.mul_1_r in E7.
  destruct (size_run c md p vals rest 2 s7 Hc Hs7) as (s8 & E8 & Hs8); [lia|]. change (4 * 2) with 8 in E8.
  set (nsize := word c (arg c REG_A0)) in *. set (vsize := word c (arg c REG_A0 + 4)) in *. set (csize := word c (arg c REG_A0 + 8)) in *.
  assert (Hword : forall a, u32 (word c a)) by (intros a; apply le_load_u32; [by apply (csim_bytes s)|lia]).
  pose proof (Hword (arg c REG_A0)) as Hnu. pose proof (Hword (arg c REG_A0 + 4)) as Hvu. pose proof (Hword (arg c REG_A0 + 8)) as Hcu.
  fold nsize in Hnu. fold vsize in Hvu. fold csize in Hcu. unfold fits in Hnu, Hvu, Hcu.
  destruct (load_region_run s8 c castable R0ctx.Load (arg c REG_T1) (4 * nsize) Hs8) as (s9 & E9 & Hs9); [lia|lia|done|].
  destruct (eval_run sys c md p vals s9 ∅ Hs9 Hwf Hcv) as (s10 & E10 & Hs10).
  destruct Hv as (Hv4 & Hvend & Hvr). destruct Hk as (Hkend & Hkr).
  destruct (drain_run castable' R0ctx.Load s10 c (arg c REG_T2 - 4) (vsize * 4) Hs10) as (s11 & E11 & Hs11);
    [lia|lia|by rewrite (Z.mul_comm vsize)|by rewrite (Z.mul_comm vsize)|].
  destruct (drain_run castable' R0ctx.Load s11 c (arg c REG_T3) (csize * 4) Hs11) as (s12 & E12 & Hs12);
    [lia|lia|by rewrite (Z.mul_comm csize)|by rewrite (Z.mul_comm csize)|].
  destruct (witness_run (stores c p vals 0 (ops p) ∅) s12 c) as (s13 & E13 & Hs13); [by eapply stores_ok|done|].
  exists s13. split; [|done].
  assert (Eecall : ecall castable castable' s = (Ok (mkExec vsize (stores c p vals 0 (ops p) ∅)), s12)).
  { unfold ecall. rewrite (run_bind _ _ _ _ _ E1). replace ((md =? 0) || (md =? 1)) with true by lia. cbn [ensure]. rewrite run_lift_Ok.
    rewrite (run_bind _ _ _ _ _ E2), (run_bind _ _ _ _ _ E3), (run_bind _ _ _ _ _ E4), (run_bind _ _ _ _ _ E5).
    rewrite (run_bind _ _ _ _ _ E6), !plus_i32_small by lia. rewrite run_lift_Ok, (run_bind _ _ _ _ _ E7), run_lift_Ok, (run_bind _ _ _ _ _ E8).
    change WORD_SIZE with 4. change MAX_NONDET_PROGRAM_SIZE with (10 * 2 ^ 20).
    replace (nsize * 4 <=? 10 * 2 ^ 20) with true by lia. cbn [ensure]. rewrite run_lift_Ok.
    assert (Es : WordAddr.sub_u32 (arg c REG_T2 / 4) 1 = arg c REG_T2 / 4 - 1).
    { unfold WordAddr.sub_u32, sub32. apply wrap_small. unfold fits. lia. }
    rewrite Es, !baddr_of by lia. rewrite Hn4, Hcp4, (Z.mul_comm nsize), (run_bind _ _ _ _ _ E9), Hp, (decode_run p rest Hwf).
    cbn [fst]. rewrite run_lift_Ok. unfold mbind at 1, state_bind at 1. unfold io_new. rewrite E10. cbn [ctx witness mbind outcome_bind].
    replace (4 * (arg c REG_T2 / 4 - 1)) with (arg c REG_T2 - 4) by lia.
    rewrite (run_bind _ _ _ _ _ E11), (run_bind _ _ _ _ _ E12). done. }
  unfold ecall in Eecall. rewrite (run_bind _ _ _ _ _ Eecall). cbn [exec_witness verify_program_size].
  by rewrite (run_bind _ _ _ _ _ E13).
Qed.

(** What a program stores it loads back: after the buffered store of a value below
    [2^(8 count)] is written to memory, a load of the same operand returns the value. *)
Theorem bigint_store_load s c md arena offset count v : csim s c -> legal c md arena offset ->
  0 <= count < 2 ^ 32 -> count mod 16 = 0 -> 0 <= v < 2 ^ (8 * count) -> region (4 * target c arena offset) count ->
  4 * target c arena offset + count <= MACHINE_REGS_ADDR ->
  exists s1 wit s2 s3, io_store arena offset count v (io_new s md) = (Ok tt, mkIO s1 md wit) /\
    write_witness_to_memory wit s1 = (Ok tt, s2) /\ io_load arena offset count (io_new s2 md) = (Ok v, mkIO s3 md ∅).
Proof.
  intros Hs Hl Hc Hm Hv Hr Hend. destruct (io_store_run sys s c md ∅ arena offset count v Hs Hl Hc Hm Hv) as (s1 & E1 & Hs1).
  set (w := target c arena offset) in *. set (wit := put_value w count v ∅) in *.
  assert (Hw : 0 <= w) by (destruct Hl as (_ & _ & _ & Hlo & _); fold w in Hlo; lia).
  assert (Hok : map_Forall entry_ok wit) by (by apply put_value_ok; [lia|lia|..|apply map_Forall_empty]).
  destruct (witness_run wit s1 c Hok Hs1) as (s2 & E2 & Hs2). set (c2 := with_mem c (written wit (c_mem c))) in *.
  pose proof Hr as (_ & Hr2 & Hr3).
  assert (Hlook : forall x, wit !! x = if decide (w <= x < w + count / 4 /\ (x - w) mod 4 = 0) then Some (le_bytes 16 (v / 2 ^ (32 * (x - w)))) else None).
  { intros x. unfold wit. rewrite put_value_lookup by (try lia; Z.to_euclidean_division_equations; lia). by destruct (decide _). }
  assert (Hin : forall i, 0 <= i < count -> written wit (c_mem c) (4 * w + i) = (v / 256 ^ i) mod 256).
  { intros i Hi. set (x := w + 4 * (i / 16)).
    assert (Hx : w <= x < w + count / 4 /\ (x - w) mod 4 = 0) by (unfold x; Z.to_euclidean_division_equations; lia).
    replace (4 * w + i) with (4 * x + i mod 16) by (unfold x; pose proof (Z.div_mod i 16); lia).
    pose proof (Z.mod_pos_bound i 16 ltac:(lia)) as Hi16.
    apply (write_entries_in (entries wit) (c_mem c) x (le_bytes 16 (v / 2 ^ (32 * (x - w))))); [apply entries_nodup| | |done|].
    - apply entries_in. by rewrite Hlook, decide_True.
    - intros y b Hy%entries_in. rewrite Hlook in Hy. destruct (decide _) as [[Hy1 Hy2]|]; [|done]. injection Hy as <-.
      split; [apply le_bytes_length|]. intros Hne. Z.to_euclidean_division_equations; lia.
    - unfold le_bytes. rewrite list_lookup_fmap, lookup_seqZ_lt by lia. cbn [fmap option_fmap option_map]. f_equal. f_equal.
      rewrite Z.add_0_l, Z2Nat.id by lia. rewrite Z.div_div by (apply Z.pow_nonzero || apply Z.pow_pos_nonneg; lia). f_equal.
      replace 256 with (2 ^ 8) by done. rewrite <- !Z.pow_mul_r, <- Z.pow_add_r by lia. f_equal. unfold x. pose proof (Z.div_mod i 16). lia. }
  assert (Hout : forall x, x < 4 * w \/ 4 * w + count <= x -> written wit (c_mem c) x = c_mem c x).
  { intros x Hx. apply write_entries_out. intros y b Hy%entries_in. rewrite Hlook in Hy. destruct (decide _) as [[Hy1 Hy2]|]; [|done].
    injection Hy as <-. split; [apply le_bytes_length|]. Z.to_euclidean_division_equations; lia. }
  assert (Harg : arg c2 arena = arg c arena).
  { unfold arg, word. apply le_load_ext. intros i Hi. apply Hout. destruct Hl as [[Ha _] _]. lia. }
  assert (Ht : target c2 arena offset = w) by (unfold w, target; by rewrite Harg).
  assert (Hl2 : legal c2 md arena offset) by (unfold legal; rewrite Ht, Harg; exact Hl).
  destruct (io_load_run sys s2 c2 md ∅ arena offset count Hs2 Hl2 Hc) as (s3 & E3 & Hs3).
  { rewrite Ht. replace (4 * ((count + 3) / 4)) with count by (Z.to_euclidean_division_equations; lia). done. }
  exists s1, wit, s2, s3. split; [exact E1|]. split; [exact E2|]. unfold io_new. rewrite E3, Ht. do 2 f_equal.
  rewrite (le_load_bytes (c_mem c2) (4 * w) (Z.to_nat count) v) by (intros i Hi; apply Hin; lia).
  rewrite Z2Nat.id by lia. apply Z.mod_small. replace 256 with (2 ^ 8) by done. by rewrite <- Z.pow_mul_r by lia.
Qed.

End EcallCorrect.

(** ** Concrete crates, and the witnesses *)

Fixpoint limbs_of (fuel : nat) (n : Z) : list Z :=
  match fuel with
  | O => []
  | S fuel => if n =? 0 then [] else n mod 2 ^ 32 :: limbs_of fuel (n / 2 ^ 32)
  end.

Definition small_inverse (x m : Z) : option Z := head (base.filter (fun y => (x * y) mod m = 1 mod m) (seqZ 0 m)).

#[local] Instance malachite_Z : Malachite := {|
  from_limbs_asc := limbs_val;
  to_limbs_asc := fun n => limbs_of (Z.to_nat (Z.log2 n + 1)) n;
  natural_or := Z.lor;
  natural_shl := Z.shiftl;
  natural_rem := fun x m => if m =? 0 then None else Some (x mod m);
  mod_inverse := fun x m => Some (small_inverse x m);
  integer_add := Z.add;
  integer_sub := Z.sub;
  integer_mul := Z.mul;
  integer_rem := fun x y => if y =? 0 then None else Some (Z.rem x y);
  integer_quo := fun x y => if y =? 0 then None else Some (Z.quot x y) |}.

#[local] Instance byteorder_Z : ByteOrder := {|
  read_uint_le := fun n bytes => if (n <=? length bytes)%nat then Some (from_le_bytes (take n bytes), drop n bytes) else None |}.

#[local] Instance byteorder_Z_laws : ByteOrderLaws.
Proof.
  split; intros n bytes Hn; cbn.
  - by rewrite (proj2 (Nat.leb_le _ _)).
  - by rewrite (proj2 (Nat.leb_gt _ _)).
Qed.

Lemma limbs_of_spec fuel : forall n, 0 <= n < 2 ^ Z.of_nat fuel -> Forall u32 (limbs_of fuel n) /\ limbs_val (limbs_of fuel n) = n.
Proof.
  induction fuel as [|fuel IH]; intros n Hn; cbn [limbs_of]; [split; [done|cbn in *; lia]|].
  destruct (Z.eqb_spec n 0) as [->|]; [done|]. rewrite Nat2Z.inj_succ, Z.pow_succ_r in Hn by lia.
  destruct (IH (n / 2 ^ 32)) as [Hf Hv]; [Z.to_euclidean_division_equations; lia|]. split.
  - constructor; [|done]. unfold fits. apply Z.mod_pos_bound. lia.
  - cbn [limbs_val foldr]. fold (limbs_val (limbs_of fuel (n / 2 ^ 32))). rewrite Hv. pose proof (Z.div_mod n (2 ^ 32)). lia.
Qed.

Lemma limbs_of_short fuel : forall n k, 0 <= n < 2 ^ (32 * Z.of_nat k) -> (length (limbs_of fuel n) <= k)%nat.
Proof.
  induction fuel as [|fuel IH]; intros n k Hn; cbn [limbs_of]; [cbn; lia|].
  destruct (Z.eqb_spec n 0) as [|Hne]; [cbn; lia|]. destruct k as [|k]; [cbn in Hn; lia|]. cbn [length]. apply le_n_S, IH.
  replace (32 * Z.of_nat (S k)) with (32 + 32 * Z.of_nat k) in Hn by lia. rewrite Z.pow_add_r in Hn by lia.
  split; [apply Z.div_pos; lia|]. apply Z.div_lt_upper_bound; lia.
Qed.

#[local] Instance malachite_Z_laws : MalachiteLaws.
Proof.
  split; try done.
  - intros n Hn. apply limbs_of_spec. split; [done|]. rewrite Z2Nat.id by (pose proof (Z.log2_nonneg n); lia).
    destruct (Z.eq_dec n 0) as [->|]; [done|]. pose proof (Z.log2_spec n ltac:(lia)). rewrite Z.add_1_r. lia.
  - intros n k Hn Hk. rewrite <- (Z2Nat.id k) in Hn |- * by lia. apply Nat2Z.inj_le. by apply limbs_of_short.
  - intros x m Hx Hm. cbn. by destruct (Z.eqb_spec m 0); [lia|].
  - intros x m Hx. exists (small_inverse x m). split; [done|]. unfold small_inverse.
    set (P := fun y => (x * y) mod m = 1 mod m). destruct (base.filter P (seqZ 0 m)) as [|y l] eqn:E; cbn [head].
    + intros Hg. apply Z.gcd_bezout in Hg as (u & v & Huv).
      assert (Hin : u mod m ∈ base.filter P (seqZ 0 m)).
      { apply list_elem_of_filter. split.
        - unfold P. rewrite Zmult_mod_idemp_r. rewrite <- (Z.mod_add 1 (- v) m) by lia. f_equal. lia.
        - apply elem_of_seqZ. pose proof (Z.mod_pos_bound u m). lia. }
      rewrite E in Hin. by apply elem_of_nil in Hin.
    + assert (Hin : y ∈ base.filter P (seqZ 0 m)) by (rewrite E; by left).
      apply list_elem_of_filter in Hin as [Hy Hin]. apply elem_of_seqZ in Hin. split; [lia|done].
  - intros x y Hy. cbn. by destruct (Z.eqb_spec y 0).
  - intros x y Hy. cbn. by destruct (Z.eqb_spec y 0).
Qed.

(** A program that adds five to the number at one operand and stores the sum at another. *)
Definition demo : Program :=
  mkProgram [] [mkType 16 0 0 0] [5] [mkOp Const 0 0 1; mkOp Bibc.Load 0 (13 * 2 ^ 16) 0; mkOp Add 0 0 1; mkOp Store 0 (14 * 2 ^ 16) 2].
Definition demo_values : list Z := [5; 1000; 1005; 0].

Fixpoint words_of (bytes : list Z) : list Z :=
  match bytes with b0 :: b1 :: b2 :: b3 :: bytes => from_le_bytes [b0; b1; b2; b3] :: words_of bytes | _ => [] end.

Definition demo_state : rctx :=
  mkR 0xc0000000 1
    (list_to_map (imap (fun i w => (0x8040 + Z.of_nat i, w)) (words_of (program_bytes demo)) ++
      [(0x3fffc000 + 5, 0); (0x3fffc000 + 10, 0x20000); (0x3fffc000 + 6, 0x20100); (0x3fffc000 + 7, 0x20204); (0x3fffc000 + 28, 0x20300);
       (0x3fffc000 + 13, 0x20400); (0x3fffc000 + 14, 0x20500); (0x8000, 24); (0x8001, 1); (0x8002, 1); (0x8100, 1000)])) [].

Lemma demo_sim : rsim demo_state (rview demo_state).
Proof. apply rview_sim; [by vm_compute|]. refine (bool_decide_unpack _ _). vm_compute. exact I. Qed.

Lemma demo_wf : program_wf demo.
Proof.
  split; cbn [inputs types constants ops demo].
  - constructor.
  - repeat constructor; unfold fits; cbn; lia.
  - repeat constructor; unfold fits; lia.
  - repeat constructor; unfold fits; cbn; lia.
  - intros n. cbn [length]. rewrite !elem_of_cons. intros [->|[->|[->|[->|Hn]]]]; [lia..|by apply elem_of_nil in Hn].
Qed.

Lemma demo_legal arena : arena = 13 \/ arena = 14 -> legal (rview demo_state) 0 arena 0.
Proof.
  intros [-> | ->]; unfold legal, target, is_reg.
  - replace (arg (rview demo_state) 13) with 0x20400 by (by vm_compute). split_and!; first [lia | by vm_compute | right; by vm_compute].
  - replace (arg (rview demo_state) 14) with 0x20500 by (by vm_compute). split_and!; first [lia | by vm_compute | right; by vm_compute].
Qed.

Lemma demo_computes : computes (rview demo_state) 0 demo demo_values.
Proof.
  split; [done|]. intros [|[|[|[|i]]]] op Hop; cbn in Hop; try (injection Hop as <-); try done; cbn [op_spec code].
  - split_and!; [by eexists|apply demo_legal; left; by vm_compute| |by vm_compute]. apply rview_region; by vm_compute.
  - split_and!; [by eexists|apply demo_legal; right; by vm_compute|..]; by vm_compute.
Qed.

Lemma bibc_decode_encode_witness : decode (program_bytes demo ++ [1; 2; 3]) = (Ok demo, [1; 2; 3]).
Proof. apply (bibc_decode_encode demo [1; 2; 3]), demo_wf. Defined.

Lemma bibc_eval_correct_witness : exists s', eval demo (io_new demo_state 0) =
  (Ok demo_values, mkIO s' 0 (stores (rview demo_state) demo demo_values 0 (ops demo) ∅)).
Proof.
  destruct (bibc_eval_correct rsys (rview demo_state) 0 demo demo_values demo_state demo_sim demo_wf demo_computes) as (s' & H & _).
  exists s'. exact H.
Defined.

Lemma bigint_ecall_correct_witness : exists s', ecall_execute true false demo_state = (Ok 1, s').
Proof.
  destruct (bigint_ecall_correct rsys true false demo_state (rview demo_state) 0 demo demo_values [] demo_sim) as (s' & H & _).
  - split.
    + split; [by vm_compute|by left].
    + intros r. rewrite !elem_of_cons. intros [->|[->|[->|[->|Hr]]]]; [by vm_compute..|by apply elem_of_nil in Hr].
    + apply rview_region; by vm_compute.
    + by vm_compute.
    + by vm_compute.
    + split; [|by vm_compute]. apply rview_region; by vm_compute.
    + split; [by vm_compute|]. split; [by vm_compute|]. apply rview_region; by vm_compute.
    + split; [by vm_compute|]. apply rview_region; by vm_compute.
    + exact demo_wf.
    + exact demo_computes.
    + intros op. cbn [ops demo]. rewrite !elem_of_cons. intros [->|[->|[->|[->|Hop]]]] E; try discriminate E; [|by apply elem_of_nil in Hop].
      apply rview_region; by vm_compute.
  - exists s'. exact H.
Defined.

Lemma bigint_store_load_witness : exists s1 wit s2 s3, io_store 14 0 16 77 (io_new demo_state 0) = (Ok tt, mkIO s1 0 wit) /\
  write_witness_to_memory wit s1 = (Ok tt, s2) /\ io_load 14 0 16 (io_new s2 0) = (Ok 77, mkIO s3 0 ∅).
Proof.
  apply (bigint_store_load rsys demo_state (rview demo_state)); [exact demo_sim|apply demo_legal; by right|lia|done|lia| |by vm_compute].
  apply rview_region; by vm_compute.
Defined.
