(* ===== verification/BlockTracker.v ===== *)
(** * The block tracker

    The executor counts the circuit blocks that a segment needs in points, 5040 to a
    row of the trace.  The block types and how many of each fit in a row come from the
    generated circuit and are a class. *)
From S2P Require Export Rv32im Pager.
Open Scope word_scope.
Open Scope Z_scope.

(** The types that the tracker names. *)
Inductive BlockType :=
  | InstReg | InstImm | InstLoad | InstStore | InstBranch | InstJal | InstJalr | InstLui | InstAuipc | InstMret
  | InstEcall | InstTrap | UnitAddSub | UnitBit | UnitShift | UnitMul | UnitDiv | UnitLt | Decode
  | EcallWrite | EcallTerminate | EcallRead | ReadByte | ReadWord | EcallBigInt | BigInt | EcallP2 | P2Step
  | P2Block | P2IntRounds | P2ExtRound | PageInPage | PageInPart | PageInNode | PageOutPage | PageOutPart
  | PageOutNode | PageUncle | MakeTable.

Class BlockRows := { COUNT : Z; count_per_row : BlockType -> Z }.

Module Blocks.
Section Blocks.
Context `{BlockRows}.

(* source: src/risc0/risc0/circuit/rv32im/src/execute/block_tracker.rs *)
(* L24-24 POINTS_PER_ROW *)
Definition POINTS_PER_ROW : Z := 5040.
(* L26-26 PART_SIZE *)
Definition PART_SIZE : Z := 8.
(* L27-27 NUM_PARTS *)
Definition NUM_PARTS : Z := (PAGE_BYTES / WORD_SIZE) / PART_SIZE.

(* L29-31 row_points *)
Definition row_points_of (block : BlockType) : Z := POINTS_PER_ROW / count_per_row block.

(** Without the counts of the debugging feature a collection is its points. *)
(* L95-99 BlockCollection *)
Record BlockCollection := mkBlocks { row_points : Z }.

(* L102-114 BlockCollection::default *)
Definition blocks_default : BlockCollection := mkBlocks (mul64 COUNT POINTS_PER_ROW).

(* L118-125 BlockCollection::add_block *)
Definition add_block (block : BlockType) (self : BlockCollection) : BlockCollection :=
  mkBlocks (add64 (row_points self) (row_points_of block)).
(* L127-134 BlockCollection::add_blocks *)
Definition add_blocks (block : BlockType) (amount : Z) (self : BlockCollection) : BlockCollection :=
  mkBlocks (add64 (row_points self) (mul64 (row_points_of block) amount)).

(** The blocks of an instruction. *)
Definition insn_blocks (i : InsnKind) : list BlockType :=
  match i with
  | Add => [InstReg; UnitAddSub]
  | Sub => [InstReg; UnitAddSub]
  | Xor => [InstReg; UnitBit]
  | Or => [InstReg; UnitBit]
  | And => [InstReg; UnitBit]
  | Sll => [InstReg; UnitShift; UnitMul]
  | Srl => [InstReg; UnitShift; UnitDiv; UnitMul]
  | Sra => [InstReg; UnitShift; UnitDiv; UnitMul]
  | Slt => [InstReg; UnitLt]
  | SltU => [InstReg; UnitLt]
  | AddI => [InstImm; UnitAddSub]
  | XorI => [InstImm; UnitBit]
  | OrI => [InstImm; UnitBit]
  | AndI => [InstImm; UnitBit]
  | SllI => [InstImm; UnitShift; UnitMul]
  | SrlI => [InstImm; UnitShift; UnitDiv; UnitMul]
  | SraI => [InstImm; UnitShift; UnitDiv; UnitMul]
  | SltI => [InstImm; UnitLt]
  | SltIU => [InstImm; UnitLt]
  | Lb => [InstLoad]
  | Lh => [InstLoad]
  | Lw => [InstLoad]
  | LbU => [InstLoad]
  | LhU => [InstLoad]
  | Sb => [InstStore]
  | Sh => [InstStore]
  | Sw => [InstStore]
  | Beq => [InstBranch; UnitAddSub]
  | Bne => [InstBranch; UnitAddSub]
  | Blt => [InstBranch; UnitLt]
  | Bge => [InstBranch; UnitLt]
  | BltU => [InstBranch; UnitLt]
  | BgeU => [InstBranch; UnitLt]
  | Jal => [InstJal]
  | JalR => [InstJalr]
  | Lui => [InstLui]
  | Auipc => [InstAuipc]
  | Mul => [InstReg; UnitMul]
  | MulH => [InstReg; UnitMul]
  | MulHSU => [InstReg; UnitMul]
  | MulHU => [InstReg; UnitMul]
  | Div => [InstReg; UnitDiv; UnitMul]
  | DivU => [InstReg; UnitDiv; UnitMul]
  | Rem => [InstReg; UnitDiv; UnitMul]
  | RemU => [InstReg; UnitDiv; UnitMul]
  | Mret => [InstMret]
  | Eany | Invalid => []
  end.

(* L34-92 add_blocks_for_insn *)
Definition add_blocks_for_insn (i : InsnKind) (blocks : BlockCollection) : BlockCollection :=
  foldl (fun blocks b => add_block b blocks) blocks (insn_blocks i).

(* L184-187 BlockTracker *)
Record BlockTracker := mkTracker { pc_cache : gset Z; blocks : BlockCollection }.

(** [u64::div_ceil]. *)
Definition div_ceil (a b : Z) : Z := (a + b - 1) / b.

(* L190-199 BlockTracker::default *)
Definition tracker_default : BlockTracker :=
  mkTracker ∅ (add_blocks MakeTable ((256 + 65536) / 16) blocks_default).

Definition on_blocks (f : BlockCollection -> BlockCollection) (self : BlockTracker) : BlockTracker :=
  mkTracker (pc_cache self) (f (blocks self)).

(* L203-205 BlockTracker::track_instr *)
Definition track_instr (kind : InsnKind) : BlockTracker -> BlockTracker := on_blocks (add_blocks_for_insn kind).

(* L207-211 BlockTracker::track_pc *)
Definition track_pc (pc : Z) (self : BlockTracker) : BlockTracker :=
  if decide (pc ∈ pc_cache self) then self
  else mkTracker ({[pc]} ∪ pc_cache self) (add_block Decode (blocks self)).

(* L213-215 BlockTracker::track_ecall_write *)
Definition track_ecall_write : BlockTracker -> BlockTracker := on_blocks (add_block EcallWrite).
(* L217-219 BlockTracker::track_ecall_terminate *)
Definition track_ecall_terminate : BlockTracker -> BlockTracker := on_blocks (add_block EcallTerminate).
(* L221-229 BlockTracker::track_ecall_read *)
Definition track_ecall_read (bytes words : Z) : BlockTracker -> BlockTracker := on_blocks (fun blocks =>
  add_blocks MakeTable (div_ceil (bytes + words + 1) 8)
    (add_blocks ReadWord words (add_blocks ReadByte bytes (add_block EcallRead blocks)))).
(* L231-237 BlockTracker::track_ecall_bigint *)
Definition track_ecall_bigint (verify_program_size : Z) : BlockTracker -> BlockTracker := on_blocks (fun blocks =>
  add_blocks MakeTable (div_ceil (verify_program_size + 1) 8)
    (add_blocks BigInt verify_program_size (add_block EcallBigInt blocks))).
(* L239-241 BlockTracker::track_user_ecall *)
Definition track_user_ecall : BlockTracker -> BlockTracker := on_blocks (add_block InstEcall).
(* L243-245 BlockTracker::track_trap *)
Definition track_trap : BlockTracker -> BlockTracker := on_blocks (add_block InstTrap).

(* L247-251 BlockTracker::add_p2_blocks *)
Definition add_p2_blocks (num : Z) (blocks : BlockCollection) : BlockCollection :=
  add_blocks P2ExtRound (8 * num) (add_blocks P2IntRounds num (add_blocks P2Block num blocks)).

(* L253-260 BlockTracker::track_ecall_poseidon2 *)
Definition track_ecall_poseidon2 (block_count : Z) : BlockTracker -> BlockTracker := on_blocks (fun blocks =>
  add_blocks MakeTable (div_ceil (block_count + 1) 8)
    (add_p2_blocks block_count (add_blocks P2Step block_count (add_block EcallP2 blocks)))).

(* L262-267 BlockTracker::page_tree_inner_levels *)
Definition page_tree_inner_levels : Z := Z.log2 Pager.NUM_PAGES.

(* L269-276 BlockTracker::add_page_in_blocks *)
Definition add_page_in_blocks (num : Z) (blocks : BlockCollection) : BlockCollection :=
  add_p2_blocks (page_tree_inner_levels * num) (add_blocks PageInNode (page_tree_inner_levels * num)
    (add_p2_blocks (num * NUM_PARTS) (add_blocks PageInPart (num * NUM_PARTS) (add_blocks PageInPage num blocks)))).
(* L278-285 BlockTracker::add_page_out_blocks *)
Definition add_page_out_blocks (num : Z) (blocks : BlockCollection) : BlockCollection :=
  add_p2_blocks (page_tree_inner_levels * num) (add_blocks PageOutNode (page_tree_inner_levels * num)
    (add_p2_blocks (num * NUM_PARTS) (add_blocks PageOutPart (num * NUM_PARTS) (add_blocks PageOutPage num blocks)))).
(* L287-289 BlockTracker::add_page_uncle_blocks *)
Definition add_page_uncle_blocks (num : Z) : BlockCollection -> BlockCollection := add_blocks PageUncle (page_tree_inner_levels * num).
(* L291-293 BlockTracker::add_table_blocks *)
Definition add_table_blocks (cycles : Z) : BlockCollection -> BlockCollection := add_blocks MakeTable (div_ceil cycles 8).

(* L295-305 BlockTracker::get_blocks *)
Definition get_blocks (cycles page_touches : Z) (self : BlockTracker) : BlockCollection :=
  add_table_blocks (cycles +32 2 +32 1)
    (add_page_uncle_blocks page_touches (add_page_out_blocks page_touches (add_page_in_blocks page_touches (blocks self)))).

End Blocks.
End Blocks.
