(* ===== verification/Claim.v ===== *)
(** * Claims, exit codes, system states and nonces

    The public outputs of a segment: its claim as the verifier decodes it from the seal,
    exit codes and their pairs, the system state in half-words, and the nonces of the
    proof of verifiable work.  The wide integers of the nonces are a third-party crate's
    and a class.  Bytes are viewed as words on a little-endian host. *)
From S2P Require Export Addr BabyBear Merkle.
Export Merkle(Digest, mkDigest, as_words).
Open Scope word_scope.
Open Scope Z_scope.

(** Words from the little-endian bytes of [n]-byte integers, and back: [bytemuck::cast]
    between arrays of bytes and of words. *)
Fixpoint cast_bytes (n : nat) (count : nat) (bytes : list Z) : list Z :=
  match count with
  | O => []
  | S count => from_le_bytes (take n bytes) :: cast_bytes n count (drop n bytes)
  end.
Definition cast_words (n : nat) (words : list Z) : list Z := words ≫= le_bytes n.

(** A digest from eight words; another number of words panics. *)
Definition digest_of_words {E} (words : list Z) : outcome E Digest :=
  match words with
  | [w0; w1; w2; w3; w4; w5; w6; w7] => Ok (mkDigest w0 w1 w2 w3 w4 w5 w6 w7)
  | _ => Panic
  end.
Definition DIGEST_WORDS : nat := 8.
Definition DIGEST_SHORTS : nat := DIGEST_WORDS * 2.
Definition DIGEST_BYTES : nat := DIGEST_WORDS * 4.

(* src/risc0/risc0/zkp/src/core/digest.rs:76-93 Digest::from_bytes *)
Definition digest_from_bytes {E} (bytes : list Z) : outcome E Digest :=
  _ ← assert_ (length bytes =? DIGEST_BYTES)%nat;
  digest_of_words (cast_bytes 4 DIGEST_WORDS bytes).

(** ** Exit codes *)

Module ExitCodes.
(* source: src/risc0/risc0/binfmt/src/exit_code.rs *)
(* L33-61 ExitCode *)
Inductive ExitCode := Halted (user_exit : Z) | Paused (user_exit : Z) | SystemSplit | SessionLimit.

(* L107-107 InvalidExitCodeError *)
Inductive InvalidExitCode := InvalidExitCodeError (sys_exit user_exit : Z).

(* L66-73 ExitCode::into_pair *)
Definition into_pair (self : ExitCode) : Z * Z :=
  match self with
  | Halted user_exit => (0, user_exit)
  | Paused user_exit => (1, user_exit)
  | SystemSplit => (2, 0)
  | SessionLimit => (2, 2)
  end.
(* L77-84 ExitCode::from_pair *)
Definition from_pair (sys_exit user_exit : Z) : outcome InvalidExitCode ExitCode :=
  match sys_exit with
  | 0 => Ok (Halted user_exit)
  | 1 => Ok (Paused user_exit)
  | 2 => Ok SystemSplit
  | _ => Err (InvalidExitCodeError sys_exit user_exit)
  end.
(* L89-94 ExitCode::expects_output *)
Definition expects_output (self : ExitCode) : bool :=
  match self with Halted _ | Paused _ => true | SystemSplit | SessionLimit => false end.
(* L97-99 ExitCode::is_ok *)
Definition is_ok (self : ExitCode) : bool := match self with Halted 0 => true | _ => false end.
End ExitCodes.

(* src/risc0/risc0/binfmt/src/sys_state.rs:123-128 DecodeError *)
Inductive DecodeError := EndOfStream | OutOfRange.

(** ** System states *)

Module SysState.
(* source: src/risc0/risc0/binfmt/src/sys_state.rs *)
(* L30-37 SystemState *)
Record SystemState := mkState { pc : Z; merkle_root : Digest }.

Abbreviation D := (state (list Z) DecodeError).

(** [drain(..n)] of the front of the queue. *)
Definition drain (n : nat) : D (list Z) := fun flat => (Ok (take n flat), drop n flat).

(** The two bytes of each half-word; the upper one has to be a byte. *)
Fixpoint half_bytes (halfs : list Z) : outcome DecodeError (list Z) :=
  match halfs with
  | [] => Ok []
  | half :: halfs =>
      hi ← ok_or OutOfRange (if half .>> 8 <=? 255 then Some (half .>> 8) else None);
      bytes ← half_bytes halfs;
      Ok ((half .& 0xff) :: hi :: bytes)
  end.

(* L78-92 read_sha_halfs *)
Definition read_sha_halfs : D Digest :=
  flat ← get;
  if (length flat <? 16)%nat then throw EndOfStream else
  halfs ← drain 16;
  bytes ← lift (half_bytes halfs);
  lift (digest_from_bytes bytes).

(* L94-105 read_u32_bytes *)
Definition read_u32_bytes : D Z :=
  flat ← get;
  if (length flat <? 4)%nat then throw EndOfStream else
  words ← drain 4;
  mret (from_le_bytes (map (wrap 8) words)).

(* L108-113 write_sha_halfs *)
Definition write_sha_halfs (flat : list Z) (digest : Digest) : list Z :=
  foldl (fun flat x => flat ++ [x .& 0xffff] ++ [x .>> 16]) flat (as_words digest).
(* L115-119 write_u32_bytes *)
Definition write_u32_bytes (flat : list Z) (word : Z) : list Z :=
  foldl (fun flat x => flat ++ [x]) flat (to_le_bytes word).

(* L43-48 SystemState::decode *)
Definition decode : D SystemState :=
  pc ← read_u32_bytes;
  merkle_root ← read_sha_halfs;
  mret (mkState pc merkle_root).
(* L53-56 SystemState::encode *)
Definition encode (self : SystemState) (flat : list Z) : list Z :=
  write_sha_halfs (write_u32_bytes flat (pc self)) (merkle_root self).
End SysState.

(** ** Nonces *)

(** The ruint crate: unsigned integers of a given width in bits as [Z]; [None] is the panic
    of a conversion that does not fit. *)
Class Ruint := {
  u_shl : Z -> Z -> Z -> Z;
  u_shr : Z -> Z -> Z;
  u_or : Z -> Z -> Z;
  u_and : Z -> Z -> Z;
  u_to : Z -> Z -> option Z;
  u_to_le_bytes : nat -> Z -> list Z;
  u_from_le_bytes : list Z -> Z;
}.

Module Povw.
(* source: src/risc0/risc0/binfmt/src/povw.rs *)
(* L58-63 PovwJobId *)
Record PovwJobId := mkJob { job_log : Z; job_number : Z }.
(* L133-140 PovwNonce *)
Record PovwNonce := mkNonce { log : Z; job : Z; segment : Z }.

(* L67-73 PovwJobId::nonce *)
Definition nonce (self : PovwJobId) (segment_index : Z) : PovwNonce :=
  mkNonce (job_log self) (job_number self) segment_index.

(* L144-148 PovwNonce::ZERO *)
Definition ZERO : PovwNonce := mkNonce 0 0 0.

Section Ints.
Context `{Ruint}.

(* L76-81 PovwJobId::to_bytes *)
Definition job_to_bytes (self : PovwJobId) : list Z := le_bytes 8 (job_number self) ++ u_to_le_bytes 20 (job_log self).
(* L84-89 PovwJobId::from_bytes *)
Definition job_from_bytes (bytes : list Z) : PovwJobId :=
  mkJob (u_from_le_bytes (drop 8 bytes)) (from_le_bytes (take 8 bytes)).

(* L161-163 PovwNonce::to_u256 *)
Definition to_u256 {E} (self : PovwNonce) : outcome E Z :=
  log ← unwrap (u_to 256 (log self));
  Ok (u_or (u_or (u_shl 256 log 96) (u_shl 256 (job self) 32)) (segment self)).
(* L236-242 PovwNonce::from_u256 *)
Definition from_u256 {E} (value : Z) : outcome E PovwNonce :=
  log ← unwrap (u_to 160 (u_shr value 96));
  job ← unwrap (u_to 64 (u_and (u_shr value 32) (2 ^ 64 - 1)));
  segment ← unwrap (u_to 32 (u_and value MAX32));
  Ok (mkNonce log job segment).

(* L151-153 PovwNonce::to_bytes *)
Definition to_bytes {E} (self : PovwNonce) : outcome E (list Z) := value ← to_u256 self; Ok (u_to_le_bytes 32 value).
(* L156-158 PovwNonce::from_bytes *)
Definition from_bytes {E} (bytes : list Z) : outcome E PovwNonce := from_u256 (u_from_le_bytes bytes).

(* L166-173 PovwNonce::to_u32s *)
Definition to_u32s {E} (self : PovwNonce) : outcome E (list Z) := bytes ← to_bytes self; Ok (cast_bytes 4 8 bytes).
(* L176-181 PovwNonce::from_u32s *)
Definition from_u32s {E} (b : list Z) : outcome E PovwNonce := from_bytes (cast_words 4 b).
(* L184-191 PovwNonce::to_u16s *)
Definition to_u16s {E} (self : PovwNonce) : outcome E (list Z) := bytes ← to_bytes self; Ok (cast_bytes 2 16 bytes).
(* L194-200 PovwNonce::from_u16s *)
Definition from_u16s {E} (u16s : list Z) : outcome E PovwNonce := from_bytes (cast_words 2 u16s).

(* L203-205 PovwNonce::encode_to_seal *)
Definition encode_to_seal {E} (self : PovwNonce) (buf : list Z) : outcome E (list Z) := u16s ← to_u16s self; Ok (buf ++ u16s).

(* L212-214 PovwNonce::decode_from_seal, u16_from_u32 *)
Definition u16_from_u32 (x : Z) : outcome DecodeError Z := if x <=? 0xffff then Ok x else Err OutOfRange.

(* L208-222 PovwNonce::decode_from_seal *)
Definition decode_from_seal : state (list Z) DecodeError PovwNonce :=
  buf ← get;
  if (length buf <? 16)%nat then throw EndOfStream else
  words ← SysState.drain 16;
  u16s ← lift (mapM u16_from_u32 words);
  lift (from_u16s u16s).
End Ints.
End Povw.

(** ** Claims *)

Module Seal.
Import ExitCodes Povw.
(* source: src/risc0/risc0/circuit/rv32im/src/lib.rs *)
(* L46-46 MAX_INSN_CYCLES *)
Definition MAX_INSN_CYCLES : Z := 25000.
(* L49-49 MAX_INSN_CYCLES_LOWER_PO2 *)
Definition MAX_INSN_CYCLES_LOWER_PO2 : Z := 2000.
(* L67-70 EcallMetric *)
Record EcallMetric := mkMetric { count : Z; cycles : Z }.
(* L80-80 RV32IM_SEAL_VERSION *)
Definition RV32IM_SEAL_VERSION : Z := 3.

(* L83-83 HighLowU16 *)
Record HighLowU16 := mkHighLow { high : Z; low : Z }.
(* L86-88 From<HighLowU16> for u32 *)
Definition u32_from (x : HighLowU16) : Z := (high x .<< 16) .| low x.
(* L92-94 From<u32> for HighLowU16 *)
Definition highlow_from (x : Z) : HighLowU16 := mkHighLow (wrap 16 (x .>> 16)) (wrap 16 (x .& 0xffff)).

(* L98-101 TerminateState *)
Record TerminateState := mkTerminate { term_a0 : HighLowU16; term_a1 : HighLowU16 }.

(* L104-111 Claim *)
Record Claim := mkClaim {
  po2 : Z; pre_state : Digest; post_state : Digest; output : option Digest;
  terminate_state : option TerminateState; povw_nonce : PovwNonce }.

Inductive error := UnexpectedEnd | VersionMismatch (actual : Z) | NotAShort (word : Z) | IllegalHaltType (halt_type : Z).

(** The decoder is the rest of the seal. *)
Abbreviation D := (state (list Z) error).

(* L122-127 Decoder::read *)
Definition read (len : nat) : D (list Z) := fun seal =>
  if (len <=? length seal)%nat then (Ok (take len seal), drop len seal) else (Err UnexpectedEnd, seal).
(* L129-132 Decoder::read_u32 *)
Definition read_u32 : D Z := slice ← read 1; lift (unwrap (slice !! 0%nat)).

(** [bytemuck::checked::cast] of a word to a field element panics when it is not reduced. *)
Definition cast (word : Z) : outcome error Z := _ ← assert_ (Elem.is_valid_bit_pattern word); Ok word.

(* L134-136 Decoder::read_u32_from_elem *)
Definition read_u32_from_elem : D Z := word ← read_u32; elem ← lift (cast word); mret (Elem.as_u32 elem).
(* L138-143 Decoder::read_u32_from_shorts *)
Definition read_u32_from_shorts : D Z :=
  slice ← read 2;
  elems ← lift (mapM cast slice);
  high ← lift (unwrap (elems !! 1%nat));
  low ← lift (unwrap (elems !! 0%nat));
  mret (((Elem.as_u32 high .& 0xffff) .<< 16) .| (Elem.as_u32 low .& 0xffff)).
(* L145-149 Decoder::read_digest_from_words *)
Definition read_digest_from_words : D Digest :=
  slice ← read DIGEST_WORDS;
  elems ← lift (mapM cast slice);
  lift (digest_of_words (map Elem.as_u32 elems)).

(** The bytes of a short of the seal. *)
Definition short_bytes (word : Z) : outcome error (list Z) :=
  elem ← cast word;
  let word := Elem.as_u32 elem in
  short ← ok_or (NotAShort word) (if word <=? 0xffff then Some word else None);
  Ok (le_bytes 2 short).

(* L151-163 Decoder::read_digest_from_shorts *)
Definition read_digest_from_shorts : D Digest :=
  slice ← read DIGEST_SHORTS;
  digest_bytes ← lift (mapM short_bytes slice);
  lift (digest_from_bytes (concat digest_bytes)).

(** The array of eight words that a loop fills. *)
Fixpoint read_shorts (n : nat) : D (list Z) :=
  match n with
  | O => mret []
  | S n => v ← read_u32_from_shorts; vs ← read_shorts n; mret (v :: vs)
  end.

(* L167-209 Claim::decode *)
Definition decode_claim `{Ruint} : D Claim :=
  seal_version ← read_u32;
  lift (ensure (seal_version =? RV32IM_SEAL_VERSION) (VersionMismatch seal_version));;
  po2 ← read_u32;
  pre_state ← read_digest_from_words;
  post_state ← read_digest_from_words;
  is_terminate ← read_u32_from_elem;
  term_a0 ← read_u32_from_shorts;
  term_a1 ← read_u32_from_shorts;
  output ← read_digest_from_shorts;
  povw_nonce ← read_shorts 8;
  let '(terminate_state, output) :=
    if is_terminate =? 1
    then (Some (mkTerminate (highlow_from term_a0) (highlow_from term_a1)), Some output)
    else (None, None) in
  povw_nonce ← lift (from_u32s povw_nonce);
  mret (mkClaim po2 pre_state post_state output terminate_state povw_nonce).

(* src/risc0/risc0/zkvm/platform/src/syscall.rs:37-38 halt *)
Definition HALT_TERMINATE : Z := 0.
Definition HALT_PAUSE : Z := 1.

(* L211-223 Claim::exit_code *)
Definition exit_code (self : Claim) : outcome error ExitCode :=
  match terminate_state self with
  | Some term =>
      let user_exit := high (term_a0 term) in
      let halt_type := low (term_a0 term) in
      if halt_type =? HALT_TERMINATE then Ok (Halted user_exit)
      else if halt_type =? HALT_PAUSE then Ok (Paused user_exit)
      else Err (IllegalHaltType halt_type)
  | None => Ok SystemSplit
  end.

(* L227-230 decode_povw_nonce *)
Definition decode_povw_nonce `{Ruint} (segment_seal : list Z) : outcome error PovwNonce :=
  povw_nonce <$> fst (decode_claim segment_seal).
End Seal.
