(* ===== verification/ClaimSpec.v ===== *)
(** * Claims and nonces decode what is encoded

    Nonces, exit codes and system states round-trip through their encodings, and the
    claim decoder inverts the layout of the seal. *)
From S2P Require Export Claim.
Open Scope word_scope.
Open Scope Z_scope.

(** ** What the integer crate documents *)

Class RuintLaws `{Ruint} := {
  u_shl_law w x k : fits w x -> 0 <= k -> u_shl w x k = wrap w (Z.shiftl x k);
  u_shr_law x k : 0 <= x -> 0 <= k -> u_shr x k = Z.shiftr x k;
  u_or_law x y : 0 <= x -> 0 <= y -> u_or x y = Z.lor x y;
  u_and_law x y : 0 <= x -> 0 <= y -> u_and x y = Z.land x y;
  u_to_law w x : 0 <= x -> u_to w x = if decide (fits w x) then Some x else None;
  u_to_le_bytes_law n x : 0 <= x < 256 ^ Z.of_nat n -> u_to_le_bytes n x = le_bytes n x;
  u_from_le_bytes_law bytes : Forall u8 bytes -> u_from_le_bytes bytes = from_le_bytes bytes;
}.

(** ** Views of bytes *)

Lemma le_bytes_from bs : Forall u8 bs -> le_bytes (length bs) (from_le_bytes bs) = bs.
Proof.
  induction 1 as [|b bs Hb _ IH]; [done|]. cbn [length from_le_bytes foldr]. fold (from_le_bytes bs).
  rewrite le_bytes_S. unfold fits in Hb.
  replace ((b + 256 * from_le_bytes bs) mod 256) with b by (rewrite (Z.mul_comm 256), Z.mod_add, Z.mod_small by lia; done).
  replace ((b + 256 * from_le_bytes bs) / 256) with (from_le_bytes bs) by (rewrite (Z.mul_comm 256), Z.div_add, Z.div_small by lia; done).
  by rewrite IH.
Qed.

Lemma cast_round n count : forall bytes, Forall u8 bytes -> length bytes = (n * count)%nat ->
  cast_words n (cast_bytes n count bytes) = bytes /\ length (cast_bytes n count bytes) = count /\
  Forall (fits (8 * Z.of_nat n)) (cast_bytes n count bytes).
Proof.
  induction count as [|count IH]; intros bytes Hb Hl; cbn [cast_bytes length].
  { destruct bytes; [done|cbn in Hl; lia]. }
  assert (Hlt : length (take n bytes) = n) by (rewrite length_take; lia).
  destruct (IH (drop n bytes)) as (IH1 & IH2 & IH3); [by apply Forall_drop|rewrite length_drop; lia|].
  pose proof (from_le_bytes_range (take n bytes) ltac:(by apply Forall_take)) as Hr. rewrite Hlt in Hr.
  split_and!.
  - unfold cast_words in *. rewrite bind_cons, IH1. rewrite <- Hlt at 1. rewrite le_bytes_from by (by apply Forall_take).
    apply take_drop.
  - by rewrite IH2.
  - constructor; [|done]. unfold fits. rewrite Z.pow_mul_r by lia. exact Hr.
Qed.

Lemma cast_words_bytes n words : Forall (fits (8 * Z.of_nat n)) words ->
  cast_bytes n (length words) (cast_words n words) = words /\ Forall u8 (cast_words n words) /\ length (cast_words n words) = (n * length words)%nat.
Proof.
  induction 1 as [|w words Hw _ (IH1 & IH2 & IH3)]; [by rewrite Nat.mul_0_r|]. unfold cast_words in *. cbn [length cast_bytes]. rewrite bind_cons.
  rewrite take_app_length', drop_app_length' by by rewrite le_bytes_length.
  unfold fits in Hw. rewrite Z.pow_mul_r in Hw by lia. change (2 ^ 8) with 256 in Hw.
  rewrite from_le_bytes_le_bytes, Z.mod_small, IH1 by done. split_and!; [done|apply Forall_app; split; [apply le_bytes_u8|done]|].
  rewrite length_app, le_bytes_length, IH3. lia.
Qed.

Lemma mapM_ok {E A B} (f : A -> outcome E B) (g : A -> B) l : Forall (fun x => f x = Ok (g x)) l -> mapM f l = Ok (map g l).
Proof.
  induction 1 as [|x l Hx _ IH]; [done|].
  change (mapM f (x :: l)) with (y ← f x; k ← mapM f l; mret (y :: k)). by rewrite Hx, IH.
Qed.

(** ** Nonces *)

Section Nonces.
Context `{RuintLaws}.
Import Povw.

Definition nonce_wf (n : PovwNonce) : Prop := fits 160 (log n) /\ u64 (job n) /\ u32 (segment n).
Definition nonce_value (n : PovwNonce) : Z := log n * 2 ^ 96 + job n * 2 ^ 32 + segment n.

Lemma nonce_value_range n : nonce_wf n -> 0 <= nonce_value n < 2 ^ 256.
Proof. intros (Hl & Hj & Hs). unfold fits, nonce_value in *. lia. Qed.

Lemma lor_sum hi lo k : 0 <= k -> 0 <= lo < 2 ^ k -> 0 <= hi -> Z.lor (hi * 2 ^ k) lo = hi * 2 ^ k + lo.
Proof.
  intros Hk Hlo Hhi. assert (El : Z.land (hi * 2 ^ k) lo = 0).
  { zbits. rewrite Z.land_spec, Z.bits_0. destruct (Z.ltb_spec i k); [rewrite Z.mul_pow2_bits_low by lia; done|].
    rewrite (fits_testbit_high k lo i) by (done || lia). apply andb_false_r. }
  pose proof (Z.add_lor_land (hi * 2 ^ k) lo). lia.
Qed.

Lemma to_u256_run {E} n : nonce_wf n -> (to_u256 n : outcome E Z) = Ok (nonce_value n).
Proof.
  intros (Hl & Hj & Hs). unfold fits in *. unfold to_u256. rewrite u_to_law by lia.
  rewrite decide_True by (unfold fits; lia). cbn [unwrap mbind outcome_bind].
  rewrite !u_shl_law by (unfold fits; lia). rewrite !Z.shiftl_mul_pow2, !wrap_small by (unfold fits; lia).
  assert (E1 : Z.lor (log n * 2 ^ 96) (job n * 2 ^ 32) = log n * 2 ^ 96 + job n * 2 ^ 32) by (apply lor_sum; lia).
  rewrite u_or_law, u_or_law by (try apply Z.lor_nonneg; rewrite ?u_or_law; try apply Z.lor_nonneg; lia). rewrite E1.
  replace (log n * 2 ^ 96 + job n * 2 ^ 32) with ((log n * 2 ^ 64 + job n) * 2 ^ 32) by lia.
  rewrite lor_sum by lia. unfold nonce_value. f_equal. lia.
Qed.

Lemma from_u256_run {E} n : nonce_wf n -> (from_u256 (nonce_value n) : outcome E PovwNonce) = Ok n.
Proof.
  intros Hn. pose proof (nonce_value_range n Hn) as Hr. destruct Hn as (Hl & Hj & Hs). unfold fits in *. unfold from_u256.
  assert (E1 : Z.shiftr (nonce_value n) 96 = log n)
    by (rewrite Z.shiftr_div_pow2 by lia; unfold nonce_value; Z.to_euclidean_division_equations; lia).
  assert (E2 : Z.land (Z.shiftr (nonce_value n) 32) (2 ^ 64 - 1) = job n).
  { change (2 ^ 64 - 1) with (Z.ones 64). rewrite Z.land_ones, Z.shiftr_div_pow2 by lia. unfold nonce_value. Z.to_euclidean_division_equations; lia. }
  assert (E3 : Z.land (nonce_value n) MAX32 = segment n).
  { change MAX32 with (Z.ones 32). rewrite Z.land_ones by lia. unfold nonce_value. Z.to_euclidean_division_equations; lia. }
  rewrite !u_shr_law by lia. rewrite (u_and_law (nonce_value n)) by lia. rewrite u_and_law by (try apply Z.shiftr_nonneg; lia).
  rewrite E1, E2, E3, !u_to_law by lia. rewrite !decide_True by (unfold fits; lia). by destruct n.
Qed.

Lemma to_bytes_run {E} n : nonce_wf n -> (to_bytes n : outcome E _) = Ok (le_bytes 32 (nonce_value n)).
Proof.
  intros Hn. unfold to_bytes. rewrite to_u256_run by done. cbn [mbind outcome_bind].
  rewrite u_to_le_bytes_law; [done|]. pose proof (nonce_value_range n Hn). exact H1.
Qed.

Lemma from_bytes_run {E} n : nonce_wf n -> (from_bytes (le_bytes 32 (nonce_value n)) : outcome E _) = Ok n.
Proof.
  intros Hn. unfold from_bytes. rewrite u_from_le_bytes_law by apply le_bytes_u8. rewrite from_le_bytes_le_bytes, Z.mod_small; [by apply from_u256_run|].
  exact (nonce_value_range n Hn).
Qed.

Lemma u16s_of n : nonce_wf n -> let u16s := cast_bytes 2 16 (le_bytes 32 (nonce_value n)) in
  cast_words 2 u16s = le_bytes 32 (nonce_value n) /\ length u16s = 16%nat /\ Forall u16 u16s.
Proof. intros Hn. apply (cast_round 2 16 (le_bytes 32 (nonce_value n))); [apply le_bytes_u8|by rewrite le_bytes_length]. Qed.

Lemma u16_all l : Forall u16 l -> mapM u16_from_u32 l = Ok l.
Proof.
  intros Hl. rewrite (mapM_ok _ id); [by rewrite map_id|]. eapply Forall_impl; [exact Hl|]. intros x Hx. unfold fits in Hx.
  unfold u16_from_u32. by replace (x <=? 0xffff) with true by lia.
Qed.

Lemma from_u32s_run {E} n : nonce_wf n -> (from_u32s (cast_bytes 4 8 (le_bytes 32 (nonce_value n))) : outcome E _) = Ok n.
Proof.
  intros Hn. unfold from_u32s. destruct (cast_round 4 8 (le_bytes 32 (nonce_value n))) as (-> & _); [apply le_bytes_u8|by rewrite le_bytes_length|].
  by apply from_bytes_run.
Qed.

(** Nonces of verifiable work are codes.  A nonce with fields of their widths is the
    256-bit number [log * 2^96 + job * 2^32 + segment]; bytes, [u32] and [u16] words of
    it decode to the nonce, and so does the seal it is appended to, leaving what follows;
    a seal of fewer than sixteen words or with a word above 16 bits is an error; the
    nonces of different segments of a job differ; job identifiers round-trip. *)
Theorem povw_codec n rest job : nonce_wf n -> fits 160 (job_log job) -> u64 (job_number job) ->
  (exists bytes u32s u16s, to_bytes n = @Ok DecodeError _ bytes /\ from_bytes bytes = @Ok DecodeError _ n /\ from_le_bytes bytes = nonce_value n /\
     to_u32s n = @Ok DecodeError _ u32s /\ from_u32s u32s = @Ok DecodeError _ n /\
     to_u16s n = @Ok DecodeError _ u16s /\ from_u16s u16s = @Ok DecodeError _ n /\
     encode_to_seal n [] = @Ok DecodeError _ u16s /\ decode_from_seal (u16s ++ rest) = (Ok n, rest)) /\
  (forall seal, (length seal < 16)%nat -> fst (decode_from_seal seal) = Err EndOfStream) /\
  (forall seal w, (16 <= length seal)%nat -> w ∈ take 16 seal -> 0xffff < w -> fst (decode_from_seal seal) = Err OutOfRange) /\
  (forall i j, nonce job i = nonce job j -> i = j) /\
  job_from_bytes (job_to_bytes job) = job.
Proof.
  intros Hn Hl Hj. destruct (u16s_of n Hn) as (H16 & H16l & H16f). split_and!.
  - exists (le_bytes 32 (nonce_value n)), (cast_bytes 4 8 (le_bytes 32 (nonce_value n))), (cast_bytes 2 16 (le_bytes 32 (nonce_value n))).
    unfold to_u32s, to_u16s, encode_to_seal, from_u16s. unfold to_u16s. rewrite !to_bytes_run, from_u32s_run, H16, from_bytes_run by done.
    split_and!; try done.
    + rewrite from_le_bytes_le_bytes. apply Z.mod_small. exact (nonce_value_range n Hn).
    + unfold decode_from_seal. rewrite (run_bind _ _ _ _ _ (eq_refl : get _ = _)). rewrite length_app, H16l.
      change (16 + length rest <? 16)%nat with false. cbv iota.
      unfold SysState.drain. rewrite (run_bind _ _ _ (take 16 (cast_bytes 2 16 (le_bytes 32 (nonce_value n)) ++ rest)) (drop 16 (cast_bytes 2 16 (le_bytes 32 (nonce_value n)) ++ rest))) by done.
      rewrite take_app_length', drop_app_length', u16_all, run_lift_Ok by done. unfold from_u16s. rewrite H16, from_bytes_run by done. done.
  - intros seal Hs. unfold decode_from_seal. rewrite (run_bind _ _ _ _ _ (eq_refl : get seal = _)).
    by rewrite (proj2 (Nat.ltb_lt _ _) Hs).
  - intros seal w Hs Hw Hbig. unfold decode_from_seal. rewrite (run_bind _ _ _ _ _ (eq_refl : get seal = _)).
    rewrite (proj2 (Nat.ltb_ge _ _) Hs). unfold SysState.drain. rewrite (run_bind _ _ _ (take 16 seal) (drop 16 seal)) by done.
    assert (E : mapM u16_from_u32 (take 16 seal) = Err OutOfRange).
    { revert Hw. generalize (take 16 seal). intros l. induction l as [|x l IH]; intros Hw; [by apply elem_of_nil in Hw|].
      change (mapM u16_from_u32 (x :: l)) with (y ← u16_from_u32 x; k ← mapM u16_from_u32 l; mret (y :: k)).
      replace (u16_from_u32 x) with (if x <=? 0xffff then Ok x else Err OutOfRange) by done. destruct (Z.leb_spec x 0xffff); [|reflexivity].
      apply elem_of_cons in Hw as [->|Hw]; [lia|]. cbn [mbind outcome_bind]. by rewrite IH. }
    rewrite E. done.
  - intros i j [= E]. done.
  - unfold job_from_bytes, job_to_bytes. rewrite take_app_length', drop_app_length' by by rewrite le_bytes_length.
    unfold fits in *. rewrite u_to_le_bytes_law by exact Hl. rewrite u_from_le_bytes_law by apply le_bytes_u8.
    rewrite !from_le_bytes_le_bytes, !Z.mod_small by done. by destruct job.
Qed.
End Nonces.

(** ** The layout of a seal *)

Section Seals.
Context `{RuintLaws}.
Import ExitCodes Povw Seal.

(** A word as two field elements, the low half first. *)
Definition short (x : Z) : list Z := [Elem.new (x mod 2 ^ 16); Elem.new (x / 2 ^ 16)].

Definition nonce_words (n : PovwNonce) : list Z := cast_bytes 4 8 (le_bytes 32 (nonce_value n)).

Definition seal_words (po2 : Z) (pre post : Digest) (term a0 a1 : Z) (out : Digest) (n : PovwNonce) : list Z :=
  [RV32IM_SEAL_VERSION; po2] ++ map Elem.new (as_words pre) ++ map Elem.new (as_words post) ++ [Elem.new term]
  ++ short a0 ++ short a1 ++ (as_words out ≫= short) ++ (nonce_words n ≫= short).

Lemma cast_new x : u32 x -> cast (Elem.new x) = Ok (Elem.new x).
Proof.
  intros Hx. destruct (rep_new x Hx) as [[_ Hr] _]. unfold cast, Elem.is_valid_bit_pattern.
  by replace (Elem.new x <? P) with true by lia.
Qed.

Lemma as_u32_new x : reduced x -> u32 x -> Elem.as_u32 (Elem.new x) = x.
Proof. intros Hr Hx. unfold Elem.as_u32. rewrite (rep_val _ _ (rep_new x Hx)). apply Z.mod_small. exact Hr. Qed.

Lemma read_run l rest : read (length l) (l ++ rest) = (Ok l, rest).
Proof.
  unfold read. rewrite length_app. replace (length l <=? length l + length rest)%nat with true by (symmetry; apply Nat.leb_le; lia).
  by rewrite take_app_length, drop_app_length.
Qed.

Lemma read_bind {B} l rest (k : list Z -> Seal.D B) n : n = length l -> (read n ≫= k) (l ++ rest) = k l rest.
Proof. intros ->. exact (run_bind _ _ _ _ _ (read_run l rest)). Qed.

Lemma read_u32_run x rest : read_u32 (x :: rest) = (Ok x, rest).
Proof. unfold read_u32. change (x :: rest) with ([x] ++ rest). by rewrite (read_bind [x]). Qed.

Lemma half_ok x : 0 <= x < 2 ^ 16 -> cast (Elem.new x) = Ok (Elem.new x) /\ Elem.as_u32 (Elem.new x) = x.
Proof.
  intros Hx. assert (Hu : u32 x) by (unfold fits; lia). assert (Hr : reduced x) by (unfold reduced; rewrite P_val; lia).
  split; [by apply cast_new|by apply as_u32_new].
Qed.

Lemma read_short_run x rest : u32 x -> read_u32_from_shorts (short x ++ rest) = (Ok x, rest).
Proof.
  intros Hx. unfold fits in Hx. unfold read_u32_from_shorts. rewrite (read_bind (short x)) by done.
  destruct (half_ok (x mod 2 ^ 16)) as [C0 V0]; [apply Z.mod_pos_bound; lia|].
  destruct (half_ok (x / 2 ^ 16)) as [C1 V1]; [Z.to_euclidean_division_equations; lia|].
  assert (E : mapM cast (short x) = Ok (short x)).
  { rewrite (mapM_ok _ id); [by rewrite map_id|]. unfold short. by repeat constructor. }
  rewrite E, run_lift_Ok. unfold short. cbn [lookup list_lookup unwrap]. rewrite !run_lift_Ok, V0, V1.
  unfold mret, state_ret. do 2 f_equal. change 0xffff with (Z.ones 16). rewrite !Z.land_ones by lia.
  rewrite (Z.mod_small (x / 2 ^ 16)), Z.mod_mod by (Z.to_euclidean_division_equations; lia).
  unfold shl32. rewrite Z.shiftl_mul_pow2, wrap_small by (unfold fits; Z.to_euclidean_division_equations; lia).
  rewrite lor_sum by (Z.to_euclidean_division_equations; lia). pose proof (Z.div_mod x (2 ^ 16)). lia.
Qed.

Lemma read_shorts_run xs rest : Forall u32 xs -> read_shorts (length xs) ((xs ≫= short) ++ rest) = (Ok xs, rest).
Proof.
  induction 1 as [|x xs Hx _ IH]; [done|]. cbn [length read_shorts]. rewrite bind_cons, <- app_assoc.
  by rewrite (run_bind _ _ _ _ _ (read_short_run x _ Hx)), (run_bind _ _ _ _ _ IH).
Qed.

Lemma digest_words_of {E} d : (digest_of_words (as_words d) : outcome E Digest) = Ok d.
Proof. by destruct d. Qed.

Lemma seal_words_run d rest : Forall reduced (as_words d) ->
  read_digest_from_words (map Elem.new (as_words d) ++ rest) = (Ok d, rest).
Proof.
  intros Hd. assert (Hu : Forall u32 (as_words d)) by (eapply Forall_impl; [exact Hd|]; apply reduced_u32).
  unfold read_digest_from_words. rewrite (read_bind (map Elem.new (as_words d))) by done.
  rewrite (mapM_ok cast id), map_id, run_lift_Ok.
  - rewrite map_map, (list_fmap_ext _ id); [by rewrite list_fmap_id, digest_words_of|].
    intros i x Hi. apply as_u32_new; by eapply Forall_lookup_1.
  - apply Forall_fmap. eapply Forall_impl; [exact Hu|]. intros x Hx. by apply cast_new.
Qed.

Lemma short_bytes_run x : 0 <= x < 2 ^ 16 -> short_bytes (Elem.new x) = Ok (le_bytes 2 x).
Proof.
  intros Hx. destruct (half_ok x Hx) as [C V]. unfold short_bytes. rewrite C. cbn [mbind outcome_bind]. rewrite V.
  by replace (x <=? 0xffff) with true by lia.
Qed.

Lemma word_shorts x : u32 x -> le_bytes 2 (x mod 2 ^ 16) ++ le_bytes 2 (x / 2 ^ 16) = le_bytes 4 x.
Proof.
  intros Hx. unfold le_bytes. change (seqZ 0 (Z.of_nat 2)) with [0; 1]. change (seqZ 0 (Z.of_nat 4)) with [0; 1; 2; 3]. cbn [map app].
  change (256 ^ 0) with 1. change (256 ^ 1) with 256. change (256 ^ 2) with 65536. change (256 ^ 3) with 16777216. change (2 ^ 16) with 65536.
  rewrite !Z.div_1_r. unfold fits in Hx. repeat (refine (f_equal2 cons _ _); [Z.to_euclidean_division_equations; lia|]). done.
Qed.

Lemma digest_shorts_run d rest : Forall u32 (as_words d) ->
  read_digest_from_shorts ((as_words d ≫= short) ++ rest) = (Ok d, rest).
Proof.
  intros Hd. unfold read_digest_from_shorts.
  assert (Hl : forall ws, length (ws ≫= short) = (2 * length ws)%nat).
  { induction ws as [|w ws IH]; [done|]. rewrite bind_cons, length_app, IH. cbn [short length]. lia. }
  rewrite (read_bind (as_words d ≫= short)) by by rewrite Hl.
  assert (E : forall ws, Forall u32 ws -> exists bss, mapM short_bytes (ws ≫= short) = Ok bss /\ concat bss = cast_words 4 ws).
  { induction 1 as [|w ws Hw _ (bss & IH1 & IH2)]; [by exists []|].
    exists (le_bytes 2 (w mod 2 ^ 16) :: le_bytes 2 (w / 2 ^ 16) :: bss). rewrite bind_cons. cbn [short app]. split.
    - change (mapM short_bytes (Elem.new (w mod 2 ^ 16) :: Elem.new (w / 2 ^ 16) :: (ws ≫= short))) with
        (y ← short_bytes (Elem.new (w mod 2 ^ 16)); k ← (z ← short_bytes (Elem.new (w / 2 ^ 16)); k ← mapM short_bytes (ws ≫= short); mret (z :: k)); mret (y :: k)).
      rewrite IH1, !short_bytes_run by (unfold fits in Hw; Z.to_euclidean_division_equations; lia). done.
    - cbn [concat]. rewrite IH2, app_assoc, word_shorts by done. done. }
  destruct (E _ Hd) as (bss & E1 & E2). rewrite E1, run_lift_Ok, E2. unfold digest_from_bytes.
  destruct (cast_words_bytes 4 (as_words d)) as (C1 & _ & C3); [exact Hd|]. rewrite C3.
  replace (4 * length (as_words d) =? DIGEST_BYTES)%nat with true by done. unfold lift. cbn [assert_ mbind outcome_bind].
  change DIGEST_WORDS with (length (as_words d)). by rewrite C1, digest_words_of.
Qed.

Lemma decode_claim_run po2 pre post term a0 a1 out n rest :
  u32 po2 -> Forall reduced (as_words pre) -> Forall reduced (as_words post) -> reduced term -> u32 a0 -> u32 a1 ->
  Forall u32 (as_words out) -> nonce_wf n ->
  decode_claim (seal_words po2 pre post term a0 a1 out n ++ rest) =
    (Ok (mkClaim po2 pre post (if term =? 1 then Some out else None)
           (if term =? 1 then Some (mkTerminate (highlow_from a0) (highlow_from a1)) else None) n), rest).
Proof.
  intros Hp Hpre Hpost Ht H0' H1' Hout Hn. unfold decode_claim, seal_words. rewrite <- !app_assoc. cbn [app].
  rewrite (run_bind _ _ _ _ _ (read_u32_run _ _)). change (RV32IM_SEAL_VERSION =? RV32IM_SEAL_VERSION) with true. cbn [ensure].
  rewrite run_lift_Ok, (run_bind _ _ _ _ _ (read_u32_run _ _)).
  rewrite (run_bind _ _ _ _ _ (seal_words_run pre _ Hpre)), (run_bind _ _ _ _ _ (seal_words_run post _ Hpost)).
  assert (Et : forall rest, read_u32_from_elem (Elem.new term :: rest) = (Ok term, rest)).
  { intros r. unfold read_u32_from_elem. rewrite (run_bind _ _ _ _ _ (read_u32_run _ _)), cast_new, run_lift_Ok by by apply reduced_u32.
    rewrite as_u32_new by (done || by apply reduced_u32). done. }
  rewrite (run_bind _ _ _ _ _ (Et _)), (run_bind _ _ _ _ _ (read_short_run a0 _ H0')), (run_bind _ _ _ _ _ (read_short_run a1 _ H1')).
  rewrite (run_bind _ _ _ _ _ (digest_shorts_run out _ Hout)).
  destruct (cast_round 4 8 (le_bytes 32 (nonce_value n))) as (C1 & C2 & C3); [apply le_bytes_u8|by rewrite le_bytes_length|].
  pose proof (read_shorts_run (nonce_words n) rest C3) as En. unfold nonce_words at 1 in En. rewrite C2 in En.
  rewrite (run_bind _ _ _ _ _ En). unfold nonce_words. destruct (term =? 1); rewrite from_u32s_run by done; done.
Qed.

(** The claim decoder inverts the layout of the seal.  From a seal of the current
    version that lists the segment size, two digests of field elements, the termination
    flag, the two termination words, the output digest and the nonce, [decode] returns
    exactly these, with output and termination present if and only if the flag is one;
    another version or a seal that ends early is an error; the exit code is the upper half
    of the first termination word, by the halt type in the lower half, and a segment that
    did not terminate is a system split. *)
Theorem claim_decode_layout po2 pre post term a0 a1 out n rest :
  u32 po2 -> Forall reduced (as_words pre) -> Forall reduced (as_words post) -> reduced term -> u32 a0 -> u32 a1 ->
  Forall u32 (as_words out) -> nonce_wf n ->
  let claim := mkClaim po2 pre post (if term =? 1 then Some out else None)
    (if term =? 1 then Some (mkTerminate (highlow_from a0) (highlow_from a1)) else None) n in
  decode_claim (seal_words po2 pre post term a0 a1 out n ++ rest) = (Ok claim, rest) /\
  decode_povw_nonce (seal_words po2 pre post term a0 a1 out n) = Ok n /\
  (term <> 1 -> exit_code claim = Ok SystemSplit) /\
  (term = 1 -> exit_code claim =
     if a0 mod 2 ^ 16 =? 0 then Ok (Halted (a0 / 2 ^ 16))
     else if a0 mod 2 ^ 16 =? 1 then Ok (Paused (a0 / 2 ^ 16)) else Err (IllegalHaltType (a0 mod 2 ^ 16))) /\
  (forall version seal, version <> RV32IM_SEAL_VERSION -> fst (decode_claim (version :: seal)) = Err (VersionMismatch version)) /\
  fst (decode_claim []) = Err UnexpectedEnd /\
  (forall x, u32 x -> u32_from (highlow_from x) = x).
Proof.
  intros Hp Hpre Hpost Ht H0' H1' Hout Hn claim.
  assert (Hhl : forall x, u32 x -> high (highlow_from x) = x / 2 ^ 16 /\ low (highlow_from x) = x mod 2 ^ 16).
  { intros x Hx. unfold fits in Hx. unfold highlow_from. cbn [high low]. change 0xffff with (Z.ones 16). rewrite Z.land_ones, Z.shiftr_div_pow2 by lia.
    split; apply wrap_small; unfold fits; Z.to_euclidean_division_equations; lia. }
  split; [by apply decode_claim_run|]. split.
  { unfold decode_povw_nonce. rewrite <- (app_nil_r (seal_words _ _ _ _ _ _ _ _)), decode_claim_run by done. done. }
  split; [|split; [|split; [|split; [done|]]]].
  - intros Hne. unfold exit_code, claim. cbn [terminate_state]. by rewrite (proj2 (Z.eqb_neq _ _) Hne).
  - intros ->. unfold exit_code, claim. cbn [terminate_state Z.eqb Pos.eqb term_a0]. by destruct (Hhl a0 H0') as [-> ->].
  - intros version seal Hv. unfold decode_claim. rewrite (run_bind _ _ _ _ _ (read_u32_run _ _)).
    by rewrite (proj2 (Z.eqb_neq _ _) Hv).
  - intros x Hx. unfold u32_from. destruct (Hhl x Hx) as [-> ->]. unfold fits in Hx. unfold shl32.
    rewrite Z.shiftl_mul_pow2, wrap_small by (unfold fits; Z.to_euclidean_division_equations; lia).
    rewrite lor_sum by (Z.to_euclidean_division_equations; lia). pose proof (Z.div_mod x (2 ^ 16)). lia.
Qed.
End Seals.

(** ** System states and exit codes *)

Section SysStates.
Import SysState ExitCodes.

Lemma write_sha_flat d flat : write_sha_halfs flat d = flat ++ (as_words d ≫= (fun x => [x .& 0xffff; x .>> 16])).
Proof.
  unfold write_sha_halfs. generalize (as_words d). intros ws. revert flat.
  induction ws as [|w ws IH]; intros flat; cbn [foldl]; [by rewrite app_nil_r|]. rewrite IH, bind_cons. by rewrite <- !app_assoc.
Qed.

Lemma write_u32_flat flat w : write_u32_bytes flat w = flat ++ to_le_bytes w.
Proof. unfold write_u32_bytes, to_le_bytes. cbn [map foldl]. by rewrite <- !app_assoc. Qed.

Lemma half_bytes_run ws : Forall u32 ws -> half_bytes (ws ≫= (fun x => [x .& 0xffff; x .>> 16])) = Ok (cast_words 4 ws).
Proof.
  induction 1 as [|w ws Hw _ IH]; [done|]. rewrite bind_cons. cbn [app half_bytes]. unfold fits in Hw.
  assert (E0 : (w .& 0xffff) .& 0xff = w mod 256 /\ (w .& 0xffff) .>> 8 = w / 256 mod 256 /\
    (w .>> 16) .& 0xff = w / 65536 mod 256 /\ (w .>> 16) .>> 8 = w / 16777216 mod 256).
  { change 0xffff with (Z.ones 16). change 0xff with (Z.ones 8). rewrite !Z.land_ones, !Z.shiftr_div_pow2 by lia.
    change (2 ^ 16) with 65536. change (2 ^ 8) with 256. split_and!; Z.to_euclidean_division_equations; lia. }
  destruct E0 as (-> & -> & -> & ->). assert (Hb : forall x, (x mod 256 <=? 255) = true) by (intros x; pose proof (Z.mod_pos_bound x 256); lia).
  rewrite !Hb. cbn [ok_or mbind outcome_bind]. rewrite IH. cbn [mbind outcome_bind]. f_equal. unfold cast_words. rewrite bind_cons.
  unfold le_bytes at 2. change (seqZ 0 (Z.of_nat 4)) with [0; 1; 2; 3]. cbn [map app].
  change (256 ^ 0) with 1. change (256 ^ 1) with 256. change (256 ^ 2) with 65536. change (256 ^ 3) with 16777216.
  by rewrite Z.div_1_r.
Qed.

Definition state_wf (st : SystemState) : Prop := u32 (pc st) /\ Forall u32 (as_words (merkle_root st)).

(** System states and exit codes are codes.  The words that [encode] appends decode to
    the state and leave what follows; a queue that is too short is the end of the stream;
    the pair of an exit code converts back to it, except that a session limit becomes a
    system split, and system parts above two are errors; an exit code expects an output
    exactly when its system part is below two. *)
Theorem system_codec st flat rest e : state_wf st ->
  (exists words, encode st flat = flat ++ words /\ length words = 20%nat /\ decode (words ++ rest) = (Ok st, rest)) /\
  (forall q, (length q < 4)%nat -> fst (decode q) = Err EndOfStream) /\
  (forall q, (4 <= length q < 20)%nat -> fst (decode q) = Err EndOfStream) /\
  (let '(sys, user) := into_pair e in
    from_pair sys user = Ok (match e with SessionLimit => SystemSplit | _ => e end) /\ (expects_output e = true <-> sys < 2)) /\
  (forall sys user, 2 < sys -> from_pair sys user = Err (InvalidExitCodeError sys user)) /\
  (is_ok e = true <-> into_pair e = (0, 0)).
Proof.
  intros [Hpc Hd]. split_and!.
  - exists (to_le_bytes (pc st) ++ (as_words (merkle_root st) ≫= (fun x => [x .& 0xffff; x .>> 16]))).
    set (halfs := as_words (merkle_root st) ≫= _).
    assert (Hh : length halfs = 16%nat) by done.
    unfold encode. rewrite write_sha_flat, write_u32_flat, <- app_assoc. fold halfs. split_and!; [done|by rewrite length_app, Hh|].
    rewrite <- app_assoc. unfold decode.
    assert (E1 : read_u32_bytes (to_le_bytes (pc st) ++ halfs ++ rest) = (Ok (pc st), halfs ++ rest)).
    { unfold read_u32_bytes. rewrite (run_bind _ _ _ _ _ (eq_refl : get _ = _)). rewrite length_app.
      change (length (to_le_bytes (pc st))) with 4%nat. change (4 + length (halfs ++ rest) <? 4)%nat with false. cbv iota.
      unfold drain. rewrite (run_bind _ _ _ (to_le_bytes (pc st)) (halfs ++ rest)) by done. unfold mret, state_ret. do 2 f_equal.
      change (to_le_bytes (pc st)) with (le_bytes 4 (pc st)).
      rewrite (list_fmap_ext (wrap 8) id), list_fmap_id.
      - rewrite from_le_bytes_le_bytes. by apply Z.mod_small.
      - intros i x Hi. apply wrap_small. eapply Forall_lookup_1; [apply le_bytes_u8|exact Hi]. }
    rewrite (run_bind _ _ _ _ _ E1). unfold read_sha_halfs.
    assert (E2 : read_sha_halfs (halfs ++ rest) = (Ok (merkle_root st), rest)).
    { unfold read_sha_halfs. rewrite (run_bind _ _ _ _ _ (eq_refl : get _ = _)). rewrite length_app, Hh.
      change (16 + length rest <? 16)%nat with false. cbv iota. unfold drain.
      rewrite (run_bind _ _ _ halfs rest) by (by rewrite take_app_length', drop_app_length').
      unfold halfs. rewrite half_bytes_run, run_lift_Ok by done. unfold digest_from_bytes, lift.
      destruct (cast_words_bytes 4 (as_words (merkle_root st))) as (C1 & _ & C3); [exact Hd|]. rewrite C3.
      replace (4 * length (as_words (merkle_root st)) =? DIGEST_BYTES)%nat with true by done. cbn [assert_ mbind outcome_bind].
      change DIGEST_WORDS with (length (as_words (merkle_root st))). by rewrite C1, digest_words_of. }
    unfold read_sha_halfs in E2. rewrite (run_bind _ _ _ _ _ E2). by destruct st.
  - intros q Hq. unfold decode, read_u32_bytes, mbind, state_bind, get. by rewrite (proj2 (Nat.ltb_lt _ _) Hq).
  - intros q Hq. unfold decode, read_u32_bytes, read_sha_halfs, mbind, state_bind, get, drain.
    rewrite (proj2 (Nat.ltb_ge _ _)) by lia. cbn [mret state_ret].
    replace (length (drop 4 q) <? 16)%nat with true; [done|]. symmetry. apply Nat.ltb_lt. rewrite length_drop. lia.
  - destruct e; (split; [done|]); cbn; split; intros; done || lia.
  - intros sys user Hsys. destruct sys as [|[[]|[]|]|]; done || lia.
  - destruct e as [u| | |]; cbn; try done. destruct u; done.
Qed.
End SysStates.

(** ** A concrete integer crate, and the witnesses *)

#[local] Instance ruint_Z : Ruint := {|
  u_shl := fun w x k => wrap w (Z.shiftl x k);
  u_shr := Z.shiftr;
  u_or := Z.lor;
  u_and := Z.land;
  u_to := fun w x => if decide (fits w x) then Some x else None;
  u_to_le_bytes := le_bytes;
  u_from_le_bytes := from_le_bytes |}.

#[local] Instance ruint_Z_laws : RuintLaws.
Proof. by split. Qed.

Definition demo_nonce : Povw.PovwNonce := Povw.mkNonce (2 ^ 159 + 5) 7 3.

Lemma demo_nonce_wf : nonce_wf demo_nonce.
Proof. unfold nonce_wf, fits. cbn. lia. Qed.

Lemma povw_codec_witness : exists u16s, Povw.to_u16s demo_nonce = @Ok DecodeError _ u16s /\
  Povw.decode_from_seal (u16s ++ [9; 9]) = (Ok demo_nonce, [9; 9]).
Proof.
  destruct (povw_codec demo_nonce [9; 9] (Povw.mkJob 5 6) demo_nonce_wf) as [(bytes & u32s & u16s & _ & _ & _ & _ & _ & H1 & _ & _ & H2) _].
  - unfold fits; cbn; lia.
  - unfold fits; cbn; lia.
  - exists u16s. split; [exact H1|exact H2].
Defined.

Lemma claim_decode_layout_witness :
  Seal.exit_code (Seal.mkClaim 20 Merkle.ZERO Merkle.ZERO (Some Merkle.ZERO) (Some (Seal.mkTerminate (Seal.highlow_from 0x50001) (Seal.highlow_from 0))) demo_nonce)
    = Ok (ExitCodes.Paused 5).
Proof.
  destruct (claim_decode_layout 20 Merkle.ZERO Merkle.ZERO 1 0x50001 0 Merkle.ZERO demo_nonce []) as (_ & _ & _ & H & _);
    [unfold fits; lia| | |unfold reduced; rewrite P_val; lia|unfold fits; lia|unfold fits; lia| |exact demo_nonce_wf|].
  - repeat (apply Forall_cons_2; [by vm_compute|]); apply Forall_nil_2.
  - repeat (apply Forall_cons_2; [by vm_compute|]); apply Forall_nil_2.
  - repeat (apply Forall_cons_2; [by vm_compute|]); apply Forall_nil_2.
  - exact (H eq_refl).
Defined.

Lemma system_codec_witness : exists words, SysState.decode (words ++ [1]) = (Ok (SysState.mkState 0x20000 Merkle.ZERO), [1]).
Proof.
  destruct (system_codec (SysState.mkState 0x20000 Merkle.ZERO) [] [1] (ExitCodes.Halted 0)) as [(words & _ & _ & H) _].
  - split; [unfold fits; cbn; lia|]. repeat (apply Forall_cons_2; [by vm_compute|]); apply Forall_nil_2.
  - exists words. exact H.
Defined.
