(* ===== verification/Receipt.v ===== *)
(** * Receipts and what they claim

    Digests of tagged structures, values that may be pruned to their digest, the claim of
    a receipt with its output and assumptions, the merging of claims, and the verification
    of receipts: segments, succinct and composite receipts, the assumptions they carry and
    the receipt that a user verifies.  SHA-256 and the pairing check of Groth16 are
    third-party code and classes; the tables that the circuit generator writes are one
    more class. *)
From S2P Require Export Claim Stark.
From stdpp Require Export strings sorting.
Import Merkle.
#[export] Existing Instance Merkle.digest_eq_dec.
Open Scope word_scope.
Open Scope Z_scope.

(** [Result::map_err]. *)
Definition map_err {E F A} (f : E -> F) (o : outcome E A) : outcome F A :=
  match o with Ok a => Ok a | Err e => Err (f e) | Panic => Panic end.

(** ** Hashing of structures *)

Module Hashing.
(* source: src/risc0/risc0/binfmt/src/hash.rs *)

(** The hash function; the crate sha2 on a host. *)
Class Sha256 := { hash_bytes : list Z -> Digest }.

(* L27-30 Digestible *)
Class Digestible `{Sha256} (T : Type) := { digest : T -> Digest }.

(** The bytes of a string and of a digest. *)
Definition str_bytes (s : string) : list Z := map (fun a => Z.of_nat (Ascii.nat_of_ascii a)) (String.list_ascii_of_string s).
Definition digest_bytes (d : Digest) : list Z := as_words d ≫= le_bytes 4.

Section Hash.
Context `{Sha256}.

(* L38-42 Digestible for Vec<u8> *)
#[export] Instance bytes_digestible : Digestible (list Z) := {| digest := hash_bytes |}.

(* L44-61 Digestible for [D] *)
Definition slice_digest {T} `{!Digestible T} (l : list T) : Digest :=
  foldr (fun item accum => hash_bytes (digest_bytes accum ++ digest_bytes (digest item))) Merkle.ZERO l.

(* L63-70 Digestible for Option<T> *)
#[export] Instance option_digestible {T} `{!Digestible T} : Digestible (option T) := {|
  digest o := match o with Some v => digest v | None => Merkle.ZERO end |}.

(** No caller passes more than four digests, so that their number fits two bytes. *)
(* L75-94 tagged_struct *)
Definition tagged_struct (tag : string) (down : list Digest) (data : list Z) : Digest :=
  let tag_digest := hash_bytes (str_bytes tag) in
  hash_bytes (digest_bytes tag_digest ++ (down ≫= digest_bytes) ++ (data ≫= le_bytes 4) ++ le_bytes 2 (Z.of_nat (length down))).

(* L137-139 tagged_list_cons *)
Definition tagged_list_cons (tag : string) (head tail : Digest) : Digest := tagged_struct tag [head; tail] [].
(* L100-107 tagged_iter *)
Definition tagged_iter (tag : string) (l : list Digest) : Digest :=
  foldr (fun elem list_digest => tagged_list_cons tag elem list_digest) Merkle.ZERO l.
(* L113-115 tagged_list *)
Definition tagged_list (tag : string) (l : list Digest) : Digest := tagged_iter tag l.

(* src/risc0/risc0/binfmt/src/sys_state.rs:71-76 Digestible for SystemState *)
#[export] Instance state_digestible : Digestible SysState.SystemState := {|
  digest st := tagged_struct "risc0.SystemState" [SysState.merkle_root st] [SysState.pc st] |}.
End Hash.
End Hashing.

(** ** Values that may be pruned *)

Module Pruned.
Import Hashing.
(* source: src/risc0/risc0/zkvm/src/claim/maybe_pruned.rs *)
(* L37-43 MaybePruned *)
Inductive MaybePruned (T : Type) := Value (v : T) | Pruned (digest : Digest).
Arguments Value {T} _.
Arguments Pruned {T} _.

(* L169-169 PrunedValueError *)
Inductive PrunedValue := PrunedValueError (digest : Digest).

(* L55-60 MaybePruned::as_value *)
Definition as_value {T} (self : MaybePruned T) : outcome PrunedValue T :=
  match self with Value v => Ok v | Pruned d => Err (PrunedValueError d) end.
(* L120-126 MaybePruned::is_none *)
Definition is_none {T} (self : MaybePruned (option T)) : bool :=
  match self with Value (Some _) => false | Value None => true | Pruned d => bool_decide (d = Merkle.ZERO) end.
(* L130-132 MaybePruned::is_some *)
Definition is_some {T} (self : MaybePruned (option T)) : bool := negb (is_none self).

Section Digest.
Context `{Sha256}.
(* L77-87 Digestible for MaybePruned<T> *)
#[export] Instance pruned_digestible {T} `{!Digestible T} : Digestible (MaybePruned T) := {|
  digest m := match m with Value v => digest v | Pruned d => d end |}.
(* L96-98 MaybePruned::pruned *)
Definition pruned {T} `{!Digestible T} (self : MaybePruned T) : MaybePruned T := Pruned (digest self).
End Digest.
End Pruned.

(** ** Claims *)

Module Claims.
Import Hashing Pruned ExitCodes SysState.

(* src/risc0/risc0/zkvm/src/claim/mod.rs:38-40 Unknown *)
Inductive Unknown : Set := .

(* source: src/risc0/risc0/zkvm/src/claim/receipt.rs *)
(* L412-417 Input *)
Record Input := mkInput { x : Unknown }.
(* L474-492 Assumption *)
Record Assumption := mkAssumption { claim : Digest; control_root : Digest }.
(* L504-504 Assumptions *)
Definition Assumptions : Type := list (MaybePruned Assumption).
(* L429-443 Output *)
Record Output := mkOutput { journal : MaybePruned (list Z); assumptions : MaybePruned Assumptions }.
(* L56-71 ReceiptClaim *)
Record ReceiptClaim := mkReceiptClaim {
  pre : MaybePruned SystemState; post : MaybePruned SystemState; exit_code : ExitCode;
  input : MaybePruned (option Input); output : MaybePruned (option Output) }.
(* L391-398 UnionClaim *)
Record UnionClaim := mkUnion { left : Digest; right : Digest }.

Section Claims.
Context `{Sha256}.

(* src/risc0/risc0/zkvm/src/claim/mod.rs:42-46 Digestible for Unknown *)
#[export] Instance unknown_digestible : Digestible Unknown := {| digest (u : Unknown) := match u return Digest with end |}.
(* L419-424 Digestible for Input *)
#[export] Instance input_digestible : Digestible Input := {| digest i := match x i with end |}.
(* L494-499 Digestible for Assumption *)
#[export] Instance assumption_digestible : Digestible Assumption := {|
  digest a := tagged_struct "risc0.Assumption" [claim a; control_root a] [] |}.
(* L542-550 Digestible for Assumptions *)
#[export] Instance assumptions_digestible : Digestible Assumptions := {|
  digest l := tagged_list "risc0.Assumptions" (map digest l) |}.
(* L453-462 Digestible for Output *)
#[export] Instance output_digestible : Digestible Output := {|
  digest o := tagged_struct "risc0.Output" [digest (journal o); digest (assumptions o)] [] |}.
(* L338-353 Digestible for ReceiptClaim *)
#[export] Instance claim_digestible : Digestible ReceiptClaim := {|
  digest c :=
    let '(sys_exit, user_exit) := into_pair (exit_code c) in
    tagged_struct "risc0.ReceiptClaim" [digest (input c); digest (pre c); digest (post c); digest (output c)] [sys_exit; user_exit] |}.
(* L400-404 Digestible for UnionClaim *)
#[export] Instance union_digestible : Digestible UnionClaim := {| digest u := tagged_struct "risc0.UnionClaim" [left u; right u] [] |}.

(** The claim of a run that ends normally. *)
Definition ended (code : ExitCode) (image_id : Digest) (journal : MaybePruned (list Z)) : ReceiptClaim :=
  mkReceiptClaim (Pruned image_id) (Value (mkState 0 Merkle.ZERO)) code (Value None) (Value (Some (mkOutput journal (Pruned Merkle.ZERO)))).
(* L76-94 ReceiptClaim::ok *)
Definition ok : Digest -> MaybePruned (list Z) -> ReceiptClaim := ended (Halted 0).
(* L98-116 ReceiptClaim::paused *)
Definition paused : Digest -> MaybePruned (list Z) -> ReceiptClaim := ended (Paused 0).
End Claims.
End Claims.

Module ClaimOps.
Import Hashing Pruned ExitCodes SysState Claims.
(* source: src/risc0/risc0/zkvm/src/claim/receipt.rs *)

(* L357-362 DecodeError *)
Inductive ClaimError := InvalidExit (e : InvalidExitCode) | Decode (e : DecodeError).
(** [?] with the conversions of the errors. *)
Definition decoding {S A} (m : state S DecodeError A) : state S ClaimError A := fun s => let '(o, s') := m s in (map_err Decode o, s').

(* L119-139 ReceiptClaim::decode *)
Definition decode : state (list Z) ClaimError ReceiptClaim :=
  let pop_front : state (list Z) ClaimError Z := fun flat =>
    match flat with w :: flat => (Ok w, flat) | [] => (Err (Decode EndOfStream), []) end in
  input ← decoding read_sha_halfs;
  pre ← decoding SysState.decode;
  post ← decoding SysState.decode;
  sys_exit ← pop_front;
  user_exit ← pop_front;
  exit_code ← lift (map_err InvalidExit (from_pair sys_exit user_exit));
  output ← decoding read_sha_halfs;
  mret (mkReceiptClaim (Value pre) (Value post) exit_code (Pruned input) (Pruned output)).

Section Ops.
Context `{Sha256}.

(* L142-151 ReceiptClaim::encode *)
Definition encode (self : ReceiptClaim) (flat : list Z) : outcome PrunedValue (list Z) :=
  let flat := write_sha_halfs flat (digest (input self)) in
  pre ← as_value (pre self);
  let flat := SysState.encode pre flat in
  post ← as_value (post self);
  let flat := SysState.encode post flat in
  let '(sys_exit, user_exit) := into_pair (exit_code self) in
  Ok (write_sha_halfs (flat ++ [sys_exit; user_exit]) (digest (output self))).

(* L153-178 ReceiptClaim::decode_from_seal_m3 *)
Definition decode_from_seal_m3 `{Ruint} (seal : list Z) : outcome Seal.error ReceiptClaim :=
  claim ← fst (Seal.decode_claim seal);
  exit_code ← Seal.exit_code claim;
  let post_state := match exit_code with Halted _ => Merkle.ZERO | _ => Seal.post_state claim end in
  let output := match Seal.output claim with Some d => Pruned d | None => Value None end in
  Ok (mkReceiptClaim (Value (mkState 0 (Seal.pre_state claim))) (Value (mkState 0 post_state)) exit_code (Pruned Merkle.ZERO) output).

(* L197-205 ReceiptClaim::join *)
Definition join (self other : ReceiptClaim) : ReceiptClaim :=
  mkReceiptClaim (pre self) (post other) (exit_code other) (input self) (output other).

(** The errors of [resolve], by the messages that the source gives. *)
Inductive ResolveError :=
  | OutputPruned | NoOutput | AssumptionsPruned | AssumptionsEmpty | AssumptionPruned (e : PrunedValue)
  | CannotResolveEmpty | NotTheHead (resolved head : Digest) | TailMismatch (expected reconstructed : Digest).

(* L508-510 Assumptions::add *)
Definition assumptions_add (assumption : MaybePruned Assumption) (self : Assumptions) : Assumptions := assumption :: self.
(* L515-531 Assumptions::resolve *)
Definition assumptions_resolve (resolved : Digest) (self : Assumptions) : outcome ResolveError Assumptions :=
  match self with
  | [] => Err CannotResolveEmpty
  | head :: tail => if decide (digest head = resolved) then Ok tail else Err (NotTheHead resolved (digest head))
  end.
(* L554-559 MaybePruned<Assumptions>::is_empty *)
Definition is_empty (self : MaybePruned Assumptions) : bool :=
  match self with Value list => bool_decide (list = []) | Pruned digest => bool_decide (digest = Merkle.ZERO) end.
(* L564-575 MaybePruned<Assumptions>::add *)
Definition pruned_add (assumption : MaybePruned Assumption) (self : MaybePruned Assumptions) : MaybePruned Assumptions :=
  match self with
  | Value list => Value (assumptions_add assumption list)
  | Pruned list_digest => Pruned (tagged_list_cons "risc0.Assumptions" (digest assumption) list_digest)
  end.
(* L583-601 MaybePruned<Assumptions>::resolve *)
Definition pruned_resolve (resolved tail : Digest) (self : MaybePruned Assumptions) : outcome ResolveError (MaybePruned Assumptions) :=
  match self with
  | Value list => Value <$> assumptions_resolve resolved list
  | Pruned list_digest =>
      let reconstructed := tagged_list_cons "risc0.Assumptions" resolved tail in
      if decide (reconstructed = list_digest) then Ok (Pruned tail) else Err (TailMismatch list_digest reconstructed)
  end.

(** The assumption is given by the digest of its claim. *)
(* L211-247 ReceiptClaim::resolve *)
Definition resolve (assumption : Digest) (self : ReceiptClaim) : outcome ResolveError ReceiptClaim :=
  out ← map_err (fun _ => OutputPruned) (as_value (output self));
  out ← ok_or NoOutput out;
  list ← map_err (fun _ => AssumptionsPruned) (as_value (assumptions out));
  head ← ok_or AssumptionsEmpty (list !! 0%nat);
  head ← map_err AssumptionPruned (as_value head);
  rest ← assumptions_resolve (digest (mkAssumption assumption (control_root head))) list;
  Ok (mkReceiptClaim (pre self) (post self) (exit_code self) (input self) (Value (Some (mkOutput (journal out) (Value rest))))).
End Ops.
End ClaimOps.

(** ** Merging *)

Module Merging.
Import Hashing Pruned ExitCodes SysState Claims.
(* source: src/risc0/risc0/zkvm/src/claim/merge.rs *)
(* L53-53 MergeInequalityError *)
Inductive MergeError := MergeInequalityError (left right : Digest).
(* L39-49 Merge *)
Class Merge `{Sha256} (T : Type) `{!Digestible T} := { merge : T -> T -> outcome MergeError T }.

(** The same error, with the two digests. *)
Definition unequal `{Digestible T} {A} (self other : T) : outcome MergeError A := Err (MergeInequalityError (digest self) (digest other)).

#[export] Instance state_eq_dec : EqDecision SystemState.
Proof. solve_decision. Defined.
#[export] Instance assumption_eq_dec : EqDecision Assumption.
Proof. solve_decision. Defined.
#[export] Instance exit_code_eq_dec : EqDecision ExitCode.
Proof. solve_decision. Defined.

Section Merge.
Context `{Sha256}.

(* L77-88 Merge for MergeLeaf *)
Definition merge_leaf `{!Digestible T, EqDecision T} (self other : T) : outcome MergeError T :=
  if decide (self = other) then Ok self else unequal self other.
#[export] Instance merge_state : Merge SystemState := {| merge := merge_leaf |}.
#[export] Instance merge_assumption : Merge Assumption := {| merge := merge_leaf |}.
#[export] Instance merge_bytes : Merge (list Z) := {| merge := merge_leaf |}.

(* L90-124 Merge for MaybePruned<T> *)
#[export] Instance merge_pruned {T} `{!Digestible T, !Merge T} : Merge (MaybePruned T) := {|
  merge self other :=
    let check_eq k := if decide (digest self = digest other) then k else unequal self other in
    match self, other with
    | Value left, Value right => Value <$> merge left right
    | Value _, Pruned _ => check_eq (Ok self)
    | Pruned _, Value _ => check_eq (Ok other)
    | Pruned _, Pruned _ => check_eq (Ok self)
    end |}.

(* L126-137 Merge for Option<T> *)
#[export] Instance merge_option {T} `{!Digestible T, !Merge T} : Merge (option T) := {|
  merge self other :=
    match self, other with
    | Some left, Some right => Some <$> merge left right
    | None, None => Ok None
    | _, _ => unequal self other
    end |}.

(** The pairs of a [zip], merged in order. *)
Fixpoint merge_zip {T} `{!Digestible T, !Merge T} (l k : list T) : outcome MergeError (list T) :=
  match l, k with
  | a :: l, b :: k => c ← merge a b; cs ← merge_zip l k; Ok (c :: cs)
  | _, _ => Ok []
  end.
(* L139-155 Merge for Assumptions *)
#[export] Instance merge_assumptions : Merge Assumptions := {|
  merge self other := if (length self =? length other)%nat then merge_zip self other else unequal self other |}.
(* L157-161 Merge for Input *)
#[export] Instance merge_input : Merge Input := {| merge self _ := match x self with end |}.
(* L163-170 Merge for Output *)
#[export] Instance merge_output : Merge Output := {|
  merge self other :=
    journal ← merge (journal self) (journal other);
    assumptions ← merge (assumptions self) (assumptions other);
    Ok (mkOutput journal assumptions) |}.
(* L172-188 Merge for ReceiptClaim *)
#[export] Instance merge_claim : Merge ReceiptClaim := {|
  merge self other :=
    if decide (exit_code self = exit_code other) then
      pre ← merge (pre self) (pre other);
      post ← merge (post self) (post other);
      input ← merge (input self) (input other);
      output ← merge (output self) (output other);
      Ok (mkReceiptClaim pre post (exit_code self) input output)
    else unequal self other |}.
End Merge.
End Merging.

(** ** Merkle groups *)

Module Groups.
(* source: src/risc0/risc0/zkvm/src/receipt/merkle.rs *)
(* L31-31 ALLOWED_CODE_MERKLE_DEPTH *)
Definition ALLOWED_CODE_MERKLE_DEPTH : Z := 8.
(* L37-45 MerkleGroup *)
Record MerkleGroup := mkGroup { depth : Z; leaves : list Digest }.
(* L51-58 MerkleProof *)
Record MerkleProof := mkProof { index : Z; digests : list Digest }.

Inductive GroupError := TooManyLeaves | NotInGroup (control_id : Digest) | ProofVerifyFailed.

(** The derived order of digests: their words, the first one first. *)
Fixpoint words_le (a b : list Z) : bool :=
  match a, b with
  | x :: a, y :: b => (x <? y) || ((x =? y) && words_le a b)
  | _, _ => true
  end.
Definition digest_le (a b : Digest) : Prop := words_le (as_words a) (as_words b) = true.
#[export] Instance digest_le_dec : RelDecision digest_le.
Proof. intros a b. unfold digest_le. apply _. Defined.

(** [<<] on [u32], whose amount counts modulo 32. *)
Definition shl (a s : Z) : Z := shl32 a (s mod 32).

(* L63-74 MerkleGroup::new *)
Definition new (leaves : list Digest) : outcome GroupError MerkleGroup :=
  let max_len := shl1 ALLOWED_CODE_MERKLE_DEPTH in
  _ ← ensure (Z.of_nat (length leaves) <? max_len) TooManyLeaves;
  Ok (mkGroup ALLOWED_CODE_MERKLE_DEPTH (merge_sort digest_le leaves)).

Section Hash.
(** The hash of a pair, which panics on digests that are not the hash's. *)
Context {Er : Type} (hash_pair : Digest -> Digest -> outcome Er Digest).
Abbreviation O_ := (outcome Er).

(* L81-83 MerkleGroup::leaf_or_empty *)
Definition leaf_or_empty (self : MerkleGroup) (index : Z) : Digest := default Merkle.ZERO (leaves self !! Z.to_nat index).

(** A range halves at every call; 33 calls reach one leaf from any length. *)
(* L85-97 MerkleGroup::calc_range_root *)
Fixpoint calc_range_root (fuel : nat) (self : MerkleGroup) (start end_ : Z) : O_ Digest :=
  match fuel with
  | O => Panic
  | S fuel =>
      _ ← assert_ (start <? end_);
      if wrap 32 (start + 1) =? end_ then Ok (leaf_or_empty self start) else
      let mid := wrap 32 (start + end_) / 2 in
      _ ← assert_ (wrap 32 (mid - start) =? wrap 32 (end_ - mid));
      left ← calc_range_root fuel self start mid;
      right ← calc_range_root fuel self mid end_;
      hash_pair left right
  end.
(* L77-79 MerkleGroup::calc_root *)
Definition calc_root (self : MerkleGroup) : O_ Digest := calc_range_root 33 self 0 (shl 1 (depth self)).

(** The parent, its sides by the lowest bit of the index. *)
Definition parent (cur_index : Z) (cur sibling : Digest) : O_ Digest :=
  if cur_index .& 1 =? 0 then hash_pair cur sibling else hash_pair sibling cur.

(* L116-135 MerkleGroup::get_proof_by_index, the loop *)
Fixpoint proof_loop (n : nat) (i : Z) (self : MerkleGroup) (cur : Digest) (cur_index : Z) : O_ (list Digest) :=
  match n with
  | O => Ok []
  | S n =>
      let sibling_start := shl (cur_index .^ 1) i in
      let sibling_end := wrap 32 (sibling_start + shl 1 i) in
      sibling ← calc_range_root 33 self sibling_start sibling_end;
      cur ← parent cur_index cur sibling;
      rest ← proof_loop n (i + 1) self cur (cur_index .>> 1);
      Ok (sibling :: rest)
  end.
(* L116-135 MerkleGroup::get_proof_by_index *)
Definition get_proof_by_index (self : MerkleGroup) (index : Z) : O_ MerkleProof :=
  cur ← unwrap (leaves self !! Z.to_nat index);
  digests ← proof_loop (Z.to_nat (depth self)) 0 self cur index;
  Ok (mkProof index digests).

(* L154-166 MerkleProof::root, the loop *)
Fixpoint root_loop (cur : Digest) (cur_index : Z) (digests : list Digest) : O_ Digest :=
  match digests with
  | [] => Ok cur
  | sibling :: digests => cur ← parent cur_index cur sibling; root_loop cur (cur_index .>> 1) digests
  end.
(* L154-166 MerkleProof::root *)
Definition root (self : MerkleProof) (leaf : Digest) : O_ Digest := root_loop leaf (index self) (digests self).
End Hash.

Section Checked.
Context (hash_pair : Digest -> Digest -> outcome GroupError Digest).
(** The position of the first leaf that is equal. *)
Fixpoint position (control_id : Digest) (leaves : list Digest) : option Z :=
  match leaves with
  | [] => None
  | leaf :: leaves => if decide (leaf = control_id) then Some 0 else (Z.add 1) <$> position control_id leaves
  end.
(* L102-111 MerkleGroup::get_proof *)
Definition get_proof (self : MerkleGroup) (control_id : Digest) : outcome GroupError MerkleProof :=
  index ← ok_or (NotInGroup control_id) (position control_id (leaves self));
  get_proof_by_index hash_pair self (wrap 32 index).
(* L140-151 MerkleProof::verify *)
Definition proof_verify (self : MerkleProof) (leaf expected : Digest) : outcome GroupError unit :=
  actual ← root hash_pair self leaf;
  ensure (bool_decide (actual = expected)) ProofVerifyFailed.
End Checked.
End Groups.

(** ** Verification *)

Module Receipts.
Import Hashing Pruned ExitCodes SysState Claims ClaimOps Merkle.

(** A hash suite; [None] is the panic of [hash_pair]. *)
(* src/risc0/risc0/zkp/src/core/hash/mod.rs:82-91 HashSuite *)
Record HashSuite := mkSuite {
  name : string; suite_pair : Digest -> Digest -> option Digest; suite_elems : list Z -> Digest;
  suite_ext : list ExtElem -> Digest; suite_valid : Digest -> bool;
  suite_state : Set; suite_rng : Rng suite_state Z ExtElem; new_rng : suite_state }.

(** The suite's functions, as the verifier of the STARK takes them: it checks that digests
    are valid before it hashes pairs. *)
Definition suite_hashfn (s : HashSuite) : HashFn Z := {|
  Merkle.hash_pair := suite_pair s;
  Merkle.hash_elem_slice := suite_elems s; Merkle.is_digest_valid := suite_valid s |}.
Definition suite_hash_ext (s : HashSuite) : HashExt := {| hash_ext_elem_slice := suite_ext s |}.
Definition pair_fn {E} (s : HashSuite) (a b : Digest) : outcome E Digest := unwrap (suite_pair s a b).

(* src/risc0/risc0/zkp/src/core/hash/poseidon2/mod.rs:94-101 Poseidon2HashSuite::new_suite *)
Definition poseidon2_suite : HashSuite := {|
  name := "poseidon2";
  suite_pair a b := match @Poseidon2.Poseidon2.hash_pair unit a b with Ok d => Some d | _ => None end;
  suite_elems := Poseidon2.Poseidon2.hash_elem_slice; suite_ext := Poseidon2.Poseidon2.hash_ext_elem_slice;
  suite_valid := Poseidon2.Poseidon2.is_digest_valid;
  suite_state := Poseidon2.Poseidon2.Poseidon2Rng; suite_rng := Poseidon2.Poseidon2.Poseidon2Rng_rng; new_rng := Poseidon2.Poseidon2.rng_new |}.

(** What the circuit generator writes: the tables and constraint programs of the two
    circuits, and the root of the control identifiers.  The repository's are in [Rv32imTables]
    and [RecursionTables]. *)
Class Generated := {
  rv32im_taps : Taps.TapSet; rv32im_poly_ext : Adapter.PolyExtStepDef;
  recursion_taps : Taps.TapSet; recursion_poly_ext : Adapter.PolyExtStepDef;
  ALLOWED_CONTROL_ROOT : Digest }.

(** The pairing check, from a seal, the control root, the claim, the control identifier and
    the key: the seal may not be one, and the proof may not be valid. *)
Inductive Groth16Error := NotASeal | NotAProof.
Class Groth16 := { VerifyingKey : Type; groth16_verify : list Z -> Digest -> Digest -> Digest -> VerifyingKey -> outcome Groth16Error unit;
                   key_digest : VerifyingKey -> Digest }.

(* src/risc0/risc0/circuit/rv32im/src/zirgen/info.rs:26-26 CIRCUIT_INFO *)
Definition RV32IM_CIRCUIT_INFO : Adapter.ProtocolInfo := str_bytes "RV32IM:v2rev2___".
(* src/risc0/risc0/circuit/recursion/src/info.rs:24-30 CircuitInfo for CircuitImpl *)
Definition RECURSION_CIRCUIT_INFO : Adapter.ProtocolInfo := str_bytes "RECURSION:rev1v1".
Definition RECURSION_OUTPUT_SIZE : nat := 32.
Definition RECURSION_MIX_SIZE : nat := 20.

Section Receipts.
Context `{Sha256, Ruint, Generated, Groth16}.
Abbreviation O_ := (outcome VerificationError).

(* src/risc0/risc0/circuit/rv32im/src/verify.rs:26-41 CircuitInfo::get_groups *)
Definition get_groups : list Verifier.GroupInfo := [Verifier.mkGroup 54 0; Verifier.mkGroup 0 200].
(* src/risc0/risc0/circuit/rv32im/src/verify.rs:56-79 verify *)
Definition rv32im_verify (seal : list Z) : O_ unit :=
  match seal with
  | [] => Err ReceiptFormatError
  | version :: seal =>
      if negb (version =? Seal.RV32IM_SEAL_VERSION)%Z then Err ReceiptFormatError else
      match seal with
      | [] => Err ReceiptFormatError
      | po2 :: seal =>
          if (MAX_CYCLES_PO2 <? po2)%Z then Err ReceiptFormatError else
          Verifier.verify_v3 rv32im_taps get_groups (fun mix u args => Adapter.poly_ext mix u args rv32im_poly_ext)
            (new_rng poseidon2_suite) seal (Z.to_nat po2)
      end
  end.

(* source: src/risc0/risc0/zkvm/src/receipt/segment.rs *)
(** The identifiers are a set; its digest lists them in order. *)
(* L147-156 SegmentReceiptVerifierParameters *)
Record SegmentReceiptVerifierParameters := mkSegmentParams {
  control_ids : list Digest; segment_proof_system_info : Adapter.ProtocolInfo; segment_circuit_info : Adapter.ProtocolInfo }.
(* L173-182 Default for SegmentReceiptVerifierParameters *)
Definition segment_default : SegmentReceiptVerifierParameters := mkSegmentParams [] Adapter.PROOF_SYSTEM_INFO RV32IM_CIRCUIT_INFO.
(* L158-171 Digestible for SegmentReceiptVerifierParameters *)
#[export] Instance segment_params_digestible : Digestible SegmentReceiptVerifierParameters := {|
  digest p := tagged_struct "risc0.SegmentReceiptVerifierParameters"
    [tagged_iter "risc0.ControlIdSet" (control_ids p); hash_bytes (segment_proof_system_info p); hash_bytes (segment_circuit_info p)] [] |}.

(* source: src/risc0/risc0/zkvm/src/receipt/succinct.rs *)
(* L321-337 SuccinctReceiptVerifierParameters *)
Record SuccinctReceiptVerifierParameters := mkSuccinctParams {
  control_root : Digest; inner_control_root : option Digest;
  proof_system_info : Adapter.ProtocolInfo; circuit_info : Adapter.ProtocolInfo }.
(* L387-399 Default for SuccinctReceiptVerifierParameters *)
Definition succinct_default : SuccinctReceiptVerifierParameters :=
  mkSuccinctParams ALLOWED_CONTROL_ROOT None Adapter.PROOF_SYSTEM_INFO RECURSION_CIRCUIT_INFO.
(* L371-385 Digestible for SuccinctReceiptVerifierParameters *)
#[export] Instance succinct_params_digestible : Digestible SuccinctReceiptVerifierParameters := {|
  digest p := tagged_struct "risc0.SuccinctReceiptVerifierParameters"
    [control_root p; default (control_root p) (inner_control_root p); hash_bytes (proof_system_info p); hash_bytes (circuit_info p)] [] |}.

(* source: src/risc0/risc0/zkvm/src/receipt/groth16.rs *)
(* L133-141 Groth16ReceiptVerifierParameters *)
Record Groth16ReceiptVerifierParameters := mkGroth16Params {
  groth16_control_root : Digest; bn254_control_id : Digest; verifying_key : VerifyingKey }.
(* L164-177 Digestible for Groth16ReceiptVerifierParameters *)
#[export] Instance groth16_params_digestible : Digestible Groth16ReceiptVerifierParameters := {|
  digest p := tagged_struct "risc0.Groth16ReceiptVerifierParameters"
    [groth16_control_root p; bn254_control_id p; key_digest (verifying_key p)] [] |}.

(* source: src/risc0/risc0/zkvm/src/receipt.rs *)
(* L884-899 VerifierContext *)
Record VerifierContext := mkContext {
  suites : gmap string HashSuite;
  segment_verifier_parameters : option SegmentReceiptVerifierParameters;
  succinct_verifier_parameters : option SuccinctReceiptVerifierParameters;
  groth16_verifier_parameters : option Groth16ReceiptVerifierParameters;
  dev_mode : bool }.
(* L903-911 VerifierContext::empty *)
Definition empty_context : VerifierContext := mkContext ∅ None None None false.

(* src/risc0/risc0/zkvm/src/receipt/segment.rs:39-65 SegmentReceipt *)
Record SegmentReceipt := mkSegment {
  segment_seal : list Z; index : Z; segment_hashfn : string; segment_parameters : Digest; segment_claim : ReceiptClaim }.
(* src/risc0/risc0/zkvm/src/receipt/succinct.rs:63-91 SuccinctReceipt *)
Record SuccinctReceipt (Claim : Type) := mkSuccinct {
  seal : list Z; control_id : Digest; claim : MaybePruned Claim; hashfn : string; verifier_parameters : Digest;
  control_inclusion_proof : Groups.MerkleProof }.
(* src/risc0/risc0/zkvm/src/receipt/groth16.rs:40-55 Groth16Receipt *)
Record Groth16Receipt (Claim : Type) := mkGroth16 {
  groth16_seal : list Z; groth16_claim : MaybePruned Claim; groth16_parameters : Digest }.
(* L565-570 FakeReceipt *)
Record FakeReceipt (Claim : Type) := mkFake { fake_claim : MaybePruned Claim }.
#[global] Arguments seal {Claim} _.
#[global] Arguments control_id {Claim} _.
#[global] Arguments claim {Claim} _.
#[global] Arguments hashfn {Claim} _.
#[global] Arguments verifier_parameters {Claim} _.
#[global] Arguments control_inclusion_proof {Claim} _.
#[global] Arguments groth16_seal {Claim} _.
#[global] Arguments groth16_claim {Claim} _.
#[global] Arguments groth16_parameters {Claim} _.
#[global] Arguments fake_claim {Claim} _.

(* src/risc0/risc0/zkvm/src/receipt/segment.rs:70-127 SegmentReceipt::verify_integrity_with_context *)
Definition segment_verify (ctx : VerifierContext) (self : SegmentReceipt) : O_ unit :=
  params ← ok_or VerifierParametersMissing (segment_verifier_parameters ctx);
  _ ← ensure (bool_decide (segment_proof_system_info params = Adapter.PROOF_SYSTEM_INFO))
        (ProofSystemInfoMismatch Adapter.PROOF_SYSTEM_INFO (segment_proof_system_info params));
  _ ← ensure (bool_decide (segment_circuit_info params = RV32IM_CIRCUIT_INFO)) (CircuitInfoMismatch RV32IM_CIRCUIT_INFO (segment_circuit_info params));
  _ ← ensure (bool_decide (segment_hashfn self = "poseidon2"%string)) InvalidHashSuite;
  _ ← rv32im_verify (segment_seal self);
  decoded_claim ← map_err (fun _ => ReceiptFormatError) (decode_from_seal_m3 (segment_seal self));
  ensure (bool_decide (digest decoded_claim = digest (segment_claim self)))
    (ClaimDigestMismatch (digest (segment_claim self)) (digest decoded_claim)).

(** [bytemuck::checked::cast_slice] of words to field elements. *)
Definition cast_elems (words : list Z) : O_ (list Z) := mapM (fun w => _ ← assert_ (BabyBear.Elem.is_valid_bit_pattern w); Ok w) words.
(** The elements at the even positions. *)
Fixpoint evens (l : list Z) : list Z := match l with a :: _ :: l => a :: evens l | [a] => [a] | [] => [] end.

(* src/risc0/risc0/zkvm/src/receipt/succinct.rs:105-207 SuccinctReceipt::verify_integrity_with_context *)
Definition succinct_verify {Claim} `{!Digestible Claim} (ctx : VerifierContext) (self : SuccinctReceipt Claim) : O_ unit :=
  params ← ok_or VerifierParametersMissing (succinct_verifier_parameters ctx);
  _ ← ensure (bool_decide (digest params = verifier_parameters self)) (VerifierParametersMismatch (digest params) (verifier_parameters self));
  _ ← ensure (bool_decide (proof_system_info params = Adapter.PROOF_SYSTEM_INFO))
        (ProofSystemInfoMismatch Adapter.PROOF_SYSTEM_INFO (proof_system_info params));
  _ ← ensure (bool_decide (circuit_info params = RECURSION_CIRCUIT_INFO)) (CircuitInfoMismatch RECURSION_CIRCUIT_INFO (circuit_info params));
  suite ← ok_or InvalidHashSuite (suites ctx !! hashfn self);
  let check_code (_ : nat) control_id :=
    map_err (fun _ => ControlVerificationError control_id)
      (Groups.proof_verify (pair_fn suite) (control_inclusion_proof self) control_id (control_root params)) in
  _ ← Verifier.verify (H := suite_hashfn suite) (H0 := suite_hash_ext suite) (H1 := suite_rng suite) recursion_taps
        (Verifier.mkCircuit RECURSION_CIRCUIT_INFO RECURSION_OUTPUT_SIZE RECURSION_MIX_SIZE
           (fun mix u args => Adapter.poly_ext mix u args recursion_poly_ext))
        (new_rng suite) (seal self) check_code;
  out ← Taps.slice (seal self) 0 RECURSION_OUTPUT_SIZE;
  output_elems ← cast_elems out;
  let seal_claim := map BabyBear.Elem.as_u32 output_elems in
  decoded ← digest_of_words (evens (take 16 seal_claim));
  _ ← ensure (bool_decide (decoded = default (control_root params) (inner_control_root params))) (ControlVerificationError decoded);
  output_hash ← map_err (fun _ => ReceiptFormatError) (fst (read_sha_halfs (drop 16 seal_claim)));
  ensure (bool_decide (output_hash = digest (claim self))) JournalDigestMismatch.

(* src/risc0/risc0/zkvm/src/receipt/groth16.rs:78-110 Groth16Receipt::verify_integrity_with_context *)
Definition groth16_receipt_verify {Claim} `{!Digestible Claim} (ctx : VerifierContext) (self : Groth16Receipt Claim) : O_ unit :=
  params ← ok_or VerifierParametersMissing (groth16_verifier_parameters ctx);
  _ ← ensure (bool_decide (digest params = groth16_parameters self)) (VerifierParametersMismatch (digest params) (groth16_parameters self));
  map_err (fun e => match e with NotASeal => ReceiptFormatError | NotAProof => InvalidProof end)
    (groth16_verify (groth16_seal self) (groth16_control_root params) (digest (groth16_claim self)) (bn254_control_id params) (verifying_key params)).

(** The build feature [disable-dev-mode] is off. *)
(* L589-599 FakeReceipt::verify_integrity_with_context *)
Definition fake_verify {Claim} (ctx : VerifierContext) (self : FakeReceipt Claim) : O_ unit :=
  if dev_mode ctx then Ok tt else Err InvalidProof.

(** A proven assumption knows its claim by the digest only. *)
(* L777-786 InnerAssumptionReceipt *)
Inductive InnerAssumptionReceipt :=
  | ASuccinct (receipt : SuccinctReceipt Unknown) | AGroth16 (receipt : Groth16Receipt Unknown) | AFake (receipt : FakeReceipt Unknown).
(* L790-800 InnerAssumptionReceipt::verify_integrity_with_context *)
Definition assumption_verify (ctx : VerifierContext) (self : InnerAssumptionReceipt) : O_ unit :=
  match self with
  | AGroth16 inner => groth16_receipt_verify ctx inner
  | ASuccinct inner => succinct_verify ctx inner
  | AFake inner => fake_verify ctx inner
  end.
(* L823-829 InnerAssumptionReceipt::claim_digest *)
Definition claim_digest (self : InnerAssumptionReceipt) : Digest :=
  match self with AGroth16 inner => digest (groth16_claim inner) | ASuccinct inner => digest (claim inner) | AFake inner => digest (fake_claim inner) end.

(* source: src/risc0/risc0/zkvm/src/receipt/composite.rs *)
(* L45-64 CompositeReceipt *)
Record CompositeReceipt := mkComposite {
  segments : list SegmentReceipt; assumption_receipts : list InnerAssumptionReceipt; composite_parameters : Digest }.

(* L163-196 CompositeReceipt::claim *)
Definition composite_claim (self : CompositeReceipt) : O_ ReceiptClaim :=
  first ← ok_or ReceiptFormatError (head (segments self));
  last ← ok_or ReceiptFormatError (last (segments self));
  out ← map_err (fun _ => ReceiptFormatError) (as_value (output (segment_claim last)));
  let output := Value ((fun o => mkOutput (journal o) (Value [])) <$> out) in
  Ok (mkReceiptClaim (pre (segment_claim first)) (post (segment_claim last)) (exit_code (segment_claim last)) (input (segment_claim first)) output).

(* L198-222 CompositeReceipt::assumptions *)
Definition composite_assumptions (self : CompositeReceipt) : O_ (list Assumption) :=
  last ← ok_or ReceiptFormatError (last (segments self));
  out ← map_err (fun _ => ReceiptFormatError) (as_value (output (segment_claim last)));
  match out with
  | None => Ok []
  | Some out =>
      if is_empty (assumptions out) then Ok []
      else map_err (fun _ => ReceiptFormatError) (list ← as_value (assumptions out); mapM as_value list)
  end.

(* L69-160 CompositeReceipt::verify_integrity_with_context, the segments before the last *)
Fixpoint verify_chain (ctx : VerifierContext) (receipts : list SegmentReceipt) (expected_pre_state_digest : option Digest) : O_ (option Digest) :=
  match receipts with
  | [] => Ok expected_pre_state_digest
  | receipt :: receipts =>
      let claim := segment_claim receipt in
      _ ← segment_verify ctx receipt;
      _ ← ensure (match expected_pre_state_digest with Some id => bool_decide (id = digest (pre claim)) | None => true end) ImageVerificationError;
      _ ← ensure (match exit_code claim with SystemSplit => true | _ => false end) UnexpectedExitCode;
      _ ← ensure (is_none (output claim)) ReceiptFormatError;
      post ← map_err (fun _ => ReceiptFormatError) (as_value (post claim));
      verify_chain ctx receipts (Some (digest post))
  end.

(** The context in which an assumption is verified: the same one, or one for the guest's
    control root. *)
Definition assumption_context (ctx : VerifierContext) (assumption : Assumption) : VerifierContext :=
  if decide (Claims.control_root assumption = Merkle.ZERO) then ctx
  else mkContext (suites ctx) None
         (Some (mkSuccinctParams (Claims.control_root assumption) None Adapter.PROOF_SYSTEM_INFO RECURSION_CIRCUIT_INFO)) None (dev_mode ctx).

(* L69-160 CompositeReceipt::verify_integrity_with_context, the assumptions *)
Fixpoint verify_assumptions (ctx : VerifierContext) (assumptions : list Assumption) (receipts : list InnerAssumptionReceipt) : O_ unit :=
  match assumptions, receipts with
  | assumption :: assumptions, receipt :: receipts =>
      _ ← assumption_verify (assumption_context ctx assumption) receipt;
      _ ← ensure (bool_decide (claim_digest receipt = Claims.claim assumption)) (ClaimDigestMismatch (Claims.claim assumption) (claim_digest receipt));
      verify_assumptions ctx assumptions receipts
  | _, _ => Ok tt
  end.

(* L69-160 CompositeReceipt::verify_integrity_with_context *)
Definition composite_verify (ctx : VerifierContext) (self : CompositeReceipt) : O_ unit :=
  final_receipt ← ok_or ReceiptFormatError (last (segments self));
  expected_pre_state_digest ← verify_chain ctx (removelast (segments self)) None;
  _ ← segment_verify ctx final_receipt;
  _ ← ensure (match expected_pre_state_digest with Some id => bool_decide (id = digest (pre (segment_claim final_receipt))) | None => true end)
        ImageVerificationError;
  assumptions ← composite_assumptions self;
  _ ← ensure (length assumptions =? length (assumption_receipts self))%nat ReceiptFormatError;
  verify_assumptions ctx assumptions (assumption_receipts self).

(* source: src/risc0/risc0/zkvm/src/receipt.rs *)
(* L314-326 InnerReceipt *)
Inductive InnerReceipt :=
  | Composite (receipt : CompositeReceipt) | Succinct (receipt : SuccinctReceipt ReceiptClaim)
  | Groth16R (receipt : Groth16Receipt ReceiptClaim) | Fake (receipt : FakeReceipt ReceiptClaim).
(* L336-347 InnerReceipt::verify_integrity_with_context *)
Definition inner_verify (ctx : VerifierContext) (self : InnerReceipt) : O_ unit :=
  match self with
  | Composite inner => composite_verify ctx inner
  | Groth16R inner => groth16_receipt_verify ctx inner
  | Succinct inner => succinct_verify ctx inner
  | Fake inner => fake_verify ctx inner
  end.
(* L377-384 InnerReceipt::claim *)
Definition inner_claim (self : InnerReceipt) : O_ (MaybePruned ReceiptClaim) :=
  match self with
  | Composite inner => Value <$> composite_claim inner
  | Groth16R inner => Ok (groth16_claim inner)
  | Succinct inner => Ok (claim inner)
  | Fake inner => Ok (fake_claim inner)
  end.
(* L387-394 InnerReceipt::verifier_parameters *)
Definition inner_parameters (self : InnerReceipt) : Digest :=
  match self with
  | Composite inner => composite_parameters inner
  | Groth16R inner => groth16_parameters inner
  | Succinct inner => verifier_parameters inner
  | Fake _ => Merkle.ZERO
  end.

(** The journal is its bytes; the metadata is the digest of the parameters. *)
(* L116-130 Receipt *)
Record Receipt := mkReceipt { inner : InnerReceipt; journal_bytes : list Z; metadata : Digest }.
(* L134-143 Receipt::new *)
Definition receipt_new (inner : InnerReceipt) (journal : list Z) : Receipt := mkReceipt inner journal (inner_parameters inner).

(* L163-194 Receipt::verify_with_context *)
Definition verify_with_context (ctx : VerifierContext) (image_id : Digest) (self : Receipt) : O_ unit :=
  _ ← ensure (bool_decide (inner_parameters (inner self) = metadata self)) ReceiptFormatError;
  _ ← inner_verify ctx (inner self);
  let expected_claim := Claims.ok image_id (Pruned (hash_bytes (journal_bytes self))) in
  claim ← inner_claim (inner self);
  ensure (bool_decide (digest expected_claim = digest claim)) (ClaimDigestMismatch (digest expected_claim) (digest claim)).

(* L207-257 Receipt::verify_integrity_with_context *)
Definition verify_integrity_with_context (ctx : VerifierContext) (self : Receipt) : O_ unit :=
  _ ← ensure (bool_decide (inner_parameters (inner self) = metadata self)) ReceiptFormatError;
  _ ← inner_verify ctx (inner self);
  claim ← inner_claim (inner self);
  claim ← map_err (fun _ => ReceiptFormatError) (as_value claim);
  let expected_output :=
    if expects_output (exit_code claim) then Some (mkOutput (Pruned (hash_bytes (journal_bytes self))) (Value [])) else None in
  let empty_journal := bool_decide (journal_bytes self = []) in
  _ ← ensure (match expected_output with None => empty_journal | Some _ => true end) ReceiptFormatError;
  if negb (bool_decide (digest (output claim) = digest expected_output)) then
    ensure (is_none (output claim) && empty_journal) JournalDigestMismatch
  else Ok tt.

(* L603-610 FakeReceipt::into_unknown *)
Definition fake_into_unknown {Claim} `{!Digestible Claim} (self : FakeReceipt Claim) : FakeReceipt Unknown := mkFake _ (Pruned (digest (fake_claim self))).
(* src/risc0/risc0/zkvm/src/receipt/groth16.rs:114-123 Groth16Receipt::into_unknown *)
Definition groth16_into_unknown {Claim} `{!Digestible Claim} (self : Groth16Receipt Claim) : Groth16Receipt Unknown :=
  mkGroth16 _ (groth16_seal self) (Pruned (digest (groth16_claim self))) (groth16_parameters self).
(* src/risc0/risc0/zkvm/src/receipt/succinct.rs:247-259 SuccinctReceipt::into_unknown *)
Definition succinct_into_unknown {Claim} `{!Digestible Claim} (self : SuccinctReceipt Claim) : SuccinctReceipt Unknown :=
  mkSuccinct _ (seal self) (control_id self) (Pruned (digest (claim self))) (hashfn self) (verifier_parameters self) (control_inclusion_proof self).
(* L850-861 TryFrom<InnerReceipt> for InnerAssumptionReceipt *)
Definition assumption_try_from (value : InnerReceipt) : O_ InnerAssumptionReceipt :=
  match value with
  | Composite _ => Err ReceiptFormatError
  | Succinct x => Ok (ASuccinct (succinct_into_unknown x))
  | Groth16R x => Ok (AGroth16 (groth16_into_unknown x))
  | Fake x => Ok (AFake (fake_into_unknown x))
  end.
(* L613-631 TryFrom<FakeReceipt<ReceiptClaim>> for Receipt *)
Definition receipt_try_from (fake_receipt : FakeReceipt ReceiptClaim) : outcome PrunedValue Receipt :=
  claim ← as_value (fake_claim fake_receipt);
  out ← as_value (output claim);
  journal ← (match out with Some o => as_value (journal o) | None => Ok [] end);
  Ok (receipt_new (Fake fake_receipt) journal).
End Receipts.
End Receipts.
