(* ===== verification/ReceiptSpec.v ===== *)
(** * What a verified receipt says

    A composite receipt verifies exactly when its segments are a chain of verified
    executions and its assumptions are proven; a receipt that verifies for an image and a
    journal proves a run of that image that ended normally with that journal, unless the
    hash is broken; merging of claims is the join in the order of openings. *)
From S2P Require Export Receipt StarkTotal CircuitSpec ClaimSpec.
Import Merkle.
Import Hashing Pruned ExitCodes SysState Claims ClaimOps Receipts.
Open Scope Z_scope.

(** ** Hashes bind *)

Section Binding.
Context `{Sha256}.

(** Two inputs with one digest. *)
Definition collides (a b : list Z) : Prop := a <> b /\ hash_bytes a = hash_bytes b.

Lemma hash_binding a b : hash_bytes a = hash_bytes b -> a = b \/ collides a b.
Proof. intros E. destruct (decide (a = b)) as [->|Hne]; [by left|by right]. Qed.

Definition digest_wf (d : Digest) : Prop := Forall u32 (as_words d).

Lemma le_bytes4_inj x y : u32 x -> u32 y -> le_bytes 4 x = le_bytes 4 y -> x = y.
Proof.
  intros Hx Hy E. pose proof (f_equal from_le_bytes E) as E'. rewrite !from_le_bytes_le_bytes in E'. unfold fits in *.
  change (256 ^ Z.of_nat 4) with (2 ^ 32) in E'. by rewrite !Z.mod_small in E' by lia.
Qed.

Lemma words_bytes_inj (l k r s : list Z) : length l = length k -> Forall u32 l -> Forall u32 k ->
  (l ≫= le_bytes 4) ++ r = (k ≫= le_bytes 4) ++ s -> l = k /\ r = s.
Proof.
  revert k. induction l as [|x l IH]; intros [|y k] Hl Hx Hy E; try done. rewrite !bind_cons, <- !app_assoc in E.
  apply Forall_cons in Hx as [Hx Hxs], Hy as [Hy Hys]. apply app_inj_1 in E as [E1 E2]; [|by rewrite !le_bytes_length].
  apply (le_bytes4_inj x y Hx Hy) in E1 as ->. destruct (IH k) as [-> ->]; [by injection Hl|done..].
Qed.

Lemma digest_bytes_inj (l k : list Digest) r s : length l = length k -> Forall digest_wf l -> Forall digest_wf k ->
  (l ≫= digest_bytes) ++ r = (k ≫= digest_bytes) ++ s -> l = k /\ r = s.
Proof.
  revert k. induction l as [|x l IH]; intros [|y k] Hl Hx Hy E; try done. rewrite !bind_cons, <- !app_assoc in E.
  apply Forall_cons in Hx as [Hx Hxs], Hy as [Hy Hys]. unfold digest_bytes at 1 3 in E.
  apply words_bytes_inj in E as [E1 E2]; [|done|done|done]. destruct (IH k) as [-> ->]; [by injection Hl|done..|].
  split; [|done]. f_equal. destruct x, y. cbn in E1. by injection E1 as -> -> -> -> -> -> -> ->.
Qed.

(** What the digest of a structure hashes. *)
Definition struct_message (tag : string) (down : list Digest) (data : list Z) : list Z :=
  digest_bytes (hash_bytes (str_bytes tag)) ++ (down ≫= digest_bytes) ++ (data ≫= le_bytes 4) ++ le_bytes 2 (Z.of_nat (length down)).

(** The digest of a structure determines its fields. *)
Lemma struct_binding tag down down' data data' : length down = length down' -> length data = length data' ->
  Forall digest_wf down -> Forall digest_wf down' -> Forall u32 data -> Forall u32 data' ->
  tagged_struct tag down data = tagged_struct tag down' data' ->
  (down = down' /\ data = data') \/ collides (struct_message tag down data) (struct_message tag down' data').
Proof.
  intros Hl Hl' Hd Hd' Hw Hw' E. apply hash_binding in E as [E|E]; [left|by right].
  apply app_inv_head in E. apply digest_bytes_inj in E as [-> E]; [|done..]. by apply words_bytes_inj in E as [-> _].
Qed.
End Binding.

(** ** Composite receipts *)

Lemma ensure_Ok {E} b (e : E) u : ensure b e = Ok u <-> b = true.
Proof. destruct u, b; by cbn. Qed.
Lemma ensure_bind_Ok {E B} b (e : E) (f : unit -> outcome E B) r : ensure b e ≫= f = Ok r <-> b = true /\ f tt = Ok r.
Proof. destruct b; cbn; naive_solver. Qed.
Lemma map_err_Ok {E F A} (g : E -> F) (o : outcome E A) a : map_err g o = Ok a <-> o = Ok a.
Proof. destruct o; cbn; naive_solver. Qed.
Lemma ok_or_Ok {E A} (e : E) (o : option A) a : ok_or e o = Ok a <-> o = Some a.
Proof. destruct o; cbn; naive_solver. Qed.
Lemma as_value_Ok {T} (m : MaybePruned T) v : as_value m = Ok v <-> m = Value v.
Proof. destruct m; cbn; naive_solver. Qed.

Section Composite.
Context `{Sha256, Ruint, Generated, Groth16}.
Abbreviation O_ := (outcome VerificationError).

(** A segment that is followed by one that continues from its state. *)
Definition continues (s s' : SegmentReceipt) : Prop :=
  exit_code (segment_claim s) = SystemSplit /\ is_none (output (segment_claim s)) = true /\
  exists st, post (segment_claim s) = Value st /\ digest st = digest (pre (segment_claim s')).

(** Verified segments, each one continued by the next. *)
Inductive chain (ctx : VerifierContext) : list SegmentReceipt -> Prop :=
  | chain_last s : segment_verify ctx s = Ok tt -> chain ctx [s]
  | chain_cons s s' l : segment_verify ctx s = Ok tt -> continues s s' -> chain ctx (s' :: l) -> chain ctx (s :: s' :: l).

(** The proofs of the assumptions, in order. *)
Definition proven (ctx : VerifierContext) (a : Assumption) (r : InnerAssumptionReceipt) : Prop :=
  assumption_verify (assumption_context ctx a) r = Ok tt /\ claim_digest r = Claims.claim a.

Lemma verify_assumptions_Ok ctx l r : verify_assumptions ctx l r = Ok tt /\ length l = length r <-> Forall2 (proven ctx) l r.
Proof.
  revert r. induction l as [|a l IH]; intros [|b r]; cbn [verify_assumptions length].
  - split; [by constructor|done].
  - split; [by intros [_ ?]|by inversion 1].
  - split; [by intros [_ ?]|by inversion 1].
  - rewrite Forall2_cons, <- IH, bind_Ok. unfold proven. split.
    + intros [([] & Hv & E) Hl]. apply ensure_bind_Ok in E as [Hc%bool_decide_eq_true Hr]. auto.
    + intros [[Hv Hc] [Hr Hl]]. split; [|lia]. exists tt. split; [done|]. apply ensure_bind_Ok. by rewrite bool_decide_eq_true.
Qed.

Definition expects (id : option Digest) (s : SegmentReceipt) : Prop :=
  match id with Some id => id = digest (pre (segment_claim s)) | None => True end.
Lemma expects_dec id s : (match id with Some id => bool_decide (id = digest (pre (segment_claim s))) | None => true end) = true <-> expects id s.
Proof. destruct id; cbn; [by rewrite bool_decide_eq_true|done]. Qed.

Lemma verify_chain_cons ctx s l id r : verify_chain ctx (s :: l) id = Ok r <->
  segment_verify ctx s = Ok tt /\ expects id s /\ exit_code (segment_claim s) = SystemSplit /\ is_none (output (segment_claim s)) = true /\
  exists st, post (segment_claim s) = Value st /\ verify_chain ctx l (Some (digest st)) = Ok r.
Proof.
  rewrite <- expects_dec. cbn [verify_chain]. rewrite bind_Ok.
  assert (Hex : (match exit_code (segment_claim s) with SystemSplit => true | _ => false end) = true <-> exit_code (segment_claim s) = SystemSplit)
    by (destruct (exit_code (segment_claim s)); done).
  rewrite <- Hex. split.
  - intros ([] & Hs & E). apply ensure_bind_Ok in E as [He E]. apply ensure_bind_Ok in E as [Hx E]. apply ensure_bind_Ok in E as [Ho E].
    apply bind_Ok in E as (st & Hp & E). apply map_err_Ok, as_value_Ok in Hp. eauto 8.
  - intros (Hs & He & Hx & Ho & st & Hp & E). exists tt. split; [done|]. do 3 (apply ensure_bind_Ok; split; [done|]).
    apply bind_Ok. exists st. split; [by apply map_err_Ok, as_value_Ok|done].
Qed.

(** The loop over the segments before the last, and the last. *)
Lemma verify_chain_Ok ctx l last : forall id,
  (exists id', verify_chain ctx l id = Ok id' /\ segment_verify ctx last = Ok tt /\ expects id' last) <->
  chain ctx (l ++ [last]) /\ (match head (l ++ [last]) with Some s => expects id s | None => True end).
Proof.
  induction l as [|s l IH]; intros id; cbn [verify_chain app head].
  - split.
    + intros (id' & [= <-] & Hs & He). split; [by constructor|done].
    + intros [Hc He]. exists id. inversion Hc; subst; done.
  - setoid_rewrite verify_chain_cons. split.
    + intros (id' & (Hs & He & Hx & Ho & st & Hp & Hr) & Hl & Hi).
      destruct (proj1 (IH (Some (digest st))) ltac:(by exists id')) as [Hc Hh]. split; [|done].
      destruct l as [|s' l]; cbn [app head] in *; apply chain_cons; try done; split_and!; try done; by exists st.
    + intros [Hc He].
      assert (Hex' : exists s' k, l ++ [last] = s' :: k) by (destruct l; cbn; eauto). destruct Hex' as (s' & k & Ek).
      rewrite Ek in Hc. inversion Hc as [|? ? ? Hs (Hx & Ho & st & Hp & Hd) Hrest]; subst.
      destruct (proj2 (IH (Some (digest st)))) as (id' & Hv & Hl & Hi); [rewrite Ek; by split|].
      exists id'. split; [|done]. split_and!; [done..|]. by exists st.
Qed.

Lemma segments_cases (l : list SegmentReceipt) : l = [] \/ exists k s, l = k ++ [s].
Proof. induction l as [|s k _] using rev_ind; [by left|right; eauto]. Qed.

Lemma composite_verify_Ok ctx c : composite_verify ctx c = Ok tt <->
  chain ctx (segments c) /\ exists l, composite_assumptions c = Ok l /\ Forall2 (proven ctx) l (assumption_receipts c).
Proof.
  unfold composite_verify. destruct (segments_cases (segments c)) as [E|(k & s & E)].
  { rewrite E. cbn [last ok_or mbind outcome_bind]. split; [done|]. intros [Hc _]. inversion Hc. }
  rewrite E, last_snoc, removelast_last. cbn [ok_or mbind outcome_bind].
  pose proof (verify_chain_Ok ctx k s None) as Hchain. split.
  - intros Hv. apply bind_Ok in Hv as (id & Hk & Hv). apply bind_Ok in Hv as ([] & Hs & Hv). apply ensure_bind_Ok in Hv as [He%expects_dec Hv].
    apply bind_Ok in Hv as (l & Hl & Hv). apply ensure_bind_Ok in Hv as [Hlen%Nat.eqb_eq Hv].
    split; [by apply Hchain; exists id|]. exists l. split; [done|]. by apply verify_assumptions_Ok.
  - intros (Hc & l & Hl & Hp). destruct (proj2 Hchain) as (id & Hk & Hs & He); [split; [done|]; by destruct (head (k ++ [s]))|].
    apply verify_assumptions_Ok in Hp as [Hp Hlen].
    apply bind_Ok. exists id. split; [done|]. apply bind_Ok. exists tt. split; [done|]. apply ensure_bind_Ok. split; [by apply expects_dec|].
    apply bind_Ok. exists l. split; [done|]. apply ensure_bind_Ok. split; [by apply Nat.eqb_eq|done].
Qed.

(** C7: A composite receipt verifies exactly when it proves an execution: its segments are verified,
    at least one, each but the last is a system split without output whose post state is the pre
    state of the next one, and the assumptions of the last segment are proven, in order and one
    by one, by the receipts that come with it. *)
Theorem composite_verify_exact ctx c : composite_verify ctx c = Ok tt <->
  chain ctx (segments c) /\ exists l, composite_assumptions c = Ok l /\ Forall2 (proven ctx) l (assumption_receipts c).
Proof. apply composite_verify_Ok. Qed.
End Composite.

(** ** The receipt that a user verifies *)

Section Sound.
Context `{Sha256, Ruint, Generated, Groth16}.

(** Digests are eight words; exit codes and program counters are words. *)
Definition code_wf (c : ExitCode) : Prop := match c with Halted u | Paused u => u32 u | _ => True end.
Definition claim_wf (c : ReceiptClaim) : Prop :=
  code_wf (exit_code c) /\ digest_wf (digest (input c)) /\ digest_wf (digest (pre c)) /\ digest_wf (digest (post c)) /\ digest_wf (digest (output c)).
Definition output_wf (o : Output) : Prop := digest_wf (digest (journal o)) /\ digest_wf (digest (assumptions o)).

Ltac all_wf := repeat (apply Forall_cons; split; [assumption|]); by apply Forall_nil.

Lemma zero_wf : digest_wf Merkle.ZERO.
Proof. repeat (constructor; [unfold fits; cbn; lia|]). constructor. Qed.

Lemma pair_words c : code_wf c -> Forall u32 [fst (into_pair c); snd (into_pair c)].
Proof. intros Hc. destruct c; cbn in *; repeat (constructor; [unfold fits in *; lia|]); constructor. Qed.

Lemma cons_inj2 {A} (a b a' b' : A) : [a; b] = [a'; b'] -> a = a' /\ b = b'.
Proof. by intros [= -> ->]. Qed.
Lemma cons_inj4 {A} (a b c d a' b' c' d' : A) : [a; b; c; d] = [a'; b'; c'; d'] -> a = a' /\ b = b' /\ c = c' /\ d = d'.
Proof. by intros [= -> -> -> ->]. Qed.

(** What the digests of a claim and of an output hash. *)
Definition claim_message (c : ReceiptClaim) : list Z :=
  let '(sys_exit, user_exit) := into_pair (exit_code c) in
  struct_message "risc0.ReceiptClaim" [digest (input c); digest (pre c); digest (post c); digest (output c)] [sys_exit; user_exit].
Definition output_message (o : Output) : list Z := struct_message "risc0.Output" [digest (journal o); digest (assumptions o)] [].

(** [opens m v]: the digest [m] stands for is that of [v], whether [m] is pruned or not. *)
Definition opens {T} `{!Digestible T} (m : MaybePruned T) (v : T) : Prop := digest v = digest m.

(** The claim and the output that a receipt for an image and a journal is expected to have. *)
Definition expected_claim (image_id : Digest) (bytes : list Z) : ReceiptClaim := Claims.ok image_id (Pruned (hash_bytes bytes)).
Definition expected_output (bytes : list Z) : Output := mkOutput (Pruned (hash_bytes bytes)) (Pruned Merkle.ZERO).

(** A claim and its output that pass for the expected ones: the messages of the claims or of the
    outputs collide, or the message of the expected output has the digest of no output. *)
Definition forged (image_id : Digest) (bytes : list Z) (claim : ReceiptClaim) (out : option Output) : Prop :=
  collides (claim_message (expected_claim image_id bytes)) (claim_message claim) \/
  match out with
  | Some o => collides (output_message (expected_output bytes)) (output_message o)
  | None => hash_bytes (output_message (expected_output bytes)) = Merkle.ZERO
  end.

(** Claims with one digest agree on all their parts. *)
Lemma claim_binding a b : claim_wf a -> claim_wf b -> digest a = digest b ->
  (into_pair (exit_code a) = into_pair (exit_code b) /\ digest (input a) = digest (input b) /\ digest (pre a) = digest (pre b) /\
   digest (post a) = digest (post b) /\ digest (output a) = digest (output b)) \/ collides (claim_message a) (claim_message b).
Proof.
  intros (Ha & Hai & Hap & Haq & Hao) (Hb & Hbi & Hbp & Hbq & Hbo) E. cbn [digest claim_digestible] in E. unfold claim_message.
  pose proof (pair_words _ Ha) as Hwa. pose proof (pair_words _ Hb) as Hwb.
  destruct (into_pair (exit_code a)) as [sa ua], (into_pair (exit_code b)) as [sb ub]. cbn [fst snd] in *.
  apply struct_binding in E as [[Ed Ew]|E]; [|by right|done|done|all_wf|all_wf|done|done].
  left. apply cons_inj4 in Ed as (Ei & Ep & Eq & Eo). injection Ew as Es Eu. split; [congruence|auto].
Qed.

Lemma output_binding a b : output_wf a -> output_wf b -> digest a = digest b ->
  (digest (journal a) = digest (journal b) /\ digest (assumptions a) = digest (assumptions b)) \/ collides (output_message a) (output_message b).
Proof.
  intros [Ha1 Ha2] [Hb1 Hb2] E. cbn [digest output_digestible] in E.
  apply struct_binding in E as [[Ed _]|E]; [|by right|done|done|all_wf|all_wf|done|done].
  left. by apply cons_inj2 in Ed.
Qed.

Lemma halted_ok c : into_pair c = (0, 0) -> c = Halted 0.
Proof. destruct c; cbn; intros [=]; by subst. Qed.

(** A claim whose output is [out] is of a run of [image_id] that ended normally, with [journal_bytes]
    and no open assumption. *)
Definition proves_run (claim : ReceiptClaim) (out : option Output) (image_id : Digest) (journal_bytes : list Z) : Prop :=
  exit_code claim = Halted 0 /\ digest (pre claim) = image_id /\
  exists o, out = Some o /\ digest (journal o) = hash_bytes journal_bytes /\ digest (assumptions o) = Merkle.ZERO.

Definition out_wf (out : option Output) : Prop := forall o, out = Some o -> output_wf o.

(** A claim with the expected digest proves the run, whatever its output is opened to. *)
Lemma ok_digest_run claim out image_id bytes : digest_wf image_id -> (forall bs, digest_wf (hash_bytes bs)) -> claim_wf claim -> out_wf out ->
  digest (expected_claim image_id bytes) = digest claim -> opens (output claim) out ->
  proves_run claim out image_id bytes \/ forged image_id bytes claim out.
Proof.
  intros Hid Hwf Hc Ho E Hop.
  assert (Hok : claim_wf (expected_claim image_id bytes)).
  { split_and!; [cbn; unfold fits; lia|apply zero_wf|done|apply Hwf|apply Hwf]. }
  apply claim_binding in E as [(Ex & _ & Ep & _ & Eo)|E]; [|right; by left|done|done]. unfold opens in Hop. rewrite <- Hop in Eo.
  destruct out as [o|].
  - change (digest (expected_output bytes) = digest o) in Eo.
    apply output_binding in Eo as [[Ej Ea]|Eo]; [|right; by right|split; [apply Hwf|apply zero_wf]|by apply Ho].
    left. split_and!; [by apply halted_ok|done|]. by exists o.
  - right. right. exact Eo.
Qed.

Lemma verify_with_context_Ok ctx image_id r : verify_with_context ctx image_id r = Ok tt <->
  inner_parameters (inner r) = metadata r /\ inner_verify ctx (inner r) = Ok tt /\
  exists m, inner_claim (inner r) = Ok m /\ digest (expected_claim image_id (journal_bytes r)) = digest m.
Proof.
  unfold verify_with_context. rewrite ensure_bind_Ok, bool_decide_eq_true, bind_Ok. split.
  - intros (Hp & [] & Hv & E). apply bind_Ok in E as (m & Hm & E). apply ensure_Ok, bool_decide_eq_true in E. eauto.
  - intros (Hp & Hv & m & Hm & E). split; [done|]. exists tt. split; [done|]. apply bind_Ok. exists m. split; [done|].
    apply ensure_Ok. by apply bool_decide_eq_true.
Qed.

Definition segment_wf (s : SegmentReceipt) : Prop :=
  claim_wf (segment_claim s) /\ forall out, output (segment_claim s) = Value out -> out_wf out.

Lemma composite_claim_Ok c cl : composite_claim c = Ok cl <->
  exists first final out, head (segments c) = Some first /\ last (segments c) = Some final /\ output (segment_claim final) = Value out /\
    cl = mkReceiptClaim (pre (segment_claim first)) (post (segment_claim final)) (exit_code (segment_claim final)) (input (segment_claim first))
           (Value ((fun o => mkOutput (journal o) (Value [])) <$> out)).
Proof.
  unfold composite_claim. rewrite bind_Ok. split.
  - intros (f & Hf%ok_or_Ok & E). apply bind_Ok in E as (l & Hl%ok_or_Ok & E). apply bind_Ok in E as (o & Ho%map_err_Ok%as_value_Ok & [= <-]). eauto 8.
  - intros (f & l & o & Hf & Hl & Ho & ->). exists f. split; [by apply ok_or_Ok|]. apply bind_Ok. exists l. split; [by apply ok_or_Ok|].
    apply bind_Ok. exists o. split; [|done]. by apply map_err_Ok, as_value_Ok.
Qed.

(** The chain of a composite receipt, from the image to a normal end with the journal. *)
Definition proves_chain ctx (c : CompositeReceipt) (image_id : Digest) (bytes : list Z) : Prop :=
  chain ctx (segments c) /\
   exists first final o l, head (segments c) = Some first /\ last (segments c) = Some final /\ digest (pre (segment_claim first)) = image_id /\
     exit_code (segment_claim final) = Halted 0 /\ output (segment_claim final) = Value (Some o) /\
     digest (journal o) = hash_bytes bytes /\ composite_assumptions c = Ok l /\ Forall2 (proven ctx) l (assumption_receipts c).

Lemma composite_receipt_sound ctx image_id r c : digest_wf image_id -> (forall bs, digest_wf (hash_bytes bs)) ->
  inner r = Composite c -> Forall segment_wf (segments c) -> verify_with_context ctx image_id r = Ok tt ->
  proves_chain ctx c image_id (journal_bytes r) \/
  exists claim out, inner_claim (inner r) = Ok (Value claim) /\ output claim = Value out /\ forged image_id (journal_bytes r) claim out.
Proof.
  intros Hid Hwf Hin Hs (_ & Hv & m & Hm & E)%verify_with_context_Ok. rewrite Hin in *. cbn [inner_verify inner_claim] in *.
  apply composite_verify_Ok in Hv as (Hc & l & Hl & Hp). destruct (composite_claim c) as [cl| |] eqn:Ecl; [|done|done]. injection Hm as <-.
  apply composite_claim_Ok in Ecl as (first & final & out & Hf & Hla & Ho & ->).
  rewrite Forall_forall in Hs. destruct (Hs first (head_Some_elem_of _ _ Hf)) as [(_ & Hfi & Hfp & _ & _) _].
  destruct (Hs final (last_Some_elem_of _ _ Hla)) as [(Hlx & _ & _ & Hlq & _) Hlo].
  eapply ok_digest_run in E; [|done|done| | |reflexivity].
  - destruct E as [(Hx & Hpre & o & Eo & Hj & _)|E]; [left|right; by do 2 eexists]. cbn [exit_code pre output] in *. split; [done|].
    destruct out as [o'|]; [|done]. injection Eo as <-. exists first, final, o', l. by cbn [journal] in Hj.
  - split_and!; [done..|]. cbn [output]. destruct out as [o|]; [apply Hwf|apply zero_wf].
  - intros o Eo. destruct out as [o'|]; [|done]. injection Eo as <-. destruct (Hlo _ Ho o' eq_refl). split; [done|apply zero_wf].
Qed.

(** C6: What a verified receipt proves.  Its seal is verified, and the claim of the receipt has the
    digest of the claim that is expected of the image and the journal, pruned or not.  Whatever
    claim that digest is opened to, and whatever output the claim's is opened to (of 32-bit words
    and digests of such), the claim is of
    a run of the image that ended normally, the output is there, with the digest of the receipt's
    journal and that of no open assumptions, or the two are forged: with the expected ones they
    show where the hash function fails.  And when the receipt is composite there is a chain of
    verified segments, from the image to such an end, with a proof of every assumption, or its
    claim is forged in that way. *)
Theorem receipt_verify_sound ctx image_id r : digest_wf image_id -> (forall bs, digest_wf (hash_bytes bs)) ->
  verify_with_context ctx image_id r = Ok tt ->
  inner_verify ctx (inner r) = Ok tt /\
  exists m, inner_claim (inner r) = Ok m /\ digest m = digest (expected_claim image_id (journal_bytes r)) /\
    (forall claim out, claim_wf claim -> out_wf out -> opens m claim -> opens (output claim) out ->
       proves_run claim out image_id (journal_bytes r) \/ forged image_id (journal_bytes r) claim out) /\
    (forall c, inner r = Composite c -> Forall segment_wf (segments c) ->
       proves_chain ctx c image_id (journal_bytes r) \/
       exists claim out, m = Value claim /\ output claim = Value out /\ forged image_id (journal_bytes r) claim out).
Proof.
  intros Hid Hwf Hver. pose proof (proj1 (verify_with_context_Ok ctx image_id r) Hver) as (_ & Hv & m & Hm & E).
  split; [exact Hv|]. exists m. split; [exact Hm|]. split; [by symmetry|]. split.
  - intros claim out Hc Ho Hop Hout. apply ok_digest_run; try done. unfold opens in Hop. congruence.
  - intros c Ei Hs. destruct (composite_receipt_sound ctx image_id r c Hid Hwf Ei Hs Hver) as [Hch|(claim & out & Hcl & Ho)]; [by left|right].
    exists claim, out. split; [congruence|exact Ho].
Qed.
End Sound.

(** ** Merging is the join of openings *)

Module MergeSpec.
Import Merging.

(** [below a b]: [b] is [a] with some of its pruned parts opened. *)
Class MergeJoin `{Sha256} (T : Type) `{!Digestible T, !Merge T} := {
  below : T -> T -> Prop;
  below_refl a : below a a;
  below_trans a b c : below a b -> below b c -> below a c;
  below_digest a b : below a b -> digest a = digest b;
  merge_upper a b c : merge a b = Ok c -> below a c /\ below b c;
  merge_least a b d : below a d -> below b d -> exists c, merge a b = Ok c /\ below c d }.

Section Joins.
Context `{Sha256}.

Lemma leaf_upper `{!Digestible T, EqDecision T} (a b c : T) : merge_leaf a b = Ok c -> a = c /\ b = c.
Proof. unfold merge_leaf. destruct (decide (a = b)) as [->|]; [by intros [= ->]|done]. Qed.
Lemma leaf_least `{!Digestible T, EqDecision T} (a b d : T) : a = d -> b = d -> exists c, merge_leaf a b = Ok c /\ c = d.
Proof. intros -> ->. exists d. unfold merge_leaf. by rewrite decide_True. Qed.

Ltac leaf_join :=
  refine {| below := eq |}; [done|by intros ??? -> ->|by intros ?? ->|apply leaf_upper|apply leaf_least].
#[export] Instance state_join : MergeJoin SystemState.
Proof. leaf_join. Defined.
#[export] Instance assumption_join : MergeJoin Assumption.
Proof. leaf_join. Defined.
#[export] Instance bytes_join : MergeJoin (list Z).
Proof. leaf_join. Defined.

(** A pruned value is below everything with its digest. *)
Definition pruned_below `{!Digestible T, !Merge T, !MergeJoin T} (a b : MaybePruned T) : Prop :=
  match a, b with
  | Value a, Value b => below a b
  | Pruned d, b => d = digest b
  | Value _, Pruned _ => False
  end.

#[export] Instance pruned_join `{!Digestible T, !Merge T, !MergeJoin T} : MergeJoin (MaybePruned T).
Proof.
  refine {| below := pruned_below |}.
  - intros [a|d]; cbn; [apply below_refl|done].
  - intros [a|d] [b|e] [c|f]; cbn; try done; [apply below_trans| |by intros ->..]. intros -> Hbc. by apply below_digest in Hbc.
  - intros [a|d] [b|e]; cbn; [apply below_digest|done..].
  - intros [a|d] [b|e] c; cbn.
    + destruct (merge a b) as [v| |] eqn:E; cbn; [intros [= <-]|done|done]. by apply merge_upper.
    + case_decide as E; [intros [= <-]|done]. cbn. split; [apply below_refl|done].
    + case_decide as E; [intros [= <-]|done]. cbn. split; [done|apply below_refl].
    + case_decide as E; [intros [= <-]|done]. cbn. by subst.
  - intros [a|d] [b|e] [v|f]; cbn; try done.
    + intros Ha Hb. destruct (merge_least a b v Ha Hb) as (c & -> & Hc). by exists (Value c).
    + intros Ha ->. apply below_digest in Ha as E. rewrite decide_True by done. by exists (Value a).
    + intros -> Hb. apply below_digest in Hb as E. rewrite decide_True by done. by exists (Value b).
    + intros -> ->. rewrite decide_True by done. by exists (Pruned (digest v)).
    + intros -> ->. rewrite decide_True by done. by exists (Pruned f).
Defined.

Definition option_below `{!Digestible T, !Merge T, !MergeJoin T} (a b : option T) : Prop :=
  match a, b with Some a, Some b => below a b | None, None => True | _, _ => False end.
#[export] Instance option_join `{!Digestible T, !Merge T, !MergeJoin T} : MergeJoin (option T).
Proof.
  refine {| below := option_below |}.
  - intros [a|]; cbn; [apply below_refl|done].
  - intros [a|] [b|] [c|]; cbn; try done. apply below_trans.
  - intros [a|] [b|]; cbn; try done. apply below_digest.
  - intros [a|] [b|] c; cbn; try done; [|by intros [= <-]].
    destruct (merge a b) as [v| |] eqn:E; cbn; [intros [= <-]|done|done]. by apply merge_upper.
  - intros [a|] [b|] [v|]; cbn; try done; [|by exists None].
    intros Ha Hb. destruct (merge_least a b v Ha Hb) as (c & -> & Hc). by exists (Some c).
Defined.

Lemma zip_upper `{!Digestible T, !Merge T, !MergeJoin T} : forall (l k m : list T), length l = length k -> merge_zip l k = Ok m -> Forall2 below l m /\ Forall2 below k m.
Proof.
  induction l as [|a l IH]; intros [|b k] m Hl; cbn; try done; [by intros [= <-]|].
  destruct (merge a b) as [c| |] eqn:E; cbn; [|done|done]. destruct (merge_zip l k) as [cs| |] eqn:Es; cbn; [|done|done]. intros [= <-].
  apply merge_upper in E as [H1' H2']. destruct (IH k cs ltac:(by injection Hl) Es). split; by constructor.
Qed.
Lemma zip_least `{!Digestible T, !Merge T, !MergeJoin T} : forall (l k d : list T), Forall2 below l d -> Forall2 below k d -> exists m, merge_zip l k = Ok m /\ Forall2 below m d.
Proof.
  intros l k d Hl. revert k. induction Hl as [|a v l d Ha _ IH]; intros k Hk; [apply Forall2_nil_inv_r in Hk as ->; by exists []|].
  apply Forall2_cons_inv_r in Hk as (b & k' & Hb & Hk & ->). destruct (merge_least a b v Ha Hb) as (c & Ec & Hc).
  destruct (IH k' Hk) as (m & Em & Hm). exists (c :: m). cbn. rewrite Ec. cbn. rewrite Em. cbn. split; [done|by constructor].
Qed.

Lemma map_below `{!Digestible T, !Merge T, !MergeJoin T} (a b : list T) : Forall2 below a b -> map digest a = map digest b.
Proof. induction 1 as [|x y a b Hxy _ IH]; [done|]. cbn [map]. rewrite IH. f_equal. by apply below_digest. Qed.

#[export] Instance assumptions_join : MergeJoin Assumptions.
Proof.
  refine {| below := Forall2 below |}.
  - intros l. induction l; constructor; [apply below_refl|done].
  - intros a b c Hab. revert c. induction Hab as [|x y a b Hxy _ IH]; intros c Hbc; [done|].
    apply Forall2_cons_inv_l in Hbc as (z & c' & Hyz & Hbc & ->). constructor; [by eapply below_trans|by apply IH].
  - intros a b Hab. change (tagged_list "risc0.Assumptions" (map digest a) = tagged_list "risc0.Assumptions" (map digest b)). by rewrite (map_below a b Hab).
  - intros a b c E. unfold merge, merge_assumptions in E. destruct (Nat.eqb_spec (length a) (length b)) as [Hl|]; [|done]. by apply (zip_upper a b c Hl E).
  - intros a b d Ha Hb. unfold merge, merge_assumptions. rewrite (Forall2_length _ _ _ Ha), (Forall2_length _ _ _ Hb), Nat.eqb_refl. by apply (zip_least a b d).
Defined.
#[export] Instance input_join : MergeJoin Input.
Proof. refine {| below := eq |}; intros [[]]. Defined.

#[export] Instance output_join : MergeJoin Output.
Proof.
  refine {| below a b := below (journal a) (journal b) /\ below (assumptions a) (assumptions b) |}.
  - intros a. split; apply below_refl.
  - intros a b c [Hj Ha] [Hj' Ha']. split; by eapply below_trans.
  - intros a b [Hj Ha]. change (tagged_struct "risc0.Output" [digest (journal a); digest (assumptions a)] [] =
      tagged_struct "risc0.Output" [digest (journal b); digest (assumptions b)] []). by rewrite (below_digest _ _ Hj), (below_digest _ _ Ha).
  - intros a b c E. change (merge a b) with (j ← merge (journal a) (journal b); l ← merge (assumptions a) (assumptions b); Ok (mkOutput j l) : outcome MergeError _) in E.
    apply bind_Ok in E as (j & Hj & E). apply bind_Ok in E as (l & Hl & [= <-]). apply merge_upper in Hj, Hl. naive_solver.
  - intros a b d [Hja Hla] [Hjb Hlb]. destruct (merge_least _ _ _ Hja Hjb) as (j & Ej & Hj). destruct (merge_least _ _ _ Hla Hlb) as (l & El & Hl).
    exists (mkOutput j l). split; [|done]. unfold merge, merge_output. rewrite Ej. cbn [mbind outcome_bind]. by rewrite El.
Defined.

#[export] Instance claim_join : MergeJoin ReceiptClaim.
Proof.
  refine {| below a b := exit_code a = exit_code b /\ below (pre a) (pre b) /\ below (post a) (post b) /\ below (input a) (input b) /\ below (output a) (output b) |}.
  - intros a. split_and!; [done|apply below_refl..].
  - intros a b c (Hx & Hp & Hq & Hi & Ho) (Hx' & Hp' & Hq' & Hi' & Ho'). split_and!; [congruence|by eapply below_trans..].
  - intros a b (Hx & Hp & Hq & Hi & Ho). unfold digest, claim_digestible. rewrite Hx. destruct (into_pair (exit_code b)).
    by rewrite (below_digest _ _ Hp), (below_digest _ _ Hq), (below_digest _ _ Hi), (below_digest _ _ Ho).
  - intros a b c E. unfold merge, merge_claim in E. case_decide as Hx; [|done].
    apply bind_Ok in E as (p & Hp & E). apply bind_Ok in E as (q & Hq & E). apply bind_Ok in E as (i & Hi & E). apply bind_Ok in E as (o & Ho & [= <-]).
    apply merge_upper in Hp, Hq, Hi, Ho. cbn. naive_solver.
  - intros a b d (Hx & Hp & Hq & Hi & Ho) (Hx' & Hp' & Hq' & Hi' & Ho').
    destruct (merge_least _ _ _ Hp Hp') as (p & Ep & Hp2). destruct (merge_least _ _ _ Hq Hq') as (q & Eq & Hq2).
    destruct (merge_least _ _ _ Hi Hi') as (i & Ei & Hi2). destruct (merge_least _ _ _ Ho Ho') as (o & Eo & Ho2).
    exists (mkReceiptClaim p q (exit_code a) i o). split; [|by split_and!]. unfold merge, merge_claim. rewrite decide_True by congruence.
    rewrite Ep. cbn [mbind outcome_bind]. rewrite Eq. cbn [mbind outcome_bind]. rewrite Ei. cbn [mbind outcome_bind]. by rewrite Eo.
Defined.

(** C25: Merging two claims, pruned or not, is their join in the order of openings: it succeeds exactly
    when some claim opens both, its result opens both and keeps their digest, and every claim
    that opens both opens the result. *)
Theorem merge_claims_join (a b : MaybePruned ReceiptClaim) :
  ((exists c, merge a b = Ok c) <-> exists d, below a d /\ below b d) /\
  forall c, merge a b = Ok c -> below a c /\ below b c /\ digest a = digest c /\ digest b = digest c /\ forall d, below a d -> below b d -> below c d.
Proof.
  split.
  - split; [intros [c Hc]; exists c; by apply merge_upper|]. intros (d & Ha & Hb). destruct (merge_least a b d Ha Hb) as (c & Hc & _). by exists c.
  - intros c Hc. destruct (merge_upper a b c Hc) as [Ha Hb]. split_and!; [done|done|by apply below_digest..|].
    intros d Had Hbd. destruct (merge_least a b d Had Hbd) as (c' & Hc' & Hd). congruence.
Qed.
End Joins.
End MergeSpec.
