(* ===== verification/GroupSpec.v ===== *)
(** * Merkle groups of control identifiers

    Every leaf of a group has a proof that verifies against the root; a proof that verifies
    shows a leaf, or a pair of digests that the tree hashes otherwise. *)
From S2P Require Export ReceiptSpec.
Import Merkle.
Open Scope Z_scope.

(** ** Trees of digests and the branches that lead to their roots *)

Section Paths.
Import Groups.
Context {Er : Type} (hash_pair : Digest -> Digest -> outcome Er Digest) (hp : Digest -> Digest -> Digest) (valid : Digest -> Prop).
(** The hash of valid digests is valid; on other digests it may panic. *)
Context (Hhash : forall a b, valid a -> valid b -> hash_pair a b = Ok (hp a b) /\ valid (hp a b)).

(** The pairs that the verification of a branch hashes. *)
Definition ordered (i : Z) (cur sibling : Digest) : Digest * Digest := if i .& 1 =? 0 then (cur, sibling) else (sibling, cur).
Fixpoint branch_pairs (i : Z) (cur : Digest) (ds : list Digest) : list (Digest * Digest) :=
  match ds with
  | [] => []
  | sibling :: ds =>
      let x := ordered i cur sibling in
      x :: match hash_pair x.1 x.2 with Ok cur => branch_pairs (i .>> 1) cur ds | _ => [] end
  end.

Context (leaf : Z -> Digest) (Hleaf : forall i, valid (leaf i)).

(** The node [i] of the level [l] of the full tree. *)
Fixpoint node (l : nat) (i : Z) : Digest :=
  match l with
  | O => leaf i
  | S l => hp (node l (2 * i)) (node l (2 * i + 1))
  end.

Lemma node_valid l : forall i, valid (node l i).
Proof. induction l as [|l IH]; intros i; [apply Hleaf|]. cbn [node]. by apply Hhash. Qed.

Lemma even_bits k : 0 <= k -> Z.land (2 * k) 1 = 0 /\ Z.lxor (2 * k) 1 = 2 * k + 1 /\ Z.shiftr (2 * k) 1 = k.
Proof.
  intros Hk. assert (El : Z.land (2 * k) 1 = 0) by (change 1 with (Z.ones 1); rewrite Z.land_ones by lia; rewrite Z.mul_comm; by apply Z.mod_mul).
  split_and!; [done|symmetry; by apply Z.add_nocarry_lxor|]. rewrite Z.shiftr_div_pow2 by lia. rewrite Z.mul_comm. by apply Z.div_mul.
Qed.
Lemma odd_bits k : 0 <= k -> Z.land (2 * k + 1) 1 = 1 /\ Z.lxor (2 * k + 1) 1 = 2 * k /\ Z.shiftr (2 * k + 1) 1 = k.
Proof.
  intros Hk. destruct (even_bits k Hk) as (_ & Ex & _). split_and!.
  - change 1 with (Z.ones 1) at 2. rewrite Z.land_ones by lia. rewrite Z.add_comm, Z.mul_comm, Z.mod_add by lia. done.
  - rewrite <- Ex, Z.lxor_assoc, Z.lxor_nilpotent. apply Z.lxor_0_r.
  - rewrite Z.shiftr_div_pow2 by lia. rewrite Z.add_comm, Z.mul_comm. by rewrite Z.div_add by lia.
Qed.

(** An index by its half and its lowest bit. *)
Lemma index_halves i : 0 <= i -> exists k, 0 <= k /\ (i = 2 * k \/ i = 2 * k + 1).
Proof. intros Hi. exists (i / 2). pose proof (Z.div_mod i 2 ltac:(lia)). pose proof (Z.mod_pos_bound i 2 ltac:(lia)). pose proof (Z.div_pos i 2 ltac:(lia)). lia. Qed.

(** A node is the hash of any of its children with the other, and of nothing else. *)
Lemma parent_node l i : 0 <= i -> parent hash_pair i (node l i) (node l (Z.lxor i 1)) = Ok (node (S l) (Z.shiftr i 1)).
Proof.
  intros (k & Hk & [-> | ->])%index_halves; unfold parent.
  - destruct (even_bits k Hk) as (-> & -> & ->). cbn [node]. rewrite Z.eqb_refl. apply Hhash; apply node_valid.
  - destruct (odd_bits k Hk) as (-> & -> & ->). cbn [node]. change (1 =? 0) with false. apply Hhash; apply node_valid.
Qed.

(** The two children of a node, and a branch that hashes another pair to the same digest. *)
Definition children (l : nat) (i : Z) : Digest * Digest := (node l (2 * i), node l (2 * i + 1)).
Definition clash (x : Digest * Digest) : Prop := exists l i, x <> children l i /\ hash_pair x.1 x.2 = Ok (node (S l) i).

Lemma parent_binding l i cur sibling : 0 <= i -> parent hash_pair i cur sibling = Ok (node (S l) (Z.shiftr i 1)) ->
  cur = node l i \/ clash (ordered i cur sibling).
Proof.
  intros (k & Hk & Ei)%index_halves. unfold parent, ordered. intros E.
  destruct (decide (ordered i cur sibling = children l (Z.shiftr i 1))) as [Ec|Hne].
  - left. unfold ordered, children in Ec. destruct Ei as [-> | ->].
    + destruct (even_bits k Hk) as (El & _ & Es). rewrite El, Es, Z.eqb_refl in Ec. by injection Ec.
    + destruct (odd_bits k Hk) as (El & _ & Es). rewrite El, Es in Ec. change (1 =? 0) with false in Ec. by injection Ec.
  - right. exists l, (Z.shiftr i 1). split; [exact Hne|]. unfold ordered. by destruct (i .& 1 =? 0).
Qed.

Lemma shiftr_bound i n : 0 <= i < 2 ^ Z.of_nat (S n) -> 0 <= Z.shiftr i 1 < 2 ^ Z.of_nat n.
Proof.
  intros [H1 H2]. rewrite Z.shiftr_div_pow2 by lia. rewrite Nat2Z.inj_succ, Z.pow_succ_r in H2 by lia. split; [apply Z.div_pos; lia|apply Z.div_lt_upper_bound; lia].
Qed.
Lemma lxor_bound i n : 0 <= i < 2 ^ Z.of_nat (S n) -> 0 <= Z.lxor i 1 < 2 ^ Z.of_nat (S n).
Proof.
  intros [Hi Hb]. rewrite Nat2Z.inj_succ, Z.pow_succ_r in * by lia. pose proof (Z.pow_pos_nonneg 2 (Z.of_nat n) ltac:(lia) ltac:(lia)).
  apply index_halves in Hi as (k & Hk & [-> | ->]); [destruct (even_bits k Hk) as (_ & -> & _)|destruct (odd_bits k Hk) as (_ & -> & _)]; lia.
Qed.

Lemma root_loop_binding ds : forall l i cur, 0 <= i < 2 ^ Z.of_nat (length ds) -> root_loop hash_pair cur i ds = Ok (node (l + length ds) 0) ->
  cur = node l i \/ Exists clash (branch_pairs i cur ds).
Proof.
  induction ds as [|s ds IH]; intros l i cur Hi E; cbn [root_loop length branch_pairs] in *.
  - left. injection E as ->. rewrite Nat.add_0_r. cbn in Hi. f_equal. lia.
  - apply bind_Ok in E as (cur' & Ep & E). replace (l + S (length ds))%nat with (S l + length ds)%nat in E by lia.
    assert (Eo : hash_pair (ordered i cur s).1 (ordered i cur s).2 = Ok cur') by (rewrite <- Ep; unfold parent, ordered; by destruct (i .& 1 =? 0)).
    rewrite Eo. apply IH in E as [->|E]; [|right; by apply Exists_cons_tl|by apply shiftr_bound].
    apply (parent_binding l i cur s) in Ep as [|Ep]; [by left|right; by apply Exists_cons_hd|lia].
Qed.

End Paths.

(** ** Merkle groups *)

Section GroupSpec.
Import Groups.
Context (hash_pair : Digest -> Digest -> outcome GroupError Digest) (hp : Digest -> Digest -> Digest) (valid : Digest -> Prop).
Context (Hhash : forall a b, valid a -> valid b -> hash_pair a b = Ok (hp a b) /\ valid (hp a b)) (Hzero : valid Merkle.ZERO).
Context (g : MerkleGroup) (Hleaves : Forall valid (leaves g)).
#[local] Abbreviation node := (node hp (leaf_or_empty g)).
#[local] Abbreviation clash := (clash hash_pair hp (leaf_or_empty g)).
#[local] Abbreviation branch_pairs := (branch_pairs hash_pair).

Lemma leaf_valid i : valid (leaf_or_empty g i).
Proof. unfold leaf_or_empty. destruct (leaves g !! Z.to_nat i) as [d|] eqn:E; [|done]. by eapply Forall_lookup_1. Qed.

Lemma range_root l : forall fuel i, (l < fuel)%nat -> 0 <= i -> (i + 1) * 2 ^ Z.of_nat l <= 2 ^ 30 ->
  calc_range_root hash_pair fuel g (i * 2 ^ Z.of_nat l) ((i + 1) * 2 ^ Z.of_nat l) = Ok (node l i).
Proof.
  induction l as [|l IH]; intros [|fuel] i Hf Hi Hb; try lia; cbn [calc_range_root].
  - rewrite Z.mul_1_r, Z.mul_1_r in *. rewrite (proj2 (Z.ltb_lt _ _)) by lia. cbn [assert_ mbind outcome_bind].
    rewrite wrap_small by (unfold fits; lia). by rewrite Z.eqb_refl.
  - rewrite Nat2Z.inj_succ, Z.pow_succ_r in * by lia. pose proof (Z.pow_pos_nonneg 2 (Z.of_nat l) ltac:(lia) ltac:(lia)).
    set (q := 2 ^ Z.of_nat l) in *. rewrite (proj2 (Z.ltb_lt _ _)) by nia. cbn [assert_ mbind outcome_bind].
    rewrite wrap_small by (unfold fits; nia). rewrite (proj2 (Z.eqb_neq _ _)) by nia.
    rewrite (wrap_small 32 (_ + _)) by (unfold fits; nia).
    replace (i * (2 * q) + (i + 1) * (2 * q)) with (((2 * i + 1) * q) * 2) by ring. rewrite Z.div_mul by lia.
    rewrite !wrap_small by (unfold fits; nia).
    rewrite (proj2 (Z.eqb_eq _ _)) by ring. cbn [assert_ mbind outcome_bind].
    replace (i * (2 * q)) with ((2 * i) * q) by ring. rewrite (IH fuel (2 * i)) by lia. cbn [mbind outcome_bind].
    replace ((i + 1) * (2 * q)) with ((2 * i + 1 + 1) * q) by ring. rewrite (IH fuel (2 * i + 1)) by lia. cbn [mbind outcome_bind node].
    apply Hhash; apply (node_valid hash_pair hp valid Hhash _ leaf_valid).
Qed.

(** The sibling of a node on the way up, as the code asks for it. *)
Lemma sibling_run l n i : (l + S n <= 8)%nat -> 0 <= i < 2 ^ Z.of_nat (S n) ->
  calc_range_root hash_pair 33 g (shl (Z.lxor i 1) (Z.of_nat l)) (wrap 32 (shl (Z.lxor i 1) (Z.of_nat l) + shl 1 (Z.of_nat l))) = Ok (node l (Z.lxor i 1)).
Proof.
  intros Hl Hi. apply lxor_bound in Hi. set (s := Z.lxor i 1) in *.
  assert (Hp : 0 < 2 ^ Z.of_nat l) by (apply Z.pow_pos_nonneg; lia).
  assert (Hs : (s + 1) * 2 ^ Z.of_nat l <= 2 ^ 8).
  { transitivity (2 ^ Z.of_nat (S n) * 2 ^ Z.of_nat l); [apply Z.mul_le_mono_nonneg_r; lia|]. rewrite <- Z.pow_add_r by lia. apply Z.pow_le_mono_r; lia. }
  assert (Esh : forall x, 0 <= x -> x * 2 ^ Z.of_nat l <= 2 ^ 8 -> shl x (Z.of_nat l) = x * 2 ^ Z.of_nat l).
  { intros x Hx Hb. unfold shl, shl32. rewrite Z.mod_small, Z.shiftl_mul_pow2 by lia. apply wrap_small. unfold fits. nia. }
  rewrite !Esh by nia. rewrite wrap_small by (unfold fits; nia).
  replace (s * 2 ^ Z.of_nat l + 1 * 2 ^ Z.of_nat l) with ((s + 1) * 2 ^ Z.of_nat l) by ring. apply range_root; lia.
Qed.

Lemma proof_loop_run n : forall l i, (l + n <= 8)%nat -> 0 <= i < 2 ^ Z.of_nat n ->
  exists ds, proof_loop hash_pair n (Z.of_nat l) g (node l i) i = Ok ds /\ length ds = n /\ root_loop hash_pair (node l i) i ds = Ok (node (l + n) 0).
Proof.
  induction n as [|n IH]; intros l i Hl Hi.
  - exists []. cbn in *. rewrite Nat.add_0_r. split_and!; [done..|]. do 2 f_equal. lia.
  - cbn [proof_loop]. rewrite (sibling_run l n i) by lia. cbn [mbind outcome_bind]. rewrite (parent_node hash_pair hp valid Hhash _ leaf_valid) by lia. cbn [mbind outcome_bind].
    destruct (IH (S l) (Z.shiftr i 1)) as (ds & E & Hd & Hr); [lia|by apply shiftr_bound|].
    replace (Z.of_nat l + 1) with (Z.of_nat (S l)) by lia. rewrite E. cbn [mbind outcome_bind].
    exists (node l (Z.lxor i 1) :: ds). split_and!; [done|cbn; lia|]. cbn [root_loop]. rewrite (parent_node hash_pair hp valid Hhash _ leaf_valid) by lia. cbn [mbind outcome_bind].
    rewrite Hr. do 2 f_equal. lia.
Qed.

Lemma position_run d l : d ∈ l -> exists i, position d l = Some i /\ 0 <= i < Z.of_nat (length l) /\ l !! Z.to_nat i = Some d.
Proof.
  induction l as [|a l IH]; [by intros ?%not_elem_of_nil|]. intros [->|Hd]%elem_of_cons; cbn [position].
  - rewrite decide_True by done. exists 0. cbn. split_and!; [done|lia..|done].
  - case_decide as Ea; [subst a; exists 0; cbn; split_and!; [done|lia..|done]|].
    destruct (IH Hd) as (i & -> & Hi & El). exists (1 + i). cbn [fmap option_fmap option_map length]. split_and!; [done|lia|lia|].
    by replace (Z.to_nat (1 + i)) with (S (Z.to_nat i)) by lia.
Qed.

Lemma calc_root_run n : (n <= 8)%nat -> depth g = Z.of_nat n -> calc_root hash_pair g = Ok (node n 0).
Proof.
  intros Hn Hd. unfold calc_root. rewrite Hd. pose proof (Z.pow_le_mono_r 2 (Z.of_nat n) 8 ltac:(lia) ltac:(lia)).
  replace (shl 1 (Z.of_nat n)) with ((0 + 1) * 2 ^ Z.of_nat n).
  - apply (range_root n 33 0); lia.
  - unfold shl, shl32. rewrite Z.mod_small, Z.shiftl_mul_pow2 by lia. symmetry. apply wrap_small. unfold fits. lia.
Qed.

Lemma get_proof_run n d : (n <= 8)%nat -> depth g = Z.of_nat n -> Z.of_nat (length (leaves g)) < 2 ^ Z.of_nat n -> d ∈ leaves g ->
  exists p, get_proof hash_pair g d = Ok p /\ length (digests p) = n /\ proof_verify hash_pair p d (node n 0) = Ok tt.
Proof.
  intros Hn Hd Hl Hin. destruct (position_run d (leaves g) Hin) as (i & Ei & Hi & El). unfold get_proof. rewrite Ei. cbn [ok_or mbind outcome_bind].
  pose proof (Z.pow_le_mono_r 2 (Z.of_nat n) 8 ltac:(lia) ltac:(lia)).
  rewrite wrap_small by (unfold fits; lia). unfold get_proof_by_index. rewrite El, Hd, Nat2Z.id. cbn [unwrap mbind outcome_bind].
  assert (Ed : d = node 0 i) by (cbn [node]; unfold leaf_or_empty; by rewrite El).
  destruct (proof_loop_run n 0 i ltac:(lia) ltac:(lia)) as (ds & E & Hlen & Hr). rewrite Nat.add_0_l in Hr. change (Z.of_nat 0) with 0 in E. rewrite Ed, E.
  cbn [mbind outcome_bind]. eexists. split; [reflexivity|]. split; [exact Hlen|]. unfold proof_verify, root. cbn [index digests]. rewrite Hr. cbn [mbind outcome_bind].
  by rewrite bool_decide_eq_true_2.
Qed.

Lemma proof_verify_binding n p d : length (digests p) = n -> 0 <= index p < 2 ^ Z.of_nat n -> proof_verify hash_pair p d (node n 0) = Ok tt ->
  d = leaf_or_empty g (index p) \/ Exists clash (branch_pairs (index p) d (digests p)).
Proof.
  intros <- Hi E. unfold proof_verify, root in E. apply bind_Ok in E as (r & Er & E). apply ensure_Ok, bool_decide_eq_true in E as ->.
  by apply (root_loop_binding hash_pair hp (leaf_or_empty g) (digests p) 0 (index p) d).
Qed.
End GroupSpec.

(** C24: A Merkle group of at most 255 valid leaves: every leaf has a proof, of eight siblings, that
    verifies against the root; and whatever a proof of eight siblings verifies for an index of
    the tree is a leaf or the empty leaf, or the branch hashes a pair to a node of the tree whose
    children are others. *)
Theorem merkle_group_correct hash_pair hp (valid : Digest -> Prop) l g :
  (forall a b, valid a -> valid b -> hash_pair a b = Ok (hp a b) /\ valid (hp a b)) -> valid Merkle.ZERO -> Forall valid l -> Groups.new l = Ok g ->
  exists root, Groups.calc_root hash_pair g = Ok root /\
    (forall d, d ∈ l -> exists p, Groups.get_proof hash_pair g d = Ok p /\ length (Groups.digests p) = 8%nat /\ Groups.proof_verify hash_pair p d root = Ok tt) /\
    (forall p d, length (Groups.digests p) = 8%nat -> 0 <= Groups.index p < 256 -> Groups.proof_verify hash_pair p d root = Ok tt ->
       d ∈ Merkle.ZERO :: l \/ Exists (clash hash_pair hp (Groups.leaf_or_empty g)) (branch_pairs hash_pair (Groups.index p) d (Groups.digests p))).
Proof.
  intros Hhash Hzero Hl Hg. unfold Groups.new in Hg. apply ensure_bind_Ok in Hg as [Hlen%Z.ltb_lt [= <-]].
  set (g := Groups.mkGroup _ _). pose proof (@merge_sort_Permutation _ Groups.digest_le Groups.digest_le_dec l) as Hperm.
  assert (Hlg : Forall valid (Groups.leaves g)) by (cbn; by rewrite Hperm).
  assert (Hlen' : Z.of_nat (length (Groups.leaves g)) < 2 ^ Z.of_nat 8) by (cbn [g Groups.leaves]; rewrite Hperm; exact Hlen).
  exists (node hp (Groups.leaf_or_empty g) 8 0). split; [apply (calc_root_run hash_pair hp valid Hhash Hzero g Hlg 8); [lia|reflexivity]|]. split.
  - intros d Hd. apply (get_proof_run hash_pair hp valid Hhash Hzero g Hlg 8); [lia|reflexivity|exact Hlen'|]. cbn [g Groups.leaves]. by rewrite Hperm.
  - intros p d Hp Hi E. apply (proof_verify_binding hash_pair hp g 8 p d Hp Hi) in E as [->|E]; [left|by right].
    unfold Groups.leaf_or_empty. destruct (Groups.leaves g !! _) as [d|] eqn:Ed; [|by apply list_elem_of_here].
    apply list_elem_of_further. apply list_elem_of_lookup_2 in Ed. cbn [g Groups.leaves] in Ed. by rewrite Hperm in Ed.
Qed.

(** A toy pairing, for a group of two leaves. *)
Definition toy_digest (a : Z) : Digest := mkDigest a 0 0 0 0 0 0 0.
Definition toy_pair (a b : Digest) : Digest := toy_digest (List.hd 0 (as_words a) + 2 * List.hd 0 (as_words b) + 1).

Lemma merkle_group_correct_witness :
  exists root p, Groups.get_proof (fun a b => Ok (toy_pair a b)) (Groups.mkGroup 8 [toy_digest 3; toy_digest 5]) (toy_digest 5) = Ok p /\
    length (Groups.digests p) = 8%nat /\ Groups.proof_verify (fun a b => Ok (toy_pair a b)) p (toy_digest 5) root = Ok tt.
Proof.
  destruct (merkle_group_correct (fun a b => Ok (toy_pair a b)) toy_pair (fun _ => True) [toy_digest 5; toy_digest 3] (Groups.mkGroup 8 [toy_digest 3; toy_digest 5]))
    as (root & _ & Hp & _); [done|done|by apply Forall_true|by vm_compute|].
  destruct (Hp (toy_digest 5)) as (p & Ep & Hl & Hv); [by apply list_elem_of_here|]. exists root, p. split; [exact Ep|]. split; [exact Hl|exact Hv].
Defined.
