(* ===== verification/SegmentSpec.v ===== *)
(** * Segments answer, and concrete receipts

    The verification of a segment against the tables of the rv32im circuit never panics; the
    witnesses on a receipt with a toy hash; and the inclusion proof that makes the verifier
    of a succinct receipt panic. *)
From S2P Require Export GroupSpec.
From S2P Require Import Rv32imTables RecursionTables.
Import Merkle.
Import Hashing Pruned ExitCodes SysState Claims ClaimOps Receipts.
Open Scope Z_scope.

(** ** The circuits *)

(** What the circuit generator wrote, as it is in the repository. *)
#[local] Instance risc0_generated : Generated :=
  {| rv32im_taps := Rv32imTables.TAPSET; rv32im_poly_ext := Rv32imTables.POLY_EXT_DEF;
     recursion_taps := RecursionTables.TAPSET; recursion_poly_ext := RecursionTables.DEF;
     ALLOWED_CONTROL_ROOT := RecursionTables.ALLOWED_CONTROL_ROOT |}.

(** The verifier of a succinct receipt's seal answers one of a hundred words. *)
Lemma stark_verify_total_witness : let r := Verifier.verify (R := Poseidon2.Poseidon2.Poseidon2Rng) RecursionTables.TAPSET
    (program_circuit RECURSION_CIRCUIT_INFO RECURSION_OUTPUT_SIZE RECURSION_MIX_SIZE RecursionTables.DEF)
    Poseidon2.Poseidon2.rng_new (replicate 100 7%Z) (fun _ _ => Ok tt) in r = Ok tt \/ exists e, r = Err e.
Proof.
  apply (stark_verify_total RecursionTables.TAPSET RECURSION_CIRCUIT_INFO RECURSION_OUTPUT_SIZE RECURSION_MIX_SIZE RecursionTables.DEF);
    [exact Poseidon2Spec.poseidon2_hashes_valid|exact RecursionTables.recursion_circuit_ok|apply sevens_u32|done].
Defined.

(** ** A receipt *)

Section Witness.
(** A toy hash, tables of no circuit, and a pairing check that accepts the seal of one word 7. *)
#[local] Instance toy_sha : Sha256 := {| hash_bytes l := toy_digest (foldl (fun a b => (a * 31 + b + 1) mod 65521) 7 l) |}.
#[local] Instance toy_ruint : Claim.Ruint := ruint_Z.
#[local] Instance toy_generated : Generated :=
  {| rv32im_taps := Taps.mkTaps [] [] [] [] 0 0 0 []; rv32im_poly_ext := Adapter.mkDef [] 0;
     recursion_taps := Taps.mkTaps [] [] [] [] 0 0 0 []; recursion_poly_ext := Adapter.mkDef [] 0; ALLOWED_CONTROL_ROOT := toy_digest 9 |}.
#[local] Instance toy_groth16 : Groth16 :=
  {| VerifyingKey := unit; key_digest _ := Merkle.ZERO; groth16_verify seal _ _ _ _ := if decide (seal = [7]) then Ok tt else Err NotAProof |}.

Definition toy_image : Digest := toy_digest 1234.
Definition toy_params : Groth16ReceiptVerifierParameters := mkGroth16Params (toy_digest 9) (toy_digest 8) tt.
Definition toy_context : VerifierContext := mkContext ∅ None None (Some toy_params) false.
Definition toy_claim : ReceiptClaim := Claims.ok toy_image (Value [1; 2; 3]).
Definition toy_receipt : Receipt := receipt_new (Groth16R (mkGroth16 _ [7] (Value toy_claim) (digest toy_params))) [1; 2; 3].

Lemma toy_digest_wf a : u32 a -> digest_wf (toy_digest a).
Proof. intros Ha. apply Forall_cons. split; [exact Ha|]. repeat (constructor; [unfold fits; cbn; lia|]). constructor. Qed.
Lemma toy_sha_wf bs : digest_wf (hash_bytes bs).
Proof.
  apply toy_digest_wf. unfold fits. assert (Hf : forall l a, 0 <= a < 65521 -> 0 <= foldl (fun a b => (a * 31 + b + 1) mod 65521) a l < 65521).
  { induction l as [|b l IH]; intros a Ha; [exact Ha|]. cbn [foldl]. apply IH. apply Z.mod_pos_bound. lia. }
  specialize (Hf bs 7 ltac:(lia)). lia.
Qed.

Lemma receipt_verify_sound_witness :
  verify_with_context toy_context toy_image toy_receipt = Ok tt /\
  (proves_run toy_claim (Some (expected_output [1; 2; 3])) toy_image [1; 2; 3] \/ forged toy_image [1; 2; 3] toy_claim (Some (expected_output [1; 2; 3]))).
Proof.
  assert (Hv : verify_with_context toy_context toy_image toy_receipt = Ok tt) by (vm_compute; reflexivity). split; [exact Hv|].
  assert (Hi : digest_wf toy_image) by (apply toy_digest_wf; unfold fits; lia).
  destruct (receipt_verify_sound toy_context toy_image toy_receipt Hi toy_sha_wf Hv) as (_ & m & Em & _ & Hr & _).
  apply (Hr toy_claim (Some (expected_output [1; 2; 3]))).
  - split_and!; [cbn; unfold fits; lia|apply zero_wf|exact Hi|apply toy_sha_wf|apply toy_sha_wf].
  - intros o [= <-]. split; [apply toy_sha_wf|apply zero_wf].
  - injection Em as <-. reflexivity.
  - reflexivity.
Defined.
End Witness.

(** ** The verification of a segment answers *)

Section SegmentTotal.
Context `{Sha256, RuintLaws}.
Import Fri Verifier Seal.

Definition valid (w : Z) : Prop := Elem.is_valid_bit_pattern w = true.
Definition valid_prefix (k : nat) (s : list Z) : Prop := Forall valid (take k s).

(** From a seal with [P], the decoder returns a value with [C] and a rest with [Q], or an error. *)
Definition decodes {A} (P : list Z -> Prop) (m : state (list Z) error A) (C : A -> Prop) (Q : list Z -> Prop) : Prop :=
  forall s, P s -> match m s with (Ok a, s') => C a /\ Q s' | (Err _, _) => True | (Panic, _) => False end.

Lemma decodes_bind {A B} P (m : state (list Z) error A) (f : A -> state (list Z) error B) C Q D R :
  decodes P m C Q -> (forall a, C a -> decodes Q (f a) D R) -> decodes P (m ≫= f) D R.
Proof. intros Hm Hf s Hs. specialize (Hm s Hs). unfold mbind, state_bind. destruct (m s) as [[a|e|] s']; [destruct Hm as [Hc Hq]; by apply (Hf a Hc)|done|done]. Qed.
Lemma decodes_lift {A} P (o : outcome error A) (C : A -> Prop) : osafe o C -> decodes P (lift o) C P.
Proof. intros Ho s Hs. unfold lift. by destruct o. Qed.
Lemma decodes_ret {A} P (a : A) (C : A -> Prop) : C a -> decodes P (mret a) C P.
Proof. by intros Ha s Hs. Qed.

Lemma read_decodes n k : decodes (valid_prefix (n + k)) (read n) (fun l => length l = n /\ Forall valid l) (valid_prefix k).
Proof.
  intros s Hs. unfold read. destruct (Nat.leb_spec n (length s)); [|done]. unfold valid_prefix in *.
  rewrite <- (take_drop n s), take_app_add' in Hs by (rewrite length_take; lia). apply Forall_app in Hs as [H1' H2'].
  split; [|exact H2']. split; [rewrite length_take; lia|exact H1'].
Qed.

Lemma cast_safe w : valid w -> osafe (cast w) (fun _ => True).
Proof. intros Hw. unfold cast. by rewrite Hw. Qed.
Lemma mapM_safe {A B} (f : A -> outcome error B) (P : A -> Prop) (C : B -> Prop) l :
  (forall a, P a -> osafe (f a) C) -> Forall P l -> osafe (mapM f l) (fun k => length k = length l /\ Forall C k).
Proof.
  intros Hf. induction 1 as [|a l Ha _ IH]; [done|].
  change (mapM f (a :: l)) with (y ← f a; k ← mapM f l; mret (y :: k)). eapply osafe_bind; [by apply Hf|]. intros b Hb. cbv beta in Hb.
  eapply osafe_bind; [exact IH|]. intros k [Hk HC]. split; [cbn; lia|by constructor].
Qed.

Lemma u32_decodes k : decodes (valid_prefix (1 + k)) read_u32 valid (valid_prefix k).
Proof.
  eapply decodes_bind; [apply read_decodes|]. intros l [Hl Hv]. destruct l as [|w [|]]; try done. apply Forall_cons in Hv as [Hw _].
  by apply decodes_lift.
Qed.
Lemma elem_decodes k : decodes (valid_prefix (1 + k)) read_u32_from_elem (fun _ => True) (valid_prefix k).
Proof.
  eapply decodes_bind; [apply u32_decodes|]. intros w Hw. eapply decodes_bind; [by apply decodes_lift, cast_safe|]. intros e _. by apply decodes_ret.
Qed.
Lemma shorts_decodes k : decodes (valid_prefix (2 + k)) read_u32_from_shorts (fun _ => True) (valid_prefix k).
Proof.
  eapply decodes_bind; [apply read_decodes|]. intros l [Hl Hv].
  eapply decodes_bind; [apply decodes_lift, (mapM_safe _ valid (fun _ => True)); [apply cast_safe|exact Hv]|]. intros es [Hes _]. rewrite Hl in Hes.
  destruct es as [|e0 [|e1 [|]]]; try done.
Qed.
Lemma digest_of_words_safe l : length l = 8%nat -> osafe (E := error) (digest_of_words l) (fun _ => True).
Proof. intros Hl. do 9 (destruct l as [|? l]; try done). Qed.
Lemma words_decodes k : decodes (valid_prefix (8 + k)) read_digest_from_words (fun _ => True) (valid_prefix k).
Proof.
  eapply decodes_bind; [apply read_decodes|]. intros l [Hl Hv].
  eapply decodes_bind; [apply decodes_lift, (mapM_safe _ valid (fun _ => True)); [apply cast_safe|exact Hv]|]. intros es [Hes _].
  apply decodes_lift, digest_of_words_safe. by rewrite length_map, Hes, Hl.
Qed.
Lemma short_bytes_safe w : valid w -> osafe (short_bytes w) (fun bs => length bs = 2%nat).
Proof.
  intros Hw. unfold short_bytes. eapply osafe_bind; [by apply cast_safe|]. intros e _. cbv zeta.
  by destruct (Elem.as_u32 e <=? 0xffff).
Qed.
Lemma concat_length bss : Forall (fun bs : list Z => length bs = 2%nat) bss -> length (concat bss) = (2 * length bss)%nat.
Proof. induction 1 as [|bs bss Hb _ IH]; [done|]. cbn [concat length]. rewrite length_app, Hb, IH. lia. Qed.
Lemma words_of_bytes_length n count : forall bytes, length (cast_bytes n count bytes) = count.
Proof. induction count as [|count IH]; intros bytes; cbn [cast_bytes length]; [done|by rewrite IH]. Qed.
Lemma digest_shorts_decodes k : decodes (valid_prefix (16 + k)) read_digest_from_shorts (fun _ => True) (valid_prefix k).
Proof.
  eapply decodes_bind; [apply read_decodes|]. intros l [Hl Hv].
  eapply decodes_bind; [apply decodes_lift, (mapM_safe _ valid (fun bs => length bs = 2%nat)); [apply short_bytes_safe|exact Hv]|]. intros bss [Hb Hb2].
  apply decodes_lift. unfold digest_from_bytes. rewrite concat_length, Hb, Hl by exact Hb2. change (2 * 16 =? DIGEST_BYTES)%nat with true. cbn [assert_ mbind outcome_bind].
  apply digest_of_words_safe. by rewrite words_of_bytes_length.
Qed.
Lemma read_shorts_decodes n k : decodes (valid_prefix (2 * n + k)) (read_shorts n) (fun l => length l = n) (valid_prefix k).
Proof.
  revert k. induction n as [|n IH]; intros k; cbn [read_shorts]; [by apply decodes_ret|]. replace (2 * S n + k)%nat with (2 + (2 * n + k))%nat by lia.
  eapply decodes_bind; [apply shorts_decodes|]. intros v _. eapply decodes_bind; [apply IH|]. intros vs Hvs. apply decodes_ret. cbn. by rewrite Hvs.
Qed.

(** Every number of 256 bits is a nonce. *)
Lemma from_u256_safe v : 0 <= v < 2 ^ 256 -> osafe (E := error) (Povw.from_u256 v) (fun _ => True).
Proof.
  intros Hv. set (n := Povw.mkNonce (v / 2 ^ 96) ((v / 2 ^ 32) mod 2 ^ 64) (v mod 2 ^ 32)).
  assert (E : v = nonce_value n) by (unfold nonce_value; cbn [Povw.log Povw.job Povw.segment n]; Z.to_euclidean_division_equations; lia).
  rewrite E, from_u256_run; [done|]. unfold nonce_wf, fits. cbn [Povw.log Povw.job Povw.segment n]. Z.to_euclidean_division_equations; lia.
Qed.
Lemma cast_words_u8 n words : Forall u8 (cast_words n words) /\ length (cast_words n words) = (n * length words)%nat.
Proof.
  unfold cast_words. induction words as [|w words [IH1 IH2]]; [split; [by apply Forall_nil|cbn; lia]|]. rewrite bind_cons. split.
  - apply Forall_app. split; [apply le_bytes_u8|done].
  - rewrite length_app, le_bytes_length, IH2. cbn [length]. lia.
Qed.
Lemma from_u32s_safe words : length words = 8%nat -> osafe (E := error) (Povw.from_u32s words) (fun _ => True).
Proof.
  intros Hl. unfold Povw.from_u32s, Povw.from_bytes. destruct (cast_words_u8 4 words) as [Hu Hn]. rewrite Hl in Hn.
  rewrite u_from_le_bytes_law by exact Hu. apply from_u256_safe. pose proof (from_le_bytes_range (cast_words 4 words) Hu) as Hr. rewrite Hn in Hr.
  change (256 ^ Z.of_nat (4 * 8)) with (2 ^ 256) in Hr. exact Hr.
Qed.

Lemma decode_claim_safe version po2 s : valid_prefix 53 s -> match fst (decode_claim (version :: po2 :: s)) with Panic => False | _ => True end.
Proof.
  intros Hs. unfold decode_claim. rewrite (run_bind _ _ _ _ _ (read_u32_run _ _)).
  destruct (version =? RV32IM_SEAL_VERSION)%Z; cbn [ensure]; [|done]. rewrite run_lift_Ok, (run_bind _ _ _ _ _ (read_u32_run _ _)).
  set (prog := read_digest_from_words ≫= _). assert (Hprog : decodes (valid_prefix 53) prog (fun _ => True) (valid_prefix 0)).
  { unfold prog. eapply decodes_bind; [apply (words_decodes 45)|]. intros pre _. eapply decodes_bind; [apply (words_decodes 37)|]. intros post _.
    eapply decodes_bind; [apply (elem_decodes 36)|]. intros term _. eapply decodes_bind; [apply (shorts_decodes 34)|]. intros a0 _.
    eapply decodes_bind; [apply (shorts_decodes 32)|]. intros a1 _. eapply decodes_bind; [apply (digest_shorts_decodes 16)|]. intros out _.
    eapply decodes_bind; [apply (read_shorts_decodes 8 0)|]. intros ns Hns. cbv beta in Hns. destruct (if term =? 1 then _ else _) as [ts o].
    eapply decodes_bind; [by apply decodes_lift, from_u32s_safe|]. intros n _. by apply decodes_ret. }
  specialize (Hprog s Hs). by destruct (prog s) as [[a|e|] s'].
Qed.

Lemma from_seal_safe version po2 s : valid_prefix 53 s -> osafe (decode_from_seal_m3 (version :: po2 :: s)) (fun _ => True).
Proof.
  intros Hs. unfold decode_from_seal_m3. pose proof (decode_claim_safe version po2 s Hs) as Hd. destruct (fst _) as [c|e|]; cbn [mbind outcome_bind]; [|done..].
  unfold exit_code. destruct (terminate_state c) as [t|]; [|done]. cbv zeta. destruct (low _ =? HALT_TERMINATE)%Z; [done|].
  by destruct (low _ =? HALT_PAUSE)%Z.
Qed.

(** What was read as elements is valid. *)
Lemma elems_valid n ws es : elems_of (T := Z) n ws = Some es -> length ws = n -> Forall valid ws.
Proof.
  revert ws es. induction n as [|n IH]; intros ws es E Hl; [by destruct ws|]. destruct ws as [|w ws]; [done|].
  change (elems_of (S n) (w :: ws)) with (e ← (if Elem.is_valid_bit_pattern w then Some w else None); es ← elems_of (T := Z) n ws; Some (e :: es)) in E.
  destruct (Elem.is_valid_bit_pattern w) eqn:Ew; [|done]. cbn in E. destruct (elems_of n ws) as [es'|] eqn:E'; [|done].
  constructor; [exact Ew|]. eapply IH; [exact E'|]. by injection Hl.
Qed.

Lemma v3_globals {R} `{HashFn Z, HashExt, Rng R Z ExtElem} t c gs poly (rng : R) seal p :
  verify_v3 t (mkGroup (S c) 0 :: gs) poly rng seal p = Ok tt -> valid_prefix (S c) seal.
Proof.
  unfold verify_v3. destruct seal as [|w seal]; [done|]. set (s := w :: seal). intros E. unfold mbind at 1, state_bind at 1, modify in E.
  unfold mbind at 1, state_bind at 1 in E. cbn [groups_v3 mix_count global_count read_rng] in E. change (0 <? S c)%nat with true in E. cbv iota in E.
  unfold mbind at 1, state_bind at 1, mret at 1, state_ret at 1 in E. unfold mbind at 1, state_bind at 1 in E.
  unfold mbind at 1, state_bind at 1, on_iop at 1 in E. cbn [iop Verifier.new read_new] in E.
  destruct (read_elems_cases (T := Z) (S c) (mkRead s rng)) as [(es & more & Hl & E1 & ws & Hws & Hes & Hp)|(iop' & E1)].
  - cbn [proof] in Hp. unfold valid_prefix. change (WORDS (T := Z)) with 1%nat in Hws. rewrite Nat.mul_1_r in Hws. rewrite Hp, <- Hws, take_app_length.
    by eapply elems_valid.
  - unfold iop, new, read_new in E. rewrite E1 in E. done.
Qed.

(** The suite of the verifier keeps the contract of hash functions. *)
Lemma poseidon2_suite_valid : @hashes_valid Z (suite_hashfn poseidon2_suite) _ _.
Proof. exact Poseidon2Spec.poseidon2_hashes_valid. Qed.

Lemma rv32im_verify_safe seal : Forall u32 seal ->
  osafe (rv32im_verify seal) (fun _ => exists version po2 s, seal = version :: po2 :: s /\ valid_prefix 54 s).
Proof.
  intros Hseal. pose proof Rv32imTables.rv32im_taps_checked as Ht. rewrite andb_true_iff, Nat.eqb_eq in Ht. destruct Ht as [Ht Hn].
  destruct (taps_ok_fact _ Ht) as (rs & n & Hf). pose proof (tf_size _ _ _ Hf) as En. rewrite Rv32imTables.rv32im_tap_count in En. injection En as <-.
  unfold rv32im_verify. destruct seal as [|version seal]; [done|]. destruct (negb _); [done|]. destruct seal as [|p s]; [done|].
  apply Forall_cons in Hseal as [_ Hseal]. apply Forall_cons in Hseal as [_ Hseal].
  destruct (Z.ltb_spec MAX_CYCLES_PO2 p) as [|Hp]; [done|]. change MAX_CYCLES_PO2 with 24 in Hp.
  pose proof (verify_v3_safe poseidon2_suite_valid Rv32imTables.TAPSET rs 405 Hf get_groups (fun mix u args => Adapter.poly_ext mix u args Rv32imTables.POLY_EXT_DEF)
    (new_rng poseidon2_suite) s (Z.to_nat p) Hseal ltac:(lia) (eq_sym Hn)) as Hv. cbn [rv32im_taps rv32im_poly_ext risc0_generated].
  destruct (verify_v3 _ _ _ _ _ _) as [[]|e|] eqn:E; [|done|].
  - exists version, p, s. split; [done|]. by eapply v3_globals.
  - apply Hv. intros m us mix globals Hus Hg Hm.
    destruct (poly_ext_total (Er := VerificationError) m us [globals; mix] Rv32imTables.POLY_EXT_DEF) as [x Ex]; [|by rewrite Ex].
    cbn [map]. rewrite Hus, Hg, Hm. exact Rv32imTables.rv32im_program_checked.
Qed.
End SegmentTotal.

(** C8: The verification of a segment answers: whatever the 32-bit words of its seal, the receipt is
    accepted or refused with an error, never with a panic, for the taps and the constraint
    program that the repository has for the rv32im circuit (27846 steps, which pass the checks
    of the verifier) and for Poseidon2, whose hashing of a pair panics on digests that are not
    reduced: the verifier refuses those before it hashes them.  And the receipt is accepted
    exactly when the context has parameters for this proof system and circuit, the hash function
    is Poseidon2, the seal is a valid proof, and the claim in it decodes to one with the digest
    of the receipt's. *)
Theorem segment_verify_total `{Sha256, RuintLaws, Groth16} ctx self : Forall u32 (segment_seal self) ->
  (segment_verify ctx self = Ok tt \/ exists e, segment_verify ctx self = Err e) /\
  (segment_verify ctx self = Ok tt <-> exists params claim, segment_verifier_parameters ctx = Some params /\
     segment_proof_system_info params = Adapter.PROOF_SYSTEM_INFO /\ segment_circuit_info params = RV32IM_CIRCUIT_INFO /\
     segment_hashfn self = "poseidon2"%string /\ rv32im_verify (segment_seal self) = Ok tt /\
     decode_from_seal_m3 (segment_seal self) = Ok claim /\ digest claim = digest (segment_claim self)).
Proof.
  intros Hseal. unfold segment_verify. split.
  - destruct (segment_verifier_parameters ctx) as [params|]; cbn [ok_or mbind outcome_bind]; [|right; by eexists].
    do 3 (match goal with |- (ensure ?b _ ≫= _) = _ \/ _ => destruct b end; cbn [ensure mbind outcome_bind]; [|right; by eexists]).
    pose proof (rv32im_verify_safe (segment_seal self) Hseal) as Hv. destruct (rv32im_verify (segment_seal self)) as [[]|e|]; cbn [mbind outcome_bind]; [|right; by eexists|done].
    destruct Hv as (version & p & s & -> & Hs). assert (Hs53 : valid_prefix 53 s) by (unfold valid_prefix in *; replace (take 53 s) with (take 53 (take 54 s)) by (by rewrite take_take); by apply Forall_take).
    pose proof (from_seal_safe version p s Hs53) as Hd.
    destruct (decode_from_seal_m3 (version :: p :: s)) as [c|e|]; cbn [map_err mbind outcome_bind]; [|right; by eexists|done].
    destruct (bool_decide _); [by left|right; by eexists].
  - split.
    + intros E. apply bind_Ok in E as (params & Hp%ok_or_Ok & E). apply ensure_bind_Ok in E as [H1'%bool_decide_eq_true E].
      apply ensure_bind_Ok in E as [H2'%bool_decide_eq_true E]. apply ensure_bind_Ok in E as [H3'%bool_decide_eq_true E].
      apply bind_Ok in E as ([] & Hv & E). apply bind_Ok in E as (c & Hc%map_err_Ok & E). apply ensure_Ok, bool_decide_eq_true in E. exists params, c. auto 8.
    + intros (params & c & Hp & H1' & H2' & H3' & Hv & Hc & E). rewrite Hp. cbn [ok_or mbind outcome_bind].
      do 3 (apply ensure_bind_Ok; split; [by apply bool_decide_eq_true|]). apply bind_Ok. exists tt. split; [exact Hv|].
      apply bind_Ok. exists c. split; [by apply map_err_Ok|]. apply ensure_Ok. by apply bool_decide_eq_true.
Qed.

(** A segment of the right version, whose seal is too short. *)
Section SegmentWitness.
#[local] Existing Instances toy_sha toy_groth16 ruint_Z ruint_Z_laws.
Definition small_segment : SegmentReceipt := mkSegment (3 :: 16 :: replicate 60 5) 0 "poseidon2" (toy_digest 1) toy_claim.
Definition small_context : VerifierContext := mkContext ∅ (Some segment_default) None None false.

Lemma segment_verify_total_witness : segment_verify small_context small_segment = Ok tt \/ exists e, segment_verify small_context small_segment = Err e.
Proof.
  apply (segment_verify_total small_context small_segment).
  apply Forall_cons. split; [unfold fits; lia|]. apply Forall_cons. split; [unfold fits; lia|]. apply Forall_replicate. unfold fits. lia.
Defined.
End SegmentWitness.

(** An inclusion proof with a digest that is not reduced is not refused: hashing it panics. *)
Lemma unreduced_proof_panics : Groups.proof_verify (pair_fn poseidon2_suite) (Groups.mkProof 0 [toy_digest (2 ^ 32 - 1)]) (toy_digest 1) (toy_digest 2) = Panic.
Proof. vm_compute. reflexivity. Qed.
