(* ===== verification/WorkConsts.v ===== *)
(** * The roots of empty and of full subtrees

    The tables of [povw/src/consts.rs]: the digests of the trees of every height up to 248
    whose leaves are all empty or all full bitmaps, as words.  That they are is a test of
    the repository, and a law of the hash function in [WorkSpec]. *)
From S2P Require Export Receipt.
Import Merkle.
Open Scope Z_scope.

Module Tables.
(* source: src/risc0/risc0/povw/src/consts.rs *)
(* L23-273 EMPTY_SUBTREE_ROOTS *)
Definition EMPTY_SUBTREE_ROOTS : list Digest := [
  mkDigest 0xafc105a5 0x2e6d9bfa 0x37d829d8 0x61b84ed1 0xfc8b194f 0xc4e3407f 0x369eac38 0x7300416f;
  mkDigest 0x86850366 0x286acd52 0x13f13d3a 0xb0d210a0 0x55d6565e 0xba1fbd39 0x5232d768 0xda88aa9e;
  mkDigest 0x3a823097 0x8dd3745 0xb4e3b346 0x6b7e2564 0xc6ac529e 0x9e7f953b 0x8fe50d0c 0xd8033cf0;
  mkDigest 0x42359a11 0xf09d93f3 0x4b9fb20c 0xe4f25675 0xacc649c0 0x4268857f 0x58932dd 0xd0757591;
  mkDigest 0x7b773dfa 0xb1debbb8 0x9524b3c7 0x68a374c0 0xc4f3bc01 0x867227c9 0xaa074d3c 0x7636280a;
  mkDigest 0xaa9fbc6f 0xc26ca89d 0x72ef2aba 0x3119d6c0 0x2ac03266 0xacdc1934 0x5b694572 0x6e09f24f;
  mkDigest 0xafb18591 0x1052a89b 0x53ea25d6 0xf3b1afb9 0x58bb47cf 0xb4b9d39d 0xa8e87f4a 0x1ee09fa;
  mkDigest 0xc3142cb9 0x12e9bd79 0xab2bdcbd 0x718b002a 0x81c8a50a 0x1fef07b1 0xcd290276 0x127d7c7;
  mkDigest 0x7d034cd 0x906308 0xa6d5d2ec 0x937647c2 0x81bdc321 0x6f2ff7df 0xec16d903 0x8d22d9f4;
  mkDigest 0xce8aa02c 0xd901a071 0x97faebd9 0x50f31923 0x40fcc94c 0xc1a94a5d 0xfb096f05 0x9dd2feec;
  mkDigest 0x60bfb7f4 0xd8fdb876 0x83b07e71 0x2fd28583 0x9e565e29 0xf4e5f755 0x12d1b226 0x866bafe8;
  mkDigest 0xd7f0fa84 0x5ff8a385 0x32ee5a98 0x6a5878cf 0xe984712a 0xc3743903 0x7e51dc68 0x6ca8f50a;
  mkDigest 0xcb7b1b9 0xd42753a8 0x1cf341e 0xe8cdb7fe 0x21c80144 0x39f4ccd 0xaf5d6488 0xbb445be1;
  mkDigest 0x4199b276 0xce124b16 0x7533523b 0x4299699f 0xf7995f0c 0xf4e205cf 0x2dbd5599 0x4e599805;
  mkDigest 0xbc09400d 0xcd2d6c8d 0x8a95dcd0 0xa58c752b 0x6a461364 0xb9a1cb5b 0xaa6b5b6a 0x322a244e;
  mkDigest 0x4f761f6d 0x5329afc0 0xd6568171 0x815aab71 0x7047859 0x7e845413 0xedee45bf 0xe6ffcf44;
  mkDigest 0x9be8c9e4 0x95bbe84 0xb29d24c 0x596b3dcb 0x9bb52ec7 0x5368639e 0x7d855b3 0xd64f5d6b;
  mkDigest 0x68aa4dbd 0xaf799b78 0xb090cf80 0x18f5002d 0x3e52b028 0xc60ed14 0xe8d4c142 0x5dd3aa34;
  mkDigest 0x503731f4 0x4946ecf0 0x91f4fcd9 0x3d31734a 0x94ec6fee 0xaf510ba9 0x5ef22570 0xfab499cc;
  mkDigest 0x97d67e3 0x498e7a24 0x866b16a0 0xf0d5d7a4 0x9075e0c7 0x424c4346 0x6ed14938 0x70550a90;
  mkDigest 0xcf42670e 0xc74c2178 0x3e95d1c6 0x4486e552 0x1cb49620 0x2c61e5 0x472a2f4d 0xa1c65b4b;
  mkDigest 0x67d6738d 0x356f994f 0x62b3aa67 0xbf12b521 0x5e948f73 0x40dba84b 0x3a865a3e 0x7e45ba4e;
  mkDigest 0xb4c364e3 0xe8e7fc66 0x9c640ff 0xadb25c9b 0xad3fe45 0xb4416921 0xfb432690 0x4fae7396;
  mkDigest 0xf121f5a3 0xdfa70478 0xa831d706 0x8d719fa6 0x35a18748 0x4e738d0c 0xbb7f8c59 0x780dc6f2;
  mkDigest 0x8ecd556b 0x2e79a858 0xbda9b509 0xbcb45bc7 0xaa767c6a 0xb6cd017b 0x9d0d6013 0x4647ef9f;
  mkDigest 0xf9ad4d16 0x7f42ea85 0x40fd5d40 0xe3f10091 0xc316e5b9 0x373ceb9b 0x6412de0f 0x5b4ac0ff;
  mkDigest 0xa283605c 0xf41fa333 0xd6f76c53 0xb89e0485 0xb1c78a2a 0xc32321c0 0x7b9d531 0xcad3bf0c;
  mkDigest 0xce8a7a1e 0xc9480f3e 0xe732693b 0x76586b16 0xa5e11c4b 0x48d9a532 0x29e5954e 0x8b8f317e;
  mkDigest 0xe690db3f 0x3885fb17 0x8bba09b8 0xcc5a2cf6 0xf46112c1 0x5e601264 0xaac14bd4 0xea5a3818;
  mkDigest 0x110b96d8 0x646039ac 0xa7968c08 0xde082a8f 0x632f79e8 0x15d30e59 0xba2c6c2 0xb75c70f8;
  mkDigest 0xf859c5af 0x33e73e8c 0xa9befce0 0xd3e2c055 0xcf5e6fd9 0xa5dd5ff6 0xc1335bc0 0x8d144661;
  mkDigest 0xaf249bd1 0x72924237 0xd5330a0f 0x7176969f 0xdf537a8 0xa02554d2 0xa23b829c 0x71a9abac;
  mkDigest 0x961ae78a 0x3d6c276 0x3abf5d97 0x781631d3 0xbd427e02 0xecfa4d0b 0xe2f1dd06 0xe43a8eda;
  mkDigest 0x35d637a4 0x689a00e5 0xfd23f210 0x42482b15 0x6b5d5a25 0xbde3948 0x8847bab4 0x3573939e;
  mkDigest 0xde829a15 0xc38b8b32 0x5dbbba77 0x968055ef 0x1370647e 0xe378f5b1 0x939642fa 0xd27ad76;
  mkDigest 0xd957a764 0x77164396 0x3dec64ac 0x7cb2229 0x585f6ac9 0xba1b0c5f 0xe03b5386 0xe3d78f0c;
  mkDigest 0x297652ad 0x39644296 0x620d190f 0x2192e480 0xb5e92d63 0x64958cc7 0x43db5a1f 0x81dc32df;
  mkDigest 0x78e382de 0x4c8b9fc1 0x4880c356 0xf3a4f5d2 0x59e9b2ea 0x186a2e14 0x4f4196cd 0x1f711250;
  mkDigest 0xd676aaa8 0xbdb2da65 0x7b32e8aa 0xc8636f5 0xef7e6721 0x13af7676 0x37b75039 0xe88d8a1d;
  mkDigest 0x79c684fa 0xfa6bf6bb 0xc4b93acf 0xdf52c539 0x25963442 0xadcc4ef5 0xa0add83 0x22f76c04;
  mkDigest 0xd45dfd43 0x3ae478ca 0xa039890b 0x763a57bb 0xf04e43a0 0xca645962 0x5f3dc86e 0x92e10f79;
  mkDigest 0xb64e472a 0x8d02c4e2 0x68a200dc 0x8761d64c 0x86c182ca 0xe48cabc 0x682a829c 0x67be34f8;
  mkDigest 0xdfbfce63 0x2fd39f57 0xf88012a7 0x2418f1c3 0x88099108 0xee42903d 0x35055bbc 0x4f5d3e1a;
  mkDigest 0x7a6d9c8f 0xa517c309 0xaa9fbc6 0x4cbb3760 0xf880c539 0xb1e8914d 0xd1a16c79 0x899efec6;
  mkDigest 0xfc1740f2 0x8fc79b53 0x6ca56f4 0x4adca761 0x3475a9e 0x87ef47e 0xd67d5768 0x414c5d5a;
  mkDigest 0xaa46f8b6 0xa8ff7e1e 0x46ce28e6 0x8cedf2bf 0xa12b4c26 0xea07acc 0x307e9461 0x225bde0;
  mkDigest 0xdde4bb38 0x91122afa 0x20b0956d 0xf1526c19 0xce367989 0xb2308995 0x7de3ec33 0x8034e611;
  mkDigest 0x14f4fd7a 0x2a320cba 0x5dc2eadc 0xb2b99ae1 0x4c9621b7 0x2a42deb4 0xa1702856 0xa4aa8592;
  mkDigest 0x2e9d54ec 0x3fa042ca 0xd9a07064 0xddc9f042 0x8c4280 0x4599c9ae 0x1c8f1b16 0x828db446;
  mkDigest 0x15c6a393 0x1b312a8a 0xfeede595 0x66700530 0x4f2c24b3 0x8e2f8cf 0xba9f0cf9 0x2aafa773;
  mkDigest 0x7ada7180 0xbffdce5b 0x48d5a4e1 0x18992da1 0x1ef3246e 0x10d1ab7f 0xcd10c290 0xc29a09a7;
  mkDigest 0x84333e38 0xfb78ff4b 0xf762d661 0x98d56f22 0x7c9db478 0x8541caa0 0x8cd16443 0x4fd67700;
  mkDigest 0xe2614619 0x7281217f 0x2376cae8 0xe7045e25 0xdb3f23a2 0x491edc48 0x961c5014 0x4ef57a12;
  mkDigest 0xb3ad6828 0xf2196b93 0xf6a5828c 0xc0d0dbc7 0x254399fe 0x5e6e2978 0xce2c5e39 0x56fb5034;
  mkDigest 0x5b02160a 0x2e7ee341 0xcbeca2a0 0x1bf5a462 0x850f73d7 0x65e9499a 0x9e0927bb 0xae379cc7;
  mkDigest 0xad4bf7cd 0x11f4e9a6 0x1693ed37 0x43597d3b 0x60bb41e0 0x3fb6beae 0xb38e0e8f 0x144e7d16;
  mkDigest 0x7f21cc74 0xdf66c1bf 0x6c61b075 0x34645d66 0x716adb3f 0xab41570f 0x34c400e6 0xae306ade;
  mkDigest 0xe5d7a688 0x7f664681 0x7b86f624 0xddcf0f9 0xbc2b7eae 0x920aea46 0x4a630225 0xd34a7a8a;
  mkDigest 0x653d795b 0xa007984a 0x4b86f34f 0xe0c073dd 0x96e681ff 0x4f4a073c 0x73a1b13 0x298b928f;
  mkDigest 0x9ccdeae6 0x207d0d01 0xad4b6900 0xbe40e088 0xcdf2ffaa 0x13135ae4 0xf2a5307c 0xbd13e692;
  mkDigest 0xb6713b10 0x1c41c684 0x47c49415 0xb5e0cb14 0xbb8d662a 0x8e03304c 0xb1917b4f 0x6f9a6fa1;
  mkDigest 0x3a040772 0x66298456 0x6bf73ed4 0x567601fb 0xcb3c3a03 0xc4ed1c52 0x44ada8e5 0x4ef0c961;
  mkDigest 0xc97018e8 0xbbc9d2c2 0x586464a 0xe1805f34 0x7738216f 0x55d7aee9 0xb9ae680c 0x6e23b238;
  mkDigest 0x196fbf81 0xd84b8142 0xfb65c586 0x992b9794 0x206c7878 0x471165ba 0x795035ef 0xe59a9521;
  mkDigest 0x9a03be57 0x77e68a91 0x2d5c385b 0x9474445d 0x1bfa81ec 0xa389c447 0x8b7bc0a9 0x770109ee;
  mkDigest 0xdb7813a8 0x3861c2ea 0x3e5f5c41 0x789a848e 0x50d8e672 0xdc0da57f 0x2da7b506 0xd769f9b1;
  mkDigest 0x5530f038 0x35bdc5ac 0x2ce973c3 0xd145f868 0x2deb6817 0x54a09463 0x66eb6da 0xe7b3ddc7;
  mkDigest 0xb7a55fac 0x9e15042c 0x3cba88f 0xba363e3a 0xbfa7bcd4 0x42b327cb 0x5a5a02e4 0xd411eba2;
  mkDigest 0xfef225af 0xd7ab58ca 0x5534bac2 0x3b3534ae 0x9791bc2b 0x8d556b2a 0xc35a15e7 0xd5bf2b17;
  mkDigest 0x68474dcd 0xe2284c60 0xe69a85bd 0xd3e42db1 0xd2cacd75 0xf2ac619e 0x56fbba54 0x9dc530b5;
  mkDigest 0xbe469ad7 0xe1904d3c 0xec50ca12 0x59da3cac 0x28a25595 0x381fb710 0x55986683 0x5419f267;
  mkDigest 0x93f6ab46 0xaa4408f6 0x8cef574c 0x91b50377 0x7b8f43d0 0xd8fae9ab 0x58db044 0x5c320f5c;
  mkDigest 0xdeb6c173 0x20286d85 0x6d4546f4 0x81208626 0x7ee212cf 0xc96e2d34 0xc577732c 0x8bd259db;
  mkDigest 0xfd09fa15 0x1236f214 0x30fe1f52 0x233215e5 0x33a03ef0 0x3e7d6984 0x8015d924 0x3ac3e27a;
  mkDigest 0xf405797b 0xc38bf88f 0xbba9d92 0x7a430f9b 0x82c9f0e6 0x297661e7 0x90cb0bd7 0xb21579b2;
  mkDigest 0x6a620149 0x6e94d9fc 0x80e8ded0 0x72ab10b9 0xfa5f4c 0x3011e74e 0xe59d204f 0x907f16a;
  mkDigest 0xa9461ccf 0xeabf078a 0xb9e1015 0x240c8aec 0xbbddf94e 0xf6c79914 0x924eb181 0xe39eb98a;
  mkDigest 0x6f308de9 0x46afdec 0x37bea4aa 0x23977010 0x37336380 0x18e82bcc 0xe1a9fda 0xbe0dc959;
  mkDigest 0x703e9cc4 0x3b3fe077 0x6b99db13 0x2a97c418 0x8948a2d7 0x99039d30 0x36eb4d6e 0xd1bcf610;
  mkDigest 0x702ad696 0x8707289f 0x1df6f542 0xbf66ec31 0xd5dfe2a1 0x66cab715 0x50e5563d 0xef069237;
  mkDigest 0x79f67f02 0x17a0d312 0x2ca53921 0x7dfe1aa5 0xf1641cca 0xdf741f8f 0xa0395487 0x7bf7b10d;
  mkDigest 0xa15f7989 0x60656160 0x1f21ff60 0xc8ec5972 0x219be2b8 0x88604be5 0x326ad50a 0x29b83c8;
  mkDigest 0xdf0d6aa0 0x89eb32d6 0x963c5b9 0xf0460033 0x33382274 0x2241f32b 0x4e9c060c 0x2a23ab62;
  mkDigest 0x613ea5db 0x4d67a86c 0x4f26f9b3 0x38d95ac 0x6944d181 0x1ead2b81 0x45ea8e4a 0x981c6e83;
  mkDigest 0x256f21c4 0xf8d64e8a 0x4d49e6c7 0x8df44929 0x2ee39901 0xd3ce120b 0xf1717a2b 0x58b642bb;
  mkDigest 0x2d6efd4c 0x84ea2efa 0x841824b7 0x860a6556 0x86866d05 0xbf981673 0xfcbd1b8e 0x8c2942b3;
  mkDigest 0x2476dffb 0x9f5ce339 0xff1c3e08 0x377e325f 0xf0efe3aa 0x7a444b00 0xaa7c17fb 0xba91f6b0;
  mkDigest 0xafa7199a 0x66552897 0x60ca83df 0x66acfdf8 0x27b56252 0xf3e0101e 0xaf82408a 0x8b88df8d;
  mkDigest 0xf72769b2 0x849e9249 0x365e7884 0xd593ece7 0x584baeee 0xf1762f18 0x3a2660e7 0xc547fb6;
  mkDigest 0xe2100bc1 0x1f99f6a1 0xa583cf00 0x9ce86ad3 0x7d568f88 0x38609d5b 0x94aeae4e 0xa90cc171;
  mkDigest 0xacaa00f1 0xbabee75b 0x7ab82009 0xe0b25965 0x655bdeb1 0x9077f3a2 0xb36449be 0x64796003;
  mkDigest 0x495ea05c 0x378516b6 0xb8cace83 0x3ae54caa 0x5222075e 0xefb72847 0xfc6dfea3 0xc2fa9f4d;
  mkDigest 0xca6ade00 0x43609ac1 0xd2f5c629 0xd958e0de 0x5300b4dd 0x63156ba6 0x587d90b7 0xe8ed4a9d;
  mkDigest 0xbcab311 0x84fdeab3 0xe891f5fa 0xb7684e6b 0xfa1f737a 0xfbbf990a 0x20820ea6 0x672720d3;
  mkDigest 0x1be09e74 0x4c42da1f 0x658f5e8f 0x62aee788 0xa6207527 0xfb790947 0x64af968f 0x86515bf;
  mkDigest 0x77e58cb5 0x8315c23e 0x5f81afcf 0x95a0062f 0xb5e46f68 0x5b092341 0x2160ec65 0x3cdbd1f;
  mkDigest 0xf946e9fa 0x11fed6c5 0xa62ce22 0xc81ec690 0x1dad7f9 0xca7f7162 0x77fc696 0x70805a0c;
  mkDigest 0xb1951a4a 0x51e3636c 0xc639e36b 0x8953d737 0xdf85126e 0x60826c8c 0x55d819b9 0x5a901f71;
  mkDigest 0x6c092cbf 0x7ce21abb 0x95068a71 0xaefde249 0xc2229eec 0x244e634c 0xed5d8cda 0xbdb2b439;
  mkDigest 0x1aaf27dc 0x6aab420b 0x7ba1f6ad 0x5eee3a2c 0xd0e6b9e2 0xa598bb2d 0x73dcc9be 0xeb59ce1b;
  mkDigest 0xc73b8128 0xe20b3f3c 0xe5d14fe5 0xa0307ba3 0x13e5b91f 0x1e369190 0x5e3db5f2 0xdb56ebf3;
  mkDigest 0x28e55606 0x3715e5f1 0xafae199b 0xafa499b2 0xbb0f1a9d 0xebff97dd 0x3874c994 0x57320b69;
  mkDigest 0xd2f3e65 0x4954627b 0xc2da20c6 0x58a433d 0xae990bb1 0x2ef35e5f 0x2a40ce40 0x1ca33e11;
  mkDigest 0xe60fb21 0x75b589d8 0x8c4b0429 0x205b31ce 0x2397eedb 0x241427f5 0x2d605743 0xa2a934c2;
  mkDigest 0x80f067b0 0x35eac04d 0x39f52695 0x7e368b0b 0x2cb97e13 0x5325853c 0x28a39307 0xa92f24bc;
  mkDigest 0x716cbdac 0xc3c45564 0xe0fc6bf 0xc23b7077 0xe2d4ac46 0xae246199 0x262135ea 0xdb3dc071;
  mkDigest 0xc3e6724d 0xf627a6b1 0xe54b7d9b 0x24df04ec 0xa363ae 0x6720e228 0x30290c5c 0xfa0ccedb;
  mkDigest 0x6b144cb3 0xa3ec9623 0x2399814b 0x2d248391 0x5d663633 0xfb7da730 0x4d25830d 0x305a8ff6;
  mkDigest 0x121ed7a2 0xca2929de 0x23318621 0x3435e006 0xa144d22d 0x7f564d50 0xb318a405 0xab207cde;
  mkDigest 0x713889bc 0xfe8a75ec 0x59416bd9 0xc0eb0465 0xce1698d7 0x89174486 0x1950fcad 0x88146d3e;
  mkDigest 0x16065bf7 0xfb82e6 0x83835f18 0x25a336d4 0xdee55d0d 0xea3474ea 0x6d0002f8 0x190d7228;
  mkDigest 0x38e02ba7 0xdd5bb0e2 0x97613278 0xb828e60c 0x1351f8e5 0xacd5b68c 0x5a5520ce 0x6f01b84e;
  mkDigest 0xce9324f1 0x6e660cff 0xc149b0ba 0x726b169d 0x63f17596 0x3ad9965b 0xcabc41cb 0x29f8c709;
  mkDigest 0x9fed32da 0xa90d4039 0xba313672 0x61122476 0xc3f07f2 0xba0af5a8 0xcb9c514f 0xf2167c55;
  mkDigest 0xf772d0e 0x819ca280 0x48d69456 0xd53e0a9b 0x1dbec7ab 0x57f51fcf 0x7b69ee8d 0x28dfe073;
  mkDigest 0xddc7b605 0xaba42bd5 0x53986c49 0xe68f9cf3 0xc30e59d6 0x6fbee701 0x3473bac2 0xe2214089;
  mkDigest 0xc6fe614f 0x4c153d33 0xa73c4a3 0x9e28323e 0x11d0f6be 0x35a3f554 0x695a0af1 0xa5ebb29f;
  mkDigest 0x9429819c 0x1c585121 0x44c57e12 0x3ed0ed43 0xe23965be 0xd765d493 0x29a39bc5 0x6467dce2;
  mkDigest 0xf7b8fc1a 0xa008c473 0xaea24b6e 0xdf83b793 0xa9dd5306 0xc89480c1 0x3fbe7f86 0x1f1eba00;
  mkDigest 0x392aea8b 0x32a9f8c8 0x49154399 0x742ba9b9 0xbd3acee2 0x615ff6a0 0x52e4d27f 0xea39529c;
  mkDigest 0x33761d1 0x81295fdc 0x5d24547d 0xb4c53572 0x50976269 0x62dc958b 0x14d13c58 0xfd7e0af;
  mkDigest 0xec8bb568 0x163728c1 0xd737c32c 0xa226a5bf 0x9e4558b5 0x1db0d653 0xc446fad5 0xcd038fc4;
  mkDigest 0x7884d150 0x5fe16420 0x7198da93 0xa1790b87 0xe816e99a 0xe008965f 0xd5f0760 0xf99f1505;
  mkDigest 0xe7c9f31f 0xcfccaf6d 0xd7c0ef8f 0x96474467 0xe5a57bf1 0xb40d633f 0xda7070f7 0x3be3ef92;
  mkDigest 0x5763f00 0xa61ff74b 0x7f0ba6e9 0xb0725fa6 0x14f07dd4 0xd53fc5f9 0x49bdea65 0x8bbe0333;
  mkDigest 0xe0b369e6 0x4b2e2f6 0xca22c1df 0x373158b7 0xa89eca1f 0x6b7bd190 0x73f6671c 0xb88ed12c;
  mkDigest 0xa79ee978 0x1013cc78 0x2862f444 0x79bf0190 0xb6e2e086 0xd099b206 0x5da954fc 0xb09a7c77;
  mkDigest 0xf961dcd1 0x2c088923 0xac1f1e82 0x6fa26b38 0x1f3b7376 0xcd68c588 0xf7d0b8f4 0x9750ea39;
  mkDigest 0xf9429713 0x73d46453 0x468dda70 0xdbbe4780 0x14955690 0x763c2a2c 0xe3393b87 0x46475317;
  mkDigest 0x73a1c980 0xc7e27b7a 0x7c3bdb57 0xf294288d 0xd189d4a6 0xbad4508 0x48433469 0xe069c1ff;
  mkDigest 0x882e6db7 0xde3dfca4 0x7a9f32ef 0xf314c518 0x12735904 0x1a17aa47 0x9ab8bb21 0xaba6f950;
  mkDigest 0xc0dcbac0 0xc04953f2 0x75580ea1 0x234ac801 0xb445ab87 0x288212f3 0x1947223 0x8b546d39;
  mkDigest 0xd6c46627 0x33d4ae8c 0xd8c31966 0xb19fb4ce 0x9d0158b4 0xd2bce90e 0x4a1377ea 0x1f1756f3;
  mkDigest 0x7a223061 0x31369eac 0xc78f0de 0x319e385 0x4264e972 0xb15315ee 0x7b88d810 0xe8cb1bfc;
  mkDigest 0x85898724 0x49686c25 0xfe064f32 0x5ca84c55 0xb61eca7b 0xe9639fd7 0x538fd1ff 0x10718b88;
  mkDigest 0xb5bddaa2 0x1cf2cb51 0xc72a4028 0xfc8f4125 0x2b43392 0x8a44e277 0xaa773db8 0x14d22f2f;
  mkDigest 0x218c78d4 0x4b027c67 0x248202c8 0x9d1031dc 0x6d6c7b1b 0x549c5696 0x58b76768 0x69e48ef4;
  mkDigest 0x2cf5a79c 0x31d6e27 0x8296e51f 0x39d50dd3 0x80ada3bb 0x833cfe2f 0x8d054dd4 0xc4aafcb7;
  mkDigest 0xe716366e 0x6a518d6b 0x8a498a25 0xec856ee7 0x2be3e8ea 0x44ccfc6 0x92f8af97 0x32747676;
  mkDigest 0x5da49dd1 0xb6210c67 0xfd783516 0x5db8c997 0xcc7febf4 0xa7754a18 0x41b27ea 0xec4cde46;
  mkDigest 0xe6259492 0x543e7533 0x99530daf 0xb09cbf3 0x8b49f289 0x40b766d4 0x71941b60 0x110c5f6c;
  mkDigest 0x241f3e8 0x74ae6f7b 0x1f2e876c 0x77ea3d5f 0x8c987c69 0xcb1e8a8 0xb4a7215c 0x2a39c119;
  mkDigest 0x68381c96 0x7945b246 0xd9deab7d 0xbedf15e9 0x6a4c85c 0xcd1c4dfe 0xe13b702b 0xaaf9ed02;
  mkDigest 0x4f753a2a 0x456a0b35 0x7847f547 0xe301e686 0x36f42e23 0xe95e2101 0x9173ee0d 0x5d83ed8a;
  mkDigest 0xec79ae5 0x9b042abe 0xab0709cb 0x1678477c 0xd68b92eb 0x816c7281 0x775a8619 0xa2699625;
  mkDigest 0x6b3f14cc 0xfae2c268 0xec856fe1 0xd3936b58 0x1e2edb9a 0x4426cbfd 0x43b4c48c 0xc57ae254;
  mkDigest 0x6d6d2bac 0x6e371513 0x5d7764a8 0xda0311c6 0x7d31a0de 0x9f0d46b9 0x3857eddb 0xb1bc1da9;
  mkDigest 0xe0dbf89 0xb58f31e9 0x17e9d992 0x737b3a31 0x5352de66 0xb4e5cb78 0x71a9f07c 0xf1d2e9e1;
  mkDigest 0x5b797bb 0x93d10ee9 0xd38deec2 0x8956b55d 0x9de0b9d5 0x9529f021 0x1a157ef4 0xb505b2b4;
  mkDigest 0xe424dd89 0x3ab66276 0x3eb07c3e 0xd4e6d695 0xb975a914 0x6ccab46a 0x89e793a1 0xce11cb38;
  mkDigest 0x6b1d7801 0x2535bcb9 0xdc6a88e3 0xe39abd55 0xfdd52a33 0xb5154c1e 0xa3770382 0x9c3066f4;
  mkDigest 0x4b36fc52 0x90f9d9ea 0x883b4d59 0xa034aac1 0x64d8eaea 0xd7472328 0xeeb0be28 0x29c68897;
  mkDigest 0xd966b9d4 0x9abd5758 0xde7aef6d 0x2c533d40 0x41fcb249 0x36de945b 0xa1dd5371 0x88bbb17d;
  mkDigest 0xa5d44985 0x84a6c777 0xa62b54c3 0x513d72b1 0xb80883da 0xe3c18a44 0x17ede0c9 0xd292fadb;
  mkDigest 0xedd86bf7 0x23eb8aa6 0x68239c0c 0xa0e201b7 0xbbc3946 0x9ae9ca60 0x9f20a405 0xaa8592b0;
  mkDigest 0x5db2be26 0xfc6df99 0x2bb5860f 0xb40b354a 0x3d813d68 0x34ddf492 0x73b83514 0x10500b81;
  mkDigest 0x11af780a 0x5fb39fe0 0x1aeeaafb 0xf985140d 0x96388343 0x1bdc45d4 0xdd1bb71 0x76bca755;
  mkDigest 0xf11b16ff 0x68e4ba88 0xac6f0eeb 0x70fa338a 0x2fa0a660 0x461ecfd4 0xe00df116 0xf076e572;
  mkDigest 0xc3932b72 0x82a73210 0xb6ad8316 0x6178114c 0x34137642 0x48746d02 0x1037a660 0x3e049423;
  mkDigest 0x94eeb654 0xabf0b0 0xea03bebb 0xd93a54df 0x5fdfe239 0xd81f7d5a 0xc37309d7 0xf70c409e;
  mkDigest 0xd7091edb 0xf5e66696 0xe3870342 0xf693dfaf 0x7841abb7 0xd5c40d38 0x6c122378 0x2acac611;
  mkDigest 0x3c77ef83 0x7104f655 0x467bd2bc 0x29089c96 0xf61938ec 0x25449ed6 0xaebb2674 0x1b53ddbf;
  mkDigest 0xd37724f2 0x3a0b6041 0x663636d 0x2fba9c74 0xffab2c0b 0x545babb2 0xd424af7a 0x92cfcd60;
  mkDigest 0xb59c61fc 0x4e22e0ef 0x71abf6a1 0xfacd440c 0x41f62583 0xc7d12e0d 0x9fca3c56 0x6cecbd9a;
  mkDigest 0x44858b80 0x6d822f75 0x39f9fe4d 0x44659c4c 0xf8a857bc 0x36853cc 0x48c18194 0x8e567238;
  mkDigest 0x97ee90ac 0x985501f0 0x3d40474a 0x3ef88149 0xf910bc98 0x1ede69af 0x88d31df0 0x660efe4e;
  mkDigest 0x36144028 0xe00eac0d 0x4c80c647 0x65a5e5ca 0x323f6a34 0xa88de65d 0xce3bea5f 0xd4788f09;
  mkDigest 0xfac07baa 0x4fe9ce9e 0x2854fcf7 0x8f9740a6 0x3a931a24 0xa8d1a9c7 0x45e51f5c 0x72e7c30e;
  mkDigest 0x310d3d26 0xc985ae0 0x2d4bd1ee 0x516e9a1e 0x2237b3ce 0xd761ddd3 0x79e69c2f 0x4f33c31a;
  mkDigest 0x87a09f0e 0x97bd9120 0x48ed63f1 0xeb0bd94a 0x815c0692 0xbdb61f99 0x551139d1 0xe7b1a168;
  mkDigest 0xdab4b958 0x69c22745 0x435e6319 0xe0d6227e 0xbf743f73 0xa47a1dab 0xa021f135 0xa7dc677a;
  mkDigest 0xc950aded 0x883ca8ac 0x721045cf 0x2490bf6 0xa6b0a0be 0x4c04c9c1 0x3df39b72 0xcee43688;
  mkDigest 0x2337a84e 0xa3a98be9 0xc215e736 0x4cff9653 0xaf21640f 0x3b69d1b4 0xaca2b5f4 0xf5d6501a;
  mkDigest 0x6e265ecd 0x8920a287 0xe32056e1 0x2a42f029 0x78dc180d 0x92f160ae 0x6c9ed74c 0x5cd14e77;
  mkDigest 0xca088766 0xafc0cd88 0xf97a6eb2 0xf4dd04dc 0xeccfac5a 0x18b030b2 0xccc4aea4 0xc995dd81;
  mkDigest 0x72da35b7 0x4c384bae 0xfac2a7ee 0xe849c712 0x3ab4ea4d 0x26fc5cf8 0x19a605aa 0x5770227c;
  mkDigest 0xb3156ac6 0xce58d6b6 0x6af87f90 0xf2a97447 0x7047e6e1 0xd954c00a 0x5d966e21 0x8110a27d;
  mkDigest 0x55625562 0x73c1e8df 0x96438f67 0x64e1d9df 0x4a4cdcf0 0xd5b5ee6e 0xa61db0fd 0xcb04094d;
  mkDigest 0x9e5dc71 0x4b54d321 0x9a82b3d1 0x7cfd3af5 0x11e6cdc9 0x4ab89850 0xa0525474 0x29fd9cf2;
  mkDigest 0xc6b7a4b1 0x83ce9a02 0xaea9a579 0x363b1e3d 0xd5092545 0x5ffff0fb 0x4d18bd96 0xc1dbf34c;
  mkDigest 0x2d16dc7a 0x7d170f70 0xa53009ae 0xc723a83 0x50a285bb 0xd4bd5d2e 0xae3b7834 0x5fc15a13;
  mkDigest 0x202416ec 0x924f5e01 0xb2858ba2 0x2ead46a6 0xb46fe0cb 0x6482ae7a 0x8064bb3c 0xbbdf800e;
  mkDigest 0x60d9ee41 0x62321d9c 0x39c57df 0x524c6481 0x80c34af1 0x2d2d1f0a 0x5416065d 0xba8ec323;
  mkDigest 0x3f96a4bc 0x3fd27369 0x128192e3 0xa4ae8baf 0xa3ce7c5e 0xc1f1727d 0x86a9e1d2 0xe75d6119;
  mkDigest 0xd92388b8 0xab01a57 0x6e0d0e6c 0x35160d55 0x4d827e1d 0x780a993f 0xd0a95240 0xb793a25a;
  mkDigest 0x29ffd64a 0xad1bd52 0xfde9b1c 0xa0152ff0 0x51dbd007 0xf8d0fc 0x64a78ccf 0x4ec16fc7;
  mkDigest 0xbed35c8f 0xb8a8e9cf 0x875cf02b 0x494866a0 0xb8ccd625 0xcae31343 0xdbc75a17 0x76c7b69f;
  mkDigest 0x6ebc7b3d 0xf15eb981 0x7b1aafbd 0xdb465d14 0x523e1cf 0x352f5bfd 0x585ce669 0x8aee428e;
  mkDigest 0x7e126dd5 0xd9de21db 0xe3d72453 0xa1e2f761 0xec353256 0x6a6ca2e9 0x76b4d4f1 0x53fd8c21;
  mkDigest 0x2fccab89 0x33a5b8b2 0x4edc66e7 0xe6b6e765 0x8c48eef2 0xa96a9e 0xc8286726 0x68337a5c;
  mkDigest 0x5775a3fc 0x1b15eff9 0x66a62e8c 0x417fd7c4 0xe3dbe1cc 0x1d475b1b 0xc29b5e71 0xff41cfc5;
  mkDigest 0x2adfe7d2 0x8db03416 0x852df656 0x3eaa29a9 0xe35dfabc 0x4a76b96b 0x3e25fd87 0x338c7c14;
  mkDigest 0xdbc9431f 0xf4522450 0x6257182a 0x74d30c80 0xca4dab60 0xf9192e66 0xbd75bf14 0x8d48511d;
  mkDigest 0x9be9eefe 0xb3e66583 0x20da1c8c 0x31e0fe2c 0x6a9bf51c 0x86067280 0x48d4b245 0x7c3b1dc1;
  mkDigest 0x4de92d85 0x8e8de3ff 0xfd84b691 0x5488368 0xd917c0be 0x4d56a15d 0x764bb7b9 0xf49676ab;
  mkDigest 0xd1553172 0xa8c0b63 0xefbadefe 0xeb1ff502 0x7f66b929 0xb970782c 0x6c33739b 0x56327528;
  mkDigest 0x5ce9f20a 0x6a431b4d 0x5095d14d 0x415d3d34 0x5f78307 0xbd3659de 0x14dc5daf 0x38cd0a8;
  mkDigest 0x5815da24 0x306efcc6 0xd5bd3f38 0xb53cc12 0xf58a50c2 0x5eca060f 0x7cfe51e 0xa3bee12b;
  mkDigest 0x652dc05d 0xeca7a8fb 0x447f5244 0xfbaa5217 0x6e56e8a5 0x25081334 0xb1473616 0x828b1749;
  mkDigest 0x61b6cae6 0xadca0add 0x807e8d58 0xc7498e9f 0x85b1b03e 0xacfb0135 0xb32e9ec9 0x8f984302;
  mkDigest 0x1ff530c9 0x37cd9d39 0xafdf46f0 0x412403b8 0x89a8df9b 0xf1b46841 0xc20a005b 0x6574215a;
  mkDigest 0x2aee42d2 0xa7daea7c 0x5c2fbbbd 0xe130f707 0xaf65b8dc 0x88b1e19f 0x860f2cc 0xfa7476d5;
  mkDigest 0xef878854 0x1d6803e7 0x74167c96 0xb9c68f00 0x1783bd07 0x342c36bf 0x1a49bda8 0x70bb8ebb;
  mkDigest 0x3e5403a9 0x4a80b66c 0xe722da7a 0xd25df3bd 0xd824c62b 0xdf01372 0x11b9b763 0x25aed564;
  mkDigest 0xb84e17ab 0x6cdaecd3 0x460e0c84 0x8cb20b3e 0x5241c0d3 0xf3baa5a4 0x944ff762 0x68db3df6;
  mkDigest 0xff392db0 0x888b0136 0xb0cb6b42 0xe7e78a51 0x63a291e0 0x31e1b0bc 0xc06e2bad 0x553cec26;
  mkDigest 0x1514bfda 0x6af17559 0x9b847f1c 0xe0335a7b 0x84cf32b4 0xf27f9bb0 0x831ec30f 0x3d4dc035;
  mkDigest 0x80414484 0x4db9e759 0x9bf796fe 0x215e373e 0xbcd1e33b 0xbde7afb4 0x821daca9 0xd56e6122;
  mkDigest 0x2f145fc7 0x9debbe2f 0x4023f02a 0xc4b46f9f 0x2739174 0x11c343b0 0x62c3bbaa 0xe63662d9;
  mkDigest 0xb559c8ed 0x8363a7b4 0xe4acf7da 0xd14b7e2a 0x72fc05c2 0x2f1548dc 0x3ac67bcc 0x7178f2f8;
  mkDigest 0xb55fffab 0xae057b0e 0x638cbdb3 0xf81ef950 0x8aac210 0x11067f2b 0x2bbc2808 0xc6f89a;
  mkDigest 0x7f5b4bda 0x7dc3d88 0x807d17a3 0x81532f5a 0xf6342125 0xf950f03e 0x407461eb 0x2c755d99;
  mkDigest 0x89866d9d 0x477b951 0x3f2694be 0xba90cc9a 0x219f04be 0x410ff387 0x1176397d 0xc3e1ae7f;
  mkDigest 0x700b299d 0xa83e9e99 0xc55116cf 0x465edd2c 0x4a77e9f4 0x10e43f1f 0xd068bbcd 0xcf545c6f;
  mkDigest 0x72755eb3 0x90cde7d3 0xed9d8fde 0x3ee73a23 0x53ef5b6f 0x88fdfce9 0xa53dbd34 0xb40ab65e;
  mkDigest 0x438afb24 0x435ba357 0xb59e6d85 0x12ff05cb 0xc063f1e4 0x14e45d9d 0xe63e0d7d 0x392236f9;
  mkDigest 0xc3294732 0x866047df 0xd25a4771 0x54dcfbfd 0x4d97f5e9 0x77e73e6e 0xc4cfb50e 0x11fb2127;
  mkDigest 0xcfb27452 0x58125f29 0xf63e460c 0xadfc8a32 0xecd76b99 0xa72224f2 0x8335c6e1 0x73d798ef;
  mkDigest 0x21858e2f 0x7236d62 0xd136f180 0x175bb15 0xf40ada69 0xd9dea5a7 0xc849596d 0x8840d52a;
  mkDigest 0x9013fa5d 0xb46f1d2e 0xc09d06a8 0x463235a7 0x54e16054 0x34a91e09 0xe4f04129 0xbf53d34f;
  mkDigest 0xc0404190 0x4acc099f 0xbd22aaf0 0x3d54ac9f 0xda20620d 0x97b5043a 0x8173e1be 0x5b226360;
  mkDigest 0x4350b0ca 0x6d476252 0x716a8a40 0xf67c4543 0xa78cdc8a 0x5a3312ac 0x7f8b2f6a 0x6e30ba7e;
  mkDigest 0xe7e46034 0xc28013e9 0x908a0ce3 0x26837975 0xc0a7b4b8 0xf3af7acc 0x834adacd 0xfbbc422f;
  mkDigest 0xa44b64d2 0x6def3ca0 0x80e1250f 0xb322510d 0xab418ccb 0x4e8ca9c6 0x8f0b83a0 0x304aea6a;
  mkDigest 0xa1615900 0x8ac383b7 0xe77b0aa0 0x37e0cda1 0x256f464d 0x5999730c 0xaef666d9 0x5d2208f7;
  mkDigest 0x95b80e30 0xce948055 0x3ef78d9b 0xfb40d633 0x1b40f754 0x38f1cc8f 0xa9c4109d 0xea3558c3;
  mkDigest 0x26d801b2 0xe5cfde87 0x7878ebab 0x722de33a 0x24029cec 0xc616f72 0xd3c0a9f2 0xdc809b71;
  mkDigest 0x832d5ff6 0xba66a54 0xde031e34 0x448d8d38 0x68dbb933 0xd6c40f92 0x893db497 0x4c905cac;
  mkDigest 0xcb6c9d7d 0xb2f195e0 0x8289b262 0x1af124d 0x2bb59705 0x467e8ae9 0xd41e503 0xba9d52da;
  mkDigest 0x17a5abc0 0xef1569e4 0xdd9856c1 0x661b74f9 0x6c7028ab 0x38971702 0x41d4e3b7 0xf1c63cd2;
  mkDigest 0x57cc604b 0x9a99d39e 0x21bdbf98 0x1436ae39 0x6f5fe94c 0xd196b09f 0x26226df8 0xb90f7e64;
  mkDigest 0x48c105b7 0xee1bf8ec 0xd2fd7690 0xd58e27cb 0x11737618 0x4aed0d65 0x8c157e92 0x9dfa05b7;
  mkDigest 0x44e41711 0x96b59df4 0x3fd26aff 0x296b2a08 0x75786fe8 0x5b76f6a8 0x729ad98c 0x6bed690e;
  mkDigest 0x32ade063 0xc281f9 0x2a155da4 0x247fc873 0xecd74076 0x432218a9 0xb2d17e19 0x93b9d6f2;
  mkDigest 0xc21292b1 0xdeb6b347 0x5eda36ee 0xc88091b3 0xe505d8d4 0xb8ef6468 0x62212237 0x8c420ce9;
  mkDigest 0x92e8602d 0xd930ed4b 0xf193dcf7 0x7325cf98 0x90f171c8 0x50b8496a 0x5129de0a 0xaceb5072;
  mkDigest 0x5af17b3f 0xe9db1eef 0xf0f124f7 0xf01d7e66 0xc4da21dd 0x39817cf2 0xac8c80c3 0xe76a43e1;
  mkDigest 0x39bc572f 0x5876e95c 0xa53f5635 0x26e2fb76 0xec47e8a6 0x3843549e 0xe4ae3c87 0x1c4e6e13;
  mkDigest 0xc19d83f6 0x5f4b0aac 0xdd01e5c6 0x399b0094 0xcb4e843c 0x312cb85d 0x4f884c4 0xf127399f;
  mkDigest 0x92f67706 0x9eb4ff26 0x56cc1360 0xae1eea32 0x7c8b7374 0xdc00b7a1 0x6ff937ba 0x7917b1a1;
  mkDigest 0x85f81900 0xf22c080 0x802597cc 0x7c594a6c 0x2174756e 0x495b2b6e 0x9410ed17 0x42edd97d;
  mkDigest 0x4cd3c303 0x3da68c65 0xeb5db968 0x616eef30 0xef38239f 0x74b420b9 0x69ac12f9 0xeacc8581;
  mkDigest 0x8f2480e2 0x329a0b9 0xf5fb713e 0x2eb67b36 0x8a260be9 0xff9307bc 0x2a249977 0x65801350;
  mkDigest 0x5ba53711 0x3ff46ab4 0xc1454d6a 0x7feeaa6e 0x78e85e34 0xbd0cc832 0xd1d8b2f5 0x89fc76e;
  mkDigest 0xf5d9f0b4 0x4ae2dca6 0xaf3efd3d 0x1e069921 0xc1ccca40 0xbcbb501c 0x93cb85a 0x5ed92766;
  mkDigest 0xed880640 0xc0a6ac9d 0x12505750 0x626606c6 0x285fcc44 0x6cbc4d02 0x1b0c1d22 0x21062263;
  mkDigest 0xc70c8ef2 0x78786fce 0x9e4a5e69 0x44ff3a26 0x8de53e23 0xb3781f5c 0xd90c338b 0x93c7da18;
  mkDigest 0xa41ae777 0x1bc7bce0 0x7556a52a 0xb9cab314 0xb1b5ac44 0x8e1ea042 0x6f4d6640 0xc9deb100;
  mkDigest 0x8988a999 0xb08177a9 0x7cb49c01 0xfbbb718d 0xaa3e42d 0xa8c04f96 0x6bf2511 0x7cb6ac0f].
(* L278-528 FULL_SUBTREE_ROOTS *)
Definition FULL_SUBTREE_ROOTS : list Digest := [
  mkDigest 0x635701db 0xf7a301e2 0x937811e5 0xfce5988 0x349c6d6c 0xd2bf457 0x3a4c24c9 0x89be5eb6;
  mkDigest 0xc45b02bb 0xbdfdfebc 0x59ea343 0x3e8a7307 0x463761fc 0x68f4705e 0x3bcb2629 0x311207d;
  mkDigest 0x1ed001c2 0x667f8023 0xa8e86704 0xba48d1f9 0xc55d854b 0x5048e7d7 0x7fafbf85 0xc4bee553;
  mkDigest 0xb793ae38 0x73d7703e 0x2267205b 0x47c75c7f 0x92c69ce4 0x14330393 0xd23eec0b 0xefe1ca80;
  mkDigest 0x375ca9a 0xc411e67 0x937a8b1f 0xec03d7d3 0xb6821b2 0xeb18a26a 0xa9086c70 0xf4454bc6;
  mkDigest 0x94fc252e 0xb4027b80 0xc54cab0c 0x18ac316e 0x4a6e2027 0x4db94e0b 0xd354b1d4 0x80c698ec;
  mkDigest 0xcd46e49e 0x8863a51 0xb17b2257 0x1e303f68 0xca83f7f9 0x3f7e207a 0x73e9f2c5 0x517a84ec;
  mkDigest 0x9a6a6404 0xf1668681 0xa1152979 0xa6207e3b 0x5afbe40d 0x3fe7f57c 0x7e4d9aaa 0xeade15e5;
  mkDigest 0x6b296cb9 0x5b2db225 0xeb53b71e 0x9d797b92 0x75ac19b4 0x14b94380 0xab68bee6 0xf09fc010;
  mkDigest 0xd8519065 0xe01611de 0x51ec6ba2 0x6205bf00 0x8a4a3c69 0x8d1b944e 0x91e5277b 0xf9460f9d;
  mkDigest 0x3a41bd48 0xd0d762a0 0x21960919 0xf3e1490d 0xefbbd1e3 0x7e157264 0x3b885033 0xdcbf8c34;
  mkDigest 0xb2ffe9cb 0x89521c1f 0xce67e8c5 0xd49b5ff2 0xc6383bee 0x51d84472 0xf3813157 0xfe290769;
  mkDigest 0x77cfa673 0x71968c67 0x85ffb1fd 0xb527d56e 0xea707334 0xad1a60e1 0x4d98ac85 0xafa6b555;
  mkDigest 0xe37a94ef 0x6bad5f8a 0xaccdc054 0xb3aaa601 0x7ccc4862 0xaf6698a3 0x5ac1250a 0x343a5270;
  mkDigest 0x921da8a 0x3c8b09aa 0x75270b3 0x952013b 0x8091ab39 0x6c4c4bd8 0x7024e723 0xeba4ad18;
  mkDigest 0xfe9f14d6 0xb48777ab 0xea0f95c9 0x81896659 0x7f489e02 0x746981d7 0xeebfb682 0xd23327a1;
  mkDigest 0x7dd27557 0x4d69a619 0x80bec733 0x59fa7caa 0x60ad616a 0x9c0bca26 0x52a64e81 0x92013dda;
  mkDigest 0x7fb203da 0x3d01a0ba 0x25cc6c71 0xe32bbd07 0xe1d9c15f 0xbd070a7e 0x18642cdb 0x3e751eab;
  mkDigest 0x9077d47c 0x35eccbb7 0x47a2dadf 0xcdeb7d6f 0x276330d5 0x43e9f9e7 0x41c44fbb 0xd5ee3a8e;
  mkDigest 0x6756c2e 0xf157ec60 0xf74b5931 0x55d3f6c5 0x4e796086 0xee88adec 0x6a462c76 0x2dbd8738;
  mkDigest 0x9246ea4d 0x36dcb9f6 0x7cd57d37 0x81f4bc99 0x3316afaa 0xdd06045b 0x2c9a0d67 0x371351cc;
  mkDigest 0x4449550a 0x328456ff 0xc8c0349d 0x99d31c44 0xe7d5f1e4 0x6c2d0e61 0xdb761118 0xce542473;
  mkDigest 0x84b9857d 0x3202532b 0x9eb3f58d 0xd78f13bf 0xe3a788ab 0x1db36710 0x6c59e9e7 0x5cf48455;
  mkDigest 0xda1ad5df 0xcf1266ab 0x404d2b7b 0xba33efa4 0x9d7bac3a 0x53f2fa35 0xff429670 0x1a1d029e;
  mkDigest 0x9af2e919 0x1f4cd582 0xb03b132e 0xf35cfb7a 0xcb5ea00f 0x4af8cbb6 0xb6cd5355 0x94a92885;
  mkDigest 0x51cd74e7 0x5ecbc76e 0x4cf842f6 0x8153300 0x1968296 0x7962c0e3 0x6be56098 0x4e2bc32d;
  mkDigest 0x70b4c370 0xff5c6769 0xb12ed8dc 0x2d26ec5f 0xeac1cc77 0xc295cff0 0x7a210065 0xf5d2fa42;
  mkDigest 0x52414500 0x2176d079 0x6d0c0a19 0x46e40169 0xd62aa412 0x9766ffab 0x1bcfe692 0x9884593a;
  mkDigest 0x7e49330a 0xe0aadc9f 0x82ad84fe 0x296dd888 0xb240ddb2 0x47ff1aa9 0xbab42c 0xe11f5b43;
  mkDigest 0x49c97385 0x9a4c6bf1 0xba65610a 0xfbc77bef 0x207e82e6 0x8c4d9c 0x4ce5347d 0x3d69b14c;
  mkDigest 0xfbe6d19e 0x888609cb 0x4223be2c 0x67ebc8f0 0x392e8598 0x5a8cc220 0xb196998d 0x4c66e04e;
  mkDigest 0xab094638 0xe3c9559e 0xb4b0ef8a 0xdf2baf13 0x311ad49e 0x9536ed51 0x43bc8d73 0x9418b945;
  mkDigest 0xcdffc069 0xf504fcd 0xfdac3180 0xad88ffab 0xfbe8aa98 0xf5fe1d84 0x2e129b5c 0x1a11e27;
  mkDigest 0x2cd75e69 0xeb14fa30 0xc44ddeea 0x152fd746 0xa034c09a 0xdc72a292 0xc75b0022 0xbfd8ab19;
  mkDigest 0x7b21354b 0xc526b171 0x6517285 0x2178c58a 0x74a83f26 0x8fa32be2 0x316a20e0 0x2b7d3415;
  mkDigest 0x2a0a0ab5 0x408db582 0xf2137449 0xe7f5da45 0x2b43c323 0x57179d87 0xe5610ace 0xdac4221;
  mkDigest 0x5212c464 0xd5e41238 0xe6de175b 0xec0b7d7a 0xc5bb75e8 0xfde176c9 0xf6e2f2f1 0xedc39e3c;
  mkDigest 0x387fd1d7 0xe899988b 0x61ee6a04 0x99891936 0xbc353859 0x9fc0b8d1 0xe435fd1a 0x9002652e;
  mkDigest 0x834679fe 0xd1ad7b02 0x6cca994a 0x46ac0df5 0xe39e6727 0xfdefc8b 0xb5ce40cd 0xda5ce79d;
  mkDigest 0xdb1a9ef3 0x4b00e6d6 0xe61fc956 0x7a5b0bf3 0x9302c1a3 0xc3b6aeb9 0x4fe76012 0x8b740d4e;
  mkDigest 0x440322dd 0xdf26e212 0x24a2c38d 0x236cdfeb 0x71029599 0x1372cb00 0xae225473 0xcb89d387;
  mkDigest 0x989bf1c3 0xc89bc9de 0x1e2dd536 0x788fa99e 0x38a605b5 0x8a610fb 0xd7ec0824 0x8657025a;
  mkDigest 0x1deef0f8 0x84fdf793 0x12713c61 0x2fd9486f 0xfe5500d6 0x57c1abe1 0xb4f7749d 0xacff77cd;
  mkDigest 0xfc77ae06 0x8751c528 0xe5c54b57 0xf2fb2e83 0x2c946c93 0x7f46e889 0x6eabfe59 0xf7c49b91;
  mkDigest 0xc26ff8e8 0xd1721a 0x19f02c27 0x2f8bcbd4 0xa02e0512 0x2e79a657 0x1242237e 0x74769e80;
  mkDigest 0x77441c68 0x603a63c 0x4dba6c9 0x480be20b 0xeaddb843 0xd16e7658 0x1d714ada 0x3d89f832;
  mkDigest 0x41eafb82 0x55c97d4 0xe0bb5cf4 0x8d069f88 0xa8e1b2bb 0xa5655e24 0x409e2119 0x52fe243c;
  mkDigest 0xd6693da5 0xbb67efb9 0xb78ff9a7 0xdec11a4a 0xefd681cf 0x7ae79b98 0x1c8a22a7 0xe1ee8e3d;
  mkDigest 0xd948919 0x62c3d8eb 0x2977f539 0xbde7ab37 0x9261901c 0xf5af5176 0x9df1c9f1 0x308435e6;
  mkDigest 0x66075874 0xc4dc47b3 0x17c83bc5 0x4895ecc3 0x84023576 0xa5be0e12 0x66c94910 0xe77993ba;
  mkDigest 0xd916729d 0x85ae05fe 0xac42a208 0xa33e9e55 0xfaac2624 0xb86d39cc 0x7dcd264e 0x282a0fb1;
  mkDigest 0x261447f0 0xb8ba24f2 0xae21639b 0xf55b3086 0xce2d4c5d 0x35a1bf38 0xbb1bbfa 0x481ab9dd;
  mkDigest 0x440b92fa 0x181078ab 0xd3f7eac8 0x32437cf7 0x7a563785 0x81bbbbe1 0x6a87654b 0x95cdb9c6;
  mkDigest 0x966812e9 0x56ae07d1 0xca5c7adf 0xd9651c8f 0x1de5be52 0x66623fee 0x7984e870 0x9973d7a2;
  mkDigest 0xef4b0e3 0xa9fc1728 0x36979bee 0x60407f86 0x2a626f66 0x86721686 0xc6bea6ca 0x578fb987;
  mkDigest 0xb7d07e2d 0xa3792c34 0xadce346 0x45c398a7 0xafbc90a6 0x797cc74f 0x5854113a 0xa9a905be;
  mkDigest 0xe60119b5 0xfa1fda5e 0x197288a 0x32f333cd 0x975265ca 0xae4228cc 0xcef0b4d7 0xa2c439b5;
  mkDigest 0xe7be9500 0xfa81ae1c 0xb9c49990 0xefce2564 0x1b766cfc 0xa59bb74e 0xe596ad72 0xee672859;
  mkDigest 0x43f39754 0x8d5669b 0x7b6b12ff 0x12240d93 0xe058706 0xdaf56ca7 0x16556a58 0x3ddc63bd;
  mkDigest 0xfc6b0653 0x11d39cf9 0x94bcf74b 0x9010de78 0x94a82ce0 0x81105a5b 0xd4e1d59f 0x33ae6396;
  mkDigest 0x9ee8700e 0x8e40b8db 0x5e680676 0x171797a1 0x7b25b606 0x84e46c00 0x18655b00 0xe0bd96ac;
  mkDigest 0xf2732a0e 0x726156b6 0xa05f99de 0xa103621d 0x33450ef7 0xc6c24efd 0xabb3fc99 0x71533166;
  mkDigest 0x63d911ec 0xef335779 0x1b694e6b 0x884b16dd 0x22f24a68 0xc0097a87 0x19608aac 0xb820277f;
  mkDigest 0xe208029b 0x56ba9625 0xfd92dfbe 0xaa760c93 0x90a5dc9c 0xee323cab 0xc0e4badf 0x1b9fefe6;
  mkDigest 0xda3fa0c7 0x2394b990 0x37e4eecf 0x85e239cf 0x54855e07 0xd33fa87e 0x40a2485f 0xcea4931c;
  mkDigest 0x65135018 0xe9bfd5e4 0x85a61ba8 0xc58bd65a 0x99badd22 0xe529e276 0x428b6f19 0xaff23dd6;
  mkDigest 0x5c3f78bb 0x5f355bd 0x5c5fb85 0x75dc5afb 0x87c31d2b 0x5a8c2c6e 0x32f458ef 0xff5adc86;
  mkDigest 0xf309bac8 0x1d841bc5 0xd3f58815 0xe007e70d 0xac45ed58 0xad0d65ee 0xa927233 0x16291d04;
  mkDigest 0x1e8fdbf9 0xaf5e7a70 0x43d80612 0x8adc92dd 0xfb92929a 0xe4f01324 0x25edcbfc 0x67a93421;
  mkDigest 0x74feaed6 0xa424392a 0x4491804a 0xeac268c 0x89aa1288 0x2dc7a7f6 0x5c637a82 0x3bd5e5ac;
  mkDigest 0xdb522e8b 0x69aeb99a 0xbd3d1d2d 0x9f2de0ce 0x1a3b7535 0x1da5d776 0x87402543 0x8ad1b558;
  mkDigest 0xf73ba1a6 0x292cc1a0 0xd6ef978d 0x3afe2491 0x1d2e5850 0xa4c87e92 0xa66d8cb5 0xb4a5c753;
  mkDigest 0x82b440d2 0x8e043724 0xef4e426b 0xb74fc6ab 0x44ce37df 0x9c1f986e 0x4c28a46b 0xbc5ad389;
  mkDigest 0x5ce33b96 0xd75af310 0x15929cd4 0xe82b6c2a 0x26b39c68 0xb2cb0f6d 0x506e1d1b 0x8dc0b782;
  mkDigest 0x5627099d 0x41bea6a0 0x1e8aa7ff 0x875c0b0e 0xbb36a277 0x64e6f38 0x45fe1f3c 0xf182f379;
  mkDigest 0xab55dca6 0xf260168a 0xa5f4878d 0x622321ac 0xd0fb5e0b 0xf577a3ba 0xa6fab069 0xd6b7e7d5;
  mkDigest 0xdd1c9765 0x11bd6b1f 0x46b9b77d 0x794d7bf8 0xbdacfff2 0x3736ffbb 0xe3fbdf73 0x9f3aa79b;
  mkDigest 0x11f916f9 0x929ad59a 0x9c4b1931 0x4578b67c 0x9b6e16fe 0xa1e8fb44 0x690cf0f5 0xc18e8c1;
  mkDigest 0x70ed242d 0xdcadc92b 0xe87c4f46 0xe998f9ca 0x37445ef0 0xf1628347 0x657e2b93 0xa5b0bf69;
  mkDigest 0xe405150d 0x959d14b6 0x8ff79337 0xa2eb1a6f 0xa1464ee7 0x38e8c95c 0x38df3d17 0x594906f1;
  mkDigest 0x3961da34 0xce5e5fe7 0x7bcc38fa 0x74deefdb 0xad4b9057 0x7922a2e2 0xce070c34 0x50d9bba2;
  mkDigest 0xfbba823e 0x35966c2a 0xbaed9b76 0x9aadf8ae 0x8f9c740c 0x563eec15 0x61159aa4 0xa37a7231;
  mkDigest 0x36bf6792 0x58f5490a 0x9d7c03f0 0x6b235f67 0x1d0c2fdd 0x51fec372 0xb5eff1d2 0x2665169d;
  mkDigest 0xd3ab176e 0xbaba0e2e 0xacf99a39 0xf5787145 0x33c6f8a5 0xb2cdcadd 0xa6062cd6 0x8cc55be7;
  mkDigest 0x8e35c441 0x6514dd9f 0x3ceeb0ad 0x5d863cf8 0xf389c2bb 0x6324ac9c 0x142c57ef 0xb119da7;
  mkDigest 0xa01a0496 0xa0e1946c 0xa28bea57 0x2d6c2c79 0x8e501f57 0x6a7ec371 0xdfd41106 0xe22b88a8;
  mkDigest 0x7a461b9f 0x33a005e3 0x98a2e9c7 0xfaa9ff5c 0x689e8703 0xb9595f60 0x5786b004 0x3bc074cb;
  mkDigest 0x49fbe491 0x3a788fe4 0x7e22614c 0xe4d18a95 0x83ea0d8d 0x85e07132 0x90bd0335 0xb5818470;
  mkDigest 0x37dd819b 0x13dde1cb 0xcf20d10d 0xda53b7 0xc928466 0xd5f08719 0xf7cb9418 0x4f3bb89;
  mkDigest 0xb2867c83 0x752df5f2 0x91af2a13 0x9287124b 0x28381671 0x18f58fe3 0x9c964f34 0x4f8211a2;
  mkDigest 0xb43846d8 0xae9dc735 0xe4c12420 0xcb743bde 0x9eed8d24 0xdd20aaac 0x6f355c4a 0x63012405;
  mkDigest 0x22d3a722 0x11d64450 0x9a6a4207 0x6a3aef52 0x8a839047 0x7af6d73b 0xecc2ca90 0xa28c6e40;
  mkDigest 0x42726555 0xf1052665 0xd697ae6f 0xfaabb542 0x865a41bd 0xed76c840 0x52f27fcc 0xc958cb4b;
  mkDigest 0xa48af108 0xed527030 0x5b7a50d7 0x5172a074 0x49ccc0e4 0x74f3e3f6 0x58315414 0xb98d5555;
  mkDigest 0x5ee48834 0xfec44343 0xd013f4c8 0xcdfa7061 0x70bd7fee 0xdfc3e26f 0xc01c3a02 0x15eb79cc;
  mkDigest 0x260f81f6 0x3c8affe5 0x455f44cf 0xe83c9ad1 0xd6fa3da0 0xa7c74fec 0x265dfdad 0x93c9dff0;
  mkDigest 0xcc97baf8 0xb7917fff 0x280dc749 0xc48378c1 0x4380445b 0x9c9a742e 0x131dd492 0xbc89abb1;
  mkDigest 0x8bb0aa11 0x3b374203 0xc08e026e 0xe4c1e349 0x6c33c875 0xe12601c9 0x7316a599 0x9793f77b;
  mkDigest 0x3b74507f 0x8fe1a0f0 0xf667fb8b 0xa32b92a9 0x734f5db9 0x752005f 0x69f58e91 0x82ff9e5f;
  mkDigest 0x6b503d02 0xcb45602b 0xcf555ff9 0x8a4aba2e 0x9ed4a53b 0xe9ee652d 0x9782fc4b 0xf6d8947a;
  mkDigest 0xb14ad75f 0x21f19b1c 0x14c6656 0xda1c8e8 0x263dc6cc 0xd8639f70 0xba256cb6 0x8eefca23;
  mkDigest 0x349aca9 0xc1e89385 0x2a600b39 0x2f453743 0xd43e92e1 0x177efb42 0xb996e24 0x34b9b0fd;
  mkDigest 0xb539a90b 0x3189b261 0x2633777a 0x7fec9889 0x803f0b08 0x13e1760f 0xde8f820f 0xe17a107f;
  mkDigest 0xe7c0f8bf 0xd7cce11c 0x29e323ec 0x99f6bc41 0xfdeaa099 0xff70ab16 0xaae788cb 0x2b578cf8;
  mkDigest 0x6598bd74 0x49621fb2 0x5bb441ca 0x91643e89 0xb9a048c8 0x673aae85 0x2706da7a 0x7cf4fc30;
  mkDigest 0x735868af 0xc5a5acb5 0xdb423530 0x196932d5 0x67d5091 0xd837b17b 0x4d811498 0x2c3851a9;
  mkDigest 0x459673cc 0xa145d4f1 0x33add366 0x71c23d7d 0x6e518bdc 0x45617a09 0x83792836 0x98767718;
  mkDigest 0xe1c6bf 0xcc84ae09 0x56217290 0x271e2456 0x28b76799 0xa7a078a2 0x6e0af20a 0xbb9dba8d;
  mkDigest 0x1fea96a4 0xe43570ff 0x1989f541 0x79a585ef 0xdcf698db 0x278c12ca 0xbebd463d 0xc9067fe3;
  mkDigest 0xf3ebdbc7 0x4b350b29 0x669d0d40 0xb45a06fb 0x2b405032 0x95c258ea 0xe97dc657 0xb2acfed9;
  mkDigest 0x80b831c 0x3da2039d 0xa3867674 0x566d9301 0xb1bdb3dd 0x36165263 0xff8e8679 0x96358768;
  mkDigest 0xbf28b30c 0xa85e1d75 0x2e8036fa 0xe161895e 0xd674dc95 0x50fa5870 0x6e7e557 0xfc20e49c;
  mkDigest 0xd4b0580b 0x9838b1b6 0xce8ea0cb 0x849e3f04 0x6234c79d 0xad31bad8 0xaf97a77f 0xac5f5507;
  mkDigest 0x10e544a8 0x905a1a5b 0xc2bf5fe1 0x58459939 0x1d000109 0xd6f34787 0xdc49eb45 0x7a05cee5;
  mkDigest 0x5117363a 0x21264da6 0x49500ab5 0xbbeafe17 0x4f5b30f0 0x4db16e7f 0xe840ae25 0x71dab301;
  mkDigest 0xd00484f2 0x92e6823f 0x4334f555 0x7004d27d 0x39ca487f 0x2818aa30 0x60641707 0x1f076480;
  mkDigest 0xe5b620 0x6a5c8b94 0xef78bdd5 0x93b0df1 0xdead05d7 0x74a89eb3 0x33dcd812 0xa87dabb1;
  mkDigest 0xe9f12a8b 0x814ac552 0xecfb2386 0x7710cc87 0xd8939e4d 0xd5da0f5d 0x8689311c 0x3cbf9d6;
  mkDigest 0x45a533b 0x28d93ea4 0x10146e28 0x468e5de9 0xa7b0521e 0xdcc69d66 0xbcd72e4b 0xcfa45f33;
  mkDigest 0x38698bea 0x1b8b007d 0x4719b43 0x284f3179 0x242ec8ae 0xee870b58 0xe2bb4457 0x5cad54dc;
  mkDigest 0xe50940e7 0xa2269f67 0x89d8990f 0x7717cf2d 0xef17a5d6 0x899632bd 0x90c5101d 0x7aa7924f;
  mkDigest 0x9a969d03 0xa41f0fa5 0x2ece57aa 0x9cac2c72 0xafb3179c 0x5b8d7a94 0x3efc120d 0xc6f0bce5;
  mkDigest 0x181b73fa 0x6f5d0e6f 0x251d47af 0x6946b9ba 0x719de0b8 0xbe166193 0x9e9ab9db 0xc05ab5bb;
  mkDigest 0xc6b36fc9 0xf2311014 0x758c8b2e 0x7a6a94ea 0x6dfc888a 0xc5d86109 0xc077e19e 0xb8cacef9;
  mkDigest 0x771397c8 0x4ddb02d4 0x1cf3de4f 0x33bd8603 0x72ee4cf4 0x1afeaa04 0x14ccec73 0xbdb9da77;
  mkDigest 0xd89a9237 0xfe7e1922 0x1967af5b 0xd1018ee7 0xc197eca0 0x9f6e0b7d 0x8d01b660 0x72574144;
  mkDigest 0xd3334b1 0x22615ad5 0x378d6a40 0xf86d048a 0x63e79625 0x4c564faf 0x7e9e14fd 0xe29a6e00;
  mkDigest 0x6f0a1ee6 0x305497ca 0xd78f3d4d 0x21f46ec6 0x7651c5c 0xd3e57f88 0x89552de8 0x67fbd34d;
  mkDigest 0xeb014cff 0x5bce512 0xc12c44a2 0xee695221 0x1f74b0a3 0x71221574 0x88613da9 0xc68b1a2f;
  mkDigest 0xd2a9cbdf 0xdf3c6318 0x20daf48f 0x422ed655 0x11677440 0xf1fed705 0x2f77812c 0xa2d6ca3b;
  mkDigest 0xaf77cf03 0xbd84097e 0xf24c0ed3 0x23a82a0e 0x8d103adc 0x3026a8d 0x9d62c462 0x53e28321;
  mkDigest 0x5cbdf283 0x87767ce1 0xe35f3bc3 0x5b6b6914 0xa73be4ef 0x8df126f3 0xbb98e635 0x5d2a1d20;
  mkDigest 0x694d4c64 0xb9f19174 0xe953f91c 0x423f01af 0x5e9fd6aa 0xef3dc235 0x814ac1f0 0x540341b0;
  mkDigest 0xa092cf1b 0x4ccca139 0x8a1735b9 0xa6c81631 0x223001b3 0xc3cc8fd0 0xbad450ed 0x47f751cf;
  mkDigest 0x21938f83 0x2eab5e43 0x1ca0a961 0xa2ba7c5d 0x68fb9993 0xbf67325a 0xe67606df 0xa964029c;
  mkDigest 0x8fbf29ec 0xaa3e90c6 0x6728ff18 0xb9dd015a 0x5f06f5b4 0xb4f80a39 0x7b9ca13c 0x89583043;
  mkDigest 0xc7f5de19 0x53c9dd36 0x32f2fa93 0xed993ecd 0xdc756831 0x4a3a332c 0xeb576787 0x4ae5198e;
  mkDigest 0x82d2beeb 0xf9af1028 0x56a6bf87 0x941167b5 0xa4b53c 0x58bb2228 0xef5df963 0xe8d35641;
  mkDigest 0x57790f5c 0xb0a06021 0xb6dc3e06 0xc773a38c 0x2fe46407 0x2b74e620 0x40e63e4d 0x6e87f11f;
  mkDigest 0x87eba969 0x4fa5f9a0 0xa88d5f03 0xd794b59b 0xc46138e8 0xf71e0bee 0xde12973b 0x256fb26a;
  mkDigest 0x5289148b 0x3da314df 0x9b74910 0xf5502ea8 0x4f597f2b 0x510d8dc2 0x370b9668 0x5302eaea;
  mkDigest 0xc6056ae3 0xce183725 0x57cdc702 0xfd1f1800 0xeebe7871 0xd30d2b9e 0xaa2e0788 0x48f78bfc;
  mkDigest 0xff5c479c 0x51ef3b1a 0x1829545 0xaf7ea137 0x4d89c455 0x3512e5e5 0x9e759500 0xaa6b0eec;
  mkDigest 0x548e3e5f 0x61dd9408 0x1393e703 0x5d0e771c 0x16d353dd 0xd3492cbd 0x61526a2b 0xbf94050;
  mkDigest 0xf3418fee 0x9331b4ad 0xf700addc 0xee50a4b1 0x97dc23a9 0x38cb0c6e 0xcc06eb11 0x3011a017;
  mkDigest 0x6d8c2324 0x8eae526 0x53c49575 0x6984a96 0xd9bd0cf3 0x6475963c 0xef6adda5 0x179d44d6;
  mkDigest 0x7b45170a 0xbb592a07 0x9d73b8cb 0x2b67b543 0xf77217c1 0xf6b3b20 0x4cdcc65e 0xd6ff18e0;
  mkDigest 0x702191c2 0x95aedc46 0xfcb25c9 0x1a66b6a0 0x713ce5cf 0x908ce002 0x4d543ade 0xc889bfd1;
  mkDigest 0xb5271764 0xc4607d77 0xe8e214ad 0xed5a3cff 0x626c1d70 0x8ccdad9d 0x6fc487c8 0xfa49c06a;
  mkDigest 0xc6c3182b 0xbc4005d 0xb0dfd99a 0x861c5340 0x3c1ac4da 0xec1e3474 0x7fbc41a 0xa1ec5c05;
  mkDigest 0x3c72445e 0xd8aa6195 0xc7f6f161 0x9d2a1b30 0x8aa8d553 0xf37dc0e3 0xc1e4c9d2 0xe0c0645b;
  mkDigest 0x34e4077c 0xc8ae9218 0x36e2d9fe 0xee0636d4 0xdd49cd13 0x34ebe075 0x6b4e6851 0x5f2d00aa;
  mkDigest 0x5b3cb85a 0x497402d7 0x3e6a704d 0x7078c408 0x3fe9436 0x43fb4870 0xc7a1dd5c 0xb0168028;
  mkDigest 0xd400f848 0xe8603d8d 0x7c7160c3 0x235a3c4 0x47e859b9 0xf75260a6 0xf6df7094 0x8260b103;
  mkDigest 0xefbda4aa 0xfecfedae 0x3532f557 0x77390861 0x1146ef9d 0x8d2adf3a 0x91d8fcb0 0x63d4c88;
  mkDigest 0x73f60dde 0x136287a0 0x48454529 0xc6cfa85b 0xb575f00c 0xcace7e81 0x27fbbf03 0xedda2bae;
  mkDigest 0xa60b9d9a 0xfd35cb8a 0x14f117e0 0x6c599460 0xc1e7b050 0xe7111a3e 0xf31833cd 0xfef83650;
  mkDigest 0xe503b3ac 0xae48c83e 0xab99a3d8 0xf06716d 0x550618da 0x8b9ee589 0xead853c7 0xb7327386;
  mkDigest 0xfa52c17b 0x45cb9bdf 0x93e632ba 0xb771b2a3 0xf9de5b57 0x79951f8 0x893b0a70 0x21444ff1;
  mkDigest 0x9cb6d335 0x347e1c9d 0xe33d211c 0x141b6b84 0xde7b6a1a 0x45d0dbe0 0x635ddc0f 0x57858c3;
  mkDigest 0x143148bd 0xaabd139a 0x17fd0fb0 0xe7327ac3 0xc199042c 0x7ece5ba2 0x62bc1487 0xee94c6c2;
  mkDigest 0xe262012 0x95930197 0xc19e3018 0xa30daa5a 0x21a467e9 0x56961e30 0x5033e35d 0x578eb6b0;
  mkDigest 0x544917a6 0xc89af5d4 0xe98842d3 0xf9c96b83 0x50c6cb5d 0x96a46b2f 0xe03c76a6 0xa6cc695e;
  mkDigest 0x63f82d11 0x59ca55d2 0xc4066103 0x6a9720f 0x662b18bc 0xf8b2d570 0x9f4281eb 0x6e05c33a;
  mkDigest 0x5fa01a56 0x299aa822 0x43fb449 0x4026a186 0x2cbb83bc 0x805a977a 0xc2061b03 0x32e38f3c;
  mkDigest 0xc3f0808b 0xe6db678f 0x5db1a49a 0xb8c52c22 0xc2068bcd 0x5eec085 0xa020bebc 0x94568ccf;
  mkDigest 0x1bbfd634 0x32a7ed26 0x931d768b 0xaa83788c 0x83cd61d0 0x32fdce9 0xe03b78b3 0x74bb1db9;
  mkDigest 0x99077466 0x49278b65 0xf72a3e5e 0x68bed5ce 0x6dca6874 0x467e4aee 0x50f015ac 0x68424436;
  mkDigest 0xf363c0ec 0xf8e68e6a 0x68b8b0a4 0xaa5e0c8a 0x3087f840 0x9fdf3178 0xb90a0f53 0xe21d0be;
  mkDigest 0x53a60777 0xc6e0ce68 0xe38bf6ca 0x71f07c64 0x157b1b4a 0xcde12788 0x3db2d9e4 0x53846176;
  mkDigest 0x31407dde 0x59f9915e 0x92c5f818 0x18634df 0x7032ec8 0xa260efd4 0x40447bdc 0x417d01f6;
  mkDigest 0xebeb2b01 0xb9e74352 0x2b6eef4b 0xba333643 0xc7b46157 0xee66fbb8 0x2158c356 0x75803966;
  mkDigest 0x3b18fd4a 0xf925ac3c 0xfeeaff32 0x68510c70 0x3832ed16 0xccad49b8 0x39825b65 0x449af7b5;
  mkDigest 0xda02321f 0x644a5958 0x7d8912a2 0xd6fbcb8f 0x57a2af69 0xa59b553 0x68154970 0x8d8266aa;
  mkDigest 0x2101e846 0xf0505df1 0x3233207d 0xff4d8511 0x41e56ae8 0x55b511da 0xd1016ae0 0xe8bbd4ed;
  mkDigest 0xcef21d04 0x3ce2d495 0x416175bb 0xdb3c8e7 0xa27655ce 0xa01b0d6d 0xb04ada0b 0xdcab1407;
  mkDigest 0x4c5373aa 0xc143edfe 0xd9dec89d 0x30cb8f26 0xf344f658 0x17b06430 0x69552f6b 0x2bf312ea;
  mkDigest 0x2f6ac47b 0x603e6f6f 0xad99ac71 0xce0050ee 0x1eb424cb 0xc1de6ba1 0xb499c2ec 0xb9f9728f;
  mkDigest 0xdf172150 0x75e221d8 0xc58b8f07 0xddf9f03b 0xfbf3126a 0x323ded54 0x6fe67073 0xc156;
  mkDigest 0xe89f06b0 0x42c52c5b 0xe4b4512a 0x4da247aa 0x7f722f2f 0xceabb12d 0x698d23d6 0xe1f4e90d;
  mkDigest 0xd4f2ce60 0x98f83bf4 0xbdaf728 0xbc06a938 0x2040962c 0x14a7799a 0x2c6e6c5f 0x5d7f0e07;
  mkDigest 0xbdb9fcd0 0x256eac5a 0x607644fb 0x3f396dce 0xeba47328 0x145eb763 0x40add358 0xd05ff1d9;
  mkDigest 0x66bba435 0x797b4dc7 0x30430907 0x4fe7b59b 0x2ecbd8ac 0x6bf9a140 0x2e54edb6 0xc7b1cf48;
  mkDigest 0x38080d5f 0xe0fd840f 0x56d2b144 0x38d797fd 0xab95620 0x45ecb826 0xe4219c79 0x625c46e7;
  mkDigest 0xcd112bdd 0xf98dae51 0x84ffea5d 0x126479fb 0x790c28a7 0x5d2d0c94 0xa13815e7 0x6ccbf9ee;
  mkDigest 0x76f66151 0x20b964a2 0x4498908f 0x617b072e 0x8859c9b5 0x4cc95cdb 0x7639037f 0x3de2dca9;
  mkDigest 0xc74be9d1 0x929c1919 0x7f8024ba 0x84b27d86 0xf477178 0x80c05404 0xde0b808b 0xf529a23d;
  mkDigest 0x43f53427 0x2bf10d5f 0xda0561fb 0x7d16f75e 0x698069be 0x66a1d542 0xaaae7743 0xad51bdb8;
  mkDigest 0x2fa24559 0x8c1cc979 0x942f17f2 0xeebf0276 0x89917c37 0x94acd1b9 0x8aad8177 0x5c6d0bc8;
  mkDigest 0xaaa8d17a 0x395c3d00 0x4c19a2ec 0x9a821582 0xf61a0949 0xecfe33cb 0x4742c2da 0x58f9e405;
  mkDigest 0x490094cd 0xfa56d087 0x66710103 0xb7b3859 0xa37abea8 0x274131ac 0xc3d04bd0 0xb9156aea;
  mkDigest 0x1ace8163 0xe229de30 0xf71f991e 0xae96e9a1 0xe18af61 0x40a9cc0b 0xc92b2ede 0x8bbce4e8;
  mkDigest 0x5d3c2ceb 0x648f5e60 0x48ece181 0xba719e5d 0x25d73ebb 0xb5bbc32e 0x9dcd0e5d 0x4a0ccff;
  mkDigest 0xc0b5935e 0x7aa322da 0x89d5109c 0x77afc2fa 0x159f8b6c 0x8fd266d6 0x8d11bc6b 0x6860a5ab;
  mkDigest 0xcbc7f3e1 0x23b9e077 0x8ebbf642 0x2b6ee86b 0xeb98fa4a 0xced12a38 0xce025307 0x4c2a60c6;
  mkDigest 0x9d7191f9 0xbae92625 0x2d427d30 0x651acbc3 0x4d434ea6 0x751674b5 0x64d4bb9d 0x187c6db2;
  mkDigest 0xe2a56b1b 0xbbea043a 0xb348410 0x184886c 0xd4a48d6b 0x413a59e8 0xd62c7fdb 0x444d8c9e;
  mkDigest 0x31de2e73 0x2a5678 0xac0d68ad 0xaf8e649 0x78075b91 0xf06bc103 0xf564ff78 0x7809fabc;
  mkDigest 0xa0f63469 0xfe1bdcb7 0xc78cf4a3 0x80bc47bc 0x6a811ade 0x121c1874 0x47977276 0xa9ed58ad;
  mkDigest 0x3a13d0d 0xc4fe485b 0x6245079b 0xc92d8dce 0xd01749f6 0x1e59e83f 0xa4fb542b 0x31980246;
  mkDigest 0x155a2fb1 0x2e5f5c12 0x33867ad3 0xe69a289 0x84f3dcd 0x27a11bf7 0x5d78e314 0x5dae7876;
  mkDigest 0x82f3e8fb 0x7a22b7d5 0xccebdee6 0x67f3069f 0xb8899e7e 0xdaa634e0 0xbe62b0e6 0xa782c845;
  mkDigest 0x30bda53e 0xa5d21e96 0x2a7575a 0x9508986a 0xed4289c1 0xd0a5bfc4 0xf4985157 0x3ed66911;
  mkDigest 0xcc3e519d 0xebec1226 0xc3594552 0x28aadf3e 0xc9cf172 0x6ccc90d7 0x7d97f4ba 0xe18331bf;
  mkDigest 0x7d29ca24 0xcfb06798 0x6b513c91 0x3b57d45b 0x11cd89d1 0xc79844c0 0xee6afbcc 0x55d1bdd8;
  mkDigest 0x74656849 0x561296b9 0x9c2cdd82 0x4a6d91ec 0x1cf66521 0x51e6c792 0x8759b58d 0x836613c7;
  mkDigest 0x55529e9d 0xa1f99c34 0xe0a5e7c7 0x21cf171d 0x7c47f116 0xd20962b5 0xc55df656 0x1f9453c9;
  mkDigest 0xc3cf5dcf 0x10ee35bd 0xbc246d1d 0xd883f51 0xe453c08f 0x9dba9ab8 0x6782a056 0xacee9dcd;
  mkDigest 0x65ae7be5 0x68b0490b 0xc000fad1 0xa9cedda4 0xad5ce7be 0x2ab5f3ef 0xd5fc7e50 0x890eef4;
  mkDigest 0xfc27f020 0xa9a1ac3a 0x5df9dc2a 0x29a54412 0xe7c63ad7 0x549f4b37 0x2514c9cb 0x565bd236;
  mkDigest 0x74e23269 0x4d4ed4ff 0xf904593f 0xaf6213e2 0x45e0b08c 0x7ca8e7b6 0x6d34c261 0x7fae7fb4;
  mkDigest 0x5bbf9c58 0x70a5504a 0x39d440e9 0xc251ff49 0xe0a66695 0x6ff70c1e 0x9d93112c 0x3128eded;
  mkDigest 0xbd40787e 0x794a3ac 0x5e6f192 0xf038326f 0xe936d907 0x44e28e2d 0x3ba5195c 0xe88603f;
  mkDigest 0x1d82e725 0x7bb0bb4 0xda908edb 0x67cc6727 0x15c99782 0xdfd9dc46 0xbacb9b6a 0x35afec74;
  mkDigest 0x8d0fc7c9 0x22ae30cb 0xbbd4f466 0xaa13e90a 0x7a1cec3b 0x1e6dcec4 0xed4651f6 0xb230b8b5;
  mkDigest 0x122352b6 0xe117fb93 0x46d315bd 0xa3b73fea 0xef466bf 0x857f4e50 0x437a6ea0 0x7c356c5c;
  mkDigest 0x71681fa4 0x1be628b3 0xf4596c49 0x958f8fa4 0xea7f1ecd 0xee36b31b 0x155c0e02 0x9ef2610f;
  mkDigest 0x3e0dc77d 0x7a23a4ea 0x8c847f38 0x75846679 0xcfc84256 0x2e08cc2f 0x9f95297e 0x3a85d4a5;
  mkDigest 0x9ac4cf93 0x95e1b36b 0x9cccd965 0xe74b2011 0x45f8423c 0x8a0cf4b 0x511e272d 0xe386043;
  mkDigest 0xad36d238 0x229973f 0x4c87e68f 0x6d2c5b9c 0xd83a6929 0x58e15959 0xdb73adf 0x6b4efa33;
  mkDigest 0x6592ca15 0x1a344d07 0x6c66b919 0x6d638b44 0xf9c188c9 0xc8132da6 0x8c10e33f 0x758e4c50;
  mkDigest 0x59cf9f88 0x7aa643bc 0x5c1276ee 0xab1f44a5 0xbc5d4fd 0xfd41e3bb 0xc08f2fed 0xc691ea4b;
  mkDigest 0x6d409243 0xf9fb6dad 0x44d56401 0xcf235f6e 0x25f7121a 0xbbdc436d 0xb619e26b 0xb241418b;
  mkDigest 0xb34077d7 0x8a60fc92 0xfda9238a 0xef279351 0x6af82e92 0x6f0062fd 0x81e51305 0xcfe85960;
  mkDigest 0x734fcd7b 0x69a47eb5 0xcae8fe9f 0x1d154031 0x8dd7757a 0x92ccaf84 0xf76adc2e 0x275a2e28;
  mkDigest 0x1398c1f6 0xfd7531e1 0x3ceb7052 0xf31509df 0xde42c772 0xd4a76360 0xfa0c76a8 0xd6c30ad8;
  mkDigest 0xa6e17b7 0x80f72f65 0x230d6ff5 0x9a46569b 0x251e1b22 0x43f10d1e 0xe8f8d28f 0x328a1b9d;
  mkDigest 0x639133ae 0xbca2cd40 0x1811524b 0x36f69643 0xb779e213 0x4f33be8d 0x66547902 0xd4d58c32;
  mkDigest 0x645c023e 0x60508f17 0x20b80d3e 0x6f06fc7e 0x87cd928 0x6d85a153 0x4ce3297c 0xd1c84952;
  mkDigest 0x20455b60 0x44e2f70b 0xfe1bc1a2 0x39b769dc 0x843a9c87 0xa61ec63a 0x4e4efa1e 0x79c5eb2d;
  mkDigest 0xc1268fca 0x865ff069 0x7dad37a3 0xabd4fdbd 0xe2eb3e7c 0x4862c56c 0xcb31ebd6 0x360456ed;
  mkDigest 0x79f873c1 0x33fec94a 0x8d0548a0 0x705c5f68 0xe927df1e 0xcd008b74 0xb48cfb49 0xd7435087;
  mkDigest 0xa12113a2 0x630998f 0xccad4f4 0x5ab15331 0xb81d917 0x28b72ecf 0xd380c880 0x68074ca4;
  mkDigest 0x5c24303f 0xb2bd57f6 0xf8e406d8 0xaaac3a02 0xcd99d056 0x978711ae 0xba6b01d3 0xa6d6ed43;
  mkDigest 0xfc9146b7 0x8e918a21 0x8c7fc01d 0x60b5f74b 0x424a2dc1 0x622735d8 0xe28c4f2 0x2dbc476d;
  mkDigest 0xf9e8591e 0xe7175849 0x230cff5f 0x1355c5bf 0xce18a2c 0xa19867e2 0x6759b681 0x170a03e5;
  mkDigest 0x182a08b9 0xe89a118d 0xa42c6ed4 0xd2a1e0a6 0x3cb7cd94 0xc5603484 0xa03a315d 0xce3a647f;
  mkDigest 0xffeb1d69 0x862b9394 0xf418bca5 0x36e427e0 0x2356f733 0x5c1d29cc 0x2cc0eb25 0x29af076;
  mkDigest 0xb3beca91 0xbfa1f567 0xeafb8a3a 0x3cb3c47a 0x83c16036 0x5d4cdbf8 0x85a237b9 0x31e097a3;
  mkDigest 0xcbf10c94 0xcfbc1ecc 0x423114ca 0x4e2a951 0xd2e0f84c 0x8fb80c1d 0x5356de6f 0x18cd2f41;
  mkDigest 0x9f1ad8d4 0xa074b626 0x5cac5703 0xeb73a3a5 0xf588d47c 0x3640062a 0x131571a7 0xb5b2f1b3;
  mkDigest 0x6fe02d23 0xf4d2ce5f 0x291d659b 0x56252b6c 0xffce3605 0x4892b3fe 0xcf172d2c 0x27052ab4;
  mkDigest 0x2bdccfb0 0x2bfdb7e3 0xf51ab511 0x197049e5 0x7c55951e 0xab3f3b64 0x4bfddc87 0x1cac83e;
  mkDigest 0x1e5e5be0 0xeb7707a0 0x575eddbd 0xbd4b317d 0xe14e516d 0x1b0f073a 0xfa01ec8c 0x2641661c;
  mkDigest 0x904a7332 0xc9110a94 0x7660aced 0xb48795e8 0xbb43c750 0x252562af 0x46f40d4e 0x8d3e8e59;
  mkDigest 0x5ada2ea4 0x29526cd2 0x98397944 0xb090453f 0xd9dfac0f 0xcfc234da 0x936875b4 0xde4c7ec0;
  mkDigest 0xce27ca15 0x5d13fc52 0x1fb37884 0x985a1e12 0x1ad1ef1a 0xd89ceb08 0x6529aacb 0x724c9300;
  mkDigest 0x15ebf0ab 0x4494b272 0x97607b1b 0x54746f0c 0x5bd0cc7b 0x52a4babb 0xac67f831 0xb1c4dcf6;
  mkDigest 0x942bad02 0x7887b078 0x256b9351 0xcd364b0e 0x8bc02e5d 0x446a3689 0xee1286ff 0xdce36479].
End Tables.
