(* ===== verification/Work.v ===== *)
(** * Verifiable work

    The work claims of receipts with their words in a seal, Merkle mountain ranges, the
    Merkle tree of the nonces that jobs have used, from a job to the set of all logs, with
    its openings, and the guest program that appends jobs to a log, with the loop of the
    prover that drives it.  Big integers and the environment of the guest are third-party
    code and system calls: classes. *)
From S2P Require Export Receipt WorkConsts.
From stdpp Require Export fin_maps.
Import Merkle.
Open Scope word_scope.
Open Scope Z_scope.

(** ** Work claims *)

Module WorkClaims.
Import Hashing Pruned Claims ClaimOps Povw.
(* source: src/risc0/risc0/zkvm/src/claim/work.rs *)

(* L106-113 Work *)
Record Work := mkWork { nonce_min : PovwNonce; nonce_max : PovwNonce; value : Z }.
(* L35-40 WorkClaim *)
Record WorkClaim (Claim : Type) := mkWorkClaim { claim : MaybePruned Claim; work : MaybePruned Work }.
#[global] Arguments mkWorkClaim {Claim} _ _.
#[global] Arguments claim {Claim} _.
#[global] Arguments work {Claim} _.
(* L118-121 WorkClaimError *)
Inductive WorkClaimError := NonceRangesNotContiguous (a b : Work) | PrunedWork (e : PrunedValue).

(** The words of a 64-bit value, the low one first. *)
(* L198-205 u64_to_u16s *)
Definition u64_to_u16s (x : Z) : list Z := cast_bytes 2 4 (le_bytes 8 x).
(* L207-213 u64_from_u16s *)
Definition u64_from_u16s (u16s : list Z) : Z := from_le_bytes (cast_words 2 u16s).

Section Work.
Context `{Sha256, Ruint}.

(* L173-177 Work::encode_to_seal *)
Definition work_encode {E} (self : Work) (buf : list Z) : outcome E (list Z) :=
  lo ← to_u16s (nonce_min self);
  hi ← to_u16s (nonce_max self);
  Ok (buf ++ lo ++ hi ++ u64_to_u16s (value self)).

(* L215-230 decode_work_value_from_seal *)
Definition decode_work_value : state (list Z) DecodeError Z :=
  buf ← get;
  if (length buf <? 4)%nat then throw EndOfStream else
  words ← SysState.drain 4;
  u16s ← lift (mapM u16_from_u32 words);
  mret (u64_from_u16s u16s).

(* L179-187 Work::decode_from_seal *)
Definition work_decode : state (list Z) DecodeError Work :=
  lo ← Povw.decode_from_seal;
  hi ← Povw.decode_from_seal;
  value ← decode_work_value;
  mret (mkWork lo hi value).

(* L232-239 Digestible for Work *)
Definition work_digest {E} (self : Work) : outcome E Digest := buf ← work_encode self []; Ok (tagged_struct "risc0.Work" [] buf).
Definition pruned_work_digest {E} (self : MaybePruned Work) : outcome E Digest :=
  match self with Value w => work_digest w | Pruned d => Ok d end.
(* L56-68 Digestible for WorkClaim<Claim> *)
Definition work_claim_digest {Claim E} `{!Digestible Claim} (self : WorkClaim Claim) : outcome E Digest :=
  w ← pruned_work_digest (work self); Ok (tagged_struct "risc0.WorkClaim" [digest (claim self); w] []).

(* L45-53 WorkClaim::into_unknown *)
Definition into_unknown {Claim} `{!Digestible Claim} (self : WorkClaim Claim) : WorkClaim Unknown :=
  mkWorkClaim (Pruned (digest (claim self))) (work self).

(* L84-88 WorkClaim::encode_to_seal *)
Definition work_claim_encode (self : WorkClaim ReceiptClaim) (buf : list Z) : outcome PrunedValue (list Z) :=
  claim ← as_value (claim self);
  buf ← ClaimOps.encode claim buf;
  work ← as_value (work self);
  work_encode work buf.
(* L91-98 WorkClaim::decode_from_seal *)
Definition work_claim_decode : state (list Z) ClaimError (WorkClaim ReceiptClaim) :=
  claim ← ClaimOps.decode;
  work ← decoding work_decode;
  mret (mkWorkClaim (Value claim) (Value work)).

(** [checked_add] of the crate. *)
Class CheckedAdd := { u_checked_add : Z -> Z -> Z -> option Z }.

(** The sum of the values is the release build's: it wraps. *)
(* L150-171 Work::join *)
Definition work_join `{CheckedAdd} (self other : Work) : outcome WorkClaimError Work :=
  max ← to_u256 (nonce_max self);
  min ← to_u256 (nonce_min other);
  let contiguous := match u_checked_add 256 max 1 with Some max => bool_decide (max = min) | None => false end in
  if negb contiguous then Err (NonceRangesNotContiguous self other)
  else Ok (mkWork (nonce_min self) (nonce_max other) (wrap 64 (value self + value other))).
(* L193-195 MaybePruned<Work>::join *)
Definition pruned_work_join `{CheckedAdd} (self other : MaybePruned Work) : outcome WorkClaimError (MaybePruned Work) :=
  a ← map_err PrunedWork (as_value self);
  b ← map_err PrunedWork (as_value other);
  Value <$> work_join a b.
End Work.
End WorkClaims.

(** ** Merkle mountain ranges *)

Module Mmr.
Import Hashing Pruned Claims Groups.
(* source: src/risc0/risc0/zkvm/src/mmr.rs *)

Inductive MmrError := NoElements | DifferentHeights | MergeFailed.
(** How two items are merged. *)
(* L76-96 Peak *)
Class MergeItem (Item : Type) := { merge_item : Item -> Item -> outcome MmrError Item }.

Section Accumulate.
Context {Item : Type} `{MergeItem Item}.
(* L99-102 GuestPeak *)
Record Peak := mkPeak { p_item : Item; height : Z }.
(* L23-25 MerkleMountainAccumulator *)
Record Accumulator := mkAcc { peaks : list Peak }.
(* L32-36 MerkleMountainAccumulator::new *)
Definition new : Accumulator := mkAcc [].
(* L82-93 Peak::merge *)
Definition merge (a b : Peak) : outcome MmrError Peak :=
  if negb (height a =? height b) then Err DifferentHeights else
  item ← merge_item (p_item a) (p_item b);
  Ok (mkPeak item (wrap 32 (height a + 1))).

(** The list of peaks, the last one first. *)
(* L37-53 MerkleMountainAccumulator::insert, the loop *)
Fixpoint insert_loop (back : list Peak) (to_add : Peak) : outcome MmrError (list Peak) :=
  match back with
  | [] => Ok [to_add]
  | last :: back =>
      if height to_add =? height last then to_add ← merge to_add last; insert_loop back to_add
      else Ok (to_add :: last :: back)
  end.
(* L37-53 MerkleMountainAccumulator::insert *)
Definition insert (item : Item) (self : Accumulator) : outcome MmrError Accumulator :=
  back ← insert_loop (rev (peaks self)) (mkPeak item 0); Ok (mkAcc (rev back)).

Fixpoint merge_items (item : Item) (peaks : list Peak) : outcome MmrError Item :=
  match peaks with
  | [] => Ok item
  | peak :: peaks => item ← merge_item item (p_item peak); merge_items item peaks
  end.
(* L55-68 MerkleMountainAccumulator::root *)
Definition root (self : Accumulator) : outcome MmrError Item :=
  match peaks self with
  | [] => Err NoElements
  | [peak] => Ok (p_item peak)
  | peak :: peaks => merge_items (p_item peak) peaks
  end.
(* L70-72 MerkleMountainAccumulator::is_empty *)
Definition is_empty (self : Accumulator) : bool := bool_decide (peaks self = @nil Peak).
End Accumulate.

(** The union of two assumptions, whatever their order. *)
(* L126-140 GuestPeak::merge_item *)
#[export] Instance guest_merge `{Sha256} (ALLOWED_CONTROL_ROOT : Digest) : MergeItem Assumption := {|
  merge_item a b :=
    let '(left, right) := if decide (digest_le (digest a) (digest b)) then (digest a, digest b) else (digest b, digest a) in
    Ok (mkAssumption (digest (mkUnion left right)) ALLOWED_CONTROL_ROOT) |}.
End Mmr.

(** ** The tree of nonces *)

Module Tree.
Import Hashing Tables.
(* source: src/risc0/risc0/povw/src/tree.rs *)

(** The other operations of the crate ruint that the tree uses; the first argument is the
    width where it matters. *)
Class Uints := {
  u_xor : Z -> Z -> Z;
  u_bit : Z -> Z -> bool;
  u_set_bit : Z -> Z -> bool -> Z;
  u_sub : Z -> Z -> Z -> Z;
  u_wrapping_to : Z -> Z -> Z }.

(** The error of I/O is left out. *)
(* src/risc0/risc0/povw/src/error.rs:18-51 Error *)
Inductive Error := LogIdOccupied (id : Z) | JobIdOccupied (id : Z) | BitmapNonInclusion | BitmapInclusion | PathRootMismatch.

Section Tree.
Context `{Sha256, Ruint, Uints}.
Abbreviation O_ := (outcome Error).

(* L48-48 Bitmap *)
Definition Bitmap : Type := Z.
(* L52-52 Bitmap::EMPTY *)
Definition EMPTY : Bitmap := 0.
(* L55-55 Bitmap::FULL *)
Definition FULL : Bitmap := 2 ^ 256 - 1.
(* L58-61 Bitmap::bit *)
Definition bit (self : Bitmap) (index : Z) : O_ bool := _ ← assert_ (index <? 256); Ok (u_bit self index).
(* L64-67 Bitmap::set_bit *)
Definition set_bit (self : Bitmap) (index : Z) : O_ Bitmap := _ ← assert_ (index <? 256); Ok (u_set_bit self index true).
(* L70-73 Bitmap::clear_bit *)
Definition clear_bit (self : Bitmap) (index : Z) : O_ Bitmap := _ ← assert_ (index <? 256); Ok (u_set_bit self index false).
(* L76-79 Bitmap::from_bit_range *)
Definition from_bit_range (min max : Z) : Bitmap := u_shl 256 (u_sub 256 (u_shl 256 1 max) 1) min.
(* L92-94 Bitmap::bitor *)
Definition bitor (self rhs : Bitmap) : Bitmap := u_or self rhs.
(* L97-102 From<[u8; 32]> for Bitmap *)
Definition bitmap_from (value : list Z) : Bitmap := u_from_le_bytes value.
(* L104-109 From<Bitmap> for [u8; 32] *)
Definition bitmap_bytes (value : Bitmap) : list Z := u_to_le_bytes 32 value.

(* L756-758 join *)
Definition join (left right : Digest) : Digest := hash_bytes (digest_bytes left ++ digest_bytes right).
(* L760-764 hash_leaf *)
Definition hash_leaf (leaf : Bitmap) : Digest := hash_bytes (str_bytes "POVWLEAF" ++ bitmap_bytes leaf).

(** The operations on indices: of [u32] and [u64], and of the crate's integers. *)
(* L515-524 MerkleizedIndex *)
Record MerkleizedIndex := mkIndex {
  bitmap_index : Z -> Z; lowest_bit : Z -> bool; shr : Z -> Z -> Z; shl : Z -> Z -> Z; sibling : Z -> Z }.
(* L526-536 MerkleizedIndex for u32 *)
Definition native (w : Z) : MerkleizedIndex := {|
  bitmap_index i := i .& 0xff; lowest_bit i := i .& 1 =? 1; shr i n := i .>> n; shl i n := wrap w (Z.shiftl i n); sibling i := i .^ 1 |}.
(* L538-548 MerkleizedIndex for Uint<BITS, LIMBS> *)
Definition uint (w : Z) : MerkleizedIndex := {|
  bitmap_index i := u_and i 0xff; lowest_bit i := u_and i 1 =? 1; shr i n := u_shr i n; shl i n := u_shl w i n; sibling i := u_xor i 1 |}.

(** *** Jobs *)

(* L401-405 Job *)
Record Job := mkJob { index_max : option Z }.
(* L410-410 Job::TREE_HEIGHT *)
Definition JOB_HEIGHT : nat := 24.
(* L412-412 Job::EMPTY *)
Definition EMPTY_JOB : Job := mkJob None.
(* L415-417 Job::is_empty *)
Definition job_is_empty (self : Job) : bool := match index_max self with None => true | Some _ => false end.
(* L420-424 Job::new *)
Definition job_new (index_max : Z) : Job := mkJob (Some index_max).
(* L427-429 Job::contains *)
Definition job_contains (self : Job) (index : Z) : bool := match index_max self with Some max => index <=? max | None => false end.

(* L495-508 Job::bitmap_at *)
Definition job_bitmap_at (self : Job) (index : Z) : Bitmap :=
  match index_max self with
  | None => EMPTY
  | Some index_max =>
      match (index .>> 8) ?= (index_max .>> 8) with
      | Lt => FULL
      | Eq => from_bit_range 0 ((index_max .& 0xff) + 1)
      | Gt => EMPTY
      end
  end.

(* L477-493 Job::boundary_subtree_root, the loop *)
Fixpoint boundary_loop (i n : nat) (index : Z) (node : Digest) : O_ Digest :=
  match n with
  | O => Ok node
  | S n =>
      node ← (if index .& 1 =? 1
              then full ← unwrap (FULL_SUBTREE_ROOTS !! i); Ok (join full node)
              else empty ← unwrap (EMPTY_SUBTREE_ROOTS !! i); Ok (join node empty));
      boundary_loop (S i) n (index .>> 1) node
  end.
(* L477-493 Job::boundary_subtree_root *)
Definition boundary_subtree_root (self : Job) (height : nat) : O_ Digest :=
  index ← unwrap (index_max self);
  boundary_loop 0 height (index .>> 8) (hash_leaf (job_bitmap_at self index)).

(** [checked_shr] of an integer of [w] bits, and zero when there is none. *)
Definition checked_shr (w a n : Z) : Z := if n <? w then a .>> n else 0.

(* L455-475 Job::subtree_root *)
Definition job_subtree_root (self : Job) (height : nat) (index : Z) : O_ Digest :=
  _ ← assert_ (height <=? JOB_HEIGHT)%nat;
  _ ← assert_ (index <? shl32 1 (Z.of_nat (JOB_HEIGHT - height)));
  if (height =? 0)%nat then Ok (hash_leaf (job_bitmap_at self (shl32 index 8))) else
  match index_max self with
  | None => unwrap (EMPTY_SUBTREE_ROOTS !! height)
  | Some index_max =>
      match index ?= checked_shr 32 index_max (8 + Z.of_nat height) with
      | Lt => unwrap (FULL_SUBTREE_ROOTS !! height)
      | Eq => boundary_subtree_root self height
      | Gt => unwrap (EMPTY_SUBTREE_ROOTS !! height)
      end
  end.
(* L432-434 Job::commit *)
Definition job_commit (self : Job) : O_ Digest := job_subtree_root self JOB_HEIGHT 0.

(** *** Openings *)

(* L592-595 Opening *)
Record Opening := mkOpening { bitmap : Bitmap; path : list Digest }.

(** The siblings of the nodes on the way to the root. *)
Fixpoint siblings (ops : MerkleizedIndex) (subtree_root : nat -> Z -> O_ Digest) (n i : nat) (index : Z) : O_ (list Digest) :=
  match n with
  | O => Ok []
  | S n =>
      d ← subtree_root i (sibling ops index);
      rest ← siblings ops subtree_root n (S i) (shr ops index 1);
      Ok (d :: rest)
  end.
(* L437-449 Job::prove_opening *)
Definition job_prove_opening (self : Job) (index : Z) : O_ Opening :=
  path ← siblings (native 32) (job_subtree_root self) JOB_HEIGHT 0 (shr (native 32) index 8);
  Ok (mkOpening (job_bitmap_at self index) path).

(** The nodes on the way up, and the index that is left. *)
(* L642-662 Opening::root, the loop *)
Fixpoint path_root (ops : MerkleizedIndex) (path : list Digest) (index : Z) (node : Digest) : Digest * Z :=
  match path with
  | [] => (node, index)
  | path_node :: path =>
      path_root ops path (shr ops index 1) (if lowest_bit ops index then join path_node node else join node path_node)
  end.
(* L642-662 Opening::root *)
Definition opening_root (ops : MerkleizedIndex) (self : Opening) (index : Z) : O_ Digest :=
  let '(node, index) := path_root ops (path self) (shr ops index 8) (hash_leaf (bitmap self)) in
  _ ← assert_ (index =? 0);
  Ok node.
(* L621-629 Opening::verify_inclusion *)
Definition verify_inclusion (ops : MerkleizedIndex) (self : Opening) (commit : Digest) (index : Z) : O_ unit :=
  b ← bit (bitmap self) (bitmap_index ops index);
  _ ← ensure b BitmapNonInclusion;
  root ← opening_root ops self index;
  ensure (bool_decide (root = commit)) PathRootMismatch.
(* L632-640 Opening::verify_noninclusion *)
Definition verify_noninclusion (ops : MerkleizedIndex) (self : Opening) (commit : Digest) (index : Z) : O_ unit :=
  b ← bit (bitmap self) (bitmap_index ops index);
  _ ← ensure (negb b) BitmapInclusion;
  root ← opening_root ops self index;
  ensure (bool_decide (root = commit)) PathRootMismatch.

(** The level of the subtree is an argument. *)
(* L670-677 SubtreeOpening *)
Record SubtreeOpening := mkSubtree { subtree_path : list Digest }.
(* L740-753 SubtreeOpening::root *)
Definition subtree_opening_root (ops : MerkleizedIndex) (level : nat) (self : SubtreeOpening) (subtree_root : Digest) (index : Z) : Digest :=
  fst (path_root ops (subtree_path self) (shr ops index (Z.of_nat level + 8)) subtree_root).
(* L719-724 SubtreeOpening::verify_empty *)
Definition verify_empty (ops : MerkleizedIndex) (level : nat) (self : SubtreeOpening) (commit : Digest) (index : Z) : O_ unit :=
  empty ← unwrap (EMPTY_SUBTREE_ROOTS !! level);
  ensure (bool_decide (subtree_opening_root ops level self empty index = commit)) PathRootMismatch.
(* L732-737 SubtreeOpening::verify_full *)
Definition verify_full (ops : MerkleizedIndex) (level : nat) (self : SubtreeOpening) (commit : Digest) (index : Z) : O_ unit :=
  full ← unwrap (FULL_SUBTREE_ROOTS !! level);
  ensure (bool_decide (subtree_opening_root ops level self full index = commit)) PathRootMismatch.

(** *** Logs *)

(** The next level: the parents of the nodes of a level at height [i], where a missing child
    is empty. *)
Definition next_level (ops : MerkleizedIndex) (i : nat) (level : gmap Z Digest) : O_ (gmap Z Digest) :=
  empty ← unwrap (EMPTY_SUBTREE_ROOTS !! i);
  let next_level_keys : gset Z := set_map (fun idx => shr ops idx 1) (dom level) in
  Ok (set_to_map (fun idx =>
        let left := default empty (level !! shl ops idx 1) in
        let right := default empty (level !! sibling ops (shl ops idx 1)) in
        (idx, join left right)) next_level_keys).
Fixpoint levels (ops : MerkleizedIndex) (n i : nat) (level : gmap Z Digest) : O_ (gmap Z Digest) :=
  match n with O => Ok level | S n => level ← next_level ops i level; levels ops n (S i) level end.

(** The root of a subtree above the height [base] of the trees that a map holds: from those
    whose keys are below the subtree, level by level. *)
Definition upper_root {A} (ops : MerkleizedIndex) (above : Z -> bool) (commit : A -> O_ Digest) (base height : nat) (m : gmap Z A) : O_ Digest :=
  roots ← mapM (fun '(id, a) => d ← commit a; Ok (id, d)) (filter (fun '(id, _) => Is_true (above id)) (map_to_list m));
  let level : gmap Z Digest := list_to_map roots in
  if decide (level = ∅) then unwrap (EMPTY_SUBTREE_ROOTS !! height) else
  level ← levels ops (height - base) base level;
  _ ← assert_ (size level =? 1)%nat;
  unwrap (snd <$> head (map_to_list level)).

(* L246-249 WorkLog *)
Record WorkLog := mkLog { jobs : gmap Z Job }.
(* L253-253 WorkLog::TREE_HEIGHT *)
Definition LOG_HEIGHT : nat := JOB_HEIGHT + 64.
(* L255-257 WorkLog::EMPTY *)
Definition EMPTY_LOG : WorkLog := mkLog ∅.
(* L260-262 WorkLog::is_empty *)
Definition log_is_empty (self : WorkLog) : bool := forallb (fun '(_, job) => job_is_empty job) (map_to_list (jobs self)).
(* L267-273 WorkLog::add *)
Definition log_add (id : Z) (job : Job) (self : WorkLog) : O_ WorkLog :=
  match jobs self !! id with None => Ok (mkLog (<[id := job]> (jobs self))) | Some _ => Err (JobIdOccupied id) end.
(* L289-294 WorkLog::contains *)
Definition log_contains (self : WorkLog) (seq : Z) : O_ bool :=
  id ← unwrap (u_to 64 (u_shr seq 32));
  Ok (match jobs self !! id with Some job => job_contains job (u_wrapping_to 32 seq) | None => false end).
(* L387-392 WorkLog::bitmap_at *)
Definition log_bitmap_at (self : WorkLog) (index : Z) : O_ Bitmap :=
  id ← unwrap (u_to 64 (u_shr index 32));
  Ok (job_bitmap_at (default EMPTY_JOB (jobs self !! id)) (u_wrapping_to 32 index)).

(* L333-385 WorkLog::subtree_root *)
Definition log_subtree_root (self : WorkLog) (height : nat) (index : Z) : O_ Digest :=
  _ ← assert_ (height <=? LOG_HEIGHT)%nat;
  _ ← assert_ (index <? u_shl 96 1 (Z.of_nat (LOG_HEIGHT - height)));
  if (height <=? JOB_HEIGHT)%nat then
    let subjob_index_bits := Z.of_nat (JOB_HEIGHT - height) in
    subjob_index ← unwrap (u_to 32 (u_and index (u_sub 96 (u_shl 96 1 subjob_index_bits) 1)));
    job_index ← unwrap (u_to 64 (u_shr index subjob_index_bits));
    job_subtree_root (default EMPTY_JOB (jobs self !! job_index)) height subjob_index
  else
    index ← unwrap (u_to 64 index);
    let height_offset := Z.of_nat (height - JOB_HEIGHT) in
    upper_root (native 64) (fun id => checked_shr 64 id height_offset =? index) job_commit JOB_HEIGHT height (jobs self).
(* L297-299 WorkLog::commit *)
Definition log_commit (self : WorkLog) : O_ Digest := log_subtree_root self LOG_HEIGHT 0.
(* L302-315 WorkLog::prove_opening *)
Definition log_prove_opening (self : WorkLog) (seq : Z) : O_ Opening :=
  bitmap ← log_bitmap_at self seq;
  path ← siblings (uint 96) (log_subtree_root self) LOG_HEIGHT 0 (shr (uint 96) seq 8);
  Ok (mkOpening bitmap path).
(** The index is a [u64] that each round makes one of 96 bits. *)
(* L320-331 WorkLog::prove_job_opening *)
Definition prove_job_opening (self : WorkLog) (job_id : Z) : O_ SubtreeOpening :=
  path ← siblings (native 64) (fun i => log_subtree_root self (JOB_HEIGHT + i)) (LOG_HEIGHT - JOB_HEIGHT) 0 job_id;
  Ok (mkSubtree path).
(* L277-285 WorkLog::prove_add *)
Definition prove_add (id : Z) (job : Job) (self : WorkLog) : O_ (SubtreeOpening * WorkLog) :=
  noninclusion_proof ← prove_job_opening self id;
  self ← log_add id job self;
  Ok (noninclusion_proof, self).

(** *** Sets *)

(* L117-120 WorkSet *)
Record WorkSet := mkSet { logs : gmap Z WorkLog }.
(* L124-124 WorkSet::TREE_HEIGHT *)
Definition SET_HEIGHT : nat := LOG_HEIGHT + 160.
(* L126-128 WorkSet::EMPTY *)
Definition EMPTY_SET : WorkSet := mkSet ∅.
(* L131-133 WorkSet::is_empty *)
Definition set_is_empty (self : WorkSet) : bool := forallb (fun '(_, log) => log_is_empty log) (map_to_list (logs self)).
(* L138-144 WorkSet::add *)
Definition set_add (id : Z) (log : WorkLog) (self : WorkSet) : O_ WorkSet :=
  match logs self !! id with None => Ok (mkSet (<[id := log]> (logs self))) | Some _ => Err (LogIdOccupied id) end.
(* L147-152 WorkSet::contains *)
Definition set_contains (self : WorkSet) (nonce : Z) : O_ bool :=
  id ← unwrap (u_to 160 (u_shr nonce 96));
  match logs self !! id with Some log => log_contains log (u_wrapping_to 96 nonce) | None => Ok false end.
(* L232-237 WorkSet::bitmap_at *)
Definition set_bitmap_at (self : WorkSet) (index : Z) : O_ Bitmap :=
  id ← unwrap (u_to 160 (u_shr index 96));
  log_bitmap_at (default EMPTY_LOG (logs self !! id)) (u_wrapping_to 96 index).
(* L175-230 WorkSet::subtree_root *)
Definition set_subtree_root (self : WorkSet) (height : nat) (index : Z) : O_ Digest :=
  _ ← assert_ (height <=? SET_HEIGHT)%nat;
  _ ← assert_ (index <? u_shl 256 1 (Z.of_nat (SET_HEIGHT - height)));
  if (height <? LOG_HEIGHT)%nat then
    let sublog_index_bits := Z.of_nat (LOG_HEIGHT - height) in
    sublog_index ← unwrap (u_to 96 (u_and index (u_sub 256 (u_shl 256 1 sublog_index_bits) 1)));
    log_index ← unwrap (u_to 160 (u_shr index sublog_index_bits));
    log_subtree_root (default EMPTY_LOG (logs self !! log_index)) height sublog_index
  else
    index ← unwrap (u_to 160 index);
    let height_offset := Z.of_nat (height - LOG_HEIGHT) in
    upper_root (uint 160) (fun id => u_shr id height_offset =? index) log_commit LOG_HEIGHT height (logs self).
(* L155-157 WorkSet::commit *)
Definition set_commit (self : WorkSet) : O_ Digest := set_subtree_root self SET_HEIGHT 0.
(* L160-173 WorkSet::prove_opening *)
Definition set_prove_opening (self : WorkSet) (nonce : Z) : O_ Opening :=
  bitmap ← set_bitmap_at self nonce;
  path ← siblings (uint 256) (set_subtree_root self) SET_HEIGHT 0 (shr (uint 256) nonce 8);
  Ok (mkOpening bitmap path).
End Tree.
End Tree.

(** ** The program that builds a log, and its prover *)

Module LogBuilder.
Import Hashing Pruned Claims Povw WorkClaims Tree.
(* source: src/risc0/risc0/povw/src/guest.rs *)

(* L136-155 Journal *)
Record Journal := mkJournal {
  journal_log_id : Z; initial_commit : Digest; updated_commit : Digest; update_value : Z; journal_image_id : Digest }.
(* L38-49 State *)
Inductive State := Initial (work_log_id : Z) | Continuation (journal : Journal).
(* L108-113 WorkLogUpdate *)
Record WorkLogUpdate := mkUpdate { update_claim : WorkClaim Unknown; noninclusion_proof : SubtreeOpening }.
(* L70-83 Input *)
Record Input := mkInput { input_state : State; updates : list WorkLogUpdate; self_image_id : Digest }.

(** The system calls of a guest that verifies a receipt or an assumption, which fail when there
    is none, and the encoding of a journal by the crate borsh. *)
Class GuestEnv := { env_verify : Digest -> list Z -> bool; env_verify_assumption : Digest -> Digest -> bool; journal_to_vec : Journal -> list Z }.

Section LogBuilder.
Context `{Sha256, Ruint, Uints, GuestEnv}.
Abbreviation G_ := (outcome Empty_set).

(** [unwrap], [expect] of a result. *)
Definition unwrapped {E A} (o : outcome E A) : G_ A := match o with Ok a => Ok a | _ => Panic end.

(** The body of the loop over the updates: the root of the log and the value so far.  The sum
    wraps, as in the release build. *)
(* src/risc0/risc0/povw/guests/log-builder/src/main.rs:48-89 main, the loop *)
Definition apply_update (work_log_id : Z) (root : Digest) (update_value : Z) (update : WorkLogUpdate) : G_ (Digest * Z) :=
  digest ← unwrapped (work_claim_digest (E := Empty_set) (update_claim update));
  _ ← assert_ (env_verify_assumption digest Merkle.ZERO);
  work ← unwrapped (as_value (work (update_claim update)));
  _ ← assert_ (log (nonce_min work) =? work_log_id);
  _ ← assert_ (log (nonce_max work) =? work_log_id);
  _ ← assert_ (job (nonce_min work) =? job (nonce_max work));
  let job_number := job (nonce_min work) in
  let index := u_shl 96 job_number 32 in
  _ ← unwrapped (verify_empty (uint 96) JOB_HEIGHT (noninclusion_proof update) root index);
  _ ← assert_ (segment (nonce_min work) =? 0);
  let job := job_new (segment (nonce_max work)) in
  commit ← unwrapped (job_commit job);
  Ok (subtree_opening_root (uint 96) JOB_HEIGHT (noninclusion_proof update) commit index, wrap 64 (update_value + value work)).
Fixpoint apply_updates (work_log_id : Z) (root : Digest) (update_value : Z) (updates : list WorkLogUpdate) : G_ (Digest * Z) :=
  match updates with
  | [] => Ok (root, update_value)
  | update :: updates =>
      '(root, update_value) ← apply_update work_log_id root update_value update;
      apply_updates work_log_id root update_value updates
  end.

(** What the program commits to, encoded. *)
(* src/risc0/risc0/povw/guests/log-builder/src/main.rs:25-104 main *)
Definition main (input : Input) : G_ Journal :=
  '(work_log_id, initial_commit) ← (match input_state input with
    | Initial work_log_id => commit ← unwrapped (log_commit EMPTY_LOG); Ok (work_log_id, commit)
    | Continuation journal =>
        _ ← assert_ (env_verify (self_image_id input) (journal_to_vec journal));
        _ ← assert_ (bool_decide (self_image_id input = journal_image_id journal));
        Ok (journal_log_id journal, updated_commit journal)
    end);
  '(root, update_value) ← apply_updates work_log_id initial_commit 0 (updates input);
  Ok (mkJournal work_log_id initial_commit root update_value (self_image_id input)).

(* source: src/risc0/risc0/povw/src/prover.rs *)
Inductive ProveError := PrunedClaim (e : PrunedValue) | LogMismatch (min : bool) | JobMismatch | SegmentNotZero | AddFailed (e : Error) | MissingContinuation | CommitMismatch.

(** A work receipt by its claim; the assumptions that the environment is given are the
    receipts.  The log is the prover's: jobs that were added stay when a later one fails. *)
(* L168-216 WorkLogUpdateProver::prove_update, the loop over the receipts *)
Fixpoint collect_updates {Claim} `{!Digestible Claim} (log_id : Z) (claims : list (MaybePruned (WorkClaim Claim)))
    : state WorkLog ProveError (list WorkLogUpdate) :=
  match claims with
  | [] => mret []
  | claim :: claims =>
      work_claim ← lift (map_err PrunedClaim (as_value claim));
      work ← lift (map_err PrunedClaim (as_value (work work_claim)));
      _ ← lift (ensure (log_id =? log (nonce_min work)) (LogMismatch true));
      _ ← lift (ensure (log_id =? log (nonce_max work)) (LogMismatch false));
      let job_number := job (nonce_min work) in
      _ ← lift (ensure (job_number =? job (nonce_max work)) JobMismatch);
      _ ← lift (ensure (segment (nonce_min work) =? 0) SegmentNotZero);
      let segment_max := segment (nonce_max work) in
      work_log ← get;
      '(noninclusion_proof, work_log) ← lift (map_err AddFailed (prove_add job_number (job_new segment_max) work_log));
      modify (fun _ => work_log);;
      updates ← collect_updates log_id claims;
      mret (mkUpdate (into_unknown work_claim) noninclusion_proof :: updates)
  end.

(** The input that the program is run on. *)
(* L143-222 WorkLogUpdateProver::prove_update, the input *)
Definition update_input {Claim} `{!Digestible Claim} (log_id : Z) (continuation : option Journal) (log_builder_id : Digest)
    (claims : list (MaybePruned (WorkClaim Claim))) : state WorkLog ProveError Input :=
  work_log ← get;
  input_state ← lift (if log_is_empty work_log then Ok (Initial log_id) else Continuation <$> ok_or MissingContinuation continuation);
  updates ← collect_updates log_id claims;
  mret (mkInput input_state updates log_builder_id).

(** The log that a builder starts from has to be the one of the journal. *)
(* L91-114 WorkLogUpdateProverBuilder::work_log *)
Definition builder_work_log (work_log : WorkLog) (journal : Journal) : outcome ProveError (WorkLog * Journal) :=
  commit ← map_err AddFailed (log_commit work_log);
  _ ← ensure (bool_decide (commit = updated_commit journal)) CommitMismatch;
  Ok (work_log, journal).
End LogBuilder.
End LogBuilder.
