(* ===== verification/TreeSpec.v ===== *)
(** * The tree of nonces

    The commitment of a set of logs is the root of the Merkle tree over the bitmap of all
    nonces that are used; openings prove for every nonce whether it is used, and nothing
    else. *)
From S2P Require Export Work GroupSpec.
Import Merkle Hashing Tables Tree.
Open Scope Z_scope.

(** What the crate documents; the hash of the tables is the hash. *)
Class UintsLaws `{Uints} := {
  u_xor_law x y : 0 <= x -> 0 <= y -> u_xor x y = Z.lxor x y;
  u_bit_law x i : 0 <= x -> 0 <= i -> u_bit x i = Z.testbit x i;
  u_set_bit_law x i b : 0 <= x -> 0 <= i -> u_set_bit x i b = if b then Z.setbit x i else Z.clearbit x i;
  u_sub_law w x y : 0 <= x -> 0 <= y -> u_sub w x y = wrap w (x - y);
  u_wrapping_to_law w x : 0 <= x -> u_wrapping_to w x = wrap w x }.

(** ** Trees over leaves *)

Section Nodes.
Context (hp : Digest -> Digest -> Digest).
Abbreviation node := (node hp).

Lemma node_ext leaf leaf' l : forall i, (forall k, i * 2 ^ Z.of_nat l <= k < (i + 1) * 2 ^ Z.of_nat l -> leaf k = leaf' k) ->
  node leaf l i = node leaf' l i.
Proof.
  induction l as [|l IH]; intros i Hk; cbn [GroupSpec.node]; [apply Hk; lia|].
  rewrite Nat2Z.inj_succ, Z.pow_succ_r in Hk by lia. pose proof (Z.pow_pos_nonneg 2 (Z.of_nat l) ltac:(lia) ltac:(lia)).
  rewrite (IH (2 * i)), (IH (2 * i + 1)); [done|intros k Hr; apply Hk; nia..].
Qed.

Lemma node_shift leaf l c : forall i, node leaf l (i + c) = node (fun k => leaf (k + c * 2 ^ Z.of_nat l)) l i.
Proof.
  revert c. induction l as [|l IH]; intros c i; cbn [GroupSpec.node]; [by rewrite Z.mul_1_r|].
  replace (2 * (i + c)) with (2 * i + 2 * c) by ring. replace (2 * i + 2 * c + 1) with (2 * i + 1 + 2 * c) by ring. rewrite !IH.
  rewrite Nat2Z.inj_succ, Z.pow_succ_r by lia. by replace (2 * c * 2 ^ Z.of_nat l) with (c * (2 * 2 ^ Z.of_nat l)) by ring.
Qed.

Lemma node_const d l i j : node (fun _ => d) l i = node (fun _ => d) l j.
Proof. revert i j. induction l as [|l IH]; intros i j; cbn [GroupSpec.node]; [done|]. by rewrite (IH (2 * i) (2 * j)), (IH (2 * i + 1) (2 * j + 1)). Qed.
End Nodes.

(** An index and its half. *)
Lemma half_split i : 0 <= i -> i = 2 * Z.shiftr i 1 \/ i = 2 * Z.shiftr i 1 + 1.
Proof. intros (k & Hk & [-> | ->])%index_halves; [destruct (even_bits k Hk) as (_ & _ & ->)|destruct (odd_bits k Hk) as (_ & _ & ->)]; auto. Qed.
Lemma shiftr_1 i j : 0 <= j -> Z.shiftr (Z.shiftr i j) 1 = Z.shiftr i (j + 1).
Proof. intros Hj. by rewrite Z.shiftr_shiftr by lia. Qed.
Lemma shiftr_range i h k : 0 <= h -> 0 <= i -> k * 2 ^ h <= i < (k + 1) * 2 ^ h <-> Z.shiftr i h = k /\ 0 <= i.
Proof.
  intros Hh Hi. rewrite Z.shiftr_div_pow2 by lia. pose proof (Z.pow_pos_nonneg 2 h ltac:(lia) Hh).
  pose proof (Z.div_mod i (2 ^ h) ltac:(lia)). pose proof (Z.mod_pos_bound i (2 ^ h) ltac:(lia)). split; [intros; split; [nia|done]|intros [<- _]; nia].
Qed.

(** ** Bitmaps *)

Section Bitmaps.
Context `{RuintLaws, !Uints, !UintsLaws}.

Lemma u_shl_small w x k : fits w x -> 0 <= k -> fits w (x * 2 ^ k) -> u_shl w x k = x * 2 ^ k.
Proof. intros Hx Hk Hf. rewrite u_shl_law, Z.shiftl_mul_pow2 by done. by apply wrap_small. Qed.

Lemma range_ones n : 0 <= n <= 256 -> from_bit_range 0 n = Z.ones n.
Proof.
  intros Hn. unfold from_bit_range. rewrite (u_shl_law 256 1 n) by (unfold fits; lia). rewrite Z.shiftl_mul_pow2, Z.mul_1_l by lia.
  pose proof (Z.pow_pos_nonneg 2 n ltac:(lia) ltac:(lia)). rewrite Z.ones_equiv.
  assert (E : u_sub 256 (wrap 256 (2 ^ n)) 1 = Z.pred (2 ^ n)).
  { rewrite u_sub_law by (first [apply (wrap_fits 256); lia|lia]). destruct (Z.eq_dec n 256) as [->|Hne]; [by vm_compute|].
    pose proof (Z.pow_lt_mono_r 2 n 256 ltac:(lia) ltac:(lia) ltac:(lia)). rewrite (wrap_small 256 (2 ^ n)) by (unfold fits; lia). rewrite wrap_small by (unfold fits; lia). lia. }
  rewrite E, u_shl_law, Z.shiftl_0_r by (unfold fits; pose proof (Z.pow_le_mono_r 2 n 256); lia).
  apply wrap_small. unfold fits. pose proof (Z.pow_le_mono_r 2 n 256). lia.
Qed.
End Bitmaps.

(** The tables hold the roots of the trees of empty and of full leaves. *)
Class TablesOk `{Sha256, Ruint} := {
  empty_roots h : (h <= 248)%nat -> EMPTY_SUBTREE_ROOTS !! h = Some (node join (fun _ => hash_leaf EMPTY) h 0);
  full_roots h : (h <= 248)%nat -> FULL_SUBTREE_ROOTS !! h = Some (node join (fun _ => hash_leaf FULL) h 0) }.

Section Trees.
Context `{Sha256, RuintLaws, !Uints, !UintsLaws, !TablesOk}.
Abbreviation O_ := (outcome Error).
(** The tree of bitmaps. *)
Abbreviation tree lf := (node join (fun k => hash_leaf (lf k))).

Lemma empty_tree lf h i : (h <= 248)%nat -> (forall k, i * 2 ^ Z.of_nat h <= k < (i + 1) * 2 ^ Z.of_nat h -> lf k = EMPTY) ->
  (unwrap (EMPTY_SUBTREE_ROOTS !! h) : O_ Digest) = Ok (tree lf h i).
Proof.
  intros Hh Hk. rewrite empty_roots by done. cbn [unwrap]. f_equal. rewrite (node_const _ _ _ 0 i). apply node_ext. intros k Hr. by rewrite Hk.
Qed.
Lemma full_tree lf h i : (h <= 248)%nat -> (forall k, i * 2 ^ Z.of_nat h <= k < (i + 1) * 2 ^ Z.of_nat h -> lf k = FULL) ->
  (unwrap (FULL_SUBTREE_ROOTS !! h) : O_ Digest) = Ok (tree lf h i).
Proof.
  intros Hh Hk. rewrite full_roots by done. cbn [unwrap]. f_equal. rewrite (node_const _ _ _ 0 i). apply node_ext. intros k Hr. by rewrite Hk.
Qed.

(** *** Jobs *)

Definition job_ok (j : Job) : Prop := match index_max j with Some m => u32 m | None => True end.
(** The bitmaps of a job. *)
Definition job_leaf (j : Job) (k : Z) : Bitmap := job_bitmap_at j (k * 256).

Lemma job_leaf_at j i : 0 <= i -> job_bitmap_at j i = job_leaf j (Z.shiftr i 8).
Proof.
  intros Hi. unfold job_leaf, job_bitmap_at. destruct (index_max j); [|done]. change 256 with (2 ^ 8).
  rewrite <- (Z.shiftl_mul_pow2 _ 8) by lia. by rewrite Z.shiftr_shiftl_l, Z.sub_diag, Z.shiftl_0_r by lia.
Qed.

Lemma job_leaf_cases m k : 0 <= k -> job_leaf (mkJob (Some m)) k =
  match k ?= Z.shiftr m 8 with Lt => FULL | Eq => from_bit_range 0 (Z.land m 0xff + 1) | Gt => EMPTY end.
Proof.
  intros Hk. unfold job_leaf, job_bitmap_at. cbn [index_max]. change 256 with (2 ^ 8).
  rewrite <- (Z.shiftl_mul_pow2 _ 8) by lia. by rewrite Z.shiftr_shiftl_l, Z.sub_diag, Z.shiftl_0_r by lia.
Qed.
Lemma job_below m k : 0 <= k -> k < Z.shiftr m 8 -> job_leaf (mkJob (Some m)) k = FULL.
Proof. intros Hk Hl. rewrite job_leaf_cases by done. by rewrite (proj2 (Z.compare_lt_iff _ _)). Qed.
Lemma job_above m k : 0 <= k -> Z.shiftr m 8 < k -> job_leaf (mkJob (Some m)) k = EMPTY.
Proof. intros Hk Hl. rewrite job_leaf_cases by done. by rewrite (proj2 (Z.compare_gt_iff _ _)). Qed.

(** A subtree left of the one of the boundary [b] is below it, one right of it above. *)
Lemma subtree_left b h i k : 0 <= b -> 0 <= i -> i < Z.shiftr b (Z.of_nat h) -> i * 2 ^ Z.of_nat h <= k < (i + 1) * 2 ^ Z.of_nat h -> 0 <= k < b.
Proof.
  intros Hb Hi Hl Hk. rewrite Z.shiftr_div_pow2 in Hl by lia. pose proof (Z.pow_pos_nonneg 2 (Z.of_nat h) ltac:(lia) ltac:(lia)).
  pose proof (Z.mul_div_le b (2 ^ Z.of_nat h) ltac:(lia)). nia.
Qed.
Lemma subtree_right b h i k : 0 <= b -> Z.shiftr b (Z.of_nat h) < i -> i * 2 ^ Z.of_nat h <= k < (i + 1) * 2 ^ Z.of_nat h -> 0 <= k /\ b < k.
Proof.
  intros Hb Hl Hk. rewrite Z.shiftr_div_pow2 in Hl by lia. pose proof (Z.pow_pos_nonneg 2 (Z.of_nat h) ltac:(lia) ltac:(lia)).
  pose proof (Z.mul_succ_div_gt b (2 ^ Z.of_nat h) ltac:(lia)). nia.
Qed.

Lemma job_left m h i : 0 <= m -> (h <= 248)%nat -> 0 <= i -> i < Z.shiftr (Z.shiftr m 8) (Z.of_nat h) ->
  (unwrap (FULL_SUBTREE_ROOTS !! h) : O_ Digest) = Ok (tree (job_leaf (mkJob (Some m))) h i).
Proof.
  intros Hm Hh Hi Hl. apply full_tree; [done|]. intros k Hk. pose proof (proj2 (Z.shiftr_nonneg m 8) Hm). apply subtree_left with (b := Z.shiftr m 8) in Hk; [|done..]. apply job_below; lia.
Qed.
Lemma job_right m h i : 0 <= m -> (h <= 248)%nat -> Z.shiftr (Z.shiftr m 8) (Z.of_nat h) < i ->
  (unwrap (EMPTY_SUBTREE_ROOTS !! h) : O_ Digest) = Ok (tree (job_leaf (mkJob (Some m))) h i).
Proof.
  intros Hm Hh Hl. apply empty_tree; [done|]. intros k Hk. pose proof (proj2 (Z.shiftr_nonneg m 8) Hm). apply subtree_right with (b := Z.shiftr m 8) in Hk as [Hk Hb]; [|done..]. by apply job_above.
Qed.

(** The subtree of the boundary at a height. *)
Definition boundary_at (m : Z) (j : nat) : Z := Z.shiftr (Z.shiftr m 8) (Z.of_nat j).
Lemma boundary_run m n : 0 <= m -> forall j, (j + n <= 248)%nat ->
  boundary_loop j n (boundary_at m j) (tree (job_leaf (mkJob (Some m))) j (boundary_at m j)) = Ok (tree (job_leaf (mkJob (Some m))) (j + n) (boundary_at m (j + n))).
Proof.
  intros Hm. induction n as [|n IH]; intros j Hj; cbn [boundary_loop]; [by rewrite Nat.add_0_r|].
  assert (Hat : 0 <= boundary_at m j) by (unfold boundary_at; rewrite !Z.shiftr_nonneg; done).
  assert (Hs : Z.shiftr (boundary_at m j) 1 = boundary_at m (S j)) by (unfold boundary_at; rewrite shiftr_1 by lia; f_equal; lia).
  specialize (IH (S j) ltac:(lia)). rewrite Hs.
  replace (j + S n)%nat with (S j + n)%nat by lia. rewrite <- IH. clear IH.
  apply index_halves in Hat as (k & Hk & [E|E]).
  - destruct (even_bits k Hk) as (El & _ & Er). rewrite E, Er in Hs. rewrite E, El. change (0 =? 1) with false. cbv iota.
    rewrite (job_right m j (2 * k + 1)) by (fold (boundary_at m j); first [done|lia]). cbn [mbind outcome_bind]. by rewrite <- Hs.
  - destruct (odd_bits k Hk) as (El & _ & Er). rewrite E, Er in Hs. rewrite E, El. change (1 =? 1) with true. cbv iota.
    rewrite (job_left m j (2 * k)) by (fold (boundary_at m j); first [done|lia]). cbn [mbind outcome_bind]. by rewrite <- Hs.
Qed.

(** A subtree of a job is the subtree of its bitmaps. *)
Lemma job_subtree_run j h i : job_ok j -> (h <= 24)%nat -> 0 <= i < 2 ^ (24 - Z.of_nat h) ->
  job_subtree_root j h i = Ok (tree (job_leaf j) h i).
Proof.
  intros Hj Hh Hi. unfold job_subtree_root. change JOB_HEIGHT with 24%nat.
  rewrite (proj2 (Nat.leb_le _ _)) by done. cbn [assert_ mbind outcome_bind].
  pose proof (Z.pow_le_mono_r 2 (24 - Z.of_nat h) 24 ltac:(lia) ltac:(lia)) as Hpow.
  assert (E1 : shl32 1 (Z.of_nat (24 - h)) = 2 ^ (24 - Z.of_nat h)).
  { unfold shl32. rewrite Z.shiftl_mul_pow2, Z.mul_1_l by lia. replace (Z.of_nat (24 - h)) with (24 - Z.of_nat h) by lia. apply wrap_small. unfold fits. lia. }
  rewrite E1, (proj2 (Z.ltb_lt _ _)) by lia. cbn [assert_ mbind outcome_bind]. destruct (Nat.eqb_spec h 0) as [->|Hne].
  { assert (E2 : shl32 i 8 = i * 256) by (unfold shl32; rewrite Z.shiftl_mul_pow2 by lia; apply wrap_small; unfold fits; cbn in Hi; lia). by rewrite E2. }
  destruct j as [[m|]]; cbn [index_max]; [|by apply empty_tree; [lia|]]. cbn in Hj. unfold fits in Hj.
  assert (E2 : checked_shr 32 m (8 + Z.of_nat h) = Z.shiftr (Z.shiftr m 8) (Z.of_nat h)).
  { rewrite Z.shiftr_shiftr by lia. unfold checked_shr. destruct (Z.ltb_spec (8 + Z.of_nat h) 32); [done|]. replace (8 + Z.of_nat h) with 32 by lia.
    rewrite Z.shiftr_div_pow2, Z.div_small by lia. done. }
  rewrite E2. destruct (Z.compare_spec i (Z.shiftr (Z.shiftr m 8) (Z.of_nat h))) as [E|Hl|Hg].
  - unfold boundary_subtree_root. cbn [index_max unwrap mbind outcome_bind]. rewrite job_leaf_at by lia.
    pose proof (boundary_run m h ltac:(lia) 0 ltac:(lia)) as Hb. unfold boundary_at in Hb. cbn [GroupSpec.node Nat.add] in Hb. rewrite Z.shiftr_0_r in Hb. by rewrite Hb, <- E.
  - apply job_left; lia.
  - apply job_right; lia.
Qed.

(** *** Indices *)

Record ops_ok (w : Z) (ops : MerkleizedIndex) : Prop := {
  ops_bitmap i : 0 <= i -> bitmap_index ops i = i mod 256;
  ops_lowest i : 0 <= i -> lowest_bit ops i = (Z.land i 1 =? 1);
  ops_shr i n : 0 <= i -> 0 <= n -> shr ops i n = Z.shiftr i n;
  ops_sibling i : 0 <= i -> sibling ops i = Z.lxor i 1;
  ops_double i : 0 <= i -> fits w (2 * i) -> shl ops i 1 = 2 * i }.

Lemma land_byte i : Z.land i 0xff = i mod 256.
Proof. change 0xff with (Z.ones 8). by rewrite Z.land_ones by lia. Qed.
Lemma native_ok w : ops_ok w (native w).
Proof.
  split; intros; cbn [native bitmap_index lowest_bit shr sibling shl]; try done; [apply land_byte|].
  rewrite Z.shiftl_mul_pow2, Z.mul_comm by lia. by apply wrap_small.
Qed.
Lemma uint_ok w : ops_ok w (uint w).
Proof.
  split; intros; cbn [uint bitmap_index lowest_bit shr sibling shl].
  - rewrite u_and_law by lia. apply land_byte.
  - by rewrite u_and_law by lia.
  - by apply u_shr_law.
  - by apply u_xor_law; lia.
  - rewrite u_shl_law by (unfold fits in *; lia). rewrite Z.shiftl_mul_pow2, Z.mul_comm by lia. by apply wrap_small.
Qed.

(** *** The upper part of a tree, over the trees of a map *)

Section Upper.
Context {A : Type} (w : Z) (ops : MerkleizedIndex) (Hops : ops_ok w ops) (m : gmap Z A) (commit : A -> O_ Digest) (base : nat).
Context (lf : Z -> Bitmap).
Abbreviation T := (tree lf).
Context (Hkeys : forall id a, m !! id = Some a -> fits w id).
Context (Hcommit : forall id a, m !! id = Some a -> commit a = Ok (T base id)).
(** Where there is no key, the leaves are empty. *)
Context (Hempty : forall k, 0 <= k -> m !! Z.shiftr k (Z.of_nat base) = None -> lf k = EMPTY).

(** A node [j] levels above the keys, with a key below it, in the subtree of [index]. *)
Definition inhabited (n j : nat) (index id : Z) : Prop :=
  exists key a, m !! key = Some a /\ Z.shiftr key (Z.of_nat j) = id /\ Z.shiftr id (Z.of_nat (n - j)) = index.
Definition level_ok (n j : nat) (index : Z) (level : gmap Z Digest) : Prop :=
  forall id d, level !! id = Some d <-> d = T (base + j) id /\ inhabited n j index id.

Lemma uninhabited_empty j id : (base + j <= 248)%nat -> 0 <= id -> (forall key a, m !! key = Some a -> Z.shiftr key (Z.of_nat j) <> id) ->
  (unwrap (EMPTY_SUBTREE_ROOTS !! (base + j)%nat) : O_ Digest) = Ok (T (base + j) id).
Proof.
  intros Hj Hid Hno. apply empty_tree; [done|]. intros k Hk. pose proof (Z.pow_pos_nonneg 2 (Z.of_nat (base + j)) ltac:(lia) ltac:(lia)).
  assert (Hk0 : 0 <= k) by nia. apply Hempty; [done|]. destruct (m !! Z.shiftr k (Z.of_nat base)) as [a|] eqn:E; [|done].
  exfalso. apply (Hno _ _ E). rewrite Z.shiftr_shiftr by lia. apply shiftr_range in Hk as [Hk _]; [|lia|done]. rewrite <- Hk. f_equal. lia.
Qed.

Lemma inhabited_nonneg n j index id : inhabited n j index id -> 0 <= id /\ (0 < Z.of_nat j -> fits w (2 * id)).
Proof.
  intros (key & a & Hk & <- & _). apply Hkeys in Hk. unfold fits in *. rewrite Z.shiftr_nonneg. split; [lia|]. intros Hj.
  rewrite Z.shiftr_div_pow2 by lia. pose proof (Z.pow_le_mono_r 2 1 (Z.of_nat j) ltac:(lia) ltac:(lia)). pose proof (Z.mul_div_le key (2 ^ Z.of_nat j) ltac:(lia)).
  pose proof (Z.div_pos key (2 ^ Z.of_nat j) ltac:(lia) ltac:(lia)). nia.
Qed.
Lemma inhabited_up n j index id : (j < n)%nat -> inhabited n j index id -> inhabited n (S j) index (Z.shiftr id 1).
Proof.
  intros Hj (key & a & Hk & <- & Hi). exists key, a. split; [done|]. split; [rewrite shiftr_1 by lia; f_equal; lia|].
  rewrite Z.shiftr_shiftr by lia. rewrite <- Hi. f_equal. lia.
Qed.
Lemma inhabited_down n j index id : (j < n)%nat -> inhabited n (S j) index id -> exists c, inhabited n j index c /\ Z.shiftr c 1 = id.
Proof.
  intros Hj (key & a & Hk & E & Hi). exists (Z.shiftr key (Z.of_nat j)). assert (E' : Z.shiftr (Z.shiftr key (Z.of_nat j)) 1 = id)
    by (rewrite <- E, shiftr_1 by lia; f_equal; lia). split; [|done].
  exists key, a. split; [done|]. split; [done|]. rewrite <- Hi, <- E'. rewrite (Z.shiftr_shiftr _ 1) by lia. f_equal. lia.
Qed.

(** A child of an inhabited node, in the level or empty. *)
Lemma child_run n j index level id c empty : level_ok n j index level -> (base + n <= 248)%nat -> (j < n)%nat -> inhabited n (S j) index id -> 0 <= c -> Z.shiftr c 1 = id ->
  (unwrap (EMPTY_SUBTREE_ROOTS !! (base + j)%nat) : O_ Digest) = Ok empty -> default empty (level !! c) = T (base + j) c.
Proof.
  intros Hl Hn Hj (key & a & _ & _ & Hi) Hc Hcid He. destruct (level !! c) as [d|] eqn:E; [by apply Hl in E as [-> _]|]. cbn [default].
  rewrite (uninhabited_empty j c) in He; [by injection He|lia|done|]. intros key' a' Hk' Ec.
  assert (E' : level !! c = Some (T (base + j) c)); [|by rewrite E' in E]. apply Hl. split; [done|]. exists key', a'. split; [done|]. split; [done|].
  rewrite <- Hi, <- Hcid. rewrite (Z.shiftr_shiftr _ 1) by lia. f_equal. lia.
Qed.

Lemma next_level_run n j index level : level_ok n j index level -> (base + n <= 248)%nat -> (j < n)%nat ->
  exists level', next_level ops (base + j) level = Ok level' /\ level_ok n (S j) index level'.
Proof.
  intros Hl Hn Hj. unfold next_level. destruct (unwrap (EMPTY_SUBTREE_ROOTS !! (base + j)%nat) : O_ Digest) as [empty| |] eqn:He;
    [|by rewrite empty_roots in He by lia..]. cbn [mbind outcome_bind]. eexists. split; [reflexivity|]. intros id d.
  assert (Hkey : id ∈ (set_map (fun idx => shr ops idx 1) (dom level) : gset Z) <-> inhabited n (S j) index id).
  { rewrite elem_of_map. split.
    - intros (c & -> & Hc%elem_of_dom). destruct Hc as [d' Hc]. apply Hl in Hc as [_ Hc]. rewrite (ops_shr _ _ Hops) by (destruct (inhabited_nonneg _ _ _ _ Hc); lia).
      by apply inhabited_up.
    - intros (c & Hc & <-)%inhabited_down; [|done]. exists c. split; [rewrite (ops_shr _ _ Hops) by (destruct (inhabited_nonneg _ _ _ _ Hc); lia); done|].
      apply elem_of_dom. eexists. by apply Hl. }
  rewrite lookup_set_to_map by (by intros). rewrite <- Hkey. split.
  - intros (id' & Hin & [= -> <-]). split; [|done]. apply Hkey in Hin. destruct (inhabited_nonneg _ _ _ _ Hin) as [H0' Hf]. specialize (Hf ltac:(lia)).
    destruct (even_bits id H0') as (_ & E1 & E2), (odd_bits id H0') as (_ & _ & E3). rewrite (ops_double _ _ Hops), (ops_sibling _ _ Hops), E1 by (done || lia).
    replace (base + S j)%nat with (S (base + j)) by lia. cbn [GroupSpec.node].
    by rewrite (child_run n j index level id (2 * id) empty), (child_run n j index level id (2 * id + 1) empty) by (done || lia).
  - intros [-> Hin]. exists id. split; [done|]. f_equal. apply Hkey in Hin. destruct (inhabited_nonneg _ _ _ _ Hin) as [H0' Hf]. specialize (Hf ltac:(lia)).
    destruct (even_bits id H0') as (_ & E1 & E2), (odd_bits id H0') as (_ & _ & E3). rewrite (ops_double _ _ Hops), (ops_sibling _ _ Hops), E1 by (done || lia).
    replace (base + S j)%nat with (S (base + j)) by lia. cbn [GroupSpec.node].
    by rewrite (child_run n j index level id (2 * id) empty), (child_run n j index level id (2 * id + 1) empty) by (done || lia).
Qed.

Lemma levels_run index n k : forall j level, (j + k = n)%nat -> (base + n <= 248)%nat -> level_ok n j index level ->
  exists level', levels ops k (base + j) level = Ok level' /\ level_ok n n index level'.
Proof.
  induction k as [|k IH]; intros j level Hk Hn Hl; cbn [levels].
  - exists level. split; [done|]. by replace j with n in Hl by lia.
  - destruct (next_level_run n j index level Hl Hn ltac:(lia)) as (level1 & -> & Hl1). cbn [mbind outcome_bind].
    replace (S (base + j)) with (base + S j)%nat by lia. apply IH; [lia|done|done].
Qed.

Lemma upper_root_run n index (above : Z -> bool) : (base + n <= 248)%nat -> 0 <= index ->
  (forall id a, m !! id = Some a -> above id = true <-> Z.shiftr id (Z.of_nat n) = index) ->
  upper_root ops above commit base (base + n) m = Ok (T (base + n) index).
Proof.
  intros Hn Hi Habove. unfold upper_root. set (l := filter _ (map_to_list m)).
  assert (Hin : forall id a, (id, a) ∈ l <-> m !! id = Some a /\ Z.shiftr id (Z.of_nat n) = index).
  { intros id a. unfold l. rewrite list_elem_of_filter, elem_of_map_to_list. rewrite Is_true_true. split; [intros [Ha Hm]; split; [done|by apply (Habove id a)]|].
    intros [Hm Ha]. split; [by apply (Habove id a)|done]. }
  assert (Er : mapM (fun '(id, a) => d ← commit a; Ok (id, d)) l = Ok (map (fun '(id, _) => (id, T base id)) l)).
  { apply (mapM_ok (fun '(id, a) => d ← commit a; Ok (id, d)) (fun '(id, _) => (id, T base id))). apply Forall_forall. intros [id a] [Hm _]%Hin. by rewrite (Hcommit id a Hm). }
  rewrite Er. cbn [mbind outcome_bind]. set (level := list_to_map _).
  assert (Hl : level_ok n 0 index level).
  { intros id d. unfold level. rewrite Nat.add_0_r. rewrite <- elem_of_list_to_map.
    2:{ change (map (fun '(id, _) => (id, T base id)) l) with ((fun '(id, _) => (id, T base id)) <$> l). rewrite <- list_fmap_compose.
        rewrite (list_fmap_ext _ fst) by (by intros ? [? ?]). unfold l. apply (sublist_NoDup _ (fst <$> map_to_list m)); [|apply fmap_sublist, sublist_filter]; apply NoDup_fst_map_to_list. }
    rewrite list_elem_of_In, in_map_iff. unfold inhabited. split.
    - intros ([id' a] & [= <- <-] & Hin'%list_elem_of_In). apply Hin in Hin' as [Hm Ha]. split; [done|]. exists id', a. rewrite Nat.sub_0_r, Z.shiftr_0_r. done.
    - intros [-> (key & a & Hm & Ek & Ha)]. rewrite Z.shiftr_0_r in Ek. subst key. exists (id, a). split; [done|]. apply list_elem_of_In, Hin. by rewrite Nat.sub_0_r in Ha. }
  destruct (decide (level = ∅)) as [He|Hne].
  - apply uninhabited_empty; [done..|]. intros key a Hm Hk. assert (El : level !! key = Some (T (base + 0) key)); [|by rewrite He in El].
    apply Hl. split; [done|]. exists key, a. rewrite Z.shiftr_0_r, Nat.sub_0_r. done.
  - replace (base + n - base)%nat with n by lia. destruct (levels_run index n n 0 level ltac:(lia) Hn Hl) as (level' & E' & Hl'). rewrite Nat.add_0_r in E'. rewrite E'. cbn [mbind outcome_bind].
    assert (Elev : level' = {[ index := T (base + n) index ]}).
    { apply map_eq. intros id. destruct (decide (id = index)) as [->|Hid].
      - rewrite lookup_singleton_eq. apply Hl'. split; [done|]. apply map_choose in Hne as (key & d & Hk). apply Hl in Hk as [_ (key' & a & Hm & E1 & E2)].
        rewrite Z.shiftr_0_r in E1. subst key'. rewrite Nat.sub_0_r in E2. exists key, a. rewrite Nat.sub_diag, Z.shiftr_0_r. done.
      - rewrite lookup_singleton_ne by done. destruct (level' !! id) as [d|] eqn:E; [|done]. apply Hl' in E as [_ (key & a & _ & _ & E)].
        rewrite Nat.sub_diag, Z.shiftr_0_r in E. congruence. }
    rewrite Elev, map_size_singleton, map_to_list_singleton. done.
Qed.
End Upper.

(** *** Logs and sets *)

(** The tree of a part of the leaves. *)
Lemma tree_part lf lf' B q h r : (forall k, 0 <= k < 2 ^ Z.of_nat B -> lf (k + q * 2 ^ Z.of_nat B) = lf' k) -> (h <= B)%nat -> 0 <= r < 2 ^ Z.of_nat (B - h) ->
  tree lf h (r + q * 2 ^ Z.of_nat (B - h)) = tree lf' h r.
Proof.
  intros Hk Hh Hr. rewrite node_shift. apply node_ext. intros k Hin. rewrite <- Z.mul_assoc, <- Z.pow_add_r by lia.
  replace (Z.of_nat (B - h) + Z.of_nat h) with (Z.of_nat B) by lia. f_equal. apply Hk.
  assert (E : 2 ^ Z.of_nat B = 2 ^ Z.of_nat (B - h) * 2 ^ Z.of_nat h) by (rewrite <- Z.pow_add_r by lia; f_equal; lia).
  pose proof (Z.pow_pos_nonneg 2 (Z.of_nat h) ltac:(lia) ltac:(lia)). nia.
Qed.

Lemma u_pow w b : 0 < w -> 0 <= b < w -> u_shl w 1 b = 2 ^ b.
Proof.
  intros Hw Hb. pose proof (Z.pow_lt_mono_r 2 b w ltac:(lia) ltac:(lia) ltac:(lia)). pose proof (Z.pow_pos_nonneg 2 b ltac:(lia) ltac:(lia)).
  pose proof (Z.pow_gt_1 2 w ltac:(lia)) as Hpg. rewrite u_shl_small; [lia|unfold fits; lia|lia|unfold fits; lia].
Qed.
Lemma u_low w i b : 0 < w -> 0 <= i -> 0 <= b < w -> u_and i (u_sub w (u_shl w 1 b) 1) = i mod 2 ^ b.
Proof.
  intros Hw Hi Hb. rewrite u_pow by done. pose proof (Z.pow_lt_mono_r 2 b w ltac:(lia) ltac:(lia) ltac:(lia)). pose proof (Z.pow_pos_nonneg 2 b ltac:(lia) ltac:(lia)).
  rewrite u_sub_law, wrap_small by (unfold fits; lia). rewrite u_and_law by lia. replace (2 ^ b - 1) with (Z.ones b) by (rewrite Z.ones_equiv; lia). by rewrite Z.land_ones by lia.
Qed.
Lemma to_fits w i : fits w i -> (unwrap (u_to w i) : O_ Z) = Ok i.
Proof. intros Hf. rewrite u_to_law by (unfold fits in Hf; lia). by rewrite decide_True. Qed.

Lemma split_index i b : 0 <= b -> i = i mod 2 ^ b + Z.shiftr i b * 2 ^ b.
Proof. intros Hb. rewrite Z.shiftr_div_pow2 by lia. pose proof (Z.div_mod i (2 ^ b) ltac:(pose proof (Z.pow_pos_nonneg 2 b); lia)). lia. Qed.
Lemma part_high k q B : 0 <= B -> 0 <= k < 2 ^ B -> Z.shiftr (k + q * 2 ^ B) B = q /\ (k + q * 2 ^ B) mod 2 ^ B = k.
Proof. intros HB Hk. rewrite Z.shiftr_div_pow2, Z.div_add, Z.div_small, Z.mod_add, Z.mod_small by lia. done. Qed.

Definition log_ok (l : WorkLog) : Prop := forall id j, jobs l !! id = Some j -> u64 id /\ job_ok j.
Definition job_of (l : WorkLog) (id : Z) : Job := default EMPTY_JOB (jobs l !! id).
Definition log_leaf (l : WorkLog) (k : Z) : Bitmap := job_leaf (job_of l (Z.shiftr k 24)) (k mod 2 ^ 24).

Lemma job_of_ok l id : log_ok l -> job_ok (job_of l id).
Proof. intros Hl. unfold job_of. destruct (jobs l !! id) eqn:E; [by apply (Hl id)|done]. Qed.
Lemma log_part l q k : 0 <= k < 2 ^ Z.of_nat 24 -> log_leaf l (k + q * 2 ^ Z.of_nat 24) = job_leaf (job_of l q) k.
Proof. intros Hk. unfold log_leaf. change (Z.of_nat 24) with 24 in *. by destruct (part_high k q 24 ltac:(lia) Hk) as [-> ->]. Qed.

Lemma job_commit_run l id : log_ok l -> job_commit (job_of l id) = Ok (tree (log_leaf l) 24 id).
Proof.
  intros Hl. unfold job_commit. rewrite job_subtree_run; [|by apply job_of_ok|done|change (Z.of_nat JOB_HEIGHT) with 24; lia]. f_equal.
  pose proof (tree_part (log_leaf l) (job_leaf (job_of l id)) 24 id 24 0 (fun k Hk => log_part l id k Hk) ltac:(lia) ltac:(change (2 ^ Z.of_nat (24 - 24)) with 1; lia)) as E.
  change JOB_HEIGHT with 24%nat. rewrite <- E. f_equal. change (2 ^ Z.of_nat (24 - 24)) with 1. lia.
Qed.

(** A subtree of a log is the subtree of its bitmaps. *)
Lemma log_subtree_run l h i : log_ok l -> (h <= 88)%nat -> 0 <= i < 2 ^ Z.of_nat (88 - h) -> log_subtree_root l h i = Ok (tree (log_leaf l) h i).
Proof.
  intros Hl Hh Hi. unfold log_subtree_root. change LOG_HEIGHT with 88%nat. change JOB_HEIGHT with 24%nat.
  rewrite (proj2 (Nat.leb_le h 88)) by done. cbn [assert_ mbind outcome_bind]. rewrite (u_pow 96 (Z.of_nat (88 - h))) by lia. rewrite (proj2 (Z.ltb_lt _ _)) by lia. cbn [assert_ mbind outcome_bind].
  destruct (Nat.leb_spec h 24) as [Hle|Hgt].
  - set (b := Z.of_nat (24 - h)). rewrite u_low by lia. assert (Hpb : 0 < 2 ^ b <= 2 ^ 24) by (split; [apply Z.pow_pos_nonneg; lia|apply Z.pow_le_mono_r; lia]).
    pose proof (Z.mod_pos_bound i (2 ^ b) ltac:(lia)) as Hm. rewrite (to_fits 32 (i mod 2 ^ b)) by (unfold fits; lia). cbn [mbind outcome_bind].
    assert (Hs : fits 64 (Z.shiftr i b)).
    { unfold fits. rewrite Z.shiftr_div_pow2 by lia. split; [apply Z.div_pos; lia|]. apply Z.div_lt_upper_bound; [lia|]. rewrite <- Z.pow_add_r by lia.
      replace (b + 64) with (Z.of_nat (88 - h)) by lia. lia. }
    rewrite (u_shr_law i b), (to_fits 64 (Z.shiftr i b)) by (done || lia). cbn [mbind outcome_bind]. change (default EMPTY_JOB _) with (job_of l (Z.shiftr i b)).
    rewrite job_subtree_run; [|by apply job_of_ok|done|replace (24 - Z.of_nat h) with b by lia; lia]. f_equal.
    rewrite (split_index i b) at 2 by lia. symmetry. apply (tree_part (log_leaf l) _ 24); [intros k Hk; by apply log_part|lia|exact Hm].
  - assert (Hp : 2 ^ Z.of_nat (88 - h) <= 2 ^ 63) by (apply Z.pow_le_mono_r; lia). rewrite (to_fits 64 i) by (unfold fits; lia). cbn [mbind outcome_bind].
    pose proof (upper_root_run 64 (native 64) (native_ok 64) (jobs l) job_commit 24 (log_leaf l)) as Hup. specialize (fun a b c => Hup a b c (h - 24)%nat i).
    replace (24 + (h - 24))%nat with h in Hup by lia. apply Hup; [| | |lia|lia|].
    + intros id a Ha. by apply (Hl id a).
    + intros id a Ha. pose proof (job_commit_run l id Hl) as E. unfold job_of in E. by rewrite Ha in E.
    + intros k Hk Hn. unfold log_leaf, job_of. change (Z.of_nat 24) with 24 in Hn. by rewrite Hn.
    + intros id a Ha. destruct (Hl id a Ha) as [Hid _]. unfold fits in Hid. rewrite Z.eqb_eq. unfold checked_shr. destruct (Z.ltb_spec (Z.of_nat (h - 24)) 64); [done|].
      replace (Z.of_nat (h - 24)) with 64 by lia. rewrite Z.shiftr_div_pow2, Z.div_small by lia. done.
Qed.

Definition set_ok (s : WorkSet) : Prop := forall id l, logs s !! id = Some l -> fits 160 id /\ log_ok l.
Definition log_of (s : WorkSet) (id : Z) : WorkLog := default EMPTY_LOG (logs s !! id).
Definition set_leaf (s : WorkSet) (k : Z) : Bitmap := log_leaf (log_of s (Z.shiftr k 88)) (k mod 2 ^ 88).

Lemma log_of_ok s id : set_ok s -> log_ok (log_of s id).
Proof. intros Hs. unfold log_of. destruct (logs s !! id) eqn:E; [by apply (Hs id)|]. intros id' j Hx. change (@lookup Z Job _ _ id' (∅ : gmap Z Job) = Some j) in Hx. by apply lookup_empty_Some in Hx. Qed.
Lemma set_part s q k : 0 <= k < 2 ^ Z.of_nat 88 -> set_leaf s (k + q * 2 ^ Z.of_nat 88) = log_leaf (log_of s q) k.
Proof. intros Hk. unfold set_leaf. change (Z.of_nat 88) with 88 in *. by destruct (part_high k q 88 ltac:(lia) Hk) as [-> ->]. Qed.
Lemma log_commit_run s id : set_ok s -> log_commit (log_of s id) = Ok (tree (set_leaf s) 88 id).
Proof.
  intros Hs. unfold log_commit. rewrite log_subtree_run; [|by apply log_of_ok|apply Nat.leb_le; by vm_compute|change (Z.of_nat (88 - LOG_HEIGHT)) with 0; lia]. f_equal.
  pose proof (tree_part (set_leaf s) (log_leaf (log_of s id)) 88 id 88 0 (fun k Hk => set_part s id k Hk) ltac:(lia) ltac:(change (2 ^ Z.of_nat (88 - 88)) with 1; lia)) as E.
  change LOG_HEIGHT with 88%nat. rewrite <- E. f_equal. change (2 ^ Z.of_nat (88 - 88)) with 1. lia.
Qed.

(** A subtree of a set is the subtree of its bitmaps. *)
Lemma set_subtree_run s h i : set_ok s -> (h <= 248)%nat -> 0 <= i < 2 ^ Z.of_nat (248 - h) -> set_subtree_root s h i = Ok (tree (set_leaf s) h i).
Proof.
  intros Hs Hh Hi. unfold set_subtree_root. change SET_HEIGHT with 248%nat. change LOG_HEIGHT with 88%nat.
  rewrite (proj2 (Nat.leb_le h 248)) by done. cbn [assert_ mbind outcome_bind]. rewrite (u_pow 256 (Z.of_nat (248 - h))) by lia. rewrite (proj2 (Z.ltb_lt _ _)) by lia. cbn [assert_ mbind outcome_bind].
  destruct (Nat.ltb_spec h 88) as [Hle|Hgt].
  - set (b := Z.of_nat (88 - h)). rewrite u_low by lia. assert (Hpb : 0 < 2 ^ b <= 2 ^ 88) by (split; [apply Z.pow_pos_nonneg; lia|apply Z.pow_le_mono_r; lia]).
    pose proof (Z.mod_pos_bound i (2 ^ b) ltac:(lia)) as Hm. rewrite (to_fits 96 (i mod 2 ^ b)) by (unfold fits; lia). cbn [mbind outcome_bind].
    assert (Hf : fits 160 (Z.shiftr i b)).
    { unfold fits. rewrite Z.shiftr_div_pow2 by lia. split; [apply Z.div_pos; lia|]. apply Z.div_lt_upper_bound; [lia|]. rewrite <- Z.pow_add_r by lia.
      replace (b + 160) with (Z.of_nat (248 - h)) by lia. lia. }
    rewrite (u_shr_law i b), (to_fits 160 (Z.shiftr i b)) by (done || lia). cbn [mbind outcome_bind]. change (default EMPTY_LOG _) with (log_of s (Z.shiftr i b)).
    rewrite log_subtree_run; [|by apply log_of_ok|lia|exact Hm]. f_equal.
    rewrite (split_index i b) at 2 by lia. symmetry. apply (tree_part (set_leaf s) _ 88); [intros k Hk; by apply set_part|lia|exact Hm].
  - assert (Hp : 2 ^ Z.of_nat (248 - h) <= 2 ^ 160) by (apply Z.pow_le_mono_r; lia). rewrite (to_fits 160 i) by (unfold fits; lia). cbn [mbind outcome_bind].
    pose proof (upper_root_run 160 (uint 160) (uint_ok 160) (logs s) log_commit 88 (set_leaf s)) as Hup. specialize (fun a b c => Hup a b c (h - 88)%nat i).
    replace (88 + (h - 88))%nat with h in Hup by lia. apply Hup; [| | |lia|lia|].
    + intros id a Ha. by apply (Hs id a).
    + intros id a Ha. pose proof (log_commit_run s id Hs) as E. unfold log_of in E. by rewrite Ha in E.
    + intros k Hk Hn. unfold set_leaf, log_of. change (Z.of_nat 88) with 88 in Hn. rewrite Hn. unfold log_leaf, job_of, EMPTY_LOG. cbn [default jobs]. by rewrite lookup_empty.
    + intros id a Ha. destruct (Hs id a Ha) as [Hid _]. unfold fits in Hid. rewrite Z.eqb_eq. by rewrite u_shr_law by lia.
Qed.

(** *** Which nonces are used *)

Lemma job_bit j i : job_ok j -> 0 <= i -> fits 256 (job_leaf j (Z.shiftr i 8)) /\ Z.testbit (job_leaf j (Z.shiftr i 8)) (i mod 256) = job_contains j i.
Proof.
  intros Hj Hi. pose proof (proj2 (Z.shiftr_nonneg i 8) Hi) as Hs. destruct j as [[m|]]; [|by split; [split; [done|by vm_compute]|exact (Z.bits_0 _)]].
  unfold job_ok in Hj; cbn [index_max] in Hj. unfold fits in Hj. rewrite job_leaf_cases by done. unfold job_contains. cbn [index_max].
  rewrite !Z.shiftr_div_pow2 by lia. change (2 ^ 8) with 256. rewrite land_byte.
  pose proof (Z.mod_pos_bound i 256 ltac:(lia)). pose proof (Z.mod_pos_bound m 256 ltac:(lia)). pose proof (Z.div_mod i 256 ltac:(lia)). pose proof (Z.div_mod m 256 ltac:(lia)).
  destruct (Z.compare_spec (i / 256) (m / 256)) as [E|Hl|Hg].
  - rewrite range_ones by lia. split; [unfold fits; rewrite Z.ones_equiv; pose proof (Z.pow_le_mono_r 2 (m mod 256 + 1) 256); pose proof (Z.pow_pos_nonneg 2 (m mod 256 + 1)); lia|].
    rewrite Z.testbit_ones_nonneg by lia. destruct (Z.ltb_spec (i mod 256) (m mod 256 + 1)), (Z.leb_spec i m); (done || lia).
  - split; [unfold fits, FULL; lia|]. unfold FULL. change (2 ^ 256 - 1) with (Z.ones 256). rewrite Z.testbit_ones_nonneg by lia.
    destruct (Z.ltb_spec (i mod 256) 256), (Z.leb_spec i m); (done || lia).
  - split; [unfold fits, EMPTY; lia|]. unfold EMPTY. rewrite Z.bits_0. destruct (Z.leb_spec i m); (done || lia).
Qed.

Lemma low_index i w : 8 <= w -> Z.shiftr (i mod 2 ^ w) 8 = Z.shiftr i 8 mod 2 ^ (w - 8) /\ (i mod 2 ^ w) mod 256 = i mod 256.
Proof.
  intros Hw. rewrite !Z.shiftr_div_pow2 by lia. change (2 ^ 8) with 256.
  assert (E : 2 ^ w = 256 * 2 ^ (w - 8)) by (change 256 with (2 ^ 8); rewrite <- Z.pow_add_r by lia; f_equal; lia).
  pose proof (Z.pow_pos_nonneg 2 (w - 8) ltac:(lia) ltac:(lia)). rewrite E. rewrite Z.rem_mul_r by lia. rewrite (Z.mul_comm 256). split.
  - rewrite Z.div_add by lia. rewrite (Z.div_small (i mod 256)) by (apply Z.mod_pos_bound; lia). lia.
  - rewrite Z.mod_add by lia. apply Z.mod_mod. lia.
Qed.

Lemma log_bit l seq : log_ok l -> fits 96 seq ->
  log_bitmap_at l seq = Ok (log_leaf l (Z.shiftr seq 8)) /\ fits 256 (log_leaf l (Z.shiftr seq 8)) /\
  log_contains l seq = Ok (Z.testbit (log_leaf l (Z.shiftr seq 8)) (seq mod 256)).
Proof.
  intros Hl Hs. unfold fits in Hs. destruct (low_index seq 32 ltac:(lia)) as [E1 E2].
  assert (Hh : fits 64 (Z.shiftr seq 32)) by (unfold fits; rewrite Z.shiftr_div_pow2 by lia; split; [apply Z.div_pos; lia|apply Z.div_lt_upper_bound; lia]).
  assert (El : log_leaf l (Z.shiftr seq 8) = job_leaf (job_of l (Z.shiftr seq 32)) (Z.shiftr (seq mod 2 ^ 32) 8)) by (unfold log_leaf; rewrite Z.shiftr_shiftr by lia; by rewrite E1).
  pose proof (Z.mod_pos_bound seq (2 ^ 32) ltac:(lia)) as Hm. destruct (job_bit (job_of l (Z.shiftr seq 32)) (seq mod 2 ^ 32) (job_of_ok _ _ Hl) ltac:(lia)) as [Hf Hb].
  unfold log_bitmap_at, log_contains. rewrite u_shr_law, (to_fits 64 (Z.shiftr seq 32)) by (done || lia). cbn [mbind outcome_bind]. rewrite u_wrapping_to_law by lia.
  change (wrap 32 seq) with (seq mod 2 ^ 32). change (default EMPTY_JOB _) with (job_of l (Z.shiftr seq 32)). rewrite job_leaf_at, El by lia.
  split; [done|]. split; [done|]. f_equal. rewrite <- E2, Hb. unfold job_of. by destruct (jobs l !! Z.shiftr seq 32).
Qed.

Lemma set_bit_at s nonce : set_ok s -> fits 256 nonce ->
  set_bitmap_at s nonce = Ok (set_leaf s (Z.shiftr nonce 8)) /\ fits 256 (set_leaf s (Z.shiftr nonce 8)) /\
  set_contains s nonce = Ok (Z.testbit (set_leaf s (Z.shiftr nonce 8)) (nonce mod 256)).
Proof.
  intros Hs Hn. unfold fits in Hn. destruct (low_index nonce 96 ltac:(lia)) as [E1 E2].
  assert (Hh : fits 160 (Z.shiftr nonce 96)) by (unfold fits; rewrite Z.shiftr_div_pow2 by lia; split; [apply Z.div_pos; lia|apply Z.div_lt_upper_bound; lia]).
  assert (El : set_leaf s (Z.shiftr nonce 8) = log_leaf (log_of s (Z.shiftr nonce 96)) (Z.shiftr (nonce mod 2 ^ 96) 8)) by (unfold set_leaf; rewrite Z.shiftr_shiftr by lia; by rewrite E1).
  destruct (log_bit (log_of s (Z.shiftr nonce 96)) (nonce mod 2 ^ 96) (log_of_ok _ _ Hs)) as (Hb & Hf & Hc); [apply Z.mod_pos_bound; lia|].
  unfold set_bitmap_at, set_contains. rewrite u_shr_law, (to_fits 160 (Z.shiftr nonce 96)) by (done || lia). cbn [mbind outcome_bind]. rewrite u_wrapping_to_law by lia.
  change (wrap 96 nonce) with (nonce mod 2 ^ 96). change (default EMPTY_LOG _) with (log_of s (Z.shiftr nonce 96)). rewrite El, Hb.
  split; [done|]. split; [done|]. destruct (logs s !! Z.shiftr nonce 96) as [l|] eqn:E.
  - rewrite <- E2, <- Hc. unfold log_of. by rewrite E.
  - f_equal. unfold log_leaf, job_of, log_of. rewrite E. change (jobs (default EMPTY_LOG None)) with (∅ : gmap Z Job). rewrite lookup_empty. symmetry. exact (Z.bits_0 _).
Qed.

(** *** Paths *)

Section Path.
Context (w : Z) (ops : MerkleizedIndex) (Hops : ops_ok w ops).

(** A path of siblings of [lf] leads to the root of every tree that differs below the node
    that it starts from only. *)
Lemma siblings_run (sub : nat -> Z -> O_ Digest) lf b K :
  (forall j i, (j < K)%nat -> 0 <= i < 2 ^ Z.of_nat (K - j) -> sub j i = Ok (tree lf (b + j) i)) ->
  forall n j i, (j + n = K)%nat -> 0 <= i < 2 ^ Z.of_nat n ->
  exists ds, siblings ops sub n j i = Ok ds /\ length ds = n /\
    forall lf', (forall k, ~ (i * 2 ^ Z.of_nat (b + j) <= k < (i + 1) * 2 ^ Z.of_nat (b + j)) -> lf' k = lf k) ->
      path_root ops ds i (tree lf' (b + j) i) = (tree lf' (b + K) 0, 0).
Proof.
  intros Hsub. induction n as [|n IH]; intros j i Hj Hi.
  - exists []. split; [done|]. split; [done|]. intros lf' _. cbn [path_root]. replace j with K by lia. cbn in Hi. by replace i with 0 by lia.
  - pose proof (lxor_bound i n Hi) as Hx. pose proof (shiftr_bound i n Hi) as Hs. cbn [siblings].
    rewrite (ops_sibling _ _ Hops), (ops_shr _ _ Hops) by lia. rewrite Hsub by (lia || (replace (K - j)%nat with (S n) by lia; done)). cbn [mbind outcome_bind].
    destruct (IH (S j) (Z.shiftr i 1) ltac:(lia) Hs) as (ds & E & Hl & Hp). rewrite E. cbn [mbind outcome_bind]. eexists. split; [reflexivity|]. split; [cbn; lia|].
    intros lf' Hlf. cbn [path_root]. rewrite (ops_lowest _ _ Hops), (ops_shr _ _ Hops) by lia.
    pose proof (Z.pow_pos_nonneg 2 (Z.of_nat (b + j)) ltac:(lia) ltac:(lia)) as Hpp.
    assert (Hup : forall k, ~ (Z.shiftr i 1 * 2 ^ Z.of_nat (b + S j) <= k < (Z.shiftr i 1 + 1) * 2 ^ Z.of_nat (b + S j)) -> lf' k = lf k).
    { intros k Hk. apply Hlf. intros Hin. apply Hk. replace (Z.of_nat (b + S j)) with (Z.succ (Z.of_nat (b + j))) by lia. rewrite Z.pow_succ_r by lia.
      destruct (half_split i ltac:(lia)); nia. }
    specialize (Hp lf' Hup). replace (b + S j)%nat with (S (b + j)) in Hp by lia. cbn [GroupSpec.node] in Hp. rewrite <- Hp. clear Hp. f_equal.
    destruct (index_halves i ltac:(lia)) as (q & Hq & [-> | ->]).
    + destruct (even_bits q Hq) as (El & Ex & Er). rewrite El, Ex, Er. change (0 =? 1) with false. cbv iota. f_equal. apply node_ext. intros k Hk. rewrite Hlf by nia. done.
    + destruct (odd_bits q Hq) as (El & Ex & Er). rewrite El, Ex, Er. change (1 =? 1) with true. cbv iota. f_equal. apply node_ext. intros k Hk. rewrite Hlf by nia. done.
Qed.

Abbreviation Hjoin := (fun a b => Ok (join a b) : outcome Empty_set Digest).
Lemma path_root_loop ds : forall i d, 0 <= i -> Groups.root_loop Hjoin d i ds = Ok (fst (path_root ops ds i d)).
Proof.
  induction ds as [|s ds IH]; intros i d Hi; [done|]. cbn [Groups.root_loop path_root]. rewrite (ops_lowest _ _ Hops), (ops_shr _ _ Hops) by lia.
  unfold Groups.parent. assert (Hn : 0 <= Z.shiftr i 1) by (by apply Z.shiftr_nonneg).
  destruct (index_halves i Hi) as (q & Hq & [-> | ->]).
  - destruct (even_bits q Hq) as (El & _ & Er). rewrite El in *. cbn [Z.eqb mbind outcome_bind]. by apply IH.
  - destruct (odd_bits q Hq) as (El & _ & Er). rewrite El in *. cbn [Z.eqb mbind outcome_bind]. by apply IH.
Qed.

(** The branch of a path that hashes a pair to a node of the tree whose children are others. *)
Definition forged_path lf (i : Z) (cur : Digest) (ds : list Digest) : Prop :=
  Exists (clash Hjoin join (fun k => hash_leaf (lf k))) (branch_pairs Hjoin i cur ds).

Lemma path_binding lf b i cur ds : 0 <= i < 2 ^ Z.of_nat (length ds) -> fst (path_root ops ds i cur) = tree lf (b + length ds) 0 ->
  cur = tree lf b i \/ forged_path lf i cur ds.
Proof.
  intros Hi E. apply (root_loop_binding Hjoin join (fun k => hash_leaf (lf k)) ds b i cur Hi). rewrite path_root_loop by lia. by rewrite E.
Qed.
End Path.

(** An opening that shows another leaf than the tree's. *)
Definition forged_opening lf (i : Z) (o : Opening) : Prop :=
  forged_path lf i (hash_leaf (bitmap o)) (path o) \/ (bitmap o <> lf i /\ hash_leaf (bitmap o) = hash_leaf (lf i)).

Lemma opening_binding w ops lf i o root : ops_ok w ops -> 0 <= i -> Z.shiftr i 8 < 2 ^ Z.of_nat (length (path o)) -> root = tree lf (length (path o)) 0 ->
  opening_root ops o i = Ok root -> bitmap o = lf (Z.shiftr i 8) \/ forged_opening lf (Z.shiftr i 8) o.
Proof.
  intros Hops Hi Hb -> E. unfold opening_root in E. rewrite (ops_shr _ _ Hops) in E by lia. pose proof (proj2 (Z.shiftr_nonneg i 8) Hi).
  destruct (path_root ops (path o) (Z.shiftr i 8) (hash_leaf (bitmap o))) as [d rest] eqn:Ep. destruct (rest =? 0); [|done]. cbn [assert_ mbind outcome_bind] in E. injection E as ->.
  destruct (path_binding w ops Hops lf 0 (Z.shiftr i 8) (hash_leaf (bitmap o)) (path o)) as [Ec|Hf]; [lia|by rewrite Ep| |right; by left].
  cbn [GroupSpec.node] in Ec. destruct (decide (bitmap o = lf (Z.shiftr i 8))) as [|Hne]; [by left|right; by right].
Qed.

(** *** Openings *)

Lemma bitmap_bit w ops o i : ops_ok w ops -> 0 <= i -> fits 256 (bitmap o) -> (bit (bitmap o) (bitmap_index ops i) : O_ bool) = Ok (Z.testbit (bitmap o) (i mod 256)).
Proof.
  intros Hops Hi Hf. unfold fits in Hf. pose proof (Z.mod_pos_bound i 256 ltac:(lia)). unfold bit. rewrite (ops_bitmap _ _ Hops) by done.
  rewrite (proj2 (Z.ltb_lt _ _)) by lia. cbn [assert_ mbind outcome_bind]. by rewrite u_bit_law by lia.
Qed.
Lemma opening_verified w ops o i root : ops_ok w ops -> 0 <= i -> fits 256 (bitmap o) -> opening_root ops o i = Ok root ->
  verify_inclusion ops o root i = (if Z.testbit (bitmap o) (i mod 256) then Ok () else Err BitmapNonInclusion) /\
  verify_noninclusion ops o root i = (if Z.testbit (bitmap o) (i mod 256) then Err BitmapInclusion else Ok ()).
Proof.
  intros Hops Hi Hf E. unfold verify_inclusion, verify_noninclusion. rewrite (bitmap_bit w), E by done. cbn [mbind outcome_bind].
  destruct (Z.testbit _ _); cbn [ensure negb mbind outcome_bind]; by rewrite ?bool_decide_true.
Qed.
Lemma verified_opening w ops o i root : ops_ok w ops -> 0 <= i -> fits 256 (bitmap o) ->
  (verify_inclusion ops o root i = Ok () -> Z.testbit (bitmap o) (i mod 256) = true /\ opening_root ops o i = Ok root) /\
  (verify_noninclusion ops o root i = Ok () -> Z.testbit (bitmap o) (i mod 256) = false /\ opening_root ops o i = Ok root).
Proof.
  intros Hops Hi Hf. unfold verify_inclusion, verify_noninclusion. rewrite (bitmap_bit w) by done. cbn [mbind outcome_bind].
  destruct (Z.testbit _ _); cbn [ensure negb mbind outcome_bind]; (split; [intros E|intros E]); try done;
    (split; [done|]); apply bind_Ok in E as (d & -> & E); apply ensure_Ok, bool_decide_eq_true in E; by rewrite E.
Qed.

Lemma set_leaf_fits s k : set_ok s -> 0 <= k < 2 ^ 248 -> fits 256 (set_leaf s k).
Proof.
  intros Hs Hk. destruct (set_bit_at s (k * 2 ^ 8) Hs) as (_ & Hf & _); [unfold fits; lia|]. rewrite <- (Z.shiftl_mul_pow2 k 8), Z.shiftr_shiftl_l, Z.sub_diag, Z.shiftl_0_r in Hf by lia. done.
Qed.

(** A path of 248 nodes and a bitmap. *)
Definition opening_ok (o : Opening) : Prop := fits 256 (bitmap o) /\ length (path o) = 248%nat.

(** C11: the commitment of a set is the root of the tree of its bitmaps, which are those of
    its jobs: a nonce's bit tells whether a job of the set contains it.  For every nonce the
    opening that the set proves is accepted as an inclusion when the set contains it and as a
    non-inclusion when not, and refused as the other; and whatever opening is accepted for a
    nonce is right, unless it holds a hash of another pair or bitmap to a digest of the tree. *)
Theorem set_openings s : set_ok s -> exists root, set_commit s = Ok root /\
  forall nonce, fits 256 nonce -> exists o used, set_contains s nonce = Ok used /\ set_prove_opening s nonce = Ok o /\ opening_ok o /\
    verify_inclusion (uint 256) o root nonce = (if used then Ok () else Err BitmapNonInclusion) /\
    verify_noninclusion (uint 256) o root nonce = (if used then Err BitmapInclusion else Ok ()) /\
    forall o', opening_ok o' ->
      (verify_inclusion (uint 256) o' root nonce = Ok () -> used = true \/ forged_opening (set_leaf s) (Z.shiftr nonce 8) o') /\
      (verify_noninclusion (uint 256) o' root nonce = Ok () -> used = false \/ forged_opening (set_leaf s) (Z.shiftr nonce 8) o').
Proof.
  intros Hs. exists (tree (set_leaf s) 248 0). split; [unfold set_commit; change SET_HEIGHT with 248%nat; rewrite (set_subtree_run s 248 0 Hs) by lia; reflexivity|]. intros nonce Hn.
  destruct (set_bit_at s nonce Hs Hn) as (Hb & Hf & Hc). unfold fits in Hn. set (leaf := set_leaf s (Z.shiftr nonce 8)) in *.
  assert (Hi : 0 <= Z.shiftr nonce 8 < 2 ^ Z.of_nat 248) by (rewrite Z.shiftr_div_pow2 by lia; split; [apply Z.div_pos; lia|apply Z.div_lt_upper_bound; [lia|]; change (2 ^ 8 * 2 ^ Z.of_nat 248) with (2 ^ 256); lia]).
  destruct (siblings_run 256 (uint 256) (uint_ok 256) (set_subtree_root s) (set_leaf s) 0 248) with (n := 248%nat) (j := 0%nat) (i := Z.shiftr nonce 8) as (ds & Ed & Hl & Hp); [|lia|done|].
  { intros j i Hj Hij. apply set_subtree_run; [done|lia|done]. }
  specialize (Hp (set_leaf s) (fun _ _ => eq_refl)). change (0 + 248)%nat with 248%nat in Hp. change (tree (set_leaf s) (0 + 0) (Z.shiftr nonce 8)) with (hash_leaf leaf) in Hp.
  set (o := mkOpening leaf ds). assert (Hr : opening_root (uint 256) o nonce = Ok (tree (set_leaf s) 248 0)).
  { unfold opening_root, o. cbn [bitmap path]. rewrite (ops_shr _ _ (uint_ok 256)), Hp by lia. done. }
  exists o, (Z.testbit leaf (nonce mod 256)). split; [done|]. split.
  { unfold set_prove_opening. rewrite Hb. cbn [mbind outcome_bind]. rewrite (ops_shr _ _ (uint_ok 256)) by lia. change SET_HEIGHT with 248%nat. rewrite Ed. done. }
  split; [by split|]. destruct (opening_verified 256 (uint 256) o nonce _ (uint_ok 256) ltac:(lia) Hf Hr) as [-> ->]. split; [done|]. split; [done|].
  intros o' [Hf' Hl']. destruct (verified_opening 256 (uint 256) o' nonce (tree (set_leaf s) 248 0) (uint_ok 256) ltac:(lia) Hf') as [H1' H2'].
  assert (Hbind : opening_root (uint 256) o' nonce = Ok (tree (set_leaf s) 248 0) -> bitmap o' = leaf \/ forged_opening (set_leaf s) (Z.shiftr nonce 8) o').
  { apply (opening_binding 256); [apply uint_ok|lia|rewrite Hl'; lia|by rewrite Hl']. }
  split; [intros [Ht [<-|]%Hbind]%H1'|intros [Ht [<-|]%Hbind]%H2']; auto.
Qed.
End Trees.
