(* ===== verification/WorkSpec.v ===== *)
(** * Verifiable work is counted once

    The program that builds a log commits to the log of exactly the jobs it was given, each
    one new, and accepts what its prover prepares.  Work claims round-trip through seals and
    join when their nonces are consecutive; a mountain range is a binary counter of perfect
    trees.  The witnesses use a toy hash that has the tables. *)
From S2P Require Export TreeSpec.
Import Merkle Hashing Tables Tree.
Open Scope Z_scope.

(** ** Adding jobs to a log *)

Section Adding.
Context `{Sha256, RuintLaws, !Uints, !UintsLaws, !TablesOk}.
Abbreviation O_ := (outcome Error).
Abbreviation tree lf := (node join (fun k => hash_leaf (lf k))).
Abbreviation Hjoin := (fun a b => Ok (join a b) : outcome Empty_set Digest).

(** *** Replacing a subtree *)

(** The siblings that a path shows are the tree's too. *)
Lemma path_siblings w ops lf b ds : ops_ok w ops -> forall j i cur, 0 <= i < 2 ^ Z.of_nat (length ds) ->
  fst (path_root ops ds i cur) = tree lf (b + j + length ds) 0 ->
  (cur = tree lf (b + j) i /\ siblings ops (fun j i => Ok (tree lf (b + j) i)) (length ds) j i = Ok ds) \/ forged_path lf i cur ds.
Proof.
  intros Hops. induction ds as [|s ds IH]; intros j i cur Hi E; cbn [path_root length siblings] in *.
  - left. cbn in Hi. replace i with 0 by lia. by rewrite Nat.add_0_r in E.
  - pose proof (shiftr_bound i _ Hi) as Hs. rewrite (ops_lowest _ _ Hops), (ops_shr _ _ Hops) in E by lia. rewrite (ops_sibling _ _ Hops), (ops_shr _ _ Hops) by lia.
    replace (b + j + S (length ds))%nat with (b + S j + length ds)%nat in E by lia.
    apply IH in E as [[Ec Ed]|Hf]; [|right|done].
    2:{ unfold forged_path. cbn [branch_pairs]. apply Exists_cons_tl. unfold forged_path in Hf. unfold ordered.
        destruct (index_halves i ltac:(lia)) as (q & Hq & [-> | ->]);
          [destruct (even_bits q Hq) as (El & _ & _)|destruct (odd_bits q Hq) as (El & _ & _)]; rewrite El in *; exact Hf. }
    rewrite Ed. cbn [mbind outcome_bind]. destruct (decide (ordered i cur s = children join (fun k => hash_leaf (lf k)) (b + j) (Z.shiftr i 1))) as [Eo|Hne].
    + left. unfold ordered, children in Eo. destruct (index_halves i ltac:(lia)) as (q & Hq & [-> | ->]).
      * destruct (even_bits q Hq) as (El & Ex & Er). rewrite El, Er, Z.eqb_refl in Eo. injection Eo as -> ->. by rewrite Ex.
      * destruct (odd_bits q Hq) as (El & Ex & Er). rewrite El, Er in Eo. change (1 =? 0) with false in Eo. injection Eo as -> ->. by rewrite Ex.
    + right. apply Exists_cons_hd. exists (b + j)%nat, (Z.shiftr i 1). split; [exact Hne|]. f_equal.
      replace (b + S j)%nat with (S (b + j)) in Ec by lia. rewrite <- Ec. unfold ordered.
      destruct (index_halves i ltac:(lia)) as (q & Hq & [-> | ->]);
        [destruct (even_bits q Hq) as (-> & _ & _)|destruct (odd_bits q Hq) as (-> & _ & _)]; done.
Qed.

(** Two trees with the same root that differ: the node or leaf where their hashes meet. *)
Inductive tree_clash (lf lf' : Z -> Bitmap) : nat -> Z -> Prop :=
  | clash_here l i : children join (fun k => hash_leaf (lf k)) l i <> children join (fun k => hash_leaf (lf' k)) l i ->
      tree lf (S l) i = tree lf' (S l) i -> tree_clash lf lf' (S l) i
  | clash_bitmap i : lf i <> lf' i -> hash_leaf (lf i) = hash_leaf (lf' i) -> tree_clash lf lf' 0 i
  | clash_left l i : tree_clash lf lf' l (2 * i) -> tree_clash lf lf' (S l) i
  | clash_right l i : tree_clash lf lf' l (2 * i + 1) -> tree_clash lf lf' (S l) i.

Lemma tree_binding lf lf' h : forall i, tree lf h i = tree lf' h i ->
  (forall k, i * 2 ^ Z.of_nat h <= k < (i + 1) * 2 ^ Z.of_nat h -> lf k = lf' k) \/ tree_clash lf lf' h i.
Proof.
  induction h as [|h IH]; intros i E.
  - destruct (decide (lf i = lf' i)) as [Ei|Hne]; [left; intros k Hk; by replace k with i by lia|right; by apply clash_bitmap].
  - destruct (decide (children join (fun k => hash_leaf (lf k)) h i = children join (fun k => hash_leaf (lf' k)) h i)) as [Ec|Hne]; [|right; by apply clash_here].
    unfold children in Ec. injection Ec as E1 E2. apply IH in E1 as [E1|?]; [|right; by apply clash_left]. apply IH in E2 as [E2|?]; [|right; by apply clash_right].
    left. intros k Hk. rewrite Nat2Z.inj_succ, Z.pow_succ_r in Hk by lia. pose proof (Z.pow_pos_nonneg 2 (Z.of_nat h) ltac:(lia) ltac:(lia)).
    destruct (Z.lt_ge_cases k ((2 * i + 1) * 2 ^ Z.of_nat h)); [apply E1|apply E2]; nia.
Qed.

(** *** Adding a job *)

Definition log_with (l : WorkLog) (j m : Z) : WorkLog := mkLog (<[j := job_new m]> (jobs l)).

Lemma log_with_ok l j m : log_ok l -> u64 j -> u32 m -> log_ok (log_with l j m).
Proof. intros Hl Hj Hm id job Hx. unfold log_with in Hx. cbn [jobs] in Hx. apply lookup_insert_Some in Hx as [[<- <-]|[_ Hx]]; [by split|by apply Hl]. Qed.
Lemma job_of_with l j m : job_of (log_with l j m) j = job_new m.
Proof. unfold job_of, log_with. cbn [jobs]. by rewrite lookup_insert_eq. Qed.
(** Whether a leaf is in the part of a job. *)
Definition in_job (j k : Z) : Prop := j * 2 ^ Z.of_nat 24 <= k < (j + 1) * 2 ^ Z.of_nat 24.
Lemma log_with_leaf l j m k : 0 <= j -> ~ in_job j k -> log_leaf (log_with l j m) k = log_leaf l k.
Proof.
  intros Hj Hk. unfold log_leaf. f_equal. unfold job_of, log_with. cbn [jobs]. rewrite lookup_insert_ne; [done|]. intros E. apply Hk. unfold in_job. change (Z.of_nat 24) with 24.
  pose proof (split_index k 24 ltac:(lia)) as Es. pose proof (Z.mod_pos_bound k (2 ^ 24) ltac:(lia)). rewrite <- E in Es. lia.
Qed.

Lemma job_unused l j : log_ok l -> 0 <= j -> (forall k, in_job j k -> log_leaf l k = EMPTY) -> job_of l j = EMPTY_JOB.
Proof.
  intros Hl Hj Hk. destruct (job_bit (job_of l j) 0 (job_of_ok l j Hl) ltac:(lia)) as [_ Hb]. change (Z.shiftr 0 8) with 0 in Hb.
  rewrite <- (log_part l j 0) in Hb by (change (Z.of_nat 24) with 24; lia). rewrite Hk in Hb by (unfold in_job; change (Z.of_nat 24) with 24; lia).
  pose proof (job_of_ok l j Hl) as Hok. destruct (job_of l j) as [[m|]]; [|done]. unfold job_ok, fits in Hok. cbn [index_max] in Hok. unfold EMPTY in Hb. rewrite Z.bits_0 in Hb.
  unfold job_contains in Hb. cbn [index_max] in Hb. by rewrite (proj2 (Z.leb_le 0 m)) in Hb by lia.
Qed.
Lemma unused_leaf l j k : job_of l j = EMPTY_JOB -> in_job j k -> log_leaf l k = EMPTY.
Proof.
  intros E Hk. unfold log_leaf. unfold in_job in Hk. change (Z.of_nat 24) with 24 in Hk. destruct (part_high (k - j * 2 ^ 24) j 24 ltac:(lia) ltac:(lia)) as [Es _].
  replace (k - j * 2 ^ 24 + j * 2 ^ 24) with k in Es by lia. by rewrite Es, E.
Qed.

Lemma path_root_ops w w' ops ops' ds : ops_ok w ops -> ops_ok w' ops' -> forall i d, 0 <= i -> path_root ops ds i d = path_root ops' ds i d.
Proof.
  intros Ho Ho'. induction ds as [|s ds IH]; intros i d Hi; [done|]. cbn [path_root]. rewrite (ops_lowest _ _ Ho), (ops_lowest _ _ Ho'), (ops_shr _ _ Ho), (ops_shr _ _ Ho') by lia.
  apply IH. by apply Z.shiftr_nonneg.
Qed.

Lemma job_index j : u64 j -> shr (uint 96) (u_shl 96 j 32) (Z.of_nat JOB_HEIGHT + 8) = j.
Proof.
  intros Hj. unfold fits in Hj. change (Z.of_nat JOB_HEIGHT + 8) with 32. rewrite u_shl_small by (unfold fits; lia). rewrite (ops_shr _ _ (uint_ok 96)) by lia.
  rewrite <- (Z.shiftl_mul_pow2 j 32) by lia. by rewrite Z.shiftr_shiftl_l, Z.sub_diag, Z.shiftl_0_r by lia.
Qed.

(** The root that a path gives for a job's subtree. *)
Abbreviation job_root ds d j := (subtree_opening_root (uint 96) JOB_HEIGHT (mkSubtree ds) d (u_shl 96 j 32)).
Lemma job_root_path ds d j : u64 j -> job_root ds d j = fst (path_root (uint 96) ds j d).
Proof. intros Hj. unfold subtree_opening_root. by rewrite job_index. Qed.

(** Siblings of the nodes above a job: the path of the job whatever it holds. *)
Lemma job_siblings_run l (sub : nat -> Z -> O_ Digest) j : u64 j ->
  (forall h i, (h < 64)%nat -> 0 <= i < 2 ^ Z.of_nat (64 - h) -> sub h i = Ok (tree (log_leaf l) (24 + h) i)) ->
  forall w ops, ops_ok w ops -> exists ds, siblings ops sub 64 0 j = Ok ds /\ length ds = 64%nat /\
    forall lf', (forall k, ~ in_job j k -> lf' k = log_leaf l k) -> job_root ds (tree lf' 24 j) j = tree lf' 88 0.
Proof.
  intros Hj Hsub w ops Hops. pose proof Hj as Hj'. unfold fits in Hj'.
  destruct (siblings_run w ops Hops sub (log_leaf l) 24 64 Hsub 64 0 j eq_refl ltac:(change (Z.of_nat 64) with 64; lia)) as (ds & E & Hl & Hp).
  exists ds. split; [done|]. split; [done|]. intros lf' Hlf. specialize (Hp lf' Hlf). change (24 + 0)%nat with 24%nat in Hp. change (24 + 64)%nat with 88%nat in Hp.
  rewrite job_root_path by done. rewrite (path_root_ops 96 w (uint 96) ops) by (first [apply uint_ok|done|lia]). by rewrite Hp.
Qed.

(** A path that shows an unused job of the log as empty is one of its siblings. *)
Definition forged_job (l : WorkLog) (j : Z) (ds : list Digest) : Prop :=
  forged_path (log_leaf l) j (tree (fun _ => EMPTY) 24 j) ds \/ tree_clash (log_leaf l) (fun _ => EMPTY) 24 j.
Lemma job_empty_binding l j ds : log_ok l -> u64 j -> length ds = 64%nat -> job_root ds (tree (fun _ => EMPTY) 24 j) j = tree (log_leaf l) 88 0 ->
  (job_of l j = EMPTY_JOB /\ forall lf', (forall k, ~ in_job j k -> lf' k = log_leaf l k) -> job_root ds (tree lf' 24 j) j = tree lf' 88 0) \/ forged_job l j ds.
Proof.
  intros Hl Hj Hds E. rewrite job_root_path in E by done. pose proof Hj as Hj'. unfold fits in Hj'.
  destruct (path_siblings 96 (uint 96) (log_leaf l) 24 ds (uint_ok 96) 0 j (tree (fun _ => EMPTY) 24 j)) as [[Ec Ed]|Hf]; [rewrite Hds; change (Z.of_nat 64) with 64; lia|by rewrite Hds| |right; by left].
  change (24 + 0)%nat with 24%nat in Ec. symmetry in Ec. apply tree_binding in Ec as [Ee|]; [|right; by right]. left. split; [apply job_unused; [done|lia|exact Ee]|].
  destruct (job_siblings_run l (fun h i => Ok (tree (log_leaf l) (24 + h) i)) j Hj (fun _ _ _ _ => eq_refl) 96 (uint 96) (uint_ok 96)) as (ds' & Ed' & _ & Hp).
  rewrite Hds in Ed. rewrite Ed in Ed'. injection Ed' as <-. exact Hp.
Qed.

(** *** The program that builds a log *)

Lemma log_commit_root l : log_ok l -> log_commit l = Ok (tree (log_leaf l) 88 0).
Proof. intros Hl. unfold log_commit. change LOG_HEIGHT with 88%nat. rewrite (log_subtree_run l 88 0 Hl) by (change (Z.of_nat (88 - 88)) with 0; lia). done. Qed.
Lemma new_job_commit l j m : log_ok l -> u64 j -> u32 m -> (job_commit (job_new m) : O_ Digest) = Ok (tree (log_leaf (log_with l j m)) 24 j).
Proof. intros Hl Hj Hm. rewrite <- (job_commit_run _ j (log_with_ok l j m Hl Hj Hm)). by rewrite job_of_with. Qed.
Lemma empty_job_root j : (unwrap (EMPTY_SUBTREE_ROOTS !! JOB_HEIGHT) : O_ Digest) = Ok (tree (fun _ => EMPTY) 24 j).
Proof. change JOB_HEIGHT with 24%nat. by apply empty_tree; [lia|]. Qed.

Section Builder.
Import Pruned Claims Povw WorkClaims LogBuilder.
Context `{!GuestEnv}.

Definition work_ok (w : Work) : Prop := nonce_wf (nonce_min w) /\ nonce_wf (nonce_max w) /\ u64 (value w).
Definition update_ok (u : WorkLogUpdate) : Prop :=
  length (subtree_path (noninclusion_proof u)) = 64%nat /\ forall w, work (update_claim u) = Value w -> work_ok w.
Definition update_path (u : WorkLogUpdate) : list Digest := subtree_path (noninclusion_proof u).

(** An update whose claim was verified, all of it one job of the log, from its first segment. *)
Record accepted (id : Z) (u : WorkLogUpdate) (w : Work) : Prop := {
  acc_work : work (update_claim u) = Value w;
  acc_verified : exists d, work_claim_digest (E := Empty_set) (update_claim u) = Ok d /\ env_verify_assumption d Merkle.ZERO = true;
  acc_log_min : log (nonce_min w) = id;
  acc_log_max : log (nonce_max w) = id;
  acc_job : job (nonce_min w) = job (nonce_max w);
  acc_segment : segment (nonce_min w) = 0 }.

Definition work_added (l : WorkLog) (w : Work) : WorkLog := log_with l (job (nonce_min w)) (segment (nonce_max w)).

(** The log that updates lead to, each of a job that the log does not use, and their value. *)
Inductive appended (id : Z) : WorkLog -> list WorkLogUpdate -> WorkLog -> Z -> Prop :=
  | appended_nil l : appended id l [] l 0
  | appended_cons l u w us l' v : accepted id u w -> job_of l (job (nonce_min w)) = EMPTY_JOB ->
      appended id (work_added l w) us l' v -> appended id l (u :: us) l' (value w + v).

Lemma unwrapped_Ok {E A} (o : outcome E A) a : unwrapped o = Ok a -> o = Ok a.
Proof. destruct o; cbn; [|done..]. by intros [= ->]. Qed.
Lemma assert_bind_Ok {E A} b (k : outcome E A) a : (_ ← assert_ b; k) = Ok a <-> b = true /\ k = Ok a.
Proof. destruct b; cbn; [tauto|]. split; [done|by intros [? _]]. Qed.

Lemma apply_update_run id root v u root' v' : apply_update id root v u = Ok (root', v') <-> exists w, accepted id u w /\
  root = job_root (update_path u) (tree (fun _ => EMPTY) 24 (job (nonce_min w))) (job (nonce_min w)) /\
  v' = wrap 64 (v + value w) /\ exists c, unwrapped (job_commit (job_new (segment (nonce_max w)))) = Ok c /\ root' = job_root (update_path u) c (job (nonce_min w)).
Proof.
  unfold apply_update, verify_empty. split.
  - intros (d & Hd%unwrapped_Ok & E)%bind_Ok. apply assert_bind_Ok in E as [Hv E]. apply bind_Ok in E as (w & Hw%unwrapped_Ok%as_value_Ok & E).
    apply assert_bind_Ok in E as [E1%Z.eqb_eq E]. apply assert_bind_Ok in E as [E2%Z.eqb_eq E]. apply assert_bind_Ok in E as [E3%Z.eqb_eq E].
    apply bind_Ok in E as ([] & Hr & E). apply assert_bind_Ok in E as [E4%Z.eqb_eq E]. apply bind_Ok in E as (c & Hc & E). injection E as <- <-.
    rewrite (empty_job_root (job (nonce_min w))) in Hr. cbn [mbind outcome_bind] in Hr. apply unwrapped_Ok, ensure_Ok, bool_decide_eq_true in Hr.
    exists w. split; [split; [done|by exists d|done..]|]. split; [rewrite <- Hr; unfold update_path; by destruct u as [? []]|]. split; [done|]. exists c. split; [done|]. unfold update_path. by destruct u as [? []].
  - intros (w & [Hw (d & Hd & Hv) E1 E2 E3 E4] & -> & -> & c & Hc & ->). rewrite Hd, Hw. cbn [unwrapped as_value mbind outcome_bind]. rewrite Hv. cbn [assert_ mbind outcome_bind].
    rewrite !(proj2 (Z.eqb_eq _ _)) by done. cbn [assert_ mbind outcome_bind]. rewrite (empty_job_root (job (nonce_min w))). cbn [mbind outcome_bind].
    assert (Hp : noninclusion_proof u = mkSubtree (update_path u)) by (by destruct u as [? []]). rewrite Hp, bool_decide_true by done. cbn [ensure unwrapped mbind outcome_bind]. by rewrite Hc.
Qed.

Lemma Ok_inj {E A} (a b : A) : (Ok a : outcome E A) = Ok b -> a = b.
Proof. by intros [= ->]. Qed.
Lemma work_added_ok l w : log_ok l -> work_ok w -> log_ok (work_added l w).
Proof. intros Hl ((_ & Hj & _) & (_ & _ & Hs) & _). by apply log_with_ok. Qed.

(** Updates that the program applies lead from the commitment of a log to that of another. *)
Lemma apply_updates_sound id us : forall root v root' v' l, Forall update_ok us -> log_ok l -> log_commit l = Ok root -> u64 v ->
  apply_updates id root v us = Ok (root', v') ->
  (exists l' s, appended id l us l' s /\ log_ok l' /\ log_commit l' = Ok root' /\ v' = wrap 64 (v + s)) \/
  (exists pre u post l1 s w, us = pre ++ u :: post /\ appended id l pre l1 s /\ accepted id u w /\ forged_job l1 (job (nonce_min w)) (update_path u)).
Proof.
  induction us as [|u us IH]; intros root v root' v' l Hus Hl Hc Hv E.
  - injection E as <- <-. left. exists l, 0. split; [constructor|]. split; [done|]. split; [done|]. rewrite Z.add_0_r. by rewrite wrap_small.
  - apply Forall_cons in Hus as [[Hlen Hw] Hus]. apply bind_Ok in E as ([root1 v1] & E1 & E). apply apply_update_run in E1 as (w & Ha & Er & -> & c & Hcm & Er1).
    specialize (Hw w (acc_work _ _ _ Ha)). pose proof Hw as ((Hlog & Hj & Hsg) & (Hlog' & Hj' & Hsg') & _). rewrite (log_commit_root l Hl) in Hc. apply Ok_inj in Hc as <-.
    symmetry in Er. apply job_empty_binding in Er as [[He Hp]|Hf]; [|right; by exists [], u, us, l, 0, w; split_and!; [|constructor|..]|done..].
    apply unwrapped_Ok in Hcm. rewrite (new_job_commit l (job (nonce_min w))) in Hcm by done. apply Ok_inj in Hcm as <-. change (log_with l (job (nonce_min w)) (segment (nonce_max w))) with (work_added l w) in Er1.
    pose proof (work_added_ok l w Hl Hw) as Hl1. rewrite Hp in Er1 by (intros k Hk; apply log_with_leaf; [unfold fits in Hj; lia|done]).
    apply (IH _ _ _ _ (work_added l w)) in E as [(l' & s & Hs & Hl' & Hc' & ->)|(pre & u' & post & l1 & s & w' & -> & Hs & Ha' & Hf)]; [| |done|done|by rewrite Er1, log_commit_root|by apply wrap_fits].
    + left. exists l', (value w + s). split; [by eapply appended_cons|]. split; [done|]. split; [done|]. unfold wrap. rewrite Zplus_mod_idemp_l. f_equal. lia.
    + right. exists (u :: pre), u', post, l1, (value w + s), w'. split; [done|]. split; [by eapply appended_cons|]. done.
Qed.

(** Updates count no job twice. *)
Definition update_job (u : WorkLogUpdate) : Z := match work (update_claim u) with Value w => job (nonce_min w) | Pruned _ => 0 end.
Lemma appended_distinct id l us l' v : appended id l us l' v -> NoDup (map update_job us) /\ Forall (fun u => job_of l (update_job u) = EMPTY_JOB) us.
Proof.
  induction 1 as [l|l u w us l' v Ha He Hs [IHd IHf]]; [split; constructor|]. assert (Ej : update_job u = job (nonce_min w)) by (unfold update_job; by rewrite (acc_work _ _ _ Ha)).
  assert (Hne : Forall (fun u => update_job u <> job (nonce_min w) /\ job_of l (update_job u) = EMPTY_JOB) us).
  { apply (Forall_impl _ _ _ IHf). intros u' Eu. assert (Hn : update_job u' <> job (nonce_min w)) by (intros Eq; rewrite Eq in Eu; unfold work_added in Eu; by rewrite job_of_with in Eu).
    split; [done|]. unfold job_of, work_added, log_with in Eu. cbn [jobs] in Eu. by rewrite lookup_insert_ne in Eu. }
  split; [|apply Forall_cons; split; [by rewrite Ej|by apply (Forall_impl _ _ _ Hne); intros ? []]].
  cbn [map]. apply NoDup_cons. split; [|done]. rewrite Ej, list_elem_of_In, in_map_iff. intros (u' & Eq & Hin). rewrite Forall_forall in Hne. by apply (Hne u' (proj2 (list_elem_of_In _ _) Hin)).
Qed.

(** What a journal says of where it started. *)
Definition started (input : Input) (journal : Journal) : Prop :=
  match input_state input with
  | Initial id => journal_log_id journal = id /\ log_commit EMPTY_LOG = Ok (initial_commit journal)
  | Continuation prev => env_verify (self_image_id input) (journal_to_vec prev) = true /\ journal_image_id prev = self_image_id input /\
      journal_log_id journal = journal_log_id prev /\ initial_commit journal = updated_commit prev
  end.

Lemma main_inv input journal : main input = Ok journal -> started input journal /\ journal_image_id journal = self_image_id input /\
  apply_updates (journal_log_id journal) (initial_commit journal) 0 (updates input) = Ok (updated_commit journal, update_value journal).
Proof.
  unfold main, started. intros ([id commit] & Es & E)%bind_Ok. apply bind_Ok in E as ([root v] & Eu & E). injection E as <-. cbn [journal_log_id initial_commit updated_commit update_value journal_image_id].
  split; [|done]. destruct (input_state input) as [id'|prev].
  - apply bind_Ok in Es as (c & Ec%unwrapped_Ok & Es). by injection Es as <- <-.
  - apply assert_bind_Ok in Es as [Hv Es]. apply assert_bind_Ok in Es as [Hi%bool_decide_eq_true Es]. by injection Es as <- <-.
Qed.

(** C9: when the program that builds a log accepts an input, its journal starts from the empty
    log or from a journal of the same program that was verified; and for the log that it
    starts from the journal commits to that log with the jobs of the updates added, where the
    claim of every update was verified, is of this log, and is one job from its first segment
    that the log did not use, so no job is counted twice; the value is the sum of the values,
    modulo 2^64.  Otherwise the path of an update holds another pair that hashes to a digest of
    the tree of the log so far, or an unused job's digest is that of a used one. *)
Theorem log_builder_sound input journal l : Forall update_ok (updates input) -> main input = Ok journal ->
  log_ok l -> log_commit l = Ok (initial_commit journal) ->
  started input journal /\ journal_image_id journal = self_image_id input /\
  ((exists l' s, appended (journal_log_id journal) l (updates input) l' s /\ log_ok l' /\ log_commit l' = Ok (updated_commit journal) /\ update_value journal = wrap 64 s /\
      NoDup (map update_job (updates input)) /\ Forall (fun u => job_of l (update_job u) = EMPTY_JOB) (updates input)) \/
   (exists pre u post l1 s w, updates input = pre ++ u :: post /\ appended (journal_log_id journal) l pre l1 s /\
      accepted (journal_log_id journal) u w /\ forged_job l1 (job (nonce_min w)) (update_path u))).
Proof.
  intros Hus (Hs & Hi & E)%main_inv Hl Hc. split; [done|]. split; [done|].
  eapply apply_updates_sound in E as [(l' & s & Ha & Hl' & Hc' & Hv)|Hf]; [|by right|done..|unfold fits; lia].
  left. exists l', s. destruct (appended_distinct _ _ _ _ _ Ha). done.
Qed.

(** *** The prover *)

Lemma prove_add_run l j m : log_ok l -> u64 j -> jobs l !! j = None -> exists ds, prove_add j (job_new m) l = Ok (mkSubtree ds, log_with l j m) /\ length ds = 64%nat /\
  forall lf', (forall k, ~ in_job j k -> lf' k = log_leaf l k) -> job_root ds (tree lf' 24 j) j = tree lf' 88 0.
Proof.
  intros Hl Hj Hn. destruct (job_siblings_run l (fun i => log_subtree_root l (JOB_HEIGHT + i)) j Hj) with (w := 64) (ops := native 64) as (ds & E & Hlen & Hp); [|apply native_ok|].
  { intros h i Hh Hi. change JOB_HEIGHT with 24%nat. apply log_subtree_run; [done|lia|]. by replace (88 - (24 + h))%nat with (64 - h)%nat by lia. }
  exists ds. split; [|done]. unfold prove_add, prove_job_opening. change (LOG_HEIGHT - JOB_HEIGHT)%nat with 64%nat. rewrite E. cbn [mbind outcome_bind].
  unfold log_add. by rewrite Hn.
Qed.

Context {Claim : Type} `{!Digestible Claim}.

(** Work claims, each of a job that is not in the log, from its first segment; the log with
    them, and their value. *)
Inductive addable (id : Z) : WorkLog -> list (MaybePruned (WorkClaim Claim)) -> WorkLog -> Z -> Prop :=
  | addable_nil l : addable id l [] l 0
  | addable_cons l c w cs l' s : work c = Value w -> work_ok w -> log (nonce_min w) = id -> log (nonce_max w) = id -> job (nonce_min w) = job (nonce_max w) ->
      segment (nonce_min w) = 0 -> jobs l !! job (nonce_min w) = None -> addable id (work_added l w) cs l' s -> addable id l (Value c :: cs) l' (value w + s).
(** The environment has a receipt of every claim. *)
Definition assumed (c : MaybePruned (WorkClaim Claim)) : Prop :=
  forall wc, c = Value wc -> exists d, work_claim_digest (E := Empty_set) wc = Ok d /\ env_verify_assumption d Merkle.ZERO = true.

Lemma update_accepted id l c w ds v : log_ok l -> work_ok w -> work c = Value w -> assumed (Value c) -> log (nonce_min w) = id -> log (nonce_max w) = id ->
  job (nonce_min w) = job (nonce_max w) -> segment (nonce_min w) = 0 -> jobs l !! job (nonce_min w) = None ->
  (forall lf', (forall k, ~ in_job (job (nonce_min w)) k -> lf' k = log_leaf l k) -> job_root ds (tree lf' 24 (job (nonce_min w))) (job (nonce_min w)) = tree lf' 88 0) ->
  apply_update id (tree (log_leaf l) 88 0) v (mkUpdate (into_unknown c) (mkSubtree ds)) = Ok (tree (log_leaf (work_added l w)) 88 0, wrap 64 (v + value w)).
Proof.
  intros Hl ((_ & Hj & _) & (_ & _ & Hsg) & Hv) Hw Has E1 E2 E3 E4 Hn Hp. apply apply_update_run. exists w. pose proof Hj as Hj'. unfold fits in Hj'.
  split; [split; [done|by apply Has|done..]|].
  assert (He : job_of l (job (nonce_min w)) = EMPTY_JOB) by (unfold job_of; by rewrite Hn).
  split; [|split; [done|]].
  - unfold update_path. cbn [noninclusion_proof subtree_path]. rewrite <- (Hp (log_leaf l)) by done. f_equal. apply node_ext. intros k Hk. by rewrite (unused_leaf l (job (nonce_min w)) k He Hk).
  - exists (tree (log_leaf (work_added l w)) 24 (job (nonce_min w))). unfold work_added. rewrite (new_job_commit l (job (nonce_min w))) by done. split; [done|].
    unfold update_path. cbn [noninclusion_proof subtree_path]. rewrite Hp; [done|]. intros k Hk. apply log_with_leaf; [lia|done].
Qed.

Lemma collect_updates_run id l cs l' s : addable id l cs l' s -> log_ok l -> Forall assumed cs -> forall v, u64 v ->
  log_ok l' /\ exists us, collect_updates id cs l = (Ok us, l') /\
    apply_updates id (tree (log_leaf l) 88 0) v us = Ok (tree (log_leaf l') 88 0, wrap 64 (v + s)).
Proof.
  induction 1 as [l|l c w cs l' s Hw Hok E1 E2 E3 E4 Hn Hs IH]; intros Hl Has v Hv.
  - split; [done|]. exists []. split; [done|]. cbn [apply_updates]. by rewrite Z.add_0_r, wrap_small.
  - apply Forall_cons in Has as [Ha Has]. pose proof Hok as ((_ & Hj & _) & _). destruct (prove_add_run l (job (nonce_min w)) (segment (nonce_max w)) Hl Hj Hn) as (ds & Ep & Hlen & Hp).
    destruct (IH (work_added_ok l w Hl Hok) Has (wrap 64 (v + value w)) ltac:(by apply wrap_fits)) as (Hl' & us & Ec & Eu). split; [done|].
    exists (mkUpdate (into_unknown c) (mkSubtree ds) :: us). split.
    + cbn [collect_updates as_value map_err]. rewrite run_lift_Ok, Hw. cbn [as_value map_err]. rewrite run_lift_Ok.
      rewrite !(proj2 (Z.eqb_eq _ _)) by done. cbn [ensure]. rewrite !run_lift_Ok. rewrite (run_bind _ _ _ _ _ (eq_refl : get l = _)), Ep. cbn [map_err]. rewrite run_lift_Ok. cbv beta iota.
      rewrite run_modify. fold (work_added l w). by rewrite (run_bind _ _ _ _ _ Ec).
    + cbn [apply_updates]. rewrite (update_accepted id l c w ds v) by done. cbn [mbind outcome_bind]. rewrite Eu. unfold wrap. by rewrite Zplus_mod_idemp_l, Z.add_assoc.
Qed.

(** A log all of whose jobs are empty is the empty one to its commitment. *)
Lemma empty_log_commit l : log_is_empty l = true -> log_ok l -> log_commit EMPTY_LOG = Ok (tree (log_leaf l) 88 0).
Proof.
  intros He Hl. rewrite log_commit_root by (intros id j Hx; unfold EMPTY_LOG in Hx; cbn [jobs] in Hx; by rewrite lookup_empty in Hx).
  f_equal. apply node_ext. intros k _. f_equal. unfold log_leaf. f_equal. unfold job_of, EMPTY_LOG. cbn [jobs]. rewrite lookup_empty.
  destruct (jobs l !! Z.shiftr k 24) as [j|] eqn:E; [|done]. unfold log_is_empty in He. rewrite forallb_forall in He.
  specialize (He (Z.shiftr k 24, j) (proj1 (list_elem_of_In _ _) (proj2 (elem_of_map_to_list _ _ _) E))). cbn in He. by destruct j as [[]].
Qed.

(** What the prover keeps with a log that is not empty: the verified journal of the program
    for it. *)
Definition continues (id : Z) (builder : Digest) (l : WorkLog) (continuation : option Journal) : Prop :=
  log_is_empty l = false -> exists prev, continuation = Some prev /\ journal_log_id prev = id /\ journal_image_id prev = builder /\
    log_commit l = Ok (updated_commit prev) /\ env_verify builder (journal_to_vec prev) = true.

(** C10: the prover's input for claims of jobs that are new to its log is accepted by the
    program, whose journal commits to the log before and after and has the sum of the values,
    modulo 2^64; once verified it is what the prover needs for the next input. *)
Theorem log_update_accepted id builder continuation l claims l' s :
  log_ok l -> continues id builder l continuation -> addable id l claims l' s -> Forall assumed claims ->
  log_ok l' /\ exists input before after, update_input id continuation builder claims l = (Ok input, l') /\
    log_commit l = Ok before /\ log_commit l' = Ok after /\
    main input = Ok (mkJournal id before after (wrap 64 s) builder) /\
    (env_verify builder (journal_to_vec (mkJournal id before after (wrap 64 s) builder)) = true ->
     continues id builder l' (Some (mkJournal id before after (wrap 64 s) builder))).
Proof.
  intros Hl Hcont Hs Has. destruct (collect_updates_run id l claims l' s Hs Hl Has 0 ltac:(unfold fits; lia)) as (Hl' & us & Ec & Eu). split; [done|].
  rewrite (log_commit_root l'), (log_commit_root l) by done.
  assert (Hst : exists st, (if log_is_empty l then Ok (Initial id) else Continuation <$> ok_or MissingContinuation continuation) = Ok st /\
    (match st with
     | Initial work_log_id => commit ← unwrapped (log_commit EMPTY_LOG); Ok (work_log_id, commit)
     | Continuation journal =>
        _ ← assert_ (env_verify builder (journal_to_vec journal)); _ ← assert_ (bool_decide (builder = journal_image_id journal));
        Ok (journal_log_id journal, updated_commit journal)
     end) = Ok (id, tree (log_leaf l) 88 0)).
  { destruct (log_is_empty l) eqn:He; [exists (Initial id); split; [done|]; by rewrite (empty_log_commit l)|].
    destruct (Hcont He) as (prev & -> & <- & <- & Hc & Hv). exists (Continuation prev). split; [done|]. rewrite Hv, bool_decide_true by done. cbn [assert_ mbind outcome_bind].
    rewrite (log_commit_root l Hl) in Hc. by apply Ok_inj in Hc as ->. }
  destruct Hst as (st & Est & Ei). exists (mkInput st us builder), (tree (log_leaf l) 88 0), (tree (log_leaf l') 88 0).
  split; [unfold update_input; rewrite (run_bind _ _ _ _ _ (eq_refl : get l = _)), Est, run_lift_Ok; by rewrite (run_bind _ _ _ _ _ Ec)|]. split; [done|]. split; [done|]. split.
  - unfold main. cbn [input_state updates self_image_id]. rewrite Ei. cbn [mbind outcome_bind]. by rewrite Eu.
  - intros Hv _. eexists. split; [reflexivity|]. split; [done|]. split; [done|]. split; [|done]. cbn [updated_commit]. by rewrite log_commit_root.
Qed.
End Builder.
End Adding.

(** ** Work claims *)

(** What the crate documents. *)
Class CheckedAddLaws `{WorkClaims.CheckedAdd} := {
  u_checked_add_law w x y : 0 <= x -> 0 <= y -> WorkClaims.u_checked_add w x y = if decide (fits w (x + y)) then Some (x + y) else None }.

Section WorkClaims.
Import Pruned Claims Povw WorkClaims.
Context `{Sha256, RuintLaws, !CheckedAdd, !CheckedAddLaws}.

(** The words that a seal holds of a work. *)
Definition work_words (w : Work) : list Z :=
  cast_bytes 2 16 (le_bytes 32 (nonce_value (nonce_min w))) ++ cast_bytes 2 16 (le_bytes 32 (nonce_value (nonce_max w))) ++ u64_to_u16s (value w).

Lemma value_words v : u64 v -> length (u64_to_u16s v) = 4%nat /\ Forall u16 (u64_to_u16s v) /\ u64_from_u16s (u64_to_u16s v) = v.
Proof.
  intros Hv. destruct (cast_round 2 4 (le_bytes 8 v)) as (E1 & E2 & E3); [apply le_bytes_u8|by rewrite le_bytes_length|].
  split; [exact E2|]. split; [exact E3|]. unfold u64_from_u16s, u64_to_u16s. rewrite E1, from_le_bytes_le_bytes. by apply Z.mod_small.
Qed.

Lemma drain_app n (l rest : list Z) : length l = n -> SysState.drain n (l ++ rest) = (Ok l, rest).
Proof. intros <-. unfold SysState.drain. by rewrite take_app_length, drop_app_length. Qed.

Lemma nonce_decode n rest : nonce_wf n -> Povw.decode_from_seal (cast_bytes 2 16 (le_bytes 32 (nonce_value n)) ++ rest) = (Ok n, rest).
Proof.
  intros Hn. destruct (u16s_of n Hn) as (E & Hl & Hf). unfold Povw.decode_from_seal. rewrite (run_bind _ _ _ _ _ (eq_refl : get _ = _)). rewrite length_app, Hl.
  change (16 + length rest <? 16)%nat with false. cbv iota. rewrite (run_bind _ _ _ _ _ (drain_app 16 _ rest Hl)). rewrite u16_all, run_lift_Ok by done.
  unfold from_u16s. by rewrite E, from_bytes_run.
Qed.
Lemma value_decode v rest : u64 v -> decode_work_value (u64_to_u16s v ++ rest) = (Ok v, rest).
Proof.
  intros Hv. destruct (value_words v Hv) as (Hl & Hf & E). unfold decode_work_value. rewrite (run_bind _ _ _ _ _ (eq_refl : get _ = _)). rewrite length_app, Hl.
  change (4 + length rest <? 4)%nat with false. cbv iota. rewrite (run_bind _ _ _ _ _ (drain_app 4 _ rest Hl)). rewrite u16_all, run_lift_Ok by done. by rewrite E.
Qed.

Lemma work_join_run a b : nonce_wf (nonce_max a) -> nonce_wf (nonce_min b) -> work_join a b =
  if decide (nonce_value (nonce_max a) + 1 = nonce_value (nonce_min b)) then Ok (mkWork (nonce_min a) (nonce_max b) (wrap 64 (value a + value b)))
  else Err (NonceRangesNotContiguous a b).
Proof.
  intros Ha Hb. pose proof (nonce_value_range _ Ha). pose proof (nonce_value_range _ Hb). unfold work_join. rewrite !to_u256_run by done. cbn [mbind outcome_bind].
  rewrite u_checked_add_law by lia. destruct (decide (fits 256 (nonce_value (nonce_max a) + 1))) as [Hf|Hf].
  - destruct (decide (nonce_value (nonce_max a) + 1 = nonce_value (nonce_min b))) as [->|Hne]; [by rewrite bool_decide_true|by rewrite bool_decide_false].
  - rewrite decide_False; [done|]. unfold fits in Hf. lia.
Qed.

(** C26: the work of a claim is written to a seal as 36 halfwords, after what the seal holds,
    and read back from them, leaving what follows.  Two works join exactly when the lowest
    nonce of the second is the one after the highest of the first, to the range of both with
    the sum of the values modulo 2^64, whatever the order in which three are joined. *)
Theorem work_codec_join a b c rest : work_ok a -> work_ok b -> work_ok c ->
  (length (work_words a) = 36%nat /\ Forall u16 (work_words a) /\ (forall buf, work_encode a buf = @Ok Empty_set _ (buf ++ work_words a)) /\
   work_decode (work_words a ++ rest) = (Ok a, rest)) /\
  (forall w, work_join a b = Ok w <-> nonce_value (nonce_max a) + 1 = nonce_value (nonce_min b) /\
     w = mkWork (nonce_min a) (nonce_max b) ((value a + value b) mod 2 ^ 64)) /\
  (forall w, (ab ← work_join a b; work_join ab c) = Ok w <-> (bc ← work_join b c; work_join a bc) = Ok w).
Proof.
  intros (Ha1 & Ha2 & Hav) (Hb1 & Hb2 & Hbv) (Hc1 & Hc2 & Hcv). split; [|split].
  - destruct (u16s_of _ Ha1) as (_ & L1 & F1), (u16s_of _ Ha2) as (_ & L2 & F2), (value_words _ Hav) as (L3 & F3 & _). unfold work_words.
    split; [by rewrite !length_app, L1, L2, L3|]. split; [by rewrite !Forall_app|]. split.
    + intros buf. unfold work_encode, to_u16s. by rewrite !to_bytes_run.
    + unfold work_decode. rewrite <- !app_assoc. rewrite (run_bind _ _ _ _ _ (nonce_decode _ _ Ha1)), (run_bind _ _ _ _ _ (nonce_decode _ _ Ha2)), (run_bind _ _ _ _ _ (value_decode _ _ Hav)).
      by destruct a.
  - intros w. rewrite work_join_run by done. destruct (decide _) as [E|Hne]; [|by split; [|intros []]]. unfold wrap. split; [by intros [= <-]|by intros [_ ->]].
  - intros w. rewrite !work_join_run by done. destruct (decide (_ = nonce_value (nonce_min b))) as [E1|N1], (decide (_ = nonce_value (nonce_min c))) as [E2|N2]; cbn [mbind outcome_bind];
      rewrite ?work_join_run by done; cbn [nonce_min nonce_max value]; rewrite ?(decide_True _ _ E1), ?(decide_True _ _ E2), ?(decide_False _ _ N1), ?(decide_False _ _ N2); try done.
    unfold wrap. by rewrite Zplus_mod_idemp_l, Zplus_mod_idemp_r, Z.add_assoc.
Qed.
End WorkClaims.

(** ** Mountain ranges are binary counters *)

Section Ranges.
Import Mmr.
Context {Item : Type} `{MergeItem Item} (m : Item -> Item -> Item) (Hm : forall a b, merge_item a b = Ok (m a b)).

(** The perfect trees over lists of [2 ^ h] items; a later item is merged before an earlier one. *)
Inductive perfect : nat -> list Item -> Item -> Prop :=
  | perfect_leaf x : perfect 0 [x] x
  | perfect_node h l r x y : perfect h l x -> perfect h r y -> perfect (S h) (l ++ r) (m y x).
(** Peaks, the last one first: perfect trees of growing heights over the items. *)
Inductive counter : list (Peak (Item := Item)) -> list Item -> Prop :=
  | counter_nil : counter [] []
  | counter_cons back pre h l x : counter back pre -> perfect h l x -> Forall (fun p => Z.of_nat h < height p) back ->
      counter (mkPeak x (Z.of_nat h) :: back) (pre ++ l).

Lemma perfect_length h l x : perfect h l x -> Z.of_nat (length l) = 2 ^ Z.of_nat h.
Proof. induction 1 as [|h l r x y _ IH1 _ IH2]; [done|]. rewrite length_app, Nat2Z.inj_add, IH1, IH2, Nat2Z.inj_succ, Z.pow_succ_r by lia. lia. Qed.

Lemma insert_loop_run back pre : counter back pre -> forall h l x, perfect h l x -> Forall (fun p => Z.of_nat h <= height p) back -> Z.of_nat (length (pre ++ l)) < 2 ^ 32 ->
  exists back', insert_loop back (mkPeak x (Z.of_nat h)) = Ok back' /\ counter back' (pre ++ l).
Proof.
  induction 1 as [|back pre h' l' y Hc IH Hp Hf]; intros h l x Hx Hh Hlen; cbn [insert_loop height].
  - eexists. split; [reflexivity|]. apply (counter_cons [] []); [constructor|done|constructor].
  - apply Forall_cons in Hh as [Hle Hh]. cbn [height] in Hle. destruct (Z.eqb_spec (Z.of_nat h) (Z.of_nat h')) as [E|Hne].
    + apply Nat2Z.inj in E as ->. unfold merge. cbn [height p_item]. rewrite Z.eqb_refl. cbn [negb]. rewrite Hm. cbn [mbind outcome_bind].
      pose proof (perfect_node h' l' l y x Hp Hx) as Hxy. pose proof (perfect_length _ _ _ Hxy) as Hpl. rewrite <- app_assoc in Hlen |- *.
      rewrite length_app, Nat2Z.inj_add in Hlen. rewrite Hpl in Hlen.
      assert (Hs : Z.of_nat (S h') < 32) by (apply (Z.pow_lt_mono_r_iff 2); lia). rewrite wrap_small by (unfold fits; lia).
      replace (Z.of_nat h' + 1) with (Z.of_nat (S h')) by lia. apply IH; [done| |rewrite length_app, Nat2Z.inj_add, Hpl; lia].
      apply (Forall_impl _ _ _ Hf). intros p Hp'. lia.
    + eexists. split; [reflexivity|]. apply counter_cons; [by apply counter_cons|done|]. apply Forall_cons. split; [cbn [height]; lia|].
      apply (Forall_impl _ _ _ Hf). intros p Hp'. lia.
Qed.

Lemma counter_heights back pre : counter back pre -> Forall (fun p => 0 <= height p) back.
Proof. induction 1; constructor; [cbn; lia|done]. Qed.
Lemma counter_items back pre : counter back pre -> match back with [] => True | _ => pre <> [] end.
Proof.
  destruct 1 as [|back pre h l x _ Hp _]; [done|]. intros [_ ->]%app_eq_nil. apply perfect_length in Hp. pose proof (Z.pow_pos_nonneg 2 (Z.of_nat h)). cbn in Hp. lia.
Qed.
Lemma sum_snoc l x : foldr Z.add 0 (l ++ [x]) = foldr Z.add 0 l + x.
Proof. induction l as [|y l IH]; cbn [app foldr]; [lia|rewrite IH; lia]. Qed.
Lemma counter_length back pre : counter back pre -> Z.of_nat (length pre) = foldr Z.add 0 (map (fun p => 2 ^ height p) back).
Proof.
  induction 1 as [|back pre h l x _ IH Hp _]; [done|]. rewrite length_app, Nat2Z.inj_add, IH, (perfect_length _ _ _ Hp). cbn [map foldr height]. lia.
Qed.

Fixpoint insert_all (items : list Item) (acc : Accumulator) : outcome MmrError Accumulator :=
  match items with [] => Ok acc | item :: items => acc ← insert item acc; insert_all items acc end.

Lemma insert_all_run items : forall acc pre, counter (rev (peaks acc)) pre -> Z.of_nat (length (pre ++ items)) < 2 ^ 32 ->
  exists acc', insert_all items acc = Ok acc' /\ counter (rev (peaks acc')) (pre ++ items).
Proof.
  induction items as [|x items IH]; intros acc pre Hc Hlen; cbn [insert_all].
  - exists acc. by rewrite app_nil_r.
  - destruct (insert_loop_run _ _ Hc 0 [x] x (perfect_leaf x)) as (back & Eb & Hb).
    { apply (Forall_impl _ _ _ (counter_heights _ _ Hc)). done. }
    { rewrite length_app in *. cbn [length] in *. lia. }
    unfold insert. change (Z.of_nat 0) with 0 in Eb. rewrite Eb. cbn [mbind outcome_bind]. destruct (IH (mkAcc (rev back)) (pre ++ [x])) as (acc' & Ea & Hacc); [cbn [peaks]; by rewrite rev_involutive|by rewrite <- app_assoc|].
    exists acc'. split; [done|]. by rewrite <- app_assoc in Hacc.
Qed.

Lemma merge_items_run ps : forall x, merge_items x ps = Ok (foldl m x (map p_item ps)).
Proof. induction ps as [|p ps IH]; intros x; cbn [merge_items]; [done|]. rewrite Hm. cbn [mbind outcome_bind]. by rewrite IH. Qed.

(** C27: a mountain range is a binary counter.  After any number of insertions below 2^32 the
    peaks are perfect trees over the items in their order, of heights that fall from the first
    to the last, which makes them the binary digits of the number of items; the root merges
    them from the first to the last, and there is none exactly when there are no items. *)
Theorem mmr_counter items : Z.of_nat (length items) < 2 ^ 32 -> exists acc, insert_all items new = Ok acc /\ counter (rev (peaks acc)) items /\
  Z.of_nat (length items) = foldr Z.add 0 (map (fun p => 2 ^ height p) (peaks acc)) /\
  (is_empty acc = true <-> items = []) /\
  match peaks acc with
  | [] => items = [] /\ root acc = Err NoElements
  | p :: ps => items <> [] /\ root acc = Ok (foldl m (p_item p) (map p_item ps))
  end.
Proof.
  intros Hlen. destruct (insert_all_run items new [] counter_nil Hlen) as (acc & E & Hc). exists acc. cbn [app] in Hc. split; [done|]. split; [done|]. split; [|split].
  - rewrite (counter_length _ _ Hc). rewrite map_rev. induction (map _ (peaks acc)) as [|x l IH]; [done|]. cbn [rev]. rewrite sum_snoc, IH. cbn [foldr]. lia.
  - unfold is_empty. rewrite bool_decide_eq_true. split.
    + intros Ee. rewrite Ee in Hc. by inversion Hc.
    + intros ->. destruct (peaks acc) as [|p ps]; [done|]. apply counter_items in Hc. destruct (rev (p :: ps)) eqn:Er; [|by destruct Hc]. apply (f_equal (@length _)) in Er. by rewrite length_rev in Er.
  - unfold root. destruct (peaks acc) as [|p ps] eqn:Ep; [split; [by inversion Hc|done]|]. split.
    + intros ->. apply counter_items in Hc. destruct (rev (p :: ps)) eqn:Er; [|by destruct Hc]. apply (f_equal (@length _)) in Er. by rewrite length_rev in Er.
    + destruct ps as [|q ps]; [done|]. apply merge_items_run.
Qed.
End Ranges.

(** A table each of whose digests is the hash of the one before with itself. *)
Section Chained.
Context `{Sha256}.
Definition chained (table : list Digest) : bool := forallb (fun h => bool_decide (table !! S h = (fun d => join d d) <$> table !! h)) (seq 0 248).
Lemma chained_roots table leaf : chained table = true -> table !! 0%nat = Some leaf -> forall h, (h <= 248)%nat -> table !! h = Some (node join (fun _ => leaf) h 0).
Proof.
  intros Hc H0' h. induction h as [|h IH]; intros Hh; [done|]. unfold chained in Hc. rewrite forallb_forall in Hc.
  specialize (Hc h). rewrite bool_decide_eq_true in Hc. rewrite Hc by (apply in_seq; lia). rewrite IH by lia. cbn [fmap option_fmap option_map GroupSpec.node]. change (2 * 0) with 0. by rewrite (node_const join leaf h (0 + 1) 0).
Qed.
End Chained.

(** ** Witnesses

    A hash with the tables, and integers as [Z]. *)

Section Witnesses.
Import Pruned Claims Povw WorkClaims LogBuilder.

#[local] Instance uints_Z : Uints := {|
  u_xor := Z.lxor; u_bit := Z.testbit; u_set_bit := fun x i b => if b then Z.setbit x i else Z.clearbit x i;
  u_sub := fun w x y => wrap w (x - y); u_wrapping_to := wrap |}.
#[local] Instance uints_Z_laws : UintsLaws.
Proof. by split. Qed.
#[local] Instance demo_ruint : Ruint := ruint_Z.
#[local] Instance demo_ruint_laws : RuintLaws.
Proof. by split. Qed.
#[local] Instance checked_add_Z : CheckedAdd := {| u_checked_add := fun w x y => if decide (fits w (x + y)) then Some (x + y) else None |}.
#[local] Instance checked_add_Z_laws : CheckedAddLaws.
Proof. by split. Qed.

(** The digest after the one that starts with a word. *)
Fixpoint after_word (table : list Digest) (word : Z) : option Digest :=
  match table with
  | [] => None
  | a :: table => if d0 a =? word then head table else after_word table word
  end.
Definition table_hash (l : list Z) : Digest :=
  let word := from_le_bytes (take 4 l) in
  if word =? from_le_bytes (str_bytes "POVW") then default Merkle.ZERO ((if nth 8 l 0 =? 0 then EMPTY_SUBTREE_ROOTS else FULL_SUBTREE_ROOTS) !! 0%nat)
  else match after_word EMPTY_SUBTREE_ROOTS word with
    | Some d => d
    | None => default (mkDigest (foldl (fun a b => (a * 31 + b + 1) mod 65521) 7 l) 0 0 0 0 0 0 0) (after_word FULL_SUBTREE_ROOTS word)
    end.
#[local] Instance table_sha : Sha256 := {| hash_bytes := table_hash |}.

Lemma empty_chained : chained EMPTY_SUBTREE_ROOTS = true.
Proof. by vm_compute. Qed.
Lemma full_chained : chained FULL_SUBTREE_ROOTS = true.
Proof. by vm_compute. Qed.
#[local] Instance table_ok : TablesOk.
Proof. split; [apply chained_roots; [apply empty_chained|by vm_compute]|apply chained_roots; [apply full_chained|by vm_compute]]. Qed.

(** A set with one job of a log, and two claims of other jobs. *)
Definition demo_work (j m v : Z) : Work := mkWork (mkNonce 5 j 0) (mkNonce 5 j m) v.
Definition demo_log : WorkLog := log_with EMPTY_LOG 7 1000.
Definition demo_set : WorkSet := mkSet {[ 5 := demo_log ]}.
Lemma demo_log_ok : log_ok demo_log.
Proof. apply log_with_ok; [intros id j Hx; unfold EMPTY_LOG in Hx; cbn [jobs] in Hx; by rewrite lookup_empty in Hx|unfold fits; lia..]. Qed.
Lemma demo_set_ok : set_ok demo_set.
Proof. intros id l Hx. unfold demo_set in Hx. cbn [logs] in Hx. apply lookup_singleton_Some in Hx as [<- <-]. split; [unfold fits; lia|apply demo_log_ok]. Qed.
Lemma demo_work_ok j m v : u64 j -> u32 m -> u64 v -> work_ok (demo_work j m v).
Proof. intros Hj Hm Hv. unfold work_ok, nonce_wf, demo_work. cbn [nonce_min nonce_max value log job segment]. split_and!; try done; unfold fits; lia. Qed.

Lemma set_openings_witness : set_ok demo_set /\ exists root o, set_commit demo_set = Ok root /\
  verify_inclusion (uint 256) o root (5 * 2 ^ 96 + 7 * 2 ^ 32 + 1000) = Ok tt.
Proof.
  split; [apply demo_set_ok|]. destruct (set_openings demo_set demo_set_ok) as (root & Hc & Hn).
  destruct (Hn (5 * 2 ^ 96 + 7 * 2 ^ 32 + 1000)) as (o & used & Hu & _ & _ & Hi & _); [unfold fits; lia|].
  assert (Eu : set_contains demo_set (5 * 2 ^ 96 + 7 * 2 ^ 32 + 1000) = Ok true) by (vm_compute; reflexivity). rewrite Eu in Hu. injection Hu as <-.
  exists root, o. by split.
Defined.

#[local] Instance demo_env : GuestEnv := {| env_verify := fun _ _ => true; env_verify_assumption := fun _ _ => true; journal_to_vec := fun _ => [] |}.

Definition demo_input : Input :=
  mkInput (Initial 5) [mkUpdate (mkWorkClaim (Pruned Merkle.ZERO) (Value (demo_work 7 1000 3))) (mkSubtree (take 64 (drop 24 EMPTY_SUBTREE_ROOTS)))] Merkle.ZERO.
Lemma demo_input_accepted : match main demo_input, log_commit EMPTY_LOG with Ok j, Ok c => bool_decide (c = initial_commit j) | _, _ => false end = true.
Proof. by vm_compute. Qed.
Lemma log_builder_sound_witness : exists journal, main demo_input = Ok journal /\ started demo_input journal.
Proof.
  pose proof demo_input_accepted as Ha. destruct (main demo_input) as [journal| |] eqn:E; [|done..].
  destruct (log_commit EMPTY_LOG) as [c| |] eqn:Ec; [|done..]. apply bool_decide_eq_true in Ha as ->.
  exists journal. split; [done|]. refine (proj1 (log_builder_sound demo_input journal EMPTY_LOG _ E _ Ec)).
  - constructor; [|constructor]. split; [by vm_compute|]. intros w [= <-]. apply demo_work_ok; unfold fits; lia.
  - intros id j Hx. unfold EMPTY_LOG in Hx. cbn [jobs] in Hx. by rewrite lookup_empty in Hx.
Defined.

#[local] Instance unit_digestible : Digestible unit := {| digest _ := Merkle.ZERO |}.
Definition demo_claim (j m v : Z) : MaybePruned (WorkClaim unit) := Value (mkWorkClaim (Value tt) (Value (demo_work j m v))).
Definition demo_commit : Digest := match log_commit demo_log with Ok c => c | _ => Merkle.ZERO end.
Definition demo_journal : Journal := mkJournal 5 Merkle.ZERO demo_commit 3 Merkle.ZERO.

Lemma log_update_accepted_witness : exists input l' journal, update_input 5 (Some demo_journal) Merkle.ZERO [demo_claim 8 20 4; demo_claim 3 0 6] demo_log = (Ok input, l') /\
  main input = Ok journal /\ update_value journal = 10.
Proof.
  destruct (log_update_accepted 5 Merkle.ZERO (Some demo_journal) demo_log [demo_claim 8 20 4; demo_claim 3 0 6]
    (work_added (work_added demo_log (demo_work 8 20 4)) (demo_work 3 0 6)) (4 + (6 + 0))) as (_ & input & before & after & Hi & _ & _ & Hm & _).
  - apply demo_log_ok.
  - intros _. exists demo_journal. split; [done|]. split; [done|]. split; [done|]. split; [|done]. unfold demo_journal, demo_commit. cbn [updated_commit].
    by rewrite (log_commit_root demo_log demo_log_ok).
  - eapply addable_cons with (w := demo_work 8 20 4); [done|apply demo_work_ok; unfold fits; lia|done..|].
    eapply addable_cons with (w := demo_work 3 0 6); [done|apply demo_work_ok; unfold fits; lia|done..|]. constructor.
  - repeat constructor; intros wc [= <-]; (eexists; split; [reflexivity|done]).
  - exists input, (work_added (work_added demo_log (demo_work 8 20 4)) (demo_work 3 0 6)), (mkJournal 5 before after (wrap 64 (4 + (6 + 0))) Merkle.ZERO). split; [exact Hi|]. split; [exact Hm|]. done.
Defined.

Lemma work_codec_join_witness : exists w, (ab ← work_join (demo_work 7 3 1) (mkWork (mkNonce 5 7 4) (mkNonce 5 7 9) 2); work_join ab (mkWork (mkNonce 5 7 10) (mkNonce 5 7 10) 3)) = Ok w /\
  work_decode (work_words w) = (Ok w, []).
Proof.
  eexists. split; [vm_compute; reflexivity|]. rewrite <- (app_nil_r (work_words _)).
  refine (proj2 (proj2 (proj2 (proj1 (work_codec_join (mkWork (mkNonce 5 7 0) (mkNonce 5 7 10) 6) (demo_work 7 3 1) (demo_work 7 3 1) [] _ _ _)))));
    repeat split; cbn; lia.
Defined.

(** When a later claim is refused the jobs before it stay in the log, and the prover that
    started from an empty one cannot go on, for want of a journal. *)
Lemma refused_update_keeps_jobs : let '(r, l) := update_input 5 None Merkle.ZERO [demo_claim 8 20 4; Pruned Merkle.ZERO] EMPTY_LOG in
  r = Err (PrunedClaim (PrunedValueError Merkle.ZERO)) /\ log_is_empty l = false /\
  fst (update_input 5 None Merkle.ZERO [demo_claim 8 20 4] l) = Err MissingContinuation.
Proof. vm_compute. done. Qed.

#[local] Instance list_merge : Mmr.MergeItem (list Z) := {| Mmr.merge_item := fun a b => Ok (a ++ b) |}.
Lemma mmr_counter_witness : exists acc, insert_all [[1]; [2]; [3]] Mmr.new = Ok acc /\ Mmr.root acc = Ok [2; 1; 3].
Proof.
  assert (Hm : forall a b : list Z, Mmr.merge_item a b = Ok (a ++ b)) by done.
  destruct (mmr_counter (@app Z) Hm [[1]; [2]; [3]]) as (acc & E & _); [done|]. exists acc. split; [exact E|].
  revert E. vm_compute. by intros [= <-].
Defined.
End Witnesses.
