(* ===== verification/Keeps.v ===== *)
(** * What a step of the machine keeps

    A predicate that every operation of a context preserves is preserved by the whole
    machine: the emulator, the traps, the host calls and the three accelerators.  The
    computations are taken apart by a program logic of partial correctness ([keeps]),
    whose rules the hint database [keeps] holds.  It is by this that what the executor
    promises about its memory holds for every guest program, kernels included. *)
From S2P Require Export R0vm P2Ecall BigInt.
Open Scope Z_scope.

Section Logic.
Context {S E : Type}.

(** If the computation returns or fails, [P] still holds; a panic ends the program. *)
Definition keeps {A} (P : S -> Prop) (m : state S E A) : Prop :=
  forall s, P s -> match m s with (Panic, _) => True | (_, s') => P s' end.

Lemma keeps_ret {A} P (a : A) : keeps P (mret a). Proof. by intros s Hs. Qed.
Lemma keeps_lift {A} P (o : outcome E A) : keeps P (lift o). Proof. intros s Hs. by destruct o. Qed.
Lemma keeps_throw {A} P e : keeps P (throw e : state S E A). Proof. by intros s Hs. Qed.
Lemma keeps_panic {A} P : keeps P (panic : state S E A). Proof. done. Qed.
Lemma keeps_gets {A} P (f : S -> A) : keeps P (gets f). Proof. by intros s Hs. Qed.
Lemma keeps_get P : keeps P get. Proof. by intros s Hs. Qed.
Lemma keeps_modify (P : S -> Prop) f : (forall s, P s -> P (f s)) -> keeps P (modify f).
Proof. intros H s Hs. by apply H. Qed.

Lemma keeps_bind {A B} P (m : state S E A) (f : A -> state S E B) :
  keeps P m -> (forall a, keeps P (f a)) -> keeps P (m ≫= f).
Proof.
  intros Hm Hf s Hs. specialize (Hm s Hs). unfold mbind, state_bind. destruct (m s) as [[a|e|] s']; [|done..].
  by apply Hf.
Qed.

Lemma keeps_mapM {A B} P (f : A -> state S E B) l : (forall x, keeps P (f x)) -> keeps P (mapM f l).
Proof.
  intros Hf. induction l as [|x l IH]; cbn [mapM]; [apply keeps_ret|].
  apply keeps_bind; [done|]. intros y. apply keeps_bind; [done|]. intros ys. apply keeps_ret.
Qed.

(** After a result. *)
Lemma keeps_ok {A} P (m : state S E A) s a s' : keeps P m -> P s -> m s = (Ok a, s') -> P s'.
Proof. intros Hm Hs E0. specialize (Hm s Hs). by rewrite E0 in Hm. Qed.

Lemma bind_inv {A B} (m : state S E A) (f : A -> state S E B) s b s' :
  (m ≫= f) s = (Ok b, s') -> exists a s1, m s = (Ok a, s1) /\ f a s1 = (Ok b, s').
Proof. unfold mbind, state_bind. destruct (m s) as [[a|e|] s1]; intros; by simplify_eq || eauto. Qed.
End Logic.

Create HintDb keeps discriminated.
#[export] Hint Resolve keeps_ret keeps_lift keeps_throw keeps_panic keeps_gets keeps_get : keeps.

(** Takes a computation apart: binds, the branches of matches, and the hints. *)
Ltac keeps_step :=
  match goal with
  | |- keeps _ (_ ≫= _) => apply keeps_bind
  | |- forall _, _ => intro
  | |- keeps _ (match ?x with _ => _ end) => destruct x
  | |- keeps _ (let '_ := ?x in _) => destruct x
  | |- keeps _ (mapM _ _) => apply keeps_mapM
  | |- keeps _ (modify _) => apply keeps_modify
  | |- _ => solve [eauto 3 with keeps nocore]
  end.
Ltac keeps := cbv zeta; repeat (keeps_step; cbv zeta).

(** What a context promises to keep. *)
Class CtxKeeps {S : Type} `{Risc0Context S} (P : S -> Prop) : Prop := {
  k_set_pc p s : P s -> P (Ctx.set_pc p s);
  k_set_user_pc p s : P s -> P (Ctx.set_user_pc p s);
  k_set_mode m s : P s -> P (Ctx.set_machine_mode m s);
  k_insn_start k d : keeps P (Ctx.on_insn_start k d);
  k_insn_end k : keeps P (Ctx.on_insn_end k);
  k_load op w : keeps P (Ctx.load_u32 op w);
  k_store w v : keeps P (Ctx.store_u32 w v);
  k_load_register op base idx : keeps P (Ctx.load_register op base idx);
  k_store_register base idx v : keeps P (Ctx.store_register base idx v);
  k_suspend : keeps P Ctx.suspend;
  k_resume : keeps P Ctx.resume;
  k_trap_rewind s : P s -> P (Ctx.trap_rewind s);
  k_on_trap_cause e s : P s -> P (Ctx.on_trap_cause e s);
  k_host_read fd len : keeps P (Ctx.host_read fd len);
  k_host_write fd buf : keeps P (Ctx.host_write fd buf);
  k_on_terminate a0 a1 : keeps P (Ctx.on_terminate a0 a1);
  k_ecall_cycle k1 k2 x y z ek : keeps P (Ctx.on_ecall_cycle k1 k2 x y z ek);
  k_sha2_cycle k st s : P s -> P (Ctx.on_sha2_cycle k st s);
  k_poseidon2_cycle k st s : P s -> P (Ctx.on_poseidon2_cycle k st s);
  k_ecall_bigint : keeps P Ctx.ecall_bigint;
  k_ecall_poseidon2 : keeps P Ctx.ecall_poseidon2;
  k_read_end x y s : P s -> P (Ctx.on_ecall_read_end x y s);
  k_write_end s : P s -> P (Ctx.on_ecall_write_end s);
  k_on_user_ecall s : P s -> P (Ctx.on_user_ecall s);
  k_on_trap s : P s -> P (Ctx.on_trap s);
}.
#[export] Hint Resolve k_insn_start k_insn_end k_load k_store k_load_register k_store_register k_suspend k_resume
  k_host_read k_host_write k_on_terminate k_ecall_cycle k_ecall_bigint k_ecall_poseidon2 : keeps.

(** The updates of the state, one after the other. *)
Ltac keeps_update :=
  match goal with _ : ?P _ |- ?P _ =>
    solve [repeat first [assumption | apply k_set_pc | apply k_set_user_pc | apply k_set_mode | apply k_trap_rewind | apply k_on_trap_cause
      | apply k_sha2_cycle | apply k_poseidon2_cycle | apply k_read_end | apply k_write_end | apply k_on_user_ecall | apply k_on_trap]]
  end.
#[export] Hint Extern 5 => keeps_update : keeps.

(** The loads alone, for what is read through [Peek]. *)
Class LoadsKeep {S : Type} `{Risc0Context S} (op : LoadOp) (P : S -> Prop) : Prop := { lk_load w : keeps P (Ctx.load_u32 op w) }.
#[export] Hint Resolve lk_load : keeps.

Section Loads.
Context {S : Type} `{Risc0Context S} {op : LoadOp} {P : S -> Prop} `{!LoadsKeep op P}.

Lemma load_u8_keeps a : keeps P (load_u8 op a).
Proof. unfold load_u8. keeps. Qed.
#[local] Hint Resolve load_u8_keeps : keeps.
Lemma reader_read_keeps castable pos size : keeps P (reader_read castable op pos size).
Proof. unfold reader_read. keeps. Qed.
#[local] Hint Resolve reader_read_keeps : keeps.
Lemma load_region_keeps castable a size : keeps P (load_region castable op a size).
Proof. unfold load_region. keeps. Qed.
End Loads.

#[export] Instance ctx_loads_keep {S : Type} `{Risc0Context S} (P : S -> Prop) `{!CtxKeeps P} op : LoadsKeep op P := { lk_load := k_load op }.
#[export] Hint Extern 1 (keeps _ (load_u8 _ _)) => apply load_u8_keeps : keeps.
#[export] Hint Extern 1 (keeps _ (reader_read _ _ _ _)) => apply reader_read_keeps : keeps.
#[export] Hint Extern 1 (keeps _ (load_region _ _ _ _)) => apply load_region_keeps : keeps.

Section Machine_.
Context {S : Type} `{Risc0Context S} {P : S -> Prop} `{!CtxKeeps P}.

(** ** The default methods of a context *)

Lemma guest_addr_keeps a : keeps P (guest_addr a : state S error Z).
Proof. unfold guest_addr. keeps. Qed.
#[local] Hint Resolve guest_addr_keeps : keeps.

Lemma machine_register_keeps op idx : keeps P (load_machine_register op idx).
Proof. unfold load_machine_register. keeps. Qed.
Lemma aligned_register_keeps op idx : keeps P (load_aligned_addr_from_machine_register op idx).
Proof. unfold load_aligned_addr_from_machine_register, check_aligned_addr, load_machine_register. keeps. Qed.
#[local] Hint Resolve machine_register_keeps aligned_register_keeps : keeps.

Lemma store_u8_keeps a b : keeps P (store_u8 a b).
Proof. unfold store_u8. keeps. Qed.
#[local] Hint Resolve store_u8_keeps : keeps.


Lemma for_each_keeps {L} js (body : Z -> L -> state S error L) : (forall j l, keeps P (body j l)) -> forall l, keeps P (for_each js body l).
Proof. intros Hb. induction js as [|j js IH]; intros l; cbn [for_each]; keeps. Qed.
#[local] Hint Resolve for_each_keeps : keeps.

(** ** SHA-2 *)

Lemma sha_step_keeps i n l : keeps P (Sha2.step i n l).
Proof. unfold Sha2.step. keeps. Qed.
#[local] Hint Resolve sha_step_keeps : keeps.

Lemma sha_blocks_keeps fuel : forall l, keeps P (Sha2.blocks fuel l).
Proof.
  induction fuel as [|fuel IH]; intros l; cbn [Sha2.blocks]; [keeps|].
  destruct (_ =? _); [keeps|].
  do 3 (apply keeps_bind; [apply for_each_keeps; intros; unfold Sha2.load_data, Sha2.mix, Sha2.store_state; keeps|intro]).
  apply IH.
Qed.
#[local] Hint Resolve sha_blocks_keeps : keeps.

Lemma sha_ecall_keeps : keeps P Sha2.ecall.
Proof.
  unfold Sha2.ecall. keeps. apply for_each_keeps. intros. unfold Sha2.load_state. keeps.
Qed.
#[local] Hint Resolve sha_ecall_keeps : keeps.

(** ** Poseidon2 *)

Lemma p2_step_keeps n i l : keeps P (P2Ecall.step n i l).
Proof. unfold P2Ecall.step. keeps. Qed.
#[local] Hint Resolve p2_step_keeps : keeps.

Lemma store_cells_keeps a off p : keeps P (P2Ecall.store_cells a off p).
Proof. unfold P2Ecall.store_cells. apply for_each_keeps. keeps. Qed.
Lemma load_cells_keeps put p a : keeps P (P2Ecall.load_cells put p a).
Proof. unfold P2Ecall.load_cells. apply for_each_keeps. keeps. Qed.
#[local] Hint Resolve store_cells_keeps load_cells_keeps : keeps.

Lemma trash_digest_keeps p : keeps P (P2Ecall.trash_digest p).
Proof. unfold P2Ecall.trash_digest, P2Ecall.is_m3. keeps. Qed.
Lemma trash_state_keeps p : keeps P (P2Ecall.trash_state p).
Proof. unfold P2Ecall.trash_state, P2Ecall.is_m3. keeps. Qed.
#[local] Hint Resolve trash_digest_keeps trash_state_keeps : keeps.

Lemma load_buf_in_keeps l : keeps P (P2Ecall.load_buf_in l).
Proof.
  unfold P2Ecall.load_buf_in. destruct l as [p0 c0]. apply keeps_bind; [keeps|]. intros [p c].
  destruct (negb _).
  - apply keeps_bind; [keeps|]. intros [p1 a1]. keeps.
  - keeps.
Qed.
#[local] Hint Resolve load_buf_in_keeps : keeps.

Section Mix.
Context (mix : P2Ecall.locals -> state S error P2Ecall.locals) (Hmix : forall l, keeps P (mix l)).

Lemma p2_blocks_keeps fuel : forall l, keeps P (P2Ecall.blocks mix fuel l).
Proof.
  induction fuel as [|fuel IH]; intros l; cbn [P2Ecall.blocks]; [keeps|].
  destruct (_ <? _); [|keeps]. apply keeps_bind; [keeps|]. intros l'. apply keeps_bind; [apply Hmix|]. intros [p cur].
  cbv zeta. apply keeps_bind; [|intros _; apply IH]. keeps.
Qed.

Lemma rest_with_mix_keeps final p : keeps P (P2Ecall.rest_with_mix mix final p).
Proof.
  unfold P2Ecall.rest_with_mix. cbv zeta. apply keeps_bind.
  { destruct (_ =? _); [|keeps]. unfold P2Ecall.load_p2_state. apply keeps_bind; [keeps|]. intros [q cur].
    apply keeps_bind; [apply for_each_keeps; keeps|keeps]. }
  intros l. apply keeps_bind; [apply p2_blocks_keeps|]. intros l'. apply keeps_bind.
  { unfold P2Ecall.store_buf_out. apply keeps_bind; [keeps|]. intros [q cur]. apply keeps_bind; [|keeps].
    destruct (negb _); [apply for_each_keeps; keeps|keeps]. }
  intros [q cur]. apply keeps_bind.
  { destruct (_ =? _); [unfold P2Ecall.store_p2_state; keeps|keeps]. }
  intros l''. keeps.
Qed.
End Mix.

Lemma p2_load_ecall_keeps : keeps P P2Ecall.load_ecall.
Proof. unfold P2Ecall.load_ecall. keeps. Qed.

(** ** Big integers *)

Section BigInt_.
Context `{Malachite, ByteOrder}.

(** On the state of the bytecode's memory. *)
Definition io_P (io : BigInt.BigIntIOImpl) : Prop := P (BigInt.ctx io).

Lemma on_ctx_keeps {A} (m : state S error A) : keeps P m -> keeps io_P (BigInt.on_ctx m).
Proof. intros Hm [s md w] Hs. specialize (Hm s Hs). unfold BigInt.on_ctx. cbn. destruct (m s) as [[a|e|] s']; done. Qed.
#[local] Hint Resolve on_ctx_keeps : keeps.

Lemma load_limbs_keeps fuel : forall a e, keeps P (BigInt.load_limbs fuel a e).
Proof. induction fuel as [|fuel IH]; intros a e; cbn [BigInt.load_limbs]; keeps. Qed.
#[local] Hint Resolve load_limbs_keeps : keeps.

Lemma io_load_keeps arena offset count : keeps io_P (BigInt.io_load arena offset count).
Proof. unfold BigInt.io_load. apply keeps_bind; [keeps|]. intros md. apply on_ctx_keeps. keeps. Qed.
Lemma io_store_keeps arena offset count value : keeps io_P (BigInt.io_store arena offset count value).
Proof. unfold BigInt.io_store. keeps. Qed.

#[local] Existing Instance BigInt.io_impl.
Lemma eval_loop_keeps program ops : forall i regs, keeps io_P (Bibc.eval_loop program i ops regs).
Proof.
  induction ops as [|op ops IH]; intros i regs; cbn [Bibc.eval_loop]; [keeps|]. apply keeps_bind; [|intros; apply IH].
  unfold Bibc.eval_op. cbv zeta.
  destruct (Bibc.code op); repeat first [apply io_load_keeps | apply io_store_keeps | keeps_step; cbv zeta].
Qed.

Lemma drain_keeps castable op a size : keeps P (BigInt.drain castable op a size).
Proof.
  unfold BigInt.drain. apply keeps_bind; [keeps|]. intros e. generalize (Z.to_nat (wrap 32 size / Z.shiftl 8 10) + 2)%nat as fuel.
  intros fuel. revert a. induction fuel as [|fuel IH]; intros a; cbn [BigInt.drain_loop]; keeps.
Qed.
#[local] Hint Resolve drain_keeps : keeps.

Lemma write_chunk_keeps n : forall bytes, (length bytes <= n)%nat -> forall a i, keeps P (BigInt.write_chunk a i bytes).
Proof.
  induction n as [|n IH]; intros bytes Hn a i; destruct bytes as [|b0 [|b1 [|b2 [|b3 bytes]]]]; cbn [length] in Hn; try lia; cbn [BigInt.write_chunk]; try keeps.
  apply IH. lia.
Qed.

(** The witness is computed on a copy of the context that is put back. *)
Lemma eval_witness_keeps program md : keeps P (fun s =>
  let '(o, io) := Bibc.eval program (BigInt.io_new s md) in ((_ ← o; Ok (BigInt.witness io)), BigInt.ctx io) : outcome error _ * S).
Proof.
  intros s Hs. pose proof (eval_loop_keeps program (Bibc.ops program) 0 (replicate (length (Bibc.ops program)) 0) (BigInt.io_new s md) Hs) as Hk.
  unfold Bibc.eval. destruct (Bibc.eval_loop _ _ _ _ _) as [[r|e|] io]; done.
Qed.
#[local] Hint Resolve eval_witness_keeps : keeps.

Lemma ecall_execute_keeps castable castable' : keeps P (BigInt.ecall_execute castable castable').
Proof.
  unfold BigInt.ecall_execute. apply keeps_bind.
  - unfold BigInt.ecall. repeat first [apply eval_witness_keeps | keeps_step; cbv zeta].
  - intros exec. apply keeps_bind; [|keeps]. unfold BigInt.write_witness_to_memory.
    induction (BigInt.entries _) as [|[a bytes] l IH]; cbn [BigInt.write_chunks]; [keeps|].
    apply keeps_bind; [by eapply write_chunk_keeps|]. intros _. exact IH.
Qed.
End BigInt_.

(** ** The emulator *)

End Machine_.

(** What the emulator asks of its context. *)
Class EmuKeeps {S E : Type} `{EmuContext S E} (P : S -> Prop) : Prop := {
  e_ecall : keeps P ecall;
  e_machine_ret : keeps P machine_ret;
  e_trap e : keeps P (trap e);
  e_decoded k d : keeps P (on_insn_decoded k d);
  e_end k : keeps P (on_normal_end k);
  e_set_pc p s : P s -> P (Rv32im.set_pc p s);
  e_load_register r : keeps P (Rv32im.load_register r);
  e_store_register r v : keeps P (Rv32im.store_register r v);
  e_load a : keeps P (load_memory a);
  e_store a v : keeps P (store_memory a v);
}.
#[export] Hint Resolve e_ecall e_machine_ret e_trap e_decoded e_end e_load_register e_store_register e_load e_store : keeps.
#[export] Hint Extern 5 => apply e_set_pc : keeps.

Section Emulator_.
Context {S E : Type} `{EmuContext S E} {P : S -> Prop} `{!EmuKeeps P}.

(** Every word is executed by one of the routines, or traps. *)
Lemma exec_cases (Q : state S E (option InsnKind) -> Prop) word :
  (forall k d, Q (Emulator.step_compute k d)) -> (forall k d, Q (Emulator.step_load k d)) ->
  (forall k d, Q (Emulator.step_store k d)) -> (forall k d, Q (Emulator.step_branch k d)) ->
  (forall k d, Q (Emulator.step_system k d)) -> (forall e k, Q (Emulator.trap_then e k)) -> Q (Emulator.exec_rv32im word).
Proof.
  intros H1 H2 H3 H4 H5 H6. unfold Emulator.exec_rv32im. cbv zeta.
  repeat match goal with |- Q (match ?x with _ => _ end) => destruct x end; auto.
Qed.

Lemma trap_then_keeps e k : keeps P (Emulator.trap_then e k).
Proof. unfold Emulator.trap_then. keeps. Qed.
#[local] Hint Resolve trap_then_keeps : keeps.

Lemma emulator_step_keeps : keeps P Emulator.step.
Proof.
  assert (Hx : forall word, keeps P (Emulator.exec_rv32im word)).
  { intros word. apply exec_cases; intros.
    1-4: unfold Emulator.step_compute, Emulator.step_load, Emulator.step_store, Emulator.step_branch, Emulator.trace_instruction, Emulator.load_rs2.
    5: unfold Emulator.step_system, Emulator.trace_instruction.
    all: keeps. }
  unfold Emulator.step. repeat first [apply Hx | keeps_step].
Qed.
End Emulator_.

(** ** The machine *)

Section Steps.
Context {S : Type} `{Risc0Context S} {P : S -> Prop} `{!CtxKeeps P}.
#[local] Hint Resolve guest_addr_keeps store_u8_keeps sha_ecall_keeps : keeps.

Lemma next_pc_keeps : keeps P Machine.next_pc.
Proof. unfold Machine.next_pc. keeps. Qed.
Lemma m_load_register_keeps r : keeps P (Machine.load_register r).
Proof. unfold Machine.load_register. keeps. Qed.
Lemma m_store_register_keeps r v : keeps P (Machine.store_register r v).
Proof. unfold Machine.store_register. keeps. Qed.
Lemma m_load_memory_keeps a : keeps P (Machine.load_memory a).
Proof. apply k_load. Qed.
Lemma m_store_memory_keeps a v : keeps P (Machine.store_memory a v).
Proof. apply k_store. Qed.
#[local] Hint Resolve next_pc_keeps m_load_register_keeps m_store_register_keeps m_load_memory_keeps m_store_memory_keeps : keeps.

Lemma enter_trap_keeps a : keeps P (Machine.enter_trap a).
Proof. unfold Machine.enter_trap. keeps. Qed.
Lemma dump_registers_keeps b : keeps P (Machine.dump_registers b).
Proof. unfold Machine.dump_registers. keeps. Qed.
#[local] Hint Resolve enter_trap_keeps dump_registers_keeps : keeps.
Lemma m_trap_keeps e : keeps P (Machine.trap e).
Proof. unfold Machine.trap. keeps. Qed.
#[local] Hint Resolve m_trap_keeps : keeps.
Lemma user_ecall_keeps : keeps P Machine.user_ecall.
Proof. unfold Machine.user_ecall. keeps. Qed.
Lemma machine_ret_keeps : keeps P Machine.machine_ret.
Proof. unfold Machine.machine_ret. keeps. Qed.
Lemma ecall_terminate_keeps : keeps P Machine.ecall_terminate.
Proof. unfold Machine.ecall_terminate. keeps. Qed.
#[local] Hint Resolve user_ecall_keeps machine_ret_keeps ecall_terminate_keeps : keeps.

Lemma if_done_keeps n : keeps P (Machine.if_done n).
Proof. unfold Machine.if_done. keeps. Qed.
Lemma add_cycle_keeps l : keeps P (Machine.add_cycle l).
Proof. unfold Machine.add_cycle. keeps. Qed.
#[local] Hint Resolve if_done_keeps add_cycle_keeps : keeps.
Lemma read_byte_keeps bytes l : keeps P (Machine.read_byte bytes l).
Proof. unfold Machine.read_byte. keeps. Qed.
#[local] Hint Resolve read_byte_keeps : keeps.
Lemma read_prefix_keeps fuel bytes : forall l, keeps P (Machine.read_prefix fuel bytes l).
Proof. induction fuel as [|fuel IH]; intros l; cbn [Machine.read_prefix]; keeps. Qed.
Lemma read_words_keeps bytes words js : forall l, keeps P (Machine.read_words bytes words js l).
Proof. induction js as [|j js IH]; intros l; cbn [Machine.read_words]; keeps. Qed.
#[local] Hint Resolve read_words_keeps read_prefix_keeps : keeps.
Lemma read_body_keeps fuel bytes : forall l, keeps P (Machine.read_body fuel bytes l).
Proof. induction fuel as [|fuel IH]; intros l; cbn [Machine.read_body]; keeps. Qed.
Lemma read_suffix_keeps fuel bytes : forall l, keeps P (Machine.read_suffix fuel bytes l).
Proof. induction fuel as [|fuel IH]; intros l; cbn [Machine.read_suffix]; keeps. Qed.
#[local] Hint Resolve read_body_keeps read_suffix_keeps : keeps.
Lemma read_transfer_keeps p n bytes : keeps P (Machine.read_transfer p n bytes).
Proof. unfold Machine.read_transfer. keeps. Qed.
#[local] Hint Resolve read_transfer_keeps : keeps.

Lemma ecall_read_keeps : keeps P Machine.ecall_read.
Proof. unfold Machine.ecall_read. keeps. Qed.
Lemma ecall_write_keeps castable : keeps P (Machine.ecall_write castable).
Proof. unfold Machine.ecall_write. keeps. Qed.
#[local] Hint Resolve ecall_read_keeps ecall_write_keeps : keeps.

Lemma m_ecall_keeps castable : keeps P (Machine.ecall castable).
Proof. unfold Machine.ecall, Machine.machine_ecall, Machine.ecall_poseidon2, Machine.ecall_sha2, Machine.ecall_bigint. keeps. Qed.

Lemma emu_keeps castable : @EmuKeeps S error (Machine.emu castable) P.
Proof.
  constructor; cbn; intros; first [apply m_ecall_keeps | apply machine_ret_keeps | apply m_trap_keeps | apply k_insn_start | apply k_insn_end
    | by apply k_set_pc | apply m_load_register_keeps | apply m_store_register_keeps | apply k_load | apply k_store].
Qed.

Lemma step_keeps castable : keeps P (Machine.step castable).
Proof. unfold Machine.step. pose proof (emu_keeps castable). apply emulator_step_keeps. Qed.
Lemma suspend_keeps : keeps P Machine.suspend.
Proof. unfold Machine.suspend. keeps. Qed.
Lemma resume_keeps : keeps P Machine.resume.
Proof. unfold Machine.resume. keeps. Qed.
End Steps.
