(* ===== verification/PagerKeeps.v ===== *)
(** * What the paged memory keeps, whatever it is asked

    The executor passes on addresses and words that guest code computed.  [winv] is
    the invariant of the paged memory up to the width of its registers; every
    operation keeps it at every address and word, and leaves the pages that the image
    holds until the segment is committed. *)
From S2P Require Export PagerSpec Keeps.
From stdpp Require Import sorting.
Import Pager.
Open Scope word_scope.
Open Scope Z_scope.

(** ** Operations that do not look at the registers *)

Definition regs (u r : list Z) (m : PagedMemory) : PagedMemory := set_user_registers (fun _ => u) (set_machine_registers (fun _ => r) m).
Definition obl {A} (op : M A) : Prop := forall u r m, op (regs u r m) = (fst (op m), regs u r (snd (op m))).

Lemma obl_bind {A B} (op : M A) (k : A -> M B) : obl op -> (forall a, obl (k a)) -> obl (op ≫= k).
Proof.
  intros Ho Hk u r m. unfold mbind, state_bind. rewrite Ho. destruct (op m) as [[a|e|] m']; [|done..]. cbn. apply Hk.
Qed.
Lemma obl_ret {A} (a : A) : obl (mret a). Proof. done. Qed.
Lemma obl_lift {A} (o : outcome error A) : obl (lift o). Proof. done. Qed.
Lemma obl_throw {A} e : obl (throw e : M A). Proof. done. Qed.
Lemma obl_panic {A} : obl (panic : M A). Proof. done. Qed.
Lemma obl_query {A} (f : PagedMemory -> outcome error A) : (forall u r m, f (regs u r m) = f m) -> obl (query f).
Proof. intros H u r m. unfold query. by rewrite H. Qed.
Lemma obl_modify f : (forall u r m, f (regs u r m) = regs u r (f m)) -> obl (modify f).
Proof. intros H u r m. unfold modify. by rewrite H. Qed.
Lemma obl_image_page p : obl (image_page p).
Proof. intros u r m. unfold image_page. cbn. by destruct (wi_get_page p (image m)). Qed.
Lemma obl_trace_in c : obl (trace_page_in c).
Proof. intros u r m. unfold trace_page_in. cbn. by destruct (tracing_enabled m). Qed.
Lemma obl_trace_out c : obl (trace_page_out c).
Proof. intros u r m. unfold trace_page_out. cbn. by destruct (tracing_enabled m). Qed.

Create HintDb obl discriminated.
#[local] Hint Resolve obl_ret obl_lift obl_throw obl_panic obl_image_page obl_trace_in obl_trace_out : obl.
Ltac obl_step :=
  match goal with
  | |- obl (_ ≫= _) => apply obl_bind
  | |- forall _ : _, obl _ => intro
  | |- obl (match ?x with _ => _ end) => destruct x
  | |- obl (query _) => apply obl_query; done
  | |- obl (modify _) => apply obl_modify; done
  | |- _ => solve [eauto 3 with obl nocore]
  end.
Ltac obl := unfold lookup_table, cached, get_state, set_state, add_cycles, write_cached; cbv zeta; repeat (obl_step; cbv zeta).

Lemma obl_fixup fuel : forall i goal, obl (fixup_costs fuel i goal).
Proof. induction fuel as [|fuel IH]; intros i goal; cbn [fixup_costs]; obl. Qed.
#[local] Hint Resolve obl_fixup : obl.
Lemma obl_page_in p : obl (page_in p).
Proof. unfold page_in. obl. Qed.
#[local] Hint Resolve obl_page_in : obl.
Lemma obl_load_ram a : obl (load_ram a).
Proof. unfold load_ram. obl. Qed.
Lemma obl_peek_ram a : obl (peek_ram a).
Proof. unfold peek_ram. obl. Qed.
Lemma obl_peek_page p : obl (peek_page p).
Proof. unfold peek_page. obl. Qed.
Lemma obl_page_for_writing p : obl (page_for_writing p).
Proof. unfold page_for_writing. obl. Qed.
#[local] Hint Resolve obl_page_for_writing : obl.
Lemma obl_write_cached c f : obl (write_cached c f). Proof. obl. Qed.
#[local] Hint Resolve obl_write_cached : obl.
Lemma obl_store_ram a v : obl (store_ram a v).
Proof. unfold store_ram. obl. Qed.
Lemma obl_commit_loop l : forall p, obl (commit_loop l p).
Proof. induction l as [|n l IH]; intros p; cbn [commit_loop]; unfold commit_node; obl. Qed.

(** ** The invariant up to the width of the registers *)

Definition norm (m : PagedMemory) : PagedMemory := regs (map (wrap 32) (user_registers m)) (map (wrap 32) (machine_registers m)) m.
Definition winv (m : PagedMemory) : Prop := inv (norm m).

(** An operation that does not look at the registers and has a result on the memory
    with narrow registers has the same on the memory. *)
Lemma obl_norm {A} (op : M A) m o m' : obl op -> op (norm m) = (o, m') ->
  exists m1, op m = (o, m1) /\ m' = norm m1.
Proof.
  intros Ho E. unfold norm in E. rewrite Ho in E. injection E as E1 E2. exists (snd (op m)).
  rewrite <- E1, <- surjective_pairing. split; [done|].
  assert (Hr : regs (user_registers m) (machine_registers m) (snd (op m)) = snd (op m)).
  { specialize (Ho (user_registers m) (machine_registers m) m). replace (regs _ _ m) with m in Ho by by destruct m.
    destruct (op m) as [o1 m2]. cbn in Ho. injection Ho as Ho. done. }
  rewrite <- E2. unfold norm. by rewrite <- Hr.
Qed.

Lemma wrap_u32 v : u32 (wrap 32 v).
Proof. apply wrap_fits. lia. Qed.
Lemma wrap_idem v : wrap 32 (wrap 32 v) = wrap 32 v.
Proof. apply wrap_small, wrap_u32. Qed.

Lemma inv_winv m : inv m -> winv m.
Proof.
  intros Hm. unfold winv, norm. assert (Hr : forall l, Forall u32 l -> map (wrap 32) l = l).
  { intros l Hl. induction Hl as [|v l Hv Hl IH]; [done|]. cbn [map]. by rewrite IH, wrap_small. }
  rewrite !Hr by apply Hm. by replace (regs _ _ m) with m by by destruct m.
Qed.

Lemma winv_regs m : winv m -> length (user_registers m) = 32%nat /\ length (machine_registers m) = 32%nat.
Proof. intros Hm. destruct (inv_user _ Hm) as [Hu _], (inv_machine _ Hm) as [Hr _]. cbn in Hu, Hr. rewrite length_map in Hu, Hr. done. Qed.

(** A stored word is cut to its bytes. *)
Lemma store_wrap w v pg : Image.store w (wrap 32 v) pg = Image.store w v pg.
Proof.
  unfold Image.store. f_equal. unfold to_le_bytes, wrap. cbn [map].
  do 4 (refine (f_equal2 cons _ _); [change (256 ^ 0) with 1; change (256 ^ 1) with 256; change (256 ^ 2) with 65536; change (256 ^ 3) with 16777216; dlia|]). done.
Qed.

Lemma regs_page_wrap u r pg : regs_page (map (wrap 32) u) (map (wrap 32) r) pg = regs_page u r pg.
Proof.
  unfold regs_page. generalize (seqZ 0 REG_MAX) as l. intros l. revert pg. induction l as [|i l IH]; intros pg; cbn [foldl]; [done|].
  assert (E : forall (x : list Z), default 0 (map (wrap 32) x !! Z.to_nat i) = wrap 32 (default 0 (x !! Z.to_nat i))).
  { intros x. change (map (wrap 32) x) with (wrap 32 <$> x). rewrite list_lookup_fmap. by destruct (x !! Z.to_nat i). }
  rewrite !E, !store_wrap. apply IH.
Qed.

Lemma vpages_norm m p : vpages (norm m) p = vpages m p.
Proof. unfold vpages. cbn [user_registers machine_registers norm regs set_user_registers set_machine_registers]. rewrite regs_page_wrap. done. Qed.

Lemma reset_norm m : reset (norm m) = norm (reset m). Proof. done. Qed.

(** The image has pages only. *)
Definition only_pages (m : PagedMemory) : Prop := forall p pg, image m !! p = Some pg -> is_page p.

(** The image's pages, those of the start of the segment. *)
Definition holds (F : Z -> Page) (m : PagedMemory) : Prop :=
  winv m /\ (forall p, is_page p -> default Image.page_default (image m !! p) = F p) /\ only_pages m.

Lemma keeps_total {A} (P : PagedMemory -> Prop) (op : M A) : (forall m, P m -> P (snd (op m))) -> keeps P op.
Proof. intros H m Hm. specialize (H m Hm). destruct (op m) as [[a|e|] m']; done. Qed.

(** ** No page has a negative number *)

Definition noerr {A} (op : M A) : Prop := forall m, match fst (op m) with Err _ => False | _ => True end.
Lemma noerr_bind {A B} (op : M A) (k : A -> M B) : noerr op -> (forall a, noerr (k a)) -> noerr (op ≫= k).
Proof.
  intros Ho Hk m. specialize (Ho m). unfold mbind, state_bind. destruct (op m) as [[a|e|] m']; [apply Hk|done..].
Qed.

(** Panics everywhere. *)
Definition panics {A} (op : M A) : Prop := forall m, fst (op m) = Panic.
Lemma panics_bind {A B} (op : M A) (k : A -> M B) : noerr op -> (forall a, panics (k a)) -> panics (op ≫= k).
Proof.
  intros Ho Hk m. specialize (Ho m). unfold mbind, state_bind. destruct (op m) as [[a|e|] m']; [apply Hk|done..].
Qed.
Lemma panics_first {A B} (op : M A) (k : A -> M B) : panics op -> panics (op ≫= k).
Proof. intros Ho m. specialize (Ho m). unfold mbind, state_bind. destruct (op m) as [[a|e|] m']; done. Qed.
Lemma panics_keeps {A} P (op : M A) : panics op -> keeps P op.
Proof. intros H m Hm. specialize (H m). destruct (op m) as [o m']. cbn in H. by subst o. Qed.

Lemma noerr_query {A} (f : PagedMemory -> outcome error A) : (forall m, match f m with Err _ => False | _ => True end) -> noerr (query f).
Proof. intros H m. apply H. Qed.
Lemma states_get_noerr {E} i s : match (states_get i s : outcome E PageState) with Err _ => False | _ => True end.
Proof. unfold states_get, bit. destruct (i * 2 <? size s); [|exact I]. cbn [mbind outcome_bind]. destruct (bool_decide _); [exact I|]. destruct (i * 2 + 1 <? size s); [|exact I]. cbn. by destruct (bool_decide _). Qed.
Lemma states_set_noerr {E} i v s : match (states_set i v s : outcome E PageStates) with Err _ => False | _ => True end.
Proof. unfold states_set. pose proof (states_get_noerr (E := E) i s). destruct (states_get i s); [|done..]. by destruct v. Qed.
Lemma table_set_noerr {E} i c t : match (table_set i c t : outcome E PageTable) with Err _ => False | _ => True end.
Proof. unfold table_set. destruct (_ <=? _), (in_table i); exact I. Qed.

Lemma noerr_get_state i : noerr (get_state i).
Proof. apply noerr_query. intros. apply states_get_noerr. Qed.
Lemma noerr_set_state i v : noerr (set_state i v).
Proof. apply noerr_bind; [apply noerr_query; intros; apply states_set_noerr|done]. Qed.
Lemma noerr_cycles c : noerr (add_cycles c). Proof. done. Qed.

Lemma noerr_fixup fuel : forall i goal, noerr (fixup_costs fuel i goal).
Proof.
  induction fuel as [|fuel IH]; intros i goal; [done|]. cbn [fixup_costs]. destruct (_ =? _); [done|].
  apply noerr_bind; [apply noerr_get_state|]. intros st. apply noerr_bind; [|intros _; apply IH].
  destruct (_ <? _); [|done]. apply noerr_bind; [|intros _; apply noerr_set_state].
  destruct (_ <? _); [|done]. apply noerr_bind; [|intros _]; by case_decide.
Qed.

Lemma noerr_page_in p : noerr (page_in p).
Proof.
  unfold page_in. apply noerr_bind; [intros m; unfold image_page; by destruct (wi_get_page _ _)|]. intros pg.
  apply noerr_bind; [apply noerr_query; intros; apply table_set_noerr|]. intros t.
  do 4 (apply noerr_bind; [done|intros _]). apply noerr_fixup.
Qed.

Lemma lookup_negative p : ~ is_page p -> panics (lookup_table p).
Proof.
  intros Hp m. unfold lookup_table, query, table_get, in_table. change NUM_PAGES with 4194304.
  replace ((0 <=? p) && (p <? 4194304)) with false by (unfold is_page in Hp; lia). done.
Qed.

Lemma writing_negative p : ~ is_page p -> panics (page_for_writing p).
Proof.
  intros Hp. unfold page_for_writing. cbv zeta. apply panics_bind; [apply noerr_get_state|]. intros st.
  apply panics_bind; [case_decide; [apply noerr_bind; [apply noerr_page_in|done]|done]|]. intros st'.
  apply panics_bind; [|intros _; by apply panics_first, lookup_negative].
  case_decide; [|done]. do 2 (apply noerr_bind; [done|intros _]). apply noerr_bind; [apply noerr_fixup|intros _; apply noerr_set_state].
Qed.

(** ** Every operation keeps the image's pages *)

Section Holds.
Context (F : Z -> Page).

Lemma keeps_op {A} (op : M A) : obl op -> keeps only_pages op ->
  (forall m, inv m -> exists o m', op m = (o, m') /\ inv m' /\ based m m') -> keeps (holds F) op.
Proof.
  intros Ho Hd H m (Hw & Hi & Hp). specialize (Hd m Hp). destruct (H (norm m) Hw) as (o & m' & E & Hm & Hb).
  destruct (obl_norm op m o m' Ho E) as (m1 & E1 & ->). rewrite E1 in *.
  assert (Hx : forall p, is_page p -> default Image.page_default (image m1 !! p) = F p) by (intros p Hpp; rewrite <- Hi by done; apply Hb).
  by destruct o.
Qed.

Lemma keeps_query {A} P (f : PagedMemory -> outcome error A) : keeps P (query f).
Proof. apply keeps_total. by intros m Hm. Qed.

(** Only pages are read from the image. *)
Lemma image_page_only p : is_page p -> keeps only_pages (image_page p).
Proof.
  intros Hp m Hm. unfold image_page, wi_get_page. destruct (image m !! p) as [pg|] eqn:E; [by destruct m|].
  intros q pg. cbn [image set_image]. unfold WorkingImage in *. intros [[<- <-]|[_ Hq]]%lookup_insert_Some; [done|by apply (Hm q pg)].
Qed.
Lemma trace_in_only c : keeps only_pages (trace_page_in c).
Proof. apply keeps_total. intros m Hm. unfold trace_page_in. cbn. by destruct (tracing_enabled m). Qed.
Lemma trace_out_only c : keeps only_pages (trace_page_out c).
Proof. apply keeps_total. intros m Hm. unfold trace_page_out. cbn. by destruct (tracing_enabled m). Qed.
#[local] Hint Resolve keeps_query image_page_only trace_in_only trace_out_only : keeps.
Ltac keep_pages := unfold lookup_table, cached, get_state, set_state, add_cycles, write_cached; keeps.

Lemma fixup_only fuel : forall i goal, keeps only_pages (fixup_costs fuel i goal).
Proof. induction fuel as [|fuel IH]; intros i goal; cbn [fixup_costs]; keep_pages. Qed.
#[local] Hint Resolve fixup_only : keeps.
Lemma page_in_only p : is_page p -> keeps only_pages (page_in p).
Proof. intros Hp. unfold page_in. keep_pages. Qed.
#[local] Hint Resolve page_in_only : keeps.
Lemma load_ram_only a : is_page (WordAddr.page_idx a) -> keeps only_pages (load_ram a).
Proof. intros Hp. unfold load_ram. keep_pages. Qed.
Lemma peek_at_only p : is_page p -> keeps only_pages (o ← lookup_table p; match o with Some c => cached c | None => image_page p end).
Proof. intros Hp. keep_pages. Qed.
Lemma peek_ram_only a : is_page (WordAddr.page_idx a) -> keeps only_pages (peek_ram a).
Proof. intros Hp. unfold peek_ram. keep_pages. Qed.
Lemma writing_only p : is_page p -> keeps only_pages (page_for_writing p).
Proof. intros Hp. unfold page_for_writing. keep_pages. Qed.
#[local] Hint Resolve writing_only : keeps.
Lemma store_ram_only a v : is_page (WordAddr.page_idx a) -> keeps only_pages (store_ram a v).
Proof. intros Hp. unfold store_ram. keep_pages. Qed.

Lemma load_ram_keeps a : keeps (holds F) (load_ram a).
Proof.
  destruct (decide (is_page (WordAddr.page_idx a))) as [Hp|Hp].
  - apply keeps_op; [apply obl_load_ram|by apply load_ram_only|]. intros m Hm. destruct (load_ram_run m a Hm Hp) as (m' & E & Hs).
    eexists _, m'. split; [exact E|]. split; apply Hs.
  - apply panics_keeps. unfold load_ram. by apply panics_first, lookup_negative.
Qed.

Lemma peek_at_keeps p : keeps (holds F) (o ← lookup_table p; match o with Some c => cached c | None => image_page p end).
Proof.
  destruct (decide (is_page p)) as [Hp|Hp].
  - apply keeps_op; [obl|by apply peek_at_only|]. intros m Hm. destruct (peek_page_at m p Hm Hp) as (m' & E & Hs). eexists _, m'. split; [exact E|]. split; apply Hs.
  - by apply panics_keeps, panics_first, lookup_negative.
Qed.

Lemma peek_ram_keeps a : keeps (holds F) (peek_ram a).
Proof.
  destruct (decide (is_page (WordAddr.page_idx a))) as [Hp|Hp].
  - apply keeps_op; [apply obl_peek_ram|by apply peek_ram_only|]. intros m Hm. destruct (peek_ram_run m a Hm Hp) as (m' & E & Hs).
    eexists _, m'. split; [exact E|]. split; apply Hs.
  - apply panics_keeps. unfold peek_ram. by apply panics_first, lookup_negative.
Qed.

Lemma load_keeps a : keeps (holds F) (load a).
Proof.
  unfold load. destruct (_ <=? _); [apply keeps_throw|]. apply keeps_bind; [apply keeps_query|].
  intros [w|]; [apply keeps_ret|apply load_ram_keeps].
Qed.
Lemma peek_keeps a : keeps (holds F) (peek a).
Proof.
  unfold peek. destruct (_ <=? _); [apply keeps_throw|]. apply keeps_bind; [apply keeps_query|].
  intros [w|]; [apply keeps_ret|apply peek_ram_keeps].
Qed.
Lemma peek_page_keeps p : keeps (holds F) (peek_page p).
Proof. unfold peek_page. destruct (_ || _); [apply keeps_throw|apply peek_at_keeps]. Qed.

(** *** Stores *)

Lemma page_of_word a : is_page (WordAddr.page_idx a) -> 0 <= a < 2 ^ 30.
Proof. unfold is_page, WordAddr.page_idx. change PAGE_WORDS with 256. change (2 ^ 30) with 1073741824. dlia. Qed.

Lemma store_ram_keeps a v : keeps (holds F) (store_ram a v).
Proof.
  destruct (decide (is_page (WordAddr.page_idx a))) as [Hp|Hp].
  - apply keeps_op; [apply obl_store_ram|by apply store_ram_only|]. intros m Hm. destruct (page_for_writing_run m _ Hm Hp) as (m1 & c & E1 & Hs & Et & Ed).
    destruct (write_cached_run m1 c _ (Image.store a v) (same_inv _ _ Hs) Hp Et Ed) as (m2 & E2 & Hm2 & _ & _ & _ & _ & Ei).
    { apply store_page_wf; [by apply (inv_pages _ (same_inv _ _ Hs))|by apply page_of_word]. }
    eexists _, m2. unfold store_ram. rewrite (run_bind _ _ _ _ _ E1). split; [exact E2|]. split; [exact Hm2|].
    intros p. rewrite <- (same_based _ _ Hs). by rewrite Ei.
  - apply panics_keeps. unfold store_ram. by apply panics_first, writing_negative.
Qed.

Lemma inv_set_regs m u r : inv m -> regs_ok u -> regs_ok r -> inv (regs u r m).
Proof.
  intros Hm Hu Hr. destruct (inv_cache _ Hm) as [ps Hps]. assert (Hps' : cache_ok (regs u r m) ps) by (constructor; apply Hps).
  constructor; try apply Hm; try done. by exists ps.
Qed.

Lemma wrapped_ok l : length l = 32%nat -> regs_ok (map (wrap 32) l).
Proof. intros Hl. split; [by rewrite length_map|]. apply Forall_fmap, Forall_true. intros v. apply wrap_u32. Qed.

Lemma holds_regs u r m : length u = 32%nat -> length r = 32%nat -> holds F m -> holds F (regs u r m).
Proof.
  intros Hu Hr [Hw Hi]. split; [|exact Hi].
  exact (inv_set_regs (norm m) _ _ Hw (wrapped_ok u Hu) (wrapped_ok r Hr)).
Qed.

Lemma set_user_keeps i v : keeps (holds F) (modify (set_user_registers <[i := v]>) : M unit).
Proof.
  apply keeps_modify. intros m Hm. destruct (winv_regs m (proj1 Hm)) as [Hu Hr].
  exact (holds_regs (<[i := v]> (user_registers m)) (machine_registers m) m ltac:(by rewrite length_insert) Hr Hm).
Qed.
Lemma set_machine_keeps i v : keeps (holds F) (modify (set_machine_registers <[i := v]>) : M unit).
Proof.
  apply keeps_modify. intros m Hm. destruct (winv_regs m (proj1 Hm)) as [Hu Hr].
  exact (holds_regs (user_registers m) (<[i := v]> (machine_registers m)) m Hu ltac:(by rewrite length_insert) Hm).
Qed.

Lemma try_store_keeps a v : keeps (holds F) (try_store_register a v).
Proof.
  unfold try_store_register. destruct (in_file USER_REGS a).
  - apply keeps_bind; [apply keeps_lift|intros _]. apply keeps_bind; [apply set_user_keeps|intros _; apply keeps_ret].
  - destruct (in_file MACHINE_REGS a); [|apply keeps_ret].
    apply keeps_bind; [apply keeps_lift|intros _]. apply keeps_bind; [apply set_machine_keeps|intros _; apply keeps_ret].
Qed.
Lemma store_keeps a v : keeps (holds F) (store a v).
Proof.
  unfold store. destruct (_ <=? _); [apply keeps_throw|]. apply keeps_bind; [apply try_store_keeps|].
  intros [|]; [apply keeps_ret|apply store_ram_keeps].
Qed.
Lemma store_register_keeps base idx v : keeps (holds F) (store_register base idx v).
Proof.
  unfold store_register. destruct (_ =? _); [|destruct (_ =? _); [|apply keeps_panic]];
    (apply keeps_bind; [apply keeps_query|intros _]); [apply set_user_keeps|apply set_machine_keeps].
Qed.
Lemma clear_trace_keeps m : holds F m -> holds F (clear_trace_events m).
Proof.
  intros [Hw Hi]. split; [|exact Hi]. destruct (inv_cache _ Hw) as [ps Hps].
  assert (Hps' : cache_ok (norm (clear_trace_events m)) ps) by (constructor; apply Hps).
  constructor; try apply Hw; try done. by exists ps.
Qed.
End Holds.

(** ** The end of a segment *)

Lemma obl_unwrapped {A} (op : M A) : obl op -> obl (unwrapped op).
Proof. intros Ho u r m. unfold unwrapped. rewrite Ho. by destruct (op m). Qed.

Lemma write_cached_ext c f g m : (forall pg, f pg = g pg) -> write_cached c f m = write_cached c g m.
Proof.
  intros H. unfold write_cached, modify, set_page_cache. assert (E : forall l : list Page, alter f (Z.to_nat c) l = alter g (Z.to_nat c) l).
  { intros l. apply list_alter_ext; [intros; apply H|done]. }
  by rewrite E.
Qed.

(** [commit] with the registers that it writes to their page. *)
Definition commit_with (u r : list Z) : M WorkingImage :=
  (cache_idx ← unwrapped (page_for_writing (WordAddr.page_idx MACHINE_REGS)); write_cached cache_idx (regs_page u r));;
  sorted_keys ← gets (fun m => merge_sort Z.le (keys (page_states m)));
  commit_loop sorted_keys ∅.

Lemma obl_commit_with u r : obl (commit_with u r).
Proof.
  unfold commit_with. apply obl_bind; [|intros _; apply obl_bind; [done|intros l; apply obl_commit_loop]].
  apply obl_bind; [apply obl_unwrapped, obl_page_for_writing|]. intros c. obl.
Qed.

Lemma commit_eq m : commit m = commit_with (user_registers m) (machine_registers m) m.
Proof.
  unfold commit, write_registers, commit_with. generalize (WordAddr.page_idx MACHINE_REGS) as sys. intros sys. cbv zeta.
  unfold mbind, state_bind, gets. reflexivity.
Qed.

Lemma commit_with_ext u r u' r' m : (forall pg, regs_page u r pg = regs_page u' r' pg) -> commit_with u r m = commit_with u' r' m.
Proof.
  intros H. unfold commit_with. generalize (unwrapped (page_for_writing (WordAddr.page_idx MACHINE_REGS))) as op. intros op.
  unfold mbind, state_bind. destruct (op m) as [[c|e|] m1]; [|reflexivity..]. by rewrite (write_cached_ext c _ _ m1 H).
Qed.

Lemma commit_norm m : commit (norm m) = (fst (commit m), norm (snd (commit m))).
Proof.
  rewrite (commit_eq m), (commit_eq (norm m)), (commit_with_ext _ _ (user_registers m) (machine_registers m)) by apply regs_page_wrap.
  pose proof (obl_commit_with (user_registers m) (machine_registers m)) as Ho. revert Ho.
  generalize (commit_with (user_registers m) (machine_registers m)) as op. intros op Ho.
  destruct (op (norm m)) as [o m'] eqn:E. destruct (obl_norm op m o m' Ho E) as (m1 & -> & ->). reflexivity.
Qed.

Lemma unwrapped_keeps {A} P (op : M A) : keeps P op -> keeps P (unwrapped op).
Proof. intros Hk m Hm. specialize (Hk m Hm). unfold unwrapped. destruct (op m) as [[a|e|] m']; done. Qed.

Lemma write_registers_only : keeps only_pages write_registers.
Proof.
  unfold write_registers. apply keeps_bind; [apply keeps_gets|intros u]. apply keeps_bind; [apply keeps_gets|intros r]. cbv zeta.
  apply keeps_bind; [apply unwrapped_keeps, writing_only; rewrite sys_page; apply sys_is_page|intros c]. by apply keeps_modify.
Qed.

(** The image that is returned, and that of the memory, have pages only. *)
Lemma commit_dom m partial m' : inv m -> only_pages m -> commit m = (Ok partial, m') ->
  (forall p pg, partial !! p = Some pg -> is_page p) /\ only_pages m'.
Proof.
  intros Hm Ho E. destruct (write_registers_run m Hm) as (m1 & E1 & Hm1 & _).
  pose proof (write_registers_only m Ho) as Ho1. rewrite E1 in Ho1. unfold commit in E.
  rewrite (run_bind _ _ _ _ _ E1), run_gets in E. unfold keys in E.
  assert (Hf : Forall is_node (merge_sort Z.le (indexes (page_states m1)))).
  { apply Forall_forall. intros i Hi. rewrite merge_sort_Permutation in Hi. by apply (inv_nodes _ Hm1). }
  destruct (commit_loop_run _ m1 ∅ Hm1 Hf) as (partial' & m2 & E2 & _ & _ & _ & _ & _ & Hx & Hy). rewrite E2 in E. injection E as -> ->.
  assert (Hl : forall p, 0 <= p /\ 4194304 + p ∈ merge_sort Z.le (indexes (page_states m1)) /\ dirty_page m1 p -> is_page p).
  { intros p (H0 & H1 & _). rewrite Forall_forall in Hf. specialize (Hf _ H1). unfold is_node, is_page in *. lia. }
  split; intros p pg Hp.
  - rewrite Hx in Hp. destruct (decide _) as [Hd|_]; [by apply Hl|].
    pose proof (lookup_empty (M := gmap Z) (A := Page) p) as En. unfold WorkingImage in *. congruence.
  - rewrite Hy in Hp. destruct (decide _) as [Hd|_]; [by apply Hl|by apply (Ho1 p pg)].
Qed.

(** The nodes of the pages that a segment touched. *)
Lemma page_indexes_closed m i : inv m -> dirty_page m SYS ->
  closed (page_indexes m) /\ 1 ∈ page_indexes m /\ (i ∈ page_indexes m <-> sget (page_states m) i <> Unloaded).
Proof.
  intros Hm Hd. assert (Hi : forall i, i ∈ page_indexes m <-> sget (page_states m) i <> Unloaded).
  { intros j. unfold page_indexes, keys. rewrite elem_of_list_to_set. apply (states_indexes _ (inv_states _ Hm)). }
  assert (Hc : closed (page_indexes m)).
  { intros j Hj. assert (Hn : is_node j) by (apply (inv_nodes _ Hm), (states_indexes _ (inv_states _ Hm)), Hi, Hj). split; [done|].
    destruct (decide (j = 1)) as [|Hne]; [by left|right]. rewrite Hi in *. pose proof (inv_up _ Hm j ltac:(unfold is_node in Hn; lia)) as Hr.
    intros E. rewrite E in Hr. destruct (sget (page_states m) j); cbn in Hr; [done|lia|lia]. }
  split; [done|]. split; [|done]. apply (closed_anc _ (4194304 + SYS) 1).
  - intros a Ha. apply Hc, Ha.
  - apply Hi. unfold dirty_page in Hd. by rewrite Hd.
  - split; [lia|]. exists 22%nat. reflexivity.
Qed.

(** The pages of the memory, and the image that the segment started with. *)
Lemma commit_holds F m : holds F m -> exists partial m', commit m = (Ok partial, m') /\
  holds (vpages m) (reset m') /\ (forall p, vpages (reset m') p = vpages m p) /\ pages_wf (vpages m) /\
  (forall p, is_page p -> default Image.page_default (image m' !! p) = vpages m p) /\
  closed (page_indexes m') /\ 1 ∈ page_indexes m' /\
  (forall p pg, partial !! p = Some pg -> is_page p /\ pg = vpages m p /\ 4194304 + p ∈ page_indexes m') /\
  (forall p, is_page p -> partial !! p = None -> vpages m p = F p).
Proof.
  intros (Hw & Hi & Ho). destruct (commit_run (norm m) Hw) as (partial & m1 & E & Hm1 & Hc & Hv & Hr & Hd & Hp).
  pose proof (commit_norm m) as En. rewrite E in En. injection En as E1 E2. exists partial, (snd (commit m)).
  split; [rewrite E1; by rewrite <- surjective_pairing|]. destruct (page_indexes_closed m1 1 Hm1 Hd) as (Hcl & H1 & _).
  assert (Hidx : page_indexes (snd (commit m)) = page_indexes m1) by by rewrite E2. rewrite Hidx.
  assert (Him : image (snd (commit m)) = image m1) by by rewrite E2. rewrite Him.
  destruct (reset_run m1 Hm1 Hc) as [Hir Hvr].
  assert (Hvm : forall p, vpages m1 p = vpages m p) by (intros p; by rewrite Hv, vpages_norm).
  destruct (commit_dom (norm m) partial m1 Hw Ho E) as [Hdom Ho1].
  split; [|split; [|split; [|split; [|split; [done|split; [done|split]]]]]].
  - split; [unfold winv; by rewrite <- reset_norm, <- E2|]. split; [|unfold only_pages; cbn [reset image]; by rewrite Him]. intros p Hpp. cbn [reset image]. rewrite Him, <- Hvm. by apply Hc.
  - intros p. rewrite <- vpages_norm, <- reset_norm, <- E2, Hvr. apply Hvm.
  - intros p. rewrite <- vpages_norm. by apply vpages_wf.
  - intros p Hpp. rewrite <- Hvm. by apply Hc.
  - intros p pg Hpg. pose proof (Hdom p pg Hpg) as Hpp. split; [done|]. rewrite Hp in Hpg by done.
    destruct (decide _) as [Hx|]; [|done]. injection Hpg as <-. split; [apply vpages_norm|].
    apply (page_indexes_closed m1 (4194304 + p) Hm1 Hd). unfold dirty_page in Hx. by rewrite Hx.
  - intros p Hpp Hn. rewrite Hp in Hn by done. destruct (decide _) as [|Hx]; [done|]. rewrite <- vpages_norm.
    assert (Hne : p <> SYS) by (intros ->; done). unfold vpages. rewrite decide_False, decide_True by done.
    destruct (inv_cache _ Hw) as [ps Hps]. rewrite (cache_clean _ _ Hps p Hpp); [by apply Hi|].
    intros Ed. apply Hx. unfold dirty_page. specialize (Hr (4194304 + p)). rewrite Ed in Hr. destruct (sget (page_states m1) _); cbn in Hr; [lia|lia|done].
Qed.
