(* ===== verification/Executor.v ===== *)
(** * The executor

    [Executor] runs a guest segment by segment: it is the [Risc0Context] of the machine,
    on a paged memory, with the host's syscall handler, optional trace callbacks, cycle
    and block counts; it splits the run when the blocks of a segment reach a threshold,
    and reports each segment as an update from which the segment can be built.
    [Segment] replays a segment from its records.

    A syscall handler is a class: any code that can reach the executor only through
    [SyscallContext].  Trace callbacks are shared objects behind a list of references.
    Logging, and the ring of recent instructions that only logging shows, are left out. *)
From S2P Require Export R0vm P2Ecall BigInt BlockTracker Claim.
Export Seal(TerminateState, mkTerminate, HighLowU16, EcallMetric, mkMetric) Povw(PovwJobId, PovwNonce) Blocks(BlockCollection, BlockTracker).
Open Scope word_scope.
Open Scope Z_scope.

#[export] Instance EcallKind_eq_dec : EqDecision EcallKind.
Proof. solve_decision. Defined.
#[export] Instance CycleState_eq_dec : EqDecision CycleState.
Proof. intros x y. destruct x, y; try (left; reflexivity); right; discriminate. Defined.

(** ** The host's side *)

Module Host.
(* src/risc0/risc0/circuit/rv32im/src/execute/syscall.rs:34-65 SyscallContext *)
Class SyscallContext (C : Type) := {
  peek_register : Z -> state C error Z;
  peek_u32 : Z -> state C error Z;
  peek_u8 : Z -> state C error Z;
  peek_region : Z -> Z -> state C error (list Z);
  (* a reader is its position and its end; a read takes the size of the buffer, and
     whether it can be read by words *)
  read_region : Z -> Z -> state C error (Z * Z);
  reader_read : bool -> Z -> Z * Z -> state C error (list Z * (Z * Z));
  peek_page : Z -> state C error (list Z);
  get_cycle : C -> Z;
  get_pc : C -> Z;
}.
End Host.
Export Host(SyscallContext).

(** A handler with state [H] sees the contents of the buffer it is given, and returns
    them as it leaves them. *)
(* src/risc0/risc0/circuit/rv32im/src/execute/syscall.rs:25-31 Syscall *)
Class Syscall (H : Type) := {
  sys_host_read : forall {C} `{SyscallContext C}, Z -> list Z -> state (H * C) error (list Z * Z);
  sys_host_write : forall {C} `{SyscallContext C}, Z -> list Z -> state (H * C) error Z;
}.

(* src/risc0/risc0/circuit/rv32im/src/trace.rs:27-68 TraceEvent *)
Inductive TraceEvent :=
  | InstructionStart (cycle pc insn : Z)
  | RegisterSet (idx value : Z)
  | MemorySet (addr : Z) (region : list Z)
  | TracePageIn (cycles : Z)
  | TracePageOut (cycles : Z).

(** The callback behind a reference, on the state that all callbacks share. *)
(* src/risc0/risc0/circuit/rv32im/src/trace.rs:71-73 TraceCallback *)
Class TraceCallback (T : Type) := { trace_callback : Z -> TraceEvent -> state T error unit }.

Module Exec.

(* source: src/risc0/risc0/circuit/rv32im/src/execute/executor.rs *)

(** ** Limits *)

(* L209-217 CycleLimit *)
Inductive CycleLimit := Hard (cycles : Z) | Soft (cycles : Z) | NoLimit.

(* L132-144 ExecutionLimit *)
Record ExecutionLimit := mkLimit { segment_po2 : Z; max_insn_cycles_opt : option Z; session : CycleLimit }.

(* src/risc0/risc0/circuit/rv32im/src/execute/mod.rs:45-45 DEFAULT_SEGMENT_LIMIT_PO2 *)
Definition DEFAULT_SEGMENT_LIMIT_PO2 : Z := 20.

(* L153-157 ExecutionLimit::DEFAULT *)
Definition LIMIT_DEFAULT : ExecutionLimit := mkLimit DEFAULT_SEGMENT_LIMIT_PO2 None NoLimit.
(* L159-164 ExecutionLimit::with_segment_po2 *)
Definition with_segment_po2 (po2 : Z) (self : ExecutionLimit) := mkLimit po2 (max_insn_cycles_opt self) (session self).
(* L166-171 ExecutionLimit::with_max_insn_cycles *)
Definition with_max_insn_cycles (max : Z) (self : ExecutionLimit) := mkLimit (segment_po2 self) (Some max) (session self).
(* L173-175 ExecutionLimit::with_session_limit *)
Definition with_session_limit (limit : CycleLimit) (self : ExecutionLimit) := mkLimit (segment_po2 self) (max_insn_cycles_opt self) limit.
(* L177-182 ExecutionLimit::with_soft_session_limit *)
Definition with_soft_session_limit (cycles : Z) (self : ExecutionLimit) := with_session_limit (Soft cycles) self.
(* L184-189 ExecutionLimit::with_hard_session_limit *)
Definition with_hard_session_limit (cycles : Z) (self : ExecutionLimit) := with_session_limit (Hard cycles) self.

(** The shift amount is taken modulo the width. *)
(* L191-193 ExecutionLimit::segment_limit *)
Definition segment_limit (self : ExecutionLimit) : Z := 1 .<< (wrap 32 (segment_po2 self) mod 32).
(* L199-205 ExecutionLimit::max_insn_cycles *)
Definition max_insn_cycles (self : ExecutionLimit) : Z :=
  default (if 15 <=? segment_po2 self then Seal.MAX_INSN_CYCLES else Seal.MAX_INSN_CYCLES_LOWER_PO2) (max_insn_cycles_opt self).
(* L195-197 ExecutionLimit::segment_threshold *)
Definition segment_threshold_of (self : ExecutionLimit) : Z := segment_limit self -32 wrap 32 (max_insn_cycles self).

(** [u32::next_power_of_two]. *)
Definition next_power_of_two (n : Z) : Z := if n <=? 1 then 1 else wrap 32 (2 ^ Z.log2_up n).

(** ** Segments *)

(* L116-121 SessionCycles *)
Record SessionCycles := mkCycles { total : Z; user : Z; paging : Z; reserved : Z }.

(* L245-283 SegmentUpdate *)
Record SegmentUpdate := mkUpdate {
  update_partial_image : Pager.WorkingImage; access_page_indexes : gset Z;
  upd_read_record : list (list Z); upd_write_record : list Z;
  upd_input_digest : Digest; upd_output_digest : option Digest; upd_terminate_state : option TerminateState;
  upd_user_cycles : Z; pager_cycles : Z; upd_insn_counter : Z; upd_segment_threshold : Z; upd_po2 : Z;
  index : Z; upd_povw_nonce : option PovwNonce; upd_blocks : BlockCollection }.

(* src/risc0/risc0/circuit/rv32im/src/execute/segment.rs:36-77 Segment *)
Record Segment := mkSegment {
  partial_image : Image.MemoryImage; seg_read_record : list (list Z); seg_write_record : list Z;
  seg_input_digest : Digest; seg_output_digest : option Digest; seg_terminate_state : option TerminateState;
  suspend_cycle : Z; paging_cycles : Z; segment_threshold : Z; po2 : Z; seg_index : Z;
  seg_povw_nonce : option PovwNonce; seg_insn_counter : Z; seg_blocks : BlockCollection }.

(** The [anyhow] errors of the executor itself, next to those of the context. *)
Inductive anyhow :=
  | Context (e : R0ctx.error)
  | Callback (e : R0ctx.error)
  | SegmentLimitTooSmall (limit pc : Z)
  | SegmentCounterOverflow.

(* L221-236 ExecutionError *)
Inductive ExecutionError :=
  | CycleLimitExceeded (limit cycle : Z)
  | ExecutionFailed (error : R0ctx.error) (pc : Z) (update : option SegmentUpdate)
  | Other (error : anyhow).

Section Updates.
Context `{ImageHash}.

(* L293-298 SegmentUpdate::apply_to *)
Definition apply_to (self : SegmentUpdate) : state Image.MemoryImage Image.error unit :=
  Image.run_all (fun idx => Image.set_page idx (default Image.page_default (update_partial_image self !! idx)))
    (Pager.sorted (dom (update_partial_image self))).

(* L306-311 SegmentUpdate::compute_partial_image *)
Definition compute_partial_image (self : SegmentUpdate) : state Image.MemoryImage Image.error Image.MemoryImage :=
  Pager.compute_partial_image (access_page_indexes self).

(* L317-334 SegmentUpdate::into_segment *)
Definition into_segment (self : SegmentUpdate) (partial_image : Image.MemoryImage) : Segment :=
  mkSegment partial_image (upd_read_record self) (upd_write_record self) (upd_input_digest self) (upd_output_digest self)
    (upd_terminate_state self) (upd_user_cycles self) (pager_cycles self) (upd_segment_threshold self) (upd_po2 self)
    (index self) (upd_povw_nonce self) (upd_insn_counter self) (upd_blocks self).

(* L338-345 SegmentUpdate::apply_into_segment *)
Definition apply_into_segment (self : SegmentUpdate) : state Image.MemoryImage Image.error Segment :=
  partial_image ← compute_partial_image self;
  apply_to self;;
  mret (into_segment self partial_image).
End Updates.

(** ** The executor's state *)

Section Executor.
Context {H T : Type} `{Syscall H, TraceCallback T, ImageHash, BlockRows, Malachite, ByteOrder}.

(* L50-75 Executor *)
Record Executor := mkExecutor {
  pc : Z; user_pc : Z; machine_mode : Z; user_cycles : Z; initial_image : Image.MemoryImage; pager :
  Pager.PagedMemory; terminate_state : option TerminateState; read_record : list (list Z);
  write_record : list Z; syscall_handler : H; input_digest : Digest; output_digest : option Digest;
  trace : list Z; tracers : T; cycles : SessionCycles; ecall_metrics : EcallKind -> EcallMetric;
  povw_job_id : option PovwJobId; circuit_version : Z; segment_counter : Z; insn_counter : Z;
  block_tracker : BlockTracker }.

Definition set_pc f e := mkExecutor (f (pc e)) (user_pc e) (machine_mode e) (user_cycles e) (initial_image e) (pager e) (terminate_state e) (read_record e) (write_record e) (syscall_handler e) (input_digest e) (output_digest e) (trace e) (tracers e) (cycles e) (ecall_metrics e) (povw_job_id e) (circuit_version e) (segment_counter e) (insn_counter e) (block_tracker e).
Definition set_user_pc f e := mkExecutor (pc e) (f (user_pc e)) (machine_mode e) (user_cycles e) (initial_image e) (pager e) (terminate_state e) (read_record e) (write_record e) (syscall_handler e) (input_digest e) (output_digest e) (trace e) (tracers e) (cycles e) (ecall_metrics e) (povw_job_id e) (circuit_version e) (segment_counter e) (insn_counter e) (block_tracker e).
Definition set_machine_mode f e := mkExecutor (pc e) (user_pc e) (f (machine_mode e)) (user_cycles e) (initial_image e) (pager e) (terminate_state e) (read_record e) (write_record e) (syscall_handler e) (input_digest e) (output_digest e) (trace e) (tracers e) (cycles e) (ecall_metrics e) (povw_job_id e) (circuit_version e) (segment_counter e) (insn_counter e) (block_tracker e).
Definition set_user_cycles f e := mkExecutor (pc e) (user_pc e) (machine_mode e) (f (user_cycles e)) (initial_image e) (pager e) (terminate_state e) (read_record e) (write_record e) (syscall_handler e) (input_digest e) (output_digest e) (trace e) (tracers e) (cycles e) (ecall_metrics e) (povw_job_id e) (circuit_version e) (segment_counter e) (insn_counter e) (block_tracker e).
Definition set_pager f e := mkExecutor (pc e) (user_pc e) (machine_mode e) (user_cycles e) (initial_image e) (f (pager e)) (terminate_state e) (read_record e) (write_record e) (syscall_handler e) (input_digest e) (output_digest e) (trace e) (tracers e) (cycles e) (ecall_metrics e) (povw_job_id e) (circuit_version e) (segment_counter e) (insn_counter e) (block_tracker e).
Definition set_terminate_state f e := mkExecutor (pc e) (user_pc e) (machine_mode e) (user_cycles e) (initial_image e) (pager e) (f (terminate_state e)) (read_record e) (write_record e) (syscall_handler e) (input_digest e) (output_digest e) (trace e) (tracers e) (cycles e) (ecall_metrics e) (povw_job_id e) (circuit_version e) (segment_counter e) (insn_counter e) (block_tracker e).
Definition set_read_record f e := mkExecutor (pc e) (user_pc e) (machine_mode e) (user_cycles e) (initial_image e) (pager e) (terminate_state e) (f (read_record e)) (write_record e) (syscall_handler e) (input_digest e) (output_digest e) (trace e) (tracers e) (cycles e) (ecall_metrics e) (povw_job_id e) (circuit_version e) (segment_counter e) (insn_counter e) (block_tracker e).
Definition set_write_record f e := mkExecutor (pc e) (user_pc e) (machine_mode e) (user_cycles e) (initial_image e) (pager e) (terminate_state e) (read_record e) (f (write_record e)) (syscall_handler e) (input_digest e) (output_digest e) (trace e) (tracers e) (cycles e) (ecall_metrics e) (povw_job_id e) (circuit_version e) (segment_counter e) (insn_counter e) (block_tracker e).
Definition set_syscall_handler f e := mkExecutor (pc e) (user_pc e) (machine_mode e) (user_cycles e) (initial_image e) (pager e) (terminate_state e) (read_record e) (write_record e) (f (syscall_handler e)) (input_digest e) (output_digest e) (trace e) (tracers e) (cycles e) (ecall_metrics e) (povw_job_id e) (circuit_version e) (segment_counter e) (insn_counter e) (block_tracker e).
Definition set_output_digest f e := mkExecutor (pc e) (user_pc e) (machine_mode e) (user_cycles e) (initial_image e) (pager e) (terminate_state e) (read_record e) (write_record e) (syscall_handler e) (input_digest e) (f (output_digest e)) (trace e) (tracers e) (cycles e) (ecall_metrics e) (povw_job_id e) (circuit_version e) (segment_counter e) (insn_counter e) (block_tracker e).
Definition set_tracers f e := mkExecutor (pc e) (user_pc e) (machine_mode e) (user_cycles e) (initial_image e) (pager e) (terminate_state e) (read_record e) (write_record e) (syscall_handler e) (input_digest e) (output_digest e) (trace e) (f (tracers e)) (cycles e) (ecall_metrics e) (povw_job_id e) (circuit_version e) (segment_counter e) (insn_counter e) (block_tracker e).
Definition set_cycles f e := mkExecutor (pc e) (user_pc e) (machine_mode e) (user_cycles e) (initial_image e) (pager e) (terminate_state e) (read_record e) (write_record e) (syscall_handler e) (input_digest e) (output_digest e) (trace e) (tracers e) (f (cycles e)) (ecall_metrics e) (povw_job_id e) (circuit_version e) (segment_counter e) (insn_counter e) (block_tracker e).
Definition set_ecall_metrics f e := mkExecutor (pc e) (user_pc e) (machine_mode e) (user_cycles e) (initial_image e) (pager e) (terminate_state e) (read_record e) (write_record e) (syscall_handler e) (input_digest e) (output_digest e) (trace e) (tracers e) (cycles e) (f (ecall_metrics e)) (povw_job_id e) (circuit_version e) (segment_counter e) (insn_counter e) (block_tracker e).
Definition set_segment_counter f e := mkExecutor (pc e) (user_pc e) (machine_mode e) (user_cycles e) (initial_image e) (pager e) (terminate_state e) (read_record e) (write_record e) (syscall_handler e) (input_digest e) (output_digest e) (trace e) (tracers e) (cycles e) (ecall_metrics e) (povw_job_id e) (circuit_version e) (f (segment_counter e)) (insn_counter e) (block_tracker e).
Definition set_insn_counter f e := mkExecutor (pc e) (user_pc e) (machine_mode e) (user_cycles e) (initial_image e) (pager e) (terminate_state e) (read_record e) (write_record e) (syscall_handler e) (input_digest e) (output_digest e) (trace e) (tracers e) (cycles e) (ecall_metrics e) (povw_job_id e) (circuit_version e) (segment_counter e) (f (insn_counter e)) (block_tracker e).
Definition set_block_tracker f e := mkExecutor (pc e) (user_pc e) (machine_mode e) (user_cycles e) (initial_image e) (pager e) (terminate_state e) (read_record e) (write_record e) (syscall_handler e) (input_digest e) (output_digest e) (trace e) (tracers e) (cycles e) (ecall_metrics e) (povw_job_id e) (circuit_version e) (segment_counter e) (insn_counter e) (f (block_tracker e)).

Abbreviation M := (state Executor error).

Definition cycles_zero : SessionCycles := mkCycles 0 0 0 0.

(** [new_inner], from the parts of the executor that [reset] keeps. *)
(* L368-399 Executor::new_inner *)
Definition new_inner (image : Image.MemoryImage) (syscall_handler : H) (input_digest : option Digest) (trace : list Z) (tracers : T)
    (povw_job_id : option PovwJobId) (circuit_version : Z) : outcome PagerError Executor :=
  pager ← Pager.paged_new image (match trace with [] => false | _ => true end);
  Ok (mkExecutor 0 0 0 0 image pager None [] [] syscall_handler (default Merkle.ZERO input_digest) None trace tracers
        cycles_zero (fun _ => mkMetric 0 0) povw_job_id circuit_version 0 0 Blocks.tracker_default).
(* L349-365 Executor::new *)
Definition new := new_inner.

(** ** The executor as a context *)

Definition on_pager {A} (m : Pager.M A) : M A := fun e =>
  let '(o, p) := m (pager e) in
  (match o with Ok a => Ok a | Err er => Err (ErrPager er) | Panic => Panic end, set_pager (fun _ => p) e).

(* L665-671 Executor::inc_user_cycles *)
Definition inc_user_cycles (count : Z) (ecall : option EcallKind) (e : Executor) : Executor :=
  let e := set_cycles (fun c => mkCycles (total c) (add64 (user c) count) (paging c) (reserved c)) e in
  let e := set_user_cycles (fun c => c +32 wrap 32 count) e in
  match ecall with
  | Some kind => set_ecall_metrics (fun m k => if decide (k = kind) then mkMetric (Seal.count (m k)) (add64 (Seal.cycles (m k)) count) else m k) e
  | None => e
  end.

Definition on_tracers {A} (m : state T error A) : M A := fun e => let '(o, t) := m (tracers e) in (o, set_tracers (fun _ => t) e).

(** [for] over the references of the callbacks. *)
Fixpoint call_all (refs : list Z) (event : TraceEvent) : state T error unit :=
  match refs with
  | [] => mret tt
  | r :: refs => trace_callback r event;; call_all refs event
  end.

(* L678-683 Executor::trace *)
Definition trace_event (event : TraceEvent) : M unit := refs ← gets trace; on_tracers (call_all refs event).

(* L971-980 TraceEvent::from *)
Definition of_page_event (event : Pager.PageTraceEvent) : TraceEvent :=
  match event with Pager.PageIn cycles => TracePageIn cycles | Pager.PageOut cycles => TracePageOut cycles end.

Fixpoint trace_events (refs : list Z) (events : list Pager.PageTraceEvent) : state T error unit :=
  match events with
  | [] => mret tt
  | event :: events => call_all refs (of_page_event event);; trace_events refs events
  end.

(* L686-695 Executor::trace_pager *)
Definition trace_pager : M unit :=
  refs ← gets trace;
  events ← gets (fun e => Pager.trace_events (pager e));
  on_tracers (trace_events refs events);;
  modify (set_pager Pager.clear_trace_events).

Definition is_tracing (e : Executor) : bool := match trace e with [] => false | _ => true end.
Definition if_tracing (m : M unit) : M unit := b ← gets is_tracing; if (b : bool) then m else mret tt.

(* L796-803 Executor::load_u32 *)
Definition load_u32 (op : LoadOp) (addr : Z) : M Z :=
  on_pager (match op with Peek => Pager.peek addr | Load | Record => Pager.load addr end).
(* L806-810 Executor::load_register *)
Definition load_register (_op : LoadOp) (base idx : Z) : M Z := on_pager (fun m => (Pager.load_register base idx m, m)).

(** [u32::to_be_bytes]. *)
Definition to_be_bytes (word : Z) : list Z := rev (to_le_bytes word).

(* L813-826 Executor::store_u32 *)
Definition store_u32 (addr word : Z) : M unit :=
  if_tracing (trace_event (MemorySet (WordAddr.baddr addr) (to_be_bytes word)));;
  on_pager (Pager.store addr word).
(* L829-839 Executor::store_register *)
Definition store_register (base idx word : Z) : M unit :=
  if_tracing (trace_event (MemorySet (WordAddr.baddr (WordAddr.add_usize base idx)) (to_be_bytes word)));;
  on_pager (Pager.store_register base idx word).

(** The stores of the words of the input digest. *)
Fixpoint store_input (i : Z) (words : list Z) : M unit :=
  match words with
  | [] => mret tt
  | word :: words => store_u32 (WordAddr.add_usize (ByteAddr.waddr GLOBAL_INPUT_ADDR) i) word;; store_input (i + 1) words
  end.
(* L740-746 Executor::resume *)
Definition resume : M unit := input_words ← gets (fun e => as_words (input_digest e)); store_input 0 input_words.

(* L749-762 Executor::on_insn_start *)
Definition on_insn_start (kind : InsnKind) (decoded : DecodedInstruction) : M unit :=
  modify (fun e => set_block_tracker (Blocks.track_pc (pc e)) e);;
  e ← get;
  if_tracing (trace_event (InstructionStart (user (cycles e)) (pc e) (insn decoded))).

(* L765-773 Executor::on_insn_end *)
Definition on_insn_end (kind : InsnKind) : M unit :=
  modify (set_block_tracker (Blocks.track_instr kind));;
  modify (inc_user_cycles 1 None);;
  if_tracing trace_pager.

(* L775-793 Executor::on_ecall_cycle *)
Definition on_ecall_cycle (cur _next : CycleState) (_s0 _s1 _s2 : Z) (kind : EcallKind) : M unit :=
  (if decide (cur = MachineEcall)
   then modify (set_ecall_metrics (fun m k => if decide (k = kind) then mkMetric (add64 (Seal.count (m k)) 1) (Seal.cycles (m k)) else m k))
   else mret tt);;
  modify (inc_user_cycles 1 (Some kind));;
  if_tracing trace_pager.


(** Whether a byte buffer of the host can be read by words depends on the allocator:
    the instance fixes it to [castable] (to [castable'] for the buffer of a reader
    that is drained). *)
Context (castable castable' : bool).

(** The context without its two accelerated ecalls, which use it. *)
Definition context (on_terminate : Z -> Z -> M unit) (host_read : Z -> Z -> M (list Z * Z)) (host_write : Z -> list Z -> M Z)
    (ecall_bigint ecall_poseidon2 : M unit) : Risc0Context Executor := {|
  Ctx.circuit_version := circuit_version;
  Ctx.get_pc := pc;
  Ctx.set_pc := fun addr => set_pc (fun _ => addr);
  Ctx.set_user_pc := fun addr => set_user_pc (fun _ => addr);
  Ctx.get_machine_mode := machine_mode;
  Ctx.set_machine_mode := fun mode => set_machine_mode (fun _ => mode);
  Ctx.on_insn_start := on_insn_start;
  Ctx.on_insn_end := on_insn_end;
  Ctx.load_u32 := load_u32;
  Ctx.store_u32 := store_u32;
  Ctx.load_register := load_register;
  Ctx.store_register := store_register;
  Ctx.suspend := mret tt;
  Ctx.resume := resume;
  Ctx.trap_rewind := id;
  Ctx.on_trap_cause := fun _ => id;
  Ctx.host_read := host_read;
  Ctx.host_write := host_write;
  Ctx.on_terminate := on_terminate;
  Ctx.on_ecall_cycle := on_ecall_cycle;
  Ctx.on_sha2_cycle := fun _ _ => inc_user_cycles 1 (Some EcSha2);
  Ctx.on_poseidon2_cycle := fun _ _ => inc_user_cycles 1 (Some EcPoseidon2);
  Ctx.ecall_bigint := ecall_bigint;
  Ctx.ecall_poseidon2 := ecall_poseidon2;
  Ctx.on_ecall_read_end := fun read_bytes read_words => set_block_tracker (Blocks.track_ecall_read read_bytes read_words);
  Ctx.on_ecall_write_end := set_block_tracker Blocks.track_ecall_write;
  Ctx.on_user_ecall := set_block_tracker Blocks.track_user_ecall;
  Ctx.on_trap := fun e => set_block_tracker Blocks.track_trap (inc_user_cycles 1 None e) |}.

Definition base_context : Risc0Context Executor :=
  context (fun _ _ => panic) (fun _ _ => panic) (fun _ _ => panic) panic panic.
#[local] Existing Instance base_context.

(* L841-857 Executor::on_terminate *)
Definition on_terminate (a0 a1 : Z) : M unit :=
  modify (set_terminate_state (fun _ => Some (mkTerminate (Seal.highlow_from a0) (Seal.highlow_from a1))));;
  region ← load_region castable Peek GLOBAL_OUTPUT_ADDR (Z.of_nat DIGEST_BYTES);
  output ← lift (digest_from_bytes region);
  modify (set_output_digest (fun _ => Some output));;
  modify (set_block_tracker Blocks.track_ecall_terminate).

(* L882-891 Executor::ecall_bigint *)
Definition ecall_bigint : M unit :=
  verify_program_size ← BigInt.ecall_execute castable castable';
  modify (set_block_tracker (Blocks.track_ecall_bigint verify_program_size));;
  modify (inc_user_cycles (verify_program_size + 1) (Some EcBigInt)).

(** The permutation on canonical residues, through the Montgomery form. *)
Definition p2_mix_cells (inner : list Z) : list Z := map Elem.as_u32 (Poseidon2.poseidon2_mix (map Elem.new inner)).

(* L898-908 Executor::ecall_poseidon2, the closure *)
Definition p2_mix (l : P2Ecall.locals) : M P2Ecall.locals :=
  modify (inc_user_cycles (Z.of_nat (Poseidon2.ROUNDS_HALF_FULL * 2 + 1)) (Some EcPoseidon2));;
  mret (P2Ecall.set_inner p2_mix_cells (fst l), snd l).

(* L893-909 Executor::ecall_poseidon2 *)
Definition ecall_poseidon2 : M unit :=
  p2 ← P2Ecall.load_ecall;
  modify (set_block_tracker (Blocks.track_ecall_poseidon2 (p2_count p2)));;
  _ ← P2Ecall.rest_with_mix p2_mix Decode p2;
  mret tt.

(* L930-935 Executor::peek_register *)
Definition peek_register (idx : Z) : M Z :=
  if REG_MAX <=? idx then throw (ErrInvalidRegister idx)
  else load_register Peek (ByteAddr.waddr USER_REGS_ADDR) idx.

(* src/risc0/risc0/circuit/rv32im/src/execute/r0vm.rs:137-146 Risc0Context::read_region *)
Definition read_region (addr size : Z) : M (Z * Z) :=
  end_ ← lift (ok_or ErrRegionEnd (ByteAddr.checked_add addr (wrap 32 size)));
  mret (addr, end_).

(* src/risc0/risc0/circuit/rv32im/src/execute/r0vm.rs:108-135 Reader::read *)
Definition read (castable : bool) (len : Z) (reader : Z * Z) : M (list Z * (Z * Z)) :=
  let '(pos, end_) := reader in
  let size := Z.min (ByteAddr.saturating_add pos (wrap 32 len)) end_ -32 pos in
  bytes ← R0ctx.reader_read castable Peek pos size;
  mret (bytes, (ByteAddr.add_usize pos size, end_)).

(* L929-968 SyscallContext for Executor *)
#[local] Instance executor_syscalls : SyscallContext Executor := {|
  Host.peek_register := peek_register;
  Host.peek_u32 := fun addr => load_u32 Peek (ByteAddr.waddr addr);
  Host.peek_u8 := load_u8 Peek;
  Host.peek_region := fun addr size => load_region castable Peek addr size;
  Host.read_region := read_region;
  Host.reader_read := read;
  Host.peek_page := fun page_idx => on_pager (Pager.peek_page page_idx);
  Host.get_cycle := fun e => user (cycles e);
  Host.get_pc := user_pc |}.

(** The handler runs on the executor that holds it; its own state is behind a pointer
    of which the executor has a copy. *)
Definition on_handler {A} (m : state (H * Executor) error A) : M A := fun e =>
  let '(o, (h, e)) := m (syscall_handler e, e) in (o, set_syscall_handler (fun _ => h) e).

(* L859-865 Executor::host_read *)
Definition host_read (fd len : Z) : M (list Z * Z) :=
  '(buf, rlen) ← on_handler (sys_host_read fd (replicate (Z.to_nat len) 0));
  lift (assert_ (rlen <=? Z.of_nat (length buf)));;
  modify (set_read_record (.++ [take (Z.to_nat rlen) buf]));;
  mret (buf, rlen).

(* L867-872 Executor::host_write *)
Definition host_write (fd : Z) (buf : list Z) : M Z :=
  rlen ← on_handler (sys_host_write fd buf);
  modify (set_write_record (.++ [rlen]));;
  mret rlen.

(* L698-927 Risc0Context for Executor *)
Definition executor_context : Risc0Context Executor :=
  context on_terminate host_read host_write ecall_bigint ecall_poseidon2.
#[local] Existing Instance executor_context.

(** ** Running by segments *)

(* L657-663 Executor::get_blocks *)
Definition get_blocks (e : Executor) : BlockCollection :=
  Blocks.get_blocks (user_cycles e) (Pager.touched_pages (pager e)) (block_tracker e).

(** The rows that the blocks take, cast to 32 bits. *)
Definition rows (blocks : BlockCollection) : Z := wrap 32 (Blocks.div_ceil (Blocks.row_points blocks) Blocks.POINTS_PER_ROW).

(** With the counter of instructions where [get_blocks] has the cycles. *)
(* L638-643 Executor::segment_cycles *)
Definition segment_cycles (e : Executor) : Z :=
  rows (Blocks.get_blocks (insn_counter e) (Pager.touched_pages (pager e)) (block_tracker e)).
(* L645-655 Executor::should_split *)
Definition should_split (threshold : Z) (e : Executor) : bool := threshold <? rows (get_blocks e).

(* L673-675 Executor::povw_nonce *)
Definition povw_nonce (segment_index : Z) (e : Executor) : option PovwNonce :=
  (fun job => Povw.nonce job segment_index) <$> povw_job_id e.

(** Computations with the executor's own errors. *)
Abbreviation X := (state Executor ExecutionError).

Definition from_context {A} (m : M A) : X A := fun e =>
  let '(o, e) := m e in (match o with Ok a => Ok a | Err er => Err (Other (Context er)) | Panic => Panic end, e).

(** [commit] does not fail. *)
Definition commit : X Pager.WorkingImage := fun e =>
  let '(o, p) := Pager.commit (pager e) in (match o with Ok im => Ok im | _ => Panic end, set_pager (fun _ => p) e).

Definition update_of (partial_image : Pager.WorkingImage) (segment_po2 segment_threshold index : Z) (e : Executor) : SegmentUpdate :=
  mkUpdate partial_image (Pager.page_indexes (pager e)) (read_record e) (write_record e) (input_digest e) (output_digest e)
    (terminate_state e) (user_cycles e) (Pager.cycles (pager e)) (insn_counter e) segment_threshold (wrap 32 segment_po2)
    index (povw_nonce index e) (get_blocks e).

(* L603-622 Executor::dump_segment *)
Definition dump_segment (po2 segment_threshold index : Z) : X SegmentUpdate :=
  partial_image ← commit;
  gets (update_of partial_image po2 segment_threshold index).

(** The end of a segment: its statistics are cleared. *)
(* L554-557 Executor::split_segment *)
Definition reset_segment (e : Executor) : Executor :=
  set_block_tracker (fun _ => Blocks.tracker_default) (set_pager Pager.reset (set_insn_counter (fun _ => 0) (set_user_cycles (fun _ => 0) e))).

(* L506-560 Executor::split_segment *)
Definition split_segment (segment_po2 segment_threshold : Z) : X SegmentUpdate :=
  partial_image ← commit;
  update ← gets (fun e => update_of partial_image segment_po2 segment_threshold (segment_counter e) e);
  modify (set_read_record (fun _ => []));;
  modify (set_write_record (fun _ => []));;
  counter ← gets segment_counter;
  if MAX32 <=? counter then throw (Other SegmentCounterOverflow) else
  modify (set_segment_counter (fun _ => counter + 1));;
  modify (fun e => set_cycles (fun c =>
    mkCycles (add64 (total c) (wrap 64 (Z.shiftl 1 (segment_po2 mod 64)))) (user c)
      (add64 (paging c) (Pager.cycles (pager e))) (reserved c)) e);;
  modify reset_segment;;
  mret update.

(** What the loop does before an instruction. *)
Inductive decision := Break | Fail (er : ExecutionError) | Step.

(* L422-458 Executor::run_segment, the checks of the loop *)
Definition check_limits (limit : ExecutionLimit) (e : Executor) : decision :=
  match terminate_state e with Some _ => Break | None =>
  match (match session limit with
         | Hard max_cycles => if max_cycles <=? user (cycles e) then Some (Fail (CycleLimitExceeded max_cycles (user (cycles e)))) else None
         | Soft max_cycles => if max_cycles <=? user (cycles e) then Some Break else None
         | NoLimit => None end) with
  | Some d => d
  | None =>
      if should_split (segment_threshold_of limit) e then
        if segment_limit limit <? segment_cycles e then Fail (Other (SegmentLimitTooSmall (segment_limit limit) (pc e))) else Break
      else Step
  end end.

(** One step of the machine; on an error the segment up to it is reported. *)
(* L461-475 Executor::run_segment, the step of the loop *)
Definition run_step (limit : ExecutionLimit) : X unit := fun e =>
  match Machine.step castable e with
  | (Ok _, e) => (Ok tt, set_insn_counter (fun c => c +32 1) e)
  | (Err error, e) =>
      (update ← dump_segment (segment_po2 limit) 0 (segment_counter e);
       throw (ExecutionFailed error (pc e) (Some update))) e
  | (Panic, e) => (Panic, e)
  end.

(** [false] when the fuel runs out. *)
(* L421-476 Executor::run_segment, the loop *)
Fixpoint run_loop (fuel : nat) (limit : ExecutionLimit) : X bool :=
  match fuel with
  | O => mret false
  | S fuel =>
      d ← gets (check_limits limit);
      match d with
      | Break => mret true
      | Fail er => throw er
      | Step => run_step limit;; run_loop fuel limit
      end
  end.

(** The segment is closed. *)
(* L478-485 Executor::run_segment, after the loop *)
Definition finish_segment (limit : ExecutionLimit) : X SegmentUpdate :=
  from_context Machine.suspend;;
  segment_cycles ← gets segment_cycles;
  let cycles := next_power_of_two segment_cycles in
  let po2 := Merkle.log2_ceil cycles in
  split_segment po2 (Z.min segment_cycles (segment_threshold_of limit)).

Definition no_segment (limit : ExecutionLimit) (e : Executor) : bool :=
  match terminate_state e with Some _ => true | None =>
  match session limit with Soft soft_limit => soft_limit <=? user (cycles e) | _ => false end end.

(** [None] when the fuel runs out. *)
(* L405-486 Executor::run_segment *)
Definition run_segment (fuel : nat) (limit : ExecutionLimit) : X (option (option SegmentUpdate)) :=
  stop ← gets (no_segment limit);
  if (stop : bool) then mret (Some None) else
  from_context Machine.resume;;
  ended ← run_loop fuel limit;
  if (ended : bool) then update ← finish_segment limit; mret (Some (Some update)) else mret None.

(* L83-97 ExecutorResult *)
Record ExecutorResult := mkResult {
  segments : Z; pre_image : Image.MemoryImage; post_image : Image.MemoryImage; result_user_cycles : Z; total_cycles : Z;
  result_paging_cycles : Z; reserved_cycles : Z; result_ecall_metrics : EcallKind -> EcallMetric; output : option Digest;
  result_terminate_state : option TerminateState; result_po2 : Z }.

(** The images' digests are brought up to date. *)
(* L103-112 ExecutorResult::claim *)
Definition claim (self : ExecutorResult) : outcome Image.error Seal.Claim :=
  match Image.image_id (pre_image self), Image.image_id (post_image self) with
  | (Ok pre_state, _), (Ok post_state, _) =>
      Ok (Seal.mkClaim (result_po2 self) pre_state post_state (output self) (result_terminate_state self) Povw.ZERO)
  | _, _ => Panic
  end.

(* L578-592 Executor::state *)
Definition state_result (po2 : Z) (e : Executor) : outcome ExecutionError ExecutorResult :=
  match fst (Pager.image_from (Pager.image (pager e)) tt) with
  | Ok post_image =>
      Ok (mkResult (segment_counter e + 1) (initial_image e) post_image (user (cycles e)) (total (cycles e)) (paging (cycles e))
            (reserved (cycles e)) (ecall_metrics e) (output_digest e) (terminate_state e) po2)
  | _ => Panic
  end.

(* L626-636 Executor::reset *)
Definition reset (e : Executor) : outcome PagerError Executor :=
  match fst (Pager.image_from (Pager.image (pager e)) tt) with
  | Ok image => new_inner image (syscall_handler e) (Some (input_digest e)) (trace e) (tracers e) (povw_job_id e) (circuit_version e)
  | _ => Panic
  end.

Section Run.
Context {C : Type} (callback : SegmentUpdate -> state C error unit).

(** [fuel] segments of at most [fuel] instructions. *)
(* L495-497 Executor::run, the loop *)
Fixpoint run_segments (fuel insns : nat) (limit : ExecutionLimit) : state (Executor * C) ExecutionError bool :=
  match fuel with
  | O => mret false
  | S fuel => fun '(e, c) =>
      match run_segment insns limit e with
      | (Ok (Some (Some update)), e) =>
          match callback update c with
          | (Ok _, c) => run_segments fuel insns limit (e, c)
          | (Err er, c) => (Err (Other (Callback er)), (e, c))
          | (Panic, c) => (Panic, (e, c))
          end
      | (Ok (Some None), e) => (Ok true, (e, c))
      | (Ok None, e) => (Ok false, (e, c))
      | (Err er, e) => (Err er, (e, c))
      | (Panic, e) => (Panic, (e, c))
      end
  end.

(* L490-499 Executor::run *)
Definition run (fuel insns : nat) (limit : ExecutionLimit) : state (Executor * C) ExecutionError (option ExecutorResult) :=
  ended ← run_segments fuel insns limit;
  if (ended : bool) then
    lift (assert_ (segment_po2 limit <=? MAX32));;
    '(e, _) ← get;
    result ← lift (state_result (segment_po2 limit) e);
    mret (Some result)
  else mret None.
End Run.

End Executor.

(** ** Replaying a segment *)

(** Both positions are cells behind a shared reference. *)
(* src/risc0/risc0/circuit/rv32im/src/execute/segment.rs:119-123 SegmentSyscallHandler *)
Record SegmentSyscallHandler := mkHandler { handler_segment : Segment; read_pos : Z; write_pos : Z }.

(** [copy_from_slice] wants the lengths to be equal. *)
(* src/risc0/risc0/circuit/rv32im/src/execute/segment.rs:126-131 SegmentSyscallHandler::host_read *)
Definition segment_host_read {C} (_fd : Z) (buf : list Z) : state (SegmentSyscallHandler * C) error (list Z * Z) := fun '(h, c) =>
  let pos := read_pos h in
  let h := mkHandler (handler_segment h) (pos + 1) (write_pos h) in
  ((record ← unwrap (seg_read_record (handler_segment h) !! Z.to_nat pos);
    _ ← assert_ (length buf =? length record)%nat;
    Ok (record, wrap 32 (Z.of_nat (length record)))), (h, c)).

(* src/risc0/risc0/circuit/rv32im/src/execute/segment.rs:133-136 SegmentSyscallHandler::host_write *)
Definition segment_host_write {C} (_fd : Z) (_buf : list Z) : state (SegmentSyscallHandler * C) error Z := fun '(h, c) =>
  let pos := write_pos h in
  let h := mkHandler (handler_segment h) (read_pos h) (read_pos h + 1) in
  (unwrap (seg_write_record (handler_segment h) !! Z.to_nat pos), (h, c)).

#[export] Instance segment_syscalls : Syscall SegmentSyscallHandler := {|
  sys_host_read := fun C _ => segment_host_read;
  sys_host_write := fun C _ => segment_host_write |}.

(** No callbacks. *)
#[export] Instance no_tracers : TraceCallback unit := { trace_callback _ _ := mret tt }.

(* src/risc0/risc0/circuit/rv32im/src/execute/segment.rs:109-112 Segment::execute, the limits *)
Definition segment_limits (self : Segment) : ExecutionLimit :=
  with_max_insn_cycles 0 (with_soft_session_limit (suspend_cycle self) (with_segment_po2 (po2 self) LIMIT_DEFAULT)).

(* src/risc0/risc0/circuit/rv32im/src/execute/segment.rs:91-116 Segment::execute *)
Definition execute `{ImageHash, BlockRows, Malachite, ByteOrder} (castable castable' : bool) (fuel insns : nat) (self : Segment)
    : outcome ExecutionError (option ExecutorResult) :=
  match new (partial_image self) (mkHandler self 0 0) None [] tt None RV32IM_M3_CIRCUIT_VERSION with
  | Ok e => fst (run castable castable' (fun _ => mret tt) fuel insns (segment_limits self) (e, tt))
  | _ => Panic
  end.

End Exec.
