(* ===== verification/ExecutorSpec.v ===== *)
(** * What a session of the executor amounts to

    Every step of the machine, whatever the guest and the host's handler do, keeps the
    executor's memory ([executor_keeps]).  So the segments of a run form a chain: each
    update, applied to the image of the state before it, gives a segment whose partial
    image has the image id of that state, and the image of the state after it; and the
    claim of the run is from the first of these states to the last. *)
From S2P Require Export Executor PagerKeeps.
From S2P Require BigIntSpec.
From stdpp Require Import sorting.
Import Exec.
Open Scope word_scope.
Open Scope Z_scope.

(** ** Handlers *)

(** What the operations of [SyscallContext] keep, on any arguments. *)
Class ContextKeeps {C : Type} `{SyscallContext C} (P : C -> Prop) : Prop := {
  ck_register idx : keeps P (Host.peek_register idx);
  ck_u32 a : keeps P (Host.peek_u32 a);
  ck_u8 a : keeps P (Host.peek_u8 a);
  ck_region a size : keeps P (Host.peek_region a size);
  ck_read_region a size : keeps P (Host.read_region a size);
  ck_reader castable len r : keeps P (Host.reader_read castable len r);
  ck_page p : keeps P (Host.peek_page p);
}.

(** A handler reaches the executor through these operations only. *)
Class SyscallKeeps (H : Type) `{Syscall H} : Prop := {
  sk_read {C} `{SyscallContext C} (P : C -> Prop) : ContextKeeps P -> forall fd buf, keeps (fun hc => P (snd hc)) (sys_host_read fd buf);
  sk_write {C} `{SyscallContext C} (P : C -> Prop) : ContextKeeps P -> forall fd buf, keeps (fun hc => P (snd hc)) (sys_host_write fd buf);
}.

#[export] Instance segment_syscalls_keep : SyscallKeeps SegmentSyscallHandler.
Proof. split; intros C ? P _ fd buf [h c] Hc; cbn; repeat case_match; simplify_eq; done. Qed.

Section Keeps_.
Context {H T : Type} `{Syscall H, TraceCallback T, ImageHash, BlockRows, Malachite, ByteOrder} `{!SyscallKeeps H}.
Context (castable castable' : bool).
Abbreviation Executor := (Exec.Executor (H := H) (T := T)).
Abbreviation M := (state Executor error).

(** What only the ends of segments change. *)
Definition frame (e : Executor) := (segment_counter e, initial_image e, input_digest e, povw_job_id e, circuit_version e).

(** The memory, with the pages [F] in the image, and the frame. *)
Context (F : Z -> Page) (fr : Z * Image.MemoryImage * Digest * option PovwJobId * Z).
Definition mem_holds (e : Executor) : Prop := holds F (pager e) /\ frame e = fr.

Lemma on_pager_keeps {A} (m : Pager.M A) : keeps (holds F) m -> keeps mem_holds (on_pager m).
Proof. intros Hm e [He Hf]. specialize (Hm (pager e) He). unfold on_pager. destruct (m (pager e)) as [[a|er|] p]; done. Qed.

Lemma on_tracers_keeps {A} (m : state T error A) : keeps mem_holds (on_tracers m).
Proof. intros e He. unfold on_tracers. destruct (m (tracers e)) as [[a|er|] t]; done. Qed.

Lemma inc_cycles_keeps n k e : mem_holds e -> mem_holds (inc_user_cycles n k e).
Proof. intros He. unfold inc_user_cycles. by destruct k. Qed.

#[local] Hint Resolve on_pager_keeps on_tracers_keeps : keeps.
#[local] Hint Resolve load_keeps peek_keeps peek_page_keeps store_keeps store_register_keeps : keeps.

Lemma load_u32_keeps op a : keeps mem_holds (load_u32 op a).
Proof. unfold load_u32. apply on_pager_keeps. destruct op; [apply peek_keeps|apply load_keeps..]. Qed.
Lemma load_register_keeps op base idx : keeps mem_holds (load_register op base idx).
Proof. unfold load_register. apply on_pager_keeps. apply keeps_query. Qed.

Lemma if_tracing_keeps (m : M unit) : keeps mem_holds m -> keeps mem_holds (if_tracing m).
Proof. intros Hm. unfold if_tracing. keeps. Qed.
Lemma trace_event_keeps ev : keeps mem_holds (trace_event ev).
Proof. unfold trace_event. keeps. Qed.
Lemma trace_pager_keeps : keeps mem_holds trace_pager.
Proof. unfold trace_pager. keeps. match goal with He : mem_holds _ |- _ => destruct He as [Hm Hf] end. split; [by apply clear_trace_keeps|done]. Qed.
#[local] Hint Resolve if_tracing_keeps trace_event_keeps trace_pager_keeps : keeps.

Lemma store_u32_keeps a v : keeps mem_holds (store_u32 a v).
Proof. unfold store_u32. keeps. Qed.
Lemma store_register_u32_keeps base idx v : keeps mem_holds (store_register base idx v).
Proof. unfold store_register. keeps. Qed.
#[local] Hint Resolve load_u32_keeps load_register_keeps store_u32_keeps store_register_u32_keeps : keeps.

Lemma exec_resume_keeps : keeps mem_holds resume.
Proof.
  unfold resume. apply keeps_bind; [apply keeps_gets|]. intros ws. generalize 0 as i.
  induction ws as [|w ws IH]; intros i; cbn [store_input]; [apply keeps_ret|]. apply keeps_bind; [apply store_u32_keeps|intros _; apply IH].
Qed.
Lemma on_insn_start_keeps k d : keeps mem_holds (on_insn_start k d).
Proof. unfold on_insn_start. keeps. Qed.
Lemma on_insn_end_keeps k : keeps mem_holds (on_insn_end k).
Proof. unfold on_insn_end. keeps. Qed.
Lemma on_ecall_cycle_keeps c n x y z k : keeps mem_holds (on_ecall_cycle c n x y z k).
Proof. unfold on_ecall_cycle. keeps; first [done | by apply inc_cycles_keeps]. Qed.

(** The context, given its host calls and accelerators. *)
Lemma context_keeps on_terminate host_read host_write ecall_bigint ecall_poseidon2 :
  (forall a0 a1, keeps mem_holds (on_terminate a0 a1)) -> (forall fd len, keeps mem_holds (host_read fd len)) ->
  (forall fd buf, keeps mem_holds (host_write fd buf)) -> keeps mem_holds ecall_bigint -> keeps mem_holds ecall_poseidon2 ->
  CtxKeeps (H := context on_terminate host_read host_write ecall_bigint ecall_poseidon2) mem_holds.
Proof.
  intros. constructor; cbn; intros; first [done | apply load_u32_keeps | apply load_register_keeps | apply store_u32_keeps
    | apply store_register_u32_keeps | apply exec_resume_keeps | apply on_insn_start_keeps | apply on_insn_end_keeps | apply on_ecall_cycle_keeps
    | by apply inc_cycles_keeps | by apply keeps_ret | auto].
Qed.

#[local] Existing Instance base_context.
#[local] Instance base_keeps : CtxKeeps mem_holds := context_keeps _ _ _ _ _ (fun _ _ => keeps_panic _) (fun _ _ => keeps_panic _)
  (fun _ _ => keeps_panic _) (keeps_panic _) (keeps_panic _).

Lemma on_terminate_keeps a0 a1 : keeps mem_holds (on_terminate castable a0 a1).
Proof.
  unfold on_terminate. apply keeps_bind; [by apply keeps_modify|intros _]. apply keeps_bind; [apply load_region_keeps|intros r].
  apply keeps_bind; [apply keeps_lift|intros d]. apply keeps_bind; [by apply keeps_modify|intros _]. by apply keeps_modify.
Qed.
Lemma exec_bigint_keeps : keeps mem_holds (ecall_bigint castable castable').
Proof.
  unfold ecall_bigint. apply keeps_bind; [apply ecall_execute_keeps|intros n]. apply keeps_bind; [by apply keeps_modify|intros _].
  apply keeps_modify. intros. by apply inc_cycles_keeps.
Qed.
Lemma exec_poseidon2_keeps : keeps mem_holds ecall_poseidon2.
Proof.
  unfold ecall_poseidon2. apply keeps_bind; [apply p2_load_ecall_keeps|intros p]. apply keeps_bind; [by apply keeps_modify|intros _].
  apply keeps_bind; [apply rest_with_mix_keeps|intros; apply keeps_ret]. intros l. unfold p2_mix.
  apply keeps_bind; [|intros; apply keeps_ret]. apply keeps_modify. intros. by apply inc_cycles_keeps.
Qed.

(** ** The handler *)

#[local] Instance syscalls : SyscallContext Executor := executor_syscalls castable.
#[local] Instance executor_context_keeps : ContextKeeps mem_holds.
Proof.
  constructor; unfold syscalls, executor_syscalls;
    cbn [Host.peek_register Host.peek_u32 Host.peek_u8 Host.peek_region Host.read_region Host.reader_read Host.peek_page]; intros.
  - unfold peek_register. destruct (_ <=? _); [apply keeps_throw|apply load_register_keeps].
  - apply load_u32_keeps.
  - apply load_u8_keeps.
  - apply load_region_keeps.
  - unfold read_region. apply keeps_bind; [apply keeps_lift|intros; apply keeps_ret].
  - unfold read. destruct r as [pos e]. cbv zeta. apply keeps_bind; [apply reader_read_keeps|intros; apply keeps_ret].
  - apply on_pager_keeps, peek_page_keeps.
Qed.

Lemma on_handler_keeps {A} (m : state (H * Executor) error A) : keeps (fun hc => mem_holds (snd hc)) m -> keeps mem_holds (on_handler m).
Proof.
  intros Hm e He. specialize (Hm (syscall_handler e, e) He). unfold on_handler. destruct (m (syscall_handler e, e)) as [[a|er|] [h e']]; done.
Qed.

Lemma host_read_keeps fd len : keeps mem_holds (host_read castable fd len).
Proof.
  unfold host_read. apply keeps_bind; [apply on_handler_keeps, sk_read, _|]. intros [buf rlen].
  apply keeps_bind; [apply keeps_lift|intros _]. apply keeps_bind; [by apply keeps_modify|intros; apply keeps_ret].
Qed.
Lemma host_write_keeps fd buf : keeps mem_holds (host_write castable fd buf).
Proof.
  unfold host_write. apply keeps_bind; [apply on_handler_keeps, sk_write, _|]. intros rlen.
  apply keeps_bind; [by apply keeps_modify|intros; apply keeps_ret].
Qed.

#[local] Instance executor_keeps : CtxKeeps (H := executor_context castable castable') mem_holds.
Proof.
  apply context_keeps; intros; [apply on_terminate_keeps|apply host_read_keeps|apply host_write_keeps|apply exec_bigint_keeps|apply exec_poseidon2_keeps].
Qed.

(** ** The loop *)

#[local] Remove Hints base_context : typeclass_instances.
#[local] Instance full_context : Risc0Context Executor := executor_context castable castable'.

Abbreviation X := (state Executor ExecutionError).

Lemma from_context_keeps {A} (m : M A) : keeps mem_holds m -> keeps mem_holds (from_context m).
Proof. intros Hm e He. specialize (Hm e He). unfold from_context. destruct (m e) as [[a|er|] e']; done. Qed.

(** The loop keeps the memory up to its end or a panic, unless a step fails: then the
    pages are committed for the report. *)
Lemma run_loop_holds fuel limit : forall e e', mem_holds e -> run_loop castable castable' fuel limit e = (Ok true, e') -> mem_holds e'.
Proof.
  induction fuel as [|fuel IH]; intros e e' He E; cbn [run_loop] in E; [done|].
  rewrite run_gets in E. destruct (check_limits limit e); [by injection E as <-|done|].
  unfold run_step in E. unfold mbind at 1, state_bind at 1 in E.
  pose proof (step_keeps castable e He) as Hk. destruct (Machine.step castable e) as [[[]|er|] e1].
  - exact (IH (set_insn_counter (fun c => c +32 1) e1) e' Hk E).
  - unfold dump_segment in E. revert E. unfold mbind, state_bind. destruct (commit e1) as [[im|er'|] e2]; done.
  - done.
Qed.

End Keeps_.

Section Images.
Context `{ImageHash}.

(** ** What an update says *)

Implicit Types G : Z -> Page.

(** An update from the pages [G] to the pages [G']: on any image of [G] it gives a
    segment whose partial image holds the pages that the segment accessed and has the
    image id of the whole of [G]; and the image of [G'].  Pages that were not accessed
    are the same. *)
Definition updates (G : Z -> Page) (u : SegmentUpdate) (G' : Z -> Page) : Prop :=
  pages_wf G' /\
  (forall p, is_page p -> 4194304 + p ∉ access_page_indexes u -> G' p = G p) /\
  forall im, img_ok im G -> exists seg im',
    apply_into_segment u im = (Ok seg, im') /\ img_ok im' G' /\ seg = into_segment u (partial_image seg) /\
    (forall p, is_page p -> 4194304 + p ∈ access_page_indexes u -> Image.get_page p (partial_image seg) = Ok (G p)) /\
    exists pim, Image.image_id (partial_image seg) = (Ok (node_digest G 1), pim).

(** Setting pages one after the other. *)
Definition patch (partial : Pager.WorkingImage) (G : Z -> Page) (l : list Z) : Z -> Page :=
  foldl (fun G p => upd G p (default Image.page_default (partial !! p))) G l.

Lemma patch_at partial l : forall G p, patch partial G l p = if decide (p ∈ l) then default Image.page_default (partial !! p) else G p.
Proof.
  induction l as [|q l IH]; intros G p; cbn [patch foldl]; [done|]. change (foldl _ _ l) with (patch partial (upd G q (default Image.page_default (partial !! q))) l).
  rewrite IH. unfold upd. destruct (decide (p ∈ l)) as [Hin|Hin].
  - by rewrite decide_True by by right.
  - destruct (decide (p = q)) as [->|Hne]; [by rewrite decide_True by by left|]. rewrite decide_False; [done|]. by intros [?|?]%elem_of_cons.
Qed.

Lemma set_pages_run partial l : forall G im, img_ok im G -> Forall is_page l ->
  exists im', Image.run_all (fun p => Image.set_page p (default Image.page_default (partial !! p))) l im = (Ok tt, im') /\ img_ok im' (patch partial G l).
Proof.
  induction l as [|p l IH]; intros G im Him Hl; cbn [Image.run_all patch foldl]; [by exists im|].
  apply Forall_cons in Hl as [Hp Hl]. destruct (set_page_run im G p (default Image.page_default (partial !! p)) Him Hp) as (im1 & E1 & Him1).
  rewrite (run_bind _ _ _ _ _ E1). by apply IH.
Qed.

(** Images only have pages. *)
Lemma node_digest_pages G G' : (forall p, is_page p -> G p = G' p) -> forall i, is_node i -> node_digest G i = node_digest G' i.
Proof.
  intros HG. apply node_ind.
  - intros i Hi. rewrite !node_digest_leaf by done. f_equal. apply HG. rewrite pages_val. unfold is_page. lia.
  - intros i Hi IH1 IH2. by rewrite !(node_digest_inner _ i), IH1, IH2 by done.
Qed.

Lemma img_ok_ext im G G' : (forall p, is_page p -> G p = G' p) -> img_ok im G -> img_ok im G'.
Proof.
  intros HG Him. pose proof (ok_full _ _ Him) as Hf. pose proof (full_wf _ _ _ _ Hf) as Hw.
  pose proof (node_digest_pages G G' HG) as Hd. constructor; [|intros p Hp; rewrite <- HG by done; by apply (ok_pages _ _ Him)].
  constructor; [constructor|..]; try apply Hw.
  - intros i Hi Hge. rewrite <- Hd by by apply (wf_nodes _ _ _ _ Hw). by apply (wf_leaf _ _ _ _ Hw).
  - intros i d Hi E. rewrite <- Hd by (apply (full_nodes _ _ _ _ Hf); by rewrite E). by apply (wf_clean _ _ _ _ Hw).
  - intros i Hi Hlt. pose proof (wf_nodes _ _ _ _ Hw i Hi) as Hn. unfold is_node in Hn. rewrite <- !Hd by (unfold is_node; lia). by apply (wf_inner _ _ _ _ Hw).
  - intros i Hi Hn E Hu. rewrite <- Hd by done. by apply (wf_zero _ _ _ _ Hw).
  - apply (full_nodes _ _ _ _ Hf).
  - intros i Hi Hn E. rewrite <- Hd by done. by apply (full_zero _ _ _ _ Hf).
  - intros i c Hi Hn Hs Hc Ec. rewrite <- Hd by (unfold is_node; lia). by apply (full_known _ _ _ _ Hf i c).
Qed.

Lemma sorted_in (s : gset Z) p : p ∈ Pager.sorted s <-> p ∈ s.
Proof. unfold Pager.sorted. by rewrite merge_sort_Permutation, elem_of_elements. Qed.

(** The update of a committed memory. *)
Lemma commit_updates G m partial m' u : holds G m -> Pager.commit m = (Ok partial, m') ->
  update_partial_image u = partial -> access_page_indexes u = Pager.page_indexes m' -> updates G u (vpages m).
Proof.
  intros Hm E Eu Ea. destruct (commit_holds G m Hm) as (partial1 & m1 & E1 & _ & _ & Hwf & _ & Hcl & Hroot & Hp & Hn).
  rewrite E in E1. injection E1 as <- <-.
  assert (Hclean : forall p, is_page p -> 4194304 + p ∉ access_page_indexes u -> vpages m p = G p).
  { intros p Hpp Ha. apply Hn; [done|]. destruct (partial !! p) as [pg|] eqn:Ep; [|done]. exfalso. apply Ha. rewrite Ea. by apply (Hp p pg). }
  split; [done|]. split; [done|]. intros im Him.
  destruct (partial_image_sound G (Pager.page_indexes m') im Hcl Hroot Him) as (pim & im1 & Ep & Him1 & Hpages & pim' & Eid).
  assert (Hl : Forall is_page (Pager.sorted (dom partial))).
  { apply Forall_forall. intros p Hin. apply sorted_in, elem_of_dom in Hin as [pg Hpg]. by apply (Hp p pg). }
  destruct (set_pages_run partial (Pager.sorted (dom partial)) G im1 Him1 Hl) as (im2 & E2 & Him2).
  exists (into_segment u pim), im2. split; [|split; [|split; [done|split]]].
  - unfold apply_into_segment, compute_partial_image, apply_to. rewrite Ea, Eu. rewrite (run_bind _ _ _ _ _ Ep), (run_bind _ _ _ _ _ E2). done.
  - eapply img_ok_ext; [|exact Him2]. intros p Hpp. rewrite patch_at. destruct (decide _) as [Hin|Hin].
    + apply sorted_in, elem_of_dom in Hin as [pg Hpg]. unfold Pager.WorkingImage in *. rewrite Hpg. cbn. by apply (Hp p pg).
    + unfold Pager.WorkingImage in *. rewrite sorted_in, not_elem_of_dom in Hin. symmetry. by apply Hn.
  - intros p Hpp Hin. rewrite Ea in Hin. by apply Hpages.
  - exists pim'. exact Eid.
Qed.

End Images.

Section Session.
Context {H T : Type} `{Syscall H, TraceCallback T, ImageHash, BlockRows, Malachite, ByteOrder} `{!SyscallKeeps H}.
Context (castable castable' : bool).
Abbreviation Executor := (Exec.Executor (H := H) (T := T)).
Implicit Types G : Z -> Page.

(** What a split does: the update, the next segment's start, and the counters. *)
Lemma split_segment_run G (e : Executor) po2 thr : holds G (pager e) -> 0 <= segment_counter e < MAX32 ->
  exists u (e' : Executor), split_segment po2 thr e = (Ok u, e') /\
    updates G u (vpages (pager e)) /\ holds (vpages (pager e)) (pager e') /\ index u = segment_counter e /\
    frame e' = (segment_counter e + 1, initial_image e, input_digest e, povw_job_id e, circuit_version e) /\
    upd_po2 u = wrap 32 po2 /\ upd_user_cycles u = user_cycles e /\ upd_terminate_state u = terminate_state e /\
    upd_read_record u = read_record e /\ upd_write_record u = write_record e /\ upd_povw_nonce u = povw_nonce (segment_counter e) e /\
    user_cycles e' = 0 /\ insn_counter e' = 0 /\ read_record e' = [] /\ write_record e' = [] /\ terminate_state e' = terminate_state e.
Proof.
  intros He Hc. destruct (commit_holds G (pager e) He) as (partial & m' & E & Hh & _).
  unfold split_segment. assert (Ec : commit e = (Ok partial, set_pager (fun _ => m') e)) by (unfold commit; by rewrite E).
  rewrite (run_bind _ _ _ _ _ Ec), run_gets, !run_modify, run_gets.
  cbn [segment_counter set_pager set_read_record set_write_record]. replace (MAX32 <=? segment_counter e) with false by lia.
  rewrite !run_modify. eexists _, _. split; [reflexivity|]. split; [by eapply commit_updates|]. split; [exact Hh|]. repeat split.
Qed.

Lemma split_overflow (e : Executor) po2 thr u e' : MAX32 <= segment_counter e -> split_segment po2 thr e <> (Ok u, e').
Proof.
  intros Hge E. unfold split_segment in E. apply bind_inv in E as (x & e5 & E5 & E). rewrite run_gets, !run_modify, run_gets in E.
  unfold commit in E5. destruct (Pager.commit (pager e)) as [[im|er|] p]; simplify_eq.
  cbn [segment_counter set_pager set_read_record set_write_record] in E. by replace (MAX32 <=? segment_counter e) with true in E by lia.
Qed.

(** A segment that ends: its update, and the start of the next. *)
Lemma run_segment_run fuel limit G (e e' : Executor) r : holds G (pager e) -> 0 <= segment_counter e ->
  run_segment castable castable' fuel limit e = (Ok (Some r), e') ->
  match r with
  | None => e' = e
  | Some u => exists G', updates G u G' /\ holds G' (pager e') /\ index u = segment_counter e /\
      frame e' = (segment_counter e + 1, initial_image e, input_digest e, povw_job_id e, circuit_version e)
  end.
Proof.
  intros He Hc E. unfold run_segment in E. rewrite run_gets in E. destruct (no_segment limit e); [by injection E as <- <-|].
  pose proof (executor_keeps castable castable' G (frame e)) as Hk.
  assert (He0 : mem_holds G (frame e) e) by done.
  assert (Hf : forall m a (s s' : Executor), keeps (mem_holds G (frame e)) m -> mem_holds G (frame e) s ->
    from_context (A := unit) m s = (Ok a, s') -> mem_holds G (frame e) s').
  { intros m a s s' Hm. by apply keeps_ok, from_context_keeps. }
  apply bind_inv in E as ([] & e1 & E1 & E). pose proof (Hf _ _ _ _ resume_keeps He0 E1) as He1.
  apply bind_inv in E as (ended & e2 & E2 & E). destruct ended; [|done].
  pose proof (run_loop_holds castable castable' G (frame e) fuel limit e1 e2 He1 E2) as He2.
  apply bind_inv in E as (u & e4 & E3 & E). injection E as <- <-.
  unfold finish_segment in E3. apply bind_inv in E3 as ([] & e3 & E3 & E4). destruct (Hf _ _ _ _ suspend_keeps He2 E3) as [He3 Hfr].
  rewrite run_gets in E4. cbv zeta in E4. unfold frame in Hfr. injection Hfr as Ec Ei Ed Ej Ev.
  destruct (Z.le_gt_cases MAX32 (segment_counter e3)) as [Hge|Hlt]; [by eapply split_overflow in E4|].
  match type of E4 with split_segment ?po2 ?thr _ = _ =>
    destruct (split_segment_run G e3 po2 thr He3 ltac:(lia)) as (u' & e' & E & Hu & Hh & Hix & Hfr & _) end.
  rewrite E in E4. injection E4 as <- <-. exists (vpages (pager e3)). split; [done|]. split; [done|]. split; [by rewrite Hix|].
  by rewrite Hfr, Ec, Ei, Ed, Ej, Ev.
Qed.

(** ** The segments of a run *)

(** The callback that records the updates. *)
Definition collect (u : SegmentUpdate) : state (list SegmentUpdate) error unit := modify (.++ [u]).

(** Updates numbered from [i] on that lead from the pages [G] to the pages [G']. *)
Inductive chain : Z -> (Z -> Page) -> list SegmentUpdate -> (Z -> Page) -> Prop :=
  | chain_nil i G : chain i G [] G
  | chain_cons i G u G1 us G' : index u = i -> updates G u G1 -> chain (i + 1) G1 us G' -> chain i G (u :: us) G'.

Lemma chain_wf i G us G' : chain i G us G' -> pages_wf G -> pages_wf G'.
Proof. induction 1 as [|i G u G1 us G' _ Hu _ IH]; [done|]. intros _. apply IH, Hu. Qed.

Lemma run_segments_chain insns limit fuel : forall G (e e' : Executor) us us', holds G (pager e) -> 0 <= segment_counter e ->
  run_segments castable castable' collect fuel insns limit (e, us) = (Ok true, (e', us')) ->
  exists new G', us' = us ++ new /\ chain (segment_counter e) G new G' /\ holds G' (pager e') /\
    frame e' = (segment_counter e + Z.of_nat (length new), initial_image e, input_digest e, povw_job_id e, circuit_version e).
Proof.
  induction fuel as [|fuel IH]; intros G e e' us us' He Hc E; cbn [run_segments] in E; [done|].
  destruct (run_segment castable castable' insns limit e) as [[[[u|]|]|er|] e1] eqn:E1; try done.
  - destruct (run_segment_run insns limit G e e1 (Some u) He Hc E1) as (G1 & Hu & He1 & Hix & Hf). unfold collect, modify in E. 
    unfold frame in Hf. injection Hf as Ec Ei Ed Ej Ev.
    destruct (IH G1 e1 e' _ us' He1 ltac:(lia) E) as (new & G' & -> & Hch & He' & Hf'). exists (u :: new), G'.
    split; [by rewrite <- app_assoc|]. split; [|split; [done|]].
    + econstructor; [done..|]. by rewrite <- Ec.
    + rewrite Hf', Ec, Ei, Ed, Ej, Ev. cbn [length]. do 4 f_equal. lia.
  - injection E as <- <-. pose proof (run_segment_run insns limit G e e1 None He Hc E1) as ->. exists [], G.
    rewrite app_nil_r. split; [done|]. split; [constructor|]. split; [done|]. unfold frame. cbn [length]. do 4 f_equal. lia.
Qed.

Lemma image_from_run G (im : Pager.WorkingImage) : (forall p pg, im !! p = Some pg -> is_page p) ->
  (forall p, is_page p -> default Image.page_default (im !! p) = G p) -> exists m, fst (Pager.image_from im tt) = Ok m /\ img_ok m G.
Proof.
  intros Hp HG. unfold Pager.image_from. assert (Hl : Forall is_page (Pager.sorted (dom im))).
  { apply Forall_forall. intros p Hin. apply sorted_in, elem_of_dom in Hin as [pg Hpg]. by apply (Hp p pg). }
  destruct (set_pages_run im (Pager.sorted (dom im)) _ _ image_default_ok Hl) as (m & E & Hm). exists m. rewrite E. split; [done|].
  eapply img_ok_ext; [|exact Hm]. intros p Hpp. rewrite patch_at, <- HG by done. destruct (decide _) as [Hin|Hin]; [done|].
  unfold Pager.WorkingImage in *. rewrite sorted_in, not_elem_of_dom in Hin. by rewrite Hin.
Qed.

Lemma new_run im G h dg tr t job ver : img_ok im G -> pages_wf G -> (forall p pg, Image.into_pages im !! p = Some pg -> is_page p) ->
  exists e : Executor, new im h dg tr t job ver = Ok e /\ holds G (pager e) /\
    frame e = (0, im, default Merkle.ZERO dg, job, ver).
Proof.
  intros Him HG Ho. unfold new, new_inner. destruct (paged_new_run im G (match tr with [] => false | _ => true end) Him HG) as (m & E & Hm & Hc & Hv).
  rewrite E. eexists. split; [reflexivity|]. split; [|done]. split; [by apply inv_winv|]. split.
  - intros p Hp. rewrite <- Hv by done. by apply Hc.
  - unfold Pager.paged_new in E. destruct (Image.get_page _ im); [|done..]. injection E as <-. exact Ho.
Qed.

(** C32: Every step of the machine, on any instruction, trap, host call or accelerator,
    with any words and addresses that the guest computes and any host handler that
    reaches the executor through [SyscallContext], keeps the paged memory well formed
    over the pages of the start of the segment, and leaves alone what only the ends of
    segments change (segment counter, initial image, input digest, job, version).  *)
Theorem executor_step_keeps_memory G (e e' : Executor) o :
  holds G (pager e) -> Machine.step (H := executor_context castable castable') castable e = (o, e') -> o <> Panic ->
  holds G (pager e') /\ frame e' = frame e.
Proof.
  intros He E Ho. pose proof (executor_keeps castable castable' G (frame e)) as Hk.
  pose proof (step_keeps (H := executor_context castable castable') castable e (conj He eq_refl : mem_holds G (frame e) e)) as Hs. rewrite E in Hs. by destruct o.
Qed.

Lemma run_inv {C} (cb : SegmentUpdate -> state C error unit) fuel insns limit (e e' : Executor) c c' result :
  run castable castable' cb fuel insns limit (e, c) = (Ok (Some result), (e', c')) ->
  run_segments castable castable' cb fuel insns limit (e, c) = (Ok true, (e', c')) /\ state_result (segment_po2 limit) e' = Ok result.
Proof.
  intros E. unfold run in E. apply bind_inv in E as ([|] & [e1 c1] & E1 & E); [|done].
  apply bind_inv in E as (x & s1 & E2 & E). unfold lift in E2. injection E2 as Ea Es. subst s1.
  apply bind_inv in E as ([e2 c2] & s2 & E2 & E). unfold get in E2. injection E2 as -> -> <-.
  apply bind_inv in E as (r & s3 & E2 & E). unfold lift in E2. unfold mret, state_ret in E. by simplify_eq.
Qed.

(** C2: A session is a chain of segments.  When [run] on a complete image of the pages [G]
    returns, the updates that its callback received are numbered from 0 and lead from
    [G] to the pages of the final image: each, applied to any image of the pages before
    it, yields a segment whose partial image has the Merkle root of those pages as image
    id and holds every page that the segment accessed, and an image of the pages after
    it.  The claim of the result goes from the root of [G] to the root of the final
    pages; the segments that it reports are one more than there are. *)
Theorem session_is_chain G im h dg tr t job ver fuel insns limit (e e' : Executor) us result :
  img_ok im G -> pages_wf G -> (forall p pg, Image.into_pages im !! p = Some pg -> is_page p) ->
  new im h dg tr t job ver = Ok e ->
  run castable castable' collect fuel insns limit (e, []) = (Ok (Some result), (e', us)) ->
  exists G', chain 0 G us G' /\ pages_wf G' /\ pre_image result = im /\ img_ok (post_image result) G' /\
    segments result = Z.of_nat (length us) + 1 /\
    exists c, claim result = Ok c /\ Seal.pre_state c = dig G 22 1 /\ Seal.post_state c = dig G' 22 1.
Proof.
  intros Him HG Ho En E. destruct (new_run im G h dg tr t job ver Him HG Ho) as (e0 & En' & He & Hf). rewrite En in En'. injection En' as <-.
  unfold frame in Hf. injection Hf as Ec Ei Ed Ej Ev. apply run_inv in E as [E1 E2].
  destruct (run_segments_chain insns limit fuel G e e' [] us He ltac:(rewrite Ec; done) E1) as (new & G' & -> & Hch & He1 & Hf).
  rewrite Ec in *. unfold frame in Hf. injection Hf as Ec1 Ei1 _ _ _.
  destruct He1 as (_ & Hp & Hom). destruct (image_from_run G' (Pager.image (pager e')) Hom Hp) as (m & Em & Hm).
  unfold state_result in E2. rewrite Em in E2. injection E2 as <-. cbn [pre_image post_image segments app].
  exists G'. split; [done|]. split; [by eapply chain_wf|]. split; [congruence|]. split; [done|]. split; [lia|].
  destruct (image_id_run _ _ Him) as (m1 & E1' & _). destruct (image_id_run _ _ Hm) as (m2 & E2' & _).
  unfold claim. cbn [pre_image post_image]. rewrite Ei1, Ei, E1', E2'. eexists. split; [reflexivity|]. done.
Qed.
End Session.

(** ** A run *)

(** One row of points per block, and hashes that forget: the run does not depend on them. *)
#[local] Instance unit_rows : BlockRows := { COUNT := 1; count_per_row _ := 5040 }.
#[local] Instance toy_hash : ImageHash := { page_digest _ := Merkle.ZERO; pair_digest _ _ := Merkle.ZERO }.
#[local] Existing Instance BigIntSpec.malachite_Z.
#[local] Existing Instance BigIntSpec.byteorder_Z.

(** The image resumes in user mode at 0x10000 (the word at [SUSPEND_PC_ADDR]), where
    [addi x0, x0, 0] is. *)
Definition nop_image0 : Image.MemoryImage := snd (Image.set_word 1073725572 0x10000 Image.image_default).
Definition nop_image : Image.MemoryImage := snd (Image.set_word 16384 0x13 nop_image0).
Definition nop_limit : ExecutionLimit := with_soft_session_limit 1 LIMIT_DEFAULT.
Definition nop_handler : SegmentSyscallHandler :=
  mkHandler (mkSegment nop_image [] [] Merkle.ZERO None None 0 0 0 0 0 None 0 Blocks.blocks_default) 0 0.

Definition nop_executor : outcome PagerError (Executor (T := unit)) := new nop_image nop_handler None [] tt None 0.
Definition nop_run := match nop_executor with Ok e => Some (run false false collect 2 2 nop_limit (e, [])) | _ => None end.

Lemma nop_image_ok : exists G, img_ok nop_image G /\ pages_wf G /\ forall p pg, Image.into_pages nop_image !! p = Some pg -> is_page p.
Proof.
  pose proof (@image_default_ok toy_hash) as Hi; pose proof zero_pages_wf as Hw.
  destruct (@set_word_run toy_hash _ _ 1073725572 0x10000 Hi Hw ltac:(lia) ltac:(unfold fits; lia)) as (m1 & F1 & E1 & Hi1 & Hw1 & _).
  destruct (@set_word_run toy_hash m1 F1 16384 0x13 Hi1 Hw1 ltac:(lia) ltac:(unfold fits; lia)) as (m2 & F2 & E2 & Hi2 & Hw2 & _).
  assert (Em : nop_image = m2) by (unfold nop_image, nop_image0; rewrite E1; cbn [snd]; by rewrite E2).
  exists F2. split; [by rewrite Em|]. split; [done|].
  assert (E : bool_decide (map_Forall (fun p (_ : Page) => is_page p) (Image.into_pages nop_image)) = true) by by vm_compute.
  apply bool_decide_eq_true_1 in E. intros p pg Hp. exact (E p pg Hp).
Qed.

Lemma session_is_chain_witness : exists G us result e e', nop_run = Some (Ok (Some result), (e', us)) /\ nop_executor = Ok e /\
  length us = 1%nat /\ exists G', chain 0 G us G' /\ img_ok (post_image result) G'.
Proof.
  destruct nop_image_ok as (G & Hi & Hw & Ho).
  assert (E : match nop_run with Some (Ok (Some _), (_, us)) => length us = 1%nat | _ => False end) by by vm_compute.
  unfold nop_run in *. destruct nop_executor as [e|er|] eqn:En; [|destruct E..].
  destruct (run false false collect 2 2 nop_limit (e, [])) as [[[result|]|er|] [e' us]] eqn:Er; [|destruct E..].
  pose proof En as En'. unfold nop_executor in En'.
  exists G, us, result, e, e'. split; [reflexivity|]. split; [reflexivity|]. split; [exact E|].
  destruct (session_is_chain false false G nop_image nop_handler None [] tt None 0 2 2 nop_limit e e' us result Hi Hw Ho En' Er)
    as (G' & Hc & _ & _ & Hp & _). exists G'. split; [exact Hc|exact Hp].
Defined.

Lemma nop_step : match nop_executor with Ok e => match fst (Machine.step (H := executor_context false false) false e) with Panic => False | _ => True end | _ => False end.
Proof. vm_compute. exact I. Qed.

Lemma executor_step_keeps_memory_witness : exists G e, nop_executor = Ok e /\ holds G (pager e) /\
  let '(o, e') := Machine.step (H := executor_context false false) false e in o <> Panic /\ holds G (pager e').
Proof.
  destruct nop_image_ok as (G & Hi & Hw & Ho). destruct (new_run nop_image G nop_handler None [] tt None 0 Hi Hw Ho) as (e & En & He & _).
  exists G, e. split; [exact En|]. split; [exact He|]. pose proof nop_step as E. unfold nop_executor in E. rewrite En in E.
  destruct (Machine.step (H := executor_context false false) false e) as [o e'] eqn:Es. cbn [fst] in E.
  assert (Ho' : o <> Panic) by (intros ->; exact E). split; [exact Ho'|].
  apply (executor_step_keeps_memory false false G e e' o He Es Ho').
Defined.
