(* ===== verification/ExecutorIsa.v ===== *)
(** * The executor is a context

    Over a well formed paged memory the executor meets [CtxLaws]: its memory is the
    byte memory behind the cache and the register files.  So the theorems about the
    machine and its accelerators hold of the executor; here the loop of a segment is
    shown to run a user program as the instruction-set reference does, up to where a
    limit stops it. *)
From S2P Require Export ExecutorSpec.
Import Exec Isa(le_load, le_store).
Open Scope word_scope.
Open Scope Z_scope.

(** ** Handlers and tracers that succeed *)

Class TracersOk (T : Type) `{TraceCallback T} : Prop := {
  tracer_ok r event t : exists t', trace_callback r event t = (Ok tt, t') }.

(** A handler that answers every read, without calling more of the executor than [SyscallContext]. *)
Class ReadsOk (H : Type) `{Syscall H} : Prop := {
  reads_ok {C} `{SyscallContext C} (P : C -> Prop) : ContextKeeps P -> forall fd buf h c, P c -> exists buf' rlen h' c',
    sys_host_read fd buf (h, c) = (Ok (buf', rlen), (h', c')) /\ P c' /\ Forall u8 buf' /\ length buf' = length buf /\
    0 <= rlen <= Z.of_nat (length buf) }.

#[export] Instance no_tracers_ok : TracersOk unit.
Proof. constructor. intros r event []. by exists tt. Qed.

(** ** Peeking changes no byte *)

Section Peeks.
Import Pager.

Lemma keeps_same {A} (op : M A) m : (forall m, inv m -> exists o m', op m = (o, m') /\ same m m') -> keeps (same m) op.
Proof.
  intros H m1 Hs. destruct (H m1 (same_inv _ _ Hs)) as (o & m2 & E & Hs2). rewrite E.
  destruct o; [by eapply same_trans..|done].
Qed.

Lemma peek_at_same p m : keeps (same m) (o ← lookup_table p; match o with Some c => cached c | None => image_page p end).
Proof.
  destruct (decide (is_page p)) as [Hp|Hp]; [|by apply panics_keeps, panics_first, lookup_negative].
  apply keeps_same. intros m1 Hm. destruct (peek_page_at m1 p Hm Hp) as (m' & E & Hs). eauto.
Qed.
Lemma peek_page_same p m : keeps (same m) (peek_page p).
Proof. unfold peek_page. destruct (_ || _); [apply keeps_throw|apply peek_at_same]. Qed.
Lemma peek_same a m : keeps (same m) (peek a).
Proof.
  unfold peek. destruct (_ <=? _); [apply keeps_throw|]. apply keeps_bind; [apply keeps_query|].
  intros [w|]; [apply keeps_ret|]. destruct (decide (is_page (WordAddr.page_idx a))) as [Hp|Hp].
  - apply keeps_same. intros m1 Hm. destruct (peek_ram_run m1 a Hm Hp) as (m' & E & Hs). eauto.
  - apply panics_keeps. unfold peek_ram. by apply panics_first, lookup_negative.
Qed.

(** ** Byte memories *)

Lemma same_vmem m m' a : same m m' -> vmem m' a = vmem m a.
Proof. intros Hs. unfold vmem, mem_of. by rewrite (same_vpages _ _ Hs). Qed.

Lemma le_store_at f a n v x : le_store f a n v x = if decide (a <= x < a + Z.of_nat n) then (v / 256 ^ (x - a)) mod 256 else f x.
Proof.
  case_decide as Hx; [|by rewrite le_store_out by lia]. pose proof (le_store_in f a n v (x - a) ltac:(lia)) as E.
  by replace (a + (x - a)) with x in E by lia.
Qed.
End Peeks.

(** ** The executor as a context *)

Section Laws.
Context {H T : Type} `{Syscall H, TraceCallback T, ImageHash, BlockRows, Malachite, ByteOrder} `{!ReadsOk H, !TracersOk T}.
Context (castable castable' : bool).
Abbreviation Executor := (Exec.Executor (H := H) (T := T)).
Abbreviation M := (state Executor error).

(** What the executor holds: program counter, mode, and the bytes behind the pager. *)
Definition exec_sim (e : Executor) (c : cstate) : Prop :=
  inv (pager e) /\ pc e = c_pc c /\ u32 (c_pc c) /\ machine_mode e = c_mode c /\ bytes_wf (c_mem c) /\
  forall a, 0 <= a < 2 ^ 32 -> c_mem c a = vmem (pager e) a.

Definition mapped_word (w : Z) : bool := (0 <=? w) && (w <? 2 ^ 30).

(** A state with the same program counter and mode, and a memory with the same bytes. *)
Definition alike (e e' : Executor) : Prop := same (pager e) (pager e') /\ pc e' = pc e /\ machine_mode e' = machine_mode e.

Lemma alike_sim e e' c : exec_sim e c -> alike e e' -> exec_sim e' c.
Proof.
  intros (Hi & Hp & Hu & Hm & Hb & Hv) (Hs & Hp' & Hm'). split_and!; [apply Hs|congruence|done|congruence|done|].
  intros a Ha. rewrite (same_vmem _ _ _ Hs). by apply Hv.
Qed.

Lemma alike_refl e c : exec_sim e c -> alike e e.
Proof. intros (Hi & _). split; [by apply same_refl|done]. Qed.

Lemma sim_word e c w : exec_sim e c -> mapped_word w = true -> le_load (c_mem c) (4 * w) 4 = le_load (vmem (pager e)) (4 * w) 4.
Proof.
  intros (_ & _ & _ & _ & _ & Hv) Hw. unfold mapped_word in Hw. apply le_load_ext. intros i Hi. apply Hv. lia.
Qed.

Lemma call_all_ok refs event t : exists t', call_all refs event t = (Ok tt, t').
Proof.
  revert t. induction refs as [|r refs IH]; intros t; cbn [call_all]; [by exists t|].
  destruct (tracer_ok r event t) as [t1 E]. rewrite (run_bind _ _ _ _ _ E). apply IH.
Qed.
Lemma trace_events_ok refs events t : exists t', trace_events refs events t = (Ok tt, t').
Proof.
  revert t. induction events as [|ev events IH]; intros t; cbn [trace_events]; [by exists t|].
  destruct (call_all_ok refs (of_page_event ev) t) as [t1 E]. rewrite (run_bind _ _ _ _ _ E). apply IH.
Qed.

Lemma trace_event_run (e : Executor) event : exists t', if_tracing (trace_event event) e = (Ok tt, set_tracers (fun _ => t') e).
Proof.
  unfold if_tracing. rewrite run_gets. destruct (is_tracing e).
  - unfold trace_event. rewrite run_gets. unfold on_tracers. destruct (call_all_ok (trace e) event (tracers e)) as [t' ->]. by exists t'.
  - exists (tracers e). by destruct e.
Qed.

Lemma clear_same m : inv m -> same m (Pager.clear_trace_events m).
Proof.
  intros Hm. constructor; try done. destruct (inv_cache _ Hm) as [ps Hps].
  assert (Hps' : cache_ok (Pager.clear_trace_events m) ps) by (constructor; apply Hps).
  constructor; try apply Hm; try done. by exists ps.
Qed.

Lemma trace_pager_run e c : exec_sim e c -> exists e', if_tracing trace_pager e = (Ok tt, e') /\ exec_sim e' c.
Proof.
  intros He. unfold if_tracing. rewrite run_gets. destruct (is_tracing e); [|by exists e].
  unfold trace_pager. rewrite !run_gets.
  destruct (trace_events_ok (trace e) (Pager.trace_events (pager e)) (tracers e)) as [t' E].
  assert (Et : on_tracers (trace_events (trace e) (Pager.trace_events (pager e))) e = (Ok tt, set_tracers (fun _ => t') e)).
  { unfold on_tracers. by rewrite E. }
  rewrite (run_bind _ _ _ _ _ Et). eexists. split; [reflexivity|]. apply (alike_sim e); [done|]. split; [|done]. apply clear_same, He.
Qed.

(** The word operations of the pager, on the executor. *)
Lemma on_pager_run {A} (m : Pager.M A) (e : Executor) a p : m (pager e) = (Ok a, p) -> on_pager m e = (Ok a, set_pager (fun _ => p) e).
Proof. intros E. unfold on_pager. by rewrite E. Qed.

Lemma load_u32_run e c op w : exec_sim e c -> mapped_word w = true ->
  exists e', load_u32 op w e = (Ok (le_load (c_mem c) (4 * w) 4), e') /\ exec_sim e' c.
Proof.
  intros He Hw. rewrite (sim_word e c w He Hw). unfold mapped_word in Hw.
  assert (Hr : exists m', (match op with Peek => Pager.peek w | _ => Pager.load w end) (pager e) = (Ok (le_load (vmem (pager e)) (4 * w) 4), m') /\ same (pager e) m').
  { destruct op; [apply peek_run|apply paged_load_run..]; try lia; apply He. }
  destruct Hr as (m' & E & Hs). exists (set_pager (fun _ => m') e). split.
  - unfold load_u32. apply on_pager_run. by destruct op.
  - by apply (alike_sim e).
Qed.

Lemma stored_sim e c m' w v : exec_sim e c -> mapped_word w = true -> u32 v -> stored (pager e) m' w v ->
  exec_sim (set_pager (fun _ => m') e) (with_mem c (le_store (c_mem c) (4 * w) 4 v)).
Proof.
  intros (Hi & Hp & Hu & Hm & Hb & Hv) Hw Hvu (Hi' & _ & Hs). split_and!; [done..|by apply le_store_wf|].
  intros a Ha. cbn [c_mem with_mem pager set_pager]. rewrite Hs, !le_store_at by done. case_decide; [done|]. by apply Hv.
Qed.

Lemma store_u32_run e c w v : exec_sim e c -> mapped_word w = true -> u32 v ->
  exists e', store_u32 w v e = (Ok tt, e') /\ exec_sim e' (with_mem c (le_store (c_mem c) (4 * w) 4 v)).
Proof.
  intros He Hw Hv. unfold store_u32. destruct (trace_event_run e (MemorySet (WordAddr.baddr w) (to_be_bytes v))) as [t' Et].
  rewrite (run_bind _ _ _ _ _ Et). set (e1 := set_tracers (fun _ => t') e). assert (He1 : exec_sim e1 c) by exact He.
  unfold mapped_word in Hw. destruct (paged_store_run (pager e1) w v (proj1 He1) ltac:(lia) Hv) as (m' & E & Hs).
  exists (set_pager (fun _ => m') e1). split; [by apply on_pager_run|]. by apply stored_sim.
Qed.

Lemma load_register_sim e c op base idx : exec_sim e c -> reg_file base -> 0 <= idx < REG_MAX -> mapped_word (base + idx) = true ->
  exists e', load_register op base idx e = (Ok (le_load (c_mem c) (4 * (base + idx)) 4), e') /\ exec_sim e' c.
Proof.
  intros He Hb Hi Hw. rewrite (sim_word e c _ He Hw). exists e. split; [|done]. unfold load_register.
  assert (E := load_register_run (pager e) base idx (proj1 He) Hb Hi).
  unfold on_pager. rewrite E. by destruct e.
Qed.

Lemma store_register_sim e c base idx v : exec_sim e c -> reg_file base -> 0 <= idx < REG_MAX -> mapped_word (base + idx) = true -> u32 v ->
  exists e', store_register base idx v e = (Ok tt, e') /\ exec_sim e' (with_mem c (le_store (c_mem c) (4 * (base + idx)) 4 v)).
Proof.
  intros He Hb Hi Hw Hv. unfold store_register.
  destruct (trace_event_run e (MemorySet (WordAddr.baddr (WordAddr.add_usize base idx)) (to_be_bytes v))) as [t' Et].
  rewrite (run_bind _ _ _ _ _ Et). set (e1 := set_tracers (fun _ => t') e). assert (He1 : exec_sim e1 c) by exact He.
  destruct (store_register_run (pager e1) base idx v (proj1 He1) Hb Hi Hv) as (m' & E & Hs).
  exists (set_pager (fun _ => m') e1). split; [by apply on_pager_run|]. by apply stored_sim.
Qed.

Lemma inc_cycles_alike n k e c : exec_sim e c -> exec_sim (inc_user_cycles n k e) c.
Proof. intros He. unfold inc_user_cycles. by destruct k. Qed.

(** *** Host reads *)

Section Host_.
Context (e0 : Executor).
#[local] Existing Instance base_context.

Lemma on_pager_alike {A} (m : Pager.M A) : keeps (same (pager e0)) m -> keeps (alike e0) (on_pager m).
Proof.
  intros Hm e (Hs & Hp & Hmd). specialize (Hm (pager e) Hs). unfold on_pager. destruct (m (pager e)) as [[a|er|] p]; done.
Qed.
Lemma peek_u32_alike w : keeps (alike e0) (load_u32 Peek w).
Proof. apply on_pager_alike, peek_same. Qed.
#[local] Instance peeks_alike : LoadsKeep Peek (alike e0) := { lk_load := peek_u32_alike }.

#[local] Instance host_ctx : SyscallContext Executor := executor_syscalls castable.
#[local] Instance syscalls_alike : ContextKeeps (alike e0).
Proof.
  constructor; unfold host_ctx, executor_syscalls;
    cbn [Host.peek_register Host.peek_u32 Host.peek_u8 Host.peek_region Host.read_region Host.reader_read Host.peek_page]; intros.
  - unfold peek_register. destruct (_ <=? _); [apply keeps_throw|]. unfold load_register. apply on_pager_alike, keeps_query.
  - apply peek_u32_alike.
  - apply load_u8_keeps.
  - apply load_region_keeps.
  - unfold read_region. apply keeps_bind; [apply keeps_lift|intros; apply keeps_ret].
  - unfold read. destruct r as [pos e]. cbv zeta. apply keeps_bind; [apply reader_read_keeps|intros; apply keeps_ret].
  - apply on_pager_alike, peek_page_same.
Qed.

Lemma host_read_alike fd len : 0 <= len -> alike e0 e0 -> exists bytes rlen e', host_read castable fd len e0 = (Ok (bytes, rlen), e') /\ alike e0 e' /\
  Forall u8 bytes /\ Z.of_nat (length bytes) = len /\ 0 <= rlen <= len.
Proof.
  intros Hl He. destruct (reads_ok (alike e0) syscalls_alike fd (replicate (Z.to_nat len) 0) (syscall_handler e0) e0 He)
    as (buf & rlen & h' & e1 & E & He1 & Hu & Hlen & Hr).
  rewrite length_replicate in *. unfold host_read.
  assert (Eh : on_handler (sys_host_read fd (replicate (Z.to_nat len) 0)) e0 = (Ok (buf, rlen), set_syscall_handler (fun _ => h') e1)).
  { unfold on_handler. by rewrite E. }
  rewrite (run_bind _ _ _ _ _ Eh). replace (rlen <=? Z.of_nat (length buf)) with true by lia. cbn [assert_]. rewrite run_lift_Ok, run_modify.
  eexists _, _, _. split; [reflexivity|]. split; [exact He1|]. split; [done|]. lia.
Qed.
End Host_.

(** ** The laws *)

#[export] Instance executor_laws : CtxLaws Executor (H := executor_context castable castable').
Proof.
  refine {| csim := exec_sim : Executor -> cstate -> Prop; c_mapped := mapped_word |}; unfold executor_context, context;
    cbn [Ctx.get_pc Ctx.set_pc Ctx.set_user_pc Ctx.get_machine_mode Ctx.set_machine_mode Ctx.on_insn_start Ctx.on_insn_end Ctx.load_u32
      Ctx.store_u32 Ctx.load_register Ctx.store_register Ctx.trap_rewind Ctx.on_trap_cause Ctx.host_read Ctx.on_ecall_cycle Ctx.on_sha2_cycle
      Ctx.on_poseidon2_cycle Ctx.on_ecall_read_end Ctx.on_user_ecall Ctx.on_trap].
  - intros s c Hs. apply Hs.
  - intros s c Hs. apply Hs.
  - intros s c c' (Hi & Hp & Hu & Hm & Hb & Hv) (Ep & Em & Ec). split_and!; [done|congruence|congruence|congruence| |].
    + intros a. rewrite <- Ec. apply Hb.
    + intros a Ha. rewrite <- Ec. by apply Hv.
  - intros s c Hs. apply Hs.
  - intros s c Hs. apply Hs.
  - intros s c p (Hi & Hp & Hu & Hm & Hb & Hv) Hpu. by split_and!.
  - intros s c md (Hi & Hp & Hu & Hm & Hb & Hv). by split_and!.
  - intros. by apply load_u32_run.
  - intros. by apply store_u32_run.
  - intros. by apply load_register_sim.
  - intros. by apply store_register_sim.
  - intros s c k d Hs. unfold on_insn_start. rewrite run_modify. set (e1 := set_block_tracker _ s).
    assert (He1 : exec_sim e1 c) by exact Hs. unfold get. unfold mbind at 1, state_bind at 1.
    destruct (trace_event_run e1 (InstructionStart (user (cycles e1)) (pc e1) (insn d))) as [t' ->]. eexists. split; [reflexivity|]. exact He1.
  - intros s c k Hs. unfold on_insn_end. rewrite !run_modify. apply trace_pager_run. by apply inc_cycles_alike.
  - intros s c k1 k2 x y z ek Hs. unfold on_ecall_cycle.
    destruct (decide (k1 = MachineEcall)).
    + rewrite !run_modify. by apply trace_pager_run, inc_cycles_alike.
    + rewrite (run_bind (mret tt) _ s tt s eq_refl), run_modify. by apply trace_pager_run, inc_cycles_alike.
  - done.
  - done.
  - intros s c Hs. exact (inc_cycles_alike 1 None s c Hs).
  - done.
  - done.
  - done.
  - intros s c fd len Hs Hl. destruct (host_read_alike s fd len Hl (alike_refl s c Hs)) as (bytes & rlen & e' & E & Ha & Hr).
    exists bytes, rlen, e'. split; [done|]. split; [by apply (alike_sim s)|]. exact Hr.
  - intros s c k st Hs. by apply inc_cycles_alike.
  - intros s c k st Hs. by apply inc_cycles_alike.
Defined.

(** ** User programs *)

Section User.
Context (kmem : Z -> Z).
#[local] Instance exec_ctx : Risc0Context Executor := executor_context castable castable'.

Lemma exec_system_mapped : system_mapped (H0 := executor_laws).
Proof.
  assert (Hm : forall base w, 0 <= base <= 2 ^ 30 - 32 -> 0 <= w < 32 -> mapped_word (base + w) = true) by (intros; unfold mapped_word; lia).
  constructor; change (c_mapped (CtxLaws := executor_laws)) with mapped_word; try reflexivity; intros x Hx;
    (apply Hm; [|unfold Isa.is_reg in Hx; lia]); by vm_compute.
Qed.

Lemma exec_trash_mapped : c_mapped (CtxLaws := executor_laws) (ByteAddr.waddr USER_REGS_ADDR + 64) = true.
Proof. reflexivity. Qed.

#[local] Instance exec_emu : EmuContext Executor error := Machine.emu castable.
#[local] Instance exec_emu_laws : EmuLaws Executor error := user_laws castable (sys_user_regs exec_system_mapped) exec_trash_mapped kmem.

Lemma exec_user_step (e : Executor) m m' : user_sim kmem e m -> isa_step m m' ->
  exists e', Machine.step castable e = (Ok tt, e') /\ user_sim kmem e' m'.
Proof.
  intros He (i & Hr & Hx). pose proof (step_refines e m i He Hr) as Hs. by rewrite Hx in Hs.
Qed.

(** C1: The segment loop runs user programs.  In user mode, along [n] instructions of the
    instruction-set reference, the loop passes through states with the reference's
    registers, program counter and user memory and with the kernel's bytes [kmem]; it
    reaches the [n]-th, with the fuel that is left, or one where a limit of the
    session or of the segment stops it. *)
Theorem executor_runs_isa n fuel limit (e : Executor) m m' :
  user_sim kmem e m -> nsteps isa_step n m m' -> (n <= fuel)%nat ->
  exists k mk ek, (k <= n)%nat /\ nsteps isa_step k m mk /\ user_sim kmem ek mk /\
    run_loop castable castable' fuel limit e = run_loop castable castable' (fuel - k) limit ek /\
    (k = n /\ mk = m' \/ check_limits limit ek <> Step).
Proof.
  intros He Hn. revert fuel e He. induction Hn as [m|n m m1 m' Hs _ IH]; intros fuel e He Hf.
  - exists 0%nat, m, e. split; [lia|]. split; [constructor|]. split; [done|]. split; [by rewrite Nat.sub_0_r|by left].
  - destruct fuel as [|fuel]; [lia|]. destruct (check_limits limit e) eqn:Ed.
    1,2: exists 0%nat, m, e; split; [lia|]; split; [constructor|]; split; [done|]; split; [by rewrite Nat.sub_0_r|right; by rewrite Ed].
    destruct (exec_user_step e m m1 He Hs) as (e1 & E1 & He1). set (e2 := set_insn_counter (fun c => c +32 1) e1).
    destruct (IH fuel e2 He1 ltac:(lia)) as (k & mk & ek & Hk & Hnk & Hek & E & Hor).
    exists (S k), mk, ek. split; [lia|]. split; [by econstructor|]. split; [done|]. split.
    + assert (E1' : Machine.step (H := executor_context castable castable') castable e = (Ok tt, e1)) by exact E1.
      cbn [run_loop]. rewrite run_gets, Ed. assert (Er : run_step castable castable' limit e = (Ok tt, e2)) by (unfold run_step; by rewrite E1').
      rewrite (run_bind _ _ _ _ _ Er). exact E.
    + destruct Hor as [[-> ->]|Hor]; [left; done|by right].
Qed.
End User.
End Laws.

(** ** A concrete user program *)

(** A handler that reads zeros, and a state that is about to execute [addi x0, x0, 0]. *)
#[local] Instance zero_reads : Syscall unit := {|
  sys_host_read C _ _ buf hc := (Ok (map (fun _ => 0) buf, 0), hc);
  sys_host_write C _ _ _ hc := (Ok 0, hc) |}.
#[local] Instance zero_reads_ok : ReadsOk unit.
Proof.
  constructor. intros C ? P _ fd buf h c Hc. exists (map (fun _ => 0) buf), 0, h, c. split; [done|]. split; [done|].
  split; [by apply Forall_fmap, Forall_true|]. rewrite length_map. lia.
Qed.

#[local] Existing Instance BigIntSpec.malachite_Z.
#[local] Existing Instance BigIntSpec.byteorder_Z.
#[local] Existing Instance toy_hash.
#[local] Existing Instance unit_rows.
Abbreviation E := (Exec.Executor (H := unit) (T := unit)).

Lemma nop_user_state : exists e : E, pc e = 0x10000 /\ machine_mode e = 0 /\ terminate_state e = None /\
  inv (pager e) /\ le_load (vmem (pager e)) 0x10000 4 = 0x13 /\ le_load (vmem (pager e)) USER_REGS_ADDR 4 = 0.
Proof.
  pose proof (@image_default_ok toy_hash) as Hi. pose proof zero_pages_wf as Hw.
  destruct (@set_word_run toy_hash _ _ 16384 0x13 Hi Hw ltac:(lia) ltac:(unfold fits; lia)) as (im & G & _ & Him & HG & Hm).
  destruct (@paged_new_run toy_hash im G false Him HG) as (p & Ep & Hp & _ & Hv).
  exists (set_pc (fun _ => 0x10000) (mkExecutor 0 0 0 0 im p None [] [] tt Merkle.ZERO None [] tt cycles_zero (fun _ => mkMetric 0 0) None 0 0 0 Blocks.tracker_default)).
  split; [reflexivity|]. split; [reflexivity|]. split; [reflexivity|]. split; [exact Hp|]. cbn [pager set_pc].
  assert (Hl : forall a, 0 <= a < 2 ^ 32 - 4 -> le_load (vmem p) a 4 = le_load (le_store (mem_of (fun _ => Image.page_default)) (4 * 16384) 4 0x13) a 4).
  { intros a Ha. apply le_load_ext. intros i Hx. rewrite <- Hm. unfold vmem, mem_of. rewrite Hv; [reflexivity|].
    unfold is_page. Z.div_mod_to_equations. lia. }
  split; (rewrite Hl by (unfold USER_REGS_ADDR; lia)).
  - change 0x10000 with (4 * 16384). rewrite le_load_store by (unfold fits; lia). reflexivity.
  - change USER_REGS_ADDR with (4 * 1073725472). rewrite le_load_store by (unfold fits; lia). reflexivity.
Qed.

(** Its view by the reference. *)
Definition view_isa (e : E) : Isa.isa :=
  Isa.mkIsa (pc e) (fun r => le_load (vmem (pager e)) (USER_REGS_ADDR + 4 * r) 4) (vmem (pager e)).

Lemma view_user_sim (e : E) : inv (pager e) -> u32 (pc e) -> machine_mode e = 0 ->
  le_load (vmem (pager e)) USER_REGS_ADDR 4 = 0 -> user_sim (H0 := executor_laws false false) (vmem (pager e)) e (view_isa e).
Proof.
  intros Hi Hp Hm Hx0. pose proof (vmem_wf _ Hi) as Hb. exists (mkC (pc e) 0 (vmem (pager e))).
  split; [clear Hx0; by split_and!|]. split; [|clear Hx0; split_and!; intros; reflexivity].
  split; [exact Hp|]. split; [|split; [exact Hb|exact Hx0]].
  intros r. apply (le_load_u32 (vmem (pager e)) (USER_REGS_ADDR + 4 * r) 4); [exact Hb|lia].
Qed.

Lemma executor_runs_isa_witness : exists (e : E) k mk ek, pc e = 0x10000 /\ (k <= 1)%nat /\
  user_sim (H0 := executor_laws false false) (vmem (pager e)) ek mk /\
  run_loop false false 1 LIMIT_DEFAULT e = run_loop false false (1 - k) LIMIT_DEFAULT ek.
Proof.
  destruct nop_user_state as (e & Ep & Em & _ & Hi & Ew & Ex0). set (kmem := vmem (pager e)).
  assert (Hs : nsteps (isa_step (H0 := exec_emu_laws false false kmem)) 1 (view_isa e) (Isa.with_pc (view_isa e) 0x10004)).
  { eapply nsteps_l; [|apply nsteps_O]. exists (Isa.OPIMM AddI 0 0 0). split.
    - constructor; cbn [Isa.pc view_isa Isa.mem]; rewrite ?Ep; try reflexivity.
      + cbn [Isa.wf]. unfold Isa.is_reg, Isa.is_imm12. lia.
      + unfold word_at. change (4 * (0x10000 / 4)) with 0x10000. rewrite Ew. reflexivity.
      + intros a Ha. discriminate Ha.
    - unfold Isa.exec. cbn [Isa.pc view_isa]. rewrite Ep. reflexivity. }
  destruct (executor_runs_isa false false kmem 1 1 LIMIT_DEFAULT e (view_isa e) _ (view_user_sim e Hi ltac:(rewrite Ep; unfold fits; lia) Em Ex0) Hs ltac:(lia))
    as (k & mk & ek & Hk & _ & Hek & E1 & _).
  exists e, k, mk, ek. split; [exact Ep|]. split; [exact Hk|]. split; [exact Hek|exact E1].
Defined.
